(* ===== verification/_CoqProject ===== *)
-Q . S2P
Prelude.v
PyStr.v
PyFloat.v
PyPath.v
Match.v
PyRe.v
PyVal.v
PyDecimal.v
Encryption.v
Types.v
Merge.v
Totals.v
JsonCodec.v
Reportfile.v
Shift.v
Resources.v
ReportSpec.v
Filtered.v
Serde.v
Carryforward.v
Changes.v
Validation.v
YamlSchema.v
UserYaml.v
PyUrl.v
Config.v
Processing.v
MergeReports.v
Status.v
TorngitDiff.v
CiStatus.v
Pathmap.v
PathFixer.v
ReportBuilder.v
BuilderInv.v
GoCover.v
Lcov.v
LegacyParser.v
TextFormats.v
JsonFormats.v
Xcode.v
Node.v
Xml.v
XmlFormats.v
Cobertura.v
JvmFormats.v
XmlSpec.v
Fixes.v
Effects.v
Flakes.v
TestResults.v
TestAnalytics.v
Accounts.v
Plans.v
Seats.v
SeatsSpec.v
Bots.v
Torngit.v
GithubHttp.v
GithubHttpSpec.v
Github.v
GithubSpec.v
Notifiers.v
StatusNotifier.v
NotifiersSpec.v
CommentNotifier.v
NotifyTask.v
Checks.v
ComparisonProxy.v
Comparison.v
ComparisonSpec.v
UploadAuth.v
UploadQueue.v
UploadTask.v
UploadApi.v
Upload.v
UploadSpec.v
