(* ===== verification/Prelude.v ===== *)
(** * Verification of the core of the Codecov monorepo

    Codecov receives coverage uploads, turns each into a report, merges the
    reports of a commit, compares commits, decides on statuses and notifies the
    provider; it also keeps the results of tests, and counts the seats of
    organizations.  The code that does so is spread over three trees under
    [src/]: the library [libs/shared/shared] (report types, merging,
    serialization, providers, configuration, plans), the worker
    [apps/worker] (upload parsing, processing, notification) and the API
    [apps/codecov-api] (uploads, comparison).  The development models the code as
    pure functions: an object is a record, a method returns the new record, a
    Python exception is the [Err] of the monad [result] defined below.  Code
    that talks to a provider, a cache or the database is a program of [Effects],
    which runs on a world and can fault at any call.

    ** Layout

    Python's own types and standard library:
    - [Prelude]: the error monad, insertion-ordered dictionaries ([odict]),
      monadic folds and traversals, the shared tactics and hints;
    - [PyStr] ([str], [bytes], [datetime]), [PyFloat], [PyDecimal], [PyPath], [PyRe],
      [PyVal], [PyUrl]: binary64 floats, [decimal], [os.path] and [difflib],
      regular expressions (those of the code as terms, those of a configuration as
      text that is parsed), dynamic values, queries of addresses.

    The report, [libs/shared/shared]:
    - [Types] ([reports/types.py], [helpers/numeric.py]), [Merge]
      ([utils/merge.py]), [Totals] ([reports/totals.py], [utils/totals.py],
      [utils/sessions.py], [reports/diff.py]), [Match] ([utils/match.py]);
    - [Reportfile] ([reports/reportfile.py]) and [Shift], the proof that a file
      shifted along a diff is the patched file; [Resources]
      ([reports/resources.py]) and [ReportSpec], what its operations promise;
      [Filtered] ([reports/filtered.py]), [Serde] ([reports/serde.py]),
      [Carryforward] ([reports/carryforward.py]);
    - [Encryption] ([encryption], over the ciphers as a class), [Validation]
      ([validation/helpers.py]) with its specification, and
      [YamlSchema] ([validation/user_schema.py], [cli_schema.py],
      [install.py], [yaml.py]); [UserYaml] ([yaml/user_yaml.py], with the
      readers of [apps/worker/services/yaml]); [Config] ([config], the
      configuration of a site and of its environment);
    - [TorngitDiff] ([torngit/base.py]), [CiStatus] ([torngit/status.py]); [Bots]
      ([bots], [github], [rate_limits]: the installation or token that a provider is
      talked to with); [Torngit] (the adapter and the addresses of GitHub),
      [GithubHttp] and [Github] ([torngit/github.py]: calls with their retries,
      refreshes and fallbacks, and every endpoint) with [GithubHttpSpec] and
      [GithubSpec].

    The worker, [apps/worker]:
    - [Pathmap] ([helpers/pathmap.py]) and [PathFixer]
      ([services/path_fixer]): from the paths of an upload to the files of the
      repository;
    - [LegacyParser] ([services/report/parser]), [Fixes]
      ([services/report/fixes.py]), [ReportBuilder]
      ([services/report/report_builder.py]);
    - the upload formats of [services/report/languages]: [GoCover], [Lcov],
      [TextFormats], [Xcode], [JsonFormats], [Node]; [Xml],
      [XmlFormats], [Cobertura], [JvmFormats]; [BuilderInv] and [XmlSpec] have
      what their proofs share;
    - [Upload] ([services/report/report_processor.py] and [raw_upload_processor.py]): the
      choice of a parser and the processing of an upload; [BuilderInv] and
      [UploadSpec] carry an invariant of the lines from the session through every
      parser to the report of the upload;
    - [UploadTask] ([tasks/upload.py]): from the queue of a commit ([UploadQueue],
      which the API pushes on) to the tasks of its uploads;
    - [Processing] ([services/processing/state.py] with the tasks that use it,
      as a transition system), [MergeReports]
      ([services/processing/merging.py]);
    - [Changes] ([services/comparison/changes.py]), [Status]
      ([services/notification/notifiers/mixins/status.py]), [ComparisonProxy]
      ([services/comparison/__init__.py]);
    - [Effects] ([shared/torngit/exceptions.py] and the programs of the rest);
      [Notifiers] ([services/notification/__init__.py],
      [commit_notifications.py], [notifiers/base.py]), a record of operations
      the service is written against; [StatusNotifier] ([notifiers/status]),
      [CommentNotifier] ([notifiers/comment]) and [Checks] ([notifiers/checks]),
      which make such records; [NotifiersSpec], what they promise; [NotifyTask] ([tasks/notify.py], [services/commit_status.py]);
    - tests: [Flakes] ([services/test_analytics], flaky tests), [TestResults] ([services/test_results.py], [helpers/string.py]),
      [TestAnalytics] ([services/test_analytics/ta_timeseries.py] and the
      finisher).

    Owners and money, [libs/shared/shared] and both applications:
    - [Accounts] (owners, accounts, users), [Plans] ([license],
      [services/license.py], [self_hosted/service.py], [plan/service.py],
      [plan/constants.py]), [Seats] ([services/decoration.py], [seats.py] and
      [activation.py]) with [SeatsSpec].

    The API, [apps/codecov-api]:
    - [UploadAuth] ([codecov_auth/authentication] and the permission of the views of
      uploads): who may upload to a repository;
    - [UploadApi] ([upload/views], [serializers.py], [helpers.py], [throttles.py]):
      commits, reports and uploads, made one by one or together;
    - [Comparison] ([services/comparison.py]): the traversal of two versions of
      a file along their diff, its visitors, segments, file comparisons;
      [ComparisonSpec] is what they promise.

    ** How the parts interact

    A request that has the right to ([UploadAuth]) makes an upload ([UploadApi]) and
    pushes its arguments on the queue of its commit ([UploadQueue]), from which the
    task schedules the processing of each ([UploadTask]).
    An upload is cut into sections ([LegacyParser]); each file of it is given to
    the parser of its format ([Upload]), which makes files and lines through a
    [ReportBuilderSession] ([ReportBuilder]).  The session fixes the paths
    ([PathFixer] over [Pathmap]) and adds lines to a file with
    [ReportFile.append], which merges with [Merge.merge_line] what is already
    there.  The reports of the uploads are merged into the report of the commit
    ([MergeReports] over [Report.merge]) when the shared sets say so
    ([Processing]).  Reports are stored and read back ([Serde]), carried over to
    the next commit ([Carryforward]), filtered ([Filtered]) and compared
    ([Changes], [Status], [Comparison]).  A repository's configuration is
    checked and normalized ([YamlSchema] over [Validation] and [Encryption])
    before the patterns and flags of it are used ([UserYaml], [Match]).

    When the uploads of a commit are merged, the notify task decides whether to
    notify ([NotifyTask], over the statuses of [CiStatus]); the service makes the
    notifiers the configuration names and runs them ([Notifiers]); a status or a
    check computes its verdict ([Status] over [ComparisonProxy]) and sends it,
    the comment is posted or edited, through the adapter of the provider ([Github]
    over [GithubHttp]) with the token that [Bots] finds.  How much of it is shown depends on the
    seats of the author's organization ([Seats] over [Plans]).

    ** Correspondence

    A definition has the name of the function or method it models; the module
    [Report] has the methods of the class [Report], and so on.  A loop body is a
    definition named after the loop, ending in [_step], folded by [foldM].  A
    cache (of totals, of parsed lines, of present sessions) is modelled where it
    decides a result: [Reportfile] shows that filling one changes nothing a
    later operation returns.  Where the code mutates an object that other
    references see, the sharing is part of the model: the lists of the path tree
    ([Pathmap.results_ref]), the segments of a diff ([TorngitDiff]), the local
    variables that survive a loop ([Fixes]), the diff that [Comparison] writes
    its totals into.

    What the repository does not define is a parameter: [OrJson] (the JSON
    library), [Re] and [ReSearch] (the engine for patterns of a configuration),
    [Etree] and [EtreeParser] (the element interface and the parser of [lxml]),
    [PropertyList] ([plistlib]), [Compression] ([zlib]), [Timestring] (dates of
    documents), [Crypto] (the block cipher, the hash and the random source),
    [Requirements] and [Cerberus] (the values the validators ask for and the
    schema engine that calls them), [set_order] (the unspecified order of a
    set) and [cwd] (the working directory).  The classes have instances on
    which the witnesses run ([JsonCodec.codec], [PyRe.python_re],
    [PathFixer.literal_search], [Xml.tree_etree], [Xml.number_dates],
    [Encryption.plain_crypto], and so on).

    ** The theorems

    - Merging: the line type of merged coverage is the best of the two
      ([merge_coverage_type_join]), in any order ([merge_all_order]); a merged
      line has every session and the coverage they imply; appending, merging,
      deleting and renumbering change the lines and sessions they name and no
      other ([append_correct], [file_merge_correct], [report_merge_correct],
      [delete_multiple_sessions_correct]); a merge in two phases is the merge.
    - Uploads: printed uploads, profiles and documents are parsed back
      ([upload_roundtrip], [lcov_section], [go_profile_parse],
      [cobertura_document], [jacoco_document], [fixes_roundtrip]); different
      formats with the same counts give the same report ([json_formats_agree],
      [xml_formats_agree]); an upload of any of the formats gives a report
      whose files and lines are well formed, or an error of a known class, and
      an upload without a file is empty ([process_report_well_formed],
      [process_raw_upload_correct], [process_raw_upload_empty]).
    - Paths: a path that is resolved is one of the repository, and a path of
      the repository is found ([fix_path_names_file], [resolve_path_finds]).
    - The life of a commit: post-processing starts only when every upload is
      accounted for ([trigger_complete]), and after each batch some finisher starts
      it or misses a lock that another holds ([trigger_happens]; the second case
      loses it, [Processing.postprocessing_lost]); a processor that fails for good
      blocks it ([failed_upload_blocks]); merging the uploads is what the sessions
      say, but for the lines of Ruby files, which are replaced by the later upload
      ([merge_one_correct]).
    - Requests: who uploads has the token of the repository or its owner, a signed
      run, or a repository that lets him ([upload_admitted]); a request that is
      answered leaves the rows its body names, an active repository and one element of
      the queue ([upload_coverage_recorded]); the uploads of coverage that the API
      dispatches for a commit are all scheduled, once and in order ([dispatched_uploads_scheduled]), and a run that
      is put off leaves the queue alone ([within_lock_run]).
    - Providers: a call is repeated a bounded number of times, the requests for the
      tokens of fallback installations counted, and ends as the answer
      says ([call_is_bounded], [call_outcome]), falls back to another installation
      when one is rate limited ([rate_limit_falls_back]); a list is read to its last
      page ([list_repos_complete]); the base of a pull is the first of its ancestors outside of it, or GitHub's
      own ([pull_request_base]); the installations that are given are those of the
      owner that suit and can be used ([usable_installations]), and a private
      repository is never read with a public token, but in an enterprise that
      configures one ([private_repository_token]).
    - Storage: what is serialized is read back ([report_roundtrip]).
    - Comparison: shifting along a diff, changed lines, statuses; the traversal
      of a diff pairs every base line with its head line and ends
      ([traverse_aligned]), its visitors report the changed lines
      ([changes_and_lines_correct]), its segments partition them
      ([segments_partition]).
    - Configuration: the translation of a glob to a regular expression accepts
      the paths the glob means ([glob_pattern_correct]); a value that was
      encrypted for a repository is decrypted for it and for no other
      ([divider_roundtrip], [token_roundtrip]).
    - Notifications: every notifier that is enabled runs once, a fault of one
      does not stop the others, and the rows the run leaves are those of a
      replay of the results ([every_notifier_runs]); an informational status is
      never set to anything but success ([informational_never_fails]); a pull
      has at most one comment and the database knows it ([one_comment]); when a
      commit is notified at all ([notify_decision]) and how long it is put off
      ([notify_retry_bounds]); the annotations of a check are the lines of the new
      version that the diff adds and no test covers ([create_annotations_correct]); the diffs that are
      shared by the notifiers are the provider's ([get_diff_transparent]).
    - Seats and plans: activations stay within the license, but for those of the
      users' endpoints, which look at the plan alone ([license_respected]), and within
      the plan ([cloud_seats_respected]), and agree with the decoration
      ([decoration_seats_agree]); a trial starts by itself at most once and ends
      ([trial_once], [expired_trial_ends]).
    - Tests: the runs of a flaky test are counted, and its end is the last thirtieth
      pass in a row ([flakes_counted]); the totals of a comment are those of the
      latest runs of its tests ([comment_totals]).

    ** Bounds and fuel

    Integers are Python's, unbounded; floats and decimals are rounded as IEEE
    754 and the default decimal context say.  Recursion that is not structural
    takes fuel that is always enough: [merge_coverage_fuel] recurs at most once
    through a converted fraction; [next_session_from] looks at one more number
    than there are sessions; [matching_size], [places_from], [partials_from],
    [translate_from] and [parse_alts] shorten a text in every round; the queue is
    emptied in batches of fifty, and [arguments_list] has a round for each element;
    the pages of a provider ([pages_from], [list_pages]) are as many as it gives, and
    the theorems about them hold for every fuel that a list of pages needs; the
    traversal of [Comparison] moves one line in every round, and
    [traverse_aligned] proves its fuel enough; the theorems are about the
    functions with the fuel the definitions give them.

    ** Not modelled

    Input and output: sockets, Redis, object storage, databases and their models
    (Django, SQLAlchemy), metrics, logging, templates and mail, Stripe.  The
    adapters of GitLab and Bitbucket, and the caches of an adapter's answers.  The sections of the full comment
    ([mixins/message]), the links and the chat messages of the other notifiers,
    the construction of a comparison from the database, the other views and the
    GraphQL schema of the API, the validation of a request's body (Django REST
    framework, Cerberus).  Rendering of images.  Code points above 255 in
    text; [Unmodelled] marks the inputs outside the value domain, and no theorem
    concludes that an operation returns it.  Coverage values that are neither
    integers, fractions, booleans nor strings (floats inside a JSON upload).
    The partial lines of Node reports ([next_from_json] with the option
    [enable_partials]).  The JavaScript bundle analyser, which is a binary
    library. *)
From stdpp Require Export base gmap sets list strings sorting.
From Stdlib Require Export ZArith Lia.

(** ** Python exceptions and the error monad

    A Python computation that may raise is a [result]: [Ok] of its value, or
    [Err] of the exception's class.  [Unmodelled] is not a Python exception: it
    marks an input outside the value domain the development models, and no
    theorem concludes that an operation returns it. *)
Inductive exn : Set :=
  | TypeError | ValueError | IndexError | KeyError | AttributeError
  | AssertionError | ZeroDivisionError | OverflowError | StopIteration
  | InvalidOperation | JSONDecodeError | ReError
  | CorruptRawReportError | ReportEmptyError | ReportExpiredException | TimestringInvalid
  | XMLSyntaxError | Invalid | InvalidYamlException | PlainException
  | DoesNotExist | MultipleObjectsReturned | ValidationError | LicenseException | Unauthorized
  | Unmodelled.

#[export] Instance exn_eq_dec : EqDecision exn.
Proof. solve_decision. Defined.

Inductive result (A : Type) : Type :=
  | Ok (a : A)
  | Err (e : exn).
Arguments Ok {A} a.
Arguments Err {A} e.

#[export] Instance result_ret : MRet result := fun _ a => Ok a.
#[export] Instance result_bind : MBind result := fun _ _ f m =>
  match m with Ok a => f a | Err e => Err e end.
#[export] Instance result_fmap : FMap result := fun _ _ f m =>
  match m with Ok a => Ok (f a) | Err e => Err e end.

#[export] Instance result_eq_dec `{EqDecision A} : EqDecision (result A).
Proof. solve_decision. Defined.

Definition is_Ok {A} (r : result A) : bool :=
  match r with Ok _ => true | Err _ => false end.

Lemma filter_filter {A} (p q : A -> bool) l : List.filter p (List.filter q l) = List.filter (fun x => q x && p x) l.
Proof. induction l as [|x l IH]; [done|]. cbn. destruct (q x); cbn; [destruct (p x)|]; by rewrite IH. Qed.

(** A loop body run over a list, left to right, stopping at the first exception. *)
Fixpoint traverse {A B} (f : A -> result B) (l : list A) : result (list B) :=
  match l with
  | [] => Ok []
  | x :: l' => y ← f x; ys ← traverse f l'; Ok (y :: ys)
  end.

Fixpoint foldM {A S} (f : S -> A -> result S) (s : S) (l : list A) : result S :=
  match l with
  | [] => Ok s
  | x :: l' => s' ← f s x; foldM f s' l'
  end.

(** [try: m except Exception: h]. *)
Definition catch {A} (m h : result A) : result A :=
  match m with Err Unmodelled => m | Err _ => h | Ok _ => m end.

(** [enumerate(l, start=i)] *)
Fixpoint enumerate {A} (i : Z) (l : list A) : list (Z * A) :=
  match l with [] => [] | x :: l' => (i, x) :: enumerate (i + 1) l' end.

Lemma bind_Ok {A B} (f : A -> result B) a : (Ok a ≫= f) = f a.
Proof. done. Qed.
Lemma bind_Err {A B} (f : A -> result B) e : (Err e ≫= f) = Err e.
Proof. done. Qed.
Lemma bind_Ok_inv {A B} (m : result A) (f : A -> result B) b :
  (m ≫= f) = Ok b -> exists a, m = Ok a /\ f a = Ok b.
Proof. destruct m; cbn; [eauto | discriminate]. Qed.
Lemma fmap_Ok {A B} (f : A -> B) a : f <$> Ok a = Ok (f a).
Proof. done. Qed.
Lemma fmap_Ok_inv {A B} (f : A -> B) (m : result A) b :
  f <$> m = Ok b -> exists a, m = Ok a /\ b = f a.
Proof. destruct m; cbn; [injection 1 as <-; eauto | discriminate]. Qed.

(** [inv_ok H] turns [H : (m ≫= f) = Ok b] into the successful run of [m] and
    of its continuation, repeatedly. *)
Ltac inv_ok H :=
  lazymatch type of H with
  | (_ ≫= _) = Ok _ =>
      let a := fresh "v" in let H1 := fresh "Hrun" in let H2 := fresh "Hrun" in
      apply bind_Ok_inv in H; destruct H as (a & H1 & H2); cbn beta in H2;
      try inv_ok H1; try inv_ok H2
  | Ok _ = Ok _ => injection H as H
  end.

Create HintDb umbrella.
Create Rewrite HintDb umbrella.
#[export] Hint Rewrite @bind_Ok @bind_Err @fmap_Ok : umbrella.

Lemma traverse_Ok_pure {A B} (f : A -> B) l :
  traverse (fun x => Ok (f x)) l = Ok (f <$> l).
Proof. induction l as [|x l IH]; cbn; [done|]. by rewrite IH. Qed.

Lemma traverse_ext {A B} (f g : A -> result B) l :
  (forall x, x ∈ l -> f x = g x) -> traverse f l = traverse g l.
Proof.
  induction l as [|x l IH]; intros H; cbn; [done|].
  rewrite H by set_solver. rewrite IH by set_solver. done.
Qed.

Lemma traverse_app {A B} (f : A -> result B) l1 l2 :
  traverse f (l1 ++ l2) =
  (ys1 ← traverse f l1; ys2 ← traverse f l2; Ok (ys1 ++ ys2)).
Proof.
  induction l1 as [|x l1 IH]; cbn; [by destruct (traverse f l2)|].
  destruct (f x); cbn; [|done]. rewrite IH.
  destruct (traverse f l1); cbn; [|done]. by destruct (traverse f l2).
Qed.

Lemma traverse_Forall2 {A B} (f : A -> result B) l ys :
  traverse f l = Ok ys <-> Forall2 (fun x y => f x = Ok y) l ys.
Proof.
  split.
  - revert ys; induction l as [|x l IH]; intros ys H; cbn in H.
    + injection H as <-. constructor.
    + destruct (f x) as [y|] eqn:Hx; cbn in H; [|discriminate].
      destruct (traverse f l) as [ys'|] eqn:Hl; cbn in H; [|discriminate].
      injection H as <-. constructor; auto.
  - induction 1 as [|x y l ys Hx Hl IH]; cbn; [done|]. by rewrite Hx, IH.
Qed.

Lemma traverse_length {A B} (f : A -> result B) l ys :
  traverse f l = Ok ys -> length ys = length l.
Proof. rewrite traverse_Forall2. intros H. symmetry. eapply Forall2_length, H. Qed.

Lemma traverse_total {A B} (f : A -> result B) (P : A -> Prop) l :
  (forall x, P x -> exists y, f x = Ok y) -> Forall P l -> exists ys, traverse f l = Ok ys.
Proof.
  intros Hf. induction 1 as [|x l Hx Hl [ys IH]]; cbn; [eauto|].
  destruct (Hf x Hx) as [y ->]. rewrite IH. cbn. eauto.
Qed.

Lemma foldM_app {A S} (f : S -> A -> result S) s l1 l2 :
  foldM f s (l1 ++ l2) = (s' ← foldM f s l1; foldM f s' l2).
Proof.
  revert s; induction l1 as [|x l1 IH]; intros s; cbn; [done|].
  destruct (f s x); cbn; [apply IH | done].
Qed.

(** An invariant every step of a loop preserves holds when the loop ends. *)
Lemma foldM_invariant {A S} (f : S -> A -> result S) (I : S -> Prop) :
  (forall s x s', I s -> f s x = Ok s' -> I s') ->
  forall l s s', I s -> foldM f s l = Ok s' -> I s'.
Proof.
  intros Hstep l. induction l as [|x l IH]; intros s s' Hs H; cbn in H.
  - by injection H as <-.
  - destruct (f s x) as [s1|] eqn:Hx; cbn in H; [|discriminate]. eauto.
Qed.

(** A loop whose every step succeeds from a state satisfying the invariant succeeds. *)
Lemma foldM_total {A S} (f : S -> A -> result S) (I : S -> Prop) (P : A -> Prop) l :
  (forall s x, I s -> P x -> exists s', f s x = Ok s' /\ I s') ->
  Forall P l -> forall s, I s -> exists s', foldM f s l = Ok s' /\ I s'.
Proof.
  intros Hstep. induction 1 as [|x l Hx _ IH]; intros s Hs; cbn; [eauto|].
  destruct (Hstep s x Hs Hx) as (s' & -> & Hs'). cbn. auto.
Qed.

Lemma foldM_fmap {A B S} (f : S -> B -> result S) (g : A -> B) s l :
  foldM f s (g <$> l) = foldM (fun s x => f s (g x)) s l.
Proof. revert s. induction l as [|x l IH]; intros s; cbn; [done|]. destruct (f s (g x)); [apply IH | done]. Qed.

Lemma foldM_ext {A S} (f g : S -> A -> result S) s l :
  (forall s x, x ∈ l -> f s x = g s x) -> foldM f s l = foldM g s l.
Proof.
  revert s. induction l as [|x l IH]; intros s E; cbn; [done|]. rewrite E by left.
  destruct (g s x) as [s'|]; [|done]. apply IH. intros. apply E. by right.
Qed.

(** ** Lists *)
Lemma enumerate_fmap {A B} (f : A -> B) i l :
  enumerate i (f <$> l) = (fun e => (e.1, f e.2)) <$> enumerate i l.
Proof. revert i. induction l as [|x l IH]; intros i; cbn; [done|]. by rewrite IH. Qed.

Lemma enumerate_from {A} i (l : list A) : Forall (fun e => (i <= e.1)%Z) (enumerate i l).
Proof.
  revert i. induction l as [|x l IH]; intros i; cbn; constructor; cbn; [lia|].
  eapply Forall_impl; [apply IH|]. cbn. lia.
Qed.

Lemma enumerate_lookup {A} i (l : list A) n x :
  (n, x) ∈ enumerate i l <-> (i <= n)%Z /\ l !! Z.to_nat (n - i) = Some x.
Proof.
  revert i. induction l as [|y l IH]; intros i; cbn [enumerate].
  - rewrite elem_of_nil, lookup_nil. split; [done | by intros [_ ?]].
  - rewrite elem_of_cons, IH. split.
    + intros [[= -> ->]|[Hn E]]; [by rewrite Z.sub_diag|]. split; [lia|].
      replace (Z.to_nat (n - i)) with (S (Z.to_nat (n - (i + 1)))) by lia. done.
    + intros [Hn E]. destruct (decide (n = i)) as [->|Hne].
      * rewrite Z.sub_diag in E. cbn in E. injection E as ->. by left.
      * right. split; [lia|]. replace (Z.to_nat (n - i)) with (S (Z.to_nat (n - (i + 1)))) in E by lia. done.
Qed.

Lemma filter_all {A} (P : A -> Prop) `{!forall x, Decision (P x)} (l : list A) :
  Forall P l -> filter P l = l.
Proof.
  induction 1 as [|x l Hx Hl IH]; [done|]. by rewrite filter_cons_True, IH.
Qed.

Lemma filter_none {A} (P : A -> Prop) `{!forall x, Decision (P x)} (l : list A) :
  Forall (fun x => ~ P x) l -> filter P l = [].
Proof.
  induction 1 as [|x l Hx Hl IH]; [done|]. by rewrite filter_cons_False.
Qed.

(** ** Python dictionaries

    A [dict] keeps the order in which its keys were first inserted, and the
    code iterates over it, so it is an association list with distinct keys
    ([od_wf]) rather than a [gmap]. *)
Abbreviation odict K V := (list (K * V)).

Section odict.
Context {K V : Type} `{EqDecision K}.

Fixpoint od_get (k : K) (d : odict K V) : option V :=
  match d with
  | [] => None
  | (k', v) :: d' => if decide (k = k') then Some v else od_get k d'
  end.

(** [d[k] = v]: the value is replaced in place, or appended for a new key. *)
Fixpoint od_set (k : K) (v : V) (d : odict K V) : odict K V :=
  match d with
  | [] => [(k, v)]
  | (k', v') :: d' =>
      if decide (k = k') then (k', v) :: d' else (k', v') :: od_set k v d'
  end.

Fixpoint od_del (k : K) (d : odict K V) : odict K V :=
  match d with
  | [] => []
  | (k', v') :: d' => if decide (k = k') then d' else (k', v') :: od_del k d'
  end.

(** [d.pop(k)], a [KeyError] when the key is missing. *)
Definition od_pop (k : K) (d : odict K V) : result (V * odict K V) :=
  match od_get k d with
  | Some v => Ok (v, od_del k d)
  | None => Err KeyError
  end.

Definition od_mem (k : K) (d : odict K V) : bool :=
  match od_get k d with Some _ => true | None => false end.

Definition od_keys (d : odict K V) : list K := d.*1.
Definition od_vals (d : odict K V) : list V := d.*2.
Definition od_wf (d : odict K V) : Prop := NoDup (od_keys d).

(** The dict comprehension [{k: v for k, v in l}]. *)
Definition od_of_list (l : list (K * V)) : odict K V :=
  foldl (fun d kv => od_set kv.1 kv.2 d) [] l.

Lemma od_get_set_eq k v d : od_get k (od_set k v d) = Some v.
Proof.
  induction d as [|[k' v'] d IH]; cbn; [by rewrite decide_True|].
  case_decide; cbn; [subst; by rewrite decide_True | by rewrite decide_False].
Qed.

Lemma od_get_set_ne k k' v d : k <> k' -> od_get k (od_set k' v d) = od_get k d.
Proof.
  intros Hne. induction d as [|[k0 v0] d IH]; cbn; [by rewrite decide_False|].
  case_decide; cbn; subst; [by rewrite !decide_False | by rewrite IH].
Qed.

Lemma od_get_None k d : od_get k d = None <-> k ∉ od_keys d.
Proof.
  induction d as [|[k' v] d IH]; cbn; [set_solver|].
  case_decide; subst; [set_solver|]. rewrite IH. set_solver.
Qed.

Lemma od_get_is_Some k d : is_Some (od_get k d) <-> k ∈ od_keys d.
Proof.
  destruct (decide (k ∈ od_keys d)) as [Hin|Hin].
  - split; [done|]. intros _. destruct (od_get k d) eqn:E; [eauto|].
    by apply od_get_None in E.
  - split; [|done]. apply od_get_None in Hin as ->. by intros [? ?].
Qed.

Lemma od_get_elem k v d : od_get k d = Some v -> (k, v) ∈ d.
Proof.
  induction d as [|[k' v'] d IH]; cbn; [done|].
  case_decide; [intros [= ->]; subst; left | right; auto].
Qed.

Lemma od_elem_get k v d : od_wf d -> (k, v) ∈ d -> od_get k d = Some v.
Proof.
  induction d as [|[k' v'] d IH]; intros Hwf Hin; cbn; [set_solver|].
  apply NoDup_cons in Hwf as [Hk Hwf]. cbn in Hk.
  apply elem_of_cons in Hin as [[= -> ->]|Hin]; [by rewrite decide_True|].
  rewrite decide_False; [auto|]. intros ->. apply Hk.
  apply (list_elem_of_fmap_2 fst _ _ Hin).
Qed.

Lemma od_keys_set_old k v d : k ∈ od_keys d -> od_keys (od_set k v d) = od_keys d.
Proof.
  induction d as [|[k' v'] d IH]; cbn; [set_solver|].
  intros Hin. case_decide; cbn; [done|]. f_equal. apply IH. set_solver.
Qed.

Lemma od_set_new k v d : k ∉ od_keys d -> od_set k v d = d ++ [(k, v)].
Proof.
  induction d as [|[k' v'] d IH]; cbn; intros Hin; [done|].
  rewrite decide_False by set_solver. f_equal. apply IH. set_solver.
Qed.

Lemma od_wf_set k v d : od_wf d -> od_wf (od_set k v d).
Proof.
  intros Hwf. destruct (decide (k ∈ od_keys d)) as [Hin|Hin].
  - unfold od_wf. by rewrite od_keys_set_old.
  - rewrite od_set_new by done. unfold od_wf, od_keys. rewrite fmap_app.
    apply NoDup_app; split_and!; [done | set_solver | apply NoDup_singleton].
Qed.

Lemma od_mem_keys k d : od_mem k d = true <-> k ∈ od_keys d.
Proof.
  rewrite <- od_get_is_Some. unfold od_mem. by destruct (od_get k d).
Qed.

Lemma od_keys_del k d : od_wf d -> od_keys (od_del k d) = filter (fun k' => k' <> k) (od_keys d).
Proof.
  induction d as [|[k' v'] d IH]; intros Hwf; [done|].
  apply NoDup_cons in Hwf as [Hk Hwf]. cbn [od_del].
  change (od_keys ((k', v') :: d)) with (k' :: od_keys d).
  rewrite filter_cons. case_decide; subst.
  - rewrite decide_False by auto.
    symmetry. apply filter_all. apply Forall_forall. intros x Hx ->. done.
  - rewrite decide_True by congruence. rewrite <- IH by done. done.
Qed.

Lemma od_wf_del k d : od_wf d -> od_wf (od_del k d).
Proof.
  intros Hwf. unfold od_wf. rewrite od_keys_del by done. by apply NoDup_filter.
Qed.

Lemma od_get_del_eq k d : od_wf d -> od_get k (od_del k d) = None.
Proof.
  intros Hwf. apply od_get_None. rewrite od_keys_del by done.
  rewrite list_elem_of_filter. by intros [? _].
Qed.

Lemma od_get_del_ne k k' d : k <> k' -> od_get k (od_del k' d) = od_get k d.
Proof.
  intros Hne. induction d as [|[k0 v0] d IH]; cbn; [done|].
  case_decide; cbn; [subst; by rewrite decide_False | by rewrite IH].
Qed.

Lemma od_del_elem k k' v d : od_wf d -> (k', v) ∈ od_del k d <-> k' <> k /\ (k', v) ∈ d.
Proof.
  intros Hwf. split.
  - intros Hin. pose proof (od_elem_get _ _ _ (od_wf_del k d Hwf) Hin) as Hg.
    destruct (decide (k' = k)) as [->|Hne]; [by rewrite od_get_del_eq in Hg|].
    rewrite od_get_del_ne in Hg by done. split; [done|]. by apply od_get_elem.
  - intros [Hne Hin]. apply od_get_elem. rewrite od_get_del_ne by done.
    by apply od_elem_get.
Qed.

Lemma od_del_length k d : k ∈ od_keys d -> length d = S (length (od_del k d)).
Proof.
  induction d as [|[k' v'] d IH]; cbn; [set_solver|].
  intros Hin. case_decide; cbn; [done|]. f_equal. apply IH. set_solver.
Qed.

Lemma od_of_list_keys l k : k ∈ od_keys (od_of_list l) <-> k ∈ map fst l.
Proof.
  unfold od_of_list. induction l as [|[k' v] l IH] using rev_ind; [done|]. rewrite foldl_app, map_app. cbn [map foldl fst snd].
  set (d := foldl _ [] l) in *. destruct (decide (k' ∈ od_keys d)) as [Hin|Hin].
  - rewrite od_keys_set_old by done. set_solver.
  - rewrite od_set_new by done. unfold od_keys in *. rewrite fmap_app. set_solver.
Qed.

Lemma od_of_list_id l : od_wf l -> od_of_list l = l.
Proof.
  unfold od_of_list. intros Hwf.
  enough (H : forall acc, od_wf (acc ++ l) -> foldl (fun d kv => od_set kv.1 kv.2 d) acc l = acc ++ l)
    by by apply (H []).
  clear Hwf. induction l as [|[k v] l IH]; intros acc Hwf; cbn; [by rewrite app_nil_r|].
  unfold od_wf, od_keys in Hwf. rewrite fmap_app in Hwf. cbn in Hwf.
  apply NoDup_app in Hwf as (Ha & Hd & Hl). apply NoDup_cons in Hl as [Hk Hl].
  rewrite od_set_new by (intros Hin; apply (Hd k Hin); left).
  rewrite IH, <- app_assoc; [done|]. unfold od_wf, od_keys.
  rewrite <- app_assoc, fmap_app. cbn. apply NoDup_app; split_and!; [done | done |].
  by apply NoDup_cons.
Qed.

Lemma od_set_elem k v k' v' d :
  od_wf d -> (k', v') ∈ od_set k v d <-> (k' = k /\ v' = v) \/ (k' <> k /\ (k', v') ∈ d).
Proof.
  intros Hwf. split.
  - intros Hin%od_elem_get; [|by apply od_wf_set].
    destruct (decide (k' = k)) as [->|Hne].
    + rewrite od_get_set_eq in Hin. injection Hin as ->. by left.
    + rewrite od_get_set_ne in Hin by done. right. split; [done|]. by apply od_get_elem.
  - intros [[-> ->]|[Hne Hin]]; apply od_get_elem.
    + by rewrite od_get_set_eq.
    + rewrite od_get_set_ne by done. by apply od_elem_get.
Qed.

Lemma od_wf_nil : od_wf [].
Proof. apply NoDup_nil_2. Qed.
End odict.

(** Look-up of literal string keys, in a form [cbn] evaluates. *)
Fixpoint od_find {V} (k : string) (d : odict string V) : option V :=
  match d with
  | [] => None
  | (k', v) :: d' => if String.eqb k k' then Some v else od_find k d'
  end.

Lemma od_get_find {V} k (d : odict string V) : od_get k d = od_find k d.
Proof.
  induction d as [|[k' v] d IH]; cbn; [done|].
  rewrite IH. case_decide as E; [subst; by rewrite String.eqb_refl|].
  by apply String.eqb_neq in E as ->.
Qed.

(** Evaluates the look-ups of literal keys in the goal. *)
Ltac od_lookup :=
  rewrite !od_get_find; cbn [od_find String.eqb Ascii.eqb Bool.eqb default id from_option].

#[export] Hint Resolve od_wf_set od_wf_del od_wf_nil : umbrella.
#[export] Hint Rewrite @od_get_set_eq : umbrella.
Arguments od_wf : simpl never.
Arguments od_keys : simpl never.
Arguments od_vals : simpl never.
