(* ===== verification/PyStr.v ===== *)
(** * Python strings: the [str] operations the modelled code uses

    A [str] is a Rocq [string], one [ascii] per code point, so code points up
    to 255 are represented.  Each operation is executable and comes with the
    lemmas its clients share.  Bytes and their encodings follow, then dates. *)
From S2P Require Export Prelude.
From Stdlib Require Export Ascii.
From Stdlib Require Import DecimalString DecimalZ DecimalPos DecimalFacts.

#[local] Open Scope string_scope.

#[global] Arguments String.append !_ _ : simpl nomatch.

(** [s.startswith(p)], [s.endswith(p)], [p in s]. *)
Definition startswith (p s : string) : bool := String.prefix p s.

Fixpoint str_drop (n : nat) (s : string) : string :=
  match n, s with
  | O, _ => s
  | S n', String _ s' => str_drop n' s'
  | S _, EmptyString => EmptyString
  end.

Fixpoint str_take (n : nat) (s : string) : string :=
  match n, s with
  | S n', String c s' => String c (str_take n' s')
  | _, _ => EmptyString
  end.

(** [s[-n:]] and [s[:-n]], [n] positive. *)
Definition str_last (n : nat) (s : string) : string := str_drop (String.length s - n) s.
Definition str_init (n : nat) (s : string) : string := str_take (String.length s - n) s.

Definition endswith (p s : string) : bool :=
  (String.length p <=? String.length s)%nat &&
  String.eqb (str_drop (String.length s - String.length p) s) p.

(** The first occurrence of [sep] in [s], as the text before and after it. *)
Fixpoint partition (sep s : string) : option (string * string) :=
  if String.prefix sep s then Some (EmptyString, str_drop (String.length sep) s)
  else match s with
       | EmptyString => None
       | String c s' =>
           '(p, r) ← partition sep s'; Some (String c p, r)
       end.

Definition str_contains (sub s : string) : bool :=
  match partition sub s with Some _ => true | None => false end.

(** [s.split(sep, 1)]: one or two pieces. *)
Definition split1 (sep s : string) : list string :=
  match partition sep s with Some (p, r) => [p; r] | None => [s] end.

(** [s.split(sep)] for a non-empty [sep], as the first piece and the others;
    [skip] counts the characters of a matched separator still to be dropped. *)
Fixpoint split_go (sep : string) (skip : nat) (s : string) : string * list string :=
  match s with
  | EmptyString => (EmptyString, [])
  | String c s' =>
      match skip with
      | S k => split_go sep k s'
      | O =>
          if String.prefix sep s then
            let '(p, r) := split_go sep (String.length sep - 1) s' in (EmptyString, p :: r)
          else let '(p, r) := split_go sep O s' in (String c p, r)
      end
  end.

Definition split (sep s : string) : list string :=
  let '(p, r) := split_go sep O s in p :: r.

Definition join (sep : string) (l : list string) : string := String.concat sep l.

(** [s.replace(old, new)] and [s.replace(old, new, 1)], [old] non-empty. *)
Definition str_replace (old new s : string) : string := join new (split old s).
Definition str_replace1 (old new s : string) : string :=
  match partition old s with Some (p, r) => p +:+ new +:+ r | None => s end.

(** [s.splitlines()]: every line boundary Python knows below code point 256. *)
Definition is_linebreak (c : ascii) : bool :=
  match N_of_ascii c with
  | 10%N | 11%N | 12%N | 13%N | 28%N | 29%N | 30%N | 133%N => true
  | _ => false
  end.

Definition LF : ascii := "010"%char.
Definition CR : ascii := "013"%char.
Definition nl : string := String LF EmptyString.

Fixpoint splitlines (s : string) : list string :=
  match s with
  | EmptyString => []
  | String c s' =>
      if is_linebreak c then
        EmptyString ::
        match s' with
        | String c' s'' =>
            if bool_decide (c = CR) && bool_decide (c' = LF) then splitlines s''
            else splitlines s'
        | EmptyString => []
        end
      else match splitlines s' with
           | [] => [String c EmptyString]
           | l :: ls => String c l :: ls
           end
  end.

Fixpoint str_forallb (f : ascii -> bool) (s : string) : bool :=
  match s with EmptyString => true | String c s' => f c && str_forallb f s' end.

Definition is_space (c : ascii) : bool :=
  match N_of_ascii c with
  | 9%N | 10%N | 11%N | 12%N | 13%N | 28%N | 29%N | 30%N | 31%N | 32%N | 133%N | 160%N => true
  | _ => false
  end.

Fixpoint lstrip (s : string) : string :=
  match s with
  | String c s' => if is_space c then lstrip s' else s
  | EmptyString => EmptyString
  end.

(** [rstrip]: a suffix of blanks is dropped. *)
Fixpoint rstrip (s : string) : string :=
  match s with
  | EmptyString => EmptyString
  | String c s' =>
      match rstrip s' with
      | EmptyString => if is_space c then EmptyString else String c EmptyString
      | r => String c r
      end
  end.

Definition strip (s : string) : string := rstrip (lstrip s).

(** [str(z)] for an [int]. *)
Definition str_of_Z (z : Z) : string := NilZero.string_of_int (Z.to_int z).

(** [int(s)]: blanks around, an optional sign, and digits that single
    underscores may separate; anything else is a [ValueError]. *)
Definition digits_ok (s : string) : bool :=
  negb (startswith "_" s) && negb (endswith "_" s) && negb (str_contains "__" s).

Definition nat_of_digits (s : string) : result Z :=
  if digits_ok s then
    match NilZero.uint_of_string (str_replace "_" "" s) with
    | Some u => Ok (Z.of_uint u)
    | None => Err ValueError
    end
  else Err ValueError.

Definition int_of_str (s : string) : result Z :=
  match strip s with
  | String "+" r => nat_of_digits r
  | String "-" r => z ← nat_of_digits r; Ok (- z)%Z
  | r => nat_of_digits r
  end.

Definition is_digit (c : ascii) : bool :=
  (48 <=? N_of_ascii c)%N && (N_of_ascii c <=? 57)%N.

(** [s.lower()]: ASCII and Latin-1 capitals. *)
Definition lower_char (c : ascii) : ascii :=
  let n := N_of_ascii c in
  if ((65 <=? n) && (n <=? 90) || (192 <=? n) && (n <=? 222) && negb (n =? 215))%N
  then ascii_of_N (n + 32) else c.

Fixpoint lower (s : string) : string :=
  match s with
  | EmptyString => EmptyString
  | String c s' => String (lower_char c) (lower s')
  end.

(** [s.split(sep, n)] for a non-empty [sep]: at most [n] splits. *)
Fixpoint split_n (n : nat) (sep s : string) : list string :=
  match n with
  | O => [s]
  | S n' => match partition sep s with Some (p, r) => p :: split_n n' sep r | None => [s] end
  end.

(** ** Lemmas *)

Lemma str_app_nil_r s : s +:+ "" = s.
Proof. induction s as [|c s IH]; cbn; [done|]. by rewrite IH. Qed.

Lemma str_app_assoc s1 s2 s3 : (s1 +:+ s2) +:+ s3 = s1 +:+ (s2 +:+ s3).
Proof. induction s1 as [|c s1 IH]; cbn; [done|]. by rewrite IH. Qed.

Lemma str_length_app s1 s2 :
  String.length (s1 +:+ s2) = (String.length s1 + String.length s2)%nat.
Proof. induction s1 as [|c s1 IH]; cbn; [done|]. by rewrite IH. Qed.

Lemma str_drop_app s1 s2 : str_drop (String.length s1) (s1 +:+ s2) = s2.
Proof. induction s1 as [|c s1 IH]; cbn; done. Qed.

Lemma prefix_app p s : String.prefix p (p +:+ s) = true.
Proof.
  induction p as [|c p IH]; cbn; [by destruct s|].
  by destruct (ascii_dec c c).
Qed.

Lemma prefix_spec p s : String.prefix p s = true <-> exists r, s = p +:+ r.
Proof.
  split; [|intros [r ->]; apply prefix_app].
  revert s; induction p as [|c p IH]; intros s H; cbn in *; [by exists s|].
  destruct s as [|c' s]; cbn in H; [done|]. destruct (ascii_dec c c') as [->|]; [|done].
  apply IH in H as [r ->]. by exists r.
Qed.

#[global] Arguments String.prefix : simpl never.

Lemma partition_spec sep s p r :
  partition sep s = Some (p, r) -> s = p +:+ sep +:+ r.
Proof.
  revert p; induction s as [|c s IH]; intros p; cbn.
  - destruct (String.prefix sep "") eqn:E; [|done].
    apply prefix_spec in E as [r' E]. destruct sep; [|cbn in E; done].
    cbn. by intros [= <- <-].
  - destruct (String.prefix sep (String c s)) eqn:E.
    + apply prefix_spec in E as [r' E]. rewrite E.
      intros [= <- <-]. rewrite str_drop_app. done.
    + destruct (partition sep s) as [[p' r']|]; cbn; [|done].
      intros [= <- <-]. cbn. f_equal. by apply IH.
Qed.

(** [split] finds a separator where its first occurrence is, and goes on after it. *)
Lemma split_go_skip sep s1 s2 :
  split_go sep (String.length s1) (s1 +:+ s2) = split_go sep O s2.
Proof. induction s1 as [|c s1 IH]; cbn; [done|]. apply IH. Qed.

Lemma split_partition sep s p r :
  sep <> "" -> partition sep s = Some (p, r) -> split sep s = p :: split sep r.
Proof.
  intros Hne Hp. unfold split. revert p Hp.
  induction s as [|c s IH]; intros p Hp; cbn in Hp.
  - destruct sep; done.
  - destruct (String.prefix sep (String c s)) eqn:E.
    + injection Hp as <- Hr. destruct sep as [|c0 sep]; [done|].
      cbn [split_go]. rewrite E.
      apply prefix_spec in E as [r' E]. cbn in E. injection E as -> ->.
      cbn in Hr. rewrite str_drop_app in Hr. subst r'.
      cbn [String.length Nat.sub]. rewrite Nat.sub_0_r, split_go_skip.
      by destruct (split_go (String c0 sep) O r).
    + destruct (partition sep s) as [[p' r']|] eqn:Hs; [|done]. cbn in Hp.
      injection Hp as <- <-. cbn [split_go]. rewrite E.
      specialize (IH p' eq_refl).
      destruct (split_go sep O s) as [q l]. by injection IH as -> ->.
Qed.

Lemma split_no_sep sep s :
  sep <> "" -> partition sep s = None -> split sep s = [s].
Proof.
  intros Hne Hp. unfold split. induction s as [|c s IH]; cbn in *; [done|].
  destruct (String.prefix sep (String c s)) eqn:E; [done|].
  destruct (partition sep s) as [[p' r']|] eqn:Hs; [done|].
  specialize (IH eq_refl). destruct (split_go sep O s) as [q l].
  by injection IH as -> ->.
Qed.

Lemma prefix_shorter u w r :
  String.prefix u (w +:+ r) = true -> (String.length u <= String.length w)%nat ->
  String.prefix u w = true.
Proof.
  intros [q E]%prefix_spec Hlen. apply prefix_spec. revert w E Hlen.
  induction u as [|a u IH]; intros w E Hlen; cbn in *; [eauto|].
  destruct w as [|b w]; cbn in *; [lia|].
  injection E as -> E. destruct (IH w E) as [r' ->]; [lia|]. by exists r'.
Qed.

(** Looking for [sep] in [p ++ sep ++ r] finds the written separator when
    [p ++ sep] holds no earlier one. *)
Lemma partition_app sep p r :
  partition sep (p +:+ sep) = Some (p, "") ->
  partition sep (p +:+ sep +:+ r) = Some (p, r).
Proof.
  induction p as [|c p IH]; intros H.
  - cbn [String.append]. destruct sep as [|c0 sep]; [by destruct r|].
    cbn [String.append partition]. change (String c0 (sep +:+ r)) with (String c0 sep +:+ r).
    rewrite prefix_app. f_equal. f_equal. by rewrite str_drop_app.
  - change (String c p +:+ sep) with (String c (p +:+ sep)) in H.
    change (String c p +:+ sep +:+ r) with (String c (p +:+ sep +:+ r)).
    cbn [partition] in *.
    destruct (String.prefix sep (String c (p +:+ sep))) eqn:E; [by injection H|].
    destruct (String.prefix sep (String c (p +:+ sep +:+ r))) eqn:E'.
    + exfalso.
      enough (String.prefix sep (String c p +:+ sep) = true) by (cbn in *; congruence).
      apply (prefix_shorter sep (String c p +:+ sep) r).
      * rewrite str_app_assoc. exact E'.
      * rewrite str_length_app. lia.
    + destruct (partition sep (p +:+ sep)) as [[p' r']|] eqn:Hp; [|done].
      cbn in H. injection H as -> ->. by rewrite IH.
Qed.

Lemma split_join sep l :
  sep <> "" -> l <> [] ->
  Forall (fun p => partition sep (p +:+ sep) = Some (p, "")) l ->
  Forall (fun p => partition sep p = None) l ->
  split sep (join sep l) = l.
Proof.
  intros Hne Hl. induction l as [|p l IH]; [done|].
  intros [Hp Hps]%Forall_cons [Hn Hns]%Forall_cons.
  destruct l as [|q l]; [cbn; by apply split_no_sep|].
  change (join sep (p :: q :: l)) with (p +:+ sep +:+ join sep (q :: l)).
  rewrite (split_partition _ _ p (join sep (q :: l))) by auto using partition_app.
  by rewrite IH.
Qed.

Definition no_linebreak (s : string) : bool := str_forallb (fun c => negb (is_linebreak c)) s.

Lemma splitlines_no_break s :
  no_linebreak s = true -> s <> "" -> splitlines s = [s].
Proof.
  induction s as [|c s IH]; intros Hb Hne; [done|].
  cbn in Hb. apply andb_true_iff in Hb as [Hc Hb]. cbn [splitlines].
  apply negb_true_iff in Hc. rewrite Hc.
  destruct s as [|c' s]; [done|]. by rewrite (IH Hb).
Qed.

Lemma splitlines_app_nl s t :
  no_linebreak s = true -> splitlines (s +:+ nl +:+ t) = s :: splitlines t.
Proof.
  induction s as [|c s IH]; intros Hb.
  - cbn. by destruct t.
  - cbn in Hb. apply andb_true_iff in Hb as [Hc Hb]. apply negb_true_iff in Hc.
    change (String c s +:+ nl +:+ t) with (String c (s +:+ nl +:+ t)).
    cbn [splitlines]. by rewrite Hc, IH.
Qed.

(** Lines joined with newlines are read back, except that a last empty line is lost. *)
Lemma splitlines_join ls :
  Forall (fun l => no_linebreak l = true) ls ->
  last ls <> Some "" -> splitlines (join nl ls) = ls.
Proof.
  induction ls as [|l ls IH]; intros Hb Hlast; [done|].
  apply Forall_cons in Hb as [Hl Hb]. destruct ls as [|l' ls].
  - cbn. apply splitlines_no_break; [done|]. by intros ->.
  - change (join nl (l :: l' :: ls)) with (l +:+ nl +:+ join nl (l' :: ls)).
    rewrite splitlines_app_nl by done. rewrite IH; done.
Qed.

(** *** Separators of one character, and decimal numerals *)

Lemma prefix_char c s :
  String.prefix (String c "") s = match s with String c' _ => bool_decide (c = c') | _ => false end.
Proof.
  destruct s as [|c' s]; [done|]. destruct (String.prefix _ _) eqn:E; symmetry.
  - apply prefix_spec in E as [r [= -> _]]. by apply bool_decide_eq_true.
  - apply bool_decide_eq_false. intros ->.
    change (String c' s) with (String c' "" +:+ s) in E. by rewrite prefix_app in E.
Qed.

Definition without (c : ascii) (s : string) : bool :=
  str_forallb (fun c' => negb (bool_decide (c = c'))) s.

Lemma partition_char_none c s : without c s = true -> partition (String c "") s = None.
Proof.
  induction s as [|c' s IH]; intros H; [done|]. cbn in H. apply andb_true_iff in H as [Hc H].
  cbn [partition]. rewrite prefix_char. apply negb_true_iff in Hc. by rewrite Hc, IH.
Qed.

Lemma partition_char c s r :
  without c s = true -> partition (String c "") (s +:+ String c r) = Some (s, r).
Proof.
  induction s as [|c' s IH]; intros H.
  - cbn. rewrite prefix_char. rewrite bool_decide_eq_true_2 by done. by cbn.
  - cbn in H. apply andb_true_iff in H as [Hc H]. apply negb_true_iff in Hc.
    cbn [String.append partition]. rewrite prefix_char, Hc. by rewrite IH.
Qed.

Lemma str_forallb_impl (f g : ascii -> bool) s :
  (forall c, f c = true -> g c = true) -> str_forallb f s = true -> str_forallb g s = true.
Proof.
  intros Hfg. induction s as [|c s IH]; cbn; [done|].
  rewrite !andb_true_iff. intros [? ?]; auto.
Qed.

Lemma str_forallb_app f s1 s2 :
  str_forallb f (s1 +:+ s2) = str_forallb f s1 && str_forallb f s2.
Proof. induction s1 as [|c s1 IH]; cbn; [done|]. by rewrite IH, andb_assoc. Qed.

Lemma NilEmpty_digits d : str_forallb is_digit (NilEmpty.string_of_uint d) = true.
Proof. induction d; cbn; auto. Qed.

Lemma NilZero_digits d : str_forallb is_digit (NilZero.string_of_uint d) = true.
Proof. destruct d; try done; apply (NilEmpty_digits (_ d)). Qed.

(** A non-negative integer is printed as its decimal digits. *)
Lemma str_of_Z_nonneg z :
  (0 <= z)%Z -> exists u, str_of_Z z = NilZero.string_of_uint u /\ Z.of_uint u = z /\ u <> Decimal.Nil.
Proof.
  intros Hz. pose proof (DecimalZ.of_to z) as E. unfold str_of_Z.
  destruct z as [|p|p]; [exists Decimal.zero; done | | lia].
  exists (Pos.to_uint p). split_and!; [done | exact E | apply DecimalPos.Unsigned.to_uint_nonnil].
Qed.

Lemma str_of_Z_digits z : (0 <= z)%Z -> str_forallb is_digit (str_of_Z z) = true.
Proof. intros Hz. destruct (str_of_Z_nonneg z Hz) as (u & -> & _). apply NilZero_digits. Qed.

Lemma str_of_Z_inj z z' : str_of_Z z = str_of_Z z' -> z = z'.
Proof.
  intros E. unfold str_of_Z in E. apply (f_equal NilZero.int_of_string) in E.
  assert (Hn : forall z, Z.to_int z <> Decimal.Pos Decimal.Nil /\ Z.to_int z <> Decimal.Neg Decimal.Nil).
  { intros [|p|p]; cbn; split; try done; injection; apply DecimalPos.Unsigned.to_uint_nonnil. }
  rewrite !NilZero.isi in E by apply Hn. injection E as E. by apply DecimalZ.to_int_inj.
Qed.

Lemma str_of_Z_nonempty z : str_of_Z z <> "".
Proof.
  intros E. pose proof (str_of_Z_inj z 0) as H. destruct z as [|p|p]; try done.
  unfold str_of_Z in E. cbn in E. destruct (Pos.to_uint p) eqn:Ep; try done.
Qed.

Lemma str_of_Z_0 z : str_of_Z z = "0" <-> z = 0%Z.
Proof. split; [|by intros ->]. intros E. by apply (str_of_Z_inj z 0). Qed.

Lemma lstrip_id s : str_forallb (fun c => negb (is_space c)) s = true -> lstrip s = s.
Proof.
  destruct s as [|c s]; [done|]. cbn. intros [Hc _]%andb_true_iff.
  apply negb_true_iff in Hc. by rewrite Hc.
Qed.

Lemma rstrip_id s : str_forallb (fun c => negb (is_space c)) s = true -> rstrip s = s.
Proof.
  induction s as [|c s IH]; [done|]. cbn. intros [Hc Hs]%andb_true_iff.
  apply negb_true_iff in Hc. rewrite IH by done. destruct s; [by rewrite Hc | done].
Qed.

Lemma strip_id s : str_forallb (fun c => negb (is_space c)) s = true -> strip s = s.
Proof. intros H. unfold strip. by rewrite lstrip_id, rstrip_id. Qed.

Lemma digit_props c : is_digit c = true ->
  negb (is_space c) = true /\ negb (bool_decide ("_"%char = c)) = true /\
  negb (bool_decide ("/"%char = c)) = true /\ c <> "+"%char /\ c <> "-"%char /\
  negb (is_linebreak c) = true.
Proof.
  destruct c as [[] [] [] [] [] [] [] []]; intros H; try discriminate H; split_and!; try done.
Qed.

Lemma digits_without_slash s : str_forallb is_digit s = true -> without "/"%char s = true.
Proof. apply str_forallb_impl. intros c Hc. by apply digit_props in Hc as (_ & _ & ? & _). Qed.

Lemma digits_without_underscore s : str_forallb is_digit s = true -> without "_"%char s = true.
Proof. apply str_forallb_impl. intros c Hc. by apply digit_props in Hc as (_ & ? & _). Qed.

Lemma partition_too_long sep s : (String.length s < String.length sep)%nat -> partition sep s = None.
Proof.
  intros H. destruct (partition sep s) as [[p r]|] eqn:E; [|done].
  apply partition_spec in E. apply (f_equal String.length) in E.
  rewrite !str_length_app in E. lia.
Qed.

Lemma str_replace_absent old new s :
  old <> "" -> partition old s = None -> str_replace old new s = s.
Proof. intros H1 H2. unfold str_replace. by rewrite split_no_sep. Qed.

Lemma digits_ok_digits s : str_forallb is_digit s = true -> digits_ok s = true.
Proof.
  intros Hd. pose proof (digits_without_underscore s Hd) as Hu.
  pose proof (partition_char_none _ _ Hu) as Hp. unfold digits_ok, str_contains, startswith, endswith.
  rewrite prefix_char.
  assert (H2 : partition "__" s = None).
  { destruct (partition "__" s) as [[p r]|] eqn:E; [|done]. apply partition_spec in E.
    rewrite E in Hu. unfold without in Hu. rewrite str_forallb_app in Hu. cbn in Hu.
    by rewrite andb_false_r in Hu. }
  rewrite H2, andb_true_r. apply andb_true_iff; split.
  - destruct s as [|c s]; [done|]. cbn in Hu. by apply andb_true_iff in Hu as [? _].
  - apply negb_true_iff, andb_false_iff. right. apply String.eqb_neq. intros E.
    assert (Hs : exists q, s = q +:+ "_").
    { rewrite <- E. clear. generalize (String.length s - String.length "_")%nat. intros n.
      revert s. induction n as [|n IH]; intros [|c s]; [by exists "" .. | by exists ""|].
      destruct (IH s) as [q Hq]. exists (String c q). cbn. by rewrite <- Hq. }
    destruct Hs as [q ->]. unfold without in Hu. rewrite str_forallb_app in Hu. cbn in Hu.
    by rewrite andb_false_r in Hu.
Qed.

Lemma nat_of_digits_print u :
  u <> Decimal.Nil -> nat_of_digits (NilZero.string_of_uint u) = Ok (Z.of_uint u).
Proof.
  intros Hu. pose proof (NilZero_digits u) as Hd. unfold nat_of_digits.
  rewrite digits_ok_digits by done. rewrite str_replace_absent; [|done|].
  - by rewrite NilZero.usu.
  - apply partition_char_none. by apply digits_without_underscore.
Qed.

(** [int(str(z)) == z]. *)
Lemma int_of_str_of_Z z : int_of_str (str_of_Z z) = Ok z.
Proof.
  unfold int_of_str. destruct (Z.le_gt_cases 0 z) as [Hz|Hz].
  - destruct (str_of_Z_nonneg z Hz) as (u & -> & Hu & Hn).
    pose proof (NilZero_digits u) as Hd.
    rewrite strip_id.
    2: { eapply str_forallb_impl; [|exact Hd]. intros c Hc. by apply digit_props in Hc as [? _]. }
    rewrite <- Hu. pose proof (nat_of_digits_print u Hn) as Hp.
    destruct (NilZero.string_of_uint u) as [|c s]; [done|].
    cbn in Hd. apply andb_true_iff in Hd as [Hc _].
    apply digit_props in Hc as (_ & _ & _ & Hp1 & Hm1 & _).
    destruct c as [[] [] [] [] [] [] [] []]; done.
  - destruct z as [|p|p]; try lia. unfold str_of_Z. cbn [Z.to_int NilZero.string_of_int].
    pose proof (NilZero_digits (Pos.to_uint p)) as Hd.
    rewrite strip_id.
    2: { cbn. eapply str_forallb_impl; [|exact Hd]. intros c Hc. by apply digit_props in Hc as [? _]. }
    rewrite nat_of_digits_print by apply DecimalPos.Unsigned.to_uint_nonnil. cbn.
    pose proof (DecimalZ.of_to (Zneg p)) as E. cbn in E. by rewrite E.
Qed.

(** The coverage string ["a/b"]. *)
Definition frac_str (a b : Z) : string := str_of_Z a +:+ "/" +:+ str_of_Z b.

Lemma split1_frac_str a b : (0 <= a)%Z -> split1 "/" (frac_str a b) = [str_of_Z a; str_of_Z b].
Proof.
  intros Ha. unfold split1, frac_str.
  change ("/" +:+ str_of_Z b) with (String "/" (str_of_Z b)).
  by rewrite (partition_char "/"%char) by auto using digits_without_slash, str_of_Z_digits.
Qed.

Lemma split_frac_str a b :
  (0 <= a)%Z -> (0 <= b)%Z -> split "/" (frac_str a b) = [str_of_Z a; str_of_Z b].
Proof.
  intros Ha Hb. unfold frac_str.
  rewrite (split_partition "/" _ (str_of_Z a) (str_of_Z b)); [|done|].
  - rewrite split_no_sep; [done | done|].
    apply (partition_char_none "/"%char). auto using digits_without_slash, str_of_Z_digits.
  - apply (partition_char "/"%char). auto using digits_without_slash, str_of_Z_digits.
Qed.

Lemma frac_str_inj a b c d :
  (0 <= a)%Z -> (0 <= c)%Z -> frac_str a b = frac_str c d -> a = c /\ b = d.
Proof.
  intros Ha Hc E. apply (f_equal (split1 "/")) in E. rewrite !split1_frac_str in E by done.
  injection E as E1 E2. split; by apply str_of_Z_inj.
Qed.

(** Digits hold none of the separators. *)
Lemma digits_without c z : is_digit c = false -> (0 <= z)%Z -> without c (str_of_Z z) = true.
Proof.
  intros Hc Hz. eapply str_forallb_impl; [|by apply str_of_Z_digits]. intros c' Hd. cbn.
  apply negb_true_iff, bool_decide_eq_false. intros ->. congruence.
Qed.

Lemma split1_char c s r : without c s = true -> split1 (String c "") (s +:+ String c r) = [s; r].
Proof. intros H. unfold split1. by rewrite partition_char. Qed.

Lemma without_app c s1 s2 : without c (s1 +:+ s2) = without c s1 && without c s2.
Proof. apply str_forallb_app. Qed.

Lemma endswith_app p s : endswith p s = true -> exists q, s = q +:+ p.
Proof.
  unfold endswith. intros [_ E]%andb_true_iff. apply String.eqb_eq in E.
  remember (String.length s - String.length p)%nat as n eqn:En. exists (str_take n s). rewrite <- E.
  clear E En. revert s.
  induction n as [|n IH]; intros [|c s]; cbn; try done. by rewrite <- IH.
Qed.

Lemma str_of_Z_head z : (0 <= z)%Z -> exists c t, str_of_Z z = String c t /\ is_digit c = true.
Proof.
  intros Hz. pose proof (str_of_Z_digits z Hz) as Hd. pose proof (str_of_Z_nonempty z) as Hne.
  destruct (str_of_Z z) as [|c t]; [done|]. cbn in Hd. apply andb_true_iff in Hd as [Hd _]. eauto.
Qed.

(** Digits are ASCII. *)
Lemma str_of_Z_ascii z : (0 <= z)%Z -> str_forallb (fun c => (N_of_ascii c <? 128)%N) (str_of_Z z) = true.
Proof.
  intros Hz. eapply str_forallb_impl; [|by apply str_of_Z_digits].
  intros c. unfold is_digit. rewrite andb_true_iff, N.leb_le, N.leb_le. intros [_ Hc]. apply N.ltb_lt. lia.
Qed.

(** A positive number does not start with a zero. *)
Lemma str_of_Z_pos_head z : (1 <= z)%Z -> exists c t, str_of_Z z = String c t /\ is_digit c = true /\ c <> "0"%char.
Proof.
  intros Hz. destruct (str_of_Z_head z) as (c & t & E & Hd); [lia|]. exists c, t. split_and!; [done | done |].
  intros ->. destruct z as [|p|p]; [lia | | lia]. unfold str_of_Z in E. cbn in E.
  pose proof (DecimalPos.Unsigned.to_of (Pos.to_uint p)) as Hn.
  rewrite DecimalPos.Unsigned.of_to in Hn. cbn in Hn.
  pose proof (DecimalPos.Unsigned.of_to p) as Hp.
  destruct (Pos.to_uint p) as [|u|u|u|u|u|u|u|u|u|u] eqn:Eu; cbn in E; try discriminate E.
  - by apply DecimalPos.Unsigned.to_uint_nonnil in Eu.
  - rewrite unorm_D0 in Hn. destruct (Decimal.uint_eq_dec u Decimal.Nil) as [->|Hu]; [by cbn in Hp|].
    apply nb_digits_unorm in Hu. rewrite <- Hn in Hu. cbn in Hu. lia.
Qed.

Lemma prefix_cons c1 s1 c2 s2 :
  String.prefix (String c1 s1) (String c2 s2) = if ascii_dec c1 c2 then String.prefix s1 s2 else false.
Proof. done. Qed.

(** A character [sep] does not hold is a boundary its occurrences do not cross. *)
Lemma prefix_boundary c sep p r :
  without c sep = true -> String.prefix sep (p +:+ String c r) = String.prefix sep p.
Proof.
  revert p. induction sep as [|c0 sep IH]; intros p Hw; [by destruct p|].
  cbn in Hw. apply andb_true_iff in Hw as [Hc Hw]. apply negb_true_iff, bool_decide_eq_false in Hc.
  destruct p as [|c1 p]; cbn [String.append]; rewrite prefix_cons.
  - by destruct (ascii_dec c0 c) as [->|].
  - rewrite prefix_cons. destruct (ascii_dec c0 c1); [by apply IH | done].
Qed.

Lemma partition_boundary c sep p r :
  sep <> "" -> without c sep = true -> partition sep p = None ->
  partition sep (p +:+ String c r) = ('(q, r') ← partition sep r; Some (p +:+ String c q, r')).
Proof.
  intros Hne Hw. induction p as [|c0 p IH]; intros Hp.
  - change (partition sep (String c r) = ('(q, r') ← partition sep r; Some (String c q, r'))).
    cbn [partition]. pose proof (prefix_boundary c sep "" r Hw) as E. cbn [String.append] in E.
    rewrite E. by destruct sep.
  - change (String c0 p +:+ String c r) with (String c0 (p +:+ String c r)).
    cbn [partition] in *. pose proof (prefix_boundary c sep (String c0 p) r Hw) as E.
    change (String c0 p +:+ String c r) with (String c0 (p +:+ String c r)) in E. rewrite E.
    destruct (String.prefix sep (String c0 p)); [done|].
    destruct (partition sep p) as [[? ?]|]; [done|]. rewrite IH by done.
    by destruct (partition sep r) as [[? ?]|].
Qed.

Lemma partition_here sep r : partition sep (sep +:+ r) = Some ("", r).
Proof.
  pose proof (prefix_app sep r) as E. pose proof (str_drop_app sep r) as E'.
  destruct (sep +:+ r) as [|c s]; cbn [partition]; by rewrite E, E'.
Qed.

(** [str_take] after [str_drop] is a slice. *)
Lemma str_take_app s1 s2 : str_take (String.length s1) (s1 +:+ s2) = s1.
Proof. induction s1 as [|c s1 IH]; cbn; [by destruct s2|]. by rewrite IH. Qed.

Lemma split_chars c l :
  Forall (fun m => without c m = true) l -> l <> [] -> split (String c "") (join (String c "") l) = l.
Proof.
  intros Hl Hne. apply split_join; [done | done | |]; eapply Forall_impl; try exact Hl; cbn; intros m Hm.
  - by apply (partition_char c m "").
  - by apply partition_char_none.
Qed.

Lemma join_nonempty sep l : Forall (fun m : string => m <> "") l -> l <> [] -> join sep l <> "".
Proof.
  destruct l as [|m l]; [done|]. intros [Hm _]%Forall_cons _. destruct l as [|m' l]; cbn; [done|].
  by destruct m.
Qed.

(** * Python [bytes]: the lines of an uploaded file and their decoding

    A [bytes] is a [string] of its bytes.  Decoded text is modelled as far as a
    [string] can hold it, that is up to code point 255. *)

#[local] Open Scope string_scope.
#[local] Open Scope list_scope.

(** UTF-8 decoding into the code points a [string] can hold: ASCII and the
    two-byte sequences of Latin-1. *)
Fixpoint utf8_decode (bs : list Z) : result string :=
  match bs with
  | [] => Ok ""
  | b :: bs' =>
      if (b <? 128)%Z then s ← utf8_decode bs'; Ok (String (ascii_of_N (Z.to_N b)) s)
      else match bs' with
           | b' :: bs'' =>
               if ((194 <=? b) && (b <=? 195) && (128 <=? b') && (b' <=? 191))%Z then
                 s ← utf8_decode bs''; Ok (String (ascii_of_N (Z.to_N ((b - 192) * 64 + (b' - 128)))) s)
               else Err Unmodelled
           | [] => Err ValueError
           end
  end.

(** [s.encode()]: a character beyond ASCII takes two bytes. *)
Definition utf8_bytes (c : ascii) : string :=
  let n := N_of_ascii c in
  if (n <? 128)%N then String c ""
  else String (ascii_of_N (192 + n / 64)) (String (ascii_of_N (128 + n mod 64)) "").
Fixpoint utf8_encode (s : string) : string :=
  match s with EmptyString => EmptyString | String c s' => utf8_bytes c +:+ utf8_encode s' end.

(** The bytes of a [bytes]. *)
Definition byte_values (b : string) : list Z := (fun c => Z.of_N (N_of_ascii c)) <$> String.list_ascii_of_string b.

(** [b.decode(errors="replace")]: what is not valid, or beyond Latin-1, is not
    modelled. *)
Definition decode_replace (b : string) : result string :=
  match utf8_decode ((fun c => Z.of_N (N_of_ascii c)) <$> String.list_ascii_of_string b) with
  | Ok s => Ok s
  | Err _ => Err Unmodelled
  end.

(** The lines of [BytesIO(b)], each without its newline: what follows the last
    newline is a line when it is not empty. *)
Definition bytes_lines (b : string) : list string :=
  let ps := split nl b in
  match List.last ps "" with EmptyString => removelast ps | _ => ps end.

(** ** Lemmas *)

Lemma utf8_decode_ascii s :
  str_forallb (fun c => (N_of_ascii c <? 128)%N) s = true ->
  utf8_decode ((fun c => Z.of_N (N_of_ascii c)) <$> String.list_ascii_of_string s) = Ok s.
Proof.
  induction s as [|c s IH]; [done|]. cbn. intros [Hc Hs]%andb_true_iff.
  apply N.ltb_lt in Hc. rewrite (proj2 (Z.ltb_lt _ _)) by lia.
  setoid_rewrite IH; [|done]. cbn. by rewrite N2Z.id, ascii_N_embedding.
Qed.

(** ASCII text is decoded to itself. *)
Lemma decode_ascii s :
  str_forallb (fun c => (N_of_ascii c <? 128)%N) s = true -> decode_replace s = Ok s.
Proof. intros Hs. unfold decode_replace. by rewrite utf8_decode_ascii. Qed.

(** Lines without newlines, joined by newlines, are read back. *)
Lemma bytes_lines_join ls :
  Forall (fun l => without LF l = true) ls -> List.last ls "" <> "" ->
  bytes_lines (join nl ls) = ls.
Proof.
  intros Hl Hlast. assert (Hne : ls <> []) by by intros ->.
  unfold bytes_lines. rewrite split_join; [by destruct (List.last ls "") | done | done | |].
  - eapply Forall_impl; [exact Hl|]. cbn. intros l Hb. by apply (partition_char LF l "").
  - eapply Forall_impl; [exact Hl|]. cbn. intros l Hb. by apply partition_char_none.
Qed.

Lemma ascii_encode s : str_forallb (fun c => (N_of_ascii c <? 128)%N) s = true -> utf8_encode s = s.
Proof.
  induction s as [|c s IH]; [done|]. cbn. intros [Hc Hs]%andb_true_iff.
  unfold utf8_bytes. by rewrite Hc, IH.
Qed.

(** Encoded text is decoded to itself. *)
Lemma utf8_decode_encode s : utf8_decode (byte_values (utf8_encode s)) = Ok s.
Proof.
  induction s as [|c s IH]; [done|]. cbn [utf8_encode]. unfold utf8_bytes.
  pose proof (N_ascii_bounded c) as Hb. destruct (N.ltb_spec (N_of_ascii c) 128) as [Hc|Hc].
  - cbn. rewrite (proj2 (Z.ltb_lt _ _)) by lia. unfold byte_values in IH. rewrite IH. cbn.
    by rewrite N2Z.id, ascii_N_embedding.
  - pose proof (N.div_mod (N_of_ascii c) 64 ltac:(lia)) as Ed.
    pose proof (N.mod_lt (N_of_ascii c) 64 ltac:(lia)) as Hm.
    set (q := (N_of_ascii c / 64)%N) in *. set (m := (N_of_ascii c mod 64)%N) in *. clearbody q m.
    assert (Ec : ascii_of_N (64 * q + m) = c) by (by rewrite <- Ed, ascii_N_embedding).
    change (utf8_decode (Z.of_N (N_of_ascii (ascii_of_N (192 + q))) ::
                         Z.of_N (N_of_ascii (ascii_of_N (128 + m))) :: byte_values (utf8_encode s)) = Ok (String c s)).
    rewrite !N_ascii_embedding by lia. cbn [utf8_decode]. rewrite (proj2 (Z.ltb_ge _ _)) by lia.
    assert (E : ((194 <=? Z.of_N (192 + q)) && (Z.of_N (192 + q) <=? 195) &&
                 (128 <=? Z.of_N (128 + m)) && (Z.of_N (128 + m) <=? 191))%Z = true)
      by (rewrite !andb_true_iff, !Z.leb_le; lia).
    rewrite E, IH. cbn [mbind result_bind]. do 2 f_equal. rewrite <- Ec. f_equal. lia.
Qed.

(** * Dates and times

    [datetime.strptime] for the format [%Y-%m-%d %H:%M:%S] and arithmetic on
    naive times.  A time is a number of microseconds since the start of 1970. *)

#[local] Open Scope Z_scope.

Definition SECOND : Z := 1000000.
Definition DAY : Z := 86400 * SECOND.
(** [timedelta(days=n)] *)
Definition days (n : Z) : Z := n * DAY.

Definition is_leap (y : Z) : bool :=
  (y mod 4 =? 0) && (negb (y mod 100 =? 0) || (y mod 400 =? 0)).

Definition days_in_month (y m : Z) : Z :=
  if m =? 2 then (if is_leap y then 29 else 28)
  else if (m =? 4) || (m =? 6) || (m =? 9) || (m =? 11) then 30 else 31.

(** The days before the month [m] of the year [y], and before the year. *)
Fixpoint days_before_month (y : Z) (m : nat) : Z :=
  match m with
  | O | 1%nat => 0
  | S m' => days_before_month y m' + days_in_month y (Z.of_nat m')
  end.
Definition days_before_year (y : Z) : Z :=
  let y := y - 1 in y * 365 + y / 4 - y / 100 + y / 400.

Definition toordinal (y m d : Z) : Z := days_before_year y + days_before_month y (Z.to_nat m) + d.

Definition valid_date (y m d : Z) : bool :=
  (1 <=? y) && (y <=? 9999) && (1 <=? m) && (m <=? 12) && (1 <=? d) && (d <=? days_in_month y m).

(** [datetime(y, m, d, h, mi, s)] *)
Definition datetime (y m d h mi s : Z) : result Z :=
  if valid_date y m d && (0 <=? h) && (h <? 24) && (0 <=? mi) && (mi <? 60) && (0 <=? s) && (s <? 60) then
    Ok (((toordinal y m d - toordinal 1970 1 1) * 86400 + h * 3600 + mi * 60 + s) * SECOND)
  else Err ValueError.

(** The digits at the head of a text, and the rest. *)
Fixpoint take_digits (s : string) : string * string :=
  match s with
  | String c s' => if is_digit c then let '(d, r) := take_digits s' in (String c d, r) else (EmptyString, s)
  | EmptyString => (EmptyString, s)
  end.

(** A field of the format: one or two digits with a value between bounds. *)
Definition field (lo hi : Z) (s : string) : result (Z * string) :=
  let '(d, r) := take_digits s in
  if (String.length d =? 1)%nat || (String.length d =? 2)%nat then
    n ← nat_of_digits d;
    if (lo <=? n) && (n <=? hi) then Ok (n, r) else Err ValueError
  else Err ValueError.

(** The day may be a digit after a space. *)
Definition day_field (s : string) : result (Z * string) :=
  match s with
  | String " " s' => field 1 9 s' ≫= fun '(n, r) =>
      if (String.length s' - String.length r =? 1)%nat then Ok (n, r) else Err ValueError
  | _ => field 1 31 s
  end.

Definition expect (c : ascii) (s : string) : result string :=
  match s with
  | String x s' => if bool_decide (x = c) then Ok s' else Err ValueError
  | EmptyString => Err ValueError
  end.

Definition spaces (s : string) : result string :=
  match s with
  | String x _ => if is_space x then Ok (lstrip s) else Err ValueError
  | EmptyString => Err ValueError
  end.

Definition strptime (s : string) : result Z :=
  let '(y, r) := take_digits s in
  if negb (String.length y =? 4)%nat then Err ValueError
  else
    y ← nat_of_digits y;
    r ← expect "-" r; '(m, r) ← field 1 12 r;
    r ← expect "-" r; '(d, r) ← day_field r;
    r ← spaces r; '(h, r) ← field 0 23 r;
    r ← expect ":" r; '(mi, r) ← field 0 59 r;
    r ← expect ":" r; '(sec, r) ← field 0 61 r;
    if bool_decide (r = EmptyString) then datetime y m d h mi sec else Err ValueError.

Example strptime_expiry : strptime "2020-05-13 00:00:00" = Ok (1589328000 * SECOND).
Proof. reflexivity. Qed.
Example strptime_leap_day : strptime "2021-02-29 00:00:00" = Err ValueError.
Proof. reflexivity. Qed.
