(* ===== verification/PyFloat.v ===== *)
(** * Python floats: IEEE binary64 values with exact integer arithmetic

    A finite [float] is [(-1)^fneg * fman * 2^fexp]; every operation rounds the
    exact rational result to the nearest 53-bit significand, ties to even, as
    IEEE 754 requires.  The exponent range is not bounded below (no subnormals):
    the code only forms quotients of line counts, which are far from 2^-1022;
    the conversion of an [int] checks the upper bound ([OverflowError]). *)
From S2P Require Export PyStr.
From Stdlib Require Import QArith Qabs Lqa.
#[local] Open Scope Z_scope.

Record b64 : Set := B64 { fneg : bool; fman : Z; fexp : Z }.

#[export] Instance b64_eq_dec : EqDecision b64.
Proof. solve_decision. Defined.

(** The magnitude of a float as a quotient [fnum / fden]. *)
Definition fnum (f : b64) : Z := fman f * 2 ^ Z.max 0 (fexp f).
Definition fden (f : b64) : Z := 2 ^ Z.max 0 (- fexp f).

(** The integer nearest to [n / d], ties to even ([0 <= n], [0 < d]). *)
Definition rne_div (n d : Z) : Z :=
  let q := n / d in
  let r := n mod d in
  if 2 * r <? d then q else if d <? 2 * r then q + 1
  else if Z.even q then q else q + 1.

(** [floor (log2 (n / d))]. *)
Definition log2_quot (n d : Z) : Z :=
  let k := Z.log2 n - Z.log2 d in
  if d * 2 ^ Z.max 0 k <=? n * 2 ^ Z.max 0 (- k) then k else k - 1.

(** The double nearest to [(-1)^neg * n / d]. *)
Definition rnd (neg : bool) (n d : Z) : b64 :=
  if n =? 0 then B64 neg 0 0
  else
    let e := log2_quot n d - 52 in
    let m := rne_div (n * 2 ^ Z.max 0 (- e)) (d * 2 ^ Z.max 0 e) in
    if m =? 2 ^ 53 then B64 neg (2 ^ 52) (e + 1) else B64 neg m e.

(** [float(z)]. *)
Definition f_of_Z (z : Z) : result b64 :=
  if 2 ^ 1024 - 2 ^ 970 <=? Z.abs z then Err OverflowError
  else Ok (rnd (z <? 0) (Z.abs z) 1).

Definition f_mul (a b : b64) : b64 :=
  rnd (xorb (fneg a) (fneg b)) (fnum a * fnum b) (fden a * fden b).

(** [a / b], a [ZeroDivisionError] when [b] is zero. *)
Definition f_div (a b : b64) : result b64 :=
  if fman b =? 0 then Err ZeroDivisionError
  else Ok (rnd (xorb (fneg a) (fneg b)) (fnum a * fden b) (fden a * fnum b)).

Definition f_signed (a : b64) : Z := if fneg a then - fnum a else fnum a.

(** Exact signed numerator of [a - b] over [fden a * fden b]. *)
Definition f_sub (a b : b64) : b64 :=
  let n := f_signed a * fden b - f_signed b * fden a in
  rnd (if n =? 0 then fneg a && negb (fneg b) else n <? 0) (Z.abs n) (fden a * fden b).

Definition f_cmp (a b : b64) : comparison :=
  f_signed a * fden b ?= f_signed b * fden a.
Definition f_eqb (a b : b64) : bool := match f_cmp a b with Eq => true | _ => false end.
Definition f_ltb (a b : b64) : bool := match f_cmp a b with Lt => true | _ => false end.
Definition f_leb (a b : b64) : bool := negb (f_ltb b a).

(** [n / d] on [int]s: the quotient is rounded once, from the exact value. *)
Definition int_truediv (n d : Z) : result b64 :=
  if d =? 0 then Err ZeroDivisionError
  else Ok (rnd (xorb (n <? 0) (d <? 0)) (Z.abs n) (Z.abs d)).

(** [int(f)] truncates towards zero. *)
Definition Z_of_f (f : b64) : Z := if fneg f then - (fnum f / fden f) else fnum f / fden f.

(** The magnitude of [f] in units of [10^-p], correctly rounded: what both
    [round(f, p)] and the format [.pf] compute first. *)
Definition f_scaled (p : Z) (f : b64) : Z := rne_div (fnum f * 10 ^ p) (fden f).

(** [round(f, p)]. *)
Definition f_round (p : Z) (f : b64) : b64 := rnd (fneg f) (f_scaled p f) (10 ^ p).

(** [n] in decimal, left-padded with zeros to width [w]. *)
Fixpoint zeros (n : nat) : string :=
  match n with O => EmptyString | S n' => String "0" (zeros n') end.
Definition zpad (w : nat) (n : Z) : string :=
  let s := str_of_Z n in zeros (w - String.length s) +:+ s.

(** A number of [10^-p] units printed with [p] decimals. *)
Definition fmt_fixed (p : nat) (neg : bool) (n : Z) : string :=
  (if neg then "-" else "")%string +:+ str_of_Z (n / 10 ^ Z.of_nat p) +:+
  "."%string +:+ zpad p (n mod 10 ^ Z.of_nat p).

(** [f"{f:.pf}"]. *)
Definition f_fmt (p : nat) (f : b64) : string :=
  fmt_fixed p (fneg f) (f_scaled (Z.of_nat p) f).

(** ** Rounding error *)

Lemma rne_div_spec n d : 0 < d -> Z.abs (2 * (rne_div n d * d - n)) <= d.
Proof.
  intros Hd. unfold rne_div.
  pose proof (Z.div_mod n d ltac:(lia)). pose proof (Z.mod_pos_bound n d Hd).
  destruct (Z.ltb_spec (2 * (n mod d)) d); [nia|].
  destruct (Z.ltb_spec d (2 * (n mod d))); [nia|].
  destruct (Z.even (n / d)); nia.
Qed.

Lemma rne_div_unique n d q : 0 < d -> Z.abs (2 * (q * d - n)) < d -> rne_div n d = q.
Proof. intros Hd H. pose proof (rne_div_spec n d Hd). nia. Qed.

Lemma rne_div_exact q d : 0 < d -> rne_div (q * d) d = q.
Proof. intros Hd. apply rne_div_unique; [done|]. nia. Qed.

Lemma pow2_pos k : 0 < 2 ^ Z.max 0 k.
Proof. apply Z.pow_pos_nonneg; lia. Qed.

Lemma fden_pos f : 0 < fden f.
Proof. apply pow2_pos. Qed.

Lemma log2_quot_spec n d :
  0 < n -> 0 < d ->
  let k := log2_quot n d in
  d * 2 ^ Z.max 0 k <= n * 2 ^ Z.max 0 (- k) /\
  n * 2 ^ Z.max 0 (- k) < 2 * (d * 2 ^ Z.max 0 k).
Proof.
  intros Hn Hd k0. subst k0. unfold log2_quot.
  pose proof (Z.log2_spec n Hn) as [Hn1 Hn2]. pose proof (Z.log2_spec d Hd) as [Hd1 Hd2].
  pose proof (Z.log2_nonneg n) as Ha. pose proof (Z.log2_nonneg d) as Hb.
  set (a := Z.log2 n) in *. set (b := Z.log2 d) in *.
  rewrite Z.pow_succ_r in Hn2, Hd2 by done.
  assert (Hmul : forall p q r, 0 < r -> p <= q -> p * r <= q * r) by (intros; nia).
  assert (Hmul' : forall p q r, 0 < r -> p < q -> p * r < q * r) by (intros; nia).
  assert (Hsplit : forall x y, 0 <= y <= x -> 2 ^ x = 2 ^ y * 2 ^ (x - y))
    by (intros; rewrite <- Z.pow_add_r by lia; f_equal; lia).
  assert (Hpos : forall x, 0 <= x -> 0 < 2 ^ x) by (intros; apply Z.pow_pos_nonneg; lia).
  destruct (Z.leb_spec (d * 2 ^ Z.max 0 (a - b)) (n * 2 ^ Z.max 0 (- (a - b)))) as [H|H].
  - split; [done|]. clear H. destruct (Z.le_gt_cases b a).
    + rewrite (Z.max_r 0 (a - b)), (Z.max_l 0 (- (a - b))), Z.pow_0_r by lia.
      pose proof (Hsplit a b ltac:(lia)). pose proof (Hpos (a - b) ltac:(lia)) as HP.
      specialize (Hmul _ _ _ HP Hd1). lia.
    + rewrite (Z.max_l 0 (a - b)), (Z.max_r 0 (- (a - b))), Z.pow_0_r by lia.
      replace (- (a - b)) with (b - a) by lia.
      pose proof (Hsplit b a ltac:(lia)). pose proof (Hpos (b - a) ltac:(lia)) as HP.
      specialize (Hmul' _ _ _ HP Hn2). lia.
  - destruct (Z.le_gt_cases (b + 1) a).
    + rewrite (Z.max_r 0 (a - b)), (Z.max_l 0 (- (a - b))), Z.pow_0_r in H by lia.
      rewrite (Z.max_r 0 (a - b - 1)), (Z.max_l 0 (- (a - b - 1))), Z.pow_0_r by lia.
      pose proof (Hsplit a b ltac:(lia)).
      assert (E : 2 ^ (a - b) = 2 * 2 ^ (a - b - 1)) by (rewrite <- Z.pow_succ_r by lia; f_equal; lia).
      pose proof (Hpos (a - b - 1) ltac:(lia)) as HP.
      specialize (Hmul' _ _ _ HP Hd2). split; [|nia].
      rewrite E in *. nia.
    + rewrite (Z.max_l 0 (a - b - 1)), (Z.max_r 0 (- (a - b - 1))), Z.pow_0_r by lia.
      rewrite (Z.max_l 0 (a - b)), (Z.max_r 0 (- (a - b))), Z.pow_0_r in H by lia.
      replace (- (a - b)) with (b - a) in H by lia.
      pose proof (Hsplit b a ltac:(lia)).
      assert (E : 2 ^ (- (a - b - 1)) = 2 * 2 ^ (b - a)) by (rewrite <- Z.pow_succ_r by lia; f_equal; lia).
      pose proof (Hpos (b - a) ltac:(lia)) as HP.
      specialize (Hmul _ _ _ HP Hn1). rewrite E. lia.
Qed.

(** The double [rnd] returns is within half a unit in the 53rd place of the
    exact quotient, stated without division. *)
Lemma rnd_error neg n d :
  0 < n -> 0 < d ->
  2 ^ 53 * Z.abs (fnum (rnd neg n d) * d - n * fden (rnd neg n d)) <= fnum (rnd neg n d) * d.
Proof.
  intros Hn Hd. pose proof (log2_quot_spec n d Hn Hd) as [Hk _].
  unfold rnd. rewrite (proj2 (Z.eqb_neq n 0)) by lia.
  set (k := log2_quot n d) in *. set (e := k - 52).
  set (A := 2 ^ Z.max 0 (- e)). set (B := 2 ^ Z.max 0 e).
  assert (HA : 0 < A) by apply pow2_pos. assert (HB : 0 < B) by apply pow2_pos.
  set (m := rne_div (n * A) (d * B)).
  pose proof (rne_div_spec (n * A) (d * B) ltac:(nia)) as Hm. fold m in Hm.
  assert (Hlow : 2 ^ 52 * (d * B) <= n * A).
  { assert (E : B * 2 ^ 52 * 2 ^ Z.max 0 (- k) = 2 ^ Z.max 0 k * A).
    { subst A B. rewrite <- !Z.pow_add_r by lia. f_equal. lia. }
    pose proof (pow2_pos (- k)). pose proof (pow2_pos k).
    apply (Z.mul_le_mono_pos_r _ _ (2 ^ Z.max 0 (- k))); [done|].
    replace (2 ^ 52 * (d * B) * 2 ^ Z.max 0 (- k)) with (d * 2 ^ Z.max 0 k * A) by nia.
    replace (n * A * 2 ^ Z.max 0 (- k)) with (n * 2 ^ Z.max 0 (- k) * A) by nia.
    apply Z.mul_le_mono_nonneg_r; lia. }
  assert (HdB : 0 < d * B) by nia.
  assert (Hm52 : 2 ^ 52 <= m) by nia.
  set (f := if m =? 2 ^ 53 then _ else _).
  assert (Hf : fnum f * A = m * B * fden f).
  { subst f. destruct (Z.eqb_spec m (2 ^ 53)) as [->|_]; unfold fnum, fden; cbn [fman fexp].
    - change (2 ^ 53) with (2 ^ 52 * 2 ^ 1). subst A B.
      rewrite <- !Z.pow_add_r by lia. f_equal. lia.
    - subst A B. lia. }
  pose proof (fden_pos f) as Hfd.
  assert (Herr : 2 ^ 53 * Z.abs (m * (d * B) - n * A) <= m * (d * B)).
  { assert (2 ^ 52 * (d * B) <= m * (d * B)) by (apply Z.mul_le_mono_nonneg_r; lia). lia. }
  apply (Z.mul_le_mono_pos_r _ _ A); [done|].
  replace (fnum f * d * A) with (m * (d * B) * fden f) by nia.
  rewrite <- Z.mul_assoc. rewrite <- (Z.abs_eq A) at 1 by lia. rewrite <- Z.abs_mul.
  replace ((fnum f * d - n * fden f) * A) with ((m * (d * B) - n * A) * fden f) by nia.
  rewrite Z.abs_mul, (Z.abs_eq (fden f)) by lia. nia.
Qed.

Lemma rnd_pos neg n d : 0 < n -> 0 < d -> 0 < fnum (rnd neg n d).
Proof.
  intros Hn Hd. pose proof (rnd_error neg n d Hn Hd). pose proof (fden_pos (rnd neg n d)).
  nia.
Qed.

Lemma rnd_sign neg n d : fneg (rnd neg n d) = neg.
Proof. unfold rnd. destruct (n =? 0); [done|]. by destruct (_ =? 2 ^ 53). Qed.

Lemma rnd_zero neg d : fnum (rnd neg 0 d) = 0.
Proof. done. Qed.

(** Integers below 2^53 are doubles. *)
Lemma rnd_exact_Z neg z :
  0 < z < 2 ^ 53 -> fnum (rnd neg z 1) = z * fden (rnd neg z 1).
Proof.
  intros Hz. unfold rnd. rewrite (proj2 (Z.eqb_neq z 0)) by lia.
  assert (He : log2_quot z 1 - 52 <= 0).
  { pose proof (log2_quot_spec z 1 ltac:(lia) ltac:(lia)) as [H _].
    set (k := log2_quot z 1) in *. destruct (Z.le_gt_cases k 52); [lia|]. exfalso.
    rewrite (Z.max_r 0 k), (Z.max_l 0 (- k)), Z.pow_0_r in H by lia.
    pose proof (Z.pow_le_mono_r 2 53 k ltac:(lia) ltac:(lia)). lia. }
  set (e := log2_quot z 1 - 52) in *.
  replace (Z.max 0 e) with 0 by lia. rewrite Z.pow_0_r, Z.mul_1_r.
  set (A := 2 ^ Z.max 0 (- e)).
  assert (Hm : rne_div (z * A) 1 = z * A).
  { pose proof (rne_div_exact (z * A) 1 ltac:(lia)) as E. by rewrite Z.mul_1_r in E. }
  rewrite Hm. destruct (Z.eqb_spec (z * A) (2 ^ 53)) as [E|_]; unfold fnum, fden; cbn [fman fexp].
  - destruct (Z.eq_dec e 0) as [E0|E0].
    + exfalso. subst A. rewrite E0 in E. change (2 ^ Z.max 0 (- 0)) with 1 in E. lia.
    + replace (Z.max 0 (e + 1)) with 0 by lia. rewrite Z.pow_0_r, Z.mul_1_r.
      assert (EA : A = 2 * 2 ^ Z.max 0 (- (e + 1))).
      { subst A. rewrite <- Z.pow_succ_r by lia. f_equal. lia. }
      rewrite EA in E. lia.
  - replace (Z.max 0 e) with 0 by lia. lia.
Qed.

(** [f"{round(x, 5):.5f}"]-style double rounding is harmless: printing the double
    nearest to [n / 10^p] with [p] decimals prints [n]. *)
Lemma f_scaled_rnd p neg n :
  0 <= p <= 15 -> 0 <= n < 2 ^ 50 -> f_scaled p (rnd neg n (10 ^ p)) = n.
Proof.
  intros Hp Hn. unfold f_scaled.
  destruct (Z.eq_dec n 0) as [->|Hn0]; [reflexivity|].
  assert (H10 : 0 < 10 ^ p) by (apply Z.pow_pos_nonneg; lia).
  pose proof (rnd_error neg n (10 ^ p) ltac:(lia) H10) as H.
  pose proof (rnd_pos neg n (10 ^ p) ltac:(lia) H10) as Hpos.
  set (f := rnd neg n (10 ^ p)) in *. pose proof (fden_pos f) as Hfd.
  apply rne_div_unique; [done|].
  set (a := fnum f * 10 ^ p) in *. set (b := n * fden f) in *.
  assert (b < 2 ^ 50 * fden f) by nia. lia.
Qed.
