(* ===== verification/PyPath.v ===== *)
(** * Python's [os.path] (POSIX) and [difflib.SequenceMatcher.ratio]

    The two pieces of the standard library the path code rests on.  The working
    directory of the process is an argument ([cwd]) of the functions that read
    it. *)
From S2P Require Export PyFloat.
From Stdlib Require Export Lia.
#[local] Open Scope string_scope.
#[local] Open Scope list_scope.

(** ** Strings *)

(** [c in chars], [s.lstrip(chars)] and [s.rstrip(chars)]. *)
Fixpoint char_in (c : ascii) (chars : string) : bool :=
  match chars with
  | EmptyString => false
  | String c' chars' => bool_decide (c = c') || char_in c chars'
  end.

Fixpoint lstrip_chars (chars s : string) : string :=
  match s with
  | String c s' => if char_in c chars then lstrip_chars chars s' else s
  | EmptyString => EmptyString
  end.

Fixpoint rstrip_chars (chars s : string) : string :=
  match s with
  | EmptyString => EmptyString
  | String c s' =>
      match rstrip_chars chars s' with
      | EmptyString => if char_in c chars then EmptyString else String c EmptyString
      | r => String c r
      end
  end.

(** ** [posixpath] *)

Definition isabs (path : string) : bool := startswith "/" path.

Definition path_join (a b : string) : string :=
  if startswith "/" b then b
  else if bool_decide (a = "") || endswith "/" a then a +:+ b
  else a +:+ "/" +:+ b.

(** [splitroot]: the root (nothing, one slash, or exactly two) and the rest. *)
Definition splitroot (path : string) : string * string :=
  match path with
  | String "/" (String "/" (String "/" _ as r)) => ("/", str_drop 1 path)
  | String "/" (String "/" r) => ("//", r)
  | String "/" r => ("/", r)
  | _ => ("", path)
  end.

(** One component of the loop of [normpath]; [comps] is reversed. *)
Definition norm_step (root : string) (comps : list string) (comp : string) : list string :=
  if bool_decide (comp = "") || bool_decide (comp = ".") then comps
  else if negb (bool_decide (comp = ".."))
          || (bool_decide (root = "") && bool_decide (comps = []))
          || bool_decide (head comps = Some "..") then comp :: comps
  else tail comps.

Definition normpath (path : string) : string :=
  if bool_decide (path = "") then "."
  else
    let '(root, rest) := splitroot path in
    let p := root +:+ join "/" (rev (foldl (norm_step root) [] (split "/" rest))) in
    if bool_decide (p = "") then "." else p.

Definition abspath (cwd path : string) : string :=
  normpath (if isabs path then path else path_join cwd path).

(** The components of an absolute path. *)
Definition path_list (p : string) : list string := filter (fun x => x <> "") (split "/" p).

Fixpoint drop_common (start p : list string) : list string * list string :=
  match start, p with
  | x :: start', y :: p' => if decide (x = y) then drop_common start' p' else (start, p)
  | _, _ => (start, p)
  end.

Definition relpath (cwd path : string) : result string :=
  if bool_decide (path = "") then Err ValueError
  else
    let '(up, down) := drop_common (path_list (abspath cwd ".")) (path_list (abspath cwd path)) in
    match ((fun _ => "..") <$> up) ++ down with
    | [] => Ok "."
    | rel_list => Ok (join "/" rel_list)
    end.

(** ** [difflib.SequenceMatcher(None, a, b).ratio()] *)
Section SequenceMatcher.
Variables a b : list ascii.

(** [b2j]: the positions of a character in [b], none when the character is
    popular (more than one in a hundred of at least 200). *)
Definition indices (c : ascii) : list nat :=
  filter (fun j => nth_error b j = Some c) (seq 0 (length b)).

Definition b2j (c : ascii) : list nat :=
  let n := length b in
  let idxs := indices c in
  if (200 <=? n)%nat && (n `div` 100 + 1 <? length idxs)%nat then [] else idxs.

(** [find_longest_match]: [best] is the triple [besti, bestj, bestsize]. *)
Definition longest_step (blo bhi i : nat) (acc : odict nat nat * odict nat nat * (nat * nat * nat)) (j : nat)
    : odict nat nat * odict nat nat * (nat * nat * nat) :=
  let '(j2len, newj2len, best) := acc in
  if (j <? blo)%nat || (bhi <=? j)%nat then acc
  else
    let k := S (match j with O => O | S j' => default O (od_get j' j2len) end) in
    (j2len, od_set j k newj2len, if (best.2 <? k)%nat then (i + 1 - k, j + 1 - k, k)%nat else best).

Definition longest_row (blo bhi : nat) (acc : odict nat nat * (nat * nat * nat)) (i : nat)
    : odict nat nat * (nat * nat * nat) :=
  let '(j2len, best) := acc in
  let js := match nth_error a i with Some c => b2j c | None => [] end in
  let '(_, newj2len, best') := foldl (longest_step blo bhi i) (j2len, [], best) js in
  (newj2len, best').

Definition same_at (i j : nat) : bool :=
  match nth_error a i, nth_error b j with Some x, Some y => bool_decide (x = y) | _, _ => false end.

Fixpoint extend_left (alo blo i j : nat) : nat :=
  match i, j with
  | S i', S j' =>
      if (alo <=? i')%nat && (blo <=? j')%nat && same_at i' j' then S (extend_left alo blo i' j') else O
  | _, _ => O
  end.

(** [n] bounds the steps by the characters left in [a]. *)
Fixpoint extend_right (n ahi bhi i j : nat) : nat :=
  match n with
  | O => O
  | S n' =>
      if (i <? ahi)%nat && (j <? bhi)%nat && same_at i j then S (extend_right n' ahi bhi (S i) (S j)) else O
  end.

Definition find_longest_match (alo ahi blo bhi : nat) : nat * nat * nat :=
  let '(_, (i, j, k)) := foldl (longest_row blo bhi) ([], (alo, blo, O)) (seq alo (ahi - alo)) in
  let l := extend_left alo blo i j in
  let '(i, j, k) := (i - l, j - l, k + l)%nat in
  (i, j, (k + extend_right (ahi - (i + k)) ahi bhi (i + k) (j + k))%nat).

(** The total size of the matching blocks of a range: the longest match, and
    the blocks on its two sides. *)
Fixpoint matching_size (fuel alo ahi blo bhi : nat) : nat :=
  match fuel with
  | O => O
  | S fuel' =>
      let '(i, j, k) := find_longest_match alo ahi blo bhi in
      if (k =? 0)%nat then O
      else k
        + (if (alo <? i)%nat && (blo <? j)%nat then matching_size fuel' alo i blo j else O)
        + (if (i + k <? ahi)%nat && (j + k <? bhi)%nat then matching_size fuel' (i + k) ahi (j + k) bhi else O)
  end%nat.
End SequenceMatcher.

(** [float(n)] of a length, far below the overflow threshold. *)
Definition f_of_nat (n : nat) : b64 := rnd false (Z.of_nat n) 1.

Definition ratio (s1 s2 : string) : b64 :=
  let a := String.list_ascii_of_string s1 in
  let b := String.list_ascii_of_string s2 in
  let n := (length a + length b)%nat in
  match n with
  | O => f_of_nat 1
  | _ =>
      let num := f_mul (f_of_nat 2) (f_of_nat (matching_size a b (S (length a)) 0 (length a) 0 (length b))) in
      rnd false (fnum num * fden (f_of_nat n)) (fden num * fnum (f_of_nat n))
  end.

(** ** Lemmas *)

(** *** Splitting at a separator *)

Lemma split_go_join sep s :
  sep <> "" -> (forall k, let '(p, r) := split_go sep k s in
  join sep (p :: r) = str_drop k s).
Proof.
  intros Hne. induction s as [|c s IH]; intros k; cbn [split_go]; [by destruct k|].
  destruct k as [|k].
  - destruct (String.prefix sep (String c s)) eqn:E.
    + specialize (IH (String.length sep - 1)%nat).
      destruct (split_go sep (String.length sep - 1) s) as [p r].
      apply prefix_spec in E as [q E]. destruct sep as [|c0 sep]; [done|].
      cbn in E. injection E as -> ->. cbn [String.length Nat.sub] in IH.
      rewrite Nat.sub_0_r, str_drop_app in IH.
      change (join (String c0 sep) ("" :: p :: r)) with (String c0 sep +:+ join (String c0 sep) (p :: r)).
      by rewrite IH.
    + specialize (IH O). destruct (split_go sep 0 s) as [p r]. cbn [str_drop] in *.
      rewrite <- IH. by destruct r.
  - specialize (IH k). by destruct (split_go sep k s) as [p r].
Qed.

(** [sep.join(s.split(sep)) == s]. *)
Lemma join_split sep s : sep <> "" -> join sep (split sep s) = s.
Proof.
  intros Hne. unfold split. pose proof (split_go_join sep s Hne 0) as H.
  by destruct (split_go sep 0 s).
Qed.

Lemma split_nonempty sep s : split sep s <> [].
Proof. unfold split. by destruct (split_go sep 0 s). Qed.

Lemma lower_slash c : bool_decide ("/"%char = lower_char c) = bool_decide ("/"%char = c).
Proof. by destruct c as [[] [] [] [] [] [] [] []]. Qed.

Lemma split_lower s : split "/" (lower s) = lower <$> split "/" s.
Proof.
  unfold split. enough (H : split_go "/" 0 (lower s) =
    let '(p, r) := split_go "/" 0 s in (lower p, lower <$> r)).
  { rewrite H. by destruct (split_go "/" 0 s). }
  induction s as [|c s IH]; [done|]. cbn [lower split_go String.length Nat.sub].
  rewrite !prefix_char, lower_slash, IH. destruct (split_go "/" 0 s) as [p r].
  by destruct (bool_decide _).
Qed.

(** *** Similarity *)

Lemma ratio_sign s1 s2 : fneg (ratio s1 s2) = false.
Proof. unfold ratio. destruct (_ + _)%nat; [done|]. apply rnd_sign. Qed.

Lemma rnd_nonneg neg n d : (0 <= n)%Z -> (0 < d)%Z -> (0 <= fnum (rnd neg n d))%Z.
Proof.
  intros Hn Hd. destruct (decide (n = 0)%Z) as [->|]; [done|].
  pose proof (rnd_pos neg n d ltac:(lia) Hd). lia.
Qed.

Lemma f_mul_nonneg f g : (0 <= fnum f)%Z -> (0 <= fnum g)%Z -> (0 <= fnum (f_mul f g))%Z.
Proof.
  intros Hf Hg. pose proof (fden_pos f). pose proof (fden_pos g).
  apply rnd_nonneg; nia.
Qed.

Lemma ratio_nonneg s1 s2 : (0 <= fnum (ratio s1 s2))%Z.
Proof.
  unfold ratio. set (m := matching_size _ _ _ _ _ _ _). clearbody m.
  destruct (length _ + length _)%nat as [|n]; [done|].
  assert (Hn : (0 < fnum (f_of_nat (S n)))%Z) by (apply rnd_pos; lia).
  assert (Hm : (0 <= fnum (f_mul (f_of_nat 2) (f_of_nat m)))%Z).
  { apply f_mul_nonneg; apply rnd_nonneg; lia. }
  pose proof (fden_pos (f_mul (f_of_nat 2) (f_of_nat m))).
  pose proof (fden_pos (f_of_nat (S n))).
  apply rnd_nonneg; nia.
Qed.

(** Every similarity exceeds the initial [-1.0]. *)
Lemma ratio_gt_m1 s1 s2 : f_ltb (B64 true 1 0) (ratio s1 s2) = true.
Proof.
  unfold f_ltb, f_cmp. pose proof (ratio_nonneg s1 s2). pose proof (fden_pos (ratio s1 s2)).
  assert (E : (f_signed (B64 true 1 0) * fden (ratio s1 s2) ?=
               f_signed (ratio s1 s2) * fden (B64 true 1 0))%Z = Lt); [|by rewrite E].
  apply Z.compare_lt_iff.
  change (f_signed (B64 true 1 0)) with (-1)%Z. change (fden (B64 true 1 0)) with 1%Z.
  unfold f_signed. rewrite ratio_sign. lia.
Qed.

(** *** The recursion over matching blocks ends *)
Section blocks.
Variables a b : list ascii.

(** A match [(i, j, k)] lies within [alo, hi). *)
Definition block_in (alo hi : nat) (best : nat * nat * nat) : Prop :=
  (alo <= best.1.1 /\ best.1.1 + best.2 <= hi)%nat.

Definition row_ok (alo i : nat) (d : odict nat nat) : Prop :=
  forall j k, od_get j d = Some k -> (k <= i - alo)%nat.

Lemma longest_row_in alo i blo bhi d best :
  (alo <= i)%nat -> row_ok alo i d -> block_in alo i best ->
  let '(d', best') := longest_row a b blo bhi (d, best) i in
  row_ok alo (S i) d' /\ block_in alo (S i) best'.
Proof.
  intros Hi Hd Hb. cbn.
  set (js := match nth_error a i with Some c => b2j b c | None => [] end). clearbody js.
  assert (Hb' : block_in alo (S i) best) by (unfold block_in in *; lia).
  assert (Hn : row_ok alo (S i) []) by (by intros ? ?).
  clear Hb. revert Hb' Hn. generalize (@nil (nat * nat)) as d'. revert best.
  induction js as [|j js IH]; intros best d' Hb Hn; cbn [foldl]; [done|].
  unfold longest_step at 2. destruct (_ || _); [by apply IH|].
  set (k0 := match j with O => O | S j' => default O (od_get j' d) end).
  assert (Hk : (k0 <= i - alo)%nat).
  { subst k0. destruct j as [|j']; [lia|]. destruct (od_get j' d) eqn:E; cbn; [by apply (Hd j')|lia]. }
  apply IH.
  - destruct (best.2 <? S k0)%nat; [|done]. unfold block_in. cbn [fst snd]. lia.
  - intros j' k'. destruct (decide (j' = j)) as [->|Hne].
    + rewrite od_get_set_eq. intros [= <-]. lia.
    + rewrite od_get_set_ne by done. apply Hn.
Qed.

Lemma longest_rows_in alo blo bhi n best :
  block_in alo alo best ->
  let '(d', best') := foldl (longest_row a b blo bhi) ([], best) (seq alo n) in
  block_in alo (alo + n) best'.
Proof.
  intros Hb. enough (H : forall m i d best0, (alo <= i)%nat -> row_ok alo i d -> block_in alo i best0 ->
    block_in alo (i + m) (foldl (longest_row a b blo bhi) (d, best0) (seq i m)).2).
  { pose proof (H n alo [] best) as H'. destruct (foldl _ _ _). cbn in H'. apply H'; [lia | | done].
    by intros ? ?. }
  induction m as [|m IH]; intros i d best0 Hi Hd Hb0; cbn [seq foldl snd].
  - by rewrite Nat.add_0_r.
  - pose proof (longest_row_in alo i blo bhi d best0 Hi Hd Hb0) as Hr.
    destruct (longest_row a b blo bhi (d, best0) i) as [d1 best1]. destruct Hr as [Hd1 Hb1].
    replace (i + S m)%nat with (S i + m)%nat by lia. apply IH; [lia | done | done].
Qed.

Lemma extend_left_le alo blo i j : (alo <= i -> extend_left a b alo blo i j <= i - alo)%nat.
Proof.
  revert j. induction i as [|i IH]; intros j Hi; cbn; [lia|]. destruct j as [|j]; [lia|].
  destruct (alo <=? i)%nat eqn:E; cbn [andb]; [|lia]. apply Nat.leb_le in E.
  destruct (_ && _); [|lia]. specialize (IH j E). lia.
Qed.

Lemma extend_right_le n ahi bhi i j : (extend_right a b n ahi bhi i j <= n)%nat.
Proof.
  revert i j. induction n as [|n IH]; intros i j; cbn; [lia|].
  destruct (_ && _); [|lia]. specialize (IH (S i) (S j)). lia.
Qed.

Lemma find_longest_match_in alo ahi blo bhi :
  (alo <= ahi)%nat -> block_in alo ahi (find_longest_match a b alo ahi blo bhi).
Proof.
  intros Ha. unfold find_longest_match.
  pose proof (longest_rows_in alo blo bhi (ahi - alo) (alo, blo, O)) as H.
  destruct (foldl _ _ _) as [d [[i j] k]]. unfold block_in in *. cbn [fst snd] in *.
  pose proof (extend_left_le alo blo i j).
  set (l := extend_left a b alo blo i j) in *. clearbody l.
  pose proof (extend_right_le (ahi - (i - l + (k + l))) ahi bhi (i - l + (k + l)) (j - l + (k + l))).
  lia.
Qed.

(** More fuel than characters changes nothing. *)
Lemma matching_size_fuel fuel fuel' alo ahi blo bhi :
  (alo <= ahi)%nat -> (ahi - alo < fuel)%nat -> (ahi - alo < fuel')%nat ->
  matching_size a b fuel alo ahi blo bhi = matching_size a b fuel' alo ahi blo bhi.
Proof.
  revert fuel' alo ahi blo bhi. induction fuel as [|fuel IH]; intros fuel' alo ahi blo bhi Ha Hf Hf'; [lia|].
  destruct fuel' as [|fuel']; [lia|]. cbn [matching_size].
  pose proof (find_longest_match_in alo ahi blo bhi Ha) as Hin.
  destruct (find_longest_match a b alo ahi blo bhi) as [[i j] k]. unfold block_in in Hin. cbn in Hin.
  destruct (k =? 0)%nat eqn:Ek; [done|]. apply Nat.eqb_neq in Ek.
  rewrite (IH fuel' alo i) by lia. rewrite (IH fuel' (i + k)%nat ahi) by lia. done.
Qed.
End blocks.
