(* ===== verification/Match.v ===== *)
(** * [shared/utils/match.py]: path patterns

    The regular-expression engine is Python's [re]; [Re] is its interface:
    [re.compile], as the anchored [match] of the compiled pattern, or an
    [re.error]. *)
From S2P Require Export PyStr.
#[local] Open Scope string_scope.
#[local] Open Scope list_scope.

Class Re : Type := {
  re_compile : string -> result (string -> bool);
}.

(** [Matcher(patterns)._patterns]: a set, as the list of its elements. *)
Definition pattern_set (patterns : option (list string)) : list string :=
  remove_dups (default [] patterns).

Definition is_negative (pattern : string) : bool := startswith "^!" pattern || startswith "!" pattern.

Section match_.
Context `{Re}.

(** The positive and the negative matchers, of the non-empty patterns. *)
Definition _get_matchers (patterns : list string) : result (list (string -> bool) * list (string -> bool)) :=
  foldM (fun '(positives, negatives) pattern =>
    if bool_decide (pattern = "") then Ok (positives, negatives)
    else if is_negative pattern then
      m ← re_compile (str_replace "!" "" pattern); Ok (positives, negatives ++ [m])
    else
      m ← re_compile pattern; Ok (positives ++ [m], negatives)) ([], []) patterns.

Definition matcher_match (patterns : option (list string)) (s : string) : result bool :=
  let ps := pattern_set patterns in
  if bool_decide (ps = []) || bool_decide (s ∈ ps) then Ok true
  else
    '(positives, negatives) ← _get_matchers ps;
    if existsb (fun m => m s) negatives then Ok false
    else
      match positives with
      | [] => Ok true
      | _ => Ok (existsb (fun m => m s) positives)
      end.

Fixpoint any_match (patterns : option (list string)) (ss : list string) : result bool :=
  match ss with
  | [] => Ok false
  | s :: ss' => b ← matcher_match patterns s; if (b : bool) then Ok true else any_match patterns ss'
  end.

(** [match_any]: no strings, no match. *)
Definition match_any (patterns : option (list string)) (ss : option (list string)) : result bool :=
  any_match patterns (default [] ss).

(** ** Specification *)

(** A pattern accepts or rejects a string. *)
Definition rejects (s pattern : string) : Prop :=
  pattern <> "" /\ is_negative pattern = true /\
  exists m, re_compile (str_replace "!" "" pattern) = Ok m /\ m s = true.
Definition accepts (s pattern : string) : Prop :=
  pattern <> "" /\ is_negative pattern = false /\ exists m, re_compile pattern = Ok m /\ m s = true.
Definition positive (pattern : string) : Prop := pattern <> "" /\ is_negative pattern = false.

Definition compiles (pattern : string) : Prop :=
  pattern = "" \/
  is_Ok (re_compile (if is_negative pattern then str_replace "!" "" pattern else pattern)) = true.

Lemma get_matchers_run ps s :
  Forall compiles ps ->
  exists pos neg, _get_matchers ps = Ok (pos, neg) /\
    (existsb (fun m => m s) neg = true <-> Exists (rejects s) ps) /\
    (existsb (fun m => m s) pos = true <-> Exists (accepts s) ps) /\
    (pos = [] <-> ~ Exists positive ps).
Proof.
  intros Hc. unfold _get_matchers.
  enough (Hg : forall pos0 neg0, exists pos neg,
    foldM (fun '(positives, negatives) pattern =>
      if bool_decide (pattern = "") then Ok (positives, negatives)
      else if is_negative pattern then
        m ← re_compile (str_replace "!" "" pattern); Ok (positives, negatives ++ [m])
      else m ← re_compile pattern; Ok (positives ++ [m], negatives)) (pos0, neg0) ps
      = Ok ((pos0 ++ pos), (neg0 ++ neg)) /\
    (existsb (fun m => m s) neg = true <-> Exists (rejects s) ps) /\
    (existsb (fun m => m s) pos = true <-> Exists (accepts s) ps) /\
    (pos = [] <-> ~ Exists positive ps)) by apply (Hg [] []).
  induction Hc as [|p ps Hp _ IH]; intros pos0 neg0; cbn [foldM].
  { exists [], []. rewrite !app_nil_r. split; [done|]. rewrite !Exists_nil. cbn. intuition congruence. }
  assert (Hskip : ~ rejects s p -> ~ accepts s p -> ~ positive p ->
    forall pos neg, (existsb (fun m => m s) neg = true <-> Exists (rejects s) ps) /\
      (existsb (fun m => m s) pos = true <-> Exists (accepts s) ps) /\
      (pos = [] <-> ~ Exists positive ps) ->
      (existsb (fun m => m s) neg = true <-> Exists (rejects s) (p :: ps)) /\
      (existsb (fun m => m s) pos = true <-> Exists (accepts s) (p :: ps)) /\
      (pos = [] <-> ~ Exists positive (p :: ps))).
  { intros ? ? ? pos neg ?. rewrite !Exists_cons. tauto. }
  case_bool_decide as E.
  { destruct (IH pos0 neg0) as (pos & neg & R & Hrest). exists pos, neg. split; [exact R|].
    apply Hskip; [..|done]; unfold rejects, accepts, positive; tauto. }
  destruct Hp as [->|Hp]; [done|]. destruct (is_negative p) eqn:En.
  - destruct (re_compile _) as [m|] eqn:Em; [|done]. cbn [mbind result_bind].
    destruct (IH pos0 (neg0 ++ [m])) as (pos & neg & R & R1 & R2 & R3).
    exists pos, (m :: neg). rewrite <- app_assoc in R. split; [exact R|].
    assert (rejects s p <-> m s = true).
    { unfold rejects. rewrite Em. split; [by intros (_ & _ & ? & [= <-] & ?) | eauto]. }
    assert (~ accepts s p /\ ~ positive p) by (unfold accepts, positive; rewrite En; intuition congruence).
    rewrite !Exists_cons. cbn [existsb]. rewrite orb_true_iff, R1, R2, R3. tauto.
  - destruct (re_compile _) as [m|] eqn:Em; [|done]. cbn [mbind result_bind].
    destruct (IH (pos0 ++ [m]) neg0) as (pos & neg & R & R1 & R2 & R3).
    exists (m :: pos), neg. rewrite <- app_assoc in R. split; [exact R|].
    assert (accepts s p <-> m s = true).
    { unfold accepts. rewrite Em. split; [by intros (_ & _ & ? & [= <-] & ?) | eauto]. }
    assert (~ rejects s p /\ positive p) by (unfold rejects, positive; rewrite En; intuition congruence).
    rewrite !Exists_cons. cbn [existsb]. rewrite orb_true_iff, R1, R2.
    split_and!; [tauto | tauto |]. split; [done | tauto].
Qed.
End match_.

(** A concrete engine for examples: patterns match the strings they are a prefix of. *)
Definition literal_re : Re := {| re_compile := fun p => Ok (fun s => startswith p s) |}.

(** ** Properties *)

(** When every pattern compiles, [match] answers for every string: yes without
    patterns or for a string that is itself one of them; otherwise no if a negative
    pattern matches it, and else whether a positive pattern does or there are no
    positive patterns. *)
Theorem matcher_match_decides `{Re} patterns s :
  Forall compiles (default [] patterns) ->
  exists b, matcher_match patterns s = Ok b /\
    (b = true <->
     default [] patterns = [] \/ s ∈ default [] patterns \/
     (~ Exists (rejects s) (default [] patterns) /\
      (Exists (accepts s) (default [] patterns) \/ ~ Exists positive (default [] patterns)))).
Proof.
  set (l := default [] patterns). intros Hc. unfold matcher_match, pattern_set. fold l.
  assert (Hin : forall P : string -> Prop, Exists P (remove_dups l) <-> Exists P l).
  { intros P. rewrite !Exists_exists. by setoid_rewrite elem_of_remove_dups. }
  destruct (get_matchers_run (remove_dups l) s) as (pos & neg & -> & Hneg & Hpos & He).
  { rewrite Forall_forall in *. intros p Hp. apply Hc. by apply elem_of_remove_dups. }
  rewrite Hin in Hneg, Hpos, He. cbn [mbind result_bind].
  assert (Hnil : remove_dups l = [] <-> l = []).
  { split; [|by intros ->]. intros E. destruct l as [|x l']; [done|].
    assert (x ∈ remove_dups (x :: l')) as Hx by (apply elem_of_remove_dups; left).
    rewrite E in Hx. by apply not_elem_of_nil in Hx. }
  destruct (bool_decide_reflect (remove_dups l = [])) as [E|E]; cbn [orb]; [exists true; tauto|].
  destruct (bool_decide_reflect (s ∈ remove_dups l)) as [E'|E']; rewrite elem_of_remove_dups in E'.
  { exists true. tauto. }
  destruct (existsb _ neg); [exists false; split; [done|]; intuition congruence|].
  assert (~ Exists (rejects s) l) by (rewrite <- Hneg; done).
  destruct pos as [|m pos]; [exists true; split; [done|]; tauto|].
  eexists; split; [done|]. rewrite Hpos. assert (~ ~ Exists positive l) by by intros ?%He.
  tauto.
Qed.

Lemma matcher_match_decides_witness :
  exists b, @matcher_match literal_re (Some ["!src/gen"; "src/"]) "src/a.py" = Ok b /\
    (b = true <->
     ["!src/gen"; "src/"] = [] \/ "src/a.py" ∈ ["!src/gen"; "src/"] \/
     (~ Exists (@rejects literal_re "src/a.py") ["!src/gen"; "src/"] /\
      (Exists (@accepts literal_re "src/a.py") ["!src/gen"; "src/"] \/
       ~ Exists positive ["!src/gen"; "src/"]))).
Proof.
  apply (@matcher_match_decides literal_re (Some ["!src/gen"; "src/"])).
  repeat constructor; right; reflexivity.
Defined.
