(* ===== verification/PyRe.v ===== *)
(** * Regular expressions of the code's own

    A backtracking matcher for the constructs the code's literal patterns use,
    over the text of one line.  As in Python's [re], an alternative is tried
    from left to right and a repetition is greedy; [re_match] returns the text
    after the first match found in that order.  [Matches] is the language of a
    pattern; the matcher finds a match exactly when there is one.  The last part
    parses the text of a pattern. *)
From S2P Require Export PyPath.
From S2P Require Export Match.

#[local] Open Scope string_scope.
#[local] Open Scope list_scope.

Inductive regex : Type :=
  | Chr (f : ascii -> bool)
  | Eps
  | Eol
  | Cat (r1 r2 : regex)
  | Alt (r1 r2 : regex)
  | Star (r : regex).

Definition Plus (r : regex) : regex := Cat r (Star r).
Definition Opt (r : regex) : regex := Alt r Eps.
Fixpoint Rep (n : nat) (r : regex) : regex :=
  match n with O => Eps | S n' => Cat r (Rep n' r) end.

(** Literal text, ignoring case. *)
Definition Char (c : ascii) : regex := Chr (fun x => bool_decide (lower_char x = lower_char c)).
Fixpoint Lit (s : string) : regex :=
  match s with EmptyString => Eps | String c s' => Cat (Char c) (Lit s') end.
Fixpoint Cats (l : list regex) : regex :=
  match l with [] => Eps | [r] => r | r :: l' => Cat r (Cats l') end.
Fixpoint Alts (l : list regex) : regex :=
  match l with [] => Eps | [r] => r | r :: l' => Alt r (Alts l') end.

(** [.], [\w] and [[^/\n]]. *)
Definition Any : regex := Chr (fun c => negb (bool_decide (c = LF))).
Definition is_word (c : ascii) : bool :=
  let n := N_of_ascii c in
  ((48 <=? n) && (n <=? 57) || (65 <=? n) && (n <=? 90) || (97 <=? n) && (n <=? 122) || (n =? 95)
   || (n =? 170) || (n =? 178) || (n =? 179) || (n =? 181) || (n =? 185) || (n =? 186)
   || (188 <=? n) && (n <=? 190) || (192 <=? n) && negb (n =? 215) && negb (n =? 247))%N.
Definition Word : regex := Chr is_word.
Definition NotSlash : regex := Chr (fun c => negb (bool_decide (c = "/"%char)) && negb (bool_decide (c = LF))).

(** The text after the first match at the head of [s] whose rest [k] accepts.  An
    iteration of a star that consumes nothing ends it. *)
Fixpoint re_match (r : regex) (s : string) (k : string -> option string) : option string :=
  match r with
  | Chr f => match s with String c s' => if f c then k s' else None | EmptyString => None end
  | Eps => k s
  | Eol => match s with EmptyString => k s | _ => None end
  | Cat r1 r2 => re_match r1 s (fun s' => re_match r2 s' k)
  | Alt r1 r2 => match re_match r1 s k with Some x => Some x | None => re_match r2 s k end
  | Star r1 =>
      (fix loop (n : nat) (s : string) : option string :=
         match n with
         | O => k s
         | S n' =>
             match re_match r1 s (fun s' =>
               if (String.length s' <? String.length s)%nat then loop n' s' else None) with
             | Some x => Some x
             | None => k s
             end
         end) (String.length s) s
  end.

(** [Matches r s s']: a match of [r] at the head of [s] leaves [s']. *)
Inductive Matches : regex -> string -> string -> Prop :=
  | M_Chr f c s : f c = true -> Matches (Chr f) (String c s) s
  | M_Eps s : Matches Eps s s
  | M_Eol : Matches Eol "" ""
  | M_Cat r1 r2 s s1 s2 : Matches r1 s s1 -> Matches r2 s1 s2 -> Matches (Cat r1 r2) s s2
  | M_Alt_l r1 r2 s s1 : Matches r1 s s1 -> Matches (Alt r1 r2) s s1
  | M_Alt_r r1 r2 s s1 : Matches r2 s s1 -> Matches (Alt r1 r2) s s1
  | M_Star_nil r s : Matches (Star r) s s
  | M_Star_cons r s s1 s2 : Matches r s s1 -> Matches (Star r) s1 s2 -> Matches (Star r) s s2.

(** Two decidable ways to stop: the matcher answers with a value of [k] at some
    match, and with none only when [k] accepts no match. *)
Definition match_spec (r : regex) (s : string) (k : string -> option string) (o : option string) : Prop :=
  match o with
  | Some x => exists s', Matches r s s' /\ k s' = Some x
  | None => forall s', Matches r s s' -> k s' = None
  end.

Lemma Matches_suffix r s s' : Matches r s s' -> exists p, s = p +:+ s'.
Proof.
  induction 1 as [f c s _|s| |r1 r2 s s1 s2 _ [p ->] _ [q ->]| | |r s|r s s1 s2 _ [p ->] _ [q ->]];
    try done; try (by exists ""); try (by exists (String c "")); exists (p +:+ q); by rewrite str_app_assoc.
Qed.

Lemma Matches_length r s s' : Matches r s s' -> (String.length s' <= String.length s)%nat.
Proof. intros [p ->]%Matches_suffix. rewrite str_length_app. lia. Qed.

(** A repetition can be taken one non-empty iteration at a time. *)
Lemma Star_inv r s s' :
  Matches (Star r) s s' ->
  s' = s \/ exists s1, Matches r s s1 /\ (String.length s1 < String.length s)%nat /\ Matches (Star r) s1 s'.
Proof.
  intros H. remember (Star r) as r0 eqn:Er. revert Er.
  induction H as [ | | | | | | |r0 s s1 s2 H1 _ H2 IH]; intros [= ->]; [by left|].
  pose proof (Matches_length _ _ _ H1) as Hl.
  destruct (decide (String.length s1 = String.length s)) as [E|E]; [|right; exists s1; split_and!; [done|lia|done]].
  apply Matches_suffix in H1 as [p ->]. rewrite str_length_app in E.
  destruct p; [|cbn in E; lia]. by apply IH.
Qed.

Lemma re_match_spec r : forall s k, match_spec r s k (re_match r s k).
Proof.
  induction r as [f| | |r1 IH1 r2 IH2|r1 IH1 r2 IH2|r IH]; intros s k; cbn [re_match].
  - destruct s as [|c s]; [intros s'; by inversion 1|]. destruct (f c) eqn:E.
    + destruct (k s) eqn:Ek; [exists s; split; [by constructor | done]|]. intros s'. by inversion 1; subst.
    + intros s'. inversion 1; congruence.
  - destruct (k s) eqn:Ek; [exists s; split; [constructor | done]|]. intros s'. by inversion 1; subst.
  - destruct s as [|c s]; [|intros s'; by inversion 1].
    destruct (k "") eqn:Ek; [exists ""; split; [constructor | done]|]. intros s'. by inversion 1; subst.
  - specialize (IH1 s (fun s' => re_match r2 s' k)). destruct (re_match r1 s _) as [x|] eqn:E; cbn in *.
    + destruct IH1 as (s1 & H1 & H2). specialize (IH2 s1 k). rewrite H2 in IH2.
      destruct IH2 as (s2 & H3 & H4). exists s2. split; [by econstructor | done].
    + intros s'. inversion 1 as [| | |? ? ? s1 ? Ha Hb| | | |]; subst. specialize (IH1 _ Ha). specialize (IH2 s1 k).
      rewrite IH1 in IH2. by apply IH2.
  - specialize (IH1 s k). specialize (IH2 s k).
    destruct (re_match r1 s k) as [x|]; cbn in *.
    + destruct IH1 as (s1 & H1 & H2). exists s1. split; [by constructor | done].
    + destruct (re_match r2 s k) as [x|]; cbn in *.
      * destruct IH2 as (s1 & H1 & H2). exists s1. split; [by apply M_Alt_r | done].
      * intros s'. inversion 1; auto.
  - set (loop := fix loop (n : nat) (s : string) : option string := _).
    enough (H : forall n s, (String.length s <= n)%nat -> match_spec (Star r) s k (loop n s)) by (by apply H).
    clear s. induction n as [|n IHn]; intros s Hn; cbn [loop].
    + destruct (k s) eqn:Ek; [exists s; split; [constructor | done]|].
      intros s' [->|(s1 & _ & Hl & _)]%Star_inv; [done | lia].
    + fold loop. set (k1 := fun s' => if (String.length s' <? String.length s)%nat then loop n s' else None).
      specialize (IH s k1). destruct (re_match r s k1) as [x|]; cbn [match_spec] in IH |- *.
      * destruct IH as (s1 & H1 & H2). unfold k1 in H2.
        destruct (String.length s1 <? String.length s)%nat eqn:El; [|done]. apply Nat.ltb_lt in El.
        specialize (IHn s1 ltac:(lia)). rewrite H2 in IHn. destruct IHn as (s2 & H3 & H4).
        exists s2. split; [by econstructor | done].
      * destruct (k s) eqn:Ek; [exists s; split; [constructor | done]|].
        intros s' [->|(s1 & H1 & Hl & H2)]%Star_inv; [done|].
        specialize (IH s1 H1). unfold k1 in IH. apply Nat.ltb_lt in Hl as Hl'. rewrite Hl' in IH.
        specialize (IHn s1 ltac:(lia)). rewrite IH in IHn. by apply IHn.
Qed.

(** The first match at the head of a text, and the text it leaves. *)
Definition re_head (r : regex) (s : string) : option string := re_match r s Some.

Lemma re_head_suffix r s s' : re_head r s = Some s' -> exists p, s = p +:+ s'.
Proof.
  intros H. pose proof (re_match_spec r s Some) as Hm. unfold re_head in H. rewrite H in Hm.
  destruct Hm as (s1 & Hm & [= ->]). by apply Matches_suffix in Hm.
Qed.

Lemma re_head_complete r s s' : Matches r s s' -> is_Some (re_head r s).
Proof.
  intros H. pose proof (re_match_spec r s Some) as Hm. unfold re_head.
  destruct (re_match r s Some) as [x|]; [eauto|]. by specialize (Hm s' H).
Qed.

(** [re.compile("^" + r, re.M).sub("", s)]: the match at the start of every line
    is removed. *)
Definition remove_at_line_starts (r : regex) (s : string) : string :=
  join nl ((fun line => default line (re_head r line)) <$> split nl s).

(** ** Patterns that respect case, matched at the head of a text or anywhere in it *)

Definition Exact (c : ascii) : regex := Chr (fun x => bool_decide (x = c)).
Fixpoint ExactLit (s : string) : regex :=
  match s with EmptyString => Eps | String c s' => Cat (Exact c) (ExactLit s') end.
Definition Space : regex := Chr is_space.
Definition is_match (r : regex) (s : string) : bool := bool_decide (is_Some (re_head r s)).

(** [re.search] *)
Fixpoint re_search (r : regex) (s : string) : bool :=
  is_match r s || match s with EmptyString => false | String _ s' => re_search r s' end.

(** * The text of regular expressions

    [re.compile] for the part of Python's syntax the code writes itself and users
    write in their patterns: literals, escapes, [.], classes, groups, the scoped
    flag [(?s:...)], alternatives, greedy repetitions, and the anchors at the ends
    of a pattern.  Anything else is [Unmodelled].  [python_re] is the engine
    this makes: the compiled pattern is matched at the head of a text. *)

#[local] Open Scope string_scope.
#[local] Open Scope list_scope.

Definition is_alnum (c : ascii) : bool :=
  let n := N_of_ascii c in
  ((48 <=? n) && (n <=? 57) || (65 <=? n) && (n <=? 90) || (97 <=? n) && (n <=? 122))%N.

(** [.], which the flag [s] lets match a newline too. *)
Definition Dot (dotall : bool) : regex := if dotall then Chr (fun _ => true) else Any.

(** What follows a backslash. *)
Definition escape_class (c : ascii) : result (ascii -> bool) :=
  if is_alnum c then
    if bool_decide (c = "d"%char) then Ok is_digit
    else if bool_decide (c = "w"%char) then Ok is_word
    else if bool_decide (c = "s"%char) then Ok is_space
    else if bool_decide (c = "n"%char) then Ok (fun x => bool_decide (x = LF))
    else Err Unmodelled
  else Ok (fun x => bool_decide (x = c)).

Definition in_range (lo hi x : ascii) : bool :=
  ((N_of_ascii lo <=? N_of_ascii x) && (N_of_ascii x <=? N_of_ascii hi))%N.

(** The members of a class, up to its bracket. *)
Fixpoint parse_class (fuel : nat) (first : bool) (s : string) : result ((ascii -> bool) * string) :=
  match fuel with
  | O => Err Unmodelled
  | S fuel' =>
      match s with
      | EmptyString => Err ReError
      | String "]" s' => if first then more fuel' (fun x => bool_decide (x = "]"%char)) s'
                         else Ok (fun _ => false, s')
      | String "\" (String c s') => p ← escape_class c; more fuel' p s'
      | String "\" EmptyString => Err ReError
      | String lo (String "-" (String hi s')) =>
          if bool_decide (hi = "]"%char) then more fuel' (fun x => bool_decide (x = lo)) (String "-" (String hi s'))
          else if bool_decide (hi = "\"%char) then Err Unmodelled
          else if (N_of_ascii hi <? N_of_ascii lo)%N then Err ReError
          else more fuel' (in_range lo hi) s'
      | String c s' => more fuel' (fun x => bool_decide (x = c)) s'
      end
  end
with more (fuel : nat) (p : ascii -> bool) (s : string) : result ((ascii -> bool) * string) :=
  match fuel with
  | O => Err Unmodelled
  | S fuel' => '(q, rest) ← parse_class fuel' false s; Ok (fun x => p x || q x, rest)
  end.

(** The class after its opening bracket. *)
Definition parse_set (fuel : nat) (s : string) : result (regex * string) :=
  match s with
  | String "^" s' => '(p, rest) ← parse_class fuel true s'; Ok (Chr (fun x => negb (p x)), rest)
  | _ => '(p, rest) ← parse_class fuel true s; Ok (Chr p, rest)
  end.

(** A repetition after an atom. *)
Definition parse_quantifier (r : regex) (s : string) : result (regex * string) :=
  let after q s' :=
    match s' with
    | String "*" _ => Err ReError
    | String "+" _ | String "?" _ | String "{" _ => Err Unmodelled
    | _ => Ok (q, s')
    end in
  match s with
  | String "*" s' => after (Star r) s'
  | String "+" s' => after (Plus r) s'
  | String "?" s' => after (Opt r) s'
  | String "{" _ => Err Unmodelled
  | _ => Ok (r, s)
  end.

Fixpoint parse_alts (fuel : nat) (top dotall : bool) (s : string) : result (regex * string) :=
  match fuel with
  | O => Err Unmodelled
  | S fuel' =>
      '(r, rest) ← match s with
                   | String "^" s' => if top then parse_seq fuel' top dotall s' else Err Unmodelled
                   | _ => parse_seq fuel' top dotall s
                   end;
      match rest with
      | String "|" s' => '(r', rest) ← parse_alts fuel' top dotall s'; Ok (Alt r r', rest)
      | _ => Ok (r, rest)
      end
  end
with parse_seq (fuel : nat) (top dotall : bool) (s : string) : result (regex * string) :=
  match fuel with
  | O => Err Unmodelled
  | S fuel' =>
      match s with
      | EmptyString | String "|" _ | String ")" _ => Ok (Eps, s)
      | String "$" s' =>
          if top && (bool_decide (s' = "") || startswith "|" s')
          then Ok (Cat (Opt (Exact LF)) Eol, s') else Err Unmodelled
      | _ =>
          '(a, rest) ← parse_atom fuel' dotall s;
          '(q, rest) ← parse_quantifier a rest;
          '(r, rest) ← parse_seq fuel' top dotall rest;
          Ok (Cat q r, rest)
      end
  end
with parse_atom (fuel : nat) (dotall : bool) (s : string) : result (regex * string) :=
  match fuel with
  | O => Err Unmodelled
  | S fuel' =>
      let group flag s' :=
        '(r, rest) ← parse_alts fuel' false flag s';
        match rest with String ")" rest' => Ok (r, rest') | _ => Err ReError end in
      match s with
      | EmptyString => Err ReError
      | String "." s' => Ok (Dot dotall, s')
      | String "(" (String "?" (String "s" (String ":" s'))) => group true s'
      | String "(" (String "?" (String ":" s')) => group dotall s'
      | String "(" (String "?" _) => Err Unmodelled
      | String "(" s' => group dotall s'
      | String "[" s' => parse_set fuel' s'
      | String "\" (String "Z" s') => Ok (Eol, s')
      | String "\" (String c s') => p ← escape_class c; Ok (Chr p, s')
      | String "\" EmptyString => Err ReError
      | String "*" _ | String "+" _ | String "?" _ => Err ReError
      | String "^" _ | String "{" _ => Err Unmodelled
      | String c s' => Ok (Exact c, s')
      end
  end.

(** A round of the parser takes a character, or enters a group. *)
Definition regex_of_text (p : string) : result regex :=
  '(r, rest) ← parse_alts (4 * String.length p + 8) true false p;
  match rest with EmptyString => Ok r | _ => Err ReError end.

#[export] Instance python_re : Re := {
  re_compile p := r ← regex_of_text p; Ok (is_match r);
}.

(** ** [re.escape] *)

Definition special_chars : string :=
  String "009" (String "010" (String "011" (String "012" (String "013" "()[]{}?*+-|^$\.&~# ")))).

Fixpoint mem_char (c : ascii) (s : string) : bool :=
  match s with EmptyString => false | String c' s' => bool_decide (c = c') || mem_char c s' end.

Definition escape_char (c : ascii) : string :=
  if mem_char c special_chars then String "\" (String c "") else String c "".

Fixpoint re_escape (s : string) : string :=
  match s with EmptyString => EmptyString | String c s' => escape_char c +:+ re_escape s' end.

(** ** Matching *)

Lemma is_match_spec r s : is_match r s = true <-> exists s', Matches r s s'.
Proof.
  unfold is_match. rewrite bool_decide_eq_true. split.
  - intros [x Hx]. unfold re_head in Hx. pose proof (re_match_spec r s Some) as Hm. rewrite Hx in Hm.
    destruct Hm as (s' & Hm & _). by exists s'.
  - intros [s' Hs]. by eapply re_head_complete.
Qed.

Lemma Matches_Cat r1 r2 s s' : Matches (Cat r1 r2) s s' <-> exists s1, Matches r1 s s1 /\ Matches r2 s1 s'.
Proof.
  split; [|intros (s1 & H1 & H2); by econstructor].
  intros H. inversion H as [| | |? ? ? s1 ? H1 H2| | | |]; subst. by exists s1.
Qed.

Lemma Matches_Chr f s s' : Matches (Chr f) s s' <-> exists c, s = String c s' /\ f c = true.
Proof.
  split; [|intros (c & -> & Hc); by constructor]. intros H. inversion H; subst. eauto.
Qed.

Lemma Matches_Eps s s' : Matches Eps s s' <-> s' = s.
Proof. split; [by inversion 1 | intros ->; constructor]. Qed.

Lemma Matches_Eol s s' : Matches Eol s s' <-> s = "" /\ s' = "".
Proof. split; [by inversion 1 | intros [-> ->]; constructor]. Qed.

(** A run of characters of a class. *)
Lemma Matches_Star_Chr f s s' :
  Matches (Star (Chr f)) s s' <-> exists u, s = u +:+ s' /\ str_forallb f u = true.
Proof.
  split.
  - intros H. remember (Star (Chr f)) as r eqn:Er. revert Er.
    induction H as [ | | | | | |r s|r s s1 s2 H1 _ H2 IH]; intros [= ->]; [by exists ""|].
    apply Matches_Chr in H1 as (c & -> & Hc). destruct (IH eq_refl) as (u & -> & Hu).
    exists (String c u). split; [done|]. cbn. by rewrite Hc.
  - intros (u & -> & Hu). induction u as [|c u IH]; [constructor|]. cbn in Hu. apply andb_true_iff in Hu as [Hc Hu].
    eapply M_Star_cons; [by constructor | by apply IH].
Qed.
