(* ===== verification/PyVal.v ===== *)
(** * Dynamic Python values

    [pyval] is what JSON and YAML documents decode to, and what a totals tuple
    holds: [None], booleans, integers, floats, strings, lists and string-keyed
    dictionaries in insertion order.  The JSON library itself ([orjson]) is not
    part of the repository: [OrJson] is its interface, [OrJsonLaws] the
    documented behaviour the serializer relies on. *)
From S2P Require Export PyFloat.
#[local] Open Scope Z_scope.

Inductive pyval : Type :=
  | VNone
  | VBool (b : bool)
  | VInt (z : Z)
  | VFloat (f : b64)
  | VStr (s : string)
  | VList (l : list pyval)
  | VDict (d : list (string * pyval)).

Section pyval_ind'.
Variable P : pyval -> Prop.
Hypothesis HNone : P VNone.
Hypothesis HBool : forall b, P (VBool b).
Hypothesis HInt : forall z, P (VInt z).
Hypothesis HFloat : forall f, P (VFloat f).
Hypothesis HStr : forall s, P (VStr s).
Hypothesis HList : forall l, Forall P l -> P (VList l).
Hypothesis HDict : forall d, Forall (fun kv => P kv.2) d -> P (VDict d).

Fixpoint pyval_ind' (v : pyval) : P v :=
  match v with
  | VNone => HNone
  | VBool b => HBool b
  | VInt z => HInt z
  | VFloat f => HFloat f
  | VStr s => HStr s
  | VList l =>
      HList l ((fix go (l : list pyval) : Forall P l :=
                  match l return Forall P l with
                  | [] => @List.Forall_nil _ _
                  | x :: l' => @List.Forall_cons _ P x l' (pyval_ind' x) (go l')
                  end) l)
  | VDict d =>
      HDict d ((fix go (d : list (string * pyval)) : Forall (fun kv => P kv.2) d :=
                  match d return Forall (fun kv => P kv.2) d with
                  | [] => @List.Forall_nil _ _
                  | kv :: d' => @List.Forall_cons _ (fun kv => P kv.2) kv d' (pyval_ind' kv.2) (go d')
                  end) d)
  end.
End pyval_ind'.

Fixpoint pyval_eqb (v w : pyval) {struct v} : bool :=
  match v, w with
  | VNone, VNone => true
  | VBool b, VBool b' => bool_decide (b = b')
  | VInt z, VInt z' => bool_decide (z = z')
  | VFloat f, VFloat f' => bool_decide (f = f')
  | VStr s, VStr s' => bool_decide (s = s')
  | VList l, VList l' =>
      (fix go (l l' : list pyval) : bool :=
         match l, l' with
         | [], [] => true
         | x :: l, y :: l' => pyval_eqb x y && go l l'
         | _, _ => false
         end) l l'
  | VDict d, VDict d' =>
      (fix go (d d' : list (string * pyval)) : bool :=
         match d, d' with
         | [], [] => true
         | (k, x) :: d, (k', y) :: d' => bool_decide (k = k') && pyval_eqb x y && go d d'
         | _, _ => false
         end) d d'
  | _, _ => false
  end.

Lemma pyval_eqb_spec v w : pyval_eqb v w = true <-> v = w.
Proof.
  revert w. induction v as [|b|z|f|s|l IH|d IH] using pyval_ind'; intros [|b'|z'|f'|s'|l'|d'];
    cbn [pyval_eqb]; try (split; discriminate); try done;
    try (rewrite bool_decide_eq_true; split; congruence).
  - revert l'. induction IH as [|x l Hx _ IH]; intros [|y l']; try (split; discriminate); [done|].
    rewrite andb_true_iff, Hx, (IH l'). split; [intros [-> [= ->]]; done | by intros [= -> ->]].
  - revert d'. induction IH as [|[k x] d Hx _ IH]; intros [|[k' y] d']; try (split; discriminate); [done|].
    cbn in Hx. rewrite !andb_true_iff, bool_decide_eq_true, Hx, (IH d').
    split; [intros [[-> ->] [= ->]]; done | by intros [= -> -> ->]].
Qed.

#[export] Instance pyval_eq_dec : EqDecision pyval.
Proof.
  intros v w. destruct (pyval_eqb v w) eqn:E.
  - left. by apply pyval_eqb_spec.
  - right. intros ->. by rewrite (proj2 (pyval_eqb_spec w w) eq_refl) in E.
Defined.

(** Python truth value. *)
Definition truthy (v : pyval) : bool :=
  match v with
  | VNone => false
  | VBool b => b
  | VInt z => negb (z =? 0)
  | VFloat f => negb (fman f =? 0)
  | VStr s => negb (bool_decide (s = ""%string))
  | VList l => negb (bool_decide (l = []))
  | VDict d => negb (bool_decide (d = []))
  end.

(** [type(v) is dict], [v[k]] on a mapping and [v.get(k, dflt)]. *)
Definition get_item (v : pyval) (k : string) : result pyval :=
  match v with
  | VDict d => match od_get k d with Some w => Ok w | None => Err KeyError end
  | VNone | VBool _ | VInt _ | VFloat _ => Err TypeError
  | VStr _ | VList _ => Err TypeError
  end.

Definition dict_get (v : pyval) (k : string) (dflt : pyval) : result pyval :=
  match v with
  | VDict d => Ok (default dflt (od_get k d))
  | _ => Err AttributeError
  end.

(** The JSON library.  [dumps] is [orjson.dumps(...).decode()], [loads] is
    [orjson.loads], an error of which is a [JSONDecodeError]. *)
Class OrJson : Type := {
  json_dumps : pyval -> string;
  json_loads : string -> result pyval;
}.

(** What [orjson] encodes: integers of 64 bits, and, for the line-based format
    of the report file, text without the line boundaries of [str.splitlines]
    outside ASCII (which it writes unescaped). *)
Definition ascii_text (s : string) : bool :=
  str_forallb (fun c => (N_of_ascii c <? 128)%N) s.

Fixpoint json_ok (v : pyval) : bool :=
  match v with
  | VNone | VBool _ => true
  | VInt z => (- 2 ^ 63 <=? z) && (z <? 2 ^ 64)
  | VFloat _ => false
  | VStr s => ascii_text s
  | VList l => forallb json_ok l
  | VDict d => forallb (fun kv => ascii_text kv.1 && json_ok kv.2) d
               && bool_decide (NoDup d.*1)
  end.

Definition opens_with (c : ascii) (s : string) : bool :=
  match s with String c' _ => bool_decide (c = c') | EmptyString => false end.

Class OrJsonLaws `{OrJson} : Prop := {
  json_loads_dumps v : json_ok v = true -> json_loads (json_dumps v) = Ok v;
  json_dumps_one_line v : json_ok v = true -> no_linebreak (json_dumps v) = true;
  json_dumps_list l : json_ok (VList l) = true -> opens_with "["%char (json_dumps (VList l)) = true;
  json_dumps_dict d : json_ok (VDict d) = true -> opens_with "{"%char (json_dumps (VDict d)) = true;
}.
