(* ===== verification/PyDecimal.v ===== *)
(** * Python's [decimal]: finite decimals under the default context

    A [Decimal] is [(-1)^neg * coef * 10^exp]; arithmetic rounds to 28 digits,
    half to even.  Exponents are not bounded (the default context allows a
    million), and the special values are outside the model. *)
From S2P Require Export PyVal.
From Stdlib Require Import DecimalString.
#[local] Open Scope string_scope.
#[local] Open Scope Z_scope.

Record decimal : Set := Dec { d_neg : bool; d_coef : Z; d_exp : Z }.

#[export] Instance decimal_eq_dec : EqDecision decimal.
Proof. solve_decision. Defined.

Definition ndigits (n : Z) : Z := Z.of_nat (String.length (str_of_Z (Z.abs n))).

Inductive rounding : Set := ROUND_CEILING | ROUND_FLOOR | ROUND_HALF_EVEN.

(** [coef / 10^k] as an integer, [0 < k]. *)
Definition round_coef (m : rounding) (neg : bool) (coef k : Z) : Z :=
  let d := 10 ^ k in
  match m with
  | ROUND_HALF_EVEN => rne_div coef d
  | ROUND_CEILING => if negb neg && negb (coef mod d =? 0) then coef / d + 1 else coef / d
  | ROUND_FLOOR => if neg && negb (coef mod d =? 0) then coef / d + 1 else coef / d
  end.

(** Rounding to the precision of the context. *)
Definition prec : Z := 28.
Definition dec_fix (x : decimal) : decimal :=
  let k := ndigits (d_coef x) - prec in
  if k <=? 0 then x
  else
    let c := round_coef ROUND_HALF_EVEN (d_neg x) (d_coef x) k in
    if ndigits c <=? prec then Dec (d_neg x) c (d_exp x + k) else Dec (d_neg x) (c / 10) (d_exp x + k + 1).

Definition dec_of_Z (z : Z) : decimal := Dec (z <? 0) (Z.abs z) 0.

(** [Decimal(f)] is exact. *)
Definition dec_of_float (f : b64) : decimal :=
  if fman f =? 0 then Dec (fneg f) 0 0
  else if 0 <=? fexp f then Dec (fneg f) (fman f * 2 ^ fexp f) 0
  else
    (* the fraction in lowest terms is n / 2^k *)
    let g := Z.gcd (fman f) (2 ^ (- fexp f)) in
    let n := fman f / g in
    let k := Z.log2 (2 ^ (- fexp f) / g) in
    Dec (fneg f) (n * 5 ^ k) (- k).

(** [Decimal(s)]: blanks around, underscores anywhere, a sign, digits with an optional
    point, an optional exponent. *)
Definition all_digits (s : string) : bool := str_forallb is_digit s.
Definition Z_of_digits (s : string) : Z :=
  match NilEmpty.uint_of_string s with Some u => Z.of_uint u | None => 0 end.

Definition dec_mantissa (s : string) : option (Z * Z) :=
  let '(a, b) := match split1 "." s with [a; b] => (a, b) | _ => (s, "") end in
  if all_digits a && all_digits b && negb (bool_decide ((a +:+ b) = "")) then
    Some (Z_of_digits (a +:+ b), - Z.of_nat (String.length b))
  else None.

Definition signed_digits (s : string) : option Z :=
  let '(neg, t) := match s with
                   | String "-" t => (true, t) | String "+" t => (false, t) | _ => (false, s) end in
  if all_digits t && negb (bool_decide (t = "")) then
    Some (if neg then - Z_of_digits t else Z_of_digits t)
  else None.

Definition is_special (s : string) : bool :=
  startswith "inf" s || startswith "nan" s || startswith "snan" s.

Definition dec_of_str (s : string) : result decimal :=
  let s := lower (str_replace "_" "" (strip s)) in
  let '(neg, t) := match s with
                   | String "-" t => (true, t) | String "+" t => (false, t) | _ => (false, s) end in
  if is_special t then Err Unmodelled
  else
    let '(m, e) := match split1 "e" t with [m; e] => (m, Some e) | _ => (t, None) end in
    match dec_mantissa m, (match e with Some e => signed_digits e | None => Some 0 end) with
    | Some (c, k), Some x => Ok (Dec neg c (k + x))
    | _, _ => Err InvalidOperation
    end.

(** ** Floats of text *)

(** The underscores [float] accepts: each between two digits. *)
Fixpoint underscores_ok (after_digit : bool) (s : string) : bool :=
  match s with
  | EmptyString => true
  | String c s' =>
      if bool_decide (c = "_"%char) then
        after_digit && match s' with String d _ => is_digit d | _ => false end && underscores_ok false s'
      else underscores_ok (is_digit c) s'
  end.

Definition is_infinity (s : string) : bool :=
  let s := lower (strip s) in
  let t := match s with String "-" t => t | String "+" t => t | _ => s end in
  bool_decide (t ∈ ["inf"; "infinity"]).

(** [float(s)]; infinities and not-a-number only as the exceptions of the [int] around it. *)
Definition float_of_text (s : string) : result b64 :=
  if underscores_ok false s then
    match dec_of_str s with
    | Ok d =>
        let n := if d_exp d <? 0 then d_coef d else d_coef d * 10 ^ d_exp d in
        let m := if d_exp d <? 0 then 10 ^ (- d_exp d) else 1 in
        if (2 ^ 1024 - 2 ^ 970) * m <=? n then Err OverflowError else Ok (rnd (d_neg d) n m)
    | Err _ => Err (if is_infinity s then OverflowError else ValueError)
    end
  else Err ValueError.

(** ** Arithmetic *)

Definition d_signed (x : decimal) : Z := if d_neg x then - d_coef x else d_coef x.
(** The coefficient at a smaller exponent. *)
Definition d_at (e : Z) (x : decimal) : Z := d_signed x * 10 ^ (d_exp x - e).

Definition dec_neg (x : decimal) : decimal := Dec (negb (d_neg x)) (d_coef x) (d_exp x).

Definition dec_add (x y : decimal) : decimal :=
  let e := Z.min (d_exp x) (d_exp y) in
  let n := d_at e x + d_at e y in
  dec_fix (Dec (if n =? 0 then d_neg x && d_neg y else n <? 0) (Z.abs n) e).

Definition dec_sub (x y : decimal) : decimal := dec_add x (dec_neg y).

Definition dec_mul (x y : decimal) : decimal :=
  dec_fix (Dec (xorb (d_neg x) (d_neg y)) (d_coef x * d_coef y) (d_exp x + d_exp y)).

Definition dec_cmp (x y : decimal) : comparison :=
  let e := Z.min (d_exp x) (d_exp y) in d_at e x ?= d_at e y.
Definition dec_leb (x y : decimal) : bool := match dec_cmp x y with Gt => false | _ => true end.
Definition dec_ltb (x y : decimal) : bool := match dec_cmp x y with Lt => true | _ => false end.
Definition dec_eqb (x y : decimal) : bool := match dec_cmp x y with Eq => true | _ => false end.

(** [x.quantize(Decimal("1e" + e), rounding=m)]. *)
Definition quantize (m : rounding) (x : decimal) (e : Z) : result decimal :=
  let c := if e <=? d_exp x then d_coef x * 10 ^ (d_exp x - e)
           else round_coef m (d_neg x) (d_coef x) (e - d_exp x) in
  if (prec <? ndigits c) && negb (c =? 0) then Err InvalidOperation else Ok (Dec (d_neg x) c e).

(** ** Printing *)

Definition str_rev_insert (p : nat) (s : string) : string := str_take p s +:+ "." +:+ str_drop p s.

(** [str(x)] without its sign: plain notation unless the exponent is positive or the
    number is below 1E-6. *)
Definition dec_abs_str (x : decimal) : string :=
  let ds := str_of_Z (d_coef x) in
  let len := Z.of_nat (String.length ds) in
  let left := d_exp x + len in
  if (d_exp x <=? 0) && (-6 <? left) then
    if d_exp x =? 0 then ds
    else if 0 <? left then str_rev_insert (Z.to_nat left) ds
    else "0." +:+ zeros (Z.to_nat (- left)) +:+ ds
  else
    let mant := if 1 <? len then str_rev_insert 1 ds else ds in
    let e := left - 1 in
    mant +:+ (if e =? 0 then "" else "E" +:+ (if e <? 0 then "-" else "+") +:+ str_of_Z (Z.abs e)).

Definition dec_str (x : decimal) : string := (if d_neg x then "-" else "") +:+ dec_abs_str x.
(** [f"{x:+}"]. *)
Definition dec_fmt_plus (x : decimal) : string := (if d_neg x then "-" else "+") +:+ dec_abs_str x.

(** ** Printing floats: the shortest decimal that reads back *)

(** [10^k <= n / d < 10^(k+1)], searching down from [k + fuel]. *)
Fixpoint log10_quot (fuel : nat) (k n d : Z) : Z :=
  match fuel with
  | O => k
  | S f =>
      if d * 10 ^ Z.max 0 k <=? n * 10 ^ Z.max 0 (- k) then k else log10_quot f (k - 1) n d
  end.

(** The nearest number of [p] significant digits, as [m * 10^e]. *)
Definition round_digits (p : Z) (f : b64) : Z * Z :=
  let k := log10_quot 700 320 (fnum f) (fden f) in
  let e := k - p + 1 in
  let m := rne_div (fnum f * 10 ^ Z.max 0 (- e)) (fden f * 10 ^ Z.max 0 e) in
  (m, e).

Definition reads_back (f : b64) (me : Z * Z) : bool :=
  let '(m, e) := me in
  f_eqb (rnd (fneg f) (m * 10 ^ Z.max 0 e) (10 ^ Z.max 0 (- e))) f.

Fixpoint shortest (fuel : nat) (p : Z) (f : b64) : Z * Z :=
  match fuel with
  | O => round_digits p f
  | S fuel' => let me := round_digits p f in if reads_back f me then me else shortest fuel' (p + 1) f
  end.

(** [repr(f)]: fixed notation for decimal exponents from -4 to 15. *)
Definition float_repr (f : b64) : string :=
  let sign := if fneg f then "-" else "" in
  if fman f =? 0 then sign +:+ "0.0"
  else
    let '(m, e) := shortest 16 1 f in
    let ds := str_of_Z m in
    let len := Z.of_nat (String.length ds) in
    let pt := e + len in
    sign +:+
    (if (-4 <? pt) && (pt <=? 16) then
       if pt <=? 0 then "0." +:+ zeros (Z.to_nat (- pt)) +:+ ds
       else if len <=? pt then ds +:+ zeros (Z.to_nat (pt - len)) +:+ ".0"
       else str_rev_insert (Z.to_nat pt) ds
     else
       let x := pt - 1 in
       (if 1 <? len then str_rev_insert 1 ds else ds) +:+ "e" +:+ (if x <? 0 then "-" else "+") +:+
       zpad 2 (Z.abs x)).

(** [str(v)] of a scalar of the configuration. *)
Definition str_of_val (v : pyval) : result string :=
  match v with
  | VNone => Ok "None"
  | VBool b => Ok (if b then "True" else "False")
  | VInt z => Ok (str_of_Z z)
  | VFloat f => Ok (float_repr f)
  | VStr s => Ok s
  | VList _ | VDict _ => Err Unmodelled
  end.

(** ** Facts *)

Lemma dec_leb_spec x y e :
  e <= d_exp x -> e <= d_exp y -> dec_leb x y = true <-> d_at e x <= d_at e y.
Proof.
  intros Hx Hy. unfold dec_leb, dec_cmp. set (m := Z.min (d_exp x) (d_exp y)).
  assert (Hs : forall z, m <= d_exp z -> d_at e z = d_at m z * 10 ^ (m - e)).
  { intros z Hz. unfold d_at. rewrite <- Z.mul_assoc, <- Z.pow_add_r by lia. do 2 f_equal. lia. }
  rewrite (Hs x), (Hs y) by lia. assert (0 < 10 ^ (m - e)) by (apply Z.pow_pos_nonneg; lia).
  destruct (Z.compare_spec (d_at m x) (d_at m y)); split; intros; try done; nia.
Qed.

Lemma dec_leb_refl x : dec_leb x x = true.
Proof. unfold dec_leb, dec_cmp. by rewrite Z.compare_refl. Qed.

(** The rounded value brackets the exact one as the mode says. *)
Lemma round_coef_bounds m neg c k :
  0 <= c -> 0 < k ->
  let r := round_coef m neg c k in
  match m with
  | ROUND_HALF_EVEN => 2 * Z.abs (r * 10 ^ k - c) <= 10 ^ k
  | ROUND_CEILING => if neg then 0 <= c - r * 10 ^ k < 10 ^ k else 0 <= r * 10 ^ k - c < 10 ^ k
  | ROUND_FLOOR => if neg then 0 <= r * 10 ^ k - c < 10 ^ k else 0 <= c - r * 10 ^ k < 10 ^ k
  end.
Proof.
  intros Hc Hk. assert (Hd : 0 < 10 ^ k) by (apply Z.pow_pos_nonneg; lia).
  pose proof (Z.div_mod c (10 ^ k) ltac:(lia)). pose proof (Z.mod_pos_bound c (10 ^ k) Hd).
  unfold round_coef. destruct m; cbv zeta.
  - destruct neg; cbn [negb andb]; [lia|]. destruct (Z.eqb_spec (c mod 10 ^ k) 0); cbn [negb]; lia.
  - destruct neg; cbn [negb andb]; [|lia]. destruct (Z.eqb_spec (c mod 10 ^ k) 0); cbn [negb]; lia.
  - pose proof (rne_div_spec c (10 ^ k) Hd). lia.
Qed.

(** Quantizing to exponent [e], compared at an exponent both values have digits at. *)
Lemma quantize_bounds m x e r :
  quantize m x e = Ok r -> 0 <= d_coef x ->
  let b := Z.min (d_exp x) e in
  d_exp r = e /\
  match m with
  | ROUND_HALF_EVEN => 2 * Z.abs (d_at b r - d_at b x) <= 10 ^ (e - b)
  | ROUND_CEILING => 0 <= d_at b r - d_at b x < 10 ^ (e - b)
  | ROUND_FLOOR => 0 <= d_at b x - d_at b r < 10 ^ (e - b)
  end.
Proof.
  unfold quantize. cbv zeta. intros Hq Hc. set (b := Z.min _ _). destruct (_ && _); [done|]. injection Hq as <-.
  split; [done|]. unfold d_at, d_signed. cbn [d_neg d_coef d_exp].
  destruct (Z.leb_spec e (d_exp x)) as [He|He].
  - replace b with e by lia. rewrite Z.sub_diag, Z.pow_0_r. destruct m, (d_neg x); nia.
  - replace b with (d_exp x) by lia. rewrite Z.sub_diag, Z.pow_0_r.
    pose proof (round_coef_bounds m (d_neg x) (d_coef x) (e - d_exp x) Hc ltac:(lia)) as Hb.
    cbv zeta in Hb. destruct m, (d_neg x); nia.
Qed.
