(* ===== verification/Encryption.v ===== *)
(** * [shared/encryption]: secrets at rest

    [Token] is the text a token is stored as, [StandardEncryptor] the cipher it is
    written with, and [EncryptorDivider] the choice among several of them.  AES in
    CBC mode and SHA-256 belong to the [cryptography] package and to the
    interpreter: [Crypto] is their interface, [CryptoLaws] what is documented of
    a block cipher.  The random initial vector of a call is an argument. *)
From S2P Require Export PyStr PyVal.
#[local] Open Scope string_scope.
#[local] Open Scope Z_scope.
#[local] Open Scope list_scope.

(** ** [base64] *)

Module Base64.
Definition alphabet : string := "ABCDEFGHIJKLMNOPQRSTUVWXYZabcdefghijklmnopqrstuvwxyz0123456789+/".

Fixpoint char_at (n : nat) (s : string) : ascii :=
  match s, n with
  | String c _, O => c
  | String _ s', S n' => char_at n' s'
  | EmptyString, _ => "="%char
  end.

Fixpoint index_of (c : ascii) (s : string) (n : Z) : option Z :=
  match s with
  | EmptyString => None
  | String c' s' => if decide (c = c') then Some n else index_of c s' (n + 1)
  end.

Definition sextet (n : Z) : ascii := char_at (Z.to_nat n) alphabet.
Definition value (c : ascii) : option Z := index_of c alphabet 0.
Definition byte (c : ascii) : Z := Z.of_N (N_of_ascii c).
Definition of_byte (n : Z) : ascii := ascii_of_N (Z.to_N n).

Fixpoint b64encode (b : string) : string :=
  match b with
  | String x (String y (String z b')) =>
      let '(x, y, z) := (byte x, byte y, byte z) in
      String (sextet (x / 4)) (String (sextet (x mod 4 * 16 + y / 16))
        (String (sextet (y mod 16 * 4 + z / 64)) (String (sextet (z mod 64)) (b64encode b'))))
  | String x (String y EmptyString) =>
      let '(x, y) := (byte x, byte y) in
      String (sextet (x / 4)) (String (sextet (x mod 4 * 16 + y / 16)) (String (sextet (y mod 16 * 4)) "="))
  | String x EmptyString =>
      let x := byte x in String (sextet (x / 4)) (String (sextet (x mod 4 * 16)) "==")
  | EmptyString => ""
  end.

(** Texts of the alphabet, padded; others are outside the model. *)
Fixpoint b64decode (s : string) : result string :=
  match s with
  | EmptyString => Ok ""
  | String a (String b (String c (String d s'))) =>
      match value a, value b, value c, value d with
      | Some a, Some b, Some c, Some d =>
          r ← b64decode s';
          Ok (String (of_byte (a * 4 + b / 16)) (String (of_byte (b mod 16 * 16 + c / 4))
                (String (of_byte (c mod 4 * 64 + d)) r)))
      | Some a, Some b, Some c, None =>
          if bool_decide (d = "="%char) && bool_decide (s' = "")
          then Ok (String (of_byte (a * 4 + b / 16)) (String (of_byte (b mod 16 * 16 + c / 4)) ""))
          else Err Unmodelled
      | Some a, Some b, None, None =>
          if bool_decide (c = "="%char) && bool_decide (d = "="%char) && bool_decide (s' = "")
          then Ok (String (of_byte (a * 4 + b / 16)) "")
          else Err Unmodelled
      | _, _, _, _ => Err Unmodelled
      end
  | _ => Err Unmodelled
  end.

Lemma value_sextet n : 0 <= n < 64 -> value (sextet n) = Some n.
Proof.
  intros Hn. assert (H : forallb (fun k => bool_decide (value (sextet (Z.of_nat k)) = Some (Z.of_nat k))) (seq 0 64) = true)
    by (vm_compute; reflexivity).
  rewrite forallb_forall in H. specialize (H (Z.to_nat n)). rewrite in_seq, Z2Nat.id, bool_decide_eq_true in H by lia.
  apply H. lia.
Qed.

Lemma byte_bounds c : 0 <= byte c < 256.
Proof. unfold byte. pose proof (N_ascii_bounded c). lia. Qed.

Lemma of_byte_byte c n : n = byte c -> of_byte n = c.
Proof. intros ->. unfold of_byte, byte. by rewrite N2Z.id, ascii_N_embedding. Qed.

Lemma decode_encode b : b64decode (b64encode b) = Ok b.
Proof.
  assert (H : forall n b, (String.length b <= n)%nat -> b64decode (b64encode b) = Ok b); [|by apply (H (String.length b))].
  clear b. induction n as [|n IH]; intros b Hn; [by destruct b; [|cbn in Hn; lia]|].
  assert (Ev : value "=" = None) by (vm_compute; reflexivity).
  destruct b as [|x [|y [|z b]]]; [done|..]; cbn [b64encode b64decode].
  - pose proof (byte_bounds x). rewrite !value_sextet, Ev by (Z.div_mod_to_equations; lia). cbn.
    do 2 f_equal. apply of_byte_byte. Z.div_mod_to_equations; lia.
  - pose proof (byte_bounds x). pose proof (byte_bounds y).
    rewrite !value_sextet, Ev by (Z.div_mod_to_equations; lia). cbn.
    do 3 f_equal; [|f_equal]; apply of_byte_byte; Z.div_mod_to_equations; lia.
  - pose proof (byte_bounds x). pose proof (byte_bounds y). pose proof (byte_bounds z).
    rewrite !value_sextet by (Z.div_mod_to_equations; lia). cbn in Hn. rewrite IH by lia. cbn.
    do 2 f_equal; [|f_equal; [|f_equal]]; apply of_byte_byte; Z.div_mod_to_equations; lia.
Qed.

Lemma char_at_forallb f s n : str_forallb f s = true -> f "="%char = true -> f (char_at n s) = true.
Proof.
  revert n. induction s as [|c s IH]; intros n; cbn; [by destruct n|].
  intros [Hc Hs]%andb_true_iff He. destruct n; [done | by apply IH].
Qed.

Lemma b64encode_forallb f b :
  str_forallb f alphabet = true -> f "="%char = true -> str_forallb f (b64encode b) = true.
Proof.
  intros Hf He. assert (Hs : forall n, f (sextet n) = true) by (intros n; by apply char_at_forallb).
  assert (H : forall n b, (String.length b <= n)%nat -> str_forallb f (b64encode b) = true);
    [|by apply (H (String.length b))].
  clear b. induction n as [|n IH]; intros b Hn; [by destruct b; [|cbn in Hn; lia]|].
  destruct b as [|x [|y [|z b]]]; cbn; rewrite ?Hs, ?He; try done. cbn. apply IH. cbn in Hn. lia.
Qed.
End Base64.

(** ** [StandardEncryptor] *)

Class Crypto : Type := {
  sha256 : string -> string;
  aes_cbc_encrypt : string -> string -> string -> result string;  (* key, iv, text *)
  aes_cbc_decrypt : string -> string -> string -> result string;
}.

(** A text of whole blocks is encrypted and decrypted back; another is refused. *)
Class CryptoLaws `{Crypto} : Prop := {
  aes_roundtrip key iv m :
    String.length iv = 16%nat -> (String.length m mod 16 = 0)%nat ->
    exists c, aes_cbc_encrypt key iv m = Ok c /\ aes_cbc_decrypt key iv c = Ok m;
  aes_blocks key iv m :
    String.length iv = 16%nat -> (String.length m mod 16 <> 0)%nat -> aes_cbc_encrypt key iv m = Err ValueError;
}.

(** The modes differ in the key: hashed, or given. *)
Record StandardEncryptor : Type := mkEncryptor { se_key : string; se_iv : option string }.

Module Standard.
Section standard.
Context `{Crypto}.

Definition bs : nat := 16.

Definition generate_key (keys : list string) : string := sha256 (utf8_encode (join "" keys)).

Definition init (keys : list string) : StandardEncryptor := mkEncryptor (generate_key keys) None.

Definition chr_times (n : nat) (c : ascii) : string := String.string_of_list_ascii (replicate n c).

(** [_pad]: the length is the one of the text, in characters. *)
Definition _pad (s : string) : string :=
  let n := (bs - String.length s mod bs)%nat in s +:+ chr_times n (ascii_of_nat n).

(** [s[:-ord(s[len(s) - 1:])]] *)
Definition _unpad (s : string) : result string :=
  match String.get (String.length s - 1) s with
  | Some c =>
      let n := nat_of_ascii c in
      Ok (if (n =? 0)%nat then "" else str_take (String.length s - n) s)
  | None => Err TypeError
  end.

(** [encode], the random bytes of [os.urandom] being given. *)
Definition encode (e : StandardEncryptor) (urandom : string) (s : string) : result string :=
  let iv := default urandom (se_iv e) in
  c ← aes_cbc_encrypt (se_key e) iv (utf8_encode (_pad s));
  Ok (Base64.b64encode (iv +:+ c)).

Definition decode (e : StandardEncryptor) (s : string) : result string :=
  b ← Base64.b64decode s;
  let '(iv, to_decrypt) := (str_take 16 b, str_drop 16 b) in
  m ← aes_cbc_decrypt (se_key e) iv to_decrypt;
  u ← _unpad m;
  utf8_decode (byte_values u).
End standard.
End Standard.

(** [EncryptorWithAlreadyGeneratedKey(key)]. *)
Definition EncryptorWithAlreadyGeneratedKey (key : string) : StandardEncryptor := mkEncryptor key None.

(** ** Tokens *)

Module Token.
Record t : Type := mkToken { key : string; secret : option string; refresh_token : option string }.

(** [token.get(...)] as a condition. *)
Definition given (o : option string) : option string :=
  match o with Some "" => None | _ => o end.

Definition encode_token (token : t) : string :=
  match given (secret token), given (refresh_token token) with
  | None, None => key token
  | s, r => key token +:+ ":" +:+ default " " s +:+ match r with Some r => ":" +:+ r | None => "" end
  end.

Definition decode_token (_oauth : string) : t :=
  match split_n 2 ":" _oauth with
  | [k; s; r] => mkToken k (if bool_decide (s = " ") then None else Some s) (Some r)
  | [k; s] => mkToken k (Some s) None
  | _ => mkToken _oauth None None
  end.
End Token.

(** ** [EncryptorDivider] *)

Definition DEFAULT_ENCRYPTOR_CONSTANT : string := "default_enc".

(** [s.rsplit(sep, 1)] when [sep] occurs in [s]. *)
Fixpoint rpartition (sep s : string) : option (string * string) :=
  match s with
  | EmptyString => None
  | String c s' =>
      match rpartition sep s' with
      | Some (p, r) => Some (String c p, r)
      | None => if String.prefix sep s then Some ("", str_drop (String.length sep) s) else None
      end
  end.

Module Divider.
Record t : Type := mkDivider {
  _encryptor_mapping : odict string StandardEncryptor;
  write_encryptor_code : string;
}.

Section divider.
Context `{Crypto}.

Definition init (mapping : odict string StandardEncryptor) (write_encryptor_code : string) : result t :=
  if od_mem write_encryptor_code mapping then Ok (mkDivider mapping write_encryptor_code)
  else Err PlainException.

Definition get_encryptor_from_code (d : t) (code : string) : result StandardEncryptor :=
  match od_get code (_encryptor_mapping d) with Some e => Ok e | None => Err KeyError end.

Definition decode (d : t) (s : string) : result string :=
  let '(encryptor_code, code_to_decode) :=
    match rpartition "::" s with Some p => p | None => (DEFAULT_ENCRYPTOR_CONSTANT, s) end in
  e ← get_encryptor_from_code d encryptor_code;
  Standard.decode e code_to_decode.

Definition encode (d : t) (urandom s : string) : result string :=
  e ← get_encryptor_from_code d (write_encryptor_code d);
  r ← Standard.encode e urandom s;
  Ok (if bool_decide (write_encryptor_code d = DEFAULT_ENCRYPTOR_CONSTANT) then r
      else write_encryptor_code d +:+ "::" +:+ r).

Definition decrypt_token (d : t) (oauth_token : string) : result Token.t :=
  s ← decode d oauth_token; Ok (Token.decode_token s).

(** ** The encryptors of an installation: [get_encryptor_from_configuration] and
    [get_yaml_secret_encryptor] *)

Definition new_key_style : list (string * string) := [("v1", "%_#v^tjq*$ggfn!s+q6&6b01rnm$i(yz8&5imgvt=m0g_g$z%9")].
Definition current_hardcoded_key : string := "v1".

Definition text_of (v : pyval) : result string := match v with VStr s => Ok s | _ => Err Unmodelled end.

(** [mapping[el["name"]] = el["value"]]. *)
Definition user_key_step (m : odict string string) (el : pyval) : result (odict string string) :=
  n ← get_item el "name"; v ← get_item el "value";
  n ← text_of n; v ← text_of v;
  Ok (od_set n v m).

(** The configured values, and the environment variable [ENCRYPTION_SECRET]. *)
Definition get_encryptor_from_configuration (encryption_secret environment : string) (keys : list pyval)
    (write_key : option string) : result t :=
  let legacy_encryptor :=
    Standard.init [encryption_secret; environment; "fYaA^Bj&h89,hs49iXyq]xARuCg"] in
  user ← foldM user_key_step [] keys;
  let mapping :=
    foldl (fun m hu => od_set (hu.1.1 +:+ "_" +:+ hu.2.1) (Standard.init [hu.1.2; hu.2.2]) m)
      [(DEFAULT_ENCRYPTOR_CONSTANT, legacy_encryptor)]
      (List.list_prod new_key_style user) in
  init mapping (match write_key with
                | None => DEFAULT_ENCRYPTOR_CONSTANT
                | Some k => current_hardcoded_key +:+ "_" +:+ k
                end).
End divider.
End Divider.

(** ** Round trips *)

Section roundtrip.
Context `{CryptoLaws}.

Definition ascii_only (s : string) : Prop := str_forallb (fun c => (N_of_ascii c <? 128)%N) s = true.

Lemma chr_times_length n c : String.length (Standard.chr_times n c) = n.
Proof. unfold Standard.chr_times. induction n as [|n IH]; cbn; [done | by rewrite IH]. Qed.

Lemma chr_times_forallb f n c : f c = true -> str_forallb f (Standard.chr_times n c) = true.
Proof. intros Hc. unfold Standard.chr_times. induction n as [|n IH]; cbn; [done | by rewrite Hc, IH]. Qed.

Lemma get_last_times s n c : (0 < n)%nat ->
  String.get (String.length (s +:+ Standard.chr_times n c) - 1) (s +:+ Standard.chr_times n c) = Some c.
Proof.
  intros Hn. induction s as [|c' s IH]; cbn [String.append].
  - rewrite chr_times_length. destruct n as [|n]; [lia|]. cbn. rewrite Nat.sub_0_r.
    change (String.get n (Standard.chr_times (S n) c) = Some c). clear Hn.
    induction n as [|n IHn]; [done | exact IHn].
  - cbn [String.length]. rewrite Nat.sub_succ, Nat.sub_0_r. rewrite str_length_app, chr_times_length in *.
    destruct (String.length s + n)%nat as [|k] eqn:E; [lia|]. cbn. rewrite Nat.sub_succ, Nat.sub_0_r in IH. exact IH.
Qed.

Lemma pad_length s : (String.length (Standard._pad s) mod 16 = 0)%nat.
Proof.
  unfold Standard._pad, Standard.bs. cbv zeta. rewrite str_length_app, chr_times_length.
  pose proof (Nat.div_mod_eq (String.length s) 16). pose proof (Nat.mod_upper_bound (String.length s) 16 ltac:(lia)).
  apply Nat.Div0.mod_divides. exists (String.length s / 16 + 1)%nat. lia.
Qed.

Lemma unpad_pad s : Standard._unpad (Standard._pad s) = Ok s.
Proof.
  unfold Standard._unpad, Standard._pad, Standard.bs. cbv zeta.
  pose proof (Nat.mod_upper_bound (String.length s) 16 ltac:(lia)) as Hm.
  set (n := (16 - String.length s mod 16)%nat). rewrite get_last_times by (unfold n; lia).
  rewrite nat_ascii_embedding by (unfold n; lia). rewrite (proj2 (Nat.eqb_neq _ _)) by (unfold n; lia).
  rewrite str_length_app, chr_times_length, Nat.add_sub, str_take_app. done.
Qed.

Lemma pad_ascii s : ascii_only s -> utf8_encode (Standard._pad s) = Standard._pad s.
Proof.
  intros Hs. apply ascii_encode. unfold Standard._pad. cbv zeta. rewrite str_forallb_app. apply andb_true_iff. split; [done|].
  apply chr_times_forallb. apply N.ltb_lt. unfold Standard.bs.
  pose proof (Nat.mod_upper_bound (String.length s) 16 ltac:(lia)) as Hm.
  unfold ascii_of_nat. rewrite N_ascii_embedding; lia.
Qed.

(** The initial vector an encryptor uses. *)
Definition iv_of (e : StandardEncryptor) (urandom : string) : string := default urandom (se_iv e).

Lemma standard_roundtrip e urandom s :
  ascii_only s -> String.length (iv_of e urandom) = 16%nat ->
  exists c, Standard.encode e urandom s = Ok (Base64.b64encode c) /\
    Standard.decode e (Base64.b64encode c) = Ok s.
Proof.
  intros Hs Hiv. unfold iv_of in Hiv.
  destruct (aes_roundtrip (se_key e) _ (Standard._pad s) Hiv (pad_length s)) as (c & Hc & Hd).
  exists (default urandom (se_iv e) +:+ c). split.
  - unfold Standard.encode. cbv zeta. by rewrite pad_ascii, Hc by done.
  - unfold Standard.decode. rewrite Base64.decode_encode. cbn [mbind result_bind].
    rewrite <- Hiv, str_take_app, str_drop_app. rewrite Hd. cbn [mbind result_bind]. rewrite unpad_pad. cbn [mbind result_bind].
    rewrite <- (ascii_encode s Hs) at 1. apply utf8_decode_encode.
Qed.

Lemma rpartition_none c d s : without c s = true -> rpartition (String c (String d "")) s = None.
Proof.
  induction s as [|x s IH]; [done|]. cbn [without str_forallb rpartition]. intros [Hx Hs]%andb_true_iff.
  rewrite IH, prefix_cons by done. destruct (ascii_dec c x); [|done]. subst. by rewrite bool_decide_eq_true_2 in Hx.
Qed.

Lemma rpartition_last p r : without ":" r = true -> rpartition "::" (p +:+ "::" +:+ r) = Some (p, r).
Proof.
  intros Hr. induction p as [|c p IH].
  - cbn [String.append rpartition]. rewrite (rpartition_none ":" ":" r) by done.
    assert (E : String.prefix "::" (String ":" r) = false).
    { rewrite prefix_cons. destruct (ascii_dec _ _); [|done].
      rewrite prefix_char. destruct r as [|x r]; [done|]. cbn in Hr. apply andb_true_iff in Hr as [Hx _].
      by apply negb_true_iff in Hx. }
    rewrite E. by rewrite (prefix_app "::" r : String.prefix "::" (String ":" (String ":" r)) = true).
  - cbn [String.append rpartition]. cbn [String.append] in IH. by rewrite IH.
Qed.

(** What an installation writes with its encryptor, whichever of its encryptors
    that is, it reads back: the text is decrypted with the encryptor it names. *)
Theorem divider_roundtrip mapping code d urandom s :
  Divider.init mapping code = Ok d ->
  ascii_only s -> (forall e, od_get code mapping = Some e -> String.length (iv_of e urandom) = 16%nat) ->
  exists r, Divider.encode d urandom s = Ok r /\ Divider.decode d r = Ok s.
Proof.
  unfold Divider.init. destruct (od_mem code mapping) eqn:Hm; [|done]. intros [= <-] Hs Hiv.
  unfold od_mem in Hm. destruct (od_get code mapping) as [e|] eqn:He; [|done]. clear Hm.
  destruct (standard_roundtrip e urandom s Hs (Hiv e eq_refl)) as (c & Hc & Hd).
  assert (Hn : without ":" (Base64.b64encode c) = true) by (by apply Base64.b64encode_forallb).
  unfold Divider.encode, Divider.decode, Divider.get_encryptor_from_code. cbn [Divider._encryptor_mapping Divider.write_encryptor_code].
  rewrite He. cbn [mbind result_bind]. rewrite Hc. cbn [mbind result_bind]. eexists. split; [done|].
  case_bool_decide as Ed.
  - subst code. by rewrite (rpartition_none ":" ":"), He.
  - rewrite rpartition_last by done. by rewrite He.
Qed.

(** A token as it is read back: empty parts are missing. *)
Definition normal_token (t : Token.t) : Token.t :=
  Token.mkToken (Token.key t) (Token.given (Token.secret t)) (Token.given (Token.refresh_token t)).

(** A token whose parts can be told apart: no colon in the key, nor in the secret,
    which is not the placeholder either. *)
Definition token_ok (t : Token.t) : Prop :=
  without ":" (Token.key t) = true /\
  match Token.given (Token.secret t) with Some s => without ":" s = true /\ s <> " " | None => True end.

Lemma split_n_none n c s : without c s = true -> split_n n (String c "") s = [s].
Proof. intros Hs. destruct n; [done|]. cbn [split_n]. by rewrite partition_char_none. Qed.

Lemma split_n_cons n c s r :
  without c s = true -> split_n (S n) (String c "") (s +:+ String c r) = s :: split_n n (String c "") r.
Proof. intros Hs. cbn [split_n]. by rewrite partition_char. Qed.

(** The text of a token gives back its key, its secret and its refresh token. *)
Theorem token_roundtrip t : token_ok t -> Token.decode_token (Token.encode_token t) = normal_token t.
Proof.
  intros [Hk Hs]. unfold Token.encode_token, normal_token, Token.decode_token.
  destruct (Token.given (Token.secret t)) as [s|]; [destruct Hs as [Hs Hp]|];
    destruct (Token.given (Token.refresh_token t)) as [r|]; cbn [default id].
  - change (":" +:+ s +:+ ":" +:+ r) with (String ":" (s +:+ String ":" r)).
    rewrite split_n_cons, split_n_cons by done. cbn [split_n]. by rewrite bool_decide_eq_false_2.
  - rewrite str_app_nil_r. change (":" +:+ s) with (String ":" s). rewrite split_n_cons, split_n_none by done. done.
  - change (":" +:+ " " +:+ ":" +:+ r) with (String ":" (" " +:+ String ":" r)).
    rewrite split_n_cons, split_n_cons by done. done.
  - by rewrite split_n_none.
Qed.
End roundtrip.

(** A cipher for the examples: one that changes nothing, and a digest of one letter. *)
Definition plain_crypto : Crypto := {|
  sha256 _ := "k";
  aes_cbc_encrypt _ _ m := if (String.length m mod 16 =? 0)%nat then Ok m else Err ValueError;
  aes_cbc_decrypt _ _ m := if (String.length m mod 16 =? 0)%nat then Ok m else Err ValueError;
|}.
#[local] Existing Instance plain_crypto.
#[local] Instance plain_laws : CryptoLaws.
Proof.
  split; intros key iv m _ Hm; unfold aes_cbc_encrypt, aes_cbc_decrypt, plain_crypto.
  - exists m. by rewrite (proj2 (Nat.eqb_eq _ _) Hm).
  - by rewrite (proj2 (Nat.eqb_neq _ _) Hm).
Qed.

Definition example_mapping : odict string StandardEncryptor :=
  [("default_enc", Standard.init ["a"]); ("v1_b", Standard.init ["v1"; "b"])].

Lemma divider_roundtrip_witness :
  exists d, Divider.init example_mapping "v1_b" = Ok d /\
  exists r, Divider.encode d "0123456789abcdef" "some_key:some_secret" = Ok r /\
    Divider.decode d r = Ok "some_key:some_secret".
Proof.
  eexists. split; [reflexivity|].
  apply (divider_roundtrip example_mapping "v1_b" _ "0123456789abcdef" "some_key:some_secret");
    [reflexivity | reflexivity | intros e [= <-]; reflexivity].
Defined.

Lemma token_roundtrip_witness :
  Token.decode_token (Token.encode_token (Token.mkToken "k" None (Some "a:b"))) = Token.mkToken "k" None (Some "a:b").
Proof. apply (token_roundtrip (Token.mkToken "k" None (Some "a:b"))). split; reflexivity. Defined.

(** The padding counts characters: a text with one beyond ASCII is no whole block
    once it is encoded, and cannot be encrypted. *)
Example accented_text_refused :
  Standard.encode (Standard.init ["a"]) "0123456789abcdef" (String "233" "t") = Err ValueError.
Proof. reflexivity. Qed.

(** A key of the configuration in the form the documentation gives has no name. *)
Example documented_keys_refused :
  Divider.get_encryptor_from_configuration "" "" [VDict [("code", VStr "abc"); ("value", VStr "x")]] (Some "abc")
  = Err KeyError.
Proof. reflexivity. Qed.

(** A secret with a colon is read back as a secret and a refresh token. *)
Example secret_with_colon :
  Token.decode_token (Token.encode_token (Token.mkToken "k" (Some "a:b") None)) =
  Token.mkToken "k" (Some "a") (Some "b").
Proof. reflexivity. Qed.
