(* ===== verification/Types.v ===== *)
(** * [shared/reports/types.py]: the records of a coverage report

    The coverage percentage they carry comes first, then the records with their
    encodings. *)
From S2P Require Export PyFloat.
From Stdlib Require Import QArith Qabs Lqa.
From S2P Require Export PyVal.

(** * [shared/helpers/numeric.py]: the coverage percentage of a report

    [ratio x y] is the string every totals record stores as its coverage.  The
    theorems bound the printed number and its distance from the exact
    percentage, through the two binary64 roundings and the decimal one. *)

#[local] Open Scope Z_scope.

Definition maxint (s : string) : result Z :=
  if (5 <? String.length s)%nat then Ok 99999 else int_of_str s.

(** [float(100)], the multiplier of [ratio]. *)
Definition f100 : b64 := rnd false 100 1.

Definition ratio (x y : Z) : result string :=
  if x =? y then Ok "100"%string
  else if (x =? 0) || (y =? 0) then Ok "0"%string
  else
    fx ← f_of_Z x;
    fy ← f_of_Z y;
    q ← f_div fx fy;
    Ok (f_fmt 5 (f_round 5 (f_mul q f100))).

(** ** Accuracy *)

Definition fq (f : b64) : Q := Qmake (fnum f) (Z.to_pos (fden f)).

Lemma rnd_errorQ neg n d :
  0 < n -> 0 < d ->
  (Qabs (fq (rnd neg n d) - Qmake n (Z.to_pos d)) <= fq (rnd neg n d) * Qmake 1 (2 ^ 53))%Q.
Proof.
  intros Hn Hd. pose proof (rnd_error neg n d Hn Hd) as H.
  pose proof (fden_pos (rnd neg n d)) as Hf. unfold fq.
  set (v := fnum _) in *. set (w := fden _) in *.
  unfold Qle, Qabs, Qminus, Qplus, Qopp, Qmult. cbn [Qnum Qden].
  rewrite !Pos2Z.inj_mul, !Z2Pos.id by lia.
  change (Z.pos (2 ^ 53)) with (2 ^ 53).
  replace (v * d + - n * w) with (v * d - n * w) by lia.
  set (E := Z.abs (v * d - n * w)) in *.
  replace (E * (w * 2 ^ 53)) with (2 ^ 53 * E * w) by lia.
  replace (v * 1 * (w * d)) with (v * d * w) by lia.
  apply Z.mul_le_mono_nonneg_r; lia.
Qed.

Lemma f_of_Z_ok z : 0 <= z < 2 ^ 53 -> f_of_Z z = Ok (rnd false z 1).
Proof.
  intros Hz. unfold f_of_Z. rewrite Z.abs_eq by lia.
  rewrite (proj2 (Z.leb_gt _ _)).
  - by rewrite (proj2 (Z.ltb_ge z 0)) by lia.
  - assert (2 ^ 53 < 2 ^ 1024 - 2 ^ 970) by reflexivity. lia.
Qed.

(** The quotient of two line counts is within 2^-53 of the exact one. *)
Lemma f_div_counts x y :
  0 < x < 2 ^ 53 -> 0 < y < 2 ^ 53 ->
  exists q, f_div (rnd false x 1) (rnd false y 1) = Ok q /\ fneg q = false /\ 0 < fnum q /\
    (Qabs (fq q - Qmake x (Z.to_pos y)) <= fq q * Qmake 1 (2 ^ 53))%Q.
Proof.
  intros Hx Hy. pose proof (rnd_exact_Z false x Hx) as Ex. pose proof (rnd_exact_Z false y Hy) as Ey.
  pose proof (rnd_pos false y 1 ltac:(lia) ltac:(lia)) as Py.
  unfold f_div. destruct (Z.eqb_spec (fman (rnd false y 1)) 0) as [E|_].
  { unfold fnum in Py. rewrite E in Py. lia. }
  eexists; split; [done|]. rewrite rnd_sign, !rnd_sign. cbn [xorb]. split; [done|].
  rewrite Ex, Ey. pose proof (fden_pos (rnd false x 1)) as Dx. pose proof (fden_pos (rnd false y 1)) as Dy.
  set (a := fden (rnd false x 1)) in *. set (b := fden (rnd false y 1)) in *.
  split; [apply rnd_pos; nia|].
  pose proof (rnd_errorQ false (x * a * b) (a * (y * b)) ltac:(nia) ltac:(nia)) as H.
  assert (Heq : (Qmake (x * a * b) (Z.to_pos (a * (y * b))) == Qmake x (Z.to_pos y))%Q).
  { unfold Qeq. cbn [Qnum Qden]. rewrite !Z2Pos.id by nia. nia. }
  by rewrite Heq in H.
Qed.

Lemma f_mul_100 q :
  fneg q = false -> 0 < fnum q ->
  fneg (f_mul q f100) = false /\ 0 < fnum (f_mul q f100) /\
  (Qabs (fq (f_mul q f100) - 100 * fq q) <= fq (f_mul q f100) * Qmake 1 (2 ^ 53))%Q.
Proof.
  intros Hs Hq. pose proof (fden_pos q) as Hd. unfold f_mul.
  rewrite rnd_sign, Hs. change (fneg f100) with false. split; [done|].
  pose proof (rnd_exact_Z false 100 ltac:(lia)) as E. fold f100 in E.
  pose proof (fden_pos f100) as D. rewrite E. split; [apply rnd_pos; nia|].
  pose proof (rnd_errorQ false (fnum q * (100 * fden f100)) (fden q * fden f100) ltac:(nia) ltac:(nia)) as H.
  assert (Heq : (Qmake (fnum q * (100 * fden f100)) (Z.to_pos (fden q * fden f100)) == 100 * fq q)%Q).
  { unfold Qeq, fq, Qmult. cbn [Qnum Qden]. rewrite !Pos2Z.inj_mul, !Z2Pos.id by nia. nia. }
  by rewrite Heq in H.
Qed.

Lemma f_scaled_errorQ p f :
  0 <= p -> (Qabs (inject_Z (f_scaled p f) - inject_Z (10 ^ p) * fq f) <= 1 # 2)%Q.
Proof.
  intros Hp. pose proof (fden_pos f) as Hd.
  pose proof (rne_div_spec (fnum f * 10 ^ p) (fden f) Hd) as H. fold (f_scaled p f) in H.
  unfold Qle, Qabs, Qminus, Qplus, Qopp, Qmult, inject_Z, fq. cbn [Qnum Qden].
  rewrite !Pos2Z.inj_mul, !Z2Pos.id by lia.
  replace (Z.abs _) with (Z.abs (f_scaled p f * fden f - fnum f * 10 ^ p)) by lia. lia.
Qed.

(** For two different positive counts below 2^53, [ratio] prints
    [round5 (100 * x / y)] up to one part in 2^28 of the last decimal. *)
Lemma ratio_run x y :
  0 < x < 2 ^ 53 -> 0 < y < 2 ^ 53 -> x < y ->
  exists n, ratio x y = Ok (fmt_fixed 5 false n) /\ 0 <= n <= 10 ^ 7 /\
    Z.abs (n * y - 10 ^ 7 * x) * 2 ^ 28 <= y * (2 ^ 27 + 1).
Proof.
  intros Hx Hy Hxy. unfold ratio.
  rewrite (proj2 (Z.eqb_neq x y)), (proj2 (Z.eqb_neq x 0)), (proj2 (Z.eqb_neq y 0)) by lia.
  cbn [orb]. rewrite !f_of_Z_ok by lia. cbn [mbind result_bind].
  destruct (f_div_counts x y Hx Hy) as (q & -> & Hs & Hq & Eq). cbn [mbind result_bind].
  destruct (f_mul_100 q Hs Hq) as (Hs' & Hw & Ew).
  pose proof (f_scaled_errorQ 5 (f_mul q f100) ltac:(lia)) as En.
  set (w := f_mul q f100) in *. set (n := f_scaled 5 w) in *.
  assert (Hxq : (0 < Qmake x (Z.to_pos y) < 1)%Q).
  { unfold Qlt. cbn [Qnum Qden]. rewrite Z2Pos.id by lia. lia. }
  change (inject_Z (10 ^ 5)) with (100000 # 1)%Q in En.
  apply Qabs_Qle_condition in Eq as [Eq1 Eq2], Ew as [Ew1 Ew2], En as [En1 En2].
  set (xq := Qmake x (Z.to_pos y)) in *.
  change (Qmake 1 (2 ^ 53)) with (1 # 9007199254740992)%Q in *.
  assert (Hn : (- (1 # 1) < inject_Z n < 10000001 # 1)%Q) by lra.
  assert (Hd : (Qabs (inject_Z n - (10000000 # 1) * xq) <= 134217729 # 268435456)%Q).
  { apply Qabs_Qle_condition. lra. }
  assert (Hnb : 0 <= n <= 10 ^ 7).
  { unfold Qlt, inject_Z in Hn. cbn [Qnum Qden Qopp] in Hn. lia. }
  exists n. split_and!; [| lia.. |].
  - unfold f_round. fold n. rewrite Hs'. unfold f_fmt. rewrite rnd_sign.
    change (Z.of_nat 5) with 5. by rewrite f_scaled_rnd by lia.
  - unfold Qle, Qabs, Qminus, Qplus, Qopp, Qmult, inject_Z in Hd. subst xq.
    cbn [Qnum Qden] in Hd. rewrite !Pos2Z.inj_mul, !Z2Pos.id in Hd by lia.
    replace (n * (1 * y) + - (10000000 * x) * 1) with (n * y - 10 ^ 7 * x) in Hd by lia. lia.
Qed.

(** The ratio of two counts below [2^53], the first smaller, is written with five
    decimals of a percentage between 0 and 100, and misses the exact percentage by at
    most half a unit of the fifth decimal and [2^-28] of a unit, which is what the
    roundings of the floating-point division and product add. *)
Theorem ratio_accuracy x y :
  0 < x < 2 ^ 53 -> 0 < y < 2 ^ 53 -> x < y ->
  exists n, ratio x y = Ok (fmt_fixed 5 false n) /\ 0 <= n <= 10 ^ 7 /\
    Z.abs (n * y - 10 ^ 7 * x) * 2 ^ 28 <= y * (2 ^ 27 + 1).
Proof. apply ratio_run. Qed.

Lemma ratio_accuracy_witness :
  exists n, ratio 2 3 = Ok (fmt_fixed 5 false n) /\ 0 <= n <= 10 ^ 7 /\
    Z.abs (n * 3 - 10 ^ 7 * 2) * 2 ^ 28 <= 3 * (2 ^ 27 + 1).
Proof. apply (ratio_accuracy 2 3); lia. Defined.

#[local] Open Scope Z_scope.

(** ** Coverage values

    The coverage of a line is [None], a number of hits, a branch string such as
    ["1/2"], a [Fraction], a list of column ranges, or one of the sentinels
    [True] (partial, from old formats) and [-1] (ignored). *)
Record partial := Partial { p_start : option Z; p_end : option Z; p_cov : Z }.

#[export] Instance partial_eq_dec : EqDecision partial.
Proof. solve_decision. Defined.

Inductive cov : Type :=
  | CNone
  | CBool (b : bool)
  | CInt (z : Z)
  | CFrac (num : Z) (den : positive)
  | CStr (s : string)
  | CParts (l : list partial).

#[export] Instance cov_eq_dec : EqDecision cov.
Proof. solve_decision. Defined.

Definition cov_truthy (c : cov) : bool :=
  match c with
  | CNone => false
  | CBool b => b
  | CInt z => negb (z =? 0)
  | CFrac n _ => negb (n =? 0)
  | CStr s => negb (bool_decide (s = ""%string))
  | CParts l => negb (bool_decide (l = []))
  end.

(** [bool], [int] and [Fraction] compare by value. *)
Definition cov_num (c : cov) : option (Z * positive) :=
  match c with
  | CBool b => Some (Z.b2z b, 1%positive)
  | CInt z => Some (z, 1%positive)
  | CFrac n d => Some (n, d)
  | _ => None
  end.

(** [a == b]. *)
Definition cov_eqb (a b : cov) : bool :=
  match cov_num a, cov_num b with
  | Some (n1, d1), Some (n2, d2) => n1 * Zpos d2 =? n2 * Zpos d1
  | None, None => bool_decide (a = b)
  | _, _ => false
  end.

(** Missing branch identifiers. *)
Inductive branch : Set := BrInt (z : Z) | BrStr (s : string).

#[export] Instance branch_eq_dec : EqDecision branch.
Proof. solve_decision. Defined.

(** [complexity: int | tuple[int, int]], or [None]. *)
Inductive cplx : Set := CxNone | CxInt (z : Z) | CxPair (covered total : Z).

#[export] Instance cplx_eq_dec : EqDecision cplx.
Proof. solve_decision. Defined.

(** ** Totals *)

(** The coverage of a total: [None], the default [0], the percentage string of
    [ratio], or a difference of percentages. *)
Inductive tcov : Set := TcNone | TcInt (z : Z) | TcStr (s : string) | TcFloat (f : b64).

#[export] Instance tcov_eq_dec : EqDecision tcov.
Proof. solve_decision. Defined.

(** [complexity] and [complexity_total] are [None] in the totals of an empty diff. *)
Record ReportTotals : Type := mkTotals {
  rt_files : Z; rt_lines : Z; rt_hits : Z; rt_misses : Z; rt_partials : Z;
  rt_coverage : tcov;
  rt_branches : Z; rt_methods : Z; rt_messages : Z; rt_sessions : Z;
  rt_complexity : option Z; rt_complexity_total : option Z;
  rt_diff : pyval;
}.

#[export] Instance ReportTotals_eq_dec : EqDecision ReportTotals.
Proof. solve_decision. Defined.

(** The defaults of the dataclass: [ReportTotals()]. *)
Definition ReportTotals_new : ReportTotals :=
  mkTotals 0 0 0 0 0 (TcInt 0) 0 0 0 0 (Some 0) (Some 0) (VInt 0).

Definition default_totals : ReportTotals :=
  mkTotals 0 0 0 0 0 TcNone 0 0 0 0 (Some 0) (Some 0) (VInt 0).

Definition val_of_tcov (c : tcov) : pyval :=
  match c with
  | TcNone => VNone | TcInt z => VInt z | TcStr s => VStr s | TcFloat f => VFloat f
  end.
Definition val_of_optZ (o : option Z) : pyval :=
  match o with Some z => VInt z | None => VNone end.

Definition totals_astuple (t : ReportTotals) : list pyval :=
  [VInt (rt_files t); VInt (rt_lines t); VInt (rt_hits t); VInt (rt_misses t); VInt (rt_partials t);
   val_of_tcov (rt_coverage t); VInt (rt_branches t); VInt (rt_methods t); VInt (rt_messages t);
   VInt (rt_sessions t); val_of_optZ (rt_complexity t); val_of_optZ (rt_complexity_total t); rt_diff t].

(** The loop of [to_database]: trailing ["0"] and [0] are popped. *)
Definition is_zero_val (v : pyval) : bool :=
  match v with
  | VStr s => bool_decide (s = "0"%string)
  | VInt z => z =? 0
  | VFloat f => fman f =? 0
  | VBool b => negb b
  | _ => false
  end.

Fixpoint pop_trailing (p : pyval -> bool) (l : list pyval) : list pyval :=
  match l with
  | [] => []
  | v :: l' =>
      match pop_trailing p l' with
      | [] => if p v then [] else [v]
      | r => v :: r
      end
  end.

Definition to_database (t : ReportTotals) : list pyval :=
  pop_trailing is_zero_val (totals_astuple t).

Definition asdict (t : ReportTotals) : pyval :=
  VDict (zip ["files"; "lines"; "hits"; "misses"; "partials"; "coverage"; "branches";
              "methods"; "messages"; "sessions"; "complexity"; "complexity_total";
              "diff"]%string (totals_astuple t)).

Definition tcov_of_val (v : pyval) : result tcov :=
  match v with
  | VNone => Ok TcNone | VInt z => Ok (TcInt z) | VStr s => Ok (TcStr s)
  | VFloat f => Ok (TcFloat f) | _ => Err Unmodelled
  end.
Definition Z_of_val (v : pyval) : result Z :=
  match v with VInt z => Ok z | _ => Err Unmodelled end.
Definition optZ_of_val (v : pyval) : result (option Z) :=
  match v with VInt z => Ok (Some z) | VNone => Ok None | _ => Err Unmodelled end.

(** [ReportTotals( *l )]: at most 13 positional arguments, the missing ones default. *)
Definition totals_of_list (l : list pyval) : result ReportTotals :=
  if (13 <? length l)%nat then Err TypeError
  else
    let arg (i : nat) (dflt : pyval) := default dflt (l !! i) in
    f ← Z_of_val (arg 0%nat (VInt 0));
    n ← Z_of_val (arg 1%nat (VInt 0));
    h ← Z_of_val (arg 2%nat (VInt 0));
    m ← Z_of_val (arg 3%nat (VInt 0));
    p ← Z_of_val (arg 4%nat (VInt 0));
    c ← tcov_of_val (arg 5%nat (VInt 0));
    b ← Z_of_val (arg 6%nat (VInt 0));
    d ← Z_of_val (arg 7%nat (VInt 0));
    M ← Z_of_val (arg 8%nat (VInt 0));
    s ← Z_of_val (arg 9%nat (VInt 0));
    C ← optZ_of_val (arg 10%nat (VInt 0));
    N ← optZ_of_val (arg 11%nat (VInt 0));
    Ok (mkTotals f n h m p c b d M s C N (arg 12%nat (VInt 0))).

(** ** Lines *)

Record LineSession : Type := mkSession {
  ls_id : Z;
  ls_coverage : cov;
  ls_branches : option (list branch);
  ls_partials : option (list partial);
  ls_complexity : cplx;
}.

#[export] Instance LineSession_eq_dec : EqDecision LineSession.
Proof. solve_decision. Defined.

(** [LineSession(id, coverage)], the optional fields [None]. *)
Definition LineSession_new (id : Z) (c : cov) : LineSession :=
  mkSession id c None None CxNone.

Record ReportLine : Type := mkLine {
  rl_coverage : cov;
  rl_type : option string;
  rl_sessions : list LineSession;
  rl_complexity : cplx;
}.

#[export] Instance ReportLine_eq_dec : EqDecision ReportLine.
Proof. solve_decision. Defined.

(** [ReportLine.create] on session objects: the deprecated [messages] and
    [datapoints] arguments are dropped. *)
Definition ReportLine_create (c : cov) (ty : option string)
    (ss : option (list LineSession)) (cx : cplx) : ReportLine :=
  mkLine c ty (default [] ss) cx.

(** *** The tuples the serializer writes *)

Definition val_of_partial (p : partial) : pyval :=
  VList [val_of_optZ (p_start p); val_of_optZ (p_end p); VInt (p_cov p)].

(** [str(Fraction)]: lowest terms, and no denominator when it is one. *)
Definition str_of_frac (n : Z) (d : positive) : string :=
  let g := Z.gcd n (Zpos d) in
  if Zpos d / g =? 1 then str_of_Z (n / g)
  else str_of_Z (n / g) +:+ "/"%string +:+ str_of_Z (Zpos d / g).

Definition val_of_cov (c : cov) : pyval :=
  match c with
  | CNone => VNone
  | CBool b => VBool b
  | CInt z => VInt z
  | CFrac n d => VStr (str_of_frac n d)
  | CStr s => VStr s
  | CParts l => VList (val_of_partial <$> l)
  end.

Definition val_of_branch (b : branch) : pyval :=
  match b with BrInt z => VInt z | BrStr s => VStr s end.

Definition val_of_opt {A} (f : A -> pyval) (o : option (list A)) : pyval :=
  match o with Some l => VList (f <$> l) | None => VNone end.

Definition val_of_cplx (c : cplx) : pyval :=
  match c with
  | CxNone => VNone | CxInt z => VInt z | CxPair a b => VList [VInt a; VInt b]
  end.

Definition session_astuple (s : LineSession) : list pyval :=
  match ls_branches s, ls_partials s, ls_complexity s with
  | None, None, CxNone => [VInt (ls_id s); val_of_cov (ls_coverage s)]
  | _, _, _ =>
      [VInt (ls_id s); val_of_cov (ls_coverage s);
       val_of_opt val_of_branch (ls_branches s);
       val_of_opt val_of_partial (ls_partials s); val_of_cplx (ls_complexity s)]
  end.

Definition val_of_type (t : option string) : pyval :=
  match t with Some s => VStr s | None => VNone end.

(** [[s.astuple() for s in self.sessions] if self.sessions else None]. *)
Definition val_of_sessions (ss : list LineSession) : pyval :=
  match ss with
  | [] => VNone
  | _ => VList ((fun s => VList (session_astuple s)) <$> ss)
  end.

Definition line_astuple (l : ReportLine) : list pyval :=
  [val_of_cov (rl_coverage l);
   val_of_type (rl_type l);
   val_of_sessions (rl_sessions l);
   VNone;
   val_of_cplx (rl_complexity l)].

(** *** Reading the tuples back: [ReportLine.create( *list )] *)

Definition partial_of_val (v : pyval) : result partial :=
  match v with
  | VList [s; e; c] =>
      s ← optZ_of_val s; e ← optZ_of_val e; c ← Z_of_val c; Ok (Partial s e c)
  | _ => Err Unmodelled
  end.

Definition cov_of_val (v : pyval) : result cov :=
  match v with
  | VNone => Ok CNone
  | VBool b => Ok (CBool b)
  | VInt z => Ok (CInt z)
  | VStr s => Ok (CStr s)
  | VList l => ps ← traverse partial_of_val l; Ok (CParts ps)
  | VFloat _ | VDict _ => Err Unmodelled
  end.

Definition branch_of_val (v : pyval) : result branch :=
  match v with VInt z => Ok (BrInt z) | VStr s => Ok (BrStr s) | _ => Err Unmodelled end.

Definition opt_of_val {A} (f : pyval -> result A) (v : pyval) : result (option (list A)) :=
  match v with
  | VNone => Ok None
  | VList l => xs ← traverse f l; Ok (Some xs)
  | _ => Err Unmodelled
  end.

Definition cplx_of_val (v : pyval) : result cplx :=
  match v with
  | VNone => Ok CxNone
  | VInt z => Ok (CxInt z)
  | VList [VInt a; VInt b] => Ok (CxPair a b)
  | _ => Err Unmodelled
  end.

(** [LineSession( *sess )]: two to five positional arguments. *)
Definition session_of_val (v : pyval) : result LineSession :=
  match v with
  | VList (i :: c :: rest) =>
      if (3 <? length rest)%nat then Err TypeError
      else
        i ← Z_of_val i;
        c ← cov_of_val c;
        b ← opt_of_val branch_of_val (default VNone (rest !! 0%nat));
        p ← opt_of_val partial_of_val (default VNone (rest !! 1%nat));
        x ← cplx_of_val (default VNone (rest !! 2%nat));
        Ok (mkSession i c b p x)
  | VList [_] => Err TypeError
  | _ => Err Unmodelled
  end.

(** [[LineSession( *sess ) for sess in sessions if sess]], [[]] when falsy. *)
Definition sessions_of_val (v : pyval) : result (list LineSession) :=
  match v with
  | VNone => Ok []
  | VList l => traverse session_of_val (filter (fun w => truthy w = true) l)
  | _ => Err Unmodelled
  end.

Definition type_of_val (v : pyval) : result (option string) :=
  match v with VNone => Ok None | VStr s => Ok (Some s) | _ => Err Unmodelled end.

Definition line_of_list (l : list pyval) : result ReportLine :=
  if (6 <? length l)%nat then Err TypeError
  else
    let arg (i : nat) := default VNone (l !! i) in
    c ← cov_of_val (arg 0%nat);
    t ← type_of_val (arg 1%nat);
    s ← sessions_of_val (arg 2%nat);
    x ← cplx_of_val (arg 4%nat);
    Ok (mkLine c t s x).

(** ** The other records *)

Record Change : Type := mkChange {
  ch_path : string;
  ch_new : bool;
  ch_deleted : bool;
  ch_in_diff : option bool;
  ch_old_path : option string;
  ch_totals : option ReportTotals;
}.

Record NetworkFile : Type := mkNetworkFile {
  nf_totals : ReportTotals;
  nf_diff_totals : option ReportTotals;
}.

Definition network_astuple (n : NetworkFile) : list pyval :=
  [VList (totals_astuple (nf_totals n)); VNone;
   match nf_diff_totals n with Some t => VList (totals_astuple t) | None => VNone end].

(** ** Round trips *)

(** A coverage value the tuple format keeps apart from the others. *)
Definition cov_no_frac (c : cov) : bool := match c with CFrac _ _ => false | _ => true end.

Lemma optZ_roundtrip o : optZ_of_val (val_of_optZ o) = Ok o.
Proof. by destruct o. Qed.

Lemma partial_roundtrip p : partial_of_val (val_of_partial p) = Ok p.
Proof. destruct p as [[] [] ?]; done. Qed.

Lemma traverse_roundtrip {A} (f : A -> pyval) (g : pyval -> result A) (l : list A) :
  (forall x, x ∈ l -> g (f x) = Ok x) -> traverse g (f <$> l) = Ok l.
Proof.
  induction l as [|x l IH]; intros H; cbn; [done|].
  rewrite H by set_solver. cbn. rewrite IH by set_solver. done.
Qed.

Lemma cov_roundtrip c : cov_no_frac c = true -> cov_of_val (val_of_cov c) = Ok c.
Proof.
  destruct c; try done. intros _. cbn.
  rewrite (traverse_roundtrip val_of_partial); [done | intros; apply partial_roundtrip].
Qed.

Lemma opt_roundtrip {A} (f : A -> pyval) (g : pyval -> result A) o :
  (forall x, g (f x) = Ok x) -> opt_of_val g (val_of_opt f o) = Ok o.
Proof.
  intros H. destruct o as [l|]; cbn; [|done].
  by rewrite (traverse_roundtrip f) by auto.
Qed.

Lemma branch_roundtrip b : branch_of_val (val_of_branch b) = Ok b.
Proof. by destruct b. Qed.

Lemma cplx_roundtrip c : cplx_of_val (val_of_cplx c) = Ok c.
Proof. by destruct c. Qed.

Lemma session_roundtrip s :
  cov_no_frac (ls_coverage s) = true -> session_of_val (VList (session_astuple s)) = Ok s.
Proof.
  intros Hc. destruct s as [i c b p x]. cbn in Hc.
  destruct b as [b|], p as [p|], x; unfold session_astuple;
    cbn [ls_id ls_coverage ls_branches ls_partials ls_complexity session_of_val length Nat.ltb
         Nat.leb default id lookup list_lookup Z_of_val mbind result_bind];
    rewrite cov_roundtrip by done; cbn [mbind result_bind];
    rewrite ?(opt_roundtrip val_of_branch), ?(opt_roundtrip val_of_partial)
      by auto using branch_roundtrip, partial_roundtrip; cbn [mbind result_bind];
    rewrite ?cplx_roundtrip; done.
Qed.

Definition line_no_frac (l : ReportLine) : bool :=
  cov_no_frac (rl_coverage l) && forallb (fun s => cov_no_frac (ls_coverage s)) (rl_sessions l).

Lemma type_roundtrip t : type_of_val (val_of_type t) = Ok t.
Proof. by destruct t. Qed.

Lemma sessions_roundtrip ss :
  Forall (fun s => cov_no_frac (ls_coverage s) = true) ss ->
  sessions_of_val (val_of_sessions ss) = Ok ss.
Proof.
  intros Hs. destruct ss as [|s ss]; [done|].
  unfold sessions_of_val, val_of_sessions. rewrite filter_all.
  - apply traverse_roundtrip. intros s' Hin. apply session_roundtrip.
    rewrite Forall_forall in Hs. auto.
  - apply Forall_fmap, Forall_forall. intros s' _. cbn. unfold session_astuple.
    by repeat case_match.
Qed.

Lemma line_roundtrip l : line_no_frac l = true -> line_of_list (line_astuple l) = Ok l.
Proof.
  intros [Hc Hs]%andb_true_iff. apply Is_true_true, forallb_True in Hs.
  destruct l as [c t ss x]. cbn [rl_coverage rl_sessions] in *.
  unfold line_of_list, line_astuple.
  cbn [rl_coverage rl_type rl_sessions rl_complexity length Nat.ltb Nat.leb lookup list_lookup
       default id].
  rewrite cov_roundtrip by done. cbn [mbind result_bind].
  rewrite type_roundtrip. cbn [mbind result_bind].
  rewrite sessions_roundtrip; cbn [mbind result_bind]; [by rewrite cplx_roundtrip|].
  eapply Forall_impl; [exact Hs|]. intros s. apply Is_true_true_1.
Qed.

Lemma totals_roundtrip t : totals_of_list (totals_astuple t) = Ok t.
Proof. destruct t as [???? ? [] ???? [] [] ?]; done. Qed.
