(* ===== verification/Merge.v ===== *)
(** * [shared/utils/merge.py]: merging coverage values, sessions and lines

    Every function of the module is a definition of the same name.  A Python
    [set] is a list without duplicates: the order in which [list(set)]
    enumerates is unspecified, and no theorem depends on it. *)
From S2P Require Export Types.
#[local] Open Scope Z_scope.

(** ** Line types *)

Inductive LineType : Set := skipped | hit | miss | partial_line.

#[export] Instance LineType_eq_dec : EqDecision LineType.
Proof. solve_decision. Defined.

(** The [IntEnum] value. *)
Definition LineType_value (t : LineType) : Z :=
  match t with skipped => -1 | hit => 0 | miss => 1 | partial_line => 2 end.

Definition branch_type (b : string) : result LineType :=
  match split1 "/" b with
  | [b1; b2] =>
      Ok (if bool_decide (b1 = b2) then hit
          else if bool_decide (b1 = "0"%string) then miss else partial_line)
  | _ => n ← int_of_str b; Ok (if n =? 0 then miss else hit)
  end.

Definition line_type (line : cov) : result (option LineType) :=
  match line with
  | CBool true => Ok (Some partial_line)
  | CStr s => t ← branch_type s; Ok (Some t)
  | _ =>
      if cov_eqb line (CInt (-1)) then Ok (Some skipped)
      else match line with
           | CBool false => Ok None
           | CFrac n d =>
               Ok (Some (if n =? 0 then miss else if Zpos d <=? n then hit else partial_line))
           | CNone => Ok None
           | _ => Ok (Some (if cov_truthy line then hit else miss))
           end
  end.

(** ** Merging two coverage values *)

(** The [branches_missing] argument: [True] by default, [None] or a list when the
    caller knows the missing branches, [False] for a line without hits. *)
Inductive missing : Type := MTrue | MFalse | MNone | MList (l : list branch).

(** [cast_ints_float]: a [bool] is an [int], so it becomes a float too. *)
Inductive casted : Type := KFloat (f : b64) | KKeep (c : cov).

Definition cast_ints_float (value : cov) : result casted :=
  match value with
  | CInt z => f ← f_of_Z z; Ok (KFloat f)
  | CBool b => f ← f_of_Z (Z.b2z b); Ok (KFloat f)
  | _ => Ok (KKeep value)
  end.

Definition is_float (k : casted) : bool := match k with KFloat _ => true | _ => false end.
Definition is_number (k : casted) : bool :=
  match k with KFloat _ | KKeep (CFrac _ _) => true | _ => false end.
Definition is_str (k : casted) : bool := match k with KKeep (CStr _) => true | _ => false end.
Definition is_list (k : casted) : bool := match k with KKeep (CParts _) => true | _ => false end.
Definition is_bool (k : casted) : bool := match k with KKeep (CBool _) => true | _ => false end.

(** [l1 >= l2] on numbers. *)
Definition cov_geb (a b : cov) : bool :=
  match cov_num a, cov_num b with
  | Some (n1, d1), Some (n2, d2) => n2 * Zpos d1 <=? n1 * Zpos d2
  | _, _ => false
  end.

(** [c.split("/")[-1]]. *)
Definition last_piece (c : cov) : result string :=
  match c with
  | CStr s => Ok (List.last (split "/" s) ""%string)
  | _ => Err AttributeError
  end.

(** [c.split("/", 1)] unpacked into two names. *)
Definition split_pair (c : cov) : result (string * string) :=
  match c with
  | CStr s => match split1 "/" s with [a; b] => Ok (a, b) | _ => Err ValueError end
  | _ => Err AttributeError
  end.

Definition is_pos_int (c : cov) : bool := match c with CInt z => 0 <? z | _ => false end.
Definition is_cov_list (c : cov) : bool := match c with CParts _ => true | _ => false end.

(** [c in (0, None, True)]. *)
Definition in_0_None_True (c : cov) : bool :=
  cov_eqb c (CInt 0) || bool_decide (c = CNone) || cov_eqb c (CBool true).

Definition merge_branch (b1 b2 : cov) : result cov :=
  if cov_eqb b1 b2 then Ok b1
  else if cov_eqb b1 (CInt (-1)) || cov_eqb b2 (CInt (-1)) then Ok (CInt (-1))
  else if is_pos_int b1 then Ok b1
  else if is_pos_int b2 then Ok b2
  else if in_0_None_True b1 then Ok b2
  else if in_0_None_True b2 then Ok b1
  else if is_cov_list b1 then Ok b1
  else if is_cov_list b2 then Ok b2
  else
    '(br1, br2) ← split_pair b1;
    if bool_decide (br1 = br2) then Ok b1
    else
      '(br3, br4) ← split_pair b2;
      if bool_decide (br3 = br4) then Ok b2
      else
        n1 ← int_of_str br1; n3 ← int_of_str br3;
        n2 ← int_of_str br2; n4 ← int_of_str br4;
        Ok (CStr ((if n3 <? n1 then br1 else br3) +:+ "/"%string +:+
                  (if n4 <? n2 then br2 else br4))).

Definition partials_to_line (ps : list partial) : cov :=
  match ps with
  | [p] => CInt (p_cov p)
  | _ =>
      let v := Z.of_nat (length (filter (fun p => 0 < p_cov p) ps)) in
      CStr (str_of_Z v +:+ "/"%string +:+ str_of_Z (Z.of_nat (length ps)))
  end.

(** *** Column ranges *)

(** [_ifg]: the end is after the start. *)
Definition ifg (s e c : Z) : partial := Partial (Some s) (Some (if s <? e then e else s + 1)) c.

(** [fl[x].append(c) for x in xs] on a [defaultdict(list)]. *)
Definition fl_append (c : Z) (fl : odict Z (list Z)) (xs : list Z) : odict Z (list Z) :=
  foldl (fun fl x => od_set x (default [] (od_get x fl) ++ [c]) fl) fl xs.

(** [range(a, b)]. *)
Definition range (a b : Z) : list Z := seqZ a (b - a).

Definition list_max (l : list Z) : result Z :=
  match l with [] => Err ValueError | x :: l' => Ok (foldl Z.max x l') end.

(** [itertools.groupby(l, key=c[1])], as the first and last element of each run. *)
Fixpoint groupby_cov (l : list (Z * Z)) : list (Z * Z * Z) :=
  match l with
  | [] => []
  | (x, c) :: l' =>
      match groupby_cov l' with
      | (a, b, c') :: gs => if c =? c' then (x, b, c) :: gs else (x, x, c) :: (a, b, c') :: gs
      | [] => [(x, x, c)]
      end
  end.

Definition col_le (a b : Z * Z) : Prop := a.1 <= b.1.
#[export] Instance col_le_dec : RelDecision col_le.
Proof. intros a b. apply Z.le_dec. Defined.

(** [pp[-1][1] = None]. *)
Definition open_last (pp : list partial) : result (list partial) :=
  match pp with
  | [] => Err IndexError
  | _ => Ok (removelast pp ++
             [let p := List.last pp (Partial None None 0) in Partial (p_start p) None (p_cov p)])
  end.

Definition closed (p : partial) : bool := match p_end p with Some _ => true | None => false end.

Definition fill_closed (np : list partial) : odict Z (list Z) :=
  foldl (fun fl p =>
           match p_end p with
           | Some e => fl_append (p_cov p) fl (range (default 0 (p_start p)) (e + 1))
           | None => fl
           end) [] np.

Definition fill_open (mx : Z) (np : list partial) (fl : odict Z (list Z)) : odict Z (list Z) :=
  foldl (fun fl p =>
           match p_end p with
           | Some _ => fl
           | None => fl_append (p_cov p) fl (range (default 0 (p_start p)) mx)
           end) fl np.

Definition merge_partial_line (p1 p2 : list partial) : result (list partial) :=
  match p1, p2 with
  | [], _ => Ok p2
  | _, [] => Ok p1
  | _, _ =>
      let np := p1 ++ p2 in
      let fl := fill_closed np in
      let mx := match list_max (od_keys fl) with Ok m => m + 1 | Err _ => 0 end in
      let fl := fill_open mx np fl in
      cols ← traverse (fun kv => m ← list_max kv.2; Ok (kv.1, m)) fl;
      let pp := (fun g => ifg g.1.1 g.1.2 g.2) <$> groupby_cov (merge_sort col_le cols) in
      if forallb closed np then Ok pp
      else _ ← list_max (od_keys fl); open_last pp
  end.

(** *** [merge_coverage]

    The only recursive call replaces lists by numbers or strings, so two levels
    are enough; [RecursionError] would be the third. *)
Fixpoint merge_coverage_fuel (fuel : nat) (l1 l2 : cov) (bm : missing) : result cov :=
  match fuel with
  | O => Err Unmodelled
  | S fuel' =>
      match l1, l2 with
      | CNone, _ => Ok l2
      | _, CNone => Ok l1
      | _, _ =>
          if cov_eqb l1 (CInt (-1)) || cov_eqb l2 (CInt (-1)) then Ok (CInt (-1))
          else
            l1t ← cast_ints_float l1;
            l2t ← cast_ints_float l2;
            if is_number l1t && is_number l2t then Ok (if cov_geb l1 l2 then l1 else l2)
            else if is_str l1t || is_str l2t then
              let '(bm, l1') :=
                if is_float l1t then (if cov_truthy l1 then MList [] else MFalse, l2)
                else if is_float l2t then (if cov_truthy l2 then MList [] else MFalse, l1)
                else (bm, l1) in
              match bm with
              | MList [] =>
                  t ← last_piece l1'; Ok (CStr (t +:+ "/"%string +:+ t))
              | MList bs =>
                  t ← last_piece l1'; target ← int_of_str t;
                  let bf := target - Z.of_nat (length bs) in
                  Ok (CStr (str_of_Z (if 0 <? bf then bf else 0) +:+ "/"%string +:+ str_of_Z target))
              | _ => merge_branch l1' l2
              end
            else if is_list l1t && is_list l2t then
              match l1, l2 with
              | CParts p1, CParts p2 => ps ← merge_partial_line p1 p2; Ok (CParts ps)
              | _, _ => Err TypeError
              end
            else if is_bool l1t || is_bool l2t then
              Ok (if is_bool l1t then (if cov_truthy l2 then l2 else l1)
                  else (if cov_truthy l1 then l1 else l2))
            else
              merge_coverage_fuel fuel'
                (match l1 with CParts ps => partials_to_line ps | _ => l1 end)
                (match l2 with CParts ps => partials_to_line ps | _ => l2 end) MTrue
      end
  end.

Definition merge_coverage (l1 l2 : cov) (bm : missing) : result cov :=
  merge_coverage_fuel 2 l1 l2 bm.

Definition merge_all (coverages : list cov) (missing_branches : missing) : result cov :=
  match coverages with
  | [] => Err IndexError
  | cov :: rest => foldM (fun c c' => merge_coverage c c' missing_branches) cov rest
  end.

Definition missing_of (o : option (list branch)) : missing :=
  match o with Some l => MList l | None => MNone end.

(** ** Sessions *)

Definition set_of (l : list branch) : list branch := remove_dups l.
Definition set_inter (a b : list branch) : list branch := filter (fun x => x ∈ b) a.

(** The loop of [merge_missed_branches]; [acc] is [missed_branches]. *)
Fixpoint missed_branches_loop (acc : option (list branch)) (ss : list LineSession)
    : result (option (list branch)) :=
  match ss with
  | [] => Ok acc
  | s :: ss' =>
      match ls_branches s with
      | None =>
          t ← line_type (ls_coverage s);
          if bool_decide (t = Some hit) then Ok (Some [])
          else missed_branches_loop acc ss'
      | Some bs =>
          match acc with
          | None => missed_branches_loop (Some (set_of bs)) ss'
          | Some missed =>
              let missed' := set_inter missed bs in
              if bool_decide (missed' = []) then Ok (Some [])
              else missed_branches_loop (Some missed') ss'
          end
      end
  end.

Definition has_branches (s : LineSession) : bool :=
  match ls_branches s with Some _ => true | None => false end.

Definition merge_missed_branches (ss : list LineSession) : result (option (list branch)) :=
  if existsb has_branches ss then missed_branches_loop None ss else Ok None.

(** [sorted(l, key=lambda p: p[0])]: stable, and [None] does not compare. *)
Fixpoint insert_partial (p : partial) (l : list partial) : list partial :=
  match l with
  | [] => [p]
  | q :: l' =>
      if default 0 (p_start p) <=? default 0 (p_start q) then p :: q :: l'
      else q :: insert_partial p l'
  end.

Definition sort_partials (l : list partial) : result (list partial) :=
  if (length l <=? 1)%nat then Ok l
  else if forallb (fun p => bool_decide (is_Some (p_start p))) l
  then Ok (foldr insert_partial [] l) else Err TypeError.

(** [a or b] on optional lists. *)
Definition or_parts (a b : option (list partial)) : option (list partial) :=
  match a with Some (_ :: _) => a | _ => b end.
Definition parts_truthy (a : option (list partial)) : bool :=
  match a with Some (_ :: _) => true | _ => false end.

Definition merged_branches (s1 s2 : LineSession) : result (option (list branch)) :=
  match ls_branches s1, ls_branches s2 with
  | None, None => Ok None
  | None, Some s2b =>
      t ← line_type (ls_coverage s1);
      Ok (Some (if bool_decide (t = Some hit) then [] else s2b))
  | Some s1b, None =>
      t ← line_type (ls_coverage s2);
      Ok (Some (if bool_decide (t = Some hit) then [] else s1b))
  | Some s1b, Some s2b => Ok (Some (set_inter (set_of s1b) (set_of s2b)))
  end.

Definition merged_partials (s1p s2p : option (list partial)) : result (option (list partial)) :=
  if parts_truthy s1p || parts_truthy s2p then
    match s1p, s2p with
    | Some a, Some b => l ← sort_partials (a ++ b); Ok (Some l)
    | _, _ => Ok (or_parts s1p s2p)
    end
  else Ok None.

Definition merge_line_session (s1 s2 : LineSession) : result LineSession :=
  mb ← merged_branches s1 s2;
  partials ← merged_partials (ls_partials s1) (ls_partials s2);
  c ← merge_coverage (ls_coverage s1) (ls_coverage s2) (missing_of mb);
  Ok (mkSession (ls_id s1) c mb partials CxNone).

Definition by_id (ss : list LineSession) : odict Z LineSession :=
  od_of_list ((fun s => (ls_id s, s)) <$> ss).

Definition merge_sessions (s1 s2 : list LineSession) : result (list LineSession) :=
  match s1, s2 with
  | [], _ => Ok s2
  | _, [] => Ok s1
  | _, _ =>
      let intersection := filter (fun i => i ∈ (ls_id <$> s2)) (od_keys (by_id s1)) in
      match intersection with
      | [] => Ok (s1 ++ s2)
      | _ =>
          '(d1, d2) ← foldM (fun '(d1, d2) i =>
              match od_get i d1 with
              | Some x =>
                  '(y, d2') ← od_pop i d2;
                  z ← merge_line_session x y;
                  Ok (od_set i z d1, d2')
              | None => Err KeyError
              end) (by_id s1, by_id s2) intersection;
          Ok (od_vals d1 ++ od_vals d2)
      end
  end.

Definition list_max' (l : list Z) : Z := match l with [] => 0 | x :: l' => foldl Z.max x l' end.

(** [max((s.complexity or 0) for s in sessions)]: a tuple does not compare with an [int]. *)
Definition cx_or_0 (c : cplx) : result Z :=
  match c with CxNone => Ok 0 | CxInt z => Ok z | CxPair _ _ => Err TypeError end.
(** [s.complexity or (0, 0)], indexed. *)
Definition cx_or_00 (c : cplx) : result (Z * Z) :=
  match c with
  | CxNone => Ok (0, 0)
  | CxInt z => if z =? 0 then Ok (0, 0) else Err TypeError
  | CxPair a b => Ok (a, b)
  end.

Definition get_complexity_from_sessions (ss : list LineSession) : result cplx :=
  match ss with
  | [] => Err IndexError
  | s :: _ =>
      match ls_complexity s with
      | CxInt _ =>
          l ← traverse (fun s => cx_or_0 (ls_complexity s)) ss; Ok (CxInt (list_max' l))
      | CxPair _ _ =>
          l ← traverse (fun s => cx_or_00 (ls_complexity s)) ss;
          Ok (CxPair (list_max' l.*1) (list_max' l.*2))
      | CxNone => Ok CxNone
      end
  end.

Definition get_coverage_from_sessions (ss : list LineSession) : result cov :=
  mb ← merge_missed_branches ss;
  merge_all (ls_coverage <$> ss) (missing_of mb).

(** ** Lines *)

(** [l1.type or l2.type]. *)
Definition or_type (a b : option string) : option string :=
  match a with Some s => if bool_decide (s = ""%string) then b else a | None => b end.

Definition merge_line (l1 l2 : option ReportLine) (joined is_disjoint : bool)
    : result (option ReportLine) :=
  match l1, l2 with
  | None, _ => Ok l2
  | _, None => Ok l1
  | Some l1, Some l2 =>
      if joined && is_disjoint then
        Ok (Some (ReportLine_create CNone (or_type (rl_type l1) (rl_type l2))
                    (Some (rl_sessions l1 ++ rl_sessions l2)) CxNone))
      else
        sessions ← merge_sessions (rl_sessions l1) (rl_sessions l2);
        c ← (if joined then get_coverage_from_sessions sessions else Ok (rl_coverage l1));
        x ← (if joined then get_complexity_from_sessions sessions else Ok (rl_complexity l1));
        Ok (Some (ReportLine_create c (or_type (rl_type l1) (rl_type l2)) (Some sessions) x))
  end.

(** ** Specification: line types form a join-semilattice

    [None] (no data) is neutral, [skipped] absorbs, and otherwise the best
    result wins: a hit over a partial over a miss. *)
Definition type_join (a b : option LineType) : option LineType :=
  match a, b with
  | None, t | t, None => t
  | Some skipped, _ | _, Some skipped => Some skipped
  | Some hit, _ | _, Some hit => Some hit
  | Some partial_line, _ | _, Some partial_line => Some partial_line
  | Some miss, Some miss => Some miss
  end.

(** Coverage as current uploads write it: nothing, a 64-bit hit count or the
    sentinel [-1], or a branch string of two numbers, covered and total. *)
Inductive plain_cov : cov -> Prop :=
  | plain_none : plain_cov CNone
  | plain_int z : -1 <= z < 2 ^ 63 -> plain_cov (CInt z)
  | plain_branch a b : 0 <= a <= b -> plain_cov (CStr (frac_str a b)).
#[export] Hint Constructors plain_cov : umbrella.

(** The branches are not enumerated. *)
Definition unknown_branches (bm : missing) : bool :=
  match bm with MList _ => false | _ => true end.

Definition typed (c : cov) (t : option LineType) : Prop := line_type c = Ok t.

Lemma type_join_comm a b : type_join a b = type_join b a.
Proof. by destruct a as [[]|], b as [[]|]. Qed.
Lemma type_join_assoc a b c : type_join a (type_join b c) = type_join (type_join a b) c.
Proof. by destruct a as [[]|], b as [[]|], c as [[]|]. Qed.
Lemma type_join_idemp a : type_join a a = a.
Proof. by destruct a as [[]|]. Qed.

Lemma f_of_Z_total z : -1 <= z < 2 ^ 63 -> exists f, f_of_Z z = Ok f.
Proof.
  intros Hz. unfold f_of_Z. rewrite (proj2 (Z.leb_gt _ _)); [eauto|].
  assert (2 ^ 63 < 2 ^ 1024 - 2 ^ 970) by reflexivity. lia.
Qed.

Lemma bool_decide_str_of_Z a b : bool_decide (str_of_Z a = str_of_Z b) = (a =? b).
Proof.
  destruct (Z.eqb_spec a b) as [->|H]; [by apply bool_decide_eq_true|].
  apply bool_decide_eq_false. intros E. by apply str_of_Z_inj in E.
Qed.

Lemma bool_decide_str_0 a : bool_decide (str_of_Z a = "0"%string) = (a =? 0).
Proof. exact (bool_decide_str_of_Z a 0). Qed.

Definition frac_type (a b : Z) : LineType :=
  if a =? b then hit else if a =? 0 then miss else partial_line.

Lemma branch_type_frac a b : 0 <= a -> branch_type (frac_str a b) = Ok (frac_type a b).
Proof.
  intros Ha. unfold branch_type. rewrite split1_frac_str by done.
  by rewrite bool_decide_str_of_Z, bool_decide_str_0.
Qed.

Lemma line_type_frac a b : 0 <= a -> line_type (CStr (frac_str a b)) = Ok (Some (frac_type a b)).
Proof. intros Ha. cbn. by rewrite branch_type_frac. Qed.

Lemma line_type_int z :
  line_type (CInt z) = Ok (Some (if z =? -1 then skipped else if z =? 0 then miss else hit)).
Proof.
  cbn. unfold cov_eqb. cbn. rewrite !Z.mul_1_r.
  destruct (z =? -1); [done|]. by destruct (z =? 0).
Qed.

Lemma plain_typed c : plain_cov c -> exists t, line_type c = Ok t.
Proof.
  destruct 1 as [|z Hz|a b Hab]; [by exists None | rewrite line_type_int; eauto|].
  rewrite line_type_frac by lia. eauto.
Qed.

(** Two branch strings: the sum of what is known of the two runs. *)
Lemma merge_branch_frac a b c d :
  0 <= a <= b -> 0 <= c <= d ->
  exists e f, merge_branch (CStr (frac_str a b)) (CStr (frac_str c d)) = Ok (CStr (frac_str e f)) /\
    0 <= e <= f /\
    Some (frac_type e f) = type_join (Some (frac_type a b)) (Some (frac_type c d)).
Proof.
  intros Hab Hcd. unfold merge_branch. cbn [cov_eqb cov_num].
  case_bool_decide as E.
  { injection E as E. apply frac_str_inj in E as [-> ->]; [|lia..].
    exists c, d. split_and!; [done | lia | lia |]. by rewrite type_join_idemp. }
  cbn -[Z.mul int_of_str split1 frac_str bool_decide String.append str_of_Z].
  rewrite !split1_frac_str by lia. cbn -[Z.mul int_of_str bool_decide String.append str_of_Z].
  rewrite !bool_decide_str_of_Z. unfold frac_type.
  destruct (Z.eqb_spec a b) as [->|Hn].
  { exists b, b. split_and!; [done | lia | lia |]. rewrite Z.eqb_refl.
    by repeat case_match. }
  destruct (Z.eqb_spec c d) as [->|Hn'].
  { exists d, d. split_and!; [done | lia | lia |]. rewrite Z.eqb_refl.
    by repeat case_match. }
  rewrite !int_of_str_of_Z. cbn -[Z.mul bool_decide String.append str_of_Z].
  exists (Z.max a c), (Z.max b d). split_and!; [| lia.. |].
  - do 2 f_equal. unfold frac_str.
    assert (Hmax : forall x y, (if y <? x then str_of_Z x else str_of_Z y) = str_of_Z (Z.max x y)).
    { intros x y. destruct (Z.ltb_spec y x); f_equal; lia. }
    by rewrite !Hmax.
  - destruct (Z.eqb_spec (Z.max a c) (Z.max b d)); [lia|].
    destruct (Z.eqb_spec (Z.max a c) 0), (Z.eqb_spec a 0), (Z.eqb_spec c 0); try lia; done.
Qed.

(** An integer and a branch string, in either order. *)
Lemma last_piece_frac a b :
  0 <= a <= b -> last_piece (CStr (frac_str a b)) = Ok (str_of_Z b).
Proof. intros H. unfold last_piece. by rewrite split_frac_str by lia. Qed.

Lemma merge_branch_same c : merge_branch c c = Ok c.
Proof.
  unfold merge_branch. enough (cov_eqb c c = true) as -> by done.
  unfold cov_eqb. destruct (cov_num c) as [[n d]|]; [apply Z.eqb_refl | by apply bool_decide_eq_true].
Qed.

Lemma merge_int_int z1 z2 bm :
  -1 <= z1 < 2 ^ 63 -> -1 <= z2 < 2 ^ 63 ->
  merge_coverage (CInt z1) (CInt z2) bm =
  Ok (CInt (if (z1 =? -1) || (z2 =? -1) then -1 else Z.max z1 z2)).
Proof.
  intros H1 H2. unfold merge_coverage. cbn -[Z.mul]. unfold cov_eqb, cov_geb. cbn -[Z.mul].
  rewrite !Z.mul_1_r. destruct ((z1 =? -1) || (z2 =? -1)); [done|].
  destruct (f_of_Z_total z1 H1) as [f1 ->], (f_of_Z_total z2 H2) as [f2 ->]. cbn.
  destruct (Z.leb_spec z2 z1); do 2 f_equal; lia.
Qed.

Lemma merge_int_str z a b bm :
  -1 <= z < 2 ^ 63 -> 0 <= a <= b ->
  merge_coverage (CInt z) (CStr (frac_str a b)) bm =
  Ok (if z =? -1 then CInt (-1) else if z =? 0 then CStr (frac_str a b) else CStr (frac_str b b)) /\
  merge_coverage (CStr (frac_str a b)) (CInt z) bm =
  Ok (if z =? -1 then CInt (-1) else if z =? 0 then CStr (frac_str a b) else CStr (frac_str b b)).
Proof.
  intros Hz Hab. unfold merge_coverage.
  cbn -[Z.mul frac_str merge_branch last_piece String.append].
  unfold cov_eqb. cbn -[Z.mul frac_str merge_branch last_piece String.append]. rewrite !Z.mul_1_r.
  destruct (z =? -1) eqn:E1; [done|]. destruct (f_of_Z_total z Hz) as [f ->].
  cbn -[Z.mul frac_str merge_branch last_piece String.append].
  destruct (z =? 0) eqn:E0; cbn -[Z.mul frac_str merge_branch last_piece String.append].
  - rewrite merge_branch_same. split; [done|].
    apply Z.eqb_eq in E0 as ->. reflexivity.
  - by rewrite last_piece_frac by done.
Qed.

Lemma merge_str_str a b c d bm :
  0 <= a <= b -> 0 <= c <= d -> unknown_branches bm = true ->
  merge_coverage (CStr (frac_str a b)) (CStr (frac_str c d)) bm =
  merge_branch (CStr (frac_str a b)) (CStr (frac_str c d)).
Proof. intros Hab Hcd Hbm. by destruct bm. Qed.

(** C: the join. *)
Lemma merge_coverage_join l1 l2 bm t1 t2 :
  plain_cov l1 -> plain_cov l2 -> unknown_branches bm = true ->
  line_type l1 = Ok t1 -> line_type l2 = Ok t2 ->
  exists c, merge_coverage l1 l2 bm = Ok c /\ plain_cov c /\ line_type c = Ok (type_join t1 t2).
Proof.
  intros H1 H2 Hbm T1 T2.
  destruct H1 as [|z1 Hz1|a b Hab].
  { injection T1 as <-. exists l2. split_and!; [done | done |]. by destruct t2. }
  all: destruct H2 as [|z2 Hz2|c d Hcd].
  1, 4: injection T2 as <-; eexists; split_and!; [done | auto with umbrella |]; rewrite T1; by destruct t1 as [[]|].
  - rewrite merge_int_int by done. rewrite line_type_int in T1, T2.
    injection T1 as <-. injection T2 as <-. eexists; split_and!; [done | repeat case_match; constructor; lia |].
    rewrite line_type_int. do 2 f_equal.
    destruct (Z.eqb_spec z1 (-1)), (Z.eqb_spec z2 (-1)); cbn; try done;
      [by destruct (z1 =? 0)|].
    destruct (Z.eqb_spec (Z.max z1 z2) (-1)), (Z.eqb_spec (Z.max z1 z2) 0),
      (Z.eqb_spec z1 0), (Z.eqb_spec z2 0); try lia; done.
  - rewrite (proj1 (merge_int_str z1 c d bm Hz1 Hcd)). rewrite line_type_int in T1.
    rewrite line_type_frac in T2 by lia. injection T1 as <-. injection T2 as <-.
    eexists; split_and!; [done | repeat case_match; constructor; lia |].
    destruct (z1 =? -1); [done|]. destruct (z1 =? 0); rewrite line_type_frac by lia.
    + unfold frac_type. by repeat case_match.
    + unfold frac_type. rewrite Z.eqb_refl. by repeat case_match.
  - rewrite (proj2 (merge_int_str z2 a b bm Hz2 Hab)). rewrite line_type_int in T2.
    rewrite line_type_frac in T1 by lia. injection T1 as <-. injection T2 as <-.
    eexists; split_and!; [done | repeat case_match; constructor; lia |].
    destruct (z2 =? -1); [unfold frac_type; by repeat case_match|].
    destruct (z2 =? 0); rewrite line_type_frac by lia.
    + unfold frac_type. by repeat case_match.
    + unfold frac_type. rewrite Z.eqb_refl. by repeat case_match.
  - rewrite merge_str_str by done.
    destruct (merge_branch_frac a b c d Hab Hcd) as (e & f & -> & Hef & Ht).
    rewrite line_type_frac in T1, T2 by lia. injection T1 as <-. injection T2 as <-.
    eexists; split_and!; [done | auto with umbrella |]. by rewrite line_type_frac, Ht by lia.
Qed.

Arguments merge_coverage : simpl never.
Arguments line_type : simpl never.

(** *** Any number of sessions *)

(** Merging plain coverage never raises, whatever is known of the branches. *)
Lemma merge_coverage_plain l1 l2 bm :
  plain_cov l1 -> plain_cov l2 -> exists c, merge_coverage l1 l2 bm = Ok c /\ plain_cov c.
Proof.
  intros H1 H2. destruct (unknown_branches bm) eqn:Hbm.
  { destruct (plain_typed l1 H1) as [t1 T1], (plain_typed l2 H2) as [t2 T2].
    destruct (merge_coverage_join l1 l2 bm t1 t2) as (c & ? & ? & _); eauto. }
  destruct bm as [| | |bs]; try discriminate.
  destruct H1 as [|z1 Hz1|a b Hab]; [by exists l2|..];
    (destruct H2 as [|z2 Hz2|c d Hcd]; [eexists; split; [done | auto with umbrella]|..]).
  - rewrite merge_int_int by done. eexists; split; [done|]. repeat case_match; constructor; lia.
  - rewrite (proj1 (merge_int_str z1 c d _ Hz1 Hcd)).
    eexists; split; [done|]. repeat case_match; constructor; lia.
  - rewrite (proj2 (merge_int_str z2 a b _ Hz2 Hab)).
    eexists; split; [done|]. repeat case_match; constructor; lia.
  - unfold merge_coverage. cbn -[last_piece frac_str String.append].
    rewrite last_piece_frac by done. cbn -[frac_str String.append].
    destruct bs as [|x bs]; cbn -[frac_str String.append].
    + exists (CStr (frac_str b b)). split; [done | constructor; lia].
    + rewrite int_of_str_of_Z. cbn -[frac_str String.append Z.of_nat].
      eexists; split; [done|].
      apply (plain_branch (if 0 <? b - Z.of_nat (S (length bs)) then b - Z.of_nat (S (length bs)) else 0) b).
      case_match eqn:E; [apply Z.ltb_lt in E|]; lia.
Qed.

Lemma merge_all_plain cs bm :
  cs <> [] -> Forall plain_cov cs -> exists c, merge_all cs bm = Ok c /\ plain_cov c.
Proof.
  destruct cs as [|c cs]; [done|]. intros _ [Hc Hcs]%Forall_cons. cbn.
  revert c Hc. induction Hcs as [|c' cs Hc' _ IH]; intros c Hc; cbn; [eauto|].
  destruct (merge_coverage_plain c c' bm Hc Hc') as (c1 & -> & Hc1). cbn. by apply IH.
Qed.

(** The line type of plain coverage; [None] also stands for a value [line_type] rejects. *)
Definition type_of (c : cov) : option LineType :=
  match line_type c with Ok t => t | Err _ => None end.

Lemma plain_type_of c : plain_cov c -> line_type c = Ok (type_of c).
Proof. intros H. unfold type_of. by destruct (plain_typed c H) as [t ->]. Qed.

Definition join_types (ts : list (option LineType)) : option LineType :=
  foldr type_join None ts.

Lemma merge_all_join cs bm :
  cs <> [] -> Forall plain_cov cs -> unknown_branches bm = true ->
  exists c, merge_all cs bm = Ok c /\ plain_cov c /\ line_type c = Ok (join_types (type_of <$> cs)).
Proof.
  destruct cs as [|c cs]; [done|]. intros _ [Hc Hcs]%Forall_cons Hbm. cbn [merge_all fmap list_fmap].
  revert c Hc. induction Hcs as [|c' cs Hc' _ IH]; intros c Hc; cbn.
  - exists c. split_and!; [done | done |]. rewrite plain_type_of by done. by destruct (type_of c) as [[]|].
  - destruct (merge_coverage_join c c' bm _ _ Hc Hc' Hbm (plain_type_of _ Hc) (plain_type_of _ Hc'))
      as (c1 & -> & Hc1 & Ht). cbn.
    destruct (IH c1 Hc1) as (c2 & Hr & Hc2 & Ht2). exists c2. split_and!; [done | done |].
    rewrite Ht2. f_equal. unfold join_types. cbn. unfold type_of at 1. rewrite Ht.
    by rewrite type_join_assoc.
Qed.

Lemma join_types_perm ts ts' : ts ≡ₚ ts' -> join_types ts = join_types ts'.
Proof.
  unfold join_types. induction 1 as [|t l l' _ IH|t t' l|l1 l2 l3 _ IH1 _ IH2]; cbn; [done | by rewrite IH | | congruence].
  by rewrite !type_join_assoc, (type_join_comm t).
Qed.

Lemma existsb_has_branches_false ss :
  Forall (fun s => ls_branches s = None) ss -> existsb has_branches ss = false.
Proof. induction 1 as [|s ss Hs _ IH]; cbn; [done|]. rewrite IH, orb_false_r.
  unfold has_branches. by rewrite Hs.
Qed.

Lemma get_coverage_plain ss :
  ss <> [] -> Forall (fun s => plain_cov (ls_coverage s)) ss ->
  (exists mb, merge_missed_branches ss = Ok mb) ->
  exists c, get_coverage_from_sessions ss = Ok c /\ plain_cov c.
Proof.
  intros Hne Hp [mb Hmb]. unfold get_coverage_from_sessions. rewrite Hmb. cbn.
  apply merge_all_plain; [by destruct ss | by apply Forall_fmap].
Qed.

(** *** Missing branches *)

(** What [merge_missed_branches] means: a branch is missed when no session hit the
    whole line and every session that reports branches misses it. *)
Definition missed_in_all (ss : list LineSession) (x : branch) : Prop :=
  forall s, s ∈ ss ->
    match ls_branches s with
    | Some bs => x ∈ bs
    | None => line_type (ls_coverage s) <> Ok (Some hit)
    end.

Lemma missed_in_all_cons s ss x :
  missed_in_all (s :: ss) x <->
  (match ls_branches s with
   | Some bs => x ∈ bs | None => line_type (ls_coverage s) <> Ok (Some hit) end)
  /\ missed_in_all ss x.
Proof.
  unfold missed_in_all. split.
  - intros H. split; [apply H; left | intros s' Hs'; apply H; by right].
  - intros [H1 H2] s' [->|Hs']%elem_of_cons; [done | by apply H2].
Qed.

Lemma elem_of_set_inter x a b : x ∈ set_inter a b <-> x ∈ a /\ x ∈ b.
Proof. unfold set_inter. rewrite list_elem_of_filter. tauto. Qed.

Lemma missed_loop_Some ss m :
  Forall (fun s => plain_cov (ls_coverage s)) ss -> NoDup m ->
  exists l, missed_branches_loop (Some m) ss = Ok (Some l) /\ NoDup l /\
    forall x, x ∈ l <-> x ∈ m /\ missed_in_all ss x.
Proof.
  intros Hp. revert m. induction Hp as [|s ss Hs _ IH]; intros m Hm; cbn.
  { exists m. split_and!; [done | done |]. intros x. unfold missed_in_all. set_solver. }
  setoid_rewrite missed_in_all_cons. destruct (ls_branches s) as [bs|].
  - case_bool_decide as E.
    + exists []. split_and!; [done | constructor |]. intros x. split; [set_solver|].
      intros (Hx & Hb & _). assert (Hi : x ∈ set_inter m bs) by by apply elem_of_set_inter.
      rewrite E in Hi. set_solver.
    + destruct (IH (set_inter m bs)) as (l & -> & Hl & Hx); [by apply NoDup_filter|].
      exists l. split_and!; [done | done |]. intros x. rewrite Hx, elem_of_set_inter. tauto.
  - rewrite (plain_type_of _ Hs). cbn. case_bool_decide as E.
    + exists []. split_and!; [done | constructor |]. intros x. split; [set_solver|].
      intros (_ & Hc & _). rewrite E in Hc. done.
    + destruct (IH m Hm) as (l & -> & Hl & Hx). exists l. split_and!; [done | done |].
      intros x. rewrite Hx. split; [intros [? ?]; split_and!; try done; congruence | tauto].
Qed.

Lemma missed_loop_None ss :
  Forall (fun s => plain_cov (ls_coverage s)) ss -> existsb has_branches ss = true ->
  exists l, missed_branches_loop None ss = Ok (Some l) /\ NoDup l /\
    forall x, x ∈ l <-> missed_in_all ss x.
Proof.
  induction 1 as [|s ss Hs Hp IH]; cbn; [done|]. intros Hb.
  setoid_rewrite missed_in_all_cons. unfold has_branches in Hb at 1.
  destruct (ls_branches s) as [bs|].
  - destruct (missed_loop_Some ss (set_of bs) Hp (NoDup_remove_dups _)) as (l & -> & Hl & Hx).
    exists l. split_and!; [done | done |]. intros x. rewrite Hx. unfold set_of.
    by rewrite elem_of_remove_dups.
  - rewrite (plain_type_of _ Hs). cbn in *. case_bool_decide as E.
    + exists []. split_and!; [done | constructor |]. intros x. split; [set_solver|].
      intros (Hc & _). by rewrite E in Hc.
    + destruct (IH Hb) as (l & -> & Hl & Hx). exists l. split_and!; [done | done |].
      intros x. rewrite Hx. split; [intros ?; split; [congruence | done] | tauto].
Qed.

Lemma merge_missed_branches_run ss :
  Forall (fun s => plain_cov (ls_coverage s)) ss ->
  exists mb, merge_missed_branches ss = Ok mb /\
    (mb = None <-> existsb has_branches ss = false) /\
    (forall l, mb = Some l -> NoDup l /\ forall x, x ∈ l <-> missed_in_all ss x).
Proof.
  intros Hp. unfold merge_missed_branches. destruct (existsb has_branches ss) eqn:E.
  - destruct (missed_loop_None ss Hp E) as (l & -> & Hl & Hx). exists (Some l).
    split_and!; [done | done |]. by intros l' [= <-].
  - exists None. split_and!; [done | done |]. done.
Qed.

(** *** Merging the session lists of a line *)

Definition ids (ss : list LineSession) : list Z := ls_id <$> ss.

Lemma NoDup_ids_filter (P : LineSession -> Prop) `{!forall s, Decision (P s)} ss :
  NoDup (ids ss) -> NoDup (ids (filter P ss)).
Proof.
  unfold ids. induction ss as [|s ss IH]; [done|]. rewrite filter_cons, fmap_cons.
  intros [Hs Hnd]%NoDup_cons. destruct (decide (P s)); [|auto]. rewrite fmap_cons. apply NoDup_cons. split; [|auto].
  intros (s' & E & [_ Hin]%list_elem_of_filter)%list_elem_of_fmap. apply Hs. rewrite E.
  by apply list_elem_of_fmap_2.
Qed.

(** The session of a line with a given id. *)
Definition session_at (i : Z) (ss : list LineSession) : option LineSession :=
  od_get i ((fun s => (ls_id s, s)) <$> ss).

(** A dict of sessions keyed by their own ids. *)
Definition keyed (d : odict Z LineSession) : Prop := Forall (fun kv => ls_id kv.2 = kv.1) d.

Lemma keyed_vals d : keyed d -> (fun s => (ls_id s, s)) <$> od_vals d = d.
Proof.
  unfold od_vals. induction 1 as [|[k s] d Hk _ IH]; cbn; [done|]. cbn in Hk. by rewrite Hk, IH.
Qed.

Lemma keyed_set i s d : ls_id s = i -> keyed d -> keyed (od_set i s d).
Proof.
  intros Hs. induction 1 as [|[k s'] d Hk Hd IH]; cbn; [by repeat constructor|].
  case_decide; subst; constructor; cbn; auto.
Qed.

Lemma keyed_del i d : keyed d -> keyed (od_del i d).
Proof.
  induction 1 as [|[k s'] d Hk Hd IH]; cbn; [constructor|].
  case_decide; [done | by constructor].
Qed.

Lemma ids_keys ss : od_keys ((fun s => (ls_id s, s)) <$> ss) = ids ss.
Proof. unfold od_keys, ids. by rewrite <- list_fmap_compose. Qed.

Lemma od_wf_ids ss : NoDup (ids ss) -> od_wf ((fun s => (ls_id s, s)) <$> ss).
Proof. unfold od_wf. by rewrite ids_keys. Qed.

Lemma by_id_NoDup ss : NoDup (ids ss) -> by_id ss = (fun s => (ls_id s, s)) <$> ss.
Proof. intros H. apply od_of_list_id. unfold od_wf. by rewrite ids_keys. Qed.

Lemma keyed_by_id ss : keyed ((fun s => (ls_id s, s)) <$> ss).
Proof. apply Forall_fmap, Forall_forall. done. Qed.

Lemma merge_line_session_id s1 s2 s : merge_line_session s1 s2 = Ok s -> ls_id s = ls_id s1.
Proof. unfold merge_line_session. intros H. inv_ok H. by subst. Qed.

(** One step of the loop over the common ids. *)
Definition merge_step : odict Z LineSession * odict Z LineSession -> Z ->
    result (odict Z LineSession * odict Z LineSession) :=
  fun '(d1, d2) i =>
    match od_get i d1 with
    | Some x => '(y, d2') ← od_pop i d2; z ← merge_line_session x y; Ok (od_set i z d1, d2')
    | None => Err KeyError
    end.

Lemma merge_steps js d1 d2 d1' d2' :
  foldM merge_step (d1, d2) js = Ok (d1', d2') ->
  NoDup js -> od_wf d1 -> od_wf d2 -> keyed d1 -> keyed d2 ->
  od_wf d1' /\ od_wf d2' /\ keyed d1' /\ keyed d2' /\ od_keys d1' = od_keys d1 /\
  forall i, if decide (i ∈ js)
    then od_get i d2' = None /\
         exists a b c, od_get i d1 = Some a /\ od_get i d2 = Some b /\
           merge_line_session a b = Ok c /\ od_get i d1' = Some c
    else od_get i d1' = od_get i d1 /\ od_get i d2' = od_get i d2.
Proof.
  revert d1 d2. induction js as [|j js IH]; intros d1 d2 H Hnd W1 W2 K1 K2; cbn in H.
  { injection H as <- <-. by split_and!. }
  apply NoDup_cons in Hnd as [Hj Hnd].
  destruct (od_get j d1) as [a|] eqn:Ga; [|done]. unfold od_pop in H.
  destruct (od_get j d2) as [b|] eqn:Gb; cbn in H; [|done].
  destruct (merge_line_session a b) as [c|] eqn:Hm; cbn in H; [|done].
  assert (Hc : ls_id c = j).
  { rewrite (merge_line_session_id _ _ _ Hm). apply od_get_elem in Ga.
    unfold keyed in K1. rewrite Forall_forall in K1. exact (K1 _ Ga). }
  apply IH in H as (W1' & W2' & K1' & K2' & Hk & Hall);
    auto using od_wf_set, od_wf_del, keyed_set, keyed_del.
  split_and!; try done.
  { rewrite Hk. apply od_keys_set_old. apply od_get_is_Some. by rewrite Ga. }
  intros i. specialize (Hall i). destruct (decide (i = j)) as [->|Hne].
  - rewrite decide_False in Hall by done. rewrite decide_True by set_solver.
    rewrite od_get_set_eq, od_get_del_eq in Hall by done. destruct Hall as [H1 H2].
    split; [done|]. by exists a, b, c.
  - rewrite od_get_set_ne, od_get_del_ne in Hall by done.
    destruct (decide (i ∈ js)); [rewrite decide_True by set_solver | rewrite decide_False by set_solver]; done.
Qed.

Lemma od_get_app {K V} `{EqDecision K} (k : K) (d1 d2 : odict K V) :
  od_get k (d1 ++ d2) = match od_get k d1 with Some v => Some v | None => od_get k d2 end.
Proof. induction d1 as [|[k' v] d1 IH]; cbn; [done|]. by case_decide. Qed.

Lemma session_at_app i s1 s2 :
  session_at i (s1 ++ s2) = match session_at i s1 with Some s => Some s | None => session_at i s2 end.
Proof. unfold session_at. by rewrite fmap_app, od_get_app. Qed.

Lemma session_at_None i ss : session_at i ss = None <-> i ∉ ids ss.
Proof. unfold session_at. by rewrite od_get_None, ids_keys. Qed.

Lemma session_at_Some_ids i ss s : session_at i ss = Some s -> i ∈ ids ss.
Proof.
  intros E. destruct (decide (i ∈ ids ss)) as [|Hn]; [done|].
  apply session_at_None in Hn. congruence.
Qed.

(** The merged list at one id: the two sessions merged when both lines have it. *)
Definition merged_at (s1 s2 ss : list LineSession) (i : Z) : Prop :=
  match session_at i s1, session_at i s2 with
  | Some a, Some b => exists c, merge_line_session a b = Ok c /\ session_at i ss = Some c
  | Some a, None => session_at i ss = Some a
  | None, o => session_at i ss = o
  end.

Lemma merge_sessions_at s1 s2 ss :
  merge_sessions s1 s2 = Ok ss -> NoDup (ids s1) -> NoDup (ids s2) ->
  NoDup (ids ss) /\ forall i, merged_at s1 s2 ss i.
Proof.
  intros H N1 N2. unfold merge_sessions in H.
  destruct s1 as [|x1 s1']; [injection H as <-; split; [done|]; intros i; unfold merged_at; done|].
  destruct s2 as [|x2 s2'].
  { injection H as <-. split; [done|]. intros i. unfold merged_at.
    destruct (session_at i (x1 :: s1')); done. }
  set (s1 := x1 :: s1') in *. set (s2 := x2 :: s2') in *.
  rewrite !by_id_NoDup in H by done. rewrite ids_keys in H.
  change (ls_id <$> s2) with (ids s2) in H.
  set (js := filter (fun i => i ∈ ids s2) (ids s1)) in H.
  assert (Hjs : NoDup js) by by apply NoDup_filter.
  assert (Hrun : exists d1' d2', foldM merge_step
      ((fun s => (ls_id s, s)) <$> s1, (fun s => (ls_id s, s)) <$> s2) js = Ok (d1', d2') /\
      ss = od_vals d1' ++ od_vals d2').
  { destruct js as [|j js]; [|by apply bind_Ok_inv in H as ([d1' d2'] & Hr & [= <-]); eauto].
    injection H as <-. eexists _, _. split; [done|].
    unfold od_vals. by rewrite <- !list_fmap_compose, !list_fmap_id. }
  destruct Hrun as (d1' & d2' & Hr & ->).
  apply merge_steps in Hr as (W1 & W2 & K1 & K2 & Hk & Hall);
    auto using keyed_by_id, od_wf_ids.
  rewrite ids_keys in Hk.
  assert (Hids : ids (od_vals d1' ++ od_vals d2') = od_keys d1' ++ od_keys d2').
  { rewrite <- ids_keys, fmap_app, !keyed_vals by done. unfold od_keys. by rewrite fmap_app. }
  assert (Hat : forall i, session_at i (od_vals d1' ++ od_vals d2') =
    match od_get i d1' with Some s => Some s | None => od_get i d2' end).
  { intros i. rewrite session_at_app. unfold session_at. by rewrite !keyed_vals. }
  split.
  - rewrite Hids. apply NoDup_app; split_and!; [done | | done].
    intros i Hi1 Hi2. rewrite Hk in Hi1. specialize (Hall i).
    apply od_get_is_Some in Hi2 as [s Hs]. destruct (decide (i ∈ js)) as [|Hn].
    + destruct Hall as [E _]. congruence.
    + destruct Hall as [_ E]. rewrite E in Hs. apply Hn, list_elem_of_filter.
      split; [by eapply session_at_Some_ids | done].
  - intros i. unfold merged_at. rewrite Hat. specialize (Hall i). fold (session_at i s1) (session_at i s2) in Hall.
    destruct (decide (i ∈ js)) as [Hi|Hn].
    + destruct Hall as (_ & a & b & c & -> & -> & Hm & ->). eauto.
    + destruct Hall as [-> ->]. destruct (session_at i s1) as [a|] eqn:E1; [|done].
      destruct (session_at i s2) as [b|] eqn:E2; [|done]. exfalso.
      apply Hn, list_elem_of_filter. split; by eapply session_at_Some_ids.
Qed.

(** *** Lines that merge without raising *)

(** The columns of a session's partials are numbers, so they sort. *)
Definition partials_sortable (o : option (list partial)) : bool :=
  forallb (fun p => bool_decide (is_Some (p_start p))) (default [] o).

(** All complexities of a report are of one kind: numbers, or pairs. *)
Definition cplx_kind (pairs : bool) (c : cplx) : bool :=
  match c with CxNone => true | CxInt _ => negb pairs | CxPair _ _ => pairs end.

Definition session_ok (pairs : bool) (s : LineSession) : Prop :=
  plain_cov (ls_coverage s) /\ partials_sortable (ls_partials s) = true /\
  cplx_kind pairs (ls_complexity s) = true.

Definition line_ok (pairs : bool) (l : ReportLine) : Prop :=
  rl_sessions l <> [] /\ NoDup (ids (rl_sessions l)) /\
  Forall (session_ok pairs) (rl_sessions l).

Lemma sort_partials_ok l :
  forallb (fun p => bool_decide (is_Some (p_start p))) l = true ->
  exists l', sort_partials l = Ok l' /\ l' ≡ₚ l.
Proof.
  intros H. unfold sort_partials. rewrite H. case_match; [eauto|].
  eexists; split; [done|]. clear. induction l as [|p l IH]; cbn; [done|].
  rewrite <- IH at 2. generalize (foldr insert_partial [] l). clear.
  induction l as [|q l IH]; cbn; [done|]. case_match; [done|].
  rewrite IH. apply perm_swap.
Qed.

Lemma merge_line_session_ok pairs s1 s2 :
  session_ok pairs s1 -> session_ok pairs s2 ->
  exists s, merge_line_session s1 s2 = Ok s /\ session_ok pairs s.
Proof.
  intros (P1 & S1 & C1) (P2 & S2 & C2). unfold merge_line_session.
  assert (Hb : exists mb, merged_branches s1 s2 = Ok mb).
  { unfold merged_branches. rewrite (plain_type_of _ P1), (plain_type_of _ P2). cbn.
    destruct (ls_branches s1), (ls_branches s2); eauto. }
  destruct Hb as [mb ->]. cbn.
  assert (Hp : exists ps, merged_partials (ls_partials s1) (ls_partials s2) = Ok ps /\
    partials_sortable ps = true).
  { unfold merged_partials. case_match; [|by exists None].
    destruct (ls_partials s1) as [a|] eqn:E1, (ls_partials s2) as [b|] eqn:E2.
    - unfold partials_sortable in S1, S2. cbn in S1, S2.
      destruct (sort_partials_ok (a ++ b)) as (l & -> & Hl); [by rewrite forallb_app, S1, S2|].
      cbn. eexists; split; [done|]. unfold partials_sortable. cbn.
      apply Is_true_true, forallb_True. rewrite Hl. apply forallb_True, Is_true_true.
      by rewrite forallb_app, S1, S2.
    - exists (or_parts (Some a) None). split; [done|]. by destruct a.
    - exists (Some b). by split.
    - by exists None. }
  destruct Hp as (ps & -> & Hps). cbn.
  destruct (merge_coverage_plain (ls_coverage s1) (ls_coverage s2) (missing_of mb) P1 P2)
    as (c & -> & Hc). cbn. eexists; split; [done|]. by split_and!.
Qed.

Lemma merge_steps_total pairs js d1 d2 :
  NoDup js -> od_wf d1 -> od_wf d2 ->
  Forall (fun kv => session_ok pairs kv.2) d1 -> Forall (fun kv => session_ok pairs kv.2) d2 ->
  Forall (fun i => i ∈ od_keys d1 /\ i ∈ od_keys d2) js ->
  exists d1' d2', foldM merge_step (d1, d2) js = Ok (d1', d2').
Proof.
  intros Hnd W1. revert d1 d2 W1. induction js as [|j js IH]; intros d1 d2 W1 W2 F1 F2 Hin; cbn; [eauto|].
  apply NoDup_cons in Hnd as [Hj Hnd]. apply Forall_cons in Hin as [[H1 H2] Hin].
  apply od_get_is_Some in H1 as [a Ga], H2 as [b Gb]. unfold od_pop. rewrite Ga, Gb. cbn.
  rewrite Forall_forall in F1, F2.
  destruct (merge_line_session_ok pairs a b) as (c & -> & Hc);
    [apply (F1 (j, a)), od_get_elem, Ga | apply (F2 (j, b)), od_get_elem, Gb|].
  cbn. apply IH; auto using od_wf_set, od_wf_del.
  - apply Forall_forall. intros [k v] [[-> ->]|[_ Hk]]%od_set_elem; [done | by apply (F1 (k, v)) | done].
  - apply Forall_forall. intros [k v] [_ Hk]%od_del_elem; [by apply (F2 (k, v)) | done].
  - rewrite Forall_forall in *. intros i Hi. destruct (Hin i Hi) as [Hi1 Hi2].
    assert (i <> j) by (intros ->; done).
    rewrite od_keys_set_old by (apply od_get_is_Some; by rewrite Ga).
    split; [done|]. rewrite od_keys_del by done. by apply list_elem_of_filter.
Qed.

Lemma session_at_elem i ss s : session_at i ss = Some s -> s ∈ ss /\ ls_id s = i.
Proof.
  intros H%od_get_elem. apply list_elem_of_fmap in H as (s' & [= -> ->] & Hin). done.
Qed.

Lemma elem_session_at s ss : NoDup (ids ss) -> s ∈ ss -> session_at (ls_id s) ss = Some s.
Proof.
  intros Hnd Hin. apply od_elem_get; [by apply od_wf_ids|].
  apply list_elem_of_fmap. by exists s.
Qed.

Lemma merge_sessions_ok pairs s1 s2 :
  Forall (session_ok pairs) s1 -> Forall (session_ok pairs) s2 ->
  NoDup (ids s1) -> NoDup (ids s2) ->
  exists ss, merge_sessions s1 s2 = Ok ss /\ Forall (session_ok pairs) ss /\
    forall i, i ∈ ids ss <-> i ∈ ids s1 \/ i ∈ ids s2.
Proof.
  intros F1 F2 N1 N2.
  assert (Hrun : exists ss, merge_sessions s1 s2 = Ok ss).
  { unfold merge_sessions. destruct s1 as [|x1 s1']; [eauto|]. destruct s2 as [|x2 s2']; [eauto|].
    set (s1 := x1 :: s1') in *. set (s2 := x2 :: s2') in *.
    rewrite !by_id_NoDup by done. rewrite ids_keys. change (ls_id <$> s2) with (ids s2).
    set (js := filter (fun i => i ∈ ids s2) (ids s1)).
    destruct (merge_steps_total pairs js ((fun s => (ls_id s, s)) <$> s1)
      ((fun s => (ls_id s, s)) <$> s2)) as (d1' & d2' & Hr);
      auto using NoDup_filter, od_wf_ids; [by apply NoDup_filter | by apply Forall_fmap | by apply Forall_fmap | |].
    - rewrite !ids_keys. apply Forall_forall. intros i [? ?]%list_elem_of_filter. done.
    - destruct js as [|j js']; [eauto|]. unfold merge_step in Hr. rewrite Hr. cbn. eauto. }
  destruct Hrun as [ss Hss]. exists ss. split; [done|].
  destruct (merge_sessions_at s1 s2 ss Hss N1 N2) as [Hnd Hat].
  rewrite Forall_forall in F1, F2. split.
  - apply Forall_forall. intros s Hs%elem_session_at; [|done].
    specialize (Hat (ls_id s)). unfold merged_at in Hat.
    destruct (session_at (ls_id s) s1) as [a|] eqn:E1.
    + apply session_at_elem in E1 as [Ha _].
      destruct (session_at (ls_id s) s2) as [b|] eqn:E2.
      * apply session_at_elem in E2 as [Hb _]. destruct Hat as (c & Hm & Hc).
        destruct (merge_line_session_ok pairs a b) as (c' & Hm' & Hok); auto. congruence.
      * assert (a = s) as <- by congruence. auto.
    + rewrite Hs in Hat. symmetry in Hat. apply session_at_elem in Hat as [Hb _]. auto.
  - intros i. specialize (Hat i). unfold merged_at in Hat.
    destruct (decide (i ∈ ids ss)) as [Hi|Hi].
    + split; [intros _|done]. destruct (session_at i s1) as [a|] eqn:E1.
      { left. by eapply session_at_Some_ids. }
      destruct (session_at i s2) as [b|] eqn:E2.
      { right. by eapply session_at_Some_ids. }
      by apply session_at_None in Hat.
    + split; [done|]. intros Hor. exfalso. apply session_at_None in Hi. rewrite Hi in Hat.
      destruct (session_at i s1) as [a|] eqn:E1.
      { destruct (session_at i s2); [by destruct Hat as (? & ? & ?) | done]. }
      symmetry in Hat. apply session_at_None in E1, Hat. tauto.
Qed.

Lemma get_complexity_ok pairs ss :
  ss <> [] -> Forall (session_ok pairs) ss ->
  exists c, get_complexity_from_sessions ss = Ok c /\ cplx_kind pairs c = true.
Proof.
  intros Hne Hok. destruct ss as [|s ss']; [done|]. set (ss := s :: ss') in *.
  pose proof Hok as [(_ & _ & Hs) _]%Forall_cons. unfold get_complexity_from_sessions, ss.
  fold ss. destruct (ls_complexity s) as [|z|a b]; [by exists CxNone|..]; destruct pairs; try done.
  - destruct (traverse_total (fun s => cx_or_0 (ls_complexity s)) (session_ok false) ss) as [l ->];
      [|done | cbn; eauto].
    intros x (_ & _ & Hx). destruct (ls_complexity x); try done; cbn; eauto.
  - destruct (traverse_total (fun s => cx_or_00 (ls_complexity s)) (session_ok true) ss) as [l ->];
      [|done | cbn; eauto].
    intros x (_ & _ & Hx). destruct (ls_complexity x); try done; cbn; eauto.
Qed.

(** Lines of well-formed sessions merge, to a well-formed line of all their sessions. *)
Lemma merge_line_run pairs l1 l2 :
  line_ok pairs l1 -> line_ok pairs l2 ->
  exists l, merge_line (Some l1) (Some l2) true false = Ok (Some l) /\ line_ok pairs l /\
    plain_cov (rl_coverage l) /\
    merge_sessions (rl_sessions l1) (rl_sessions l2) = Ok (rl_sessions l) /\
    get_coverage_from_sessions (rl_sessions l) = Ok (rl_coverage l) /\
    rl_type l = or_type (rl_type l1) (rl_type l2).
Proof.
  intros (E1 & N1 & F1) (E2 & N2 & F2). cbn [merge_line andb].
  destruct (merge_sessions_ok pairs _ _ F1 F2 N1 N2) as (ss & Hss & Fss & Hids).
  destruct (merge_sessions_at _ _ _ Hss N1 N2) as [Nss _]. rewrite Hss.
  assert (Hne : ss <> []).
  { destruct (rl_sessions l1) as [|s ss1]; [done|]. intros ->.
    specialize (Hids (ls_id s)). cbn in Hids. set_solver. }
  assert (Hp : Forall (fun s => plain_cov (ls_coverage s)) ss)
    by (eapply Forall_impl; [exact Fss|]; by intros s (? & _)).
  destruct (merge_missed_branches_run ss Hp) as (mb & Hmb & _).
  destruct (get_coverage_plain ss Hne Hp (ex_intro _ mb Hmb)) as (c & Hc & Pc).
  destruct (get_complexity_ok pairs ss Hne Fss) as (x & Hx & _).
  cbn. rewrite Hc. cbn. rewrite Hx. cbn. eexists; split; [done|]. by split_and!.
Qed.

(** *** Column ranges *)

Definition covers (x : Z) (p : partial) : Prop :=
  match p_end p with Some e => default 0 (p_start p) <= x <= e | None => False end.
#[export] Instance covers_dec x p : Decision (covers x p).
Proof. unfold covers. destruct (p_end p); apply _. Defined.

(** The coverages of the ranges over one column, in order. *)
Definition column (np : list partial) (x : Z) : list Z := p_cov <$> filter (covers x) np.

Lemma fl_append_get c fl xs x :
  NoDup xs ->
  od_get x (fl_append c fl xs) =
  if decide (x ∈ xs) then Some (default [] (od_get x fl) ++ [c]) else od_get x fl.
Proof.
  unfold fl_append. revert fl. induction xs as [|y xs IH]; intros fl Hnd; [done|].
  apply NoDup_cons in Hnd as [Hy Hnd]. cbn. rewrite IH by done.
  destruct (decide (x = y)) as [->|Hne].
  - rewrite decide_False, decide_True by set_solver. by rewrite od_get_set_eq.
  - rewrite !od_get_set_ne by done.
    destruct (decide (x ∈ xs)); [rewrite decide_True by set_solver | rewrite decide_False by set_solver]; done.
Qed.

Lemma fl_append_wf c fl xs : od_wf fl -> od_wf (fl_append c fl xs).
Proof.
  unfold fl_append. revert fl. induction xs as [|y xs IH]; intros fl Hwf; cbn; auto using od_wf_set.
Qed.

Definition nonempty_list (l : list Z) : option (list Z) := match l with [] => None | _ => Some l end.

Lemma fill_closed_snoc np p :
  fill_closed (np ++ [p]) =
  match p_end p with
  | Some e => fl_append (p_cov p) (fill_closed np) (range (default 0 (p_start p)) (e + 1))
  | None => fill_closed np
  end.
Proof. unfold fill_closed. by rewrite foldl_app. Qed.

Lemma column_snoc np p x :
  column (np ++ [p]) x = column np x ++ (if decide (covers x p) then [p_cov p] else []).
Proof.
  unfold column. rewrite filter_app, fmap_app. f_equal.
  destruct (decide (covers x p)); [by rewrite filter_cons_True | by rewrite filter_cons_False].
Qed.

Lemma fill_closed_spec np :
  od_wf (fill_closed np) /\ forall x, od_get x (fill_closed np) = nonempty_list (column np x).
Proof.
  induction np as [|p np [Wf IH]] using rev_ind; [split; [apply od_wf_nil | done]|].
  rewrite fill_closed_snoc. split.
  { destruct (p_end p); auto using fl_append_wf. }
  intros x. rewrite column_snoc.
  destruct (p_end p) as [e|] eqn:E.
  2: { rewrite decide_False by (unfold covers; rewrite E; tauto). by rewrite app_nil_r. }
  rewrite fl_append_get by apply NoDup_seqZ. rewrite IH.
  assert (Hr : x ∈ range (default 0 (p_start p)) (e + 1) <-> default 0 (p_start p) <= x <= e).
  { unfold range. rewrite elem_of_seqZ. lia. }
  assert (Hcov : covers x p <-> default 0 (p_start p) <= x <= e) by (unfold covers; by rewrite E).
  destruct (decide (x ∈ _)) as [H|H]; [rewrite decide_True by tauto | rewrite decide_False by tauto].
  - by destruct (column np x).
  - by rewrite app_nil_r.
Qed.

Lemma list_max_total l : l <> [] -> exists m, list_max l = Ok m.
Proof. destruct l; [done|]. cbn. eauto. Qed.

Lemma foldl_max_spec l z :
  (foldl Z.max z l = z \/ foldl Z.max z l ∈ l) /\ z <= foldl Z.max z l /\ forall x, x ∈ l -> x <= foldl Z.max z l.
Proof.
  revert z. induction l as [|y l IH]; intros z; cbn; [split_and!; [by left | lia | set_solver]|].
  destruct (IH (Z.max z y)) as (H1 & H2 & H3). split_and!.
  - destruct H1 as [->|H1]; [|right; by right].
    destruct (Z.max_spec z y) as [[_ ->]|[_ ->]]; [right; left | by left].
  - lia.
  - intros x [->|Hx]%elem_of_cons; [lia | auto].
Qed.

Lemma list_max_spec l m : list_max l = Ok m <-> m ∈ l /\ forall x, x ∈ l -> x <= m.
Proof.
  destruct l as [|z l]; cbn; [split; [done | intros [?%not_elem_of_nil _]; done]|].
  destruct (foldl_max_spec l z) as (H1 & H2 & H3). split.
  - intros [= <-]. split; [destruct H1 as [->|?]; [left | by right]|].
    intros x [->|Hx]%elem_of_cons; auto.
  - intros [Hm Hle]. f_equal. apply Z.le_antisymm.
    + apply Hle. destruct H1 as [->|?]; [left | by right].
    + apply elem_of_cons in Hm as [->|Hm]; auto.
Qed.

Lemma list_max_same l l' : (forall x, x ∈ l <-> x ∈ l') -> list_max l = list_max l'.
Proof.
  intros E. destruct (list_max l) as [m|] eqn:Em.
  - apply list_max_spec in Em as [Hm Hle]. symmetry. apply list_max_spec. split; [by apply E|].
    intros x Hx%E. auto.
  - destruct l as [|z l]; [|done]. destruct l' as [|z' l']; [done|].
    assert (z' ∈ @nil Z) as []%not_elem_of_nil. apply E. left.
Qed.

Lemma list_max_perm l l' : l ≡ₚ l' -> list_max l = list_max l'.
Proof. intros Hp. apply list_max_same. intros x. by rewrite Hp. Qed.

Lemma list_max_snoc l z :
  list_max (l ++ [z]) = match list_max l with Ok m => Ok (Z.max m z) | Err _ => Ok z end.
Proof. destruct l as [|x l]; cbn; [done|]. by rewrite foldl_app. Qed.

(** The columns [merge_partial_line] computes from closed ranges. *)
Lemma closed_columns np :
  exists cols, traverse (fun kv => m ← list_max kv.2; Ok (kv.1, m)) (fill_closed np) = Ok cols /\
    NoDup cols.*1 /\ forall x c, (x, c) ∈ cols <-> list_max (column np x) = Ok c.
Proof.
  destruct (fill_closed_spec np) as [Wf Hget]. set (fl := fill_closed np) in *.
  assert (Hne : Forall (fun kv => kv.2 <> []) fl).
  { apply Forall_forall. intros [x l] Hin%od_elem_get; [|done]. rewrite Hget in Hin. cbn.
    destruct (column np x); [done|]. by injection Hin as <-. }
  destruct (traverse_total (fun kv => m ← list_max kv.2; Ok (kv.1, m)) (fun kv : Z * list Z => kv.2 <> []) fl)
    as [cols Hcols]; [|done|].
  { intros [x l] Hl. cbn in *. destruct (list_max_total l Hl) as [m ->]. cbn. eauto. }
  exists cols. split; [done|]. apply traverse_Forall2 in Hcols as F.
  assert (Hk : cols.*1 = od_keys fl).
  { clear -F. induction F as [|[x l] [y m] fl cols H F IH]; cbn; [done|].
    cbn in H. apply bind_Ok_inv in H as (m' & _ & [= <- <-]). unfold od_keys in *. cbn. by f_equal. }
  split; [by rewrite Hk|]. intros x c. split.
  - intros Hin. apply list_elem_of_lookup in Hin as [i Hi].
    destruct (Forall2_lookup_r _ _ _ _ _ F Hi) as ([y l] & Hl & H). cbn in H.
    apply bind_Ok_inv in H as (m' & Hm & [= -> ->]).
    apply list_elem_of_lookup_2, od_elem_get in Hl; [|done]. rewrite Hget in Hl.
    destruct (column np x); [done|]. by injection Hl as <-.
  - intros Hc. assert (Hg : od_get x fl = Some (column np x)).
    { rewrite Hget. by destruct (column np x). }
    apply od_get_elem, list_elem_of_lookup in Hg as [i Hi].
    destruct (Forall2_lookup_l _ _ _ _ _ F Hi) as ([y m] & Hl & H). cbn in H.
    rewrite Hc in H. injection H as <- <-. by eapply list_elem_of_lookup_2.
Qed.

#[export] Instance col_le_total : Total col_le.
Proof. intros a b. unfold col_le. lia. Qed.
#[export] Instance col_le_trans : Transitive col_le.
Proof. intros a b c. unfold col_le. lia. Qed.

Lemma sorted_cols_strict cols :
  NoDup cols.*1 -> StronglySorted col_le cols -> StronglySorted Z.lt cols.*1.
Proof.
  intros Hnd Hs. induction Hs as [|[x c] cols Hs IH Hall]; cbn in *; [constructor|].
  apply NoDup_cons in Hnd as [Hx Hnd]. constructor; [auto|].
  apply Forall_fmap. rewrite Forall_forall in *. intros [y d] Hin. cbn.
  specialize (Hall _ Hin). unfold col_le in Hall. cbn in Hall.
  assert (x <> y); [|lia]. intros ->. apply Hx. by apply (list_elem_of_fmap_2 fst _ (y, d)).
Qed.

(** Merging closed column ranges: each column of the union of the ranges gets the
    greatest of its coverages, and consecutive columns of equal coverage form one
    range of the result. *)
Lemma merge_partial_line_run p1 p2 :
  p1 <> [] -> p2 <> [] -> forallb closed (p1 ++ p2) = true ->
  exists cols,
    merge_partial_line p1 p2 = Ok ((fun g => ifg g.1.1 g.1.2 g.2) <$> groupby_cov cols) /\
    StronglySorted Z.lt cols.*1 /\
    forall x c, (x, c) ∈ cols <-> list_max (column (p1 ++ p2) x) = Ok c.
Proof.
  intros H1 H2 Hc. destruct (closed_columns (p1 ++ p2)) as (cols & Hcols & Hnd & Hin).
  exists (merge_sort col_le cols). pose proof (merge_sort_Permutation col_le cols) as Hperm.
  split_and!.
  - unfold merge_partial_line. destruct p1 as [|q1 p1]; [done|]. destruct p2 as [|q2 p2]; [done|].
    set (np := (q1 :: p1) ++ (q2 :: p2)) in *.
    assert (Ho : forall mx fl, fill_open mx np fl = fl).
    { intros mx fl. unfold fill_open. clear -Hc.
      induction np as [|p np IH]; cbn; [done|]. cbn in Hc. apply andb_true_iff in Hc as [Hp Hc].
      unfold closed in Hp. destruct (p_end p); [auto | done]. }
    rewrite Ho, Hcols. cbn [mbind result_bind]. by rewrite Hc.
  - apply sorted_cols_strict; [by rewrite Hperm|]. apply StronglySorted_merge_sort; apply _.
  - intros x c. by rewrite Hperm.
Qed.

Lemma groupby_cov_cons x c l :
  groupby_cov ((x, c) :: l) =
  match groupby_cov l with
  | (a, b, c') :: gs => if c =? c' then (x, b, c) :: gs else (x, x, c) :: (a, b, c') :: gs
  | [] => [(x, x, c)]
  end.
Proof. done. Qed.

Lemma groupby_head z e cols a b c gs :
  StronglySorted Z.lt (((z, e) :: cols).*1) ->
  groupby_cov ((z, e) :: cols) = (a, b, c) :: gs -> a = z /\ a <= b.
Proof.
  revert z e a b c gs. induction cols as [|[w d] cols IH]; intros z e a b c gs Hs E.
  - cbn in E. injection E as <- <- <- <-. lia.
  - cbn in Hs. apply StronglySorted_inv in Hs as [Hs [Hz _]%Forall_cons].
    rewrite groupby_cov_cons in E.
    destruct (groupby_cov ((w, d) :: cols)) as [|[[a' b'] c'] gs'] eqn:E';
      [by injection E as <- <- <- <-|].
    destruct (IH w d a' b' c' gs' Hs E') as [-> Hab].
    destruct (e =? c'); injection E as <- <- <- <-; lia.
Qed.

(** The runs of [groupby] cover the columns they were made from. *)
Lemma groupby_cov_runs cols :
  forall x c, (x, c) ∈ cols -> StronglySorted Z.lt cols.*1 ->
  exists a b, (a, b, c) ∈ groupby_cov cols /\ a <= x <= b.
Proof.
  induction cols as [|[y d] cols IH]; intros x c Hin Hs; [set_solver|].
  cbn in Hs. apply StronglySorted_inv in Hs as [Hs Hall]. cbn [groupby_cov].
  assert (Hfst : forall a b c' gs, groupby_cov cols = (a, b, c') :: gs -> a <= b /\ y < a).
  { intros a b c' gs E. destruct cols as [|[z e] cols]; [done|].
    apply groupby_head in E as [-> Hab]; [|done]. by apply Forall_cons in Hall as [? _]. }
  apply elem_of_cons in Hin as [[= -> ->]|Hin].
  - destruct (groupby_cov cols) as [|[[a b] c'] gs]; [exists y, y; set_solver by lia|].
    destruct (Hfst _ _ _ _ eq_refl). destruct (d =? c').
    + exists y, b. split; [left | lia].
    + exists y, y. split; [left | lia].
  - destruct (IH x c Hin Hs) as (a' & b' & Hr & Hx).
    destruct (groupby_cov cols) as [|[[a b] c'] gs]; [set_solver|].
    destruct (Hfst _ _ _ _ eq_refl) as [Hab Hya]. destruct (Z.eqb_spec d c') as [->|].
    + apply elem_of_cons in Hr as [[= -> -> ->]|Hr]; [exists y, b; split; [left | lia]|].
      exists a', b'. split; [by right | done].
    + exists a', b'. split; [by right | done].
Qed.

(** Two ranges without an end cannot be merged: no column is known, and the maximum
    of no columns raises. *)
Lemma merge_partial_line_open_run s1 c1 s2 c2 :
  0 <= default 0 s1 -> 0 <= default 0 s2 ->
  merge_partial_line [Partial s1 None c1] [Partial s2 None c2] = Err ValueError.
Proof.
  intros H1 H2. unfold merge_partial_line.
  destruct s1 as [s1|], s2 as [s2|]; cbn in H1, H2; cbn -[range]; unfold range;
    change (list_max (od_keys [])) with (@Err Z ValueError); cbv iota;
    rewrite !seqZ_nil by lia; done.
Qed.

(** ** Properties *)

(** C1: merging two coverage values as uploads write them, with the branches not
    enumerated, never raises, gives such a value again, and the type of the result is
    the join of the two types: a hit over a partial over a miss, the sentinel [-1]
    over everything and no data under everything. *)
Theorem merge_coverage_type_join l1 l2 bm t1 t2 :
  plain_cov l1 -> plain_cov l2 -> unknown_branches bm = true ->
  line_type l1 = Ok t1 -> line_type l2 = Ok t2 ->
  exists c, merge_coverage l1 l2 bm = Ok c /\ plain_cov c /\ line_type c = Ok (type_join t1 t2).
Proof. apply merge_coverage_join. Qed.

Lemma merge_coverage_type_join_witness :
  exists c, merge_coverage (CStr (frac_str 1 2)) (CStr (frac_str 0 3)) MTrue = Ok c /\
    plain_cov c /\ line_type c = Ok (Some partial_line).
Proof.
  apply (merge_coverage_type_join (CStr (frac_str 1 2)) (CStr (frac_str 0 3)) MTrue
    (Some partial_line) (Some miss)); [constructor; lia.. | reflexivity | reflexivity | reflexivity].
Defined.

(** C2: the type of the merge of all coverages of a line does not depend on the order
    the uploads arrived in: every permutation of the coverages merges without
    raising, to values of one and the same line type. *)
Theorem merge_all_order cs cs' bm :
  cs <> [] -> cs ≡ₚ cs' -> Forall plain_cov cs -> unknown_branches bm = true ->
  exists c c', merge_all cs bm = Ok c /\ merge_all cs' bm = Ok c' /\
    line_type c = Ok (type_of c') /\ line_type c' = Ok (type_of c).
Proof.
  intros Hne Hp Hc Hbm.
  assert (Hne' : cs' <> []) by (intros ->; apply Permutation_nil_r in Hp; done).
  assert (Hc' : Forall plain_cov cs') by by rewrite <- Hp.
  destruct (merge_all_join cs bm Hne Hc Hbm) as (c & -> & Pc & Tc).
  destruct (merge_all_join cs' bm Hne' Hc' Hbm) as (c' & -> & Pc' & Tc').
  exists c, c'. assert (E : join_types (type_of <$> cs') = join_types (type_of <$> cs))
    by (apply join_types_perm; by rewrite Hp).
  rewrite E in Tc'. unfold type_of. by rewrite Tc, Tc'.
Qed.

Lemma merge_all_order_witness :
  exists c c', merge_all [CInt 0; CStr (frac_str 1 2); CInt 5] MTrue = Ok c /\
    merge_all [CInt 5; CInt 0; CStr (frac_str 1 2)] MTrue = Ok c' /\
    line_type c = Ok (type_of c') /\ line_type c' = Ok (type_of c).
Proof.
  apply (merge_all_order [CInt 0; CStr (frac_str 1 2); CInt 5]); [done | | | reflexivity].
  - symmetry. apply (Permutation_app_comm [CInt 5] [CInt 0; CStr (frac_str 1 2)]).
  - repeat constructor; lia.
Defined.

(** Merging two well-formed lines (each with at least one session, session ids
    distinct, complexities of one kind) never raises; the result is well formed, its
    sessions are the merge of the sessions and its coverage is computed from them; a
    line type set on either side is kept, the first one first. *)
Theorem merge_line_total pairs l1 l2 :
  line_ok pairs l1 -> line_ok pairs l2 ->
  exists l, merge_line (Some l1) (Some l2) true false = Ok (Some l) /\ line_ok pairs l /\
    plain_cov (rl_coverage l) /\
    merge_sessions (rl_sessions l1) (rl_sessions l2) = Ok (rl_sessions l) /\
    get_coverage_from_sessions (rl_sessions l) = Ok (rl_coverage l) /\
    rl_type l = or_type (rl_type l1) (rl_type l2).
Proof. apply merge_line_run. Qed.

Lemma merge_line_total_witness :
  let a := mkLine (CInt 1) None [mkSession 0 (CInt 1) None None (CxInt 2)] CxNone in
  let b := mkLine (CInt 0) (Some "b"%string)
             [mkSession 1 (CStr (frac_str 1 2)) (Some [BrStr "3"]) None (CxInt 4)] CxNone in
  exists l, merge_line (Some a) (Some b) true false = Ok (Some l) /\ line_ok false l /\
    plain_cov (rl_coverage l) /\
    merge_sessions (rl_sessions a) (rl_sessions b) = Ok (rl_sessions l) /\
    get_coverage_from_sessions (rl_sessions l) = Ok (rl_coverage l) /\
    rl_type l = or_type (rl_type a) (rl_type b).
Proof.
  intros a b. apply (merge_line_total false a b); (split; [done|]); (split; [apply NoDup_singleton|]);
    (constructor; [split; [constructor; lia | done] | constructor]).
Defined.

(** The missing branches of a line over its sessions are those every session that
    lists branches misses, and none as soon as a session that lists no branches hit
    the line; there is no list exactly when no session lists branches. *)
Theorem merge_missed_branches_spec ss :
  Forall (fun s => plain_cov (ls_coverage s)) ss ->
  exists mb, merge_missed_branches ss = Ok mb /\
    (mb = None <-> existsb has_branches ss = false) /\
    (forall l, mb = Some l -> NoDup l /\ forall x, x ∈ l <->
       forall s, s ∈ ss ->
         match ls_branches s with
         | Some bs => x ∈ bs
         | None => line_type (ls_coverage s) <> Ok (Some hit)
         end).
Proof. apply merge_missed_branches_run. Qed.

Lemma merge_missed_branches_spec_witness :
  let s1 := mkSession 0 (CStr (frac_str 1 3)) (Some [BrStr "3"; BrStr "7"]) None CxNone in
  let s2 := mkSession 1 (CStr (frac_str 2 3)) (Some [BrStr "7"]) None CxNone in
  exists mb, merge_missed_branches [s1; s2] = Ok mb /\
    (mb = None <-> existsb has_branches [s1; s2] = false) /\
    (forall l, mb = Some l -> NoDup l /\ forall x, x ∈ l <->
       forall s, s ∈ [s1; s2] ->
         match ls_branches s with
         | Some bs => x ∈ bs
         | None => line_type (ls_coverage s) <> Ok (Some hit)
         end).
Proof. intros s1 s2. apply (merge_missed_branches_spec [s1; s2]). repeat constructor; lia. Defined.

(** merging the session lists of a line keeps each session id once, the session
    both sides have is the merge of the two, and a session only one side has is
    unchanged. *)
Theorem merge_sessions_pointwise s1 s2 ss :
  merge_sessions s1 s2 = Ok ss -> NoDup (ids s1) -> NoDup (ids s2) ->
  NoDup (ids ss) /\ forall i,
    match session_at i s1, session_at i s2 with
    | Some a, Some b => exists c, merge_line_session a b = Ok c /\ session_at i ss = Some c
    | Some a, None => session_at i ss = Some a
    | None, o => session_at i ss = o
    end.
Proof. apply merge_sessions_at. Qed.

Lemma merge_sessions_pointwise_witness :
  let a := mkSession 0 (CInt 1) None None CxNone in
  let b := mkSession 0 (CInt 4) None None CxNone in
  let c := mkSession 2 (CInt 0) None None CxNone in
  NoDup (ids [b; c]) /\ forall i,
    match session_at i [a], session_at i [b; c] with
    | Some x, Some y => exists z, merge_line_session x y = Ok z /\ session_at i [b; c] = Some z
    | Some x, None => session_at i [b; c] = Some x
    | None, o => session_at i [b; c] = o
    end.
Proof.
  intros a b c. apply (merge_sessions_pointwise [a] [b; c] [b; c]); [vm_compute; reflexivity | |].
  - apply NoDup_singleton.
  - apply (bool_decide_unpack _). vm_compute. exact I.
Defined.

(** Merging the column ranges of a partially covered line, all of them with an
    end: a column [x] lies in a range of the result with coverage [c] whenever [c] is
    the greatest coverage of the ranges over [x]. *)
Theorem merge_partial_line_columns p1 p2 :
  p1 <> [] -> p2 <> [] -> forallb closed (p1 ++ p2) = true ->
  exists ps, merge_partial_line p1 p2 = Ok ps /\
    forall x c, list_max (p_cov <$> filter (covers x) (p1 ++ p2)) = Ok c ->
      exists p, p ∈ ps /\ covers x p /\ p_cov p = c.
Proof.
  intros H1 H2 Hc. destruct (merge_partial_line_run p1 p2 H1 H2 Hc) as (cols & Hr & Hs & Hin).
  eexists; split; [exact Hr|]. intros x c Hx. apply Hin in Hx.
  destruct (groupby_cov_runs cols x c Hx Hs) as (a & b & Hg & Hab).
  exists (ifg a b c). split; [by apply (list_elem_of_fmap_2 (fun g : Z * Z * Z => ifg g.1.1 g.1.2 g.2) _ (a, b, c))|].
  split; [|done]. unfold covers, ifg. cbn. destruct (Z.ltb_spec a b); lia.
Qed.

Lemma merge_partial_line_columns_witness :
  let p1 := [Partial (Some 0) (Some 4) 1] in
  let p2 := [Partial (Some 3) (Some 9) 0] in
  exists ps, merge_partial_line p1 p2 = Ok ps /\
    forall x c, list_max (p_cov <$> filter (covers x) (p1 ++ p2)) = Ok c ->
      exists p, p ∈ ps /\ covers x p /\ p_cov p = c.
Proof. intros p1 p2. by apply (merge_partial_line_columns p1 p2). Defined.

(** Two ranges without an end cannot be merged: [max] of no columns raises
    [ValueError] instead of giving the merged range. *)
Theorem merge_partial_line_open s1 c1 s2 c2 :
  0 <= default 0 s1 -> 0 <= default 0 s2 ->
  merge_partial_line [Partial s1 None c1] [Partial s2 None c2] = Err ValueError.
Proof. apply merge_partial_line_open_run. Qed.

Lemma merge_partial_line_open_witness :
  merge_partial_line [Partial (Some 4) None 1] [Partial None None 0] = Err ValueError.
Proof. apply (merge_partial_line_open (Some 4) 1 None 0); cbn; lia. Defined.
