(* ===== verification/Totals.v ===== *)
(** * [shared/reports/totals.py] and [shared/utils/totals.py]

    [get_line_totals] counts the lines of a file; [agg_totals] and [sum_totals]
    add up the totals of many files.  The counts are characterised by the
    number of lines of each type, and the two aggregations agree on the totals
    [get_line_totals] makes.  The session counters and the totals of a diff
    follow. *)
From S2P Require Export Merge.

#[local] Open Scope Z_scope.

(** ** One file *)

(** The local counters of the loop. *)
Record counters : Type := Counters {
  n_hits : Z; n_misses : Z; n_partials : Z; n_branches : Z; n_methods : Z;
  n_complexity : Z; n_complexity_total : Z;
}.

Definition counters0 : counters := Counters 0 0 0 0 0 0 0.

Definition count_line (k : counters) (line : ReportLine) : result counters :=
  t ← line_type (rl_coverage line);
  let '(h, m, p) :=
    match t with
    | Some hit => (n_hits k + 1, n_misses k, n_partials k)
    | Some miss => (n_hits k, n_misses k + 1, n_partials k)
    | Some partial_line => (n_hits k, n_misses k, n_partials k + 1)
    | _ => (n_hits k, n_misses k, n_partials k)
    end in
  let is_type s := bool_decide (rl_type line = Some s) in
  let b := if is_type "b"%string then n_branches k + 1 else n_branches k in
  let d := if is_type "b"%string then n_methods k
           else if is_type "m"%string then n_methods k + 1 else n_methods k in
  let '(c, ct) :=
    match rl_complexity line with
    | CxInt z => (n_complexity k + z, n_complexity_total k)
    | CxPair x y => (n_complexity k + x, n_complexity_total k + y)
    | CxNone => (n_complexity k, n_complexity_total k)
    end in
  Ok (Counters h m p b d c ct).

(** [ratio(hits, lines) if lines else None]. *)
Definition coverage_of (hits lines : Z) : result tcov :=
  if lines =? 0 then Ok TcNone else s ← ratio hits lines; Ok (TcStr s).

Definition get_line_totals (ls : list ReportLine) : result ReportTotals :=
  k ← foldM count_line counters0 ls;
  let total_lines := n_hits k + n_misses k + n_partials k in
  c ← coverage_of (n_hits k) total_lines;
  Ok (mkTotals 0 total_lines (n_hits k) (n_misses k) (n_partials k) c
        (n_branches k) (n_methods k) 0 0 (Some (n_complexity k)) (Some (n_complexity_total k))
        (VInt 0)).

(** ** Many files *)

Definition is_float_val (v : pyval) : bool := match v with VFloat _ => true | _ => false end.
Definition int_val (v : pyval) : option Z :=
  match v with VInt z => Some z | VBool b => Some (Z.b2z b) | _ => None end.

Fixpoint sumZ (l : list Z) : Z := match l with [] => 0 | x :: l' => x + sumZ l' end.

(** [_sum]: a column that does not add up is summed over its [int]s only.  A column
    of floats does not occur in aggregated totals and is outside the model. *)
Definition _sum (array : list pyval) : result pyval :=
  match array with
  | [] => Ok VNone
  | (VNone | VStr _) :: _ => Ok VNone
  | _ =>
      if existsb is_float_val array then Err Unmodelled
      else Ok (VInt (sumZ ((fun v => default 0 (int_val v)) <$> array)))
  end.

(** [zip( *totals)] over the 13-tuples. *)
Definition columns (rows : list (list pyval)) : list (list pyval) :=
  (fun i => (fun row => default VNone (row !! i)) <$> rows) <$> seq 0 13.

(** [[_f for _f in totals if _f]]. *)
Definition present {A} (l : list (option A)) : list A := omap id l.

Definition agg_totals (totals : list (option ReportTotals)) : result ReportTotals :=
  let totals := present totals in
  let n_files := Z.of_nat (length totals) in
  match totals with
  | [] => Ok default_totals
  | _ =>
      sums ← traverse _sum (columns (totals_astuple <$> totals));
      t ← totals_of_list sums;
      c ← coverage_of (rt_hits t) (rt_lines t);
      Ok (mkTotals n_files (rt_lines t) (rt_hits t) (rt_misses t) (rt_partials t) c
            (rt_branches t) (rt_methods t) (rt_messages t) (rt_sessions t)
            (rt_complexity t) (rt_complexity_total t) (rt_diff t))
  end.

(** [sum(map(attrgetter(f), totals))] of an optional field. *)
Definition sum_opt (l : list (option Z)) : result Z :=
  foldM (fun acc o => match o with Some z => Ok (acc + z) | None => Err TypeError end) 0 l.

Definition sum_totals (totals : list (option ReportTotals)) : result ReportTotals :=
  match present totals with
  | [] => Ok default_totals
  | t0 :: _ =>
      let ts := present totals in
      let sum f := sumZ (f <$> ts) in
      c ← coverage_of (sum rt_hits) (sum rt_lines);
      x ← sum_opt (rt_complexity <$> ts);
      xt ← sum_opt (rt_complexity_total <$> ts);
      Ok (mkTotals (Z.of_nat (length ts)) (sum rt_lines) (sum rt_hits) (sum rt_misses)
            (sum rt_partials) c (sum rt_branches) (sum rt_methods) (sum rt_messages)
            (rt_sessions t0) (Some x) (Some xt) (VInt 0))
  end.

(** ** The counts are the numbers of lines of each type *)

Definition count (p : ReportLine -> bool) (ls : list ReportLine) : Z :=
  Z.of_nat (length (filter (fun l => p l = true) ls)).

Definition has_type (t : LineType) (l : ReportLine) : bool :=
  bool_decide (type_of (rl_coverage l) = Some t).
Definition is_kind (s : string) (l : ReportLine) : bool := bool_decide (rl_type l = Some s).
Definition cplx_fst (c : cplx) : Z := match c with CxNone => 0 | CxInt z => z | CxPair a _ => a end.
Definition cplx_snd (c : cplx) : Z := match c with CxPair _ b => b | _ => 0 end.

Lemma count_cons p l ls : count p (l :: ls) = (if p l then 1 else 0) + count p ls.
Proof.
  unfold count. rewrite filter_cons. destruct (p l) eqn:E.
  - rewrite decide_True by done. cbn [length]. lia.
  - rewrite decide_False by done. lia.
Qed.

Lemma count_app p l1 l2 : count p (l1 ++ l2) = count p l1 + count p l2.
Proof. unfold count. rewrite filter_app, length_app. lia. Qed.

Lemma count_nonneg p ls : 0 <= count p ls.
Proof. unfold count. lia. Qed.

Lemma count_perm p l1 l2 : l1 ≡ₚ l2 -> count p l1 = count p l2.
Proof. unfold count. by intros ->. Qed.

Lemma sumZ_app l1 l2 : sumZ (l1 ++ l2) = sumZ l1 + sumZ l2.
Proof. induction l1 as [|x l1 IH]; cbn; [done|]. rewrite IH. lia. Qed.

Lemma sumZ_perm l1 l2 : l1 ≡ₚ l2 -> sumZ l1 = sumZ l2.
Proof. induction 1; cbn; lia. Qed.

(** Lines whose coverage has a type. *)
Definition typed_line (l : ReportLine) : Prop := is_Ok (line_type (rl_coverage l)) = true.

Lemma typed_line_type l : typed_line l -> line_type (rl_coverage l) = Ok (type_of (rl_coverage l)).
Proof. unfold typed_line, type_of. by destruct (line_type _). Qed.

Lemma count_line_step k l :
  typed_line l ->
  count_line k l = Ok (Counters
    (n_hits k + if has_type hit l then 1 else 0)
    (n_misses k + if has_type miss l then 1 else 0)
    (n_partials k + if has_type partial_line l then 1 else 0)
    (n_branches k + if is_kind "b" l then 1 else 0)
    (n_methods k + if is_kind "m" l then 1 else 0)
    (n_complexity k + cplx_fst (rl_complexity l))
    (n_complexity_total k + cplx_snd (rl_complexity l))).
Proof.
  intros Hl. unfold count_line. rewrite (typed_line_type l Hl). cbn [mbind result_bind].
  unfold has_type, is_kind. destruct k. cbn.
  destruct (type_of (rl_coverage l)) as [[]|]; rewrite ?Z.add_0_r;
    destruct (rl_complexity l); cbn; rewrite ?Z.add_0_r;
    (destruct (bool_decide_reflect (rl_type l = Some "b"%string)) as [->|];
      [by rewrite ?Z.add_0_r|]);
    destruct (bool_decide (rl_type l = Some "m"%string)); by rewrite ?Z.add_0_r.
Qed.

Lemma count_lines ls k :
  Forall typed_line ls ->
  foldM count_line k ls = Ok (Counters
    (n_hits k + count (has_type hit) ls)
    (n_misses k + count (has_type miss) ls)
    (n_partials k + count (has_type partial_line) ls)
    (n_branches k + count (is_kind "b") ls)
    (n_methods k + count (is_kind "m") ls)
    (n_complexity k + sumZ ((fun l => cplx_fst (rl_complexity l)) <$> ls))
    (n_complexity_total k + sumZ ((fun l => cplx_snd (rl_complexity l)) <$> ls))).
Proof.
  intros H. revert k. induction H as [|l ls Hl _ IH]; intros k; cbn [foldM].
  - destruct k. cbn. unfold count. cbn. by rewrite !Z.add_0_r.
  - rewrite count_line_step by done. cbn [mbind result_bind]. rewrite IH.
    cbn [n_hits n_misses n_partials n_branches n_methods n_complexity n_complexity_total].
    rewrite !count_cons. cbn. do 2 f_equal; lia.
Qed.

(** The totals of a file, as a function of its lines; [ratio] only fails on counts
    past 2^1024, which a list cannot have in practice: it is kept as a premise. *)
Lemma get_line_totals_run ls :
  Forall typed_line ls ->
  get_line_totals ls =
    (let h := count (has_type hit) ls in
     let m := count (has_type miss) ls in
     let p := count (has_type partial_line) ls in
     c ← coverage_of h (h + m + p);
     Ok (mkTotals 0 (h + m + p) h m p c (count (is_kind "b") ls) (count (is_kind "m") ls) 0 0
           (Some (sumZ ((fun l => cplx_fst (rl_complexity l)) <$> ls)))
           (Some (sumZ ((fun l => cplx_snd (rl_complexity l)) <$> ls))) (VInt 0))).
Proof. intros H. unfold get_line_totals. rewrite count_lines by done. done. Qed.

Lemma coverage_of_total h n : 0 <= h <= n -> n < 2 ^ 53 -> exists c, coverage_of h n = Ok c.
Proof.
  intros H Hn. unfold coverage_of. destruct (Z.eqb_spec n 0); [eauto|].
  destruct (Z.eq_dec h n) as [->|]; [unfold ratio; rewrite Z.eqb_refl; cbn; eauto|].
  destruct (Z.eq_dec h 0) as [->|].
  { unfold ratio. rewrite (proj2 (Z.eqb_neq 0 n)) by lia. cbn. eauto. }
  destruct (ratio_run h n) as (k & -> & _); [lia..|]. cbn. eauto.
Qed.

(** ** The aggregations *)

(** The totals [get_line_totals] and [agg_totals] make: counts that add up, and
    integer complexities. *)
Definition totals_wf (t : ReportTotals) : Prop :=
  0 <= rt_hits t /\ 0 <= rt_misses t /\ 0 <= rt_partials t /\
  rt_lines t = rt_hits t + rt_misses t + rt_partials t /\
  is_Some (rt_complexity t) /\ is_Some (rt_complexity_total t) /\ rt_diff t = VInt 0 /\
  is_float_val (val_of_tcov (rt_coverage t)) = false.

Lemma get_line_totals_wf ls t :
  get_line_totals ls = Ok t -> Forall typed_line ls -> totals_wf t.
Proof.
  intros H Hl. rewrite get_line_totals_run in H by done. cbv zeta in H. inv_ok H. subst t.
  unfold totals_wf. cbn. pose proof (count_nonneg (has_type hit) ls).
  pose proof (count_nonneg (has_type miss) ls). pose proof (count_nonneg (has_type partial_line) ls).
  split_and!; try lia; eauto.
  unfold coverage_of in Hrun. case_match; [by injection Hrun as <-|].
  by apply bind_Ok_inv in Hrun as (s & _ & [= <-]).
Qed.

Definition optZ (o : option Z) : Z := default 0 o.

Lemma _sum_ints l : l <> [] -> _sum (VInt <$> l) = Ok (VInt (sumZ l)).
Proof.
  destruct l as [|z l]; [done|]. intros _. unfold _sum. cbn [fmap list_fmap existsb is_float_val orb].
  assert (E : existsb is_float_val (VInt <$> l) = false) by (induction l; done).
  rewrite E. cbn. do 3 f_equal. rewrite <- list_fmap_compose. by rewrite list_fmap_id.
Qed.

Lemma column_ints (f : ReportTotals -> Z) (g : ReportTotals -> pyval) ts :
  ts <> [] -> Forall (fun t => g t = VInt (f t)) ts -> _sum (g <$> ts) = Ok (VInt (sumZ (f <$> ts))).
Proof.
  intros Hne H. rewrite <- _sum_ints by by destruct ts. f_equal. rewrite <- list_fmap_compose.
  induction H as [|t ts Ht _ IH]; cbn; [done|]. rewrite Ht. f_equal.
  destruct ts; [done|]. by apply IH.
Qed.

Lemma columns_totals ts :
  columns (totals_astuple <$> ts) =
  [(fun t => VInt (rt_files t)) <$> ts; (fun t => VInt (rt_lines t)) <$> ts;
   (fun t => VInt (rt_hits t)) <$> ts; (fun t => VInt (rt_misses t)) <$> ts;
   (fun t => VInt (rt_partials t)) <$> ts; (fun t => val_of_tcov (rt_coverage t)) <$> ts;
   (fun t => VInt (rt_branches t)) <$> ts; (fun t => VInt (rt_methods t)) <$> ts;
   (fun t => VInt (rt_messages t)) <$> ts; (fun t => VInt (rt_sessions t)) <$> ts;
   (fun t => val_of_optZ (rt_complexity t)) <$> ts;
   (fun t => val_of_optZ (rt_complexity_total t)) <$> ts; (fun t => rt_diff t) <$> ts].
Proof. unfold columns. cbn [fmap list_fmap seq]. by rewrite <- !list_fmap_compose. Qed.

Lemma _sum_coverage ts :
  Forall totals_wf ts ->
  exists v, _sum ((fun t => val_of_tcov (rt_coverage t)) <$> ts) = Ok v /\ exists c, tcov_of_val v = Ok c.
Proof.
  intros H. assert (E : existsb is_float_val ((fun t => val_of_tcov (rt_coverage t)) <$> ts) = false).
  { induction H as [|t ts Ht _ IH]; cbn; [done|].
    destruct Ht as (_ & _ & _ & _ & _ & _ & _ & ->). done. }
  destruct ts as [|t ts]; [by eexists; split; [|eexists]|]. cbn [fmap list_fmap] in *.
  unfold _sum. destruct (rt_coverage t); cbn [val_of_tcov] in *; try discriminate E;
    try (by eexists; split; [|eexists]).
  rewrite E. by eexists; split; [|eexists].
Qed.

(** The aggregate of well-formed totals: field by field, the sum. *)
Lemma agg_totals_run ts :
  ts <> [] -> Forall totals_wf ts ->
  agg_totals (Some <$> ts) =
    (c ← coverage_of (sumZ (rt_hits <$> ts)) (sumZ (rt_lines <$> ts));
     Ok (mkTotals (Z.of_nat (length ts)) (sumZ (rt_lines <$> ts)) (sumZ (rt_hits <$> ts))
           (sumZ (rt_misses <$> ts)) (sumZ (rt_partials <$> ts)) c
           (sumZ (rt_branches <$> ts)) (sumZ (rt_methods <$> ts)) (sumZ (rt_messages <$> ts))
           (sumZ (rt_sessions <$> ts))
           (Some (sumZ ((fun t => optZ (rt_complexity t)) <$> ts)))
           (Some (sumZ ((fun t => optZ (rt_complexity_total t)) <$> ts))) (VInt 0))).
Proof.
  intros Hne H. unfold agg_totals.
  assert (Hp : present (Some <$> ts) = ts).
  { unfold present. clear. induction ts as [|t ts IH]; cbn; [done|]. by rewrite IH. }
  rewrite Hp. destruct (_sum_coverage ts H) as (v & Hv & c & Hc).
  assert (Hd : sumZ ((fun _ : ReportTotals => 0) <$> ts) = 0) by (clear; induction ts; cbn; lia).
  assert (Hsums : traverse _sum (columns (totals_astuple <$> ts)) =
    Ok [VInt (sumZ (rt_files <$> ts)); VInt (sumZ (rt_lines <$> ts)); VInt (sumZ (rt_hits <$> ts));
        VInt (sumZ (rt_misses <$> ts)); VInt (sumZ (rt_partials <$> ts)); v;
        VInt (sumZ (rt_branches <$> ts)); VInt (sumZ (rt_methods <$> ts));
        VInt (sumZ (rt_messages <$> ts)); VInt (sumZ (rt_sessions <$> ts));
        VInt (sumZ ((fun t => optZ (rt_complexity t)) <$> ts));
        VInt (sumZ ((fun t => optZ (rt_complexity_total t)) <$> ts)); VInt 0]).
  { rewrite columns_totals. cbn [traverse].
    rewrite !(column_ints _ (fun t => VInt _)) by (try done; by apply Forall_forall).
    rewrite (column_ints (fun t => optZ (rt_complexity t)) (fun t => val_of_optZ (rt_complexity t))),
      (column_ints (fun t => optZ (rt_complexity_total t)) (fun t => val_of_optZ (rt_complexity_total t))),
      (column_ints (fun _ => 0) (fun t => rt_diff t)); try done.
    - rewrite Hv, Hd. done.
    - eapply Forall_impl; [exact H|]. by intros t (_ & _ & _ & _ & _ & _ & ? & _).
    - eapply Forall_impl; [exact H|]. intros t (_ & _ & _ & _ & _ & [x Hx] & _). by rewrite Hx.
    - eapply Forall_impl; [exact H|]. intros t (_ & _ & _ & _ & [x Hx] & _). by rewrite Hx. }
  rewrite Hsums. destruct ts as [|t ts]; [done|]. cbn [mbind result_bind].
  unfold totals_of_list. cbn [length Nat.ltb Nat.leb lookup list_lookup default id Z_of_val optZ_of_val
    mbind result_bind]. rewrite Hc. reflexivity.
Qed.

Lemma sum_opt_run l :
  Forall is_Some l -> forall acc, foldM (fun acc o => match o with Some z => Ok (acc + z)
    | None => Err TypeError end) acc l = Ok (acc + sumZ (optZ <$> l)).
Proof.
  induction 1 as [|o l [z ->] _ IH]; intros acc; cbn; [by rewrite Z.add_0_r|].
  rewrite IH. f_equal. unfold optZ. cbn. lia.
Qed.

Lemma sum_totals_run ts :
  ts <> [] -> Forall totals_wf ts ->
  sum_totals (Some <$> ts) =
    (t ← agg_totals (Some <$> ts);
     Ok (mkTotals (rt_files t) (rt_lines t) (rt_hits t) (rt_misses t) (rt_partials t)
           (rt_coverage t) (rt_branches t) (rt_methods t) (rt_messages t)
           (default 0 (rt_sessions <$> head ts)) (rt_complexity t) (rt_complexity_total t)
           (rt_diff t))).
Proof.
  intros Hne H. rewrite agg_totals_run by done. unfold sum_totals.
  assert (Hp : present (Some <$> ts) = ts).
  { unfold present. clear. induction ts as [|t ts IH]; cbn; [done|]. by rewrite IH. }
  rewrite Hp. destruct ts as [|t0 ts']; [done|]. set (ts := t0 :: ts') in *.
  destruct (coverage_of _ _) as [c|e]; [|done]. cbn [mbind result_bind].
  unfold sum_opt. rewrite !sum_opt_run.
  - cbn [mbind result_bind]. by rewrite <- !list_fmap_compose.
  - apply Forall_fmap. eapply Forall_impl; [exact H|]. by intros t (_ & _ & _ & _ & ? & _).
  - apply Forall_fmap. eapply Forall_impl; [exact H|]. by intros t (_ & _ & _ & _ & _ & ? & _).
Qed.

(** Aggregating keeps totals well formed. *)
Lemma agg_totals_wf ts t :
  Forall totals_wf ts -> agg_totals (Some <$> ts) = Ok t -> totals_wf t.
Proof.
  intros H Ht. destruct ts as [|t0 ts']; [injection Ht as <-; unfold totals_wf; cbn; split_and!; eauto; lia|].
  assert (Hne : t0 :: ts' <> []) by done. revert H Ht Hne. generalize (t0 :: ts'). clear t0 ts'.
  intros ts H Ht Hne. rewrite agg_totals_run in Ht by done. inv_ok Ht. subst t.
  assert (Hs : sumZ (rt_lines <$> ts) = sumZ (rt_hits <$> ts) + sumZ (rt_misses <$> ts) + sumZ (rt_partials <$> ts)
    /\ 0 <= sumZ (rt_hits <$> ts) /\ 0 <= sumZ (rt_misses <$> ts) /\ 0 <= sumZ (rt_partials <$> ts)).
  { clear Hrun Hne. induction H as [|t ts (? & ? & ? & ? & _) _ IH]; cbn; lia. }
  unfold totals_wf. cbn [rt_hits rt_misses rt_partials rt_lines rt_complexity rt_complexity_total rt_diff rt_coverage].
  split_and!; try lia; eauto. unfold coverage_of in Hrun. case_match; [by injection Hrun as <-|].
  by apply bind_Ok_inv in Hrun as (s & _ & [= <-]).
Qed.

(** ** Properties *)

(** The totals of a list of lines count what they say: hits, misses and partials
    are the lines of each type, lines their sum, branches and methods the lines of
    type ["b"] and ["m"], complexity the sums; the coverage is the ratio of hits to
    lines, and absent without lines. *)
Theorem get_line_totals_counts ls :
  Forall (fun l => is_Ok (line_type (rl_coverage l)) = true) ls ->
  get_line_totals ls =
    (let h := count (has_type hit) ls in
     let m := count (has_type miss) ls in
     let p := count (has_type partial_line) ls in
     c ← (if h + m + p =? 0 then Ok TcNone else s ← ratio h (h + m + p); Ok (TcStr s));
     Ok (mkTotals 0 (h + m + p) h m p c (count (is_kind "b") ls) (count (is_kind "m") ls) 0 0
           (Some (sumZ ((fun l => cplx_fst (rl_complexity l)) <$> ls)))
           (Some (sumZ ((fun l => cplx_snd (rl_complexity l)) <$> ls))) (VInt 0))).
Proof. apply get_line_totals_run. Qed.

Lemma get_line_totals_counts_witness :
  get_line_totals [mkLine (CInt 3) None [] (CxInt 2); mkLine (CStr (frac_str 1 2)) (Some "b"%string) [] CxNone;
                   mkLine (CInt 0) None [] (CxPair 1 4); mkLine (CInt (-1)) None [] CxNone] =
  Ok (mkTotals 0 3 1 1 1 (TcStr "33.33333") 1 0 0 0 (Some 3) (Some 4) (VInt 0)).
Proof.
  etransitivity.
  - apply get_line_totals_counts. repeat (constructor; [vm_compute; reflexivity|]). constructor.
  - vm_compute. reflexivity.
Defined.

(** [sum_totals] and [agg_totals] give the same totals of a list of well-formed
    totals, sums whose coverage is the ratio of the summed hits to the summed lines,
    except for the sessions: the sum over the list for [agg_totals], those of the
    first for [sum_totals]. *)
Theorem agg_and_sum_totals ts :
  ts <> [] -> Forall totals_wf ts ->
  agg_totals (Some <$> ts) =
    (c ← coverage_of (sumZ (rt_hits <$> ts)) (sumZ (rt_lines <$> ts));
     Ok (mkTotals (Z.of_nat (length ts)) (sumZ (rt_lines <$> ts)) (sumZ (rt_hits <$> ts))
           (sumZ (rt_misses <$> ts)) (sumZ (rt_partials <$> ts)) c
           (sumZ (rt_branches <$> ts)) (sumZ (rt_methods <$> ts)) (sumZ (rt_messages <$> ts))
           (sumZ (rt_sessions <$> ts))
           (Some (sumZ ((fun t => optZ (rt_complexity t)) <$> ts)))
           (Some (sumZ ((fun t => optZ (rt_complexity_total t)) <$> ts))) (VInt 0))) /\
  sum_totals (Some <$> ts) =
    (t ← agg_totals (Some <$> ts);
     Ok (mkTotals (rt_files t) (rt_lines t) (rt_hits t) (rt_misses t) (rt_partials t)
           (rt_coverage t) (rt_branches t) (rt_methods t) (rt_messages t)
           (default 0 (rt_sessions <$> head ts)) (rt_complexity t) (rt_complexity_total t)
           (rt_diff t))).
Proof. intros Hne H. split; [by apply agg_totals_run | by apply sum_totals_run]. Qed.

Lemma agg_and_sum_totals_witness :
  let a := mkTotals 0 4 2 1 1 (TcStr "50.00000") 0 0 0 1 (Some 3) (Some 5) (VInt 0) in
  let b := mkTotals 0 2 2 0 0 (TcStr "100") 1 0 0 2 (Some 1) (Some 1) (VInt 0) in
  agg_totals [Some a; Some b] =
    Ok (mkTotals 2 6 4 1 1 (TcStr "66.66667") 1 0 0 3 (Some 4) (Some 6) (VInt 0)) /\
  sum_totals [Some a; Some b] =
    Ok (mkTotals 2 6 4 1 1 (TcStr "66.66667") 1 0 0 1 (Some 4) (Some 6) (VInt 0)).
Proof.
  intros a b. destruct (agg_and_sum_totals [a; b]) as [Ha Hs]; [done | |].
  - repeat constructor; cbn; lia || eauto.
  - split; [etransitivity; [exact Ha | vm_compute; reflexivity] |
            etransitivity; [exact Hs | vm_compute; reflexivity]].
Defined.

(** * [shared/utils/sessions.py]: the uploads of a report *)

#[local] Open Scope Z_scope.
#[local] Open Scope string_scope.

Inductive SessionType : Set := uploaded | carriedforward.

#[export] Instance SessionType_eq_dec : EqDecision SessionType.
Proof. solve_decision. Defined.

Definition SessionType_value (t : SessionType) : string :=
  match t with uploaded => "uploaded" | carriedforward => "carriedforward" end.

(** [SessionType.get_from_string]: the member with this value, or [None]. *)
Definition get_from_string (val : pyval) : option SessionType :=
  List.find (fun m => bool_decide (VStr (SessionType_value m) = val)) [uploaded; carriedforward].

(** Fields the report logic never inspects stay dynamic. *)
Record Session : Type := mkSess {
  se_id : option Z;
  se_totals : option ReportTotals;
  se_time : pyval;
  se_archive : pyval;
  se_flags : option (list string);
  se_provider : pyval;
  se_build : pyval;
  se_job : pyval;
  se_url : pyval;
  se_state : pyval;
  se_env : pyval;
  se_name : option string;
  se_type : SessionType;
  se_extras : odict string pyval;
}.

#[export] Instance Session_eq_dec : EqDecision Session.
Proof. solve_decision. Defined.

(** [Session(id=..., flags=..., name=..., session_type=..., session_extras=...)]:
    [uploaded] and [{}] replace falsy arguments. *)
Definition Session_init (id : option Z) (totals : option ReportTotals) (time archive : pyval)
    (flags : option (list string)) (provider build job url state env : pyval)
    (name : option string) (ty : option SessionType) (extras : option (odict string pyval)) : Session :=
  mkSess id totals time archive flags provider build job url state env name
    (default uploaded ty) (default [] extras).

(** [Session.__eq__] compares every field. *)
Definition session_eqb (a b : Session) : bool :=
  bool_decide (se_id a = se_id b) && bool_decide (se_totals a = se_totals b) &&
  bool_decide (se_time a = se_time b) && bool_decide (se_archive a = se_archive b) &&
  bool_decide (se_flags a = se_flags b) && bool_decide (se_provider a = se_provider b) &&
  bool_decide (se_build a = se_build b) && bool_decide (se_job a = se_job b) &&
  bool_decide (se_url a = se_url b) && bool_decide (se_state a = se_state b) &&
  bool_decide (se_env a = se_env b) && bool_decide (se_name a = se_name b) &&
  bool_decide (se_type a = se_type b) && bool_decide (se_extras a = se_extras b).

(** [parse_totals]. *)
Definition parse_totals (v : pyval) : result (option ReportTotals) :=
  if truthy v then
    match v with
    | VList l => t ← totals_of_list l; Ok (Some t)
    | _ => Err Unmodelled
    end
  else Ok None.

Definition or_val (a b : pyval) : pyval := if truthy a then a else b.

Definition str_list_of_val (v : pyval) : result (option (list string)) :=
  match v with
  | VNone => Ok None
  | VList l =>
      ss ← traverse (fun x => match x with VStr s => Ok s | _ => Err Unmodelled end) l; Ok (Some ss)
  | _ => Err Unmodelled
  end.

Definition opt_str_of_val (v : pyval) : result (option string) :=
  match v with VNone => Ok None | VStr s => Ok (Some s) | _ => Err Unmodelled end.

Definition extras_of_val (v : pyval) : result (option (odict string pyval)) :=
  if truthy v then match v with VDict d => Ok (Some d) | _ => Err Unmodelled end else Ok None.

(** [Session.parse_session(id, ** kw)]: the short key of each field, or its long
    name among the keyword arguments of old reports. *)
Definition parse_session (id : option Z) (kw : odict string pyval) : result Session :=
  let arg k := default VNone (od_get k kw) in
  let either k long := or_val (arg k) (arg long) in
  totals ← parse_totals (either "t" "totals");
  flags ← str_list_of_val (either "f" "flags");
  name ← opt_str_of_val (either "N" "name");
  extras ← extras_of_val (arg "se");
  Ok (Session_init id totals (either "d" "time") (either "a" "archive") flags
        (either "c" "provider") (either "n" "build") (either "j" "job") (either "u" "url")
        (either "p" "state") (either "e" "env") name (get_from_string (arg "st")) extras).

Definition val_of_str_opt (o : option string) : pyval :=
  match o with Some s => VStr s | None => VNone end.

Definition encode_session (s : Session) : pyval :=
  VDict [("t", match se_totals s with Some t => VList (totals_astuple t) | None => VNone end);
         ("d", se_time s);
         ("a", se_archive s);
         ("f", match se_flags s with Some l => VList (VStr <$> l) | None => VNone end);
         ("c", se_provider s);
         ("n", se_build s);
         ("N", val_of_str_opt (se_name s));
         ("j", se_job s);
         ("u", se_url s);
         ("p", se_state s);
         ("e", se_env s);
         ("st", VStr (SessionType_value (se_type s)));
         ("se", VDict (se_extras s))].

(** ** Round trip

    [or] turns a falsy field into the long-named argument, that is [None]: a
    session survives encoding when no field is falsy without being [None]. *)
Definition normal_val (v : pyval) : bool := truthy v || bool_decide (v = VNone).

Definition session_normal (s : Session) : bool :=
  forallb normal_val [se_time s; se_archive s; se_provider s; se_build s; se_job s; se_url s;
                      se_state s; se_env s] &&
  bool_decide (se_flags s <> Some []) && bool_decide (se_name s <> Some "").

Lemma or_val_normal v : normal_val v = true -> or_val v VNone = v.
Proof.
  unfold normal_val, or_val. destruct (truthy v); [done|]. intros H%bool_decide_eq_true. done.
Qed.

Lemma session_eqb_eq a b : session_eqb a b = true <-> a = b.
Proof.
  unfold session_eqb. rewrite !andb_true_iff, !bool_decide_eq_true. split; [|by intros ->].
  destruct a, b; cbn. intuition congruence.
Qed.

Lemma get_from_string_value t : get_from_string (VStr (SessionType_value t)) = Some t.
Proof. by destruct t. Qed.

Lemma parse_encode s :
  session_normal s = true ->
  match encode_session s with VDict kw => parse_session (se_id s) kw | _ => Err TypeError end = Ok s.
Proof.
  intros H. unfold session_normal in H. rewrite !andb_true_iff in H. destruct H as [[H Hf] Hn].
  cbn [forallb] in H. rewrite !andb_true_iff in H.
  destruct H as (H1 & H2 & H3 & H4 & H5 & H6 & H7 & H8 & _).
  apply bool_decide_eq_true in Hf, Hn.
  destruct s as [i t ti ar fl pr bu jo ur st en na ty ex].
  unfold encode_session, parse_session. cbv zeta. od_lookup. cbn -[parse_totals or_val] in *.
  assert (Ht : parse_totals (or_val match t with Some t => VList (totals_astuple t) | None => VNone end VNone)
    = Ok t).
  { destruct t as [t|]; [|done]. cbn -[totals_of_list]. by rewrite totals_roundtrip. }
  rewrite Ht. cbn [mbind result_bind].
  assert (Hfl : str_list_of_val (or_val match fl with Some l => VList (VStr <$> l) | None => VNone end VNone)
    = Ok fl).
  { destruct fl as [l|]; [|done]. destruct l as [|x l]; [done|]. unfold or_val. cbn [truthy].
    rewrite bool_decide_eq_false_2 by done. cbn [negb]. unfold str_list_of_val.
    by rewrite traverse_roundtrip. }
  rewrite Hfl. cbn [mbind result_bind].
  assert (Hna : opt_str_of_val (or_val (val_of_str_opt na) VNone) = Ok na).
  { destruct na as [n|]; [|done]. unfold or_val. cbn. case_bool_decide; [congruence | done]. }
  rewrite Hna. cbn [mbind result_bind].
  assert (Hex : extras_of_val (VDict ex) = Ok (match ex with [] => None | _ => Some ex end)).
  { by destruct ex. }
  rewrite Hex. cbn [mbind result_bind]. unfold Session_init.
  rewrite !or_val_normal by done. by destruct ty, ex.
Qed.

(** * [shared/reports/diff.py]: the totals of the lines a diff adds

    The two protocols of the module, [AbstractReportFile] and [AbstractReport],
    are type classes: [calculate_report_diff] is written once, against them,
    and used by the full report and by its filtered views. *)

#[local] Open Scope string_scope.
#[local] Open Scope Z_scope.

Record DiffSegment : Type := mkSegment {
  seg_header : list pyval;
  seg_lines : list string;
}.

(** One file of a diff.  A deleted or binary file has no segments; [df_totals] is
    the entry [save_diff_calculation] adds, [df_stats] the one of the provider. *)
Record DiffFile : Type := mkDiffFile {
  df_type : string;
  df_before : option string;
  df_segments : option (list DiffSegment);
  df_stats : option (Z * Z);
  df_totals : option ReportTotals;
}.

Record RawDiff : Type := mkDiff {
  d_files : odict string DiffFile;
  d_totals : option ReportTotals;
}.

Record CalculatedDiff : Type := mkCalc {
  cd_general : ReportTotals;
  cd_files : odict string ReportTotals;
}.

Class AbstractReportFile (F : Type) : Type := {
  arf_get : F -> Z -> result (option ReportLine);
  arf_bool : F -> result bool;  (* [bool(file)] *)
}.

Class AbstractReport (R F : Type) : Type := {
  ar_get : R -> string -> result (option F);
}.

(** [int(v)]. *)
Definition py_int (v : pyval) : result Z :=
  match v with
  | VInt z => Ok z
  | VBool b => Ok (Z.b2z b)
  | VStr s => int_of_str s
  | VFloat f => Ok (Z_of_f f)
  | _ => Err TypeError
  end.

Definition list_item {A} (l : list A) (i : nat) : result A :=
  match l !! i with Some x => Ok x | None => Err IndexError end.

(** [int(segment["header"][2]) or 1]. *)
Definition segment_start (seg : DiffSegment) : result Z :=
  h ← list_item (seg_header seg) 2; n ← py_int h; Ok (if n =? 0 then 1 else n).

(** [line[0]]. *)
Definition first_char (s : string) : result ascii :=
  match s with String c _ => Ok c | EmptyString => Err IndexError end.

Fixpoint relevant_go (i : Z) (ls : list string) : result (list Z) :=
  match ls with
  | [] => Ok []
  | l :: ls' =>
      c ← first_char l;
      if bool_decide (c = "-"%char) then relevant_go i ls'
      else
        rest ← relevant_go (i + 1) ls';
        Ok (if bool_decide (c = "+"%char) then i :: rest else rest)
  end.

Definition relevant_lines (seg : DiffSegment) : result (list Z) :=
  i ← segment_start seg; relevant_go i (seg_lines seg).

Definition calculate_file_diff {F} `{AbstractReportFile F} (file : F) (segments : list DiffSegment)
    : result ReportTotals :=
  line_numbers ← traverse relevant_lines segments;
  ls ← traverse (arf_get file) (concat line_numbers);
  get_line_totals (present ls).

(** The loop over [diff["files"].items()]; a missing [segments] is a [KeyError]. *)
Definition diff_step {R F} `{!AbstractReportFile F} `{!AbstractReport R F} (report : R)
    (files : odict string ReportTotals) (kv : string * DiffFile) : result (odict string ReportTotals) :=
  let '(path, data) := kv in
  if bool_decide (df_type data = "modified") || bool_decide (df_type data = "new") then
    file ← ar_get report path;
    match file with
    | None => Ok files
    | Some f =>
        b ← arf_bool f;
        if (b : bool) then
          segs ← match df_segments data with Some s => Ok s | None => Err KeyError end;
          t ← calculate_file_diff f segs;
          Ok (od_set path t files)
        else Ok files
    end
  else Ok files.

Definition calculate_report_diff {R F} `{!AbstractReportFile F} `{!AbstractReport R F}
    (report : R) (d : RawDiff) : result CalculatedDiff :=
  files ← foldM (diff_step report) [] (d_files d);
  totals ← sum_totals (Some <$> od_vals files);
  Ok (mkCalc
        (if rt_lines totals =? 0 then
           mkTotals (rt_files totals) (rt_lines totals) (rt_hits totals) (rt_misses totals)
             (rt_partials totals) TcNone (rt_branches totals) (rt_methods totals)
             (rt_messages totals) (rt_sessions totals) None None (rt_diff totals)
         else totals)
        files).

(** ** Facts *)

(** The new-side numbering of a segment, as a specification: line [k] of the
    segment, context or added, is at [start] plus the number of earlier lines
    that are not removals. *)
Definition is_line (c : ascii) (l : string) : bool :=
  match l with String c' _ => bool_decide (c = c') | EmptyString => false end.

Definition new_pos (start : Z) (ls : list string) (k : nat) : Z :=
  start + Z.of_nat (length (filter (fun l => is_line "-" l = false) (take k ls))).

Definition nonempty_lines (ls : list string) : Prop := Forall (fun l => l <> "") ls.

Lemma relevant_go_spec i ls :
  nonempty_lines ls ->
  exists l, relevant_go i ls = Ok l /\
    forall n, n ∈ l <-> exists k s, ls !! k = Some s /\ is_line "+" s = true /\ n = new_pos i ls k.
Proof.
  intros H. revert i. induction H as [|s ls Hs _ IH]; intros i.
  { exists []. split; [done|]. intros n. split; [set_solver|]. by intros (k & s & Hk & _). }
  destruct s as [|c s]; [done|]. cbn [relevant_go first_char mbind result_bind].
  assert (Hshift : forall k, new_pos i (String c s :: ls) (S k) =
    new_pos (if bool_decide ("-"%char = c) then i else i + 1) ls k).
  { intros k. unfold new_pos. cbn [take]. rewrite filter_cons. cbn [is_line].
    case_bool_decide; [rewrite decide_False by done | rewrite decide_True by done; cbn [length]]; lia. }
  assert (H0 : new_pos i (String c s :: ls) 0 = i) by (unfold new_pos; cbn; lia).
  destruct (bool_decide_reflect (c = "-"%char)) as [->|Hm].
  - destruct (IH i) as (l & -> & Hl). exists l. split; [done|]. intros n. rewrite Hl.
    rewrite bool_decide_eq_true_2 in Hshift by done. split.
    + intros (k & s' & Hk & Hp & ->). exists (S k), s'. by rewrite Hshift.
    + intros ([|k] & s' & Hk & Hp & ->); cbn in Hk; [by injection Hk as <-|].
      exists k, s'. by rewrite Hshift.
  - rewrite bool_decide_eq_false_2 in Hshift by congruence.
    destruct (IH (i + 1)) as (l & -> & Hl). cbn [mbind result_bind].
    eexists; split; [done|]. intros n.
    assert (Hrest : n ∈ l <-> exists k s', ls !! k = Some s' /\ is_line "+" s' = true /\
      n = new_pos i (String c s :: ls) (S k)).
    { rewrite Hl. by setoid_rewrite Hshift. }
    split.
    + intros Hin. destruct (bool_decide_reflect (c = "+"%char)) as [->|Hp].
      * apply elem_of_cons in Hin as [->|Hin].
        { exists 0%nat, (String "+" s). by rewrite H0. }
        apply Hrest in Hin as (k & s' & ? & ? & ?). by exists (S k), s'.
      * apply Hrest in Hin as (k & s' & ? & ? & ?). by exists (S k), s'.
    + intros ([|k] & s' & Hk & Hp & ->); cbn in Hk.
      * injection Hk as <-. cbn in Hp. apply bool_decide_eq_true in Hp as <-.
        rewrite bool_decide_eq_true_2 by done. rewrite H0. left.
      * assert (new_pos i (String c s :: ls) (S k) ∈ l) by (apply Hrest; eauto).
        case_bool_decide; [by right | done].
Qed.

(** Relevant lines are listed in increasing order, hence once each. *)
Lemma relevant_go_sorted i ls l :
  relevant_go i ls = Ok l -> StronglySorted Z.lt l /\ Forall (Z.le i) l.
Proof.
  revert i l. induction ls as [|s ls IH]; intros i l H; cbn in H.
  { injection H as <-. split; constructor. }
  apply bind_Ok_inv in H as (c & _ & H). case_bool_decide.
  { by apply IH. }
  apply bind_Ok_inv in H as (rest & Hr & [= <-]). apply IH in Hr as [Hs Hb].
  case_bool_decide; split; try done.
  - constructor; [done|]. eapply Forall_impl; [exact Hb|]. cbn. lia.
  - constructor; [lia|]. eapply Forall_impl; [exact Hb|]. cbn. lia.
  - eapply Forall_impl; [exact Hb|]. cbn. lia.
Qed.

Lemma calculate_file_diff_app {F} `{AbstractReportFile F} (file : F) segs t :
  calculate_file_diff file segs = Ok t ->
  exists nums ls, traverse relevant_lines segs = Ok nums /\
    traverse (arf_get file) (concat nums) = Ok ls /\ get_line_totals (present ls) = Ok t.
Proof.
  unfold calculate_file_diff. intros Hr. inv_ok Hr. eauto.
Qed.

(** ** Properties *)

(** the relevant lines of a hunk are the positions, in the new file, of its added
    lines, in increasing order: the start of the hunk (1 when it is 0) plus the number
    of lines before that are not removed. *)
Theorem relevant_lines_positions seg i :
  segment_start seg = Ok i -> nonempty_lines (seg_lines seg) ->
  exists l, relevant_lines seg = Ok l /\ StronglySorted Z.lt l /\
    forall n, n ∈ l <-> exists k s, seg_lines seg !! k = Some s /\ is_line "+" s = true /\
      n = i + Z.of_nat (length (filter (fun l => is_line "-" l = false) (take k (seg_lines seg)))).
Proof.
  intros Hi Hl. unfold relevant_lines. rewrite Hi. cbn [mbind result_bind].
  destruct (relevant_go_spec i _ Hl) as (l & Hr & Hspec). exists l.
  split_and!; [done | by eapply relevant_go_sorted | done].
Qed.

Lemma relevant_lines_positions_witness :
  let seg := mkSegment [VStr "3"; VStr "2"; VStr "10"; VStr "3"] [" a"; "-b"; "+c"; "+d"] in
  exists l, relevant_lines seg = Ok l /\ StronglySorted Z.lt l /\
    forall n, n ∈ l <-> exists k s, seg_lines seg !! k = Some s /\ is_line "+" s = true /\
      n = 10 + Z.of_nat (length (filter (fun l => is_line "-" l = false) (take k (seg_lines seg)))).
Proof.
  intros seg. apply (relevant_lines_positions seg 10); [vm_compute; reflexivity|].
  repeat constructor; done.
Defined.
