(* ===== verification/JsonCodec.v ===== *)
(** * An implementation of the JSON interface

    [OrJsonLaws] is satisfiable: the codec below numbers the values and prints
    the number, after an opening character for lists and dictionaries.  The
    witnesses of the theorems about serialized reports run on it. *)
From S2P Require Export PyVal.
From stdpp Require Import countable.
#[local] Open Scope string_scope.
#[local] Open Scope Z_scope.

Definition leaf : Type := (bool + Z + (bool * Z * Z) + string)%type.

Fixpoint to_tree (v : pyval) : gen_tree leaf :=
  match v with
  | VNone => GenNode 0 []
  | VBool b => GenLeaf (inl (inl (inl b)))
  | VInt z => GenLeaf (inl (inl (inr z)))
  | VFloat f => GenLeaf (inl (inr (fneg f, fman f, fexp f)))
  | VStr s => GenLeaf (inr s)
  | VList l => GenNode 1 (map to_tree l)
  | VDict d => GenNode 2 (map (fun kv => GenNode 3 [GenLeaf (inr kv.1); to_tree kv.2]) d)
  end.

Fixpoint of_tree (t : gen_tree leaf) : option pyval :=
  match t with
  | GenLeaf (inl (inl (inl b))) => Some (VBool b)
  | GenLeaf (inl (inl (inr z))) => Some (VInt z)
  | GenLeaf (inl (inr (s, m, e))) => Some (VFloat (B64 s m e))
  | GenLeaf (inr s) => Some (VStr s)
  | GenNode 0 _ => Some VNone
  | GenNode 1 l =>
      (fix go l := match l with
                   | [] => Some (VList [])
                   | t :: l' =>
                       match of_tree t, go l' with
                       | Some v, Some (VList vs) => Some (VList (v :: vs))
                       | _, _ => None
                       end
                   end) l
  | GenNode 2 l =>
      (fix go l := match l with
                   | [] => Some (VDict [])
                   | GenNode _ [GenLeaf (inr k); t] :: l' =>
                       match of_tree t, go l' with
                       | Some v, Some (VDict vs) => Some (VDict ((k, v) :: vs))
                       | _, _ => None
                       end
                   | _ => None
                   end) l
  | GenNode _ _ => None
  end.

Lemma of_to_tree v : of_tree (to_tree v) = Some v.
Proof.
  induction v as [|b|z|f|s|l IH|d IH] using pyval_ind'; try done.
  - by destruct f.
  - cbn [to_tree of_tree]. induction IH as [|v l Hv _ IH]; [done|]. cbn [map]. by rewrite Hv, IH.
  - cbn [to_tree of_tree]. induction IH as [|[k v] d Hv _ IH]; [done|]. cbn [map fst snd] in *.
    by rewrite Hv, IH.
Qed.

Definition opening (v : pyval) : ascii :=
  match v with VList _ => "["%char | VDict _ => "{"%char | _ => "v"%char end.

Definition codec_dumps (v : pyval) : string :=
  String (opening v) (str_of_Z (Zpos (encode (to_tree v)))).

Definition codec_loads (s : string) : result pyval :=
  match s with
  | String _ r =>
      match int_of_str r with
      | Ok (Zpos p) =>
          match decode p with
          | Some t => match of_tree t with Some v => Ok v | None => Err JSONDecodeError end
          | None => Err JSONDecodeError
          end
      | _ => Err JSONDecodeError
      end
  | EmptyString => Err JSONDecodeError
  end.

Definition codec : OrJson := {| json_dumps := codec_dumps; json_loads := codec_loads |}.

Lemma codec_laws : @OrJsonLaws codec.
Proof.
  split.
  - intros v _. cbn -[str_of_Z encode]. rewrite int_of_str_of_Z, decode_encode. by rewrite of_to_tree.
  - intros v _. cbn -[str_of_Z encode]. apply andb_true_iff. split; [by destruct v|].
    eapply str_forallb_impl; [|apply str_of_Z_digits; lia]. intros c Hc.
    apply digit_props in Hc as (Hc & _). destruct (is_linebreak c) eqn:E; [|done].
    unfold is_linebreak in E. unfold is_space in Hc. repeat case_match; done.
  - done.
  - done.
Qed.
