(* ===== verification/Reportfile.v ===== *)
(** * [shared/reports/reportfile.py]: the coverage of one file

    A file keeps its lines as text until they are first needed, and each line as
    JSON text until it is read; totals and the set of present sessions are
    cached.  Parsing and filling a cache change no value a later operation
    returns, so the reading operations are functions of the file, and the
    operations that change lines return the new file. *)
From S2P Require Export Totals.
From S2P Require Import JsonCodec.
#[local] Open Scope string_scope.
#[local] Open Scope Z_scope.

Module ReportFile.

(** An entry of [_parsed_lines]. *)
Inductive slot : Type :=
  | SNone
  | SStr (s : string)
  | SList (l : list pyval)
  | SLine (l : ReportLine).

Definition EMPTY : slot := SStr "".

Definition slot_truthy (s : slot) : bool :=
  match s with
  | SNone => false
  | SStr t => negb (bool_decide (t = ""))
  | SList l => negb (bool_decide (l = []))
  | SLine _ => true
  end.

(** The [ignore] dict of a report under construction. *)
Record ignore : Type := Ignore { ig_eof : option (Z + string); ig_lines : list Z }.

(** [str(ln) > eof] for a textual end of file. *)
Definition _ignore_to_func (ig : ignore) (ln : Z) : bool :=
  match ig_eof ig with
  | Some (inr eof) =>
      if bool_decide (eof = "") then bool_decide (ln ∈ ig_lines ig)
      else String.ltb eof (str_of_Z ln) || bool_decide (ln ∈ ig_lines ig)
  | Some (inl eof) =>
      if eof =? 0 then bool_decide (ln ∈ ig_lines ig)
      else (eof <? ln) || bool_decide (ln ∈ ig_lines ig)
  | None => bool_decide (ln ∈ ig_lines ig)
  end.

Record t : Type := mkFile {
  rf_name : string;
  rf_totals : option ReportTotals;
  rf_diff_totals : option ReportTotals;
  rf_raw_lines : option string;
  rf_parsed_lines : list slot;
  rf_details : odict string pyval;
  rf_present : option (gset Z);
  rf_ignore : option ignore;
}.

Definition totals_arg (a : option (ReportTotals + list pyval)) : result (option ReportTotals) :=
  match a with
  | None | Some (inr []) => Ok None
  | Some (inl t) => Ok (Some t)
  | Some (inr l) => t ← totals_of_list l; Ok (Some t)
  end.

Definition init (name : string) (totals : option (ReportTotals + list pyval))
    (lines : option (list slot + string)) (diff_totals : option (ReportTotals + list pyval))
    (ig : option ignore) : result t :=
  let '(raw, parsed) :=
    match lines with
    | Some (inl l) => (None, l)
    | Some (inr s) => if bool_decide (s = "") then (None, []) else (Some s, [])
    | None => (None, [])
    end in
  tot ← totals_arg totals;
  dt ← totals_arg diff_totals;
  Ok (mkFile name tot dt raw parsed [] None ig).

Definition with_lines (ls : list slot) (f : t) : t :=
  mkFile (rf_name f) (rf_totals f) (rf_diff_totals f) None ls (rf_details f) (rf_present f)
    (rf_ignore f).

Definition with_present (s : option (gset Z)) (f : t) : t :=
  mkFile (rf_name f) (rf_totals f) (rf_diff_totals f) (rf_raw_lines f) (rf_parsed_lines f)
    (rf_details f) s (rf_ignore f).

Definition with_name (n : string) (f : t) : t :=
  mkFile n (rf_totals f) (rf_diff_totals f) (rf_raw_lines f) (rf_parsed_lines f)
    (rf_details f) (rf_present f) (rf_ignore f).

Definition with_diff_totals (d : option ReportTotals) (f : t) : t :=
  mkFile (rf_name f) (rf_totals f) d (rf_raw_lines f) (rf_parsed_lines f)
    (rf_details f) (rf_present f) (rf_ignore f).

Definition _invalidate_caches (f : t) : t :=
  mkFile (rf_name f) None None (rf_raw_lines f) (rf_parsed_lines f) (rf_details f) None
    (rf_ignore f).

Section ops.
Context `{OrJson}.

(** [orjson.loads(detailsline or "null") or {}]. *)
Definition parse_details (detailsline : string) : result (odict string pyval) :=
  v ← json_loads (if bool_decide (detailsline = "") then "null" else detailsline);
  if truthy v then
    match v with VDict d => Ok d | _ => Err AttributeError end
  else Ok [].

Definition present_of_details (d : odict string pyval) (old : option (gset Z)) : result (option (gset Z)) :=
  let v := default VNone (od_get "present_sessions" d) in
  if truthy v then
    match v with
    | VList l => zs ← traverse Z_of_val l; Ok (Some (list_to_set zs))
    | _ => Err Unmodelled
    end
  else Ok old.

(** The effect of reading [_lines]: the text is split, and its first line is
    the details. *)
Definition force (f : t) : result t :=
  match rf_raw_lines f with
  | Some raw =>
      if bool_decide (raw = "") then Ok f
      else
        match splitlines raw with
        | [] => Err IndexError
        | detailsline :: ls =>
            d ← parse_details detailsline;
            p ← present_of_details d (rf_present f);
            Ok (mkFile (rf_name f) (rf_totals f) (rf_diff_totals f) None (SStr <$> ls) d p
                  (rf_ignore f))
        end
  | None => Ok f
  end.

Definition _lines (f : t) : result (list slot) := f ← force f; Ok (rf_parsed_lines f).

Definition _line (s : slot) : result ReportLine :=
  match s with
  | SLine l => Ok l
  | SStr s =>
      v ← json_loads s;
      match v with
      | VList l => line_of_list l
      | VNone | VBool _ | VInt _ | VFloat _ => Err TypeError
      | VStr _ | VDict _ => Err Unmodelled
      end
  | SList l => line_of_list l
  | SNone => Err TypeError
  end.

(** A slot as [__iter__] yields it. *)
Definition read_slot (s : slot) : result (option ReportLine) :=
  if slot_truthy s then l ← _line s; Ok (Some l) else Ok None.

Definition __iter__ (f : t) : result (list (option ReportLine)) :=
  ls ← _lines f; traverse read_slot ls.

(** [enumerate(slots, start=i)], keeping the slots that hold a line. *)
Fixpoint numbered (i : Z) (ls : list slot) : result (list (Z * ReportLine)) :=
  match ls with
  | [] => Ok []
  | s :: ls' =>
      o ← read_slot s;
      rest ← numbered (i + 1) ls';
      Ok (match o with Some l => (i, l) :: rest | None => rest end)
  end.

Definition lines (f : t) : result (list (Z * ReportLine)) :=
  ls ← _lines f; numbered 1 ls.

Definition session_ids (ls : list (Z * ReportLine)) : gset Z :=
  list_to_set (concat ((fun kl => ls_id <$> rl_sessions kl.2) <$> ls)).

Definition _present_sessions (f : t) : result (gset Z) :=
  f ← force f;
  match rf_present f with
  | Some s => Ok s
  | None => ls ← lines f; Ok (session_ids ls)
  end.

Definition sorted_ids (s : gset Z) : list Z := merge_sort Z.le (elements s).

Definition details (f : t) : result (odict string pyval) :=
  f ← force f;
  s ← _present_sessions f;
  Ok (od_set "present_sessions" (VList (VInt <$> sorted_ids s)) (rf_details f)).

Definition totals (f : t) : result ReportTotals :=
  match rf_totals f with
  | Some t => Ok t
  | None => ls ← lines f; get_line_totals ls.*2
  end.

Definition get (f : t) (ln : Z) : result (option ReportLine) :=
  if ln <? 1 then Err ValueError
  else
    ls ← _lines f;
    match ls !! Z.to_nat (ln - 1) with
    | None => Ok None
    | Some s => read_slot s
    end.

(** [lst[a:b]] with Python's treatment of negative bounds. *)
Definition py_slice {A} (a b : Z) (l : list A) : list A :=
  let n := Z.of_nat (length l) in
  let clamp x := if x <? 0 then Z.max 0 (x + n) else Z.min x n in
  take (Z.to_nat (clamp b - clamp a)) (drop (Z.to_nat (clamp a)) l).

Definition _getslice (f : t) (start stop : Z) : result (list (Z * ReportLine)) :=
  ls ← _lines f; numbered start (py_slice (start - 1) (stop - 1) ls).

(** The key of [file[ln]]. *)
Inductive key : Type := KTotals | KSlice (start stop : Z) | KLine (ln : Z) | KOther.
Inductive item : Type :=
  | ITotals (t : ReportTotals) | IStream (l : list (Z * ReportLine)) | ILine (l : ReportLine).

Definition __getitem__ (f : t) (k : key) : result item :=
  match k with
  | KTotals => t ← totals f; Ok (ITotals t)
  | KSlice start stop => l ← _getslice f start stop; Ok (IStream l)
  | KOther => Err TypeError
  | KLine ln =>
      if ln <? 1 then Err ValueError
      else
        o ← get f ln;
        match o with Some l => Ok (ILine l) | None => Err IndexError end
  end.

Definition __contains__ (f : t) (ln : Z) : result bool :=
  o ← get f ln; Ok (bool_decide (is_Some o)).

Definition __bool__ (f : t) : result bool := t ← totals f; Ok (0 <? rt_lines t).

Definition __len__ (f : t) : result Z :=
  ls ← _lines f; Ok (Z.of_nat (length (filter (fun s => slot_truthy s = true) ls))).

Definition eof (f : t) : result Z := ls ← _lines f; Ok (Z.of_nat (length ls) + 1).

Definition ignored (f : t) (ln : Z) : bool :=
  match rf_ignore f with Some ig => _ignore_to_func ig ln | None => false end.

(** [lines.extend([EMPTY] * (ln - length))] when [length <= ln]. *)
Definition extend_to (ln : Z) (ls : list slot) : list slot :=
  if Z.of_nat (length ls) <=? ln
  then ls ++ replicate (Z.to_nat (ln - Z.of_nat (length ls))) EMPTY else ls.

(** [lines[ln - 1] = s], [1 <= ln]. *)
Definition store (ln : Z) (s : slot) (ls : list slot) : list slot :=
  <[Z.to_nat (ln - 1) := s]> ls.

Definition __setitem__ (f : t) (ln : Z) (line : ReportLine) : result t :=
  if ln <? 1 then Err ValueError
  else if ignored f ln then Ok f
  else
    f ← force f;
    Ok (_invalidate_caches (with_lines (store ln (SLine line) (extend_to ln (rf_parsed_lines f))) f)).

Definition __delitem__ (f : t) (ln : Z) : result t :=
  if ln <? 1 then Err ValueError
  else
    f ← force f;
    Ok (_invalidate_caches (with_lines (store ln EMPTY (extend_to ln (rf_parsed_lines f))) f)).

Definition append (f : t) (ln : Z) (line : ReportLine) : result (bool * t) :=
  if ln <? 1 then Err ValueError
  else if ignored f ln then Ok (false, f)
  else
    f ← force f;
    let f := with_lines (extend_to ln (rf_parsed_lines f)) f in
    _line ← get f ln;
    new ← match _line with
          | Some l =>
              m ← merge_line (Some l) (Some line) true false;
              match m with Some l' => Ok (SLine l') | None => Ok SNone end
          | None => Ok (SLine line)
          end;
    Ok (true, _invalidate_caches (with_lines (store ln new (rf_parsed_lines f)) f)).

(** [[merge_line(before, after, ...) for before, after in zip_longest(self, other)]]. *)
Fixpoint merge_slots (joined is_disjoint : bool) (a b : list slot) {struct a} : result (list slot) :=
  let cell x y :=
    before ← x; after ← y;
    m ← merge_line before after joined is_disjoint;
    Ok (match m with Some l => SLine l | None => SNone end) in
  match a with
  | [] => traverse (fun y => cell (Ok None) (read_slot y)) b
  | x :: a' =>
      c ← cell (read_slot x) (match b with y :: _ => read_slot y | [] => Ok None end);
      rest ← merge_slots joined is_disjoint a' (tail b);
      Ok (c :: rest)
  end.

Definition same_counts (t1 t2 : ReportTotals) : bool :=
  (rt_lines t1 =? rt_lines t2) && (rt_misses t1 =? rt_misses t2).

(** [a.totals.lines == a.totals.misses and (b's lines or misses differ from self's)]. *)
Definition boiled (a self other : t) : result bool :=
  ta ← totals a;
  if rt_lines ta =? rt_misses ta then
    to ← totals other; ts ← totals self; Ok (negb (same_counts to ts))
  else Ok false.

(** [None] for a missing file, else whether the lines were taken over. *)
Definition merge (f : t) (other_file : option t) (joined is_disjoint : bool) : result (option bool * t) :=
  match other_file with
  | None => Ok (None, f)
  | Some other =>
      let rb := endswith ".rb" (rf_name f) in
      first ← if rb then boiled f f other else Ok false;
      if (first : bool) then
        ls ← _lines other; Ok (Some true, _invalidate_caches (with_lines ls f))
      else
        second ← if rb then boiled other f other else Ok false;
        if (second : bool) then Ok (Some false, f)
        else
          f ← force f;
          other ← force other;
          ls ← merge_slots joined is_disjoint (rf_parsed_lines f) (rf_parsed_lines other);
          Ok (Some true, _invalidate_caches (with_lines ls f))
  end.

#[global] Instance abstract_file : AbstractReportFile t := {
  arf_get := get;
  arf_bool := __bool__;
}.

Definition calculate_diff (f : t) (segments : list DiffSegment) : result ReportTotals :=
  calculate_file_diff f segments.

(** ** Diffs *)

Fixpoint adjust_lines (self future : t) (pos : Z) (ls : list string) : result bool :=
  match ls with
  | [] => Ok false
  | l :: ls' =>
      c ← first_char l;
      if bool_decide (c = "-"%char) then
        b ← __contains__ self pos;
        if (b : bool) then Ok true else adjust_lines self future pos ls'
      else if bool_decide (c = "+"%char) then
        b ← __contains__ future pos;
        if (b : bool) then Ok true else adjust_lines self future (pos + 1) ls'
      else adjust_lines self future (pos + 1) ls'
  end.

Fixpoint adjust_segments (self future : t) (segs : list DiffSegment) : result bool :=
  match segs with
  | [] => Ok false
  | seg :: segs' =>
      pos ← segment_start seg;
      b ← adjust_lines self future pos (seg_lines seg);
      if (b : bool) then Ok true else adjust_segments self future segs'
  end.

Definition does_diff_adjust_tracked_lines (f : t) (d : DiffFile) (future_file : t) : result bool :=
  match df_segments d with
  | Some segs => adjust_segments f future_file segs
  | None => Err KeyError
  end.

(** [lst.pop(i)] and [lst.insert(i, x)]. *)
Definition py_pop {A} (i : Z) (l : list A) : result (list A) :=
  let n := Z.of_nat (length l) in
  let j := if i <? 0 then i + n else i in
  if (0 <=? j) && (j <? n) then Ok (delete (Z.to_nat j) l) else Err IndexError.

Definition py_insert {A} (i : Z) (x : A) (l : list A) : list A :=
  let n := Z.of_nat (length l) in
  let j := if i <? 0 then Z.max 0 (i + n) else Z.min i n in
  take (Z.to_nat j) l ++ x :: drop (Z.to_nat j) l.

(** One line of a segment.  The exception of a step, if any, is raised before the
    step changes the file. *)
Definition shift_step (f : t) (pos : Z) (line : string) : result (t * Z) :=
  c ← first_char line;
  if bool_decide (c = "-"%char) then
    f ← force f;
    let ls := rf_parsed_lines f in
    if pos <? Z.of_nat (length ls)
    then ls' ← py_pop pos ls; Ok (with_lines ls' f, pos)
    else Ok (f, pos)
  else if bool_decide (c = "+"%char) then
    f ← force f;
    Ok (with_lines (py_insert pos EMPTY (rf_parsed_lines f)) f, pos + 1)
  else Ok (f, pos + 1).

(** The loops, with the file as the exception that ends them, if any, leaves it. *)
Fixpoint shift_lines (f : t) (pos : Z) (ls : list string) : t * option exn :=
  match ls with
  | [] => (f, None)
  | l :: ls' =>
      match shift_step f pos l with
      | Ok (f', pos') => shift_lines f' pos' ls'
      | Err e => (f, Some e)
      end
  end.

Fixpoint shift_segments (f : t) (segs : list DiffSegment) : t * option exn :=
  match segs with
  | [] => (f, None)
  | seg :: segs' =>
      match segment_start seg with
      | Err e => (f, Some e)
      | Ok start =>
          match shift_lines f (start - 1) (seg_lines seg) with
          | (f', None) => shift_segments f' segs'
          | r => r
          end
      end
  end.

(** [except (ValueError, KeyError, TypeError, IndexError)]; a JSON error is a [ValueError]. *)
Definition shift_caught (e : exn) : bool :=
  match e with
  | ValueError | KeyError | TypeError | IndexError | JSONDecodeError => true
  | _ => false
  end.

Definition shift_lines_by_diff (f : t) (d : DiffFile) : result t :=
  let '(f', e) :=
    match df_segments d with
    | Some segs => shift_segments f segs
    | None => (f, Some KeyError)
    end in
  match e with
  | Some e => if shift_caught e then Ok (_invalidate_caches f') else Err e
  | None => Ok (_invalidate_caches f')
  end.

(** ** Deleting sessions *)

(** [None] stands for [EMPTY]. *)
Definition line_without_multiple_sessions (line : ReportLine) (session_ids_to_delete : gset Z)
    : result (option ReportLine) :=
  let new_sessions := filter (fun s => ls_id s ∉ session_ids_to_delete) (rl_sessions line) in
  if (length new_sessions =? 0)%nat then Ok None
  else
    new_coverage ← merge_all (ls_coverage <$> new_sessions) MNone;
    Ok (Some (mkLine new_coverage (rl_type line) new_sessions (rl_complexity line))).

Definition delete_step (session_ids_to_delete : gset Z) (f : t) (kl : Z * ReportLine) : result t :=
  let '(index, line) := kl in
  if existsb (fun s => bool_decide (ls_id s ∈ session_ids_to_delete)) (rl_sessions line) then
    new_line ← line_without_multiple_sessions line session_ids_to_delete;
    match new_line with
    | None => __delitem__ f index
    | Some l => __setitem__ f index l
    end
  else Ok f.

(** The loop edits the list it iterates over, each time at the slot it has just
    read, and never changes its length, so it sees the lines of the start. *)
Definition delete_multiple_sessions (f : t) (session_ids_to_delete : gset Z) : result t :=
  f ← force f;
  current_sessions ← _present_sessions f;
  let new_sessions := current_sessions ∖ session_ids_to_delete in
  if bool_decide (current_sessions = new_sessions) then Ok f
  else
    let f := _invalidate_caches f in
    if bool_decide (new_sessions = ∅) then Ok (with_lines [] f)
    else
      ls ← lines f;
      f' ← foldM (delete_step session_ids_to_delete) f ls;
      Ok (with_present (Some new_sessions) f').

(** ** The file as a function from line numbers *)

Definition slot_at (ls : list slot) (ln : Z) : result (option ReportLine) :=
  match ls !! Z.to_nat (ln - 1) with
  | None => Ok None
  | Some s => read_slot s
  end.

Definition opt_slot (o : option ReportLine) : slot :=
  match o with Some l => SLine l | None => SNone end.

Lemma read_opt_slot o : read_slot (opt_slot o) = Ok o.
Proof. by destruct o. Qed.

Lemma get_slot f ln :
  1 <= ln -> get f ln = (f' ← force f; slot_at (rf_parsed_lines f') ln).
Proof.
  intros Hln. unfold get, _lines. rewrite (proj2 (Z.ltb_ge _ _)) by lia.
  destruct (force f); done.
Qed.

Lemma force_parsed f : rf_raw_lines f = None -> force f = Ok f.
Proof. unfold force. by intros ->. Qed.

Lemma force_idem f f' : force f = Ok f' -> force f' = Ok f'.
Proof.
  unfold force. destruct (rf_raw_lines f) as [raw|] eqn:Er; intros Hf.
  2: { injection Hf as <-. by rewrite Er. }
  case_bool_decide as Eb; [injection Hf as <-; by rewrite Er, bool_decide_eq_true_2|].
  destruct (splitlines raw); [done|]. inv_ok Hf. by subst.
Qed.

Lemma force_lines f f' : force f = Ok f' -> _lines f = Ok (rf_parsed_lines f').
Proof. unfold _lines. by intros ->. Qed.

Lemma force_fields f f' :
  force f = Ok f' ->
  rf_name f' = rf_name f /\ rf_totals f' = rf_totals f /\ rf_diff_totals f' = rf_diff_totals f /\
  rf_ignore f' = rf_ignore f.
Proof.
  unfold force. destruct (rf_raw_lines f) as [raw|]; intros Hf; [|by injection Hf as <-].
  case_bool_decide; [by injection Hf as <-|]. destruct (splitlines raw); [done|]. inv_ok Hf. by subst.
Qed.

(** What a file reads depends on its lines only. *)
Lemma _lines_ext f g :
  rf_raw_lines f = rf_raw_lines g -> rf_parsed_lines f = rf_parsed_lines g -> _lines f = _lines g.
Proof.
  intros Hr Hp. unfold _lines, force. rewrite Hr. destruct (rf_raw_lines g) as [raw|]; [|cbn; by rewrite Hp].
  case_bool_decide as Eb; [cbn; by rewrite Hp|]. destruct (splitlines raw); [done|].
  destruct (parse_details _); cbn; [|done]. unfold present_of_details.
  case_match; [|done]. case_match; try done. by destruct (traverse _ _).
Qed.

Lemma lines_ext f g :
  rf_raw_lines f = rf_raw_lines g -> rf_parsed_lines f = rf_parsed_lines g -> lines f = lines g.
Proof. intros. unfold lines. by rewrite (_lines_ext f g). Qed.

Lemma get_ext f g ln :
  rf_raw_lines f = rf_raw_lines g -> rf_parsed_lines f = rf_parsed_lines g -> get f ln = get g ln.
Proof. intros. unfold get. by rewrite (_lines_ext f g). Qed.

Lemma lines_invalidate f : lines (_invalidate_caches f) = lines f.
Proof. by apply lines_ext. Qed.

Lemma get_invalidate f ln : get (_invalidate_caches f) ln = get f ln.
Proof. by apply get_ext. Qed.

Lemma get_with_lines f ls ln :
  1 <= ln -> get (_invalidate_caches (with_lines ls f)) ln = slot_at ls ln.
Proof. intros Hln. by rewrite get_slot. Qed.

Lemma slot_at_nil ln : slot_at [] ln = Ok None.
Proof. unfold slot_at. by rewrite lookup_nil. Qed.

Lemma slot_at_extend n ls ln : slot_at (extend_to n ls) ln = slot_at ls ln.
Proof.
  unfold slot_at, extend_to. destruct (_ <=? n); [|done].
  destruct (decide (Z.to_nat (ln - 1) < length ls)%nat) as [Hl|Hl].
  - by rewrite lookup_app_l.
  - rewrite lookup_app_r, (lookup_ge_None_2 ls) by lia.
    destruct (replicate _ _ !! _) eqn:E; [|done]. by apply lookup_replicate in E as [-> _].
Qed.

Lemma extend_to_length n ls : 0 <= n -> n <= Z.of_nat (length (extend_to n ls)).
Proof.
  intros Hn. unfold extend_to. case_match eqn:E; [|lia]. rewrite length_app, length_replicate. lia.
Qed.

Lemma slot_at_store n s ls ln :
  1 <= n -> 1 <= ln ->
  slot_at (store n s (extend_to n ls)) ln = if decide (ln = n) then read_slot s else slot_at ls ln.
Proof.
  intros Hn Hln. rewrite <- (slot_at_extend n ls ln). pose proof (extend_to_length n ls).
  unfold slot_at, store. case_decide; subst.
  - rewrite list_lookup_insert_eq; [done | lia].
  - rewrite list_lookup_insert_ne; [done | lia].
Qed.

Lemma setitem_get f n line f' ln :
  __setitem__ f n line = Ok f' -> ignored f n = false -> 1 <= ln ->
  get f' ln = if decide (ln = n) then Ok (Some line) else get f ln.
Proof.
  unfold __setitem__. intros Hs Hi Hln. case_match eqn:En; [done|]. rewrite Hi in Hs. inv_ok Hs.
  subst. rewrite get_with_lines, slot_at_store by lia. rewrite (get_slot f), Hrun by lia. done.
Qed.

Lemma delitem_get f n f' ln :
  __delitem__ f n = Ok f' -> 1 <= ln -> get f' ln = if decide (ln = n) then Ok None else get f ln.
Proof.
  unfold __delitem__. intros Hs Hln. case_match eqn:En; [done|]. inv_ok Hs.
  subst. rewrite get_with_lines, slot_at_store by lia. rewrite (get_slot f), Hrun by lia. done.
Qed.

Lemma append_get f n line f' ln :
  append f n line = Ok (true, f') -> 1 <= ln ->
  get f' ln = if decide (ln = n) then (o ← get f n; merge_line o (Some line) true false) else get f ln.
Proof.
  unfold append. intros Ha Hln. case_match eqn:En; [done|]. apply Z.ltb_ge in En.
  destruct (ignored f n); [done|].
  apply bind_Ok_inv in Ha as (f1 & Hf1 & Ha). cbv zeta in Ha.
  apply bind_Ok_inv in Ha as (o & Ho & Ha). apply bind_Ok_inv in Ha as (new & Hnew & [= <-]).
  rewrite get_with_lines, (get_slot f ln), Hf1 by lia. cbn [mbind result_bind].
  rewrite (get_slot _ n) in Ho by lia. cbn in Ho. rewrite slot_at_extend in Ho.
  cbn [with_lines rf_parsed_lines]. rewrite slot_at_store by lia. case_decide; [|done]. subst.
  rewrite get_slot, Hf1 by lia. cbn [mbind result_bind]. rewrite Ho. cbn [mbind result_bind].
  destruct o as [l|]; [|by injection Hnew as <-].
  apply bind_Ok_inv in Hnew as (m & -> & Hnew). by destruct m; injection Hnew as <-.
Qed.

Lemma merge_slots_at j d a b ls ln :
  1 <= ln -> merge_slots j d a b = Ok ls ->
  slot_at ls ln = (x ← slot_at a ln; y ← slot_at b ln; merge_line x y j d).
Proof.
  intros Hln. unfold slot_at. generalize (Z.to_nat (ln - 1)). clear Hln ln. intros n.
  assert (Hcell : forall x y c, (before ← x; after ← y; m ← merge_line before after j d;
     Ok (match m with Some l => SLine l | None => SNone end)) = Ok c ->
     read_slot c = (x0 ← x; y0 ← y; merge_line x0 y0 j d)).
  { intros x y c Hc. inv_ok Hc. subst c. rewrite Hrun, Hrun1. cbn. rewrite Hrun0. apply (read_opt_slot v1). }
  revert b n ls. induction a as [|x a IH]; intros b n ls Hm; cbn [merge_slots] in Hm.
  - apply traverse_Forall2 in Hm. rewrite lookup_nil. cbn [mbind result_bind].
    destruct (b !! n) as [y|] eqn:Eb.
    + destruct (Forall2_lookup_l _ _ _ _ _ Hm Eb) as (c & -> & Hc). by rewrite (Hcell _ _ _ Hc).
    + apply Forall2_length in Hm. apply lookup_ge_None in Eb. by rewrite lookup_ge_None_2 by lia.
  - apply bind_Ok_inv in Hm as (c & Hc & Hm). apply bind_Ok_inv in Hm as (rest & Hrest & [= <-]).
    destruct n as [|n]; cbn [lookup list_lookup].
    + rewrite (Hcell _ _ _ Hc). by destruct b.
    + rewrite (IH _ _ _ Hrest). by destruct b.
Qed.

Lemma merge_get f other j d f' ln :
  endswith ".rb" (rf_name f) = false ->
  merge f (Some other) j d = Ok (Some true, f') -> 1 <= ln ->
  get f' ln = (x ← get f ln; y ← get other ln; merge_line x y j d).
Proof.
  unfold merge. intros -> Hm Hln. cbn [mbind result_bind] in Hm. inv_ok Hm. subst f'.
  rewrite get_with_lines, (get_slot f), (get_slot other), Hrun, Hrun1 by lia.
  by apply merge_slots_at.
Qed.

(** [lines] lists exactly the lines [get] finds. *)
Lemma numbered_spec i ls kls :
  numbered i ls = Ok kls ->
  od_wf kls /\ Forall (fun k => i <= k) (od_keys kls) /\
  forall n, Ok (od_get (i + Z.of_nat n) kls) = match ls !! n with None => Ok None | Some s => read_slot s end.
Proof.
  revert i kls. induction ls as [|s ls IH]; intros i kls Hn; cbn [numbered] in Hn.
  { injection Hn as <-. split; [apply od_wf_nil|]. split; [constructor|]. done. }
  apply bind_Ok_inv in Hn as (o & Ho & Hn). apply bind_Ok_inv in Hn as (rest & Hr & [= <-]).
  destruct (IH _ _ Hr) as (Wf & Hb & Hg).
  assert (Hi : i ∉ od_keys rest). { intros Hin. rewrite Forall_forall in Hb. apply Hb in Hin. lia. }
  assert (Hb' : Forall (fun k => i <= k) (od_keys rest)) by (eapply Forall_impl; [exact Hb|]; cbn; lia).
  split_and!.
  - destruct o as [l|]; [|done]. by apply NoDup_cons.
  - destruct o as [l|]; [|done]. constructor; cbn; [lia | done].
  - intros [|n]; cbn [lookup list_lookup].
    + rewrite Z.add_0_r, Ho. destruct o as [l|]; cbn; [by rewrite decide_True|].
      by rewrite (proj2 (od_get_None i rest)).
    + rewrite <- Hg. replace (i + Z.of_nat (S n)) with (i + 1 + Z.of_nat n) by lia.
      destruct o as [l|]; [|done]. cbn. rewrite decide_False by lia. done.
Qed.

Lemma lines_get f kls :
  lines f = Ok kls ->
  od_wf kls /\ Forall (fun k => 1 <= k) (od_keys kls) /\
  forall ln, 1 <= ln -> get f ln = Ok (od_get ln kls).
Proof.
  unfold lines. intros Hl. apply bind_Ok_inv in Hl as (ls & Hls & Hn).
  destruct (numbered_spec _ _ _ Hn) as (Wf & Hb & Hg). split_and!; [done..|].
  intros ln Hln. unfold get. rewrite (proj2 (Z.ltb_ge _ _)) by lia. rewrite Hls. cbn.
  rewrite <- Hg. do 2 f_equal. lia.
Qed.

Lemma lines_elem f kls ln l :
  lines f = Ok kls -> (ln, l) ∈ kls <-> 1 <= ln /\ get f ln = Ok (Some l).
Proof.
  intros Hl. destruct (lines_get _ _ Hl) as (Wf & Hb & Hg). split.
  - intros Hin. assert (1 <= ln).
    { rewrite Forall_forall in Hb. apply Hb. apply (list_elem_of_fmap_2 fst _ _ Hin). }
    split; [done|]. rewrite Hg by done. by rewrite (od_elem_get _ _ _ Wf Hin).
  - intros [Hln Hget]. rewrite Hg in Hget by done. injection Hget as Hget. by apply od_get_elem.
Qed.

(** *** Deleting sessions *)

(** What is left of a line. *)
Definition remaining (del : gset Z) (line : ReportLine) : result (option ReportLine) :=
  if existsb (fun s => bool_decide (ls_id s ∈ del)) (rl_sessions line)
  then line_without_multiple_sessions line del else Ok (Some line).

Lemma ignored_setitem f n line f' ln : __setitem__ f n line = Ok f' -> ignored f' ln = ignored f ln.
Proof.
  unfold __setitem__, ignored. intros Hs. case_match; [done|].
  destruct (rf_ignore f) as [ig|] eqn:Ei.
  - destruct (_ignore_to_func ig n); [by injection Hs as <-; rewrite Ei|]. inv_ok Hs. subst.
    apply force_fields in Hrun as (_ & _ & _ & Hi). cbn. by rewrite Hi, Ei.
  - inv_ok Hs. subst. apply force_fields in Hrun as (_ & _ & _ & Hi). cbn. by rewrite Hi, Ei.
Qed.

Lemma ignored_delitem f n f' ln : __delitem__ f n = Ok f' -> ignored f' ln = ignored f ln.
Proof.
  unfold __delitem__, ignored. intros Hs. case_match; [done|]. inv_ok Hs. subst.
  apply force_fields in Hrun as (_ & _ & _ & Hi). cbn. by rewrite Hi.
Qed.

Lemma delete_step_get del f k line f' ln :
  delete_step del f (k, line) = Ok f' -> ignored f k = false -> get f k = Ok (Some line) -> 1 <= ln ->
  get f' ln = (if decide (ln = k) then remaining del line else get f ln) /\
  ignored f' ln = ignored f ln.
Proof.
  unfold delete_step, remaining. intros Hd Hi Hk Hln. destruct (existsb _ _).
  - apply bind_Ok_inv in Hd as (new & Hnew & Hd). rewrite Hnew. destruct new as [l|].
    + split; [by apply setitem_get | by eapply ignored_setitem].
    + split; [by apply delitem_get | by eapply ignored_delitem].
  - injection Hd as <-. split; [|done]. by case_decide; subst.
Qed.

Lemma delete_steps_get del kls f f' :
  foldM (delete_step del) f kls = Ok f' ->
  od_wf kls ->
  Forall (fun kl => 1 <= kl.1 /\ get f kl.1 = Ok (Some kl.2) /\ ignored f kl.1 = false) kls ->
  forall ln, 1 <= ln ->
    get f' ln = match od_get ln kls with Some l => remaining del l | None => get f ln end.
Proof.
  revert f. induction kls as [|[k l] kls IH]; intros f Hf Hwf Hk ln Hln; cbn [foldM] in Hf.
  { by injection Hf as <-. }
  apply bind_Ok_inv in Hf as (f1 & Hf1 & Hf). apply NoDup_cons in Hwf as [Hnk Hwf].
  apply Forall_cons in Hk as [(K1 & K2 & K3) Hk]. cbn [fst snd] in *.
  pose proof (fun n => delete_step_get _ _ _ _ _ n Hf1 K3 K2) as Hstep.
  rewrite (IH f1 Hf Hwf) by first
    [ done
    | apply Forall_forall; intros [k' l'] Hin; rewrite Forall_forall in Hk;
      destruct (Hk _ Hin) as (E1 & E2 & E3); cbn [fst snd] in *;
      destruct (Hstep k' E1) as [-> ->]; rewrite decide_False; [done|];
      intros ->; apply Hnk; apply (list_elem_of_fmap_2 fst _ (k, l') Hin) ].
  cbn [od_get]. destruct (Hstep ln Hln) as [-> _]. case_decide as E; [|done]. subst.
  by rewrite (proj2 (od_get_None k kls)).
Qed.

(** The caches hold what they would be computed to. *)
Definition cache_ok (f : t) : Prop :=
  rf_raw_lines f = None /\
  (forall tot, rf_totals f = Some tot -> (ls ← lines f; get_line_totals ls.*2) = Ok tot) /\
  (forall s, rf_present f = Some s -> exists ls, lines f = Ok ls /\ s = session_ids ls).

Lemma present_run f s ls :
  cache_ok f -> _present_sessions f = Ok s -> lines f = Ok ls -> s = session_ids ls.
Proof.
  intros (Hr & _ & Hp) Hs Hl. unfold _present_sessions in Hs. rewrite force_parsed in Hs by done.
  cbn [mbind result_bind] in Hs. destruct (rf_present f) as [s'|].
  - injection Hs as <-. destruct (Hp _ eq_refl) as (ls' & Hl' & ->). congruence.
  - rewrite Hl in Hs. by injection Hs as <-.
Qed.

Lemma elem_session_ids i kls :
  i ∈ session_ids kls <-> exists k l, (k, l) ∈ kls /\ i ∈ ids (rl_sessions l).
Proof.
  unfold session_ids, ids. rewrite elem_of_list_to_set, list_elem_of_In, in_concat. split.
  - intros (x & Hx & Hi). apply list_elem_of_In, list_elem_of_fmap in Hx as ([k l] & -> & Hin).
    exists k, l. split; [done | by apply list_elem_of_In].
  - intros (k & l & Hin & Hi). exists (ls_id <$> rl_sessions l). split.
    + apply list_elem_of_In, list_elem_of_fmap. by exists (k, l).
    + by apply list_elem_of_In.
Qed.

Lemma remaining_id del line :
  (forall i, i ∈ ids (rl_sessions line) -> i ∉ del) -> remaining del line = Ok (Some line).
Proof.
  intros Hi. unfold remaining. destruct (existsb _ _) eqn:E; [|done].
  apply existsb_exists in E as (s & Hin & Hd%bool_decide_eq_true). exfalso.
  apply (Hi (ls_id s)); [|done]. apply list_elem_of_fmap. exists s. split; [done | by apply list_elem_of_In].
Qed.

Lemma remaining_none del line :
  rl_sessions line <> [] -> (forall i, i ∈ ids (rl_sessions line) -> i ∈ del) ->
  remaining del line = Ok None.
Proof.
  intros Hne Hi. unfold remaining, line_without_multiple_sessions.
  rewrite filter_none.
  - destruct (existsb _ _) eqn:E; [done|]. destruct (rl_sessions line) as [|s ss]; [done|].
    cbn in E. apply orb_false_iff in E as [E%bool_decide_eq_false _]. destruct E. apply Hi. left.
  - apply Forall_forall. intros s Hin Hn. apply Hn, Hi. apply list_elem_of_fmap. by exists s.
Qed.

Lemma delete_get f del f' ls ln :
  cache_ok f -> lines f = Ok ls ->
  Forall (fun kl => rl_sessions kl.2 <> [] /\ ignored f kl.1 = false) ls ->
  delete_multiple_sessions f del = Ok f' -> 1 <= ln ->
  get f' ln = (o ← get f ln; match o with Some l => remaining del l | None => Ok None end).
Proof.
  intros Hc Hl Hls Hd Hln. pose proof Hc as (Hr & _ & _).
  destruct (lines_get _ _ Hl) as (Wf & Hb & Hg). rewrite Hg by done. cbn [mbind result_bind].
  unfold delete_multiple_sessions in Hd. rewrite force_parsed in Hd by done. cbn [mbind result_bind] in Hd.
  apply bind_Ok_inv in Hd as (s & Hs & Hd). cbv zeta in Hd.
  rewrite (present_run _ _ _ Hc Hs Hl) in Hd. clear s Hs.
  assert (Hin : forall l, od_get ln ls = Some l -> forall i, i ∈ ids (rl_sessions l) -> i ∈ session_ids ls).
  { intros l Hget i Hi. apply elem_session_ids. exists ln, l. split; [by apply od_get_elem | done]. }
  destruct (bool_decide_reflect (session_ids ls = session_ids ls ∖ del)) as [He|_].
  - injection Hd as <-. rewrite Hg by done. destruct (od_get ln ls) as [l|] eqn:E; [|done].
    rewrite remaining_id; [done|]. intros i Hi%(Hin l eq_refl). set_solver.
  - destruct (bool_decide_reflect (session_ids ls ∖ del = ∅)) as [He|_].
    + injection Hd as <-. rewrite get_slot by done. cbn. rewrite slot_at_nil.
      destruct (od_get ln ls) as [l|] eqn:E; [|done].
      rewrite remaining_none; [done | | intros i Hi%(Hin l eq_refl); set_solver].
      rewrite Forall_forall in Hls. apply od_get_elem in E. by apply Hls in E as [? _].
    + rewrite lines_invalidate, Hl in Hd.
      cbn [mbind result_bind] in Hd. apply bind_Ok_inv in Hd as (f1 & Hf1 & [= <-]).
      rewrite (get_ext (with_present _ f1) f1) by done.
      rewrite (delete_steps_get _ _ _ _ Hf1 Wf) by first
        [ done
        | apply Forall_forall; intros [k l] Hkl; rewrite Forall_forall in Hls;
          destruct (Hls _ Hkl) as [_ Hig]; apply (lines_elem _ _ k l Hl) in Hkl as [? ?]; by rewrite get_invalidate ].
      destruct (od_get ln ls) eqn:E; [done|]. by rewrite get_invalidate, Hg, E.
Qed.

(** *** The caches stay consistent *)

Lemma numbered_total i ls :
  Forall (fun s => is_Ok (read_slot s) = true) ls -> exists kls, numbered i ls = Ok kls.
Proof.
  intros Hls. revert i. induction Hls as [|s ls Hs _ IH]; intros i; cbn [numbered]; [eauto|].
  destruct (read_slot s); [|done]. destruct (IH (i + 1)) as [kls ->]. cbn. eauto.
Qed.

Lemma lines_total f :
  (forall ln, 1 <= ln -> is_Ok (get f ln) = true) -> exists kls, lines f = Ok kls.
Proof.
  intros Hg. unfold lines. destruct (_lines f) as [ls|e] eqn:El; cbn [mbind result_bind].
  - apply numbered_total, Forall_lookup. intros i s Hi. specialize (Hg (Z.of_nat i + 1)).
    unfold get in Hg. rewrite (proj2 (Z.ltb_ge _ _)), El in Hg by lia. cbn in Hg.
    replace (Z.to_nat _) with i in Hg by lia. rewrite Hi in Hg. apply Hg. lia.
  - specialize (Hg 1). unfold get in Hg. rewrite El in Hg. cbn in Hg. by specialize (Hg ltac:(lia)).
Qed.

(** A parsed file whose caches are empty. *)
Definition fresh (f : t) : Prop :=
  rf_raw_lines f = None /\ rf_totals f = None.

Lemma fresh_invalidate f : rf_raw_lines f = None -> fresh (_invalidate_caches f).
Proof. done. Qed.

Lemma cache_ok_invalidate f : rf_raw_lines f = None -> cache_ok (_invalidate_caches f).
Proof. done. Qed.

Lemma delete_step_fresh del f kl f' : fresh f -> delete_step del f kl = Ok f' -> fresh f'.
Proof.
  destruct kl as [k l]. unfold delete_step. intros Hf Hd.
  destruct (existsb _ _); [|by injection Hd as <-]. apply bind_Ok_inv in Hd as ([l'|] & _ & Hd).
  - unfold __setitem__ in Hd. case_match; [done|]. case_match; [by injection Hd as <-|].
    inv_ok Hd. by subst.
  - unfold __delitem__ in Hd. case_match; [done|]. inv_ok Hd. by subst.
Qed.

Lemma delete_steps_Ok del kls f f' k l :
  foldM (delete_step del) f kls = Ok f' -> (k, l) ∈ kls -> is_Ok (remaining del l) = true.
Proof.
  revert f. induction kls as [|kl kls IH]; intros f Hf Hin; cbn [foldM] in Hf; [set_solver|].
  apply bind_Ok_inv in Hf as (f1 & Hf1 & Hf). apply elem_of_cons in Hin as [<-|Hin]; [|eauto].
  unfold delete_step in Hf1. unfold remaining. destruct (existsb _ _); [|done].
  apply bind_Ok_inv in Hf1 as (o & -> & _). done.
Qed.

Lemma remaining_ids del l l' i :
  remaining del l = Ok (Some l') -> i ∈ ids (rl_sessions l') <-> i ∈ ids (rl_sessions l) /\ i ∉ del.
Proof.
  unfold remaining. destruct (existsb _ _) eqn:E; intros Hr.
  - unfold line_without_multiple_sessions in Hr. case_match; [done|]. inv_ok Hr. subst.
    cbn [rl_sessions]. unfold ids. rewrite !list_elem_of_fmap. setoid_rewrite list_elem_of_filter. naive_solver.
  - injection Hr as <-. split; [|tauto]. intros Hi. split; [done|]. intros Hd.
    apply list_elem_of_fmap in Hi as (s & -> & Hs).
    apply not_true_iff_false in E. apply E, existsb_exists. exists s.
    split; [by apply list_elem_of_In | by apply bool_decide_eq_true].
Qed.

Lemma remaining_None del l i :
  remaining del l = Ok None -> i ∈ ids (rl_sessions l) -> i ∈ del.
Proof.
  unfold remaining. destruct (existsb _ _); [|done]. unfold line_without_multiple_sessions.
  case_match eqn:E; intros Hr; [|by inv_ok Hr]. intros Hi. apply Nat.eqb_eq, nil_length_inv in E.
  apply list_elem_of_fmap in Hi as (s & -> & Hs). destruct (decide (ls_id s ∈ del)) as [|Hn]; [done|].
  exfalso. eapply (not_elem_of_nil s). rewrite <- E. by apply list_elem_of_filter.
Qed.

Lemma delete_cache_run f del f' ls :
  cache_ok f -> lines f = Ok ls ->
  Forall (fun kl => rl_sessions kl.2 <> [] /\ ignored f kl.1 = false) ls ->
  delete_multiple_sessions f del = Ok f' ->
  cache_ok f' /\ exists ls', lines f' = Ok ls' /\ session_ids ls' = session_ids ls ∖ del.
Proof.
  intros Hc Hl Hls Hd. pose proof (fun ln => delete_get f del f' ls ln Hc Hl Hls Hd) as Hget.
  pose proof Hc as (Hr & _ & _). destruct (lines_get _ _ Hl) as (Wf & _ & Hg).
  unfold delete_multiple_sessions in Hd. rewrite force_parsed in Hd by done. cbn [mbind result_bind] in Hd.
  apply bind_Ok_inv in Hd as (s & Hs & Hd). cbv zeta in Hd.
  rewrite (present_run _ _ _ Hc Hs Hl) in Hd. clear s Hs.
  destruct (bool_decide_reflect (session_ids ls = session_ids ls ∖ del)) as [He|_].
  { injection Hd as <-. eauto. }
  destruct (bool_decide_reflect (session_ids ls ∖ del = ∅)) as [He|_].
  { injection Hd as <-. split; [done|]. exists []. split; [done|]. by rewrite He. }
  rewrite lines_invalidate, Hl in Hd. cbn [mbind result_bind] in Hd.
  apply bind_Ok_inv in Hd as (f1 & Hf1 & [= <-]).
  destruct (foldM_invariant _ fresh (delete_step_fresh del) _ _ _ (fresh_invalidate _ Hr) Hf1) as [Hr1 Ht1].
  destruct (lines_total (with_present (Some (session_ids ls ∖ del)) f1)) as [ls' Hl'].
  { intros ln Hln. rewrite Hget, Hg by done. cbn. destruct (od_get ln ls) as [l|] eqn:E; [|done].
    eapply delete_steps_Ok; [exact Hf1 | by apply od_get_elem]. }
  assert (Hids : session_ids ls' = session_ids ls ∖ del).
  { apply set_eq. intros i. rewrite elem_of_difference, !elem_session_ids. split.
    - intros (k & l' & Hin & Hi). apply (lines_elem _ _ k l' Hl') in Hin as [Hk Hk'].
      rewrite Hget in Hk' by done. apply bind_Ok_inv in Hk' as ([l|] & Hkl & Hrem); [|done].
      apply (remaining_ids _ _ _ i Hrem) in Hi as [Hi Hnd]. split; [|done]. exists k, l.
      split; [by apply (lines_elem _ _ k l Hl) | done].
    - intros [(k & l & Hin & Hi) Hnd].
      pose proof (delete_steps_Ok _ _ _ _ _ _ Hf1 Hin) as Hok.
      apply (lines_elem _ _ k l Hl) in Hin as [Hk Hkl].
      destruct (remaining del l) as [[l'|]|] eqn:Hrem; [| |done].
      + exists k, l'. split; [|by apply (remaining_ids _ _ _ i Hrem)].
        apply (lines_elem _ _ k l' Hl'). split; [done|]. by rewrite Hget, Hkl.
      + exfalso. by eapply Hnd, remaining_None. }
  split; [|eauto]. split; [done|]. split.
  - cbn. by rewrite Ht1.
  - intros s [= <-]. eauto.
Qed.

(** *** Well-formed files never raise *)

Definition slot_ok (pairs : bool) (s : slot) : Prop :=
  exists o, read_slot s = Ok o /\ match o with Some l => line_ok pairs l | None => True end.

Definition file_ok (pairs : bool) (f : t) : Prop :=
  rf_raw_lines f = None /\ Forall (slot_ok pairs) (rf_parsed_lines f).

Lemma slot_ok_line pairs l : line_ok pairs l -> slot_ok pairs (SLine l).
Proof. intros Hl. by exists (Some l). Qed.

Lemma slot_ok_none pairs : slot_ok pairs SNone.
Proof. by exists None. Qed.

Lemma slot_ok_empty pairs : slot_ok pairs EMPTY.
Proof. by exists None. Qed.

Lemma extend_to_ok pairs n ls : Forall (slot_ok pairs) ls -> Forall (slot_ok pairs) (extend_to n ls).
Proof.
  intros Hls. unfold extend_to. case_match; [|done]. apply Forall_app; split; [done|].
  apply Forall_replicate, slot_ok_empty.
Qed.

Lemma append_ok pairs f n line :
  file_ok pairs f -> line_ok pairs line -> 1 <= n -> ignored f n = false ->
  exists f', append f n line = Ok (true, f') /\ file_ok pairs f'.
Proof.
  intros [Hr Hls] Hline Hn Hi. unfold append. rewrite (proj2 (Z.ltb_ge _ _)), Hi by lia.
  rewrite force_parsed by done. cbn [mbind result_bind]. rewrite (get_slot _ n) by done. cbn [mbind result_bind force with_lines rf_raw_lines rf_parsed_lines].
  pose proof (extend_to_ok pairs n _ Hls) as Hext. unfold slot_at.
  assert (Hfin : forall s, slot_ok pairs s -> file_ok pairs
    (_invalidate_caches (with_lines (store n s (extend_to n (rf_parsed_lines f))) f))).
  { intros s Hs. split; [done|]. by apply Forall_insert. }
  destruct (_ !! _) as [s|] eqn:E.
  - pose proof (proj1 (Forall_lookup _ _) Hext _ _ E) as (o & Ho & Hol). cbn in Ho. rewrite Ho.
    cbn [mbind result_bind]. destruct o as [l|].
    + destruct (merge_line_run pairs l line Hol Hline) as (m & Hm & Hmok & _). rewrite Hm.
      cbn [mbind result_bind]. eexists. split; [done|]. by apply Hfin, slot_ok_line.
    + eexists. split; [done|]. by apply Hfin, slot_ok_line.
  - cbn [mbind result_bind]. eexists. split; [done|]. by apply Hfin, slot_ok_line.
Qed.

Lemma merge_slots_ok pairs a b :
  Forall (slot_ok pairs) a -> Forall (slot_ok pairs) b ->
  exists ls, merge_slots true false a b = Ok ls /\ Forall (slot_ok pairs) ls.
Proof.
  assert (Hcell : forall x y : result (option ReportLine),
    (exists o, x = Ok o /\ match o with Some l => line_ok pairs l | None => True end) ->
    (exists o, y = Ok o /\ match o with Some l => line_ok pairs l | None => True end) ->
    exists c, (before ← x; after ← y; m ← merge_line before after true false;
       Ok (match m with Some l => SLine l | None => SNone end)) = Ok c /\ slot_ok pairs c).
  { intros x y ([l1|] & -> & H1) ([l2|] & -> & H2); cbn [mbind result_bind].
    - destruct (merge_line_run pairs l1 l2 H1 H2) as (m & -> & Hm & _). cbn. eexists; split; [done|].
      by apply slot_ok_line.
    - eexists; split; [done|]. by apply slot_ok_line.
    - eexists; split; [done|]. by apply slot_ok_line.
    - eexists; split; [done|]. apply slot_ok_none. }
  intros Ha. revert b. induction Ha as [|x a Hx _ IH]; intros b Hb; cbn [merge_slots].
  - induction Hb as [|y b Hy _ [ls [IH Hls]]]; cbn [traverse]; [by exists []|].
    destruct (Hcell (Ok None) (read_slot y)) as (c & -> & Hc); [by exists None | done|].
    rewrite IH. cbn. eexists; split; [done|]. by constructor.
  - destruct (Hcell (read_slot x) (match b with y :: _ => read_slot y | [] => Ok None end)) as (c & -> & Hc); [done | |].
    { destruct Hb as [|y b Hy Hb]; [by exists None | done]. }
    cbn [mbind result_bind]. destruct (IH (tail b)) as (ls & -> & Hls); [by destruct Hb|].
    cbn. eexists; split; [done|]. by constructor.
Qed.

Lemma merge_ok pairs f g :
  endswith ".rb" (rf_name f) = false -> file_ok pairs f -> file_ok pairs g ->
  exists f', merge f (Some g) true false = Ok (Some true, f') /\ file_ok pairs f'.
Proof.
  intros Hrb [Hrf Hf] [Hrg Hg]. unfold merge. rewrite Hrb. cbn [mbind result_bind].
  rewrite !force_parsed by done. cbn [mbind result_bind].
  destruct (merge_slots_ok pairs _ _ Hf Hg) as (ls & -> & Hls). cbn. eexists; split; done.
Qed.

Lemma line_without_ok pairs line del :
  line_ok pairs line ->
  exists o, line_without_multiple_sessions line del = Ok o /\
    match o with Some l => line_ok pairs l | None => True end.
Proof.
  intros (_ & Hnd & Hss). unfold line_without_multiple_sessions.
  set (kept := filter _ _). assert (Hk : Forall (session_ok pairs) kept).
  { rewrite Forall_forall in *. intros s [_ Hs]%list_elem_of_filter. auto. }
  destruct (Nat.eqb_spec (length kept) 0) as [|Hne]; [by exists None|].
  destruct (merge_all_plain (ls_coverage <$> kept) MNone) as (c & -> & _).
  { by destruct kept. }
  { apply Forall_fmap. eapply Forall_impl; [exact Hk|]. by intros s (? & _). }
  eexists; split; [done|]. split; [by destruct kept|]. split; [|done]. cbn [rl_sessions].
  unfold ids in *. by apply NoDup_ids_filter.
Qed.

Definition unignored (f : t) : Prop := forall ln, ignored f ln = false.

Lemma delete_step_ok pairs del f kl :
  file_ok pairs f /\ unignored f -> 1 <= kl.1 /\ line_ok pairs kl.2 ->
  exists f', delete_step del f kl = Ok f' /\ file_ok pairs f' /\ unignored f'.
Proof.
  destruct kl as [k l]. intros [[Hr Hls] Hi] [Hk Hl]. cbn [fst snd] in *. unfold delete_step.
  destruct (existsb _ _); [|by exists f].
  assert (Hfin : forall s, slot_ok pairs s -> file_ok pairs
    (_invalidate_caches (with_lines (store k s (extend_to k (rf_parsed_lines f))) f))).
  { intros s Hs. split; [done|]. apply Forall_insert; [by apply extend_to_ok | done]. }
  destruct (line_without_ok pairs l del Hl) as ([l'|] & -> & Hl'); cbn [mbind result_bind].
  - unfold __setitem__. rewrite (proj2 (Z.ltb_ge _ _)), Hi, force_parsed by done. cbn [mbind result_bind].
    eexists; split; [done|]. split; [by apply Hfin, slot_ok_line | done].
  - unfold __delitem__. rewrite (proj2 (Z.ltb_ge _ _)), force_parsed by done. cbn [mbind result_bind].
    eexists; split; [done|]. split; [by apply Hfin, slot_ok_empty | done].
Qed.

(** Appending to and setting a line keep the name and the ignored lines. *)
Lemma append_keeps f n line b f' :
  append f n line = Ok (b, f') -> rf_name f' = rf_name f /\ rf_ignore f' = rf_ignore f.
Proof.
  unfold append. destruct (n <? 1); [done|]. destruct (ignored f n); [by intros [= <- <-]|].
  intros (f1 & Hf & (o & _ & (new & _ & [= <- <-])%bind_Ok_inv)%bind_Ok_inv)%bind_Ok_inv. cbn.
  unfold force in Hf. destruct (rf_raw_lines f) as [raw|]; [|by injection Hf as <-].
  case_bool_decide; [by injection Hf as <-|]. destruct (splitlines raw); [done|].
  by apply bind_Ok_inv in Hf as (d & _ & (q & _ & [= <-])%bind_Ok_inv).
Qed.

Lemma setitem_ok pairs f n line :
  file_ok pairs f -> line_ok pairs line -> 1 <= n ->
  exists f', __setitem__ f n line = Ok f' /\ file_ok pairs f' /\
    rf_name f' = rf_name f /\ rf_ignore f' = rf_ignore f.
Proof.
  intros [Hr Hls] Hline Hn. unfold __setitem__. rewrite (proj2 (Z.ltb_ge _ _)) by lia.
  destruct (ignored f n); [by eexists|]. rewrite force_parsed by done. cbn [mbind result_bind].
  eexists. split; [done|]. split; [|done]. split; [done|].
  apply Forall_insert; [by apply extend_to_ok | by apply slot_ok_line].
Qed.

Lemma file_ok_lines pairs f :
  file_ok pairs f -> exists ls, lines f = Ok ls /\ Forall (fun kl => 1 <= kl.1 /\ line_ok pairs kl.2) ls.
Proof.
  intros [Hr Hls]. unfold lines, _lines. rewrite force_parsed by done. cbn [mbind result_bind].
  enough (H1 : forall i, 1 <= i -> exists ls, numbered i (rf_parsed_lines f) = Ok ls /\
    Forall (fun kl => 1 <= kl.1 /\ line_ok pairs kl.2) ls) by by apply H1.
  induction Hls as [|s ls (o & Ho & Hol) _ IH]; intros i Hi; cbn [numbered]; [by exists []|].
  rewrite Ho. destruct (IH (i + 1)) as (rest & -> & Hrest); [lia|]. cbn [mbind result_bind].
  destruct o as [l|]; eexists; (split; [done|]); auto.
Qed.

Lemma delete_total pairs f del :
  file_ok pairs f -> cache_ok f -> unignored f ->
  exists f', delete_multiple_sessions f del = Ok f' /\ file_ok pairs f'.
Proof.
  intros Hf Hc Hi. pose proof Hf as [Hr Hls].
  destruct (file_ok_lines pairs f Hf) as (ls & Hl & Hlls).
  unfold delete_multiple_sessions, _present_sessions. rewrite !force_parsed by done. cbn [mbind result_bind].
  assert (Hp : exists s, match rf_present f with Some s => Ok s | None => ls ← lines f; Ok (session_ids ls) end = Ok s).
  { destruct (rf_present f); [eauto|]. rewrite Hl. cbn. eauto. }
  rewrite !force_parsed by done. cbn [mbind result_bind]. destruct Hp as [s ->]. cbn [mbind result_bind].
  case_bool_decide; [eauto|]. case_bool_decide; [eexists; split; [done|]; split; [done | constructor]|].
  rewrite lines_invalidate, Hl. cbn [mbind result_bind].
  destruct (foldM_total (delete_step del) (fun f => file_ok pairs f /\ unignored f)
    (fun kl => 1 <= kl.1 /\ line_ok pairs kl.2) ls) with (s := _invalidate_caches f)
    as (f' & -> & Hf' & _); [|done|done|].
  { intros g kl Hg Hkl. destruct (delete_step_ok pairs del g kl Hg Hkl) as (g' & ? & ? & ?). eauto. }
  cbn. by exists (with_present (Some (s ∖ del)) f').
Qed.
End ops.

(** ** Properties *)

(** Appending a well-formed line to a well-formed file succeeds, keeps the file
    well formed, merges the line with what the file had on that line number and
    changes no other line. *)
Theorem append_correct `{OrJson} pairs f n line :
  file_ok pairs f -> line_ok pairs line -> 1 <= n -> ignored f n = false ->
  exists f', append f n line = Ok (true, f') /\ file_ok pairs f' /\
    forall ln, 1 <= ln -> get f' ln =
      if decide (ln = n) then (o ← get f n; merge_line o (Some line) true false) else get f ln.
Proof.
  intros Hf Hl Hn Hi. destruct (append_ok pairs f n line Hf Hl Hn Hi) as (f' & Ha & Hf').
  exists f'. split_and!; [done | done |]. intros ln Hln. by apply append_get.
Qed.

Definition example_file : t :=
  with_lines [SLine (mkLine (CInt 1) None [mkSession 0 (CInt 1) None None CxNone;
                                           mkSession 1 (CInt 0) None None CxNone] CxNone);
              EMPTY; SLine (mkLine (CInt 0) None [mkSession 0 (CInt 0) None None CxNone] CxNone)]
    (mkFile "a.py" None None None [] [] None None).
Definition example_line : ReportLine :=
  mkLine (CInt 2) None [mkSession 2 (CInt 2) None None CxNone] CxNone.

Lemma example_line_ok : line_ok false example_line.
Proof. split; [done|]. split; [apply NoDup_singleton|]. repeat constructor; lia. Qed.
Lemma example_file_ok `{OrJson} : file_ok false example_file.
Proof.
  split; [done|]. repeat constructor.
  - apply slot_ok_line. split; [done|]. split.
    + apply (bool_decide_unpack _). vm_compute. exact I.
    + repeat constructor; lia.
  - apply slot_ok_empty.
  - apply slot_ok_line. split; [done|]. split; [apply NoDup_singleton|]. repeat constructor; lia.
Qed.

Lemma append_correct_witness :
  exists f', @append codec example_file 3 example_line = Ok (true, f') /\ @file_ok codec false f' /\
    forall ln, 1 <= ln -> @get codec f' ln =
      if decide (ln = 3) then (o ← @get codec example_file 3; merge_line o (Some example_line) true false)
      else @get codec example_file ln.
Proof.
  apply (@append_correct codec false example_file 3 example_line);
    [apply example_file_ok | apply example_line_ok | lia | reflexivity].
Defined.

(** Merging two well-formed files other than Ruby ones succeeds with a
    well-formed file, each of whose lines is the merge of the two lines. *)
Theorem file_merge_correct `{OrJson} pairs f g :
  endswith ".rb" (rf_name f) = false -> file_ok pairs f -> file_ok pairs g ->
  exists f', merge f (Some g) true false = Ok (Some true, f') /\ file_ok pairs f' /\
    forall ln, 1 <= ln -> get f' ln = (x ← get f ln; y ← get g ln; merge_line x y true false).
Proof.
  intros Hrb Hf Hg. destruct (merge_ok pairs f g Hrb Hf Hg) as (f' & Hm & Hf').
  exists f'. split_and!; [done | done |]. intros ln Hln. by apply merge_get.
Qed.

Lemma file_merge_correct_witness :
  exists f', @merge codec example_file (Some example_file) true false = Ok (Some true, f') /\
    @file_ok codec false f' /\
    forall ln, 1 <= ln -> @get codec f' ln =
      (x ← @get codec example_file ln; y ← @get codec example_file ln; merge_line x y true false).
Proof.
  apply (@file_merge_correct codec false example_file example_file);
    [reflexivity | apply example_file_ok | apply example_file_ok].
Defined.

(** C5: deleting sessions from a well-formed file with consistent caches succeeds:
    each line keeps exactly the sessions that are not deleted, with the coverage
    merged again when it lost some, and is gone when it lost all; and the caches of
    the result are consistent, with the present sessions those that are left. *)
Theorem delete_multiple_sessions_correct `{OrJson} pairs f del :
  file_ok pairs f -> cache_ok f -> (forall ln, ignored f ln = false) ->
  exists f' ls ls', delete_multiple_sessions f del = Ok f' /\ file_ok pairs f' /\ cache_ok f' /\
    lines f = Ok ls /\ lines f' = Ok ls' /\ session_ids ls' = session_ids ls ∖ del /\
    forall ln, 1 <= ln -> get f' ln =
      (o ← get f ln; match o with Some l => remaining del l | None => Ok None end).
Proof.
  intros Hf Hc Hi. destruct (delete_total pairs f del Hf Hc Hi) as (f' & Hd & Hf').
  destruct (file_ok_lines pairs f Hf) as (ls & Hl & Hls).
  assert (Hls' : Forall (fun kl => rl_sessions kl.2 <> [] /\ ignored f kl.1 = false) ls).
  { eapply Forall_impl; [exact Hls|]. by intros kl (_ & ? & _). }
  destruct (delete_cache_run f del f' ls Hc Hl Hls' Hd) as (Hc' & ls' & Hl' & Hids).
  exists f', ls, ls'. split_and!; try done. intros ln Hln. by apply (delete_get f del f' ls).
Qed.

Lemma delete_multiple_sessions_correct_witness :
  exists f' ls ls', @delete_multiple_sessions codec example_file {[0]} = Ok f' /\
    @file_ok codec false f' /\ @cache_ok codec f' /\
    @lines codec example_file = Ok ls /\ @lines codec f' = Ok ls' /\
    session_ids ls' = session_ids ls ∖ {[0]} /\
    forall ln, 1 <= ln -> @get codec f' ln =
      (o ← @get codec example_file ln; match o with Some l => remaining {[0]} l | None => Ok None end).
Proof.
  apply (@delete_multiple_sessions_correct codec false example_file {[0]});
    [apply example_file_ok | split; [done | split; done] | reflexivity].
Defined.
End ReportFile.
