(* ===== verification/Shift.v ===== *)
(** * Shifting a file's coverage along a diff

    [shift_lines_by_diff] replays the segments of a diff on the list of lines.
    The specification is the unified diff read as a relation between the lines
    of the two versions; the file may be shorter than the diff, the missing
    lines counting as lines without coverage. *)
From S2P Require Export Reportfile.
From S2P Require Import JsonCodec.
#[local] Open Scope string_scope.
#[local] Open Scope Z_scope.
#[local] Open Scope list_scope.
Import ReportFile.

(** ** The specification *)

(** [edits ls old new]: the lines of a segment turn [old] into [new]. *)
Inductive edits : list string -> list slot -> list slot -> Prop :=
  | edits_nil : edits [] [] []
  | edits_removed s ls o old new :
      edits ls old new -> edits (String "-" s :: ls) (o :: old) new
  | edits_added s ls old new :
      edits ls old new -> edits (String "+" s :: ls) old (EMPTY :: new)
  | edits_kept c s ls o old new :
      c <> "-"%char -> c <> "+"%char -> edits ls old new ->
      edits (String c s :: ls) (o :: old) (o :: new).

(** [patched p segs rest rest']: the segments turn the lines [rest], which begin at
    line [p + 1] of the new version, into [rest']. *)
Inductive patched : Z -> list DiffSegment -> list slot -> list slot -> Prop :=
  | patched_nil p rest : patched p [] rest rest
  | patched_segment p seg segs gap old new rest rest' :
      segment_start seg = Ok (p + Z.of_nat (length gap) + 1) ->
      edits (seg_lines seg) old new ->
      patched (p + Z.of_nat (length gap) + Z.of_nat (length new)) segs rest rest' ->
      patched p (seg :: segs) (gap ++ old ++ rest) (gap ++ new ++ rest').

(** ** Lines past the end count as empty *)

Definition at_slot (ls : list slot) (k : nat) : slot := default EMPTY (ls !! k).
Definition slots_eq (a b : list slot) : Prop := forall k, at_slot a k = at_slot b k.
Infix "≈" := slots_eq (at level 70).

#[export] Instance slots_eq_equiv : Equivalence slots_eq.
Proof. split; [done | by intros a b H k | intros a b c H1 H2 k; by rewrite H1]. Qed.

Lemma slots_eq_replicate ls n : ls ++ replicate n EMPTY ≈ ls.
Proof.
  intros k. unfold at_slot. destruct (decide (k < length ls)%nat).
  - by rewrite lookup_app_l.
  - rewrite lookup_app_r, (lookup_ge_None_2 ls) by lia.
    destruct (replicate _ _ !! _) eqn:E; [|done]. by apply lookup_replicate in E as [-> _].
Qed.

Lemma slot_at_proper `{OrJson} a b ln : a ≈ b -> slot_at a ln = slot_at b ln.
Proof.
  intros E. specialize (E (Z.to_nat (ln - 1))). unfold slot_at, at_slot in *.
  destruct (a !! _), (b !! _); cbn in E; by subst.
Qed.

(** The two edits of [shift_step], on the list. *)
Definition pop_at (pos : Z) (ls : list slot) : list slot :=
  if pos <? Z.of_nat (length ls) then delete (Z.to_nat pos) ls else ls.

Lemma at_slot_pop pos ls k :
  0 <= pos ->
  at_slot (pop_at pos ls) k = if decide (Z.of_nat k < pos) then at_slot ls k else at_slot ls (S k).
Proof.
  intros Hp. unfold pop_at, at_slot. case_match eqn:E.
  - case_decide; [by rewrite list_lookup_delete_lt by lia | by rewrite list_lookup_delete_ge by lia].
  - apply Z.ltb_ge in E. case_decide; [done|]. rewrite !lookup_ge_None_2 by lia. done.
Qed.

Lemma at_slot_insert pos ls k :
  0 <= pos ->
  at_slot (py_insert pos EMPTY ls) k =
  if decide (Z.of_nat k < pos) then at_slot ls k
  else if decide (Z.of_nat k = pos) then EMPTY else at_slot ls (k - 1).
Proof.
  intros Hp. unfold py_insert, at_slot. rewrite (proj2 (Z.ltb_ge _ _)) by lia.
  set (j := Z.to_nat (Z.min pos (Z.of_nat (length ls)))).
  assert (Hj : length (take j ls) = j) by (rewrite length_take; lia).
  destruct (decide (k < j)%nat) as [Hk|Hk].
  - rewrite lookup_app_l, lookup_take_lt by lia. rewrite decide_True by lia. done.
  - rewrite lookup_app_r, Hj, lookup_cons by lia. destruct (k - j)%nat as [|m] eqn:Em.
    + destruct (decide (Z.of_nat k < pos)).
      * by rewrite lookup_ge_None_2 by lia.
      * destruct (decide (Z.of_nat k = pos)); [done|]. by rewrite lookup_ge_None_2 by lia.
    + rewrite lookup_drop. replace (j + m)%nat with (k - 1)%nat by lia.
      destruct (decide (Z.of_nat k < pos)); [by rewrite !lookup_ge_None_2 by lia|].
      destruct (decide (Z.of_nat k = pos)); [by rewrite lookup_ge_None_2 by lia | done].
Qed.

Lemma pop_at_proper pos a b : 0 <= pos -> a ≈ b -> pop_at pos a ≈ pop_at pos b.
Proof. intros Hp E k. rewrite !at_slot_pop by done. by rewrite !(E _). Qed.

Lemma insert_proper pos a b : 0 <= pos -> a ≈ b -> py_insert pos EMPTY a ≈ py_insert pos EMPTY b.
Proof. intros Hp E k. rewrite !at_slot_insert by done. by rewrite !(E _). Qed.

Lemma pop_at_mid pre o post : pop_at (Z.of_nat (length pre)) (pre ++ o :: post) = pre ++ post.
Proof.
  unfold pop_at. rewrite (proj2 (Z.ltb_lt _ _)) by (rewrite length_app; cbn; lia).
  rewrite Nat2Z.id. by rewrite delete_middle.
Qed.

Lemma insert_mid (x : slot) pre post : py_insert (Z.of_nat (length pre)) x (pre ++ post) = pre ++ x :: post.
Proof.
  unfold py_insert. rewrite (proj2 (Z.ltb_ge _ _)) by lia. rewrite length_app, Z.min_l by lia.
  by rewrite Nat2Z.id, take_app_length, drop_app_length.
Qed.

Section shift.
Context `{OrJson}.

Lemma shift_step_parsed f pos c s :
  rf_raw_lines f = None -> 0 <= pos ->
  shift_step f pos (String c s) =
  Ok (if bool_decide (c = "-"%char) then (with_lines (pop_at pos (rf_parsed_lines f)) f, pos)
      else if bool_decide (c = "+"%char)
      then (with_lines (py_insert pos EMPTY (rf_parsed_lines f)) f, pos + 1)
      else (f, pos + 1)).
Proof.
  intros Hr Hp. unfold shift_step. cbn [first_char mbind result_bind].
  rewrite force_parsed by done. cbn [mbind result_bind].
  case_bool_decide; [|by case_bool_decide]. unfold pop_at, py_pop.
  case_match eqn:E; [|by destruct f; cbn in *; subst]. apply Z.ltb_lt in E.
  rewrite (proj2 (Z.ltb_ge pos 0)), (proj2 (Z.leb_le 0 pos)), (proj2 (Z.ltb_lt _ _)) by lia. done.
Qed.

Lemma with_lines_twice a b f : with_lines a (with_lines b f) = with_lines a f.
Proof. done. Qed.

Lemma with_lines_self f : rf_raw_lines f = None -> with_lines (rf_parsed_lines f) f = f.
Proof. intros Hr. destruct f; cbn in *. by subst. Qed.

(** One segment, on lines equivalent to [pre ++ old ++ post]. *)
Lemma shift_lines_edits ls old new :
  edits ls old new ->
  forall f pre post, rf_raw_lines f = None -> rf_parsed_lines f ≈ pre ++ old ++ post ->
  exists ls', shift_lines f (Z.of_nat (length pre)) ls = (with_lines ls' f, None) /\
    ls' ≈ pre ++ new ++ post.
Proof.
  induction 1 as [|s ls o old new _ IH|s ls old new _ IH|c s ls o old new Hm Hp _ IH];
    intros f pre post Hr Heq; cbn [shift_lines].
  - exists (rf_parsed_lines f). by rewrite with_lines_self.
  - rewrite shift_step_parsed by (done || lia). cbn iota.
    rewrite bool_decide_eq_true_2 by done.
    destruct (IH (with_lines (pop_at (Z.of_nat (length pre)) (rf_parsed_lines f)) f) pre post)
      as (ls' & E & Heq'); [done| |].
    { cbn. rewrite (pop_at_proper _ _ _ (Zle_0_nat _) Heq). cbn. by rewrite pop_at_mid. }
    exists ls'. by rewrite E.
  - rewrite shift_step_parsed by (done || lia).
    rewrite bool_decide_eq_false_2, bool_decide_eq_true_2 by done.
    destruct (IH (with_lines (py_insert (Z.of_nat (length pre)) EMPTY (rf_parsed_lines f)) f)
      (pre ++ [EMPTY]) post) as (ls' & E & Heq'); [done| |].
    { cbn. rewrite (insert_proper _ _ _ (Zle_0_nat _) Heq). by rewrite insert_mid, <- app_assoc. }
    exists ls'. rewrite length_app in E. cbn in E.
    replace (Z.of_nat (length pre) + 1) with (Z.of_nat (length pre + 1)) by lia.
    rewrite E. split; [done|]. by rewrite Heq', <- app_assoc.
  - rewrite shift_step_parsed by (done || lia). rewrite !bool_decide_eq_false_2 by done.
    destruct (IH f (pre ++ [o]) post) as (ls' & E & Heq'); [done| |].
    { by rewrite <- app_assoc. }
    exists ls'. rewrite length_app in E. cbn in E.
    replace (Z.of_nat (length pre) + 1) with (Z.of_nat (length pre + 1)) by lia.
    rewrite E. split; [done|]. by rewrite Heq', <- app_assoc.
Qed.

Lemma shift_segments_patched p segs rest rest' :
  patched p segs rest rest' ->
  forall f pre, Z.of_nat (length pre) = p -> rf_raw_lines f = None ->
  rf_parsed_lines f ≈ pre ++ rest ->
  exists ls', shift_segments f segs = (with_lines ls' f, None) /\ ls' ≈ pre ++ rest'.
Proof.
  induction 1 as [p rest|p seg segs gap old new rest rest' Hstart Hed _ IH];
    intros f pre Hp Hr Heq; cbn [shift_segments].
  - exists (rf_parsed_lines f). by rewrite with_lines_self.
  - rewrite Hstart.
    destruct (shift_lines_edits _ _ _ Hed f (pre ++ gap) rest) as (ls1 & E & Heq1); [done| |].
    { by rewrite <- app_assoc. }
    replace (p + Z.of_nat (length gap) + 1 - 1) with (Z.of_nat (length (pre ++ gap)))
      by (rewrite length_app; lia).
    rewrite E.
    destruct (IH (with_lines ls1 f) (pre ++ gap ++ new)) as (ls2 & E2 & Heq2); [|done| |].
    { rewrite !length_app. lia. }
    { cbn. rewrite Heq1. by rewrite <- !app_assoc. }
    exists ls2. rewrite E2. split; [done|]. by rewrite Heq2, <- !app_assoc.
Qed.

Lemma shift_patched f d segs n rest' :
  rf_raw_lines f = None -> df_segments d = Some segs ->
  patched 0 segs (rf_parsed_lines f ++ replicate n EMPTY) rest' ->
  exists f', shift_lines_by_diff f d = Ok f' /\ cache_ok f' /\
    forall ln, 1 <= ln -> get f' ln = slot_at rest' ln.
Proof.
  intros Hr Hd Hp. unfold shift_lines_by_diff. rewrite Hd.
  destruct (shift_segments_patched _ _ _ _ Hp f []) as (ls' & -> & Heq); [done..| |].
  { by rewrite slots_eq_replicate. }
  eexists. split; [done|]. split; [done|]. intros ln Hln. rewrite get_with_lines by done.
  by apply slot_at_proper.
Qed.

(** Whatever the diff, the only exceptions that escape are those of reading the
    stored details; a parsed file is always shifted. *)
Lemma shift_step_keeps f pos l f' pos' :
  rf_raw_lines f = None -> shift_step f pos l = Ok (f', pos') -> rf_raw_lines f' = None.
Proof.
  unfold shift_step. intros Hr Hs. apply bind_Ok_inv in Hs as (c & _ & Hs).
  rewrite force_parsed in Hs by done. cbn [mbind result_bind] in Hs.
  case_bool_decide; [|case_bool_decide].
  - case_match; [|by injection Hs as <- <-]. apply bind_Ok_inv in Hs as (ls & _ & [= <- <-]). done.
  - by injection Hs as <- <-.
  - by injection Hs as <- <-.
Qed.

Lemma shift_step_err f pos l e :
  rf_raw_lines f = None -> shift_step f pos l = Err e -> e = IndexError.
Proof.
  unfold shift_step. intros Hr Hs. destruct l as [|c l]; cbn in Hs; [congruence|].
  rewrite force_parsed in Hs by done. cbn [mbind result_bind] in Hs.
  case_bool_decide; [|by case_bool_decide]. case_match; [|done].
  unfold py_pop in Hs. by case_match; cbn in Hs; [|injection Hs as <-].
Qed.

Lemma shift_lines_keeps f pos ls f' e :
  rf_raw_lines f = None -> shift_lines f pos ls = (f', e) ->
  rf_raw_lines f' = None /\ (e = None \/ e = Some IndexError).
Proof.
  revert f pos. induction ls as [|l ls IH]; intros f pos Hr Hs; cbn [shift_lines] in Hs.
  { injection Hs as <- <-. auto. }
  destruct (shift_step f pos l) as [[f1 pos1]|e1] eqn:E1.
  - apply (IH f1 pos1); [|done]. by eapply shift_step_keeps.
  - injection Hs as <- <-. split; [done|]. right. f_equal. by eapply shift_step_err.
Qed.
End shift.

(** ** Properties *)

(** C31: when the segments of a diff describe a change of the file's lines, lines past
    its end counting as lines without coverage, shifting succeeds, leaves the caches
    consistent, and gives each line of the new version the coverage its line had in
    the old version and added lines none. *)
Theorem shift_lines_by_diff_patches `{OrJson} f d segs n rest' :
  rf_raw_lines f = None -> df_segments d = Some segs ->
  patched 0 segs (rf_parsed_lines f ++ replicate n EMPTY) rest' ->
  exists f', shift_lines_by_diff f d = Ok f' /\ cache_ok f' /\
    forall ln, 1 <= ln -> get f' ln = slot_at rest' ln.
Proof. apply shift_patched. Qed.

Definition example_diff : DiffFile :=
  mkDiffFile "modified" None
    (Some [mkSegment [VStr "1"; VStr "3"; VStr "1"; VStr "4"] [" a"; "+x"; "+y"; "-b"; " c"]]) None None.

Lemma shift_lines_by_diff_patches_witness :
  let l1 := SLine (mkLine (CInt 1) None [mkSession 0 (CInt 1) None None CxNone;
                                         mkSession 1 (CInt 0) None None CxNone] CxNone) in
  let l3 := SLine (mkLine (CInt 0) None [mkSession 0 (CInt 0) None None CxNone] CxNone) in
  exists f', @shift_lines_by_diff codec example_file example_diff = Ok f' /\ @cache_ok codec f' /\
    forall ln, 1 <= ln -> @get codec f' ln = @slot_at codec [l1; EMPTY; EMPTY; l3] ln.
Proof.
  intros l1 l3.
  apply (@shift_lines_by_diff_patches codec example_file example_diff
    [mkSegment [VStr "1"; VStr "3"; VStr "1"; VStr "4"] [" a"; "+x"; "+y"; "-b"; " c"]] 0);
    [reflexivity | reflexivity |].
  apply (patched_segment 0 _ [] [] [l1; EMPTY; l3] [l1; EMPTY; EMPTY; l3] [] []).
  - reflexivity.
  - repeat (constructor; try done).
  - constructor.
Defined.
