(* ===== verification/Resources.v ===== *)
(** * [shared/reports/resources.py]: the report

    A report is a dictionary of files and a dictionary of sessions, with the
    totals cached.  As for files, a read that fills a cache changes nothing a
    later operation returns and is a function of the report; the operations that
    change the report return the new one. *)
From S2P Require Export Reportfile.
#[local] Open Scope string_scope.
#[local] Open Scope Z_scope.
#[local] Open Scope list_scope.

(** [helpers/yaml.walk(diff, ("files", path, "type"))]. *)
Definition walk_file_type (d : option RawDiff) (path : string) : option string :=
  match d with
  | Some d => match od_get path (d_files d) with Some f => Some (df_type f) | None => None end
  | None => None
  end.

(** [sorted(set(...))] of strings. *)
Definition str_le (a b : string) : Prop := String.leb a b = true.
#[export] Instance str_le_dec : RelDecision str_le.
Proof. intros a b. unfold str_le. apply _. Defined.
Definition sorted_set (l : list string) : list string := merge_sort str_le (remove_dups l).

(** [utils/migrate.py]: totals of older formats as the arguments of [ReportTotals]. *)
Definition TOTALS_MAP : list string :=
  ["f"; "n"; "h"; "m"; "p"; "c"; "b"; "d"; "M"; "s"; "C"; "N"; "diff"].
Definition TOTALS_MAP_v1 : list string :=
  ["files"; "lines"; "hit"; "missed"; "partial"; "coverage"; "branches"; "methods"; "messages";
   "sessions"; "complexity"].

Definition pick (keys : list string) (d : odict string pyval) : list pyval :=
  (fun k => default (VInt 0) (od_get k d)) <$> keys.

(** A text is tested for the substring ["hit"], and is JSON otherwise. *)
Definition migrate_totals `{OrJson} (v : pyval) : result (list pyval) :=
  if truthy v then
    match v with
    | VList l => Ok l
    | VDict d =>
        if od_mem "hit" d then
          let data := pick TOTALS_MAP_v1 d in
          x ← Z_of_val (default VNone (data !! 2%nat));
          y ← Z_of_val (default VNone (data !! 1%nat));
          c ← ratio x y;
          Ok (<[5%nat := VStr c]> data)
        else Ok (pick TOTALS_MAP d)
    | VStr s =>
        if str_contains "hit" s then Err AttributeError
        else
          w ← json_loads s;
          match w with VDict d => Ok (pick TOTALS_MAP d) | _ => Err AttributeError end
    | _ => Err TypeError
    end
  else Ok [].

Module Report.

Record t : Type := mkReport {
  r_sessions : odict Z Session;
  r_totals : option ReportTotals;
  r_files : odict string ReportFile.t;
  r_diff_totals : option ReportTotals;
}.

Definition empty : t := mkReport [] None [] None.

Definition with_sessions (s : odict Z Session) (r : t) : t :=
  mkReport s (r_totals r) (r_files r) (r_diff_totals r).
Definition with_totals (tot : option ReportTotals) (r : t) : t :=
  mkReport (r_sessions r) tot (r_files r) (r_diff_totals r).
Definition with_files (fs : odict string ReportFile.t) (r : t) : t :=
  mkReport (r_sessions r) (r_totals r) fs (r_diff_totals r).
Definition with_diff_totals (d : option ReportTotals) (r : t) : t :=
  mkReport (r_sessions r) (r_totals r) (r_files r) d.

Definition _invalidate_caches (r : t) : t := with_totals None r.

(** ** Construction *)

(** The summary of a file: its chunk, its totals and the diff totals at index 3,
    which may be missing. *)
Record file_summary : Type := mkSummary {
  fs_chunk : Z;
  fs_totals : option (ReportTotals + list pyval);
  fs_diff_totals : option (ReportTotals + list pyval);
}.

(** The chunks come as the text of the report file, or already split. *)
Inductive chunks_arg : Type :=
  | ChNone | ChText (s : string) | ChList (l : list (list ReportFile.slot + string)).

Definition END_OF_CHUNK : string := nl +:+ "<<<<< end_of_chunk >>>>>" +:+ nl.
Definition END_OF_HEADER : string := nl +:+ "<<<<< end_of_header >>>>>" +:+ nl.

Definition split_chunks (c : chunks_arg) : list (list ReportFile.slot + string) :=
  match c with
  | ChNone => []
  | ChText s =>
      if bool_decide (s = "") then []
      else
        let s := match split1 END_OF_HEADER s with [_; body] => body | _ => s end in
        inr <$> split END_OF_CHUNK s
  | ChList l => l
  end.

(** [lst[i]] with Python's negative indices. *)
Definition py_index {A} (i : Z) (l : list A) : option A :=
  let j := if i <? 0 then i + Z.of_nat (length l) else i in
  if j <? 0 then None else l !! Z.to_nat j.

Definition init_file (chunks : list (list ReportFile.slot + string)) (kv : string * file_summary)
    : result (string * ReportFile.t) :=
  let '(name, s) := kv in
  let lines := default (inr "") (py_index (fs_chunk s) chunks) in
  f ← ReportFile.init name (fs_totals s) (Some lines) (fs_diff_totals s) None;
  Ok (name, f).

(** A session comes as an object or as the keyword arguments of [parse_session]. *)
Definition init_session (kv : pyval * (Session + odict string pyval)) : result (Z * Session) :=
  let '(sid, s) := kv in
  i ← py_int sid;
  match s with
  | inl s => Ok (i, s)
  | inr kw =>
      id ← match od_get "id" kw with
           | None => Ok (Some i)
           | Some VNone => Ok None
           | Some (VInt z) => Ok (Some z)
           | Some _ => Err Unmodelled
           end;
      s ← parse_session id (od_del "id" kw);
      Ok (i, s)
  end.

Definition init `{OrJson} (files : odict string file_summary) (sessions : list (pyval * (Session + odict string pyval)))
    (totals : ReportTotals + pyval) (chunks : chunks_arg)
    (diff_totals : option ReportTotals) : result t :=
  ss ← traverse init_session sessions;
  fs ← traverse (init_file (split_chunks chunks)) files;
  tot ← match totals with
        | inl t => Ok (Some t)
        | inr v =>
            if truthy v then l ← migrate_totals v; t ← totals_of_list l; Ok (Some t) else Ok None
        end;
  Ok (mkReport (od_of_list ss) tot (od_of_list fs) diff_totals).

(** ** Reading *)

Section ops.
Context `{OrJson}.

(** [totals.sessions = n] on fresh totals. *)
Definition set_sessions (n : Z) (t : ReportTotals) : ReportTotals :=
  mkTotals (rt_files t) (rt_lines t) (rt_hits t) (rt_misses t) (rt_partials t) (rt_coverage t)
    (rt_branches t) (rt_methods t) (rt_messages t) n (rt_complexity t) (rt_complexity_total t)
    (rt_diff t).

Definition _process_totals (r : t) : result ReportTotals :=
  ts ← traverse ReportFile.totals (od_vals (r_files r));
  tot ← agg_totals (Some <$> ts);
  Ok (set_sessions (Z.of_nat (length (r_sessions r))) tot).

Definition totals (r : t) : result ReportTotals :=
  match r_totals r with Some t => Ok t | None => _process_totals r end.

Definition has_precalculated_totals (r : t) : bool := bool_decide (is_Some (r_totals r)).

Definition network (r : t) : result (list (string * NetworkFile)) :=
  traverse (fun kf => tot ← ReportFile.totals kf.2;
                      Ok (kf.1, mkNetworkFile tot (ReportFile.rf_diff_totals kf.2))) (r_files r).

Definition files (r : t) : list string := od_keys (r_files r).

(** A flag, seen from the sessions: whether it is carried forward, and from where. *)
Record flag_info : Type := mkFlag { fl_carriedforward : bool; fl_carriedforward_from : pyval }.

Definition flags (r : t) : odict string flag_info :=
  foldl (fun d s =>
           let cf := bool_decide (se_type s = carriedforward) in
           let from := default VNone (od_get "carriedforward_from" (se_extras s)) in
           foldl (fun d fl => od_set fl (mkFlag cf from) d) d (default [] (se_flags s)))
    [] (od_vals (r_sessions r)).

Definition get_flag_names (r : t) : list string :=
  sorted_set (concat ((fun s => default [] (se_flags s)) <$> od_vals (r_sessions r))).

(** A set of names, as the list of its elements. *)
Definition get_uploaded_flags (r : t) : list string :=
  remove_dups (concat ((fun s => match se_type s with
                                 | uploaded => default [] (se_flags s)
                                 | carriedforward => []
                                 end) <$> od_vals (r_sessions r))).

Definition get (r : t) (filename : string) : option ReportFile.t := od_get filename (r_files r).

Definition __getitem__ (r : t) (filename : string) : result ReportFile.t :=
  match get r filename with Some f => Ok f | None => Err IndexError end.

Definition __contains__ (r : t) (filename : string) : bool := od_mem filename (r_files r).

Definition get_file_totals (r : t) (path : string) : result (option ReportTotals) :=
  match od_get path (r_files r) with
  | None => Ok None
  | Some f => tot ← ReportFile.totals f; Ok (Some tot)
  end.

Definition is_empty (r : t) : bool := (length (r_files r) =? 0)%nat.

(** ** Files *)

Definition __delitem__ (r : t) (filename : string) : result t :=
  '(_, fs) ← od_pop filename (r_files r); Ok (with_files fs r).

Definition append (r : t) (_file : option ReportFile.t) (joined is_disjoint : bool) : result (bool * t) :=
  match _file with
  | None => Ok (false, r)
  | Some f =>
      n ← ReportFile.__len__ f;
      if n =? 0 then Ok (false, r)
      else
        let name := ReportFile.rf_name f in
        if bool_decide (name = "") then Err AssertionError
        else
          fs ← match od_get name (r_files r) with
               | Some existing_file =>
                   '(_, f') ← ReportFile.merge existing_file (Some f) joined is_disjoint;
                   Ok (od_set name f' (r_files r))
               | None => Ok (od_set name f (r_files r))
               end;
          Ok (true, _invalidate_caches (with_files fs r))
  end.

Definition rename (r : t) (old : string) (new : option string) : result t :=
  '(f, fs) ← od_pop old (r_files r);
  let fs :=
    match new with
    | Some n => if bool_decide (n = "") then fs else od_set n (ReportFile.with_name n f) fs
    | None => fs
    end in
  Ok (_invalidate_caches (with_files fs r)).

Definition resolve_step (r : t) (p : string * option string) : result t :=
  if od_mem p.1 (r_files r) then rename r p.1 p.2 else Ok r.

Definition resolve_paths (r : t) (paths : list (string * option string)) : result t :=
  foldM resolve_step r paths.

(** [merge(None)] and the merge of an empty report do nothing. *)
Definition merge_step (joined is_disjoint : bool) (r : t) (f : ReportFile.t) : result t :=
  if bool_decide (ReportFile.rf_name f = "") then Ok r
  else '(_, r') ← append r (Some f) joined is_disjoint; Ok r'.

Definition merge (r : t) (new_report : option t) (joined is_disjoint : bool) : result t :=
  match new_report with
  | None => Ok r
  | Some n =>
      if is_empty n then Ok r
      else foldM (merge_step joined is_disjoint) r (od_vals (r_files n))
  end.

(** Lines left without coverage by a disjoint merge are merged now.  The caches
    are not touched, and unparsed files are skipped. *)
Definition finish_line (s : ReportFile.slot) : result ReportFile.slot :=
  match s with
  | ReportFile.SLine l =>
      match rl_coverage l with
      | CNone =>
          c ← get_coverage_from_sessions (rl_sessions l);
          x ← get_complexity_from_sessions (rl_sessions l);
          Ok (ReportFile.SLine (mkLine c (rl_type l) (rl_sessions l) x))
      | _ => Ok s
      end
  | _ => Ok s
  end.

Definition finish_file (f : ReportFile.t) : result ReportFile.t :=
  ls ← traverse finish_line (ReportFile.rf_parsed_lines f);
  Ok (ReportFile.mkFile (ReportFile.rf_name f) (ReportFile.rf_totals f)
        (ReportFile.rf_diff_totals f) (ReportFile.rf_raw_lines f) ls (ReportFile.rf_details f)
        (ReportFile.rf_present f) (ReportFile.rf_ignore f)).

Definition finish_merge (r : t) : result t :=
  fs ← traverse (fun kf => f ← finish_file kf.2; Ok (kf.1, f)) (r_files r);
  Ok (with_files fs r).

(** ** Sessions *)

Fixpoint next_session_from (fuel : nat) (start_number : Z) (ss : odict Z Session) : Z :=
  match fuel with
  | O => start_number
  | S fuel' => if od_mem start_number ss then next_session_from fuel' (start_number + 1) ss else start_number
  end.

(** The [while] loop tests at most one number per session, and one more. *)
Definition next_session_number (r : t) : Z :=
  next_session_from (length (r_sessions r)) (Z.of_nat (length (r_sessions r))) (r_sessions r).

Definition add_session (r : t) (session : Session) (use_id_from_session : bool) : result (Z * t) :=
  sessionid ← (if use_id_from_session
               then match se_id session with Some i => Ok i | None => Err Unmodelled end
               else Ok (next_session_number r));
  let r := with_sessions (od_set sessionid session (r_sessions r)) r in
  Ok (sessionid,
      match r_totals r with
      | Some tot =>
          with_totals (Some (set_sessions (if use_id_from_session then rt_sessions tot + 1
                                           else sessionid + 1) tot)) r
      | None => r
      end).

Definition pop_session (ss : odict Z Session) (sid : Z) : result (odict Z Session) :=
  '(_, ss') ← od_pop sid ss; Ok ss'.

(** A file that is left without lines is deleted, by its name. *)
Definition delete_in_file (ids : gset Z) (kf : string * ReportFile.t)
    : result (string * ReportFile.t * bool) :=
  f ← ReportFile.delete_multiple_sessions kf.2 ids;
  b ← ReportFile.__bool__ f;
  Ok (kf.1, f, b).

Definition delete_multiple_sessions (r : t) (session_ids_to_delete : gset Z) : result t :=
  ss ← foldM pop_session (r_sessions r) (elements session_ids_to_delete);
  fs ← traverse (delete_in_file session_ids_to_delete) (r_files r);
  let files_to_delete := (fun x => ReportFile.rf_name x.1.2) <$> filter (fun x => x.2 = false) fs in
  r' ← foldM __delitem__ (with_files (fst <$> fs) (with_sessions ss r)) files_to_delete;
  Ok (_invalidate_caches r').

Definition rename_session_id (old_id new_id : Z) (s : LineSession) : LineSession :=
  if ls_id s =? old_id
  then mkSession new_id (ls_coverage s) (ls_branches s) (ls_partials s) (ls_complexity s) else s.

Definition rename_in_slot (old_id new_id : Z) (s : ReportFile.slot) : result ReportFile.slot :=
  if ReportFile.slot_truthy s then
    l ← ReportFile._line s;
    Ok (ReportFile.SLine (mkLine (rl_coverage l) (rl_type l)
          (rename_session_id old_id new_id <$> rl_sessions l) (rl_complexity l)))
  else Ok s.

(** The recomputed session ids are assigned to [file.__present_sessions], which inside
    the class [Report] is the attribute [_Report__present_sessions] nobody reads. *)
Definition rename_in_file (old_id new_id : Z) (f : ReportFile.t) : result ReportFile.t :=
  f ← ReportFile.force f;
  ls ← traverse (rename_in_slot old_id new_id) (ReportFile.rf_parsed_lines f);
  Ok (ReportFile._invalidate_caches (ReportFile.with_lines ls f)).

Definition set_id (i : Z) (s : Session) : Session :=
  mkSess (Some i) (se_totals s) (se_time s) (se_archive s) (se_flags s) (se_provider s)
    (se_build s) (se_job s) (se_url s) (se_state s) (se_env s) (se_name s) (se_type s) (se_extras s).

Definition change_sessionid (r : t) (old_id new_id : Z) : result t :=
  '(session, ss) ← od_pop old_id (r_sessions r);
  let ss := od_set new_id (set_id new_id session) ss in
  fs ← traverse (fun kf => f ← rename_in_file old_id new_id kf.2; Ok (kf.1, f)) (r_files r);
  Ok (_invalidate_caches (with_files fs (with_sessions ss r))).

(** ** Diffs *)

#[global] Instance abstract_report : AbstractReport t ReportFile.t := {
  ar_get := fun r path => Ok (get r path);
}.

Definition calculate_diff (r : t) (d : RawDiff) : result CalculatedDiff := calculate_report_diff (F := ReportFile.t) r d.

Definition with_file_totals (tot : ReportTotals) (f : DiffFile) : DiffFile :=
  mkDiffFile (df_type f) (df_before f) (df_segments f) (df_stats f) (Some tot).

(** [data["totals"] = totals]; a file of the result is a file of the diff. *)
Definition save_file_totals (files : odict string DiffFile) (kt : string * ReportTotals)
    : result (odict string DiffFile) :=
  match od_get kt.1 files with
  | Some data => Ok (od_set kt.1 (with_file_totals kt.2 data) files)
  | None => Err TypeError
  end.

Definition without_coverage (t : ReportTotals) : ReportTotals :=
  if rt_lines t =? 0 then
    mkTotals (rt_files t) (rt_lines t) (rt_hits t) (rt_misses t) (rt_partials t) TcNone
      (rt_branches t) (rt_methods t) (rt_messages t) (rt_sessions t) None None (rt_diff t)
  else t.

Definition save_diff_step (st : odict string DiffFile * odict string ReportFile.t)
    (kt : string * ReportTotals) : result (odict string DiffFile * odict string ReportFile.t) :=
  dfs ← save_file_totals st.1 kt;
  match od_get kt.1 st.2 with
  | Some f =>
      Ok (dfs, od_set kt.1 (ReportFile.with_diff_totals (Some (without_coverage kt.2)) f) st.2)
  | None => Err KeyError
  end.

(** Both the report and the diff are updated. *)
Definition save_diff_calculation (r : t) (d : RawDiff) (c : CalculatedDiff) : result (t * RawDiff) :=
  '(dfs, fs) ← foldM save_diff_step (d_files d, r_files r) (cd_files c);
  Ok (with_diff_totals (Some (cd_general c)) (with_files fs r), mkDiff dfs (Some (cd_general c))).

Definition apply_diff (r : t) (d : option RawDiff) (_save : bool)
    : result (option ReportTotals * t * option RawDiff) :=
  match d with
  | None => Ok (None, r, d)
  | Some diff =>
      if (length (d_files diff) =? 0)%nat then Ok (None, r, d)
      else
        c ← calculate_diff r diff;
        if _save then '(r', diff') ← save_diff_calculation r diff c; Ok (Some (cd_general c), r', Some diff')
        else Ok (Some (cd_general c), r, d)
  end.

Definition shift_file (fs : odict string ReportFile.t) (kd : string * DiffFile)
    : result (odict string ReportFile.t) :=
  let '(path, data) := kd in
  if bool_decide (df_type data = "modified") then
    match od_get path fs with
    | Some f => f' ← ReportFile.shift_lines_by_diff f data; Ok (od_set path f' fs)
    | None => Ok fs
    end
  else Ok fs.

Definition shift_lines_by_diff (r : t) (d : option RawDiff) : result t :=
  match d with
  | None => Ok r
  | Some d => fs ← foldM shift_file (r_files r) (d_files d); Ok (with_files fs r)
  end.

(** One file of the diff: the answer, if this file settles it, and the future report,
    in which a file may have been shifted. *)
Definition adjust_file (r future : t) (future_diff : option RawDiff) (path : string) (data : DiffFile)
    : result (bool * t) :=
  let future_state := walk_file_type future_diff path in
  let gone := bool_decide (future_state = Some "deleted") in
  let type_is s := bool_decide (df_type data = s) in
  if type_is "deleted" && __contains__ r path then Ok (true, future)
  else if type_is "new" && negb gone && __contains__ future path then Ok (true, future)
  else if type_is "modified" then
    let in_future := negb gone && __contains__ future path in
    match get r path, in_future with
    | Some f, true =>
        match get future path with
        | None => Ok (false, future)
        | Some future_file =>
            future_file' ←
              match future_state, future_diff with
              | Some "modified", Some fd =>
                  match od_get path (d_files fd) with
                  | Some fdata => ReportFile.shift_lines_by_diff future_file fdata
                  | None => Err KeyError
                  end
              | _, _ => Ok future_file
              end;
            b ← ReportFile.does_diff_adjust_tracked_lines f data future_file';
            Ok (b, with_files (od_set path future_file' (r_files future)) future)
        end
    | Some _, false => Ok (true, future)
    | None, true => Ok (true, future)
    | None, false => Ok (false, future)
    end
  else Ok (false, future).

Fixpoint adjust_files (r future : t) (future_diff : option RawDiff) (fs : odict string DiffFile)
    : result (bool * t) :=
  match fs with
  | [] => Ok (false, future)
  | (path, data) :: fs' =>
      '(b, future') ← adjust_file r future future_diff path data;
      if (b : bool) then Ok (true, future') else adjust_files r future' future_diff fs'
  end.

Definition does_diff_adjust_tracked_lines (r : t) (d : option RawDiff) (future_report : t)
    (future_diff : option RawDiff) : result (bool * t) :=
  match d with
  | None => Ok (false, future_report)
  | Some d => adjust_files r future_report future_diff (d_files d)
  end.
End ops.
End Report.
