(* ===== verification/ReportSpec.v ===== *)
(** * What the operations of a report promise

    A report is read through [line_at]: the line of a file, if any.  Appending,
    merging, renaming and renumbering are characterised by what [line_at]
    returns afterwards; a disjoint merge followed by [finish_merge] is the
    ordinary merge. *)
From S2P Require Export Resources.
From S2P Require Import JsonCodec.
#[local] Open Scope Z_scope.

(** The dictionaries have distinct keys, and each file is under its own name. *)
Definition report_wf (r : Report.t) : Prop :=
  od_wf (Report.r_sessions r) /\ od_wf (Report.r_files r) /\
  forall p f, od_get p (Report.r_files r) = Some f -> ReportFile.rf_name f = p.

Section facts.
Context `{OrJson}.

Definition line_in (o : option ReportFile.t) (ln : Z) : result (option ReportLine) :=
  match o with Some f => ReportFile.get f ln | None => Ok None end.
Definition line_at (r : Report.t) (path : string) (ln : Z) : result (option ReportLine) :=
  line_in (Report.get r path) ln.

Lemma force_name f f' : ReportFile.force f = Ok f' -> ReportFile.rf_name f' = ReportFile.rf_name f.
Proof. intros Hf. by apply ReportFile.force_fields in Hf as (? & _). Qed.

Lemma file_merge_name f o j d b f' :
  ReportFile.merge f o j d = Ok (b, f') -> ReportFile.rf_name f' = ReportFile.rf_name f.
Proof.
  unfold ReportFile.merge. destruct o as [g|]; [|by intros [= _ <-]]. intros Hm.
  apply bind_Ok_inv in Hm as (b1 & _ & Hm). destruct b1.
  { apply bind_Ok_inv in Hm as (ls & _ & [= _ <-]). done. }
  apply bind_Ok_inv in Hm as (b2 & _ & Hm). destruct b2; [by injection Hm as _ <-|].
  apply bind_Ok_inv in Hm as (f1 & Hf1 & Hm). apply bind_Ok_inv in Hm as (g1 & _ & Hm).
  apply bind_Ok_inv in Hm as (ls & _ & [= _ <-]). cbn. by eapply force_name.
Qed.

(** A file without coverage data has no lines. *)
Lemma len_0_get f ln : ReportFile.__len__ f = Ok 0 -> 1 <= ln -> ReportFile.get f ln = Ok None.
Proof.
  unfold ReportFile.__len__. intros Hlen Hln. apply bind_Ok_inv in Hlen as (ls & Hls & [= Hn]).
  unfold ReportFile.get. rewrite (proj2 (Z.ltb_ge _ _)) by lia. rewrite Hls. cbn.
  destruct (ls !! _) as [s|] eqn:E; [|done]. unfold ReportFile.read_slot.
  destruct (ReportFile.slot_truthy s) eqn:Es; [|done].
  assert (Hin : s ∈ filter (fun s => ReportFile.slot_truthy s = true) ls).
  { apply list_elem_of_filter. split; [done|]. by eapply list_elem_of_lookup_2. }
  destruct (filter _ ls); [by apply not_elem_of_nil in Hin | cbn in Hn; lia].
Qed.

Lemma append_wf r f j d b r' :
  Report.append r (Some f) j d = Ok (b, r') -> report_wf r -> report_wf r'.
Proof.
  unfold Report.append. intros Ha (Ws & Wf & Wn). apply bind_Ok_inv in Ha as (n & _ & Ha).
  case_match; [by injection Ha as _ <-|]. case_bool_decide; [done|].
  apply bind_Ok_inv in Ha as (fs & Hfs & [= _ <-]). cbn.
  assert (E : exists f', fs = od_set (ReportFile.rf_name f) f' (Report.r_files r) /\
    ReportFile.rf_name f' = ReportFile.rf_name f).
  { destruct (od_get _ _) as [g|] eqn:Eg.
    - apply bind_Ok_inv in Hfs as ([b' f'] & Hm & [= <-]). exists f'. split; [done|].
      rewrite (file_merge_name _ _ _ _ _ _ Hm). by apply Wn.
    - injection Hfs as <-. eauto. }
  destruct E as (f' & -> & Hname). split_and!; cbn; [done | by apply od_wf_set |].
  intros p g. destruct (decide (p = ReportFile.rf_name f)) as [->|Hne].
  - rewrite od_get_set_eq. by intros [= <-].
  - rewrite od_get_set_ne by done. apply Wn.
Qed.

Lemma append_line r f j d b r' path ln :
  Report.append r (Some f) j d = Ok (b, r') ->
  (path = ReportFile.rf_name f -> endswith ".rb" path = false) -> report_wf r -> 1 <= ln ->
  line_at r' path ln =
  if decide (path = ReportFile.rf_name f)
  then (x ← line_at r path ln; y ← ReportFile.get f ln; merge_line x y j d)
  else line_at r path ln.
Proof.
  unfold Report.append. intros Ha Hrb (_ & _ & Wn) Hln. apply bind_Ok_inv in Ha as (n & Hn & Ha).
  destruct (Z.eqb_spec n 0) as [->|_].
  { injection Ha as _ <-. case_decide; [|done]. rewrite (len_0_get _ _ Hn Hln).
    destruct (line_at r path ln) as [[l|]|]; done. }
  case_bool_decide; [done|]. apply bind_Ok_inv in Ha as (fs & Hfs & [= _ <-]).
  unfold line_at, Report.get. cbn.
  destruct (od_get _ (Report.r_files r)) as [g|] eqn:Eg.
  - apply bind_Ok_inv in Hfs as ([b' f'] & Hm & [= <-]). case_decide; subst.
    + rewrite od_get_set_eq, Eg. cbn. pose proof (Wn _ _ Eg) as Hg.
      assert (Hb : b' = Some true).
      { unfold ReportFile.merge in Hm. rewrite Hg, Hrb in Hm by done. cbn [mbind result_bind] in Hm.
        apply bind_Ok_inv in Hm as (? & _ & Hm). apply bind_Ok_inv in Hm as (? & _ & Hm).
        by apply bind_Ok_inv in Hm as (? & _ & [= <- _]). }
      subst b'. apply (ReportFile.merge_get _ _ _ _ _ _ ltac:(rewrite Hg; by apply Hrb) Hm Hln).
    + by rewrite od_get_set_ne.
  - injection Hfs as <-. case_decide; subst.
    + rewrite od_get_set_eq, Eg. cbn. by destruct (ReportFile.get f ln).
    + by rewrite od_get_set_ne.
Qed.

(** The name of a file whose lines are merged: not empty, and not a Ruby one. *)
Definition plain_name (p : string) : Prop := p <> ""%string /\ endswith ".rb" p = false.

Lemma merge_line_None_r x j d : merge_line x None j d = Ok x.
Proof. by destruct x. Qed.

(** The loop of [merge] over files with distinct names. *)
Lemma merge_steps_line fs : forall r r' j d,
  foldM (Report.merge_step j d) r fs = Ok r' ->
  NoDup (ReportFile.rf_name <$> fs) -> report_wf r ->
  report_wf r' /\ forall path ln, (path ∈ (ReportFile.rf_name <$> fs) -> plain_name path) -> 1 <= ln ->
    line_at r' path ln =
    (x ← line_at r path ln;
     y ← line_in (List.find (fun f => bool_decide (ReportFile.rf_name f = path)) fs) ln;
     merge_line x y j d).
Proof.
  induction fs as [|f fs IH]; intros r r' j d Hm Hnd Wf; cbn [foldM] in Hm.
  { injection Hm as <-. split; [done|]. intros path ln Hp Hln. cbn.
    destruct (line_at r path ln); cbn; [by rewrite merge_line_None_r | done]. }
  apply bind_Ok_inv in Hm as (r1 & Hr1 & Hm). apply NoDup_cons in Hnd as [Hf Hnd].
  unfold Report.merge_step in Hr1.
  destruct (bool_decide_reflect (ReportFile.rf_name f = ""%string)) as [En|Hn0].
  { injection Hr1 as <-. destruct (IH r r' j d Hm Hnd Wf) as [Wf' IHl]. split; [done|].
    intros path ln Hp Hln. rewrite IHl by (done || (intros; apply Hp; by right)). cbn [List.find].
    rewrite bool_decide_eq_false_2; [done|]. intros E. assert (Hin : path ∈ ReportFile.rf_name <$> f :: fs) by (rewrite <- E; left).
    apply Hp in Hin as [? _]. congruence. }
  apply bind_Ok_inv in Hr1 as ([b r1'] & Ha & [= ->]).
  destruct (IH r1 r' j d Hm Hnd (append_wf _ _ _ _ _ _ Ha Wf)) as [Wf' IHl]. split; [done|].
  intros path ln Hp Hln. rewrite IHl by (done || (intros; apply Hp; by right)).
  assert (Hrb : path = ReportFile.rf_name f -> endswith ".rb" path = false) by (intros ->; apply Hp; left). rewrite (append_line _ _ _ _ _ _ path ln Ha Hrb Wf Hln).
  cbn [List.find]. destruct (decide (path = ReportFile.rf_name f)) as [->|Hpne].
  - rewrite bool_decide_eq_true_2 by done.
    assert (E : List.find (fun f0 => bool_decide (ReportFile.rf_name f0 = ReportFile.rf_name f)) fs = None).
    { destruct (List.find _ fs) as [g|] eqn:E; [|done]. apply List.find_some in E as [Hin Hg].
      apply bool_decide_eq_true in Hg. exfalso. apply Hf. rewrite <- Hg. apply list_elem_of_fmap.
      exists g. split; [done | by apply list_elem_of_In]. }
    rewrite E. cbn [line_in]. destruct (line_at r _ ln); cbn; [|done].
    destruct (ReportFile.get f ln); cbn; [|done]. destruct (merge_line _ _ _ _); cbn; [|done].
    by rewrite merge_line_None_r.
  - by rewrite bool_decide_eq_false_2 by congruence.
Qed.

Lemma find_name r path :
  report_wf r ->
  List.find (fun f => bool_decide (ReportFile.rf_name f = path)) (od_vals (Report.r_files r)) =
  Report.get r path.
Proof.
  intros (_ & Wf & Wn). unfold Report.get.
  assert (Hn : Forall (fun kf => ReportFile.rf_name kf.2 = kf.1) (Report.r_files r)).
  { apply Forall_forall. intros [p f] Hin. apply Wn. by apply od_elem_get. }
  clear Wf Wn. induction Hn as [|[p f] fs Hp _ IH]; [done|].
  change (od_vals ((p, f) :: fs)) with (f :: od_vals fs). cbn [List.find od_get snd fst] in *.
  destruct (bool_decide_reflect (ReportFile.rf_name f = path)) as [E|E].
  - by rewrite decide_True by congruence.
  - rewrite decide_False by congruence. exact IH.
Qed.

Lemma names_keys r : report_wf r -> ReportFile.rf_name <$> od_vals (Report.r_files r) = od_keys (Report.r_files r).
Proof.
  intros (_ & Wf & Wn). unfold od_vals, od_keys. rewrite <- list_fmap_compose.
  apply list_fmap_ext. intros i [p f] Hi. cbn. apply Wn, od_elem_get; [done|].
  by eapply list_elem_of_lookup_2.
Qed.

Lemma add_session_run r s i r' n :
  Report.add_session r s true = Ok (n, r') -> se_id s = Some i ->
  n = i /\ Report.r_sessions r' = od_set i s (Report.r_sessions r) /\
  Report.r_files r' = Report.r_files r.
Proof.
  unfold Report.add_session. intros Ha Hi. rewrite Hi in Ha. cbn [mbind result_bind] in Ha.
  injection Ha as <- <-. split; [done|]. cbn. by destruct (Report.r_totals r).
Qed.

Definition no_ruby (r : Report.t) : Prop :=
  Forall plain_name (od_keys (Report.r_files r)).

Lemma merge_lines r n j d r' path ln :
  Report.merge r (Some n) j d = Ok r' -> report_wf r -> report_wf n ->
  (path ∈ od_keys (Report.r_files n) -> plain_name path) -> 1 <= ln ->
  line_at r' path ln = (x ← line_at r path ln; y ← line_at n path ln; merge_line x y j d).
Proof.
  unfold Report.merge. intros Hm Wr Wn Hrb Hln. destruct (Report.is_empty n) eqn:E.
  - injection Hm as <-. apply Nat.eqb_eq, nil_length_inv in E.
    unfold line_at, Report.get. rewrite E. cbn.
    destruct (line_in _ ln); cbn; [by rewrite merge_line_None_r | done].
  - destruct (merge_steps_line _ _ _ _ _ Hm) as [_ Hl].
    + rewrite names_keys by done. by destruct Wn as (_ & ? & _).
    + done.
    + rewrite Hl by (rewrite ?names_keys by done; done). by rewrite find_name.
Qed.

Lemma merge_sessions_kept r n j d r' :
  Report.merge r (Some n) j d = Ok r' -> Report.r_sessions r' = Report.r_sessions r.
Proof.
  unfold Report.merge. intros Hm. case_match; [by injection Hm as <-|].
  revert Hm. apply (foldM_invariant _ (fun s => Report.r_sessions s = Report.r_sessions r)); [|done].
  intros s f s' Hs Hst. unfold Report.merge_step in Hst. case_bool_decide; [by injection Hst as <-|].
  apply bind_Ok_inv in Hst as ([b s1] & Ha & [= <-]). rewrite <- Hs.
  unfold Report.append in Ha. apply bind_Ok_inv in Ha as (k & _ & Ha).
  case_match; [by injection Ha as _ <-|]. case_bool_decide; [done|].
  by apply bind_Ok_inv in Ha as (fs & _ & [= _ <-]).
Qed.

Lemma merge_wf r n j d r' :
  Report.merge r (Some n) j d = Ok r' -> report_wf r -> report_wf r'.
Proof.
  unfold Report.merge. intros Hm Wr. case_match; [by injection Hm as <-|].
  eapply (foldM_invariant _ report_wf); [|exact Wr|exact Hm].
  intros s f s' Ws Hs. unfold Report.merge_step in Hs. case_bool_decide; [by injection Hs as <-|].
  apply bind_Ok_inv in Hs as ([b s1] & Ha & [= <-]). by eapply append_wf.
Qed.

(** ** Sessions *)

(** The numbers the loop skips are taken, and when it stops early its number is free. *)
Lemma next_session_from_spec (ss : odict Z Session) fuel i :
  let n := Report.next_session_from fuel i ss in
  i <= n <= i + Z.of_nat fuel /\ (forall k, i <= k < n -> k ∈ od_keys ss) /\
  (n <> i + Z.of_nat fuel -> n ∉ od_keys ss).
Proof.
  revert i. induction fuel as [|fuel IH]; intros i; cbn [Report.next_session_from]; cbv zeta.
  { split_and!; lia. }
  destruct (od_mem i ss) eqn:E.
  - destruct (IH (i + 1)) as (B & K & F). split_and!; [lia | lia | |].
    + intros k Hk. destruct (decide (k = i)) as [->|]; [by apply od_mem_keys | apply K; lia].
    + intros Hn. apply F. lia.
  - split_and!; [lia | lia | lia |]. intros _ Hin. apply od_mem_keys in Hin. congruence.
Qed.

(** [m] distinct keys need [m] entries. *)
Lemma keys_count (ss : odict Z Session) m i :
  (forall k, i <= k < i + Z.of_nat m -> k ∈ od_keys ss) -> (m <= length ss)%nat.
Proof.
  intros Hall. assert (Hs : forall k, k ∈ seqZ i (Z.of_nat m) -> k ∈ od_keys ss).
  { intros k Hk. apply elem_of_seqZ in Hk. apply Hall. lia. }
  assert (Hsub : submseteq (seqZ i (Z.of_nat m)) (od_keys ss)).
  { apply NoDup_submseteq; [apply NoDup_seqZ | done]. }
  apply submseteq_length in Hsub. unfold od_keys in Hsub. rewrite length_seqZ, length_fmap in Hsub. lia.
Qed.

Lemma next_session_fresh r :
  let n := Report.next_session_number r in
  Z.of_nat (length (Report.r_sessions r)) <= n /\ n ∉ od_keys (Report.r_sessions r) /\
  forall k, Z.of_nat (length (Report.r_sessions r)) <= k < n -> k ∈ od_keys (Report.r_sessions r).
Proof.
  unfold Report.next_session_number. set (ss := Report.r_sessions r). set (m := length ss).
  destruct (next_session_from_spec ss m (Z.of_nat m)) as (B & K & F). cbv zeta in *.
  set (n := Report.next_session_from m (Z.of_nat m) ss) in *. split_and!; [lia | | exact K].
  intros Hin. destruct (decide (n = Z.of_nat m + Z.of_nat m)) as [Hn|Hn]; [|by apply F].
  assert (Hle : (S m <= length ss)%nat); [|unfold m in Hle; lia].
  apply (keys_count _ _ (Z.of_nat m)). intros k Hk.
  destruct (decide (k = n)) as [->|]; [done | apply K; lia].
Qed.

(** ** Renumbering a session *)

Definition rename_line (old_id new_id : Z) (l : ReportLine) : ReportLine :=
  mkLine (rl_coverage l) (rl_type l) (Report.rename_session_id old_id new_id <$> rl_sessions l)
    (rl_complexity l).

Lemma rename_in_file_get old_id new_id f f' ln :
  Report.rename_in_file old_id new_id f = Ok f' -> 1 <= ln ->
  ReportFile.get f' ln = fmap (M := result) (fmap (M := option) (rename_line old_id new_id)) (ReportFile.get f ln).
Proof.
  unfold Report.rename_in_file. intros Hr Hln. apply bind_Ok_inv in Hr as (f1 & Hf1 & Hr).
  apply bind_Ok_inv in Hr as (ls & Hls & [= <-]).
  rewrite ReportFile.get_with_lines, (ReportFile.get_slot f), Hf1 by done. cbn [mbind result_bind].
  apply traverse_Forall2 in Hls. unfold ReportFile.slot_at.
  destruct (ReportFile.rf_parsed_lines f1 !! _) as [s|] eqn:E.
  - destruct (Forall2_lookup_l _ _ _ _ _ Hls E) as (s' & -> & Hs').
    unfold Report.rename_in_slot in Hs'. unfold ReportFile.read_slot at 2.
    destruct (ReportFile.slot_truthy s) eqn:Et.
    + apply bind_Ok_inv in Hs' as (l & -> & [= <-]). done.
    + injection Hs' as <-. unfold ReportFile.read_slot. by rewrite Et.
  - apply Forall2_length in Hls. apply lookup_ge_None in E. by rewrite lookup_ge_None_2 by lia.
Qed.

Lemma rename_in_file_name old_id new_id f f' :
  Report.rename_in_file old_id new_id f = Ok f' -> ReportFile.rf_name f' = ReportFile.rf_name f.
Proof.
  unfold Report.rename_in_file. intros Hr. apply bind_Ok_inv in Hr as (f1 & Hf1 & Hr).
  apply bind_Ok_inv in Hr as (ls & _ & [= <-]). cbn. by eapply force_name.
Qed.

(** A loop over the files of a report, file by file. *)
Lemma traverse_files_get (g : ReportFile.t -> result ReportFile.t) fs fs' :
  traverse (fun kf => f ← g kf.2; Ok (kf.1, f)) fs = Ok fs' ->
  od_keys fs' = od_keys fs /\
  forall p : string, match od_get p fs with
            | Some f => exists f', g f = Ok f' /\ od_get p fs' = Some f'
            | None => od_get p fs' = None
            end.
Proof.
  intros Ht. apply traverse_Forall2 in Ht.
  induction Ht as [|[k f] [k' f'] fs fs' Hf _ [IHk IH]]; [done|].
  cbn in Hf. apply bind_Ok_inv in Hf as (f1 & Hf & [= <- <-]). split.
  - unfold od_keys in *. cbn. by rewrite IHk.
  - intros p. cbn [od_get]. case_decide; [eauto | apply IH].
Qed.

Lemma change_sessionid_run r old_id new_id r' :
  Report.change_sessionid r old_id new_id = Ok r' -> report_wf r ->
  report_wf r' /\
  (exists s, od_get old_id (Report.r_sessions r) = Some s /\
     forall i, od_get i (Report.r_sessions r') =
       if decide (i = new_id) then Some (Report.set_id new_id s)
       else if decide (i = old_id) then None else od_get i (Report.r_sessions r)) /\
  forall path ln, 1 <= ln ->
    line_at r' path ln = fmap (M := result) (fmap (M := option) (rename_line old_id new_id)) (line_at r path ln).
Proof.
  unfold Report.change_sessionid. intros Hc (Ws & Wf & Wn).
  apply bind_Ok_inv in Hc as ([s ss] & Hpop & Hc). apply bind_Ok_inv in Hc as (fs & Hfs & [= <-]).
  unfold od_pop in Hpop. destruct (od_get old_id _) as [s'|] eqn:Es; [|done]. injection Hpop as -> <-.
  destruct (traverse_files_get _ _ _ Hfs) as [Hk Hg]. unfold report_wf. split_and!.
  - by apply od_wf_set, od_wf_del.
  - cbn. unfold od_wf. by rewrite Hk.
  - cbn. intros p f Hp. specialize (Hg p). destruct (od_get p (Report.r_files r)) as [g|] eqn:Eg; [|congruence].
    destruct Hg as (f' & Hf' & Eg'). assert (f = f') as -> by congruence.
    rewrite (rename_in_file_name _ _ _ _ Hf'). by apply Wn.
  - exists s. split; [done|]. intros i. cbn. case_decide as E; subst.
    + by rewrite od_get_set_eq.
    + rewrite od_get_set_ne by done. case_decide; subst; [by rewrite od_get_del_eq | by rewrite od_get_del_ne].
  - intros path ln Hln. unfold line_at, Report.get. cbn. specialize (Hg path).
    destruct (od_get path (Report.r_files r)) as [f|].
    + destruct Hg as (f' & Hf' & ->). cbn. by eapply rename_in_file_get.
    + by rewrite Hg.
Qed.

(** ** Renaming a file *)
Lemma rename_run r old new r' :
  Report.rename r old new = Ok r' -> report_wf r ->
  report_wf r' /\
  exists f, Report.get r old = Some f /\
    forall p, Report.get r' p =
      match new with
      | Some n => if bool_decide (n = ""%string) then (if decide (p = old) then None else Report.get r p)
                  else if decide (p = n) then Some (ReportFile.with_name n f)
                  else if decide (p = old) then None else Report.get r p
      | None => if decide (p = old) then None else Report.get r p
      end.
Proof.
  unfold Report.rename, Report.get. intros Hr (Ws & Wf & Wn).
  apply bind_Ok_inv in Hr as ([f fs] & Hpop & [= <-]).
  unfold od_pop in Hpop. destruct (od_get old _) as [g|] eqn:Eg; [|done]. injection Hpop as -> <-.
  assert (Hdel : forall p, od_get p (od_del old (Report.r_files r)) =
    if decide (p = old) then None else od_get p (Report.r_files r)).
  { intros p. case_decide; subst; [by rewrite od_get_del_eq | by rewrite od_get_del_ne]. }
  assert (Hdn : forall p g, od_get p (od_del old (Report.r_files r)) = Some g -> ReportFile.rf_name g = p).
  { intros p g. rewrite Hdel. case_decide; [done | apply Wn]. }
  destruct new as [n|]; cbn.
  2: { split; [unfold report_wf; split_and!; cbn; auto with umbrella|]. eauto. }
  case_bool_decide.
  { split; [unfold report_wf; split_and!; cbn; auto with umbrella|]. eauto. }
  split.
  - unfold report_wf. split_and!; cbn; auto with umbrella. intros p g.
    destruct (decide (p = n)) as [->|]; [rewrite od_get_set_eq; by intros [= <-]|].
    rewrite od_get_set_ne by done. apply Hdn.
  - exists f. split; [done|]. intros p. case_decide; subst; [by rewrite od_get_set_eq|].
    rewrite od_get_set_ne by done. apply Hdel.
Qed.

(** ** The two-phase merge *)

Lemma merge_sessions_disjoint s1 s2 :
  NoDup (ids s1) -> (forall i, i ∈ ids s1 -> i ∉ ids s2) -> merge_sessions s1 s2 = Ok (s1 ++ s2).
Proof.
  intros Hnd Hd. unfold merge_sessions. destruct s1 as [|a s1]; [done|].
  destruct s2 as [|b s2]; [by rewrite app_nil_r|].
  rewrite by_id_NoDup, ids_keys by done. rewrite filter_none; [done|].
  apply Forall_forall. intros i Hi. by apply Hd.
Qed.

(** Finishing a line of a disjoint merge is merging the two lines. *)
Lemma finish_disjoint l1 l2 :
  NoDup (ids (rl_sessions l1)) ->
  (forall i, i ∈ ids (rl_sessions l1) -> i ∉ ids (rl_sessions l2)) ->
  (m ← merge_line (Some l1) (Some l2) true true; Report.finish_line (ReportFile.opt_slot m)) =
  (m ← merge_line (Some l1) (Some l2) true false; Ok (ReportFile.opt_slot m)).
Proof.
  intros Hnd Hd. cbn [merge_line andb mbind result_bind ReportFile.opt_slot Report.finish_line].
  unfold ReportLine_create. cbn [rl_coverage rl_sessions rl_type default id].
  rewrite merge_sessions_disjoint by done. cbn [mbind result_bind].
  destruct (get_coverage_from_sessions _); cbn [mbind result_bind]; [|done].
  by destruct (get_complexity_from_sessions _).
Qed.

(** Slots that hold no line, or a well-formed line with a coverage. *)
Definition covered (pairs : bool) (s : ReportFile.slot) : Prop :=
  exists o, ReportFile.read_slot s = Ok o /\
    match o with Some l => line_ok pairs l /\ rl_coverage l <> CNone | None => True end.

Definition slot_ids (s : ReportFile.slot) : list Z :=
  match ReportFile.read_slot s with Ok (Some l) => ids (rl_sessions l) | _ => [] end.

(** The sessions of two files do not meet on any line. *)
Definition disjoint_slots (a b : list ReportFile.slot) : Prop :=
  forall n x y i, a !! n = Some x -> b !! n = Some y -> i ∈ slot_ids x -> i ∉ slot_ids y.

Definition merge_cell (is_disjoint : bool) (before after : result (option ReportLine))
    : result ReportFile.slot :=
  b ← before; a ← after; m ← merge_line b a true is_disjoint;
  Ok (match m with Some l => ReportFile.SLine l | None => ReportFile.SNone end).

Lemma two_phase_cell pairs x y :
  covered pairs x -> covered pairs y -> (forall i, i ∈ slot_ids x -> i ∉ slot_ids y) ->
  exists c1 c2, merge_cell true (ReportFile.read_slot x) (ReportFile.read_slot y) = Ok c1 /\
    Report.finish_line c1 = Ok c2 /\
    merge_cell false (ReportFile.read_slot x) (ReportFile.read_slot y) = Ok c2.
Proof.
  intros (o1 & E1 & H1) (o2 & E2 & H2) Hd. unfold slot_ids in Hd. rewrite E1, E2 in *.
  unfold merge_cell. cbn [mbind result_bind].
  assert (Hkeep : forall l, rl_coverage l <> CNone -> Report.finish_line (ReportFile.SLine l) = Ok (ReportFile.SLine l)).
  { intros l Hl. unfold Report.finish_line. by destruct (rl_coverage l). }
  destruct o1 as [l1|], o2 as [l2|].
  - destruct H1 as [L1 _], H2 as [L2 _]. destruct (merge_line_run pairs l1 l2 L1 L2) as (m & Hm & _).
    pose proof L1 as (_ & N1 & _). pose proof (finish_disjoint l1 l2 N1 Hd) as Hf. rewrite Hm in Hf |- *.
    cbn [mbind result_bind] in *. cbn [merge_line andb mbind result_bind] in Hf |- *. eauto.
  - destruct H1 as [_ C1]. cbn. eexists _, _. split; [done|]. split; [by apply Hkeep | done].
  - destruct H2 as [_ C2]. cbn. eexists _, _. split; [done|]. split; [by apply Hkeep | done].
  - cbn. eauto.
Qed.

Lemma covered_empty pairs : covered pairs ReportFile.EMPTY.
Proof. by exists None. Qed.

Lemma two_phase_slots pairs a b :
  Forall (covered pairs) a -> Forall (covered pairs) b -> disjoint_slots a b ->
  exists ls1 ls2, ReportFile.merge_slots true true a b = Ok ls1 /\
    traverse Report.finish_line ls1 = Ok ls2 /\ ReportFile.merge_slots true false a b = Ok ls2.
Proof.
  intros Ha. revert b. induction Ha as [|x a Hx _ IH]; intros b Hb Hd.
  - clear Hd. induction Hb as [|y b Hy _ (l1 & l2 & R1 & R2 & R3)].
    { by exists [], []. }
    destruct (two_phase_cell pairs ReportFile.EMPTY y (covered_empty _) Hy) as (c1 & c2 & E1 & E2 & E3).
    { intros i Hi. by apply not_elem_of_nil in Hi. }
    change (ReportFile.read_slot ReportFile.EMPTY) with (@Ok (option ReportLine) None) in *.
    unfold merge_cell in *. cbn [ReportFile.merge_slots traverse] in *.
    rewrite E1, R1, E3, R3. cbn [mbind result_bind]. eexists _, _. split; [done|].
    cbn [traverse]. by rewrite E2, R2.
  - destruct (two_phase_cell pairs x (default ReportFile.EMPTY (head b)) Hx) as (c1 & c2 & E1 & E2 & E3).
    { destruct Hb as [|y b Hy Hb]; [apply covered_empty | done]. }
    { destruct b as [|y b]; [intros i _ Hi; by apply not_elem_of_nil in Hi|].
      intros i. by apply (Hd 0%nat x y i). }
    destruct (IH (tail b)) as (l1 & l2 & R1 & R2 & R3).
    { by destruct Hb. }
    { intros n u v i Hu Hv. destruct b as [|y b]; [done|]. by apply (Hd (S n) u v i). }
    assert (Hh : match b with y :: _ => ReportFile.read_slot y | [] => Ok None end =
      ReportFile.read_slot (default ReportFile.EMPTY (head b))) by by destruct b.
    unfold merge_cell in *. cbn [ReportFile.merge_slots]. rewrite Hh.
    rewrite E1, R1, E3, R3. cbn [mbind result_bind]. eexists _, _. split; [done|].
    cbn [traverse]. by rewrite E2, R2.
Qed.

Lemma two_phase_file pairs f g :
  ReportFile.rf_raw_lines f = None -> ReportFile.rf_raw_lines g = None ->
  endswith ".rb" (ReportFile.rf_name f) = false ->
  Forall (covered pairs) (ReportFile.rf_parsed_lines f) ->
  Forall (covered pairs) (ReportFile.rf_parsed_lines g) ->
  disjoint_slots (ReportFile.rf_parsed_lines f) (ReportFile.rf_parsed_lines g) ->
  exists m, ReportFile.merge f (Some g) true false = Ok (Some true, m) /\
    ('(_, m1) ← ReportFile.merge f (Some g) true true; Report.finish_file m1) = Ok m.
Proof.
  intros Rf Rg Hrb Cf Cg Hd. unfold ReportFile.merge. rewrite Hrb. cbn [mbind result_bind].
  rewrite !ReportFile.force_parsed by done. cbn [mbind result_bind].
  destruct (two_phase_slots pairs _ _ Cf Cg Hd) as (l1 & l2 & -> & E & ->).
  cbn [mbind result_bind]. eexists. split; [done|]. unfold Report.finish_file. cbn. by rewrite E.
Qed.

(** ** Deleting sessions *)

Lemma delete_file_name f del f' :
  ReportFile.delete_multiple_sessions f del = Ok f' -> ReportFile.rf_name f' = ReportFile.rf_name f.
Proof.
  unfold ReportFile.delete_multiple_sessions. intros Hd.
  apply bind_Ok_inv in Hd as (f1 & Hf1 & Hd). apply force_name in Hf1.
  apply bind_Ok_inv in Hd as (s & _ & Hd). cbv zeta in Hd.
  case_bool_decide; [by injection Hd as <-|]. case_bool_decide; [by injection Hd as <-|].
  apply bind_Ok_inv in Hd as (ls & _ & Hd). apply bind_Ok_inv in Hd as (f2 & Hf2 & [= <-]). cbn.
  rewrite <- Hf1. revert Hf2. apply (foldM_invariant _ (fun g => ReportFile.rf_name g = ReportFile.rf_name f1));
    [|done]. clear. intros g [k l] g' Hg Hs. unfold ReportFile.delete_step in Hs.
  destruct (existsb _ _); [|by injection Hs as <-].
  apply bind_Ok_inv in Hs as ([l'|] & _ & Hs).
  - unfold ReportFile.__setitem__ in Hs. case_match; [done|]. case_match; [by injection Hs as <-|].
    apply bind_Ok_inv in Hs as (g1 & Hg1 & [= <-]). cbn. rewrite <- Hg. by apply force_name.
  - unfold ReportFile.__delitem__ in Hs. case_match; [done|].
    apply bind_Ok_inv in Hs as (g1 & Hg1 & [= <-]). cbn. rewrite <- Hg. by apply force_name.
Qed.

Lemma pop_sessions_run l ss ss' :
  foldM Report.pop_session ss l = Ok ss' -> od_wf ss ->
  od_wf ss' /\ forall i, od_get i ss' = if decide (i ∈ l) then None else od_get i ss.
Proof.
  revert ss. induction l as [|k l IH]; intros ss Hf Hwf; cbn [foldM] in Hf.
  { injection Hf as <-. by split. }
  apply bind_Ok_inv in Hf as (s1 & Hs & Hf). unfold Report.pop_session, od_pop in Hs.
  destruct (od_get k ss) as [s|]; [|done]. injection Hs as <-.
  destruct (IH _ Hf (od_wf_del k ss Hwf)) as [W G]. split; [done|]. intros i. rewrite G.
  destruct (decide (i = k)) as [->|Hne].
  - rewrite od_get_del_eq by done. rewrite (decide_True (P := k ∈ k :: l)) by left. by case_decide.
  - rewrite od_get_del_ne by done. destruct (decide (i ∈ l)).
    + by rewrite decide_True by by right.
    + by rewrite decide_False by set_solver.
Qed.

Lemma delete_files_run l r r' :
  foldM Report.__delitem__ r l = Ok r' -> od_wf (Report.r_files r) ->
  od_wf (Report.r_files r') /\ Report.r_sessions r' = Report.r_sessions r /\
  forall p, Report.get r' p = if decide (p ∈ l) then None else Report.get r p.
Proof.
  revert r. induction l as [|k l IH]; intros r Hf Hwf; cbn [foldM] in Hf.
  { injection Hf as <-. by split_and!. }
  apply bind_Ok_inv in Hf as (r1 & Hs & Hf). unfold Report.__delitem__, od_pop in Hs.
  destruct (od_get k (Report.r_files r)) as [f|]; [|done]. injection Hs as <-.
  destruct (IH _ Hf (od_wf_del k _ Hwf)) as (W & S & G). split_and!; [done | done |]. intros i. rewrite G.
  unfold Report.get. cbn. destruct (decide (i = k)) as [->|Hne].
  - rewrite od_get_del_eq by done. rewrite (decide_True (P := k ∈ k :: l)) by left. by case_decide.
  - rewrite od_get_del_ne by done. destruct (decide (i ∈ l)).
    + by rewrite decide_True by by right.
    + by rewrite decide_False by set_solver.
Qed.

Lemma delete_sessions_run r del r' :
  Report.delete_multiple_sessions r del = Ok r' -> report_wf r ->
  report_wf r' /\ Report.r_totals r' = None /\
  (forall i, od_get i (Report.r_sessions r') = if decide (i ∈ del) then None else od_get i (Report.r_sessions r)) /\
  forall p, match Report.get r p with
            | None => Report.get r' p = None
            | Some f => exists f' tot, ReportFile.delete_multiple_sessions f del = Ok f' /\
                ReportFile.totals f' = Ok tot /\
                Report.get r' p = if 0 <? rt_lines tot then Some f' else None
            end.
Proof.
  unfold Report.delete_multiple_sessions. intros Hd (Ws & Wf & Wn).
  apply bind_Ok_inv in Hd as (ss & Hss & Hd). apply bind_Ok_inv in Hd as (fs & Hfs & Hd). cbv zeta in Hd.
  apply bind_Ok_inv in Hd as (r1 & Hr1 & [= <-]).
  destruct (pop_sessions_run _ _ _ Hss Ws) as [Wss Gss].
  (* the files, one by one *)
  assert (Hfiles : od_keys (fst <$> fs) = od_keys (Report.r_files r) /\
    (forall p, match od_get p (Report.r_files r) with
      | None => od_get p (fst <$> fs) = None
      | Some f => exists f' tot, ReportFile.delete_multiple_sessions f del = Ok f' /\
          ReportFile.totals f' = Ok tot /\ od_get p (fst <$> fs) = Some f' /\
          (p, f', 0 <? rt_lines tot) ∈ fs
      end)).
  { apply traverse_Forall2 in Hfs. clear -Hfs.
    induction Hfs as [|[k f] [[k' f'] b] xs fs Hf _ [IHk IH]]; [by split|].
    unfold Report.delete_in_file in Hf. cbn in Hf. apply bind_Ok_inv in Hf as (g & Hg & Hf).
    apply bind_Ok_inv in Hf as (b' & Hb & [= <- <- <-]). split.
    - unfold od_keys in *. cbn in *. by rewrite IHk.
    - intros p. change (fst <$> (k, g, b') :: fs) with ((k, g) :: (fst <$> fs)). cbn [od_get].
      case_decide; subst.
      + unfold ReportFile.__bool__ in Hb. apply bind_Ok_inv in Hb as (tot & Ht & [= <-]).
        exists g, tot. split_and!; try done. left.
      + specialize (IH p). destruct (od_get p xs); [|done].
        destruct IH as (g' & tot & ? & ? & ? & ?). exists g', tot. split_and!; try done. by right. }
  destruct Hfiles as [Hk Hg].
  assert (Wfs : od_wf (fst <$> fs)) by (unfold od_wf; by rewrite Hk).
  destruct (delete_files_run _ _ _ Hr1) as (W1 & S1 & G1); [done|].
  assert (Hname : forall p g, od_get p (fst <$> fs) = Some g -> ReportFile.rf_name g = p).
  { intros p g Hp. specialize (Hg p). destruct (od_get p (Report.r_files r)) as [f|] eqn:Ef; [|congruence].
    destruct Hg as (f' & tot & Hdel & _ & Hf' & _). assert (g = f') as -> by congruence.
    rewrite (delete_file_name _ _ _ Hdel). by apply Wn. }
  assert (Hentry : forall p g b, (p, g, b) ∈ fs -> od_get p (fst <$> fs) = Some g).
  { intros p g b Hin. apply od_elem_get; [done|]. apply list_elem_of_fmap. by exists (p, g, b). }
  assert (Hto : forall p g, od_get p (fst <$> fs) = Some g ->
    p ∈ ((fun x => ReportFile.rf_name x.1.2) <$> filter (fun x => x.2 = false) fs) <-> (p, g, false) ∈ fs).
  { intros p g Hp. rewrite list_elem_of_fmap. split.
    - intros ([[q h] b] & -> & Hin). apply list_elem_of_filter in Hin as [Hb Hin]. cbn in *. subst.
      pose proof (Hentry _ _ _ Hin) as Hq. rewrite (Hname _ _ Hq) in Hp. assert (g = h) as -> by congruence.
      by rewrite (Hname _ _ Hq).
    - intros Hin. exists (p, g, false). split; [cbn; symmetry; by apply Hname|].
      by apply list_elem_of_filter. }
  assert (Huniq : forall p g b b', (p, g, b) ∈ fs -> (p, g, b') ∈ fs -> b = b').
  { assert (Hnd : NoDup (fs.*1.*1)) by exact Wfs. clear -Hnd. intros p g b b' H1 H2.
    induction fs as [|[[q h] c] fs IH]; [set_solver|]. cbn in Hnd. apply NoDup_cons in Hnd as [Hq Hnd].
    assert (Hfst : forall b, (p, g, b) ∈ fs -> p ∈ fs.*1.*1).
    { intros c' Hc'. apply list_elem_of_fmap. exists (p, g). split; [done|].
      apply list_elem_of_fmap. by exists (p, g, c'). }
    apply elem_of_cons in H1 as [[= -> -> ->]|H1], H2 as [E2|H2].
    - by injection E2 as ->.
    - exfalso. apply Hq. by eapply Hfst.
    - injection E2 as -> -> ->. exfalso. apply Hq. by eapply Hfst.
    - by apply IH. }
  cbn [Report.get Report._invalidate_caches Report.with_totals Report.r_files Report.r_sessions Report.r_totals].
  assert (Hfinal : forall p, match Report.get r p with
      | None => Report.get r1 p = None
      | Some f => exists f' tot, ReportFile.delete_multiple_sessions f del = Ok f' /\
                ReportFile.totals f' = Ok tot /\
                Report.get r1 p = if 0 <? rt_lines tot then Some f' else None
      end).
  { intros p. specialize (Hg p). rewrite G1. unfold Report.get. cbn [Report.with_files Report.r_files].
    destruct (od_get p (Report.r_files r)) as [f|]; [|rewrite Hg; by case_decide].
    destruct Hg as (f' & tot & Hdel & Htot & Hf' & Hin). exists f', tot. split_and!; [done..|].
    rewrite Hf'. destruct (0 <? rt_lines tot) eqn:Eb.
    - rewrite decide_False; [done|]. intros Hp. apply (Hto p f' Hf') in Hp.
      by specialize (Huniq _ _ _ _ Hin Hp).
    - rewrite decide_True; [done|]. by apply (Hto p f' Hf'). }
  split_and!; [|done| |exact Hfinal].
  - split_and!; [cbn; by rewrite S1 | done |]. intros p g Hp. specialize (G1 p).
    unfold Report.get in G1. cbn in G1, Hp. rewrite Hp in G1. case_decide; [done|]. by apply Hname.
  - intros i. cbn. rewrite S1. cbn. rewrite Gss.
    destruct (decide (i ∈ del)); [by rewrite decide_True by by apply elem_of_elements |
      by rewrite decide_False by by rewrite elem_of_elements].
Qed.

(** ** Well-formed reports never raise *)

(** Every file is well formed and has a name that is not the empty string. *)
Definition report_ok (pairs : bool) (r : Report.t) : Prop :=
  report_wf r /\
  Forall (fun kf => ReportFile.file_ok pairs kf.2 /\ kf.1 <> ""%string) (Report.r_files r).

Lemma get_file_ok pairs r p f :
  report_ok pairs r -> od_get p (Report.r_files r) = Some f -> ReportFile.file_ok pairs f.
Proof.
  intros [_ Hf] Hp%od_get_elem. rewrite Forall_forall in Hf. by apply (Hf (p, f)).
Qed.

Lemma append_total pairs r f :
  report_ok pairs r -> ReportFile.file_ok pairs f ->
  ReportFile.rf_name f <> ""%string /\ endswith ".rb" (ReportFile.rf_name f) = false ->
  exists b r', Report.append r (Some f) true false = Ok (b, r') /\ report_ok pairs r'.
Proof.
  intros Hr Hf [Hn Hrb]. pose proof Hr as [Wr Hfs].
  enough (exists b r', Report.append r (Some f) true false = Ok (b, r') /\
    Forall (fun kf => ReportFile.file_ok pairs kf.2 /\ kf.1 <> ""%string) (Report.r_files r'))
    as (b & r' & Ha & Hfs').
  { exists b, r'. split; [done|]. split; [by eapply append_wf | done]. }
  unfold Report.append, ReportFile.__len__, ReportFile._lines.
  rewrite ReportFile.force_parsed by apply Hf. cbn [mbind result_bind].
  case_match; [eauto|]. rewrite bool_decide_eq_false_2 by done.
  assert (Hset : forall g, ReportFile.file_ok pairs g ->
    Forall (fun kf => ReportFile.file_ok pairs kf.2 /\ kf.1 <> ""%string)
      (od_set (ReportFile.rf_name f) g (Report.r_files r))).
  { intros g Hg. apply Forall_forall. rewrite Forall_forall in Hfs.
    intros [k v] [[-> ->]|[_ Hk]]%od_set_elem; [done | by apply (Hfs (k, v)) | apply Wr]. }
  destruct (od_get _ _) as [g|] eqn:Eg; [|eexists _, _; split; [done | by apply Hset]].
  pose proof Wr as (_ & _ & Wn). apply Wn in Eg as En.
  destruct (ReportFile.merge_ok pairs g f) as (m & Hm & Hmok);
    [by rewrite En | by eapply get_file_ok | done|].
  rewrite Hm. eexists _, _. split; [done | by apply Hset].
Qed.

Lemma merge_total pairs r n :
  report_ok pairs r -> report_ok pairs n -> no_ruby n ->
  exists r', Report.merge r (Some n) true false = Ok r' /\ report_ok pairs r'.
Proof.
  intros Hr Hn Hrb. unfold Report.merge. destruct (Report.is_empty n); [eauto|].
  apply (foldM_total _ _ (fun f => ReportFile.file_ok pairs f /\
    ReportFile.rf_name f <> ""%string /\ endswith ".rb" (ReportFile.rf_name f) = false)); [| |done].
  - intros s f Hs (Hf & Hname). unfold Report.merge_step. rewrite bool_decide_eq_false_2 by apply Hname.
    destruct (append_total pairs s f Hs Hf Hname) as (b & s' & -> & Hs'). cbn. eauto.
  - apply Forall_forall. intros f ([k g] & -> & Hin)%list_elem_of_fmap. cbn [snd].
    destruct Hn as [(_ & Wf & Wn) Hfs]. rewrite Forall_forall in Hfs. destruct (Hfs _ Hin) as [Hg _].
    apply od_elem_get in Hin as Hk; [|done]. rewrite (Wn _ _ Hk). split; [done|].
    unfold no_ruby in Hrb. rewrite Forall_forall in Hrb. apply Hrb.
    by apply (list_elem_of_fmap_2 fst _ (k, g)).
Qed.

Lemma rename_in_file_total pairs old_id new_id f :
  ReportFile.file_ok pairs f -> exists f', Report.rename_in_file old_id new_id f = Ok f'.
Proof.
  intros [Hr Hls]. unfold Report.rename_in_file. rewrite ReportFile.force_parsed by done.
  cbn [mbind result_bind].
  destruct (traverse_total (Report.rename_in_slot old_id new_id) (ReportFile.slot_ok pairs)
    (ReportFile.rf_parsed_lines f)) as [ls ->]; [|done | cbn; eauto].
  intros s (o & Ho & _). unfold Report.rename_in_slot, ReportFile.read_slot in *.
  destruct (ReportFile.slot_truthy s); [|eauto]. apply bind_Ok_inv in Ho as (l & -> & _). cbn. eauto.
Qed.

Lemma change_sessionid_total pairs r old_id new_id :
  report_ok pairs r -> is_Some (od_get old_id (Report.r_sessions r)) ->
  exists r', Report.change_sessionid r old_id new_id = Ok r'.
Proof.
  intros [_ Hf] [s Hs]. unfold Report.change_sessionid, od_pop. rewrite Hs. cbn [mbind result_bind].
  edestruct (traverse_total (fun kf : string * ReportFile.t =>
      f ← Report.rename_in_file old_id new_id kf.2; Ok (kf.1, f))
    (fun kf => ReportFile.file_ok pairs kf.2 /\ kf.1 <> ""%string) (Report.r_files r))
    as [fs ->]; [|done | cbn; eauto].
  intros kf [Hkf _]. destruct (rename_in_file_total pairs old_id new_id kf.2 Hkf) as [f' ->]. cbn. eauto.
Qed.
End facts.

(** ** Properties *)

(** C4: merging into a well-formed report another one, none of whose files is a Ruby
    ([.rb]) one, succeeds with the default arguments ([joined] true, the sessions not
    known to be disjoint): the report stays well formed, its sessions are those it had,
    and every line of every file is the merge of the two lines there. *)
Theorem report_merge_correct `{OrJson} pairs r n :
  report_ok pairs r -> report_ok pairs n -> no_ruby n ->
  exists r', Report.merge r (Some n) true false = Ok r' /\ report_ok pairs r' /\
    Report.r_sessions r' = Report.r_sessions r /\
    forall path ln, 1 <= ln ->
      line_at r' path ln = (x ← line_at r path ln; y ← line_at n path ln; merge_line x y true false).
Proof.
  intros Hr Hn Hrb. destruct (merge_total pairs r n Hr Hn Hrb) as (r' & Hm & Hr').
  exists r'. split_and!; [done | done | by eapply merge_sessions_kept |]. intros path ln Hln.
  apply (merge_lines r n true false); [done | apply Hr | apply Hn | | done].
  unfold no_ruby in Hrb. rewrite Forall_forall in Hrb. apply Hrb.
Qed.

Definition example_session (flags : list string) : Session :=
  mkSess None None VNone VNone (Some flags) VNone VNone VNone VNone VNone VNone None uploaded [].
Definition example_report : Report.t :=
  Report.mkReport [(0, example_session ["unit"%string]); (1, example_session ["web"%string])] None
    [("a.py"%string, ReportFile.example_file)] None.

Lemma example_report_ok `{OrJson} : report_ok false example_report.
Proof.
  split; [split; [|split]|].
  - apply (bool_decide_unpack _). vm_compute. exact I.
  - apply NoDup_singleton.
  - intros p f. cbn. case_decide; [by intros [= <-]; subst | done].
  - constructor; [split; [apply ReportFile.example_file_ok | done] | constructor].
Qed.

Lemma report_merge_correct_witness :
  exists r', @Report.merge codec example_report (Some example_report) true false = Ok r' /\
    @report_ok codec false r' /\ Report.r_sessions r' = Report.r_sessions example_report /\
    forall path ln, 1 <= ln -> @line_at codec r' path ln =
      (x ← @line_at codec example_report path ln; y ← @line_at codec example_report path ln;
       merge_line x y true false).
Proof.
  apply (@report_merge_correct codec false example_report example_report);
    [apply example_report_ok | apply example_report_ok | repeat constructor; done].
Defined.

(** The number of a new session is the first one from the number of sessions
    upwards that no session has; the search ends with it. *)
Theorem next_session_number_first_free (r : Report.t) :
  Z.of_nat (length (Report.r_sessions r)) <= Report.next_session_number r /\
  Report.next_session_number r ∉ od_keys (Report.r_sessions r) /\
  forall k, Z.of_nat (length (Report.r_sessions r)) <= k < Report.next_session_number r ->
    k ∈ od_keys (Report.r_sessions r).
Proof. apply next_session_fresh. Qed.

(** Renumbering a session of a well-formed report succeeds, moves the session to
    the new id, which it takes as its own, and renames the id in the sessions of every
    line of every file; nothing else of a line changes. *)
Theorem change_sessionid_correct `{OrJson} pairs r old_id new_id s :
  report_ok pairs r -> od_get old_id (Report.r_sessions r) = Some s ->
  exists r', Report.change_sessionid r old_id new_id = Ok r' /\ report_wf r' /\
    (forall i, od_get i (Report.r_sessions r') =
       if decide (i = new_id) then Some (Report.set_id new_id s)
       else if decide (i = old_id) then None else od_get i (Report.r_sessions r)) /\
    forall path ln, 1 <= ln ->
      line_at r' path ln =
      fmap (M := result) (fmap (M := option) (rename_line old_id new_id)) (line_at r path ln).
Proof.
  intros Hr Hs. destruct (change_sessionid_total pairs r old_id new_id Hr) as [r' Hc]; [by rewrite Hs|].
  destruct (change_sessionid_run r old_id new_id r' Hc) as (Hwf & (s' & Hs' & Hss) & Hl); [apply Hr|].
  exists r'. split_and!; try done. rewrite Hs in Hs'. by injection Hs' as <-.
Qed.

Lemma change_sessionid_correct_witness :
  exists r', @Report.change_sessionid codec example_report 1 7 = Ok r' /\ report_wf r' /\
    (forall i, od_get i (Report.r_sessions r') =
       if decide (i = 7) then Some (Report.set_id 7 (example_session ["web"%string]))
       else if decide (i = 1) then None else od_get i (Report.r_sessions example_report)) /\
    forall path ln, 1 <= ln ->
      @line_at codec r' path ln =
      fmap (M := result) (fmap (M := option) (rename_line 1 7)) (@line_at codec example_report path ln).
Proof.
  apply (@change_sessionid_correct codec false example_report 1 7);
    [apply example_report_ok | reflexivity].
Defined.

(** Merging files whose sessions do not meet in two phases, concatenating the
    sessions of each line first and computing coverage and complexity of the merged
    lines in [finish_merge], gives the file the ordinary merge gives. *)
Theorem two_phase_merge_equiv `{OrJson} pairs f g :
  ReportFile.rf_raw_lines f = None -> ReportFile.rf_raw_lines g = None ->
  endswith ".rb" (ReportFile.rf_name f) = false ->
  Forall (covered pairs) (ReportFile.rf_parsed_lines f) ->
  Forall (covered pairs) (ReportFile.rf_parsed_lines g) ->
  disjoint_slots (ReportFile.rf_parsed_lines f) (ReportFile.rf_parsed_lines g) ->
  exists m, ReportFile.merge f (Some g) true false = Ok (Some true, m) /\
    ('(_, m1) ← ReportFile.merge f (Some g) true true; Report.finish_file m1) = Ok m.
Proof. apply two_phase_file. Qed.

Definition example_file2 : ReportFile.t :=
  ReportFile.with_lines [ReportFile.SLine ReportFile.example_line; ReportFile.SLine ReportFile.example_line]
    ReportFile.example_file.

Lemma example_covered `{OrJson} f :
  f = ReportFile.example_file \/ f = example_file2 ->
  Forall (covered false) (ReportFile.rf_parsed_lines f).
Proof.
  assert (Hl : forall l, line_ok false l -> rl_coverage l <> CNone -> covered false (ReportFile.SLine l)).
  { intros l Hl Hc. by exists (Some l). }
  intros [-> | ->]; [destruct ReportFile.example_file_ok as [_ Hok] |].
  - apply Forall_cons in Hok as [H1 (_ & [H3 _]%Forall_cons)%Forall_cons].
    repeat (apply Forall_cons; split); [|by exists None| |constructor];
      apply Hl; try done; [destruct H1 as (o & [= <-] & ?) | destruct H3 as (o & [= <-] & ?)]; done.
  - repeat constructor; apply Hl; try done; apply ReportFile.example_line_ok.
Qed.

Lemma two_phase_merge_equiv_witness :
  exists m, @ReportFile.merge codec ReportFile.example_file (Some example_file2) true false = Ok (Some true, m) /\
    ('(_, m1) ← @ReportFile.merge codec ReportFile.example_file (Some example_file2) true true;
     Report.finish_file m1) = Ok m.
Proof.
  apply (@two_phase_merge_equiv codec false ReportFile.example_file example_file2);
    [reflexivity | reflexivity | reflexivity | apply example_covered; by left
    | apply example_covered; by right |].
  intros [|[|n]] x y i Hx Hy; [injection Hx as <-; injection Hy as <- ..|done];
    cbn; set_solver by lia.
Defined.

(** Deleting sessions from a report drops them from the sessions, resets the
    totals, and leaves each file without them, except that a file whose remaining
    lines count nothing is dropped. *)
Theorem report_delete_sessions `{OrJson} r del r' :
  Report.delete_multiple_sessions r del = Ok r' -> report_wf r ->
  report_wf r' /\ Report.r_totals r' = None /\
  (forall i, od_get i (Report.r_sessions r') =
     if decide (i ∈ del) then None else od_get i (Report.r_sessions r)) /\
  forall p, match Report.get r p with
            | None => Report.get r' p = None
            | Some f => exists f' tot, ReportFile.delete_multiple_sessions f del = Ok f' /\
                ReportFile.totals f' = Ok tot /\
                Report.get r' p = if 0 <? rt_lines tot then Some f' else None
            end.
Proof. apply delete_sessions_run. Qed.

Lemma report_delete_sessions_witness :
  exists r', @Report.delete_multiple_sessions codec example_report {[0]} = Ok r' /\
    report_wf r' /\ od_get 0 (Report.r_sessions r') = None.
Proof.
  destruct (@Report.delete_multiple_sessions codec example_report {[0]}) as [r'|e] eqn:E.
  - exists r'. split; [reflexivity|].
    destruct (@report_delete_sessions codec example_report {[0]} r' E) as (Hwf & _ & Hs & _);
      [apply (@example_report_ok codec) | split; [exact Hwf | apply (Hs 0)]].
  - exfalso. vm_compute in E. discriminate E.
Defined.

(** Renaming a file takes it off its old name and, when the new name is not empty,
    puts it under the new one with that name; other files stay. *)
Theorem report_rename `{OrJson} r old new r' :
  Report.rename r old new = Ok r' -> report_wf r ->
  report_wf r' /\
  exists f, Report.get r old = Some f /\
    forall p, Report.get r' p =
      match new with
      | Some n => if bool_decide (n = EmptyString) then (if decide (p = old) then None else Report.get r p)
                  else if decide (p = n) then Some (ReportFile.with_name n f)
                  else if decide (p = old) then None else Report.get r p
      | None => if decide (p = old) then None else Report.get r p
      end.
Proof. apply rename_run. Qed.

Lemma report_rename_witness :
  exists r', Report.rename example_report "a.py" (Some "b.py"%string) = Ok r' /\ report_wf r' /\
    exists f, Report.get example_report "a.py" = Some f /\
      forall p, Report.get r' p =
        if bool_decide ("b.py"%string = EmptyString)
        then (if decide (p = "a.py"%string) then None else Report.get example_report p)
        else if decide (p = "b.py"%string) then Some (ReportFile.with_name "b.py" f)
        else if decide (p = "a.py"%string) then None else Report.get example_report p.
Proof.
  eexists; split; [reflexivity|].
  apply (@report_rename codec example_report "a.py" (Some "b.py"%string));
    [reflexivity | apply (@example_report_ok codec)].
Defined.
