(* ===== verification/Filtered.v ===== *)
(** * [shared/reports/filtered.py] and [shared/helpers/flag.py]: views of a report

    A filtered report shows the files its path patterns match and, when it has
    flags, only the sessions that carry one of them.  Like the report, it
    implements the protocols of [diff.py]. *)
From S2P Require Export Resources Match.
From S2P Require Import JsonCodec.
#[local] Open Scope string_scope.
#[local] Open Scope Z_scope.
#[local] Open Scope list_scope.

(** [len(set(expected_flags) & set(actual_flags)) > 0], false on [None]. *)
Definition contain_any_of_the_flags (expected_flags actual_flags : option (list string)) : bool :=
  match expected_flags, actual_flags with
  | Some e, Some a => existsb (fun f => bool_decide (f ∈ a)) e
  | _, _ => false
  end.

Arguments contain_any_of_the_flags : simpl never.

(** ** Files *)
Module FilteredReportFile.
Record t : Type := mkFilteredFile { ff_report_file : ReportFile.t; ff_session_ids : gset Z }.

Section ops.
Context `{OrJson}.

Definition line_modifier (f : t) (line : ReportLine) : result (option ReportLine) :=
  let new_sessions := filter (fun s => ls_id s ∈ ff_session_ids f) (rl_sessions line) in
  if (length new_sessions =? 0)%nat then Ok None
  else
    new_coverage ← merge_all (ls_coverage <$> new_sessions) MNone;
    x ← get_complexity_from_sessions new_sessions;
    Ok (Some (mkLine new_coverage (rl_type line) new_sessions x)).

Definition name (f : t) : string := ReportFile.rf_name (ff_report_file f).
Definition eof (f : t) : result Z := ReportFile.eof (ff_report_file f).

Definition lines (f : t) : result (list (Z * ReportLine)) :=
  ls ← ReportFile.lines (ff_report_file f);
  ms ← traverse (fun kl : Z * ReportLine =>
                   o ← line_modifier f kl.2;
                   Ok (match o with Some l => Some (kl.1, l) | None => None end)) ls;
  Ok (present ms).

Definition totals (f : t) : result ReportTotals := ls ← lines f; get_line_totals ls.*2.

Definition get (f : t) (ln : Z) : result (option ReportLine) :=
  o ← ReportFile.get (ff_report_file f) ln;
  match o with Some l => line_modifier f l | None => Ok None end.

(** The class defines neither [__bool__] nor [__len__]. *)
#[global] Instance abstract_file : AbstractReportFile t := {
  arf_get := get;
  arf_bool := fun _ => Ok true;
}.

Definition calculate_diff (f : t) (segments : list DiffSegment) : result ReportTotals :=
  calculate_file_diff f segments.
End ops.
End FilteredReportFile.

(** ** Reports *)
Module FilteredReport.
Record t : Type := mkFiltered {
  fr_report : Report.t;
  fr_path_patterns : option (list string);
  fr_flags : option (list string);
}.

(** What [get] returns: a file of the report, or a filtered view of one. *)
Inductive file : Type := Whole (f : ReportFile.t) | View (f : FilteredReportFile.t).

Section ops.
Context `{OrJson} `{Re}.

Definition no_flags (r : t) : bool := match fr_flags r with Some (_ :: _) => false | _ => true end.

Definition session_ids_to_include (r : t) : gset Z :=
  if no_flags r then list_to_set (od_keys (Report.r_sessions (fr_report r)))
  else list_to_set
    (fst <$> filter (fun ks => contain_any_of_the_flags (fr_flags r) (se_flags ks.2) = true)
               (Report.r_sessions (fr_report r))).

Definition should_include (r : t) (filename : string) : result bool :=
  matcher_match (fr_path_patterns r) filename.

Definition get (r : t) (filename : string) : result (option file) :=
  b ← should_include r filename;
  if (b : bool) then
    if no_flags r then Ok (Whole <$> Report.get (fr_report r) filename)
    else
      match Report.get (fr_report r) filename with
      | None => Ok None
      | Some f => Ok (Some (View (FilteredReportFile.mkFilteredFile f (session_ids_to_include r))))
      end
  else Ok None.

Definition file_get (f : file) (ln : Z) : result (option ReportLine) :=
  match f with Whole f => ReportFile.get f ln | View f => FilteredReportFile.get f ln end.
Definition file_totals (f : file) : result ReportTotals :=
  match f with Whole f => ReportFile.totals f | View f => FilteredReportFile.totals f end.
Definition file_bool (f : file) : result bool :=
  match f with Whole f => ReportFile.__bool__ f | View _ => Ok true end.

#[global] Instance abstract_file : AbstractReportFile file := {
  arf_get := file_get;
  arf_bool := file_bool;
}.
#[global] Instance abstract_report : AbstractReport t file := { ar_get := get }.

Fixpoint filterM (p : string -> result bool) (l : list string) : result (list string) :=
  match l with
  | [] => Ok []
  | x :: l' => b ← p x; r ← filterM p l'; Ok (if (b : bool) then x :: r else r)
  end.

Definition files (r : t) : result (list string) :=
  filterM (should_include r) (Report.files (fr_report r)).

(** [not any(...)]: stops at the first file that is included. *)
Definition is_empty (r : t) : result bool :=
  (fix go l := match l with
               | [] => Ok true
               | x :: l' => b ← should_include r x; if (b : bool) then Ok false else go l'
               end) (Report.files (fr_report r)).

(** The totals are those of the whole file, whatever the flags. *)
Definition get_file_totals (r : t) (path : string) : result (option ReportTotals) :=
  b ← should_include r path;
  if (b : bool) then Report.get_file_totals (fr_report r) path else Ok None.

Definition network (r : t) : result (list (string * NetworkFile)) :=
  l ← traverse (fun fname =>
        o ← get r fname;
        match o with
        | Some f =>
            b ← file_bool f;
            if (b : bool) then tot ← file_totals f; Ok (Some (fname, mkNetworkFile tot None)) else Ok None
        | None => Ok None
        end) (Report.files (fr_report r));
  Ok (present l).

Definition _iter_totals (r : t) : result (list (option ReportTotals)) :=
  traverse (fun filename =>
    o ← get r filename;
    match o with
    | Some f => tot ← file_totals f; Ok (if 0 <? rt_lines tot then Some tot else None)
    | None => Ok None
    end) (Report.files (fr_report r)).

Definition _process_totals (r : t) : result ReportTotals :=
  ts ← _iter_totals r;
  tot ← agg_totals ts;
  Ok (Report.set_sessions (Z.of_nat (size (session_ids_to_include r))) tot).

Definition totals (r : t) : result ReportTotals := _process_totals r.

Definition __iter__ (r : t) : result (list file) :=
  l ← traverse (fun f =>
        b ← should_include r (ReportFile.rf_name f);
        if (b : bool) then
          Ok (Some (if no_flags r then Whole f
                    else View (FilteredReportFile.mkFilteredFile f (session_ids_to_include r))))
        else Ok None) (od_vals (Report.r_files (fr_report r)));
  Ok (present l).

Definition calculate_diff (r : t) (d : RawDiff) : result CalculatedDiff :=
  calculate_report_diff (F := file) r d.

(** Only the diff is updated. *)
Definition save_diff_calculation (d : RawDiff) (c : CalculatedDiff) : result RawDiff :=
  dfs ← foldM Report.save_file_totals (d_files d) (cd_files c);
  Ok (mkDiff dfs (Some (cd_general c))).

Definition apply_diff (r : t) (d : option RawDiff) (_save : bool)
    : result (option ReportTotals * option RawDiff) :=
  match d with
  | None => Ok (None, d)
  | Some diff =>
      if (length (d_files diff) =? 0)%nat then Ok (None, d)
      else
        c ← calculate_diff r diff;
        if _save then diff' ← save_diff_calculation diff c; Ok (Some (cd_general c), Some diff')
        else Ok (Some (cd_general c), d)
  end.
End ops.
End FilteredReport.

Section filtered.
Context `{OrJson} `{Re}.

(** [Report.filter]: the report itself without patterns and flags. *)
Definition filter_report (r : Report.t) (paths flags : option (list string))
    : Report.t + FilteredReport.t :=
  match paths, flags with
  | None, None => inl r
  | _, _ => inr (FilteredReport.mkFiltered r paths flags)
  end.

(** ** Flags *)

Definition flag_report (r : Report.t) (name : string) : FilteredReport.t :=
  FilteredReport.mkFiltered r None (Some [name]).
Definition flag_totals (r : Report.t) (name : string) : result ReportTotals :=
  FilteredReport.totals (flag_report r name).
Definition flag_apply_diff (r : Report.t) (name : string) (d : option RawDiff)
    : result (option ReportTotals) :=
  '(t, _) ← FilteredReport.apply_diff (flag_report r name) d false; Ok t.

(** ** Facts *)

Import FilteredReportFile.

(** A line of a view: the line with the included sessions, if any. *)
Lemma line_modifier_run f line :
  Forall (fun s => plain_cov (ls_coverage s)) (rl_sessions line) ->
  (exists pairs, Forall (fun s => cplx_kind pairs (ls_complexity s) = true) (rl_sessions line)) ->
  let kept := filter (fun s => ls_id s ∈ ff_session_ids f) (rl_sessions line) in
  (kept = [] /\ line_modifier f line = Ok None) \/
  (kept <> [] /\ exists c x, line_modifier f line = Ok (Some (mkLine c (rl_type line) kept x)) /\
     plain_cov c /\ line_type c = Ok (join_types (type_of <$> (ls_coverage <$> kept)))).
Proof.
  intros Hp [pairs Hc] kept. unfold line_modifier. fold kept.
  destruct (decide (kept = [])) as [->|Hne]; [by left|]. right. split; [done|].
  destruct kept as [|s ss] eqn:Ek; [done|]. cbn [length Nat.eqb]. rewrite <- Ek in *.
  assert (Hp' : Forall plain_cov (ls_coverage <$> kept)).
  { apply Forall_fmap. unfold kept. apply Forall_forall. intros y [_ Hy]%list_elem_of_filter.
    rewrite Forall_forall in Hp. by apply Hp. }
  destruct (merge_all_join (ls_coverage <$> kept) MNone) as (c & -> & Hpc & Ht);
    [by rewrite Ek | done | done |]. cbn [mbind result_bind].
  assert (Hx : exists x, get_complexity_from_sessions kept = Ok x).
  { assert (Hc' : Forall (fun s => cplx_kind pairs (ls_complexity s) = true) kept).
    { unfold kept. apply Forall_forall. intros y [_ Hy]%list_elem_of_filter.
      rewrite Forall_forall in Hc. by apply Hc. }
    rewrite Ek in *. unfold get_complexity_from_sessions. pose proof Hc' as [Hs _]%Forall_cons.
    destruct (ls_complexity s) as [|z|a b]; [eauto|..].
    - destruct (traverse_total (fun s => cx_or_0 (ls_complexity s))
        (fun s => cplx_kind pairs (ls_complexity s) = true) (s :: ss)) as [l ->];
        [|done | cbn; eauto].
      intros y Hy. destruct (ls_complexity y); cbn in *; eauto. by destruct pairs.
    - destruct (traverse_total (fun s => cx_or_00 (ls_complexity s))
        (fun s => cplx_kind pairs (ls_complexity s) = true) (s :: ss)) as [l ->];
        [|done | cbn; eauto].
      intros y Hy. destruct (ls_complexity y); cbn in *; eauto. by destruct pairs. }
  destruct Hx as [x ->]. cbn [mbind result_bind]. eauto 10.
Qed.

Lemma contain_any_spec e a :
  contain_any_of_the_flags (Some e) (Some a) = true <-> exists f, f ∈ e /\ f ∈ a.
Proof.
  unfold contain_any_of_the_flags. rewrite existsb_exists. setoid_rewrite bool_decide_eq_true. setoid_rewrite list_elem_of_In.
  done.
Qed.

(** [lines] and [get] of a view agree. *)
Lemma filtered_lines_get f ls ln l :
  lines f = Ok ls -> (ln, l) ∈ ls <-> 1 <= ln /\ get f ln = Ok (Some l).
Proof.
  unfold lines. intros Hl. apply bind_Ok_inv in Hl as (kls & Hkls & Hl).
  apply bind_Ok_inv in Hl as (ms & Hms & [= <-]). apply traverse_Forall2 in Hms.
  transitivity (exists l0, (ln, l0) ∈ kls /\ line_modifier f l0 = Ok (Some l)).
  - unfold present. rewrite list_elem_of_omap. unfold id. split.
    + intros (o & Hin & ->). apply list_elem_of_lookup in Hin as [i Hi].
      destruct (Forall2_lookup_r _ _ _ _ _ Hms Hi) as ([k l0] & Hk & Hrun). cbn in Hrun.
      apply bind_Ok_inv in Hrun as (o & Ho & Hrun). destruct o as [l1|]; [|done].
      injection Hrun as -> ->. exists l0. split; [by eapply list_elem_of_lookup_2 | done].
    + intros (l0 & Hin & Hm). apply list_elem_of_lookup in Hin as [i Hi].
      destruct (Forall2_lookup_l _ _ _ _ _ Hms Hi) as (o & Ho & Hrun). cbn in Hrun.
      rewrite Hm in Hrun. injection Hrun as <-. eexists. split; [by eapply list_elem_of_lookup_2 | done].
  - split.
    + intros (l0 & Hin & Hm). apply (ReportFile.lines_elem _ _ ln l0 Hkls) in Hin as [Hln Hg].
      split; [done|]. unfold get. by rewrite Hg.
    + intros [Hln Hg]. unfold get in Hg. apply bind_Ok_inv in Hg as ([l0|] & Hg & Hm); [|done].
      exists l0. split; [by apply (ReportFile.lines_elem _ _ ln l0 Hkls) | done].
Qed.
End filtered.

(** ** Properties *)

Import FilteredReportFile.

(** The lines a flag view of a well-formed file lists are, in pairs with their
    numbers, the lines of the file that have a session of the view, each with just
    those sessions, a coverage whose type is the join of theirs, and the line's type. *)
Theorem filtered_file_lines `{OrJson} pairs f :
  ReportFile.file_ok pairs (ff_report_file f) ->
  exists ls, FilteredReportFile.lines f = Ok ls /\
    forall ln l, (ln, l) ∈ ls <->
      1 <= ln /\ exists l0 c x, ReportFile.get (ff_report_file f) ln = Ok (Some l0) /\
        FilteredReportFile.get f ln = Ok (Some l) /\
        let kept := filter (fun s => ls_id s ∈ ff_session_ids f) (rl_sessions l0) in
        kept <> [] /\ l = mkLine c (rl_type l0) kept x /\
        line_type c = Ok (join_types (type_of <$> (ls_coverage <$> kept))).
Proof.
  intros Hf. destruct (ReportFile.file_ok_lines pairs _ Hf) as (kls & Hkls & Hok).
  assert (Hmod : forall l0, line_ok pairs l0 ->
    let kept := filter (fun s => ls_id s ∈ ff_session_ids f) (rl_sessions l0) in
    (kept = [] /\ line_modifier f l0 = Ok None) \/
    (kept <> [] /\ exists c x, line_modifier f l0 = Ok (Some (mkLine c (rl_type l0) kept x)) /\
      plain_cov c /\ line_type c = Ok (join_types (type_of <$> (ls_coverage <$> kept))))).
  { intros l0 (_ & _ & Hss). apply line_modifier_run; [|exists pairs];
      (eapply Forall_impl; [exact Hss|]); by intros s (? & _ & ?). }
  assert (Hls : exists ls, FilteredReportFile.lines f = Ok ls).
  { unfold FilteredReportFile.lines. rewrite Hkls. cbn [mbind result_bind].
    edestruct (traverse_total (fun kl : Z * ReportLine => o ← line_modifier f kl.2;
        Ok (match o with Some l => Some (kl.1, l) | None => None end))
      (fun kl => 1 <= kl.1 /\ line_ok pairs kl.2) kls) as [ms ->]; [|done | cbn; eauto].
    intros kl [_ Hl]. destruct (Hmod _ Hl) as [[_ ->]|(_ & c & x & -> & _)]; cbn; eauto. }
  destruct Hls as [ls Hls]. exists ls. split; [done|]. intros ln l.
  rewrite (filtered_lines_get f ls ln l Hls). split.
  - intros [Hln Hg]. split; [done|]. pose proof Hg as Hg'. unfold FilteredReportFile.get in Hg.
    apply bind_Ok_inv in Hg as ([l0|] & Hl0 & Hm); [|done].
    assert (Hin : (ln, l0) ∈ kls) by by apply (ReportFile.lines_elem _ _ ln l0 Hkls).
    rewrite Forall_forall in Hok. destruct (Hok _ Hin) as [_ Hl0ok]. cbn [snd] in Hl0ok.
    destruct (Hmod _ Hl0ok) as [[_ E]|(Hne & c & x & E & _ & Ht)]; rewrite E in Hm; [done|].
    injection Hm as <-. exists l0, c, x. done.
  - intros (Hln & l0 & c & x & _ & Hg & _). done.
Qed.

Lemma filtered_file_lines_witness :
  let f := mkFilteredFile ReportFile.example_file {[1]} in
  exists ls, @FilteredReportFile.lines codec f = Ok ls /\
    forall ln l, (ln, l) ∈ ls <->
      1 <= ln /\ exists l0 c x, @ReportFile.get codec (ff_report_file f) ln = Ok (Some l0) /\
        @FilteredReportFile.get codec f ln = Ok (Some l) /\
        let kept := filter (fun s => ls_id s ∈ ff_session_ids f) (rl_sessions l0) in
        kept <> [] /\ l = mkLine c (rl_type l0) kept x /\
        line_type c = Ok (join_types (type_of <$> (ls_coverage <$> kept))).
Proof.
  intros f. apply (@filtered_file_lines codec false f). apply ReportFile.example_file_ok.
Defined.
