(* ===== verification/Serde.v ===== *)
(** * [shared/reports/serde.py]: the report file

    A report is written as a JSON document and as the text of its chunks, one
    per file, separated by [END_OF_CHUNK]; each chunk is a line of details and a
    line per line of the file.  [load_report] is how the workers read the two
    back ([processing/intermediate.py]). *)
From S2P Require Export ReportSpec.
From S2P Require Import JsonCodec.
#[local] Open Scope string_scope.
#[local] Open Scope Z_scope.
#[local] Open Scope list_scope.
Import ReportFile Report.

Section serde.
Context `{OrJson}.

(** [while lst[-1] is None: lst.pop(-1)]: an [IndexError] when all are [None]. *)
Fixpoint drop_none (l : list pyval) : list pyval :=
  match l with
  | [] => []
  | v :: l' =>
      match drop_none l' with
      | [] => if bool_decide (v = VNone) then [] else [v]
      | r => v :: r
      end
  end.

Definition _rstrip_none (l : list pyval) : result (list pyval) :=
  match drop_none l with [] => Err IndexError | r => Ok r end.

Definition _dumps_not_none (value : slot) : result string :=
  match value with
  | SList l => l' ← _rstrip_none l; Ok (json_dumps (VList l'))
  | SLine l => l' ← _rstrip_none (line_astuple l); Ok (json_dumps (VList l'))
  | SStr s => Ok (if bool_decide (s = "null") then "" else s)
  | SNone => Ok ""
  end.

Definition _encode_chunk (f : ReportFile.t) : result string :=
  match rf_raw_lines f with
  | Some raw => Ok raw
  | None =>
      d ← details f;
      ls ← _lines f;
      texts ← traverse _dumps_not_none ls;
      Ok (json_dumps (VDict d) +:+ nl +:+ join nl texts)
  end.

Definition val_of_totals (o : option ReportTotals) : pyval :=
  match o with Some t => VList (totals_astuple t) | None => VNone end.

(** [totals.diff = report.diff_totals]. *)
Definition set_diff (d : option ReportTotals) (t : ReportTotals) : ReportTotals :=
  mkTotals (rt_files t) (rt_lines t) (rt_hits t) (rt_misses t) (rt_partials t) (rt_coverage t)
    (rt_branches t) (rt_methods t) (rt_messages t) (rt_sessions t) (rt_complexity t)
    (rt_complexity_total t) (val_of_totals d).

Definition file_entry (with_totals : bool) (ikf : nat * ReportFile.t) : result (string * pyval) :=
  let '(i, f) := ikf in
  if with_totals then
    t ← ReportFile.totals f;
    Ok (rf_name f, VList [VInt (Z.of_nat i); val_of_totals (Some t); VNone;
                          val_of_totals (rf_diff_totals f)])
  else Ok (rf_name f, VList [VInt (Z.of_nat i); VNone]).

(** [list(enumerate(report._files.values()))]. *)
Definition indexed_files (r : Report.t) : list (nat * ReportFile.t) :=
  imap (fun i f => (i, f)) (od_vals (r_files r)).

Definition json_sessions (r : Report.t) : pyval :=
  VDict ((fun ks => (str_of_Z ks.1, encode_session ks.2)) <$> r_sessions r).

(** The document, before [orjson.dumps]. *)
Definition report_document (r : Report.t) (with_totals : bool) : result (pyval * option ReportTotals) :=
  tot ← (if with_totals then t ← Report.totals r; Ok (Some (set_diff (r_diff_totals r) t)) else Ok None);
  files ← traverse (file_entry with_totals) (indexed_files r);
  Ok (VDict [("files", VDict (od_of_list files)); ("sessions", json_sessions r);
             ("totals", val_of_totals tot)], tot).

Definition serialize_report (r : Report.t) (with_totals : bool)
    : result (string * string * option ReportTotals) :=
  chunks ← traverse _encode_chunk (od_vals (r_files r));
  '(doc, tot) ← report_document r with_totals;
  Ok (json_dumps doc, join END_OF_CHUNK chunks, tot).

(** ** Loading *)

(** [summary[0]], [summary[1]] and [summary[3]] of a file. *)
Definition totals_of_val (v : pyval) : result (option (ReportTotals + list pyval)) :=
  match v with VNone => Ok None | VList l => Ok (Some (inr l)) | _ => Err Unmodelled end.

Definition summary_of_val (kv : string * pyval) : result (string * file_summary) :=
  match kv.2 with
  | VList (VInt i :: t :: rest) =>
      t ← totals_of_val t;
      d ← totals_of_val (default VNone (rest !! 1%nat));
      Ok (kv.1, mkSummary i t d)
  | VList _ => Err IndexError
  | _ => Err Unmodelled
  end.

Definition session_arg (kv : string * pyval) : result (pyval * (Session + odict string pyval)) :=
  match kv.2 with VDict d => Ok (VStr kv.1, inr d) | _ => Err TypeError end.

Definition as_dict (v : pyval) : result (odict string pyval) :=
  match v with VDict d => Ok d | _ => Err Unmodelled end.

(** [Report.from_chunks(chunks=..., files=report_json["files"],
    sessions=report_json["sessions"], totals=report_json.get("totals"))]. *)
Definition load_report (report_json chunks : string) : result Report.t :=
  doc ← json_loads report_json;
  fs ← get_item doc "files";
  ss ← get_item doc "sessions";
  tot ← dict_get doc "totals" VNone;
  fs ← as_dict fs;
  fs ← traverse summary_of_val fs;
  ss ← as_dict ss;
  ss ← traverse session_arg ss;
  Report.init fs ss (inr tot) (ChText chunks) None.
End serde.

(** ** The separators are found where they were put *)

(** No line but the first starts with [<]. *)
Fixpoint no_marker (s : string) : bool :=
  match s with
  | EmptyString => true
  | String c s' => negb (bool_decide (c = LF) && opens_with "<"%char s') && no_marker s'
  end.

Definition marker (m : string) : string := String LF (String "<" m).

Lemma opens_with_app c p q :
  p <> "" -> opens_with c (p +:+ q) = opens_with c p.
Proof. by destruct p. Qed.

Lemma partition_skip m p q :
  no_marker p = true -> opens_with "<"%char q = false ->
  partition (marker m) (p +:+ q) =
  match partition (marker m) q with Some (a, b) => Some (p +:+ a, b) | None => None end.
Proof.
  intros Hp Hq. induction p as [|c p IH]; cbn [String.append].
  { by destruct (partition _ q) as [[a b]|]. }
  cbn [no_marker] in Hp. apply andb_true_iff in Hp as [Hc Hp].
  assert (Hpre : String.prefix (marker m) (String c (p +:+ q)) = false).
  { destruct (String.prefix _ _) eqn:E; [|done]. apply prefix_spec in E as [r E].
    unfold marker in E. cbn in E. injection E as -> E. rewrite bool_decide_eq_true_2 in Hc by done.
    destruct p as [|c' p]; cbn in E.
    - rewrite E in Hq. cbn in Hq. by rewrite bool_decide_eq_true_2 in Hq.
    - injection E as -> _. cbn in Hc. by rewrite bool_decide_eq_true_2 in Hc. }
  cbn [partition]. rewrite Hpre, (IH Hp). by destruct (partition _ q) as [[a b]|].
Qed.

Lemma no_marker_no_LF s : without LF s = true -> no_marker s = true.
Proof.
  induction s as [|c s IH]; [done|]. cbn. intros [Hc Hs]%andb_true_iff.
  rewrite (IH Hs), andb_true_r. apply negb_true_iff in Hc. apply bool_decide_eq_false in Hc.
  by rewrite bool_decide_eq_false_2 by congruence.
Qed.

Lemma no_linebreak_LF s : no_linebreak s = true -> without LF s = true.
Proof.
  apply str_forallb_impl. intros c Hc. apply negb_true_iff, bool_decide_eq_false.
  by intros <-.
Qed.

Lemma no_marker_nl a b :
  without LF a = true -> no_marker b = true -> opens_with "<"%char b = false ->
  no_marker (a +:+ nl +:+ b) = true.
Proof.
  intros Ha Hb Ho. induction a as [|c a IH].
  - cbn. by rewrite Ho, Hb, andb_false_r.
  - cbn [String.append no_marker]. cbn [without str_forallb] in Ha. apply andb_true_iff in Ha as [Hc Ha]. rewrite (IH Ha), andb_true_r.
    apply negb_true_iff, bool_decide_eq_false in Hc. by rewrite bool_decide_eq_false_2 by congruence.
Qed.

(** A line of a chunk. *)
Definition chunk_line (l : string) : Prop :=
  no_linebreak l = true /\ opens_with "<"%char l = false.

Lemma join_nl_safe ls :
  Forall chunk_line ls -> no_marker (join nl ls) = true /\ opens_with "<"%char (join nl ls) = false.
Proof.
  induction 1 as [|l ls [Hl Ho] Hls [IH1 IH2]]; [done|].
  destruct ls as [|l' ls].
  - cbn. split; [|done]. by apply no_marker_no_LF, no_linebreak_LF.
  - change (join nl (l :: l' :: ls)) with (l +:+ nl +:+ join nl (l' :: ls)). split.
    + apply no_marker_nl; [by apply no_linebreak_LF | done | done].
    + destruct l; [done|]. by rewrite opens_with_app.
Qed.

(** A last empty line is not written. *)
Lemma splitlines_join_nl ls :
  Forall (fun l => no_linebreak l = true) ls ->
  splitlines (join nl ls) = if bool_decide (last ls = Some "") then removelast ls else ls.
Proof.
  induction 1 as [|l ls Hl Hls IH]; [done|]. destruct ls as [|l' ls].
  - clear IH. cbn. case_bool_decide as E.
    + by injection E as ->.
    + apply splitlines_no_break; [done|]. intros ->. by apply E.
  - change (join nl (l :: l' :: ls)) with (l +:+ nl +:+ join nl (l' :: ls)).
    rewrite splitlines_app_nl, IH by done.
    change (last (l :: l' :: ls)) with (last (l' :: ls)). by case_bool_decide.
Qed.

Lemma no_marker_none m c : no_marker c = true -> partition (marker m) c = None.
Proof. intros Hc. rewrite <- (str_app_nil_r c), partition_skip by done. done. Qed.

Lemma marker_chunk : END_OF_CHUNK = marker ("<<<< end_of_chunk >>>>>" +:+ nl).
Proof. done. Qed.
Lemma marker_header : END_OF_HEADER = marker ("<<<< end_of_header >>>>>" +:+ nl).
Proof. done. Qed.

Lemma partition_self sep r : partition sep (sep +:+ r) = Some ("", r).
Proof.
  destruct sep as [|c sep]; [by destruct r|]. cbn [String.append partition].
  change (String c (sep +:+ r)) with (String c sep +:+ r). rewrite prefix_app.
  f_equal. f_equal. apply (str_drop_app (String c sep) r).
Qed.

Definition chunk_safe (c : string) : Prop :=
  (no_marker c = true /\ opens_with "<"%char c = false) /\ c <> "".

Lemma split_chunks_join cs :
  cs <> [] -> Forall chunk_safe cs -> split END_OF_CHUNK (join END_OF_CHUNK cs) = cs.
Proof.
  intros Hne Hcs. apply split_join; [done | done | |].
  2: { eapply Forall_impl; [exact Hcs|]. intros c [[Hc _] _]. by apply no_marker_none. }
  eapply Forall_impl; [exact Hcs|]. intros c [[Hc _] _].
  rewrite marker_chunk, partition_skip by done.
  pose proof (partition_self END_OF_CHUNK "") as E. rewrite marker_chunk in E.
  rewrite str_app_nil_r in E. rewrite E. by rewrite str_app_nil_r.
Qed.

Lemma no_header cs : Forall chunk_safe cs -> partition END_OF_HEADER (join END_OF_CHUNK cs) = None.
Proof.
  induction 1 as [|c cs [[Hc Ho] _] Hcs IH]; [done|].
  destruct cs as [|c' cs]; [by apply no_marker_none|].
  change (join END_OF_CHUNK (c :: c' :: cs)) with (c +:+ END_OF_CHUNK +:+ join END_OF_CHUNK (c' :: cs)).
  set (rest := join END_OF_CHUNK (c' :: cs)) in *.
  rewrite marker_header, partition_skip, <- marker_header by done.
  assert (Hr : opens_with "<"%char rest = false).
  { apply Forall_cons in Hcs as [[[_ Ho'] _] _]. unfold rest.
    destruct cs as [|c'' cs]; [done|].
    change (join END_OF_CHUNK (c' :: c'' :: cs)) with (c' +:+ END_OF_CHUNK +:+ join END_OF_CHUNK (c'' :: cs)).
    destruct c'; [done|]. by rewrite opens_with_app. }
  set (body := "<<<<< end_of_chunk >>>>>" +:+ nl).
  change (END_OF_CHUNK +:+ rest) with (String LF (body +:+ rest)).
  assert (Hp : String.prefix END_OF_HEADER (String LF (body +:+ rest)) = false) by done.
  cbn [partition]. rewrite Hp.
  rewrite marker_header, partition_skip, <- marker_header by done. by rewrite IH.
Qed.

(** ** Lines *)

Lemma drop_none_lookup l i : default VNone (drop_none l !! i) = default VNone (l !! i).
Proof.
  revert i. induction l as [|v l IH]; intros i; [done|]. cbn [drop_none].
  destruct (drop_none l) as [|w r] eqn:E.
  - destruct i as [|i]; cbn [lookup list_lookup].
    + case_bool_decide; [by subst | done].
    + rewrite <- IH. by destruct (bool_decide _).
  - destruct i as [|i]; [done|]. cbn [lookup list_lookup]. apply IH.
Qed.

Lemma drop_none_length l : (length (drop_none l) <= length l)%nat.
Proof.
  induction l as [|v l IH]; [done|]. cbn [drop_none length].
  destruct (drop_none l); [case_bool_decide; cbn; lia | cbn in *; lia].
Qed.

Lemma line_of_drop_none l : (length l <= 6)%nat -> line_of_list (drop_none l) = line_of_list l.
Proof.
  intros Hl. pose proof (drop_none_length l). unfold line_of_list.
  rewrite !(proj2 (Nat.ltb_ge _ _)) by lia. by rewrite !drop_none_lookup.
Qed.

(** ** Round trip *)

Section roundtrip.
Context `{OrJsonLaws}.

Definition line_encodable (l : ReportLine) : bool :=
  line_no_frac l && negb (bool_decide (drop_none (line_astuple l) = [])) &&
  json_ok (VList (drop_none (line_astuple l))).

Definition slot_encodable (s : slot) : bool :=
  match s with
  | SNone => true
  | SStr t => bool_decide (t = "")
  | SLine l => line_encodable l
  | SList _ => false
  end.

Definition file_encodable (f : ReportFile.t) : Prop :=
  rf_raw_lines f = None /\ Forall (fun s => slot_encodable s = true) (rf_parsed_lines f) /\
  forall d, details f = Ok d -> json_ok (VDict d) = true.

Lemma opens_not_lt c s : opens_with c s = true -> c <> "<"%char -> opens_with "<"%char s = false.
Proof.
  destruct s as [|c' s]; [done|]. cbn. intros ->%bool_decide_eq_true Hc.
  by apply bool_decide_eq_false_2.
Qed.

(** A line of the file and its text read the same. *)
Lemma slot_text s :
  slot_encodable s = true ->
  exists t, _dumps_not_none s = Ok t /\ chunk_line t /\ read_slot (SStr t) = read_slot s.
Proof.
  destruct s as [|t|l|l]; cbn [slot_encodable]; intros Hs; [by exists ""| |done|].
  { apply bool_decide_eq_true in Hs as ->. by exists "". }
  unfold line_encodable in Hs. apply andb_true_iff in Hs as [[Hf Hn]%andb_true_iff Hj].
  apply negb_true_iff, bool_decide_eq_false in Hn.
  set (d := drop_none (line_astuple l)) in *.
  assert (Hd : _rstrip_none (line_astuple l) = Ok d).
  { unfold _rstrip_none. fold d. by destruct d. }
  cbn [_dumps_not_none]. rewrite Hd. cbn [mbind result_bind].
  pose proof (json_dumps_list d Hj) as Hl.
  eexists. split; [done|]. split.
  - split; [by apply json_dumps_one_line | by eapply opens_not_lt].
  - unfold read_slot. cbn [slot_truthy]. rewrite bool_decide_eq_false_2 by (intros E; by rewrite E in Hl).
    cbn [negb _line]. rewrite json_loads_dumps by done. cbn [mbind result_bind].
    unfold d. by rewrite line_of_drop_none, line_roundtrip by (done || (cbn; lia)).
Qed.

Lemma slots_text ls :
  Forall (fun s => slot_encodable s = true) ls ->
  exists ts, traverse _dumps_not_none ls = Ok ts /\ Forall chunk_line ts /\
    forall n, match ts !! n with Some t => read_slot (SStr t) | None => Ok None end =
              match ls !! n with Some s => read_slot s | None => Ok None end.
Proof.
  induction 1 as [|s ls Hs _ (ts & E & Hc & Hr)]; [by exists []|].
  destruct (slot_text s Hs) as (t & Et & Hct & Hrt). exists (t :: ts). cbn [traverse].
  rewrite Et, E. split; [done|]. split; [by constructor|]. intros [|n]; [exact Hrt | apply Hr].
Qed.

(** The texts and their split, a last empty line dropped, read the same. *)
Lemma split_texts_read ts n :
  Forall chunk_line ts ->
  match (SStr <$> splitlines (join nl ts)) !! n with Some s => read_slot s | None => Ok None end =
  match ts !! n with Some t => read_slot (SStr t) | None => Ok None end.
Proof.
  intros Hc. rewrite splitlines_join_nl by (eapply Forall_impl; [exact Hc|]; by intros l [? _]).
  case_bool_decide as El.
  - destruct (exists_last (l := ts)) as (ts' & t & ->); [by intros ->|].
    rewrite last_snoc in El. injection El as ->. rewrite removelast_last, list_lookup_fmap.
    destruct (decide (n < length ts')%nat).
    + rewrite lookup_app_l by done. by destruct (ts' !! n).
    + rewrite (lookup_ge_None_2 ts') by lia. cbn. rewrite lookup_app_r by lia.
      destruct (n - length ts')%nat; done.
  - rewrite list_lookup_fmap. by destruct (ts !! n).
Qed.

Lemma details_truthy f d : details f = Ok d -> truthy (VDict d) = true.
Proof.
  unfold details. intros Hd. apply bind_Ok_inv in Hd as (f' & _ & Hd).
  apply bind_Ok_inv in Hd as (s & _ & [= <-]). cbn. apply negb_true_iff, bool_decide_eq_false_2.
  destruct (rf_details f') as [|[k v] r]; cbn; [done|]. by case_decide.
Qed.

Lemma present_of_details_total f d :
  details f = Ok d -> exists p, present_of_details d None = Ok p.
Proof.
  unfold details. intros Hd. apply bind_Ok_inv in Hd as (f' & _ & Hd).
  apply bind_Ok_inv in Hd as (s & _ & [= <-]). unfold present_of_details. rewrite od_get_set_eq.
  cbn [default id from_option]. case_match; [|eauto].
  assert (E : traverse Z_of_val (VInt <$> sorted_ids s) = Ok (sorted_ids s)).
  { by apply traverse_roundtrip. }
  rewrite E. cbn. eauto.
Qed.

Lemma file_lines_total f :
  Forall (fun s => slot_encodable s = true) (rf_parsed_lines f) -> rf_raw_lines f = None ->
  exists d, details f = Ok d.
Proof.
  intros Hs Hr. unfold details, _present_sessions. rewrite !force_parsed by done.
  cbn [mbind result_bind]. rewrite force_parsed by done. cbn [mbind result_bind].
  destruct (rf_present f) as [p|]; [cbn; eauto|].
  unfold lines, _lines. rewrite force_parsed by done. cbn [mbind result_bind].
  destruct (numbered_total 1 (rf_parsed_lines f)) as [kls ->]; [|cbn; eauto].
  eapply Forall_impl; [exact Hs|]. intros s Hok. destruct (slot_text s Hok) as (t & _ & _ & E).
  destruct s as [|t'|l|l]; try done. cbn in Hok. by apply bool_decide_eq_true in Hok as ->.
Qed.

(** One file: its chunk, read back, has the same lines. *)
Lemma chunk_roundtrip f name tot dt ig :
  file_encodable f ->
  exists chunk, _encode_chunk f = Ok chunk /\ chunk_safe chunk /\
    forall t' d', totals_arg tot = Ok t' -> totals_arg dt = Ok d' ->
      exists f', ReportFile.init name tot (Some (inr chunk)) dt ig = Ok f' /\
        rf_name f' = name /\ rf_totals f' = t' /\ rf_diff_totals f' = d' /\
        forall ln, 1 <= ln -> ReportFile.get f' ln = ReportFile.get f ln.
Proof.
  intros (Hr & Hs & Hd). destruct (file_lines_total f Hs Hr) as [d Ed].
  destruct (slots_text _ Hs) as (ts & Ets & Hts & Hread). pose proof (Hd d Ed) as Hj.
  pose proof (json_dumps_dict d Hj) as Ho. pose proof (json_dumps_one_line (VDict d) Hj) as Hb.
  unfold _encode_chunk. rewrite Hr, Ed. cbn [mbind result_bind]. unfold _lines.
  rewrite force_parsed by done. cbn [mbind result_bind]. rewrite Ets. cbn [mbind result_bind].
  set (head := json_dumps (VDict d)) in *. exists (head +:+ nl +:+ join nl ts).
  split; [done|]. destruct (join_nl_safe ts Hts) as [Hm1 Hm2].
  assert (Hne : head <> "") by (intros E; by rewrite E in Ho). split.
  { split; [|by destruct head]. split; [apply no_marker_nl; [by apply no_linebreak_LF | done | done]|].
    rewrite opens_with_app by done. by eapply opens_not_lt. }
  intros t' d' Et Edt. unfold ReportFile.init. rewrite bool_decide_eq_false_2 by by destruct head.
  rewrite Et, Edt. cbn [mbind result_bind]. eexists. split; [done|]. split_and!; [done..|].
  intros ln Hln. rewrite (get_slot f), force_parsed by done. rewrite get_slot by done.
  unfold force at 1. cbn [rf_raw_lines]. rewrite bool_decide_eq_false_2 by by destruct head.
  rewrite splitlines_app_nl by done. unfold parse_details. rewrite bool_decide_eq_false_2 by done.
  unfold head. rewrite json_loads_dumps by done. cbn [mbind result_bind].
  rewrite (details_truthy f d Ed). cbn [mbind result_bind rf_present].
  destruct (present_of_details_total f d Ed) as [p ->]. cbn [mbind result_bind rf_parsed_lines].
  unfold slot_at. by rewrite split_texts_read, Hread.
Qed.

(** *** The whole report *)

Definition entry_value (i : nat) : pyval := VList [VInt (Z.of_nat i); VNone].

Lemma entries_run (fs : list ReportFile.t) k :
  traverse (file_entry false) (imap (fun i f => ((k + i)%nat, f)) fs) =
  Ok (imap (fun i f => (rf_name f, entry_value (k + i))) fs).
Proof.
  revert k. induction fs as [|f fs IH]; intros k; [done|]. cbn [imap traverse file_entry].
  cbn [mbind result_bind]. specialize (IH (S k)).
  rewrite (imap_ext _ (fun i f => ((S k + i)%nat, f))).
  2: { intros i x _. cbn. f_equal. lia. }
  rewrite IH. cbn [mbind result_bind]. do 2 f_equal. apply imap_ext. intros i x _. cbn.
  do 3 f_equal. lia.
Qed.

Lemma summary_entry n i :
  summary_of_val (n, entry_value i) = Ok (n, mkSummary (Z.of_nat i) None None).
Proof. done. Qed.

Lemma summaries_run (fs : list ReportFile.t) k :
  traverse summary_of_val (imap (fun i f => (rf_name f, entry_value (k + i))) fs) =
  Ok (imap (fun i f => (rf_name f, mkSummary (Z.of_nat (k + i)) None None)) fs).
Proof.
  revert k. induction fs as [|f fs IH]; intros k; [done|]. cbn [imap traverse].
  rewrite summary_entry. cbn [mbind result_bind]. specialize (IH (S k)).
  rewrite (imap_ext _ (fun i f => (rf_name f, entry_value (S k + i)))).
  2: { intros i x _. cbn. do 2 f_equal. lia. }
  rewrite IH. cbn [mbind result_bind]. do 2 f_equal. apply imap_ext. intros i x _. cbn.
  do 2 f_equal. lia.
Qed.

Lemma chunks_run fs :
  Forall file_encodable fs ->
  exists cs, traverse _encode_chunk fs = Ok cs /\ Forall chunk_safe cs /\
    Forall2 (fun f c => exists f', ReportFile.init (rf_name f) None (Some (inr c)) None None = Ok f' /\
      rf_name f' = rf_name f /\ forall ln, 1 <= ln -> ReportFile.get f' ln = ReportFile.get f ln) fs cs.
Proof.
  induction 1 as [|f fs Hf _ (cs & E & Hs & H2)]; [by exists []|].
  destruct (chunk_roundtrip f (rf_name f) None None None Hf) as (c & Ec & Hc & Hi).
  destruct (Hi None None eq_refl eq_refl) as (f' & Ef & En & _ & _ & Hg).
  exists (c :: cs). cbn [traverse]. rewrite Ec, E. split; [done|]. split; [by constructor|].
  constructor; [by exists f' | done].
Qed.

Lemma py_index_nat {A} n (l : list A) : py_index (Z.of_nat n) l = l !! n.
Proof.
  unfold py_index. destruct (Z.ltb_spec (Z.of_nat n) 0); [lia|].
  destruct (Z.ltb_spec (Z.of_nat n) 0); [lia|]. by rewrite Nat2Z.id.
Qed.

Lemma init_file_entry chunks name n :
  init_file chunks (name, mkSummary (Z.of_nat n) None None) =
  (f ← ReportFile.init name None (Some (default (inr "") (chunks !! n))) None None; Ok (name, f)).
Proof. unfold init_file. cbn [fs_chunk fs_totals fs_diff_totals]. by rewrite py_index_nat. Qed.

Lemma init_session_entry i d :
  od_get "id" d = None ->
  init_session (VStr (str_of_Z i), inr d) = (s ← parse_session (Some i) (od_del "id" d); Ok (i, s)).
Proof.
  intros Hd. unfold init_session. cbn [py_int]. rewrite int_of_str_of_Z. cbn [mbind result_bind].
  by rewrite Hd.
Qed.

Lemma init_files_run fs cs pre :
  Forall2 (fun f c => exists f', ReportFile.init (rf_name f) None (Some (inr c)) None None = Ok f' /\
      rf_name f' = rf_name f /\ forall ln, 1 <= ln -> ReportFile.get f' ln = ReportFile.get f ln) fs cs ->
  exists res,
    traverse (init_file (pre ++ (inr <$> cs)))
      (imap (fun i f => (rf_name f, mkSummary (Z.of_nat (length pre + i)) None None)) fs) = Ok res /\
    Forall2 (fun f (nf : string * ReportFile.t) => nf.1 = rf_name f /\
      forall ln, 1 <= ln -> ReportFile.get nf.2 ln = ReportFile.get f ln) fs res.
Proof.
  intros H2. revert pre. induction H2 as [|f c fs cs (f' & Ef & En & Hg) _ IH]; intros pre.
  { by exists []. }
  cbn [fmap list_fmap]. destruct (IH (pre ++ [inr c])) as (res & Er & Hr).
  rewrite <- app_assoc in Er. cbn [app] in Er. exists ((rf_name f, f') :: res). split.
  - cbn [imap traverse]. rewrite init_file_entry, lookup_app_r by lia.
    replace (length pre + 0 - length pre)%nat with 0%nat by lia.
    cbn [lookup list_lookup default from_option id]. rewrite Ef. cbn [mbind result_bind].
    rewrite (imap_ext _ (fun i f => (rf_name f, mkSummary (Z.of_nat (length (pre ++ [inr c]) + i)) None None))).
    2: { intros i x _. cbn. rewrite length_app. cbn. do 2 f_equal. lia. }
    by rewrite Er.
  - by constructor.
Qed.

Definition ids_of_keys (r : Report.t) : odict Z Session :=
  (fun ks => (ks.1, set_id ks.1 ks.2)) <$> r_sessions r.

Lemma encode_set_id i s : encode_session (set_id i s) = encode_session s.
Proof. done. Qed.

Lemma sessions_run (ss : odict Z Session) :
  Forall (fun ks => session_normal ks.2 = true) ss ->
  exists args, traverse session_arg ((fun ks => (str_of_Z ks.1, encode_session ks.2)) <$> ss) = Ok args /\
    traverse init_session args = Ok ((fun ks => (ks.1, set_id ks.1 ks.2)) <$> ss).
Proof.
  induction 1 as [|[i s] ss Hs _ (args & E1 & E2)]; [by exists []|]. cbn [fst snd] in Hs.
  pose proof (parse_encode (set_id i s) Hs) as Hp. rewrite encode_set_id in Hp.
  destruct (encode_session s) as [| | | | | |d] eqn:Ed; try done.
  exists ((VStr (str_of_Z i), inr d) :: args). cbn [fmap list_fmap traverse fst snd].
  change (session_arg (str_of_Z i, encode_session s)) with
    (match encode_session s with VDict d => Ok (VStr (str_of_Z i), @inr Session _ d) | _ => Err TypeError end).
  rewrite Ed, E1. split; [done|]. cbn [traverse].
  assert (Hid : od_get "id" d = None /\ od_del "id" d = d).
  { injection Ed as <-. split; [by od_lookup | done]. }
  destruct Hid as [Hid Hdel]. rewrite init_session_entry by done. rewrite Hdel.
  change (se_id (set_id i s)) with (Some i) in Hp. rewrite Hp. cbn [mbind result_bind].
  by rewrite E2.
Qed.

(** What the round trip needs of a report. *)
Definition document_of (r : Report.t) : pyval :=
  VDict [("files", VDict (imap (fun i f => (rf_name f, entry_value i)) (od_vals (r_files r))));
         ("sessions", json_sessions r); ("totals", VNone)].

Definition report_encodable (r : Report.t) : Prop :=
  report_wf r /\ Forall file_encodable (od_vals (r_files r)) /\
  Forall (fun ks => session_normal ks.2 = true) (r_sessions r) /\
  json_ok (document_of r) = true.

Lemma imap_names {A} (g : nat -> ReportFile.t -> A) fs :
  (imap (fun i f => (rf_name f, g i f)) fs).*1 = rf_name <$> fs.
Proof. rewrite fmap_imap. by rewrite <- imap_const. Qed.

Lemma Forall2_get (fs : odict string ReportFile.t) (res : odict string ReportFile.t) path :
  Forall (fun kf => rf_name kf.2 = kf.1) fs ->
  Forall2 (fun f nf => nf.1 = rf_name f /\
      forall ln, 1 <= ln -> ReportFile.get nf.2 ln = ReportFile.get f ln) (od_vals fs) res ->
  forall ln, 1 <= ln -> line_in (od_get path res) ln = line_in (od_get path fs) ln.
Proof.
  intros Hn. revert res. induction Hn as [|[k f] fs Hk _ IH]; intros res H2.
  - apply Forall2_nil_inv_l in H2 as ->. done.
  - change (od_vals ((k, f) :: fs)) with (f :: od_vals fs) in H2.
    apply Forall2_cons_inv_l in H2 as ([n f'] & res' & [Hn Hg] & H2 & ->). cbn in Hn, Hg, Hk.
    intros ln Hln. cbn [od_get]. rewrite Hn, Hk. case_decide; [by apply Hg | by apply IH].
Qed.

Lemma report_roundtrip_run r :
  report_encodable r ->
  exists j c r', serialize_report r false = Ok (j, c, None) /\ load_report j c = Ok r' /\
    r_sessions r' = ids_of_keys r /\ Report.files r' = Report.files r /\
    forall path ln, 1 <= ln -> line_at r' path ln = line_at r path ln.
Proof.
  intros (Wf & Hf & Hs & Hj). destruct (chunks_run _ Hf) as (cs & Ecs & Hcs & H2).
  destruct (sessions_run _ Hs) as (args & E1 & E2).
  destruct (init_files_run _ _ [] H2) as (res & Eres & Hres).
  pose proof (names_keys r Wf) as Hnames. pose proof Wf as (Ws & Wff & Wn).
  unfold serialize_report, report_document. rewrite Ecs. cbn [mbind result_bind].
  unfold indexed_files. pose proof (entries_run (od_vals (r_files r)) 0) as Een.
  cbn [Nat.add] in Een. rewrite Een. cbn [mbind result_bind val_of_totals].
  assert (Hwf1 : od_wf (imap (fun i f => (rf_name f, entry_value i)) (od_vals (r_files r)))).
  { unfold od_wf, od_keys. rewrite imap_names, Hnames. exact Wff. }
  rewrite od_of_list_id by done. fold (document_of r).
  eexists _, _. eexists. split; [done|]. split.
  - unfold load_report. rewrite json_loads_dumps by done. cbn [mbind result_bind].
    unfold document_of, get_item, dict_get. od_lookup. cbn [mbind result_bind as_dict].
    pose proof (summaries_run (od_vals (r_files r)) 0) as Esum. cbn [Nat.add] in Esum.
    rewrite Esum. cbn [mbind result_bind json_sessions as_dict].
    rewrite E1. cbn [mbind result_bind]. unfold Report.init. rewrite E2. cbn [mbind result_bind].
    assert (Echunks : split_chunks (ChText (join END_OF_CHUNK cs)) = inr <$> cs).
    { destruct cs as [|c0 cs0]; [done|]. unfold split_chunks. rewrite bool_decide_eq_false_2.
      - unfold split1. rewrite no_header by done. by rewrite split_chunks_join.
      - apply Forall_cons in Hcs as [[_ Hc0] _]. by destruct c0, cs0. }
    rewrite Echunks. cbn [app length Nat.add] in Eres. rewrite Eres. cbn [mbind result_bind truthy].
    reflexivity.
  - assert (Hkeys : od_keys res = od_keys (r_files r)).
    { rewrite <- Hnames. clear -Hres. induction Hres as [|f [n f'] fs res [Hn _] _ IH]; [done|].
      unfold od_keys in *. cbn in *. by rewrite Hn, IH. }
    rewrite !od_of_list_id by (unfold od_wf; try rewrite Hkeys; first [done | unfold od_keys; by rewrite <- list_fmap_compose]).
    split_and!; [done | done |]. intros path ln Hln. apply Forall2_get; [|done..].
    apply Forall_forall. intros [p f] Hin. apply Wn. by apply od_elem_get.
Qed.
End roundtrip.

(** ** Properties *)

(** C3: a report that current uploads can produce (files parsed, sessions without
    falsy fields, values JSON can carry) is written, and what [load_report] reads back
    has the same sessions, each with its key as id, the same files in the same order,
    and the same line at every file and line number. *)
Theorem report_roundtrip `{OrJsonLaws} r :
  report_encodable r ->
  exists j c r', serialize_report r false = Ok (j, c, None) /\ load_report j c = Ok r' /\
    r_sessions r' = ((fun ks => (ks.1, set_id ks.1 ks.2)) <$> r_sessions r) /\
    Report.files r' = Report.files r /\
    forall path ln, 1 <= ln -> line_at r' path ln = line_at r path ln.
Proof. apply report_roundtrip_run. Qed.

Lemma report_roundtrip_witness :
  exists j c r', @serialize_report codec example_report false = Ok (j, c, None) /\
    @load_report codec j c = Ok r' /\
    r_sessions r' = ((fun ks => (ks.1, set_id ks.1 ks.2)) <$> r_sessions example_report) /\
    Report.files r' = Report.files example_report /\
    forall path ln, 1 <= ln -> @line_at codec r' path ln = @line_at codec example_report path ln.
Proof.
  apply (@report_roundtrip codec codec_laws example_report). split; [apply (@example_report_ok codec)|].
  split; [|split; [repeat constructor | reflexivity]].
  constructor; [|constructor]. split; [reflexivity|]. split; [repeat constructor|].
  intros d Hd. vm_compute in Hd. injection Hd as <-. reflexivity.
Defined.
