(* ===== verification/Carryforward.v ===== *)
(** * [shared/reports/carryforward.py]: reports carried over from a parent commit

    A carried-forward report keeps the sessions of the flags to carry, renamed
    and marked, and the files the paths match. *)
From S2P Require Export Filtered ReportSpec.
From S2P Require Import JsonCodec.
#[local] Open Scope string_scope.
#[local] Open Scope Z_scope.
#[local] Open Scope list_scope.

(** The [while] loop: how many times the name starts with ["CF "], and the rest. *)
Fixpoint strip_CF (name : string) : Z * string :=
  match name with
  | String "C" (String "F" (String " " r)) => let '(n, s) := strip_CF r in (n + 1, s)
  | _ => (0, name)
  end.

(** The digits a string starts with, and the rest. *)
Fixpoint span_digits (s : string) : string * string :=
  match s with
  | String c s' => if is_digit c then let '(d, r) := span_digits s' in (String c d, r) else ("", s)
  | EmptyString => ("", "")
  end.

(** The match of the regular expression, [CF] and digits in brackets, at the start:
    the digits, perhaps none, and what follows the closing bracket. *)
Definition match_CF (name : string) : option (string * string) :=
  match name with
  | String "C" (String "F" (String "[" r)) =>
      match span_digits r with
      | (d, String "]" rest) => Some (d, rest)
      | _ => None
      end
  | _ => None
  end.

Definition carriedforward_session_name (original : option string) : result string :=
  match original with
  | None | Some "" => Ok "Carriedforward"
  | Some name =>
      if startswith "CF " name then
        let '(count, current_name) := strip_CF name in
        Ok ("CF[" +:+ str_of_Z (count + 1) +:+ "] - " +:+ current_name)
      else
        match match_CF name with
        | Some (digits, rest) =>
            n ← int_of_str digits; Ok ("CF[" +:+ str_of_Z (n + 1) +:+ "]" +:+ rest)
        | None => Ok ("CF[1] - " +:+ name)
        end
  end.

Section carryforward.
Context `{OrJson} `{Re}.

(** [session_extras or session.session_extras]. *)
Definition carry_session (session_extras : option (odict string pyval)) (s : Session) : result Session :=
  name ← carriedforward_session_name (se_name s);
  Ok (mkSess (se_id s) (se_totals s) (se_time s) (se_archive s) (se_flags s) (se_provider s)
        (se_build s) (se_job s) (se_url s) (se_state s) (se_env s) (Some name) carriedforward
        (match session_extras with Some (x :: e) => x :: e | _ => se_extras s end)).

Definition carry_step (flags : list string) (session_extras : option (odict string pyval))
    (ks : Z * Session) : result (Z * Session) :=
  if contain_any_of_the_flags (Some flags) (se_flags ks.2)
  then s ← carry_session session_extras ks.2; Ok (ks.1, s)
  else Ok ks.

Definition generate_carryforward_report (r : Report.t) (flags paths : list string)
    (session_extras : option (odict string pyval)) : result Report.t :=
  files_to_delete ← (if bool_decide (paths = []) then Ok []
                     else FilteredReport.filterM
                            (fun f => b ← matcher_match (Some paths) f; Ok (negb b)) (Report.files r));
  r ← foldM Report.__delitem__ r files_to_delete;
  ss ← traverse (carry_step flags session_extras) (Report.r_sessions r);
  let sessions_to_delete :=
    fst <$> filter (fun ks => contain_any_of_the_flags (Some flags) (se_flags ks.2) = false)
              (Report.r_sessions r) in
  Report.delete_multiple_sessions (Report.with_sessions ss r) (list_to_set sessions_to_delete).

(** ** Names *)

Lemma span_digits_app d r :
  str_forallb is_digit d = true -> span_digits (d +:+ String "]" r) = (d, String "]" r).
Proof.
  induction d as [|c d IH]; [done|]. cbn [str_forallb String.append span_digits].
  intros [Hc Hd]%andb_true_iff. by rewrite Hc, IH.
Qed.

Definition CF_name (n : Z) (name : string) : string := "CF[" +:+ str_of_Z n +:+ "] - " +:+ name.

Lemma carry_CF_name n name :
  0 <= n -> carriedforward_session_name (Some (CF_name n name)) = Ok (CF_name (n + 1) name).
Proof.
  intros Hn. unfold CF_name at 1. cbn [String.append carriedforward_session_name].
  change (startswith "CF " (String "C" (String "F" (String "[" (str_of_Z n +:+ "] - " +:+ name))))) with false.
  cbn iota. cbn [match_CF].
  change ("] - " +:+ name) with (String "]" (" - " +:+ name)).
  rewrite span_digits_app by by apply str_of_Z_digits. by rewrite int_of_str_of_Z.
Qed.

(** [n] generations of carrying a name forward. *)
Fixpoint carry_times (n : nat) (name : option string) : result string :=
  match n with
  | O => Ok (default "" name)
  | S n' => s ← carriedforward_session_name name; carry_times n' (Some s)
  end.

Lemma carry_times_CF n k name :
  0 <= k -> carry_times n (Some (CF_name k name)) = Ok (CF_name (k + Z.of_nat n) name).
Proof.
  revert k. induction n as [|n IH]; intros k Hk; cbn [carry_times].
  - by rewrite Z.add_0_r.
  - rewrite carry_CF_name by done. cbn [mbind result_bind]. rewrite IH by lia. do 2 f_equal. lia.
Qed.

Lemma match_CF_prefix name x : match_CF name = Some x -> exists r, name = "CF" +:+ r.
Proof.
  unfold match_CF. intros E. repeat (case_match; try discriminate E). subst. cbn. eauto.
Qed.

Lemma carry_fresh_name name :
  name <> "" -> startswith "CF" name = false -> carriedforward_session_name (Some name) = Ok (CF_name 1 name).
Proof.
  intros Hne Hcf. destruct name as [|c name]; [done|]. cbn [carriedforward_session_name].
  assert (H1 : startswith "CF " (String c name) = false).
  { destruct (startswith "CF " _) eqn:E; [|done]. apply prefix_spec in E as [r E].
    rewrite E in Hcf. unfold startswith in Hcf.
    change ("CF " +:+ r) with ("CF" +:+ (" " +:+ r)) in Hcf. by rewrite prefix_app in Hcf. }
  rewrite H1.
  assert (H2 : match_CF (String c name) = None).
  { destruct (match_CF _) as [x|] eqn:E; [|done]. apply match_CF_prefix in E as [r E].
    unfold startswith in Hcf. by rewrite E, prefix_app in Hcf. }
  by rewrite H2.
Qed.

(** ** Reports *)

Lemma filterM_spec (p : string -> result bool) l l' :
  FilteredReport.filterM p l = Ok l' -> forall x, x ∈ l' <-> x ∈ l /\ p x = Ok true.
Proof.
  revert l'. induction l as [|y l IH]; intros l' Hf x; cbn in Hf.
  { injection Hf as <-. set_solver. }
  apply bind_Ok_inv in Hf as (b & Hb & Hf). apply bind_Ok_inv in Hf as (r & Hr & [= <-]).
  specialize (IH _ Hr x). destruct b; rewrite ?elem_of_cons, IH.
  - split; [intros [->|[? ?]]; auto | intros [[->|?] ?]; auto].
  - split; [intros [? ?]; auto | intros [[->|?] ?]; [congruence | auto]].
Qed.

Lemma carry_steps_get flags ex ss ss' :
  traverse (carry_step flags ex) ss = Ok ss' ->
  od_keys ss' = od_keys ss /\
  forall i, match od_get i ss with
            | None => od_get i ss' = None
            | Some s => exists s', carry_step flags ex (i, s) = Ok (i, s') /\ od_get i ss' = Some s'
            end.
Proof.
  intros Ht. apply traverse_Forall2 in Ht.
  induction Ht as [|[k s] [k' s'] ss ss' Hs _ [IHk IH]]; [by split|].
  assert (k' = k) as ->.
  { unfold carry_step in Hs. destruct (contain_any_of_the_flags _ _); [|by injection Hs].
    by apply bind_Ok_inv in Hs as (? & _ & [= <- _]). }
  split; [unfold od_keys in *; cbn in *; by rewrite IHk|].
  intros i. cbn [od_get]. case_decide; subst; [eauto | apply IH].
Qed.

Lemma carry_run r flags paths ex r' :
  generate_carryforward_report r flags paths ex = Ok r' -> report_wf r ->
  report_wf r' /\
  (forall i s', od_get i (Report.r_sessions r') = Some s' <->
     exists s, od_get i (Report.r_sessions r) = Some s /\
       contain_any_of_the_flags (Some flags) (se_flags s) = true /\ carry_session ex s = Ok s') /\
  (forall p f', Report.get r' p = Some f' ->
     (paths = [] \/ matcher_match (Some paths) p = Ok true) /\
     exists f del, Report.get r p = Some f /\ ReportFile.delete_multiple_sessions f del = Ok f' /\
       forall i, i ∈ del <-> exists s, od_get i (Report.r_sessions r) = Some s /\
         contain_any_of_the_flags (Some flags) (se_flags s) = false).
Proof.
  unfold generate_carryforward_report. intros Hg (Ws & Wf & Wn).
  apply bind_Ok_inv in Hg as (del_files & Hdf & Hg). apply bind_Ok_inv in Hg as (r1 & Hr1 & Hg).
  apply bind_Ok_inv in Hg as (ss & Hss & Hg). cbv zeta in Hg.
  destruct (delete_files_run _ _ _ Hr1 Wf) as (W1 & S1 & G1). rewrite S1 in Hss, Hg.
  destruct (carry_steps_get _ _ _ _ Hss) as [Hk Hget].
  set (del := list_to_set _ : gset Z) in Hg.
  assert (Hdel : forall i, i ∈ del <-> exists s, od_get i (Report.r_sessions r) = Some s /\
         contain_any_of_the_flags (Some flags) (se_flags s) = false).
  { intros i. unfold del. rewrite elem_of_list_to_set, list_elem_of_fmap. split.
    - intros ([k s] & -> & [Hb Hin]%list_elem_of_filter). exists s. split; [by apply od_elem_get | done].
    - intros (s & Hs & Hb). exists (i, s). split; [done|]. apply list_elem_of_filter.
      split; [done | by apply od_get_elem]. }
  destruct (delete_sessions_run _ _ _ Hg) as (W' & _ & S' & F').
  { split_and!; [cbn; by unfold od_wf; rewrite Hk | done |]. intros p f Hp. cbn in Hp.
    specialize (G1 p). unfold Report.get in G1. rewrite Hp in G1. case_decide; [done|]. by apply Wn. }
  split; [done|]. split.
  - intros i s'. rewrite S'. cbn. specialize (Hget i). split.
    + case_decide as Hd; [done|]. intros Hi.
      destruct (od_get i (Report.r_sessions r)) as [s|] eqn:Es; [|congruence].
      destruct Hget as (s1 & Hstep & Hs1). assert (s1 = s') as -> by congruence.
      destruct (contain_any_of_the_flags (Some flags) (se_flags s)) eqn:Ec.
      2: { exfalso. apply Hd, Hdel. eauto. }
      exists s. split_and!; [done..|]. unfold carry_step in Hstep. cbn [snd fst] in Hstep. rewrite Ec in Hstep.
      by apply bind_Ok_inv in Hstep as (s2 & Hs2 & [= <-]).
    + intros (s & Es & Ec & Hs'). rewrite decide_False.
      * rewrite Es in Hget. destruct Hget as (s1 & Hstep & ->). unfold carry_step in Hstep.
        cbn [snd fst] in Hstep. rewrite Ec, Hs' in Hstep. by injection Hstep as <-.
      * intros Hd. apply Hdel in Hd as (s2 & Hs2 & Hc2). congruence.
  - intros p f' Hp. specialize (F' p). destruct (Report.get (Report.with_sessions ss r1) p) as [f|] eqn:Ef; [|congruence].
    change (Report.get (Report.with_sessions ss r1) p) with (Report.get r1 p) in Ef.
    rewrite G1 in Ef. case_decide as Hin; [done|].
    destruct F' as (f1 & tot & Hd & _ & Hp'). rewrite Hp' in Hp.
    destruct (0 <? rt_lines tot); [|done]. injection Hp as ->. split.
    + case_bool_decide as Ep; [by left | right].
      pose proof (filterM_spec _ _ _ Hdf p) as Hfs.
      destruct (matcher_match (Some paths) p) as [[]|e] eqn:Em; [done| |].
      * exfalso. apply Hin, Hfs. split; [|by rewrite Em]. apply od_get_is_Some. unfold Report.get in Ef. eauto.
      * exfalso. assert (Hp1 : p ∈ Report.files r) by (apply od_get_is_Some; unfold Report.get in Ef; eauto).
        clear -Hdf Hp1 Em. revert del_files Hdf. induction (Report.files r) as [|y l IH]; [set_solver|].
        intros df Hdf. cbn in Hdf. apply bind_Ok_inv in Hdf as (b & Hb & Hdf).
        apply bind_Ok_inv in Hdf as (r0 & Hr0 & _). apply elem_of_cons in Hp1 as [<-|Hp1].
        -- by rewrite Em in Hb.
        -- by eapply IH.
    + eauto.
Qed.
End carryforward.

(** ** Properties *)

(** A session name that does not start with ["CF"] and is carried forward [n] times
    becomes ["CF[n] - name"]: the generations are counted, not stacked. *)
Theorem carry_name_counts n name :
  name <> EmptyString -> startswith "CF" name = false ->
  carry_times (S n) (Some name) = Ok ("CF[" +:+ str_of_Z (Z.of_nat (S n)) +:+ "] - " +:+ name).
Proof.
  intros Hne Hcf. cbn [carry_times]. rewrite carry_fresh_name by done. cbn [mbind result_bind].
  rewrite carry_times_CF by lia. by replace (1 + Z.of_nat n) with (Z.of_nat (S n)) by lia.
Qed.

Lemma carry_name_counts_witness : carry_times 3 (Some "nightly") = Ok "CF[3] - nightly".
Proof. apply (carry_name_counts 2 "nightly"); [done | reflexivity]. Defined.

(** A carried-forward report has exactly the sessions with one of the flags, under
    their ids, renamed and marked as carried forward; its files are files of the
    original that the paths match, without the sessions that were left behind. *)
Theorem carryforward_report_spec `{OrJson} `{Re} r flags paths ex r' :
  generate_carryforward_report r flags paths ex = Ok r' -> report_wf r ->
  report_wf r' /\
  (forall i s', od_get i (Report.r_sessions r') = Some s' <->
     exists s, od_get i (Report.r_sessions r) = Some s /\
       contain_any_of_the_flags (Some flags) (se_flags s) = true /\ carry_session ex s = Ok s') /\
  (forall p f', Report.get r' p = Some f' ->
     (paths = [] \/ matcher_match (Some paths) p = Ok true) /\
     exists f del, Report.get r p = Some f /\ ReportFile.delete_multiple_sessions f del = Ok f' /\
       forall i, i ∈ del <-> exists s, od_get i (Report.r_sessions r) = Some s /\
         contain_any_of_the_flags (Some flags) (se_flags s) = false).
Proof. apply carry_run. Qed.

Lemma carryforward_report_spec_witness :
  exists r', @generate_carryforward_report codec literal_re example_report ["unit"] ["a."] None = Ok r' /\
    report_wf r' /\
    exists s, od_get 0 (Report.r_sessions r') = Some s /\ se_name s = Some "Carriedforward" /\
      se_type s = carriedforward.
Proof.
  destruct (@generate_carryforward_report codec literal_re example_report ["unit"] ["a."] None) as [r'|e] eqn:E.
  - exists r'. split; [reflexivity|].
    destruct (@carryforward_report_spec codec literal_re example_report ["unit"] ["a."] None r' E)
      as (Hwf & Hs & _); [apply (@example_report_ok codec)|].
    split; [exact Hwf|]. eexists; split; [apply (Hs 0); eexists; split; [reflexivity|]; split; reflexivity|].
    split; reflexivity.
  - exfalso. vm_compute in E. discriminate E.
Defined.
