(* ===== verification/Changes.v ===== *)
(** * [worker/services/comparison/changes.py]: unexpected coverage changes

    [get_changes] compares the reports of two commits and lists the files whose
    coverage changed outside the diff between them.  It rests on
    [get_segment_offsets], the line bookkeeping of a file's diff, and
    [iter_changed_lines], the comparison of two versions of a file. *)
From S2P Require Export ReportSpec.
From S2P Require Import JsonCodec.
#[local] Open Scope string_scope.
#[local] Open Scope Z_scope.
#[local] Open Scope list_scope.

(** [float(s)] on plain decimal notation, the only one percentages are printed in. *)
Definition all_digits (s : string) : bool := negb (bool_decide (s = "")) && str_forallb is_digit s.

Definition dec_digits (s : string) : option (Z * Z) :=
  match split1 "." s with
  | [a] => if all_digits a then match int_of_str a with Ok n => Some (n, 0) | Err _ => None end else None
  | [a; b] =>
      if all_digits a && all_digits b then
        match int_of_str (a +:+ b) with
        | Ok n => Some (n, Z.of_nat (String.length b))
        | Err _ => None
        end
      else None
  | _ => None
  end.

Definition float_of_str (s : string) : result b64 :=
  let '(neg, t) := match s with String "-" t => (true, t) | _ => (false, s) end in
  match dec_digits t with
  | Some (n, k) => Ok (rnd neg n (10 ^ k))
  | None => Err Unmodelled
  end.

(** [float(c)] on the coverage of a total. *)
Definition float_of_tcov (c : tcov) : result b64 :=
  match c with
  | TcNone => Err TypeError
  | TcInt z => f_of_Z z
  | TcStr s => float_of_str s
  | TcFloat f => Ok f
  end.

(** ** Differences of totals *)

Inductive totals_diff : Type := Deleted | New | Same | Diff (t : ReportTotals).

Definition tcov_falsy (c : tcov) : bool :=
  match c with TcNone => true | TcInt z => z =? 0 | TcStr s => bool_decide (s = "") | TcFloat f => fman f =? 0 end.

(** [int(float(v or 0))] of a coverage and of a count. *)
Definition int_float_tcov (c : tcov) : result Z :=
  if tcov_falsy c then Ok 0 else f ← float_of_tcov c; Ok (Z_of_f f).
Definition int_float_Z (z : Z) : result Z := f ← f_of_Z z; Ok (Z_of_f f).

Definition sub_fields (f : ReportTotals -> result Z) (base head : ReportTotals) : result Z :=
  h ← f head; b ← f base; Ok (h - b).

(** The fields at indices 0 to 8, 10 and 11, in that order. *)
Definition diff_fields : list (ReportTotals -> result Z) :=
  [fun t => int_float_Z (rt_files t); fun t => int_float_Z (rt_lines t);
   fun t => int_float_Z (rt_hits t); fun t => int_float_Z (rt_misses t);
   fun t => int_float_Z (rt_partials t); fun t => int_float_tcov (rt_coverage t);
   fun t => int_float_Z (rt_branches t); fun t => int_float_Z (rt_methods t);
   fun t => int_float_Z (rt_messages t); fun t => int_float_Z (optZ (rt_complexity t));
   fun t => int_float_Z (optZ (rt_complexity_total t))].

Definition set_coverage (c : tcov) (t : ReportTotals) : ReportTotals :=
  mkTotals (rt_files t) (rt_lines t) (rt_hits t) (rt_misses t) (rt_partials t) c (rt_branches t)
    (rt_methods t) (rt_messages t) (rt_sessions t) (rt_complexity t) (rt_complexity_total t) (rt_diff t).

Definition diff_totals (base head absolute : option ReportTotals) : result totals_diff :=
  match head, base with
  | None, _ => Ok Deleted
  | _, None => Ok New
  | Some head, Some base =>
      if bool_decide (base = head) then Ok Same
      else
        diff_tuple ← traverse (fun f => sub_fields f base head) diff_fields;
        diff ← totals_of_list (VInt <$> diff_tuple);
        c ← match absolute with
            | Some a =>
                match rt_coverage a with
                | TcNone => h ← float_of_tcov (rt_coverage head); b ← float_of_tcov (rt_coverage base); Ok (f_sub h b)
                | cov =>
                    let hits := rt_hits a + rt_hits diff in
                    s ← ratio hits (hits + rt_misses a + rt_misses diff + rt_partials a + rt_partials diff);
                    x ← float_of_str s;
                    y ← float_of_tcov cov;
                    Ok (f_sub x y)
                end
            | None => h ← float_of_tcov (rt_coverage head); b ← float_of_tcov (rt_coverage base); Ok (f_sub h b)
            end;
        Ok (Diff (set_coverage (TcFloat c) diff))
  end.

(** ** Segments *)

(** [offsets[k] += d] on a [defaultdict(int)]. *)
Definition add_offset (k d : Z) (offsets : odict Z Z) : odict Z Z :=
  od_set k (default 0 (od_get k offsets) + d) offsets.

Record seg_state : Type := mkSegState {
  ss_offsets : odict Z Z; ss_additions : list Z; ss_removals : list Z;
  ss_offset_l : Z; ss_offset_r : Z;
}.

Definition seg_line (starting_diff ln : Z) (st : seg_state) (line : string) : result seg_state :=
  l0 ← first_char line;
  let '(mkSegState o adds rems l r) := st in
  Ok (if bool_decide (l0 = "-"%char) then
        mkSegState (add_offset (ln + r) 1 o) adds (rems ++ [ln + l - starting_diff]) l (r - 1)
      else if bool_decide (l0 = "+"%char) then
        mkSegState (add_offset (ln + r) (-1) o) (adds ++ [ln + r]) rems (l - 1) r
      else st).

Fixpoint seg_lines_loop (starting_diff ln : Z) (st : seg_state) (ls : list string) : result seg_state :=
  match ls with
  | [] => Ok st
  | l :: ls' => st' ← seg_line starting_diff ln st l; seg_lines_loop starting_diff (ln + 1) st' ls'
  end.

(** [int(h if h and h != " " else 1) or 1]. *)
Definition base_start (seg : DiffSegment) : result Z :=
  h ← list_item (seg_header seg) 0;
  n ← (if truthy h && negb (bool_decide (h = VStr " ")) then py_int h else Ok 1);
  Ok (if n =? 0 then 1 else n).

Definition seg_step (st : odict Z Z * list Z * list Z) (seg : DiffSegment)
    : result (odict Z Z * list Z * list Z) :=
  let '(offsets, additions, removals) := st in
  start ← segment_start seg;
  base ← base_start seg;
  st' ← seg_lines_loop (start - base) start (mkSegState offsets additions removals 0 0) (seg_lines seg);
  Ok (ss_offsets st', ss_additions st', ss_removals st').

Definition get_segment_offsets (segments : list DiffSegment) : result (odict Z Z * list Z * list Z) :=
  '(offsets, additions, removals) ← foldM seg_step ([], [], []) segments;
  Ok (filter (fun kv => kv.2 <> 0) offsets, additions, removals).

(** ** Lines *)

Definition line_has_changed (before after : ReportLine) : result bool :=
  b ← line_type (rl_coverage before); a ← line_type (rl_coverage after);
  Ok (negb (bool_decide (b = a))).

Definition get_totals_from_list (lst : list cov) : result ReportTotals :=
  ts ← traverse line_type lst;
  let n t := Z.of_nat (length (filter (fun o => o = Some t) ts)) in
  Ok (mkTotals 0 0 (n hit) (n miss) (n partial_line) (TcInt 0) 0 0 0 0 (Some 0) (Some 0) (VInt 0)).

Section changes.
Context `{OrJson}.

Definition file_eof (f : option ReportFile.t) : result Z :=
  match f with Some f => ReportFile.eof f | None => Ok 0 end.
Definition file_get (f : option ReportFile.t) (ln : Z) : result (option ReportLine) :=
  match f with Some f => ReportFile.get f ln | None => Ok None end.

(** A changed line: its number and its coverage before and after. *)
Definition changed : Type := (Z * (cov * cov))%type.

Definition compare_line (base_file : option ReportFile.t) (head_file : ReportFile.t) (base_ln ln : Z)
    : result (list changed) :=
  base_line ← file_get base_file (if base_ln =? 0 then ln else base_ln);
  head_line ← ReportFile.get head_file ln;
  match base_line, head_line with
  | Some b, Some h =>
      c ← line_has_changed b h;
      Ok (if (c : bool) then [(ln, (rl_coverage b, rl_coverage h))] else [])
  | Some b, None => Ok [(ln, (rl_coverage b, CNone))]
  | None, Some h => Ok [(ln, (CNone, rl_coverage h))]
  | None, None => Ok []
  end.

(** The loop over the line numbers; without offsets [base_ln] stays 0, and the
    base file is read at the same line. *)
Fixpoint changed_loop (offsets : odict Z Z) (skip_lines : list Z) (base_file : option ReportFile.t)
    (head_file : ReportFile.t) (base_ln : Z) (lns : list Z) : result (list changed) :=
  match lns with
  | [] => Ok []
  | ln :: lns' =>
      let base_ln :=
        match offsets with
        | [] => base_ln
        | _ => base_ln + 1 + default 0 (od_get ln offsets)
        end in
      here ← (if bool_decide (ln ∈ skip_lines) then Ok [] else compare_line base_file head_file base_ln ln);
      rest ← changed_loop offsets skip_lines base_file head_file base_ln lns';
      Ok (here ++ rest)
  end.

Definition diff_segments_of (d : DiffFile) : result (list DiffSegment) :=
  match df_segments d with Some s => Ok s | None => Err KeyError end.

Definition iter_changed_lines (base_file : option ReportFile.t) (head_file : ReportFile.t)
    (diff : option DiffFile) : result (list changed) :=
  if match diff with Some d => bool_decide (df_type d = "modified") | None => true end then
    '(offsets, skip_lines, removed_lines) ←
      match diff with
      | Some d => segs ← diff_segments_of d; get_segment_offsets segs
      | None => Ok ([], [], [])
      end;
    base_eof ← file_eof base_file;
    head_eof ← ReportFile.eof head_file;
    let last := Z.max base_eof (Z.max (base_eof + Z.of_nat (length skip_lines)
                                       - Z.of_nat (length removed_lines)) head_eof) in
    changed_loop offsets skip_lines base_file head_file 0 (seqZ 1 last)
  else Ok [].

(** ** Reports *)

Definition before_or (d : DiffFile) (k : string) : string :=
  match df_before d with Some b => if bool_decide (b = "") then k else b | None => k end.

Definition diff_files (d : option RawDiff) : odict string DiffFile :=
  match d with Some d => d_files d | None => [] end.

(** The names [d["before"]] of moved files. *)
Definition moved_files (d : option RawDiff) : list string :=
  omap (fun kd : string * DiffFile =>
          match df_before kd.2 with Some b => if bool_decide (b = "") then None else Some b | None => None end)
    (diff_files d).

Definition new_change (path : string) : Change := mkChange path true false None None None.
Definition deleted_change (path : string) : Change := mkChange path false true None None None.

Definition change_totals (t : totals_diff) : result (option ReportTotals) :=
  match t with
  | Same => Ok None
  | Diff t => Ok (Some t)
  | Deleted | New => Err TypeError  (* [ReportTotals( *False )] *)
  end.

Definition file_truthy (f : option ReportFile.t) : result bool :=
  match f with Some f => ReportFile.__bool__ f | None => Ok false end.

(** One file of the head report: the changes so far and the new files. *)
Definition head_step (base : Report.t) (diff_json : option RawDiff) (missing_files : list string)
    (st : list Change * list string) (_file : ReportFile.t) : result (list Change * list string) :=
  let '(changes, new_files) := st in
  let filename := ReportFile.rf_name _file in
  if bool_decide (filename ∈ missing_files) || bool_decide (filename ∈ new_files) then Ok st
  else
    let diff := od_get filename (diff_files diff_json) in
    let base_file := Report.get base (match diff with Some d => before_or d filename | None => filename end) in
    truthy_base ← file_truthy base_file;
    verdict ←
      (if (truthy_base : bool) then Ok None
       else
         match diff with
         | None => Ok (Some (changes, new_files ++ [filename]))
         | Some d =>
             if bool_decide (df_type d = "new") then Ok (Some st)
             else
               segs ← diff_segments_of d;
               '(_, additions, _) ← get_segment_offsets segs;
               ls ← ReportFile.lines _file;
               Ok (if existsb (fun kl => negb (bool_decide (kl.1 ∈ additions))) ls
                   then Some (changes, new_files ++ [filename]) else None)
         end);
    match verdict with
    | Some st' => Ok st'
    | None =>
        lines ← iter_changed_lines base_file _file diff;
        match lines with
        | [] => Ok st
        | _ =>
            b ← get_totals_from_list ((fun c => c.2.1) <$> lines);
            h ← get_totals_from_list ((fun c => c.2.2) <$> lines);
            abs ← match base_file with Some f => ReportFile.totals f | None => Err AttributeError end;
            t ← diff_totals (Some b) (Some h) (Some abs);
            t ← change_totals t;
            Ok (changes ++ [mkChange filename false false
                              (Some (bool_decide (is_Some diff)))
                              (match diff with Some d => df_before d | None => None end) t], new_files)
        end
    end.

(** One file of the base report that the head report lost, by its old name. *)
Definition vanished_step (base : Report.t) (changes : list Change)
    (v : string * (string * DiffFile)) : result (list Change) :=
  let '(old_name, (head_name, diff)) := v in
  if bool_decide (df_type diff = "deleted") then Ok changes
  else
    base_file ← match Report.get base old_name with Some f => Ok f | None => Err AttributeError end;
    ls ← ReportFile.lines base_file;
    segs ← diff_segments_of diff;
    '(_, _, line_removals) ← get_segment_offsets segs;
    Ok (if existsb (fun kl => negb (bool_decide (kl.1 ∈ line_removals))) ls
        then changes ++ [deleted_change head_name] else changes).

Definition vanished_base_files (base head : Report.t) (d : RawDiff) : odict string (string * DiffFile) :=
  od_of_list ((fun kd => (before_or kd.2 kd.1, kd)) <$>
    filter (fun kd => Report.get head kd.1 = None /\ is_Some (Report.get base (before_or kd.2 kd.1)))
      (d_files d)).

Definition set_minus (a b : list string) : list string := filter (fun x => x ∉ b) a.

Definition get_changes (base_report head_report : option Report.t) (diff_json : option RawDiff)
    : result (option (list Change)) :=
  match base_report, head_report with
  | Some base, Some head =>
      let accounted := od_keys (diff_files diff_json) ++ moved_files diff_json in
      let missing_files := set_minus (Report.files base) (Report.files head ++ accounted) in
      let new_files := set_minus (Report.files head) (Report.files base ++ accounted) in
      '(changes, new_files) ← foldM (head_step base diff_json missing_files) ([], new_files)
                                (od_vals (Report.r_files head));
      changes ← match diff_json with
                | Some d => foldM (vanished_step base) changes (vanished_base_files base head d)
                | None => Ok changes
                end;
      Ok (Some (changes ++ (deleted_change <$> missing_files) ++ (new_change <$> new_files)))
  | _, _ => Ok None
  end.

(** ** Two versions of a file without a diff *)

(** The verdict on one line. *)
Definition line_differs (b h : option ReportLine) : Prop :=
  match b, h with
  | Some b, Some h => line_type (rl_coverage b) <> line_type (rl_coverage h)
  | Some _, None | None, Some _ => True
  | None, None => False
  end.

Definition cov_of (o : option ReportLine) : cov :=
  match o with Some l => rl_coverage l | None => CNone end.

Lemma compare_line_spec base head bln ln b h l :
  bln <> 0 -> compare_line base head bln ln = Ok l ->
  file_get base bln = Ok b -> ReportFile.get head ln = Ok h ->
  forall c, c ∈ l <-> line_differs b h /\ c = (ln, (cov_of b, cov_of h)).
Proof.
  unfold compare_line. intros Hn Hc Hb Hh c. rewrite (proj2 (Z.eqb_neq bln 0) Hn), Hb, Hh in Hc.
  cbn [mbind result_bind] in Hc. unfold line_differs.
  destruct b as [b|], h as [h|]; cbn [cov_of].
  - unfold line_has_changed in Hc. apply bind_Ok_inv in Hc as (x & Hx & [= <-]).
    apply bind_Ok_inv in Hx as (tb & -> & Hx). apply bind_Ok_inv in Hx as (th & -> & [= <-]).
    case_bool_decide; cbn; [subst|]; set_solver.
  - injection Hc as <-. set_solver.
  - injection Hc as <-. set_solver.
  - injection Hc as <-. set_solver.
Qed.

Lemma changed_loop_nil_spec base head lns l :
  Forall (fun n => 1 <= n) lns -> changed_loop [] [] base head 0 lns = Ok l ->
  forall n cs, (n, cs) ∈ l <-> n ∈ lns /\ exists b h, file_get base n = Ok b /\
    ReportFile.get head n = Ok h /\ line_differs b h /\ cs = (cov_of b, cov_of h).
Proof.
  intros Hpos. revert l. induction Hpos as [|m lns Hm _ IH]; intros l Hl n cs; cbn [changed_loop] in Hl.
  { injection Hl as <-. set_solver. }
  rewrite bool_decide_eq_false_2 in Hl by set_solver.
  apply bind_Ok_inv in Hl as (here & Hh & Hl). apply bind_Ok_inv in Hl as (rest & Hr & [= <-]).
  assert (Hh' : compare_line base head m m = Ok here).
  { revert Hh. unfold compare_line. cbn [Z.eqb]. by rewrite (proj2 (Z.eqb_neq m 0)) by lia. }
  assert (Hbh : exists b h, file_get base m = Ok b /\ ReportFile.get head m = Ok h).
  { unfold compare_line in Hh'. rewrite (proj2 (Z.eqb_neq m 0)) in Hh' by lia.
    apply bind_Ok_inv in Hh' as (b & Hb & Hh'). apply bind_Ok_inv in Hh' as (h & Hhd & _). eauto. }
  destruct Hbh as (b & h & Hb & Hhd).
  pose proof (compare_line_spec base head m m b h here ltac:(lia) Hh' Hb Hhd) as Hspec.
  rewrite elem_of_app, (IH _ Hr n cs), elem_of_cons. split.
  - intros [Hin%Hspec|[Hin Hx]]; [|auto]. destruct Hin as [Hd [= -> ->]]. split; [by left|].
    exists b, h. done.
  - intros [[->|Hin] Hx]; [|auto]. left. apply Hspec. destruct Hx as (b' & h' & Hb' & Hh1 & Hd & ->).
    assert (b' = b) as -> by congruence. assert (h' = h) as -> by congruence. done.
Qed.

(** A file is empty from its end on. *)
Lemma get_past_eof f e n : ReportFile.eof f = Ok e -> e <= n -> 1 <= n -> ReportFile.get f n = Ok None.
Proof.
  unfold ReportFile.eof, ReportFile.get. intros He Hn H1. rewrite (proj2 (Z.ltb_ge _ _)) by lia.
  apply bind_Ok_inv in He as (ls & -> & [= <-]). cbn. by rewrite lookup_ge_None_2 by lia.
Qed.

Lemma seqZ_positive m : Forall (fun n => 1 <= n) (seqZ 1 m).
Proof. apply Forall_forall. intros x Hx%elem_of_seqZ. lia. Qed.

Lemma iter_changed_run base head l :
  iter_changed_lines (Some base) head None = Ok l ->
  forall n cs, (n, cs) ∈ l <-> 1 <= n /\ exists b h, ReportFile.get base n = Ok b /\
    ReportFile.get head n = Ok h /\ line_differs b h /\ cs = (cov_of b, cov_of h).
Proof.
  unfold iter_changed_lines. intros Hl n cs. cbn [mbind result_bind length] in Hl.
  apply bind_Ok_inv in Hl as (eb & Heb & Hl). apply bind_Ok_inv in Hl as (eh & Heh & Hl).
  cbn [file_eof] in Heb.
  rewrite (changed_loop_nil_spec _ _ _ _ (seqZ_positive _) Hl n cs).
  cbn [file_get]. split.
  - intros [Hn%elem_of_seqZ Hx]. split; [lia | done].
  - intros [Hn (b & h & Hb & Hh & Hd & ->)]. split; [|eauto 10]. apply elem_of_seqZ.
    destruct (decide (n < Z.max eb eh)) as [|Hge]; [lia|]. exfalso.
    rewrite (get_past_eof _ _ _ Heb) in Hb by lia. rewrite (get_past_eof _ _ _ Heh) in Hh by lia.
    injection Hb as <-. by injection Hh as <-.
Qed.

Lemma changed_loop_same f lns :
  Forall (fun n => 1 <= n) lns ->
  (forall n o, 1 <= n -> ReportFile.get f n = Ok o ->
     match o with Some l => is_Ok (line_type (rl_coverage l)) = true | None => True end) ->
  (forall n, 1 <= n -> is_Ok (ReportFile.get f n) = true) ->
  changed_loop [] [] (Some f) f 0 lns = Ok [].
Proof.
  intros Hpos Ht Hok. induction Hpos as [|n lns Hn _ IH]; [done|]. cbn [changed_loop].
  rewrite bool_decide_eq_false_2 by set_solver. unfold compare_line. cbn [Z.eqb file_get].
  specialize (Hok n Hn). specialize (Ht n). destruct (ReportFile.get f n) as [o|]; [|done].
  cbn [mbind result_bind]. specialize (Ht o Hn eq_refl). destruct o as [l|].
  - unfold line_has_changed. destruct (line_type _); [|done]. cbn [mbind result_bind].
    rewrite bool_decide_eq_true_2 by done. cbn. cbn in IH. by rewrite IH.
  - cbn [mbind result_bind]. by rewrite IH.
Qed.

(** ** Segments *)

(** The old-side number of line [k] of a segment. *)
Definition old_pos (start : Z) (ls : list string) (k : nat) : Z :=
  start + Z.of_nat (length (filter (fun l => is_line "+" l = false) (take k ls))).

Lemma pos_cons (P : string -> Prop) `{!forall l, Decision (P l)} start l ls k :
  start + Z.of_nat (length (filter P (take (S k) (l :: ls)))) =
  (start + if decide (P l) then 1 else 0) + Z.of_nat (length (filter P (take k ls))).
Proof. cbn [take]. rewrite filter_cons. case_decide; cbn [length]; lia. Qed.

Lemma elem_of_snoc_or {A} (x y : A) l : x ∈ l ++ [y] <-> x = y \/ x ∈ l.
Proof. set_solver. Qed.

Lemma seg_loop_spec sd ls : forall ln st st',
  seg_lines_loop sd ln st ls = Ok st' ->
  (forall n, n ∈ ss_additions st' <-> n ∈ ss_additions st \/
     exists k s, ls !! k = Some s /\ is_line "+" s = true /\ n = new_pos (ln + ss_offset_r st) ls k) /\
  (forall n, n ∈ ss_removals st' <-> n ∈ ss_removals st \/
     exists k s, ls !! k = Some s /\ is_line "-" s = true /\ n = old_pos (ln + ss_offset_l st - sd) ls k).
Proof.
  induction ls as [|l ls IH]; intros ln st st' Hl; cbn [seg_lines_loop] in Hl.
  { injection Hl as <-. split; intros n; (split; [by left | intros [?|(k & s & Hk & _)]; done]). }
  apply bind_Ok_inv in Hl as (st1 & H1 & Hl). destruct (IH _ _ _ Hl) as [IHa IHr]. clear IH Hl.
  unfold seg_line in H1. destruct l as [|c l]; [done|]. cbn [first_char mbind result_bind] in H1.
  destruct st as [o adds rems ol orr]. injection H1 as H1.
  assert (Hsplit : forall (P : nat -> string -> Prop),
    (exists k s, (String c l :: ls) !! k = Some s /\ P k s) <->
    P 0%nat (String c l) \/ exists k s, ls !! k = Some s /\ P (S k) s).
  { intros P. split.
    - intros ([|k] & s & Hk & HP); [injection Hk as <-; by left | right; eauto].
    - intros [HP|(k & s & Hk & HP)]; [by exists 0%nat, (String c l) | by exists (S k), s]. }
  assert (Hnew : forall st k, new_pos st (String c l :: ls) (S k) =
    new_pos (st + if decide (is_line "-" (String c l) = false) then 1 else 0) ls k)
    by (intros; apply pos_cons).
  assert (Hold : forall st k, old_pos st (String c l :: ls) (S k) =
    old_pos (st + if decide (is_line "+" (String c l) = false) then 1 else 0) ls k)
    by (intros; apply pos_cons).
  assert (H0n : forall st, new_pos st (String c l :: ls) 0 = st) by (intros; unfold new_pos; cbn; lia).
  assert (H0o : forall st, old_pos st (String c l :: ls) 0 = st) by (intros; unfold old_pos; cbn; lia).
  cbn [ss_additions ss_removals ss_offset_l ss_offset_r] in *.
  split; intros n; rewrite (Hsplit (fun k s => is_line _ s = true /\ n = _)); cbv beta.
  - rewrite IHa, H0n. setoid_rewrite Hnew.
    destruct (bool_decide_reflect (c = "-"%char)) as [->|Hm];
      [|destruct (bool_decide_reflect (c = "+"%char)) as [->|Hp]]; subst st1;
      cbn [ss_additions ss_offset_r is_line].
    + rewrite decide_False by done. replace (ln + 1 + (orr - 1)) with (ln + orr + 0) by lia.
      assert (is_line "+" (String "-" l) = false) by done. naive_solver congruence.
    + rewrite decide_True by done. replace (ln + 1 + orr) with (ln + orr + 1) by lia.
      rewrite elem_of_snoc_or. assert (is_line "+" (String "+" l) = true) by done. naive_solver.
    + rewrite decide_True by (cbn; by apply bool_decide_eq_false_2).
      replace (ln + 1 + orr) with (ln + orr + 1) by lia.
      assert (bool_decide ("+"%char = c) = false) by by apply bool_decide_eq_false_2. naive_solver congruence.
  - rewrite IHr, H0o. setoid_rewrite Hold.
    destruct (bool_decide_reflect (c = "-"%char)) as [->|Hm];
      [|destruct (bool_decide_reflect (c = "+"%char)) as [->|Hp]]; subst st1;
      cbn [ss_removals ss_offset_l is_line].
    + rewrite decide_True by done. replace (ln + 1 + ol - sd) with (ln + ol - sd + 1) by lia.
      rewrite elem_of_snoc_or. assert (is_line "-" (String "-" l) = true) by done. naive_solver.
    + rewrite decide_False by done. replace (ln + 1 + (ol - 1) - sd) with (ln + ol - sd + 0) by lia.
      assert (is_line "-" (String "+" l) = false) by done. naive_solver congruence.
    + rewrite decide_True by (cbn; by apply bool_decide_eq_false_2).
      replace (ln + 1 + ol - sd) with (ln + ol - sd + 1) by lia.
      assert (bool_decide ("-"%char = c) = false) by by apply bool_decide_eq_false_2. naive_solver congruence.
Qed.

(** The numbers of the added and of the removed lines of a diff. *)
Definition added_at (seg : DiffSegment) (n : Z) : Prop :=
  exists start k s, segment_start seg = Ok start /\ seg_lines seg !! k = Some s /\
    is_line "+" s = true /\ n = new_pos start (seg_lines seg) k.
Definition removed_at (seg : DiffSegment) (n : Z) : Prop :=
  exists start k s, base_start seg = Ok start /\ seg_lines seg !! k = Some s /\
    is_line "-" s = true /\ n = old_pos start (seg_lines seg) k.

Lemma seg_steps_spec segs : forall o a r o' a' r',
  foldM seg_step (o, a, r) segs = Ok (o', a', r') ->
  (forall n, n ∈ a' <-> n ∈ a \/ Exists (fun seg => added_at seg n) segs) /\
  (forall n, n ∈ r' <-> n ∈ r \/ Exists (fun seg => removed_at seg n) segs).
Proof.
  induction segs as [|seg segs IH]; intros o a r o' a' r' Hf; cbn [foldM] in Hf.
  { injection Hf as <- <- <-. split; intros n; rewrite Exists_nil; tauto. }
  apply bind_Ok_inv in Hf as ([[o1 a1] r1] & Hs & Hf). destruct (IH _ _ _ _ _ _ Hf) as [IHa IHr].
  unfold seg_step in Hs. apply bind_Ok_inv in Hs as (start & Hst & Hs).
  apply bind_Ok_inv in Hs as (bs & Hbs & Hs). apply bind_Ok_inv in Hs as (st & Hl & [= _ <- <-]).
  destruct (seg_loop_spec _ _ _ _ _ Hl) as [Ha Hr]. cbn [ss_additions ss_removals ss_offset_l ss_offset_r] in *.
  split; intros n; rewrite Exists_cons.
  - rewrite IHa, Ha, Z.add_0_r. unfold added_at at 2. rewrite Hst. naive_solver.
  - rewrite IHr, Hr. replace (start + 0 - (start - bs)) with bs by lia.
    unfold removed_at at 2. rewrite Hbs. naive_solver.
Qed.

(** ** A report compared with itself *)

Definition comparable (f : ReportFile.t) : Prop :=
  ReportFile.__bool__ f = Ok true /\
  (forall n, 1 <= n -> is_Ok (ReportFile.get f n) = true) /\
  (forall n l, 1 <= n -> ReportFile.get f n = Ok (Some l) -> is_Ok (line_type (rl_coverage l)) = true).

Lemma iter_same f : comparable f -> iter_changed_lines (Some f) f None = Ok [].
Proof.
  intros (Hb & Hok & Ht). unfold iter_changed_lines. cbn [mbind result_bind file_eof].
  assert (He : exists e, ReportFile.eof f = Ok e).
  { specialize (Hok 1 ltac:(lia)). unfold ReportFile.get in Hok. cbn in Hok. unfold ReportFile.eof.
    destruct (ReportFile._lines f); [cbn; eauto | done]. }
  destruct He as [e He]. rewrite He. cbn [mbind result_bind].
  apply changed_loop_same; [apply seqZ_positive | | done].
  intros n [l|] Hn Hg; [by eapply Ht | done].
Qed.

Lemma set_minus_self a b : set_minus a (a ++ b) = [].
Proof. apply filter_none, Forall_forall. intros x Hx Hn. apply Hn. set_solver. Qed.

Lemma head_step_same r f :
  comparable f -> Report.get r (ReportFile.rf_name f) = Some f ->
  head_step r None [] ([], []) f = Ok ([], []).
Proof.
  intros Hf Hg. unfold head_step. rewrite !bool_decide_eq_false_2 by set_solver.
  cbn [orb diff_files od_get]. rewrite Hg. cbn [file_truthy]. pose proof Hf as (-> & _).
  cbn [mbind result_bind]. by rewrite iter_same.
Qed.

Lemma get_changes_self r :
  report_wf r -> Forall comparable (od_vals (Report.r_files r)) ->
  get_changes (Some r) (Some r) None = Ok (Some []).
Proof.
  intros Wf Hc. unfold get_changes. rewrite !set_minus_self. cbn [moved_files diff_files omap list_omap].
  assert (Hsub : forall f, f ∈ od_vals (Report.r_files r) -> Report.get r (ReportFile.rf_name f) = Some f).
  { destruct Wf as (_ & Wff & Wn). intros f Hf. unfold od_vals in Hf.
    apply list_elem_of_fmap in Hf as ([p g] & -> & Hin). apply od_elem_get in Hin; [|done].
    unfold Report.get. cbn. by rewrite (Wn _ _ Hin). }
  assert (Hloop : forall fs, (forall f, f ∈ fs -> Report.get r (ReportFile.rf_name f) = Some f) ->
    Forall comparable fs -> foldM (head_step r None []) ([], []) fs = Ok ([], [])).
  { clear. intros fs Hsub Hc. induction Hc as [|f fs Hf Hfs IH]; [done|]. cbn [foldM].
    rewrite head_step_same by first [done | apply Hsub; left]. apply IH. intros g Hg. apply Hsub. by right. }
  rewrite Hloop by done. done.
Qed.
End changes.

(** ** Properties *)

(** Without a diff between them, the changed lines of two versions of a file are
    exactly the line numbers, from 1 to the last line of either, where the type of the
    coverage differs or one version has no line, with the coverage on both sides. *)
Theorem iter_changed_lines_spec `{OrJson} base head l :
  iter_changed_lines (Some base) head None = Ok l ->
  forall n cs, (n, cs) ∈ l <-> 1 <= n /\ exists b h, ReportFile.get base n = Ok b /\
    ReportFile.get head n = Ok h /\ line_differs b h /\ cs = (cov_of b, cov_of h).
Proof. apply iter_changed_run. Qed.

Definition example_version (coverages : list Z) : ReportFile.t :=
  ReportFile.with_lines ((fun c => ReportFile.SLine (mkLine (CInt c) None [] CxNone)) <$> coverages)
    ReportFile.example_file.

Lemma iter_changed_lines_spec_witness :
  @iter_changed_lines codec (Some (example_version [0; 7])) (example_version [2; 1; 2]) None =
    Ok [(1, (CInt 0, CInt 2)); (3, (CNone, CInt 2))] /\
  exists b h, @ReportFile.get codec (example_version [0; 7]) 3 = Ok b /\
    @ReportFile.get codec (example_version [2; 1; 2]) 3 = Ok h /\
    line_differs b h /\ (CNone, CInt 2) = (cov_of b, cov_of h).
Proof.
  assert (E : @iter_changed_lines codec (Some (example_version [0; 7])) (example_version [2; 1; 2]) None =
    Ok [(1, (CInt 0, CInt 2)); (3, (CNone, CInt 2))]) by (vm_compute; reflexivity).
  split; [exact E|].
  apply (proj1 (@iter_changed_lines_spec codec _ _ _ E 3 (CNone, CInt 2))). right. left.
Defined.

(** Of the segments of a diff, the additions are the positions in the new file of
    the added lines and the removals the positions in the old file of the removed
    ones, each counted from its side of the segment's header. *)
Theorem segment_offsets_positions segs offsets additions removals :
  get_segment_offsets segs = Ok (offsets, additions, removals) ->
  (forall n, n ∈ additions <-> Exists (fun seg => exists start k s, segment_start seg = Ok start /\
     seg_lines seg !! k = Some s /\ is_line "+" s = true /\
     n = start + Z.of_nat (length (filter (fun l => is_line "-" l = false) (take k (seg_lines seg))))) segs) /\
  (forall n, n ∈ removals <-> Exists (fun seg => exists start k s, base_start seg = Ok start /\
     seg_lines seg !! k = Some s /\ is_line "-" s = true /\
     n = start + Z.of_nat (length (filter (fun l => is_line "+" l = false) (take k (seg_lines seg))))) segs).
Proof.
  unfold get_segment_offsets. intros Hr. apply bind_Ok_inv in Hr as ([[o a] r] & Hf & [= _ <- <-]).
  destruct (seg_steps_spec _ _ _ _ _ _ _ Hf) as [Ha Hr']. split; intros n.
  - rewrite Ha. split; [intros [H|H]; [by apply not_elem_of_nil in H | exact H] | by right].
  - rewrite Hr'. split; [intros [H|H]; [by apply not_elem_of_nil in H | exact H] | by right].
Qed.

Lemma segment_offsets_positions_witness :
  let seg := mkSegment [VStr "5"; VStr "3"; VStr "7"; VStr "3"] [" a"; "-b"; "+c"; " d"] in
  get_segment_offsets [seg] = Ok ([], [8], [6]) /\
  Exists (fun seg => exists start k s, base_start seg = Ok start /\
     seg_lines seg !! k = Some s /\ is_line "-" s = true /\
     6 = start + Z.of_nat (length (filter (fun l => is_line "+" l = false) (take k (seg_lines seg))))) [seg].
Proof.
  intros seg. assert (E : get_segment_offsets [seg] = Ok ([], [8], [6])) by (vm_compute; reflexivity).
  split; [exact E|]. apply (proj2 (segment_offsets_positions _ _ _ _ E) 6). left.
Defined.

(** a report compared with itself has no unexpected changes, when all its files
    have counted lines and lines of a known type. *)
Theorem get_changes_reflexive `{OrJson} r :
  report_wf r -> Forall comparable (od_vals (Report.r_files r)) ->
  get_changes (Some r) (Some r) None = Ok (Some []).
Proof. apply get_changes_self. Qed.

Lemma get_changes_reflexive_witness :
  @get_changes codec (Some example_report) (Some example_report) None = Ok (Some []).
Proof.
  apply (@get_changes_reflexive codec); [apply (@example_report_ok codec)|].
  assert (Hg : forall n, 1 <= n ->
    @ReportFile.get codec ReportFile.example_file n = Ok None \/
    exists l, @ReportFile.get codec ReportFile.example_file n = Ok (Some l) /\
      is_Ok (line_type (rl_coverage l)) = true).
  { intros n Hn. rewrite ReportFile.get_slot, ReportFile.force_parsed by done. cbn [mbind result_bind].
    unfold ReportFile.slot_at. destruct (Z.to_nat (n - 1)) as [|[|[|k]]]; cbn; eauto. }
  constructor; [|constructor]. split; [vm_compute; reflexivity|]. split.
  - intros n Hn. cbn [snd]. destruct (Hg n Hn) as [->|(l & -> & _)]; done.
  - intros n l Hn. cbn [snd]. destruct (Hg n Hn) as [->|(l' & -> & Hl)]; [done|]. by intros [= <-].
Defined.

(** A file present and equal in both reports, but without counted lines, is listed
    as new: its truth value stands for its presence in the base report. *)
Theorem get_changes_uncounted_file `{OrJson} r f :
  Report.r_files r = [(ReportFile.rf_name f, f)] -> ReportFile.__bool__ f = Ok false ->
  get_changes (Some r) (Some r) None =
    Ok (Some [mkChange (ReportFile.rf_name f) true false None None None]).
Proof.
  intros Hf Hb.
  assert (Hstep : head_step r None [] ([], []) f = Ok ([], [ReportFile.rf_name f])).
  { unfold head_step. rewrite !bool_decide_eq_false_2 by set_solver. cbn [orb diff_files od_get].
    unfold Report.get. rewrite Hf. cbn [od_get]. rewrite decide_True by done. cbn [file_truthy].
    by rewrite Hb. }
  unfold get_changes. rewrite !set_minus_self, Hf. cbn [moved_files diff_files omap list_omap].
  change (od_vals [(ReportFile.rf_name f, f)]) with [f]. cbn [foldM]. by rewrite Hstep.
Qed.

Lemma get_changes_uncounted_file_witness :
  let f := ReportFile.with_lines [] ReportFile.example_file in
  @get_changes codec (Some (Report.mkReport [] None [("a.py", f)] None))
    (Some (Report.mkReport [] None [("a.py", f)] None)) None =
  Ok (Some [mkChange "a.py" true false None None None]).
Proof.
  intros f. apply (@get_changes_uncounted_file codec (Report.mkReport [] None [("a.py", f)] None) f);
    [reflexivity | vm_compute; reflexivity].
Defined.

(** The difference of two totals puts the difference of the complexities into
    [sessions] and that of the total complexities into [complexity], because the index
    9 of the sessions is left out of the positional arguments. *)
Theorem diff_totals_shifts_complexity base head absolute t :
  diff_totals (Some base) (Some head) absolute = Ok (Diff t) ->
  sub_fields (fun t => int_float_Z (optZ (rt_complexity t))) base head = Ok (rt_sessions t) /\
  exists c, sub_fields (fun t => int_float_Z (optZ (rt_complexity_total t))) base head = Ok c /\
    rt_complexity t = Some c.
Proof.
  unfold diff_totals. case_bool_decide; [done|]. intros Hr.
  apply bind_Ok_inv in Hr as (ds & Hds & Hr). apply bind_Ok_inv in Hr as (d & Hd & Hr).
  apply bind_Ok_inv in Hr as (c & _ & [= <-]). unfold set_coverage. cbn [rt_sessions rt_complexity].
  apply traverse_Forall2 in Hds. unfold diff_fields in Hds.
  repeat (apply Forall2_cons_inv_l in Hds as (? & ? & ? & Hds & ->)).
  apply Forall2_nil_inv_l in Hds as ->.
  cbn in Hd. injection Hd as <-. cbn [rt_sessions rt_complexity]. eauto.
Qed.

Lemma diff_totals_shifts_complexity_witness :
  let base := mkTotals 0 3 2 1 0 (TcStr "66.66667") 0 0 0 1 (Some 4) (Some 9) (VInt 0) in
  let head := mkTotals 0 3 3 0 0 (TcStr "100") 0 0 0 1 (Some 6) (Some 10) (VInt 0) in
  exists t, diff_totals (Some base) (Some head) None = Ok (Diff t) /\
    rt_sessions t = 2 /\ rt_complexity t = Some 1.
Proof.
  intros base head. destruct (diff_totals (Some base) (Some head) None) as [[| | |t]|e] eqn:E;
    try (exfalso; vm_compute in E; discriminate E).
  exists t. split; [reflexivity|].
  destruct (diff_totals_shifts_complexity base head None t E) as [Hs (c & Hc & Ht)].
  assert (E1 : sub_fields (fun t => int_float_Z (optZ (rt_complexity t))) base head = Ok 2)
    by (vm_compute; reflexivity).
  assert (E2 : sub_fields (fun t => int_float_Z (optZ (rt_complexity_total t))) base head = Ok 1)
    by (vm_compute; reflexivity).
  rewrite E1 in Hs. rewrite E2 in Hc. injection Hs as <-. injection Hc as <-. split; [reflexivity | exact Ht].
Defined.
