(* ===== verification/Validation.v ===== *)
(** * [shared/validation]: the fields of a configuration

    The validators of [validation/helpers.py]: each takes the value the user wrote
    and gives the one the code reads, or raises [Invalid], whose message is left
    out.  [pyparsing] and the check that a pattern compiles are parameters:
    [Requirements] splits a text of requirements into its groups, [Re] compiles. *)
From S2P Require Export PyRe PyDecimal PyVal.

#[local] Open Scope string_scope.
#[local] Open Scope Z_scope.
#[local] Open Scope list_scope.

(** [except ValueError: raise Invalid]. *)
Definition or_invalid {A} (r : result A) : result A :=
  match r with Err ValueError => Err Invalid | _ => r end.

(** [float(s)] of a bound: an infinity is out of bounds, like a text that is no number. *)
Definition bound_of_text (s : string) : result b64 :=
  match float_of_text s with Err OverflowError => Err ValueError | r => r end.

(** [float(v)]. *)
Definition py_float (v : pyval) : result b64 :=
  match v with
  | VInt z => f_of_Z z
  | VBool b => f_of_Z (Z.b2z b)
  | VFloat f => Ok f
  | VStr s => bound_of_text s
  | VNone | VList _ | VDict _ => Err TypeError
  end.

(** ** [CoverageRangeSchemaField] *)

Definition f_zero : b64 := rnd false 0 1.
Definition f_hundred : b64 := rnd false 100 1.

Definition in_percent (f : b64) : bool := f_leb f_zero f && f_leb f f_hundred.

Definition validate_bounds (lower_bound upper_bound : b64) : result (list b64) :=
  if negb (in_percent lower_bound) then Err Invalid
  else if negb (in_percent upper_bound) then Err Invalid
  else if f_ltb upper_bound lower_bound then Err Invalid
  else Ok [lower_bound; upper_bound].

Definition CoverageRange_validate (data : pyval) : result (list b64) :=
  match data with
  | VList [a; b] =>
      or_invalid (x ← py_float a; y ← py_float b;
                  if f_ltb y x then validate_bounds y x else validate_bounds x y)
  | VList _ => Err Invalid
  | VStr s =>
      splitter ← if str_contains "...." s then Err Invalid
                 else if str_contains "..." s then Ok "..."
                 else if str_contains ".." s then Ok ".."
                 else Err Invalid;
      match split splitter s with
      | [a; b] => or_invalid (x ← bound_of_text a; y ← bound_of_text b; validate_bounds x y)
      | _ => Err Invalid
      end
  | VNone | VBool _ | VInt _ | VFloat _ => Err TypeError
  | VDict _ => Err Unmodelled
  end.

(** ** [CoverageCommentRequirementSchemaField] *)

(** [CoverageCommentRequiredChanges]. *)
Definition no_requirements : Z := 0.
Definition any_change : Z := 1.
Definition coverage_drop : Z := 2.
Definition uncovered_patch : Z := 4.

(** The parser of the operators: the groups the text joins with [and], each the
    requirements it joins with [or]. *)
Class Requirements : Type := parse_requirements : string -> option (list (list string)).

Definition _convert_to_binary_value (valid_requirement : string) : result Z :=
  if bool_decide (valid_requirement = "any_change") then Ok any_change
  else if bool_decide (valid_requirement = "coverage_drop") then Ok coverage_drop
  else if bool_decide (valid_requirement = "uncovered_patch") then Ok uncovered_patch
  else if bool_decide (valid_requirement = "no_requirements") then Ok no_requirements
  else Err KeyError.

Definition _parse_or_group (acc : Z) (value : string) : result Z :=
  v ← _convert_to_binary_value value; Ok (Z.lor acc v).

Section comment.
Context `{Requirements}.

Definition validate_str (data : string) : result (list Z) :=
  if bool_decide (data = "") then Err Invalid
  else match parse_requirements (lower data) with
       | Some raw_or_groups => traverse (fun raw_group => foldM _parse_or_group 0 raw_group) raw_or_groups
       | None => Err Invalid
       end.

Definition validate_bool (data : bool) : list Z := if data then [any_change] else [no_requirements].

Definition CoverageCommentRequirement_validate (data : pyval) : result (list Z) :=
  match data with
  | VBool b => Ok (validate_bool b)
  | VStr s => validate_str s
  | _ => Err Invalid
  end.
End comment.

(** ** [ByteSizeSchemaField] and [PercentSchemaField] *)

(** The digits at the head of a text. *)
Fixpoint span_digits (s : string) : string * string :=
  match s with
  | String c s' => if is_digit c then let '(d, r) := span_digits s' in (String c d, r) else ("", s)
  | EmptyString => ("", "")
  end.

(** [$] also matches before a final newline. *)
Definition drop_final_newline (s : string) : string := if endswith nl s then str_init 1 s else s.

(** The value of a unit: an integer, or the power of ten of a float. *)
Definition extension_multiplier (e : string) : option (Z + Z) :=
  if bool_decide (e = "b") then Some (inl 1)
  else if bool_decide (e = "bytes") then Some (inl 1)
  else if bool_decide (e = "kb") then Some (inr (10 ^ 3))
  else if bool_decide (e = "mb") then Some (inr (10 ^ 6))
  else if bool_decide (e = "gb") then Some (inr (10 ^ 9))
  else None.

Definition ByteSize_validate_str (data : string) : result pyval :=
  let '(size, rest) := span_digits (lower data) in
  if bool_decide (size = "") then Err Invalid
  else match extension_multiplier (drop_final_newline (lstrip rest)) with
       | None => Err Invalid
       | Some m =>
           n ← int_of_str size;
           match m with
           | inl k => Ok (VInt (n * k))
           | inr k => f ← f_of_Z n; g ← f_of_Z k; Ok (VFloat (f_mul f g))
           end
       end.

Definition ByteSize_validate (data : pyval) : result pyval :=
  match data with
  | VInt z => if z <? 0 then Err Invalid else Ok data
  | VBool _ => Ok data
  | VStr s => ByteSize_validate_str s
  | _ => Err Invalid
  end.

Fixpoint rstrip_percent (s : string) : string :=
  match s with
  | EmptyString => EmptyString
  | String c s' =>
      match rstrip_percent s' with
      | EmptyString => if bool_decide (c = "%"%char) then EmptyString else String c EmptyString
      | r => String c r
      end
  end.

(** [auto] is kept, a number is a float; [field_regex] asks for a digit at the head. *)
Definition Percent_validate (value : pyval) (allow_auto : bool) : result pyval :=
  if bool_decide (value = VStr "auto") then if allow_auto then Ok value else Err Invalid
  else
    match value with
    | VInt _ | VBool _ | VFloat _ => f ← py_float value; Ok (VFloat f)
    | VStr s =>
        match s with
        | String c _ =>
            if is_digit c then
              match float_of_text (if endswith "%" s then rstrip_percent s else s) with
              | Ok f => Ok (VFloat f)
              | Err OverflowError => Err Unmodelled
              | Err _ => Err Invalid
              end
            else Err Invalid
        | EmptyString => Err Invalid
        end
    | VNone | VList _ | VDict _ => Err TypeError
    end.

(** [BundleSizeThresholdSchemaField]: the kind of the threshold and its value. *)
Definition BundleSizeThreshold_validate (value : pyval) : result (string * pyval) :=
  match value with
  | VInt _ | VBool _ => v ← ByteSize_validate value; Ok ("absolute", v)
  | VFloat _ => v ← Percent_validate value false; Ok ("percentage", v)
  | VStr s =>
      if str_contains "%" s then v ← Percent_validate value false; Ok ("percentage", v)
      else v ← ByteSize_validate value; Ok ("absolute", v)
  | _ => v ← ByteSize_validate value; Ok ("absolute", v)
  end.

(** ** Path patterns *)

Inductive pattern_type : Set := path_prefix | glob | regex_pattern.

Section paths.
Context `{Re}.

Definition has_any (chars : list string) (s : string) : bool := existsb (fun c => str_contains c s) chars.

Definition determine_path_pattern_type (filepath_pattern : string) : result pattern_type :=
  if negb (has_any ["*"; "$"; "]"; "["] filepath_pattern) then Ok path_prefix
  else if str_contains "**" filepath_pattern || str_contains "/*" filepath_pattern then Ok glob
  else if str_contains "*" filepath_pattern && negb (has_any ["]*"; ".*"] filepath_pattern) then Ok glob
  else match re_compile filepath_pattern with
       | Ok _ => Ok regex_pattern
       | Err ReError => Ok glob
       | Err e => Err e
       end.

(** The bracket that closes a set: [!] and [\]] may come first. *)
Fixpoint find_close (s : string) : option nat :=
  match s with
  | EmptyString => None
  | String c s' => if bool_decide (c = "]"%char) then Some O else S <$> find_close s'
  end.

Definition close_of (s : string) : option nat :=
  let skip p k t := if startswith p t then (S k, str_drop 1 t) else (k, t) in
  let '(k, t) := skip "!" O s in
  let '(k, t) := skip "]" k t in
  (fun j => (k + j)%nat) <$> find_close t.

(** [pat.find("-", k, j)], in a set of which [t] is what follows position [k]. *)
Fixpoint find_hyphen (t : string) : option nat :=
  match t with
  | EmptyString => None
  | String c t' => if bool_decide (c = "-"%char) then Some O else S <$> find_hyphen t'
  end.

(** The chunks between the hyphens of a set: [i] is where the chunk begins and [k]
    where the next hyphen is looked for. *)
Fixpoint chunks_from (fuel : nat) (stuff : string) (i k : nat) : list string :=
  match fuel with
  | O => []
  | S fuel' =>
      match find_hyphen (str_drop k stuff) with
      | Some d =>
          let h := (k + d)%nat in
          str_take (h - i) (str_drop i stuff) :: chunks_from fuel' stuff (h + 1) (h + 3)
      | None => [str_drop i stuff]
      end
  end.

Definition escape_set_operations (s : string) : string :=
  join "" ((fun c => if bool_decide (c = "&"%char) || bool_decide (c = "~"%char) || bool_decide (c = "|"%char)
                     then String "\" (String c "") else String c "") <$> String.list_ascii_of_string s).

(** The text of a set, [stuff] being what its brackets hold. *)
Definition translate_set (stuff : string) : string :=
  let escaped :=
    if str_contains "--" stuff then
      join "-" ((fun s => str_replace "-" "\-" (str_replace "\" "\\" s)) <$>
        chunks_from (S (String.length stuff)) stuff 0 (if startswith "!" stuff then 2 else 1))
    else str_replace "\" "\\" stuff in
  let stuff := escape_set_operations escaped in
  let stuff := match stuff with
               | String "!" s => String "^" s
               | String "^" _ | String "[" _ => String "\" stuff
               | _ => stuff
               end in
  "[" +:+ stuff +:+ "]".

(** The loop over the pattern. *)
Fixpoint translate_from (fuel : nat) (pat : string) : string :=
  match fuel with
  | O => ""
  | S fuel' =>
      match pat with
      | EmptyString => ""
      | String "*" (String "*" pat') => ".*" +:+ translate_from fuel' pat'
      | String "*" pat' => "[^\/]*" +:+ translate_from fuel' pat'
      | String "?" pat' => "." +:+ translate_from fuel' pat'
      | String "[" pat' =>
          match close_of pat' with
          | None => "\[" +:+ translate_from fuel' pat'
          | Some j => translate_set (str_take j pat') +:+ translate_from fuel' (str_drop (j + 1) pat')
          end
      | String c pat' => escape_char c +:+ translate_from fuel' pat'
      end
  end.

Definition translate_glob_to_regex (pat : string) (end_of_string : bool) : string :=
  let res := translate_from (String.length pat) pat in
  if end_of_string then "(?s:" +:+ res +:+ ")\Z" else "(?s:" +:+ res +:+ ")".

(** [PathPatternSchemaField]. *)
Definition validate_glob (value : string) : string := translate_glob_to_regex value true.
Definition validate_path_prefix (value : string) : string := "^" +:+ value +:+ ".*".

Definition regex_or_invalid (value : string) : result string :=
  match re_compile value with Ok _ => Ok value | Err ReError => Err Invalid | Err e => Err e end.

Definition PathPattern_validate_according_to_type (input_type : pattern_type) (value : string) : result string :=
  match input_type with
  | regex_pattern => regex_or_invalid value
  | glob => Ok (validate_glob value)
  | path_prefix => Ok (validate_path_prefix value)
  end.

Fixpoint lstrip_bang (s : string) : string :=
  match s with String "!" s' => lstrip_bang s' | _ => s end.

Definition PathPattern_validate (value : string) : result string :=
  let is_negative := startswith "!" value in
  let value := if is_negative then lstrip_bang value else value in
  let value := if startswith "./" value then str_drop 2 value else value in
  input_type ← determine_path_pattern_type value;
  res ← PathPattern_validate_according_to_type input_type value;
  Ok (if is_negative then "!" +:+ res else res).

(** [CustomFixPathSchemaField]. *)
Definition CustomFixPath_validate_according_to_type (input_type : pattern_type) (value : string) : result string :=
  match input_type with
  | regex_pattern => regex_or_invalid value
  | glob => Ok (translate_glob_to_regex value false)
  | path_prefix => Ok ("^" +:+ value)
  end.

Definition CustomFixPath_validate (value : string) : result string :=
  match split1 "::" value with
  | [before; after] =>
      if bool_decide (before = "") || bool_decide (after = "") then Ok value
      else
        before_input_type ← determine_path_pattern_type before;
        before ← CustomFixPath_validate_according_to_type before_input_type before;
        Ok (before +:+ "::" +:+ after)
  | _ => Err Invalid
  end.

(** [UserGivenBranchRegex]: an asterisk that no dot precedes becomes [.*]. *)
Fixpoint asterisk_to_regexp (after_dot : bool) (s : string) : string :=
  match s with
  | EmptyString => EmptyString
  | String c s' =>
      let rest := asterisk_to_regexp (bool_decide (c = "."%char)) s' in
      if bool_decide (c = "*"%char) && negb after_dot then ".*" +:+ rest else String c rest
  end.

Definition UserGivenBranchRegex_validate (value : option string) : result (option string) :=
  match value with
  | None => Ok None
  | Some value =>
      if bool_decide (value ∈ ["*"; ""; ".*"]) then Ok (Some ".*")
      else
        let nv := asterisk_to_regexp false (strip value) in
        let nv := if startswith ".*" nv || startswith "^" nv then nv else "^" +:+ nv in
        let nv := if endswith ".*" nv || endswith "$" nv then nv else nv +:+ "$" in
        _ ← re_compile nv; Ok (Some nv)
  end.
End paths.

(** ** [LayoutStructure] and [BranchSchemaField] *)

Definition acceptable_objects : list string :=
  ["changes"; "diff"; "file"; "files"; "flag"; "flags"; "footer"; "header"; "reach"; "components";
   "suggestions"; "betaprofiling"; "sunburst"; "tree"; "uncovered"; "newheader"; "newfooter"; "feedback";
   "newfiles"; "condensed_header"; "condensed_footer"; "condensed_files"].

Definition first_of (sep s : string) : string := default "" (head (split sep s)).

Fixpoint layout_numbers (values : list string) : result unit :=
  match values with
  | [] => Ok tt
  | val :: values' =>
      (if str_contains ":" val then
         match split ":" (strip val) with
         | _ :: n :: _ => or_invalid (z ← int_of_str n; Ok tt)
         | _ => Err IndexError
         end
       else Ok tt) ≫= fun _ => layout_numbers values'
  end.

Definition LayoutStructure_validate (value : string) : result string :=
  let values := split "," value in
  let actual_values := (fun x => first_of ":" (strip x)) <$> List.filter (fun x => negb (bool_decide (x = ""))) values in
  if forallb (fun v => bool_decide (v ∈ acceptable_objects)) actual_values
  then _ ← layout_numbers values; Ok value
  else Err Invalid.

Definition BranchSchemaField_validate (value : pyval) : result string :=
  match value with
  | VStr s =>
      Ok (if startswith "origin/" s then str_drop 7 s
          else if startswith "refs/heads/" s then str_drop 11 s else s)
  | _ => Err Invalid
  end.

(** * What the patterns of a configuration match

    The regular expression a glob or a path prefix becomes, compiled with
    [python_re], matches what the pattern means. *)

#[local] Open Scope string_scope.
#[local] Open Scope list_scope.

(** ** Globs *)

(** [?] is one character, [*] a run without slashes, [**] any run. *)
Inductive glob_matches : string -> string -> Prop :=
  | gm_end : glob_matches "" ""
  | gm_char c p s :
      c <> "*"%char -> c <> "?"%char -> glob_matches p s -> glob_matches (String c p) (String c s)
  | gm_any c p s : glob_matches p s -> glob_matches (String "?" p) (String c s)
  | gm_stars p u s : glob_matches p s -> glob_matches (String "*" (String "*" p)) (u +:+ s)
  | gm_star p u s :
      startswith "*" p = false -> without "/" u = true -> glob_matches p s ->
      glob_matches (String "*" p) (u +:+ s).

(** The expression of a glob without sets. *)
Definition not_slash : regex := Chr (fun x => negb (bool_decide (x = "/"%char) || false)).

Fixpoint glob_regex (fuel : nat) (pat : string) : regex :=
  match fuel with
  | O => Eps
  | S fuel' =>
      match pat with
      | EmptyString => Eps
      | String "*" (String "*" pat') => Cat (Star (Dot true)) (glob_regex fuel' pat')
      | String "*" pat' => Cat (Star not_slash) (glob_regex fuel' pat')
      | String "?" pat' => Cat (Dot true) (glob_regex fuel' pat')
      | String c pat' => Cat (Exact c) (glob_regex fuel' pat')
      end
  end.

Ltac ascii_cases c := destruct c as [[] [] [] [] [] [] [] []].

(** ** Parsing the translation *)

Lemma translate_step k c p : c <> "["%char ->
  translate_from (S k) (String c p) =
  if bool_decide (c = "*"%char) then
    match p with String "*" p' => ".*" +:+ translate_from k p' | _ => "[^\/]*" +:+ translate_from k p end
  else if bool_decide (c = "?"%char) then "." +:+ translate_from k p
  else escape_char c +:+ translate_from k p.
Proof. ascii_cases c; intros Hc; try reflexivity. done. Qed.

Lemma glob_regex_step k c p : c <> "["%char ->
  glob_regex (S k) (String c p) =
  if bool_decide (c = "*"%char) then
    match p with String "*" p' => Cat (Star (Dot true)) (glob_regex k p') | _ => Cat (Star not_slash) (glob_regex k p) end
  else if bool_decide (c = "?"%char) then Cat (Dot true) (glob_regex k p)
  else Cat (Exact c) (glob_regex k p).
Proof. ascii_cases c; reflexivity. Qed.

(** Text that goes on with no quantifier and no anchor. *)
Definition calm_head (s : string) : Prop :=
  (forall r, parse_quantifier r s = Ok (r, s)) /\
  (forall r, parse_quantifier r (String "*" s) = Ok (Star r, s)) /\
  match s with String "^" _ => False | _ => True end.

Lemma calm_escaped c s : calm_head (escape_char c +:+ s).
Proof. ascii_cases c; done. Qed.

Lemma calm_translate k pat t : without "[" pat = true -> calm_head (translate_from k pat +:+ String ")" t).
Proof.
  destruct k as [|k]; [done|]. destruct pat as [|c pat]; [done|]. cbn [without str_forallb]. intros [Hc _]%andb_true_iff.
  apply negb_true_iff, bool_decide_eq_false in Hc. rewrite translate_step by congruence.
  case_bool_decide; [|case_bool_decide; [done | rewrite str_app_assoc; apply calm_escaped]].
  destruct pat as [|c' pat]; [done|]. by ascii_cases c'.
Qed.

(** One item of a sequence. *)
Definition seq_after (n : nat) (r : result (regex * string)) : result (regex * string) :=
  '(a, rest) ← r;
  '(q, rest) ← parse_quantifier a rest;
  '(r, rest) ← parse_seq n false true rest;
  Ok (Cat q r, rest).

Lemma seq_escaped n c rest :
  parse_seq (S (S n)) false true (escape_char c +:+ rest) = seq_after (S n) (Ok (Exact c, rest)).
Proof. ascii_cases c; reflexivity. Qed.

Lemma seq_dot n rest :
  parse_seq (S (S n)) false true (String "." rest) = seq_after (S n) (Ok (Dot true, rest)).
Proof. reflexivity. Qed.

Lemma seq_not_slash n rest :
  parse_seq (S (S (S (S (S (S (S (S n)))))))) false true ("[^\/]" +:+ rest) =
  seq_after (S (S (S (S (S (S (S n))))))) (Ok (not_slash, rest)).
Proof.
  assert (Ho : forall m r, parse_seq (S m) false true (String "[" r) = seq_after m (parse_atom m true (String "[" r)))
    by reflexivity.
  assert (Ha : parse_atom (S (S (S (S (S (S (S n))))))) true ("[^\/]" +:+ rest) = Ok (not_slash, rest)) by reflexivity.
  change ("[^\/]" +:+ rest) with (String "[" ("^\/]" +:+ rest)) in *. by rewrite Ho, Ha.
Qed.

Lemma parse_glob k : forall pat n t,
  (String.length pat <= k)%nat -> without "[" pat = true -> (k + 10 <= n)%nat ->
  parse_seq n false true (translate_from k pat +:+ String ")" t) = Ok (glob_regex k pat, String ")" t).
Proof.
  induction k as [|k IH]; intros pat n t Hl Hw Hn.
  { destruct pat; [|cbn in Hl; lia]. destruct n as [|n]; [lia|]. done. }
  destruct pat as [|c pat]; [destruct n as [|n]; [lia|]; done|].
  cbn [String.length] in Hl. cbn [without str_forallb] in Hw. apply andb_true_iff in Hw as [Hc Hw].
  apply negb_true_iff, bool_decide_eq_false in Hc. rewrite translate_step, glob_regex_step by congruence.
  do 8 (destruct n as [|n]; [lia|]).
  assert (Hstep : forall p a, (String.length p <= k)%nat -> without "[" p = true ->
            seq_after (S (S (S (S (S (S (S n))))))) (Ok (a, translate_from k p +:+ String ")" t)) =
            Ok (Cat a (glob_regex k p), String ")" t)).
  { intros p a Hp Hwp. unfold seq_after. rewrite bind_Ok. rewrite (proj1 (calm_translate k p t Hwp)).
    rewrite bind_Ok, IH by (done || lia). done. }
  assert (Hstar : forall p a, (String.length p <= k)%nat -> without "[" p = true ->
            seq_after (S (S (S (S (S (S (S n))))))) (Ok (a, String "*" (translate_from k p +:+ String ")" t))) =
            Ok (Cat (Star a) (glob_regex k p), String ")" t)).
  { intros p a Hp Hwp. unfold seq_after. rewrite bind_Ok. rewrite (proj1 (proj2 (calm_translate k p t Hwp))).
    rewrite bind_Ok, IH by (done || lia). done. }
  case_bool_decide; [|case_bool_decide].
  - assert (Hone : parse_seq (S (S (S (S (S (S (S (S n)))))))) false true
                     (("[^\/]*" +:+ translate_from k pat) +:+ String ")" t) =
                   Ok (Cat (Star not_slash) (glob_regex k pat), String ")" t)).
    { rewrite str_app_assoc. change ("[^\/]*" +:+ ?x) with ("[^\/]" +:+ String "*" x).
      rewrite seq_not_slash. by apply Hstar; [lia|]. }
    destruct pat as [|c' pat]; [exact Hone|]. cbn [String.length] in Hl.
    destruct (decide (c' = "*"%char)) as [->|Hc'].
    + cbn [without str_forallb] in Hw. apply andb_true_iff in Hw as [_ Hw].
      rewrite str_app_assoc. change (".*" +:+ ?x) with (String "." (String "*" x)).
      rewrite seq_dot. by apply Hstar; [lia|].
    + ascii_cases c'; try exact Hone. done.
  - rewrite str_app_assoc. change ("." +:+ ?x) with (String "." x). rewrite seq_dot. by apply Hstep; [lia|].
  - rewrite str_app_assoc, seq_escaped. apply Hstep; [lia | done].
Qed.

(** ** What the expression matches *)

Lemma slash_sym x : negb (bool_decide (x = "/"%char) || false) = negb (bool_decide ("/"%char = x)).
Proof. rewrite orb_false_r. by do 2 case_bool_decide; subst. Qed.

Lemma glob_regex_matches k : forall pat s s',
  (String.length pat <= k)%nat -> without "[" pat = true ->
  (Matches (glob_regex k pat) s s' <-> exists u, s = u +:+ s' /\ glob_matches pat u).
Proof.
  induction k as [|k IH]; intros pat s s' Hl Hw.
  { destruct pat; [|cbn in Hl; lia]. cbn. rewrite Matches_Eps. split; [intros ->; exists ""; split; [done|constructor]|].
    intros (u & -> & Hu). by inversion Hu. }
  destruct pat as [|c pat].
  { cbn. rewrite Matches_Eps. split; [intros ->; exists ""; split; [done|constructor]|].
    intros (u & -> & Hu). by inversion Hu. }
  cbn [String.length] in Hl. cbn [without str_forallb] in Hw. apply andb_true_iff in Hw as [Hc Hw].
  apply negb_true_iff, bool_decide_eq_false in Hc. rewrite glob_regex_step by congruence.
  case_bool_decide as E; [|case_bool_decide as E2].
  - subst c.
    assert (Hone : startswith "*" pat = false ->
      (Matches (Cat (Star not_slash) (glob_regex k pat)) s s' <->
       exists u, s = u +:+ s' /\ glob_matches (String "*" pat) u)).
    { intros Hs. rewrite Matches_Cat. split.
      - intros (s1 & (u & -> & Hu)%Matches_Star_Chr & Hm). apply IH in Hm as (v & -> & Hv); [|lia|done].
        exists (u +:+ v). split; [by rewrite str_app_assoc|]. apply gm_star; try done.
        revert Hu. apply str_forallb_impl. intros x. by rewrite slash_sym.
      - intros (w & -> & Hw'). inversion Hw' as [|? ? ? Hx| | |p u v Hs' Hu Hv]; subst; [done|by destruct p|].
        exists (v +:+ s'). split.
        + apply Matches_Star_Chr. exists u. split; [by rewrite str_app_assoc|]. revert Hu. apply str_forallb_impl.
          intros x. by rewrite slash_sym.
        + apply IH; [lia | done |]. by exists v. }
    destruct pat as [|c' pat]; [by apply Hone|].
    destruct (decide (c' = "*"%char)) as [->|Hc'].
    + cbn [String.length] in Hl. cbn [without str_forallb] in Hw. apply andb_true_iff in Hw as [_ Hw].
      rewrite Matches_Cat. split.
      * intros (s1 & (u & -> & Hu)%Matches_Star_Chr & Hm). apply IH in Hm as (v & -> & Hv); [|lia|done].
        exists (u +:+ v). split; [by rewrite str_app_assoc|]. by apply gm_stars.
      * intros (w & -> & Hw'). inversion Hw' as [|? ? ? Hx| |p u v Hv|p u v Hs' Hu Hv]; subst; [done| |by destruct pat].
        exists (v +:+ s'). split.
        -- apply Matches_Star_Chr. exists u. split; [by rewrite str_app_assoc|]. clear. by induction u.
        -- apply IH; [lia | done |]. by exists v.
    + ascii_cases c'; try (by apply Hone); done.
  - subst c. rewrite Matches_Cat. split.
    + intros (s1 & (x & -> & _)%Matches_Chr & Hm). apply IH in Hm as (v & -> & Hv); [|lia|done].
      exists (String x v). split; [done|]. by constructor.
    + intros (w & -> & Hw'). inversion Hw' as [|? ? ? ? Hx|x p v Hv| |]; subst; [done|].
      exists (v +:+ s'). split; [by constructor|]. apply IH; [lia|done|]. by exists v.
  - rewrite Matches_Cat. split.
    + intros (s1 & (x & -> & Hx)%Matches_Chr & Hm). apply bool_decide_eq_true in Hx as ->.
      apply IH in Hm as (v & -> & Hv); [|lia|done]. exists (String c v). split; [done|]. by constructor.
    + intros (w & -> & Hw'). inversion Hw' as [|? ? v ? ? Hv| | |]; subst; try done.
      exists (v +:+ s'). split; [apply Matches_Chr; exists c; by rewrite bool_decide_eq_true_2|].
      apply IH; [lia|done|]. by exists v.
Qed.

(** ** The validated patterns *)

Lemma translate_length k pat : (String.length pat <= k)%nat -> without "[" pat = true ->
  (String.length pat <= String.length (translate_from k pat))%nat.
Proof.
  revert pat. induction k as [|k IH]; intros pat Hl Hw; [destruct pat; cbn in *; lia|].
  destruct pat as [|c pat]; [cbn; lia|]. cbn [String.length] in Hl |- *. cbn [without str_forallb] in Hw.
  apply andb_true_iff in Hw as [Hc Hw]. apply negb_true_iff, bool_decide_eq_false in Hc.
  rewrite translate_step by congruence. pose proof (IH pat ltac:(lia) Hw) as H1.
  assert (Hone : (S (String.length pat) <= String.length ("[^\/]*" +:+ translate_from k pat))%nat) by (cbn; lia).
  case_bool_decide; [|case_bool_decide].
  - destruct pat as [|c' pat]; [exact Hone|]. destruct (decide (c' = "*"%char)) as [->|Hc'].
    + cbn [without str_forallb] in Hw. apply andb_true_iff in Hw as [_ Hw]. cbn [String.length] in *.
      specialize (IH pat ltac:(lia) Hw). cbn. lia.
    + ascii_cases c'; try exact Hone. done.
  - cbn. lia.
  - rewrite str_length_app. unfold escape_char. case_match; cbn; lia.
Qed.

Lemma parse_alts_seq n dotall s r rest :
  match s with String "^" _ => False | _ => True end ->
  parse_seq n false dotall s = Ok (r, String ")" rest) -> parse_alts (S n) false dotall s = Ok (r, String ")" rest).
Proof.
  intros Hs Hp. assert (E : parse_alts (S n) false dotall s =
    '(r, rest) ← parse_seq n false dotall s;
    match rest with
    | String "|" s' => '(r', rest) ← parse_alts n false dotall s'; Ok (Alt r r', rest)
    | _ => Ok (r, rest)
    end).
  { destruct s as [|c s]; [done|]. ascii_cases c; done. }
  by rewrite E, Hp.
Qed.

Lemma compile_glob pat : without "[" pat = true ->
  regex_of_text (validate_glob pat) = Ok (Cat (glob_regex (String.length pat) pat) (Cat Eol Eps)).
Proof.
  intros Hw. unfold validate_glob, translate_glob_to_regex. cbv zeta.
  set (T := translate_from (String.length pat) pat).
  assert (Hlen : (String.length pat <= String.length T)%nat) by (by apply translate_length).
  unfold regex_of_text. set (fuel := (4 * _ + 8)%nat).
  assert (Hf : (String.length pat + 30 <= fuel)%nat) by (unfold fuel; rewrite !str_length_app; cbn; lia).
  clearbody fuel. do 8 (destruct fuel as [|fuel]; [lia|]).
  change ("(?s:" +:+ T +:+ ")\Z") with (String "(" (String "?" (String "s" (String ":" (T +:+ ")\Z"))))).
  assert (Ht : forall n s, parse_alts (S n) true false (String "(" s) =
             '(r, rest) ← parse_seq n true false (String "(" s);
             match rest with
             | String "|" s' => '(r', rest) ← parse_alts n true false s'; Ok (Alt r r', rest)
             | _ => Ok (r, rest)
             end) by reflexivity.
  assert (Hs : forall n s, parse_seq (S n) true false (String "(" s) =
             '(a, rest) ← parse_atom n false (String "(" s);
             '(q, rest) ← parse_quantifier a rest;
             '(r, rest) ← parse_seq n true false rest;
             Ok (Cat q r, rest)) by reflexivity.
  assert (Hg : forall n s, parse_atom (S n) false (String "(" (String "?" (String "s" (String ":" s)))) =
             '(r, rest) ← parse_alts n false true s;
             match rest with String ")" rest' => Ok (r, rest') | _ => Err ReError end) by reflexivity.
  assert (Hi : parse_alts (S (S (S (S (S fuel))))) false true (T +:+ ")\Z") =
               Ok (glob_regex (String.length pat) pat, ")\Z")).
  { apply parse_alts_seq.
    - exact (proj2 (proj2 (calm_translate (String.length pat) pat "\Z" Hw))).
    - apply parse_glob; [lia | done | lia]. }
  rewrite Ht, Hs, Hg, Hi. cbn [mbind result_bind]. reflexivity.
Qed.

(** C30: The regular expression of a glob without sets compiles, and it matches the
    paths the glob means: [?] stands for one character, [*] for a run without
    slashes and [**] for any run. *)
Theorem glob_pattern_correct pat :
  without "[" pat = true ->
  exists m, re_compile (validate_glob pat) = Ok m /\ forall path, m path = true <-> glob_matches pat path.
Proof.
  intros Hw. exists (is_match (Cat (glob_regex (String.length pat) pat) (Cat Eol Eps))).
  split; [unfold re_compile, python_re; by rewrite compile_glob|]. intros path. rewrite is_match_spec. split.
  - intros (s' & Hm). apply Matches_Cat in Hm as (s1 & Hm & He). apply Matches_Cat in He as (s2 & He & _).
    apply Matches_Eol in He as [-> _]. apply glob_regex_matches in Hm as (u & -> & Hu); [|done|done].
    by rewrite str_app_nil_r.
  - intros Hm. exists "". apply Matches_Cat. exists "". split.
    + apply glob_regex_matches; [done|done|]. exists path. by rewrite str_app_nil_r.
    + apply Matches_Cat. exists "". by rewrite Matches_Eol, Matches_Eps.
Qed.

Lemma glob_pattern_correct_witness :
  exists m, re_compile (validate_glob "src/**/*.p?") = Ok m /\ m "src/a/b/c.py" = true /\ m "src/c.py" = false.
Proof.
  destruct (glob_pattern_correct "src/**/*.p?" eq_refl) as (m & Hm & Hiff).
  exists m. split; [exact Hm|]. vm_compute in Hm. injection Hm as <-. split; vm_compute; reflexivity.
Defined.

(** A path prefix is not escaped: a name with parentheses is matched without them. *)
Example prefix_not_escaped :
  PathPattern_validate "src/app (old)" = Ok "^src/app (old).*" /\
  matcher_match (Some ["^src/app (old).*"]) "src/app (old)/x.py" = Ok false /\
  matcher_match (Some ["^src/app (old).*"]) "src/app old/x.py" = Ok true.
Proof. vm_compute. done. Qed.

(** Sizes with a unit above the byte are floats, not the integers of the docstring. *)
Example byte_size_is_float : ByteSize_validate (VStr "12KB") = Ok (VFloat (rnd false 12000 1)).
Proof. vm_compute. reflexivity. Qed.
