(* ===== verification/YamlSchema.v ===== *)
(** * [shared/validation]: the schemas, and [shared/yaml/validation.py]

    A schema is the value the code writes, read by [cerberus]: [Cerberus] is its
    interface, a validator that is given the coercions by name.  The descriptions
    of options have keys and types that no YAML document has, so their [True],
    [False], [bool] and [str] are texts here.  The rest is what the code does
    around the validator. *)
From S2P Require Export Validation Encryption.
#[local] Open Scope string_scope.
#[local] Open Scope Z_scope.
#[local] Open Scope list_scope.

(** A double quote, inside a text. *)
Definition DQ : string := String "034" "".

(** [{..., **d, ...}]: entries and the entries of other dictionaries, in order. *)
Definition dict_display (parts : list (list (string * pyval) + pyval)) : pyval :=
  VDict (od_of_list (concat ((fun p => match p with
                                       | inl l => l
                                       | inr (VDict d) => d
                                       | inr _ => []
                                       end) <$> parts))).

(** ** [user_schema.py], [cli_schema.py] and [install.py] *)

Definition flag_name : pyval :=
  VDict [("type", VStr "string");
     ("minlength", VInt 1);
     ("maxlength", VInt 1024);
     ("regex", VStr ("^[^\'\" +:+ DQ +:+ "]+$"))].

Definition branches_structure : pyval :=
  VDict [("type", VStr "list");
     ("schema", VDict [("type", VStr "string");
       ("nullable", VBool true);
       ("coerce", VStr "branch_name")]);
     ("nullable", VBool true)].

Definition layout_structure : pyval :=
  VDict [("type", VStr "string");
     ("comma_separated_strings", VBool true);
     ("nullable", VBool true)].

Definition path_list_structure : pyval :=
  VDict [("type", VStr "list");
     ("nullable", VBool true);
     ("schema", VDict [("type", VStr "string");
       ("coerce", VStr "regexify_path_pattern")])].

Definition flag_list_structure : pyval :=
  VDict [("type", VStr "list");
     ("nullable", VBool true);
     ("schema", VDict [("type", VStr "string");
       ("regex", VStr ("^[^\'\" +:+ DQ +:+ "]{1,1024}$"))])].

Definition status_common_config : pyval :=
  VDict [("base", VDict [("type", VStr "string");
       ("allowed", VList [VStr "parent"; VStr "pr"; VStr "auto"])]);
     ("branches", branches_structure);
     ("disable_approx", VDict [("type", VStr "boolean")]);
     ("enabled", VDict [("type", VStr "boolean")]);
     ("if_ci_failed", VDict [("type", VStr "string");
       ("allowed", VList [VStr "success"; VStr "failure"; VStr "error"; VStr "ignore"])]);
     ("if_no_uploads", VDict [("type", VStr "string");
       ("allowed", VList [VStr "success"; VStr "failure"; VStr "error"; VStr "ignore"])]);
     ("if_not_found", VDict [("type", VStr "string");
       ("allowed", VList [VStr "success"; VStr "failure"; VStr "error"; VStr "ignore"])]);
     ("informational", VDict [("type", VStr "boolean")]);
     ("measurement", VDict [("type", VStr "string");
       ("nullable", VBool true);
       ("allowed", VList [VStr "line"; VStr "statement"; VStr "branch"; VStr "method"; VStr "complexity"])]);
     ("only_pulls", VDict [("type", VStr "boolean")]);
     ("skip_if_assumes", VDict [("type", VStr "boolean")]);
     ("removed_code_behavior", VDict [("type", VList [VStr "string"; VStr "boolean"]);
       ("allowed", VList [VStr "removals_only"; VStr "adjust_base"; VStr "fully_covered_patch"; VStr "off"; VBool false])])].

Definition percent_type_or_auto : pyval :=
  VDict [("type", VList [VStr "string"; VStr "number"]);
     ("anyof", VList [VDict [("allowed", VList [VStr "auto"])]; VDict [("regex", VStr "(\d+)(\.\d+)?%?")]]);
     ("nullable", VBool true);
     ("coerce", VStr "percentage_to_number_or_auto")].

Definition percent_type : pyval :=
  VDict [("type", VList [VStr "string"; VStr "number"]);
     ("regex", VStr "(\d+)(\.\d+)?%?");
     ("nullable", VBool true);
     ("coerce", VStr "percentage_to_number")].

Definition custom_status_common_config : pyval :=
  VDict [("name_prefix", VDict [("type", VStr "string");
       ("regex", VStr "^[\w\-\.]+$")]);
     ("type", VDict [("type", VStr "string");
       ("allowed", VList [VStr "project"; VStr "patch"; VStr "changes"])]);
     ("target", percent_type_or_auto);
     ("threshold", percent_type)].

Definition flag_status_base_attributes : pyval :=
  dict_display [inr status_common_config; 
    inl [("paths", path_list_structure);
     ("carryforward_behavior", VDict [("type", VStr "string");
       ("allowed", VList [VStr "include"; VStr "exclude"; VStr "pass"])]);
     ("flag_coverage_not_uploaded_behavior", VDict [("type", VStr "string");
       ("allowed", VList [VStr "include"; VStr "exclude"; VStr "pass"])])]].

Definition status_standard_attributes : pyval :=
  dict_display [inl [("flags", flag_list_structure)]; 
    inr flag_status_base_attributes].

Definition flag_status_attributes : pyval :=
  dict_display [inr flag_status_base_attributes; 
    inr custom_status_common_config].

Definition component_status_attributes : pyval :=
  dict_display [inr status_common_config; 
    inr custom_status_common_config].

Definition notification_standard_attributes : pyval :=
  VDict [("url", VDict [("type", VStr "string");
       ("coerce", VStr "secret");
       ("nullable", VBool true)]);
     ("branches", branches_structure);
     ("threshold", percent_type);
     ("message", VDict [("type", VStr "string")]);
     ("flags", flag_list_structure);
     ("base", VDict [("type", VStr "string");
       ("allowed", VList [VStr "parent"; VStr "pr"; VStr "auto"])]);
     ("only_pulls", VDict [("type", VStr "boolean")]);
     ("paths", path_list_structure)].

Definition flags_rule_basic_properties : pyval :=
  VDict [("statuses", VDict [("anyof", VList [VDict [("type", VStr "list");
         ("schema", VDict [("type", VStr "dict");
           ("schema", flag_status_attributes);
           ("allow_unknown", VBool false)])]])]);
     ("carryforward_mode", VDict [("type", VStr "string");
       ("allowed", VList [VStr "all"; VStr "labels"])]);
     ("carryforward", VDict [("type", VStr "boolean")]);
     ("paths", path_list_structure);
     ("ignore", path_list_structure);
     ("after_n_builds", VDict [("type", VStr "integer");
       ("min", VInt 0)])].

Definition component_rule_basic_properties : pyval :=
  VDict [("statuses", VDict [("anyof", VList [VDict [("type", VStr "list");
         ("schema", VDict [("type", VStr "dict");
           ("schema", component_status_attributes);
           ("allow_unknown", VBool false)])]])]);
     ("flag_regexes", VDict [("type", VStr "list");
       ("schema", VDict [("type", VStr "string")])]);
     ("paths", path_list_structure)].

Definition coverage_comment_config : pyval :=
  VDict [("layout", VDict [("type", VStr "string");
       ("comma_separated_strings", VBool true);
       ("nullable", VBool true)]);
     ("require_changes", VDict [("coerce", VStr "coverage_comment_required_changes");
       ("meta", VDict [("description", VStr "require_changes instructs Codecov to only post a PR Comment if there are coverage changes in the PR.");
         ("options", VDict [("False", VDict [("type", VStr "bool");
             ("description", VStr "post comment even if there's no change in coverage");
             ("default", VBool true)]);
           ("True", VDict [("type", VStr "bool");
             ("description", VStr "only post comment if there are changes in coverage (positive or negative)")]);
           ("coverage_drop", VDict [("type", VStr "str");
             ("description", VStr "[project coverage] only post comment if coverage drops more than <coverage.status.project.threshold> percent when comparing HEAD to BASE")]);
           ("uncovered_patch", VDict [("type", VStr "str");
             ("description", VStr "[patch coverage] only post comment if the patch has uncovered lines")])])])]);
     ("require_base", VDict [("type", VStr "boolean")]);
     ("require_head", VDict [("type", VStr "boolean")]);
     ("show_critical_paths", VDict [("type", VStr "boolean")]);
     ("branches", branches_structure);
     ("paths", path_list_structure);
     ("flags", flag_list_structure);
     ("behavior", VDict [("type", VStr "string");
       ("allowed", VList [VStr "default"; VStr "once"; VStr "new"; VStr "spammy"])]);
     ("after_n_builds", VDict [("type", VStr "integer");
       ("min", VInt 0)]);
     ("show_carryforward_flags", VDict [("type", VStr "boolean")]);
     ("hide_comment_details", VDict [("type", VStr "boolean")]);
     ("hide_project_coverage", VDict [("type", VStr "boolean")])].

Definition bundle_analysis_comment_config : pyval :=
  VDict [("require_bundle_changes", VDict [("type", VList [VStr "boolean"; VStr "string"]);
       ("allowed", VList [VStr "bundle_increase"; VBool false; VBool true]);
       ("meta", VDict [("description", VStr "require_bundle_changes instructs Codecov to only post a PR Comment if the requirements are met");
         ("options", VDict [("False", VDict [("type", VStr "bool");
             ("description", VStr "post comment even if there's no change in the bundle size");
             ("default", VBool true)]);
           ("True", VDict [("type", VStr "bool");
             ("description", VStr "only post comment if there are changes in bundle size (positive or negative)")]);
           ("bundle_increase", VDict [("type", VStr "str");
             ("description", VStr "only post comment if the bundle size increases")])])])]);
     ("bundle_change_threshold", VDict [("coerce", VStr "bundle_analysis_threshold");
       ("meta", VDict [("description", VStr "Threshold for 'require_bundle_changes'. Notifications will only be triggered if the change is larger than the threshold.")])])].

Definition user_schema_codecov : pyval :=
  VDict [("type", VStr "dict");
     ("schema", VDict [("url", VDict [("type", VStr "string");
         ("regex", VStr "https?:\/\/(www\.)?[-a-zA-Z0-9@:%._\+~#=]{1,256}\.[a-zA-Z0-9()]{1,6}\b([-a-zA-Z0-9()@:%_\+.~#?&//=]*)")]);
       ("token", VDict [("type", VStr "string")]);
       ("slug", VDict [("type", VStr "string")]);
       ("bot", VDict [("type", VStr "string");
         ("nullable", VBool true)]);
       ("branch", VDict [("type", VStr "string");
         ("coerce", VStr "branch_normalize")]);
       ("ci", VDict [("type", VStr "list");
         ("schema", VDict [("type", VStr "string")])]);
       ("assume_all_flags", VDict [("type", VStr "boolean")]);
       ("strict_yaml_branch", VDict [("type", VStr "string")]);
       ("max_report_age", VDict [("type", VList [VStr "string"; VStr "integer"; VStr "boolean"])]);
       ("disable_default_path_fixes", VDict [("type", VStr "boolean")]);
       ("require_ci_to_pass", VDict [("type", VStr "boolean")]);
       ("allow_coverage_offsets", VDict [("type", VStr "boolean")]);
       ("allow_pseudo_compare", VDict [("type", VStr "boolean")]);
       ("archive", VDict [("type", VStr "dict");
         ("schema", VDict [("uploads", VDict [("type", VStr "boolean")])])]);
       ("notify", VDict [("type", VStr "dict");
         ("schema", VDict [("after_n_builds", VDict [("type", VStr "integer");
             ("min", VInt 0)]);
           ("countdown", VDict [("type", VStr "integer")]);
           ("delay", VDict [("type", VStr "integer")]);
           ("wait_for_ci", VDict [("type", VStr "boolean")]);
           ("require_ci_to_pass", VDict [("type", VStr "boolean")]);
           ("manual_trigger", VDict [("type", VStr "boolean")]);
           ("notify_error", VDict [("meta", VDict [("description", VStr "This option lets the user toggle whether they want to block the regular comment message and replace it with an error message in the comment if any of the upload processing tasks fail.")]);
             ("type", VStr "boolean")])])]);
       ("ui", VDict [("type", VStr "dict");
         ("schema", VDict [("hide_density", VDict [("anyof", VList [VDict [("type", VStr "boolean")]; VDict [("type", VStr "list");
               ("schema", VDict [("type", VStr "string")])]])]);
           ("hide_complexity", VDict [("anyof", VList [VDict [("type", VStr "boolean")]; VDict [("type", VStr "list");
               ("schema", VDict [("type", VStr "string")])]])]);
           ("hide_contexual", VDict [("type", VStr "boolean")]);
           ("hide_sunburst", VDict [("type", VStr "boolean")]);
           ("hide_search", VDict [("type", VStr "boolean")])])])])].

Definition user_schema_coverage_notify : pyval :=
  VDict [("type", VStr "dict");
     ("schema", VDict [("irc", VDict [("type", VStr "dict");
         ("keysrules", VDict [("type", VStr "string");
           ("regex", VStr "^[\w\-\.]+$")]);
         ("valuesrules", VDict [("type", VStr "dict");
           ("schema", dict_display [inl [("channel", VDict [("type", VStr "string")]);
             ("server", VDict [("type", VStr "string")]);
             ("password", VDict [("type", VStr "string");
               ("coerce", VStr "secret");
               ("nullable", VBool true)]);
             ("nickserv_password", VDict [("type", VStr "string");
               ("coerce", VStr "secret")]);
             ("notice", VDict [("type", VStr "boolean")])]; 
            inr notification_standard_attributes])])]);
       ("slack", VDict [("type", VStr "dict");
         ("keysrules", VDict [("type", VStr "string");
           ("regex", VStr "^[\w\-\.]+$")]);
         ("valuesrules", VDict [("type", VStr "dict");
           ("schema", dict_display [inl [("attachments", layout_structure)]; 
            inr notification_standard_attributes])])]);
       ("gitter", VDict [("type", VStr "dict");
         ("keysrules", VDict [("type", VStr "string");
           ("regex", VStr "^[\w\-\.]+$")]);
         ("valuesrules", VDict [("type", VStr "dict");
           ("schema", dict_display [inr notification_standard_attributes])])]);
       ("hipchat", VDict [("type", VStr "dict");
         ("keysrules", VDict [("type", VStr "string");
           ("regex", VStr "^[\w\-\.]+$")]);
         ("valuesrules", VDict [("type", VStr "dict");
           ("schema", dict_display [inl [("card", VDict [("type", VStr "boolean")]);
             ("notify", VDict [("type", VStr "boolean")])]; 
            inr notification_standard_attributes])])]);
       ("webhook", VDict [("type", VStr "dict");
         ("keysrules", VDict [("type", VStr "string");
           ("regex", VStr "^[\w\-\.]+$")]);
         ("valuesrules", VDict [("type", VStr "dict");
           ("schema", dict_display [inr notification_standard_attributes])])]);
       ("email", VDict [("type", VStr "dict");
         ("keysrules", VDict [("type", VStr "string");
           ("regex", VStr "^[\w\-\.]+$")]);
         ("valuesrules", VDict [("type", VStr "dict");
           ("schema", dict_display [inl [("to", VDict [("type", VStr "list");
               ("schema", VDict [("type", VStr "string");
                 ("coerce", VStr "secret")])]);
             ("layout", layout_structure)]; 
            inr notification_standard_attributes])])])])].

Definition user_schema_coverage_status : pyval :=
  VDict [("type", VList [VStr "boolean"; VStr "dict"]);
     ("schema", VDict [("default_rules", VDict [("type", VStr "dict");
         ("schema", VDict [("flag_coverage_not_uploaded_behavior", VDict [("type", VStr "string");
             ("allowed", VList [VStr "include"; VStr "exclude"; VStr "pass"])]);
           ("carryforward_behavior", VDict [("type", VStr "string");
             ("allowed", VList [VStr "include"; VStr "exclude"; VStr "pass"])])])]);
       ("project", VDict [("type", VList [VStr "dict"; VStr "boolean"]);
         ("keysrules", VDict [("type", VStr "string");
           ("regex", VStr "^[\w\-\.]+$")]);
         ("valuesrules", VDict [("nullable", VBool true);
           ("type", VList [VStr "dict"; VStr "boolean"]);
           ("schema", dict_display [inl [("target", percent_type_or_auto);
             ("include_changes", percent_type_or_auto);
             ("threshold", percent_type)]; 
            inr status_standard_attributes])])]);
       ("patch", VDict [("type", VList [VStr "dict"; VStr "boolean"]);
         ("keysrules", VDict [("type", VStr "string");
           ("regex", VStr "^[\w\-\.]+$")]);
         ("valuesrules", VDict [("type", VList [VStr "dict"; VStr "boolean"]);
           ("nullable", VBool true);
           ("schema", dict_display [inl [("target", percent_type_or_auto);
             ("include_changes", percent_type_or_auto);
             ("threshold", percent_type)]; 
            inr status_standard_attributes])])]);
       ("changes", VDict [("type", VList [VStr "dict"; VStr "boolean"]);
         ("keysrules", VDict [("type", VStr "string");
           ("regex", VStr "^[\w\-\.]+$")]);
         ("valuesrules", VDict [("type", VList [VStr "dict"; VStr "boolean"]);
           ("nullable", VBool true);
           ("schema", status_standard_attributes)])]);
       ("no_upload_behavior", VDict [("type", VStr "string");
         ("allowed", VList [VStr "pass"; VStr "fail"])])])].

Definition user_schema_coverage : pyval :=
  VDict [("precision", VDict [("type", VStr "integer");
     ("min", VInt 0);
     ("max", VInt 99)]);
    ("round", VDict [("type", VStr "string");
     ("allowed", VList [VStr "down"; VStr "up"; VStr "nearest"])]);
    ("range", VDict [("type", VStr "list");
     ("maxlength", VInt 2);
     ("coerce", VStr "string_to_range")]);
    ("notify", user_schema_coverage_notify);
    ("status", user_schema_coverage_status)].

Definition user_schema_bundle_analysis : pyval :=
  VDict [("type", VStr "dict");
     ("schema", VDict [("warning_threshold", VDict [("coerce", VStr "bundle_analysis_threshold");
         ("meta", VDict [("description", VStr "If the change is bigger then the threshold notification includes a warning or fails. See `bundle_analysis.status` for details.")])]);
       ("status", VDict [("allowed", VList [VBool true; VBool false; VStr "informational"]);
         ("meta", VDict [("description", VStr "Configure commit checks for bundle analysis");
           ("options", VDict [("True", VDict [("type", VStr "bool");
               ("description", VStr "Enable status. Status will fail if changes exceed `bundle_analysis.warning_threshold`")]);
             ("False", VDict [("type", VStr "bool");
               ("description", VStr "Disable status. No status will be sent.")]);
             ("informational", VDict [("type", VStr "str");
               ("description", VStr "Enable status. Status will always pass, but include a warning if changes exceed `bundle_analysis.warning_threshold`");
               ("default", VBool true)])])])])])].

Definition user_schema_parsers : pyval :=
  VDict [("type", VStr "dict");
     ("schema", VDict [("go", VDict [("type", VStr "dict");
         ("schema", VDict [("partials_as_hits", VDict [("type", VStr "boolean")])])]);
       ("javascript", VDict [("type", VStr "dict");
         ("schema", VDict [("enable_partials", VDict [("type", VStr "boolean")])])]);
       ("v1", VDict [("type", VStr "dict");
         ("schema", VDict [("include_full_missed_files", VDict [("type", VStr "boolean")])])]);
       ("gcov", VDict [("type", VStr "dict");
         ("schema", VDict [("branch_detection", VDict [("type", VStr "dict");
             ("schema", VDict [("conditional", VDict [("type", VStr "boolean")]);
               ("loop", VDict [("type", VStr "boolean")]);
               ("method", VDict [("type", VStr "boolean")]);
               ("macro", VDict [("type", VStr "boolean")])])])])]);
       ("jacoco", VDict [("type", VStr "dict");
         ("schema", VDict [("partials_as_hits", VDict [("type", VStr "boolean")])])]);
       ("cobertura", VDict [("type", VStr "dict");
         ("schema", VDict [("handle_missing_conditions", VDict [("type", VStr "boolean")]);
           ("partials_as_hits", VDict [("type", VStr "boolean")])])])])].

Definition user_schema_fixes : pyval :=
  VDict [("type", VStr "list");
     ("schema", VDict [("type", VStr "string");
       ("coerce", VStr "regexify_path_fix")])].

Definition user_schema_flags : pyval :=
  VDict [("type", VStr "dict");
     ("keysrules", flag_name);
     ("valuesrules", VDict [("type", VStr "dict");
       ("schema", VDict [("joined", VDict [("type", VStr "boolean")]);
         ("carryforward", VDict [("type", VStr "boolean")]);
         ("carryforward_mode", VDict [("type", VStr "string");
           ("allowed", VList [VStr "all"; VStr "labels"])]);
         ("required", VDict [("type", VStr "boolean")]);
         ("ignore", path_list_structure);
         ("paths", path_list_structure);
         ("assume", VDict [("type", VList [VStr "boolean"; VStr "string"; VStr "dict"]);
           ("schema", VDict [("branches", branches_structure)])]);
         ("after_n_builds", VDict [("type", VStr "integer");
           ("min", VInt 0)])])])].

Definition user_schema_flag_management : pyval :=
  VDict [("type", VStr "dict");
     ("schema", VDict [("default_rules", VDict [("type", VStr "dict");
         ("schema", flags_rule_basic_properties)]);
       ("individual_flags", VDict [("type", VStr "list");
         ("schema", VDict [("type", VStr "dict");
           ("schema", dict_display [inr flags_rule_basic_properties; 
            inl [("name", flag_name)]])])])])].

Definition user_schema_component_management : pyval :=
  VDict [("type", VStr "dict");
     ("schema", VDict [("default_rules", VDict [("type", VStr "dict");
         ("schema", component_rule_basic_properties)]);
       ("individual_components", VDict [("type", VStr "list");
         ("schema", VDict [("type", VStr "dict");
           ("schema", dict_display [inr component_rule_basic_properties; 
            inl [("name", VDict [("type", VStr "string")]);
             ("component_id", VDict [("type", VStr "string");
               ("required", VBool true)])]])])])])].

Definition user_schema_comment : pyval :=
  VDict [("type", VList [VStr "dict"; VStr "boolean"]);
     ("schema", dict_display [inr coverage_comment_config; 
      inr bundle_analysis_comment_config])].

Definition user_schema_slack_app : pyval :=
  VDict [("type", VList [VStr "dict"; VStr "boolean"]);
     ("schema", VDict [("enabled", VDict [("type", VStr "boolean")])])].

Definition user_schema_github_checks : pyval :=
  VDict [("type", VList [VStr "dict"; VStr "boolean"]);
     ("schema", VDict [("annotations", VDict [("type", VStr "boolean")])])].

Definition user_schema_profiling : pyval :=
  VDict [("type", VStr "dict");
     ("schema", VDict [("fixes", VDict [("type", VStr "list");
         ("schema", VDict [("type", VStr "string");
           ("coerce", VStr "regexify_path_fix")])]);
       ("grouping_attributes", VDict [("type", VStr "list");
         ("schema", VDict [("type", VStr "string")])]);
       ("critical_files_paths", VDict [("type", VStr "list");
         ("schema", VDict [("type", VStr "string");
           ("coerce", VStr "regexify_path_pattern")])])])].

Definition user_schema_ai_pr_review : pyval :=
  VDict [("type", VList [VStr "dict"]);
     ("schema", VDict [("auto_review", VDict [("type", VStr "boolean")]);
       ("enabled", VDict [("type", VStr "boolean")]);
       ("method", VDict [("type", VStr "string")]);
       ("label_name", VDict [("type", VStr "string")])])].

Definition user_schema_test_analytics : pyval :=
  VDict [("type", VList [VStr "dict"]);
     ("schema", VDict [("shorten_paths", VDict [("type", VStr "boolean")]);
       ("flake_detection", VDict [("type", VStr "boolean")])])].

Definition user_schema : pyval :=
  VDict [("codecov", user_schema_codecov);
    ("coverage", VDict [("type", VStr "dict"); ("schema", user_schema_coverage)]);
    ("bundle_analysis", user_schema_bundle_analysis);
    ("parsers", user_schema_parsers);
    ("ignore", path_list_structure);
    ("fixes", user_schema_fixes);
    ("flags", user_schema_flags);
    ("flag_management", user_schema_flag_management);
    ("component_management", user_schema_component_management);
    ("comment", user_schema_comment);
    ("slack_app", user_schema_slack_app);
    ("github_checks", user_schema_github_checks);
    ("profiling", user_schema_profiling);
    ("beta_groups", VDict [("type", VStr "list");
     ("schema", VDict [("type", VStr "string")])]);
    ("ai_pr_review", user_schema_ai_pr_review);
    ("test_analytics", user_schema_test_analytics)].

Definition cli_schema : pyval :=
  VDict [("cli", VDict [("type", VStr "dict");
       ("schema", VDict [("plugins", VDict [("type", VStr "dict")]);
         ("runners", VDict [("type", VStr "dict")])])])].

Definition bot_details_fields : pyval :=
  VDict [("key", VDict [("type", VStr "string");
       ("required", VBool true)]);
     ("secret", VDict [("type", VStr "string")]);
     ("username", VDict [("type", VStr "string")])].

Definition oauth_credential_fields : pyval :=
  VDict [("client_id", VDict [("type", VStr "string")]);
     ("client_secret", VDict [("type", VStr "string")]);
     ("redirect_uri", VDict [("type", VStr "string")])].

Definition GitHub_app_fields : pyval :=
  VDict [("expires", VDict [("type", VStr "integer")]);
     ("id", VDict [("type", VStr "integer");
       ("required", VBool true)]);
     ("pem", VDict [("type", VList [VStr "string"; VStr "dict"]);
       ("required", VBool true)])].

Definition default_service_fields : pyval :=
  dict_display [inl [("verify_ssl", VDict [("type", VStr "boolean")]);
     ("ssl_pem", VDict [("type", VStr "string")])]; 
    inr oauth_credential_fields; 
    inl [("url", VDict [("type", VStr "string")]);
     ("api_url", VDict [("type", VStr "string")]);
     ("bot", VDict [("type", VStr "dict");
       ("schema", bot_details_fields)]);
     ("global_upload_token", VDict [("type", VStr "string")]);
     ("organizations", VDict [("type", VStr "list");
       ("schema", VDict [("type", VStr "string")])]);
     ("webhook_secret", VDict [("type", VStr "string")]);
     ("bots", VDict [("type", VStr "dict");
       ("schema", VDict [("read", VDict [("type", VStr "dict");
           ("schema", bot_details_fields)]);
         ("comment", VDict [("type", VStr "dict");
           ("schema", bot_details_fields)]);
         ("status", VDict [("type", VStr "dict");
           ("schema", bot_details_fields)]);
         ("tokenless", VDict [("type", VStr "dict");
           ("schema", bot_details_fields)])])])]].

Definition enterprise_queue_fields : pyval :=
  VDict [("type", VStr "dict");
     ("schema", VDict [("soft_timelimit", VDict [("type", VStr "integer")]);
       ("hard_timelimit", VDict [("type", VStr "integer")])])].

Definition default_task_fields : pyval :=
  VDict [("queue", VDict [("type", VStr "string")]);
     ("timeout", VDict [("type", VStr "integer")]);
     ("interval_seconds", VDict [("type", VStr "integer");
       ("min", VInt 0)]);
     ("enterprise", dict_display [inr enterprise_queue_fields])].

Definition config_schema_setup_cache : pyval :=
  VDict [("type", VStr "dict");
     ("schema", VDict [("chunks", VDict [("type", VStr "integer")]);
       ("diff", VDict [("type", VStr "integer")]);
       ("tree", VDict [("type", VStr "integer")]);
       ("uploads", VDict [("type", VStr "integer")]);
       ("yaml", VDict [("type", VStr "integer")])])].

Definition config_schema_setup_admins : pyval :=
  VDict [("type", VStr "list");
     ("schema", VDict [("type", VStr "dict");
       ("schema", VDict [("service", VDict [("type", VStr "string")]);
         ("username", VDict [("type", VStr "string")])])])].

Definition config_schema_setup_pubsub : pyval :=
  VDict [("type", VStr "dict");
     ("schema", VDict [("project_id", VDict [("type", VStr "string")]);
       ("topic", VDict [("type", VStr "string")]);
       ("enabled", VDict [("type", VStr "boolean")])])].

Definition config_schema_setup_marketo : pyval :=
  VDict [("type", VStr "dict");
     ("schema", VDict [("client_id", VDict [("type", VStr "string")]);
       ("client_secret", VDict [("type", VStr "string")]);
       ("base_url", VDict [("type", VStr "string")]);
       ("enabled", VDict [("type", VStr "boolean")])])].

Definition config_schema_setup_http : pyval :=
  VDict [("type", VStr "dict");
     ("schema", VDict [("timeouts", VDict [("type", VStr "dict");
         ("schema", VDict [("external", VDict [("type", VStr "integer")]);
           ("connect", VDict [("type", VStr "integer")]);
           ("receive", VDict [("type", VStr "integer")])])]);
       ("cookie_secret", VDict [("type", VStr "string")]);
       ("force_https", VDict [("type", VStr "boolean")])])].

Definition config_schema_setup_encryption : pyval :=
  VDict [("type", VStr "dict");
     ("schema", VDict [("keys", VDict [("type", VStr "list");
         ("schema", VDict [("type", VStr "dict");
           ("schema", VDict [("code", VDict [("type", VStr "string")]);
             ("value", VDict [("type", VStr "string")])])])]);
       ("yaml_secret", VDict [("type", VStr "string")]);
       ("write_key", VDict [("type", VStr "string")])])].

Definition config_schema_setup_media : pyval :=
  VDict [("type", VStr "dict");
     ("schema", VDict [("assets", VDict [("type", VStr "string")]);
       ("dependancies", VDict [("type", VStr "string")])])].

Definition config_schema_setup_tasks : pyval :=
  VDict [("type", VStr "dict");
     ("keysrules", VDict [("type", VStr "string");
       ("check_with", VStr "check_task_config_key")]);
     ("valuesrules", VDict [("type", VStr "dict");
       ("oneof", VList [VDict [("schema", dict_display [inr default_task_fields])]; VDict [("schema", VDict [("default_queue", VDict [("type", VStr "string")]);
           ("acks_late", VDict [("type", VStr "boolean")]);
           ("prefetch", VDict [("type", VStr "integer")]);
           ("soft_timelimit", VDict [("type", VStr "integer")]);
           ("hard_timelimit", VDict [("type", VStr "integer")]);
           ("enterprise", dict_display [inr enterprise_queue_fields]);
           ("worker_max_memory_per_child", VDict [("type", VStr "integer")])])]])])].

Definition config_schema_setup_timeseries : pyval :=
  VDict [("type", VStr "dict");
     ("schema", VDict [("enabled", VDict [("type", VStr "boolean")])])].

Definition config_schema_setup_telemetry : pyval :=
  VDict [("type", VStr "dict");
     ("schema", VDict [("enabled", VDict [("type", VStr "boolean")]);
       ("admin_email", VDict [("type", VStr "string")]);
       ("anonymous", VDict [("type", VStr "boolean")]);
       ("endpoint_override", VDict [("type", VStr "string")])])].

Definition config_schema_setup_health_check : pyval :=
  VDict [("type", VStr "dict");
     ("schema", VDict [("enabled", VDict [("type", VStr "boolean")])])].

Definition config_schema_setup_push_webhook_ignore_repo_names : pyval :=
  VDict [("type", VStr "list");
     ("schema", VDict [("type", VStr "string")])].

Definition config_schema_setup : pyval :=
  VDict [("cache", config_schema_setup_cache);
    ("legacy_report_style", VDict [("type", VStr "boolean")]);
    ("loglvl", VDict [("type", VStr "string");
     ("allowed", VList [VStr "INFO"])]);
    ("max_sessions", VDict [("type", VStr "integer")]);
    ("debug", VDict [("type", VStr "boolean")]);
    ("codecov_url", VDict [("type", VStr "string")]);
    ("codecov_api_url", VDict [("type", VStr "string")]);
    ("webhook_url", VDict [("type", VStr "string")]);
    ("api_cors_allowed_origins", VDict [("type", VStr "string")]);
    ("codecov_dashboard_url", VDict [("type", VStr "string")]);
    ("enterprise_license", VDict [("type", VStr "string")]);
    ("hide_all_codecov_tokens", VDict [("type", VStr "boolean")]);
    ("admins", config_schema_setup_admins);
    ("api_allowed_hosts", VDict [("type", VStr "list");
     ("schema", VDict [("type", VStr "string")])]);
    ("secure_cookie", VDict [("type", VStr "boolean")]);
    ("pubsub", config_schema_setup_pubsub);
    ("marketo", config_schema_setup_marketo);
    ("http", config_schema_setup_http);
    ("encryption_secret", VDict [("type", VStr "string")]);
    ("encryption", config_schema_setup_encryption);
    ("media", config_schema_setup_media);
    ("tasks", config_schema_setup_tasks);
    ("upload_processing_delay", VDict [("type", VStr "integer")]);
    ("skip_feature_cache", VDict [("type", VStr "boolean")]);
    ("timeseries", config_schema_setup_timeseries);
    ("telemetry", config_schema_setup_telemetry);
    ("health_check", config_schema_setup_health_check);
    ("push_webhook_ignore_repo_names", config_schema_setup_push_webhook_ignore_repo_names);
    ("guest_access", VDict [("type", VStr "boolean")])].

Definition config_schema_services : pyval :=
  VDict [("type", VStr "dict");
     ("schema", VDict [("external_dependencies_folder", VDict [("type", VStr "string")]);
       ("google_analytics_key", VDict [("type", VStr "string")]);
       ("minio", VDict [("type", VStr "dict");
         ("schema", VDict [("host", VDict [("type", VStr "string")]);
           ("port", VDict [("type", VStr "integer")]);
           ("hash_key", VDict [("type", VStr "string")]);
           ("iam_auth", VDict [("type", VStr "boolean")]);
           ("iam_endpoint", VDict [("type", VStr "string");
             ("nullable", VBool true)]);
           ("access_key_id", VDict [("type", VStr "string")]);
           ("secret_access_key", VDict [("type", VStr "string")]);
           ("bucket", VDict [("type", VStr "string")]);
           ("region", VDict [("type", VStr "string")]);
           ("expire_raw_after_n_days", VDict [("type", VStr "boolean")]);
           ("verify_ssl", VDict [("type", VStr "boolean")])])]);
       ("gcp", VDict [("type", VStr "dict");
         ("schema", VDict [("google_credentials_location", VDict [("type", VStr "string")])])]);
       ("aws", VDict [("type", VStr "dict");
         ("schema", VDict [("region_name", VDict [("type", VStr "string")]);
           ("resource", VDict [("type", VStr "string")])])]);
       ("chosen_storage", VDict [("type", VStr "string")]);
       ("database_url", VDict [("type", VStr "string")]);
       ("timeseries_database_url", VDict [("type", VStr "string")]);
       ("database", VDict [("type", VStr "dict");
         ("schema", VDict [("conn_max_age", VDict [("type", VStr "integer")])])]);
       ("redis_url", VDict [("type", VStr "string")]);
       ("github_marketplace", VDict [("type", VStr "dict");
         ("schema", VDict [("use_stubbed", VDict [("type", VStr "boolean")])])]);
       ("stripe", VDict [("type", VStr "dict");
         ("schema", VDict [("api_key", VDict [("type", VStr "string")])])]);
       ("celery_broker", VDict [("type", VStr "string")]);
       ("gravatar", VDict [("type", VStr "boolean")]);
       ("avatars.io", VDict [("type", VStr "boolean")]);
       ("sentry", VDict [("type", VStr "dict");
         ("schema", VDict [("server_dsn", VDict [("type", VStr "string")])])]);
       ("ci_providers", VDict [("type", VList [VStr "string"; VStr "list"]);
         ("schema", VDict [("type", VStr "string")])]);
       ("notifications", VDict [("type", VStr "dict");
         ("schema", VDict [("slack", VDict [("type", VList [VStr "boolean"; VStr "list"]);
             ("schema", VDict [("type", VStr "string")])]);
           ("gitter", VDict [("type", VList [VStr "boolean"; VStr "list"]);
             ("schema", VDict [("type", VStr "string")])]);
           ("email", VDict [("type", VList [VStr "boolean"; VStr "list"]);
             ("schema", VDict [("type", VStr "string")])]);
           ("webhook", VDict [("type", VList [VStr "boolean"; VStr "list"]);
             ("schema", VDict [("type", VStr "string")])]);
           ("irc", VDict [("type", VList [VStr "boolean"; VStr "list"]);
             ("schema", VDict [("type", VStr "string")])]);
           ("hipchat", VDict [("type", VList [VStr "boolean"; VStr "list"]);
             ("schema", VDict [("type", VStr "string")])])])]);
       ("vsc_cache", VDict [("type", VStr "dict");
         ("schema", VDict [("enabled", VDict [("type", VStr "boolean")]);
           ("metrics_app", VDict [("type", VStr "string")]);
           ("check_duration", VDict [("type", VStr "integer")]);
           ("compare_duration", VDict [("type", VStr "integer")]);
           ("status_duration", VDict [("type", VStr "integer")])])]);
       ("smtp", VDict [("type", VStr "dict");
         ("schema", VDict [("host", VDict [("type", VStr "string")]);
           ("port", VDict [("type", VStr "integer")]);
           ("username", VDict [("type", VStr "string");
             ("required", VBool false)]);
           ("password", VDict [("type", VStr "string");
             ("required", VBool false)])]);
         ("required", VBool false)])])].

Definition config_schema_additional_user_yamls : pyval :=
  VDict [("type", VStr "list");
     ("schema", VDict [("type", VStr "dict");
       ("schema", VDict [("percentage", VDict [("type", VStr "integer")]);
         ("name", VDict [("type", VStr "string")]);
         ("override", VDict [("type", VStr "dict");
           ("schema", user_schema)])])])].

Definition config_schema_github : pyval :=
  VDict [("type", VStr "dict");
     ("schema", dict_display [inr default_service_fields; 
      inl [("integration", VDict [("type", VStr "dict");
         ("schema", GitHub_app_fields)]);
       ("dedicated_apps", VDict [("type", VStr "dict");
         ("valuesrules", VDict [("type", VStr "dict");
           ("schema", GitHub_app_fields)])])]])].

Definition config_schema_compatibility : pyval :=
  VDict [("type", VStr "dict");
     ("schema", VDict [("flag_pattern_matching", VDict [("type", VStr "boolean")])])].

Definition config_schema : pyval :=
  VDict [("setup", VDict [("type", VStr "dict"); ("schema", config_schema_setup)]);
    ("services", config_schema_services);
    ("site", VDict [("type", VStr "dict");
     ("schema", user_schema)]);
    ("additional_user_yamls", config_schema_additional_user_yamls);
    ("github", config_schema_github);
    ("bitbucket", VDict [("type", VStr "dict");
     ("schema", dict_display [inr default_service_fields])]);
    ("bitbucket_server", VDict [("type", VStr "dict");
     ("schema", dict_display [inr default_service_fields])]);
    ("github_enterprise", VDict [("type", VStr "dict");
     ("schema", dict_display [inr default_service_fields])]);
    ("gitlab", VDict [("type", VStr "dict");
     ("schema", dict_display [inr default_service_fields])]);
    ("gitlab_enterprise", VDict [("type", VStr "dict");
     ("schema", dict_display [inr default_service_fields])]);
    ("compatibility", config_schema_compatibility);
    ("migrations", VDict [("type", VStr "dict");
     ("schema", VDict [("skip_risky_steps", VDict [("type", VStr "boolean")])])])].


(** [check_task_config_key]: the keys of [setup.tasks]; [groups] are the values of
    [TaskConfigGroup]. *)
Definition check_task_config_key (groups : list string) (value : string) : bool :=
  bool_decide (value = "celery") || bool_decide (value ∈ groups).

(** [{**user_schema, **cli_schema}]. *)
Definition full_schema : pyval := dict_display [inr user_schema; inr cli_schema].

(** ** The validators *)

(** A coercion of a text; another value has no [startswith] or [strip]. *)
Definition on_text (f : string -> result string) (v : pyval) : result pyval :=
  match v with
  | VStr s => r ← f s; Ok (VStr r)
  | VNone | VBool _ | VInt _ | VFloat _ | VList _ | VDict _ => Err AttributeError
  end.

Definition on_branch `{Re} (v : pyval) : result pyval :=
  match v with
  | VNone => Ok VNone
  | VStr s =>
      r ← UserGivenBranchRegex_validate (Some s);
      Ok (match r with Some t => VStr t | None => VNone end)
  | VBool _ | VInt _ | VFloat _ | VList _ | VDict _ => Err AttributeError
  end.

(** [UserGivenSecret]: the prefix is the one of the repository the secret is for. *)
Module UserGivenSecret.
Section secret.
Context `{Crypto}.
Variable encryptor : Divider.t.

Definition required_prefix (show_secrets_for : option (list string)) : option string :=
  match show_secrets_for with Some (x :: l) => Some (join "/" (x :: l)) | _ => None end.

(** [decode]: [None] stands for [InvalidSecret]. *)
Definition decode (value expected_prefix : string) : result (option string) :=
  match Divider.decode encryptor (str_drop 7 value) with
  | Err ValueError => Ok None
  | Err e => Err e
  | Ok decoded_value =>
      if startswith expected_prefix decoded_value then
        match split_n 3 "/" decoded_value with
        | [service; ownerid; repoid; clean_value] => Ok (Some clean_value)
        | _ => Err ValueError
        end
      else Ok None
  end.

Definition validate (show_secrets_for : option (list string)) (value : pyval) : result pyval :=
  match required_prefix show_secrets_for with
  | None => Ok value
  | Some p =>
      match value with
      | VNone => Ok VNone
      | VStr s =>
          if startswith "secret:" s then
            r ← decode s p; Ok (match r with Some clean => VStr clean | None => value end)
          else Ok value
      | _ => Err AttributeError
      end
  end.

Definition encode (urandom value : string) : result string :=
  r ← Divider.encode encryptor urandom value; Ok ("secret:" +:+ r).
End secret.
End UserGivenSecret.

Section validators.
Context `{Re} `{Requirements} `{Crypto}.

(** [_normalize_coerce_<name>] of the two validators; [secret] is the identity in the
    one of installations. *)
Definition coerce (encryptor : Divider.t) (show_secrets_for : option (list string)) (name : string)
    (value : pyval) : result pyval :=
  let named s := bool_decide (name = s) in
  if named "secret" then UserGivenSecret.validate encryptor show_secrets_for value
  else if named "regexify_path_pattern" then on_text PathPattern_validate value
  else if named "regexify_path_fix" then on_text CustomFixPath_validate value
  else if named "branch_name" then on_branch value
  else if named "percentage_to_number" then Percent_validate value false
  else if named "percentage_to_number_or_auto" then Percent_validate value true
  else if named "string_to_range" then l ← CoverageRange_validate value; Ok (VList (VFloat <$> l))
  else if named "branch_normalize" then s ← BranchSchemaField_validate value; Ok (VStr s)
  else if named "coverage_comment_required_changes" then
    l ← CoverageCommentRequirement_validate value; Ok (VList (VInt <$> l))
  else if named "byte_size" then ByteSize_validate value
  else if named "bundle_analysis_threshold" then
    '(k, v) ← BundleSizeThreshold_validate value; Ok (VList [VStr k; v])
  else Err AttributeError.

(** [_validate_comma_separated_strings]: whether the field has an error. *)
Definition comma_separated_error (constraint : bool) (value : string) : result bool :=
  if constraint then
    match LayoutStructure_validate value with
    | Ok _ => Ok false
    | Err Invalid => Ok true
    | Err e => Err e
    end
  else Ok false.
End validators.

(** [Validator.validate]: [validator.document], and [validator.errors] when it is not valid. *)
Class Cerberus : Type :=
  cerberus_validate : (string -> pyval -> result pyval) -> pyval -> pyval -> pyval * option pyval.

(** ** [yaml/validation.py] *)

Definition YAML_TOP_LEVEL_RESERVED_KEYS : list string := ["to_string"].

Definition remove_reserved_keys (d : odict string pyval) : odict string pyval :=
  foldl (fun d key => od_del key d) d YAML_TOP_LEVEL_RESERVED_KEYS.

(** [if key in coverage: d[key] = coverage.pop(key)]; [coverage] is [d["coverage"]]. *)
Definition move_key (d : odict string pyval) (key : string) : odict string pyval :=
  match od_get "coverage" d with
  | Some (VDict coverage) =>
      match od_get key coverage with
      | Some v => od_set key v (od_set "coverage" (VDict (od_del key coverage)) d)
      | None => d
      end
  | _ => d
  end.

Definition move_require_ci (d : odict string pyval) : result (odict string pyval) :=
  match od_get "codecov" d with
  | None => Ok d
  | Some codecov =>
      if truthy codecov then
        match codecov with
        | VDict c =>
            match od_get "notify" c with
            | Some (VDict n) =>
                match od_get "require_ci_to_pass" n with
                | Some val =>
                    Ok (od_set "codecov"
                          (VDict (od_set "require_ci_to_pass" val
                                    (od_set "notify" (VDict (od_del "require_ci_to_pass" n)) c))) d)
                | None => Ok d
                end
            | Some v => if truthy v then (match v with VStr _ | VList _ => Err Unmodelled | _ => Err TypeError end) else Ok d
            | None => Ok d
            end
        | _ => Err AttributeError
        end
      else Ok d
  end.

Definition pre_process_yaml (d : odict string pyval) : result (odict string pyval) :=
  d ← match od_get "coverage" d with
      | None | Some (VDict _) => Ok (foldl move_key d ["flags"; "parsers"; "ignore"; "fixes"])
      | Some (VStr _) | Some (VList _) => Err Unmodelled
      | Some _ => Err TypeError
      end;
  d ← move_require_ci d;
  Ok (remove_reserved_keys d).

(** One round: a list is replaced by its first element, then a dictionary by its
    first value, whose key is a step of the location. *)
Definition error_step (v : pyval) (location : list string) : pyval * list string :=
  let v := match v with VList (x :: _) => x | _ => v end in
  match v with
  | VDict ((k, x) :: _) => (x, location ++ [k])
  | _ => (v, location)
  end.

Fixpoint error_location (rounds : nat) (current_value : pyval) (location_so_far : list string)
    : list string * option string :=
  match rounds with
  | O => (location_so_far, None)
  | S rounds' =>
      let '(v, location) := error_step current_value location_so_far in
      match v with
      | VStr message => (location, Some message)
      | _ => error_location rounds' v location
      end
  end.

(** The message of an error nested too deep is [str] of what was reached. *)
Definition _calculate_error_location_and_message_from_error_dict (error_dict : pyval)
    : list string * option string := error_location 20 error_dict [].

(** An [InvalidYamlException] carries the location, the message and the errors. *)
Record invalid_yaml : Type := mkInvalidYaml {
  iy_location : list string;
  iy_message : option string;
  iy_errors : pyval;
}.

Section validate.
Context `{Re} `{Requirements} `{Crypto} `{Cerberus}.

Definition do_actual_validation (encryptor : Divider.t) (show_secrets_for : option (list string)) (d : pyval)
    : pyval + invalid_yaml :=
  match cerberus_validate (coerce encryptor show_secrets_for) full_schema d with
  | (document, None) => inl document
  | (_, Some error_dict) =>
      let '(error_location, error_message) := _calculate_error_location_and_message_from_error_dict error_dict in
      inr (mkInvalidYaml error_location error_message error_dict)
  end.

Definition validate_yaml (encryptor : Divider.t) (show_secrets_for : option (list string)) (inputted : pyval)
    : result (pyval + invalid_yaml) :=
  match inputted with
  | VDict d => d ← pre_process_yaml d; Ok (do_actual_validation encryptor show_secrets_for (VDict d))
  | _ => Ok (inr (mkInvalidYaml [] (Some "Yaml needs to be a dict") VNone))
  end.

(** [validate_install_configuration]: an invalid configuration is used all the same. *)
Definition validate_install_configuration (encryptor : Divider.t) (inputted : pyval) : pyval :=
  fst (cerberus_validate (coerce encryptor None) config_schema inputted).
End validate.

(** ** Where an error is *)

(** The errors of [cerberus] for one message under a path of keys. *)
Fixpoint error_at (path : list string) (message : string) : pyval :=
  match path with
  | [] => VStr message
  | k :: path' => VDict [(k, VList [error_at path' message])]
  end.

Lemma error_at_location path message : forall rounds location,
  (length path < rounds)%nat ->
  error_location rounds (VList [error_at path message]) location = (location ++ path, Some message).
Proof.
  induction path as [|k path IH]; intros rounds location Hr; (destruct rounds as [|rounds]; cbn in Hr; [lia|]).
  - cbn. by rewrite app_nil_r.
  - cbn. rewrite IH by lia. by rewrite <- app_assoc.
Qed.

(** The location of a validation error is the path of keys that leads to it, up
    to a depth of nineteen. *)
Theorem error_location_is_path k path message :
  (length path < 19)%nat ->
  _calculate_error_location_and_message_from_error_dict (error_at (k :: path) message) = (k :: path, Some message).
Proof.
  intros Hl. unfold _calculate_error_location_and_message_from_error_dict.
  assert (E : forall n l, error_location (S n) (VDict [(k, VList l)]) [] = error_location n (VList l) [k]) by reflexivity.
  cbn [error_at]. by rewrite E, error_at_location.
Qed.

Lemma error_location_is_path_witness :
  _calculate_error_location_and_message_from_error_dict (error_at ["coverage"; "round"] "unallowed value up_") =
  (["coverage"; "round"], Some "unallowed value up_").
Proof. apply (error_location_is_path "coverage" ["round"]). cbn. lia. Defined.

(** ** What the schema promises *)

(** The names of the coercions of a schema. *)
Fixpoint coercions (v : pyval) : list string :=
  match v with
  | VList l => concat (coercions <$> l)
  | VDict d =>
      concat ((fun kv : string * pyval =>
                 match kv with
                 | ("coerce", VStr name) => [name]
                 | ("meta", _) => []
                 | (_, w) => coercions w
                 end) <$> d)
  | _ => []
  end.

Definition coercers : list string :=
  ["secret"; "regexify_path_pattern"; "regexify_path_fix"; "branch_name"; "percentage_to_number";
   "percentage_to_number_or_auto"; "string_to_range"; "branch_normalize"; "coverage_comment_required_changes";
   "byte_size"; "bundle_analysis_threshold"].

(** Every coercion a schema names is a method of the validators. *)
Example coercions_exist : forallb (fun n => bool_decide (n ∈ coercers)) (coercions full_schema ++ coercions config_schema) = true.
Proof. vm_compute. reflexivity. Qed.

(** A secret for repository 154 is read by repository 15: the prefix has no slash at
    its end. *)
Example secret_of_another_repository :
  exists d s,
    Divider.init example_mapping "v1_b" = Ok d /\
    UserGivenSecret.encode (H := plain_crypto) d "0123456789abcdef" "github/7/154/hook" = Ok s /\
    UserGivenSecret.validate (H := plain_crypto) d (Some ["github"; "7"; "15"]) (VStr s) = Ok (VStr "hook").
Proof. eexists _, _. split_and!; vm_compute; reflexivity. Qed.

(** A secret that names an encryptor the installation does not have is no invalid
    secret but a [KeyError], which no caller catches. *)
Example secret_of_unknown_encryptor :
  exists d,
    Divider.init example_mapping "v1_b" = Ok d /\
    UserGivenSecret.validate (H := plain_crypto) d (Some ["github"; "7"; "15"]) (VStr "secret:v9::QUJD") = Err KeyError.
Proof. eexists. split; vm_compute; reflexivity. Qed.
