(* ===== verification/UserYaml.v ===== *)
(** * [shared/yaml/user_yaml.py] and [worker/services/yaml/reader.py]: configuration

    A configuration is a nested dictionary.  [merge_yamls] overrides one with
    another key by key; [get_final_yaml] stacks the site, owner and repository
    levels; the readers look up flags, components and plain fields. *)
From S2P Require Export PyVal Match.
#[local] Open Scope string_scope.
#[local] Open Scope Z_scope.
#[local] Open Scope list_scope.

(** [res.update(d)]. *)
Definition od_update {V} (res d : odict string V) : odict string V :=
  foldl (fun r kv => od_set kv.1 kv.2 r) res d.

Definition empty_dict : pyval := VDict [].

Fixpoint merge_yamls (d1 d2 : pyval) {struct d2} : pyval :=
  match d1, d2 with
  | VDict a, VDict b =>
      VDict (od_update a
        ((fix go (l : odict string pyval) : odict string pyval :=
            match l with
            | [] => []
            | (k, v) :: l' => (k, merge_yamls (default empty_dict (od_get k a)) v) :: go l'
            end) b))
  | _, _ => d2
  end.

(** ** The final configuration *)

(** [LEGACY_DEFAULT_SITE_CONFIG] and [PATCH_CENTRIC_DEFAULT_CONFIG] of
    [shared/config] are data; only the second is read here, as an argument. *)
Record site_config : Type := mkSite {
  cfg_site : pyval;                             (* [get_config("site", default={})] *)
  cfg_additional : list (Z * pyval);            (* percentage and override *)
  cfg_patch_centric : odict string pyval;
  cfg_patch_centric_start : Z;
}.

Record owner_context : Type := mkOwner {
  oc_ownerid : option Z;
  oc_onboarding_date : option Z;
}.

Fixpoint pick_additional (key accumulated_percentage : Z) (auys : list (Z * pyval)) : pyval :=
  match auys with
  | [] => empty_dict
  | (percentage, override) :: auys' =>
      let accumulated_percentage := accumulated_percentage + percentage in
      if key <? accumulated_percentage then override
      else pick_additional key accumulated_percentage auys'
  end.

Definition _get_possible_additional_user_yaml (cfg : site_config) (ownerid : Z) : pyval :=
  pick_additional (ownerid mod 100) 0 (cfg_additional cfg).

Definition _fix_yaml_defaults_based_on_owner_onboarding_date (cfg : site_config) (current_yaml : pyval)
    (owner_onboarding_date : Z) : result pyval :=
  if cfg_patch_centric_start cfg <? owner_onboarding_date then
    match current_yaml with
    | VDict d => Ok (VDict (od_update d (cfg_patch_centric cfg)))
    | _ => Err AttributeError
    end
  else Ok current_yaml.

Definition merge_opt (base : pyval) (o : option pyval) : pyval :=
  match o with Some y => merge_yamls base y | None => base end.

Definition get_final_yaml (cfg : site_config) (owner_yaml repo_yaml commit_yaml : option pyval)
    (ownerid : option Z) (ctx : option owner_context) : result pyval :=
  let ownerid := match ownerid with Some i => Some i | None => ctx ≫= oc_ownerid end in
  let base :=
    match ownerid with
    | Some i =>
        if bool_decide (cfg_additional cfg = []) then cfg_site cfg
        else merge_yamls (cfg_site cfg) (_get_possible_additional_user_yaml cfg i)
    | None => cfg_site cfg
    end in
  base ← match ctx ≫= oc_onboarding_date with
         | Some date => _fix_yaml_defaults_based_on_owner_onboarding_date cfg base date
         | None => Ok base
         end;
  let with_owner := merge_opt base owner_yaml in
  Ok (match commit_yaml with
      | Some y => merge_yamls with_owner y
      | None => merge_opt with_owner repo_yaml
      end).

(** ** Reading fields *)

(** [yaml_dict[key]] along the keys.  [UserYaml.read_yaml_field] catches the
    [KeyError], the reader of the workers also the [TypeError] of indexing a scalar. *)
Fixpoint read_path (v : pyval) (keys : list string) : result pyval :=
  match keys with
  | [] => Ok v
  | k :: keys' => w ← get_item v k; read_path w keys'
  end.

Definition UserYaml_read_yaml_field (v : pyval) (keys : list string) (_else : pyval) : result pyval :=
  match read_path v keys with
  | Err KeyError | Err AttributeError => Ok _else
  | r => r
  end.

Definition read_yaml_field (v : pyval) (keys : list string) (_else : pyval) : result pyval :=
  match read_path v keys with
  | Err TypeError | Err AttributeError | Err KeyError => Ok _else
  | r => r
  end.

(** A list in the configuration; anything else is not iterated over here. *)
Definition as_list (v : pyval) : result (list pyval) :=
  match v with VList l => Ok l | _ => Err Unmodelled end.

(** ** Flags *)

(** The loop over [individual_flags]: the first of this name with the key set. *)
Fixpoint find_carryforward (flag_name : string) (flags : list pyval) : result (option pyval) :=
  match flags with
  | [] => Ok None
  | flag_info :: flags' =>
      n ← get_item flag_info "name";
      if bool_decide (n = VStr flag_name) then
        c ← dict_get flag_info "carryforward" VNone;
        if bool_decide (c = VNone) then find_carryforward flag_name flags' else Ok (Some c)
      else find_carryforward flag_name flags'
  end.

Definition flag_has_carryfoward (y : pyval) (flag_name : string) : result pyval :=
  flags ← dict_get y "flags" empty_dict;
  legacy_flag ← dict_get flags flag_name VNone;
  if truthy legacy_flag then dict_get legacy_flag "carryforward" VNone
  else
    flag_management ← dict_get y "flag_management" empty_dict;
    individual ← dict_get flag_management "individual_flags" (VList []);
    l ← as_list individual;
    found ← find_carryforward flag_name l;
    match found with
    | Some c => Ok c
    | None =>
        rules ← dict_get flag_management "default_rules" empty_dict;
        dict_get rules "carryforward" (VBool false)
    end.

Fixpoint any_carryforward (l : list pyval) : result bool :=
  match l with
  | [] => Ok false
  | flag_info :: l' =>
      c ← dict_get flag_info "carryforward" VNone;
      if truthy c then Ok true else any_carryforward l'
  end.

Definition dict_values (v : pyval) : result (list pyval) :=
  match v with VDict d => Ok (od_vals d) | _ => Err AttributeError end.

Definition has_any_carryforward (y : pyval) : result bool :=
  all_flags ← dict_get y "flags" VNone;
  legacy ← (if truthy all_flags then vs ← dict_values all_flags; any_carryforward vs else Ok false);
  if (legacy : bool) then Ok true
  else
    flag_management ← dict_get y "flag_management" empty_dict;
    rules ← dict_get flag_management "default_rules" empty_dict;
    c ← dict_get rules "carryforward" VNone;
    if truthy c then Ok true
    else
      individual ← dict_get flag_management "individual_flags" (VList []);
      l ← as_list individual;
      any_carryforward l.

Fixpoint find_flag (flag_name : string) (general : odict string pyval) (l : list pyval) : result pyval :=
  match l with
  | [] => Ok (VDict general)
  | f_dict :: l' =>
      n ← get_item f_dict "name";
      if bool_decide (n = VStr flag_name) then
        match f_dict with VDict d => Ok (VDict (od_update general d)) | _ => Err TypeError end
      else find_flag flag_name general l'
  end.

Definition get_flag_configuration (y : pyval) (flag_name : string) : result pyval :=
  old_dict ← dict_get y "flags" empty_dict;
  match old_dict with
  | VDict old =>
      match od_get flag_name old with
      | Some c => Ok c
      | None =>
          m ← dict_get y "flag_management" VNone;
          if bool_decide (m = VNone) then Ok VNone
          else
            general ← dict_get m "default_rules" empty_dict;
            individual ← dict_get m "individual_flags" (VList []);
            match general with
            | VDict g => l ← as_list individual; find_flag flag_name g l
            | _ => Err Unmodelled
            end
      end
  | _ => Err Unmodelled
  end.

(** ** Components *)

Record Component : Type := mkComponent {
  co_component_id : pyval; co_name : pyval; co_flag_regexes : pyval; co_paths : pyval;
  co_statuses : pyval;
}.

Definition Component_from_dict (d : odict string pyval) : Component :=
  let get k dflt := default dflt (od_get k d) in
  mkComponent (get "component_id" (VStr "")) (get "name" (VStr "")) (get "flag_regexes" (VList []))
    (get "paths" (VList [])) (get "statuses" (VList [])).

Definition get_display_name (c : Component) : pyval :=
  if truthy (co_name c) then co_name c
  else if truthy (co_component_id c) then co_component_id c else VStr "default_component".

(** The flags any of the expressions matches, as a set.  The expressions are compiled
    one at a time. *)
Fixpoint get_matching_flags `{Re} (regexes current_flags : list string) : result (list string) :=
  match regexes with
  | [] => Ok []
  | r :: regexes' =>
      m ← re_compile r;
      rest ← get_matching_flags regexes' current_flags;
      Ok (remove_dups (filter (fun f => m f = true) current_flags ++ rest))
  end.

(** [{**default_definition, **component_dict}]. *)
Definition component_of (dflt : odict string pyval) (v : pyval) : result Component :=
  match v with
  | VDict d => Ok (Component_from_dict (od_update (od_update [] dflt) d))
  | _ => Err TypeError
  end.

Definition get_components (y : pyval) : result (list Component) :=
  defs ← UserYaml_read_yaml_field y ["component_management"] VNone;
  if truthy defs then
    dflt ← dict_get defs "default_rules" empty_dict;
    individual ← dict_get defs "individual_components" (VList []);
    match dflt with
    | VDict d => l ← as_list individual; traverse (component_of d) l
    | _ => Err TypeError
    end
  else Ok [].

(** ** Facts *)

Lemma od_update_get {V} (res d : odict string V) k :
  od_wf d ->
  od_get k (od_update res d) = match od_get k d with Some v => Some v | None => od_get k res end.
Proof.
  unfold od_update. revert res. induction d as [|[k' v] d IH]; intros res Hwf; cbn; [done|].
  apply NoDup_cons in Hwf as [Hk Hwf]. rewrite IH by done. cbn in Hk.
  case_decide; subst.
  - rewrite (proj2 (od_get_None k' d)) by done. by rewrite od_get_set_eq.
  - destruct (od_get k d); [done|]. by rewrite od_get_set_ne.
Qed.

Lemma od_update_wf {V} (res d : odict string V) : od_wf res -> od_wf (od_update res d).
Proof.
  unfold od_update. revert res. induction d as [|[k v] d IH]; intros res Hwf; cbn; auto using od_wf_set.
Qed.

(** The values [merge_yamls] puts in. *)
Definition merged_entries (a b : odict string pyval) : odict string pyval :=
  (fun kv => (kv.1, merge_yamls (default empty_dict (od_get kv.1 a)) kv.2)) <$> b.

Lemma merge_yamls_dict a b : merge_yamls (VDict a) (VDict b) = VDict (od_update a (merged_entries a b)).
Proof.
  cbn [merge_yamls]. do 2 f_equal. unfold merged_entries.
  induction b as [|[k v] b IH]; cbn; [done|]. by rewrite IH.
Qed.

Lemma merged_entries_keys a b : od_keys (merged_entries a b) = od_keys b.
Proof. unfold od_keys, merged_entries. rewrite <- list_fmap_compose. by apply list_fmap_ext. Qed.

Lemma merged_entries_get a b k :
  od_get k (merged_entries a b) =
  match od_get k b with
  | Some v => Some (merge_yamls (default empty_dict (od_get k a)) v)
  | None => None
  end.
Proof.
  unfold merged_entries. induction b as [|[k' v] b IH]; cbn; [done|]. case_decide; by subst.
Qed.

(** Key by key: the second dictionary wins, merged into the first's value. *)
Lemma merge_yamls_get a b k :
  od_wf b ->
  exists c, merge_yamls (VDict a) (VDict b) = VDict c /\
    od_get k c = match od_get k b with
                 | Some v => Some (merge_yamls (default empty_dict (od_get k a)) v)
                 | None => od_get k a
                 end.
Proof.
  intros Hb. exists (od_update a (merged_entries a b)). split; [apply merge_yamls_dict|].
  rewrite od_update_get by (unfold od_wf; by rewrite merged_entries_keys).
  rewrite merged_entries_get. by destruct (od_get k b).
Qed.

(** A path of keys: what the overriding document says there, if anything; the other
    document otherwise, unless an ancestor was replaced. *)
Fixpoint path_get (v : pyval) (keys : list string) : option pyval :=
  match keys with
  | [] => Some v
  | k :: keys' => match v with VDict d => w ← od_get k d; path_get w keys' | _ => None end
  end.

(** Every dictionary of the document has distinct keys. *)
Fixpoint yaml_wf (v : pyval) : Prop :=
  match v with
  | VDict d => od_wf d /\ (fix go (l : odict string pyval) : Prop :=
                             match l with [] => True | (_, w) :: l' => yaml_wf w /\ go l' end) d
  | _ => True
  end.

Lemma yaml_wf_get d k w : yaml_wf (VDict d) -> od_get k d = Some w -> yaml_wf w.
Proof.
  cbn [yaml_wf]. intros [_ Hd]. induction d as [|[k' v] d IH]; cbn; [done|]. cbn in Hd.
  destruct Hd as [Hv Hd]. case_decide; [by intros [= ->] | by apply IH].
Qed.

Definition is_dict (v : pyval) : bool := match v with VDict _ => true | _ => false end.

Lemma merge_yamls_scalar d1 d2 : is_dict d2 = false -> merge_yamls d1 d2 = d2.
Proof. by destruct d1, d2. Qed.

(** A setting of the overriding document is found unchanged. *)
Lemma merge_yamls_override keys d1 d2 v :
  yaml_wf d2 -> path_get d2 keys = Some v -> is_dict v = false ->
  path_get (merge_yamls d1 d2) keys = Some v.
Proof.
  revert d1 d2. induction keys as [|k keys IH]; intros d1 d2 Hwf Hp Hv; cbn [path_get] in *.
  { injection Hp as ->. by rewrite merge_yamls_scalar. }
  destruct d2 as [| | | | | |b]; try done. destruct (od_get k b) as [w|] eqn:Ew; [|done]. cbn in Hp.
  destruct d1 as [| | | | | |a]; try (cbn [merge_yamls]; by rewrite Ew).
  destruct (merge_yamls_get a b k (proj1 Hwf)) as (c & -> & Hc). rewrite Hc, Ew. cbn.
  apply IH; [by eapply yaml_wf_get | done..].
Qed.

(** A setting no ancestor of which the overriding document mentions is kept. *)
Lemma merge_yamls_keep keys d1 d2 :
  yaml_wf d2 -> is_dict d1 = true -> is_dict d2 = true ->
  match keys with k :: _ => path_get d2 [k] = None | [] => False end ->
  path_get (merge_yamls d1 d2) keys = path_get d1 keys.
Proof.
  intros Hwf H1 H2 Hk. destruct keys as [|k keys]; [done|].
  destruct d1 as [| | | | | |a]; try done. destruct d2 as [| | | | | |b]; try done. cbn in Hk.
  destruct (merge_yamls_get a b k (proj1 Hwf)) as (c & -> & Hc). cbn [path_get].
  rewrite Hc. by destruct (od_get k b).
Qed.

(** ** Properties *)

(** Merging two configuration documents: a setting of the second one is found
    unchanged in the merge, wherever it lies. *)
Theorem merge_yamls_overrides keys d1 d2 v :
  yaml_wf d2 -> path_get d2 keys = Some v -> is_dict v = false ->
  path_get (merge_yamls d1 d2) keys = Some v.
Proof. apply merge_yamls_override. Qed.

Lemma merge_yamls_overrides_witness :
  let site := VDict [("coverage", VDict [("precision", VInt 2); ("round", VStr "down")])] in
  let repo := VDict [("coverage", VDict [("precision", VInt 5)])] in
  path_get (merge_yamls site repo) ["coverage"; "precision"] = Some (VInt 5).
Proof.
  intros site repo. apply (merge_yamls_overrides ["coverage"; "precision"] site repo (VInt 5));
    [|reflexivity|reflexivity].
  split; [apply NoDup_singleton|]. split; [split; [apply NoDup_singleton | done] | done].
Defined.
