(* ===== verification/PyUrl.v ===== *)
(** * [urllib.parse]: quoting, queries and [url_concat]

    What [shared/utils/urls.py] and the providers' adapters use of the standard
    library, and [url_concat], which adds parameters to an address. *)
From S2P Require Export PyVal PyStr.
#[local] Open Scope string_scope.
#[local] Open Scope list_scope.
#[local] Open Scope Z_scope.

(** ** Quoting *)

Definition hex_digit (n : N) : ascii := if (n <? 10)%N then ascii_of_N (48 + n) else ascii_of_N (55 + n).
Definition hex_value (c : ascii) : option N :=
  let n := N_of_ascii c in
  if (48 <=? n)%N && (n <=? 57)%N then Some (n - 48)%N
  else if (65 <=? n)%N && (n <=? 70)%N then Some (n - 55)%N
  else if (97 <=? n)%N && (n <=? 102)%N then Some (n - 87)%N
  else None.

(** Letters, digits and [_.-~] are kept. *)
Definition is_unreserved (c : ascii) : bool :=
  let n := N_of_ascii c in
  ((48 <=? n) && (n <=? 57) || (65 <=? n) && (n <=? 90) || (97 <=? n) && (n <=? 122)
   || (n =? 95) || (n =? 46) || (n =? 45) || (n =? 126))%N.

Definition quote_byte (c : ascii) : string :=
  if is_unreserved c then String c ""
  else if bool_decide (c = " "%char) then "+"
  else String "%" (String (hex_digit (N_of_ascii c / 16)) (String (hex_digit (N_of_ascii c mod 16)) "")).
Fixpoint quote_bytes (b : string) : string :=
  match b with EmptyString => EmptyString | String c b => quote_byte c +:+ quote_bytes b end.
Definition quote_plus (s : string) : string := quote_bytes (utf8_encode s).

(** A plus is a space; a percent sign without two digits is kept. *)
Fixpoint unquote_bytes (s : string) : string :=
  match s with
  | EmptyString => EmptyString
  | String c r =>
      if bool_decide (c = "+"%char) then String " " (unquote_bytes r)
      else if bool_decide (c = "%"%char) then
        match r with
        | String a (String b r') =>
            match hex_value a, hex_value b with
            | Some x, Some y => String (ascii_of_N (16 * x + y)) (unquote_bytes r')
            | _, _ => String c (unquote_bytes r)
            end
        | _ => String c (unquote_bytes r)
        end
      else String c (unquote_bytes r)
  end.
Definition unquote_plus (s : string) : result string := decode_replace (unquote_bytes s).

(** ** Queries *)

Definition query_pair (keep_blank_values : bool) (name_value : string) : result (list (string * string)) :=
  let pair n v :=
    if keep_blank_values || negb (bool_decide (v = "")) then n ← unquote_plus n; v ← unquote_plus v; Ok [(n, v)] else Ok [] in
  if bool_decide (name_value = "") then Ok []
  else match split1 "=" name_value with
       | [n; v] => pair n v
       | _ => if keep_blank_values then pair name_value "" else Ok []
       end.
Definition parse_qsl (keep_blank_values : bool) (qs : string) : result (list (string * string)) :=
  ps ← traverse (query_pair keep_blank_values) (split "&" qs); Ok (concat ps).

(** [parse_qs]: the values of each name. *)
Definition parse_qs (qs : string) : result (odict string (list string)) :=
  l ← parse_qsl false qs;
  Ok (foldl (fun d nv => od_set nv.1 (default [] (od_get nv.1 d) ++ [nv.2]) d) [] l).

(** [str(v)] *)
Definition py_str (v : pyval) : result string :=
  match v with
  | VStr s => Ok s
  | VInt n => Ok (str_of_Z n)
  | VBool b => Ok (if b then "True" else "False")
  | VNone => Ok "None"
  | _ => Err Unmodelled
  end.

Definition encode_pair (kv : string * string) : string := quote_plus kv.1 +:+ "=" +:+ quote_plus kv.2.
Definition urlencode (l : list (string * string)) : string := join "&" (map encode_pair l).

(** ** [url_concat] *)

(** What comes before the query, the query, and the fragment. *)
Definition split_url (url : string) : string * string * string :=
  let '(url, fragment) := match partition "#" url with Some (u, f) => (u, f) | None => (url, "") end in
  let '(url, query) := match partition "?" url with Some (u, q) => (u, q) | None => (url, "") end in
  (url, query, fragment).
Definition unsplit_url (url query fragment : string) : string :=
  url +:+ (if bool_decide (query = "") then "" else "?" +:+ query) +:+ (if bool_decide (fragment = "") then "" else "#" +:+ fragment).

Definition url_concat (url : string) (args : odict string pyval) : result string :=
  let '(base, query, fragment) := split_url url in
  parsed_query ← parse_qsl true query;
  args ← traverse (fun kv => v ← py_str kv.2; Ok (kv.1, v)) args;
  Ok (unsplit_url base (urlencode (parsed_query ++ args)) fragment).

(** ** A query that was written is read back *)

Lemma quote_byte_props c :
  without "&" (quote_byte c) = true /\ without "=" (quote_byte c) = true /\ quote_byte c <> "" /\
  forall r, unquote_bytes (quote_byte c +:+ r) = String c (unquote_bytes r).
Proof. destruct c as [[] [] [] [] [] [] [] []]; (split_and!; [reflexivity|reflexivity|discriminate|reflexivity]). Qed.

Lemma quote_bytes_without b : without "&" (quote_bytes b) = true /\ without "=" (quote_bytes b) = true.
Proof.
  induction b as [|c b [IH1 IH2]]; [done|]. cbn [quote_bytes]. destruct (quote_byte_props c) as (H1 & H2 & _).
  by rewrite !without_app, H1, H2, IH1, IH2.
Qed.

Lemma unquote_quote_bytes b : unquote_bytes (quote_bytes b) = b.
Proof.
  induction b as [|c b IH]; [done|]. cbn [quote_bytes]. destruct (quote_byte_props c) as (_ & _ & _ & H). by rewrite H, IH.
Qed.

Lemma unquote_quote s : unquote_plus (quote_plus s) = Ok s.
Proof.
  unfold unquote_plus, quote_plus. rewrite unquote_quote_bytes. unfold decode_replace.
  pose proof (utf8_decode_encode s) as H. unfold byte_values in H. by rewrite H.
Qed.

Lemma quote_nonempty s : s <> "" -> quote_plus s <> "".
Proof.
  intros Hs Hq. apply Hs. pose proof (unquote_quote s) as H. rewrite Hq in H. by injection H as <-.
Qed.

Lemma encode_pair_parts kv :
  without "&" (encode_pair kv) = true /\ encode_pair kv <> "" /\ split1 "=" (encode_pair kv) = [quote_plus kv.1; quote_plus kv.2].
Proof.
  unfold encode_pair. destruct (quote_bytes_without (utf8_encode kv.1)) as [H1 H2], (quote_bytes_without (utf8_encode kv.2)) as [H3 _].
  unfold quote_plus in *. split_and!.
  - rewrite !without_app, H1, H3. done.
  - by destruct (quote_bytes _).
  - by apply split1_char.
Qed.

Lemma query_pair_encode keep kv :
  query_pair keep (encode_pair kv) = Ok (if keep || negb (bool_decide (kv.2 = "")) then [kv] else []).
Proof.
  destruct (encode_pair_parts kv) as (_ & Hne & Hs). unfold query_pair. rewrite bool_decide_eq_false_2, Hs by done.
  destruct kv as [k v]. cbn [fst snd]. rewrite !unquote_quote. destruct keep; [done|]. cbn [orb].
  destruct (bool_decide (v = "")) eqn:Hv; [apply bool_decide_eq_true_1 in Hv as ->; done|].
  apply bool_decide_eq_false_1 in Hv. by rewrite bool_decide_eq_false_2 by by apply quote_nonempty.
Qed.

Lemma parse_qsl_encode keep l :
  parse_qsl keep (urlencode l) = Ok (List.filter (fun kv => keep || negb (bool_decide (kv.2 = ""))) l).
Proof.
  unfold parse_qsl, urlencode. destruct l as [|kv l]; [done|].
  rewrite split_join; [|done|done| |].
  2,3: apply Forall_fmap, Forall_forall; intros x _; destruct (encode_pair_parts x) as (Hw & _ & _).
  2: exact (partition_char "&" (encode_pair x) "" Hw).
  2: by apply partition_char_none.
  assert (Ht : traverse (query_pair keep) (map encode_pair (kv :: l)) =
    Ok (map (fun kv => if keep || negb (bool_decide (kv.2 = "")) then [kv] else []) (kv :: l))).
  { generalize (kv :: l) as m. intros m. induction m as [|x m IH]; [done|]. cbn [map traverse]. by rewrite query_pair_encode, IH. }
  rewrite Ht. cbn [mbind result_bind]. f_equal. generalize (kv :: l) as m. intros m.
  induction m as [|x m IH]; [done|]. cbn [map concat List.filter]. rewrite IH. by destruct (_ || _).
Qed.

(** Parameters that are written to a query are read from it, in order, but for those
    without a value where blank values are dropped. *)
Theorem urlencode_roundtrip (l : list (string * string)) :
  parse_qsl true (urlencode l) = Ok l /\
  parse_qsl false (urlencode l) = Ok (List.filter (fun kv => negb (bool_decide (kv.2 = ""))) l).
Proof.
  split; [|apply (parse_qsl_encode false)]. rewrite (parse_qsl_encode true). f_equal. by apply forallb_filter_id, forallb_forall.
Qed.

Example concat_adds :
  url_concat "https://api.github.com/repos/a/b/pulls/1/commits?per_page=100&q=" [("page", VInt 2); ("sha", VStr "a b&c")]
  = Ok "https://api.github.com/repos/a/b/pulls/1/commits?per_page=100&q=&page=2&sha=a+b%26c".
Proof. vm_compute. reflexivity. Qed.
