(* ===== verification/Config.v ===== *)
(** * The configuration of an installation

    [libs/shared/shared/config/__init__.py]: the defaults, the configuration file and
    the environment are put over each other, key by key.  The file is what the YAML
    library reads in it, [loads] is [json.loads], and [validate] is
    [validate_install_configuration], of which [YamlSchema] has the schema. *)
From S2P Require Export UserYaml PyDecimal.
#[local] Open Scope string_scope.
#[local] Open Scope list_scope.
#[local] Open Scope Z_scope.

(** ** The defaults *)

Definition LEGACY_DEFAULT_SITE_CONFIG : odict string pyval :=
  [("codecov", VDict [("require_ci_to_pass", VBool true); ("notify", VDict [("wait_for_ci", VBool true)])]);
   ("coverage", VDict [("precision", VInt 2); ("round", VStr "down"); ("range", VStr "60...80");
      ("status", VDict [("project", VBool true); ("patch", VBool true); ("changes", VBool false);
         ("default_rules", VDict [("flag_coverage_not_uploaded_behavior", VStr "include")])])]);
   ("comment", VDict [("layout", VStr "reach,diff,flags,tree,reach"); ("behavior", VStr "default");
      ("show_carryforward_flags", VBool false)]);
   ("slack_app", VBool true)].

Definition PATCH_CENTRIC_DEFAULT_CONFIG : odict string pyval :=
  od_update LEGACY_DEFAULT_SITE_CONFIG
    [("coverage", VDict [("precision", VInt 2); ("round", VStr "down");
        ("range", VList [VFloat (rnd false 60 1); VFloat (rnd false 80 1)]);
        ("status", VDict [("project", VBool false); ("patch", VBool true); ("changes", VBool false);
           ("default_rules", VDict [("flag_coverage_not_uploaded_behavior", VStr "include")])])]);
     ("comment", VDict [("layout", VStr "condensed_header, flags, tree, component"); ("hide_project_coverage", VBool true);
        ("behavior", VStr "default"); ("show_carryforward_flags", VBool false)])].

Definition default_config : odict string pyval :=
  [("services", VDict
      [("minio", VDict [("host", VStr "minio"); ("access_key_id", VStr "codecov-default-key");
          ("secret_access_key", VStr "codecov-default-secret"); ("verify_ssl", VBool false); ("iam_auth", VBool false);
          ("iam_endpoint", VNone); ("hash_key", VStr "ab164bf3f7d947f2a0681b215404873e")]);
       ("database_url", VStr "postgresql://postgres:@postgres:5432/postgres")]);
   ("site", VDict LEGACY_DEFAULT_SITE_CONFIG);
   ("setup", VDict [("timeseries", VDict [("enabled", VBool false)])])].

(** ** [update] *)

(** The value under a key, once [v] is put over what is there. *)
Fixpoint overlay (old : option pyval) (v : pyval) {struct v} : pyval :=
  match v with
  | VDict u =>
      match old with
      | Some (VDict d) =>
          VDict (od_update d
            ((fix go (l : odict string pyval) : odict string pyval :=
                match l with [] => [] | (k, w) :: l => (k, overlay (od_get k d) w) :: go l end) u))
      | _ => v
      end
  | _ => v
  end.

(** [u.items()] of a document that is no mapping raises; an empty file is [None]. *)
Definition update (d : odict string pyval) (u : pyval) : result pyval :=
  match u with VDict _ => Ok (overlay (Some (VDict d)) u) | _ => Err AttributeError end.

(** ** The environment *)

Definition true_words : list string := ["true"; "True"; "TRUE"; "on"; "On"; "ON"].
Definition false_words : list string := ["false"; "False"; "FALSE"; "off"; "Off"; "OFF"].

(** [^-?\d+$] and [^-?\d+\.\d+$] on the text without a sign; [$] is also before a last
    line feed. *)
Definition all_digits (s : string) : bool := negb (bool_decide (s = "")) && str_forallb is_digit s.
Definition unsigned (s : string) : string := match s with String "-" r => r | _ => s end.
Definition before_line_feed (s : string) : string := if endswith nl s then str_init 1 s else s.
Definition is_int_text (s : string) : bool := all_digits (before_line_feed (unsigned s)).
Definition is_float_text (s : string) : bool :=
  match partition "." (before_line_feed (unsigned s)) with Some (a, b) => all_digits a && all_digits b | None => false end.

Definition _env_var_value_cast (data : pyval) : result pyval :=
  match data with
  | VStr s =>
      if bool_decide (s ∈ true_words) then Ok (VBool true)
      else if bool_decide (s ∈ false_words) then Ok (VBool false)
      else if is_int_text s then z ← int_of_str s; Ok (VInt z)
      else if is_float_text s then
        match float_of_text s with
        | Ok f => Ok (VFloat f)
        | Err ValueError => Ok data
        | Err _ => Err Unmodelled
        end
      else Ok data
  | _ => Ok data
  end.

Section environment.
Variable loads : string -> result pyval.

Definition _parse_path_and_value_from_envvar (env_var_name text : string) : result (list string * pyval) :=
  let should_load_from_json := startswith "JSONCONFIG___" env_var_name in
  let path_to_use := if should_load_from_json then str_drop 13 env_var_name else env_var_name in
  data ← (if should_load_from_json then loads text else Ok (VStr text));
  data ← _env_var_value_cast data;
  Ok (split "__" path_to_use, data).

(** [current.setdefault(c.lower(), {})] down to the last name, which is assigned. *)
Fixpoint set_path (names : list string) (data current : pyval) : result pyval :=
  match names with
  | [] => Err IndexError
  | [c] => match current with VDict d => Ok (VDict (od_set (lower c) data d)) | _ => Err TypeError end
  | c :: names =>
      match current with
      | VDict d =>
          inner ← set_path names data (default (VDict []) (od_get (lower c) d));
          Ok (VDict (od_set (lower c) inner d))
      | _ => Err AttributeError
      end
  end.

Definition is_config_variable (env_var : string) : bool := negb (startswith "__" env_var) && str_contains "__" env_var.

Definition env_var_step (val : pyval) (var : string * string) : result pyval :=
  if is_config_variable var.1 then
    '(names, data) ← _parse_path_and_value_from_envvar var.1 var.2; set_path names data val
  else Ok val.

Definition load_env_var (environ : list (string * string)) : result pyval := foldM env_var_step (VDict []) environ.

(** ** [ConfigHelper] *)

Variable validate : pyval -> result pyval.

Definition unvalidated (content : pyval) (environ : list (string * string)) : result pyval :=
  env_vars ← load_env_var environ;
  temp_result ← update default_config content;
  match temp_result with VDict d => update d env_vars | _ => Err AttributeError end.

(** No file is an empty configuration. *)
Definition params (file : option pyval) (environ : list (string * string)) : result pyval :=
  final ← unvalidated (default (VDict []) file) environ; validate final.
End environment.

(** [get] and [get_config]: a missing key and a value that cannot be indexed both give
    the default. *)
Definition get_config (ps : pyval) (path : list string) (dflt : pyval) : pyval := default dflt (path_get ps path).

(** [get_verify_ssl] *)
Definition get_verify_ssl (ps : pyval) (service : string) (REQUESTS_CA_BUNDLE : pyval) : pyval :=
  if bool_decide (get_config ps [service; "verify_ssl"] VNone = VBool false) then VBool false
  else let pem := get_config ps [service; "ssl_pem"] VNone in if truthy pem then pem else REQUESTS_CA_BUNDLE.

(** ** Layers *)

(** [update] is the [merge_yamls] of the repositories' configurations. *)
Lemma overlay_dict d u :
  overlay (Some (VDict d)) (VDict u) = VDict (od_update d ((fun kv => (kv.1, overlay (od_get kv.1 d) kv.2)) <$> u)).
Proof. cbn [overlay]. do 2 f_equal. induction u as [|[k w] u IH]; cbn; [done|]. by rewrite IH. Qed.

Lemma od_update_nil {V} (u : odict string V) : od_wf u -> od_update [] u = u.
Proof. apply od_of_list_id. Qed.

Lemma merge_empty v : yaml_wf v -> merge_yamls (VDict []) v = v.
Proof.
  induction v as [| | | | | |d IH] using pyval_ind'; try done. intros [Hwf Hall]. rewrite merge_yamls_dict. f_equal.
  assert (Hid : merged_entries [] d = d).
  { clear Hwf. unfold merged_entries. induction IH as [|[k v] d Hv _ IH]; [done|]. destruct Hall as [Hw Hall].
    rewrite fmap_cons, (IH Hall). f_equal. cbn [od_get fst snd default]. f_equal. by apply Hv. }
  rewrite Hid. by apply od_update_nil.
Qed.

Lemma overlay_merge old v :
  yaml_wf v -> overlay old v = merge_yamls (match old with Some (VDict d) => VDict d | _ => VDict [] end) v.
Proof.
  revert old. induction v as [| | | | | |u IH] using pyval_ind'; intros old Hwf;
    try by destruct old as [[]|].
  assert (Hd : forall d, overlay (Some (VDict d)) (VDict u) = merge_yamls (VDict d) (VDict u)).
  { intros d. rewrite overlay_dict, merge_yamls_dict. do 2 f_equal. unfold merged_entries. destruct Hwf as [_ Hall].
    induction IH as [|[k v] u Hv _ IH]; [done|]. destruct Hall as [Hw Hall]. rewrite !fmap_cons. f_equal; [|by apply IH].
    cbn in *. f_equal. rewrite (Hv _ Hw). destruct (od_get k d) as [[]|]; cbn; try done; rewrite merge_empty by done; by destruct v. }
  destruct old as [[]|]; try apply Hd; cbn [overlay]; by rewrite merge_empty.
Qed.

Theorem update_is_merge d u : yaml_wf u -> is_dict u = true -> update d u = Ok (merge_yamls (VDict d) u).
Proof. intros Hwf Hu. destruct u; try done. cbn [update]. f_equal. by rewrite overlay_merge. Qed.

(** Two paths neither of which is the beginning of the other. *)
Definition apart (p q : list string) : Prop := ~ p `prefix_of` q /\ ~ q `prefix_of` p.

Lemma apart_cons k p q : apart (k :: p) (k :: q) <-> apart p q.
Proof.
  unfold apart. split; intros [H1 H2]; (split; [intros Hp; apply H1|intros Hp; apply H2]);
    first [by apply list.prefix_cons|exact (list.prefix_cons_inv_2 _ _ _ _ Hp)].
Qed.

Lemma set_path_same names data cur v : set_path names data cur = Ok v -> path_get v (lower <$> names) = Some data.
Proof.
  revert cur v. induction names as [|c names IH]; intros cur v H; [done|].
  destruct names as [|c' names].
  - cbn in H. destruct cur; try done. injection H as <-. cbn. by rewrite od_get_set_eq.
  - cbn [set_path] in H. destruct cur as [| | | | | |d]; try done. inv_ok H. subst v. rewrite fmap_cons. cbn [path_get].
    rewrite od_get_set_eq. cbn [mbind option_bind]. by eapply IH.
Qed.

Lemma set_path_other names data cur v q :
  set_path names data cur = Ok v -> apart (lower <$> names) q -> path_get v q = path_get cur q.
Proof.
  revert cur v q. induction names as [|c names IH]; intros cur v q H Ha; [done|].
  destruct q as [|k q]; [destruct Ha as [_ []]; apply prefix_nil|].
  assert (Hd : exists d w, cur = VDict d /\ v = VDict (od_set (lower c) w d) /\
    (k = lower c -> path_get w q = path_get (default (VDict []) (od_get k d)) q)).
  { destruct names as [|c' names].
    - cbn in H. destruct cur as [| | | | | |d]; try done. injection H as <-. exists d, data. split_and!; [done..|].
      intros ->. destruct Ha as [[] _]. cbn. apply list.prefix_cons, list.prefix_nil.
    - cbn [set_path] in H. destruct cur as [| | | | | |d]; try done. inv_ok H. subst v. eexists d, _. split_and!; [done..|].
      intros ->. rewrite fmap_cons in Ha. apply apart_cons in Ha. by eapply IH. }
  destruct Hd as (d & w & -> & -> & Hw). cbn [path_get]. destruct (decide (k = lower c)) as [->|Hk].
  - rewrite od_get_set_eq. cbn [mbind option_bind]. rewrite Hw by done. destruct (od_get (lower c) d); [done|]. cbn.
    destruct q; [|done]. destruct Ha as [_ []]. cbn. apply list.prefix_cons, list.prefix_nil.
  - by rewrite od_get_set_ne.
Qed.

Lemma yaml_wf_set d k w : yaml_wf (VDict d) -> yaml_wf w -> yaml_wf (VDict (od_set k w d)).
Proof.
  intros [Hwf Hall] Hw. split; [by apply od_wf_set|]. clear Hwf. revert Hall.
  induction d as [|[k' v] d IH]; cbn; [done|]. intros [Hv Hall]. case_decide; cbn; [done|]. split; [done|]. by apply IH.
Qed.

Lemma set_path_wf names data cur v : set_path names data cur = Ok v -> yaml_wf cur -> yaml_wf data -> yaml_wf v /\ is_dict v = true.
Proof.
  revert cur v. induction names as [|c names IH]; intros cur v H Hc Hd; [done|]. destruct names as [|c' names].
  - cbn in H. destruct cur; try done. injection H as <-. split; [by apply yaml_wf_set|done].
  - cbn [set_path] in H. destruct cur as [| | | | | |d]; try done. inv_ok H. subst v. split; [|done].
    apply yaml_wf_set; [done|]. eapply IH; [done| |done]. destruct (od_get (lower c) d) as [x|] eqn:Hx; [by eapply yaml_wf_get|].
    cbn. split; [apply od_wf_nil|done].
Qed.

Section layers.
Variable loads : string -> result pyval.
Hypothesis loads_wf : forall s v, loads s = Ok v -> yaml_wf v.

Definition sets (var : string * string) (names : list string) (data : pyval) : Prop :=
  is_config_variable var.1 = true /\ _parse_path_and_value_from_envvar loads var.1 var.2 = Ok (names, data).

Lemma cast_wf data v : _env_var_value_cast data = Ok v -> yaml_wf data -> yaml_wf v.
Proof.
  unfold _env_var_value_cast. destruct data as [| | | |s| |]; try by intros [= <-]. intros Hc _.
  destruct (bool_decide (s ∈ true_words)); [by injection Hc as <-|].
  destruct (bool_decide (s ∈ false_words)); [by injection Hc as <-|].
  destruct (is_int_text s); [inv_ok Hc; by subst v|]. destruct (is_float_text s); [|by injection Hc as <-].
  destruct (float_of_text s) as [|[]]; first [done | by injection Hc as <-].
Qed.

Lemma sets_wf var names data : sets var names data -> yaml_wf data.
Proof.
  intros [_ Hp]. unfold _parse_path_and_value_from_envvar in Hp.
  destruct (if startswith _ _ then loads var.2 else Ok (VStr var.2)) as [x|] eqn:Hx; [cbn in Hp|done].
  destruct (_env_var_value_cast x) as [y|] eqn:Hy; [injection Hp as <- <-|done]. eapply cast_wf; [done|].
  destruct (startswith _ _); [by eapply loads_wf|by injection Hx as <-].
Qed.

Definition well_formed (v : pyval) : Prop := yaml_wf v /\ is_dict v = true.

Lemma env_step_inv val var v :
  env_var_step loads val var = Ok v ->
  v = val /\ is_config_variable var.1 = false \/ exists names data, sets var names data /\ set_path names data val = Ok v.
Proof.
  unfold env_var_step, sets. destruct (is_config_variable var.1); [|by intros [= <-]; left].
  destruct (_parse_path_and_value_from_envvar loads var.1 var.2) as [[names data]|]; [|done]. cbn. intros Hs. right.
  by exists names, data.
Qed.

Lemma env_step_wf val var v : well_formed val -> env_var_step loads val var = Ok v -> well_formed v.
Proof.
  intros Hw [[-> _]|(names & data & Hs & Hp)]%env_step_inv; [done|].
  eapply set_path_wf; [done|apply Hw|by eapply sets_wf].
Qed.

Lemma env_fold_wf environ val v : foldM (env_var_step loads) val environ = Ok v -> well_formed val -> well_formed v.
Proof. revert val. induction environ as [|x e IH]; intros val Hf Hw; cbn in Hf; [by injection Hf as <-|]. inv_ok Hf. eapply IH; [done|by eapply env_step_wf]. Qed.

Lemma env_fold_other environ val v q :
  foldM (env_var_step loads) val environ = Ok v ->
  (forall var names data, var ∈ environ -> sets var names data -> apart (lower <$> names) q) ->
  path_get v q = path_get val q.
Proof.
  revert val. induction environ as [|x e IH]; intros val Hf Ha; cbn in Hf; [by injection Hf as <-|]. inv_ok Hf.
  rewrite (IH _ Hrun0) by (intros; eapply Ha; [by right|done]).
  apply env_step_inv in Hrun as [[-> _]|(names & data & Hs & Hp)]; [done|].
  eapply set_path_other; [done|]. eapply Ha; [by left|done].
Qed.

(** A variable whose path is apart from those of the others is found in what the
    environment gives. *)
Lemma load_env_var_found environ v var names data :
  load_env_var loads environ = Ok v -> var ∈ environ -> NoDup environ.*1 -> sets var names data ->
  (forall other names' data', other ∈ environ -> other.1 <> var.1 -> sets other names' data' ->
     apart (lower <$> names') (lower <$> names)) ->
  path_get v (lower <$> names) = Some data.
Proof.
  intros Hl Hin Hnd Hs Ha. apply list_elem_of_split in Hin as (e1 & e2 & ->). unfold load_env_var in Hl.
  rewrite foldM_app in Hl. apply bind_Ok_inv in Hl as (v0 & _ & Hl). cbn in Hl. apply bind_Ok_inv in Hl as (v1 & Hstep & Hrest).
  rewrite fmap_app, fmap_cons in Hnd. apply NoDup_app in Hnd as (_ & _ & [Hnot _]%NoDup_cons).
  rewrite (env_fold_other _ _ _ _ Hrest).
  2: { intros other ns d Ho Hs'. eapply Ha; [|intros Heq; apply Hnot; rewrite <- Heq; by apply list_elem_of_fmap_2|done].
       apply elem_of_app. right. by right. }
  destruct (env_step_inv _ _ _ Hstep) as [[_ Hc]|(ns & d & [Hc' Hp'] & Hp)]; destruct Hs as [Hc'' Hp'']; [congruence|].
  rewrite Hp'' in Hp'. injection Hp' as <- <-. by eapply set_path_same.
Qed.
End layers.

(** An environment variable decides its setting: whatever the file and the defaults
    say there, and whatever the other variables do elsewhere, the configuration has
    its value at the path its name spells. *)
Theorem env_var_wins loads content environ final var names data :
  (forall s v, loads s = Ok v -> yaml_wf v) ->
  unvalidated loads content environ = Ok final ->
  var ∈ environ -> NoDup environ.*1 -> sets loads var names data -> is_dict data = false ->
  (forall other names' data', other ∈ environ -> other.1 <> var.1 -> sets loads other names' data' ->
     apart (lower <$> names') (lower <$> names)) ->
  get_config final (lower <$> names) VNone = data.
Proof.
  intros Hl Hu Hin Hnd Hs Hdata Ha. unfold unvalidated in Hu. apply bind_Ok_inv in Hu as (env_vars & Hrun & Hu).
  apply bind_Ok_inv in Hu as (below & _ & Hu). destruct below as [| | | | | |d]; try done. destruct (env_fold_wf loads Hl _ _ _ Hrun) as [Hwf Hd]; [by repeat split; constructor|].
  rewrite (update_is_merge _ _ Hwf Hd) in Hu. injection Hu as <-.
  unfold get_config. rewrite (merge_yamls_override _ _ _ data Hwf); [done| |done].
  by eapply load_env_var_found.
Qed.

(** ** Examples *)

Definition no_json (s : string) : result pyval := Err JSONDecodeError.
Definition site_file : pyval := VDict [("setup", VDict [("codecov_url", VStr "https://a"); ("timeseries", VDict [("enabled", VBool true)])])].

Example layers_in_order :
  (ps ← unvalidated no_json site_file [("SETUP__CODECOV_URL", "https://b"); ("HOME", "/root"); ("SERVICES__MINIO__PORT", "9000")];
   Ok (map (fun p => get_config ps p VNone)
         [["setup"; "codecov_url"]; ["setup"; "timeseries"; "enabled"]; ["services"; "minio"; "port"]; ["services"; "minio"; "host"]]))
  = Ok [VStr "https://b"; VBool true; VInt 9000; VStr "minio"].
Proof. vm_compute. reflexivity. Qed.

(** A variable whose path goes through the value of another stops the program. *)
Example conflicting_variables :
  unvalidated no_json (VDict []) [("SETUP__URL", "a"); ("SETUP__URL__PORT", "1")] = Err TypeError.
Proof. vm_compute. reflexivity. Qed.

(** So does a configuration file without a document. *)
Example empty_file : unvalidated no_json VNone [] = Err AttributeError.
Proof. vm_compute. reflexivity. Qed.

Lemma env_var_wins_witness :
  exists final, unvalidated no_json site_file [("HOME", "/root"); ("SETUP__CODECOV_URL", "https://b")] = Ok final /\
    get_config final ["setup"; "codecov_url"] VNone = VStr "https://b".
Proof.
  eexists. split; [reflexivity|].
  refine (env_var_wins no_json site_file [("HOME", "/root"); ("SETUP__CODECOV_URL", "https://b")] _
    ("SETUP__CODECOV_URL", "https://b") ["SETUP"; "CODECOV_URL"] (VStr "https://b") _ _ _ _ _ _ _).
  - discriminate.
  - reflexivity.
  - right. left.
  - repeat constructor; set_solver.
  - split; reflexivity.
  - reflexivity.
  - intros other names data [->|[->|Hn]%elem_of_cons]%elem_of_cons Hne [Hc _]; [discriminate Hc|by destruct Hne|by apply elem_of_nil in Hn].
Defined.
