(* ===== verification/Processing.v ===== *)
(** * [worker/services/processing/state.py] and the tasks of an upload

    The uploads of a commit are processed by concurrent tasks that share two
    Redis sets.  The module [ProcessingState] has the operations on the sets;
    the section after it is the system the tasks make: [UploadTask] schedules a
    batch of processors followed by a finisher ([tasks/upload.py]), a processor
    runs [process_upload] ([services/processing/processing.py]), the finisher
    merges and decides on post-processing ([tasks/upload_finisher.py]).  Each
    event is one access to the shared state, so the runs of [step] are the
    interleavings of the tasks. *)
From S2P Require Export PyRe UserYaml.
From stdpp Require Export gmap fin_maps fin_sets.
#[local] Open Scope string_scope.
#[local] Open Scope Z_scope.
#[local] Open Scope list_scope.

Definition MERGE_BATCH_SIZE : Z := 10.

Record UploadNumbers : Set := mkNumbers { n_processing : Z; n_processed : Z }.

Definition should_perform_merge (u : UploadNumbers) : bool :=
  (n_processing u =? 0) || (MERGE_BATCH_SIZE <=? n_processed u).

Definition should_trigger_postprocessing (u : UploadNumbers) : bool :=
  (n_processing u =? 0) && (n_processed u =? 0).

Module ProcessingState.

(** The two sets of the commit, and the uploads counted by [CLEARED_UPLOADS]. *)
Record t : Type := mkState { processing : gset Z; processed : gset Z; cleared : gset Z }.

Definition empty : t := mkState ∅ ∅ ∅.

Definition scard (s : gset Z) : Z := Z.of_nat (size s).

Definition get_upload_numbers (st : t) : UploadNumbers :=
  mkNumbers (scard (processing st)) (scard (processed st)).

Definition mark_uploads_as_processing (upload_ids : list Z) (st : t) : t :=
  mkState (processing st ∪ list_to_set upload_ids) (processed st) (cleared st).

Definition clear_in_progress_uploads (upload_ids : list Z) (st : t) : t :=
  mkState (processing st ∖ list_to_set upload_ids) (processed st)
    (cleared st ∪ (processing st ∩ list_to_set upload_ids)).

(** [smove], or [sadd] when the upload was not in the first set. *)
Definition mark_upload_as_processed (upload_id : Z) (st : t) : t :=
  if decide (upload_id ∈ processing st)
  then mkState (processing st ∖ {[upload_id]}) (processed st ∪ {[upload_id]}) (cleared st)
  else mkState (processing st) (processed st ∪ {[upload_id]}) (cleared st).

Definition mark_uploads_as_merged (upload_ids : list Z) (st : t) : t :=
  mkState (processing st) (processed st ∖ list_to_set upload_ids) (cleared st).

(** [srandmember] of a set is any part of it of the size asked for. *)
Definition get_uploads_for_merging (srandmember : gset Z -> Z -> gset Z) (st : t) : gset Z :=
  srandmember (processed st) MERGE_BATCH_SIZE.
End ProcessingState.
Import ProcessingState.

(** ** The system of tasks *)

(** A processor: in the queue, at work, past [mark_upload_as_processed] with its
    result, returned, failed, or waiting to run again. *)
Inductive upload_status : Set :=
  | Queued | Retrying | Running | Stored (successful : bool) | Done (successful : bool) | Failed.

#[export] Instance upload_status_eq_dec : EqDecision upload_status.
Proof. solve_decision. Defined.

(** A finisher: before the merge, past it, past the marking, past the clean-up of
    the intermediate reports, past the first of the two counts, past the decision on
    post-processing, at work in the finisher lock, past it, given up because the lock
    was taken, or ended by an exception. *)
Inductive phase : Set :=
  | Waiting | Saved | Marked | Cleaned | Counted (processing : Z) | Decided (postprocessing : bool)
  | PostProcessing | PostProcessed | Dropped | Crashed.

#[export] Instance phase_eq_dec : EqDecision phase.
Proof. solve_decision. Defined.

Record world : Type := mkWorld {
  state : ProcessingState.t;
  uploads : gmap Z upload_status;
  batches : list (list Z * phase);
  intermediate : gset Z;
  updated : gset Z;
  master : gset Z;
}.

Definition init : world := mkWorld ProcessingState.empty ∅ [] ∅ ∅ ∅.

Inductive event : Type :=
  | Schedule (upload_ids : list Z)
  | Start (upload_id : Z)
  | Store (upload_id : Z) (successful : bool)
  | Return (upload_id : Z)
  | Fail (upload_id : Z)
  | Retry (upload_id : Z)
  | Merge (batch : nat)
  | Mark (batch : nat)
  | Cleanup (batch : nat)
  | CountProcessing (batch : nat)
  | CountProcessed (batch : nat)
  | Acquire (batch : nat)
  | Release (batch : nat)
  | Miss (batch : nat)
  | Crash (batch : nat).

Definition with_state (st : ProcessingState.t) (w : world) : world :=
  mkWorld st (uploads w) (batches w) (intermediate w) (updated w) (master w).
Definition with_upload (u : Z) (s : upload_status) (w : world) : world :=
  mkWorld (state w) (<[u := s]> (uploads w)) (batches w) (intermediate w) (updated w) (master w).
Definition with_phase (b : nat) (ids : list Z) (p : phase) (w : world) : world :=
  mkWorld (state w) (uploads w) (<[b := (ids, p)]> (batches w)) (intermediate w) (updated w) (master w).

Definition is_done (o : option upload_status) : bool := match o with Some (Done _) => true | _ => false end.
Definition is_successful (o : option upload_status) : bool := match o with Some (Done ok) => ok | _ => false end.

(** A finisher holds the lock of the report while it merges and marks. *)
Definition lock_free (w : world) : bool := forallb (fun b => negb (bool_decide (b.2 = Saved))) (batches w).

(** [upload_finisher_lock_...], held during the post-processing. *)
Definition finisher_lock_free (w : world) : bool :=
  forallb (fun b => negb (bool_decide (b.2 = PostProcessing))) (batches w).

(** [_schedule_coverage_processing_task]: a chord of processors and a finisher. *)
Definition schedule (upload_ids : list Z) (w : world) : option world :=
  if bool_decide (NoDup upload_ids /\ upload_ids <> []) &&
     forallb (fun u => bool_decide (uploads w !! u = None)) upload_ids then
    Some (mkWorld (mark_uploads_as_processing upload_ids (state w))
            (foldr (fun u m => <[u := Queued]> m) (uploads w) upload_ids)
            (batches w ++ [(upload_ids, Waiting)]) (intermediate w) (updated w) (master w))
  else None.

(** [process_upload]. *)
Definition process_step (e : event) (w : world) : option world :=
  match e with
  | Start u =>
      match uploads w !! u with
      | Some Queued | Some Retrying =>
          Some (with_upload u Running (with_state (mark_uploads_as_processing [u] (state w)) w))
      | _ => None
      end
  | Store u ok =>
      match uploads w !! u with
      | Some Running =>
          let w := if ok then mkWorld (state w) (uploads w) (batches w) (intermediate w ∪ {[u]}) (updated w) (master w)
                   else w in
          Some (with_upload u (Stored ok) (with_state (mark_upload_as_processed u (state w)) w))
      | _ => None
      end
  | Return u =>
      match uploads w !! u with
      | Some (Stored ok) => Some (with_upload u (Done ok) (with_state (clear_in_progress_uploads [u] (state w)) w))
      | _ => None
      end
  | Fail u =>
      match uploads w !! u with
      | Some Running | Some (Stored _) =>
          Some (with_upload u Failed (with_state (clear_in_progress_uploads [u] (state w)) w))
      | _ => None
      end
  | Retry u =>
      match uploads w !! u with
      | Some Running => Some (with_upload u Retrying (with_state (clear_in_progress_uploads [u] (state w)) w))
      | _ => None
      end
  | _ => None
  end.

(** [UploadFinisherTask.run_impl]: it starts when every processor has returned.  When
    it decides on post-processing, [_handle_finisher_lock] does it if it gets the lock,
    and gives it up for good ([Miss]) when another finisher holds the lock. *)
Definition finish_step (e : event) (w : world) : option world :=
  match e with
  | Merge b =>
      match batches w !! b with
      | Some (ids, Waiting) =>
          if forallb (fun u => is_done (uploads w !! u)) ids && lock_free w then
            let merged := filter (fun u => is_successful (uploads w !! u) = true) ids in
            Some (with_phase b ids Saved
              (mkWorld (state w) (uploads w) (batches w) (intermediate w)
                 (updated w ∪ list_to_set ids) (master w ∪ (list_to_set merged ∩ intermediate w))))
          else None
      | _ => None
      end
  | Mark b =>
      match batches w !! b with
      | Some (ids, Saved) => Some (with_phase b ids Marked (with_state (mark_uploads_as_merged ids (state w)) w))
      | _ => None
      end
  | Cleanup b =>
      match batches w !! b with
      | Some (ids, Marked) =>
          Some (with_phase b ids Cleaned
            (mkWorld (state w) (uploads w) (batches w) (intermediate w ∖ list_to_set ids) (updated w) (master w)))
      | _ => None
      end
  | CountProcessing b =>
      match batches w !! b with
      | Some (ids, Cleaned) => Some (with_phase b ids (Counted (scard (processing (state w)))) w)
      | _ => None
      end
  | CountProcessed b =>
      match batches w !! b with
      | Some (ids, Counted n) =>
          Some (with_phase b ids
            (Decided (should_trigger_postprocessing (mkNumbers n (scard (processed (state w)))))) w)
      | _ => None
      end
  | Acquire b =>
      match batches w !! b with
      | Some (ids, Decided true) => if finisher_lock_free w then Some (with_phase b ids PostProcessing w) else None
      | _ => None
      end
  | Release b =>
      match batches w !! b with
      | Some (ids, PostProcessing) => Some (with_phase b ids PostProcessed w)
      | _ => None
      end
  | Miss b =>
      match batches w !! b with
      | Some (ids, Decided true) => if finisher_lock_free w then None else Some (with_phase b ids Dropped w)
      | _ => None
      end
  | Crash b =>
      match batches w !! b with
      | Some (_, Decided false) | Some (_, PostProcessed) | Some (_, Dropped) | Some (_, Crashed) | None => None
      | Some (ids, _) =>
          if forallb (fun u => is_done (uploads w !! u)) ids then Some (with_phase b ids Crashed w) else None
      end
  | _ => None
  end.

Definition step (w : world) (e : event) : option world :=
  match e with
  | Schedule ids => schedule ids w
  | Start _ | Store _ _ | Return _ | Fail _ | Retry _ => process_step e w
  | _ => finish_step e w
  end.

Fixpoint run (w : world) (es : list event) : option world :=
  match es with [] => Some w | e :: es' => w' ← step w e; run w' es' end.

Definition reachable (w : world) : Prop := exists es, run init es = Some w.

(** ** What the last finisher schedules

    [finish_reports_processing] and the decision it rests on, as functions of the
    configuration, the results of the processors and what it reads of the commit. *)

(** [re.compile(r"\[(ci|skip| |-){3,}\]")] *)
Definition regexp_ci_skip : string -> bool :=
  let word := Alts [ExactLit "ci"; ExactLit "skip"; Exact " "; Exact "-"] in
  re_search (Cats [Exact "["; Rep 3 word; Star word; Exact "]"]).

Inductive ShouldCallNotifyResult : Set := DO_NOT_NOTIFY | NOTIFY_ERROR | NOTIFY.

(** [v or 0] compared as a number. *)
Definition builds (v : pyval) : result Z :=
  if truthy v then match v with VInt z => Ok z | VBool b => Ok (Z.b2z b) | VFloat _ => Err Unmodelled | _ => Err TypeError end
  else Ok 0.

(** [number_sessions] is [None] without a report. *)
Definition should_call_notifications (commit_yaml : pyval) (number_sessions : option Z) (successes : list bool)
    : result ShouldCallNotifyResult :=
  manual_trigger ← read_yaml_field commit_yaml ["codecov"; "notify"; "manual_trigger"] VNone;
  if truthy manual_trigger then Ok DO_NOT_NOTIFY
  else
    v ← read_yaml_field commit_yaml ["codecov"; "notify"; "after_n_builds"] VNone;
    after_n_builds ← builds v;
    if (0 <? after_n_builds) && (default 0 number_sessions <? after_n_builds) then Ok DO_NOT_NOTIFY
    else
      notify_error ← read_yaml_field commit_yaml ["codecov"; "notify"; "notify_error"] (VBool false);
      if truthy notify_error then
        Ok (if bool_decide (successes = []) || negb (forallb id successes) then NOTIFY_ERROR else NOTIFY)
      else Ok (if existsb id successes then NOTIFY else DO_NOT_NOTIFY).

(** The commit, its pull request with the head it has and whether there is a commit to
    compare with. *)
Record commit : Type := mkCommit {
  c_id : string; c_message : option string; c_timestamp : Z; c_pull : option (option (string * Z) * bool);
}.

Inductive task : Set := TNotify | TNotifyError | TPulls | TComputeComparison.

Definition pull_tasks (c : commit) : list task :=
  match c_pull c with
  | None => []
  | Some (head, compared_to) =>
      let new_head := match head with
                      | Some (h, ts) => if ts <=? c_timestamp c then c_id c else h
                      | None => c_id c
                      end in
      if String.eqb new_head (c_id c) then TPulls :: (if (compared_to : bool) then [TComputeComparison] else []) else []
  end.

(** The tasks that are scheduled, whether the commit is marked as skipped, and the
    result [notifications_called]. *)
Definition finish_reports_processing (c : commit) (commit_yaml : pyval) (number_sessions : option Z)
    (successes : list bool) : result (list task * bool * bool) :=
  if regexp_ci_skip (default "" (c_message c)) then Ok ([], true, false)
  else
    d ← should_call_notifications commit_yaml number_sessions successes;
    Ok match d with
       | NOTIFY => (TNotify :: pull_tasks c, false, true)
       | DO_NOT_NOTIFY => ([], false, false)
       | NOTIFY_ERROR => ([TNotifyError], false, false)
       end.

(** [services/lock_manager.py]: the wait before a task that missed a lock runs again;
    [r] is the random number drawn from [max_retry // 2] to [max_retry]. *)
Definition max_retry (retry_num : Z) : Z := 200 * 3 ^ retry_num.
Definition countdown (r : Z) : Z := Z.min r (60 * 60 * 5).

Inductive LockType : Set := BUNDLE_ANALYSIS_PROCESSING | BUNDLE_ANALYSIS_NOTIFY | NOTIFICATION.
Definition lock_value (t : LockType) : string :=
  match t with
  | BUNDLE_ANALYSIS_PROCESSING => "bundle_analysis_processing"
  | BUNDLE_ANALYSIS_NOTIFY => "bundle_analysis_notify"
  | NOTIFICATION => "notify"
  end.
(** [report_type] is [None] for coverage. *)
Definition lock_name (t : LockType) (repoid : Z) (commitid : string) (report_type : option string) : string :=
  lock_value t +:+ "_lock_" +:+ str_of_Z repoid +:+ "_" +:+ commitid +:+
  match report_type with None => "" | Some r => "_" +:+ r end.

(** ** Lemmas: the invariant of the system *)

Definition settled (p : phase) : bool :=
  match p with
  | Waiting | Saved | Crashed => false
  | _ => true
  end.
Definition saved (p : phase) : bool := settled p || bool_decide (p = Saved).

(** Where an upload of the commit is: in one of the sets, in the report, or counted
    as cleared. *)
Definition accounted (w : world) (u : Z) : Prop :=
  u ∈ processing (state w) \/ u ∈ processed (state w) \/ u ∈ updated w \/ u ∈ cleared (state w).

Definition past_processing (s : upload_status) : bool := match s with Stored _ | Done _ => true | _ => false end.
Definition stored_ok (s : upload_status) : bool := match s with Stored ok | Done ok => ok | _ => false end.

Record inv (w : world) : Prop := {
  inv_accounted : forall u, is_Some (uploads w !! u) <-> accounted w u;
  inv_past : forall u s, uploads w !! u = Some s -> past_processing s = true -> u ∉ processing (state w);
  inv_stored : forall u s, uploads w !! u = Some s -> stored_ok s = true -> u ∈ intermediate w \/ u ∈ master w;
  inv_batch : forall u, is_Some (uploads w !! u) <-> exists b ids p, batches w !! b = Some (ids, p) /\ u ∈ ids;
  inv_disjoint : forall b b' ids ids' p p' u,
    batches w !! b = Some (ids, p) -> batches w !! b' = Some (ids', p') -> u ∈ ids -> u ∈ ids' -> b = b';
  inv_saved : forall b ids p u, batches w !! b = Some (ids, p) -> saved p = true -> u ∈ ids ->
    is_done (uploads w !! u) = true /\ u ∈ updated w /\ (settled p = true -> u ∉ processed (state w));
  inv_updated : forall u, u ∈ updated w ->
    is_done (uploads w !! u) = true /\ (is_successful (uploads w !! u) = true -> u ∈ master w);
}.

Lemma inv_init : inv init.
Proof.
  split; unfold accounted; cbn.
  - intros u. rewrite lookup_empty. split; [by intros [? ?] | set_solver].
  - intros u s. by rewrite lookup_empty.
  - intros u s. by rewrite lookup_empty.
  - intros u. rewrite lookup_empty. split; [by intros [? ?] | intros (b & ids & p & E & _)]. by rewrite lookup_nil in E.
  - intros b b' ids ids' p p' u E. by rewrite lookup_nil in E.
  - intros b ids p u E. by rewrite lookup_nil in E.
  - intros u Hu. set_solver.
Qed.

(** A step of the processor of one upload, which has not returned. *)
Lemma inv_processor w u s s' st' inter :
  inv w -> uploads w !! u = Some s -> is_done (Some s) = false ->
  (forall v, v <> u -> (v ∈ processing st' <-> v ∈ processing (state w)) /\
     (v ∈ processed st' <-> v ∈ processed (state w)) /\ (v ∈ cleared st' <-> v ∈ cleared (state w))) ->
  (u ∈ processing st' \/ u ∈ processed st' \/ u ∈ updated w \/ u ∈ cleared st') ->
  (past_processing s' = true -> u ∉ processing st') ->
  intermediate w ⊆ inter -> (stored_ok s' = true -> u ∈ inter \/ u ∈ master w) ->
  inv (mkWorld st' (<[u := s']> (uploads w)) (batches w) inter (updated w) (master w)).
Proof.
  intros I Hu Hnd Hother Hacc Hpast Hsub Hst.
  assert (Hnu : u ∉ updated w).
  { intros Hin. apply (inv_updated _ I) in Hin as [Hd _]. rewrite Hu in Hd. congruence. }
  split; cbn.
  - intros v. unfold accounted. cbn. destruct (decide (v = u)) as [->|Hne].
    + rewrite lookup_insert, decide_True by done. split; [done | by eexists].
    + rewrite lookup_insert_ne by done. rewrite (inv_accounted _ I). unfold accounted.
      destruct (Hother v Hne) as (-> & -> & ->). done.
  - intros v t. destruct (decide (v = u)) as [->|Hne].
    + rewrite lookup_insert, decide_True by done. intros [= <-]. apply Hpast.
    + rewrite lookup_insert_ne by done. intros Hv Ht. destruct (Hother v Hne) as (-> & _). by apply (inv_past _ I v t).
  - intros v t. destruct (decide (v = u)) as [->|Hne].
    + rewrite lookup_insert, decide_True by done. intros [= <-]. apply Hst.
    + rewrite lookup_insert_ne by done. intros Hv Ht. destruct (inv_stored _ I v t Hv Ht); [left; by apply Hsub | by right].
  - intros v. rewrite <- (inv_batch _ I). rewrite lookup_insert_is_Some'. split; [|by right]. intros [->|]; [by eexists | done].
  - apply (inv_disjoint _ I).
  - intros b ids p v Hb Hp Hv. destruct (inv_saved _ I _ _ _ _ Hb Hp Hv) as (Hd & Hup & Hpr).
    destruct (decide (v = u)) as [->|Hne]; [done|]. rewrite lookup_insert_ne by done.
    destruct (Hother v Hne) as (_ & -> & _). done.
  - intros v Hv. destruct (decide (v = u)) as [->|Hne]; [done|]. rewrite lookup_insert_ne by done.
    by apply (inv_updated _ I).
Qed.

Lemma inv_process w e w' : inv w -> process_step e w = Some w' -> inv w'.
Proof.
  intros I. destruct e as [ |u|u ok|u|u|u| | | | | | | | | ]; try discriminate; cbn [process_step];
    destruct (uploads w !! u) as [s|] eqn:Hu; try discriminate.
  - assert (Hs : past_processing s = false /\ is_done (Some s) = false \/ past_processing s = true)
      by (destruct s; auto).
    intros Hstep.
    assert (E : (s = Queued \/ s = Retrying) /\
      w' = with_upload u Running (with_state (mark_uploads_as_processing [u] (state w)) w)).
    { destruct s; try discriminate Hstep; injection Hstep as <-; auto. }
    destruct E as [Hqr ->]. unfold with_upload, with_state. cbn.
    apply (inv_processor w u s); [done | done | by destruct Hqr as [->| ->] | | | done | done | done]; cbn; set_solver.
  - destruct s; try discriminate. intros [= <-]. unfold with_upload, with_state, mark_upload_as_processed.
    replace (state (if ok then _ else w)) with (state w) by by destruct ok.
    replace (uploads (if ok then _ else w)) with (uploads w) by by destruct ok.
    replace (batches (if ok then _ else w)) with (batches w) by by destruct ok.
    replace (updated (if ok then _ else w)) with (updated w) by by destruct ok.
    replace (master (if ok then _ else w)) with (master w) by by destruct ok.
    destruct (decide (u ∈ processing (state w))) as [Hp|Hp]; cbn;
      (apply (inv_processor w u Running); [done | done | done | cbn; set_solver.. | by destruct ok; cbn; set_solver |]);
      destruct ok; cbn; set_solver.
  - destruct s as [| | |ok|ok|]; try discriminate. intros [= <-]. unfold with_upload, with_state. cbn.
    pose proof (inv_past _ I _ _ Hu eq_refl) as Hp.
    pose proof (proj1 (inv_accounted _ I u) ltac:(by eexists)) as Ha. unfold accounted in Ha.
    apply (inv_processor w u (Stored ok)); [done | done | done | cbn; set_solver.. | done |].
    intros Hok. by apply (inv_stored _ I _ _ Hu).
  - intros Hstep.
    assert (E : (s = Running \/ exists ok, s = Stored ok) /\
      w' = with_upload u Failed (with_state (clear_in_progress_uploads [u] (state w)) w)).
    { destruct s; try discriminate Hstep; injection Hstep as <-; eauto. }
    destruct E as [Hs ->]. unfold with_upload, with_state. cbn.
    pose proof (proj1 (inv_accounted _ I u) ltac:(by eexists)) as Ha. unfold accounted in Ha.
    apply (inv_processor w u s); [done | done | by destruct Hs as [->|[? ->]] | cbn; set_solver.. | done | done].
  - destruct s; try discriminate. intros [= <-]. unfold with_upload, with_state. cbn.
    pose proof (proj1 (inv_accounted _ I u) ltac:(by eexists)) as Ha. unfold accounted in Ha.
    apply (inv_processor w u Running); [done | done | done | cbn; set_solver.. | done | done].
Qed.

Lemma forallb_in {A} (f : A -> bool) l x : forallb f l = true -> x ∈ l -> f x = true.
Proof. intros H Hx. rewrite forallb_forall in H. apply H. by apply list_elem_of_In. Qed.

(** A step of the finisher of a batch. *)
Lemma inv_finisher w b ids p p' st' inter upd mas :
  inv w -> batches w !! b = Some (ids, p) ->
  processing st' = processing (state w) -> cleared st' = cleared (state w) ->
  (forall u, u ∈ processed st' -> u ∈ processed (state w)) ->
  (forall u, u ∈ processed (state w) -> u ∈ processed st' \/ u ∈ upd) ->
  updated w ⊆ upd -> (forall u, u ∈ upd -> u ∈ updated w \/ u ∈ ids) -> master w ⊆ mas ->
  (forall u s, uploads w !! u = Some s -> stored_ok s = true -> u ∈ intermediate w -> u ∈ inter \/ u ∈ mas) ->
  (forall u, u ∈ upd -> is_done (uploads w !! u) = true /\ (is_successful (uploads w !! u) = true -> u ∈ mas)) ->
  (saved p' = true -> forall u, u ∈ ids -> u ∈ upd /\ (settled p' = true -> u ∉ processed st')) ->
  inv (mkWorld st' (uploads w) (<[b := (ids, p')]> (batches w)) inter upd mas).
Proof.
  intros I Hb Epg Ecl Hpd1 Hpd2 Hup1 Hup2 Hmas Hst Hupd Hsaved.
  assert (Hlen : (b < length (batches w))%nat) by by eapply lookup_lt_Some.
  assert (Hlook : forall b0 ids0 p0, <[b := (ids, p')]> (batches w) !! b0 = Some (ids0, p0) ->
    (b0 = b /\ ids0 = ids /\ p0 = p' \/ batches w !! b0 = Some (ids0, p0)) /\ exists q, batches w !! b0 = Some (ids0, q)).
  { intros b0 ids0 p0 E. destruct (decide (b0 = b)) as [->|Hne].
    - rewrite list_lookup_insert_eq in E by done. injection E as <- <-. split; [by left | by exists p].
    - rewrite list_lookup_insert_ne in E by done. split; [by right | by exists p0]. }
  split; cbn.
  - intros u. rewrite (inv_accounted _ I). unfold accounted. cbn. rewrite Epg, Ecl. split.
    + intros [?|[Hp|[?|?]]]; auto. destruct (Hpd2 u Hp); auto.
    + intros [?|[Hp|[Hu|?]]]; auto. destruct (Hup2 u Hu) as [?|Hi]; auto.
      apply (inv_accounted _ I), (inv_batch _ I). by exists b, ids, p.
  - rewrite Epg. apply (inv_past _ I).
  - intros u s Hu Hs. destruct (inv_stored _ I u s Hu Hs) as [Hi|Hm]; [by apply (Hst u s) | right; by apply Hmas].
  - intros u. rewrite (inv_batch _ I). split; intros (b0 & ids0 & p0 & E & Hu).
    + destruct (decide (b0 = b)) as [->|Hne].
      * rewrite Hb in E. injection E as <- <-. exists b, ids, p'. by rewrite list_lookup_insert_eq.
      * exists b0, ids0, p0. by rewrite list_lookup_insert_ne.
    + apply Hlook in E as (_ & q & E). by exists b0, ids0, q.
  - intros b1 b2 ids1 ids2 p1 p2 u E1 E2. apply Hlook in E1 as (_ & q1 & E1). apply Hlook in E2 as (_ & q2 & E2).
    by apply (inv_disjoint _ I _ _ _ _ _ _ _ E1 E2).
  - intros b0 ids0 p0 u E Hs Hu. apply Hlook in E as ([(-> & -> & ->)|E] & _).
    + destruct (Hsaved Hs u Hu) as [H1 H2]. destruct (Hupd u H1). auto.
    + destruct (inv_saved _ I _ _ _ _ E Hs Hu) as (H1 & H2 & H3). split_and!; [done | by apply Hup1 |]. intros Hp Hin. by apply (H3 Hp), Hpd1.
  - apply Hupd.
Qed.

(** A step that only changes the phase of a finisher. *)
Lemma inv_phase w b ids p p' :
  inv w -> batches w !! b = Some (ids, p) -> (saved p' = true -> saved p = true) ->
  (settled p' = true -> settled p = true) -> inv (with_phase b ids p' w).
Proof.
  intros I Hb H1 H2. apply (inv_finisher w b ids p); auto; [by apply (inv_updated _ I)|].
  intros Hs u Hu. destruct (inv_saved _ I _ _ _ _ Hb (H1 Hs) Hu) as (_ & ? & ?). auto.
Qed.

Lemma inv_finish w e w' : inv w -> finish_step e w = Some w' -> inv w'.
Proof.
  intros I. destruct e as [ | | | | | |b|b|b|b|b|b|b|b|b]; try discriminate; cbn [finish_step];
    destruct (batches w !! b) as [[ids p]|] eqn:Hb; try discriminate.
  - destruct p; try discriminate. destruct (forallb _ ids && lock_free w) eqn:G; [|discriminate].
    apply andb_true_iff in G as [Hdone _]. intros [= <-].
    apply (inv_finisher w b ids Waiting); auto; [set_solver.. | |].
    + intros u [Hu|Hu]%elem_of_union; [destruct (inv_updated _ I u Hu) as [? ?]; split; [done | set_solver]|].
      apply elem_of_list_to_set in Hu. split; [by apply (forallb_in _ _ u Hdone)|]. intros Hs.
      destruct (uploads w !! u) as [s|] eqn:E; [|done].
      destruct (inv_stored _ I u s E) as [Hi|Hm]; [by destruct s | | set_solver].
      apply elem_of_union_r, elem_of_intersection. split; [|done]. apply elem_of_list_to_set, list_elem_of_filter.
      by rewrite E.
    + intros _ u Hu. split; [set_solver | done].
  - destruct p; try discriminate. intros [= <-].
    assert (Hsv : forall u, u ∈ ids -> u ∈ updated w).
    { intros u Hu. by destruct (inv_saved _ I _ _ _ u Hb eq_refl Hu) as (_ & ? & _). }
    apply (inv_finisher w b ids Saved); cbn; auto; [set_solver | | by apply (inv_updated _ I) |].
    + intros u Hu. destruct (decide (u ∈ ids)); [right; auto | left; set_solver].
    + intros _ u Hu. split; [auto | set_solver].
  - destruct p; try discriminate. intros [= <-].
    assert (Hsv : forall u, u ∈ ids -> u ∈ updated w /\ u ∉ processed (state w)).
    { intros u Hu. destruct (inv_saved _ I _ _ _ u Hb eq_refl Hu) as (_ & ? & ?). auto. }
    apply (inv_finisher w b ids Marked); cbn; auto; [| by apply (inv_updated _ I) |].
    + intros u s Hu Hs Hi. destruct (decide (u ∈ ids)) as [Hids|]; [right | left; set_solver].
      apply (inv_updated _ I); [by apply Hsv|]. rewrite Hu.
      destruct (inv_saved _ I _ _ _ u Hb eq_refl Hids) as (Hd & _). rewrite Hu in Hd. by destruct s.
    + intros _ u Hu. split; [by apply Hsv | intros _; by apply Hsv].
  - destruct p; try discriminate. intros [= <-]. by eapply inv_phase.
  - destruct p; try discriminate. intros [= <-]. by eapply inv_phase.
  - destruct p as [| | | | |[]| | | |]; try discriminate. destruct (finisher_lock_free w); [|discriminate].
    intros [= <-]. by eapply inv_phase.
  - destruct p; try discriminate. intros [= <-]. by eapply inv_phase.
  - destruct p as [| | | | |[]| | | |]; try discriminate. destruct (finisher_lock_free w); [discriminate|].
    intros [= <-]. by eapply inv_phase.
  - intros Hstep. assert (E : w' = with_phase b ids Crashed w).
    { destruct p as [| | | | |[]| | | |]; try discriminate Hstep; destruct (forallb _ ids); congruence. }
    subst w'. by eapply inv_phase.
Qed.

Lemma schedule_uploads (ids : list Z) (m : gmap Z upload_status) (u : Z) :
  foldr (fun u m => <[u := Queued]> m) m ids !! u = if decide (u ∈ ids) then Some Queued else m !! u.
Proof.
  induction ids as [|v ids IH]; cbn; [by rewrite decide_False by apply not_elem_of_nil|].
  destruct (decide (u = v)) as [->|Hne].
  - rewrite lookup_insert, !decide_True by (done || left). done.
  - rewrite lookup_insert_ne, IH by done. destruct (decide (u ∈ ids)).
    + by rewrite decide_True by by right.
    + rewrite decide_False; [done|]. set_solver.
Qed.

Lemma inv_schedule ids w w' : inv w -> schedule ids w = Some w' -> inv w'.
Proof.
  intros I. unfold schedule. destruct (bool_decide _ && _) eqn:G; [|discriminate]. intros [= <-].
  apply andb_true_iff in G as [_ Hfresh].
  assert (Hnew : forall u, u ∈ ids -> uploads w !! u = None).
  { intros u Hu. by apply (bool_decide_eq_true_1 _ (forallb_in _ _ u Hfresh Hu)). }
  assert (Hnacc : forall u, u ∈ ids -> ~ accounted w u).
  { intros u Hu Ha. apply (inv_accounted _ I) in Ha. rewrite (Hnew u Hu) in Ha. by destruct Ha. }
  assert (Hnb : forall u b ids' p, u ∈ ids -> batches w !! b = Some (ids', p) -> u ∉ ids').
  { intros u b ids' p Hu Hb Hin. assert (Hs : is_Some (uploads w !! u)) by (apply (inv_batch _ I); eauto).
    rewrite (Hnew u Hu) in Hs. by destruct Hs. }
  assert (Hlook : forall b ids0 p0, (batches w ++ [(ids, Waiting)]) !! b = Some (ids0, p0) <->
    batches w !! b = Some (ids0, p0) \/ b = length (batches w) /\ ids0 = ids /\ p0 = Waiting).
  { intros b ids0 p0. rewrite lookup_app_Some, list_lookup_singleton_Some. split.
    - intros [?|[Hge [Hz [= <- <-]]]]; [by left|]. right. split_and!; [lia | done | done].
    - intros [E|(-> & -> & ->)]; [by left | right]. split; [lia | by rewrite Nat.sub_diag]. }
  split; cbn.
  - intros u. rewrite schedule_uploads. unfold accounted. cbn. destruct (decide (u ∈ ids)) as [Hu|Hu].
    + split; [set_solver | by eexists].
    + rewrite (inv_accounted _ I). unfold accounted. set_solver.
  - intros u s. rewrite schedule_uploads. destruct (decide (u ∈ ids)); [by intros [= <-]|]. intros Hu Hs.
    pose proof (inv_past _ I u s Hu Hs). set_solver.
  - intros u s. rewrite schedule_uploads. destruct (decide (u ∈ ids)); [by intros [= <-]|]. apply (inv_stored _ I).
  - intros u. rewrite schedule_uploads. destruct (decide (u ∈ ids)) as [Hu|Hu].
    + split; [intros _ | by eexists]. exists (length (batches w)), ids, Waiting. rewrite Hlook. auto.
    + rewrite (inv_batch _ I). split; intros (b & ids0 & p0 & E & Hin).
      * exists b, ids0, p0. rewrite Hlook. auto.
      * apply Hlook in E as [E|(-> & -> & ->)]; [eauto | done].
  - intros b b' ids1 ids2 p1 p2 u [E1|(-> & -> & ->)]%Hlook [E2|(-> & -> & ->)]%Hlook H1 H2; [| | |done].
    + by apply (inv_disjoint _ I _ _ _ _ _ _ _ E1 E2 H1).
    + by destruct (Hnb _ _ _ _ H2 E1).
    + by destruct (Hnb _ _ _ _ H1 E2).
  - intros b ids0 p0 u [E|(-> & -> & ->)]%Hlook Hs Hu; [|done].
    rewrite schedule_uploads, decide_False by (intros Hin; by destruct (Hnb _ _ _ _ Hin E)).
    by apply (inv_saved _ I _ _ _ _ E).
  - intros u Hu. rewrite schedule_uploads, decide_False.
    + by apply (inv_updated _ I).
    + intros Hin. apply (Hnacc u Hin). unfold accounted. auto.
Qed.

Lemma inv_step w e w' : inv w -> step w e = Some w' -> inv w'.
Proof.
  intros I. destruct e; cbn [step];
    first [by apply inv_schedule | by apply inv_process | by apply inv_finish].
Qed.

Lemma run_app w es1 es2 : run w (es1 ++ es2) = (w' ← run w es1; run w' es2).
Proof. revert w. induction es1 as [|e es1 IH]; intros w; cbn; [done|]. destruct (step w e); cbn; auto. Qed.

Lemma inv_run w es w' : inv w -> run w es = Some w' -> inv w'.
Proof.
  revert w. induction es as [|e es IH]; intros w I; cbn; [by intros [= <-]|].
  destruct (step w e) as [w1|] eqn:E; [|discriminate]. cbn. apply IH. by apply (inv_step w e).
Qed.

Lemma inv_reachable w : reachable w -> inv w.
Proof. intros [es Hes]. by apply (inv_run _ _ _ inv_init Hes). Qed.

(** *** An upload that left processing is never lost sight of *)

Definition past (w : world) (u : Z) : Prop :=
  u ∈ processed (state w) \/ u ∈ updated w \/ u ∈ cleared (state w).

Ltac step_cases H :=
  unfold step, schedule, process_step, finish_step in H; repeat (case_match; try discriminate H);
  injection H as <-; subst.

Lemma past_step w e w' u : inv w -> step w e = Some w' -> past w u -> past w' u.
Proof.
  intros I Hstep. unfold past. destruct e; step_cases Hstep; cbn; unfold mark_upload_as_processed;
    try case_decide; cbn; try set_solver.
  match goal with Hb : batches w !! _ = Some (?ids, Saved) |- _ => intros [Hp|Hp]; [|by right];
    destruct (decide (u ∈ ids)) as [Hu|Hu]; [destruct (inv_saved _ I _ _ _ u Hb eq_refl Hu) as (_ & ? & _)|] end;
    set_solver.
Qed.

Lemma past_run w es w' u : inv w -> run w es = Some w' -> past w u -> past w' u.
Proof.
  revert w. induction es as [|e es IH]; intros w I; cbn; [by intros [= <-]|].
  destruct (step w e) as [w1|] eqn:E; [|discriminate]. cbn. intros Hrun Hp.
  apply (IH w1); [by apply (inv_step w e) | done | by apply (past_step w e)].
Qed.

(** What the first count of a finisher is, once read. *)
Definition counted_phase (n : Z) (p : phase) : Prop :=
  match p with
  | Counted m => m = n
  | Decided _ | PostProcessing | PostProcessed | Dropped | Crashed => True
  | _ => False
  end.
Definition counted (b : nat) (ids : list Z) (n : Z) (w : world) : Prop :=
  exists p, batches w !! b = Some (ids, p) /\ counted_phase n p.

Lemma counted_step b ids n w e w' : step w e = Some w' -> counted b ids n w -> counted b ids n w'.
Proof.
  intros Hstep (p & Hb & Hp). unfold counted. assert (Hlen : (b < length (batches w))%nat) by by eapply lookup_lt_Some.
  destruct e as [ | | | | | |b'|b'|b'|b'|b'|b'|b'|b'|b']; step_cases Hstep; cbn; try (by eexists; split; [eassumption|]);
    try (destruct (decide (b = b')) as [<-|];
      [rewrite list_lookup_insert_eq by done | rewrite list_lookup_insert_ne by done; by eexists; split; [eassumption|]];
      simplify_eq; by eexists; split; [reflexivity|]).
  eexists. split; [|exact Hp]. by rewrite lookup_app_l.
Qed.

Lemma counted_run b ids n w es w' : run w es = Some w' -> counted b ids n w -> counted b ids n w'.
Proof.
  revert w. induction es as [|e es IH]; intros w; cbn; [by intros [= <-]|].
  destruct (step w e) as [w1|] eqn:E; [|discriminate]. cbn. intros Hrun Hc. by apply (IH w1), (counted_step b ids n w e).
Qed.

Lemma scard_zero s : scard s = 0 -> s = ∅.
Proof. unfold scard. intros H. apply leibniz_equiv, size_empty_inv. lia. Qed.

(** C7: Post-processing is triggered from two counts that are not read at once.  Whatever
    the other tasks do in between, every upload that was scheduled when the finisher
    read the first count is in the saved report, if it was processed with success, or
    its failure is recorded, or it was cleared because of an error. *)
Theorem trigger_complete w1 b w2 es w3 w4 ids :
  reachable w1 -> step w1 (CountProcessing b) = Some w2 -> run w2 es = Some w3 ->
  step w3 (CountProcessed b) = Some w4 -> batches w4 !! b = Some (ids, Decided true) ->
  forall u, is_Some (uploads w1 !! u) ->
    u ∈ cleared (state w4) \/
    (u ∈ updated w4 /\ is_done (uploads w4 !! u) = true /\ (is_successful (uploads w4 !! u) = true -> u ∈ master w4)).
Proof.
  intros Hr H1 Hes H4 Hb4 u Hu. pose proof (inv_reachable _ Hr) as I1.
  pose proof (inv_step _ _ _ I1 H1) as I2. pose proof (inv_run _ _ _ I2 Hes) as I3.
  pose proof (inv_step _ _ _ I3 H4) as I4.
  assert (Hc : exists ids', counted b ids' (scard (processing (state w1))) w2).
  { step_cases H1. unfold counted. cbn. eexists _, _. split; [apply list_lookup_insert_eq; by eapply lookup_lt_Some | done]. }
  destruct Hc as [ids' Hc]. apply (counted_run _ _ _ _ _ _ Hes) in Hc as (p & Hb3 & Hp).
  assert (Hz : scard (processing (state w1)) = 0 /\ scard (processed (state w3)) = 0).
  { step_cases H4. cbn in Hb4. rewrite list_lookup_insert_eq in Hb4 by (by eapply lookup_lt_Some).
    simplify_eq. unfold should_trigger_postprocessing in *. cbn in *.
    match goal with E : _ = true |- _ => apply andb_true_iff in E as [E1 E2] end. lia. }
  destruct Hz as [Hz1%scard_zero Hz2%scard_zero].
  assert (Hpast : past w3 u).
  { apply (past_run w2 es); [done | done |]. apply (past_step w1 (CountProcessing b)); [done | done |].
    apply (inv_accounted _ I1) in Hu. unfold accounted in Hu. rewrite Hz1 in Hu. unfold past. set_solver. }
  apply (past_step w3 (CountProcessed b)) with (w' := w4) in Hpast; [|done|done].
  assert (Hz4 : processed (state w4) = ∅) by (step_cases H4; cbn; done).
  unfold past in Hpast. rewrite Hz4 in Hpast.
  destruct Hpast as [Hx|[Hup|Hcl]]; [set_solver | right | by left].
  split; [done|]. by apply (inv_updated _ I4).
Qed.

(** *** Some finisher triggers *)

Definition all_settled (w : world) : Prop := forall b ids p, batches w !! b = Some (ids, p) -> settled p = true.

(** When all batches are marked, both sets are empty. *)
Lemma settled_empty w : inv w -> all_settled w -> scard (processing (state w)) = 0 /\ scard (processed (state w)) = 0.
Proof.
  intros I Hall.
  assert (H : forall u, u ∉ processing (state w) /\ u ∉ processed (state w)).
  { intros u. destruct (uploads w !! u) as [s|] eqn:Hu.
    - destruct (proj1 (inv_batch _ I u) ltac:(by eexists)) as (b & ids & p & Hb & Hin).
      assert (Hs : saved p = true) by (unfold saved; by rewrite (Hall _ _ _ Hb)).
      destruct (inv_saved _ I _ _ _ _ Hb Hs Hin) as (Hd & _ & Hpr). split; [|by apply Hpr, (Hall _ _ _ Hb)].
      apply (inv_past _ I u s Hu). rewrite Hu in Hd. by destruct s.
    - split; intros Hin; assert (Hs : is_Some (uploads w !! u)) by (apply (inv_accounted _ I); unfold accounted; auto);
        rewrite Hu in Hs; by destruct Hs. }
  unfold scard. split; (replace 0 with (Z.of_nat (size (∅ : gset Z))) by by rewrite size_empty);
    do 2 f_equal; apply leibniz_equiv; set_solver.
Qed.

Lemma settled_back w b ids p p' :
  batches w !! b = Some (ids, p) -> settled p = true ->
  (forall b0 ids0 p0, <[b := (ids, p')]> (batches w) !! b0 = Some (ids0, p0) -> settled p0 = true) -> all_settled w.
Proof.
  intros Hb Hp Hall b0 ids0 p0 E. destruct (decide (b0 = b)) as [->|Hne].
  - rewrite Hb in E. by injection E as <- <-.
  - apply (Hall b0 ids0). by rewrite list_lookup_insert_ne.
Qed.

Lemma process_batches w e w' : process_step e w = Some w' -> batches w' = batches w.
Proof.
  destruct e; cbn; intros Hstep; try discriminate Hstep; repeat (case_match; try discriminate Hstep);
    by injection Hstep as <-.
Qed.

Definition is_mark (e : event) : bool := match e with Mark _ => true | _ => false end.

(** What was settled after a step other than a marking was settled before it. *)
Lemma all_settled_back w e w' : is_mark e = false -> step w e = Some w' -> all_settled w' -> all_settled w.
Proof.
  intros He Hstep Hall. destruct e as [ids|u|u ok|u|u|u|b|b|b|b|b|b|b|b|b]; try discriminate He; cbn [step] in Hstep;
    try (pose proof (process_batches _ _ _ Hstep) as E; unfold all_settled in *; by rewrite E in Hall);
    unfold all_settled in Hall; step_cases Hstep; cbn in Hall; try (by eapply settled_back);
    exfalso;
    [ assert (E : settled Waiting = true) by (apply (Hall (length (batches w)) ids); by rewrite lookup_app_r, Nat.sub_diag)
    | match goal with Hb : batches w !! b = _ |- _ => pose proof (lookup_lt_Some _ _ _ Hb) as Hlen end;
      match type of Hall with context [<[b := (?i, ?p)]> _] =>
        assert (E : settled p = true) by (apply (Hall b i); by apply list_lookup_insert_eq) end .. ]; discriminate E.
Qed.

Lemma all_settled_run w es w' :
  Forall (fun e => is_mark e = false) es -> run w es = Some w' -> all_settled w' -> all_settled w.
Proof.
  intros Hes. revert w. induction Hes as [|e es He _ IH]; intros w; cbn; [by intros [= <-]|].
  destruct (step w e) as [w1|] eqn:E; [|discriminate]. cbn. intros Hrun Hall.
  apply (all_settled_back w e w1); [done | done | by apply IH].
Qed.

(** The last marking of a run. *)
Lemma last_mark es :
  Forall (fun e => is_mark e = false) es \/
  exists es1 c es2, es = es1 ++ Mark c :: es2 /\ Forall (fun e => is_mark e = false) es2.
Proof.
  induction es as [|e es [IH|(es1 & c & es2 & -> & Hes)]].
  - by left.
  - destruct (is_mark e) eqn:He; [|left; by constructor]. destruct e; try discriminate He. right. by exists [], batch, es.
  - right. by exists (e :: es1), c, es2.
Qed.

(** The phase of a finisher after a step: the next one of its own, or as before. *)
Definition acts (e : event) (b : nat) : Prop :=
  match e with
  | Merge c | Mark c | Cleanup c | CountProcessing c | CountProcessed c | Acquire c | Release c | Miss c | Crash c => c = b
  | _ => False
  end.
#[export] Instance acts_dec e b : Decision (acts e b).
Proof. destruct e; cbn; apply _. Defined.

Lemma phase_kept w e w' b ids p :
  step w e = Some w' -> ~ acts e b -> batches w !! b = Some (ids, p) -> batches w' !! b = Some (ids, p).
Proof.
  intros Hstep Ha Hb. destruct e as [ids'|u|u ok|u|u|u|c|c|c|c|c|c|c|c|c]; cbn [step acts] in *;
    try (by rewrite (process_batches _ _ _ Hstep)); step_cases Hstep; cbn; rewrite ?list_lookup_insert_ne by done; try done.
  by rewrite lookup_app_l by (by eapply lookup_lt_Some).
Qed.

(** The end of a finisher that is not an exception. *)
Definition ended (p : phase) : Prop := p = Decided false \/ p = PostProcessed \/ p = Dropped.

Lemma terminal_run w es w' b ids p :
  run w es = Some w' -> batches w !! b = Some (ids, p) -> ended p \/ p = Crashed -> batches w' !! b = Some (ids, p).
Proof.
  intros Hrun Hb Hp. revert w Hrun Hb. induction es as [|e es IH]; intros w; cbn; [by intros [= <-]|].
  destruct (step w e) as [w1|] eqn:E; [|discriminate]. cbn. intros Hr Hb. apply (IH w1); [done|].
  destruct (decide (acts e b)) as [Ha|Ha]; [|by eapply phase_kept].
  destruct e; cbn in Ha; try contradiction; subst; unfold step, finish_step in E; rewrite Hb in E;
    by destruct Hp as [[-> | [-> | ->]] | ->].
Qed.

(** A finisher that misses its lock misses it to another one. *)
Lemma lock_taken w b ids p :
  finisher_lock_free w = false -> batches w !! b = Some (ids, p) -> p <> PostProcessing ->
  exists b' ids', b' <> b /\ batches w !! b' = Some (ids', PostProcessing).
Proof.
  unfold finisher_lock_free. intros Hlock Hb Hp. apply not_true_iff_false in Hlock.
  destruct (decide (Exists (fun q => q.2 = PostProcessing) (batches w))) as [Hex|Hno].
  - apply Exists_exists in Hex as ([ids' q] & (b' & Hl)%list_elem_of_lookup & Hq). cbn in Hq. subst q.
    exists b', ids'. split; [congruence | done].
  - destruct Hlock. apply forallb_forall. intros q Hq. apply negb_true_iff, bool_decide_eq_false. intros Eq.
    apply Hno, Exists_exists. exists q. split; [by apply list_elem_of_In | done].
Qed.

(** A finisher that decided on post-processing has done it in the end, unless it found
    the lock taken by another finisher. *)
Definition lost_to_another (w : world) (es : list event) (b : nat) : Prop :=
  exists es1 es2 b' ids w1, es = es1 ++ Miss b :: es2 /\ run w es1 = Some w1 /\
    b' <> b /\ batches w1 !! b' = Some (ids, PostProcessing).

Lemma decided_ends w es w' b ids p p' ids' :
  run w es = Some w' -> batches w !! b = Some (ids, p) -> p = Decided true \/ p = PostProcessing ->
  batches w' !! b = Some (ids', p') -> ended p' ->
  p' = PostProcessed \/ p' = Dropped /\ lost_to_another w es b.
Proof.
  intros Hrun Hb Hp Hb' Hend. revert w p Hrun Hb Hp. induction es as [|e es IH]; intros w p; cbn.
  { intros [= <-] Hb. rewrite Hb in Hb'. injection Hb' as <- <-. destruct Hend as [-> | [-> | ->]]; intuition discriminate. }
  destruct (step w e) as [w1|] eqn:Hstep; [|discriminate]. cbn. intros Hrun Hb Hp.
  assert (Hlen : (b < length (batches w))%nat) by by eapply lookup_lt_Some.
  assert (Hnext : forall q, batches w1 !! b = Some (ids, q) -> q = Decided true \/ q = PostProcessing ->
    p' = PostProcessed \/ p' = Dropped /\ lost_to_another w (e :: es) b).
  { intros q Hq Hqs. destruct (IH w1 q Hrun Hq Hqs) as [?|(-> & es1 & es2 & b' & ids2 & w2 & -> & Hr & Hl)]; [by left|].
    right. split; [done|]. exists (e :: es1), es2, b', ids2, w2. cbn. by rewrite Hstep. }
  assert (Hlast : forall q, batches w1 !! b = Some (ids, q) -> ended q \/ q = Crashed -> p' = q).
  { intros q Hq Hqs. rewrite (terminal_run _ _ _ _ _ _ Hrun Hq Hqs) in Hb'. by injection Hb' as _ <-. }
  destruct (decide (acts e b)) as [Ha|Ha]; [|by apply (Hnext p); [eapply phase_kept|]].
  destruct e as [ids2|u|u ok|u|u|u|c|c|c|c|c|c|c|c|c]; cbn in Ha; try contradiction; subst c;
    destruct Hp as [-> | ->]; unfold step, finish_step in Hstep; rewrite Hb in Hstep; try discriminate Hstep;
    repeat (case_match; try discriminate Hstep); injection Hstep as <-; cbn in Hnext, Hlast;
    rewrite list_lookup_insert_eq in Hnext, Hlast by done.
  - by apply (Hnext PostProcessing); [|right].
  - left. apply Hlast; [done|]. left. right. by left.
  - right. split; [apply Hlast; [done|]; left; right; by right|].
    destruct (lock_taken w b ids (Decided true)) as (b' & ids2 & ? & ?); [done..|].
    by exists [], es, b', ids2, w.
  - rewrite (Hlast Crashed) in Hend by auto. by destruct Hend as [? | [? | ?]].
  - rewrite (Hlast Crashed) in Hend by auto. by destruct Hend as [? | [? | ?]].
Qed.

(** The decision of a finisher that has marked its uploads when both sets are empty and
    stay so. *)
Definition will_decide (p : phase) : Prop := p = Marked \/ p = Cleaned \/ p = Counted 0.

Definition triggers_in (w : world) (es : list event) (w' : world) : Prop :=
  exists es1 es2 b ids w1 w2, es = es1 ++ CountProcessed b :: es2 /\ run w es1 = Some w1 /\
    step w1 (CountProcessed b) = Some w2 /\ batches w2 !! b = Some (ids, Decided true) /\ run w2 es2 = Some w' /\
    exists p, batches w' !! b = Some (ids, p) /\ (p = PostProcessed \/ p = Dropped /\ lost_to_another w2 es2 b).

Lemma batch_kept w es w' b ids p : run w es = Some w' -> batches w !! b = Some (ids, p) -> exists p', batches w' !! b = Some (ids, p').
Proof.
  revert w p. induction es as [|e es IH]; intros w p; cbn; [intros [= <-]; eauto|].
  destruct (step w e) as [w1|] eqn:E; [|discriminate]. cbn. intros Hr Hb.
  assert (H : exists q, batches w1 !! b = Some (ids, q)); [|destruct H as [q Hq]; by apply (IH w1 q)].
  destruct (decide (acts e b)) as [Ha|Ha]; [|eexists; by eapply phase_kept].
  assert (Hlen : (b < length (batches w))%nat) by by eapply lookup_lt_Some.
  destruct e; cbn in Ha; try contradiction; subst; step_cases E; cbn; simplify_eq; eexists; by apply list_lookup_insert_eq.
Qed.

Lemma not_crashed w es w' b ids :
  Forall (fun e => is_mark e = false) es -> run w es = Some w' -> all_settled w' ->
  batches w !! b = Some (ids, Crashed) -> False.
Proof. intros Hes Hrun Hall Hb. pose proof (all_settled_run _ _ _ Hes Hrun Hall _ _ _ Hb). done. Qed.

Lemma marked_triggers w es w' b ids p :
  inv w -> Forall (fun e => is_mark e = false) es -> run w es = Some w' -> all_settled w' ->
  (forall b ids p, batches w' !! b = Some (ids, p) -> ended p) ->
  batches w !! b = Some (ids, p) -> will_decide p -> triggers_in w es w'.
Proof.
  intros I Hes Hrun Hall Hend. revert w p I Hrun. induction Hes as [|e es He Hes IH]; intros w p I; cbn.
  { intros [= <-] Hb Hp. apply Hend in Hb. destruct Hb as [-> | [-> | ->]], Hp as [?|[?|?]]; discriminate. }
  destruct (step w e) as [w1|] eqn:Hstep; [|discriminate]. cbn. intros Hrun Hb Hp.
  pose proof (inv_step _ _ _ I Hstep) as I1.
  destruct (settled_empty w I) as [Hz1 Hz2].
  { apply (all_settled_back w e w1); [done | done | by eapply all_settled_run]. }
  assert (Hlen : (b < length (batches w))%nat) by by eapply lookup_lt_Some.
  assert (Hnext : forall q, batches w1 !! b = Some (ids, q) -> will_decide q -> triggers_in w (e :: es) w').
  { intros q Hq Hqs. destruct (IH w1 q I1 Hrun Hq Hqs) as (es1 & es2 & b' & ids' & w2 & w3 & -> & Hr & Hrest).
    exists (e :: es1), es2, b', ids', w2, w3. cbn. by rewrite Hstep. }
  destruct (decide (acts e b)) as [Ha|Ha]; [|by apply (Hnext p); [eapply phase_kept|]].
  destruct e as [ids2|u|u ok|u|u|u|c|c|c|c|c|c|c|c|c]; cbn in Ha; try contradiction; subst c; try discriminate He;
    destruct Hp as [-> | [-> | ->]]; pose proof Hstep as Hs; unfold step, finish_step in Hs; rewrite Hb in Hs;
    try discriminate Hs; repeat (case_match; try discriminate Hs); injection Hs as <-; cbn in Hnext;
    rewrite ?list_lookup_insert_eq in Hnext by done.
  - apply (Hnext Cleaned); [done|]. right. by left.
  - apply (Hnext (Counted (scard (processing (state w))))); [done|]. right. right. by rewrite Hz1.
  - rewrite Hz2 in Hrun, Hstep. cbn in Hrun, Hstep.
    set (w2 := with_phase b ids (Decided true) w) in *.
    assert (Hb2 : batches w2 !! b = Some (ids, Decided true)) by by apply list_lookup_insert_eq.
    destruct (batch_kept _ _ _ _ _ _ Hrun Hb2) as [q Hq].
    exists [], es, b, ids, w, w2. split_and!; [done..|]. exists q. split; [done|].
    eapply (decided_ends w2 es w'); [done | exact Hb2 | by left | exact Hq | by eapply Hend].
  - exfalso. by eapply not_crashed; [exact Hes | exact Hrun | exact Hall | apply list_lookup_insert_eq].
  - exfalso. by eapply not_crashed; [exact Hes | exact Hrun | exact Hall | apply list_lookup_insert_eq].
  - exfalso. by eapply not_crashed; [exact Hes | exact Hrun | exact Hall | apply list_lookup_insert_eq].
Qed.

Lemma mark_triggers w c w1 es w' :
  inv w -> step w (Mark c) = Some w1 -> Forall (fun e => is_mark e = false) es -> run w1 es = Some w' ->
  (forall b ids p, batches w' !! b = Some (ids, p) -> ended p) -> triggers_in w1 es w'.
Proof.
  intros I Hmark Hes Hrun Hend. pose proof (inv_step _ _ _ I Hmark) as I1.
  assert (Hall : all_settled w').
  { intros b ids p Hb. by destruct (Hend _ _ _ Hb) as [-> | [-> | ->]]. }
  assert (Hb : exists ids, batches w1 !! c = Some (ids, Marked)).
  { step_cases Hmark. eexists. apply list_lookup_insert_eq. by eapply lookup_lt_Some. }
  destruct Hb as [ids Hb]. apply (marked_triggers w1 es w' c ids Marked); try done. by left.
Qed.

(** C8: After the uploads of a batch were merged and marked, whatever the order of the
    tasks: when in the end every finisher of the commit has come to its end without an
    exception, some finisher has decided on post-processing after that marking, so not
    before the last uploads were merged; and this finisher has done it, unless it gave it
    up because another finisher held the lock of the post-processing at that time. *)
Theorem trigger_happens w c w1 es w' :
  reachable w -> step w (Mark c) = Some w1 -> run w1 es = Some w' ->
  (forall b ids p, batches w' !! b = Some (ids, p) -> p = Decided false \/ p = PostProcessed \/ p = Dropped) ->
  exists es1 es2 b ids w2 w3, es = es1 ++ CountProcessed b :: es2 /\ run w1 es1 = Some w2 /\
    step w2 (CountProcessed b) = Some w3 /\ batches w3 !! b = Some (ids, Decided true) /\
    run w3 es2 = Some w' /\
    (batches w' !! b = Some (ids, PostProcessed) \/
     exists es3 es4 b' ids' w4, es2 = es3 ++ Miss b :: es4 /\ run w3 es3 = Some w4 /\
       b' <> b /\ batches w4 !! b' = Some (ids', PostProcessing)).
Proof.
  intros Hr Hmark Hrun Hend. pose proof (inv_reachable _ Hr) as I. pose proof (inv_step _ _ _ I Hmark) as I1.
  assert (H : triggers_in w1 es w').
  - destruct (last_mark es) as [Hes|(es1 & c' & es2 & -> & Hes)]; [by eapply (mark_triggers w c)|].
    rewrite run_app in Hrun. destruct (run w1 es1) as [wa|] eqn:Ha; [|discriminate]. cbn -[step] in Hrun.
    destruct (step wa (Mark c')) as [wb|] eqn:Hb; [|discriminate]. cbn in Hrun.
    pose proof (inv_run _ _ _ I1 Ha) as Ia.
    destruct (mark_triggers wa c' wb es2 w' Ia Hb Hes Hrun Hend)
      as (es3 & es4 & b & ids & w2 & w3 & -> & Hr2 & Hrest).
    exists (es1 ++ Mark c' :: es3), es4, b, ids, w2, w3. split; [by rewrite <- app_assoc|]. split; [|done].
    rewrite run_app, Ha. cbn -[step]. by rewrite Hb.
  - destruct H as (es1 & es2 & b & ids & w2 & w3 & -> & H1 & H2 & H3 & H4 & p & Hp & Hps).
    exists es1, es2, b, ids, w2, w3. split_and!; [done..|]. destruct Hps as [->|[-> Hl]]; [by left | by right].
Qed.

(** *** A failed upload *)

Definition blocked (b : nat) (ids : list Z) (u v : Z) (w : world) : Prop :=
  batches w !! b = Some (ids, Waiting) /\ u ∈ ids /\ v ∈ ids /\ uploads w !! v = Some Failed /\
  u ∈ processed (state w).

Lemma blocked_step b ids u v w e w' : inv w -> step w e = Some w' -> blocked b ids u v w -> blocked b ids u v w'.
Proof.
  intros I Hstep (Hb & Hu & Hv & Hf & Hp). unfold blocked.
  assert (Hlen : (b < length (batches w))%nat) by by eapply lookup_lt_Some.
  assert (Hnd : forallb (fun u => is_done (uploads w !! u)) ids = false).
  { apply not_true_iff_false. intros H. apply (forallb_in _ _ v H) in Hv. by rewrite Hf in Hv. }
  destruct e as [ids'|z|z ok|z|z|z|b'|b'|b'|b'|b'|b'|b'|b'|b']; step_cases Hstep; cbn;
    try (assert (Hbb : b' <> b) by (intros ->; congruence); rewrite list_lookup_insert_ne by done);
    unfold mark_upload_as_processed; try case_decide; cbn; split_and!; try done; try set_solver;
    try (rewrite lookup_insert_ne by congruence; done).
  - by rewrite lookup_app_l.
  - rewrite schedule_uploads, decide_False; [done|]. intros Hin.
    match goal with G : _ && _ = true |- _ => apply andb_true_iff in G as [_ G];
      apply (forallb_in _ _ v) in G; [|done]; apply bool_decide_eq_true_1 in G end. congruence.
  - match goal with G : _ && _ = true |- _ => apply andb_true_iff in G as [G _] end.
    rewrite list_lookup_insert_ne; [done|]. intros ->. simplify_eq. congruence.
  - match goal with Hb' : batches w !! _ = Some (?l, Saved) |- _ =>
      assert (u ∉ l) by (intros Hin; by destruct Hbb; apply (inv_disjoint _ I _ _ _ _ _ _ u Hb' Hb)) end. set_solver.
Qed.

(** C9: When a processor of a batch fails for good, its finisher never runs, and an upload
    of the batch that was processed stays in the second set, whatever happens later: no
    finisher of the commit decides on post-processing any more. *)
Theorem failed_upload_blocks w b ids u v :
  reachable w -> batches w !! b = Some (ids, Waiting) -> u ∈ ids -> v ∈ ids ->
  uploads w !! v = Some Failed -> u ∈ processed (state w) ->
  forall es w', run w es = Some w' ->
    batches w' !! b = Some (ids, Waiting) /\ u ∈ processed (state w') /\
    forall b' w'', step w' (CountProcessed b') = Some w'' ->
      exists ids', batches w'' !! b' = Some (ids', Decided false).
Proof.
  intros Hr Hb Hu Hv Hf Hp es w' Hrun.
  assert (H : blocked b ids u v w') by
    (assert (H : blocked b ids u v w) by done; assert (I : inv w) by (by apply inv_reachable);
     clear -H I Hrun; revert w I H Hrun; induction es as [|e es IH]; intros w I H; cbn; [by intros [= <-]|];
     destruct (step w e) as [w1|] eqn:E; [|discriminate]; cbn; apply IH;
     [by apply (inv_step w e) | by apply (blocked_step b ids u v w e)]).
  destruct H as (Hbw & _ & _ & _ & Hin). split_and!; [done..|]. intros b' w'' Hstep. step_cases Hstep. cbn.
  eexists. rewrite list_lookup_insert_eq by (by eapply lookup_lt_Some). do 3 f_equal.
  unfold should_trigger_postprocessing. cbn. apply andb_false_iff. right. apply Z.eqb_neq.
  intros Hz%scard_zero. set_solver.
Qed.

(** ** Examples and witnesses *)

Definition world_after (es : list event) : world := default init (run init es).

(** A batch of one upload, up to its first count. *)
Definition one_batch : list event := [Schedule [1]; Start 1; Store 1 true; Return 1; Merge 0; Mark 0; Cleanup 0].

Lemma trigger_complete_witness :
  let w4 := world_after (one_batch ++ [CountProcessing 0; CountProcessed 0]) in
  1 ∈ cleared (state w4) \/
  (1 ∈ updated w4 /\ is_done (uploads w4 !! 1) = true /\ (is_successful (uploads w4 !! 1) = true -> 1 ∈ master w4)).
Proof.
  intros w4.
  apply (trigger_complete (world_after one_batch) 0 (world_after (one_batch ++ [CountProcessing 0])) []
    (world_after (one_batch ++ [CountProcessing 0])) w4 [1]).
  - exists one_batch. vm_compute. reflexivity.
  - vm_compute. reflexivity.
  - reflexivity.
  - vm_compute. reflexivity.
  - vm_compute. reflexivity.
  - vm_compute. eexists. reflexivity.
Defined.

Lemma trigger_happens_witness :
  exists es1 es2 b ids w2 w3, [Cleanup 0; CountProcessing 0; CountProcessed 0; Acquire 0; Release 0] =
      es1 ++ CountProcessed b :: es2 /\
    run (world_after (firstn 6 one_batch)) es1 = Some w2 /\ step w2 (CountProcessed b) = Some w3 /\
    batches w3 !! b = Some (ids, Decided true).
Proof.
  destruct (trigger_happens (world_after (firstn 5 one_batch)) 0 (world_after (firstn 6 one_batch))
    [Cleanup 0; CountProcessing 0; CountProcessed 0; Acquire 0; Release 0]
    (world_after (one_batch ++ [CountProcessing 0; CountProcessed 0; Acquire 0; Release 0])))
    as (es1 & es2 & b & ids & w2 & w3 & He & H2 & H3 & H4 & _).
  - exists (firstn 5 one_batch). vm_compute. reflexivity.
  - vm_compute. reflexivity.
  - vm_compute. reflexivity.
  - intros [|b] ids p H; vm_compute in H; [injection H as _ <-; right; by left | by destruct b].
  - by exists es1, es2, b, ids, w2, w3.
Defined.

(** The first batch has a failed upload beside a processed one; the second is complete. *)
Definition failed_batch : list event := [Schedule [1; 2]; Start 1; Store 1 true; Return 1; Start 2; Fail 2].
Definition later_batch : list event :=
  [Schedule [3]; Start 3; Store 3 true; Return 3; Merge 1; Mark 1; Cleanup 1; CountProcessing 1].

Lemma failed_upload_blocks_witness :
  batches (world_after (failed_batch ++ later_batch)) !! 0%nat = Some ([1; 2], Waiting) /\
  1 ∈ processed (state (world_after (failed_batch ++ later_batch))) /\
  exists ids', batches (world_after (failed_batch ++ later_batch ++ [CountProcessed 1])) !! 1%nat = Some (ids', Decided false).
Proof.
  destruct (failed_upload_blocks (world_after failed_batch) 0 [1; 2] 1 2) with
    (es := later_batch) (w' := world_after (failed_batch ++ later_batch)) as (Hw & Hp & Hd).
  - exists failed_batch. vm_compute. reflexivity.
  - vm_compute. reflexivity.
  - left.
  - right. left.
  - vm_compute. reflexivity.
  - apply (bool_decide_unpack _). vm_compute. exact I.
  - vm_compute. reflexivity.
  - split; [exact Hw|]. split; [exact Hp|]. apply (Hd 1%nat). vm_compute. reflexivity.
Defined.

(** The second batch is merged while the finisher of the first is still at its
    post-processing: its own is given up, and nobody sends what it added. *)
Example postprocessing_lost :
  let w := world_after [Schedule [1]; Start 1; Store 1 true; Return 1; Merge 0; Mark 0; Cleanup 0; CountProcessing 0;
    CountProcessed 0; Acquire 0;
    Schedule [2]; Start 2; Store 2 true; Return 2; Merge 1; Mark 1; Cleanup 1; CountProcessing 1; CountProcessed 1;
    Miss 1; Release 0] in
  batches w = [([1], PostProcessed); ([2], Dropped)].
Proof. vm_compute. reflexivity. Qed.

(** Two finishers that both marked their uploads before either counts: both trigger. *)
Example postprocessing_twice :
  let w := world_after [Schedule [1]; Schedule [2]; Start 1; Start 2; Store 1 true; Store 2 true; Return 1; Return 2;
    Merge 0; Mark 0; Merge 1; Mark 1; Cleanup 0; Cleanup 1;
    CountProcessing 0; CountProcessing 1; CountProcessed 0; CountProcessed 1] in
  batches w = [([1], Decided true); ([2], Decided true)].
Proof. vm_compute. reflexivity. Qed.
