(* ===== verification/MergeReports.v ===== *)
(** * [worker/services/processing/merging.py]: uploads merged into a commit's report

    Each processed upload arrives as a report of its own with one session; the
    uploads are merged one by one into the master report, each under a new
    session number, after the carried-forward sessions they replace are
    deleted.  Also [worker/helpers/number.py] and the rounding of
    [worker/services/yaml/reader.py]. *)
From S2P Require Export ReportSpec UserYaml PyDecimal.
From S2P Require Import JsonCodec.
#[local] Open Scope string_scope.
#[local] Open Scope Z_scope.
#[local] Open Scope list_scope.

(** ** Rounding *)

(** [precise_round]; the quantizer is [Decimal("0.1") ** precision]. *)
Definition precise_round (number : decimal) (precision : Z) (rounding : string) : result decimal :=
  if precision <? 0 then Err Unmodelled
  else if bool_decide (rounding = "up") then quantize ROUND_CEILING number (- precision)
  else if bool_decide (rounding = "down") then quantize ROUND_FLOOR number (- precision)
  else quantize ROUND_HALF_EVEN number (- precision).

Definition yaml_precision (y : pyval) : result Z :=
  v ← read_yaml_field y ["coverage"; "precision"] (VInt 2); Z_of_val v.

(** Anything but ["up"] and ["down"] rounds to the nearest. *)
Definition yaml_rounding (y : pyval) : result string :=
  v ← read_yaml_field y ["coverage"; "round"] (VStr "nearest");
  Ok (match v with VStr s => s | _ => "nearest" end).

Definition round_number (y : pyval) (number : decimal) : result decimal :=
  rounding ← yaml_rounding y; precision ← yaml_precision y; precise_round number precision rounding.

(** [Decimal(totals.coverage)]. *)
Definition dec_of_tcov (c : tcov) : result decimal :=
  match c with
  | TcNone => Err TypeError
  | TcInt z => Ok (dec_of_Z z)
  | TcStr s => dec_of_str s
  | TcFloat f => Ok (dec_of_float f)
  end.

(** [make_upload_totals]. *)
Record upload_totals : Type := mkUploadTotals {
  ut_upload_id : Z; ut_branches : Z; ut_coverage : decimal; ut_hits : Z; ut_lines : Z;
  ut_methods : Z; ut_misses : Z; ut_partials : Z; ut_files : Z;
}.

Definition make_upload_totals (precision : Z) (rounding : string) (upload_id : Z) (t : ReportTotals)
    : result upload_totals :=
  c ← match rt_coverage t with
      | TcNone => Ok (dec_of_Z 0)
      | c => d ← dec_of_tcov c; precise_round d precision rounding
      end;
  Ok (mkUploadTotals upload_id (rt_branches t) c (rt_hits t) (rt_lines t) (rt_methods t)
        (rt_misses t) (rt_partials t) (rt_files t)).

(** ** Merging *)

Record IntermediateReport : Type := mkIntermediate { ir_upload_id : Z; ir_report : Report.t }.

Record MergeResult : Type := mkMergeResult {
  mr_session_mapping : odict Z Z; mr_deleted_sessions : gset Z;
}.

(** The first flag configured with [joined: false] decides. *)
Fixpoint get_joined_flag (y : pyval) (flags : list string) : result bool :=
  match flags with
  | [] => Ok true
  | flag :: flags' =>
      v ← read_yaml_field y ["flags"; flag; "joined"] VNone;
      if bool_decide (v = VBool false) then Ok false else get_joined_flag y flags'
  end.

Section merging.
Context `{OrJson}.

(** The set comprehension [{f for f in flags if flag_has_carryfoward(f)}]. *)
Fixpoint carryforward_flags_of (y : pyval) (flags : list string) : result (list string) :=
  match flags with
  | [] => Ok []
  | f :: flags' =>
      c ← flag_has_carryfoward y f;
      rest ← carryforward_flags_of y flags';
      Ok (if truthy c then f :: rest else rest)
  end.

Definition to_clear (carryforward_flags : list string) (s : Session) : bool :=
  bool_decide (se_type s = carriedforward) &&
  match se_flags s with
  | Some flags => existsb (fun f => bool_decide (f ∈ carryforward_flags)) flags
  | None => false
  end.

Definition clear_carryforward_sessions (r : Report.t) (flags : list string) (current_yaml : pyval)
    : result (Report.t * gset Z) :=
  carryforward_flags ← carryforward_flags_of current_yaml flags;
  if bool_decide (carryforward_flags = []) then Ok (r, ∅)
  else
    let sessions_to_delete : gset Z :=
      list_to_set (fst <$> filter (fun ks => to_clear carryforward_flags ks.2 = true) (Report.r_sessions r)) in
    if bool_decide (sessions_to_delete = ∅) then Ok (r, ∅)
    else r' ← Report.delete_multiple_sessions r sessions_to_delete; Ok (r', sessions_to_delete).

(** [next(iter(report.sessions))]. *)
Definition first_session (r : Report.t) : result (Z * Session) :=
  match Report.r_sessions r with ks :: _ => Ok ks | [] => Err StopIteration end.

Definition uploaded_flags_of (ir : IntermediateReport) : result (list string) :=
  if Report.is_empty (ir_report ir) then Ok []
  else ks ← first_session (ir_report ir); Ok (default [] (se_flags ks.2)).

Definition clear_all_carryforward_sessions (commit_yaml : pyval) (master_report : Report.t)
    (irs : list IntermediateReport) : result (Report.t * gset Z) :=
  if Report.is_empty master_report then Ok (master_report, ∅)
  else
    fls ← traverse uploaded_flags_of irs;
    let all_flags := remove_dups (concat fls) in
    if bool_decide (all_flags = []) then Ok (master_report, ∅)
    else clear_carryforward_sessions master_report all_flags commit_yaml.

(** One intermediate report.  When the master report is empty and no renumbering is
    needed, the upload becomes the master report, its sessions included. *)
Definition merge_one (commit_yaml : pyval) (st : Report.t * odict Z Z) (ir : IntermediateReport)
    : result (Report.t * odict Z Z) :=
  let '(master_report, session_mapping) := st in
  let report := ir_report ir in
  if Report.is_empty report then Ok st
  else
    '(old_sessionid, _) ← first_session report;
    let new_sessionid := Report.next_session_number master_report in
    let session_mapping := od_set (ir_upload_id ir) new_sessionid session_mapping in
    if Report.is_empty master_report && (old_sessionid =? new_sessionid) then Ok (report, session_mapping)
    else
      report ← Report.change_sessionid report old_sessionid new_sessionid;
      session ← match od_get new_sessionid (Report.r_sessions report) with
                | Some s => Ok s | None => Err KeyError end;
      '(_, master_report) ← Report.add_session master_report session true;
      joined ← get_joined_flag commit_yaml (default [] (se_flags session));
      master_report ← Report.merge master_report (Some report) joined false;
      Ok (master_report, session_mapping).

Definition merge_reports (commit_yaml : pyval) (master_report : Report.t) (irs : list IntermediateReport)
    : result (Report.t * MergeResult) :=
  '(master_report, deleted_sessions) ← clear_all_carryforward_sessions commit_yaml master_report irs;
  '(master_report, session_mapping) ← foldM (merge_one commit_yaml) (master_report, []) irs;
  Ok (master_report, mkMergeResult session_mapping deleted_sessions).

(** ** Facts *)

(** Merging one upload into a non-empty report: one new session, under a number that
    was free, and the lines of the upload merged in with their sessions renumbered. *)
Lemma merge_one_run y master mapping ir master' mapping' :
  merge_one y (master, mapping) ir = Ok (master', mapping') ->
  Report.is_empty (ir_report ir) = false -> Report.is_empty master = false ->
  report_wf master -> report_wf (ir_report ir) ->
  exists old s joined, let new := Report.next_session_number master in
    first_session (ir_report ir) = Ok (old, s) /\
    new ∉ od_keys (Report.r_sessions master) /\
    mapping' = od_set (ir_upload_id ir) new mapping /\
    get_joined_flag y (default [] (se_flags s)) = Ok joined /\
    Report.r_sessions master' = od_set new (Report.set_id new s) (Report.r_sessions master) /\
    forall path ln, (path ∈ Report.files (ir_report ir) -> plain_name path) -> 1 <= ln ->
      line_at master' path ln =
      (a ← line_at master path ln;
       b ← fmap (M := result) (fmap (M := option) (rename_line old new)) (line_at (ir_report ir) path ln);
       merge_line a b joined false).
Proof.
  unfold merge_one. intros Hm He Hme Wm Wr. rewrite He, Hme in Hm. cbn [andb] in Hm.
  apply bind_Ok_inv in Hm as ([old s] & Hold & Hm). cbv zeta in Hm.
  apply bind_Ok_inv in Hm as (rep & Hrep & Hm). apply bind_Ok_inv in Hm as (sess & Hsess & Hm).
  apply bind_Ok_inv in Hm as ([n m1] & Hadd & Hm). apply bind_Ok_inv in Hm as (joined & Hj & Hm).
  apply bind_Ok_inv in Hm as (m2 & Hmerge & [= <- <-]).
  set (new := Report.next_session_number master) in *.
  destruct (change_sessionid_run _ _ _ _ Hrep Wr) as (Wrep & (s' & Hs' & Hss) & Hlines).
  assert (Hsold : s' = s).
  { unfold first_session in Hold. destruct (Report.r_sessions (ir_report ir)) as [|[k v] ss]; [done|].
    injection Hold as -> ->. cbn in Hs'. rewrite decide_True in Hs' by done. congruence. }
  subst s'. rewrite Hss, decide_True in Hsess by done. injection Hsess as <-.
  destruct (add_session_run _ _ _ _ _ Hadd eq_refl) as (-> & Hadds & Haddf).
  exists old, s, joined. cbv zeta. split; [done|]. split; [apply next_session_fresh|].
  split_and!; [done | done | by rewrite (merge_sessions_kept _ _ _ _ _ Hmerge) |].
  intros path ln Hrb Hln. assert (Wm1 : report_wf m1).
  { destruct Wm as (Ws & Wf & Wn). split_and!; rewrite ?Hadds, ?Haddf; auto with umbrella. }
  assert (Hnr : path ∈ od_keys (Report.r_files rep) -> plain_name path).
  { replace (od_keys (Report.r_files rep)) with (Report.files (ir_report ir)); [done|].
    unfold Report.change_sessionid in Hrep. apply bind_Ok_inv in Hrep as ([? ?] & _ & Hrep).
    apply bind_Ok_inv in Hrep as (fs & Hfs & [= <-]). destruct (traverse_files_get _ _ _ Hfs) as [E _]. by symmetry. }
  rewrite (merge_lines _ _ _ _ _ path ln Hmerge) by done.
  rewrite Hlines by done. by replace (line_at m1 path ln) with (line_at master path ln)
    by (unfold line_at, Report.get; by rewrite Haddf).
Qed.
End merging.

(** ** Properties *)

(** C6: merging one non-empty upload into a non-empty master report: its first session
    gets the first free session number of the master, which no session had, is recorded
    for the upload and renamed throughout the upload's lines; the master's other
    sessions stay, and every line becomes the merge of the two lines, joined or not as
    the configuration of the session's flags says, but for the lines of the Ruby
    ([.rb]) files of the upload and of a file without a name, of which nothing is said. *)
Theorem merge_one_correct `{OrJson} y master mapping ir master' mapping' :
  merge_one y (master, mapping) ir = Ok (master', mapping') ->
  Report.is_empty (ir_report ir) = false -> Report.is_empty master = false ->
  report_wf master -> report_wf (ir_report ir) ->
  exists old s joined, let new := Report.next_session_number master in
    first_session (ir_report ir) = Ok (old, s) /\
    new ∉ od_keys (Report.r_sessions master) /\
    mapping' = od_set (ir_upload_id ir) new mapping /\
    get_joined_flag y (default [] (se_flags s)) = Ok joined /\
    Report.r_sessions master' = od_set new (Report.set_id new s) (Report.r_sessions master) /\
    forall path ln, (path ∈ Report.files (ir_report ir) -> plain_name path) -> 1 <= ln ->
      line_at master' path ln =
      (a ← line_at master path ln;
       b ← fmap (M := result) (fmap (M := option) (rename_line old new)) (line_at (ir_report ir) path ln);
       merge_line a b joined false).
Proof. apply merge_one_run. Qed.

Lemma merge_one_correct_witness :
  exists master' mapping',
    @merge_one codec (VDict []) (example_report, []) (mkIntermediate 41 example_report) = Ok (master', mapping') /\
    mapping' = [(41, 2)].
Proof.
  destruct (@merge_one codec (VDict []) (example_report, []) (mkIntermediate 41 example_report)) as [[m mp]|e] eqn:E.
  - exists m, mp. split; [reflexivity|].
    destruct (@merge_one_correct codec _ _ _ _ _ _ E) as (old & s & j & _ & _ & Hm & _);
      [reflexivity | reflexivity | apply (@example_report_ok codec) | apply (@example_report_ok codec) | exact Hm].
  - exfalso. vm_compute in E. discriminate E.
Defined.

(** Rounding a coverage for display gives a number with [precision] decimals, the
    least one not below it with ["up"], the greatest one not above it with ["down"],
    and otherwise one at most half a unit of the last decimal away. *)
Theorem precise_round_bounds number precision rounding r :
  precise_round number precision rounding = Ok r -> 0 <= d_coef number ->
  let b := Z.min (d_exp number) (- precision) in
  let unit := 10 ^ (- precision - b) in
  d_exp r = - precision /\
  (rounding = "up" -> 0 <= d_at b r - d_at b number < unit) /\
  (rounding = "down" -> 0 <= d_at b number - d_at b r < unit) /\
  (rounding <> "up" -> rounding <> "down" -> 2 * Z.abs (d_at b r - d_at b number) <= unit).
Proof.
  unfold precise_round. intros Hr Hc. set (b := Z.min _ _). cbv zeta. destruct (precision <? 0); [done|].
  destruct (bool_decide_reflect (rounding = "up")) as [->|Hu];
    [|destruct (bool_decide_reflect (rounding = "down")) as [->|Hd]];
    destruct (quantize_bounds _ _ _ _ Hr Hc) as [He Hb]; fold b in Hb; by split_and!.
Qed.

Lemma precise_round_bounds_witness :
  let x := Dec false 6666667 (-5) in
  exists r, precise_round x 2 "down" = Ok r /\ d_exp r = -2 /\
    0 <= d_at (-5) x - d_at (-5) r < 1000.
Proof.
  intros x. exists (Dec false 6666 (-2)). split; [reflexivity|].
  destruct (precise_round_bounds x 2 "down" (Dec false 6666 (-2))) as (He & _ & Hd & _);
    [reflexivity | cbn; lia |]. split; [exact He | exact (Hd eq_refl)].
Defined.
