(* ===== verification/Status.v ===== *)
(** * [worker/services/notification/notifiers/mixins/status.py]: commit statuses

    The three mixins decide whether the patch, the project and the unexpected
    changes pass, and word the message.  What they read of the comparison of two
    commits is the record [comparison]: those values are computed by
    [services/comparison], of which [Changes.v] models the changes. *)
From S2P Require Export Changes MergeReports.
#[local] Open Scope string_scope.
#[local] Open Scope Z_scope.
#[local] Open Scope list_scope.

(** An entry of [get_impacted_files()["files"]]: whether it has added coverage and
    unexpected changes, and the code of each removed line. *)
Record impacted_file : Type := mkImpacted {
  if_added_diff_coverage : bool;
  if_unexpected_line_changes : bool;
  if_removed_diff_coverage : list (Z * string);
}.

(** A report as the mixins see it: its truth value and its totals. *)
Record report_view : Type := mkView { rv_truthy : bool; rv_totals : option ReportTotals }.

Record comparison : Type := mkComparison {
  cmp_head_commitid : string;
  cmp_head_report : option report_view;
  cmp_base_commitid : option string;
  cmp_base_report : option report_view;
  cmp_has_base : bool;                          (* [has_project_coverage_base_report()] *)
  cmp_patch_totals : option ReportTotals;       (* [get_patch_totals()] *)
  cmp_diff_totals : option ReportTotals;        (* [head.report.apply_diff(get_diff(...))] *)
  cmp_changes : option (list Change);           (* [get_changes()] *)
  cmp_impacted_files : list impacted_file;
  cmp_pull : bool;
}.

Record StatusResult : Type := mkStatus {
  sr_state : pyval;
  sr_message : string;
  sr_helper_text : odict string string;
}.

Definition success : pyval := VStr "success".
Definition failure : pyval := VStr "failure".

(** ** Texts *)

Definition CUSTOM_TARGET (context notification_type point_of_comparison coverage target : string) : string :=
  "Your " +:+ context +:+ " " +:+ notification_type +:+ " has failed because the " +:+
  point_of_comparison +:+ " coverage (" +:+ coverage +:+ "%) is below the target coverage (" +:+
  target +:+ "%). You can increase the " +:+ point_of_comparison +:+ " coverage or adjust the " +:+
  "[target](https://docs.codecov.com/docs/commit-status#target) coverage.".

Definition INDIRECT_CHANGES (context notification_type : string) : string :=
  "Your " +:+ context +:+ " " +:+ notification_type +:+
  " has failed because you have indirect coverage changes. " +:+
  "Learn more about [Unexpected Coverage Changes](https://docs.codecov.com/docs/unexpected-coverage-changes) " +:+
  "and [reasons for indirect coverage changes](https://docs.codecov.com/docs/unexpected-coverage-changes#reasons-for-indirect-changes).".

Definition RCB_ADJUST_BASE (notification_type coverage adjusted_base_cov : string) : string :=
  "Your project " +:+ notification_type +:+ " has failed because the head coverage (" +:+ coverage +:+
  "%) is below the [adjusted base coverage](https://docs.codecov.com/docs/removed-code-behavior#option-3-default-adjust_base) (" +:+
  adjusted_base_cov +:+ "%). You can increase the head coverage or adjust the " +:+
  "[Removed Code Behavior](https://docs.codecov.com/docs/removed-code-behavior).".

(** ** Settings *)

Section settings.
Variable settings : odict string pyval.

Definition setting (k : string) (dflt : pyval) : pyval := default dflt (od_get k settings).

(** [Decimal(str(v).replace("%", ""))]; a list or a dictionary is no number. *)
Definition dec_of_setting (v : pyval) : result decimal :=
  match v with
  | VList _ | VDict _ => Err InvalidOperation
  | _ => s ← str_of_val v; dec_of_str (str_replace "%" "" s)
  end.

Definition _get_threshold : result decimal :=
  match dec_of_setting (setting "threshold" (VStr "0.0")) with
  | Err InvalidOperation | Err TypeError | Err AttributeError => Ok (Dec false 0 (-1))
  | r => r
  end.

(** [target not in ("auto", None)]. *)
Definition custom_target : option pyval :=
  let v := setting "target" VNone in
  if bool_decide (v = VStr "auto") || bool_decide (v = VNone) then None else Some v.

Definition if_not_found : pyval := setting "if_not_found" success.

Variable current_yaml : pyval.
Variable notification_type : string.

(** ** Patch *)

Definition base_coverage (c : comparison) : result (option decimal) :=
  if cmp_has_base c then
    match cmp_base_report c with
    | Some (mkView _ (Some t)) =>
        match rt_coverage t with
        | TcNone => Ok None
        | cov => d ← dec_of_tcov cov; Ok (Some d)
        end
    | _ => Err AttributeError
    end
  else Ok None.

Definition patch_target (c : comparison) : result (option decimal * bool) :=
  match custom_target with
  | Some v => d ← dec_of_setting v; Ok (Some d, true)
  | None => d ← base_coverage c; Ok (d, false)
  end.

Definition coverage_not_affected (c : comparison) : StatusResult :=
  mkStatus success
    (match cmp_base_commitid c with
     | Some b => "Coverage not affected when comparing " +:+ str_take 7 b +:+ "..." +:+
                 str_take 7 (cmp_head_commitid c)
     | None => "Coverage not affected"
     end) [].

Definition patch_against (coverage target_coverage threshold : decimal) (is_custom_target : bool)
    : result StatusResult :=
  let passes := dec_leb target_coverage coverage in
  coverage_rounded ← round_number current_yaml coverage;
  target_rounded ← round_number current_yaml target_coverage;
  let cr := dec_str coverage_rounded in
  let tr := dec_str target_rounded in
  if negb passes && dec_leb (dec_sub target_coverage threshold) coverage then
    threshold_rounded ← round_number current_yaml threshold;
    Ok (mkStatus success
          (cr +:+ "% of diff hit (within " +:+ dec_str threshold_rounded +:+ "% threshold of " +:+ tr +:+ "%)") [])
  else
    let message := cr +:+ "% of diff hit (target " +:+ tr +:+ "%)" in
    if passes then Ok (mkStatus success message [])
    else Ok (mkStatus failure message
               (if is_custom_target
                then [("custom_target_helper_text_patch",
                       CUSTOM_TARGET "patch" notification_type "patch" cr tr)]
                else [])).

Definition get_patch_status (c : comparison) : result StatusResult :=
  threshold ← _get_threshold;
  '(target_coverage, is_custom_target) ← patch_target c;
  match cmp_patch_totals c with
  | Some t =>
      if 0 <? rt_lines t then
        coverage ← dec_of_tcov (rt_coverage t);
        match target_coverage with
        | None => Ok (mkStatus if_not_found "No report found to compare against" [])
        | Some target => patch_against coverage target threshold is_custom_target
        end
      else Ok (coverage_not_affected c)
  | None => Ok (coverage_not_affected c)
  end.

(** ** Unexpected changes *)

Definition is_a_change_worth_noting (change : Change) : bool :=
  if negb (ch_new change) && negb (ch_deleted change) then
    match ch_totals change with Some t => 0 <? rt_misses t + rt_partials t | None => false end
  else false.

(** [base in ("auto", None, "pr")]. *)
Definition base_is_pull : bool :=
  let v := setting "base" VNone in
  bool_decide (v = VStr "auto") || bool_decide (v = VNone) || bool_decide (v = VStr "pr").

Definition get_changes_status (c : comparison) : StatusResult :=
  if base_is_pull && cmp_pull c && negb (cmp_has_base c) then
    mkStatus success "Unable to determine changes, no report found at pull request base" []
  else
    match filter (fun ch => is_a_change_worth_noting ch = true) (default [] (cmp_changes c)) with
    | [] => mkStatus success "No indirect coverage changes found" []
    | changes =>
        let lpc := length changes in
        let eng := if (1 <? lpc)%nat then "files have" else "file has" in
        let description :=
          str_of_Z (Z.of_nat lpc) +:+ " " +:+ eng +:+ " indirect coverage changes not visible in diff" in
        if truthy (setting "informational" VNone) then mkStatus success description []
        else mkStatus failure description
               [("indirect_changes_helper_text", INDIRECT_CHANGES "changes" notification_type)]
    end.

(** ** Project *)

Definition project_verdict (head_coverage target_coverage threshold : decimal) : pyval :=
  if dec_leb (dec_sub target_coverage threshold) head_coverage then success else failure.

Definition project_against (c : comparison) (head_totals base_totals : ReportTotals) : result StatusResult :=
  threshold ← _get_threshold;
  target_coverage ← match custom_target with
                    | Some v => dec_of_setting v
                    | None => dec_of_tcov (rt_coverage base_totals)
                    end;
  head_coverage ← dec_of_tcov (rt_coverage head_totals);
  head_rounded ← round_number current_yaml head_coverage;
  let hr := dec_str head_rounded in
  let state := project_verdict head_coverage target_coverage threshold in
  match custom_target with
  | Some _ =>
      target_rounded ← round_number current_yaml target_coverage;
      let tr := dec_str target_rounded in
      Ok (mkStatus state (hr +:+ "% (target " +:+ tr +:+ "%)")
            (if bool_decide (state = failure)
             then [("custom_target_helper_text_project",
                    CUSTOM_TARGET "project" notification_type "head" hr tr)]
             else []))
  | None =>
      change_rounded ← round_number current_yaml (dec_sub head_coverage target_coverage);
      base_id ← match cmp_base_commitid c with Some i => Ok i | None => Err AttributeError end;
      Ok (mkStatus state
            (hr +:+ "% (" +:+ dec_fmt_plus change_rounded +:+ "%) compared to " +:+ str_take 7 base_id) [])
  end.

Definition head_totals_of (c : comparison) : option ReportTotals :=
  match cmp_head_report c with
  | Some (mkView true (Some t)) => match rt_coverage t with TcNone => None | _ => Some t end
  | _ => None
  end.

Definition _get_project_status (c : comparison) : result StatusResult :=
  match head_totals_of c with
  | None => Ok (mkStatus if_not_found "No coverage information found on head" [])
  | Some head_totals =>
      match cmp_base_report c with
      | None => Ok (mkStatus if_not_found "No report found to compare against" [])
      | Some (mkView _ None) => Err AttributeError
      | Some (mkView _ (Some base_totals)) =>
          match rt_coverage base_totals with
          | TcNone => Ok (mkStatus if_not_found "No coverage information found on base report" [])
          | _ => project_against c head_totals base_totals
          end
      end
  end.

(** *** Removed-code behaviors *)

Definition rcb_result : Type := option (pyval * string).

Definition _apply_removals_only_behavior (c : comparison) : rcb_result :=
  let fs := cmp_impacted_files c in
  if forallb (fun f => negb (if_added_diff_coverage f) && negb (if_unexpected_line_changes f)) fs &&
     existsb (fun f => negb (bool_decide (if_removed_diff_coverage f = []))) fs
  then Some (success, ", passed because this change only removed code") else None.

Definition removed (code : string) (c : comparison) : Z :=
  sumZ ((fun f => Z.of_nat (length (filter (fun item => item.2 = code) (if_removed_diff_coverage f))))
          <$> cmp_impacted_files c).

Definition max0 (d : decimal) : string := if dec_ltb (dec_of_Z 0) d then dec_str d else "0".

Definition _apply_adjust_base_behavior (c : comparison) (head_totals base_totals : ReportTotals)
    : result (rcb_result * odict string string) :=
  match custom_target with
  | Some _ => Ok (None, [])
  | None =>
      let hits := rt_hits base_totals - removed "h" c in
      let total := hits + (rt_misses base_totals - removed "m" c)
                   + (rt_partials base_totals - removed "p" c) in
      if total =? 0 then Ok (None, [])
      else
        q ← int_truediv hits total;
        let base_adjusted_coverage := dec_mul (dec_of_float q) (dec_of_Z 100) in
        threshold ← _get_threshold;
        head_coverage ← dec_of_tcov (rt_coverage head_totals);
        let base_adjusted_coverage := dec_sub base_adjusted_coverage threshold in
        quantized ← quantize ROUND_HALF_EVEN base_adjusted_coverage (-5);
        rounded ← round_number current_yaml base_adjusted_coverage;
        if dec_ltb (dec_sub quantized head_coverage) (Dec false 5 (-3)) then
          difference ← round_number current_yaml (dec_sub head_coverage base_adjusted_coverage);
          Ok (Some (success, ", passed because coverage increased by " +:+ max0 difference +:+
                "% when compared to adjusted base (" +:+ dec_str rounded +:+ "%)"), [])
        else
          coverage_rounded ← round_number current_yaml head_coverage;
          Ok (None, [("rcb_adjust_base_helper_text",
                      RCB_ADJUST_BASE notification_type (dec_str coverage_rounded) (dec_str rounded))])
  end.

Definition _apply_fully_covered_patch_behavior (c : comparison)
    : result (rcb_result * odict string string) :=
  if existsb if_unexpected_line_changes (cmp_impacted_files c) then
    Ok (None, [("rcb_indirect_changes_helper_text", INDIRECT_CHANGES "project" notification_type)])
  else
    match cmp_diff_totals c with
    | None => Ok (Some (success, ", passed because coverage was not affected by patch"), [])
    | Some t =>
        if rt_lines t =? 0 then
          Ok (Some (success, ", passed because coverage was not affected by patch"), [])
        else
          coverage ← dec_of_tcov (rt_coverage t);
          Ok (if dec_eqb coverage (dec_of_Z 100)
              then Some (success, ", passed because patch was fully covered by tests, and no indirect coverage changes")
              else None, [])
    end.

Definition view_truthy (o : option report_view) : bool :=
  match o with Some v => rv_truthy v | None => false end.

Definition view_totals (o : option report_view) : result ReportTotals :=
  match o with Some (mkView _ (Some t)) => Ok t | _ => Err AttributeError end.

Definition update_text (extra d : odict string string) : odict string string :=
  foldl (fun d kv => od_set kv.1 kv.2 d) d extra.

(** The removed-code behavior of a failing status: what it decides, and the texts to add. *)
Definition removed_code_result (c : comparison) : result (rcb_result * odict string string) :=
  let configured := setting "removed_code_behavior" VNone in
  let is_custom := negb (bool_decide (configured = VNone)) in
  let behavior := if is_custom then configured else VStr "adjust_base" in
  if bool_decide (behavior = VStr "removals_only") then Ok (_apply_removals_only_behavior c, [])
  else if bool_decide (behavior = VStr "adjust_base") then
    base_totals ← (match custom_target with
                   | Some _ => Ok ReportTotals_new (* not read *)
                   | None => view_totals (cmp_base_report c) end);
    head_totals ← (match custom_target with
                   | Some _ => Ok ReportTotals_new (* not read *)
                   | None => view_totals (cmp_head_report c) end);
    '(r, text) ← _apply_adjust_base_behavior c head_totals base_totals;
    Ok (r, if is_custom then text else [])
  else if bool_decide (behavior = VStr "fully_covered_patch") then
    _apply_fully_covered_patch_behavior c
  else Ok (None, []).

Definition get_project_status (c : comparison) : result StatusResult :=
  r ← _get_project_status c;
  if bool_decide (sr_state r = success) then Ok r
  else if view_truthy (cmp_base_report c) && view_truthy (cmp_head_report c) then
    '(verdict, text) ← removed_code_result c;
    let texts := update_text text (sr_helper_text r) in
    match verdict with
    | None => Ok (mkStatus (sr_state r) (sr_message r) texts)
    | Some (state, message) =>
        Ok (mkStatus state (sr_message r +:+ message) (if bool_decide (state = success) then [] else texts))
    end
  else Ok r.

(** ** Facts *)

(** The state of a status is [success] exactly when ... *)
Lemma patch_against_state coverage target threshold b r :
  patch_against coverage target threshold b = Ok r ->
  sr_state r = (if dec_leb target coverage || dec_leb (dec_sub target threshold) coverage
                then success else failure).
Proof.
  unfold patch_against. intros Hr. apply bind_Ok_inv in Hr as (cr & _ & Hr).
  apply bind_Ok_inv in Hr as (tr & _ & Hr). destruct (dec_leb target coverage); cbn [negb andb orb] in *.
  - by injection Hr as <-.
  - destruct (dec_leb (dec_sub target threshold) coverage).
    + by apply bind_Ok_inv in Hr as (t & _ & [= <-]).
    + by injection Hr as <-.
Qed.

Lemma project_against_state c ht bt r :
  project_against c ht bt = Ok r ->
  exists threshold target head, _get_threshold = Ok threshold /\ dec_of_tcov (rt_coverage ht) = Ok head /\
    match custom_target with
    | Some v => dec_of_setting v = Ok target
    | None => dec_of_tcov (rt_coverage bt) = Ok target
    end /\
    sr_state r = (if dec_leb (dec_sub target threshold) head then success else failure).
Proof.
  unfold project_against. intros Hr. apply bind_Ok_inv in Hr as (th & Hth & Hr).
  apply bind_Ok_inv in Hr as (tg & Htg & Hr). apply bind_Ok_inv in Hr as (hc & Hhc & Hr).
  apply bind_Ok_inv in Hr as (hr & _ & Hr). cbv zeta in Hr. exists th, tg, hc.
  destruct custom_target.
  - apply bind_Ok_inv in Hr as (tr & _ & [= <-]). done.
  - apply bind_Ok_inv in Hr as (cr & _ & Hr). apply bind_Ok_inv in Hr as (bi & _ & [= <-]). done.
Qed.

Lemma rcb_state c r text : removed_code_result c = Ok (Some r, text) -> r.1 = success.
Proof.
  unfold removed_code_result. cbv zeta. intros Hr.
  destruct (bool_decide (_ = VStr "removals_only")).
  { injection Hr as Hr _. unfold _apply_removals_only_behavior in Hr. destruct (_ && _); [|done].
    by injection Hr as <-. }
  destruct (bool_decide (_ = VStr "adjust_base")).
  { apply bind_Ok_inv in Hr as (bt & _ & Hr). apply bind_Ok_inv in Hr as (ht & _ & Hr).
    apply bind_Ok_inv in Hr as ([v tx] & Hv & [= -> _]). unfold _apply_adjust_base_behavior in Hv.
    destruct custom_target; [done|]. cbv zeta in Hv. destruct (_ =? 0); [done|].
    do 5 (apply bind_Ok_inv in Hv as (? & _ & Hv)). destruct (dec_ltb _ _).
    - by apply bind_Ok_inv in Hv as (? & _ & [= <- _]).
    - by apply bind_Ok_inv in Hv as (? & _ & [= ? _]). }
  destruct (bool_decide (_ = VStr "fully_covered_patch")); [|done]. unfold _apply_fully_covered_patch_behavior in Hr.
  destruct (existsb _ _); [done|]. destruct (cmp_diff_totals c) as [t|]; [|by injection Hr as <- _].
  destruct (_ =? 0); [by injection Hr as <- _|]. apply bind_Ok_inv in Hr as (cv & _ & Hr).
  injection Hr as Hr _. destruct (dec_eqb _ _); [|done]. by injection Hr as <-.
Qed.

(** The removed-code behavior never fails a status that passes, and the texts of a
    passing status are not the failure's. *)
Lemma project_status_success c r0 r :
  _get_project_status c = Ok r0 -> get_project_status c = Ok r -> sr_state r0 = success -> r = r0.
Proof.
  unfold get_project_status. intros -> Hr Hs. cbn [mbind result_bind] in Hr.
  rewrite bool_decide_eq_true_2 in Hr by done. by injection Hr as <-.
Qed.
End settings.

(** ** Properties *)

(** A patch with lines and a target to compare with passes exactly when its
    coverage is at least the target, or at least the target less the threshold, and
    fails otherwise: rounding only enters the message. *)
Theorem patch_status_decision settings yaml nt c t coverage target custom threshold r :
  cmp_patch_totals c = Some t -> 0 < rt_lines t -> dec_of_tcov (rt_coverage t) = Ok coverage ->
  _get_threshold settings = Ok threshold -> patch_target settings c = Ok (Some target, custom) ->
  get_patch_status settings yaml nt c = Ok r ->
  sr_state r = (if dec_leb target coverage || dec_leb (dec_sub target threshold) coverage
                then VStr "success" else VStr "failure").
Proof.
  intros Ht Hl Hc Hth Htg Hr. unfold get_patch_status in Hr. rewrite Hth, Htg in Hr.
  cbn [mbind result_bind] in Hr. rewrite Ht, (proj2 (Z.ltb_lt _ _)), Hc in Hr by done.
  cbn [mbind result_bind] in Hr. by apply patch_against_state in Hr.
Qed.

Definition example_totals (hits lines : Z) (coverage : string) : ReportTotals :=
  mkTotals 1 lines hits (lines - hits) 0 (TcStr coverage) 0 0 0 1 (Some 0) (Some 0) (VInt 0).
Definition example_comparison : comparison :=
  mkComparison "0123456789" (Some (mkView true (Some (example_totals 4 5 "80.00000")))) (Some "abcdef0123")
    (Some (mkView true (Some (example_totals 9 10 "90.00000")))) true
    (Some (example_totals 1 2 "50.00000")) (Some (example_totals 1 2 "50.00000")) None
    [mkImpacted false false [(3, "h")]] true.

Lemma patch_status_decision_witness :
  exists r, get_patch_status [("target", VStr "70%"); ("threshold", VInt 5)] (VDict []) "check" example_comparison = Ok r /\
    sr_state r = VStr "failure".
Proof.
  destruct (get_patch_status [("target", VStr "70%"); ("threshold", VInt 5)] (VDict []) "check" example_comparison)
    as [r|e] eqn:E; [|exfalso; vm_compute in E; discriminate E].
  exists r. split; [reflexivity|].
  exact (patch_status_decision [("target", VStr "70%"); ("threshold", VInt 5)] (VDict []) "check" example_comparison
    (example_totals 1 2 "50.00000") (Dec false 5000000 (-5)) (Dec false 70 0) true (Dec false 5 0) r
    eq_refl eq_refl eq_refl eq_refl eq_refl E).
Defined.

(** With totals on both sides, the project passes exactly when the head's coverage
    is at least the target less the threshold, or both reports are there and the
    configured removed-code behavior decides to pass it; the behavior never makes a
    passing project fail. *)
Theorem project_status_decision settings yaml nt c ht v bt threshold target head r :
  head_totals_of c = Some ht -> cmp_base_report c = Some (mkView v (Some bt)) ->
  rt_coverage bt <> TcNone -> _get_threshold settings = Ok threshold ->
  match custom_target settings with
  | Some s => dec_of_setting s | None => dec_of_tcov (rt_coverage bt) end = Ok target ->
  dec_of_tcov (rt_coverage ht) = Ok head ->
  get_project_status settings yaml nt c = Ok r ->
  sr_state r = VStr "success" <->
  dec_leb (dec_sub target threshold) head = true \/
  (view_truthy (cmp_base_report c) && view_truthy (cmp_head_report c) = true /\
   exists verdict text, removed_code_result settings yaml nt c = Ok (Some verdict, text)).
Proof.
  intros Hh Hb Hbt Hth Htg Hhc Hr. pose proof Hr as Hr0. unfold get_project_status in Hr0.
  apply bind_Ok_inv in Hr0 as (r0 & Hr1 & Hr0).
  assert (Hs : sr_state r0 = if dec_leb (dec_sub target threshold) head then success else failure).
  { unfold _get_project_status in Hr1. rewrite Hh, Hb in Hr1.
    assert (Ha : project_against settings yaml nt c ht bt = Ok r0) by by destruct (rt_coverage bt).
    destruct (project_against_state settings yaml nt c ht bt r0 Ha) as (th & tg & hd & E1 & E2 & E3 & E4).
    rewrite Hth in E1. rewrite Hhc in E2. injection E1 as <-. injection E2 as <-.
    replace target with tg; [exact E4|]. destruct (custom_target settings); congruence. }
  destruct (dec_leb (dec_sub target threshold) head) eqn:El.
  { rewrite (project_status_success _ _ _ _ r0 r Hr1 Hr Hs), Hs. split; [by left | done]. }
  rewrite bool_decide_eq_false_2 in Hr0 by by rewrite Hs.
  destruct (view_truthy _ && _).
  - apply bind_Ok_inv in Hr0 as ([verdict text] & Hv & Hr0). rewrite Hv. cbv zeta in Hr0.
    destruct verdict as [[st msg]|]; injection Hr0 as <-; cbn [sr_state].
    + split; [right; eauto|]. intros _. by apply rcb_state in Hv.
    + rewrite Hs. split; [done|]. intros [?|(_ & ? & ? & [=])]; done.
  - injection Hr0 as <-. rewrite Hs. split; [done|]. by intros [?|[? _]].
Qed.

Lemma project_status_decision_witness :
  exists r, get_project_status [("target", VStr "70%")] (VDict []) "check" example_comparison = Ok r /\
    sr_state r = VStr "success".
Proof.
  destruct (get_project_status [("target", VStr "70%")] (VDict []) "check" example_comparison)
    as [r|e] eqn:E; [|exfalso; vm_compute in E; discriminate E].
  exists r. split; [reflexivity|].
  apply (project_status_decision [("target", VStr "70%")] (VDict []) "check" example_comparison
    (example_totals 4 5 "80.00000") true (example_totals 9 10 "90.00000") (Dec false 0 (-1)) (Dec false 70 0)
    (Dec false 8000000 (-5)) r); try reflexivity; [discriminate | exact E | left; vm_compute; reflexivity].
Defined.
