(* ===== verification/TorngitDiff.v ===== *)
(** * [shared/torngit/base.py]: parsing a provider's diff

    [diff_to_json] turns the text of a [git diff] into the files and segments
    the report code works on.  The parser appends to the segment it opened last,
    through a variable that survives from one file to the next: segments live in
    a store and files refer to them by number. *)
From S2P Require Export Totals.
#[local] Open Scope string_scope.
#[local] Open Scope Z_scope.
#[local] Open Scope list_scope.

(** [build_tree_from_commits]: the recursion ends when the parent relation does, which
    the fuel bounds. *)
Inductive commit_tree : Type := CommitTree (commitid : string) (parents : list commit_tree).

Fixpoint build_tree_from_commits (fuel : nat) (start : string) (commit_mapping : odict string (list string))
    : result commit_tree :=
  match fuel with
  | O => Err Unmodelled
  | S fuel' =>
      ps ← traverse (fun p => build_tree_from_commits fuel' p commit_mapping)
             (default [] (od_get start commit_mapping));
      Ok (CommitTree start ps)
  end.

(** ** Hunk headers *)

Fixpoint take_digits (s : string) : string * string :=
  match s with
  | String c s' => if is_digit c then let '(d, r) := take_digits s' in (String c d, r) else ("", s)
  | EmptyString => ("", "")
  end.

(** Digits, an optional comma, optional digits: greedy matching never has to give a
    character back, since what follows is neither a digit nor a comma. *)
Definition take_range (s : string) : option (string * string * string) :=
  let '(d, r) := take_digits s in
  if bool_decide (d = "") then None
  else
    let r := match r with String "," r' => r' | _ => r end in
    let '(d', r) := take_digits r in
    Some (d, d', r).

(** [get_start_of_line(source).groups()], an [AttributeError] when there is no match. *)
Definition get_start_of_line (source : string) : result (list pyval) :=
  match partition "@@ -" source with
  | Some ("", r) =>
      match take_range r with
      | Some (a, b, String " " (String "+" r')) =>
          match take_range r' with
          | Some (c, d, _) => Ok [VStr a; VStr b; VStr c; VStr d]
          | None => Err AttributeError
          end
      | _ => Err AttributeError
      end
  | _ => Err AttributeError
  end.

(** ** One file *)

(** A file under construction: [pf_segments] holds numbers of the store, and is [None]
    once popped. *)
Record parsed_file : Type := mkParsed {
  pf_type : string; pf_before : option string; pf_segments : option (list nat);
}.

Record parse_state : Type := mkParse {
  ps_store : list DiffSegment;
  ps_segment : option nat;  (* the variable [segment] *)
}.

Definition add_line (source : string) (seg : DiffSegment) : DiffSegment :=
  mkSegment (seg_header seg) (seg_lines seg ++ [source]).

(** One line of a file: the state, the file, and whether the loop ends here. *)
Definition parse_line (after : string) (st : parse_state) (f : parsed_file) (source : string)
    : result (parse_state * parsed_file * bool) :=
  if startswith "\ No newline at end of file" source then Ok (st, f, false)
  else
    let sol4 := str_take 4 source in
    let sol s := bool_decide (sol4 = s) in
    if sol "dele" then Ok (st, mkParsed "deleted" (Some after) None, true)
    else if sol "new " && negb (startswith "new mode " source) then
      Ok (st, mkParsed "new" (pf_before f) (pf_segments f), false)
    else if sol "Bina" then Ok (st, mkParsed "binary" None None, true)
    else if sol "--- " || sol "+++ " || sol "inde" || sol "diff" || sol "old " || sol "new " then
      Ok (st, f, false)
    else if sol "@@ -" then
      h ← get_start_of_line source;
      let n := length (ps_store st) in
      match pf_segments f with
      | Some segs =>
          Ok (mkParse (ps_store st ++ [mkSegment h []]) (Some n),
              mkParsed (pf_type f) (pf_before f) (Some (segs ++ [n])), false)
      | None => Err KeyError
      end
    else if bool_decide (source = "") then Ok (st, f, false)
    else
      match ps_segment st with
      | Some n => Ok (mkParse (alter (add_line source) n (ps_store st)) (Some n), f, false)
      | None => Ok (st, f, false)
      end.

Fixpoint parse_lines (after : string) (st : parse_state) (f : parsed_file) (ls : list string)
    : result (parse_state * parsed_file) :=
  match ls with
  | [] => Ok (st, f)
  | l :: ls' =>
      '(st', f', stop) ← parse_line after st f l;
      if (stop : bool) then Ok (st', f') else parse_lines after st' f' ls'
  end.

(** The lines of a file's text, without the empty one of a final line feed. *)
Definition diff_lines (text : string) : list string :=
  let ls := split nl (str_replace (String CR nl) nl text) in
  match last ls with Some "" => removelast ls | _ => ls end.

(** The names on the first line.  A line without [" b/"] does not unpack, which is a
    [ValueError]; the search for the [---] and [+++] lines only runs on a text without
    any line, where it finds nothing. *)
Definition names (ls : list string) : result (option (string * string * list string)) :=
  match ls with
  | [] => Ok None
  | first :: rest =>
      match split1 " b/" first with
      | [before; after] => Ok (Some (before, after, rest))
      | _ => Err ValueError
      end
  end.

Definition new_file (before after : string) : parsed_file :=
  mkParsed (if bool_decide (before = "/dev/null") then "new" else "modified")
    (if bool_decide (before = after) || bool_decide (before = "/dev/null") then None else Some before)
    (Some []).

Definition parse_file (acc : parse_state * odict string parsed_file) (text : string)
    : result (parse_state * odict string parsed_file) :=
  let '(st, results) := acc in
  o ← names (diff_lines text);
  match o with
  | None => Ok acc
  | Some (before, after, rest) =>
      '(st', f) ← parse_lines after st (new_file before after) rest;
      Ok (st', od_set after f results)
  end.

(** ** All files *)

Definition count_lines_of (c : ascii) (segs : list DiffSegment) : Z :=
  sumZ ((fun seg => Z.of_nat (length (filter (fun l => is_line c l = true) (seg_lines seg)))) <$> segs).

(** [_add_diff_totals]: [stats] is the number of added and of removed lines. *)
Definition finish_diff_file (store : list DiffSegment) (f : parsed_file) : DiffFile :=
  let segs := match pf_segments f with
              | Some ns => Some (omap (fun n => store !! n) ns)
              | None => None
              end in
  let l := default [] segs in
  mkDiffFile (pf_type f) (pf_before f) segs (Some (count_lines_of "+" l, count_lines_of "-" l)) None.

Definition diff_to_json (diff : string) : result (option RawDiff) :=
  let texts := tail (split (nl +:+ "diff --git a/") (nl +:+ diff)) in
  '(st, results) ← foldM parse_file (mkParse [] None, []) texts;
  match results with
  | [] => Ok None
  | _ => Ok (Some (mkDiff ((fun kf => (kf.1, finish_diff_file (ps_store st) kf.2)) <$> results) None))
  end.

(** ** Facts *)

Lemma take_digits_app d r :
  str_forallb is_digit d = true -> (match r with String c _ => is_digit c = false | EmptyString => True end) ->
  take_digits (d +:+ r) = (d, r).
Proof.
  intros Hd Hr. induction d as [|c d IH]; cbn [String.append].
  - destruct r as [|c r]; [done|]. cbn. by rewrite Hr.
  - cbn in Hd |- *. apply andb_true_iff in Hd as [-> Hd]. by rewrite IH.
Qed.

(** A header as git prints it. *)
Definition hunk_header (a b c d : Z) : string :=
  "@@ -" +:+ str_of_Z a +:+ "," +:+ str_of_Z b +:+ " +" +:+ str_of_Z c +:+ "," +:+ str_of_Z d +:+ " @@".

Lemma take_range_print a b r :
  0 <= a -> 0 <= b -> (match r with String c _ => is_digit c = false | EmptyString => True end) ->
  take_range (str_of_Z a +:+ "," +:+ str_of_Z b +:+ r) = Some (str_of_Z a, str_of_Z b, r).
Proof.
  intros Ha Hb Hr. unfold take_range.
  change ("," +:+ str_of_Z b +:+ r) with (String "," (str_of_Z b +:+ r)).
  rewrite take_digits_app by (done || by apply str_of_Z_digits).
  rewrite bool_decide_eq_false_2 by apply str_of_Z_nonempty.
  by rewrite take_digits_app by (done || by apply str_of_Z_digits).
Qed.

Lemma start_of_line_print a b c d :
  0 <= a -> 0 <= b -> 0 <= c -> 0 <= d ->
  get_start_of_line (hunk_header a b c d) =
  Ok [VStr (str_of_Z a); VStr (str_of_Z b); VStr (str_of_Z c); VStr (str_of_Z d)].
Proof.
  intros Ha Hb Hc Hd. unfold get_start_of_line, hunk_header.
  assert (E : forall r, partition "@@ -" ("@@ -" +:+ r) = Some ("", r)).
  { intros r. change ("@@ -" +:+ r) with (String "@" (String "@" (String " " (String "-" r)))).
    cbn [partition]. change (String "@" (String "@" (String " " (String "-" r)))) with ("@@ -" +:+ r).
    by rewrite prefix_app. }
  rewrite E, take_range_print by done. cbn [String.append].
  change (String "," (str_of_Z d +:+ " @@")) with ("," +:+ str_of_Z d +:+ " @@").
  by rewrite take_range_print by done.
Qed.

(** A line of a segment the parser keeps. *)
Definition content_line (l : string) : Prop :=
  l <> "" /\ startswith "\ No newline at end of file" l = false /\
  str_take 4 l ∉ ["dele"; "new "; "Bina"; "--- "; "+++ "; "inde"; "diff"; "old "; "@@ -"].

Lemma parse_content after st f l :
  content_line l ->
  parse_line after st f l =
  Ok (match ps_segment st with
      | Some n => mkParse (alter (add_line l) n (ps_store st)) (Some n)
      | None => st
      end, f, false).
Proof.
  intros (Hne & Hnl & Hs). unfold parse_line. rewrite Hnl. cbv zeta.
  rewrite !bool_decide_eq_false_2 by set_solver. cbn [andb orb]. by destruct (ps_segment st).
Qed.

Lemma parse_header after st f a b c d :
  0 <= a -> 0 <= b -> 0 <= c -> 0 <= d ->
  parse_line after st f (hunk_header a b c d) =
  match pf_segments f with
  | Some segs =>
      Ok (mkParse (ps_store st ++ [mkSegment [VStr (str_of_Z a); VStr (str_of_Z b); VStr (str_of_Z c); VStr (str_of_Z d)] []])
            (Some (length (ps_store st))),
          mkParsed (pf_type f) (pf_before f) (Some (segs ++ [length (ps_store st)])), false)
  | None => Err KeyError
  end.
Proof.
  intros Ha Hb Hc Hd. unfold parse_line.
  assert (Hnl : startswith "\ No newline at end of file" (hunk_header a b c d) = false) by done.
  assert (Ht : str_take 4 (hunk_header a b c d) = "@@ -") by done.
  rewrite Hnl, Ht, start_of_line_print by done. done.
Qed.

Lemma parse_contents after ls : forall st f n seg,
  Forall content_line ls -> ps_segment st = Some n -> ps_store st !! n = Some seg ->
  exists st', (forall rest, parse_lines after st f (ls ++ rest) = parse_lines after st' f rest) /\
    ps_segment st' = Some n /\
    ps_store st' = <[n := mkSegment (seg_header seg) (seg_lines seg ++ ls)]> (ps_store st).
Proof.
  induction ls as [|l ls IH]; intros st f n seg Hls Hn Hseg.
  - exists st. split; [done|]. split; [done|]. rewrite app_nil_r. destruct seg. cbn.
    by rewrite list_insert_id.
  - apply Forall_cons in Hls as [Hl Hls].
    destruct (IH (mkParse (alter (add_line l) n (ps_store st)) (Some n)) f n (add_line l seg))
      as (st' & Hp & Hs & Hst); [done | done | cbn; by rewrite list_lookup_alter_eq, Hseg |].
    exists st'. split_and!; [|done|].
    + intros rest. cbn [app parse_lines]. rewrite parse_content, Hn by done.
      cbn [mbind result_bind]. apply Hp.
    + rewrite Hst. cbn [ps_store add_line seg_header seg_lines]. rewrite <- app_assoc. cbn [app].
      apply list_eq. intros i. destruct (decide (i = n)) as [->|Hne].
      * assert (n < length (ps_store st))%nat by by eapply lookup_lt_Some.
        rewrite !list_lookup_insert_eq; [done | done | by rewrite length_alter].
      * rewrite !list_lookup_insert_ne by done. by rewrite list_lookup_alter_ne.
Qed.

(** A hunk: the four numbers of its header, and its lines. *)
Definition hunk : Type := (Z * Z * Z * Z * list string)%type.
Definition hunk_ok (h : hunk) : Prop :=
  let '(a, b, c, d, ls) := h in 0 <= a /\ 0 <= b /\ 0 <= c /\ 0 <= d /\ Forall content_line ls.
Definition hunk_text (h : hunk) : list string :=
  let '(a, b, c, d, ls) := h in hunk_header a b c d :: ls.
Definition hunk_segment (h : hunk) : DiffSegment :=
  let '(a, b, c, d, ls) := h in
  mkSegment [VStr (str_of_Z a); VStr (str_of_Z b); VStr (str_of_Z c); VStr (str_of_Z d)] ls.

Lemma parse_hunks after hs : forall st ty bf segs,
  Forall hunk_ok hs ->
  exists st', parse_lines after st (mkParsed ty bf (Some segs)) (concat (hunk_text <$> hs)) =
      Ok (st', mkParsed ty bf (Some (segs ++ seq (length (ps_store st)) (length hs)))) /\
    ps_store st' = ps_store st ++ (hunk_segment <$> hs).
Proof.
  induction hs as [|[[[[a b] c] d] ls] hs IH]; intros st ty bf segs Hok.
  - exists st. cbn. by rewrite !app_nil_r.
  - apply Forall_cons in Hok as [(Ha & Hb & Hc & Hd & Hls) Hok].
    cbn [fmap list_fmap concat hunk_text app parse_lines]. rewrite parse_header by done.
    cbn [pf_segments mbind result_bind pf_type pf_before].
    set (seg0 := mkSegment [VStr (str_of_Z a); VStr (str_of_Z b); VStr (str_of_Z c); VStr (str_of_Z d)] []).
    set (n := length (ps_store st)).
    destruct (parse_contents after ls (mkParse (ps_store st ++ [seg0]) (Some n))
      (mkParsed ty bf (Some (segs ++ [n]))) n seg0) as (st1 & Hp & _ & Hst1); [done | done | |].
    { cbn. by rewrite lookup_app_r, Nat.sub_diag by lia. }
    rewrite Hp. destruct (IH st1 ty bf (segs ++ [n]) Hok) as (st2 & Hp2 & Hst2).
    assert (Hstore : ps_store st1 = ps_store st ++ [hunk_segment (a, b, c, d, ls)]).
    { rewrite Hst1. cbn [ps_store]. by rewrite insert_app_r_alt, Nat.sub_diag by lia. }
    assert (Hlen : length (ps_store st1) = S n) by (rewrite Hstore, length_app; cbn; lia).
    exists st2. rewrite Hp2, Hst2, Hlen, Hstore, <- !app_assoc. done.
Qed.

Lemma store_lookup (store segs : list DiffSegment) :
  omap (fun n => (store ++ segs) !! n) (seq (length store) (length segs)) = segs.
Proof.
  revert store. induction segs as [|s segs IH]; intros store; [done|]. cbn [length seq omap list_omap].
  rewrite lookup_app_r, Nat.sub_diag by lia. cbn [lookup list_lookup].
  specialize (IH (store ++ [s])). rewrite <- app_assoc, length_app in IH. cbn [length app] in IH.
  rewrite Nat.add_1_r in IH. by rewrite IH.
Qed.

(** ** Properties *)

(** The hunks of a file in a diff, as git prints them, parse to its segments: one
    for each hunk, in order, with the four numbers of its header and all its lines. *)
Theorem hunks_parse after st ty before hs :
  Forall hunk_ok hs ->
  exists st' f, parse_lines after st (mkParsed ty before (Some [])) (concat (hunk_text <$> hs)) = Ok (st', f) /\
    df_segments (finish_diff_file (ps_store st') f) =
      Some ((fun '(a, b, c, d, ls) =>
        mkSegment [VStr (str_of_Z a); VStr (str_of_Z b); VStr (str_of_Z c); VStr (str_of_Z d)] ls) <$> hs).
Proof.
  intros Hok. destruct (parse_hunks after hs st ty before [] Hok) as (st' & Hp & Hst).
  eexists st', _. split; [exact Hp|]. unfold finish_diff_file. cbn [pf_segments df_segments app].
  f_equal. rewrite Hst. replace (length hs) with (length (hunk_segment <$> hs)) by apply length_fmap.
  rewrite store_lookup. apply list_fmap_ext. by intros _ [[[[a b] c] d] ls] _.
Qed.

Lemma hunks_parse_witness :
  exists st' f, parse_lines "a.py" (mkParse [] None) (mkParsed "modified" None (Some []))
      ["@@ -1,2 +1,3 @@"; " x"; "+y"; " z"; "@@ -9,1 +10,0 @@"; "-w"] = Ok (st', f) /\
    df_segments (finish_diff_file (ps_store st') f) =
      Some [mkSegment [VStr "1"; VStr "2"; VStr "1"; VStr "3"] [" x"; "+y"; " z"];
            mkSegment [VStr "9"; VStr "1"; VStr "10"; VStr "0"] ["-w"]].
Proof.
  apply (hunks_parse "a.py" (mkParse [] None) "modified" None
    [(1, 2, 1, 3, [" x"; "+y"; " z"]); (9, 1, 10, 0, ["-w"])]).
  repeat constructor; try discriminate; apply (bool_decide_unpack _); vm_compute; exact I.
Defined.

(** A removed line of the file that begins with two dashes and a blank, a comment
    of SQL or Lua, looks like the header of a file: it is left out of the segment. *)
Example removed_comment_dropped :
  diff_to_json (join nl ["diff --git a/q.sql b/q.sql"; "--- a/q.sql"; "+++ b/q.sql"; "@@ -1,3 +1,2 @@";
                         " select 1"; "--- a comment"; " from t"]) =
  Ok (Some (mkDiff [("q.sql", mkDiffFile "modified" None
               (Some [mkSegment [VStr "1"; VStr "3"; VStr "1"; VStr "2"] [" select 1"; " from t"]])
               (Some (0, 0)) None)] None)).
Proof. vm_compute. reflexivity. Qed.
