(* ===== verification/CiStatus.v ===== *)
(** * [shared/torngit/status.py]: the state of a commit's CI statuses

    Providers return every status ever posted; the most recent one of each
    context counts, and the commit's state is derived from those. *)
From S2P Require Export Match.
#[local] Open Scope string_scope.
#[local] Open Scope list_scope.

Record ci_status : Type := mkCi { ci_context : string; ci_state : string; ci_time : option string }.

#[export] Instance ci_status_eq_dec : EqDecision ci_status.
Proof. solve_decision. Defined.

(** The sort key [(time or "", state != "pending")] and its order. *)
Definition ci_key (s : ci_status) : string * bool :=
  (default "" (ci_time s), negb (bool_decide (ci_state s = "pending"))).

Definition key_ltb (a b : string * bool) : bool :=
  match String.compare a.1 b.1 with
  | Lt => true
  | Gt => false
  | Eq => negb a.2 && b.2
  end.

(** [sorted(context, key=...)[-1]]: the sort is stable, so the last of the greatest. *)
Fixpoint latest (s : ci_status) (rest : list ci_status) : ci_status :=
  match rest with
  | [] => s
  | s' :: rest' => latest (if key_ltb (ci_key s') (ci_key s) then s else s') rest'
  end.

(** [contexts[status["context"]].append(...)]. *)
Definition group (statuses : list ci_status) : odict string (list ci_status) :=
  foldl (fun d s => od_set (ci_context s) (default [] (od_get (ci_context s) d) ++ [s]) d) [] statuses.

Definition _fetch_most_relevant_status_per_context (statuses : list ci_status) : list ci_status :=
  omap (fun l => match l with [] => None | s :: rest => Some (latest s rest) end) (od_vals (group statuses)).

Definition state_of (states : list string) : string :=
  if forallb (fun s => bool_decide (s = "success")) states then "success"
  else if existsb (fun s => bool_decide (s = "failure") || bool_decide (s = "error")) states then "failure"
  else if existsb (fun s => bool_decide (s = "pending")) states then "pending"
  else "failure".

Module Status.
Record t : Type := mkStatus { s_statuses : list ci_status; s_state : string }.

Definition init (statuses : list ci_status) : t :=
  let relevant := _fetch_most_relevant_status_per_context statuses in
  mkStatus relevant (state_of (ci_state <$> relevant)).

Definition is_pending (s : t) : bool := bool_decide (s_state s = "pending").
Definition is_success (s : t) : bool := bool_decide (s_state s = "success").
Definition is_failure (s : t) : bool := bool_decide (s_state s = "failure").

Definition as_bool (s : t) : option bool :=
  if is_success s then Some true else if is_failure s then Some false else None.

Definition __eq__ (s : t) (other : string) : result bool :=
  if bool_decide (other ∈ ["success"; "failure"; "pending"]) then Ok (bool_decide (s_state s = other))
  else Err AssertionError.

Definition __len__ (s : t) : Z := Z.of_nat (length (s_statuses s)).

Definition filter_ (p : ci_status -> bool) (s : t) : t := init (filter (fun x => p x = true) (s_statuses s)).

Definition pending (s : t) : list ci_status :=
  filter (fun x => ci_state x = "pending") (s_statuses s).

Definition get (s : t) (context : string) : option ci_status :=
  List.find (fun x => bool_decide (ci_context x = context)) (s_statuses s).

Section re.
Context `{Re}.

(** A pattern with stars is the anchored expression with [.*] for each. *)
Definition matches (string pattern : string) : result bool :=
  if bool_decide (pattern = string) then Ok true
  else if str_contains "*" pattern then
    m ← re_compile ("^" +:+ str_replace "*" ".*" pattern +:+ "$"); Ok (m string)
  else Ok false.

Fixpoint contains_context (ss : list ci_status) (context : string) : result bool :=
  match ss with
  | [] => Ok false
  | c :: ss' =>
      b ← matches (ci_context c) context;
      if (b : bool) then Ok true else contains_context ss' context
  end.

Definition __contains__ (s : t) (context : string) : result bool := contains_context (s_statuses s) context.

Fixpoint without_context (ss : list ci_status) (context : string) : result (list ci_status) :=
  match ss with
  | [] => Ok []
  | c :: ss' =>
      b ← matches (ci_context c) context;
      r ← without_context ss' context;
      Ok (if (b : bool) then r else c :: r)
  end.

Definition __sub__ (s : t) (context : string) : result t :=
  ss ← without_context (s_statuses s) context; Ok (init ss).
End re.
End Status.

(** ** Facts *)

Lemma group_get statuses c :
  od_get c (group statuses) =
  match filter (fun s => ci_context s = c) statuses with [] => None | l => Some l end.
Proof.
  unfold group. induction statuses as [|s ss IH] using rev_ind; [done|].
  rewrite foldl_app, filter_app. cbn [foldl]. rewrite filter_cons, filter_nil.
  destruct (decide (ci_context s = c)) as [<-|Hne].
  - rewrite od_get_set_eq, IH. by destruct (filter _ ss).
  - rewrite od_get_set_ne, app_nil_r by done. exact IH.
Qed.

Lemma group_wf statuses : od_wf (group statuses).
Proof.
  unfold group. induction statuses as [|s ss IH] using rev_ind; [apply od_wf_nil|].
  rewrite foldl_app. cbn. by apply od_wf_set.
Qed.

Lemma latest_in s rest : latest s rest ∈ s :: rest.
Proof.
  revert s. induction rest as [|s' rest IH]; intros s; cbn [latest]; [left|].
  destruct (key_ltb _ _).
  - specialize (IH s). apply elem_of_cons in IH as [->|]; [left | right; by right].
  - right. apply IH.
Qed.

Lemma relevant_spec statuses s :
  s ∈ _fetch_most_relevant_status_per_context statuses <->
  exists a l, filter (fun x => ci_context x = ci_context s) statuses = a :: l /\ s = latest a l.
Proof.
  unfold _fetch_most_relevant_status_per_context. rewrite list_elem_of_omap. split.
  - intros ([|a l] & Hin & Hs); [done|]. injection Hs as <-. unfold od_vals in Hin.
    apply list_elem_of_fmap in Hin as ([c l'] & E & Hin). cbn in E. subst l'.
    apply od_elem_get in Hin; [|apply group_wf]. rewrite group_get in Hin.
    destruct (filter _ statuses) as [|a' l'] eqn:Ef; [done|]. injection Hin as -> ->.
    assert (Hc : ci_context (latest a l) = c).
    { pose proof (latest_in a l) as Hl. rewrite <- Ef in Hl. by apply list_elem_of_filter in Hl as [? _]. }
    rewrite Hc. by exists a, l.
  - intros (a & l & Hf & ->). exists (a :: l). split; [|done].
    assert (Hg : od_get (ci_context (latest a l)) (group statuses) = Some (a :: l)).
    { by rewrite group_get, Hf. }
    apply od_get_elem in Hg. unfold od_vals. apply list_elem_of_fmap.
    by exists (ci_context (latest a l), a :: l).
Qed.

(** *** The sort key is a total preorder *)

Lemma str_compare_trans a b c :
  String.compare a b <> Lt -> String.compare b c <> Lt -> String.compare a c <> Lt.
Proof.
  revert b c. induction a as [|x a IH]; intros [|y b] [|z c]; cbn; try done.
  unfold Ascii.compare. intros H1 H2.
  destruct (N.compare_spec (N_of_ascii x) (N_of_ascii y)), (N.compare_spec (N_of_ascii y) (N_of_ascii z)),
    (N.compare_spec (N_of_ascii x) (N_of_ascii z)); try done; try lia; by apply (IH b c).
Qed.

Lemma key_ltb_trans a b c : key_ltb a b = false -> key_ltb b c = false -> key_ltb a c = false.
Proof.
  destruct a as [a x], b as [b y], c as [c z]. unfold key_ltb. cbn [fst snd]. intros H1 H2.
  destruct (String.compare a b) eqn:E1; [apply String.compare_eq_iff in E1 as -> | done |];
    destruct (String.compare b c) eqn:E2; try done.
  - destruct (String.compare b c) eqn:E3; try done. by destruct x, y, z.
  - apply String.compare_eq_iff in E2 as ->. by rewrite E1.
  - pose proof (str_compare_trans a b c) as Ht. rewrite E1, E2 in Ht.
    destruct (String.compare a c) eqn:E3; [|exfalso; by apply Ht | done].
    apply String.compare_eq_iff in E3 as ->. rewrite String.compare_antisym, E2 in E1. done.
Qed.

Lemma key_ltb_refl a : key_ltb a a = false.
Proof.
  unfold key_ltb. pose proof (String.compare_antisym a.1 a.1) as E.
  destruct (String.compare a.1 a.1); [by destruct a.2 | done | done].
Qed.

Lemma key_ltb_asym a b : key_ltb a b = true -> key_ltb b a = false.
Proof.
  unfold key_ltb. rewrite (String.compare_antisym b.1 a.1).
  destruct (String.compare a.1 b.1); cbn; [by destruct a.2, b.2 | done | done].
Qed.

Lemma latest_max s rest x : x ∈ s :: rest -> key_ltb (ci_key (latest s rest)) (ci_key x) = false.
Proof.
  assert (Hge : forall s rest, key_ltb (ci_key (latest s rest)) (ci_key s) = false /\
    forall x, x ∈ rest -> key_ltb (ci_key (latest s rest)) (ci_key x) = false).
  { clear. intros s rest. revert s. induction rest as [|s' rest IH]; intros s; cbn [latest].
    { split; [apply key_ltb_refl | set_solver]. }
    destruct (key_ltb (ci_key s') (ci_key s)) eqn:E.
    - destruct (IH s) as [I1 I2]. split; [done|]. intros x [->|Hx]%elem_of_cons; [|auto].
      eapply key_ltb_trans; [exact I1 | by apply key_ltb_asym].
    - destruct (IH s') as [I1 I2]. split; [by eapply key_ltb_trans|].
      intros x [->|Hx]%elem_of_cons; auto. }
  destruct (Hge s rest) as [H1 H2]. intros [->|Hx]%elem_of_cons; auto.
Qed.

(** ** Properties *)

(** Of the statuses of a commit exactly one counts for each context, one of that
    context than which none of the context is more recent, a finished one being later
    than a pending one of the same time; and the commit is a success exactly when
    those all are (so also without any status). *)
Theorem ci_status_decision statuses :
  (forall s, s ∈ Status.s_statuses (Status.init statuses) ->
     s ∈ statuses /\ forall x, x ∈ statuses -> ci_context x = ci_context s ->
       key_ltb (ci_key s) (ci_key x) = false) /\
  (forall x, x ∈ statuses -> exists s, s ∈ Status.s_statuses (Status.init statuses) /\ ci_context s = ci_context x) /\
  (Status.is_success (Status.init statuses) = true <->
   Forall (fun s => ci_state s = "success") (Status.s_statuses (Status.init statuses))).
Proof.
  cbn [Status.init Status.s_statuses]. split_and!.
  - intros s (a & l & Hf & Hs)%relevant_spec. split.
    + pose proof (latest_in a l) as Hin. rewrite <- Hs, <- Hf in Hin. by apply list_elem_of_filter in Hin as [_ ?].
    + intros x Hx Hc. rewrite Hs. apply latest_max. rewrite <- Hf. by apply list_elem_of_filter.
  - intros x Hx. destruct (filter (fun y => ci_context y = ci_context x) statuses) as [|a l] eqn:Ef.
    { exfalso. eapply (not_elem_of_nil x). rewrite <- Ef. by apply list_elem_of_filter. }
    assert (Hc : ci_context (latest a l) = ci_context x).
    { pose proof (latest_in a l) as Hin. rewrite <- Ef in Hin. by apply list_elem_of_filter in Hin as [? _]. }
    exists (latest a l). split; [|done]. apply relevant_spec. exists a, l. by rewrite Hc.
  - unfold Status.is_success, Status.init. cbn [Status.s_state]. rewrite bool_decide_eq_true.
    rewrite <- (Forall_fmap ci_state (fun s => s = "success")). unfold state_of.
    set (ss := ci_state <$> _).
    destruct (forallb (fun s => bool_decide (s = "success")) ss) eqn:E.
    + split; [|done]. intros _. apply Forall_forall. intros s Hs.
      apply list_elem_of_In in Hs. rewrite forallb_forall in E. eapply bool_decide_eq_true_1, E, Hs.
    + split; [by repeat case_match|]. intros Ha. exfalso. rewrite <- not_true_iff_false in E. apply E.
      apply forallb_forall. intros s Hs%list_elem_of_In. apply bool_decide_eq_true.
      by apply (proj1 (Forall_forall _ _) Ha).
Qed.
