(* ===== verification/Pathmap.v ===== *)
(** * [worker/helpers/pathmap.py]: matching uploaded paths with the files of the repository

    The files are kept in a tree indexed by their path components from right to
    left, in lower case.  A lookup walks the tree along the components of a
    path.  It accumulates its answers in [results], which is the list
    [full_paths] of the last file it passed, not a copy: extending [results]
    extends that node.  A lookup therefore returns the tree it leaves, and
    [results_ref] says which list [results] is. *)
From S2P Require Export PyPath.
#[local] Open Scope string_scope.
#[local] Open Scope list_scope.

Inductive Node : Type := mkNode {
  full_paths : list string;
  children : list (string * Node);
}.

Definition new_node : Node := mkNode [] [].

(** The path components, in reverse order. *)
Definition components_of (path : string) : list string := rev (split "/" path).

(** [Tree.insert], from the node reached so far. *)
Fixpoint insert_at (components : list string) (path : string) (node : Node) : Node :=
  match components with
  | [] => mkNode (full_paths node ++ [path]) (children node)
  | c :: cs =>
      let child := default new_node (od_get (lower c) (children node)) in
      mkNode (full_paths node) (od_set (lower c) (insert_at cs path child) (children node))
  end.

Definition insert (tree : Node) (path : string) : Node := insert_at (components_of path) path tree.

Definition Tree (paths : list string) : Node := foldl insert new_node paths.

(** [_drill]: down a branch without forks, to the first node with files. *)
Fixpoint _drill (node : Node) : option (list string) :=
  match children node with
  | [(_, n)] => if bool_decide (full_paths n = []) then _drill n else Some (full_paths n)
  | _ => None
  end.

(** The list [results] is: the fresh list of the call, or the [full_paths] of
    the node at an address. *)
Inductive results_ref := Fresh | Full_paths (addr : list string).

(** The node at an address, and the replacement of its [full_paths]. *)
Fixpoint node_at (node : Node) (addr : list string) : option Node :=
  match addr with
  | [] => Some node
  | c :: cs => n ← od_get c (children node); node_at n cs
  end.

Fixpoint set_paths_at (node : Node) (addr : list string) (ps : list string) : Node :=
  match addr with
  | [] => mkNode ps (children node)
  | c :: cs =>
      match od_get c (children node) with
      | Some n => mkNode (full_paths node) (od_set c (set_paths_at n cs ps) (children node))
      | None => node
      end
  end.

(** [_recursive_lookup] from the node at [addr]: the final [results] and the
    paths it is extended with. *)
Fixpoint _recursive_lookup (node : Node) (addr components : list string) (results : results_ref)
    (is_end matched : bool) : results_ref * list string :=
  let stop := (results, if negb is_end && matched then default [] (_drill node) else []) in
  match components with
  | [] => stop
  | c :: cs =>
      match od_get (lower c) (children node) with
      | Some child =>
          let end' := negb (bool_decide (full_paths child = [])) in
          let addr' := addr ++ [lower c] in
          _recursive_lookup child addr' cs (if end' then Full_paths addr' else results) end' true
      | None => stop
      end
  end.

(** The contents of [results] after the walk, and the tree it leaves. *)
Definition walk (tree : Node) (path : string) : list string * Node :=
  let '(ref, ext) := _recursive_lookup tree [] (components_of path) Fresh false false in
  match ref with
  | Fresh => (ext, tree)
  | Full_paths addr =>
      let ps := default [] (full_paths <$> node_at tree addr) ++ ext in
      (ps, set_paths_at tree addr ps)
  end.

(** [_get_best_match]: the first of the most similar possibilities. *)
Definition best_step (path : string) (best : b64 * string) (possibility : string) : b64 * string :=
  let r := ratio path possibility in
  if f_ltb best.1 r then (r, possibility) else best.

Definition _get_best_match (path : string) (possibilities : list string) : string :=
  (foldl (best_step path) (B64 true 1 0, "") possibilities).2.

(** [next(x for x in results if len(x) == closest_length)], the length closest
    to the number of ancestors. *)
Definition closest (ancestors : Z) (results : list string) : option string :=
  let dist x := Z.abs (Z.of_nat (String.length x) - ancestors) in
  match results with
  | [] => None
  | x :: xs =>
      let best := foldl (fun b y => if (dist y <? dist b)%Z then y else b) x xs in
      List.find (fun y => (String.length y =? String.length best)%nat) results
  end.

Definition ancestors_set (ancestors : option Z) : bool :=
  match ancestors with Some z => negb (z =? 0)%Z | None => false end.

Definition lookup (tree : Node) (path : string) (ancestors : option Z) : option string * Node :=
  let '(results, tree') := walk tree path in
  (match results with
   | [] => None
   | [r] => Some r
   | _ =>
       if startswith "/" (str_replace "." "" path) && ancestors_set ancestors
       then closest (default 0%Z ancestors) results
       else Some (_get_best_match path (rev results))
   end, tree').

(** [_clean_path]. *)
Definition _clean_path (cwd path : string) : result string :=
  relpath cwd
    (str_replace "\" "/" (str_replace "\ " " " (str_replace (String CR "") "" (str_replace "**/" "" (strip path))))).

(** [l[k:]], for an index of either sign. *)
Definition slice_from {A} (k : Z) (l : list A) : list A :=
  if (k <? 0)%Z then drop (length l - Z.to_nat (- k)) l else drop (Z.to_nat k) l.

Definition _check_ancestors (path mtch : string) (ancestors : Z) : bool :=
  let pl := lower path in
  let ml := lower mtch in
  String.eqb pl ml
  || (length (split "/" ml) <? length (split "/" pl))%nat && endswith ml pl
  || endswith (join "/" (slice_from ((ancestors + 1) * -1) (split "/" pl))) ml.

(** [Tree.resolve_path]: the file, and the tree the lookup leaves. *)
Definition resolve_path (cwd : string) (tree : Node) (path : string) (ancestors : option Z)
    : result (option string * Node) :=
  path ← _clean_path cwd path;
  let '(new_path, tree') := lookup tree path ancestors in
  match new_path with
  | Some p =>
      if bool_decide (p = "") then Ok (None, tree')
      else if ancestors_set ancestors && negb (_check_ancestors path p (default 0%Z ancestors))
      then Ok (None, tree')
      else Ok (Some p, tree')
  | None => Ok (None, tree')
  end.

(** ** The files of a tree *)

Definition paths_at (node : Node) (addr : list string) : list string :=
  default [] (full_paths <$> node_at node addr).

(** Where [insert] puts a file. *)
Definition key (path : string) : list string := lower <$> components_of path.

Lemma paths_at_insert cs p n addr :
  paths_at (insert_at cs p n) addr = paths_at n addr ++ (if decide (addr = lower <$> cs) then [p] else []).
Proof.
  revert n addr. induction cs as [|c cs IH]; intros n addr.
  - destruct addr as [|x addr]; cbn; [done|]. by rewrite app_nil_r.
  - cbn [insert_at]. destruct addr as [|x addr]; [cbn; by rewrite app_nil_r|].
    unfold paths_at in *. cbn [node_at children]. rewrite fmap_cons.
    destruct (decide (x = lower c)) as [->|Hne].
    + rewrite od_get_set_eq. cbn [mbind option_bind]. rewrite IH.
      destruct (od_get (lower c) (children n)) as [child|]; cbn.
      * case_decide as E; [subst; by rewrite decide_True|]. rewrite decide_False by congruence. done.
      * destruct addr as [|y addr]; cbn; case_decide as E;
          try (rewrite decide_True by congruence; done); by rewrite decide_False by congruence.
    + rewrite od_get_set_ne by done. rewrite decide_False by congruence. by rewrite app_nil_r.
Qed.

Lemma paths_at_Tree toc addr : paths_at (Tree toc) addr = filter (fun p => addr = key p) toc.
Proof.
  unfold Tree. enough (H : forall n, paths_at (foldl insert n toc) addr =
    paths_at n addr ++ filter (fun p => addr = key p) toc).
  { rewrite H. by destruct addr. }
  induction toc as [|p toc IH]; intros n; cbn [foldl]; [by rewrite app_nil_r|].
  rewrite IH. unfold insert. rewrite paths_at_insert, filter_cons. unfold key at 2.
  destruct (decide _); [|by rewrite app_nil_r]. by rewrite <- app_assoc.
Qed.

Lemma key_lower p : key p = components_of (lower p).
Proof. unfold key, components_of. by rewrite split_lower, <- map_rev. Qed.

Lemma key_inj p q : key p = key q -> lower p = lower q.
Proof.
  rewrite !key_lower. unfold components_of. intros E. apply rev_inj in E.
  rewrite <- (join_split "/" (lower p)), <- (join_split "/" (lower q)) by done. by rewrite E.
Qed.

Lemma key_nonempty p : components_of p <> [].
Proof.
  unfold components_of. intros E. apply (f_equal (@rev string)) in E. rewrite rev_involutive in E.
  by apply split_nonempty in E.
Qed.

Lemma filter_unique {A B} `{EqDecision B} (f : A -> B) l x :
  NoDup (f <$> l) -> x ∈ l -> filter (fun y => f x = f y) l = [x].
Proof.
  induction l as [|y l IH]; [set_solver|]. rewrite fmap_cons, NoDup_cons. intros [Hy Hl] Hx.
  rewrite filter_cons. apply elem_of_cons in Hx as [->|Hx].
  - rewrite decide_True by done. f_equal. apply filter_none, Forall_forall. intros z Hz E.
    apply Hy. rewrite E. by apply (list_elem_of_fmap_2 f).
  - rewrite decide_False; [by apply IH|]. intros E. apply Hy. rewrite <- E.
    by apply (list_elem_of_fmap_2 f).
Qed.

(** ** Lookups *)

(** A path with files at its place is walked to the end. *)
Lemma recursive_lookup_exact n addr cs res e m :
  cs <> [] -> paths_at n (lower <$> cs) <> [] ->
  _recursive_lookup n addr cs res e m = (Full_paths (addr ++ (lower <$> cs)), []).
Proof.
  revert n addr res e m. induction cs as [|c cs IH]; intros n addr res e m Hne Hp; [done|].
  rewrite fmap_cons in *. unfold paths_at in Hp. cbn [node_at] in Hp. cbn [_recursive_lookup].
  destruct (od_get (lower c) (children n)) as [child|] eqn:Ec; [|done].
  cbn [mbind option_bind] in Hp. change (default [] (full_paths <$> node_at child (lower <$> cs)))
    with (paths_at child (lower <$> cs)) in Hp.
  destruct cs as [|c' cs].
  - cbn in Hp |- *. rewrite bool_decide_eq_false_2 by done. done.
  - rewrite IH by done. by rewrite <- app_assoc.
Qed.

Lemma od_set_same {V} k (v : V) (d : odict string V) : od_get k d = Some v -> od_set k v d = d.
Proof.
  induction d as [|[k' v'] d IH]; cbn; [done|]. case_decide; [by intros [= ->]; subst|].
  intros Hg. by rewrite IH.
Qed.

Lemma set_paths_same n addr : set_paths_at n addr (paths_at n addr) = n.
Proof.
  unfold paths_at. revert n. induction addr as [|c cs IH]; intros n; cbn; [by destruct n|].
  destruct (od_get c (children n)) as [child|] eqn:E; cbn; [|done].
  rewrite IH, od_set_same by done. by destruct n.
Qed.

Lemma walk_exact tree p ps :
  paths_at tree (key p) = ps -> ps <> [] -> walk tree p = (ps, tree).
Proof.
  intros Hp Hne. unfold walk. rewrite recursive_lookup_exact; [|apply key_nonempty | by rewrite <- Hp in Hne].
  change (lower <$> components_of p) with (key p). cbn [app].
  change (default [] (full_paths <$> node_at tree (key p))) with (paths_at tree (key p)).
  rewrite app_nil_r, set_paths_same. by rewrite Hp.
Qed.

(** Every file a tree knows satisfies [P]. *)
Definition tree_files (P : string -> Prop) (tree : Node) : Prop :=
  forall addr, Forall P (paths_at tree addr).

Lemma tree_files_child P n c child :
  tree_files P n -> od_get c (children n) = Some child -> tree_files P child.
Proof.
  intros H E addr. specialize (H (c :: addr)). unfold paths_at in *. cbn in H. by rewrite E in H.
Qed.

Lemma drill_files P n : tree_files P n -> forall ps, _drill n = Some ps -> Forall P ps.
Proof.
  revert n. fix IH 1. intros [fp ch] H ps. destruct ch as [|[k c] [|x ch]]; cbn; try discriminate.
  assert (Hc : tree_files P c).
  { apply (tree_files_child P (mkNode fp [(k, c)]) k); [done|]. cbn. by rewrite decide_True. }
  case_bool_decide; [by apply IH|]. intros [= <-]. apply (Hc []).
Qed.

Lemma recursive_lookup_ext P n addr cs res e m :
  tree_files P n -> Forall P (_recursive_lookup n addr cs res e m).2.
Proof.
  revert n addr res e m. induction cs as [|c cs IH]; intros n addr res e m H.
  - cbn. destruct (_ && _); [|done]. destruct (_drill n) eqn:E; [|done]. by apply (drill_files P n).
  - cbn. destruct (od_get (lower c) (children n)) as [child|] eqn:Ec.
    + apply IH. by apply (tree_files_child P n (lower c)).
    + cbn. destruct (_ && _); [|done]. destruct (_drill n) eqn:E; [|done]. by apply (drill_files P n).
Qed.

Lemma paths_at_set n addr ps addr' :
  paths_at (set_paths_at n addr ps) addr' = ps \/
  paths_at (set_paths_at n addr ps) addr' = paths_at n addr'.
Proof.
  revert n addr'. induction addr as [|c cs IH]; intros n addr'; cbn [set_paths_at].
  - destruct addr' as [|c' cs']; [by left | by right].
  - destruct (od_get c (children n)) as [child|] eqn:E; [|by right].
    destruct addr' as [|c' cs']; [by right|]. unfold paths_at in *. cbn [node_at children].
    destruct (decide (c' = c)) as [->|Hne].
    + rewrite od_get_set_eq, E. cbn [mbind option_bind]. apply IH.
    + rewrite od_get_set_ne by done. by right.
Qed.

Lemma walk_files P tree path :
  tree_files P tree -> Forall P (walk tree path).1 /\ tree_files P (walk tree path).2.
Proof.
  intros H. unfold walk.
  pose proof (recursive_lookup_ext P tree [] (components_of path) Fresh false false H) as Hext.
  destruct (_recursive_lookup _ _ _ _ _ _) as [[|addr] ext]; cbn in *; [done|].
  change (default [] (full_paths <$> node_at tree addr)) with (paths_at tree addr).
  assert (Hps : Forall P (paths_at tree addr ++ ext)) by (apply Forall_app; split; [apply H | done]).
  split; [done|]. intros addr'.
  by destruct (paths_at_set tree addr (paths_at tree addr ++ ext) addr') as [-> | ->].
Qed.

Lemma best_match_in path l : l <> [] -> _get_best_match path l ∈ l.
Proof.
  unfold _get_best_match. destruct l as [|p l]; [done|]. intros _. cbn [foldl].
  unfold best_step at 2. cbn [fst]. rewrite ratio_gt_m1. generalize (ratio path p) as r.
  intros r. enough (H : forall b, b.2 ∈ p :: l -> forall l', (forall x, x ∈ l' -> x ∈ p :: l) ->
    (foldl (best_step path) b l').2 ∈ p :: l) by (apply H; [left | by right]).
  clear r. intros b Hb l'. revert b Hb. induction l' as [|x l' IH]; intros b Hb Hl; cbn [foldl]; [done|].
  apply IH; [|set_solver]. unfold best_step. destruct (f_ltb _ _); cbn; [apply Hl; left | done].
Qed.

Lemma closest_in anc l p : closest anc l = Some p -> p ∈ l.
Proof.
  destruct l as [|x xs]; [done|]. unfold closest. intros H%List.find_some.
  apply list_elem_of_In, H.
Qed.

(** A lookup answers with a file of the tree, and leaves a tree of the same files. *)
Lemma lookup_files P tree path anc o tree' :
  tree_files P tree -> lookup tree path anc = (o, tree') ->
  (forall p, o = Some p -> P p) /\ tree_files P tree'.
Proof.
  intros H. unfold lookup. pose proof (walk_files P tree path H) as [Hr Ht].
  destruct (walk tree path) as [results t]. cbn in Hr, Ht. intros [= <- <-]. split; [|done].
  rewrite Forall_forall in Hr. intros p. destruct results as [|r1 [|r2 rs]]; [done | |].
  - intros [= <-]. apply Hr. by left.
  - destruct (_ && _); [intros Hc%closest_in; by apply Hr|]. intros [= <-]. apply Hr.
    apply list_elem_of_In, in_rev, list_elem_of_In, best_match_in.
    intros E. apply (f_equal length) in E. by rewrite length_rev in E.
Qed.

(** The trees the lookups of an upload work on: the tree of its files, after any
    lookups. *)
Inductive reachable (cwd : string) (toc : list string) : Node -> Prop :=
  | reach_init : reachable cwd toc (Tree toc)
  | reach_lookup tree path anc o tree' :
      reachable cwd toc tree -> resolve_path cwd tree path anc = Ok (o, tree') ->
      reachable cwd toc tree'.

Lemma resolve_path_inv cwd tree path anc o tree' :
  resolve_path cwd tree path anc = Ok (o, tree') ->
  exists q o', _clean_path cwd path = Ok q /\ lookup tree q anc = (o', tree') /\
    (forall p, o = Some p -> o' = Some p /\ p <> "" /\
       (ancestors_set anc = true -> _check_ancestors q p (default 0%Z anc) = true)).
Proof.
  unfold resolve_path. intros (q & Hq & H)%bind_Ok_inv. exists q.
  destruct (lookup tree q anc) as [o' t]. exists o'. split; [done|].
  destruct o' as [p'|]; [|by injection H as <- <-]. case_bool_decide as Hp'.
  - by injection H as <- <-.
  - destruct (ancestors_set anc && _) eqn:E; injection H as <- <-; [done|].
    split; [done|]. intros p [= <-]. split_and!; [done | done |]. intros Ha. rewrite Ha in E.
    by apply negb_false_iff in E.
Qed.

Lemma reachable_files cwd toc tree : reachable cwd toc tree -> tree_files (fun p => p ∈ toc) tree.
Proof.
  induction 1 as [|tree path anc o tree' _ IH Hr].
  - intros addr. rewrite paths_at_Tree. apply Forall_forall. intros p. rewrite list_elem_of_filter. tauto.
  - apply resolve_path_inv in Hr as (q & o' & _ & Hl & _).
    by apply (lookup_files _ _ _ _ _ _ IH) in Hl as [_ ?].
Qed.

Lemma key_NoDup toc : NoDup (lower <$> toc) -> NoDup (key <$> toc).
Proof.
  induction toc as [|p toc IH]; intros H; [constructor|]. rewrite fmap_cons in *.
  apply NoDup_cons in H as [Hp H]. apply NoDup_cons. split; [|by apply IH].
  intros (q & E & Hq)%list_elem_of_fmap. apply Hp. apply key_inj in E. rewrite E.
  by apply (list_elem_of_fmap_2 lower).
Qed.

(** ** Properties *)

(** In a repository whose file names differ in more than case, an uploaded
    path that spells a file, up to case and the cleaning of [_clean_path], is
    resolved to that file, whatever the number of ancestors asked for, and the
    lookup leaves the tree as it was. *)
Theorem resolve_path_finds cwd toc p path q anc :
  NoDup (lower <$> toc) -> p ∈ toc -> p <> "" ->
  _clean_path cwd path = Ok q -> lower q = lower p ->
  resolve_path cwd (Tree toc) path anc = Ok (Some p, Tree toc).
Proof.
  intros Hnd Hp Hne Hq Hl. unfold resolve_path. rewrite Hq. cbn [mbind result_bind].
  assert (Ht : paths_at (Tree toc) (key q) = [p]).
  { rewrite paths_at_Tree. rewrite key_lower, Hl, <- key_lower.
    apply filter_unique; [by apply key_NoDup | done]. }
  unfold lookup. rewrite (walk_exact _ _ _ Ht) by done.
  rewrite bool_decide_eq_false_2 by done. unfold _check_ancestors.
  rewrite Hl, String.eqb_refl. cbn [orb negb]. by rewrite andb_false_r.
Qed.

Lemma resolve_path_finds_witness :
  resolve_path "/worker" (Tree ["src/Foo.py"; "src/bar/foo.py"; "README"]) "./SRC/foo.py " (Some 1%Z)
  = Ok (Some "src/Foo.py", Tree ["src/Foo.py"; "src/bar/foo.py"; "README"]).
Proof.
  apply (resolve_path_finds _ _ _ _ "SRC/foo.py"); try (vm_compute; reflexivity); try discriminate.
  - apply (bool_decide_unpack _). vm_compute. exact I.
  - left.
Defined.

(** Whatever lookups were made before, a path is only ever resolved to a
    file of the repository, and, when a number of ancestors is asked for, to one
    that [_check_ancestors] accepts. *)
Theorem resolve_path_sound cwd toc tree path anc p tree' :
  reachable cwd toc tree -> resolve_path cwd tree path anc = Ok (Some p, tree') ->
  p ∈ toc /\ (ancestors_set anc = true ->
    exists q, _clean_path cwd path = Ok q /\ _check_ancestors q p (default 0%Z anc) = true).
Proof.
  intros Hr (q & o' & Hq & Hl & Hp)%resolve_path_inv.
  destruct (Hp p eq_refl) as (-> & _ & Hc). split; [|eauto].
  apply reachable_files in Hr. apply (lookup_files _ _ _ _ _ _ Hr) in Hl as [Hl _]. by apply Hl.
Qed.

Lemma resolve_path_sound_witness :
  exists tree', "x/a/b" ∈ ["b"; "x/a/b"] /\
  resolve_path "/worker" (Tree ["b"; "x/a/b"]) "z/x/a/b" (Some 1%Z) = Ok (Some "x/a/b", tree').
Proof.
  destruct (resolve_path "/worker" (Tree ["b"; "x/a/b"]) "z/x/a/b" (Some 1%Z)) as [[o t]|] eqn:E;
    [|exfalso; vm_compute in E; discriminate E].
  assert (Ho : o = Some "x/a/b") by (vm_compute in E; congruence). subst o.
  exists t. split; [|done].
  exact (proj1 (resolve_path_sound "/worker" ["b"; "x/a/b"] _ "z/x/a/b" (Some 1%Z) _ t
    (reach_init _ _) E)).
Defined.

(** A lookup extends the list of files of the node it passed last, so the
    answers depend on the lookups made before: the path [c/b] is resolved to the
    file [b], but after a lookup of [z/a/b] it is not resolved any more. *)
Theorem lookups_interfere :
  let toc := ["b"; "x/a/b"] in
  exists tree tree' tree'',
    resolve_path "/worker" (Tree toc) "c/b" (Some 1%Z) = Ok (Some "b", Tree toc) /\
    resolve_path "/worker" (Tree toc) "z/a/b" (Some 1%Z) = Ok (tree, tree') /\
    resolve_path "/worker" tree' "c/b" (Some 1%Z) = Ok (None, tree'').
Proof.
  do 3 eexists. split_and!; [vm_compute; reflexivity | vm_compute; reflexivity | vm_compute; reflexivity].
Qed.
