(* ===== verification/PathFixer.v ===== *)
(** * [worker/services/path_fixer]: the paths of a report

    A [PathFixer] maps the path a report names to a file of the repository, or
    to nothing.  It applies the configured fixes, resolves the path in the tree
    of the repository's files, or strips the directories of known build
    environments, and checks the configured patterns.  The tree changes when it
    is looked up, and the fixer of a report file remembers its answers, so both
    fixers return the state they leave.

    The patterns of a configuration are compiled by Python's [re]: [Re] is its
    [match], [ReSearch] its [search].  [set_order] is the order in which a set
    of strings is enumerated, which Python leaves unspecified. *)
From S2P Require Export Match UserYaml Pathmap PyRe PyStr.
#[local] Open Scope string_scope.
#[local] Open Scope list_scope.

Class ReSearch : Type := {
  (** The text before the first match, the groups of the match, the text after it. *)
  re_search : string -> result (string -> option (string * list (option string) * string));
}.

(** ** [fixpaths.py] *)

Definition remove_known_bad_paths_regex : regex :=
  let home_or_users := Alt (Lit "home") (Lit "Users") in
  let name := Plus NotSlash in
  let dir := Cats [name; Lit "/"] in
  let any := Star Any in
  Cat (Star (Cat (Star (Char ".")) (Lit "/")))
    (Opt (Alts [
      Cats [home_or_users; Lit "/travis/build/"; dir; dir];
      Cats [home_or_users; Lit "/jenkins/jobs/"; name; Lit "/workspace/"];
      Cats [Lit "Users/distiller/"; dir];
      Cats [Lit "home/"; name; Lit "/src/"; Rep 3 dir];
      Cats [home_or_users; Lit "/"; name; Lit "/workspace/"; dir; dir];
      Cats [any; Lit "/jenkins/workspace/"; dir];
      Cats [Opt (Cats [Plus Any; Lit "/src/"]); Lit "github.com/"; dir; dir];
      Cats [Word; Lit ":/Repos/"; dir; dir];
      Cats [Plus (Alts [Word; Char ":"; Char "/"]); Lit "projects/"; dir];
      Cats [Word; Lit ":/_build/GitHub/"; dir];
      Cats [Lit "build/lib."; dir];
      Lit "home/circleci/code/";
      Lit "home/circleci/repo/";
      Cats [Lit "vendor/src/"; any];
      Lit "pipeline/source/";
      Lit "var/snap-ci/repo/";
      Cats [Lit "home/ubuntu/"; dir];
      Cats [any; Lit "/site-packages/"; name; Lit ".egg/"];
      Cats [any; Lit "/site-packages/"];
      Cats [Lit "usr/local/lib/"; name; Lit "/dist-packages/"];
      Cats [any; Lit "/slather/spec/fixtures/"; any];
      Cats [any; Lit "/target/generated-sources/"; any];
      Cats [any; Lit "/.phpenv/"; any];
      Cats [any; Lit "/Debug-iphonesimulator/ReactiveCocoa.build/DerivedSources/RA"; any];
      Cats [Lit "usr/include/"; any];
      Cats [any; Lit "/handlebars.js/dist/"; any];
      Cats [Lit "node_modules/"; any];
      Cats [Lit "bower_components/"; any];
      Cats [any; Lit "/lib/clang/"; any];
      Cats [any; Alt (Char "<") (Char ">"); any];
      Cats [Word; Lit ":/"];
      Cats [any; Lit "/mac-coverage/build/src/"; any];
      Cats [Lit "opt/"; any; Lit "/dist-packages/"; any];
      Cats [any; Lit "/iPhoneSimulator"; Any; Lit "platform/Developer/SDKs/"; any];
      Cats [Lit "Applications/Xcode.app/Contents/Developer/Toolchains/"; any];
      Cats [Opt (Cats [any; Lit "/"]); Opt (Char "."); Opt (Char "v"); Opt (Lit "irtual"); Opt (Char "."); Lit "env";
            Opt (Char "s"); Opt (Cats [Lit "-"; name]); Lit "/"; any; Lit "/"; name; Lit ".py"; Eol];
      Cats [Lit "Users/"; name; Lit "/Projects/"; any; Lit "/Pods/"; any];
      Cats [Lit "Users/"; name; Lit "/Projects/"; dir];
      Cats [Lit "home/"; dir; dir; dir]])).

(** [remove_known_bad_paths("", path)]. *)
Definition remove_known_bad_paths (path : string) : string :=
  remove_at_line_starts remove_known_bad_paths_regex path.

(** [unquote_git_path]: the characters and escaped bytes of a quoted path. *)
Definition octal_digit (c : ascii) : option Z :=
  let n := Z.of_N (N_of_ascii c) in if ((48 <=? n) && (n <=? 55))%Z then Some (n - 48)%Z else None.

(** [int(s, 8)] of the three characters after a backslash, the first of which
    is an octal digit: blanks and an underscore are accepted by [int]. *)
Definition octal_value (s : string) : result Z :=
  foldM (fun acc c =>
    match octal_digit c with
    | Some d => Ok (acc * 8 + d)%Z
    | None => if is_space c || bool_decide (c = "_"%char) then Err Unmodelled else Err ValueError
    end) 0%Z (String.list_ascii_of_string s).

Fixpoint unquote_bytes (fuel : nat) (path : string) : result (list Z) :=
  match fuel, path with
  | _, EmptyString => Ok []
  | O, _ => Ok []
  | S fuel', String c r =>
      if bool_decide (c = "\"%char) then
        match r with
        | EmptyString => Err IndexError
        | String c' r' =>
            if bool_decide (c' = "r"%char) then unquote_bytes fuel' r'
            else if bool_decide (octal_digit c' <> None) then
              b ← octal_value (str_take 3 r);
              bs ← unquote_bytes fuel' (str_drop 3 r); Ok (b :: bs)
            else bs ← unquote_bytes fuel' r'; Ok (Z.of_N (N_of_ascii c') :: bs)
        end
      else bs ← unquote_bytes fuel' r; Ok (Z.of_N (N_of_ascii c) :: bs)
  end.

(** [bytes(rv)] fails on a value above 255; a [UnicodeDecodeError] is a [ValueError]. *)
Definition unquote_git_path (path : string) : result string :=
  bs ← unquote_bytes (String.length path) path;
  if forallb (fun b => b <? 256)%Z bs then utf8_decode bs else Err ValueError.

(** One path of [clean_toc]: [None] when it is discarded. *)
Definition dquote : string := String "034"%char EmptyString.
Definition clean_toc_path (path : string) : result (option string) :=
  path ← (if startswith dquote path && endswith dquote path
          then unquote_git_path (str_take (String.length path - 2) (str_drop 1 path)) else Ok path);
  let path := str_replace "\" "/" (str_replace "\ " " " path) in
  let path := if startswith "./" path then str_drop 2 path else path in
  Ok (if str_contains "/target/delombok/" path then None else Some path).

Definition clean_toc (toc : string) : result (list string) :=
  ps ← traverse clean_toc_path (split nl (strip toc)); Ok (omap (M := list) id ps).

(** ** [match.py] and [user_path_includes.py] *)

Definition regexp_match_one (regexp_patterns : list (string -> bool)) (path : string) : bool :=
  existsb (fun p => p path) regexp_patterns.

Record UserPathIncludes : Type := mkIncludes {
  path_patterns : list string;
  include_all : bool;
  includes : list (string -> bool);
  excludes : list (string -> bool);
}.

Section path_fixer.
Context `{Re, ReSearch}.
Variable set_order : list string -> list string.
Variable cwd : string.

Definition UserPathIncludes_init (path_patterns : list string) : result UserPathIncludes :=
  match path_patterns with
  | [] => Ok (mkIncludes [] false [] [])
  | _ =>
      let incl := filter (fun p => startswith "!" p = false) path_patterns in
      let excl := filter (fun p => startswith "!" p = true) path_patterns in
      let all := bool_decide (".*" ∈ path_patterns) || bool_decide (incl = []) in
      incl_re ← (if all then Ok [] else traverse re_compile incl);
      excl_re ← (if bool_decide ("!.*" ∈ path_patterns) then Ok []
                 else traverse (fun e => re_compile (str_drop 1 e)) excl);
      Ok (mkIncludes path_patterns all incl_re excl_re)
  end.

Definition UserPathIncludes_call (upi : UserPathIncludes) (value : string) : bool :=
  if bool_decide (path_patterns upi = []) then true
  else if bool_decide (value = "") then false
  else if include_all upi then
    if bool_decide (excludes upi = []) then true else negb (regexp_match_one (excludes upi) value)
  else if regexp_match_one (includes upi) value then
    negb (negb (bool_decide (excludes upi = [])) && regexp_match_one (excludes upi) value)
  else false.

(** ** [user_path_fixes.py] *)

(** [_star_to_glob(r"[^\/\n]+", fix)]: a star that no dot precedes; the
    template's [\n] is a newline.  [dot] says whether a dot came just before. *)
Fixpoint _star_to_glob (dot : bool) (fix_ : string) : string :=
  match fix_ with
  | EmptyString => EmptyString
  | String c r =>
      if bool_decide (c = "*"%char) && negb dot
      then "[^\/" +:+ nl +:+ "]+" +:+ _star_to_glob false r
      else String c (_star_to_glob (bool_decide (c = "."%char)) r)
  end.

Definition _fixpaths_regs (fix_ : string) : string :=
  lstrip_chars "/" (_star_to_glob false (str_replace "**" ".*" fix_)).

Record UserPathFixes : Type := mkFixes {
  prefix : string;
  sub_regex : option (string -> option (string * list (option string) * string));
  sub_replacements : list string;
}.

(** [fix.split("::")[1]]. *)
Definition replacement_of (fix_ : string) : result string :=
  match split "::" fix_ with _ :: r :: _ => Ok r | _ => Err IndexError end.

Definition UserPathFixes_init (yaml_fixes : list string) : result UserPathFixes :=
  let all := remove_dups yaml_fixes in
  let prefixes := set_order (filter (fun f => startswith "::" f = true) all) in
  let custom_fixes := set_order (filter (fun f => startswith "::" f = false) all) in
  let prefix := join "/" ((fun p => rstrip_chars "/" (str_drop 2 p)) <$> prefixes) in
  match custom_fixes with
  | [] => Ok (mkFixes prefix None [])
  | _ =>
      let sources := (fun f => _fixpaths_regs (hd "" (split "::" f))) <$> custom_fixes in
      re ← re_search ("^(" +:+ join ")|(" sources +:+ ")");
      reps ← traverse replacement_of custom_fixes;
      Ok (mkFixes prefix (Some re) reps)
  end.

(** The replacement of the first group that matched some text. *)
Fixpoint _replacement_fn (groups : list (option string)) (replacements : list string) : result string :=
  match groups, replacements with
  | Some g :: gs, r :: rs => if bool_decide (g = "") then _replacement_fn gs rs else Ok r
  | None :: gs, _ :: rs => _replacement_fn gs rs
  | _, _ => Err AssertionError
  end.

Definition UserPathFixes_call (upf : UserPathFixes) (path : string) (should_add_prefixes : bool) : result string :=
  let path := if should_add_prefixes && negb (bool_decide (prefix upf = ""))
              then prefix upf +:+ "/" +:+ path else path in
  path ← (match sub_regex upf with
          | Some re =>
              match re path with
              | Some (before, groups, after) =>
                  r ← _replacement_fn groups (sub_replacements upf); Ok (before +:+ r +:+ after)
              | None => Ok path
              end
          | None => Ok path
          end);
  Ok (lstrip_chars "/" (str_replace "//" "/" path)).

(** ** [PathFixer] *)

Definition invert_pattern (s : string) : string :=
  if startswith "!" s then str_drop 1 s else "!" +:+ s.

Record PathFixer : Type := mkFixer {
  toc : list string;
  yaml_fixes : list string;
  custom_fixes : UserPathFixes;
  path_matcher : UserPathIncludes;
  tree : option Node;
}.

Definition PathFixer_init (yaml_fixes path_patterns toc : list string) (should_disable_default_pathfixes : bool)
    : result PathFixer :=
  fixes ← UserPathFixes_init yaml_fixes;
  matcher ← UserPathIncludes_init (remove_dups path_patterns);
  Ok (mkFixer toc yaml_fixes fixes matcher
        (if negb (bool_decide (toc = [])) && negb should_disable_default_pathfixes
         then Some (Tree toc) else None)).

(** A list of strings of the configuration, [None] and empty values counting as
    the empty list. *)
Definition str_list_or_empty (v : pyval) : result (list string) :=
  if truthy v then
    match v with
    | VList l => traverse (fun x => match x with VStr s => Ok s | _ => Err Unmodelled end) l
    | _ => Err Unmodelled
    end
  else Ok [].

(** The patterns one flag adds. *)
Definition flag_patterns (commit_yaml : pyval) (flag : string) : result (list string) :=
  c ← get_flag_configuration commit_yaml flag;
  let c := if truthy c then c else empty_dict in
  ign ← dict_get c "ignore" VNone; ign ← str_list_or_empty ign;
  pths ← dict_get c "paths" VNone; pths ← str_list_or_empty pths;
  Ok ((invert_pattern <$> ign) ++ pths).

Definition init_from_user_yaml (commit_yaml : pyval) (toc : list string) (flags : list string) : result PathFixer :=
  ignore ← read_yaml_field commit_yaml ["ignore"] VNone;
  ignore ← str_list_or_empty ignore;
  of_flags ← traverse (flag_patterns commit_yaml) flags;
  disable ← read_yaml_field commit_yaml ["codecov"; "disable_default_path_fixes"] VNone;
  fixes ← read_yaml_field commit_yaml ["fixes"] VNone;
  fixes ← str_list_or_empty fixes;
  PathFixer_init fixes ((invert_pattern <$> ignore) ++ concat of_flags) toc (truthy disable).

(** [os.path.relpath(path.replace("\\", "/").lstrip("./").lstrip("../"))]. *)
Definition strip_leading (path : string) : result string :=
  relpath cwd (lstrip_chars "../" (lstrip_chars "./" (str_replace "\" "/" path))).

Definition fixes_applied (pf : PathFixer) (path : string) (should_add_prefixes : bool) : result string :=
  if bool_decide (yaml_fixes pf = []) then Ok path
  else UserPathFixes_call (custom_fixes pf) path should_add_prefixes.

(** The middle step: the file of the tree, or the path without known bad directories. *)
Definition resolved (pf : PathFixer) (path : string) : result (option string * PathFixer) :=
  match tree pf with
  | Some t =>
      '(o, t') ← resolve_path cwd t path (Some 1%Z);
      Ok (o, mkFixer (toc pf) (yaml_fixes pf) (custom_fixes pf) (path_matcher pf) (Some t'))
  | None => Ok (Some (if bool_decide (toc pf = []) then remove_known_bad_paths path else path), pf)
  end.

Definition clean_path (pf : PathFixer) (path : string) : result (option string * PathFixer) :=
  if bool_decide (path = "") then Ok (None, pf)
  else
    path ← strip_leading path;
    path ← fixes_applied pf path false;
    '(o, pf') ← resolved pf path;
    match o with
    | None => Ok (None, pf')
    | Some path =>
        path ← fixes_applied pf path true;
        Ok (if UserPathIncludes_call (path_matcher pf) path then Some path else None, pf')
    end.

(** ** [BasePathAwarePathFixer] *)

(** [[pure_path.parent]] of the path of the report file, as the string
    [os.path.join] makes of it.  A path with a drive is a Windows path; a UNC
    drive is not modelled. *)
Definition tail_of (rel : string) : list string :=
  filter (fun x => x <> "" /\ x <> ".") (split "/" rel).

Definition parent_of (base_path : string) : result string :=
  let p := str_replace "\" "/" base_path in
  if startswith "//" p then Err Unmodelled
  else
    let '(drive, rest) :=
      match p with String _ (String ":" r) => (str_take 2 p, r) | _ => ("", p) end in
    let tail := removelast (tail_of rest) in
    let root := startswith "/" rest in
    if bool_decide (drive = "") then
      let s := (if root then "/" else "") +:+ join "/" tail in
      Ok (if bool_decide (s = "") then "." else s)
    else Ok (drive +:+ (if root then "\" else "") +:+ join "\" tail).

Definition base_paths (base_path : option string) : result (list string) :=
  match base_path with
  | None => Ok []
  | Some p => if bool_decide (p = "") then Ok [] else p ← parent_of p; Ok [p]
  end.

(** The fixer of a report file: the answers it remembers, and the fixer of the
    upload, which the report files share. *)
Record BasePathAwarePathFixer : Type := mkBase {
  _resolved_paths : odict (string * list string) (option string);
  original_path_fixer : PathFixer;
  base_path : list string;
}.

Definition get_relative_path_aware_pathfixer (pf : PathFixer) (base : option string) : result BasePathAwarePathFixer :=
  bases ← base_paths base; Ok (mkBase [] pf bases).

(** The loop over the base paths, up to the first that resolves. *)
Fixpoint try_bases (pf : PathFixer) (path : string) (bases : list string) : result (option string * PathFixer) :=
  match bases with
  | [] => Ok (None, pf)
  | b :: bases' =>
      '(o, pf') ← clean_path pf (path_join b path);
      match o with Some p => Ok (Some p, pf') | None => try_bases pf' path bases' end
  end.

Definition _try_fix_path (pf : PathFixer) (base_path : list string) (path : string) (bases_to_try : list string)
    : result (option string * PathFixer) :=
  '(o, pf') ← clean_path pf path;
  match o with
  | Some p => Ok (Some p, pf')
  | None =>
      if bool_decide (base_path = []) && bool_decide (bases_to_try = []) || bool_decide (toc pf' = [])
      then Ok (None, pf')
      else if isabs path then Ok (None, pf')
      else try_bases pf' path (base_path ++ bases_to_try)
  end.

Definition fix_path (bpf : BasePathAwarePathFixer) (path : string) (bases_to_try : list string)
    : result (option string * BasePathAwarePathFixer) :=
  if bool_decide (path = "") then Ok (None, bpf)
  else
    let key := (path, bases_to_try) in
    match od_get key (_resolved_paths bpf) with
    | Some o => Ok (o, bpf)
    | None =>
        '(o, pf') ← _try_fix_path (original_path_fixer bpf) (base_path bpf) path bases_to_try;
        Ok (o, mkBase (od_set key o (_resolved_paths bpf)) pf' (base_path bpf))
    end.
End path_fixer.

(** ** Lemmas *)
Section patterns.
Context `{Re}.

Definition re_matches (value pattern : string) : Prop :=
  exists m, re_compile pattern = Ok m /\ m value = true.

Lemma compiled_match (f : string -> string) ps ms value :
  traverse (fun p => re_compile (f p)) ps = Ok ms ->
  regexp_match_one ms value = true <-> Exists (fun p => re_matches value (f p)) ps.
Proof.
  rewrite traverse_Forall2. unfold regexp_match_one. induction 1 as [|p m ps ms Hp _ IH]; cbn.
  - by rewrite Exists_nil.
  - rewrite orb_true_iff, IH, Exists_cons. apply or_iff_compat_r. unfold re_matches. rewrite Hp.
    split; [eauto|]. by intros (? & [= <-] & ?).
Qed.

Lemma compiled_nil (f : string -> string) ps ms :
  traverse (fun p => re_compile (f p)) ps = Ok ms -> ms = [] -> ps = [].
Proof. intros Hl%traverse_length ->. by destruct ps. Qed.

(** The patterns a path is included by, and excluded by. *)
Definition included (ps : list string) (value : string) : Prop :=
  ".*" ∈ ps \/ Forall (fun p => startswith "!" p = true) ps \/
  Exists (fun p => startswith "!" p = false /\ re_matches value p) ps.
Definition excluded (ps : list string) (value : string) : Prop :=
  "!.*" ∉ ps /\ Exists (fun p => startswith "!" p = true /\ re_matches value (str_drop 1 p)) ps.

Lemma Exists_filter {A} (P Q : A -> Prop) `{!forall x, Decision (P x)} l :
  Exists Q (filter P l) <-> Exists (fun x => P x /\ Q x) l.
Proof. rewrite !Exists_exists. setoid_rewrite list_elem_of_filter. naive_solver. Qed.

Lemma filter_nil_iff {A} (P : A -> Prop) `{!forall x, Decision (P x)} l :
  filter P l = [] <-> Forall (fun x => ~ P x) l.
Proof.
  split; [|apply filter_none]. intros E. apply Forall_forall. intros x Hx Hp.
  assert (Hin : x ∈ filter P l) by by apply list_elem_of_filter.
  rewrite E in Hin. by apply not_elem_of_nil in Hin.
Qed.

Lemma UserPathIncludes_excludes ps ms value :
  (if bool_decide ("!.*" ∈ ps) then Ok []
   else traverse (fun e => re_compile (str_drop 1 e)) (filter (fun p => startswith "!" p = true) ps)) = Ok ms ->
  regexp_match_one ms value = true <-> excluded ps value.
Proof.
  unfold excluded. destruct (bool_decide_reflect ("!.*" ∈ ps)) as [E|E].
  - intros [= <-]. split; [done | by intros [? _]].
  - intros Hm. rewrite (compiled_match (str_drop 1) _ _ _ Hm), Exists_filter. tauto.
Qed.

Lemma UserPathIncludes_includes ps ms value :
  bool_decide (".*" ∈ ps) || bool_decide (filter (fun p => startswith "!" p = false) ps = []) = false ->
  traverse re_compile (filter (fun p => startswith "!" p = false) ps) = Ok ms ->
  regexp_match_one ms value = true <-> included ps value.
Proof.
  intros [Ha Hn]%orb_false_iff Hm. apply bool_decide_eq_false in Ha, Hn.
  rewrite (compiled_match (fun p => p) _ _ _ Hm), Exists_filter. unfold included.
  rewrite filter_nil_iff in Hn.
  assert (~ Forall (fun p => startswith "!" p = true) ps); [|tauto].
  intros Hf. apply Hn. eapply Forall_impl; [exact Hf|]. cbn. intros p -> . done.
Qed.

End patterns.

(** ** The files a fixer answers with *)
Section answers.
Context `{Re, ReSearch}.
Variable set_order : list string -> list string.
Variable cwd : string.

(** The state of an upload's fixer that has a tree: the configuration it was
    built with, and a tree of files of the repository. *)
Definition fixer_ok (pf0 pf : PathFixer) : Prop :=
  exists t, tree pf = Some t /\ tree_files (fun p => p ∈ toc pf0) t /\
    pf = mkFixer (toc pf0) (yaml_fixes pf0) (custom_fixes pf0) (path_matcher pf0) (Some t).

(** A path stands for a file of the repository: the file, with the configured
    fixes applied, is that path, and the patterns include it. *)
Definition names_file (pf0 : PathFixer) (r : string) : Prop :=
  exists p, p ∈ toc pf0 /\ fixes_applied pf0 p true = Ok r /\
    UserPathIncludes_call (path_matcher pf0) r = true.

Lemma fixes_applied_ok pf0 pf path b : fixer_ok pf0 pf -> fixes_applied pf path b = fixes_applied pf0 path b.
Proof. by intros (t & _ & _ & ->). Qed.

Lemma clean_path_files pf0 pf path o pf' :
  fixer_ok pf0 pf -> clean_path cwd pf path = Ok (o, pf') ->
  fixer_ok pf0 pf' /\ (forall r, o = Some r -> names_file pf0 r).
Proof.
  intros Hok. unfold clean_path. case_bool_decide; [by intros [= <- <-]|].
  intros (q & _ & (q1 & _ & Hr)%bind_Ok_inv)%bind_Ok_inv.
  apply bind_Ok_inv in Hr as ([o' pf1] & Hres & Hr).
  assert (Hok1 : fixer_ok pf0 pf1 /\ forall p, o' = Some p -> p ∈ toc pf0).
  { unfold resolved in Hres. destruct Hok as (t & Ht & Hfiles & Hpf). rewrite Ht in Hres.
    apply bind_Ok_inv in Hres as ([o1 t'] & Hl & [= <- <-]).
    apply resolve_path_inv in Hl as (q2 & o2 & _ & Hl & Ho).
    apply (lookup_files _ _ _ _ _ _ Hfiles) in Hl as [Hp Ht']. split.
    - exists t'. by rewrite Hpf.
    - intros p Hp'. apply Hp. by apply Ho in Hp' as [? _]. }
  destruct Hok1 as [Hok1 Hp]. destruct o' as [p|]; [|by injection Hr as <- <-].
  apply bind_Ok_inv in Hr as (r & Hf & [= <- <-]). split; [done|].
  intros r' Hr'. destruct (UserPathIncludes_call (path_matcher pf) r) eqn:E; [|done].
  injection Hr' as <-. exists p. split; [by apply Hp|]. rewrite <- (fixes_applied_ok pf0 pf) by done.
  split; [done|]. by destruct Hok as (t & _ & _ & ->).
Qed.

Lemma try_bases_files pf0 bases pf path o pf' :
  fixer_ok pf0 pf -> try_bases cwd pf path bases = Ok (o, pf') ->
  fixer_ok pf0 pf' /\ (forall r, o = Some r -> names_file pf0 r).
Proof.
  revert pf. induction bases as [|b bases IH]; intros pf Hok; cbn; [by intros [= <- <-]|].
  intros ([o1 pf1] & Hc & Hr)%bind_Ok_inv.
  apply (clean_path_files pf0) in Hc as [Hok1 Ho]; [|done].
  destruct o1 as [p|]; [|by apply (IH pf1)]. by injection Hr as <- <-.
Qed.

Lemma try_fix_path_files pf0 base pf path bases o pf' :
  fixer_ok pf0 pf -> _try_fix_path cwd pf base path bases = Ok (o, pf') ->
  fixer_ok pf0 pf' /\ (forall r, o = Some r -> names_file pf0 r).
Proof.
  intros Hok. unfold _try_fix_path. intros ([o1 pf1] & Hc & Hr)%bind_Ok_inv.
  apply (clean_path_files pf0) in Hc as [Hok1 Ho]; [|done].
  destruct o1 as [p|]; [by injection Hr as <- <-|].
  destruct (_ || _); [by injection Hr as <- <-|].
  destruct (isabs path); [by injection Hr as <- <-|]. by apply (try_bases_files pf0) in Hr.
Qed.

(** The states of the fixers of an upload: report files are opened one after the
    other, the later ones with the upload's fixer as the earlier ones left it. *)
Inductive fixing (pf0 : PathFixer) : BasePathAwarePathFixer -> Prop :=
  | fixing_open base bpf :
      get_relative_path_aware_pathfixer pf0 base = Ok bpf -> fixing pf0 bpf
  | fixing_next bpf base bpf' :
      fixing pf0 bpf -> get_relative_path_aware_pathfixer (original_path_fixer bpf) base = Ok bpf' ->
      fixing pf0 bpf'
  | fixing_path bpf path bases o bpf' :
      fixing pf0 bpf -> fix_path cwd bpf path bases = Ok (o, bpf') -> fixing pf0 bpf'.

Definition answers_ok (pf0 : PathFixer) (bpf : BasePathAwarePathFixer) : Prop :=
  fixer_ok pf0 (original_path_fixer bpf) /\
  forall k r, od_get k (_resolved_paths bpf) = Some (Some r) -> names_file pf0 r.

Lemma fix_path_files pf0 bpf path bases o bpf' :
  answers_ok pf0 bpf -> fix_path cwd bpf path bases = Ok (o, bpf') ->
  answers_ok pf0 bpf' /\ (forall r, o = Some r -> names_file pf0 r).
Proof.
  intros [Hok Hans]. unfold fix_path. case_bool_decide; [by intros [= <- <-]|].
  destruct (od_get _ _) as [o1|] eqn:E.
  - intros [= <- <-]. split; [done|]. intros r ->. by apply (Hans _ _ E).
  - intros ([o1 pf1] & Hc & [= <- <-])%bind_Ok_inv.
    apply (try_fix_path_files pf0) in Hc as [Hok1 Ho]; [|done]. split; [|done]. split; [done|].
    intros k r. cbn. destruct (decide (k = (path, bases))) as [->|Hne].
    + rewrite od_get_set_eq. intros [= ->]. by apply Ho.
    + rewrite od_get_set_ne by done. apply Hans.
Qed.

Lemma open_answers pf0 pf base bpf :
  fixer_ok pf0 pf -> get_relative_path_aware_pathfixer pf base = Ok bpf -> answers_ok pf0 bpf.
Proof.
  intros Hok. unfold get_relative_path_aware_pathfixer. intros (b & _ & [= <-])%bind_Ok_inv. done.
Qed.

Lemma fixing_answers pf0 bpf : fixer_ok pf0 pf0 -> fixing pf0 bpf -> answers_ok pf0 bpf.
Proof.
  intros Hok0. induction 1 as [base bpf Ho|bpf base bpf' _ IH Ho|bpf path bases o bpf' _ IH Hf].
  - by apply (open_answers pf0 pf0 base).
  - destruct IH as [Hok _]. by apply (open_answers pf0 (original_path_fixer bpf) base).
  - by apply (fix_path_files pf0) in Hf as [? _].
Qed.

Lemma PathFixer_init_ok fixes patterns files pf :
  files <> [] -> PathFixer_init set_order fixes patterns files false = Ok pf -> fixer_ok pf pf.
Proof.
  intros Hne. unfold PathFixer_init. intros (f & _ & (mt & _ & [= <-])%bind_Ok_inv)%bind_Ok_inv.
  rewrite bool_decide_eq_false_2 by done. exists (Tree files). split_and!; [done | | done].
  apply (reachable_files ""), reach_init.
Qed.
End answers.

(** ** Properties *)

(** A path is included exactly when there are no patterns, or it is not
    empty, a pattern without exclamation mark matches it (or there is none, or
    [.*] is among them), and no pattern behind an exclamation mark does; the
    pattern [!.*] turns all the excluding patterns off. *)
Theorem UserPathIncludes_decides `{Re} ps upi value :
  UserPathIncludes_init ps = Ok upi ->
  UserPathIncludes_call upi value = true <->
  ps = [] \/ (value <> "" /\ included ps value /\ ~ excluded ps value).
Proof.
  unfold UserPathIncludes_init. destruct ps as [|p ps']; [intros [= <-]; tauto|].
  set (ps := p :: ps'). intros (ms & Hin & (es & Hex & [= <-])%bind_Ok_inv)%bind_Ok_inv.
  apply UserPathIncludes_excludes with (value := value) in Hex.
  unfold UserPathIncludes_call. cbn [path_patterns include_all includes excludes].
  rewrite bool_decide_eq_false_2 by done.
  destruct (bool_decide_reflect (value = "")) as [->|Hv]; [intuition discriminate|].
  assert (Hes : (if bool_decide (es = []) then true else negb (regexp_match_one es value)) =
                negb (regexp_match_one es value)).
  { destruct (bool_decide_reflect (es = [])) as [->|]; done. }
  assert (Hes' : negb (negb (bool_decide (es = [])) && regexp_match_one es value) =
                 negb (regexp_match_one es value)).
  { destruct (bool_decide_reflect (es = [])) as [->|]; done. }
  assert (Hex' : negb (regexp_match_one es value) = true <-> ~ excluded ps value).
  { rewrite <- Hex, negb_true_iff. by destruct (regexp_match_one es value). }
  destruct (_ || _) eqn:Eall.
  - rewrite Hes, Hex'. assert (included ps value); [|split; [tauto | by intros [|]; [|tauto]]].
    unfold included. apply orb_true_iff in Eall as [E|E]; apply bool_decide_eq_true in E; [by left|].
    right; left. rewrite filter_nil_iff in E. eapply Forall_impl; [exact E|]. cbn. intros x Hx.
    by destruct (startswith "!" x).
  - apply UserPathIncludes_includes with (value := value) in Hin; [|done].
    destruct (regexp_match_one ms value); [|split; [done | intros [|(? & ?%Hin & ?)]; done]].
    rewrite Hes', Hex'. assert (included ps value) by by apply Hin.
    split; [tauto | by intros [|]; [|tauto]].
Qed.

Lemma UserPathIncludes_decides_witness :
  exists upi, @UserPathIncludes_init literal_re ["src/"; "!src/gen"] = Ok upi /\
  (UserPathIncludes_call upi "src/a.py" = true <->
   ["src/"; "!src/gen"] = [] \/ ("src/a.py" <> "" /\ @included literal_re ["src/"; "!src/gen"] "src/a.py" /\
     ~ @excluded literal_re ["src/"; "!src/gen"] "src/a.py")).
Proof.
  eexists. split; [vm_compute; reflexivity|].
  apply (@UserPathIncludes_decides literal_re ["src/"; "!src/gen"]). vm_compute. reflexivity.
Defined.

(** While the report files of an upload with a list of files are processed,
    in whatever order paths are fixed, a fixed path is the image under the
    configured fixes of a file of the repository that the patterns include. *)
Theorem fix_path_names_file `{Re, ReSearch} set_order cwd fixes patterns files pf bpf path bases r bpf' :
  files <> [] -> PathFixer_init set_order fixes patterns files false = Ok pf ->
  fixing cwd pf bpf -> fix_path cwd bpf path bases = Ok (Some r, bpf') ->
  names_file pf r.
Proof.
  intros Hne Hinit Hf Hr. apply PathFixer_init_ok in Hinit; [|done].
  apply fixing_answers in Hf; [|done]. apply (fix_path_files cwd pf) in Hr as [_ Hr]; [|done].
  by apply Hr.
Qed.

(** A search for examples: the pattern, without its anchor and group, as literal
    text at the start. *)
Definition literal_search : ReSearch := {|
  re_search := fun p => Ok (fun s =>
    let lit := str_take (String.length p - 3) (str_drop 2 p) in
    if startswith lit s then Some ("", [Some lit], str_drop (String.length lit) s) else None) |}.

Lemma fix_path_names_file_witness :
  exists pf bpf bpf',
    @PathFixer_init literal_re literal_search id ["old/::new/"] ["!gen"] ["old/a.py"; "b.py"] false = Ok pf /\
    fix_path "/worker" bpf "b.py" [] = Ok (Some "b.py", bpf') /\ names_file pf "b.py".
Proof.
  destruct (@PathFixer_init literal_re literal_search id ["old/::new/"] ["!gen"] ["old/a.py"; "b.py"] false)
    as [pf|] eqn:E; [|exfalso; vm_compute in E; discriminate E].
  destruct (get_relative_path_aware_pathfixer pf None) as [bpf|] eqn:Eb;
    [|exfalso; vm_compute in Eb; discriminate Eb].
  assert (Hb : bpf = mkBase [] pf []) by (vm_compute in Eb; congruence).
  destruct (fix_path "/worker" bpf "b.py" []) as [[o bpf']|] eqn:Ef.
  2: { exfalso. subst bpf. vm_compute in E. injection E as <-. vm_compute in Ef. discriminate Ef. }
  assert (o = Some "b.py").
  { subst bpf. vm_compute in E. injection E as <-. vm_compute in Ef. congruence. }
  subst o. exists pf, bpf, bpf'. split_and!; [done | done |].
  apply (fix_path_names_file (H := literal_re) (H0 := literal_search) id "/worker" ["old/::new/"] ["!gen"]
    ["old/a.py"; "b.py"] pf bpf "b.py" [] "b.py" bpf'); [done | exact E | | exact Ef].
  by apply (fixing_open "/worker" pf None).
Defined.

(** A configuration that ignores everything ignores nothing. *)
Lemma ignoring_all_ignores_nothing `{Re} value upi :
  UserPathIncludes_init (invert_pattern <$> [".*"]) = Ok upi -> value <> "" ->
  UserPathIncludes_call upi value = true.
Proof.
  intros [= <-] Hv. unfold UserPathIncludes_call. cbn [path_patterns include_all excludes].
  rewrite !bool_decide_eq_false_2 by done. by rewrite bool_decide_eq_true_2.
Qed.

(** A path of dots and slashes is not fixed: [os.path.relpath] raises on the empty
    path that is left of it. *)
Lemma clean_path_dots cwd pf : clean_path cwd pf "./" = Err ValueError.
Proof. reflexivity. Qed.

(** The pattern of two custom fixes is anchored in its first alternative only. *)
Lemma fixes_pattern `{ReSearch} re :
  re_search "^(a/)|(b/)" = Ok re ->
  UserPathFixes_init id ["a/::x/"; "b/::y/"] = Ok (mkFixes "" (Some re) ["x/"; "y/"]).
Proof.
  intros E. unfold UserPathFixes_init. cbn -[re_search].
  match goal with |- context [re_search ?p] => change p with "^(a/)|(b/)" end. by rewrite E.
Qed.
