(* ===== verification/ReportBuilder.v ===== *)
(** * [worker/services/report/report_builder.py]: building the report of an uploaded file

    The parsers of the upload formats build their report through a session: it
    makes files, under the fixed path, and lines, under the session of the
    upload, and collects the files.  The path fixer is part of the builder, and
    its state changes with every path it fixes. *)
From S2P Require Export PathFixer Resources PyStr.
#[local] Open Scope string_scope.
#[local] Open Scope list_scope.

Inductive CoverageType : Set := line | branch | method.

#[export] Instance CoverageType_eq_dec : EqDecision CoverageType.
Proof. solve_decision. Defined.

Definition map_to_string (t : CoverageType) : option string :=
  match t with line => None | branch => Some "b" | method => Some "m" end.

Record ReportBuilder : Type := mkBuilder {
  current_yaml : pyval;
  sessionid : Z;
  ignored_lines : odict string ReportFile.ignore;
  path_fixer : BasePathAwarePathFixer;
}.

Record ReportBuilderSession : Type := mkBuilderSession {
  filepath : string;
  _report_builder : ReportBuilder;
  _report : Report.t;
}.

Definition create_report_builder_session (b : ReportBuilder) (filepath : string) : ReportBuilderSession :=
  mkBuilderSession filepath b Report.empty.

Definition with_path_fixer (pf : BasePathAwarePathFixer) (s : ReportBuilderSession) : ReportBuilderSession :=
  let b := _report_builder s in
  mkBuilderSession (filepath s) (mkBuilder (current_yaml b) (sessionid b) (ignored_lines b) pf) (_report s).

Definition with_report (r : Report.t) (s : ReportBuilderSession) : ReportBuilderSession :=
  mkBuilderSession (filepath s) (_report_builder s) r.

Definition output_report (s : ReportBuilderSession) : Report.t := _report s.

Definition yaml_field (s : ReportBuilderSession) (keys : list string) (dflt : pyval) : result pyval :=
  read_yaml_field (current_yaml (_report_builder s)) keys dflt.

Definition get_file (s : ReportBuilderSession) (filename : string) : option ReportFile.t :=
  Report.get (_report s) filename.

Section session.
Context `{OrJson}.
Variable cwd : string.

Definition resolve_paths (s : ReportBuilderSession) (paths : list (string * option string))
    : result ReportBuilderSession :=
  r ← Report.resolve_paths (_report s) paths; Ok (with_report r s).

Definition append (s : ReportBuilderSession) (file : ReportFile.t) : result (bool * ReportBuilderSession) :=
  '(b, r) ← Report.append (_report s) (Some file) true false; Ok (b, with_report r s).

Definition create_coverage_file (s : ReportBuilderSession) (path : string) (do_fix_path : bool)
    : result (option ReportFile.t * ReportBuilderSession) :=
  '(fixed_path, s) ←
    (if do_fix_path then
       '(o, pf) ← fix_path cwd (path_fixer (_report_builder s)) path []; Ok (o, with_path_fixer pf s)
     else Ok (Some path, s));
  match fixed_path with
  | None => Ok (None, s)
  | Some p =>
      if bool_decide (p = "") then Ok (None, s)
      else
        f ← ReportFile.init p None None None (od_get p (ignored_lines (_report_builder s)));
        Ok (Some f, s)
  end.

Definition create_coverage_line (s : ReportBuilderSession) (coverage : cov) (coverage_type : option CoverageType)
    (partials : option (list partial)) (missing_branches : option (list Types.branch)) (complexity : cplx)
    : ReportLine :=
  let coverage_type_str := coverage_type ≫= map_to_string in
  ReportLine_create coverage coverage_type_str
    (Some [mkSession (sessionid (_report_builder s)) coverage missing_branches partials complexity])
    complexity.
End session.

(** ** Lemmas *)

Definition empty_file (p : string) (ig : option ReportFile.ignore) : ReportFile.t :=
  ReportFile.mkFile p None None None [] [] None ig.

(** Making a file changes nothing of the session but the state of the fixer. *)
Definition same_session (s s' : ReportBuilderSession) : Prop :=
  exists pf, s' = with_path_fixer pf s.

#[export] Instance same_session_preorder : PreOrder same_session.
Proof.
  split.
  - intros s. exists (path_fixer (_report_builder s)). by destruct s as [? []].
  - intros s s' s'' [pf ->] [pf' ->]. by exists pf'.
Qed.

Lemma create_coverage_file_run cwd s path o s' :
  create_coverage_file cwd s path true = Ok (o, s') ->
  same_session s s' /\
  (forall f, o = Some f -> exists p, p <> "" /\ f = empty_file p (od_get p (ignored_lines (_report_builder s))) /\
     exists bpf', fix_path cwd (path_fixer (_report_builder s)) path [] = Ok (Some p, bpf')).
Proof.
  unfold create_coverage_file.
  intros ([o1 s1] & ([o2 pf] & Hf & [= <- <-])%bind_Ok_inv & Hr)%bind_Ok_inv.
  destruct o2 as [p|]; [|injection Hr as <- <-; split; [by eexists | done]].
  destruct (bool_decide_reflect (p = "")) as [->|Hp]; [injection Hr as <- <-; split; [by eexists | done]|].
  injection Hr as <- <-. split; [by eexists|]. intros f [= <-]. exists p. eauto.
Qed.

Lemma create_line_same s s' c ct ps mb cx :
  same_session s s' -> create_coverage_line s' c ct ps mb cx = create_coverage_line s c ct ps mb cx.
Proof. by intros [pf ->]. Qed.

(** A builder without configuration or list of files, for examples. *)
Definition example_fixer : PathFixer :=
  mkFixer [] [] (mkFixes "" None []) (mkIncludes [] false [] []) None.
Definition example_builder_session : ReportBuilderSession :=
  create_report_builder_session (mkBuilder empty_dict 0 [] (mkBase [] example_fixer [])) "cov.info".
