(* ===== verification/BuilderInv.v ===== *)
(** * What every upload parser keeps

    The parsers build a report through a session of the builder.  [Inv] gives
    each type its invariant: a line has one session, the one of the upload; a
    file is parsed and its slots are empty or such lines; a report has no
    sessions of its own and keeps each file under its name, which is not empty.
    [keeps m] says that the result of [m], if any, has the invariant of its
    type; the tactic [keep] proves it along the code, with the operations
    proved so far as hints.  [UploadSpec.v] runs it on the parsers.  The lines
    of hits the parsers share come first. *)
From S2P Require Import ReportSpec.
From S2P Require Export ReportBuilder.

(** * Lines of hits

    Every parser adds lines to a file one by one, and a line that is added again
    is merged with what is there.  This file has the operation they share and
    what a sequence of counts makes of a file: each line has the greatest of its
    counts. *)

#[local] Open Scope string_scope.
#[local] Open Scope Z_scope.
#[local] Open Scope list_scope.

Section append_line.
Context `{OrJson}.

(** [_file.append(ln, line)], its result ignored. *)
Definition add_line (f : ReportFile.t) (ln : Z) (l : ReportLine) : result ReportFile.t :=
  '(_, f') ← ReportFile.append f ln l; Ok f'.

(** [_file.append(ln, session.create_coverage_line(coverage))]. *)
Definition append_line (s : ReportBuilderSession) (f : ReportFile.t) (ln : Z) (c : cov) : result ReportFile.t :=
  add_line f ln (create_coverage_line s c None None None CxNone).

(** [session.append(_file)], its result ignored, and [if _file is not None] before it. *)
Definition append_file (s : ReportBuilderSession) (f : ReportFile.t) : result ReportBuilderSession :=
  '(_, s') ← append s f; Ok s'.
Definition append_if (s : ReportBuilderSession) (o : option ReportFile.t) : result ReportBuilderSession :=
  match o with Some f => append_file s f | None => Ok s end.
End append_line.

(** ** Specification *)

Definition hit_line (s : ReportBuilderSession) (ty : option CoverageType) (z : Z) : ReportLine :=
  create_coverage_line s (CInt z) ty None None CxNone.

(** The counts of a line, in the order they are added; what they make of it. *)
Definition hits_on (das : list (Z * Z)) (ln : Z) : list Z := (filter (fun d => d.1 = ln) das).*2.

Definition line_from_hits (s : ReportBuilderSession) (ty : Z -> option CoverageType) (das : list (Z * Z)) (ln : Z)
    : option ReportLine :=
  match Merge.list_max (hits_on das ln) with Ok m => Some (hit_line s (ty ln) m) | Err _ => None end.

Definition da_ok (d : Z * Z) : Prop := 1 <= d.1 /\ 0 <= d.2 < 2 ^ 63.

Definition append_hits `{OrJson} (s : ReportBuilderSession) (ty : Z -> option CoverageType) (f : ReportFile.t)
    (das : list (Z * Z)) : result ReportFile.t :=
  foldM (fun f d => add_line f d.1 (hit_line s (ty d.1) d.2)) f das.

(** A file with the same name and ignored lines as another. *)
Definition like (f0 f : ReportFile.t) : Prop :=
  ReportFile.rf_name f = ReportFile.rf_name f0 /\ ReportFile.rf_ignore f = ReportFile.rf_ignore f0.

(** ** Lemmas *)

Lemma like_ignored f0 f ln : like f0 f -> ReportFile.ignored f ln = ReportFile.ignored f0 ln.
Proof. intros [_ E]. unfold ReportFile.ignored. by rewrite E. Qed.

Lemma or_type_same ty : or_type (ty ≫= map_to_string) (ty ≫= map_to_string) = ty ≫= map_to_string.
Proof. by destruct ty as [[]|]. Qed.

(** Two hit lines of one upload merge to the better of the two. *)
Lemma merge_hit_lines s ty a b :
  0 <= a < 2 ^ 63 -> 0 <= b < 2 ^ 63 ->
  merge_line (Some (hit_line s ty a)) (Some (hit_line s ty b)) true false = Ok (Some (hit_line s ty (Z.max a b))).
Proof.
  intros Ha Hb. unfold hit_line, create_coverage_line. cbn [merge_line andb ReportLine_create rl_sessions rl_type].
  set (i := sessionid (_report_builder s)).
  assert (Hs : merge_line_session (mkSession i (CInt a) None None CxNone) (mkSession i (CInt b) None None CxNone) =
    Ok (mkSession i (CInt (Z.max a b)) None None CxNone)).
  { unfold merge_line_session. cbn -[merge_coverage]. rewrite merge_int_int by lia.
    rewrite (proj2 (Z.eqb_neq a (-1))), (proj2 (Z.eqb_neq b (-1))) by lia. done. }
  assert (Hm : merge_sessions [mkSession i (CInt a) None None CxNone] [mkSession i (CInt b) None None CxNone] =
    Ok [mkSession i (CInt (Z.max a b)) None None CxNone]).
  { unfold merge_sessions, by_id, od_of_list, od_keys, od_pop.
    cbn [fmap list_fmap foldl od_set fst snd ls_id].
    rewrite filter_cons_True by left. rewrite filter_nil. cbn [foldM od_get od_del].
    rewrite !decide_True by done. cbn [mbind result_bind snd fst]. rewrite Hs. cbn [mbind result_bind od_set].
    by rewrite decide_True. }
  cbn [default id from_option]. rewrite Hm. cbn [mbind result_bind]. rewrite or_type_same. done.
Qed.

Lemma hit_line_ok s ty z : 0 <= z < 2 ^ 63 -> line_ok false (hit_line s ty z).
Proof.
  intros Hz. unfold hit_line, create_coverage_line. split_and!; [done | |].
  - cbn. apply NoDup_singleton.
  - repeat constructor; lia.
Qed.

Lemma hit_line_same s s' ty z : same_session s s' -> hit_line s' ty z = hit_line s ty z.
Proof. apply create_line_same. Qed.

Lemma hits_on_snoc das d ln :
  hits_on (das ++ [d]) ln = hits_on das ln ++ (if decide (d.1 = ln) then [d.2] else []).
Proof.
  unfold hits_on. rewrite filter_app, fmap_app. f_equal.
  destruct (decide _); [by rewrite filter_cons_True | by rewrite filter_cons_False].
Qed.

Lemma hits_on_bound das ln m :
  Forall da_ok das -> Merge.list_max (hits_on das ln) = Ok m -> 0 <= m < 2 ^ 63.
Proof.
  intros Hd [Hm _]%list_max_spec. unfold hits_on in Hm.
  apply list_elem_of_fmap in Hm as (d & -> & [_ Hin]%list_elem_of_filter).
  rewrite Forall_forall in Hd. apply (Hd d Hin).
Qed.

(** Without repetition the lines are the entries themselves. *)
Lemma hits_on_unique das ln z :
  NoDup das.*1 -> (ln, z) ∈ das -> hits_on das ln = [z].
Proof.
  intros Hnd Hin. induction das as [|[n c] das IH]; [by apply not_elem_of_nil in Hin|].
  apply NoDup_cons in Hnd as [Hn Hnd]. unfold hits_on. cbn in Hn.
  apply elem_of_cons in Hin as [[= -> ->]|Hin].
  - rewrite filter_cons_True by done. rewrite filter_none; [done|].
    apply Forall_forall. intros [n' c'] Hin' E. cbn in E. subst. apply Hn. apply (list_elem_of_fmap_2 fst _ _ Hin').
  - rewrite filter_cons_False; [by apply IH|]. cbn. intros ->. apply Hn. apply (list_elem_of_fmap_2 fst _ _ Hin).
Qed.

Lemma hits_on_absent das ln : ln ∉ das.*1 -> hits_on das ln = [].
Proof.
  intros Hn. unfold hits_on. rewrite filter_none; [done|]. apply Forall_forall.
  intros d Hd E. apply Hn. rewrite <- E. by apply (list_elem_of_fmap_2 fst).
Qed.

Section run.
Context `{OrJson}.

Lemma add_line_ignored f ln l : 1 <= ln -> ReportFile.ignored f ln = true -> add_line f ln l = Ok f.
Proof.
  intros Hln Hig. unfold add_line, ReportFile.append.
  by rewrite (proj2 (Z.ltb_ge _ _)), Hig by lia.
Qed.

Lemma append_hits_run s ty f0 das :
  ReportFile.file_ok false f0 -> Forall da_ok das ->
  (forall ln, 1 <= ln -> ReportFile.get f0 ln = Ok None) ->
  exists f, append_hits s ty f0 das = Ok f /\ ReportFile.file_ok false f /\ like f0 f /\
    forall ln, 1 <= ln ->
      ReportFile.get f ln = Ok (if ReportFile.ignored f0 ln then None else line_from_hits s ty das ln).
Proof.
  intros Hok Hdas Hempty. unfold append_hits. induction das as [|d das IH] using rev_ind.
  { exists f0. split_and!; [done | done | done |]. intros ln Hln. rewrite Hempty by done. by destruct (ReportFile.ignored f0 ln). }
  apply Forall_app in Hdas as [Hdas [[Hd1 Hd2] _]%Forall_cons].
  destruct (IH Hdas) as (f & Hrun & Hf & Hlike & Hget). clear IH.
  rewrite foldM_app, Hrun. cbn [mbind result_bind foldM].
  destruct (ReportFile.ignored f d.1) eqn:Eig.
  - exists f. rewrite add_line_ignored by done. split_and!; [done | done | done |].
    intros ln Hln. rewrite (Hget ln Hln). unfold line_from_hits. rewrite hits_on_snoc.
    destruct (decide (d.1 = ln)) as [<-|]; [|by rewrite app_nil_r].
    rewrite (like_ignored f0 f) in Eig by done. by rewrite Eig.
  - destruct (ReportFile.append_ok false f d.1 (hit_line s (ty d.1) d.2)) as (f' & Ha & Hf');
      [done | by apply hit_line_ok | lia | done |].
    exists f'. unfold add_line. rewrite Ha. cbn [mbind result_bind].
    apply ReportFile.append_keeps in Ha as Hk. split_and!; [done | done | by destruct Hk, Hlike; split; congruence |].
    intros ln Hln. rewrite (ReportFile.append_get _ _ _ _ _ Ha Hln).
    unfold line_from_hits. rewrite hits_on_snoc. destruct (decide (ln = d.1)) as [->|Hne].
    + rewrite (Hget d.1) by lia. rewrite decide_True, list_max_snoc by done.
      rewrite (like_ignored f0 f) in Eig by done. rewrite Eig.
      cbn [mbind result_bind]. unfold line_from_hits.
      destruct (Merge.list_max (hits_on das d.1)) as [m|] eqn:Em; [|done].
      rewrite merge_hit_lines; [done | by apply hits_on_bound in Em | lia].
    + rewrite decide_False, app_nil_r by congruence. by apply Hget.
Qed.

Lemma empty_file_ok {pairs} p ig : ReportFile.file_ok pairs (empty_file p ig).
Proof. split; [done|]. constructor. Qed.

Lemma empty_file_get p ig ln : 1 <= ln -> ReportFile.get (empty_file p ig) ln = Ok None.
Proof. intros Hln. by rewrite ReportFile.get_slot. Qed.
End run.

(** ** Lines added once each

    When no line number is repeated, the file has the lines that were added. *)

Section append_lines.
Context `{OrJson}.

Definition append_lines (f : ReportFile.t) (ls : list (Z * ReportLine)) : result ReportFile.t :=
  foldM (fun f e => add_line f e.1 e.2) f ls.

Definition entry_ok (pairs : bool) (e : Z * ReportLine) : Prop := 1 <= e.1 /\ line_ok pairs e.2.

Lemma od_get_snoc {V} (k k' : Z) (v : V) d :
  k' ∉ od_keys d -> od_get k (d ++ [(k', v)]) = if decide (k = k') then Some v else od_get k d.
Proof.
  intros Hk. rewrite <- (od_set_new k' v d) by done.
  case_decide; [subst; apply od_get_set_eq | by apply od_get_set_ne].
Qed.

Lemma append_lines_run pairs f0 ls :
  ReportFile.file_ok pairs f0 -> Forall (entry_ok pairs) ls -> NoDup ls.*1 ->
  (forall ln, 1 <= ln -> ReportFile.get f0 ln = Ok None) ->
  exists f, append_lines f0 ls = Ok f /\ ReportFile.file_ok pairs f /\ like f0 f /\
    forall ln, 1 <= ln -> ReportFile.get f ln = Ok (if ReportFile.ignored f0 ln then None else od_get ln ls).
Proof.
  intros Hok Hls Hnd Hempty. unfold append_lines. induction ls as [|[n l] ls IH] using rev_ind.
  { exists f0. split_and!; [done | done | done |]. intros ln Hln. rewrite Hempty by done. by destruct (ReportFile.ignored f0 ln). }
  apply Forall_app in Hls as [Hls [[Hn Hl] _]%Forall_cons]. rewrite fmap_app in Hnd.
  apply NoDup_app in Hnd as (Hnd & Hfresh & _).
  assert (Hnew : n ∉ od_keys ls) by (intros Hin; apply (Hfresh n Hin); left).
  destruct (IH Hls Hnd) as (f & Hrun & Hf & Hlike & Hget). clear IH. cbn in Hn, Hl.
  rewrite foldM_app, Hrun. cbn [mbind result_bind foldM fst snd].
  destruct (ReportFile.ignored f n) eqn:Eig; rewrite (like_ignored f0 f) in Eig by done.
  - exists f. rewrite add_line_ignored by (try done; by rewrite (like_ignored f0 f)). split_and!; [done | done | done |].
    intros ln Hln. rewrite (Hget ln Hln), od_get_snoc by done. case_decide as E; [subst; by rewrite Eig | done].
  - destruct (ReportFile.append_ok pairs f n l) as (f' & Ha & Hf'); [done | done | done | by rewrite (like_ignored f0 f) |].
    exists f'. unfold add_line. rewrite Ha. cbn [mbind result_bind].
    apply ReportFile.append_keeps in Ha as Hk. split_and!; [done | done | by destruct Hk, Hlike; split; congruence |].
    intros ln Hln. rewrite (ReportFile.append_get _ _ _ _ _ Ha Hln), od_get_snoc by done.
    case_decide as E; [|by apply Hget]. subst. rewrite (Hget n Hn), Eig.
    by rewrite (proj2 (od_get_None n ls) Hnew).
Qed.

(** A file with lines, appended to a report without files. *)
Lemma append_new_file pairs s f :
  ReportFile.file_ok pairs f -> ReportFile.rf_name f <> "" -> Report.r_files (_report s) = [] ->
  (exists ln l, 1 <= ln /\ ReportFile.get f ln = Ok (Some l)) ->
  exists r, append_file s f = Ok (with_report r s) /\ Report.r_files r = [(ReportFile.rf_name f, f)].
Proof.
  intros [Hraw Hok] Hname Hfiles (ln & l & Hln & Hget). unfold append_file, append, Report.append.
  destruct (ReportFile.__len__ f) as [n|e] eqn:En.
  - cbn [mbind result_bind]. destruct (Z.eqb_spec n 0) as [->|Hn]; [by rewrite (len_0_get f ln En Hln) in Hget|].
    rewrite bool_decide_false by done. rewrite Hfiles. cbn. eexists. split; [done|]. done.
  - unfold ReportFile.__len__, ReportFile._lines, ReportFile.force in En. by rewrite Hraw in En.
Qed.
End append_lines.

#[local] Open Scope Z_scope.
#[local] Open Scope list_scope.

(** The values an operation may return, by their type. *)
Class Inv (A : Type) : Type := inv : A -> Prop.
#[export] Hint Mode Inv ! : typeclass_instances.

Definition keeps {A} `{Inv A} (m : result A) : Prop := forall a, m = Ok a -> inv a.

#[export] Instance inv_any {A} : Inv A | 100 := fun _ => True.
#[export] Instance inv_prod {A B} `{Inv A, Inv B} : Inv (A * B) | 10 := fun p => inv p.1 /\ inv p.2.
#[export] Instance inv_option {A} `{Inv A} : Inv (option A) | 10 := fun o => forall a, o = Some a -> inv a.
#[export] Instance inv_list {A} `{Inv A} : Inv (list A) | 10 := fun l => forall a, a ∈ l -> inv a.

Section rules.
Context {A B : Type} `{Inv A, Inv B}.

Lemma keeps_ok (a : A) : inv a -> keeps (Ok a).
Proof. by intros Ha ? [= <-]. Qed.
Lemma keeps_err e : keeps (A := A) (Err e).
Proof. intros a Ha. discriminate Ha. Qed.
Lemma keeps_bind (m : result A) (f : A -> result B) :
  keeps m -> (forall a, inv a -> keeps (f a)) -> keeps (m ≫= f).
Proof. intros Hm Hf b (a & Ha & Hb)%bind_Ok_inv. by apply (Hf a (Hm a Ha)). Qed.
Lemma keeps_catch (m h : result A) : keeps m -> keeps h -> keeps (catch m h).
Proof. intros Hm Hh a. unfold catch. destruct m as [|[]]; auto. Qed.
Lemma keeps_foldM {C} (f : A -> C -> result A) st l :
  inv st -> (forall st x, inv st -> x ∈ l -> keeps (f st x)) -> keeps (foldM f st l).
Proof.
  revert st. induction l as [|x l IH]; intros st Hst Hf; cbn [foldM]; [by apply keeps_ok|].
  intros a (st' & Hst' & Ha)%bind_Ok_inv. apply (IH st'); [|intros; apply Hf; [done|by right]|done].
  apply (Hf st x Hst); [left | done].
Qed.
Lemma keeps_traverse (f : B -> result A) l : (forall x, x ∈ l -> keeps (f x)) -> keeps (traverse f l).
Proof.
  intros Hf ys Hys. apply traverse_Forall2 in Hys. intros y Hy.
  apply list_elem_of_lookup in Hy as [i Hi]. destruct (Forall2_lookup_r _ _ _ _ _ Hys Hi) as (x & Hx & E).
  apply (Hf x); [by eapply list_elem_of_lookup_2 | done].
Qed.
End rules.

(** ** Dictionaries *)
Section dict.
Context {K V : Type} `{EqDecision K, Inv K, Inv V}.
Implicit Types (d : odict K V).

Lemma inv_od_get d k v : inv d -> od_get k d = Some v -> inv v.
Proof. intros Hd Hk%od_get_elem. exact (proj2 (Hd _ Hk)). Qed.

Lemma inv_od_set d k v : inv d -> inv k -> inv v -> inv (od_set k v d).
Proof.
  intros Hd Hk Hv. induction d as [|[k' v'] d IH]; cbn.
  - intros a ->%list_elem_of_singleton. by split.
  - assert (Hd' : inv d) by (intros a Ha; apply Hd; by right).
    assert (H' : inv (k', v')) by (apply Hd; left). destruct H' as [Hk' Hv'].
    case_decide; intros a [->|Ha]%elem_of_cons; [by split | by apply Hd' | by split | by apply (IH Hd')].
Qed.

Lemma inv_od_vals d : inv d -> inv (od_vals d).
Proof. intros Hd v ([k w] & -> & Hin)%list_elem_of_fmap. exact (proj2 (Hd _ Hin)). Qed.
End dict.

Lemma inv_cons {A} `{Inv A} (x : A) l : inv (x :: l) <-> inv x /\ inv l.
Proof.
  split.
  - intros Hl. split; [apply Hl; left | intros y Hy; apply Hl; by right].
  - intros [Hx Hl] y [->|Hy]%elem_of_cons; [done | by apply Hl].
Qed.
Lemma inv_app {A} `{Inv A} (l k : list A) : inv l -> inv k -> inv (l ++ k).
Proof. intros Hl Hk x [Hx|Hx]%elem_of_app; auto. Qed.
Lemma inv_insert {A} `{Inv A} (l : list A) i x : inv l -> inv x -> inv (<[i := x]> l).
Proof. 
  intros Hl Hx y [j Hj]%list_elem_of_lookup. apply list_lookup_insert_Some in Hj as [(_ & <- & _)|[_ Hj]]; [done|].
  apply Hl. by eapply list_elem_of_lookup_2.
Qed.
Lemma inv_elem {A} `{Inv A} (x : A) (l : list A) : inv l -> x ∈ l -> inv x.
Proof. intros Hl. apply Hl. Qed.
Lemma inv_some {A} `{Inv A} (x : A) : inv x -> inv (Some x).
Proof. by intros Hx y [= <-]. Qed.

Lemma inv_of_some {A} `{Inv A} (x : A) : inv (Some x) -> inv x.
Proof. intros Hx. by apply Hx. Qed.

Lemma inv_none {A} `{Inv A} : inv (None (A := A)).
Proof. intros x Hx. discriminate Hx. Qed.
Lemma inv_nil {A} `{Inv A} : inv (@nil A).
Proof. intros x Hx. by apply not_elem_of_nil in Hx. Qed.

Lemma inv_singleton {A} `{Inv A} (x : A) : inv x -> inv [x].
Proof. by intros Hx y ->%list_elem_of_singleton. Qed.
Lemma inv_pair {A B} `{Inv A, Inv B} (x : A) (y : B) : inv x -> inv y -> inv (x, y).
Proof. by split. Qed.

Create HintDb keep.
#[export] Hint Immediate inv_of_some : keep.
#[export] Hint Extern 0 (inv _) => exact I : keep.
#[export] Hint Resolve keeps_err inv_od_set inv_od_vals inv_app inv_insert inv_some inv_none inv_nil inv_singleton inv_pair : keep.
#[export] Hint Extern 1 (inv ?v) =>
  match goal with E : od_get _ ?d = Some v, Hd : inv ?d |- _ => exact (inv_od_get d _ v Hd E) end : keep.
#[export] Hint Extern 1 (inv ?x) =>
  match goal with Hx : x ∈ ?l |- _ => apply (inv_elem x l); [|exact Hx] end : keep.

(** A value of a type without invariant. *)
Ltac trivial_inv := solve [intros; repeat (exact I || split || intro)].

Ltac inv_done := cbn [fst snd] in *; first [trivial_inv | solve [repeat (match goal with |- inv (_, _) => split end; cbn [fst snd]); eauto 6 with keep]].

(** The parts of a returned pair. *)
Ltac split_inv :=
  repeat match goal with
  | H : inv (_, _) |- _ => destruct H as [? ?]; cbn [fst snd] in *
  | p : (_ * _)%type |- _ => destruct p
  end.

Ltac keep_step :=
  match goal with
  | |- keeps (Ok _) => apply keeps_ok; inv_done
  | |- keeps (Ok ?a) => match a with context [match ?x with _ => _ end] => let E := fresh "E" in destruct x eqn:E end
  | |- keeps (Err _) => apply keeps_err
  | |- keeps _ => solve [trivial_inv | eauto 5 with keep]
  | |- keeps (_ ≫= _) => eapply keeps_bind; [| intros ? ?; split_inv]
  | |- keeps (foldM _ _ _) => apply keeps_foldM; [inv_done | intros ? ? ? ?; split_inv]
  | |- keeps (traverse _ _) => apply keeps_traverse; intros ? ?; split_inv
  | |- keeps (catch _ _) => apply keeps_catch
  | |- keeps (let (_, _) := ?p in _) => destruct p
  | |- keeps (match ?x with _ => _ end) => let E := fresh "E" in destruct x eqn:E
  | |- keeps (add_line _ _ (match ?x with _ => _ end)) => let E := fresh "E" in destruct x eqn:E
  end.
Ltac keep := cbv zeta; repeat (keep_step; cbv beta zeta).

(** ** The operations of the builder *)

(** The session of the upload whose report is built. *)
Class UploadId : Type := sid : Z.


(** One session, the one of the upload, with the coverage of the line. *)
#[export] Instance inv_line `{UploadId} : Inv ReportLine :=
  fun l => exists s, rl_sessions l = [s] /\ ls_id s = sid /\ rl_coverage l = ls_coverage s.
#[export] Instance inv_slot `{UploadId} : Inv ReportFile.slot := fun s =>
  match s with
  | ReportFile.SNone => True
  | ReportFile.SStr t => t = ""%string
  | ReportFile.SLine l => inv l
  | ReportFile.SList _ => False
  end.
#[export] Instance inv_file `{UploadId} : Inv ReportFile.t := fun f =>
  ReportFile.rf_raw_lines f = None /\ inv (ReportFile.rf_parsed_lines f) /\ ReportFile.rf_name f <> ""%string.
#[export] Instance inv_report `{UploadId} : Inv Report.t := fun r =>
  report_wf r /\ Report.r_sessions r = [] /\ inv (Report.r_files r) /\ ~ (""%string ∈ Report.files r).
#[export] Instance inv_session `{UploadId} : Inv ReportBuilderSession := fun s =>
  sessionid (_report_builder s) = sid /\ inv (_report s).

Section operations.
Context `{OrJson, UploadId}.

Lemma keeps_merge_line_session a b : ls_id a = sid -> forall s, merge_line_session a b = Ok s -> ls_id s = sid.
Proof.
  unfold merge_line_session. intros Ha s (mb & _ & Hs)%bind_Ok_inv.
  apply bind_Ok_inv in Hs as (ps & _ & Hs). by apply bind_Ok_inv in Hs as (c & _ & [= <-]).
Qed.

Lemma merge_sessions_one a b ss :
  ls_id a = sid -> ls_id b = sid -> merge_sessions [a] [b] = Ok ss -> exists s, ss = [s] /\ ls_id s = sid.
Proof.
  intros Ha Hb. unfold merge_sessions. change (by_id [a]) with [(ls_id a, a)]. change (by_id [b]) with [(ls_id b, b)].
  cbn [od_keys fmap list_fmap fst]. replace (ls_id b) with (ls_id a) by congruence.
  replace (filter (fun i => i ∈ [ls_id a]) [ls_id a]) with [ls_id a].
  2: { rewrite filter_cons, decide_True by by left. done. }
  unfold od_pop. cbn [foldM od_get]. rewrite decide_True by done. cbn [mbind result_bind od_del od_set].
  rewrite decide_True by done.
  intros ([d1 d2] & Hd & [= <-])%bind_Ok_inv. apply bind_Ok_inv in Hd as ([d1' d2'] & Hm & [= -> ->]).
  cbn [mbind result_bind] in Hm. apply bind_Ok_inv in Hm as (z & Hz & [= <- <-]).
  exists z. rewrite !decide_True by done. split; [done|]. eapply keeps_merge_line_session; [exact Ha | exact Hz].
Qed.

Lemma keeps_merge_line l1 l2 : inv l1 -> inv l2 -> keeps (merge_line l1 l2 true false).
Proof.
  intros H1 H2. destruct l1 as [l1|], l2 as [l2|]; try by apply keeps_ok.
  destruct (H1 l1 eq_refl) as (a & Ea & Ha & _), (H2 l2 eq_refl) as (b & Eb & Hb & _).
  intros o Ho. cbn [merge_line andb] in Ho. rewrite Ea, Eb in Ho.
  apply bind_Ok_inv in Ho as (ss & Hss & Ho). apply bind_Ok_inv in Ho as (c & Hc & Ho).
  apply bind_Ok_inv in Ho as (x & _ & [= <-]). intros l [= <-].
  destruct (merge_sessions_one a b ss Ha Hb Hss) as (s & -> & Hs). exists s. split_and!; [done | done |].
  unfold get_coverage_from_sessions in Hc. by apply bind_Ok_inv in Hc as (mb & _ & [= <-]).
Qed.
Hint Resolve keeps_merge_line : keep.

Lemma keeps_read_slot s : inv s -> keeps (ReportFile.read_slot s).
Proof.
  unfold ReportFile.read_slot. destruct s as [|t|l|l]; cbn [ReportFile.slot_truthy]; intros Hs; [|hnf in Hs; subst| |]; cbn.
  - by intros o [= <-].
  - by intros o [= <-].
  - destruct Hs.
  - intros o [= <-] l' [= <-]. exact Hs.
Qed.
Hint Resolve keeps_read_slot : keep.

Lemma keeps_force f : inv f -> keeps (ReportFile.force f).
Proof. intros (Hr & Hl & Hn) f' Hf. rewrite ReportFile.force_parsed in Hf by done. injection Hf as <-. by split. Qed.
Hint Resolve keeps_force : keep.

Lemma keeps_get f ln : inv f -> keeps (ReportFile.get f ln).
Proof.
  intros Hf. unfold ReportFile.get, ReportFile._lines. keep_step; [keep_step|].
  eapply (keeps_bind (H := inv_list (A := ReportFile.slot))).
  - eapply keeps_bind; [by apply keeps_force | intros g (_ & Hg & _); by apply keeps_ok].
  - intros ls Hls. keep_step; [|by apply keeps_ok]. apply keeps_read_slot, Hls. by eapply list_elem_of_lookup_2.
Qed.
Hint Resolve keeps_get : keep.

Lemma inv_store f ln s ls :
  inv f -> inv s -> inv ls -> inv (ReportFile._invalidate_caches (ReportFile.with_lines (ReportFile.store ln s ls) f)).
Proof. intros (Hr & _ & Hn) Hs Hls. split_and!; [done | by apply inv_insert | done]. Qed.

Lemma inv_extend_to ln ls : inv ls -> inv (ReportFile.extend_to ln ls).
Proof.
  intros Hls. unfold ReportFile.extend_to. case_match; [|done]. apply inv_app; [done|].
  intros s [-> _]%elem_of_replicate. done.
Qed.

Lemma keeps_file_append f ln l : inv f -> inv l -> keeps (ReportFile.append f ln l).
Proof.
  intros Hf Hl. unfold ReportFile.append. case_match; [apply keeps_err|]. case_match; [by apply keeps_ok|].
  eapply keeps_bind; [by apply keeps_force|]. intros g Hg.
  assert (He : inv (ReportFile.with_lines (ReportFile.extend_to ln (ReportFile.rf_parsed_lines g)) g)).
  { split_and!; [done | apply inv_extend_to, Hg | apply Hg]. }
  eapply keeps_bind; [by apply keeps_get|]. intros o Ho.
  eapply (keeps_bind (A := ReportFile.slot)).
  - destruct o as [l'|]; [|by apply keeps_ok].
    eapply keeps_bind; [apply keeps_merge_line; [exact Ho | by apply inv_some]|].
    intros [m|] Hm; apply keeps_ok; [by apply Hm | done].
  - intros s Hs. apply keeps_ok. split; [done|]. apply inv_store; [done..|]. apply inv_extend_to, Hg.
Qed.

Lemma keeps_setitem f ln l : inv f -> inv l -> keeps (ReportFile.__setitem__ f ln l).
Proof.
  intros Hf Hl. unfold ReportFile.__setitem__. case_match; [apply keeps_err|]. case_match; [by apply keeps_ok|].
  eapply keeps_bind; [by apply keeps_force|]. intros g Hg. apply keeps_ok, inv_store; [done..|].
  apply inv_extend_to, Hg.
Qed.

Lemma keeps_merge_slots a : forall b, inv a -> inv b -> keeps (ReportFile.merge_slots true false a b).
Proof.
  assert (Hcell : forall x y : result (option ReportLine), keeps x -> keeps y ->
    keeps (b ← x; a ← y; m ← merge_line b a true false;
           Ok (match m with Some l => ReportFile.SLine l | None => ReportFile.SNone end))).
  { intros x y Hx Hy. eapply keeps_bind; [exact Hx|]. intros o Ho. eapply keeps_bind; [exact Hy|]. intros o' Ho'.
    eapply keeps_bind; [by apply keeps_merge_line|]. intros [m|] Hm; apply keeps_ok; [by apply Hm | done]. }
  assert (Hnone : keeps (A := option ReportLine) (Ok None)) by by apply keeps_ok.
  induction a as [|x a IH]; intros b Ha Hb; cbn [ReportFile.merge_slots].
  - apply (keeps_traverse (B := ReportFile.slot)). intros y Hy. apply Hcell; [done|]. by apply keeps_read_slot, Hb.
  - apply inv_cons in Ha as [Hx Ha]. eapply (keeps_bind (A := ReportFile.slot)).
    + apply Hcell; [by apply keeps_read_slot|]. destruct b as [|y b]; [done|]. apply inv_cons in Hb as [Hy _].
      by apply keeps_read_slot.
    + intros c Hc. eapply keeps_bind; [apply IH; [done|]|].
      * destruct b as [|y b]; [done|]. by apply inv_cons in Hb as [_ Hb].
      * intros rest Hrest. apply keeps_ok, inv_cons. by split.
Qed.

Lemma inv_taken f ls : inv f -> inv ls -> inv (ReportFile._invalidate_caches (ReportFile.with_lines ls f)).
Proof. by intros (? & _ & ?) ?. Qed.

Lemma keeps_file_merge f o : inv f -> inv o -> keeps (ReportFile.merge f o true false).
Proof.
  intros Hf Ho. unfold ReportFile.merge. destruct o as [g|]; [|by apply keeps_ok]. specialize (Ho g eq_refl).
  eapply (keeps_bind (A := bool)); [trivial_inv|]. intros [] _.
  { eapply (keeps_bind (A := list ReportFile.slot)); [|intros ls Hls; apply keeps_ok; split; [trivial_inv | by apply inv_taken]].
    eapply keeps_bind; [by apply keeps_force | intros h (_ & Hh & _); by apply keeps_ok]. }
  eapply (keeps_bind (A := bool)); [trivial_inv|]. intros [] _; [by apply keeps_ok|].
  eapply keeps_bind; [by apply keeps_force|]. intros f1 Hf1. eapply keeps_bind; [by apply keeps_force|].
  intros g1 Hg1. eapply keeps_bind; [apply keeps_merge_slots; [apply Hf1 | apply Hg1]|].
  intros ls Hls. apply keeps_ok. split; [trivial_inv | by apply inv_taken].
Qed.

(** Adding a file under its name. *)
Lemma inv_add_file r f :
  inv r -> inv f ->
  inv (Report._invalidate_caches (Report.with_files (od_set (ReportFile.rf_name f) f (Report.r_files r)) r)).
Proof.
  intros ((Ws & Wf & Wn) & Hs & Hfs & He) Hf. pose proof Hf as (_ & _ & Hn). split_and!; cbn.
  - split_and!; cbn; [done | by apply od_wf_set |]. intros p g. destruct (decide (p = ReportFile.rf_name f)) as [->|Hp].
    + rewrite od_get_set_eq. by intros [= <-].
    + rewrite od_get_set_ne by done. apply Wn.
  - done.
  - by apply inv_od_set.
  - intros Hin. apply He. unfold Report.files in *. cbn in Hin.
    apply od_mem_keys in Hin. apply od_mem_keys. unfold od_mem in *. by rewrite od_get_set_ne in Hin by done.
Qed.

Lemma keeps_report_append r o : inv r -> inv o -> keeps (Report.append r o true false).
Proof.
  intros Hr Ho. unfold Report.append. destruct o as [f|]; [|by apply keeps_ok]. specialize (Ho f eq_refl).
  eapply (keeps_bind (A := Z)); [trivial_inv|]. intros n _. case_match; [by apply keeps_ok|].
  case_bool_decide; [apply keeps_err|]. destruct (od_get _ _) as [g|] eqn:E.
  - intros [b r'] (fs & ([w g'] & Hg & [= <-])%bind_Ok_inv & [= <- <-])%bind_Ok_inv. split; [trivial_inv|].
    assert (En : ReportFile.rf_name g' = ReportFile.rf_name f).
    { rewrite (file_merge_name _ _ _ _ _ _ Hg). destruct Hr as ((_ & _ & Wn) & _). by apply Wn. }
    assert (Hg' : inv g').
    { apply (keeps_file_merge g (Some f)) in Hg; [apply Hg | | by apply inv_some].
      destruct Hr as (_ & _ & Hfs & _). by eapply inv_od_get. }
    cbn [snd]. rewrite <- En. by apply inv_add_file.
  - intros [b r'] (fs & [= <-] & [= <- <-])%bind_Ok_inv. split; [trivial_inv | by apply inv_add_file].
Qed.

Lemma keeps_rename r old new : inv r -> keeps (Report.rename r old new).
Proof.
  intros ((Ws & Wf & Wn) & Hs & Hfs & He) r' ([f fs] & Hp & [= <-])%bind_Ok_inv.
  unfold od_pop in Hp. destruct (od_get _ _) as [f'|] eqn:E; [|done]. injection Hp as -> <-.
  assert (Hr : inv (Report.with_files (od_del old (Report.r_files r)) r)).
  { assert (Hd : forall k v, (k, v) ∈ od_del old (Report.r_files r) -> (k, v) ∈ Report.r_files r).
    { intros k v Hk. by apply od_del_elem in Hk as [_ ?]. }
    split_and!; cbn.
    - split_and!; cbn; [done | by apply od_wf_del |]. intros p g Hg%od_get_elem. apply Wn, od_elem_get; [done|]. by apply Hd.
    - done.
    - intros [k v] Hk. apply Hfs. by apply Hd.
    - intros ([k v] & Ek & Hk)%list_elem_of_fmap. apply He, list_elem_of_fmap. exists (k, v). split; [done | by apply Hd]. }
  assert (Hf : inv f) by by eapply inv_od_get.
  destruct new as [n|]; [|exact Hr]. case_bool_decide; [exact Hr|].
  apply (inv_add_file _ (ReportFile.with_name n f) Hr). destruct Hf as (? & ? & _). by split.
Qed.

Lemma keeps_resolve_paths r ps : inv r -> keeps (Report.resolve_paths r ps).
Proof.
  intros Hr. unfold Report.resolve_paths. apply keeps_foldM; [done|]. intros r1 p Hr1 _. unfold Report.resolve_step.
  case_match; [by apply keeps_rename | by apply keeps_ok].
Qed.

Lemma inv_with_path_fixer pf s : inv s -> inv (with_path_fixer pf s).
Proof. done. Qed.
Lemma inv_with_report r s : inv s -> inv r -> inv (with_report r s).
Proof. by intros [? _]. Qed.
Lemma inv_create_session b filepath : sessionid b = sid -> inv (create_report_builder_session b filepath).
Proof.
  intros Hb. split; [done|]. split_and!; cbn.
  - split_and!; cbn; [apply NoDup_nil_2 | apply NoDup_nil_2 | done].
  - done.
  - intros x Hx. by apply not_elem_of_nil in Hx.
  - apply not_elem_of_nil.
Qed.

Lemma inv_create_line s c ty ps mb x : inv s -> inv (create_coverage_line s c ty ps mb x).
Proof. intros [Hs _]. by eexists. Qed.

Lemma keeps_append s f : inv s -> inv f -> keeps (append s f).
Proof.
  intros Hs Hf [b s'] ([b' r] & Hr & [= <- <-])%bind_Ok_inv. split; [trivial_inv|].
  apply inv_with_report; [done|]. apply keeps_report_append in Hr; [apply Hr | apply Hs | by apply inv_some].
Qed.

Lemma keeps_create_file cwd s path b : inv s -> keeps (create_coverage_file cwd s path b).
Proof.
  intros Hs. unfold create_coverage_file. eapply (keeps_bind (A := option string * ReportBuilderSession)).
  - destruct b; [|by apply keeps_ok]. eapply (keeps_bind (A := option string * _)); [trivial_inv|].
    intros [o pf] _. by apply keeps_ok.
  - intros [[p|] s'] [_ Hs']; [|by apply keeps_ok]. case_bool_decide; [by apply keeps_ok|].
    intros [o s''] (f & Hf & [= <- <-])%bind_Ok_inv. injection Hf as <-. split; [|done].
    apply inv_some. split_and!; [done | | done]. intros x Hx. by apply not_elem_of_nil in Hx.
Qed.

Lemma keeps_add_line f ln l : inv f -> inv l -> keeps (add_line f ln l).
Proof. intros Hf Hl f' ([b g] & Ha & [= <-])%bind_Ok_inv. apply keeps_file_append in Ha as [_ Hg]; done. Qed.

Lemma keeps_append_line s f ln c : inv s -> inv f -> keeps (append_line s f ln c).
Proof. intros Hs Hf. apply keeps_add_line; [done | by apply inv_create_line]. Qed.

Lemma keeps_append_file s f : inv s -> inv f -> keeps (append_file s f).
Proof. intros Hs Hf s' ([b g] & Ha & [= <-])%bind_Ok_inv. apply keeps_append in Ha as [_ Hg]; done. Qed.

Lemma keeps_append_if s o : inv s -> inv o -> keeps (append_if s o).
Proof. intros Hs Ho. destruct o as [f|]; [apply keeps_append_file; [done | by apply Ho] | by apply keeps_ok]. Qed.

Lemma keeps_append_lines f ls : inv f -> inv ls -> keeps (append_lines f ls).
Proof.
  intros Hf Hls. apply keeps_foldM; [done|]. intros g e Hg He. apply keeps_add_line; [done|]. by apply Hls in He as [_ He].
Qed.

Lemma keeps_resolve s ps : inv s -> keeps (resolve_paths s ps).
Proof.
  intros Hs s' (r & Hr & [= <-])%bind_Ok_inv. apply inv_with_report; [done|].
  apply keeps_resolve_paths in Hr; [done | apply Hs].
Qed.

Lemma inv_get_file s name : inv s -> inv (get_file s name).
Proof. intros (_ & _ & _ & Hfs & _) f Hf. by eapply inv_od_get. Qed.
End operations.

#[export] Hint Resolve keeps_setitem keeps_get keeps_file_append keeps_append keeps_create_file keeps_add_line keeps_append_line
  keeps_append_file keeps_append_if keeps_append_lines keeps_resolve : keep.
#[export] Hint Resolve inv_with_path_fixer inv_create_line inv_get_file : keep.
