(* ===== verification/GoCover.v ===== *)
(** * [worker/services/report/languages/go.py]: Go cover profiles

    A profile lists regions of a file, from a line and column to another, with
    the number of times they ran.  The parser collects, per line, the set of the
    column ranges on it and combines them into the coverage of the line.  A
    Python set has no order: [combine_partials] is defined on a list, and the
    order of the list is shown not to matter. *)
From S2P Require Export ReportBuilder.
#[local] Open Scope string_scope.
#[local] Open Scope Z_scope.
#[local] Open Scope list_scope.

(** [languages/helpers.py] *)
Record SourceLocation : Set := mkLoc { loc_line : Z; loc_column : Z }.
Record Region : Set := mkRegion { r_start : SourceLocation; r_end : SourceLocation; r_hits : Z }.

Definition parse_loc (s : string) : result (string * string) :=
  match split1 "." s with [a; b] => Ok (a, b) | _ => Err ValueError end.

Definition parse_coverage (line : string) : result Region :=
  match split_n 2 " " line with
  | [region_str; _num_statements; hits] =>
      match split1 "," region_str with
      | [start; end_] =>
          '(start_line, start_column) ← parse_loc start;
          '(end_line, end_column) ← parse_loc end_;
          sl ← int_of_str start_line; sc ← int_of_str start_column;
          el ← int_of_str end_line; ec ← int_of_str end_column;
          h ← int_of_str hits;
          Ok (mkRegion (mkLoc sl sc) (mkLoc el ec) h)
      | _ => Err ValueError
      end
  | _ => Err ValueError
  end.

(** [lines[ln].add(p)] on a [defaultdict(set)]. *)
Definition add_partial (ln : Z) (p : partial) (lines : odict Z (list partial)) : odict Z (list partial) :=
  let ps := default [] (od_get ln lines) in
  od_set ln (if bool_decide (p ∈ ps) then ps else ps ++ [p]) lines.

Definition add_region (r : Region) (lines : odict Z (list partial)) : odict Z (list partial) :=
  let '(mkRegion (mkLoc sl sc) (mkLoc el ec) h) := r in
  if sl =? el then add_partial sl (Partial (Some sc) (Some ec) h) lines
  else
    let lines := add_partial sl (Partial (Some sc) None h) lines in
    let lines := foldl (fun ls ln => add_partial ln (Partial (Some 0) None h) ls) lines (range (sl + 1) el) in
    if 2 <? ec then add_partial el (Partial None (Some ec) h) lines else lines.

Abbreviation profile := (odict string (odict Z (list partial))).

Definition profile_line (files : profile) (encoded_line : string) : result profile :=
  line ← decode_replace encoded_line;
  if bool_decide (line = "") || startswith "mode: " line then Ok files
  else
    match split1 ":" line with
    | [filename; rest] =>
        if bool_decide (rest = "") || endswith "%" rest then Ok files
        else
          match parse_coverage rest with
          | Ok region =>
              Ok (od_set filename (add_region region (default [] (od_get filename files))) files)
          | Err ValueError => Err CorruptRawReportError
          | Err e => Err e
          end
    | _ => Ok files
    end.

Definition process_bytes_into_files (content : string) : result profile :=
  foldM profile_line [] (bytes_lines content).

(** ** Combining the ranges of a line *)

Definition sc_or_0 (p : partial) : Z := default 0 (p_start p).

Definition fill_ended (ps : list partial) : odict Z (list Z) :=
  foldl (fun columns p =>
           match p_end p with
           | Some ec => fl_append (p_cov p) columns (range (sc_or_0 p) ec)
           | None => columns
           end) [] ps.

Definition fill_unended (lc : Z) (ps : list partial) (columns : odict Z (list Z)) : odict Z (list Z) :=
  foldl (fun columns p =>
           match p_end p with
           | Some _ => columns
           | None => fl_append (p_cov p) columns (range (sc_or_0 p) lc)
           end) columns ps.

Definition unended (ps : list partial) : list Z := p_cov <$> filter (fun p => p_end p = None) ps.

(** [merge.merge_all] on hit counts. *)
Definition merge_hits (hits : list Z) : result Z :=
  c ← merge_all (CInt <$> hits) MNone;
  match c with CInt z => Ok z | _ => Err Unmodelled end.

(** [lc]: one more than the last column. *)
Definition last_column (columns : odict Z (list Z)) (ps : list partial) : result Z :=
  m ← match columns with
      | [] => Merge.list_max (sc_or_0 <$> ps)
      | _ => Merge.list_max (od_keys columns)
      end;
  Ok (m + 1).

(** The end of the line: the last range loses its end, or a range is added. *)
Definition add_eol (lc : Z) (eol : Z) (results : list partial) : list partial :=
  let lr := List.last results (Partial None None 0) in
  if bool_decide (p_end lr = Some lc) && (p_cov lr =? eol)
  then removelast results ++ [Partial (p_start lr) None eol]
  else results ++ [Partial (Some lc) None eol].

Definition combine_partials (partials : list partial) : result (option (list partial)) :=
  match partials with
  | [p] => Ok (Some [p])
  | _ =>
      let columns := fill_ended partials in
      lc ← last_column columns partials;
      let columns := fill_unended lc partials columns in
      let eol := unended partials in
      cols ← traverse (fun kv => m ← merge_hits kv.2; Ok (kv.1, m)) columns;
      let results :=
        (fun g => Partial (Some g.1.1) (Some (g.1.2 + 1)) g.2) <$> groupby_cov (merge_sort col_le cols) in
      match results with
      | [] => Ok None
      | fp :: rest =>
          let dud := bool_decide (p_start fp = Some 0) && bool_decide (p_end fp = Some 1) in
          match dud, rest with
          | true, [] => Ok (Some [Partial (Some 0) None (p_cov fp)])
          | _, _ =>
              let results := if dud then rest else results in
              match eol with
              | [] => Ok (Some results)
              | _ => e ← merge_hits eol; Ok (Some (add_eol lc e results))
              end
          end
      end
  end.

(** ** The report *)

(** The coverage of a line: what its ranges combine to, or the best of their hits. *)
Definition line_coverage (partials_as_hits : bool) (partials : list partial) : result cov :=
  best_in_partials ← Merge.list_max (p_cov <$> partials);
  combined ← combine_partials partials;
  let cov_to_use := match combined with Some ps => partials_to_line ps | None => CInt best_in_partials end in
  if partials_as_hits then
    t ← line_type cov_to_use;
    Ok (if bool_decide (t = Some partial_line) then CInt 1 else cov_to_use)
  else Ok cov_to_use.

Section go.
Context `{OrJson}.
Variable cwd : string.

Definition go_line (partials_as_hits : bool) (s : ReportBuilderSession) (_file : ReportFile.t)
    (lp : Z * list partial) : result ReportFile.t :=
  cov ← line_coverage partials_as_hits lp.2;
  '(_, f) ← ReportFile.append _file lp.1 (create_coverage_line s cov None None None CxNone);
  Ok f.

Definition go_file (partials_as_hits : bool) (s : ReportBuilderSession) (fl : string * odict Z (list partial))
    : result ReportBuilderSession :=
  '(_file, s) ← create_coverage_file cwd s fl.1 true;
  match _file with
  | None => Ok s
  | Some f => f ← foldM (go_line partials_as_hits s) f fl.2; '(_, s) ← append s f; Ok s
  end.

Definition from_txt (content : string) (s : ReportBuilderSession) : result ReportBuilderSession :=
  v ← yaml_field s ["parsers"; "go"; "partials_as_hits"] (VBool false);
  files ← process_bytes_into_files content;
  foldM (go_file (truthy v)) s files.

(** [GoProcessor.matches_content] *)
Definition matches_content (content first_line : string) : bool :=
  bool_decide (str_take 6 content = "mode: ") || str_contains ".go:" first_line.
End go.

(** ** Lemmas *)

(** *** The columns do not depend on the order of the ranges *)

(** The hits of the ranges over a column: those with an end, then those without. *)
Definition ended_over (x : Z) (p : partial) : Prop :=
  match p_end p with Some ec => sc_or_0 p <= x < ec | None => False end.
Definition unended_over (lc x : Z) (p : partial) : Prop :=
  match p_end p with Some _ => False | None => sc_or_0 p <= x < lc end.
#[export] Instance ended_over_dec x p : Decision (ended_over x p).
Proof. unfold ended_over. destruct (p_end p); apply _. Defined.
#[export] Instance unended_over_dec lc x p : Decision (unended_over lc x p).
Proof. unfold unended_over. destruct (p_end p); apply _. Defined.

Definition hits_of (P : partial -> Prop) `{!forall p, Decision (P p)} (ps : list partial) : list Z :=
  p_cov <$> filter P ps.

Lemma hits_of_snoc P `{!forall p, Decision (P p)} ps p :
  hits_of P (ps ++ [p]) = hits_of P ps ++ (if decide (P p) then [p_cov p] else []).
Proof.
  unfold hits_of. rewrite filter_app, fmap_app. f_equal.
  destruct (decide (P p)); [by rewrite filter_cons_True | by rewrite filter_cons_False].
Qed.

Lemma hits_of_perm P `{!forall p, Decision (P p)} ps ps' :
  ps ≡ₚ ps' -> hits_of P ps ≡ₚ hits_of P ps'.
Proof. intros Hp. unfold hits_of. by rewrite Hp. Qed.

(** A dictionary of the non-empty lists of a function. *)
Definition holds (fl : odict Z (list Z)) (g : Z -> list Z) : Prop :=
  od_wf fl /\ forall x, od_get x fl = nonempty_list (g x).

Lemma holds_append fl g c a b :
  holds fl g ->
  holds (fl_append c fl (range a b)) (fun x => g x ++ (if decide (a <= x < b) then [c] else [])).
Proof.
  intros [Wf Hg]. split; [by apply fl_append_wf|]. intros x.
  rewrite fl_append_get by apply NoDup_seqZ. rewrite Hg.
  assert (Hr : x ∈ range a b <-> a <= x < b) by (unfold range; rewrite elem_of_seqZ; lia).
  destruct (decide (x ∈ _)) as [E|E]; [rewrite decide_True by tauto | rewrite decide_False by tauto].
  - by destruct (g x).
  - by rewrite app_nil_r.
Qed.

Lemma holds_ext fl g g' : (forall x, g x = g' x) -> holds fl g -> holds fl g'.
Proof. intros E [Wf H]. split; [done|]. intros x. by rewrite H, E. Qed.

Lemma fill_ended_holds ps : holds (fill_ended ps) (fun x => hits_of (ended_over x) ps).
Proof.
  induction ps as [|p ps IH] using rev_ind; [split; [apply od_wf_nil | done]|].
  unfold fill_ended in *. rewrite foldl_app. cbn [foldl].
  destruct (p_end p) as [ec|] eqn:E.
  - eapply holds_ext; [|apply holds_append, IH]. intros x. cbn. rewrite hits_of_snoc. f_equal.
    assert (Hi : ended_over x p <-> sc_or_0 p <= x < ec) by (unfold ended_over; by rewrite E).
    by rewrite (decide_ext _ _ _ _ Hi).
  - eapply holds_ext; [|exact IH]. intros x. cbn. rewrite hits_of_snoc.
    rewrite decide_False by (unfold ended_over; rewrite E; tauto). by rewrite app_nil_r.
Qed.

Lemma fill_unended_holds lc ps fl g :
  holds fl g -> holds (fill_unended lc ps fl) (fun x => g x ++ hits_of (unended_over lc x) ps).
Proof.
  intros Hfl. induction ps as [|p ps IH] using rev_ind.
  { eapply holds_ext; [|exact Hfl]. intros x. cbn. by rewrite app_nil_r. }
  unfold fill_unended in *. rewrite foldl_app. cbn [foldl].
  destruct (p_end p) as [ec|] eqn:E.
  - eapply holds_ext; [|exact IH]. intros x. cbn. rewrite hits_of_snoc.
    rewrite decide_False by (unfold unended_over; rewrite E; tauto). by rewrite app_nil_r.
  - eapply holds_ext; [|apply holds_append, IH]. intros x. cbn. rewrite hits_of_snoc, <- app_assoc.
    assert (Hi : unended_over lc x p <-> sc_or_0 p <= x < lc) by (unfold unended_over; by rewrite E).
    by rewrite (decide_ext _ _ _ _ Hi).
Qed.

(** The hits over a column once both loops have run. *)
Definition over (lc : Z) (ps : list partial) (x : Z) : list Z :=
  hits_of (ended_over x) ps ++ hits_of (unended_over lc x) ps.

Lemma columns_hold lc ps : holds (fill_unended lc ps (fill_ended ps)) (over lc ps).
Proof. apply fill_unended_holds, fill_ended_holds. Qed.

Lemma over_perm lc ps ps' x : ps ≡ₚ ps' -> over lc ps x ≡ₚ over lc ps' x.
Proof. intros Hp. unfold over. by rewrite !(hits_of_perm _ ps ps' Hp). Qed.

(** Hit counts as profiles have them. *)
Definition hit_count (z : Z) : Prop := 0 <= z < 2 ^ 63.

Lemma merge_hits_max l : Forall hit_count l -> l <> [] -> merge_hits l = Merge.list_max l.
Proof.
  destruct l as [|z l]; [done|]. intros [Hz Hl]%Forall_cons _. unfold merge_hits. rewrite fmap_cons.
  unfold merge_all.
  enough (H : foldM (fun c c' => merge_coverage c c' MNone) (CInt z) (CInt <$> l) = Ok (CInt (foldl Z.max z l)))
    by by rewrite H.
  revert z Hz. induction Hl as [|y l Hy _ IH]; intros z Hz; [done|]. rewrite fmap_cons. cbn [foldM foldl].
  unfold hit_count in *. rewrite merge_int_int by lia.
  rewrite (proj2 (Z.eqb_neq z (-1))), (proj2 (Z.eqb_neq y (-1))) by lia. cbn [orb mbind result_bind].
  apply IH. lia.
Qed.

(** Lists of distinct keys in order are determined by their elements. *)
Lemma strict_sorted_unique {A} (l l' : list (Z * A)) :
  StronglySorted Z.lt l.*1 -> StronglySorted Z.lt l'.*1 -> (forall p, p ∈ l <-> p ∈ l') -> l = l'.
Proof.
  revert l'. induction l as [|[x a] l IH]; intros l' Hs Hs' E.
  - destruct l' as [|p l']; [done|]. assert (p ∈ @nil (Z * A)) as []%not_elem_of_nil. apply E. left.
  - destruct l' as [|[y b] l'].
    { assert ((x, a) ∈ @nil (Z * A)) as []%not_elem_of_nil. apply E. left. }
    cbn in Hs, Hs'. apply StronglySorted_inv in Hs as [Hs Hx], Hs' as [Hs' Hy].
    rewrite Forall_fmap, Forall_forall in Hx, Hy.
    assert (Exy : (x, a) = (y, b)).
    { pose proof (proj1 (E (x, a)) (list_elem_of_here _ _)) as [H1|H1]%elem_of_cons; [done|].
      pose proof (proj2 (E (y, b)) (list_elem_of_here _ _)) as [H2|H2]%elem_of_cons; [done|].
      apply Hy in H1. apply Hx in H2. cbn in *. lia. }
    injection Exy as -> ->. f_equal. apply IH; [done | done |]. intros [z c]. split; intros Hin.
    + pose proof (proj1 (E (z, c)) (list_elem_of_further _ _ _ Hin)) as [[= -> ->]|?]%elem_of_cons; [|done].
      apply Hx in Hin. cbn in Hin. lia.
    + pose proof (proj2 (E (z, c)) (list_elem_of_further _ _ _ Hin)) as [[= -> ->]|?]%elem_of_cons; [|done].
      apply Hy in Hin. cbn in Hin. lia.
Qed.

Lemma hits_of_counts P `{!forall p, Decision (P p)} ps :
  Forall (fun p => hit_count (p_cov p)) ps -> Forall hit_count (hits_of P ps).
Proof. intros Hh. apply Forall_fmap. rewrite Forall_forall in *. intros p [_ Hp]%list_elem_of_filter. cbn. auto. Qed.

Lemma holds_elem fl g x l : holds fl g -> (x, l) ∈ fl <-> g x = l /\ l <> [].
Proof.
  intros [Wf Hg]. split.
  - intros Hin%od_elem_get; [|done]. rewrite Hg in Hin. unfold nonempty_list in Hin.
    destruct (g x); [done|]. by injection Hin as <-.
  - intros [E Hne]. apply od_get_elem. rewrite Hg, E. by destruct l.
Qed.

Lemma holds_key fl g x : holds fl g -> x ∈ od_keys fl <-> g x <> [].
Proof.
  intros [Wf Hg]. rewrite <- od_get_is_Some, Hg. destruct (g x); cbn.
  - split; [by intros [? ?] | done].
  - split; [done | eauto].
Qed.

(** The columns of a line, sorted. *)
Lemma columns_run lc ps :
  Forall (fun p => hit_count (p_cov p)) ps ->
  exists cols,
    traverse (fun kv => m ← merge_hits kv.2; Ok (kv.1, m)) (fill_unended lc ps (fill_ended ps)) = Ok cols /\
    StronglySorted Z.lt (merge_sort col_le cols).*1 /\
    forall x m, (x, m) ∈ merge_sort col_le cols <-> Merge.list_max (over lc ps x) = Ok m.
Proof.
  intros Hc. pose proof (columns_hold lc ps) as Hh.
  assert (Hmax : forall x l, (x, l) ∈ fill_unended lc ps (fill_ended ps) -> merge_hits l = Merge.list_max l).
  { intros x l [<- Hne]%(holds_elem _ _ _ _ Hh). apply merge_hits_max; [|done].
    unfold over. apply Forall_app; split; by apply hits_of_counts. }
  set (fl := fill_unended lc ps (fill_ended ps)) in *.
  destruct (traverse_total (fun kv => m ← merge_hits kv.2; Ok (kv.1, m)) (fun kv => kv ∈ fl) fl)
    as [cols Hcols].
  { intros [x l] Hin. cbn. rewrite (Hmax x l Hin). apply (holds_elem _ _ _ _ Hh) in Hin as [_ Hne].
    destruct (list_max_total l Hne) as [m ->]. cbn. eauto. }
  { by apply Forall_forall. }
  exists cols. split; [done|]. apply traverse_Forall2 in Hcols as F.
  assert (Hk : cols.*1 = od_keys fl).
  { clear -F. induction F as [|[x l] [y m] fl cols Hx F IH]; cbn; [done|].
    cbn in Hx. apply bind_Ok_inv in Hx as (m' & _ & [= <- <-]). unfold od_keys in *. cbn. by f_equal. }
  assert (Hnd : NoDup cols.*1) by (rewrite Hk; apply Hh).
  split.
  { apply sorted_cols_strict; [by rewrite merge_sort_Permutation|].
    apply StronglySorted_merge_sort; apply _. }
  intros x m. rewrite merge_sort_Permutation. split.
  - intros Hin. apply list_elem_of_lookup in Hin as [i Hi].
    destruct (Forall2_lookup_r _ _ _ _ _ F Hi) as ([y l] & Hl & H). cbn in H.
    apply list_elem_of_lookup_2 in Hl. rewrite (Hmax y l Hl) in H.
    apply bind_Ok_inv in H as (m' & Hm & [= -> ->]).
    by apply (holds_elem _ _ _ _ Hh) in Hl as [-> _].
  - intros Hm. assert (Hin : (x, over lc ps x) ∈ fl).
    { apply (holds_elem _ _ _ _ Hh). split; [done|]. by destruct (over lc ps x). }
    pose proof (Hmax _ _ Hin) as E. apply list_elem_of_lookup in Hin as [i Hi].
    destruct (Forall2_lookup_l _ _ _ _ _ F Hi) as ([y m'] & Hl & H). cbn in H.
    rewrite E, Hm in H. injection H as <- <-. by eapply list_elem_of_lookup_2.
Qed.

Lemma last_column_perm ps ps' :
  ps ≡ₚ ps' -> last_column (fill_ended ps) ps = last_column (fill_ended ps') ps'.
Proof.
  intros Hp.
  assert (Hk : forall x, x ∈ od_keys (fill_ended ps) <-> x ∈ od_keys (fill_ended ps')).
  { intros x. rewrite !(holds_key _ _ x (fill_ended_holds _)).
    pose proof (hits_of_perm (ended_over x) ps ps' Hp) as E. split; intros H1 H2; apply H1; rewrite H2 in E.
    - by apply Permutation_nil_r in E.
    - symmetry in E. by apply Permutation_nil_r in E. }
  unfold last_column.
  rewrite (list_max_same _ _ Hk).
  rewrite (list_max_perm (sc_or_0 <$> ps) (sc_or_0 <$> ps')) by by rewrite Hp.
  destruct (fill_ended ps) as [|kv fl], (fill_ended ps') as [|kv' fl']; try done.
  - assert (kv'.1 ∈ od_keys (@nil (Z * list Z))) as []%not_elem_of_nil. apply Hk. left.
  - assert (kv.1 ∈ od_keys (@nil (Z * list Z))) as []%not_elem_of_nil. apply Hk. left.
Qed.

Lemma merge_hits_perm l l' : Forall hit_count l -> l ≡ₚ l' -> l <> [] -> merge_hits l = merge_hits l'.
Proof.
  intros Hl Hp Hne. rewrite !merge_hits_max; [by apply list_max_perm | | | done | done].
  - by rewrite <- Hp.
  - intros ->. by apply Permutation_nil_r in Hp.
Qed.

Lemma combine_partials_perm ps ps' :
  ps ≡ₚ ps' -> Forall (fun p => hit_count (p_cov p)) ps -> combine_partials ps = combine_partials ps'.
Proof.
  intros Hp Hc. destruct ps as [|p1 [|p2 ps]].
  - by apply Permutation_nil_l in Hp as ->.
  - by apply Permutation_singleton_l in Hp as ->.
  - set (qs := p1 :: p2 :: ps) in *.
    assert (Hlen : length ps' = length qs) by by rewrite Hp.
    destruct ps' as [|p1' [|p2' ps']]; [done | done |]. set (qs' := p1' :: p2' :: ps') in *.
    unfold combine_partials. unfold qs at 1, qs' at 1. fold qs qs'.
    rewrite (last_column_perm qs qs' Hp). destruct (last_column _ qs') as [lc|e]; [|done].
    cbn [mbind result_bind].
    assert (Hc' : Forall (fun p => hit_count (p_cov p)) qs') by by rewrite <- Hp.
    destruct (columns_run lc qs Hc) as (cols & -> & Hs & Hin).
    destruct (columns_run lc qs' Hc') as (cols' & -> & Hs' & Hin'). cbn [mbind result_bind].
    assert (E : merge_sort col_le cols = merge_sort col_le cols').
    { apply strict_sorted_unique; [done | done |]. intros [x m].
      by rewrite Hin, Hin', (list_max_perm _ _ (over_perm lc qs qs' x Hp)). }
    rewrite E. assert (Heol : unended qs ≡ₚ unended qs') by (unfold unended; by rewrite Hp).
    assert (Hcu : Forall hit_count (unended qs)) by by apply (hits_of_counts (fun p => p_end p = None)).
    match goal with |- context [?f <$> groupby_cov ?l] => destruct (f <$> groupby_cov l) as [|fp rest]; [done|] end.
    pose proof (merge_hits_perm _ _ Hcu Heol) as Hm.
    destruct (unended qs) as [|u us].
    + apply Permutation_nil_l in Heol. by rewrite <- Heol.
    + destruct (unended qs') as [|u' us'];
        [by apply Permutation_nil_r in Heol|]. by rewrite Hm.
Qed.

(** *** Printing a profile *)

(** A line of a profile: [name.go:line.column,line.column statements hits]. *)
Definition print_region (r : Region) (statements : Z) : string :=
  let loc l := str_of_Z (loc_line l) +:+ "." +:+ str_of_Z (loc_column l) in
  loc (r_start r) +:+ "," +:+ loc (r_end r) +:+ " " +:+ str_of_Z statements +:+ " " +:+ str_of_Z (r_hits r).

Definition region_ok (r : Region) : Prop :=
  0 <= loc_line (r_start r) /\ 0 <= loc_column (r_start r) /\
  0 <= loc_line (r_end r) /\ 0 <= loc_column (r_end r) /\ 0 <= r_hits r.

Lemma parse_loc_print a b :
  0 <= a -> parse_loc (str_of_Z a +:+ "." +:+ str_of_Z b) = Ok (str_of_Z a, str_of_Z b).
Proof.
  intros Ha. unfold parse_loc. change ("." +:+ str_of_Z b) with (String "." (str_of_Z b)). by rewrite split1_char by by apply digits_without.
Qed.

Lemma parse_coverage_run r n : region_ok r -> 0 <= n -> parse_coverage (print_region r n) = Ok r.
Proof.
  destruct r as [[sl sc] [el ec] h]. unfold region_ok. cbn [r_start r_end r_hits loc_line loc_column].
  intros (Hsl & Hsc & Hel & Hec & Hh) Hn. unfold parse_coverage, print_region.
  cbn [r_start r_end r_hits loc_line loc_column].
  set (st := str_of_Z sl +:+ "." +:+ str_of_Z sc). set (en := str_of_Z el +:+ "." +:+ str_of_Z ec).
  assert (Hst : without " "%char st = true /\ without ","%char st = true).
  { unfold st. by rewrite !without_app, !digits_without. }
  assert (Hen : without " "%char en = true) by (unfold en; by rewrite !without_app, !digits_without).
  replace (st +:+ "," +:+ en +:+ " " +:+ str_of_Z n +:+ " " +:+ str_of_Z h)
    with ((st +:+ "," +:+ en) +:+ String " " (str_of_Z n +:+ String " " (str_of_Z h)))
    by by rewrite !str_app_assoc.
  cbn [split_n]. rewrite partition_char by (rewrite !without_app; by rewrite (proj1 Hst), Hen).
  rewrite partition_char by by apply digits_without.
  change ("," +:+ en) with (String "," en). rewrite (split1_char ","%char) by apply Hst.
  unfold st, en. rewrite !parse_loc_print by done. cbn [mbind result_bind].
  by rewrite !int_of_str_of_Z.
Qed.

Definition print_line (filename : string) (r : Region) (n : Z) : string :=
  filename +:+ ":" +:+ print_region r n.

Lemma profile_line_print files name r n :
  region_ok r -> 0 <= n -> without ":"%char name = true -> ascii_text name = true ->
  profile_line files (print_line name r n) =
  Ok (od_set name (add_region r (default [] (od_get name files))) files).
Proof.
  intros Hr Hn Hname Hascii. unfold profile_line.
  assert (Hpct : without "%"%char (print_region r n) = true /\ ascii_text (print_region r n) = true).
  { destruct Hr as (? & ? & ? & ? & ?). unfold print_region. split.
    - by rewrite !without_app, !digits_without.
    - unfold ascii_text in *. by rewrite !str_forallb_app, !str_of_Z_ascii. }
  rewrite decode_ascii.
  2: { unfold print_line, ascii_text in *. rewrite !str_forallb_app, Hascii. cbn. apply Hpct. }
  cbn [mbind result_bind].
  assert (Hsplit : split1 ":" (print_line name r n) = [name; print_region r n]) by by apply split1_char.
  destruct (str_of_Z_head (loc_line (r_start r)) ltac:(apply Hr)) as (c0 & t0 & Hu & Hd0).
  assert (Hhead : exists c t, print_region r n = String c t /\ is_digit c = true).
  { unfold print_region. rewrite Hu. exists c0. eexists. split; [reflexivity | done]. }
  destruct Hhead as (c & t & Hp & Hd).
  assert (Hmode : startswith "mode: " (print_line name r n) = false).
  { destruct (startswith _ _) eqn:E; [|done]. apply prefix_spec in E as [q E]. rewrite E in Hsplit.
    change ("mode: " +:+ q) with ("mode" +:+ String ":" (String " " q)) in Hsplit.
    rewrite split1_char in Hsplit by done. injection Hsplit as _ Hq. rewrite Hp in Hq.
    injection Hq as <- _. done. }
  rewrite Hmode, Hsplit, orb_false_r. rewrite bool_decide_eq_false_2.
  2: { unfold print_line. by destruct name. }
  rewrite bool_decide_eq_false_2 by (rewrite Hp; done). cbn [orb].
  destruct (endswith "%" (print_region r n)) eqn:E.
  { apply endswith_app in E as [q Hq]. destruct Hpct as [Hpct _]. rewrite Hq, without_app in Hpct.
    cbn in Hpct. by rewrite andb_false_r in Hpct. }
  by rewrite parse_coverage_run.
Qed.

(** *** What the lines of a file collect *)

(** The range a region adds to a line. *)
Definition region_partial (r : Region) (ln : Z) : option partial :=
  let '(mkRegion (mkLoc sl sc) (mkLoc el ec) h) := r in
  if sl =? el then if ln =? sl then Some (Partial (Some sc) (Some ec) h) else None
  else if ln =? sl then Some (Partial (Some sc) None h)
  else if (sl <? ln) && (ln <? el) then Some (Partial (Some 0) None h)
  else if (ln =? el) && (2 <? ec) then Some (Partial None (Some ec) h)
  else None.

Definition partials_on (lines : odict Z (list partial)) (ln : Z) : list partial :=
  default [] (od_get ln lines).

Lemma partials_on_add ln ln' p lines :
  partials_on (add_partial ln p lines) ln' =
  if decide (ln' = ln) then
    (if bool_decide (p ∈ partials_on lines ln) then partials_on lines ln else partials_on lines ln ++ [p])
  else partials_on lines ln'.
Proof.
  unfold partials_on, add_partial. destruct (decide (ln' = ln)) as [->|Hne].
  - by rewrite od_get_set_eq.
  - by rewrite od_get_set_ne.
Qed.

Lemma elem_of_partials_add ln ln' p q lines :
  q ∈ partials_on (add_partial ln p lines) ln' <-> q ∈ partials_on lines ln' \/ (ln' = ln /\ q = p).
Proof.
  rewrite partials_on_add. destruct (decide (ln' = ln)) as [->|Hne]; [|tauto].
  case_bool_decide as E; [split; [tauto | by intros [?|[_ ->]]]|].
  rewrite elem_of_app, list_elem_of_singleton. tauto.
Qed.

Lemma elem_of_partials_middle h ls ln lines q :
  q ∈ partials_on (foldl (fun acc l => add_partial l (Partial (Some 0) None h) acc) lines ls) ln <->
  q ∈ partials_on lines ln \/ (ln ∈ ls /\ q = Partial (Some 0) None h).
Proof.
  revert lines. induction ls as [|l ls IH]; intros lines; cbn [foldl].
  - rewrite elem_of_nil. tauto.
  - rewrite IH, elem_of_partials_add, elem_of_cons. tauto.
Qed.

Lemma add_region_elem r lines ln q :
  loc_line (r_start r) <= loc_line (r_end r) ->
  q ∈ partials_on (add_region r lines) ln <->
  q ∈ partials_on lines ln \/ region_partial r ln = Some q.
Proof.
  destruct r as [[sl sc] [el ec] h]. cbn [r_start r_end loc_line]. intros Hle.
  unfold add_region, region_partial. destruct (Z.eqb_spec sl el) as [->|Hne].
  - rewrite elem_of_partials_add. destruct (Z.eqb_spec ln el) as [->|]; intuition congruence.
  - assert (Hmid : q ∈ partials_on (foldl (fun ls l => add_partial l (Partial (Some 0) None h) ls)
        (add_partial sl (Partial (Some sc) None h) lines) (range (sl + 1) el)) ln <->
      (q ∈ partials_on lines ln \/ (ln = sl /\ q = Partial (Some sc) None h)) \/
      ((sl < ln < el) /\ q = Partial (Some 0) None h)).
    { rewrite elem_of_partials_middle, elem_of_partials_add. unfold range. rewrite elem_of_seqZ.
      assert (sl + 1 <= ln < sl + 1 + (el - (sl + 1)) <-> sl < ln < el) by lia. tauto. }
    assert (Hend : q ∈ partials_on (if 2 <? ec then add_partial el (Partial None (Some ec) h)
        (foldl (fun ls l => add_partial l (Partial (Some 0) None h) ls)
          (add_partial sl (Partial (Some sc) None h) lines) (range (sl + 1) el))
        else foldl (fun ls l => add_partial l (Partial (Some 0) None h) ls)
          (add_partial sl (Partial (Some sc) None h) lines) (range (sl + 1) el)) ln <->
      ((q ∈ partials_on lines ln \/ (ln = sl /\ q = Partial (Some sc) None h)) \/
        ((sl < ln < el) /\ q = Partial (Some 0) None h)) \/
      (2 < ec /\ ln = el /\ q = Partial None (Some ec) h)).
    { destruct (Z.ltb_spec 2 ec); [rewrite elem_of_partials_add|]; rewrite Hmid; intuition lia. }
    rewrite Hend.
    destruct (Z.eqb_spec ln sl), (Z.ltb_spec sl ln), (Z.ltb_spec ln el), (Z.eqb_spec ln el), (Z.ltb_spec 2 ec);
      cbn; try lia; intuition (lia || congruence).
Qed.

(** A profile as its entries: the file, the region, the number of statements. *)
Abbreviation entry := (string * Region * Z)%type.

Definition entry_ok (e : entry) : Prop :=
  region_ok e.1.2 /\ loc_line (r_start e.1.2) <= loc_line (r_end e.1.2) /\ 0 <= e.2 /\
  without ":"%char e.1.1 = true /\ without LF e.1.1 = true /\ ascii_text e.1.1 = true.

Definition print_entry (e : entry) : string := print_line e.1.1 e.1.2 e.2.

Definition add_entry (files : profile) (e : entry) : profile :=
  od_set e.1.1 (add_region e.1.2 (default [] (od_get e.1.1 files))) files.

Lemma profile_run mode es :
  Forall entry_ok es -> without LF mode = true -> ascii_text mode = true ->
  process_bytes_into_files (join nl (("mode: " +:+ mode) :: (print_entry <$> es))) = Ok (foldl add_entry [] es).
Proof.
  intros Hes Hm Ha. unfold process_bytes_into_files. rewrite bytes_lines_join.
  - assert (Hmode : profile_line [] ("mode: " +:+ mode) = Ok []).
    { unfold profile_line. rewrite decode_ascii by (unfold ascii_text in *; by rewrite str_forallb_app).
      cbn [mbind result_bind].
      by rewrite (prefix_app "mode: " mode : startswith "mode: " _ = true), orb_true_r. }
    cbn [foldM]. rewrite Hmode. cbn [mbind result_bind]. clear Hmode. generalize (@nil (string * odict Z (list partial))) as files.
    induction Hes as [|[[name r] n] es He _ IH]; intros files; [done|].
    destruct He as (Hr & _ & Hn & Hc & _ & Hasc). rewrite fmap_cons. cbn [foldM foldl].
    change (print_entry (name, r, n)) with (print_line name r n). rewrite profile_line_print by done. apply IH.
  - constructor; [by rewrite without_app|]. apply Forall_fmap. eapply Forall_impl; [exact Hes|].
    intros [[name r] n] ((? & ? & ? & ? & ?) & _ & ? & _ & Hl & _).
    unfold compose, print_entry, print_line, print_region. cbn [fst snd] in *.
    by rewrite !without_app, Hl, !digits_without.
  - destruct es as [|e es] using rev_ind; [by destruct mode|].
    rewrite fmap_app. change (print_entry <$> [e]) with [print_entry e]. rewrite app_comm_cons, last_last. unfold print_entry, print_line.
    by destruct (e.1.1).
Qed.

Lemma entries_elem es files name ln q :
  Forall entry_ok es ->
  q ∈ partials_on (default [] (od_get name (foldl add_entry files es))) ln <->
  q ∈ partials_on (default [] (od_get name files)) ln \/
  exists e, e ∈ es /\ e.1.1 = name /\ region_partial e.1.2 ln = Some q.
Proof.
  intros Hes. revert files. induction Hes as [|e es He _ IH]; intros files; cbn [foldl].
  - split; [by left | intros [?|(e & Hin%not_elem_of_nil & _)]; done].
  - rewrite IH. setoid_rewrite elem_of_cons.
    assert (Hstep : q ∈ partials_on (default [] (od_get name (add_entry files e))) ln <->
      q ∈ partials_on (default [] (od_get name files)) ln \/ (e.1.1 = name /\ region_partial e.1.2 ln = Some q)).
    { unfold add_entry. destruct (decide (name = e.1.1)) as [->|Hne].
      - rewrite od_get_set_eq. cbn [default from_option id]. rewrite add_region_elem by apply He. tauto.
      - rewrite od_get_set_ne by done. intuition congruence. }
    rewrite Hstep. naive_solver.
Qed.

(** ** Properties *)

(** A Go profile is read back: from the text of a mode line and one line per
    region, the parser collects, for each line of each file, exactly the column
    ranges that the regions of that file put on it. *)
Theorem go_profile_parse mode es :
  Forall entry_ok es -> without LF mode = true -> ascii_text mode = true ->
  exists files,
    process_bytes_into_files (join nl (("mode: " +:+ mode) :: (print_entry <$> es))) = Ok files /\
    forall name ln q, q ∈ partials_on (default [] (od_get name files)) ln <->
      exists r n, (name, r, n) ∈ es /\ region_partial r ln = Some q.
Proof.
  intros Hes Hm Ha. exists (foldl add_entry [] es). split; [by apply profile_run|].
  intros name ln q. rewrite entries_elem by done. split.
  - intros [Hq|([[name' r] n] & Hin & <- & Hq)]; [|by exists r, n].
    cbn in Hq. unfold partials_on in Hq. cbn in Hq. by apply not_elem_of_nil in Hq.
  - intros (r & n & Hin & Hq). right. by exists (name, r, n).
Qed.

Definition example_region : Region := mkRegion (mkLoc 7 14) (mkLoc 9 2) 3.

Lemma go_profile_parse_witness :
  exists files,
    process_bytes_into_files (join nl ["mode: count"; "a.go:7.14,9.2 1 3"]) = Ok files /\
    forall name ln q, q ∈ partials_on (default [] (od_get name files)) ln <->
      exists r n, (name, r, n) ∈ [("a.go", example_region, 1)] /\ region_partial r ln = Some q.
Proof.
  apply (go_profile_parse "count" [("a.go", example_region, 1)]); [|reflexivity..].
  repeat constructor; cbn; try lia; done.
Defined.

(** The column ranges of a line are a Python set, which has no order: for hit
    counts, whatever order they are combined in, the coverage of the line is the
    same. *)
Theorem go_line_coverage_order b ps ps' :
  ps ≡ₚ ps' -> Forall (fun p => hit_count (p_cov p)) ps -> line_coverage b ps = line_coverage b ps'.
Proof.
  intros Hp Hc. unfold line_coverage. rewrite (combine_partials_perm ps ps' Hp Hc).
  by rewrite (list_max_perm (p_cov <$> ps) (p_cov <$> ps')) by by rewrite Hp.
Qed.

Lemma go_line_coverage_order_witness :
  line_coverage false [Partial (Some 2) None 0; Partial (Some 1) (Some 3) 1] =
  line_coverage false [Partial (Some 1) (Some 3) 1; Partial (Some 2) None 0].
Proof.
  apply go_line_coverage_order.
  - apply (Permutation_app_comm [Partial (Some 2) None 0] [Partial (Some 1) (Some 3) 1]).
  - repeat constructor; cbn; unfold hit_count; lia.
Defined.

(** The ranges of the docstring of [combine_partials]: the open end starts at
    column 3, where the docstring says 4. *)
Example combine_partials_docstring :
  combine_partials [Partial (Some 2) None 0; Partial (Some 1) (Some 3) 1] =
  Ok (Some [Partial (Some 1) (Some 3) 1; Partial (Some 3) None 0]).
Proof. reflexivity. Qed.
