(* ===== verification/Lcov.v ===== *)
(** * [worker/services/report/languages/lcov.py]: LCOV tracefiles

    A tracefile has a section per source file: records of line hits, of function
    starts and of branches.  Line records are merged into the file as they are
    read; the branch records of a line are counted at the end of the section and
    replace the line. *)
From S2P Require Export BuilderInv PyDecimal.
From S2P Require Import JsonCodec.
#[local] Open Scope string_scope.
#[local] Open Scope Z_scope.
#[local] Open Scope list_scope.

(** [int(d)] of a decimal: truncated. *)
Definition Z_of_dec (d : decimal) : Z :=
  let m := if d_exp d <? 0 then d_coef d / 10 ^ (- d_exp d) else d_coef d * 10 ^ d_exp d in
  if d_neg d then - m else m.

(** [n.isnumeric()] *)
Definition is_numeric (c : ascii) : bool :=
  let n := N_of_ascii c in
  (is_digit c || (n =? 178) || (n =? 179) || (n =? 185) || (188 <=? n) && (n <=? 190))%N.

Definition parse_int (n : string) : result Z :=
  if str_forallb is_numeric n && negb (bool_decide (n = "")) then int_of_str n
  else d ← dec_of_str n; Ok (Z_of_dec d).

(** The local variables of [_process_file]. *)
Record lcov_state : Type := mkLcov {
  branches : odict string (odict string Z);
  fn_lines : list string;
  JS : bool;
  CPP : bool;
  skip_lines : list string;
  _file : option ReportFile.t;
}.

Definition lcov_init : lcov_state := mkLcov [] [] false false [] None.

Definition with_file (f : option ReportFile.t) (st : lcov_state) : lcov_state :=
  mkLcov (branches st) (fn_lines st) (JS st) (CPP st) (skip_lines st) f.

(** [except (ValueError, InvalidOperation): continue] around the two numbers. *)
Definition da_numbers (line_str hit : string) : result (option (Z * Z)) :=
  match (ln ← int_of_str line_str; cov ← parse_int hit; Ok (ln, cov)) with
  | Ok p => Ok (Some p)
  | Err ValueError | Err InvalidOperation => Ok None
  | Err e => Err e
  end.

Definition first_in (s : string) (cs : string) : bool :=
  match s with String c _ => char_in c cs | EmptyString => false end.

Section lcov.
Context `{OrJson}.
Variable cwd : string.

(** [DA:<line number>,<execution count>[,<checksum>]] *)
Definition da_record (s : ReportBuilderSession) (f : ReportFile.t) (content : string) : result ReportFile.t :=
  match split_n 2 "," content with
  | line_str :: hits :: _ =>
      if bool_decide (line_str ∈ [""; "undefined"]) || bool_decide (hits ∈ [""; "undefined"]) then Ok f
      else if first_in line_str "0n" || first_in hits "=s" then Ok f
      else
        o ← da_numbers line_str hits;
        match o with
        | None => Ok f
        | Some (ln, cov) =>
            '(_, f') ← ReportFile.append f ln (create_coverage_line s (CInt (Z.max cov 0)) None None None CxNone);
            Ok f'
        end
  | _ => Ok f
  end.

(** [FN:<line number of function start>,<function name>] *)
Definition fn_record (st : lcov_state) (content : string) : lcov_state :=
  match split_n 1 "," content with
  | [line_str; name] =>
      if CPP st && bool_decide (str_take 2 name ∈ ["_Z"; "_G"])
      then mkLcov (branches st) (fn_lines st) (JS st) (CPP st) (skip_lines st ++ [line_str]) (_file st)
      else mkLcov (branches st) (if bool_decide (line_str ∈ fn_lines st) then fn_lines st else fn_lines st ++ [line_str])
             (JS st) (CPP st) (skip_lines st) (_file st)
  | _ => st
  end.

(** [BRDA:<line number>,<block number>,<branch number>,<taken>] *)
Definition brda_record (st : lcov_state) (f : ReportFile.t) (content : string) : lcov_state :=
  match split_n 3 "," content with
  | [line_str; block; br_id; taken] =>
      if bool_decide (line_str = "1") && endswith ".ts" (ReportFile.rf_name f) then st
      else if bool_decide (line_str ∈ ["0"; ""]) then st
      else
        let br := default [] (od_get line_str (branches st)) in
        let br := od_set (block +:+ ":" +:+ br_id) (if bool_decide (taken ∈ ["-"; "0"]) then 0 else 1) br in
        mkLcov (od_set line_str br (branches st)) (fn_lines st) (JS st) (CPP st) (skip_lines st) (_file st)
  | _ => st
  end.

Definition ignored_methods : list string := ["TN"; "LF"; "LH"; "FNF"; "FNH"; "BRF"; "BRH"; "FNDA"].

(** One line of a section; [None] is the early return of the function. *)
Definition lcov_line (s : ReportBuilderSession) (st : lcov_state) (encoded_line : string)
    : result (ReportBuilderSession * option lcov_state) :=
  line ← decode_replace encoded_line;
  match split1 ":" line with
  | [mtd; content] =>
      let content := strip content in
      if bool_decide (mtd ∈ ignored_methods) then Ok (s, Some st)
      else if bool_decide (mtd = "SF") then
        '(f, s) ← create_coverage_file cwd s content true;
        Ok (s, Some (mkLcov (branches st) (fn_lines st) (bool_decide (str_last 3 content = ".js"))
                       (bool_decide (str_last 4 content = ".cpp")) (skip_lines st) f))
      else
        match _file st with
        | None => Ok (s, None)
        | Some f =>
            if bool_decide (mtd = "DA") then
              f' ← da_record s f content; Ok (s, Some (with_file (Some f') st))
            else if bool_decide (mtd = "FN") && negb (JS st) then Ok (s, Some (fn_record st content))
            else if bool_decide (mtd = "BRDA") && negb (JS st) then Ok (s, Some (brda_record st f content))
            else Ok (s, Some st)
        end
  | _ => Ok (s, Some st)
  end.

Fixpoint lcov_lines (s : ReportBuilderSession) (st : lcov_state) (lines : list string)
    : result (ReportBuilderSession * option lcov_state) :=
  match lines with
  | [] => Ok (s, Some st)
  | l :: lines' =>
      '(s, o) ← lcov_line s st l;
      match o with None => Ok (s, None) | Some st => lcov_lines s st lines' end
  end.

(** The line of the branches of one line number. *)
Definition branch_step (s : ReportBuilderSession) (fn_lines : list string) (f : ReportFile.t)
    (lb : string * odict string Z) : result ReportFile.t :=
  match int_of_str lb.1 with
  | Err ValueError => Ok f
  | Err e => Err e
  | Ok ln =>
      let br := lb.2 in
      let branch_num := Z.of_nat (length br) in
      let branch_sum := foldl Z.add 0 (od_vals br) in
      let missing_branches := (filter (fun kv => kv.2 = 0) br).*1 in
      let coverage := str_of_Z branch_sum +:+ "/" +:+ str_of_Z branch_num in
      let coverage_type := if bool_decide (lb.1 ∈ fn_lines) then method else branch in
      ReportFile.__setitem__ f ln
        (create_coverage_line s (CStr coverage) (Some coverage_type) None
           (match missing_branches with [] => None | _ => Some (BrStr <$> missing_branches) end) CxNone)
  end.

Definition remove_skipped (st : lcov_state) : odict string (odict string Z) :=
  foldl (fun bs sl => od_del sl bs) (branches st) (skip_lines st).

Definition _process_file (doc : string) (s : ReportBuilderSession)
    : result (ReportBuilderSession * option ReportFile.t) :=
  '(s, o) ← lcov_lines s lcov_init (bytes_lines doc);
  match o with
  | None => Ok (s, None)
  | Some st =>
      match _file st with
      | None => Ok (s, None)
      | Some f => f ← foldM (branch_step s (fn_lines st)) f (remove_skipped st); Ok (s, Some f)
      end
  end.

Definition section_step (s : ReportBuilderSession) (doc : string) : result ReportBuilderSession :=
  '(s, o) ← _process_file doc s;
  match o with None => Ok s | Some f => '(_, s) ← append s f; Ok s end.

Definition from_txt (reports : string) (s : ReportBuilderSession) : result ReportBuilderSession :=
  foldM section_step s (split (nl +:+ "end_of_record") reports).

(** [LcovProcessor.matches_content] *)
Definition matches_content (content : string) : bool := str_contains (nl +:+ "end_of_record") content.
End lcov.

(** ** Specification: printing a section and reading it back *)

(** The records of a section: line hits, and branches with their block and number;
    a branch is not taken ([None] is a block that never ran) or taken some times. *)
Record brda : Set := mkBrda { b_line : Z; b_block : Z; b_branch : Z; b_taken : option Z }.

#[export] Instance brda_eq_dec : EqDecision brda.
Proof. solve_decision. Defined.

Definition print_da (d : Z * Z) : string := "DA:" +:+ str_of_Z d.1 +:+ "," +:+ str_of_Z d.2.

Definition branch_key (b : brda) : string := str_of_Z (b_block b) +:+ ":" +:+ str_of_Z (b_branch b).
Definition print_brda (b : brda) : string :=
  "BRDA:" +:+ str_of_Z (b_line b) +:+ "," +:+ str_of_Z (b_block b) +:+ "," +:+ str_of_Z (b_branch b) +:+ "," +:+
  match b_taken b with Some n => str_of_Z n | None => "-" end.

Definition brda_ok (b : brda) : Prop :=
  1 <= b_line b /\ 0 <= b_block b /\ 0 <= b_branch b /\ match b_taken b with Some n => 0 <= n | None => True end.

Definition is_taken (b : brda) : bool := match b_taken b with Some n => 0 <? n | None => false end.

(** The coverage of a line: from its branches, if it has any, else from its hits. *)
Definition branches_on (bs : list brda) (ln : Z) : list brda := filter (fun b => b_line b = ln) bs.

Definition line_from_branches (s : ReportBuilderSession) (bs : list brda) : ReportLine :=
  let missed := filter (fun b => is_taken b = false) bs in
  create_coverage_line s
    (CStr (frac_str (Z.of_nat (length (filter (fun b => is_taken b = true) bs))) (Z.of_nat (length bs))))
    (Some branch) None
    (match missed with [] => None | _ => Some ((fun b => BrStr (branch_key b)) <$> missed) end) CxNone.

Definition section_line (s : ReportBuilderSession) (das : list (Z * Z)) (bs : list brda) (ln : Z) : option ReportLine :=
  match branches_on bs ln with
  | [] => line_from_hits s (fun _ => None) das ln
  | on => Some (line_from_branches s on)
  end.

(** ** Lemmas *)

(** *** Reading the printed records *)

Lemma ascii_digits z : 0 <= z -> ascii_text (str_of_Z z) = true.
Proof. apply str_of_Z_ascii. Qed.

Lemma no_space_digits z : 0 <= z -> str_forallb (fun c => negb (is_space c)) (str_of_Z z) = true.
Proof.
  intros Hz. eapply str_forallb_impl; [|by apply str_of_Z_digits]. intros c Hc. by apply digit_props in Hc as [? _].
Qed.

Lemma parse_int_print z : 0 <= z -> parse_int (str_of_Z z) = Ok z.
Proof.
  intros Hz. unfold parse_int.
  assert (Hn : str_forallb is_numeric (str_of_Z z) = true).
  { eapply str_forallb_impl; [|by apply str_of_Z_digits]. intros c Hc. unfold is_numeric. by rewrite Hc. }
  rewrite Hn, bool_decide_eq_false_2 by apply str_of_Z_nonempty. apply int_of_str_of_Z.
Qed.

Lemma not_placeholder z : 0 <= z -> bool_decide (str_of_Z z ∈ [""; "undefined"]) = false.
Proof.
  intros Hz. apply bool_decide_eq_false. intros [E|[E|[]%not_elem_of_nil]%elem_of_cons]%elem_of_cons.
  - by apply str_of_Z_nonempty in E.
  - pose proof (str_of_Z_digits z Hz) as Hd. by rewrite E in Hd.
Qed.

Lemma first_in_digits z cs :
  0 <= z -> str_forallb (fun c => negb (is_digit c)) cs = true -> first_in (str_of_Z z) cs = false.
Proof.
  intros Hz Hcs. destruct (str_of_Z_head z Hz) as (c & t & -> & Hd). cbn.
  induction cs as [|c' cs IH]; [done|]. cbn in *. apply andb_true_iff in Hcs as [Hc' Hcs].
  rewrite (IH Hcs), orb_false_r. apply bool_decide_eq_false. intros ->. by rewrite Hd in Hc'.
Qed.

Lemma first_in_pos z : 1 <= z -> first_in (str_of_Z z) "0n" = false.
Proof.
  intros Hz. destruct (str_of_Z_pos_head z Hz) as (c & t & -> & Hd & H0). cbn.
  rewrite !bool_decide_eq_false_2; [done | by intros -> | done].
Qed.

Section reading.
Context `{OrJson}.
Variable cwd : string.

Lemma da_record_print s f d :
  da_ok d ->
  da_record s f (str_of_Z d.1 +:+ "," +:+ str_of_Z d.2) =
  add_line f d.1 (hit_line s None d.2).
Proof.
  destruct d as [ln h]. intros [Hln Hh]. cbn [fst snd] in *. unfold da_record. cbn [split_n].
  change ("," +:+ str_of_Z h) with (String "," (str_of_Z h)).
  rewrite partition_char by (apply digits_without; [done | lia]).
  rewrite partition_char_none by (apply digits_without; [done | lia]).
  rewrite !not_placeholder by lia. cbn [orb].
  rewrite first_in_pos, (first_in_digits h "=s") by (lia || done). cbn [orb].
  unfold da_numbers. rewrite int_of_str_of_Z, parse_int_print by lia. cbn [mbind result_bind].
  by rewrite Z.max_l by lia.
Qed.

Lemma lcov_line_da s st f d :
  _file st = Some f -> da_ok d ->
  lcov_line cwd s st (print_da d) =
  (f' ← add_line f d.1 (hit_line s None d.2); Ok (s, Some (with_file (Some f') st))).
Proof.
  intros Hf Hd. unfold lcov_line, print_da.
  assert (Ha : ascii_text ("DA:" +:+ str_of_Z d.1 +:+ "," +:+ str_of_Z d.2) = true).
  { destruct Hd. unfold ascii_text. rewrite !str_forallb_app, !str_of_Z_ascii by lia. done. }
  rewrite decode_ascii by exact Ha. cbn [mbind result_bind].
  change ("DA:" +:+ str_of_Z d.1 +:+ "," +:+ str_of_Z d.2)
    with ("DA" +:+ String ":" (str_of_Z d.1 +:+ "," +:+ str_of_Z d.2)).
  rewrite split1_char by done. rewrite strip_id.
  2: { destruct Hd. rewrite !str_forallb_app, !no_space_digits by lia. done. }
  rewrite (bool_decide_eq_false_2 ("DA" ∈ ignored_methods)) by (apply (bool_decide_unpack _); vm_compute; exact I).
  cbn [bool_decide]. by rewrite Hf, da_record_print.
Qed.

Lemma lcov_lines_app s st l1 l2 :
  lcov_lines cwd s st (l1 ++ l2) =
  ('(s', o) ← lcov_lines cwd s st l1;
   match o with None => Ok (s', None) | Some st' => lcov_lines cwd s' st' l2 end).
Proof.
  revert s st. induction l1 as [|l l1 IH]; intros s st; [done|]. cbn [lcov_lines app].
  destruct (lcov_line cwd s st l) as [[s' [st'|]]|]; [|done|done]. apply IH.
Qed.

(** *** The line records *)

Lemma da_run s st f0 das :
  _file st = Some f0 -> Forall da_ok das ->
  lcov_lines cwd s st (print_da <$> das) =
  (f ← append_hits s (fun _ => None) f0 das; Ok (s, Some (with_file (Some f) st))).
Proof.
  intros Hst Hdas. revert st f0 Hst. induction Hdas as [|d das Hd _ IH]; intros st f0 Hst.
  { cbn. by destruct st; cbn in *; subst. }
  unfold append_hits. cbn [fmap list_fmap lcov_lines foldM]. rewrite (lcov_line_da s st f0 d Hst Hd).
  destruct (add_line f0 d.1 (hit_line s None d.2)) as [f|]; [|done]. cbn [mbind result_bind].
  by rewrite (IH (with_file (Some f) st) f).
Qed.

(** *** The branch records *)

Definition triple (b : brda) : Z * Z * Z := (b_line b, b_block b, b_branch b).

Definition entries (on : list brda) : odict string Z :=
  (fun b => (branch_key b, if is_taken b then 1 else 0)) <$> on.

Lemma branch_key_inj b b' :
  brda_ok b -> brda_ok b' -> branch_key b = branch_key b' -> b_block b = b_block b' /\ b_branch b = b_branch b'.
Proof.
  intros (_ & H1 & _) (_ & H2 & _) E. unfold branch_key in E.
  apply (f_equal (split1 ":")) in E.
  change (":" +:+ str_of_Z (b_branch b)) with (String ":" (str_of_Z (b_branch b))) in E.
  change (":" +:+ str_of_Z (b_branch b')) with (String ":" (str_of_Z (b_branch b'))) in E.
  rewrite !split1_char in E by by apply digits_without.
  injection E as E1 E2. split; by apply str_of_Z_inj.
Qed.

Definition add_brda (bs : odict string (odict string Z)) (b : brda) : odict string (odict string Z) :=
  let k := str_of_Z (b_line b) in
  od_set k (od_set (branch_key b) (if is_taken b then 1 else 0) (default [] (od_get k bs))) bs.

Definition with_branches (bs : odict string (odict string Z)) (st : lcov_state) : lcov_state :=
  mkLcov bs (fn_lines st) (JS st) (CPP st) (skip_lines st) (_file st).

(** The last field of a branch record. *)
Definition taken_str (b : brda) : string := match b_taken b with Some n => str_of_Z n | None => "-" end.

Lemma taken_str_taken b :
  brda_ok b -> bool_decide (taken_str b ∈ ["-"; "0"]) = negb (is_taken b).
Proof.
  intros (_ & _ & _ & Hn). unfold taken_str, is_taken. destruct (b_taken b) as [n|].
  - destruct (Z.ltb_spec 0 n) as [Hp|Hp]; cbn [negb].
    + apply bool_decide_eq_false. intros [E|[E|[]%not_elem_of_nil]%elem_of_cons]%elem_of_cons.
      * pose proof (str_of_Z_digits n Hn) as Hd. by rewrite E in Hd.
      * apply str_of_Z_0 in E. lia.
    + apply bool_decide_eq_true. replace n with 0 by lia. right; left.
  - apply bool_decide_eq_true. left.
Qed.

Lemma brda_fields b :
  brda_ok b ->
  let content := str_of_Z (b_line b) +:+ "," +:+ str_of_Z (b_block b) +:+ "," +:+ str_of_Z (b_branch b) +:+ "," +:+ taken_str b in
  split_n 3 "," content = [str_of_Z (b_line b); str_of_Z (b_block b); str_of_Z (b_branch b); taken_str b] /\
  ascii_text content = true /\ strip content = content.
Proof.
  intros (Hl & Hb & Hr & Hn) content.
  assert (Ht : ascii_text (taken_str b) = true /\
    str_forallb (fun c => negb (is_space c)) (taken_str b) = true).
  { unfold taken_str. destruct (b_taken b); [|done]. by rewrite ascii_digits, no_space_digits. }
  split_and!.
  - unfold content. cbn [split_n].
    change ("," +:+ str_of_Z (b_block b) +:+ "," +:+ str_of_Z (b_branch b) +:+ "," +:+ taken_str b)
      with (String "," (str_of_Z (b_block b) +:+ String "," (str_of_Z (b_branch b) +:+ String "," (taken_str b)))).
    by rewrite !partition_char by (apply digits_without; [done | lia]).
  - unfold content, ascii_text in *. rewrite !str_forallb_app, !str_of_Z_ascii by lia. by rewrite (proj1 Ht).
  - apply strip_id. unfold content. rewrite !str_forallb_app, !no_space_digits by lia. by rewrite (proj2 Ht).
Qed.

Lemma lcov_line_brda s st f b :
  _file st = Some f -> JS st = false -> endswith ".ts" (ReportFile.rf_name f) = false -> brda_ok b ->
  lcov_line cwd s st (print_brda b) = Ok (s, Some (with_branches (add_brda (branches st) b) st)).
Proof.
  intros Hf Hjs Hts Hb. destruct (brda_fields b Hb) as (Hsplit & Ha & Hstrip). unfold lcov_line, print_brda.
  fold (taken_str b) in *.
  set (content := str_of_Z (b_line b) +:+ _) in *.
  rewrite decode_ascii by exact Ha. cbn [mbind result_bind].
  change ("BRDA:" +:+ content) with ("BRDA" +:+ String ":" content). rewrite split1_char, Hstrip by done.
  rewrite (bool_decide_eq_false_2 ("BRDA" ∈ ignored_methods)) by (apply (bool_decide_unpack _); vm_compute; exact I).
  rewrite Hf, Hjs. cbn [bool_decide decide andb negb].
  unfold brda_record. rewrite Hsplit, Hts, andb_false_r.
  assert (Hz : bool_decide (str_of_Z (b_line b) ∈ ["0"; ""]) = false).
  { destruct Hb as [Hl _]. apply bool_decide_eq_false.
    intros [E%str_of_Z_0|[E|[]%not_elem_of_nil]%elem_of_cons]%elem_of_cons; [lia|].
    by apply str_of_Z_nonempty in E. }
  rewrite Hz, taken_str_taken by done. unfold with_branches, add_brda, branch_key. by destruct (is_taken b).
Qed.

Lemma brda_run s st f bs :
  _file st = Some f -> JS st = false -> endswith ".ts" (ReportFile.rf_name f) = false -> Forall brda_ok bs ->
  lcov_lines cwd s st (print_brda <$> bs) = Ok (s, Some (with_branches (foldl add_brda (branches st) bs) st)).
Proof.
  intros Hf Hjs Hts Hbs. revert st Hf Hjs. induction Hbs as [|b bs Hb _ IH]; intros st Hf Hjs.
  { by destruct st. }
  rewrite fmap_cons. cbn [lcov_lines foldl]. rewrite (lcov_line_brda s st f b) by done. cbn [mbind result_bind].
  by rewrite (IH (with_branches _ st)).
Qed.

Lemma branches_on_snoc bs b ln :
  branches_on (bs ++ [b]) ln = branches_on bs ln ++ (if decide (b_line b = ln) then [b] else []).
Proof.
  unfold branches_on. by rewrite filter_app.
Qed.

Definition nonempty_dict {V} (d : odict string V) : option (odict string V) :=
  match d with [] => None | _ => Some d end.

(** The branches of each line number, under the number's text. *)
Lemma branches_spec bs :
  Forall brda_ok bs -> NoDup (triple <$> bs) ->
  od_wf (foldl add_brda [] bs) /\
  (forall k, k ∈ od_keys (foldl add_brda [] bs) -> exists ln, 1 <= ln /\ k = str_of_Z ln) /\
  forall ln, od_get (str_of_Z ln) (foldl add_brda [] bs) = nonempty_dict (entries (branches_on bs ln)).
Proof.
  intros Hbs Hnd. induction bs as [|b bs IH] using rev_ind; [split_and!; [apply od_wf_nil | set_solver | done]|].
  apply Forall_app in Hbs as [Hbs [Hb _]%Forall_cons].
  rewrite fmap_app in Hnd. apply NoDup_app in Hnd as (Hnd & Hnew & _).
  destruct (IH Hbs Hnd) as (Wf & Hkeys & Hget). clear IH. rewrite foldl_app. cbn [foldl].
  generalize dependent (foldl add_brda [] bs). intros d Wf Hkeys Hget.
  unfold add_brda. split_and!; [by apply od_wf_set | |].
  - intros k Hk. apply od_get_is_Some in Hk as [v Hv].
    destruct (decide (k = str_of_Z (b_line b))) as [->|Hne]; [exists (b_line b); split; [apply Hb | done]|].
    rewrite od_get_set_ne in Hv by done. apply Hkeys, od_get_is_Some. eauto.
  - intros ln. rewrite branches_on_snoc. destruct (decide (b_line b = ln)) as [<-|Hne].
    + rewrite od_get_set_eq, Hget. unfold entries. rewrite fmap_app. fold (entries (branches_on bs (b_line b))).
      set (es := entries (branches_on bs (b_line b))).
      assert (Hfresh : branch_key b ∉ od_keys es).
      { unfold es, entries, od_keys. rewrite <- list_fmap_compose. intros (b' & E & Hin)%list_elem_of_fmap.
        cbn in E. apply list_elem_of_filter in Hin as [El Hin]. rewrite Forall_forall in Hbs.
        apply branch_key_inj in E as [E1 E2]; [|done|by apply Hbs].
        apply (Hnew (triple b')); [by apply (list_elem_of_fmap_2 triple)|].
        apply list_elem_of_singleton. unfold triple. congruence. }
      replace (default [] (nonempty_dict es)) with es by by destruct es.
      rewrite od_set_new by done. by destruct es.
    + rewrite app_nil_r, od_get_set_ne; [done|]. intros E%str_of_Z_inj. congruence.
Qed.

(** *** Replacing the lines with branches *)

Lemma taken_counts on :
  foldl Z.add 0 (od_vals (entries on)) = Z.of_nat (length (filter (fun b => is_taken b = true) on)) /\
  (length (filter (fun b => is_taken b = true) on) <= length on)%nat.
Proof.
  induction on as [|b on [IH Hle]] using rev_ind; [done|].
  unfold entries, od_vals in *. rewrite !fmap_app, foldl_app, IH, filter_app, !length_app. cbn.
  destruct (is_taken b) eqn:E; [rewrite decide_True by done | rewrite decide_False by congruence]; cbn; lia.
Qed.

Lemma missing_keys on :
  (filter (fun kv => kv.2 = 0) (entries on)).*1 = branch_key <$> filter (fun b => is_taken b = false) on.
Proof.
  induction on as [|b on IH]; [done|]. unfold entries in *. rewrite fmap_cons, !filter_cons. cbn [snd].
  destruct (is_taken b) eqn:E.
  - rewrite decide_False, decide_False by congruence. exact IH.
  - rewrite decide_True, decide_True by congruence. rewrite !fmap_cons. cbn [fst]. by rewrite IH.
Qed.

Lemma branch_step_entries s f ln on :
  branch_step s [] f (str_of_Z ln, entries on) = ReportFile.__setitem__ f ln (line_from_branches s on).
Proof.
  unfold branch_step. cbn [fst snd]. rewrite int_of_str_of_Z, (proj1 (taken_counts on)), missing_keys.
  rewrite bool_decide_eq_false_2 by apply not_elem_of_nil.
  unfold line_from_branches, frac_str. do 2 f_equal; [unfold entries; by rewrite length_fmap|].
  destruct (filter _ on); [done|]. by rewrite <- list_fmap_compose.
Qed.

Lemma line_from_branches_ok s on : line_ok false (line_from_branches s on).
Proof.
  pose proof (taken_counts on) as [_ Hle]. unfold line_from_branches, create_coverage_line. split_and!; [done | |].
  - cbn. apply NoDup_singleton.
  - repeat constructor; lia.
Qed.

(** The line depends on what the entries tell of the branches. *)
Lemma line_from_entries s on on' : entries on = entries on' -> line_from_branches s on = line_from_branches s on'.
Proof.
  intros E. pose proof (taken_counts on) as [H1 _]. pose proof (taken_counts on') as [H2 _].
  pose proof (missing_keys on) as H3. pose proof (missing_keys on') as H4.
  assert (Hl : length on = length on') by (apply (f_equal length) in E; unfold entries in E; by rewrite !length_fmap in E).
  rewrite E in H1, H3. rewrite H1 in H2. rewrite H3 in H4. unfold line_from_branches. rewrite H2, Hl. f_equal.
  assert (Hf : (fun b => BrStr (branch_key b)) <$> filter (fun b => is_taken b = false) on =
               (fun b => BrStr (branch_key b)) <$> filter (fun b => is_taken b = false) on').
  { change (fun b => BrStr (branch_key b)) with (BrStr ∘ branch_key). by rewrite !list_fmap_compose, H4. }
  destruct (filter (fun b => is_taken b = false) on), (filter (fun b => is_taken b = false) on'); try done.
  by f_equal.
Qed.

Lemma branch_steps s brs f0 :
  od_wf brs -> ReportFile.file_ok false f0 ->
  (forall k v, (k, v) ∈ brs -> exists ln on, 1 <= ln /\ k = str_of_Z ln /\ v = entries on) ->
  exists f, foldM (branch_step s []) f0 brs = Ok f /\
    forall ln, 1 <= ln -> ReportFile.ignored f0 ln = false ->
      (forall on, od_get (str_of_Z ln) brs = Some (entries on) -> ReportFile.get f ln = Ok (Some (line_from_branches s on))) /\
      (od_get (str_of_Z ln) brs = None -> ReportFile.get f ln = ReportFile.get f0 ln).
Proof.
  revert f0. induction brs as [|[k v] brs IH]; intros f0 Wf Hok Hbrs.
  { exists f0. split; [done|]. intros ln _ _. split; [discriminate | done]. }
  destruct (Hbrs k v) as (n & on & Hn & -> & ->); [left|].
  apply NoDup_cons in Wf as [Hk Wf].
  destruct (ReportFile.setitem_ok false f0 n (line_from_branches s on) Hok (line_from_branches_ok s on) Hn)
    as (f1 & Hset & Hok1 & Hlike).
  destruct (IH f1 Wf Hok1) as (f & Hrun & Hget); [intros k v Hin; apply Hbrs; by right|].
  exists f. cbn [foldM]. rewrite branch_step_entries, Hset. cbn [mbind result_bind]. split; [done|].
  intros ln Hln Hig. rewrite <- (like_ignored f0 f1) in Hig by done. destruct (Hget ln Hln Hig) as [Hg1 Hg2].
  rewrite (like_ignored f0 f1) in Hig by done. cbn [od_get].
  destruct (decide (str_of_Z ln = str_of_Z n)) as [E|Hne].
  - apply str_of_Z_inj in E as ->. split; [|done]. intros on' [= E]. rewrite Hg2.
    + rewrite (ReportFile.setitem_get _ _ _ _ _ Hset), decide_True by done.
      do 2 f_equal. by apply line_from_entries.
    + by apply od_get_None.
  - split; [exact Hg1|]. intros Hno. rewrite Hg2 by done.
    destruct (ReportFile.ignored f0 n) eqn:En.
    + unfold ReportFile.__setitem__ in Hset. rewrite En in Hset.
      destruct (n <? 1); [done|]. by injection Hset as <-.
    + rewrite (ReportFile.setitem_get _ _ _ _ _ Hset), decide_False by (done || congruence). done.
Qed.
End reading.

(** ** Properties *)

(** The text of a section: the file, its line records, its branch records. *)
Definition print_section (path : string) (das : list (Z * Z)) (bs : list brda) : string :=
  join nl (("SF:" +:+ path) :: (print_da <$> das) ++ (print_brda <$> bs)).

Lemma section_lines path das bs :
  without LF path = true -> Forall da_ok das -> Forall brda_ok bs ->
  bytes_lines (print_section path das bs) = ("SF:" +:+ path) :: (print_da <$> das) ++ (print_brda <$> bs).
Proof.
  intros Hp Hd Hb. apply bytes_lines_join.
  - constructor; [by rewrite without_app|]. apply Forall_app; split; apply Forall_fmap.
    + eapply Forall_impl; [exact Hd|]. intros d [? ?]. unfold compose, print_da.
      by rewrite !without_app, !digits_without by (done || lia).
    + eapply Forall_impl; [exact Hb|]. intros b (? & ? & ? & Hn). unfold compose, print_brda.
      rewrite !without_app, !digits_without by (done || lia). cbn.
      destruct (b_taken b); [by apply digits_without | done].
  - destruct bs as [|b bs _] using rev_ind; [destruct das as [|d das _] using rev_ind; [done|]|].
    + rewrite app_nil_r, fmap_app, app_comm_cons. cbn [fmap list_fmap]. by rewrite last_last.
    + rewrite fmap_app, app_assoc, app_comm_cons. cbn [fmap list_fmap]. by rewrite last_last.
Qed.

Lemma lcov_line_sf `{OrJson} cwd s st path o s' :
  ascii_text path = true -> strip path = path -> create_coverage_file cwd s path true = Ok (o, s') ->
  lcov_line cwd s st ("SF:" +:+ path) =
  Ok (s', Some (mkLcov (branches st) (fn_lines st) (bool_decide (str_last 3 path = ".js"))
                  (bool_decide (str_last 4 path = ".cpp")) (skip_lines st) o)).
Proof.
  intros Ha Hstrip Hf. unfold lcov_line.
  rewrite decode_ascii by (unfold ascii_text in *; by rewrite str_forallb_app). cbn [mbind result_bind].
  change ("SF:" +:+ path) with ("SF" +:+ String ":" path). rewrite split1_char, Hstrip by done.
  rewrite (bool_decide_eq_false_2 ("SF" ∈ ignored_methods)) by (apply (bool_decide_unpack _); vm_compute; exact I).
  rewrite bool_decide_eq_true_2 by done. by rewrite Hf.
Qed.

(** A section of a tracefile is read back.  For a file the fixer accepts,
    from the text of its line records, repeated or not, and of its branch
    records, without repetition, the parser builds a file in which a line with
    branch records has the number of branches taken over their number and the
    keys of the branches missed, another line with line records has the greatest
    of their counts, and every other line has no coverage. *)
Theorem lcov_section `{OrJson} cwd s path das bs f0 s' :
  ascii_text path = true -> without LF path = true -> strip path = path -> str_last 3 path <> ".js" ->
  create_coverage_file cwd s path true = Ok (Some f0, s') ->
  endswith ".ts" (ReportFile.rf_name f0) = false ->
  Forall da_ok das -> Forall brda_ok bs -> NoDup (triple <$> bs) ->
  exists f, _process_file cwd (print_section path das bs) s = Ok (s', Some f) /\
    forall ln, 1 <= ln -> ReportFile.ignored f0 ln = false ->
      ReportFile.get f ln = Ok (section_line s' das bs ln).
Proof.
  intros Ha Hlf Hstrip Hjs Hcf Hts Hdas Hbs Hnd. unfold _process_file. rewrite section_lines by done.
  cbn [lcov_lines]. rewrite (lcov_line_sf cwd s lcov_init path _ _ Ha Hstrip Hcf). cbn [mbind result_bind].
  rewrite bool_decide_eq_false_2 by done. set (st := mkLcov _ _ _ _ _ _).
  destruct (create_coverage_file_run cwd s path _ _ Hcf) as (_ & Hf0).
  destruct (Hf0 f0 eq_refl) as (p & _ & -> & _). clear Hf0. set (f0 := empty_file p _) in *.
  destruct (append_hits_run s' (fun _ => None) f0 das) as (f1 & Hrun & Hok1 & Hlike & Hget1);
    [apply empty_file_ok | done | apply empty_file_get |].
  rewrite lcov_lines_app, (da_run cwd s' st f0 das), Hrun by done. cbn [mbind result_bind].
  rewrite (brda_run cwd s' (with_file (Some f1) st) f1 bs); [|done | done | by rewrite (proj1 Hlike) | done].
  cbn [mbind result_bind]. destruct (branches_spec bs Hbs Hnd) as (Wf & Hkeys & Hget).
  cbn [branches with_file st lcov_init] in *. cbn [_file with_branches fn_lines with_file]. unfold remove_skipped.
  cbn [skip_lines with_branches with_file st lcov_init foldl branches fn_lines].
  destruct (branch_steps s' (foldl add_brda [] bs) f1) as (f & Hfold & Hfin); [done | done | |].
  { intros k v Hin. destruct (Hkeys k) as (ln & Hln & ->); [by apply (list_elem_of_fmap_2 fst _ (k, v))|].
    apply od_elem_get in Hin; [|done]. rewrite Hget in Hin. exists ln, (branches_on bs ln). split_and!; [done | done |].
    destruct (entries (branches_on bs ln)); [done|]. by injection Hin as <-. }
  rewrite Hfold. cbn [mbind result_bind]. exists f. split; [done|]. intros ln Hln Hig.
  destruct (Hfin ln Hln) as [Hb Hd]; [by rewrite (like_ignored f0 f1)|]. rewrite Hget in Hb, Hd.
  unfold section_line. destruct (branches_on bs ln) as [|b on]; [rewrite Hd, Hget1 by done; by rewrite Hig | by apply Hb].
Qed.

Lemma lcov_section_witness :
  exists f s', _process_file (H := codec) "/worker" (print_section "src/a.c" [(1, 4); (2, 0); (1, 7)]
      [mkBrda 2 0 0 (Some 3); mkBrda 2 0 1 None]) example_builder_session = Ok (s', Some f) /\
    ReportFile.get (H := codec) f 1 = Ok (Some (hit_line s' None 7)) /\
    ReportFile.get (H := codec) f 2 = Ok (Some (line_from_branches s' [mkBrda 2 0 0 (Some 3); mkBrda 2 0 1 None])) /\
    ReportFile.get (H := codec) f 3 = Ok None.
Proof.
  destruct (create_coverage_file "/worker" example_builder_session "src/a.c" true) as [[[f0|] s']|] eqn:E;
    [|exfalso; vm_compute in E; discriminate E..].
  assert (Hf0 : f0 = empty_file "src/a.c" None) by (vm_compute in E; injection E as <- _; reflexivity). subst f0.
  destruct (lcov_section (H := codec) "/worker" example_builder_session "src/a.c" [(1, 4); (2, 0); (1, 7)]
    [mkBrda 2 0 0 (Some 3); mkBrda 2 0 1 None] (empty_file "src/a.c" None) s') as (f & Hf & Hget);
    [reflexivity | reflexivity | reflexivity | discriminate | exact E | reflexivity | | | |].
  - repeat constructor; cbn; lia.
  - repeat constructor; cbn; lia.
  - apply (bool_decide_unpack _). vm_compute. exact I.
  - exists f, s'. split; [exact Hf|]. split_and!; by rewrite Hget.
Defined.
