(* ===== verification/LegacyParser.v ===== *)
(** * [worker/services/report/parser]: cutting an upload into its sections

    A legacy upload is one text: the list of files of the repository, the
    environment of the uploader, and the coverage files, each followed by a
    separator line.  [LegacyReportParser] finds the separators and cuts the text
    at them by position; [content] is the printer, and a printed upload is
    parsed back. *)
From S2P Require Export PathFixer PyStr.
#[local] Open Scope string_scope.
#[local] Open Scope list_scope.

(** ** [parser/types.py] *)

Record ParsedUploadedReportFile : Type := mkUploaded {
  filename : option string;
  contents : string;
  labels : option (list string);
}.

(** [get_first_line]: up to and with the first newline. *)
Definition first_line_of (b : string) : string :=
  match partition nl b with Some (p, _) => p +:+ nl | None => b end.
Definition get_first_line (f : ParsedUploadedReportFile) : string := first_line_of (contents f).

Record ParsedRawReport : Type := mkRaw {
  raw_toc : option string;
  raw_env : option string;
  uploaded_files : list ParsedUploadedReportFile;
  report_fixes : option string;
}.

Definition has_toc (r : ParsedRawReport) : bool := bool_decide (is_Some (raw_toc r)).
Definition has_env (r : ParsedRawReport) : bool := bool_decide (is_Some (raw_env r)).
Definition has_report_fixes (r : ParsedRawReport) : bool := bool_decide (is_Some (report_fixes r)).

(** A decoded attribute, [None] having no [decode]. *)
Definition decode_opt (o : option string) : result string :=
  match o with Some b => decode_replace b | None => Err AttributeError end.

Definition get_toc (r : ParsedRawReport) : result (list string) :=
  t ← decode_opt (raw_toc r); clean_toc (strip t).
Definition get_env (r : ParsedRawReport) : result string := decode_opt (raw_env r).
Definition size (r : ParsedRawReport) : nat := list_sum (String.length ∘ contents <$> uploaded_files r).

(** [parser/legacy.py]: the separators. *)
Definition network_separator : string := "<<<<<< network".
Definition env_separator : string := "<<<<<< ENV".
Definition eof_separator : string := "<<<<<< EOF".
Definition ignore_from_now_on_marker : string := "==FROMNOWONIGNOREDBYCODECOV==>>>".
Definition separator_lines : list string := [network_separator; env_separator; eof_separator].
Definition common_base : string := "<<<<<<".

Definition strings_concat (l : list string) : string := foldr String.append "" l.

Definition file_block (f : ParsedUploadedReportFile) : string :=
  utf8_encode ("# path=" +:+ default "None" (filename f) +:+ nl) +:+ contents f +:+ nl +:+ eof_separator +:+ nl +:+ nl.

Definition content (r : ParsedRawReport) : result string :=
  toc ← (if has_toc r then
           files ← get_toc r;
           Ok (strings_concat ((fun file => utf8_encode (file +:+ nl)) <$> files) +:+ network_separator +:+ nl +:+ nl)
         else Ok "");
  Ok (toc +:+ strings_concat (file_block <$> uploaded_files r)).

(** ** [LegacyReportParser] *)

(** [raw.find(sub, start)] *)
Definition find_from (sub raw : string) (start : nat) : option nat :=
  match partition sub (str_drop start raw) with
  | Some (p, _) => Some (start + String.length p)%nat
  | None => None
  end.

(** [raw[a:b]] *)
Definition str_slice (a b : nat) (raw : string) : string := str_take (b - a) (str_drop a raw).

(** [_find_place_to_cut]: each round moves the starting point, so the length of
    the text and one more rounds are enough. *)
Fixpoint places_from (fuel : nat) (raw : string) (starting_point : nat) : list (nat * string) :=
  match fuel with
  | O => []
  | S fuel' =>
      if (starting_point <=? String.length raw)%nat then
        match find_from common_base raw starting_point with
        | None => []
        | Some next_place =>
            let found := filter (fun sep => startswith sep (str_drop next_place raw) = true) separator_lines in
            let next := match last found with
                        | Some sep => (next_place + String.length sep)%nat
                        | None => S next_place
                        end in
            ((fun sep => (next_place, sep)) <$> found) ++ places_from fuel' raw next
        end
      else []
  end.

Definition _find_place_to_cut (raw : string) : list (nat * string) :=
  places_from (S (S (String.length raw))) raw 0.

Definition place_le (a b : nat * string) : Prop := (a.1 <= b.1)%nat.
#[export] Instance place_le_dec : RelDecision place_le.
Proof. intros a b. apply Nat.le_dec. Defined.

Definition place_end (p : nat * string) : nat := (p.1 + String.length p.2)%nat.

Fixpoint sections_between (raw : string) (start : nat) (places : list (nat * string))
    : list (nat * nat * option string) :=
  match places with
  | [] => [(start, String.length raw, None)]
  | p :: ps => (start, p.1, Some p.2) :: sections_between raw (place_end p) ps
  end.

Definition _get_sections_to_cut (raw : string) : list (nat * nat * option string) :=
  sections_between raw 0 (merge_sort place_le (_find_place_to_cut raw)).

(** The bytes of [string.whitespace]. *)
Definition whitespaces (c : ascii) : bool :=
  match N_of_ascii c with 9%N | 10%N | 11%N | 12%N | 13%N | 32%N => true | _ => false end.

(** How many white bytes a text starts with. *)
Fixpoint leading (s : string) : nat :=
  match s with String c s' => if whitespaces c then S (leading s') else O | EmptyString => O end.
Fixpoint str_rev_append (s acc : string) : string :=
  match s with EmptyString => acc | String c s' => str_rev_append s' (String c acc) end.
Definition str_rev (s : string) : string := str_rev_append s "".

Definition skip_leading (raw : string) (i_start i_end : nat) : nat :=
  (i_start + leading (str_slice i_start i_end raw))%nat.
Definition skip_trailing (raw : string) (i_start i_end : nat) : nat :=
  (i_end - leading (str_rev (str_slice i_start i_end raw)))%nat.

Record section : Type := mkSection {
  sect_contents : string;
  sect_filename : option string;
  sect_footer : option string;
}.

Definition cut_section (raw : string) (s : nat * nat * option string) : result (option section) :=
  let '(start, end_, separator) := s in
  let i_start := skip_leading raw start end_ in
  let i_end := skip_trailing raw i_start end_ in
  if (i_start <? i_end)%nat then
    if String.eqb (str_slice i_start (i_start + 7) raw) "# path=" then
      let first_line := first_line_of (str_drop i_start raw) in
      match split "# path=" first_line with
      | _ :: name :: _ =>
          name ← utf8_decode ((fun c => Z.of_N (N_of_ascii c)) <$> String.list_ascii_of_string name);
          let i_start := (i_start + String.length first_line)%nat in
          let i_start := skip_leading raw i_start i_end in
          Ok (Some (mkSection (str_slice i_start i_end raw) (Some (strip name)) separator))
      | _ => Err IndexError
      end
    else Ok (Some (mkSection (str_slice i_start i_end raw) None separator))
  else Ok None.

Definition cut_sections (raw : string) : result (list section) :=
  ss ← traverse (cut_section raw) (_get_sections_to_cut raw); Ok (omap (M := list) id ss).

Definition add_section (r : ParsedRawReport) (sect : section) : ParsedRawReport :=
  if bool_decide (sect_footer sect = Some network_separator) then
    mkRaw (Some (sect_contents sect)) (raw_env r) (uploaded_files r) (report_fixes r)
  else if bool_decide (sect_footer sect = Some env_separator) then
    mkRaw (raw_toc r) (Some (sect_contents sect)) (uploaded_files r) (report_fixes r)
  else if bool_decide (sect_filename sect = Some "fixes") then
    mkRaw (raw_toc r) (raw_env r) (uploaded_files r) (Some (sect_contents sect))
  else
    mkRaw (raw_toc r) (raw_env r)
      (uploaded_files r ++ [mkUploaded (sect_filename sect) (sect_contents sect) None]) (report_fixes r).

Definition _generate_parsed_report_from_sections (sections : list section) : ParsedRawReport :=
  foldl add_section (mkRaw None None [] None) sections.

Definition parse_raw_report_from_bytes (raw_report : string) : result ParsedRawReport :=
  let raw := match partition ignore_from_now_on_marker raw_report with Some (p, _) => p | None => raw_report end in
  ss ← cut_sections raw; Ok (_generate_parsed_report_from_sections ss).

Example parse_example :
  parse_raw_report_from_bytes
    ("a.py" +:+ nl +:+ "<<<<<< network" +:+ nl +:+ nl +:+ "# path=c.xml" +:+ nl +:+ "<x/>" +:+ nl +:+ "<<<<<< EOF" +:+ nl)
  = Ok (mkRaw (Some "a.py") None [mkUploaded (Some "c.xml") "<x/>" None] None).
Proof. vm_compute. reflexivity. Qed.

(** ** Lemmas: the places where a printed upload is cut *)

(** A text made of pieces, each followed by a separator, and a tail. *)
Definition build (pieces : list (string * string)) (tail : string) : string :=
  foldr (fun ps acc => ps.1 +:+ ps.2 +:+ acc) tail pieces.

Fixpoint offsets (start : nat) (pieces : list (string * string)) : list (nat * string) :=
  match pieces with
  | [] => []
  | (p, sep) :: ps =>
      let place := (start + String.length p)%nat in
      (place, sep) :: offsets (place + String.length sep) ps
  end.

(** A piece ends with a newline, and holds nothing like a separator before. *)
Definition piece_ok (ps : string * string) : Prop :=
  ps.2 ∈ separator_lines /\ exists q, ps.1 = q +:+ nl /\ partition common_base q = None.

Lemma separator_base sep : sep ∈ separator_lines -> exists r, sep = common_base +:+ r.
Proof. unfold separator_lines. rewrite !elem_of_cons, elem_of_nil. intros [->|[->|[->|[]]]]; eexists; reflexivity. Qed.

(** At a separator, no other one is found. *)
Lemma separator_found sep r :
  sep ∈ separator_lines ->
  filter (fun sep' => startswith sep' (sep +:+ r) = true) separator_lines = [sep].
Proof. unfold separator_lines. rewrite !elem_of_cons, elem_of_nil. intros [->|[->|[->|[]]]]; destruct r; reflexivity. Qed.

Lemma partition_piece ps r :
  piece_ok ps -> exists r', partition common_base (ps.1 +:+ ps.2 +:+ r) = Some (ps.1, r').
Proof.
  intros [(r' & ->)%separator_base (q & -> & Hq)]. exists (r' +:+ r).
  rewrite !str_app_assoc. change (nl +:+ ?x) with (String LF x).
  rewrite partition_boundary, partition_here by done. done.
Qed.

Lemma places_from_build pieces tail :
  Forall piece_ok pieces -> partition common_base tail = None ->
  forall fuel pre, (length pieces < fuel)%nat ->
  places_from fuel (pre +:+ build pieces tail) (String.length pre) = offsets (String.length pre) pieces.
Proof.
  intros Hps Htail. induction Hps as [|[p sep] ps Hp Hps IH]; intros [|fuel] pre Hf; cbn in Hf; try lia;
    cbn [places_from build foldr offsets];
    rewrite (proj2 (Nat.leb_le _ _)) by (rewrite str_length_app; lia);
    unfold find_from; rewrite str_drop_app; [by rewrite Htail|].
  destruct (partition_piece _ (build ps tail) Hp) as [r' E]. cbn [fst snd] in *.
  change (foldr _ tail ps) with (build ps tail). rewrite E.
  assert (E' : str_drop (String.length pre + String.length p) (pre +:+ p +:+ sep +:+ build ps tail)
               = sep +:+ build ps tail).
  { by rewrite <- str_length_app, <- str_app_assoc, str_drop_app. }
  rewrite E', separator_found by apply Hp. cbn [fmap list_fmap app last].
  f_equal. rewrite <- !str_app_assoc, <- !str_length_app. apply IH. lia.
Qed.

Lemma build_length pieces tail :
  Forall piece_ok pieces -> (length pieces <= String.length (build pieces tail))%nat.
Proof.
  induction 1 as [|[p sep] ps [_ (q & E & _)] _ IH]; cbn in *; [lia|].
  rewrite E, !str_length_app. cbn. unfold build in IH. lia.
Qed.

Lemma offsets_above start pieces : Forall (fun x => start <= x.1)%nat (offsets start pieces).
Proof.
  revert start. induction pieces as [|[p sep] ps IH]; intros start; cbn; constructor; cbn; [lia|].
  eapply Forall_impl; [apply IH|]. cbn. lia.
Qed.

Lemma offsets_strict start pieces :
  Forall piece_ok pieces -> StronglySorted (fun x y => x.1 < y.1)%nat (offsets start pieces).
Proof.
  intros Hps. revert start. induction Hps as [|[p sep] ps [Hs _] _ IH]; intros start; cbn; constructor; [apply IH|].
  eapply Forall_impl; [apply offsets_above|]. cbn.
  cbn in Hs. apply separator_base in Hs as [r ->]. intros x. rewrite str_length_app. cbn. lia.
Qed.

(** The places are found in order: sorting them changes nothing. *)
Lemma sorted_strict (l : list (nat * string)) :
  StronglySorted (fun x y => x.1 < y.1)%nat l -> merge_sort place_le l = l.
Proof.
  intros Hl. apply (StronglySorted_unique_strong place_le).
  - intros x y Hx Hy Hxy Hyx. rewrite merge_sort_Permutation in Hx. unfold place_le in *.
    clear -Hl Hx Hy Hxy Hyx. induction Hl as [|z l Hl IH Hz]; [by apply elem_of_nil in Hx|].
    rewrite Forall_forall in Hz.
    apply elem_of_cons in Hx as [->|Hx], Hy as [->|Hy]; auto.
    + apply Hz in Hy. lia.
    + apply Hz in Hx. lia.
  - apply StronglySorted_merge_sort; intros ?; unfold place_le in *; lia.
  - clear -Hl. induction Hl as [|x l _ IH Hx]; constructor; [done|].
    eapply Forall_impl; [exact Hx|]. unfold place_le. cbn. lia.
  - apply merge_sort_Permutation.
Qed.

Lemma find_places pieces tail :
  Forall piece_ok pieces -> partition common_base tail = None ->
  merge_sort place_le (_find_place_to_cut (build pieces tail)) = offsets 0 pieces.
Proof.
  intros Hps Htail. unfold _find_place_to_cut.
  change (places_from ?n ?raw 0) with (places_from n ("" +:+ raw) (String.length "")).
  rewrite places_from_build by (auto; pose proof (build_length pieces tail Hps); lia).
  by apply sorted_strict, offsets_strict.
Qed.

(** ** Lemmas: what is cut *)

Definition white (s : string) : bool := str_forallb whitespaces s.
Definition stripped (s : string) : Prop := leading s = O /\ leading (str_rev s) = O.

Lemma slice_app pre p suf :
  str_slice (String.length pre) (String.length pre + String.length p) (pre +:+ p +:+ suf) = p.
Proof.
  unfold str_slice. rewrite str_drop_app.
  replace (_ + _ - _)%nat with (String.length p) by lia. apply str_take_app.
Qed.

Lemma slice_empty a b raw : (b <= a)%nat -> str_slice a b raw = "".
Proof. intros H. unfold str_slice. by replace (b - a)%nat with O by lia. Qed.

Lemma leading_app w q : white w = true -> leading q = O -> leading (w +:+ q) = String.length w.
Proof.
  intros Hw Hq. induction w as [|c w IH]; [done|]. cbn in *.
  apply andb_true_iff in Hw as [-> Hw]. by rewrite IH.
Qed.

Lemma str_rev_append_app s acc : str_rev_append s acc = str_rev s +:+ acc.
Proof.
  unfold str_rev. revert acc. induction s as [|c s IH]; intros acc; [done|]. cbn.
  rewrite IH, (IH (String c "")). by rewrite str_app_assoc.
Qed.

Lemma str_rev_cons c s : str_rev (String c s) = str_rev s +:+ String c "".
Proof. apply (str_rev_append_app s). Qed.

Lemma str_rev_app s1 s2 : str_rev (s1 +:+ s2) = str_rev s2 +:+ str_rev s1.
Proof.
  induction s1 as [|c s1 IH]; [by rewrite str_app_nil_r|].
  change (String c s1 +:+ s2) with (String c (s1 +:+ s2)).
  by rewrite !str_rev_cons, IH, str_app_assoc.
Qed.

Lemma white_rev w : white (str_rev w) = white w.
Proof.
  induction w as [|c w IH]; [done|]. unfold white in *.
  rewrite str_rev_cons, str_forallb_app, IH. cbn. by rewrite andb_true_r, andb_comm.
Qed.

Lemma str_rev_length s : String.length (str_rev s) = String.length s.
Proof.
  induction s as [|c s IH]; [done|]. rewrite str_rev_cons, str_length_app, IH. cbn. lia.
Qed.

(** The bounds of a section without the white space around it. *)
Lemma skip_bounds pre w1 q w2 suf raw :
  raw = pre +:+ w1 +:+ q +:+ w2 +:+ suf ->
  white w1 = true -> white w2 = true -> stripped q -> q <> "" ->
  let start := String.length pre in
  let end_ := (start + String.length (w1 +:+ q +:+ w2))%nat in
  skip_leading raw start end_ = String.length (pre +:+ w1) /\
  skip_trailing raw (String.length (pre +:+ w1)) end_ = String.length (pre +:+ w1 +:+ q).
Proof.
  intros -> H1 H2 [Hl Ht] Hne. cbn zeta. split.
  - unfold skip_leading.
    replace (pre +:+ w1 +:+ q +:+ w2 +:+ suf) with (pre +:+ (w1 +:+ q +:+ w2) +:+ suf)
      by by rewrite !str_app_assoc.
    rewrite slice_app, leading_app; [by rewrite str_length_app | done |].
    destruct q as [|c q]; [done|]. cbn in *. by destruct (whitespaces c).
  - unfold skip_trailing.
    replace (pre +:+ w1 +:+ q +:+ w2 +:+ suf) with ((pre +:+ w1) +:+ (q +:+ w2) +:+ suf)
      by by rewrite !str_app_assoc.
    replace (String.length pre + _)%nat with (String.length (pre +:+ w1) + String.length (q +:+ w2))%nat
      by (rewrite !str_length_app; lia).
    rewrite slice_app, str_rev_app, leading_app; [|by rewrite white_rev | done].
    rewrite str_rev_length, !str_length_app. lia.
Qed.

Lemma take_prefix p s : String.eqb (str_take (String.length p) s) p = String.prefix p s.
Proof.
  revert s. induction p as [|c p IH]; intros s; [by destruct s|].
  destruct s as [|c' s]; [done|]. rewrite prefix_cons. cbn [String.length str_take String.eqb]. rewrite IH.
  destruct (Ascii.eqb_spec c' c) as [E|Hne], (ascii_dec c c'); congruence.
Qed.

Lemma slice_prefix p pre r :
  String.eqb (str_slice (String.length pre) (String.length pre + String.length p) (pre +:+ r)) p
  = String.prefix p r.
Proof.
  unfold str_slice. rewrite str_drop_app, <- take_prefix.
  by replace (_ + _ - _)%nat with (String.length p) by lia.
Qed.

Lemma cut_white pre p suf sep :
  white p = true ->
  cut_section (pre +:+ p +:+ suf) (String.length pre, (String.length pre + String.length p)%nat, sep) = Ok None.
Proof.
  intros Hp. unfold cut_section.
  assert (E : skip_leading (pre +:+ p +:+ suf) (String.length pre) (String.length pre + String.length p)
              = (String.length pre + String.length p)%nat).
  { unfold skip_leading. rewrite slice_app. pose proof (leading_app p "" Hp eq_refl) as E.
    rewrite str_app_nil_r in E. by rewrite E. }
  rewrite E. unfold skip_trailing. rewrite slice_empty by done. cbn [str_rev str_rev_append leading].
  rewrite (proj2 (Nat.ltb_ge _ _)) by lia. done.
Qed.

Lemma cut_plain pre w1 q w2 suf sep :
  white w1 = true -> white w2 = true -> stripped q -> q <> "" ->
  String.prefix "# path=" (q +:+ w2 +:+ suf) = false ->
  cut_section (pre +:+ (w1 +:+ q +:+ w2) +:+ suf)
    (String.length pre, (String.length pre + String.length (w1 +:+ q +:+ w2))%nat, sep)
  = Ok (Some (mkSection q None sep)).
Proof.
  intros H1 H2 Hq Hne Hpath. unfold cut_section.
  set (raw := pre +:+ (w1 +:+ q +:+ w2) +:+ suf).
  assert (Hraw : raw = (pre +:+ w1) +:+ q +:+ w2 +:+ suf) by (unfold raw; by rewrite !str_app_assoc).
  destruct (skip_bounds pre w1 q w2 suf raw) as [-> ->]; auto; [by rewrite Hraw, !str_app_assoc|].
  assert (Hlen : (0 < String.length q)%nat) by (destruct q; cbn; [done | lia]).
  rewrite (proj2 (Nat.ltb_lt _ _)) by (rewrite !str_length_app; lia).
  rewrite Hraw, (slice_prefix "# path="), Hpath.
  do 3 f_equal. rewrite <- str_app_assoc, (str_length_app (_ +:+ w1) q). apply slice_app.
Qed.

(** A name that is printed and read back unchanged. *)
Record name_ok (name : string) : Prop := {
  name_ascii : str_forallb (fun c => (N_of_ascii c <? 128)%N) name = true;
  name_line : without LF name = true;
  name_strip : strip (name +:+ nl) = name;
  name_white : leading (str_rev ("# path=" +:+ name)) = O;
  name_path : partition "# path=" (name +:+ nl) = None;
}.

Lemma first_line_app l r : without LF l = true -> first_line_of (l +:+ nl +:+ r) = l +:+ nl.
Proof. intros Hl. unfold first_line_of, nl. cbn [String.append]. by rewrite (partition_char LF). Qed.

Lemma name_section name r :
  name_ok name -> without LF ("# path=" +:+ name) = true /\
  split "# path=" (("# path=" +:+ name) +:+ nl) = [""; name +:+ nl] /\
  utf8_decode ((fun c => Z.of_N (N_of_ascii c)) <$> String.list_ascii_of_string (name +:+ nl)) = Ok (name +:+ nl) /\
  first_line_of (("# path=" +:+ name) +:+ nl +:+ r) = ("# path=" +:+ name) +:+ nl.
Proof.
  intros Hn. assert (Hl : without LF ("# path=" +:+ name) = true)
    by (rewrite without_app; apply Hn).
  split_and!; [done | | | by apply first_line_app].
  - rewrite str_app_assoc, (split_partition _ _ "" (name +:+ nl)) by (done || apply partition_here).
    rewrite split_no_sep; [done | done | apply Hn].
  - apply utf8_decode_ascii. rewrite str_forallb_app. by rewrite (name_ascii _ Hn).
Qed.

Lemma leading_nonempty q r : q <> "" -> leading q = O -> leading (q +:+ r) = O.
Proof. destruct q as [|c q]; [done|]. cbn. by destruct (whitespaces c). Qed.

Lemma str_rev_nonempty s : s <> "" -> str_rev s <> "".
Proof. destruct s as [|c s]; [done|]. rewrite str_rev_cons. by destruct (str_rev s). Qed.

(** What is left of a file once its first line is passed. *)
Lemma cut_rest raw pre c suf i_end :
  raw = pre +:+ c +:+ suf -> leading c = O ->
  i_end = (String.length pre + String.length c)%nat \/ c = "" /\ (i_end <= String.length pre)%nat ->
  str_slice (skip_leading raw (String.length pre) i_end) i_end raw = c.
Proof.
  intros -> Hc [->|[-> He]]; unfold skip_leading.
  - rewrite slice_app, Hc, Nat.add_0_r. apply slice_app.
  - rewrite (slice_empty _ _ _ He). apply slice_empty. lia.
Qed.

Lemma cut_file pre w1 name c suf sep :
  white w1 = true -> name_ok name -> stripped c ->
  let p := w1 +:+ ("# path=" +:+ name) +:+ nl +:+ c +:+ nl in
  cut_section (pre +:+ p +:+ suf) (String.length pre, (String.length pre + String.length p)%nat, sep)
  = Ok (Some (mkSection c (Some name) sep)).
Proof.
  intros H1 Hn Hc. cbn zeta. pose (h := "# path=" +:+ name). fold h.
  assert (Hq : exists q w2, q +:+ w2 = h +:+ nl +:+ c +:+ nl /\ white w2 = true /\ stripped q /\ q <> "" /\
            (q = h +:+ nl +:+ c \/ c = "" /\ q = h)).
  { destruct (decide (c = "")) as [->|Hne].
    - exists h, (nl +:+ nl). split_and!; [done | done | | done | auto]. split; [done | apply Hn].
    - exists (h +:+ nl +:+ c), nl. split_and!; [by rewrite !str_app_assoc | done | | done | auto].
      split; [done|]. rewrite !str_rev_app, str_app_assoc.
      apply leading_nonempty; [by apply str_rev_nonempty | apply Hc]. }
  destruct Hq as (q & w2 & E & H2 & Hq & Hne & Hend). rewrite <- E.
  set (raw := pre +:+ (w1 +:+ q +:+ w2) +:+ suf). unfold cut_section.
  destruct (skip_bounds pre w1 q w2 suf raw) as [-> ->]; auto; [unfold raw; by rewrite !str_app_assoc|].
  assert (Hlen : (0 < String.length q)%nat) by (destruct q; cbn; [done | lia]).
  rewrite (proj2 (Nat.ltb_lt _ _)) by (rewrite !str_length_app; lia).
  assert (Hraw : raw = (pre +:+ w1) +:+ h +:+ nl +:+ c +:+ nl +:+ suf).
  { unfold raw. rewrite E. by rewrite !str_app_assoc. }
  destruct (name_section name (c +:+ nl +:+ suf) Hn) as (_ & Hs & Hu & Hf).
  fold h in Hs, Hf.
  assert (E1 : String.eqb (str_slice (String.length (pre +:+ w1)) (String.length (pre +:+ w1) + 7) raw) "# path=" = true).
  { rewrite Hraw, (slice_prefix "# path="). unfold h. by rewrite str_app_assoc, prefix_app. }
  assert (E2 : first_line_of (str_drop (String.length (pre +:+ w1)) raw) = h +:+ nl).
  { rewrite Hraw, str_drop_app. apply Hf. }
  rewrite E1, E2, Hs, Hu. cbn [mbind result_bind].
  rewrite (name_strip _ Hn), <- str_length_app. do 3 f_equal. apply (cut_rest _ _ _ (nl +:+ suf)).
  - rewrite Hraw. unfold h. by rewrite !str_app_assoc.
  - apply Hc.
  - destruct Hend as [->|[-> ->]]; [left | right]; unfold h; rewrite !str_length_app; [lia|].
    split; [done|]. lia.
Qed.

(** ** The round trip *)

Record file_ok (f : ParsedUploadedReportFile) (name : string) : Prop := {
  file_name : filename f = Some name;
  file_name_ok : name_ok name;
  file_not_fixes : name <> "fixes";
  file_labels : labels f = None;
  file_stripped : stripped (contents f);
  file_base : partition common_base ("# path=" +:+ name +:+ nl +:+ contents f) = None;
}.

(** The list of files, one per line, as [get_toc] reads it. *)
Record toc_ok (r : ParsedRawReport) (t : string) (names : list string) : Prop := {
  toc_read : get_toc r = Ok names;
  toc_lines : t = join nl names;
  toc_some : names <> [];
  toc_ascii : Forall (fun n => str_forallb (fun c => (N_of_ascii c <? 128)%N) n = true) names;
  toc_stripped : stripped t;
  toc_nonempty : t <> "";
  toc_no_path : String.prefix "# path=" t = false;
  toc_base : partition common_base t = None;
}.

Record raw_ok (r : ParsedRawReport) : Prop := {
  raw_no_env : raw_env r = None;
  raw_no_fixes : report_fixes r = None;
  raw_toc_ok : match raw_toc r with Some t => exists names, toc_ok r t names | None => True end;
  raw_files_ok : Forall (fun f => exists name, file_ok f name) (uploaded_files r);
}.

(** What each piece becomes, wherever it is in the text. *)
Definition cuts_to (ps : string * string) (out : option section) : Prop :=
  forall pre suf, cut_section (pre +:+ ps.1 +:+ suf)
    (String.length pre, (String.length pre + String.length ps.1)%nat, Some ps.2) = Ok out.

Lemma cut_build pieces outs tail :
  Forall2 cuts_to pieces outs -> white tail = true -> forall pre,
  let raw := pre +:+ build pieces tail in
  traverse (cut_section raw) (sections_between raw (String.length pre) (offsets (String.length pre) pieces))
  = Ok (outs ++ [None]).
Proof.
  intros Hps Htail. induction Hps as [|[p sep] out ps outs Hp Hps IH]; intros pre;
    cbn [offsets sections_between build foldr traverse fst snd] in *.
  - pose proof (cut_white pre tail "" None Htail) as E.
    rewrite str_app_nil_r, <- str_length_app in E. by rewrite E.
  - rewrite (Hp pre). cbn [mbind result_bind]. change (foldr _ tail ps) with (build ps tail).
    unfold place_end. cbn [fst snd].
    replace (pre +:+ p +:+ sep +:+ build ps tail) with ((pre +:+ p +:+ sep) +:+ build ps tail)
      by by rewrite !str_app_assoc.
    rewrite <- !str_length_app, (str_app_assoc pre p sep). by rewrite IH.
Qed.

Lemma cut_sections_build pieces outs tail :
  Forall piece_ok pieces -> Forall2 cuts_to pieces outs ->
  white tail = true -> partition common_base tail = None ->
  cut_sections (build pieces tail) = Ok (omap (M := list) id outs).
Proof.
  intros Hps Hcuts Hw Hb. unfold cut_sections, _get_sections_to_cut.
  rewrite find_places by done.
  pose proof (cut_build _ _ _ Hcuts Hw "") as E. cbn [String.append String.length] in E. cbn zeta in E.
  rewrite E. cbn [mbind result_bind]. rewrite omap_app. cbn. by rewrite app_nil_r.
Qed.

Definition file_text (f : ParsedUploadedReportFile) : string :=
  ("# path=" +:+ default "" (filename f)) +:+ nl +:+ contents f +:+ nl.

Fixpoint file_pieces (w : string) (files : list ParsedUploadedReportFile) : list (string * string) :=
  match files with
  | [] => []
  | f :: fs => (w +:+ file_text f, eof_separator) :: file_pieces (nl +:+ nl) fs
  end.
Definition file_tail (w : string) (files : list ParsedUploadedReportFile) : string :=
  match files with [] => w | _ => nl +:+ nl end.

Definition file_section (f : ParsedUploadedReportFile) : section :=
  mkSection (contents f) (filename f) (Some eof_separator).

(** The white space between two sections. *)
Definition gap (w : string) : Prop := w = "" \/ w = nl +:+ nl.

Lemma gap_white w : gap w -> white w = true.
Proof. by intros [->| ->]. Qed.

Lemma gap_base w q : gap w -> partition common_base (w +:+ q) = None <-> partition common_base q = None.
Proof.
  intros [->| ->]; [done|]. unfold common_base. cbn. by destruct (partition _ q) as [[? ?]|].
Qed.

Lemma file_block_text f name : file_ok f name -> file_block f = file_text f +:+ eof_separator +:+ nl +:+ nl.
Proof.
  intros Hf. unfold file_block, file_text. rewrite (file_name _ _ Hf). cbn [default from_option].
  rewrite ascii_encode; [by rewrite !str_app_assoc|].
  rewrite !str_forallb_app. cbn [id]. by rewrite (name_ascii _ (file_name_ok _ _ Hf)).
Qed.

Lemma file_pieces_ok w files :
  gap w -> Forall (fun f => exists name, file_ok f name) files ->
  build (file_pieces w files) (file_tail w files) = w +:+ strings_concat (file_block <$> files) /\
  Forall piece_ok (file_pieces w files) /\
  Forall2 cuts_to (file_pieces w files) (Some ∘ file_section <$> files) /\
  gap (file_tail w files).
Proof.
  intros Hw Hfs. revert w Hw. induction Hfs as [|f fs [name Hf] _ IH]; intros w Hw.
  - cbn. rewrite str_app_nil_r. split_and!; auto; constructor.
  - destruct (IH (nl +:+ nl)) as (E & Hp & Hc & _); [by right|].
    assert (Ht : file_tail (nl +:+ nl) fs = nl +:+ nl) by by destruct fs.
    cbn [file_pieces file_tail build foldr fst snd fmap list_fmap strings_concat] in *. rewrite Ht in E.
    split_and!; [| | |by right].
    + change (foldr _ ?t (file_pieces ?a ?b)) with (build (file_pieces a b) t). rewrite E.
      rewrite (file_block_text f name Hf). by rewrite !str_app_assoc.
    + constructor; [|done]. split; [unfold separator_lines; set_solver|].
      exists (w +:+ ("# path=" +:+ name) +:+ nl +:+ contents f). unfold file_text.
      rewrite (file_name _ _ Hf). cbn [fst default from_option id]. split; [by rewrite !str_app_assoc|].
      apply gap_base; [done|]. rewrite str_app_assoc. apply Hf.
    + constructor; [|done]. intros pre suf. unfold file_text, file_section. cbn [fst snd compose].
      rewrite (file_name _ _ Hf). cbn [default from_option].
      apply cut_file; [by apply gap_white | apply Hf | apply Hf].
Qed.

Lemma toc_text names :
  names <> [] -> Forall (fun n => str_forallb (fun c => (N_of_ascii c <? 128)%N) n = true) names ->
  strings_concat ((fun file => utf8_encode (file +:+ nl)) <$> names) = join nl names +:+ nl.
Proof.
  intros Hne Ha. induction Ha as [|n ns Hn Ha IH]; [done|]. cbn [fmap list_fmap strings_concat foldr].
  rewrite ascii_encode by (rewrite str_forallb_app; by rewrite Hn).
  destruct ns as [|n' ns]; [cbn; by rewrite str_app_nil_r|].
  change (join nl (n :: n' :: ns)) with (n +:+ nl +:+ join nl (n' :: ns)).
  rewrite !str_app_assoc. do 2 f_equal. by apply IH.
Qed.

Lemma toc_piece r t names :
  toc_ok r t names -> piece_ok (t +:+ nl, network_separator) /\
  cuts_to (t +:+ nl, network_separator) (Some (mkSection t None (Some network_separator))).
Proof.
  intros Ht. split.
  - split; [unfold separator_lines; set_solver|]. exists t. split; [done | apply Ht].
  - intros pre suf. apply (cut_plain pre "" t nl suf); [done | done | apply Ht | apply Ht |].
    change (nl +:+ suf) with (String LF suf). rewrite prefix_boundary by done. apply Ht.
Qed.

Lemma sections_files files toc env ups fixes :
  Forall (fun f => exists name, file_ok f name) files ->
  foldl add_section (mkRaw toc env ups fixes) (omap (M := list) id (Some ∘ file_section <$> files))
  = mkRaw toc env (ups ++ files) fixes.
Proof.
  intros Hfs. revert ups. induction Hfs as [|f fs [name Hf] _ IH]; intros ups; cbn; [by rewrite app_nil_r|].
  unfold add_section at 2. cbn [sect_footer file_section sect_filename sect_contents raw_toc raw_env uploaded_files report_fixes].
  rewrite !bool_decide_eq_false_2 by done.
  rewrite bool_decide_eq_false_2
    by (rewrite (file_name _ _ Hf); intros [= ->]; by apply (file_not_fixes _ _ Hf)).
  rewrite IH, <- app_assoc. cbn. rewrite <- (file_labels _ _ Hf). by destruct f.
Qed.

(** Printing an upload and parsing it again gives the upload back: the
    separators are found where they were written, each section is cut without
    the white space around it, the first line of a file gives its name. *)
Theorem upload_roundtrip (r : ParsedRawReport) (H : raw_ok r) :
  exists raw, content r = Ok raw /\
  (partition ignore_from_now_on_marker raw = None -> parse_raw_report_from_bytes raw = Ok r).
Proof.
  destruct H as [He Hx Ht Hf]. destruct r as [toc env files fixes]. cbn in He, Hx, Ht, Hf. subst env fixes.
  assert (Hrun : exists pieces outs tail, content (mkRaw toc None files None) = Ok (build pieces tail) /\
    Forall piece_ok pieces /\ Forall2 cuts_to pieces outs /\ gap tail /\
    foldl add_section (mkRaw None None [] None) (omap (M := list) id outs) = mkRaw toc None files None).
  { unfold content, has_toc. cbn [raw_toc uploaded_files]. destruct toc as [t|].
    - destruct Ht as [names Ht]. destruct (file_pieces_ok (nl +:+ nl) files) as (E & Hp & Hc & Hg); [by right | done|].
      destruct (toc_piece _ _ _ Ht) as [Hp1 Hc1].
      exists ((t +:+ nl, network_separator) :: file_pieces (nl +:+ nl) files),
        (Some (mkSection t None (Some network_separator)) :: (Some ∘ file_section <$> files)),
        (file_tail (nl +:+ nl) files).
      rewrite bool_decide_eq_true_2, (toc_read _ _ _ Ht) by eauto. cbn [mbind result_bind].
      split_and!; [|by constructor | by constructor | done | by apply (sections_files files (Some t))].
      cbn [build foldr fst snd]. unfold build in E. rewrite E, toc_text by apply Ht.
      rewrite (toc_lines _ _ _ Ht). by rewrite !str_app_assoc.
    - destruct (file_pieces_ok "" files) as (E & Hp & Hc & Hg); [by left | done|].
      exists (file_pieces "" files), (Some ∘ file_section <$> files), (file_tail "" files).
      split_and!; [by rewrite E | done | done | done | by apply (sections_files files None)]. }
  destruct Hrun as (pieces & outs & tail & E & Hp & Hc & Hg & Hfold).
  exists (build pieces tail). split; [done|]. intros Hm. unfold parse_raw_report_from_bytes. rewrite Hm.
  rewrite (cut_sections_build pieces outs); [cbn; by rewrite <- Hfold | done | done | by apply gap_white|].
  rewrite <- (str_app_nil_r tail). by apply gap_base.
Qed.

Definition example_upload : ParsedRawReport :=
  mkRaw (Some ("a.py" +:+ nl +:+ "b.py")) None
    [mkUploaded (Some "c.xml") "<x/>" None; mkUploaded (Some "d.info") "" None] None.

Lemma upload_roundtrip_witness :
  raw_ok example_upload /\ exists raw, content example_upload = Ok raw /\
  partition ignore_from_now_on_marker raw = None /\ parse_raw_report_from_bytes raw = Ok example_upload.
Proof.
  assert (H : raw_ok example_upload).
  { split; [done | done | |].
    - exists ["a.py"; "b.py"]. split; [vm_compute; reflexivity | reflexivity | discriminate
        | repeat constructor | by split | discriminate | reflexivity | reflexivity].
    - repeat constructor; [exists "c.xml" | exists "d.info"]; (split; [reflexivity
        | split; reflexivity | discriminate | reflexivity | by split | reflexivity]). }
  split; [exact H|]. destruct (upload_roundtrip _ H) as (raw & E & Hp). exists raw.
  assert (Hm : partition ignore_from_now_on_marker raw = None).
  { vm_compute in E. injection E as <-. vm_compute. reflexivity. }
  split_and!; [exact E | exact Hm | exact (Hp Hm)].
Defined.
