(* ===== verification/TextFormats.v ===== *)
(** * [worker/services/report/languages]: the small text formats

    Lua ([lua.py]), GAP ([gap.py]) and DLST ([dlst.py]) uploads, a module each.
    A parser that ignores bad lines does so by catching every exception around
    the body of its loop.  gcov ([gcov.py]) follows. *)
From S2P Require Export BuilderInv PyRe.

#[local] Open Scope string_scope.
#[local] Open Scope Z_scope.
#[local] Open Scope list_scope.

(** The content a processor gets: the bytes, or the JSON document they decode to. *)
Inductive content : Type := Bytes (b : string) | Json (v : pyval).

(** [k in v] for a string [k]. *)
Definition py_in (k : string) (v : pyval) : result bool :=
  match v with
  | VDict d => Ok (od_mem k d)
  | VStr s => Ok (str_contains k s)
  | VList l => Ok (existsb (pyval_eqb (VStr k)) l)
  | VNone | VBool _ | VInt _ | VFloat _ => Err TypeError
  end.

(** A line number of a document, as [ReportFile.append] checks it. *)
Definition int_key (v : pyval) : result Z :=
  match v with VInt z => Ok z | VBool b => Ok (Z.b2z b) | _ => Err TypeError end.

(** A path of a document; the fixers only take text. *)
Definition as_str (v : pyval) : result string :=
  match v with VStr s => Ok s | _ => Err Unmodelled end.

Module Lua.

(** [re.compile(r"^=+\n", re.M).split]: a separator is a whole line of equal signs;
    [bol] tells that the text is at the beginning of a line. *)
Definition separator : regex := Cat (Plus (Char "=")) (Chr (fun c => bool_decide (c = LF))).

Fixpoint docs_go (bol : bool) (skip : nat) (s : string) : string * list string :=
  match s with
  | EmptyString => (EmptyString, [])
  | String c s' =>
      let next := bool_decide (c = LF) in
      match skip with
      | S k => docs_go next k s'
      | O =>
          match (if bol then re_head separator s else None) with
          | Some rest =>
              let '(p, r) := docs_go next (String.length s - String.length rest - 1) s' in (EmptyString, p :: r)
          | None => let '(p, r) := docs_go next O s' in (String c p, r)
          end
      end
  end.
Definition docs (s : string) : list string := let '(p, r) := docs_go true O s in p :: r.

Section lua.
Context `{OrJson}.
Variable cwd : string.

Definition matches_content (c : string) : bool := String.eqb (str_take 7 c) "=======".

(** The hits of a line, the first word of its text. *)
Definition hits_of (source : string) : result Z :=
  let cov := List.hd "" (split " " (strip source)) in
  if bool_decide (str_last 2 cov ∈ ["*0"; "0"]) then Ok 0 else int_of_str cov.

Definition source_line (s : ReportBuilderSession) (f : ReportFile.t) (e : Z * string) : result ReportFile.t :=
  catch (c ← hits_of e.2; append_line s f e.1 (CInt c)) (Ok f).

(** The file of the section, and whether it is the object the report holds: a
    file appended under a new name is, so what a later section adds to it is in
    the report at once, and it is then merged with itself. *)
Definition put_file (s : ReportBuilderSession) (f : ReportFile.t) : ReportBuilderSession :=
  with_report (Report.with_files (od_set (ReportFile.rf_name f) f (Report.r_files (_report s))) (_report s)) s.

Definition state : Type := option (ReportFile.t * bool).

Definition append_held (s : ReportBuilderSession) (f : ReportFile.t) (held : bool)
    : result (ReportBuilderSession * state) :=
  if held then
    s ← append_file (put_file s f) f;
    Ok (s, match get_file s (ReportFile.rf_name f) with Some f' => Some (f', true) | None => Some (f, true) end)
  else
    '(b, s') ← append s f;
    Ok (s', Some (f, b && negb (bool_decide (is_Some (get_file s (ReportFile.rf_name f)))))).

Definition doc_step (st : ReportBuilderSession * state) (doc : string) : result (ReportBuilderSession * state) :=
  let '(s, cur) := st in
  let line := rstrip doc in
  if bool_decide (line = "Summary") then Ok (s, None)
  else if endswith ".lua" line || endswith ".lisp" line then
    '(o, s) ← create_coverage_file cwd s line true;
    Ok (s, match o with Some f => Some (f, false) | None => None end)
  else
    match cur with
    | None => Ok (s, None)
    | Some (f, held) =>
        f ← foldM (source_line s) f (enumerate 1 (splitlines line));
        append_held s f held
    end.

Definition from_txt (input : string) (s : ReportBuilderSession) : result ReportBuilderSession :=
  text ← decode_replace input;
  '(s, _) ← foldM doc_step (s, None) (docs (str_replace (String "009"%char "") " " text)); Ok s.
End lua.
End Lua.

Module Gap.
Section gap.
Context `{OrJson}.
Variable cwd : string.

Definition matches_content (c : content) (first_line : string) : result bool :=
  let val := match c with Json (VDict d) => Ok (VDict d) | _ => json_loads first_line end in
  match (v ← val; t ← py_in "Type" v; if (t : bool) then py_in "File" v else Ok false) with
  | Err TypeError | Err ValueError | Err JSONDecodeError => Ok false
  | r => r
  end.

Definition line_step (st : ReportBuilderSession * option ReportFile.t) (encoded_line : string)
    : result (ReportBuilderSession * option ReportFile.t) :=
  let '(s, _file) := st in
  line_str ← decode_replace encoded_line;
  if bool_decide (line_str = "") then Ok (s, _file)
  else
    line ← json_loads line_str;
    ty ← get_item line "Type";
    if pyval_eqb ty (VStr "S") then
      s ← append_if s _file;
      name ← get_item line "File";
      path ← as_str name;
      '(o, s) ← create_coverage_file cwd s path true; Ok (s, o)
    else
      match _file with
      | None => Ok (s, None)
      | Some f =>
          l ← get_item line "Line";
          ln ← int_key l;
          f ← append_line s f ln (CInt (if pyval_eqb ty (VStr "R") then 0 else 1));
          Ok (s, Some f)
      end.

Definition from_string (string_ : string) (s : ReportBuilderSession) : result ReportBuilderSession :=
  '(s, _file) ← foldM line_step (s, None) (bytes_lines string_);
  append_if s _file.

(** A JSON object of one record is printed and read as a text of one line. *)
Definition process (c : content) (s : ReportBuilderSession) : result ReportBuilderSession :=
  match c with
  | Json v => from_string (json_dumps v) s
  | Bytes b => from_string b s
  end.
End gap.
End Gap.

Module Dlst.
Section dlst.
Context `{OrJson}.
Variable cwd : string.

Definition matches_content (c : string) : bool := String.eqb (str_last 7 c) "covered".

(** [string[string.rfind(b"\n"):]]; the last byte when there is no newline. *)
Definition last_line_of (b : string) : string :=
  match List.rev (split nl b) with
  | l :: _ :: _ => nl +:+ l
  | _ => str_last 1 b
  end.

Definition name_in_footer (b : string) : result string :=
  l ← decode_replace (last_line_of b);
  let filename := List.hd "" (split1 " is " (strip l)) in
  Ok (if startswith "source " filename then str_drop 7 filename else filename).

(** [session.path_fixer(path)] *)
Definition fix_in (s : ReportBuilderSession) (path : string) : result (option string * ReportBuilderSession) :=
  '(o, pf) ← fix_path cwd (path_fixer (_report_builder s)) path []; Ok (o, with_path_fixer pf s).

Definition truthy_name (o : option string) : option string :=
  match o with Some n => if bool_decide (n = "") then None else Some n | None => None end.

Definition source_line (s : ReportBuilderSession) (f : ReportFile.t) (e : Z * string) : result ReportFile.t :=
  line ← decode_replace e.2;
  catch (c ← int_of_str (strip (List.hd "" (split1 "|" line))); append_line s f e.1 (CInt c)) (Ok f).

Definition from_string (string_ : string) (s : ReportBuilderSession) : result ReportBuilderSession :=
  '(fixed, s) ← (if bool_decide (filepath s = "") then Ok (None, s)
                 else fix_in s (str_init 3 (filepath s) +:+ "d"));
  filename ← match truthy_name fixed with Some n => Ok n | None => name_in_footer string_ end;
  '(o, s) ← create_coverage_file cwd s filename true;
  match o with
  | None => Ok s
  | Some f =>
      f ← foldM (source_line s) f (enumerate 1 (bytes_lines string_));
      append_file s f
  end.
End dlst.
End Dlst.

(** * [worker/services/report/languages/gcov.py]: gcov listings

    A listing annotates every line of one source file with its execution count;
    branch, call and function records follow the line they belong to.  A branch
    record counts for its line when the configuration asks for the detection of
    the kind of line it is. *)

#[local] Open Scope string_scope.
#[local] Open Scope Z_scope.
#[local] Open Scope list_scope.

(** ** The literal patterns *)
Definition ignored_lines : string -> bool :=
  is_match (Cat (Alt (Exact "{") (Exact "}")) (Opt (Cats [Star Space; ExactLit "//"; Star Any]))).
Definition detect_loop : string -> bool :=
  is_match (Cats [Plus Space; Alt (ExactLit "for") (ExactLit "while"); Opt Space; Exact "("]).
Definition detect_conditional : string -> bool :=
  is_match (Cats [Plus Space;
    Alt (Cats [ExactLit "if"; Opt Space; Exact "("]) (Cats [ExactLit "} else if"; Opt Space; Exact "("])]).

(** [s.lstrip("./")] *)
Definition lstrip_dots (s : string) : string := lstrip_chars "./" s.

(** The settings of the parser. *)
Record settings : Type := mkSettings { d_method : bool; d_loop : bool; d_conditional : bool; d_macro : bool }.

(** The local variables of the loop.  A line number that is not a number is [None]
    as well: it is only looked up among the numbers of the lines. *)
Record gcov_state : Type := mkGcov {
  ignore : bool;
  ln : option Z;
  next_is_func : bool;
  data : string;
  _cur_branch_detected : option bool;
  line_branches : odict Z (Z * Z);
  lines : odict Z (list Z);
  line_types : odict Z CoverageType;
}.

Definition gcov_init : gcov_state := mkGcov false None false "" None [] [] [].

Definition with_ignore (b : bool) (st : gcov_state) : gcov_state :=
  mkGcov b (ln st) (next_is_func st) (data st) (_cur_branch_detected st) (line_branches st) (lines st) (line_types st).
Definition with_func (st : gcov_state) : gcov_state :=
  mkGcov (ignore st) (ln st) true (data st) (_cur_branch_detected st) (line_branches st) (lines st) (line_types st).
Definition with_detected (o : option bool) (types : odict Z CoverageType) (brs : odict Z (Z * Z)) (st : gcov_state)
    : gcov_state :=
  mkGcov (ignore st) (ln st) (next_is_func st) (data st) o brs (lines st) types.
(** A line that is not counted: the line number is forgotten, kept, or changed. *)
Definition with_line (n : option Z) (d : string) (st : gcov_state) : gcov_state :=
  mkGcov (ignore st) n (next_is_func st) d None (line_branches st) (lines st) (line_types st).

(** Whether the branches of the current line are detected, and its type after the check. *)
Definition detect (cfg : settings) (ty : CoverageType) (d : string) : bool * CoverageType :=
  if bool_decide (ty = method) && negb (d_method cfg) then (false, ty)
  else if detect_loop d then (d_loop cfg, branch)
  else if detect_conditional d then (d_conditional cfg, branch)
  else (d_macro cfg, ty).

(** A hit of a branch record. *)
Definition branch_taken (line : string) : bool :=
  negb (str_contains "taken 0" line) && negb (str_contains "never executed" line).

Definition count_branch (n : Z) (line : string) (brs : odict Z (Z * Z)) : odict Z (Z * Z) :=
  let '(taken, total) := default (0, 0) (od_get n brs) in
  od_set n ((if branch_taken line then taken + 1 else taken), total + 1) brs.

Definition branch_record (cfg : settings) (n : Z) (line : string) (st : gcov_state) : result gcov_state :=
  match _cur_branch_detected st with
  | Some false => Ok st
  | Some true => Ok (with_detected (Some true) (line_types st) (count_branch n line (line_branches st)) st)
  | None =>
      match od_get n (line_types st) with
      | None => Err KeyError
      | Some ty =>
          let '(yes, ty') := detect cfg ty (data st) in
          let types := od_set n ty' (line_types st) in
          Ok (with_detected (Some yes) types
                (if yes then count_branch n line (line_branches st) else line_branches st) st)
      end
  end.

(** The count of a line: [None] is a line that is not counted. *)
Definition line_coverage (hits d : string) : option Z :=
  if bool_decide (hits = "#####") then
    if startswith "inline" (strip d) || startswith "static" (strip d) then None else Some 0
  else if bool_decide (hits = "=====") then Some 0
  else match int_of_str hits with Ok c => Some c | Err _ => None end.

Definition source_record (filename line : string) (st : gcov_state) : gcov_state :=
  match split_n 2 ":" line with
  | [a; b; c] =>
      if bool_decide (strip c = "}") then with_line (ln st) (data st) st
      else if startswith "@implementation" c then with_line (ln st) (data st) st
      else
        let '(hits, number, d) := if endswith ".swift" filename then (b, a, c) else (a, b, c) in
        if ignored_lines d then with_line None d st
        else if str_contains "-" hits then with_line None d st
        else
          match int_of_str (strip number) with
          | Err _ => with_line None d st
          | Ok n =>
              match line_coverage (strip hits) d with
              | None => with_line None d st
              | Some cov =>
                  mkGcov (ignore st) (Some n) false d None (line_branches st)
                    (od_set n (default [] (od_get n (lines st)) ++ [cov]) (lines st))
                    (od_set n (if next_is_func st then method else ReportBuilder.line) (line_types st))
              end
          end
  | _ => with_line None (data st) st
  end.

Definition line_step (cfg : settings) (filename : string) (st : gcov_state) (encoded_line : string) : result gcov_state :=
  line ← decode_replace encoded_line;
  if str_contains "LCOV_EXCL_START" line then Ok (with_ignore true st)
  else if str_contains "LCOV_EXCL_END" line || str_contains "LCOV_EXCL_STOP" line then Ok (with_ignore false st)
  else if ignore st then Ok st
  else if str_contains "LCOV_EXCL_LINE" line then Ok st
  else if bool_decide (str_take 4 line = "func") then Ok (with_func st)
  else
    match (if bool_decide (str_take 4 line = "bran") then ln st else None) with
    | Some n =>
        if od_mem n (lines st) then branch_record cfg n line st
        else Ok (source_record filename line st)
    | None =>
        if bool_decide (str_take 4 line = "call") then Ok st else Ok (source_record filename line st)
    end.

Section gcov.
Context `{OrJson}.
Variable cwd : string.

Definition matches_content (c : string) : bool := str_contains "0:Source:" (List.hd "" (split1 nl c)).

Definition setting (v : pyval) (name : string) : result bool :=
  b ← read_yaml_field v ["branch_detection"; name] (VBool false); Ok (truthy b).

Definition settings_of (s : ReportBuilderSession) : result settings :=
  v ← yaml_field s ["parsers"; "gcov"] VNone;
  m ← setting v "method"; l ← setting v "loop"; c ← setting v "conditional"; k ← setting v "macro";
  Ok (mkSettings m l c k).

(** The name in the first line, and the path of the file. *)
Definition source_name (first_line : string) : result string :=
  t ← decode_replace first_line;
  match split ":" t !! 3%nat with Some n => Ok (lstrip_dots n) | None => Err IndexError end.

Definition fixed_name (s : ReportBuilderSession) (filename : string) : result (option string * ReportBuilderSession) :=
  if negb (bool_decide (filepath s = "")) && endswith (filename +:+ ".gcov") (filepath s) then
    '(o, s) ← Dlst.fix_in cwd s (str_init 5 (filepath s));
    match Dlst.truthy_name o with Some n => Ok (Some n, s) | None => Dlst.fix_in cwd s filename end
  else Dlst.fix_in cwd s filename.

Definition add_coverages (s : ReportBuilderSession) (st : gcov_state) (f : ReportFile.t) (e : Z * list Z) : result ReportFile.t :=
  let '(n, coverages) := e in
  let ty := od_get n (line_types st) in
  let add f c := add_line f n (create_coverage_line s c ty None None CxNone) in
  match od_get n (line_branches st) with
  | Some (taken, total) => add f (CStr (str_of_Z taken +:+ "/" +:+ str_of_Z total))
  | None => foldM (fun f c => add f (CInt c)) f coverages
  end.

Definition from_txt (string_ : string) (s : ReportBuilderSession) : result ReportBuilderSession :=
  match bytes_lines string_ with
  | [] => Err StopIteration
  | first_line :: line_iterator =>
      name ← source_name first_line;
      '(o, s) ← fixed_name s name;
      match Dlst.truthy_name o with
      | None => Ok s
      | Some filename =>
          cfg ← settings_of s;
          st ← foldM (line_step cfg filename) gcov_init line_iterator;
          '(o, s) ← create_coverage_file cwd s filename false;
          match o with
          | None => Ok s
          | Some f => f ← foldM (add_coverages s st) f (lines st); append_file s f
          end
      end
  end.
End gcov.
