(* ===== verification/JsonFormats.v ===== *)
(** * [worker/services/report/languages]: the JSON formats

    A module per parser: Salesforce, Elm, R, Flow, the first Codecov format,
    Scala, Coveralls, SimpleCov and coverage.py.  A document is a [pyval]; the
    Python operation applied to a value of another type than expected raises
    what Python raises. *)
From S2P Require Export TextFormats.
From S2P Require Import JsonCodec.
#[local] Open Scope string_scope.
#[local] Open Scope Z_scope.
#[local] Open Scope list_scope.

(** [v.items()] *)
Definition items (v : pyval) : result (odict string pyval) :=
  match v with VDict d => Ok d | _ => Err AttributeError end.

(** [for x in v]. *)
Definition iter (v : pyval) : result (list pyval) :=
  match v with
  | VList l => Ok l
  | VDict d => Ok (VStr <$> od_keys d)
  | VStr s => Ok ((fun c => VStr (String c "")) <$> String.list_ascii_of_string s)
  | VNone | VBool _ | VInt _ | VFloat _ => Err TypeError
  end.

(** [int(v)] of a value of a document. *)
Definition int_of_val (v : pyval) : result Z :=
  match v with
  | VInt z => Ok z
  | VBool b => Ok (Z.b2z b)
  | VFloat f => Ok (Z_of_f f)
  | VStr s => int_of_str s
  | VNone | VList _ | VDict _ => Err TypeError
  end.

(** [a == b] on scalars, where [True == 1 == 1.0]. *)
Definition scalar (v : pyval) : pyval :=
  match v with
  | VBool b => VInt (Z.b2z b)
  | VFloat f => if fnum f mod fden f =? 0 then VInt (f_signed f / fden f) else v
  | _ => v
  end.
Definition py_eqb (a b : pyval) : bool := pyval_eqb (scalar a) (scalar b).

Definition is_dict (v : pyval) : bool := match v with VDict _ => true | _ => false end.

Section json.
Context `{OrJson}.
Variable cwd : string.

(** The loop shared by the parsers that make a file, add its lines, and append it. *)
Definition build_file (s : ReportBuilderSession) (name : pyval)
    (fill : ReportBuilderSession -> ReportFile.t -> result ReportFile.t) : result ReportBuilderSession :=
  path ← as_str name;
  '(o, s) ← create_coverage_file cwd s path true;
  match o with
  | None => Ok s
  | Some f => f ← fill s f; append_file s f
  end.

(** [_file.append(ln, session.create_coverage_line(cov))] with a value of the document. *)
Definition append_val (s : ReportBuilderSession) (f : ReportFile.t) (ln : Z) (v : pyval) : result ReportFile.t :=
  c ← cov_of_val v; append_line s f ln c.

(** The keys of a dictionary of lines are numbers. *)
Definition append_item (s : ReportBuilderSession) (f : ReportFile.t) (e : string * pyval) : result ReportFile.t :=
  ln ← int_of_str e.1; append_val s f ln e.2.
End json.

Module Salesforce.
Section salesforce.
Context `{OrJson}.
Variable cwd : string.

Definition matches_content (v : pyval) : result bool :=
  match v with VList (x :: _) => py_in "name" x | _ => Ok false end.

(** [obj and obj.get("name") and obj.get("lines")]. *)
Definition wanted (obj : pyval) : result bool :=
  if truthy obj then
    n ← dict_get obj "name" VNone;
    if truthy n then l ← dict_get obj "lines" VNone; Ok (truthy l) else Ok false
  else Ok false.

Definition object_step (s : ReportBuilderSession) (obj : pyval) : result ReportBuilderSession :=
  b ← wanted obj;
  if (b : bool) then
    v ← get_item obj "name";
    name ← as_str v;
    build_file cwd s (VStr (name +:+ (if str_contains "." name then "" else ".cls")))
      (fun s f => l ← get_item obj "lines"; d ← items l; foldM (append_item s) f d)
  else Ok s.

Definition from_json (json : pyval) (s : ReportBuilderSession) : result ReportBuilderSession :=
  objs ← iter json; foldM object_step s objs.
End salesforce.
End Salesforce.

Module Elm.
Section elm.
Context `{OrJson}.
Variable cwd : string.

Definition matches_content (v : pyval) : bool :=
  match v with VDict d => truthy (default VNone (od_get "coverageData" d)) | _ => false end.

Definition add (s : ReportBuilderSession) (f : ReportFile.t) (ln : Z) (c : cov) (cx : cplx) (ps : option (list partial))
    : result ReportFile.t :=
  add_line f ln (create_coverage_line s c None ps None cx).

Definition place (v : pyval) : result (pyval * pyval) :=
  l ← get_item v "line"; c ← get_item v "column"; Ok (l, c).

Definition section_step (s : ReportBuilderSession) (f : ReportFile.t) (sec : pyval) : result ReportFile.t :=
  count ← dict_get sec "count" (VInt 0);
  complexity ← dict_get sec "complexity" VNone;
  from ← get_item sec "from"; '(sl, sc) ← place from;
  to ← get_item sec "to"; '(el, ec) ← place to;
  cov ← cov_of_val count; hits ← Z_of_val count; cx ← cplx_of_val complexity;
  sl ← int_key sl; el ← int_key el;
  sc ← optZ_of_val sc; ec ← optZ_of_val ec;
  f ← add s f sl cov cx (Some [Partial sc (if el =? sl then ec else None) hits]);
  if sl <? el then
    f ← foldM (fun f ln => add s f ln cov cx None) f (range sl el);
    add s f sl cov cx (Some [Partial None ec hits])
  else Ok f.

Definition module_step (json : pyval) (s : ReportBuilderSession) (e : string * pyval) : result ReportBuilderSession :=
  modules ← get_item json "moduleMap";
  name ← get_item modules e.1;
  build_file cwd s name (fun s f => data ← iter e.2; foldM (section_step s) f data).

Definition from_json (json : pyval) (s : ReportBuilderSession) : result ReportBuilderSession :=
  v ← get_item json "coverageData"; d ← items v; foldM (module_step json) s d.
End elm.
End Elm.

Module Rlang.
Section rlang.
Context `{OrJson}.
Variable cwd : string.

Definition matches_content (v : pyval) : bool :=
  match v with VDict d => pyval_eqb (default VNone (od_get "uploader" d)) (VStr "R") | _ => false end.

Definition line_step (s : ReportBuilderSession) (f : ReportFile.t) (e : Z * pyval) : result ReportFile.t :=
  match e.2 with
  | VNone => Ok f
  | v => c ← int_of_val v; append_line s f e.1 (CInt c)
  end.

Definition file_step (s : ReportBuilderSession) (data : pyval) : result ReportBuilderSession :=
  name ← get_item data "name";
  build_file cwd s name
    (fun s f => v ← get_item data "coverage"; l ← iter v; foldM (line_step s) f (enumerate 0 l)).

Definition from_json (data_dict : pyval) (s : ReportBuilderSession) : result ReportBuilderSession :=
  v ← get_item data_dict "files"; l ← iter v; foldM file_step s l.
End rlang.
End Rlang.

Module Flowcover.
Section flowcover.
Context `{OrJson}.
Variable cwd : string.

Definition matches_content (v : pyval) : bool :=
  match v with VDict d => truthy (default VNone (od_get "flowStatus" d)) | _ => false end.

Definition loc_step (hits : Z) (s : ReportBuilderSession) (f : ReportFile.t) (loc : pyval) : result ReportFile.t :=
  start ← get_item loc "start"; end_ ← get_item loc "end";
  sl ← get_item start "line"; el ← get_item end_ "line";
  ps ← (if py_eqb sl el then
          sc ← get_item start "column"; ec ← get_item end_ "column";
          sc ← optZ_of_val sc; ec ← optZ_of_val ec; Ok (Some [Partial sc ec hits])
        else Ok None);
  ln ← int_key sl;
  add_line f ln (create_coverage_line s (CInt hits) None ps None CxNone).

Definition file_step (s : ReportBuilderSession) (e : string * pyval) : result ReportBuilderSession :=
  build_file cwd s (VStr e.1) (fun s f =>
    ex ← get_item e.2 "expressions";
    covered ← dict_get ex "covered_locs" (VList []); l ← iter covered; f ← foldM (loc_step 1 s) f l;
    uncovered ← dict_get ex "uncovered_locs" (VList []); l ← iter uncovered; foldM (loc_step 0 s) f l).

Definition from_json (json : pyval) (s : ReportBuilderSession) : result ReportBuilderSession :=
  v ← get_item json "files"; d ← items v; foldM file_step s d.
End flowcover.
End Flowcover.

Module VOne.
Section vone.
Context `{OrJson}.
Variable cwd : string.

Definition matches_content (v : pyval) : result bool :=
  a ← py_in "coverage" v;
  if (a : bool) then Ok true
  else b ← py_in "RSpec" v; if (b : bool) then Ok true else py_in "MiniTest" v.

(** A line of the dictionary, under a number or under the text of a document. *)
Definition line_key : Type := Z + string.

(** The lines of a list, numbered from one after its first element. *)
Definition list_lines (lines : list pyval) : list (line_key * pyval) :=
  filter (fun e => e.2 <> VNone) ((fun e : Z * pyval => (inl e.1, e.2)) <$> enumerate 1 (tail lines)).

Definition _list_to_dict (lines : pyval) : result (list (line_key * pyval)) :=
  match lines with
  | VList l => Ok (list_lines l)
  | _ =>
      b ← py_in "lines" lines;
      if (b : bool) then
        v ← get_item lines "lines";
        match v with VList l => Ok (list_lines (VNone :: l)) | _ => Err TypeError end
      else
        match lines with
        | VDict d => Ok ((fun e : string * pyval => (inr e.1, e.2)) <$> d)
        | _ => if truthy lines then Err AttributeError else Ok []
        end
  end.

Definition line_number (k : line_key) : result Z :=
  match k with
  | inl n => Ok n
  | inr t => match int_of_str t with Err ValueError => Err CorruptRawReportError | r => r end
  end.

(** A number in a string is a number of hits; other strings and booleans are branches. *)
Definition line_coverage (cov : pyval) : pyval :=
  match cov with VStr t => match int_of_str t with Ok z => VInt z | Err _ => cov end | _ => cov end.
Definition line_type (cov : pyval) : CoverageType :=
  match cov with VStr _ | VBool _ => branch | _ => line end.

Definition line_step (s : ReportBuilderSession) (f : ReportFile.t) (e : line_key * pyval) : result ReportFile.t :=
  ln ← line_number e.1;
  if 0 <? ln then
    let v := line_coverage e.2 in
    c ← cov_of_val v;
    add_line f ln (create_coverage_line s c (Some (line_type v)) None None CxNone)
  else Ok f.

Definition file_step (s : ReportBuilderSession) (e : string * pyval) : result ReportBuilderSession :=
  build_file cwd s (VStr e.1) (fun s f => lns ← _list_to_dict e.2; foldM (line_step s) f lns).

Definition from_json (json : pyval) (s : ReportBuilderSession) : result ReportBuilderSession :=
  v ← get_item json "coverage";
  match v with VDict d => foldM file_step s d | _ => Ok s end.

Definition process (v : pyval) (s : ReportBuilderSession) : result ReportBuilderSession :=
  a ← py_in "RSpec" v;
  v ← (if (a : bool) then get_item v "RSpec"
       else b ← py_in "MiniTest" v; if (b : bool) then get_item v "MiniTest" else Ok v);
  from_json v s.
End vone.
End VOne.

Module Scala.
Section scala.
Context `{OrJson}.
Variable cwd : string.

Definition matches_content (v : pyval) : result bool := py_in "fileReports" v.

Definition file_step (s : ReportBuilderSession) (f : pyval) : result ReportBuilderSession :=
  name ← get_item f "filename";
  build_file cwd s name (fun s file => v ← get_item f "coverage"; d ← items v; foldM (append_item s) file d).

Definition from_json (data_dict : pyval) (s : ReportBuilderSession) : result ReportBuilderSession :=
  v ← get_item data_dict "fileReports"; l ← iter v; foldM file_step s l.
End scala.
End Scala.

Module Coveralls.
Section coveralls.
Context `{OrJson}.
Variable cwd : string.

Definition matches_content (v : pyval) : result bool := py_in "source_files" v.

Definition line_step (s : ReportBuilderSession) (f : ReportFile.t) (e : Z * pyval) : result ReportFile.t :=
  match e.2 with VNone => Ok f | v => append_val s f e.1 v end.

(** A list, or a string with an encoded list. *)
Definition coverage_list (v : pyval) : result (list pyval) :=
  w ← match v with VStr t => json_loads t | _ => Ok v end; iter w.

Definition file_step (s : ReportBuilderSession) (file : pyval) : result ReportBuilderSession :=
  name ← get_item file "name";
  build_file cwd s name (fun s f =>
    v ← get_item file "coverage"; l ← coverage_list v; foldM (line_step s) f (enumerate 1 l)).

Definition from_json (report : pyval) (s : ReportBuilderSession) : result ReportBuilderSession :=
  v ← get_item report "source_files"; l ← iter v; foldM file_step s l.
End coveralls.
End Coveralls.

Module Simplecov.
Section simplecov.
Context `{OrJson}.
Variable cwd : string.

Definition matches_content (v : pyval) : bool :=
  match v with
  | VDict d =>
      pyval_eqb (default VNone (od_get "command_name" d)) (VStr "RSpec") ||
      match od_get "meta" d with Some (VDict m) => od_mem "simplecov_version" m | _ => false end
  | _ => false
  end.

(** The lines of either version of the format. *)
Definition coverage_to_check (coverage : pyval) : pyval :=
  match coverage with
  | VDict d => let l := default VNone (od_get "lines" d) in if truthy l then l else coverage
  | _ => coverage
  end.

Definition line_step (s : ReportBuilderSession) (f : ReportFile.t) (e : Z * pyval) : result ReportFile.t :=
  append_val s f e.1 (if pyval_eqb e.2 (VStr "ignored") then VInt (-1) else e.2).

Definition file_step (s : ReportBuilderSession) (data : pyval) : result ReportBuilderSession :=
  name ← get_item data "filename";
  build_file cwd s name (fun s f =>
    coverage ← get_item data "coverage";
    l ← iter (coverage_to_check coverage); foldM (line_step s) f (enumerate 1 l)).

Definition from_json (json : pyval) (s : ReportBuilderSession) : result ReportBuilderSession :=
  v ← get_item json "files"; l ← iter v; foldM file_step s l.
End simplecov.
End Simplecov.

Module PyCoverage.
Section pycoverage.
Context `{OrJson}.
Variable cwd : string.

Definition COVERAGE_HIT : Z := 1.
Definition COVERAGE_MISS : Z := 0.

Definition matches_content (v : pyval) : result bool :=
  a ← py_in "meta" v;
  meta ← (if (a : bool) then get_item v "meta" else Ok (VBool false));
  b ← py_in "files" v;
  Ok (b && match meta with VDict m => od_mem "show_contexts" m | _ => false end).

Definition line_step (s : ReportBuilderSession) (f : ReportFile.t) (e : Z * pyval) : result ReportFile.t :=
  match e.2 with
  | VFloat x => if 0 <? f_signed x then Err TypeError else Ok f
  | v => ln ← int_key v; if 0 <? ln then append_line s f ln (CInt e.1) else Ok f
  end.

Definition file_step (s : ReportBuilderSession) (e : string * pyval) : result ReportBuilderSession :=
  build_file cwd s (VStr e.1) (fun s f =>
    ex ← get_item e.2 "executed_lines"; exl ← iter ex;
    mi ← get_item e.2 "missing_lines"; mil ← iter mi;
    foldM (line_step s) f (((fun v => (COVERAGE_HIT, v)) <$> exl) ++ ((fun v => (COVERAGE_MISS, v)) <$> mil))).

Definition process (content : pyval) (s : ReportBuilderSession) : result ReportBuilderSession :=
  v ← get_item content "files"; d ← items v; foldM file_step s d.
End pycoverage.
End PyCoverage.

(** ** The formats agree

    The same counts, printed in each of the formats, are read into the same
    report. *)

(** The counts of a list, a line without one is not counted. *)
Definition counted (lines : list (option Z)) : list (Z * Z) :=
  omap (M := list) (fun e : Z * option Z => (fun c => (e.1, c)) <$> e.2) (enumerate 1 lines).

Definition vals (lines : list (option Z)) : list pyval :=
  (fun o => match o with Some c => VInt c | None => VNone end) <$> lines.
Definition line_dict (lines : list (option Z)) : pyval :=
  VDict ((fun d : Z * Z => (str_of_Z d.1, VInt d.2)) <$> counted lines).

Definition source : Type := string * list (option Z).

Definition to_coveralls (files : list source) : pyval :=
  VDict [("source_files", VList ((fun f : source => VDict [("name", VStr f.1); ("coverage", VList (vals f.2))]) <$> files))].
Definition to_rlang (files : list source) : pyval :=
  VDict [("uploader", VStr "R");
    ("files", VList ((fun f : source => VDict [("name", VStr f.1); ("coverage", VList (VNone :: vals f.2))]) <$> files))].
Definition to_scala (files : list source) : pyval :=
  VDict [("fileReports", VList ((fun f : source => VDict [("filename", VStr f.1); ("coverage", line_dict f.2)]) <$> files))].
Definition to_salesforce (files : list source) : pyval :=
  VList ((fun f : source => VDict [("name", VStr f.1); ("lines", line_dict f.2)]) <$> files).
Definition to_v1 (files : list source) : pyval :=
  VDict [("coverage", VDict ((fun f : source => (f.1, VList (VNone :: vals f.2))) <$> files))].

Section agree.
Context `{OrJson}.
Variable cwd : string.

Definition hit_file (s : ReportBuilderSession) (f : source) : result ReportBuilderSession :=
  build_file cwd s (VStr f.1) (fun s file => append_hits s (fun _ => None) file (counted f.2)).

Definition hit_report (s : ReportBuilderSession) (files : list source) : result ReportBuilderSession :=
  foldM hit_file s files.

Lemma build_file_ext s name (g g' : ReportBuilderSession -> ReportFile.t -> result ReportFile.t) :
  (forall s f, g s f = g' s f) -> build_file cwd s name g = build_file cwd s name g'.
Proof.
  intros E. unfold build_file. destruct (as_str name); [|done]. cbn [mbind result_bind].
  destruct (create_coverage_file cwd s a true) as [[[f|] s']|]; [|done|done]. cbn [mbind result_bind]. by rewrite E.
Qed.

(** A list with the counts at the places of their lines. *)
Lemma list_hits (step : ReportBuilderSession -> ReportFile.t -> Z * pyval -> result ReportFile.t) s i lines :
  (forall f n, step s f (n, VNone) = Ok f) ->
  (forall f n c, step s f (n, VInt c) = append_line s f n (CInt c)) ->
  forall f, foldM (step s) f (enumerate i (vals lines)) =
    append_hits s (fun _ => None) f (omap (M := list) (fun e : Z * option Z => (fun c => (e.1, c)) <$> e.2) (enumerate i lines)).
Proof.
  intros H1 H2. unfold append_hits. revert i. induction lines as [|[c|] lines IH]; intros i f; [done| |];
    cbn [vals fmap list_fmap enumerate foldM omap list_omap option_fmap option_map fst snd].
  - rewrite H2. cbn [foldM fst snd]. change (append_line s f i (CInt c)) with (add_line f i (hit_line s None c)).
    destruct (add_line f i (hit_line s None c)) as [f'|]; [|done]. apply IH.
  - rewrite H1. apply IH.
Qed.

Lemma append_item_hit s f n c : append_item s f (str_of_Z n, VInt c) = add_line f n (hit_line s None c).
Proof. unfold append_item. cbn [fst snd]. by rewrite int_of_str_of_Z. Qed.

(** A dictionary of the counts by line number. *)
Lemma dict_hits s f das :
  foldM (append_item s) f ((fun d : Z * Z => (str_of_Z d.1, VInt d.2)) <$> das) = append_hits s (fun _ => None) f das.
Proof. rewrite foldM_fmap. apply foldM_ext. intros f' d _. apply append_item_hit. Qed.

Lemma coveralls_hits s f lines :
  foldM (Coveralls.line_step s) f (enumerate 1 (vals lines)) = append_hits s (fun _ => None) f (counted lines).
Proof. by apply list_hits. Qed.

Lemma rlang_hits s f lines :
  foldM (Rlang.line_step s) f (enumerate 0 (VNone :: vals lines)) = append_hits s (fun _ => None) f (counted lines).
Proof. cbn [enumerate foldM]. by apply (list_hits Rlang.line_step s (0 + 1)). Qed.

Lemma v1_hit s f n c : 1 <= n -> VOne.line_step s f (inl n, VInt c) = add_line f n (hit_line s None c).
Proof. intros Hn. unfold VOne.line_step. cbn. by rewrite (proj2 (Z.ltb_lt _ _)) by lia. Qed.

Lemma v1_hits s f lines :
  foldM (VOne.line_step s) f (VOne.list_lines (VNone :: vals lines)) = append_hits s (fun _ => None) f (counted lines).
Proof.
  unfold VOne.list_lines, counted, append_hits. cbn [tail].
  pose proof (enumerate_from 1 lines) as Hpos. revert Hpos f. generalize 1 at 2 3 4 as i.
  induction lines as [|[c|] lines IH]; intros i Hpos f; [done| |];
    cbn [vals fmap list_fmap enumerate omap list_omap option_fmap option_map fst snd] in *;
    apply Forall_cons in Hpos as [Hi Hpos]; cbn in Hi.
  - rewrite filter_cons_True by done. cbn [foldM]. rewrite v1_hit by done. cbn [fst snd].
    destruct (add_line f i (hit_line s None c)) as [f'|]; [|done]. by apply IH.
  - rewrite filter_cons_False by auto. by apply IH.
Qed.

(** What a salesforce document needs: a name with an extension, and lines. *)
Definition salesforce_ok (f : source) : Prop := str_contains "." f.1 = true /\ counted f.2 <> [].

Lemma salesforce_file s f :
  salesforce_ok f ->
  Salesforce.object_step cwd s (VDict [("name", VStr f.1); ("lines", line_dict f.2)]) = hit_file s f.
Proof.
  intros [Hdot Hne].
  assert (Hw : Salesforce.wanted (VDict [("name", VStr f.1); ("lines", line_dict f.2)]) = Ok true).
  { unfold Salesforce.wanted, dict_get. od_lookup.
    cbn [truthy mbind result_bind line_dict].
    rewrite (bool_decide_eq_false_2 ([("name", VStr f.1); _] = [])) by done.
    rewrite (bool_decide_eq_false_2 (f.1 = "")) by (intros E; rewrite E in Hdot; discriminate Hdot).
    cbn [negb]. by destruct (counted f.2). }
  unfold Salesforce.object_step. rewrite Hw. cbn [mbind result_bind]. unfold get_item. od_lookup.
  cbn [mbind result_bind as_str]. rewrite Hdot, str_app_nil_r. apply build_file_ext. intros s' file.
  apply dict_hits.
Qed.

Lemma coveralls_file s f :
  Coveralls.file_step cwd s (VDict [("name", VStr f.1); ("coverage", VList (vals f.2))]) = hit_file s f.
Proof.
  unfold Coveralls.file_step, get_item. od_lookup. cbn [mbind result_bind]. apply build_file_ext. intros s' file.
  apply coveralls_hits.
Qed.

Lemma rlang_file s f :
  Rlang.file_step cwd s (VDict [("name", VStr f.1); ("coverage", VList (VNone :: vals f.2))]) = hit_file s f.
Proof.
  unfold Rlang.file_step, get_item. od_lookup. cbn [mbind result_bind]. apply build_file_ext. intros s' file.
  apply rlang_hits.
Qed.

Lemma scala_file s f :
  Scala.file_step cwd s (VDict [("filename", VStr f.1); ("coverage", line_dict f.2)]) = hit_file s f.
Proof.
  unfold Scala.file_step, get_item. od_lookup. cbn [mbind result_bind]. apply build_file_ext. intros s' file.
  apply dict_hits.
Qed.

Lemma v1_file s f : VOne.file_step cwd s (f.1, VList (VNone :: vals f.2)) = hit_file s f.
Proof. unfold VOne.file_step. apply build_file_ext. intros s' file. apply v1_hits. Qed.

Lemma counted_unique lines : NoDup (counted lines).*1.
Proof.
  unfold counted. generalize 1. induction lines as [|[c|] lines IH]; intros i;
    cbn [enumerate omap list_omap option_fmap option_map fst snd]; [constructor | | apply IH].
  apply NoDup_cons. split; [|apply IH]. intros ([n c'] & E & Hin)%list_elem_of_fmap. cbn in E. subst n.
  apply list_elem_of_omap in Hin as ([n o] & Hin & E). destruct o as [c0|]; [|done]. injection E as -> _.
  pose proof (enumerate_from (i + 1) lines) as Hf. rewrite Forall_forall in Hf. apply Hf in Hin. cbn in Hin. lia.
Qed.

Lemma counted_elem lines n c : (n, c) ∈ counted lines <-> 1 <= n /\ lines !! Z.to_nat (n - 1) = Some (Some c).
Proof.
  unfold counted. rewrite list_elem_of_omap. split.
  - intros ([m [c'|]] & Hin & E); [|done]. injection E as -> ->. by apply enumerate_lookup in Hin.
  - intros Hn. exists (n, Some c). split; [by apply enumerate_lookup | done].
Qed.

(** The line of a count. *)
Definition counted_line (s : ReportBuilderSession) (lines : list (option Z)) (ln : Z) : option ReportLine :=
  hit_line s None <$> (mjoin (lines !! Z.to_nat (ln - 1))).

Lemma counted_hits s lines ln :
  1 <= ln -> line_from_hits s (fun _ => None) (counted lines) ln = counted_line s lines ln.
Proof.
  intros Hln. unfold line_from_hits, counted_line. destruct (lines !! Z.to_nat (ln - 1)) as [[c|]|] eqn:E.
  - rewrite (hits_on_unique _ ln c); [done | apply counted_unique | by apply counted_elem].
  - rewrite hits_on_absent; [done|]. intros ([n c] & -> & Hin)%list_elem_of_fmap. apply counted_elem in Hin as [_ Hin].
    cbn in E. congruence.
  - rewrite hits_on_absent; [done|]. intros ([n c] & -> & Hin)%list_elem_of_fmap. apply counted_elem in Hin as [_ Hin].
    cbn in E. congruence.
Qed.

(** The same counts printed as a Coveralls, R, Scala, Salesforce or Codecov
    document are read into the same report, the one that has each file with the
    counts at their lines: a file the fixer accepts has at each line that is not
    ignored the count of the list, and none elsewhere. *)
Theorem json_formats_agree (s : ReportBuilderSession) (files : list source) :
  Coveralls.from_json cwd (to_coveralls files) s = hit_report s files /\
  Rlang.from_json cwd (to_rlang files) s = hit_report s files /\
  Scala.from_json cwd (to_scala files) s = hit_report s files /\
  VOne.process cwd (to_v1 files) s = hit_report s files /\
  (Forall salesforce_ok files -> Salesforce.from_json cwd (to_salesforce files) s = hit_report s files) /\
  forall s f0 lines, (exists p ig, f0 = empty_file p ig) -> Forall da_ok (counted lines) ->
    exists f, append_hits s (fun _ => None) f0 (counted lines) = Ok f /\
      forall ln, 1 <= ln ->
        ReportFile.get f ln = Ok (if ReportFile.ignored f0 ln then None else counted_line s lines ln).
Proof.
  unfold Coveralls.from_json, Rlang.from_json, Scala.from_json, VOne.process, VOne.from_json, Salesforce.from_json,
    to_coveralls, to_rlang, to_scala, to_v1, to_salesforce, py_in, od_mem, get_item, iter, hit_report.
  od_lookup. cbn [mbind result_bind]. od_lookup. cbn [mbind result_bind].
  split_and!.
  - rewrite foldM_fmap. apply foldM_ext. intros s' f _. apply coveralls_file.
  - rewrite foldM_fmap. apply foldM_ext. intros s' f _. apply rlang_file.
  - rewrite foldM_fmap. apply foldM_ext. intros s' f _. apply scala_file.
  - rewrite foldM_fmap. apply foldM_ext. intros s' f _. apply v1_file.
  - intros Hs. rewrite foldM_fmap. apply foldM_ext. intros s' f Hf. apply salesforce_file.
    rewrite Forall_forall in Hs. by apply Hs.
  - intros s' f0 lines (p & ig & ->) Hok.
    destruct (append_hits_run s' (fun _ => None) (empty_file p ig) (counted lines)) as (f & Hrun & _ & _ & Hget);
      [apply empty_file_ok | done | apply empty_file_get |].
    exists f. split; [done|]. intros ln Hln. rewrite Hget, counted_hits by done. done.
Qed.
End agree.

Lemma json_formats_agree_witness :
  let files := [("a.cls", [Some 1; None; Some 0])] in
  Coveralls.from_json (H := codec) "/w" (to_coveralls files) example_builder_session =
    hit_report (H := codec) "/w" example_builder_session files /\
  Salesforce.from_json (H := codec) "/w" (to_salesforce files) example_builder_session =
    hit_report (H := codec) "/w" example_builder_session files /\
  exists f, append_hits (H := codec) example_builder_session (fun _ => None) (empty_file "a.cls" None)
      (counted [Some 1; None; Some 0]) = Ok f /\
    ReportFile.get (H := codec) f 3 = Ok (Some (hit_line example_builder_session None 0)) /\
    ReportFile.get (H := codec) f 2 = Ok None.
Proof.
  intros files.
  destruct (json_formats_agree (H := codec) "/w" example_builder_session files) as (H1 & _ & _ & _ & H2 & H3).
  split; [exact H1|]. split.
  - apply H2. repeat constructor. discriminate.
  - destruct (H3 example_builder_session (empty_file "a.cls" None) [Some 1; None; Some 0]) as (f & Hf & Hget).
    + by exists "a.cls", None.
    + repeat constructor; cbn; lia.
    + exists f. split; [exact Hf|]. split; by rewrite Hget.
Defined.

(** The end of a section that spans lines is added to its first line, not its
    last, and merging it with the start of the section compares a column with
    [None]: the parser raises. *)
Example elm_spanning_section :
  Elm.section_step (H := codec) example_builder_session (empty_file "a.elm" None)
      (VDict [("count", VInt 2); ("from", VDict [("line", VInt 1); ("column", VInt 4)]);
              ("to", VDict [("line", VInt 3); ("column", VInt 9)])]) = Err TypeError.
Proof. vm_compute. reflexivity. Qed.

(** A list of numbers is not recognized as another format: the first test of the
    processors raises on it. *)
Example salesforce_numbers : Salesforce.matches_content (VList [VInt 1]) = Err TypeError.
Proof. reflexivity. Qed.
