(* ===== verification/Xcode.v ===== *)
(** * [worker/services/report/languages/xcode.py]: Xcode coverage listings

    A listing is a file name followed by its lines, [hits|number|source] or
    [number|hits|source]; the counts are abbreviated with [k] and [M].  The
    escape sequences that mark the uncovered part of a line are removed with the
    other control characters before they are looked for. *)
From S2P Require Export TextFormats PyDecimal.
From S2P Require Import JsonCodec.
#[local] Open Scope string_scope.
#[local] Open Scope Z_scope.
#[local] Open Scope list_scope.

(** [languages/helpers.py]: [remove_non_ascii]. *)
Fixpoint remove_non_ascii (s : string) : string :=
  match s with
  | EmptyString => EmptyString
  | String c s' =>
      if ((31 <? N_of_ascii c) && (N_of_ascii c <? 127))%N then String c (remove_non_ascii s')
      else remove_non_ascii s'
  end.

Definition ESC : ascii := "027"%char.
Definition START_PARTIAL : string := String ESC "[0;41m".
Definition END_PARTIAL : string := String ESC "[0m".
Definition NAME_COLOR : string := String ESC (String ESC "[0;36m").

Definition first_line_endings : list string :=
  [".h:"; ".m:"; ".swift:"; ".hpp:"; ".cpp:"; ".cxx:"; ".c:"; ".C:"; ".cc:"; ".cxx:"; ".c++:"].
Definition filename_endings : list string :=
  ["app.coverage.txt"; "framework.coverage.txt"; "xctest.coverage.txt"].

Definition matches_content (first_line name : string) : bool :=
  existsb (fun e => endswith e name) filename_endings || existsb (fun e => endswith e first_line) first_line_endings.

(** [s.find(sub)] *)
Definition find (sub s : string) : Z :=
  match partition sub s with Some (p, _) => Z.of_nat (String.length p) | None => -1 end.

(** [get_partials_in_line]: each round removes a marker, so the length of the
    line is enough. *)
Fixpoint partials_from (fuel : nat) (line : string) : list partial :=
  match fuel with
  | O => []
  | S fuel' =>
      if str_contains START_PARTIAL line && str_contains END_PARTIAL line then
        let sc := find START_PARTIAL line in
        let line := lstrip_chars (String ESC "") (str_replace1 START_PARTIAL "" line) in
        let trimmed := lstrip line in
        let offset := Z.of_nat (String.length line) - Z.of_nat (String.length trimmed) in
        let ec := find END_PARTIAL trimmed in
        Partial (Some (sc + offset)) (Some (ec + offset)) 0 ::
        partials_from fuel' (str_replace1 END_PARTIAL "" trimmed)
      else []
  end.

Definition get_partials_in_line (line : string) : option (list partial) :=
  if str_contains START_PARTIAL line then Some (partials_from (S (String.length line)) line) else None.

(** [int(f)] of a product that may have overflowed to an infinity. *)
Definition int_of_product (f : b64) : result Z :=
  if 2 ^ 1024 * fden f <=? fnum f then Err OverflowError else Ok (Z_of_f f).

Definition f1000 : b64 := rnd false 1000 1.

(** The hits of a line: a bad count is one hit. *)
Definition count_of (cov_s : string) : result Z :=
  catch
    (if str_contains "k" cov_s || str_contains "K" cov_s then
       f ← float_of_text (str_replace "k" "" cov_s);
       z ← int_of_product (f_mul f f1000);
       maxint (str_of_Z z)
     else if str_contains "m" cov_s || str_contains "M" cov_s then Ok 99999
     else f ← float_of_text cov_s; maxint (str_of_Z (Z_of_f f)))
    (Ok 1).

(** The local variables of the loop; [swapped] is [(ln_i, cov_i) = (0, 1)]. *)
Record xcode_state : Type := mkXcode { _file : option ReportFile.t; swapped : bool }.

(** [s.strip(" ")] *)
Definition strip_blanks (s : string) : string := rstrip_chars " " (lstrip_chars " " s).

Definition first_in (s cs : string) : bool :=
  match s with String c _ => char_in c cs | EmptyString => false end.

Section xcode.
Context `{OrJson}.
Variable cwd : string.

(** The number of a line, [None] for a bad line; the first bad line with a [1] first
    swaps the columns. *)
Definition line_number (parts : list string) (swap : bool) : option (Z * bool) :=
  match int_of_str (strip (default "" (parts !! (if swap then 0%nat else 1%nat)))) with
  | Ok n => Some (n, swap)
  | Err _ => if bool_decide (parts !! 0%nat = Some "1") then Some (1, true) else None
  end.

Definition record (s : ReportBuilderSession) (f : ReportFile.t) (swap : bool) (parts : list string)
    : result (ReportFile.t * bool) :=
  if match parts with _ :: _ :: src :: _ => bool_decide (strip src = "}") | _ => false end then Ok (f, swap)
  else
    match line_number parts swap with
    | None => Ok (f, swap)
    | Some (n, swap) =>
        match parts !! 2%nat with
        | None => Err IndexError
        | Some src =>
            match (if bool_decide (src = "") then None else get_partials_in_line src) with
            | Some (p :: ps) =>
                f' ← add_line f n (create_coverage_line s (CInt 0) None (Some (p :: ps)) None CxNone);
                Ok (f', swap)
            | _ =>
                let cov_s := strip (str_replace "E" "" (default "" (parts !! (if swap then 1%nat else 0%nat)))) in
                if bool_decide (cov_s = "") then Ok (f, swap)
                else
                  cov ← count_of cov_s;
                  f' ← catch (append_line s f n (CInt cov)) (Ok f);
                  Ok (f', swap)
            end
        end
    end.

Definition clean_line (encoded_line : string) : result string :=
  line ← decode_replace encoded_line; Ok (strip_blanks (remove_non_ascii line)).

Definition line_step (st : ReportBuilderSession * xcode_state) (encoded_line : string)
    : result (ReportBuilderSession * xcode_state) :=
  let '(s, x) := st in
  line ← clean_line encoded_line;
  if first_in line "-|w" || bool_decide (line = "") then Ok (s, x)
  else
    let line := str_replace NAME_COLOR "" line in
    if endswith ":" line && negb (str_contains "|" line) then
      s ← append_if s (_file x);
      '(o, s) ← create_coverage_file cwd s (str_init 1 (str_drop 1 (str_replace END_PARTIAL "" line))) true;
      Ok (s, mkXcode o (swapped x))
    else
      match _file x with
      | None => Ok (s, x)
      | Some f =>
          let parts := split "|" line in
          if (1 <? length parts)%nat then
            '(f, swap) ← record s f (swapped x) parts; Ok (s, mkXcode (Some f) swap)
          else Ok (s, x)
      end.

Definition from_txt (content : string) (s : ReportBuilderSession) : result ReportBuilderSession :=
  '(s, x) ← foldM line_step (s, mkXcode None false) (bytes_lines content);
  append_if s (_file x).
End xcode.

(** ** Properties *)

(** The control characters are gone from a cleaned line. *)
Lemma remove_non_ascii_clean s : without ESC (remove_non_ascii s) = true.
Proof.
  unfold without. induction s as [|c s IH]; [done|]. cbn [remove_non_ascii].
  destruct ((31 <? N_of_ascii c) && (N_of_ascii c <? 127))%N eqn:E; [|done].
  cbn [str_forallb]. rewrite IH, andb_true_r. apply negb_true_iff, bool_decide_eq_false. by intros <-.
Qed.

Lemma without_partition c sep s :
  without c s = true -> without c sep = false -> partition sep s = None.
Proof.
  intros Hs Hsep. destruct (partition sep s) as [[p r]|] eqn:E; [|done].
  apply partition_spec in E. subst s. rewrite !without_app, Hsep in Hs. by rewrite andb_false_r in Hs.
Qed.

Lemma without_rstrip_chars c cs s : without c s = true -> without c (rstrip_chars cs s) = true.
Proof.
  induction s as [|c' s IH]; [done|]. cbn [rstrip_chars]. intros H.
  unfold without in *. cbn in H. apply andb_true_iff in H as [Hc H]. specialize (IH H).
  destruct (rstrip_chars cs s); [destruct (char_in c' cs); [done|]|]; cbn; by rewrite Hc.
Qed.

Lemma without_lstrip_chars c cs s : without c s = true -> without c (lstrip_chars cs s) = true.
Proof.
  induction s as [|c' s IH]; [done|]. cbn [lstrip_chars]. intros H. destruct (char_in c' cs); [|done].
  apply IH. unfold without in *. cbn in H. by apply andb_true_iff in H as [_ H].
Qed.

Lemma clean_line_no_escape l line : clean_line l = Ok line -> without ESC line = true.
Proof.
  unfold clean_line. intros (t & _ & [= <-])%bind_Ok_inv. unfold strip_blanks.
  apply without_rstrip_chars, without_lstrip_chars, remove_non_ascii_clean.
Qed.

(** The markers of uncovered columns are searched in a text they were removed from:
    no line of a listing has any, nor has any part of one. *)
Theorem xcode_no_partials l line parts src :
  clean_line l = Ok line -> parts = split "|" line -> src ∈ parts -> get_partials_in_line src = None.
Proof.
  intros Hl -> Hin. apply clean_line_no_escape in Hl.
  enough (Hw : Forall (fun p => without ESC p = true) (split "|" line)).
  { rewrite Forall_forall in Hw. unfold get_partials_in_line, str_contains.
    by rewrite (without_partition ESC _ src) by auto. }
  clear Hin. unfold split.
  enough (H : forall n, without ESC (split_go "|" n line).1 = true /\
    Forall (fun p => without ESC p = true) (split_go "|" n line).2).
  { destruct (H O) as [H1 H2]. destruct (split_go "|" 0 line) as [p r]. by constructor. }
  induction line as [|c line IH]; intros n; [done|].
  unfold without in Hl. cbn in Hl. apply andb_true_iff in Hl as [Hc Hl]. specialize (IH Hl).
  cbn [split_go]. destruct n as [|n]; [|apply IH]. destruct (String.prefix "|" (String c line)).
  - destruct (IH (String.length "|" - 1)%nat) as [H1 H2]. destruct (split_go _ _ line) as [p r].
    cbn in *. split; [done | by constructor].
  - destruct (IH O) as [H1 H2]. destruct (split_go _ _ line) as [p r]. split; [|done].
    unfold without in *. cbn in *. by rewrite Hc.
Qed.

(** A line with two columns and a number raises. *)
Example xcode_two_columns :
  from_txt (H := codec) "/w" ("/a/b.m:" +:+ nl +:+ "1|2") example_builder_session = Err IndexError.
Proof. vm_compute. reflexivity. Qed.

(** A count with a capital [K] is read as one hit. *)
Example xcode_capital_K : count_of "1.2k" = Ok 1200 /\ count_of "1.2K" = Ok 1.
Proof. split; vm_compute; reflexivity. Qed.

(** The first letter of a relative file name is lost. *)
Example xcode_relative_name :
  (r ← from_txt (H := codec) "/w" ("src/b.m:" +:+ nl +:+ "1|2|x") example_builder_session;
   Ok (od_keys (Report.r_files (_report r)))) = Ok ["rc/b.m"].
Proof. vm_compute. reflexivity. Qed.
