(* ===== verification/Node.v ===== *)
(** * [worker/services/report/languages]: the Node and Xcode property list formats

    Istanbul and its relatives ([node.py]) list statements, branches and
    functions with their locations and, apart, how often each ran.  A property
    list of Xcode ([xcodeplist.py]) is an archive: a list of objects that refer
    to each other by number.

    Partial coverage of a line is a fraction in [node.py] when the configuration
    asks for partials and in the partials of JSCoverage documents, for which the
    ranges of a line have no room: those inputs are [Unmodelled]. *)
From S2P Require Import JsonCodec.
From S2P Require Export JsonFormats.
#[local] Open Scope string_scope.
#[local] Open Scope Z_scope.
#[local] Open Scope list_scope.

(** [v[i]] with an [int] subscript; the keys of a JSON dictionary are strings. *)
Definition index_item (v : pyval) (i : Z) : result pyval :=
  match v with
  | VList l => match Report.py_index i l with Some x => Ok x | None => Err IndexError end
  | VStr s =>
      match Report.py_index i (String.list_ascii_of_string s) with
      | Some c => Ok (VStr (String c "")) | None => Err IndexError end
  | VDict _ => Err KeyError
  | VNone | VBool _ | VInt _ | VFloat _ => Err TypeError
  end.

(** [v[1:]]; a dictionary cannot be sliced, with an exception that depends on the version. *)
Definition tail_of_val (v : pyval) : result (list pyval) :=
  match v with
  | VList l => Ok (tail l)
  | VStr s => Ok ((fun c => VStr (String c "")) <$> tail (String.list_ascii_of_string s))
  | VDict _ => Err Unmodelled
  | VNone | VBool _ | VInt _ | VFloat _ => Err TypeError
  end.

Module Node.
Section node.
Context `{OrJson}.
Variable cwd : string.

Definition matches_content (v : pyval) : bool :=
  match v with VDict d => forallb is_dict (od_vals d) | _ => false end.

(** [must_be_dict(v).items()] *)
Definition must_be_dict (v : pyval) : odict string pyval :=
  match v with VDict d => d | _ => [] end.

(** [v.get("skip") is True] *)
Definition skipped (v : pyval) : result bool :=
  w ← dict_get v "skip" VNone; Ok (bool_decide (w = VBool true)).

Definition _location_to_int (location : pyval) : result (option Z) :=
  has_loc ← py_in "loc" location;
  location ← (if (has_loc : bool) then get_item location "loc" else Ok location);
  skip ← dict_get location "skip" VNone;
  if truthy skip then Ok None
  else
    start ← get_item location "start";
    l ← dict_get start "line" (VInt 0);
    if py_eqb l (VInt 0) then Ok None
    else
      l ← get_item start "line";
      n ← int_of_val l; Ok (Some n).

(** [_file.append(ln, session.create_coverage_line(cov, type))], on a file that may be
    missing: the attribute is looked up before the arguments are evaluated. *)
Definition append_to (s : ReportBuilderSession) (o : option ReportFile.t) (ln : result Z) (c : result cov)
    (ty : option CoverageType) : result (option ReportFile.t) :=
  match o with
  | None => Err AttributeError
  | Some f =>
      ln ← ln; c ← c;
      f ← add_line f ln (create_coverage_line s c ty None None CxNone); Ok (Some f)
  end.

(** One location of a statement, branch or function, with its count. *)
Definition location_step (s : ReportBuilderSession) (ty : option CoverageType) (o : option ReportFile.t)
    (location : pyval) (count : result pyval) : result (option ReportFile.t) :=
  ln ← _location_to_int location;
  match ln with
  | Some n => if n =? 0 then Ok o else append_to s o (Ok n) (count ≫= cov_of_val) ty
  | None => Ok o
  end.

Definition statement_step (data : pyval) (s : ReportBuilderSession) (o : option ReportFile.t)
    (e : string * pyval) : result (option ReportFile.t) :=
  skip ← skipped e.2;
  if (skip : bool) then Ok o
  else location_step s None o e.2 (counts ← get_item data "s"; get_item counts e.1).

Definition branch_step (data : pyval) (s : ReportBuilderSession) (o : option ReportFile.t)
    (e : string * pyval) : result (option ReportFile.t) :=
  skip ← skipped e.2;
  if (skip : bool) then Ok o
  else
    locations ← get_item e.2 "locations"; locations ← iter locations;
    foldM (fun o l => location_step s (Some branch) o l.2
                        (counts ← get_item data "b"; counts ← get_item counts e.1; index_item counts l.1))
      o (enumerate 0 locations).

Definition function_step (data : pyval) (s : ReportBuilderSession) (o : option ReportFile.t)
    (e : string * pyval) : result (option ReportFile.t) :=
  skip ← skipped e.2;
  if (skip : bool) then Ok o
  else
    loc ← get_item e.2 "loc";
    location_step s (Some method) o loc (counts ← get_item data "f"; get_item counts e.1).

(** The branches of a line: a lazy [map], which is always true; its elements are
    evaluated when it is made a list. *)
Definition jscoverage_step (s : ReportBuilderSession) (branches : odict string (list pyval))
    (o : option ReportFile.t) (e : Z * pyval) : result (option ReportFile.t) :=
  match e.2 with
  | VNone => Ok o
  | coverage =>
      match od_get (str_of_Z e.1) branches with
      | None => append_to s o (Ok e.1) (cov_of_val coverage) (Some line)
      | Some [] =>
          match o with
          | None => Err AttributeError
          | Some f =>
              f ← add_line f e.1 (create_coverage_line s (partials_to_line []) (Some line) (Some []) None CxNone);
              Ok (Some f)
          end
      | Some (_ :: _) => Err Unmodelled
      end
  end.

Definition jscoverage (data : pyval) (s : ReportBuilderSession) (o : option ReportFile.t) : result (option ReportFile.t) :=
  v ← get_item data "branchData";
  branches ← traverse (fun e => t ← tail_of_val e.2; Ok (e.1, t)) (must_be_dict v);
  l ← get_item data "lineData"; l ← iter l;
  foldM (jscoverage_step s branches) o (enumerate 0 l).

Definition covered_step (s : ReportBuilderSession) (o : option ReportFile.t) (e : string * pyval)
    : result (option ReportFile.t) :=
  append_to s o (int_of_str e.1) (cov_of_val e.2) None.

(** The lines of a file, in the three layouts. *)
Definition file_lines (data : pyval) (s : ReportBuilderSession) (o : option ReportFile.t) : result (option ReportFile.t) :=
  lined ← py_in "lineData" data;
  if (lined : bool) then jscoverage data s o
  else
    covered ← py_in "linesCovered" data;
    if (covered : bool) then
      v ← get_item data "linesCovered"; d ← items v; foldM (covered_step s) o d
    else
      v ← dict_get data "statementMap" VNone;
      o ← foldM (statement_step data s) o (must_be_dict v);
      v ← dict_get data "branchMap" VNone;
      o ← foldM (branch_step data s) o (must_be_dict v);
      v ← dict_get data "fnMap" VNone;
      foldM (function_step data s) o (must_be_dict v).

(** [path_fixer(filename) or path_fixer(filename.replace("lib/", "src/", 1))] *)
Definition fix_or_src (s : ReportBuilderSession) (filename : string) : result (option string * ReportBuilderSession) :=
  '(o, s) ← Dlst.fix_in cwd s filename;
  match Dlst.truthy_name o with
  | Some n => Ok (Some n, s)
  | None => Dlst.fix_in cwd s (str_replace1 "lib/" "src/" filename)
  end.

(** [data["data"] if data.get("data") else data]. *)
Definition unwrap (data : pyval) : result pyval :=
  w ← dict_get data "data" VNone; Ok (if truthy w then w else data).

Definition file_step (s : ReportBuilderSession) (e : string * pyval) : result ReportBuilderSession :=
  '(o, s) ← fix_or_src s e.1;
  match o with
  | None => Ok s
  | Some filename =>
      '(f, s) ← create_coverage_file cwd s filename false;
      data ← unwrap e.2;
      f ← file_lines data s f;
      append_if s f
  end.

(** With [enable_partials], a document whose first file is JavaScript goes to
    [next_from_json]. *)
Definition wants_partials (s : ReportBuilderSession) (d : odict string pyval) : result bool :=
  v ← yaml_field s ["parsers"; "javascript"; "enable_partials"] (VBool false);
  if truthy v then
    match d with (name, _) :: _ => Ok (endswith ".js" name) | [] => Err StopIteration end
  else Ok false.

Definition from_json (report_dict : pyval) (s : ReportBuilderSession) : result ReportBuilderSession :=
  d ← items report_dict;
  p ← wants_partials s d;
  if (p : bool) then Err Unmodelled else foldM file_step s d.
End node.
End Node.

(** [plistlib.loads]: the reader of property lists. *)
Class PropertyList : Type := { plist_loads : string -> result pyval }.

Module XcodePlist.
Section plist.
Context `{OrJson, PropertyList}.
Variable cwd : string.

Definition plist_tag : string := "<plist version=" +:+ String "034"%char ("1.0" +:+ String "034"%char ">").

Definition matches_content (content name : string) : bool :=
  if bool_decide (name = "") then str_contains plist_tag content && startswith "<?xml" content
  else endswith "xccoverage.plist" name.

(** [objects[v["CF$UID"]]] *)
Definition deref (objects v : pyval) : result pyval :=
  k ← get_item v "CF$UID"; i ← int_key k; index_item objects i.

(** [objects[objects[v]["k"]]["NS.objects"]], the elements of a list that is an object. *)
Definition elements_of (objects v : pyval) : result (list pyval) :=
  o ← deref objects v; l ← get_item o "NS.objects"; iter l.

(** A number of the archive: an integer or a boolean; other numbers are not modelled. *)
Definition number (v : pyval) : result Z :=
  match v with
  | VInt z => Ok z
  | VBool b => Ok (Z.b2z b)
  | VFloat _ | VStr _ | VList _ => Err Unmodelled
  | VNone | VDict _ => Err TypeError
  end.

(** A range of a line and whether it ran; the ends of methods have length two. *)
Definition branch_step (objects : pyval) (st : list partial * Z) (v : pyval) : result (list partial * Z) :=
  let '(partials, hits) := st in
  b ← deref objects v;
  len ← get_item b "len";
  if py_eqb len (VInt 2) then Ok st
  else
    c ← get_item b "c"; c ← number c; len ← number len;
    x ← get_item b "x"; x ← number x;
    Ok (partials ++ [Partial (Some c) (Some (c + len)) x], if 0 <? x then hits + 1 else hits).

Definition line_coverage (objects l : pyval) : result (cov * option (list partial)) :=
  s ← get_item l "s"; uid ← get_item s "CF$UID";
  if py_eqb uid (VInt 0) then
    c ← get_item l "c"; c ← cov_of_val c; Ok (c, None)
  else
    bs ← elements_of objects s;
    '(partials, hits) ← foldM (branch_step objects) ([], 0) bs;
    Ok (CStr (frac_str hits (Z.of_nat (length partials))), Some partials).

Definition line_type_of (partials : option (list partial)) : CoverageType :=
  match partials with Some (_ :: _) => branch | _ => line end.

Definition line_step (objects : pyval) (s : ReportBuilderSession) (f : ReportFile.t) (e : Z * pyval) : result ReportFile.t :=
  l ← deref objects e.2;
  x ← get_item l "x";
  if bool_decide (x = VBool false) then Ok f
  else
    '(c, partials) ← line_coverage objects l;
    add_line f e.1 (create_coverage_line s c (Some (line_type_of partials)) partials None CxNone).

Definition source_step (objects : pyval) (s : ReportBuilderSession) (sourceFile : pyval) : result ReportBuilderSession :=
  source ← deref objects sourceFile;
  location ← get_item source "documentLocation";
  filename ← deref objects location; filename ← as_str filename;
  '(o, s) ← create_coverage_file cwd s filename true;
  match o with
  | None => Ok s
  | Some f =>
      ls ← get_item source "lines"; ls ← elements_of objects ls;
      f ← foldM (line_step objects s) f (enumerate 1 ls);
      append_file s f
  end.

Definition object_step (objects : pyval) (s : ReportBuilderSession) (obj : pyval) : result ReportBuilderSession :=
  o ← deref objects obj;
  files ← get_item o "sourceFiles"; files ← elements_of objects files;
  foldM (source_step objects) s files.

Definition from_xml (xml : string) (s : ReportBuilderSession) : result ReportBuilderSession :=
  doc ← plist_loads xml;
  objects ← get_item doc "$objects";
  o ← index_item objects 2;
  objs ← get_item o "NS.objects"; objs ← iter objs;
  foldM (object_step objects) s objs.
End plist.
End XcodePlist.

(** A document of Istanbul: two statements on a line, and a branch. *)
Definition example_document : pyval :=
  let at_line n := VDict [("start", VDict [("line", VInt n)])] in
  VDict [("lib/a.js", VDict [
    ("statementMap", VDict [("1", at_line 3); ("2", at_line 3)]); ("s", VDict [("1", VInt 0); ("2", VInt 4)]);
    ("branchMap", VDict [("1", VDict [("locations", VList [at_line 5; at_line 5])])]);
    ("b", VDict [("1", VList [VInt 2; VInt 0])])])].

Example node_document :
  (s ← Node.from_json (H := codec) "/" example_document example_builder_session;
   match Report.get (_report s) "lib/a.js" with
   | Some f => ls ← ReportFile.lines (H := codec) f; Ok ((fun l => (l.1, rl_coverage l.2, rl_type l.2)) <$> ls)
   | None => Err KeyError
   end) = Ok [(3, CInt 4, None); (5, CInt 2, Some "b")].
Proof. vm_compute. reflexivity. Qed.
