(* ===== verification/Xml.v ===== *)
(** * XML documents, and [worker/services/report/languages/helpers.py]

    The XML parsers read a document through the element interface of [lxml],
    which is not part of the repository: [Etree] is what they use of it.  [tree]
    is an element tree of one's own that implements it; [node] is an element of
    a tree with the elements around it.  The dates of documents are read by
    [timestring], another package, whose interface is [Timestring]. *)
From S2P Require Export BuilderInv.
#[local] Open Scope string_scope.
#[local] Open Scope Z_scope.
#[local] Open Scope list_scope.

(** [iter t e]: the elements with the tag [t] among [e] and what is below it, in document
    order; [iterfind t e]: the children of [e] with the tag; [iterancestors e]: the
    elements [e] is in, from its parent up. *)
Class Etree : Type := {
  elem : Type;
  tag : elem -> string;
  attrib : elem -> odict string string;
  text : elem -> option string;
  iterancestors : elem -> list elem;
  iter : string -> elem -> list elem;
  iterfind : string -> elem -> list elem;
}.

(** [timestring.Date(text)], and its comparison with a value of the configuration. *)
Class Timestring : Type := {
  date : Type;
  Date : option string -> result date;
  date_ltb : date -> pyval -> result bool;
}.

Section helpers.
Context `{Etree}.

(** [e.attrib[k]], [e.attrib.get(k)], [e.attrib.get(k, d)]. *)
Definition attr (e : elem) (k : string) : result string :=
  match od_get k (attrib e) with Some v => Ok v | None => Err KeyError end.
Definition attr_get (e : elem) (k : string) : option string := od_get k (attrib e).
Definition attr_or (e : elem) (k d : string) : string := default d (attr_get e k).

(** [int(e.attrib[k])]. *)
Definition int_attr (e : elem) (k : string) : result Z := v ← attr e k; int_of_str v.

(** [int(v)] of an attribute that may be missing. *)
Definition int_opt (o : option string) : result Z :=
  match o with Some v => int_of_str v | None => Err TypeError end.

(** [int(v or 0)]. *)
Definition int_or_0 (o : option string) : result Z :=
  match o with Some v => if bool_decide (v = "") then Ok 0 else int_of_str v | None => Ok 0 end.

Definition find_child (t : string) (e : elem) : option elem := head (iterfind t e).

Definition child_text (parent : elem) (element : string) : string :=
  match find_child element parent with None => "" | Some child => default "" (text child) end.

(** The loop of a test of age: the document is refused when its date is before the oldest
    date the configuration accepts. *)
Definition max_report_age (s : ReportBuilderSession) : result pyval :=
  yaml_field s ["codecov"; "max_report_age"] (VStr "12h ago").

Definition check_age `{Timestring} (max_age : pyval) (timestamp : option string) : result unit :=
  match timestamp with
  | Some t =>
      if bool_decide (t = "") then Ok tt
      else
        d ← Date timestamp; old ← date_ltb d max_age;
        if (old : bool) then Err ReportExpiredException else Ok tt
  | None => Ok tt
  end.
End helpers.

(** Files by a key of the document; [add_to] is [_file.append] through the entry. *)
Section files.
Context `{OrJson}.

Definition add_to (files : odict string ReportFile.t) (k : string) (f : ReportFile.t) (ln : Z) (l : ReportLine)
    : result (odict string ReportFile.t) :=
  f' ← add_line f ln l; Ok (od_set k f' files).

(** [for _file in files.values(): session.append(_file)]. *)
Definition append_all (s : ReportBuilderSession) (files : odict string ReportFile.t) : result ReportBuilderSession :=
  foldM append_file s (od_vals files).
Definition append_some (s : ReportBuilderSession) (files : odict string (option ReportFile.t))
    : result ReportBuilderSession :=
  foldM append_if s (od_vals files).

(** The file of a name, made the first time the name is met. *)
Definition file_for (cwd : string) (s : ReportBuilderSession) (files : odict string (option ReportFile.t))
    (name : string) : result (ReportBuilderSession * odict string (option ReportFile.t) * option ReportFile.t) :=
  match od_get name files with
  | Some o => Ok (s, files, o)
  | None => '(o, s) ← create_coverage_file cwd s name true; Ok (s, od_set name o files, o)
  end.
End files.

(** ** An element tree *)

Inductive tree : Type :=
  | Tree (t_tag : string) (t_attrib : list (string * string)) (t_text : option string) (t_children : list tree).

Definition t_tag (t : tree) : string := let 'Tree g _ _ _ := t in g.
Definition t_attrib (t : tree) : list (string * string) := let 'Tree _ a _ _ := t in a.
Definition t_text (t : tree) : option string := let 'Tree _ _ x _ := t in x.
Definition t_children (t : tree) : list tree := let 'Tree _ _ _ c := t in c.

(** An element and the elements it is in, from the nearest. *)
Record node : Type := mkNode { n_tree : tree; n_above : list tree }.

Fixpoint n_ancestors (above : list tree) : list node :=
  match above with [] => [] | t :: above' => mkNode t above' :: n_ancestors above' end.

Fixpoint below (above : list tree) (t : tree) : list node :=
  let 'Tree _ _ _ cs := t in mkNode t above :: flat_map (below (t :: above)) cs.

Definition n_iter (g : string) (n : node) : list node :=
  filter (fun m => t_tag (n_tree m) = g) (below (n_above n) (n_tree n)).

Definition n_iterfind (g : string) (n : node) : list node :=
  filter (fun m => t_tag (n_tree m) = g) ((fun t => mkNode t (n_tree n :: n_above n)) <$> t_children (n_tree n)).

Definition tree_etree : Etree := {|
  elem := node;
  tag n := t_tag (n_tree n);
  attrib n := t_attrib (n_tree n);
  text n := t_text (n_tree n);
  iterancestors n := n_ancestors (n_above n);
  iter := n_iter;
  iterfind := n_iterfind;
|}.

Definition document (t : tree) : node := mkNode t [].

(** Dates that are numbers, for examples: older than a number of the configuration. *)
Definition number_dates : Timestring := {|
  date := Z;
  Date o := match o with Some t => catch (int_of_str t) (Err TimestringInvalid) | None => Err TimestringInvalid end;
  date_ltb d v := match v with VInt z => Ok (d <? z) | _ => Ok false end;
|}.

(** ** Lemmas *)

Lemma iter_tree g t above :
  n_iter g (mkNode t above) =
  (if decide (t_tag t = g) then [mkNode t above] else []) ++
  flat_map (fun c => n_iter g (mkNode c (t :: above))) (t_children t).
Proof.
  destruct t as [g' a x cs]. unfold n_iter. cbn [n_tree n_above t_tag t_children below].
  assert (E : filter (fun m => t_tag (n_tree m) = g) (flat_map (below (Tree g' a x cs :: above)) cs) =
    flat_map (fun c => filter (fun m => t_tag (n_tree m) = g) (below (Tree g' a x cs :: above) c)) cs).
  { generalize (below (Tree g' a x cs :: above)). intros f. induction cs as [|c cs IH]; [done|].
    cbn [flat_map]. by rewrite filter_app, IH. }
  case_decide; [by rewrite filter_cons_True, E | by rewrite filter_cons_False, E].
Qed.

(** Children that are, or have below them, one element of the tag each. *)
Lemma flat_map_single {A B} (f : A -> list B) (h : A -> B) l :
  (forall x, x ∈ l -> f x = [h x]) -> flat_map f l = h <$> l.
Proof.
  intros E. induction l as [|x l IH]; [done|]. cbn. rewrite E by left. cbn. f_equal. apply IH. intros. apply E. by right.
Qed.
Lemma flat_map_none {A B} (f : A -> list B) l : (forall x, x ∈ l -> f x = []) -> flat_map f l = [].
Proof.
  intros E. induction l as [|x l IH]; [done|]. cbn. rewrite E by left. apply IH. intros. apply E. by right.
Qed.
Lemma flat_map_fmap {A B C} (f : B -> list C) (h : A -> B) l : flat_map f (h <$> l) = flat_map (fun x => f (h x)) l.
Proof. induction l as [|x l IH]; [done|]. cbn. by f_equal. Qed.

(** An element without children. *)
Definition leaf_tree (g : string) (a : list (string * string)) : tree := Tree g a None [].

Lemma iter_leaf g g' a above :
  n_iter g (mkNode (leaf_tree g' a) above) = if decide (g' = g) then [mkNode (leaf_tree g' a) above] else [].
Proof. rewrite iter_tree. cbn. by rewrite app_nil_r. Qed.

(** The elements below one with another tag. *)
Lemma iter_below g t above :
  t_tag t <> g -> n_iter g (mkNode t above) = flat_map (fun c => n_iter g (mkNode c (t :: above))) (t_children t).
Proof. intros Hg. rewrite iter_tree. by rewrite decide_False. Qed.

Lemma iter_leaf_ne g g' a above : g' <> g -> n_iter g (mkNode (leaf_tree g' a) above) = [].
Proof. intros Hg. rewrite iter_leaf. by rewrite decide_False. Qed.

(** The children of a parent that are leaves of the tag, or are not. *)
Lemma iter_leaves {A} g (h : A -> list (string * string)) l above :
  flat_map (fun c => n_iter g (mkNode c above)) ((fun e => leaf_tree g (h e)) <$> l) =
  (fun e => mkNode (leaf_tree g (h e)) above) <$> l.
Proof.
  rewrite flat_map_fmap. apply flat_map_single. intros e _. rewrite iter_leaf. by rewrite decide_True.
Qed.
Lemma iter_no_leaves {A} g g' (h : A -> list (string * string)) l above :
  g' <> g -> flat_map (fun c => n_iter g (mkNode c above)) ((fun e => leaf_tree g' (h e)) <$> l) = [].
Proof. intros Hg. rewrite flat_map_fmap. apply flat_map_none. intros e _. by apply iter_leaf_ne. Qed.
