(* ===== verification/XmlFormats.v ===== *)
(** * [worker/services/report/languages]: the small XML formats

    A module per parser: Mono, SCoverage, the two formats of Visual Studio,
    JetBrains, OpenCover and Bullseye.  A parser that keeps its files in a
    dictionary and appends them at the end has the dictionary as its state. *)
From S2P Require Import JsonCodec.
From S2P Require Export Xml.
#[local] Open Scope string_scope.
#[local] Open Scope Z_scope.
#[local] Open Scope list_scope.

(** The state of a loop over the entries of a dictionary of files that may be [None]. *)
Definition files_state : Type := ReportBuilderSession * odict string (option ReportFile.t).

(** [s.replace("\\", "/")]. *)
Definition slashes (s : string) : string := str_replace "\" "/" s.

Module Mono.
Section mono.
Context `{OrJson, Etree}.
Variable cwd : string.

Definition matches_content (e : elem) : bool :=
  String.eqb (tag e) "coverage" && bool_decide (is_Some (find_child "assembly" e)).

Definition statement_step (s : ReportBuilderSession) (f : ReportFile.t) (line : elem) : result ReportFile.t :=
  coverage ← int_attr line "counter";
  ln ← int_attr line "line";
  append_line s f ln (CInt coverage).

Definition method_step (st : files_state) (method : elem) : result files_state :=
  let '(s, files) := st in
  filename ← attr method "filename";
  '(s, files, o) ← file_for cwd s files filename;
  match o with
  | None => Ok (s, files)
  | Some f =>
      f ← foldM (statement_step s) f (iter "statement" method);
      Ok (s, od_set filename (Some f) files)
  end.

Definition from_xml (xml : elem) (s : ReportBuilderSession) : result ReportBuilderSession :=
  '(s, files) ← foldM method_step (s, []) (iter "method" xml);
  append_some s files.
End mono.
End Mono.

Module SCoverage.
Section scoverage.
Context `{OrJson, Etree}.
Variable cwd : string.

Definition matches_content (e : elem) : bool := String.eqb (tag e) "statements".

Definition statement_line (s : ReportBuilderSession) (f : ReportFile.t) (statement : elem) : result ReportFile.t :=
  ln ← int_of_str (child_text statement "line");
  let hits := child_text statement "count" in
  if String.eqb (child_text statement "ignored") "true" then Ok f
  else if String.eqb (child_text statement "branch") "true" then
    add_line f ln (create_coverage_line s (CStr (hits +:+ "/2")) (Some branch) None None CxNone)
  else
    cov ← maxint hits;
    append_line s f ln (CInt cov).

Definition statement_step (st : files_state) (statement : elem) : result files_state :=
  let '(s, files) := st in
  let filename := child_text statement "source" in
  '(s, files, o) ← file_for cwd s files filename;
  match o with
  | None => Ok (s, files)
  | Some f => f ← statement_line s f statement; Ok (s, od_set filename (Some f) files)
  end.

Definition from_xml (xml : elem) (s : ReportBuilderSession) : result ReportBuilderSession :=
  '(s, files) ← foldM statement_step (s, []) (iter "statement" xml);
  append_some s files.
End scoverage.
End SCoverage.

(** The state of the parsers whose dictionary holds only files. *)
Definition ids_state : Type := ReportBuilderSession * odict string ReportFile.t.

Section ids.
Context `{OrJson}.
Variable cwd : string.

(** The file of an identifier, if the fixer accepts its name. *)
Definition register (st : ids_state) (id name : string) : result ids_state :=
  let '(s, files) := st in
  '(o, s) ← create_coverage_file cwd s name true;
  Ok (s, match o with Some f => od_set id f files | None => files end).

(** The same coverage on every line from the first to the last. *)
Definition add_range (s : ReportBuilderSession) (f : ReportFile.t) (first last : Z) (c : cov) : result ReportFile.t :=
  foldM (fun f ln => append_line s f ln c) f (range first (last + 1)).
End ids.

Module Vb.
Section vb.
Context `{OrJson, Etree}.
Variable cwd : string.

Definition matches_content (e : elem) : bool := String.eqb (tag e) "results".

Definition source_step (st : ids_state) (sf : elem) : result ids_state :=
  path ← attr sf "path";
  '(o, s) ← create_coverage_file cwd st.1 (slashes path) true;
  match o with
  | None => Ok (s, st.2)
  | Some f => id ← attr sf "id"; Ok (s, od_set id f st.2)
  end.

Definition coverage_of (cov_txt : string) : cov :=
  if String.eqb cov_txt "yes" then CInt 1 else if String.eqb cov_txt "no" then CInt 0 else CBool true.

Definition range_step (s : ReportBuilderSession) (files : odict string ReportFile.t) (line : elem)
    : result (odict string ReportFile.t) :=
  id ← attr line "source_id";
  match od_get id files with
  | None => Ok files
  | Some f =>
      cov_txt ← attr line "covered";
      start_line ← int_attr line "start_line";
      end_line ← int_attr line "end_line";
      f ← add_range s f start_line end_line (coverage_of cov_txt);
      Ok (od_set id f files)
  end.

Definition module_step (st : ids_state) (module : elem) : result ids_state :=
  '(s, files) ← foldM source_step st (iter "source_file" module);
  files ← foldM (range_step s) files (iter "range" module);
  Ok (s, files).

Definition from_xml (xml : elem) (s : ReportBuilderSession) : result ReportBuilderSession :=
  '(s, files) ← foldM module_step (s, []) (iter "module" xml);
  append_all s files.
End vb.
End Vb.

Module VbTwo.
Section vb2.
Context `{OrJson, Etree}.
Variable cwd : string.

Definition matches_content (e : elem) : bool := String.eqb (tag e) "CoverageDSPriv".

Definition source_step (st : ids_state) (source : elem) : result ids_state :=
  register cwd st (child_text source "SourceFileID") (slashes (child_text source "SourceFileName")).

(** 0 is a hit, 1 a partial, 2 a miss. *)
Definition coverage_of (cov_txt : string) : cov :=
  if String.eqb cov_txt "0" then CInt 1 else if String.eqb cov_txt "2" then CInt 0 else CBool true.

Definition line_step (s : ReportBuilderSession) (files : odict string ReportFile.t) (line : elem)
    : result (odict string ReportFile.t) :=
  let id := child_text line "SourceFileID" in
  match od_get id files with
  | None => Ok files
  | Some f =>
      start_line ← int_of_str (child_text line "LnStart");
      end_line ← int_of_str (child_text line "LnEnd");
      f ← add_range s f start_line end_line (coverage_of (child_text line "Coverage"));
      Ok (od_set id f files)
  end.

Definition from_xml (xml : elem) (s : ReportBuilderSession) : result ReportBuilderSession :=
  '(s, files) ← foldM source_step (s, []) (iterfind "SourceFileNames" xml);
  files ← foldM (line_step s) files (iterfind "Lines" xml);
  append_all s files.
End vb2.
End VbTwo.

Module JetBrains.
Section jetbrains.
Context `{OrJson, Etree}.
Variable cwd : string.

Definition matches_content (e : elem) : bool := String.eqb (tag e) "Root".

Definition file_step (st : ids_state) (f : elem) : result ids_state :=
  name ← attr f "Name";
  '(o, s) ← create_coverage_file cwd st.1 (slashes name) true;
  match o with
  | None => Ok (s, st.2)
  | Some file => id ← attr f "Index"; Ok (s, od_set id file st.2)
  end.

Definition statement_step (s : ReportBuilderSession) (files : odict string ReportFile.t) (statement : elem)
    : result (odict string ReportFile.t) :=
  id ← attr statement "FileIndex";
  match od_get id files with
  | None => Ok files
  | Some f =>
      sl ← int_attr statement "Line";
      el ← int_attr statement "EndLine";
      sc ← int_attr statement "Column";
      ec ← int_attr statement "EndColumn";
      covered ← attr statement "Covered";
      let cov := if String.eqb covered "True" then 1 else 0 in
      f ← (if sl =? el then
             add_line f sl (create_coverage_line s (CInt cov) None (Some [Partial (Some sc) (Some ec) cov]) None CxNone)
           else append_line s f sl (CInt cov));
      Ok (od_set id f files)
  end.

Definition from_xml (xml : elem) (s : ReportBuilderSession) : result ReportBuilderSession :=
  '(s, files) ← foldM file_step (s, []) (iter "File" xml);
  files ← foldM (statement_step s) files (iter "Statement" xml);
  append_all s files.
End jetbrains.
End JetBrains.

Module CSharp.
Section csharp.
Context `{OrJson, Etree}.
Variable cwd : string.

Definition matches_content (e : elem) : bool := String.eqb (tag e) "CoverageSession".

(** The identifiers of the branches that were not visited, by line. *)
Definition branch_step (branches : odict Z (list string)) (b : elem) : result (odict Z (list string)) :=
  vc ← attr b "vc";
  if String.eqb vc "0" then
    match attr_get b "sl" with
    | None => Ok branches
    | Some sl =>
        n ← int_of_str sl;
        offset ← attr b "offset";
        let id := match attr_get b "offsetend" with Some offsetend => offset +:+ ":" +:+ offsetend | None => offset end in
        Ok (od_set n (default [] (od_get n branches) ++ [id]) branches)
    end
  else Ok branches.

Definition _build_branches (branch_gen : list elem) : result (odict Z (list string)) :=
  foldM branch_step [] branch_gen.

(** The coverage of a sequence point, and whether it is that of a branch. *)
Definition point_coverage (node : elem) : result (cov * CoverageType) :=
  vc ← int_opt (attr_get node "vc");
  match attr_get node "bec" with
  | Some bec =>
      if String.eqb bec "0" then Ok (CInt (if 0 <? vc then vc else 0), line)
      else Ok (CStr (default "None" (attr_get node "bev") +:+ "/" +:+ bec), branch)
  | None => Ok (CInt vc, line)
  end.

Definition point_lines (sl el : Z) : list Z := if sl <? el then range sl (el + 1) else [sl].

Definition point_step (s : ReportBuilderSession) (branches : odict Z (list string)) (f : ReportFile.t) (node : elem)
    : result ReportFile.t :=
  match attr_get node "sl", attr_get node "el" with
  | Some sl, Some el =>
      if bool_decide (sl = "") || bool_decide (el = "") then Ok f
      else
        sl ← int_of_str sl;
        el ← int_of_str el;
        '(coverage, coverage_type) ← point_coverage node;
        foldM (fun f ln =>
          add_line f ln (create_coverage_line s coverage (Some coverage_type) None
            (fmap (M := list) BrStr <$> od_get ln branches) CxNone)) f (point_lines sl el)
  | _, _ => Ok f
  end.

Definition file_step (st : ids_state) (f : elem) : result ids_state :=
  full ← attr f "fullPath";
  '(o, s) ← create_coverage_file cwd st.1 (slashes full) true;
  match o with
  | None => Ok (s, st.2)
  | Some file => uid ← attr f "uid"; Ok (s, od_set uid file st.2)
  end.

Definition method_step (s : ReportBuilderSession) (files : odict string ReportFile.t) (method : elem)
    : result (odict string ReportFile.t) :=
  match find_child "FileRef" method with
  | None => Ok files
  | Some fileref =>
      uid ← attr fileref "uid";
      match od_get uid files with
      | None => Ok files
      | Some f =>
          branches ← _build_branches (iter "BranchPoint" method);
          f ← foldM (point_step s branches) f (iter "SequencePoint" method);
          Ok (od_set uid f files)
      end
  end.

Definition from_xml (xml : elem) (s : ReportBuilderSession) : result ReportBuilderSession :=
  '(s, files) ← foldM file_step (s, []) (iter "File" xml);
  files ← foldM (method_step s) files (iter "Method" xml);
  append_all s files.
End csharp.
End CSharp.

Module Bullseye.
Definition folder_tag : string := "{https://www.bullseye.com/covxml}folder".
Definition src_tag : string := "{https://www.bullseye.com/covxml}src".
Definition fn_tag : string := "{https://www.bullseye.com/covxml}fn".
Definition probe_tag : string := "{https://www.bullseye.com/covxml}probe".

Section bullseye.
Context `{OrJson, Etree, Timestring}.
Variable cwd : string.

Definition matches_content (e : elem) : bool := str_contains "BullseyeCoverage" (tag e).

(** The date is what follows the first underscore of the build. *)
Definition check_build (s : ReportBuilderSession) (xml : elem) : result unit :=
  max_age ← max_report_age s;
  if truthy max_age then
    match attr_get xml "buildId" with
    | None => Err AttributeError
    | Some build_id => check_age max_age (Some (join " " (tail (split "_" build_id))))
    end
  else Ok tt.

(** The folders around a file, up to the first element that is not one. *)
Fixpoint folders (above : list elem) (filepath : string) : result string :=
  match above with
  | [] => Err AttributeError
  | p :: above' =>
      if String.eqb (tag p) folder_tag
      then folders above' (default "None" (attr_get p "name") +:+ "/" +:+ filepath)
      else Ok filepath
  end.

Definition probe_type (kind : string) : CoverageType :=
  if bool_decide (kind ∈ ["condition"; "decision"; "switch-label"]) then branch
  else if String.eqb kind "function" then method else line.

Definition probe_coverage (event : string) : cov :=
  if String.eqb event "full" then CInt 1 else if String.eqb event "none" then CInt 0 else CStr "1/2".

Definition probe_step (s : ReportBuilderSession) (f : ReportFile.t) (probe : elem) : result ReportFile.t :=
  ln ← int_attr probe "line";
  kind ← attr probe "kind";
  event ← attr probe "event";
  add_line f ln (create_coverage_line s (probe_coverage event) (Some (probe_type kind)) None None CxNone).

Definition src_step (s : ReportBuilderSession) (file : elem) : result ReportBuilderSession :=
  filepath ← folders (iterancestors file) "";
  name ← (match attr_get file "name" with Some n => Ok n | None => Err TypeError end);
  '(o, s) ← create_coverage_file cwd s (filepath +:+ name) true;
  match o with
  | None => Ok s
  | Some f =>
      f ← foldM (fun f fn => foldM (probe_step s) f (iter probe_tag fn)) f (iter fn_tag file);
      append_file s f
  end.

Definition from_xml (xml : elem) (s : ReportBuilderSession) : result ReportBuilderSession :=
  _ ← check_build s xml;
  foldM (fun s folder => foldM src_step s (iter src_tag folder)) s (iter folder_tag xml).
End bullseye.
End Bullseye.
