(* ===== verification/Cobertura.v ===== *)
(** * [worker/services/report/languages/cobertura.py]: Cobertura documents

    The classes of a document are added under their own names, which are fixed
    at the end: [resolve_paths] renames the files of the report.  A line has a
    count or the covered and all of its branches, and the branches that were
    missed. *)
From S2P Require Import JsonCodec.
From S2P Require Export PyRe PyDecimal Xml.
#[local] Open Scope string_scope.
#[local] Open Scope Z_scope.
#[local] Open Scope list_scope.

(** [int(value)], or [int(float(value))] when that is not the text of an integer. *)
Definition Int (value : option string) : result Z :=
  match value with
  | None => Err TypeError
  | Some v =>
      match int_of_str v with
      | Err ValueError => f ← float_of_text v; Ok (Z_of_f f)
      | r => r
      end
  end.

(** [re.compile(r"\(\d+\/\d+\)")] *)
Definition Digit : regex := Chr is_digit.
Definition ratio_regex : regex := Cats [Exact "("; Plus Digit; Exact "/"; Plus Digit; Exact ")"].

(** [s.split(" ", 1)[1][1:-1]] *)
Definition condition_ratio (condition_coverage : string) : result string :=
  match split1 " " condition_coverage with
  | [_; r] => Ok (str_drop 1 (str_init 1 r))
  | _ => Err IndexError
  end.

(** [coverage[0] == "0"] *)
Definition starts_with_0 (coverage : string) : result bool :=
  match coverage with EmptyString => Err IndexError | String c _ => Ok (bool_decide (c = "0"%char)) end.

(** The conditions that the ratio counts and the document does not list get numbers. *)
Definition numbers (from to : Z) : list string := str_of_Z <$> range from to.

Section cobertura.
Context `{OrJson, Etree, Timestring}.
Variable cwd : string.

Definition matches_content (e : elem) : bool := bool_decide (tag e ∈ ["coverage"; "scoverage"]).

Definition get_sources_to_attempt (xml : elem) : list string :=
  filter (fun s => startswith "/" s = true) (omap text (iter "source" xml)).

(** The age of the document; a date that is not understood is not checked. *)
Definition check_timestamp (s : ReportBuilderSession) (xml : elem) : result unit :=
  max_age ← max_report_age s;
  if truthy max_age then
    match Date (attr_get xml "timestamp") with
    | Err TimestringInvalid => Ok tt
    | Err e => Err e
    | Ok d =>
        match attr_get xml "timestamp" with
        | Some t =>
            if bool_decide (t = "") then Ok tt
            else old ← date_ltb d max_age; if (old : bool) then Err ReportExpiredException else Ok tt
        | None => Ok tt
        end
    end
  else Ok tt.

(** The coverage of a line, and its type. *)
Definition line_coverage (l : elem) : result (cov * CoverageType) :=
  let condition_coverage := attr_or l "condition-coverage" "" in
  if String.eqb (lower (attr_or l "branch" "")) "true" && PyRe.re_search ratio_regex condition_coverage then
    r ← condition_ratio condition_coverage; Ok (CStr r, branch)
  else z ← Int (attr_get l "hits"); Ok (CInt z, line).

(** ["{number}:{type}"] of the conditions that are not covered. *)
Definition embedded_conditions (l : elem) : result (list string) :=
  traverse (fun c => number ← attr c "number"; type ← attr c "type"; Ok (number +:+ ":" +:+ type))
    (filter (fun c => attr_get c "coverage" <> Some "100%") (iter "condition" l)).

Definition extend_handled (coverage : cov) (conditions : list string) : result (list string) :=
  match coverage with
  | CStr r =>
      match split "/" r with
      | [covered; total] =>
          total ← int_of_str total;
          let n := Z.of_nat (length conditions) in
          if n <? total then
            covered ← int_of_str covered; Ok (conditions ++ numbers n (total - covered))
          else Ok conditions
      | _ => Err ValueError
      end
  | _ => Ok conditions
  end.

Definition extend_missed (coverage : cov) (conditions : list string) : result (list string) :=
  match coverage with
  | CStr r =>
      zero ← starts_with_0 r;
      if (zero : bool) then
        match split "/" r with
        | _ :: total :: _ =>
            total ← int_of_str total;
            let n := Z.of_nat (length conditions) in
            Ok (if n <? total then conditions ++ numbers n total else conditions)
        | _ => Err IndexError
        end
      else Ok conditions
  | _ => Ok conditions
  end.

(** The branches that were missed: what [missing-branches] lists, where Python's "return
    missed" is the exit of a loop, or the conditions of the line. *)
Definition listed_branches (t : string) : list string :=
  let conditions := split "," t in
  if (1 <? length conditions)%nat && forallb (String.eqb "exit") conditions then ["loop"; "exit"] else conditions.

Definition line_conditions (handle_missing_conditions : bool) (l : elem) (coverage : cov) : result (option (list string)) :=
  conditions ← embedded_conditions l;
  conditions ← (if handle_missing_conditions then extend_handled coverage conditions
                else extend_missed coverage conditions);
  Ok (if bool_decide (conditions = []) then None else Some conditions).

Definition missing_branches (handle_missing_conditions : bool) (l : elem) (coverage : cov) : result (option (list string)) :=
  let t := attr_or l "missing-branches" "" in
  if bool_decide (t = "") then line_conditions handle_missing_conditions l coverage
  else Ok (Some (listed_branches t)).

Record options : Type := mkOptions { handle_missing_conditions : bool; partials_as_hits : bool }.

(** The coverage, type and missed branches of a line. *)
Definition line_of (o : options) (l : elem) : result (cov * CoverageType * option (list string)) :=
  '(coverage, type) ← line_coverage l;
  missing ← missing_branches (handle_missing_conditions o) l coverage;
  match coverage with
  | CStr r =>
      zero ← starts_with_0 r;
      Ok (if negb zero && partials_as_hits o then (CInt 1, line, None) else (coverage, type, missing))
  | _ => Ok (coverage, type, missing)
  end.

Definition line_step (o : options) (s : ReportBuilderSession) (f : ReportFile.t) (l : elem) : result ReportFile.t :=
  number ← attr l "number";
  if String.eqb number "undefined" then Ok f
  else
    ln ← int_of_str number;
    if 0 <? ln then
      '(coverage, type, missing) ← line_of o l;
      add_line f ln (create_coverage_line s coverage (Some type) None (fmap (M := list) BrStr <$> missing) CxNone)
    else Ok f.

(** A statement of scoverage. *)
Definition statement_step (s : ReportBuilderSession) (f : ReportFile.t) (stmt : elem) : result ReportFile.t :=
  if bool_decide (attr_get stmt "ignored" = Some "true") then Ok f
  else
    count ← attr stmt "invocation-count"; coverage ← Int (Some count);
    line_no ← int_attr stmt "line";
    is_branch ← attr stmt "branch";
    type ← (if String.eqb is_branch "true" then Ok branch
            else m ← attr stmt "method"; Ok (if bool_decide (m = "") then line else method));
    add_line f line_no (create_coverage_line s (CInt coverage) (Some type) None None CxNone).

Definition class_step (o : options) (s : ReportBuilderSession) (c : elem) : result ReportBuilderSession :=
  filename ← attr c "filename";
  if bool_decide (filename = "") then Ok s
  else
    '(file, s) ← create_coverage_file cwd s filename false;
    match file with
    | None => Err AssertionError
    | Some f =>
        f ← foldM (line_step o s) f (iter "line" c);
        f ← foldM (statement_step s) f (iter "statement" c);
        append_file s f
    end.

(** The names of the classes and what the fixer makes of them. *)
Definition fix_class (bases : list string) (st : ReportBuilderSession * list (string * option string)) (c : elem)
    : result (ReportBuilderSession * list (string * option string)) :=
  let '(s, fixing) := st in
  filename ← attr c "filename";
  '(fixed, pf) ← fix_path cwd (path_fixer (_report_builder s)) filename bases;
  Ok (with_path_fixer pf s, fixing ++ [(filename, fixed)]).

(** A stable sort on a boolean: the names in a directory of packages come last. *)
Definition in_packages (a : string * option string) : bool :=
  str_contains "/dist-packages/" a.1 || str_contains "/site-packages/" a.1.
Definition packages_last (l : list (string * option string)) : list (string * option string) :=
  filter (fun a => in_packages a = false) l ++ filter (fun a => in_packages a = true) l.

Definition read_options (s : ReportBuilderSession) : result options :=
  handle ← yaml_field s ["parsers"; "cobertura"; "handle_missing_conditions"] (VBool false);
  partials ← yaml_field s ["parsers"; "cobertura"; "partials_as_hits"] (VBool false);
  Ok (mkOptions (truthy handle) (truthy partials)).

Definition from_xml (xml : elem) (s : ReportBuilderSession) : result ReportBuilderSession :=
  _ ← check_timestamp s xml;
  o ← read_options s;
  s ← foldM (class_step o) s (iter "class" xml);
  '(s, fixing) ← foldM (fix_class (get_sources_to_attempt xml)) (s, []) (iter "class" xml);
  resolve_paths s (packages_last fixing).
End cobertura.

(** ** Specification: a class and its lines *)

(** A line: its count, or the covered and all of its branches; the branches it names as
    missed. *)
Record cline : Type := mkCline { cl_number : Z; cl_cov : Z + Z * Z; cl_missing : list string }.

Definition condition_text (a b : Z) : string := (str_of_Z (100 * a / b) +:+ "%") +:+ " " +:+ "(" +:+ frac_str a b +:+ ")".

Definition print_cov (c : Z + Z * Z) : list (string * string) :=
  match c with
  | inl hits => [("hits", str_of_Z hits)]
  | inr (a, b) => [("branch", "true"); ("condition-coverage", condition_text a b)]
  end.
Definition print_missing (missing : list string) : list (string * string) :=
  match missing with [] => [] | _ => [("missing-branches", join "," missing)] end.
Definition cline_attrs (l : cline) : list (string * string) :=
  ("number", str_of_Z (cl_number l)) :: print_cov (cl_cov l) ++ print_missing (cl_missing l).
Definition print_cline (l : cline) : tree := leaf_tree "line" (cline_attrs l).
Definition print_class (filename : string) (ls : list cline) : tree :=
  Tree "class" [("filename", filename)] None (print_cline <$> ls).
Definition print_cobertura (filename : string) (ls : list cline) : tree :=
  Tree "coverage" [] None [print_class filename ls].

Definition cline_ok (l : cline) : Prop :=
  1 <= cl_number l /\
  match cl_cov l with inl hits => 0 <= hits < 2 ^ 63 | inr (a, b) => 0 <= a <= b end /\
  Forall (fun m => m <> "" /\ without "," m = true) (cl_missing l).

(** The branches a line misses: those it names; else with [handle_missing_conditions] as
    many as the ratio leaves open, without it all of them if none was taken. *)
Definition missed_of (o : options) (l : cline) : option (list string) :=
  match cl_missing l with
  | _ :: _ => Some (if (1 <? length (cl_missing l))%nat && forallb (String.eqb "exit") (cl_missing l)
                    then ["loop"; "exit"] else cl_missing l)
  | [] =>
      match cl_cov l with
      | inl _ => None
      | inr (a, b) =>
          let open := if handle_missing_conditions o then b - a else if a =? 0 then b else 0 in
          if 0 <? open then Some (numbers 0 open) else None
      end
  end.

Definition cobertura_line (o : options) (s : ReportBuilderSession) (l : cline) : ReportLine :=
  match cl_cov l with
  | inl hits => create_coverage_line s (CInt hits) (Some line) None (fmap (M := list) BrStr <$> missed_of o l) CxNone
  | inr (a, b) =>
      if (0 <? a) && partials_as_hits o then create_coverage_line s (CInt 1) (Some line) None None CxNone
      else create_coverage_line s (CStr (frac_str a b)) (Some branch) None (fmap (M := list) BrStr <$> missed_of o l) CxNone
  end.

(** ** Lemmas *)

Lemma Plus_digits s t : str_forallb is_digit s = true -> s <> "" -> Matches (Plus Digit) (s +:+ t) t.
Proof.
  intros Hs Hne. destruct s as [|c s]; [done|]. cbn in Hs. apply andb_true_iff in Hs as [Hc Hs].
  apply (M_Cat _ _ _ (s +:+ t)); [by constructor|]. clear Hne Hc. induction s as [|d s IH]; [constructor|].
  cbn in Hs. apply andb_true_iff in Hs as [Hd Hs]. apply (M_Star_cons _ _ (s +:+ t)); [by constructor | by apply IH].
Qed.

Lemma re_search_at r p s s' : Matches r s s' -> PyRe.re_search r (p +:+ s) = true.
Proof.
  intros Hm. assert (Hs : PyRe.re_search r s = true).
  { destruct (re_head_complete _ _ _ Hm) as [x Hx]. destruct s; cbn; unfold is_match; rewrite Hx; by rewrite bool_decide_true. }
  induction p as [|c p IH]; [done|]. cbn. rewrite IH. by rewrite orb_true_r.
Qed.

Lemma ratio_found p a b q : 0 <= a -> 0 <= b -> PyRe.re_search ratio_regex (p +:+ "(" +:+ frac_str a b +:+ ")" +:+ q) = true.
Proof.
  intros Ha Hb. apply (re_search_at _ _ _ q). unfold ratio_regex, frac_str. cbn [Cats].
  apply (M_Cat _ _ _ ((str_of_Z a +:+ "/" +:+ str_of_Z b) +:+ ")" +:+ q)); [by constructor|].
  rewrite !str_app_assoc. apply (M_Cat _ _ _ ("/" +:+ str_of_Z b +:+ ")" +:+ q)).
  { apply Plus_digits; [by apply str_of_Z_digits | apply str_of_Z_nonempty]. }
  apply (M_Cat _ _ _ (str_of_Z b +:+ ")" +:+ q)); [by constructor|].
  apply (M_Cat _ _ _ (")" +:+ q)); [|by constructor].
  apply Plus_digits; [by apply str_of_Z_digits | apply str_of_Z_nonempty].
Qed.

Lemma str_init_snoc s c : str_init 1 (s +:+ String c "") = s.
Proof.
  unfold str_init. rewrite str_length_app. cbn. replace (String.length s + 1 - 1)%nat with (String.length s) by lia.
  apply str_take_app.
Qed.

Lemma frac_starts_0 a b : 0 <= a -> starts_with_0 (frac_str a b) = Ok (a =? 0).
Proof.
  intros Ha. unfold frac_str. destruct (Z.eq_dec a 0) as [->|Hne]; [done|].
  destruct (str_of_Z_pos_head a) as (c & t & E & _ & Hc); [lia|]. rewrite E. cbn [String.append starts_with_0].
  by rewrite bool_decide_false, (proj2 (Z.eqb_neq a 0)).
Qed.

Lemma condition_found a b : 0 <= a -> 0 <= b -> PyRe.re_search ratio_regex (condition_text a b) = true.
Proof.
  intros Ha Hb. unfold condition_text. rewrite <- str_app_assoc. rewrite <- (str_app_nil_r ")"). by apply ratio_found.
Qed.

Lemma condition_ratio_text a b : 0 <= a <= b -> condition_ratio (condition_text a b) = Ok (frac_str a b).
Proof.
  intros Hab. unfold condition_ratio, condition_text.
  change (" " +:+ "(" +:+ frac_str a b +:+ ")") with (String " " ("(" +:+ frac_str a b +:+ ")")).
  change " " with (String " " "") at 1. rewrite (split1_char " ").
  - by rewrite <- (str_app_assoc "("), str_init_snoc.
  - rewrite without_app, digits_without; [done | done|].
    destruct (Z.eq_dec b 0) as [->|]; [by rewrite Zdiv_0_r | apply Z.div_pos; lia].
Qed.

Section class.
Context `{OrJson}.
Variable cwd : string.
#[local] Existing Instance tree_etree.
Context `{Timestring}.

Definition line_node (l : cline) (above : list tree) : node := mkNode (print_cline l) above.

Lemma cline_coverage l above :
  cline_ok l ->
  line_coverage (line_node l above) =
  Ok (match cl_cov l with inl hits => (CInt hits, line) | inr (a, b) => (CStr (frac_str a b), branch) end).
Proof.
  intros (_ & Hc & _). unfold line_coverage, attr_or, attr_get. cbn [attrib tree_etree line_node n_tree print_cline leaf_tree t_attrib]. unfold cline_attrs.
  destruct (cl_cov l) as [hits|[a b]]; cbn [print_cov app].
  - assert (E : forall k, k ∈ ["branch"; "condition-coverage"] ->
      od_get k (("number", str_of_Z (cl_number l)) :: ("hits", str_of_Z hits) :: print_missing (cl_missing l)) = None).
    { intros k Hk. apply od_get_None. unfold print_missing. destruct (cl_missing l); unfold od_keys; cbn; set_solver. }
    rewrite !E by (repeat first [left | right]). od_lookup. cbn [lower String.eqb andb Int default id from_option].
    by rewrite int_of_str_of_Z.
  - od_lookup. change (lower "true" =? "true")%string with true. cbn [andb].
    rewrite condition_found, condition_ratio_text by lia. done.
Qed.

Lemma numbers_nil n : n <= 0 -> numbers 0 n = [].
Proof. intros Hn. unfold numbers, range. by rewrite seqZ_nil by lia. Qed.
Lemma numbers_cons n : 0 < n -> numbers 0 n <> [].
Proof. intros Hn. unfold numbers, range. by rewrite seqZ_cons by lia. Qed.

Lemma numbers_open n : (if bool_decide (numbers 0 n = []) then None else Some (numbers 0 n)) =
  (if 0 <? n then Some (numbers 0 n) else None).
Proof.
  destruct (Z.ltb_spec 0 n).
  - by rewrite bool_decide_false by by apply numbers_cons.
  - by rewrite numbers_nil.
Qed.

Definition cov_value (c : Z + Z * Z) : cov := match c with inl hits => CInt hits | inr (a, b) => CStr (frac_str a b) end.

Lemma cline_missing o l above :
  cline_ok l ->
  missing_branches (handle_missing_conditions o) (line_node l above) (cov_value (cl_cov l)) = Ok (missed_of o l).
Proof.
  intros (_ & Hc & Hm). unfold missing_branches, attr_or, attr_get.
  cbn [attrib tree_etree line_node n_tree print_cline leaf_tree t_attrib]. unfold cline_attrs.
  assert (E : od_get "missing-branches" (("number", str_of_Z (cl_number l)) :: print_cov (cl_cov l) ++ print_missing (cl_missing l)) =
    match cl_missing l with [] => None | m => Some (join "," m) end).
  { destruct (cl_cov l) as [|[]], (cl_missing l); unfold print_cov, print_missing; cbn [app]; by od_lookup. }
  rewrite E. unfold missed_of. destruct (cl_missing l) as [|m ms] eqn:Em.
  - cbn [default id from_option]. rewrite bool_decide_true by done. unfold line_conditions.
    assert (Hi : embedded_conditions (line_node l above) = Ok []).
    { unfold embedded_conditions. change (@iter tree_etree "condition" (line_node l above)) with (n_iter "condition" (line_node l above)).
      unfold line_node, print_cline. by rewrite iter_leaf_ne. }
    rewrite Hi. cbn [mbind result_bind]. destruct (cl_cov l) as [hits|[a b]]; cbn [cov_value].
    + by destruct (handle_missing_conditions o).
    + destruct (handle_missing_conditions o); unfold extend_handled, extend_missed.
      * rewrite split_frac_str, !int_of_str_of_Z by lia. cbn [mbind result_bind length app].
        change (Z.of_nat 0) with 0. rewrite <- numbers_open. destruct (Z.ltb_spec 0 b); cbn [mbind result_bind]; [done|].
        by rewrite (numbers_nil (b - a)) by lia.
      * rewrite frac_starts_0 by lia. cbn [mbind result_bind]. destruct (Z.eqb_spec a 0) as [->|]; [|done].
        rewrite split_frac_str, !int_of_str_of_Z by lia. cbn [mbind result_bind length app].
        change (Z.of_nat 0) with 0. rewrite <- numbers_open. destruct (Z.ltb_spec 0 b); [done|].
        by rewrite (numbers_nil b) by lia.
  - cbn [default id from_option]. rewrite bool_decide_false.
    + unfold listed_branches. rewrite split_chars; [done | | done]. eapply Forall_impl; [exact Hm | by intros ? []].
    + apply join_nonempty; [|done]. eapply Forall_impl; [exact Hm | by intros ? []].
Qed.

Lemma cline_step o s f l above :
  cline_ok l -> line_step o s f (line_node l above) = add_line f (cl_number l) (cobertura_line o s l).
Proof.
  intros Hl. pose proof Hl as (Hn & Hc & _). unfold line_step, attr.
  change (@attrib tree_etree (line_node l above)) with (("number", str_of_Z (cl_number l)) :: print_cov (cl_cov l) ++ print_missing (cl_missing l)).
  rewrite (od_get_find "number"). cbn [od_find String.eqb Ascii.eqb Bool.eqb mbind result_bind].
  destruct (str_of_Z_head (cl_number l)) as (c & t & Ed & Hd); [lia|].
  rewrite (proj2 (String.eqb_neq _ _)) by (rewrite Ed; intros [= -> _]; discriminate Hd).
  rewrite int_of_str_of_Z. cbn [mbind result_bind]. rewrite (proj2 (Z.ltb_lt _ _)) by lia.
  unfold line_of. rewrite cline_coverage by done. cbn [mbind result_bind].
  pose proof (cline_missing o l above Hl) as Hm. unfold cobertura_line.
  destruct (cl_cov l) as [hits|[a b]] eqn:Ec; cbn [cov_value] in Hm; rewrite Hm; cbn [mbind result_bind]; [done|].
  rewrite frac_starts_0 by lia. cbn [mbind result_bind].
  assert (E : negb (a =? 0) = (0 <? a)) by lia. rewrite E. by destruct ((0 <? a) && partials_as_hits o).
Qed.

Lemma cobertura_line_ok o s l : cline_ok l -> entry_ok false (cl_number l, cobertura_line o s l).
Proof.
  intros (Hn & Hc & _). split; [done|]. cbn [snd]. unfold cobertura_line.
  destruct (cl_cov l) as [hits|[a b]]; [|destruct (_ && _)]; unfold create_coverage_line;
    split_and!; try done; try apply NoDup_singleton; repeat constructor; cbn; try lia; constructor; lia.
Qed.
Lemma class_parts filename ls above :
  iter "line" (mkNode (print_class filename ls) above) = (fun l => line_node l (print_class filename ls :: above)) <$> ls /\
  iter "statement" (mkNode (print_class filename ls) above) = [].
Proof.
  unfold line_node, print_cline. change (@iter tree_etree) with n_iter. split; rewrite iter_below by done; cbn [t_children print_class]; unfold print_cline.
  - apply (iter_leaves "line" cline_attrs).
  - by apply (iter_no_leaves "statement" "line" cline_attrs).
Qed.

Lemma document_parts filename ls :
  iter "class" (document (print_cobertura filename ls)) = [mkNode (print_class filename ls) [print_cobertura filename ls]] /\
  iter "source" (document (print_cobertura filename ls)) = [].
Proof.
  unfold document. change (@iter tree_etree) with n_iter. split; rewrite iter_below by done; cbn [t_children print_cobertura flat_map]; rewrite app_nil_r.
  - rewrite iter_tree, decide_True by done. cbn [t_children print_class].
    unfold print_cline. by rewrite (iter_no_leaves "class" "line" cline_attrs).
  - rewrite iter_below by done. cbn [t_children print_class].
    unfold print_cline. by rewrite (iter_no_leaves "source" "line" cline_attrs).
Qed.

(** The file of a class, before it is renamed. *)
Definition class_lines (o : options) (s : ReportBuilderSession) (ls : list cline) : list (Z * ReportLine) :=
  (fun l => (cl_number l, cobertura_line o s l)) <$> ls.

Definition class_file (s : ReportBuilderSession) (filename : string) : ReportFile.t :=
  empty_file filename (od_get filename (ignored_lines (_report_builder s))).

Lemma class_run o s filename ls above :
  filename <> "" -> Report.r_files (_report s) = [] -> Forall cline_ok ls -> NoDup (cl_number <$> ls) ->
  (exists l, l ∈ ls /\ ReportFile.ignored (class_file s filename) (cl_number l) = false) ->
  exists f r, class_step cwd o s (mkNode (print_class filename ls) above) = Ok (with_report r s) /\
    Report.r_files r = [(filename, f)] /\ ReportFile.rf_name f = filename /\ like (class_file s filename) f /\
    forall ln, 1 <= ln ->
      ReportFile.get f ln = Ok (if ReportFile.ignored (class_file s filename) ln then None else od_get ln (class_lines o s ls)).
Proof.
  intros Hne Hfiles Hls Hnd (l & Hl & Hig). set (f0 := class_file s filename) in *.
  destruct (append_lines_run false f0 (class_lines o s ls)) as (f & Hrun & Hok & Hlike & Hget).
  - apply empty_file_ok.
  - unfold class_lines. apply Forall_fmap. eapply Forall_impl; [exact Hls|]. intros. by apply cobertura_line_ok.
  - unfold class_lines. by rewrite <- list_fmap_compose.
  - intros ln. apply empty_file_get.
  - destruct (append_new_file false s f) as (r & Happ & Hr); [done | by rewrite (proj1 Hlike) | done | |].
    { exists (cl_number l), (cobertura_line o s l). rewrite Forall_forall in Hls. pose proof (Hls l Hl) as [Hn _].
      split; [done|]. rewrite Hget, Hig by done. f_equal. apply od_elem_get.
      - unfold od_wf, od_keys, class_lines. by rewrite <- list_fmap_compose.
      - unfold class_lines. apply list_elem_of_fmap. by exists l. }
    exists f, r. rewrite (proj1 Hlike) in Hr. split_and!; [|done|by rewrite (proj1 Hlike)|done|done].
    unfold class_step, attr. change (@attrib tree_etree (mkNode (print_class filename ls) above)) with [("filename", filename)].
    rewrite (od_get_find "filename"). cbn [od_find String.eqb Ascii.eqb Bool.eqb mbind result_bind].
    rewrite bool_decide_false by done. unfold create_coverage_file. cbn [mbind result_bind].
    rewrite bool_decide_false by done.
    change (ReportFile.init filename None None None (od_get filename (ignored_lines (_report_builder s)))) with (Ok f0).
    cbn [mbind result_bind]. destruct (class_parts filename ls above) as [Hlines Hstmts].
    rewrite Hlines, Hstmts, foldM_fmap.
    rewrite (foldM_ext _ (fun f l => add_line f (cl_number l) (cobertura_line o s l))).
    + unfold append_lines, class_lines in Hrun. rewrite foldM_fmap in Hrun. cbn [fst snd] in Hrun.
      rewrite Hrun. exact Happ.
    + intros g l' Hl'. apply cline_step. rewrite Forall_forall in Hls. by apply Hls.
Qed.

Definition nonempty_path (o : option string) : bool :=
  match o with Some p => negb (bool_decide (p = "")) | None => false end.

Lemma packages_last_one a : packages_last [a] = [a].
Proof. unfold packages_last. by destruct (in_packages a) eqn:E; rewrite !filter_cons, E, !filter_nil. Qed.

(** Fixing the only name of a report. *)
Lemma resolve_one s r filename f fixed :
  Report.r_files r = [(filename, f)] ->
  exists s', resolve_paths (with_report r s) [(filename, fixed)] = Ok s' /\
    Report.r_files (_report s') =
      match fixed with Some p => if bool_decide (p = "") then [] else [(p, ReportFile.with_name p f)] | None => [] end.
Proof.
  intros Hr. unfold resolve_paths, Report.resolve_paths. cbn [foldM _report with_report].
  unfold Report.resolve_step. cbn [fst snd]. rewrite Hr. unfold od_mem. cbn [od_get]. rewrite decide_True by done.
  unfold Report.rename, od_pop. rewrite Hr. cbn [od_get od_del]. rewrite !decide_True by done. cbn [mbind result_bind].
  eexists. split; [done|]. cbn. destruct fixed as [p|]; [|done]. by case_bool_decide.
Qed.

Lemma get_with_name p f ln : ReportFile.get (ReportFile.with_name p f) ln = ReportFile.get f ln.
Proof.
  unfold ReportFile.get, ReportFile._lines, ReportFile.force, ReportFile.with_name. destruct f as [n tot dt raw ls d ps ig]. cbn.
  destruct raw as [raw|]; [|done]. case_bool_decide; [done|]. destruct (splitlines raw) as [|dl ls']; [done|].
  destruct (ReportFile.parse_details dl) as [d'|]; [|done]. cbn [mbind result_bind].
  by destruct (ReportFile.present_of_details d' ps).
Qed.

(** C10: a document with one class is read back: it has not expired, the class has a name
    and lines with distinct numbers from 1 on, each with a count below 2^63 or a ratio of
    at most all its branches, and nothing else; some line is not ignored, and the report
    has no files yet.  The file is in the report under the fixed name of the class, or
    nowhere when the fixer refuses it.  Each line has the count of the document, or its
    ratio as the line of a branch.  The branches a line misses are those the document
    names for it (two or more, all of them exits, are a loop and its exit).  When it names
    none: with the option [handle_missing_conditions], as many as the ratio leaves open,
    numbered from 0; without it, all of them when none was taken, and none otherwise.
    With the option [partials_as_hits], a line some of whose branches were taken is a hit
    without missed branches.  The lines that are ignored are those of the name before it
    is fixed. *)
Theorem cobertura_document (s : ReportBuilderSession) (filename : string) (ls : list cline) (o : options)
    (fixed : option string) (pf : BasePathAwarePathFixer) :
  check_timestamp s (document (print_cobertura filename ls)) = Ok tt -> read_options s = Ok o ->
  filename <> "" -> Report.r_files (_report s) = [] -> Forall cline_ok ls -> NoDup (cl_number <$> ls) ->
  (exists l, l ∈ ls /\ ReportFile.ignored (class_file s filename) (cl_number l) = false) ->
  fix_path cwd (path_fixer (_report_builder s)) filename [] = Ok (fixed, pf) ->
  exists s', from_xml cwd (document (print_cobertura filename ls)) s = Ok s' /\
    if nonempty_path fixed then
      exists f, Report.r_files (_report s') = [(default "" fixed, f)] /\ ReportFile.rf_name f = default "" fixed /\
        forall ln, 1 <= ln -> ReportFile.get f ln =
          Ok (if ReportFile.ignored (class_file s filename) ln then None else od_get ln (class_lines o s ls))
    else Report.r_files (_report s') = [].
Proof.
  intros Ht Ho Hne Hfiles Hls Hnd Hl Hfix. unfold from_xml. rewrite Ht, Ho. cbn [mbind result_bind].
  destruct (document_parts filename ls) as [Hclass Hsource].
  rewrite Hclass. cbn [foldM].
  destruct (class_run o s filename ls [print_cobertura filename ls] Hne Hfiles Hls Hnd Hl) as (f & r & Hrun & Hr & Hname & Hlike & Hget).
  rewrite Hrun. cbn [mbind result_bind]. unfold get_sources_to_attempt.
  rewrite Hsource. cbn [omap list_omap filter list_filter foldM].
  assert (Hf : fix_class cwd [] (with_report r s, []) (mkNode (print_class filename ls) [print_cobertura filename ls]) =
    Ok (with_path_fixer pf (with_report r s), [(filename, fixed)])).
  { unfold fix_class, attr. change (@attrib tree_etree (mkNode _ _)) with [("filename", filename)].
    rewrite (od_get_find "filename"). cbn [od_find String.eqb Ascii.eqb Bool.eqb mbind result_bind].
    change (path_fixer (_report_builder (with_report r s))) with (path_fixer (_report_builder s)). by rewrite Hfix. }
  rewrite Hf. cbn [mbind result_bind]. rewrite packages_last_one.
  destruct (resolve_one (with_path_fixer pf s) r filename f fixed Hr) as (s' & Hs' & Hfiles').
  exists s'. split; [exact Hs'|]. destruct fixed as [p|]; cbn [nonempty_path default]; [|done].
  rewrite Hfiles'. case_bool_decide as Hp; cbn [negb]; [done|].
  exists (ReportFile.with_name p f). split_and!; [done | done |]. intros ln Hln. rewrite get_with_name. by apply Hget.
Qed.
End class.

Definition example_class : list cline :=
  [mkCline 1 (inl 3) []; mkCline 2 (inr (1, 2)) ["exit"]; mkCline 4 (inr (0, 2)) []].

Lemma cobertura_document_witness :
  exists s' f, from_xml (H := codec) (H0 := tree_etree) (H1 := number_dates) "/w"
      (document (print_cobertura "a.py" example_class)) example_builder_session = Ok s' /\
    Report.r_files (_report s') = [("a.py", f)] /\
    ReportFile.get (H := codec) f 2 =
      Ok (Some (create_coverage_line example_builder_session (CStr "1/2") (Some branch) None (Some [BrStr "exit"]) CxNone)).
Proof.
  destruct (cobertura_document (H := codec) "/w" (H0 := number_dates) example_builder_session "a.py" example_class
    (mkOptions false false) (Some "a.py") (mkBase [(("a.py", []), Some "a.py")] example_fixer [])) as (s' & Hs' & f & Hf & _ & Hget).
  - vm_compute. reflexivity.
  - vm_compute. reflexivity.
  - discriminate.
  - reflexivity.
  - repeat constructor; cbn; try lia; discriminate.
  - apply (bool_decide_unpack _). vm_compute. exact I.
  - exists (mkCline 1 (inl 3) []). split; [left | reflexivity].
  - vm_compute. reflexivity.
  - exists s', f. split; [exact Hs'|]. split; [exact Hf|]. rewrite Hget by lia. vm_compute. reflexivity.
Defined.
