(* ===== verification/JvmFormats.v ===== *)
(** * [worker/services/report/languages]: the JaCoCo and Clover documents

    JaCoCo documents list the counters of the methods of a package beside the
    lines of its files; the complexity of a method goes to the line it starts
    on.  Clover documents have counts, methods with their complexity, and
    conditions with a count for each outcome. *)
From S2P Require Import JsonCodec.
From S2P Require Export PyRe PyPath Xml.
#[local] Open Scope string_scope.
#[local] Open Scope Z_scope.
#[local] Open Scope list_scope.

Module Jacoco.
Section jacoco.
Context `{OrJson, Etree, Timestring}.
Variable cwd : string.

Definition matches_content (e : elem) : bool := String.eqb (tag e) "report".

Definition check_session (s : ReportBuilderSession) (xml : elem) : result unit :=
  max_age ← max_report_age s;
  if truthy max_age then
    match iter "sessioninfo" xml with
    | [] => Ok tt
    | i :: _ => check_age max_age (attr_get i "start")
    end
  else Ok tt.

(** [path_fixer(path)], the fixer keeping what it finds. *)
Definition fixed_path (s : ReportBuilderSession) (path : string) : result (option string * ReportBuilderSession) :=
  '(o, pf) ← fix_path cwd (path_fixer (_report_builder s)) path []; Ok (o, with_path_fixer pf s).

Definition some_path (o : option string) : bool :=
  match o with Some p => negb (bool_decide (p = "")) | None => false end.

Definition try_to_fix_path (project : string) (s : ReportBuilderSession) (path : string)
    : result (option string * ReportBuilderSession) :=
  if bool_decide (project = "") then fixed_path s path
  else
    '(o, s) ← fixed_path s (project +:+ "/" +:+ path);
    if some_path o then Ok (o, s)
    else
      '(o, s) ← fixed_path s (project +:+ "/src/main/java/" +:+ path);
      if some_path o then Ok (o, s) else fixed_path s path.

Definition project_of (xml : elem) : string :=
  let project := attr_or xml "name" "" in
  if str_contains " " project then "" else rstrip_chars "/" (lstrip_chars "/" project).

(** The covered and all paths of the methods of a class, by their first line. *)
Definition complexities : Type := odict Z (Z * Z).

Fixpoint first_complexity (counters : list elem) : result (option (Z * Z)) :=
  match counters with
  | [] => Ok None
  | counter :: counters' =>
      type ← attr counter "type";
      if String.eqb type "COMPLEXITY" then
        m ← int_attr counter "missed";
        c ← int_attr counter "covered";
        Ok (Some (c, m + c))
      else first_complexity counters'
  end.

Definition method_step (d : complexities) (m : elem) : result complexities :=
  ln ← int_of_str (attr_or m "line" "0");
  if 0 <? ln then
    o ← first_complexity (iter "counter" m);
    Ok (match o with Some c => od_set ln c d | None => d end)
  else Ok d.

Definition class_step (all : odict string complexities) (c : elem) : result (odict string complexities) :=
  class_name ← attr c "name";
  if str_contains "$" class_name then Ok all
  else
    d ← foldM method_step (default [] (od_get class_name all)) (iter "method" c);
    Ok (od_set class_name d all).

(** The ratio of the branches of a line; a partial one is a hit when so configured. *)
Definition branch_coverage (partials_as_hits : bool) (ratio : string) : result (cov * CoverageType) :=
  t ← branch_type ratio;
  Ok (if bool_decide (t = partial_line) && partials_as_hits then CInt 1 else CStr ratio, branch).

Definition line_coverage (partials_as_hits : bool) (l : elem) : result (cov * CoverageType) :=
  mb ← attr l "mb";
  if negb (String.eqb mb "0") then
    cb ← attr l "cb"; m ← int_of_str mb; c ← int_of_str cb;
    branch_coverage partials_as_hits (cb +:+ "/" +:+ str_of_Z (m + c))
  else
    cb ← attr l "cb";
    if negb (String.eqb cb "0") then branch_coverage partials_as_hits (cb +:+ "/" +:+ cb)
    else ci ← int_attr l "ci"; Ok (CInt ci, line).

Definition line_step (partials_as_hits : bool) (method_complexity : complexities) (s : ReportBuilderSession)
    (f : ReportFile.t) (l : elem) : result ReportFile.t :=
  '(cov, type) ← line_coverage partials_as_hits l;
  ln ← int_attr l "nr";
  if 0 <? ln then
    add_line f ln
      match od_get ln method_complexity with
      | Some (c, n) => create_coverage_line s cov (Some method) None None (CxPair c n)
      | None => create_coverage_line s cov (Some type) None None CxNone
      end
  else Ok f.

(** The key of the complexities of a file: its path up to the first dot. *)
Definition class_of (source_name : string) : string := hd "" (split "." source_name).

Definition source_step (partials_as_hits : bool) (project base_name : string) (all : odict string complexities)
    (s : ReportBuilderSession) (source : elem) : result ReportBuilderSession :=
  name ← attr source "name";
  let source_name := base_name +:+ "/" +:+ name in
  '(o, s) ← try_to_fix_path project s source_name;
  match o with
  | None => Ok s
  | Some filename =>
      '(file, s) ← create_coverage_file cwd s filename false;
      match file with
      | None => Err AssertionError
      | Some f =>
          f ← foldM (line_step partials_as_hits (default [] (od_get (class_of source_name) all)) s) f (iter "line" source);
          append_file s f
      end
  end.

Definition package_step (partials_as_hits : bool) (project : string) (s : ReportBuilderSession) (package : elem)
    : result ReportBuilderSession :=
  base_name ← attr package "name";
  all ← foldM class_step [] (iter "class" package);
  foldM (source_step partials_as_hits project base_name all) s (iter "sourcefile" package).

Definition from_xml (xml : elem) (s : ReportBuilderSession) : result ReportBuilderSession :=
  _ ← check_session s xml;
  partials ← yaml_field s ["parsers"; "jacoco"; "partials_as_hits"] (VBool false);
  foldM (package_step (truthy partials) (project_of xml)) s (iter "package" xml).
End jacoco.
End Jacoco.

Module Clover.
Section clover.
Context `{OrJson, Etree, Timestring}.
Variable cwd : string.

Definition matches_content (e : elem) : bool :=
  String.eqb (tag e) "coverage" && negb (bool_decide (attr_or e "generated" "" = "")).

(** Day and month are swapped in a date with dashes. *)
Definition timestamp_of (t : string) : result string :=
  if str_contains "-" t then
    match split "-" t with
    | d :: m :: y :: _ => Ok (m +:+ "-" +:+ d +:+ "-" +:+ y)
    | _ => Err IndexError
    end
  else Ok t.

Definition check_generated (s : ReportBuilderSession) (xml : elem) : result unit :=
  max_age ← max_report_age s;
  if truthy max_age then
    match iter "coverage" xml with
    | [] => Ok tt
    | c :: _ =>
        match attr_get c "generated" with
        | None => Err TypeError
        | Some t => t ← timestamp_of t; check_age max_age (Some t)
        end
    end
  else Ok tt.

(** The number of lines the document says a PHP file has. *)
Fixpoint first_loc (metrics : list elem) : option Z :=
  match metrics with
  | [] => None
  | m :: metrics' => match int_attr m "loc" with Ok n => Some n | Err _ => first_loc metrics' end
  end.
Definition get_end_of_file (filename : string) (xmlfile : elem) : option Z :=
  if endswith ".php" filename then first_loc (iter "metrics" xmlfile) else None.

Definition past_end (eof : option Z) (ln : Z) : bool :=
  match eof with Some n => negb (n =? 0) && (n <? ln) | None => false end.

Definition condition_coverage (t f : Z) : cov :=
  CStr (if (t =? 0) && (f =? 0) then "0/2" else if (t =? 0) || (f =? 0) then "1/2" else "2/2").

(** The coverage, type and complexity of a line. *)
Definition line_of (l : elem) : result (cov * CoverageType * cplx) :=
  type ← attr l "type";
  if String.eqb type "cond" then
    t ← int_attr l "truecount"; f ← int_attr l "falsecount";
    Ok (condition_coverage t f, branch, CxNone)
  else
    count ← int_or_0 (attr_get l "count");
    if String.eqb type "method" then
      complexity ← int_or_0 (attr_get l "complexity"); Ok (CInt count, method, CxInt complexity)
    else Ok (CInt count, line, CxNone).

Definition line_step (eof : option Z) (s : ReportBuilderSession) (f : ReportFile.t) (l : elem) : result ReportFile.t :=
  ln ← int_attr l "num";
  if (ln <? 1) || past_end eof ln then Ok f
  else
    '(coverage, type, complexity) ← line_of l;
    add_line f ln (create_coverage_line s coverage (Some type) None None complexity).

Definition filename_of (file : elem) : result string :=
  let path := attr_or file "path" "" in if bool_decide (path = "") then attr file "name" else Ok path.

Definition skipped_file (filename : string) (file : elem) : bool :=
  str_contains "{" filename || str_contains "/vendor/" ("/" +:+ filename) && endswith ".php" filename
  || negb (bool_decide (is_Some (find_child "line" file))).

Definition file_step (s : ReportBuilderSession) (file : elem) : result ReportBuilderSession :=
  filename ← filename_of file;
  if skipped_file filename file then Ok s
  else
    '(o, s) ← create_coverage_file cwd s filename true;
    match o with
    | None => Ok s
    | Some f =>
        f ← foldM (line_step (get_end_of_file filename file) s) f (iter "line" file);
        append_file s f
    end.

Definition from_xml (xml : elem) (s : ReportBuilderSession) : result ReportBuilderSession :=
  _ ← check_generated s xml;
  foldM file_step s (iter "file" xml).
End clover.
End Clover.

(** ** Specification: a source file of a JaCoCo document *)

(** A line: its covered instructions, and its missed and covered branches; a method: the
    line it starts on, and the missed and covered paths of its complexity counter. *)
Record jline : Type := mkJline { j_nr : Z; j_ci : Z; j_mb : Z; j_cb : Z }.
Record jmethod : Type := mkJmethod { jm_line : Z; jm_missed : Z; jm_covered : Z }.

Definition jline_attrs (l : jline) : list (string * string) :=
  [("nr", str_of_Z (j_nr l)); ("ci", str_of_Z (j_ci l)); ("mb", str_of_Z (j_mb l)); ("cb", str_of_Z (j_cb l))].
Definition print_jline (l : jline) : tree := leaf_tree "line" (jline_attrs l).
Definition print_jmethod (m : jmethod) : tree :=
  Tree "method" [("line", str_of_Z (jm_line m))] None
    [leaf_tree "counter" [("type", "LINE"); ("missed", "0"); ("covered", "1")];
     leaf_tree "counter" [("type", "COMPLEXITY"); ("missed", str_of_Z (jm_missed m)); ("covered", str_of_Z (jm_covered m))]].
Definition print_source (name : string) (ls : list jline) : tree := Tree "sourcefile" [("name", name)] None (print_jline <$> ls).
Definition print_jclass (class_name : string) (ms : list jmethod) : tree :=
  Tree "class" [("name", class_name)] None (print_jmethod <$> ms).
Definition source_of (base name : string) : string := base +:+ "/" +:+ name.
Definition print_package (base name : string) (ms : list jmethod) (ls : list jline) : tree :=
  Tree "package" [("name", base)] None
    [print_jclass (Jacoco.class_of (source_of base name)) ms; print_source name ls].
Definition print_jacoco (project base name : string) (ms : list jmethod) (ls : list jline) : tree :=
  Tree "report" [("name", project)] None [print_package base name ms ls].

Definition jline_ok (l : jline) : Prop := 1 <= j_nr l /\ 0 <= j_ci l < 2 ^ 63 /\ 0 <= j_mb l /\ 0 <= j_cb l.
Definition jmethod_ok (m : jmethod) : Prop := 1 <= jm_line m /\ 0 <= jm_missed m /\ 0 <= jm_covered m.

(** The complexity of the last method that starts on a line. *)
Definition complexity_on (ms : list jmethod) (ln : Z) : option (Z * Z) :=
  (fun m => (jm_covered m, jm_missed m + jm_covered m)) <$> last (filter (fun m => jm_line m = ln) ms).

Definition jline_coverage (partials_as_hits : bool) (l : jline) : cov * CoverageType :=
  let n := j_mb l + j_cb l in
  if n =? 0 then (CInt (j_ci l), line)
  else if (0 <? j_cb l) && (0 <? j_mb l) && partials_as_hits then (CInt 1, branch)
  else (CStr (frac_str (j_cb l) n), branch).

Definition jacoco_line (partials_as_hits : bool) (ms : list jmethod) (s : ReportBuilderSession) (l : jline) : ReportLine :=
  let '(c, t) := jline_coverage partials_as_hits l in
  match complexity_on ms (j_nr l) with
  | Some (a, b) => create_coverage_line s c (Some method) None None (CxPair a b)
  | None => create_coverage_line s c (Some t) None None CxNone
  end.

Section jacoco_spec.
Context `{OrJson, Timestring}.
Variable cwd : string.
#[local] Existing Instance tree_etree.
Import Jacoco.

Lemma str_of_Z_eq0 z : 0 <= z -> (str_of_Z z =? "0")%string = (z =? 0).
Proof.
  intros Hz. destruct (Z.eqb_spec z 0) as [->|Hne]; [done|]. apply String.eqb_neq. intros E.
  apply Hne. by apply str_of_Z_0.
Qed.

Lemma jline_coverage_run p l above :
  jline_ok l -> line_coverage p (mkNode (print_jline l) above) = Ok (jline_coverage p l).
Proof.
  intros (_ & _ & Hm & Hc). unfold line_coverage, int_attr, attr. cbn [attrib tree_etree n_tree print_jline leaf_tree t_attrib]. unfold jline_attrs.
  rewrite !(od_get_find (V := string)). cbn [od_find String.eqb Ascii.eqb Bool.eqb mbind result_bind].
  rewrite !str_of_Z_eq0 by done. unfold jline_coverage. rewrite !int_of_str_of_Z. cbn [mbind result_bind].
  destruct (Z.eqb_spec (j_mb l) 0) as [E|E]; cbn [negb].
  - rewrite E, Z.add_0_l. destruct (Z.eqb_spec (j_cb l) 0) as [E'|E']; cbn [negb]; [done|].
    unfold branch_coverage. fold (frac_str (j_cb l) (j_cb l)). rewrite branch_type_frac by lia. cbn [mbind result_bind].
    unfold frac_type. rewrite Z.eqb_refl, andb_false_r. done.
  - rewrite (proj2 (Z.eqb_neq (j_mb l + j_cb l) 0)) by lia.
    unfold branch_coverage. fold (frac_str (j_cb l) (j_mb l + j_cb l)). rewrite branch_type_frac by lia. cbn [mbind result_bind].
    unfold frac_type. rewrite (proj2 (Z.eqb_neq (j_cb l) (j_mb l + j_cb l))) by lia.
    rewrite (proj2 (Z.ltb_lt 0 (j_mb l))) by lia. rewrite andb_true_r.
    destruct (Z.eqb_spec (j_cb l) 0) as [->|]; [done|]. rewrite (proj2 (Z.ltb_lt 0 (j_cb l))) by lia. by destruct p.
Qed.

Lemma method_steps ms above : forall d,
  Forall jmethod_ok ms ->
  exists d', foldM method_step d ((fun m => mkNode (print_jmethod m) above) <$> ms) = Ok d' /\
    forall ln, od_get ln d' = match complexity_on ms ln with Some c => Some c | None => od_get ln d end.
Proof.
  induction ms as [|m ms IH] using rev_ind; intros d Hms; [by exists d|].
  apply Forall_app in Hms as [Hms [(Hl & _ & _) _]%Forall_cons].
  destruct (IH d Hms) as (d' & Hrun & Hget). exists (od_set (jm_line m) (jm_covered m, jm_missed m + jm_covered m) d').
  rewrite fmap_app, foldM_app, Hrun. cbn [mbind result_bind fmap list_fmap foldM]. split.
  - assert (E : method_step d' (mkNode (print_jmethod m) above) = Ok (od_set (jm_line m) (jm_covered m, jm_missed m + jm_covered m) d')).
    { unfold method_step, attr_or, attr_get. cbn [attrib tree_etree n_tree print_jmethod t_attrib]. od_lookup.
      rewrite int_of_str_of_Z. cbn [mbind result_bind]. rewrite (proj2 (Z.ltb_lt _ _)) by lia.
      change (@iter tree_etree) with n_iter. rewrite iter_below by done. cbn [t_children print_jmethod flat_map].
      rewrite !iter_leaf, !decide_True by done. cbn [app first_complexity]. unfold attr, int_attr, attr.
      cbn [attrib tree_etree n_tree leaf_tree t_attrib]. rewrite !(od_get_find (V := string)).
      cbn [od_find String.eqb Ascii.eqb Bool.eqb mbind result_bind]. rewrite !int_of_str_of_Z. done. }
    by rewrite E.
  - intros ln. unfold complexity_on in *. rewrite filter_app. destruct (decide (ln = jm_line m)) as [->|Hne].
    + rewrite od_get_set_eq, filter_cons_True, filter_nil by done. by rewrite last_snoc.
    + rewrite od_get_set_ne, Hget by done. rewrite filter_cons_False, filter_nil, app_nil_r by congruence. done.
Qed.

Lemma jline_step p d ms s f l above :
  jline_ok l -> (forall ln, od_get ln d = complexity_on ms ln) ->
  line_step p d s f (mkNode (print_jline l) above) = add_line f (j_nr l) (jacoco_line p ms s l).
Proof.
  intros Hl Hd. unfold line_step. rewrite jline_coverage_run by done. cbn [mbind result_bind]. unfold int_attr, attr.
  cbn [attrib tree_etree n_tree print_jline leaf_tree t_attrib]. unfold jline_attrs. rewrite (od_get_find "nr").
  cbn [od_find String.eqb Ascii.eqb Bool.eqb mbind result_bind]. rewrite int_of_str_of_Z. cbn [mbind result_bind].
  destruct Hl as (Hn & _). rewrite (proj2 (Z.ltb_lt _ _)) by lia. rewrite Hd. unfold jacoco_line.
  destruct (jline_coverage p l) as [c t]. by destruct (complexity_on ms (j_nr l)) as [[a b]|].
Qed.

Lemma jacoco_line_ok p ms s l : jline_ok l -> entry_ok true (j_nr l, jacoco_line p ms s l).
Proof.
  intros (Hn & Hci & Hm & Hc). split; [done|]. cbn [snd]. unfold jacoco_line, jline_coverage.
  assert (Hok : forall c t x, plain_cov c -> cplx_kind true x = true -> line_ok true (create_coverage_line s c t None None x)).
  { intros c t x Hp Hx. unfold create_coverage_line. split_and!; [done | apply NoDup_singleton | by repeat constructor]. }
  destruct (j_mb l + j_cb l =? 0); [|destruct (_ && _)]; destruct (complexity_on ms (j_nr l)) as [[a b]|];
    apply Hok; try done; constructor; lia.
Qed.

Lemma fixed_same s path o s' : fixed_path cwd s path = Ok (o, s') -> same_session s s'.
Proof. unfold fixed_path. intros ([o' pf] & _ & [= _ <-])%bind_Ok_inv. by exists pf. Qed.

Lemma try_same project s path o s' : try_to_fix_path cwd project s path = Ok (o, s') -> same_session s s'.
Proof.
  unfold try_to_fix_path. case_bool_decide; [apply fixed_same|].
  intros ([o1 s1] & Hs1%fixed_same & Hr)%bind_Ok_inv. etrans; [exact Hs1|]. destruct (some_path o1); [injection Hr as _ <-; reflexivity|].
  apply bind_Ok_inv in Hr as ([o2 s2] & Hs2%fixed_same & Hr). etrans; [exact Hs2|].
  destruct (some_path o2); [injection Hr as _ <-; reflexivity | by apply fixed_same in Hr].
Qed.

Lemma jacoco_parts project base name ms ls :
  iter "package" (document (print_jacoco project base name ms ls)) =
    [mkNode (print_package base name ms ls) [print_jacoco project base name ms ls]].
Proof.
  change (@iter tree_etree) with n_iter. unfold document. rewrite iter_below by done.
  cbn [t_children print_jacoco flat_map]. rewrite iter_tree, decide_True, app_nil_r by done. f_equal.
  cbn [t_children print_package flat_map]. rewrite iter_below, iter_below by done.
  cbn [t_children print_jclass print_source]. rewrite app_nil_r.
  rewrite flat_map_fmap, flat_map_none.
  - unfold print_jline. by rewrite (iter_no_leaves "package" "line" jline_attrs).
  - intros m _. rewrite iter_below by done. cbn [t_children print_jmethod flat_map]. by rewrite !iter_leaf_ne.
Qed.
Lemma package_parts base name ms ls above :
  let p := print_package base name ms ls in
  iter "class" (mkNode p above) = [mkNode (print_jclass (class_of (source_of base name)) ms) (p :: above)] /\
  iter "sourcefile" (mkNode p above) = [mkNode (print_source name ls) (p :: above)].
Proof.
  intros p. change (@iter tree_etree) with n_iter. split; rewrite iter_below by done; cbn [t_children p print_package flat_map].
  - rewrite iter_tree, decide_True by done. cbn [t_children print_jclass app].
    rewrite flat_map_fmap, flat_map_none.
    + cbn [app]. f_equal. rewrite app_nil_r, iter_below by done. cbn [t_children print_source].
      unfold print_jline. by rewrite (iter_no_leaves "class" "line" jline_attrs).
    + intros m _. rewrite iter_below by done. cbn [t_children print_jmethod flat_map]. by rewrite !iter_leaf_ne.
  - rewrite iter_below by done. cbn [t_children print_jclass].
    rewrite flat_map_fmap, flat_map_none.
    + cbn [app]. rewrite app_nil_r, iter_tree, decide_True by done. cbn [app t_children print_source]. f_equal.
      unfold print_jline. by rewrite (iter_no_leaves "sourcefile" "line" jline_attrs).
    + intros m _. rewrite iter_below by done. cbn [t_children print_jmethod flat_map]. by rewrite !iter_leaf_ne.
Qed.

Lemma class_methods c ms above :
  iter "method" (mkNode (print_jclass c ms) above) = (fun m => mkNode (print_jmethod m) (print_jclass c ms :: above)) <$> ms.
Proof.
  change (@iter tree_etree) with n_iter. rewrite iter_below by done. cbn [t_children print_jclass]. rewrite flat_map_fmap.
  apply flat_map_single. intros m _. rewrite iter_tree, decide_True by done. cbn [t_children print_jmethod flat_map].
  by rewrite !iter_leaf_ne.
Qed.

Lemma source_lines name ls above :
  iter "line" (mkNode (print_source name ls) above) = (fun l => mkNode (print_jline l) (print_source name ls :: above)) <$> ls.
Proof.
  change (@iter tree_etree) with n_iter. rewrite iter_below by done. cbn [t_children print_source]. unfold print_jline.
  by rewrite (iter_leaves "line" jline_attrs).
Qed.

Definition jacoco_lines (p : bool) (ms : list jmethod) (s : ReportBuilderSession) (ls : list jline) : list (Z * ReportLine) :=
  (fun l => (j_nr l, jacoco_line p ms s l)) <$> ls.

Definition fixed_file (s : ReportBuilderSession) (p : string) : ReportFile.t :=
  empty_file p (od_get p (ignored_lines (_report_builder s))).

(** The file of a source, when the fixer accepts it. *)
Lemma source_run p project base name d ms s s1 ls fname above :
  (forall ln, od_get ln d = complexity_on ms ln) ->
  try_to_fix_path cwd project s (source_of base name) = Ok (Some fname, s1) -> fname <> "" ->
  Report.r_files (_report s) = [] -> Forall jline_ok ls -> NoDup (j_nr <$> ls) ->
  (exists l, l ∈ ls /\ ReportFile.ignored (fixed_file s fname) (j_nr l) = false) ->
  exists f r, source_step cwd p project base [(class_of (source_of base name), d)] s (mkNode (print_source name ls) above) =
      Ok (with_report r s1) /\
    Report.r_files r = [(fname, f)] /\
    forall ln, 1 <= ln -> ReportFile.get f ln =
      Ok (if ReportFile.ignored (fixed_file s fname) ln then None else od_get ln (jacoco_lines p ms s ls)).
Proof.
  intros Hd Hfix Hne Hfiles Hls Hnd (l & Hl & Hig). set (f0 := fixed_file s fname) in *.
  pose proof (try_same _ _ _ _ _ Hfix) as [pf ->].
  destruct (append_lines_run true f0 (jacoco_lines p ms s ls)) as (f & Hrun & Hok & Hlike & Hget).
  - apply empty_file_ok.
  - unfold jacoco_lines. apply Forall_fmap. eapply Forall_impl; [exact Hls|]. intros. by apply jacoco_line_ok.
  - unfold jacoco_lines. by rewrite <- list_fmap_compose.
  - intros ln. apply empty_file_get.
  - destruct (append_new_file true (with_path_fixer pf s) f) as (r & Happ & Hr); [done | by rewrite (proj1 Hlike) | done | |].
    { exists (j_nr l), (jacoco_line p ms s l). rewrite Forall_forall in Hls. pose proof (Hls l Hl) as [Hn _].
      split; [done|]. rewrite Hget, Hig by done. f_equal. apply od_elem_get.
      - unfold od_wf, od_keys, jacoco_lines. by rewrite <- list_fmap_compose.
      - unfold jacoco_lines. apply list_elem_of_fmap. by exists l. }
    exists f, r. rewrite (proj1 Hlike) in Hr. split_and!; [|done|done].
    unfold source_step, attr. change (@attrib tree_etree (mkNode (print_source name ls) above)) with [("name", name)].
    rewrite (od_get_find "name"). cbn [od_find String.eqb Ascii.eqb Bool.eqb mbind result_bind].
    fold (source_of base name). rewrite Hfix. cbn [mbind result_bind]. unfold create_coverage_file. cbn [mbind result_bind].
    rewrite bool_decide_false by done.
    change (ReportFile.init fname None None None _) with (Ok f0). cbn [mbind result_bind].
    cbn [od_get]. rewrite decide_True by done. cbn [default id from_option]. rewrite source_lines, foldM_fmap.
    rewrite (foldM_ext _ (fun f l => add_line f (j_nr l) (jacoco_line p ms s l))).
    + unfold append_lines, jacoco_lines in Hrun. rewrite foldM_fmap in Hrun. cbn [fst snd] in Hrun. rewrite Hrun. exact Happ.
    + intros g l' Hl'. rewrite (jline_step p d ms (with_path_fixer pf s) g l'); [done | | done].
      rewrite Forall_forall in Hls. by apply Hls.
Qed.

(** A source file of a JaCoCo document is read back.  Each line has its covered
    branches over all of them, a hit when they were taken in part and the option says so,
    or its covered instructions when it has no branches; where a method of the class
    starts, it is the line of a method with the covered and all paths of the last such
    method.  The file is in the report under the first name the fixer accepts among the
    path in the project, in its Java sources, and alone, or nowhere. *)
Theorem jacoco_document (s s1 : ReportBuilderSession) (project base name : string) (ms : list jmethod) (ls : list jline)
    (v : pyval) (fixed : option string) :
  let doc := document (print_jacoco project base name ms ls) in
  check_session s doc = Ok tt -> yaml_field s ["parsers"; "jacoco"; "partials_as_hits"] (VBool false) = Ok v ->
  str_contains "$" (class_of (source_of base name)) = false ->
  Report.r_files (_report s) = [] -> Forall jmethod_ok ms -> Forall jline_ok ls -> NoDup (j_nr <$> ls) ->
  try_to_fix_path cwd (project_of doc) s (source_of base name) = Ok (fixed, s1) -> fixed <> Some "" ->
  (forall p, fixed = Some p -> exists l, l ∈ ls /\ ReportFile.ignored (fixed_file s p) (j_nr l) = false) ->
  exists s', from_xml cwd doc s = Ok s' /\
    match fixed with
    | None => Report.r_files (_report s') = []
    | Some p => exists f, Report.r_files (_report s') = [(p, f)] /\
        forall ln, 1 <= ln -> ReportFile.get f ln =
          Ok (if ReportFile.ignored (fixed_file s p) ln then None else od_get ln (jacoco_lines (truthy v) ms s ls))
    end.
Proof.
  intros doc Ht Hv Hdollar Hfiles Hms Hls Hnd Hfix Hne Hl. unfold from_xml. rewrite Ht, Hv. cbn [mbind result_bind].
  unfold doc in *. clear doc. rewrite jacoco_parts. cbn [foldM]. unfold package_step, attr.
  change (@attrib tree_etree (mkNode (print_package base name ms ls) _)) with [("name", base)].
  rewrite (od_get_find "name"). cbn [od_find String.eqb Ascii.eqb Bool.eqb mbind result_bind].
  destruct (package_parts base name ms ls [print_jacoco project base name ms ls]) as [-> ->]. cbn [foldM].
  unfold class_step, attr. change (@attrib tree_etree (mkNode (print_jclass _ ms) _)) with [("name", class_of (source_of base name))].
  rewrite (od_get_find "name"). cbn [od_find String.eqb Ascii.eqb Bool.eqb mbind result_bind]. rewrite Hdollar.
  rewrite class_methods. cbn [od_get default id from_option].
  destruct (method_steps ms (print_jclass (class_of (source_of base name)) ms ::
    [print_package base name ms ls; print_jacoco project base name ms ls]) [] Hms) as (d & Hd & Hget).
  rewrite Hd. cbn [mbind result_bind od_set]. destruct fixed as [p|].
  - destruct (source_run (truthy v) (@project_of tree_etree (document (print_jacoco project base name ms ls))) base name d ms s s1 ls p
      [print_package base name ms ls; print_jacoco project base name ms ls]) as (f & r & Hrun & Hr & Hlines);
      [| done | congruence | done | done | done | by apply Hl |].
    { intros ln. rewrite Hget. by destruct (complexity_on ms ln). }
    match goal with |- exists s', (?t ≫= _) ≫= _ = _ /\ _ =>
      replace t with (Ok (with_report r s1)) by (symmetry; exact Hrun) end.
    cbn [mbind result_bind]. eexists. split; [done|]. exists f. by split.
  - unfold source_step, attr. change (@attrib tree_etree (mkNode (print_source name ls) _)) with [("name", name)].
    rewrite (od_get_find "name"). cbn [od_find String.eqb Ascii.eqb Bool.eqb mbind result_bind].
    fold (source_of base name). rewrite Hfix. cbn [mbind result_bind]. eexists. split; [done|].
    pose proof (try_same _ _ _ _ _ Hfix) as [pf ->]. exact Hfiles.
Qed.
End jacoco_spec.

Definition example_lines : list jline := [mkJline 3 2 0 0; mkJline 4 1 1 1; mkJline 7 0 2 0].
Definition example_methods : list jmethod := [mkJmethod 3 1 2].

Lemma jacoco_document_witness :
  exists s' f, Jacoco.from_xml (H := codec) (H0 := tree_etree) (H1 := number_dates) "/w"
      (document (print_jacoco "p" "org" "A.java" example_methods example_lines)) example_builder_session = Ok s' /\
    Report.r_files (_report s') = [("p/org/A.java", f)] /\
    ReportFile.get (H := codec) f 3 = Ok (Some (create_coverage_line example_builder_session (CInt 2) (Some method) None None (CxPair 2 3))) /\
    ReportFile.get (H := codec) f 4 = Ok (Some (create_coverage_line example_builder_session (CStr "1/2") (Some branch) None None CxNone)).
Proof.
  destruct (jacoco_document (H := codec) (H0 := number_dates) "/w" example_builder_session
    (with_path_fixer (mkBase [(("p/org/A.java", []), Some "p/org/A.java")] example_fixer []) example_builder_session)
    "p" "org" "A.java" example_methods example_lines (VBool false) (Some "p/org/A.java")) as (s' & Hs' & f & Hf & Hget).
  - vm_compute. reflexivity.
  - vm_compute. reflexivity.
  - vm_compute. reflexivity.
  - reflexivity.
  - repeat constructor; cbn; lia.
  - repeat constructor; cbn; lia.
  - apply (bool_decide_unpack _). vm_compute. exact I.
  - vm_compute. reflexivity.
  - discriminate.
  - intros p _. exists (mkJline 3 2 0 0). split; [left | reflexivity].
  - exists s', f. split; [exact Hs'|]. split; [exact Hf|]. split; (rewrite Hget by lia; vm_compute; reflexivity).
Defined.
