(* ===== verification/XmlSpec.v ===== *)
(** * The XML formats agree with the JSON formats

    The same counts printed as a Mono, SCoverage, OpenCover or Visual Studio
    document are read into the report the JSON formats are read into: the
    parsers that make all their files first and append them at the end build
    what the parsers that go file by file build. *)
From S2P Require Import JsonCodec.
From S2P Require Export JsonFormats XmlFormats.
#[local] Open Scope string_scope.
#[local] Open Scope Z_scope.
#[local] Open Scope list_scope.

(** ** Making files and appending them *)

Lemma create_with_report cwd r s path b :
  create_coverage_file cwd (with_report r s) path b =
  ('(o, s') ← create_coverage_file cwd s path b; Ok (o, with_report r s')).
Proof.
  unfold create_coverage_file. destruct b; [|cbn [mbind result_bind]; by case_match].
  cbn [with_report _report_builder].
  destruct (fix_path cwd (path_fixer (_report_builder s)) path []) as [[o pf]|]; [|done]. cbn [mbind result_bind].
  destruct o as [p|]; [|done]. by case_match.
Qed.

Lemma append_with_fixer `{OrJson} pf s f :
  append_file (with_path_fixer pf s) f = (s' ← append_file s f; Ok (with_path_fixer pf s')).
Proof.
  unfold append_file, append. cbn [with_path_fixer _report].
  by destruct (Report.append (_report s) (Some f) true false) as [[b r]|].
Qed.

Lemma append_file_run `{OrJson} s f s' : append_file s f = Ok s' -> exists r, s' = with_report r s.
Proof.
  unfold append_file, append. intros ([b s1] & ([b' r] & _ & [= _ <-])%bind_Ok_inv & [= <-])%bind_Ok_inv. by exists r.
Qed.

Lemma append_hits_same `{OrJson} s s' ty f das :
  same_session s s' -> append_hits s' ty f das = append_hits s ty f das.
Proof. intros Hs. apply foldM_ext. intros g d _. by rewrite (hit_line_same s s'). Qed.

Lemma append_hits_report `{OrJson} r s ty f das : append_hits (with_report r s) ty f das = append_hits s ty f das.
Proof. done. Qed.

Section gather.
Context `{OrJson}.
Variable cwd : string.

(** The files of a list of counts by their names, not yet in the report. *)
Definition gather_step (st : ReportBuilderSession * odict string (option ReportFile.t)) (src : source)
    : result (ReportBuilderSession * odict string (option ReportFile.t)) :=
  let '(s, os) := st in
  '(o, s) ← create_coverage_file cwd s src.1 true;
  match o with
  | None => Ok (s, os ++ [(src.1, None)])
  | Some f => f ← append_hits s (fun _ => None) f (counted src.2); Ok (s, os ++ [(src.1, Some f)])
  end.

Definition gather_from (s : ReportBuilderSession) (os : odict string (option ReportFile.t)) (files : list source) :=
  foldM gather_step (s, os) files.

Lemma gather_acc files : forall s os,
  gather_from s os files = ('(s', os') ← gather_from s [] files; Ok (s', os ++ os')).
Proof.
  induction files as [|src files IH]; intros s os; [cbn; by rewrite app_nil_r|].
  unfold gather_from in *. cbn [foldM gather_step].
  destruct (create_coverage_file cwd s src.1 true) as [[[f|] s1]|]; [| |done]; cbn [mbind result_bind].
  - destruct (append_hits s1 (fun _ => None) f (counted src.2)) as [f1|]; [|done]. cbn [mbind result_bind].
    rewrite (IH s1 (os ++ _)), (IH s1 ([] ++ _)).
    destruct (foldM gather_step (s1, []) files) as [[s' os']|]; [|done]. cbn. by rewrite <- app_assoc.
  - rewrite (IH s1 (os ++ _)), (IH s1 ([] ++ _)).
    destruct (foldM gather_step (s1, []) files) as [[s' os']|]; [|done]. cbn. by rewrite <- app_assoc.
Qed.

Lemma gather_cons s src files :
  gather_from s [] (src :: files) =
  ('(s1, os) ← gather_step (s, []) src; '(s', os') ← gather_from s1 [] files; Ok (s', os ++ os')).
Proof.
  unfold gather_from at 1. cbn [foldM]. destruct (gather_step (s, []) src) as [[s1 os]|]; [|done].
  cbn [mbind result_bind]. apply (gather_acc files s1 os).
Qed.

Lemma gather_report_step r s os files :
  gather_from (with_report r s) [] files = ('(s', os) ← gather_from s [] files; Ok (with_report r s', os)) ->
  gather_from (with_report r s) os files = ('(s', os) ← gather_from s os files; Ok (with_report r s', os)).
Proof.
  intros E. rewrite (gather_acc files (with_report r s)), (gather_acc files s), E.
  by destruct (gather_from s [] files) as [[s' os']|].
Qed.

Lemma gather_with_report r files : forall s,
  gather_from (with_report r s) [] files = ('(s', os) ← gather_from s [] files; Ok (with_report r s', os)).
Proof.
  induction files as [|src files IH]; intros s; [done|].
  unfold gather_from in *. cbn [foldM gather_step]. rewrite create_with_report.
  destruct (create_coverage_file cwd s src.1 true) as [[[f|] s1]|]; [| |done]; cbn [mbind result_bind].
  - rewrite append_hits_report. destruct (append_hits s1 (fun _ => None) f (counted src.2)) as [f1|]; [|done].
    cbn [mbind result_bind]. apply gather_report_step, IH.
  - apply gather_report_step, IH.
Qed.

Lemma gather_same files : forall s s' os, gather_from s [] files = Ok (s', os) -> same_session s s'.
Proof.
  induction files as [|src files IH]; intros s s' os; [cbn; intros [= <- _]; reflexivity|].
  unfold gather_from. cbn [foldM gather_step]. intros ([s1 os1] & Hstep & Hrun)%bind_Ok_inv.
  fold (gather_from s1 os1 files) in Hrun. rewrite gather_acc in Hrun.
  apply bind_Ok_inv in Hrun as ([s2 os2] & Hrun & [= <- <-]). etrans; [|by eapply IH].
  apply bind_Ok_inv in Hstep as ([[f|] s3] & Hc & Hstep); apply create_coverage_file_run in Hc as [Hc _].
  - apply bind_Ok_inv in Hstep as (f1 & _ & [= <- _]). exact Hc.
  - injection Hstep as <- _. exact Hc.
Qed.

(** A report built file by file is the gathered files, appended. *)
Lemma hit_report_gather files : forall s s',
  hit_report cwd s files = Ok s' ->
  exists s1 os, gather_from s [] files = Ok (s1, os) /\ append_some s1 os = Ok s'.
Proof.
  induction files as [|src files IH]; intros s s'; [intros [= <-]; by exists s, []|].
  unfold hit_report. cbn [foldM]. intros (s2 & Hstep & (s3 & os & Hg & Ha)%IH)%bind_Ok_inv.
  unfold hit_file, build_file in Hstep. cbn [as_str mbind result_bind] in Hstep.
  apply bind_Ok_inv in Hstep as ([o s1] & Hc & Hstep). rewrite gather_cons. cbn [gather_step]. rewrite Hc.
  cbn [mbind result_bind]. destruct o as [f|].
  - apply bind_Ok_inv in Hstep as (f1 & Hf & Happ). rewrite Hf. cbn [mbind result_bind].
    destruct (append_file_run _ _ _ Happ) as [r ->]. rewrite gather_with_report in Hg.
    apply bind_Ok_inv in Hg as ([s4 os'] & Hg & [= <- <-]). rewrite Hg. cbn [mbind result_bind].
    exists s4, ((src.1, Some f1) :: os'). split; [done|].
    unfold append_some, od_vals. cbn [fmap list_fmap snd foldM append_if]. destruct (gather_same _ _ _ _ Hg) as [pf ->]. rewrite append_with_fixer, Happ.
    cbn [mbind result_bind]. exact Ha.
  - injection Hstep as <-. cbn [mbind result_bind]. rewrite Hg. cbn [mbind result_bind]. by exists s3, ((src.1, None) :: os).
Qed.
End gather.

(** ** Documents *)

Definition mono_method (f : source) : tree :=
  Tree "method" [("filename", f.1)] None
    ((fun d : Z * Z => leaf_tree "statement" [("counter", str_of_Z d.2); ("line", str_of_Z d.1)]) <$> counted f.2).
Definition to_mono (files : list source) : tree :=
  Tree "coverage" [] None (leaf_tree "assembly" [] :: (mono_method <$> files)).

Definition text_tree (g t : string) : tree := Tree g [] (Some t) [].
Definition scoverage_statement (f : source) (d : Z * Z) : tree :=
  Tree "statement" [] None
    [text_tree "source" f.1; text_tree "line" (str_of_Z d.1); text_tree "count" (str_of_Z d.2)].
Definition to_scoverage (files : list source) : tree :=
  Tree "statements" [] None (flat_map (fun f => scoverage_statement f <$> counted f.2) files).

Definition csharp_file (f : source) : tree := leaf_tree "File" [("uid", f.1); ("fullPath", f.1)].
Definition csharp_method (f : source) : tree :=
  Tree "Method" [] None
    (leaf_tree "FileRef" [("uid", f.1)] ::
     ((fun d : Z * Z => leaf_tree "SequencePoint"
         [("vc", str_of_Z d.2); ("sl", str_of_Z d.1); ("el", str_of_Z d.1)]) <$> counted f.2)).
Definition to_csharp (files : list source) : tree :=
  Tree "CoverageSession" [] None ((csharp_file <$> files) ++ (csharp_method <$> files)).

Definition yes_no (z : Z) : string := if z =? 0 then "no" else "yes".
Definition vb_module (f : source) : tree :=
  Tree "module" [] None
    (leaf_tree "source_file" [("id", f.1); ("path", f.1)] ::
     ((fun d : Z * Z => leaf_tree "range" [("source_id", f.1); ("covered", yes_no d.2);
        ("start_line", str_of_Z d.1); ("end_line", str_of_Z d.1)]) <$> counted f.2)).
Definition to_vb (files : list source) : tree := Tree "results" [] None (vb_module <$> files).

Section agree.
Context `{OrJson}.
Variable cwd : string.
#[local] Existing Instance tree_etree.

Lemma int_attr_get n k v z : od_get k (t_attrib (n_tree n)) = Some v -> int_of_str v = Ok z -> int_attr n k = Ok z.
Proof. intros E Hv. unfold int_attr, attr. cbn [attrib tree_etree]. by rewrite E. Qed.

(** [iter] on a document of [tree]s, computed along its constructors. *)
Ltac iter_step :=
  match goal with
  | |- context [n_iter ?g (mkNode ?t ?above)] => rewrite (iter_below g t above) by discriminate
  end.

Lemma mono_methods files :
  iter "method" (document (to_mono files)) = (fun f => mkNode (mono_method f) [to_mono files]) <$> files.
Proof.
  change (n_iter "method" (mkNode (to_mono files) []) = (fun f => mkNode (mono_method f) [to_mono files]) <$> files).
  iter_step. cbn [t_children to_mono flat_map]. rewrite iter_leaf_ne by done. cbn [app].
  rewrite flat_map_fmap. apply flat_map_single. intros f _. rewrite iter_tree, decide_True by done.
  cbn [t_children mono_method]. by rewrite iter_no_leaves.
Qed.

Lemma mono_statements f above :
  iter "statement" (mkNode (mono_method f) above) =
  (fun d : Z * Z => mkNode (leaf_tree "statement" [("counter", str_of_Z d.2); ("line", str_of_Z d.1)]) (mono_method f :: above))
    <$> counted f.2.
Proof.
  change (n_iter "statement" (mkNode (mono_method f) above) = 
    (fun d : Z * Z => mkNode (leaf_tree "statement" [("counter", str_of_Z d.2); ("line", str_of_Z d.1)]) (mono_method f :: above))
    <$> counted f.2).
  iter_step. cbn [t_children mono_method]. by rewrite (iter_leaves "statement").
Qed.

(** The files of the entries. *)
Definition kept (os : odict string (option ReportFile.t)) : odict string ReportFile.t :=
  omap (M := list) (fun e : string * option ReportFile.t => (fun f => (e.1, f)) <$> e.2) os.

Lemma append_kept os : forall s, append_all s (kept os) = append_some s os.
Proof.
  induction os as [|[k [f|]] os IH]; intros s; [done| |].
  - unfold append_all, append_some, od_vals in *. cbn [kept omap list_omap fmap option_fmap option_map list_fmap fst snd foldM append_if].
    destruct (append_file s f) as [s'|]; [apply IH | done].
  - apply IH.
Qed.

Lemma kept_app os os' : kept (os ++ os') = kept os ++ kept os'.
Proof. apply omap_app. Qed.

Lemma kept_keys k os : k ∈ od_keys (kept os) -> k ∈ od_keys os.
Proof.
  unfold kept, od_keys. intros ([k' f] & -> & Hin)%list_elem_of_fmap. apply list_elem_of_omap in Hin as ([k0 [f0|]] & Hin & E); [|done].
  injection E as -> ->. apply (list_elem_of_fmap_2 fst _ _ Hin).
Qed.

(** A step that makes the file of a name and adds its lines, on the files of a condition;
    the dictionary has all names, or the files there are. *)
Class Entries {V} (conv : odict string (option ReportFile.t) -> odict string V) : Prop := {
  conv_app os os' : conv (os ++ os') = conv os ++ conv os';
  conv_keys os : od_keys (conv os) ⊆ od_keys os;
}.
Instance all_entries : Entries id.
Proof. by split. Qed.
Instance kept_entries : Entries kept.
Proof. split; [apply kept_app | intros os k; apply kept_keys]. Qed.

Definition entry_step {V} (conv : odict string (option ReportFile.t) -> odict string V) (P : source -> Prop)
    (step : ReportBuilderSession * odict string V -> source -> result (ReportBuilderSession * odict string V)) : Prop :=
  forall s d f, P f -> f.1 ∉ od_keys d ->
    step (s, d) f = ('(s', os) ← gather_step cwd (s, []) f; Ok (s', d ++ conv os)).

Lemma gather_keys s f s1 os : gather_step cwd (s, []) f = Ok (s1, os) -> od_keys os = [f.1].
Proof.
  cbn [gather_step]. intros ([[g|] s2] & _ & E)%bind_Ok_inv.
  - by apply bind_Ok_inv in E as (g' & _ & [= _ <-]).
  - by injection E as _ <-.
Qed.

Lemma fresh_app {V} (d e : odict string V) f (files : list source) :
  od_keys e ⊆ [f.1] -> f.1 ∉ files.*1 -> (forall f', f' ∈ f :: files -> f'.1 ∉ od_keys d) ->
  forall f', f' ∈ files -> f'.1 ∉ od_keys (d ++ e).
Proof.
  intros He Hf Hd f' Hf'. unfold od_keys in *. rewrite fmap_app, elem_of_app.
  intros [Hin|Hin]; [by apply (Hd f'); [right|]|]. apply He, list_elem_of_singleton in Hin.
  apply Hf. rewrite <- Hin. by apply (list_elem_of_fmap_2 fst).
Qed.

Lemma gather_entries {V} conv `{!Entries (V := V) conv} P step files : forall s d,
  entry_step conv P step -> Forall P files -> NoDup files.*1 -> (forall f, f ∈ files -> f.1 ∉ od_keys d) ->
  foldM step (s, d) files = ('(s', os) ← gather_from cwd s [] files; Ok (s', d ++ conv os)).
Proof.
  induction files as [|f files IH]; intros s d Hstep Hall Hnd Hd.
  { assert (E : conv [] = []).
    { pose proof (conv_keys (conv := conv) []) as Hk. destruct (conv []) as [|[k v] l]; [done|].
      exfalso. apply (not_elem_of_nil k), Hk. left. }
    cbn. by rewrite E, app_nil_r. }
  apply NoDup_cons in Hnd as [Hf Hnd]. apply Forall_cons in Hall as [HP Hall].
  cbn [foldM]. rewrite (Hstep s d f HP) by (apply Hd; left). rewrite gather_cons.
  destruct (gather_step cwd (s, []) f) as [[s1 os]|] eqn:E; [|done]. cbn [mbind result_bind].
  rewrite (IH s1 (d ++ conv os)); [|done|done|done|].
  - destruct (gather_from cwd s1 [] files) as [[s' os']|]; [|done]. cbn. by rewrite <- app_assoc, conv_app.
  - apply (fresh_app d _ f); [|done|done]. etrans; [apply conv_keys|]. by rewrite (gather_keys _ _ _ _ E).
Qed.

Lemma od_set_mid {K V} `{EqDecision K} (k : K) (v w : V) d d' :
  k ∉ od_keys d -> od_set k v (d ++ (k, w) :: d') = d ++ (k, v) :: d'.
Proof.
  induction d as [|[k' v'] d IH]; cbn; intros Hk; [by rewrite decide_True|].
  change (k ∉ k' :: od_keys d) in Hk. apply not_elem_of_cons in Hk as [Hne Hk].
  rewrite decide_False by done. f_equal. by apply IH.
Qed.
Lemma od_get_mid {K V} `{EqDecision K} (k : K) (v : V) d d' :
  k ∉ od_keys d -> od_get k (d ++ (k, v) :: d') = Some v.
Proof.
  intros Hk. induction d as [|[k' v'] d IH]; cbn; [by rewrite decide_True|].
  change (k ∉ k' :: od_keys d) in Hk. apply not_elem_of_cons in Hk as [Hne Hk].
  rewrite decide_False by done. by apply IH.
Qed.

Lemma mono_entry above : entry_step id (fun _ => True) (fun st f => Mono.method_step cwd st (mkNode (mono_method f) above)).
Proof.
  intros s d f _ Hf. unfold Mono.method_step, attr. cbn [attrib tree_etree n_tree mono_method t_attrib].
  od_lookup. cbn [mbind result_bind]. unfold file_for. rewrite (proj2 (od_get_None _ _) Hf). cbn [gather_step].
  destruct (create_coverage_file cwd s f.1 true) as [[[g|] s1]|]; [| |done]; cbn [mbind result_bind];
    rewrite od_set_new by done; [|done].
  rewrite mono_statements, foldM_fmap.
  rewrite (foldM_ext _ (fun g d => add_line g d.1 (hit_line s1 None d.2))).
  - unfold append_hits. destruct (foldM _ g (counted f.2)) as [g'|]; [|done]. cbn [mbind result_bind].
    by rewrite od_set_mid.
  - intros g' e _. unfold Mono.statement_step, int_attr, attr. cbn [attrib tree_etree n_tree leaf_tree t_attrib].
    od_lookup. cbn [mbind result_bind]. by rewrite !int_of_str_of_Z.
Qed.

Lemma mono_agrees files s s' :
  NoDup files.*1 -> hit_report cwd s files = Ok s' -> Mono.from_xml cwd (document (to_mono files)) s = Ok s'.
Proof.
  intros Hnd (s1 & os & Hg & Ha)%hit_report_gather. unfold Mono.from_xml. rewrite mono_methods, foldM_fmap.
  rewrite (gather_entries id _ _ files s [] (mono_entry _)); [by rewrite Hg | by apply Forall_true | done |].
  intros f _. apply not_elem_of_nil.
Qed.

Lemma foldM_flat_map {A B S} (g : S -> B -> result S) (h : A -> list B) l : forall s,
  foldM g s (flat_map h l) = foldM (fun s x => foldM g s (h x)) s l.
Proof.
  induction l as [|x l IH]; intros s; [done|]. cbn [flat_map]. rewrite foldM_app. cbn [foldM].
  destruct (foldM g s (h x)) as [s'|]; [apply IH | done].
Qed.

(** The lines of a file that is in the dictionary already, each added through its entry. *)
Lemma fold_entry {S V B} (step : S * odict string V -> B -> result (S * odict string V)) (fill : V -> B -> result V)
    (s : S) k d (l : list B) : forall v,
  (forall v b, b ∈ l -> step (s, d ++ [(k, v)]) b = (v' ← fill v b; Ok (s, d ++ [(k, v')]))) ->
  foldM step (s, d ++ [(k, v)]) l = (v' ← foldM fill v l; Ok (s, d ++ [(k, v')])).
Proof.
  induction l as [|b l IH]; intros v Hstep; [done|]. cbn [foldM]. rewrite Hstep by left.
  destruct (fill v b) as [v'|]; [|done]. cbn [mbind result_bind]. apply IH. intros. apply Hstep. by right.
Qed.

(** *** SCoverage *)

Definition short (f : source) : Prop :=
  counted f.2 <> [] /\ Forall (fun d : Z * Z => (String.length (str_of_Z d.2) <= 5)%nat) (counted f.2).

Lemma scoverage_statements files :
  iter "statement" (document (to_scoverage files)) =
  flat_map (fun f => (fun d => mkNode (scoverage_statement f d) [to_scoverage files]) <$> counted f.2) files.
Proof.
  change (n_iter "statement" (mkNode (to_scoverage files) []) =
    flat_map (fun f => (fun d => mkNode (scoverage_statement f d) [to_scoverage files]) <$> counted f.2) files).
  iter_step. cbn [t_children to_scoverage]. generalize (to_scoverage files). intros t.
  induction files as [|f files IH]; [done|]. cbn [flat_map]. rewrite flat_map_app, IH. f_equal.
  rewrite flat_map_fmap. apply flat_map_single. intros d _. by rewrite iter_tree.
Qed.

Lemma scoverage_line s g f d t :
  (String.length (str_of_Z d.2) <= 5)%nat ->
  SCoverage.statement_line s g (mkNode (scoverage_statement f d) t) = add_line g d.1 (hit_line s None d.2).
Proof.
  intros Hs. unfold SCoverage.statement_line.
  change (child_text _ "line") with (str_of_Z d.1). change (child_text _ "count") with (str_of_Z d.2).
  change (child_text _ "ignored") with ""%string. change (child_text _ "branch") with ""%string.
  rewrite int_of_str_of_Z. cbn [mbind result_bind String.eqb].
  unfold maxint. rewrite (proj2 (Nat.ltb_ge _ _)) by lia. by rewrite int_of_str_of_Z.
Qed.

Definition optional {A} (fill : A -> Z * Z -> result A) (o : option A) (d : Z * Z) : result (option A) :=
  match o with None => Ok None | Some a => a' ← fill a d; Ok (Some a') end.

Lemma foldM_optional {A} (fill : A -> Z * Z -> result A) l : forall o,
  foldM (optional fill) o l = match o with None => Ok None | Some a => a' ← foldM fill a l; Ok (Some a') end.
Proof.
  induction l as [|d l IH]; intros [a|]; cbn [foldM optional]; try done.
  - destruct (fill a d) as [a'|]; [|done]. cbn [mbind result_bind]. apply IH.
  - cbn [mbind result_bind]. apply IH.
Qed.

Definition scoverage_step (above : list tree) (f : source) : files_state -> Z * Z -> result files_state :=
  fun st e => SCoverage.statement_step cwd st (mkNode (scoverage_statement f e) above).

Lemma scoverage_held s k d f e above o :
  f.1 = k -> k ∉ od_keys d -> (String.length (str_of_Z e.2) <= 5)%nat ->
  scoverage_step above f (s, d ++ [(k, o)]) e =
  (o' ← optional (fun g e => add_line g e.1 (hit_line s None e.2)) o e; Ok (s, d ++ [(k, o')])).
Proof.
  intros <- Hk Hs. unfold scoverage_step, SCoverage.statement_step. change (child_text _ "source") with f.1.
  unfold file_for. rewrite od_get_mid by done. cbn [mbind result_bind]. destruct o as [g|]; [|done].
  rewrite scoverage_line by done. cbn [optional].
  destruct (add_line g e.1 (hit_line s None e.2)) as [g'|]; [|done]. cbn [mbind result_bind]. by rewrite od_set_mid.
Qed.

Lemma scoverage_first s d f e above :
  f.1 ∉ od_keys d -> (String.length (str_of_Z e.2) <= 5)%nat ->
  scoverage_step above f (s, d) e =
  ('(o, s') ← create_coverage_file cwd s f.1 true;
   o' ← optional (fun g e => add_line g e.1 (hit_line s' None e.2)) o e; Ok (s', d ++ [(f.1, o')])).
Proof.
  intros Hf Hs. unfold scoverage_step, SCoverage.statement_step. change (child_text _ "source") with f.1.
  unfold file_for. rewrite (proj2 (od_get_None _ _) Hf).
  destruct (create_coverage_file cwd s f.1 true) as [[o s1]|]; [|done]. cbn [mbind result_bind].
  rewrite od_set_new by done. destruct o as [g|]; [|done]. rewrite scoverage_line by done. cbn [optional].
  destruct (add_line g e.1 (hit_line s1 None e.2)) as [g'|]; [|done]. cbn [mbind result_bind]. by rewrite od_set_mid.
Qed.

Lemma scoverage_entry above f s d :
  short f -> f.1 ∉ od_keys d ->
  foldM (SCoverage.statement_step cwd) (s, d) ((fun e => mkNode (scoverage_statement f e) above) <$> counted f.2) =
  ('(s', os) ← gather_step cwd (s, []) f; Ok (s', d ++ os)).
Proof.
  intros [Hne Hs] Hf. rewrite foldM_fmap. fold (scoverage_step above f). cbn [gather_step].
  assert (Hall : forall s' o, foldM (scoverage_step above f)
      (s', d ++ [(f.1, o)]) (counted f.2) =
    (o' ← match o with None => Ok None | Some g => g' ← append_hits s' (fun _ => None) g (counted f.2); Ok (Some g') end;
     Ok (s', d ++ [(f.1, o')]))).
  { intros s' o.
    transitivity (o' ← foldM (optional (fun g e => add_line g e.1 (hit_line s' None e.2))) o (counted f.2);
      Ok (s', d ++ [(f.1, o')])); [|by rewrite foldM_optional].
    apply (fold_entry (scoverage_step above f)).
    intros v e He. apply scoverage_held; [done | done |]. rewrite Forall_forall in Hs. by apply Hs. }
  destruct (counted f.2) as [|e es] eqn:Ec; [done|].
  transitivity ('(o, s') ← create_coverage_file cwd s f.1 true;
    foldM (scoverage_step above f)
      (s', d ++ [(f.1, o)]) (e :: es)).
  - cbn [foldM]. rewrite scoverage_first; [|done | by inversion Hs].
    destruct (create_coverage_file cwd s f.1 true) as [[o s1]|]; [|done]. cbn [mbind result_bind].
    rewrite (scoverage_held s1 f.1 d f e above o); [done | done | done | by inversion Hs].
  - destruct (create_coverage_file cwd s f.1 true) as [[o s1]|]; [|done]. cbn [mbind result_bind]. rewrite Hall.
    destruct o as [g|]; [|done]. by destruct (append_hits s1 (fun _ => None) g (e :: es)).
Qed.

Lemma scoverage_agrees files s s' :
  NoDup files.*1 -> Forall short files -> hit_report cwd s files = Ok s' ->
  SCoverage.from_xml cwd (document (to_scoverage files)) s = Ok s'.
Proof.
  intros Hnd Hs (s1 & os & Hg & Ha)%hit_report_gather. unfold SCoverage.from_xml.
  rewrite scoverage_statements, foldM_flat_map.
  rewrite (gather_entries id short _ files s []); [by rewrite Hg | | done | done | intros f _; apply not_elem_of_nil].
  intros s2 d f Hf. by apply scoverage_entry.
Qed.

(** *** OpenCover *)

(** A file before and after its lines are added. *)
Definition filled (s : ReportBuilderSession) (f : source) (c o : string * option ReportFile.t) : Prop :=
  c.1 = f.1 /\ o.1 = f.1 /\
  foldM (optional (fun g d => add_line g d.1 (hit_line s None d.2))) c.2 (counted f.2) = Ok o.2.

Lemma filled_same s s' f c o : same_session s s' -> filled s f c o -> filled s' f c o.
Proof.
  intros Hs (Hc & Ho & Hf). split_and!; [done | done |]. rewrite <- Hf. apply foldM_ext.
  intros [g|] d _; [|done]. cbn [optional]. by rewrite (hit_line_same s s').
Qed.

(** Making all files first. *)
Definition create_step (st : ids_state) (f : source) : result ids_state :=
  '(o, s) ← create_coverage_file cwd st.1 f.1 true;
  Ok (s, match o with None => st.2 | Some g => od_set f.1 g st.2 end).

Lemma create_all files : forall s d s1 os,
  gather_from cwd s [] files = Ok (s1, os) -> NoDup files.*1 -> (forall f, f ∈ files -> f.1 ∉ od_keys d) ->
  exists cs, foldM create_step (s, d) files = Ok (s1, d ++ kept cs) /\ Forall3 (filled s1) files cs os.
Proof.
  induction files as [|f files IH]; intros s d s1 os Hg Hnd Hd.
  { injection Hg as <- <-. exists []. cbn. rewrite app_nil_r. split; [done | constructor]. }
  apply NoDup_cons in Hnd as [Hf Hnd]. rewrite gather_cons in Hg.
  apply bind_Ok_inv in Hg as ([s2 os1] & Hstep & ([s3 os2] & Hrest & [= -> <-])%bind_Ok_inv).
  pose proof (gather_same _ _ _ _ _ Hrest) as Hsame. cbn [gather_step] in Hstep.
  apply bind_Ok_inv in Hstep as ([o s4] & Hc & Hstep).
  assert (Hone : exists o', os1 = [(f.1, o')] /\ s4 = s2 /\ filled s2 f (f.1, o) (f.1, o')).
  { destruct o as [g|].
    - apply bind_Ok_inv in Hstep as (g' & Hg' & [= -> <-]). exists (Some g'). split_and!; [done | done |].
      unfold filled. cbn [fst snd]. rewrite foldM_optional. unfold append_hits in Hg'. by rewrite Hg'.
    - injection Hstep as -> <-. exists None. split_and!; [done | done |]. unfold filled. cbn [fst snd]. by rewrite foldM_optional. }
  destruct Hone as (o' & -> & -> & Hfill).
  destruct (IH s2 (d ++ kept [(f.1, o)]) s1 os2 Hrest Hnd) as (cs & Hrun & Hall).
  { apply (fresh_app d _ f); [|done|done]. intros k Hk%kept_keys. exact Hk. }
  exists ((f.1, o) :: cs). split; [|constructor; [by apply (filled_same s2) | done]].
  assert (Hone : create_step (s, d) f = Ok (s2, d ++ kept [(f.1, o)])).
  { unfold create_step. cbn [fst snd]. rewrite Hc. cbn [mbind result_bind]. destruct o as [g|]; cbn.
    - by rewrite od_set_new by (apply Hd; left).
    - by rewrite app_nil_r. }
  cbn [foldM]. rewrite Hone. cbn [mbind result_bind]. rewrite Hrun, <- app_assoc. by destruct o.
Qed.

(** Adding the lines of the files that were made. *)
Lemma fill_all (step : odict string ReportFile.t -> source -> result (odict string ReportFile.t)) s1 files : forall cs os d,
  (forall d f, f ∈ files -> od_get f.1 d = None -> (step d f = Ok d)) ->
  (forall d d' f g, f ∈ files -> f.1 ∉ od_keys d ->
    (step (d ++ (f.1, g) :: d') f) = (g' ← append_hits s1 (fun _ => None) g (counted f.2); Ok (d ++ (f.1, g') :: d'))) ->
  Forall3 (filled s1) files cs os -> NoDup files.*1 -> (forall f, f ∈ files -> f.1 ∉ od_keys d) ->
  foldM step (d ++ kept cs) files = Ok (d ++ kept os).
Proof.
  induction files as [|f files IH]; intros cs os d Hnone Hsome Hall Hnd Hd; inversion Hall as [|? [k c] [k' o] ? cs' os' Hfill Hall'];
    subst; [done|].
  apply NoDup_cons in Hnd as [Hf Hnd]. destruct Hfill as (Hk & Hk' & Hfill). cbn in Hk, Hk', Hfill. subst k k'.
  rewrite foldM_optional in Hfill. destruct c as [g|].
  - apply bind_Ok_inv in Hfill as (g' & Hg & [= <-]). cbn [kept omap list_omap fmap option_fmap option_map fst snd foldM].
    rewrite Hsome; [|left|by apply Hd; left]. unfold append_hits. rewrite Hg. cbn [mbind result_bind].
    rewrite (cons_middle _ d), app_assoc. rewrite (cons_middle _ d (kept os')), app_assoc. apply IH; [| |done|done|].
    + intros. apply Hnone; [by right | done].
    + intros. apply Hsome; [by right | done].
    + apply (fresh_app d _ f); [done | done | done].
  - injection Hfill as <-. cbn [kept omap list_omap fmap option_fmap option_map fst snd foldM].
    assert (Hno : od_get f.1 (d ++ kept cs') = None).
    { apply od_get_None. unfold od_keys. rewrite fmap_app, elem_of_app. intros [Hin|Hin].
      - apply (Hd f); [left | done].
      - apply kept_keys in Hin. apply Hf. clear -Hin Hall'.
        induction Hall' as [|f' c o fs cs os (Hk & _) _ IH]; [by apply not_elem_of_nil in Hin|].
        unfold od_keys in Hin. cbn in Hin. apply elem_of_cons in Hin as [->|Hin]; [rewrite Hk; left | right; by apply IH]. }
    rewrite Hnone; [|left|exact Hno]. apply IH; [| |done|done|].
    + intros. apply Hnone; [by right | done].
    + intros. apply Hsome; [by right | done].
    + intros f' Hf'. apply Hd. by right.
Qed.

Definition plain_name (f : source) : Prop := slashes f.1 = f.1.

Lemma csharp_nodes files :
  iter "File" (document (to_csharp files)) = (fun f => mkNode (csharp_file f) [to_csharp files]) <$> files /\
  iter "Method" (document (to_csharp files)) = (fun f => mkNode (csharp_method f) [to_csharp files]) <$> files.
Proof.
  change (n_iter "File" (mkNode (to_csharp files) []) = (fun f => mkNode (csharp_file f) [to_csharp files]) <$> files /\
    n_iter "Method" (mkNode (to_csharp files) []) = (fun f => mkNode (csharp_method f) [to_csharp files]) <$> files).
  split; iter_step; cbn [t_children to_csharp]; generalize (to_csharp files); intros t; rewrite flat_map_app.
  - unfold csharp_file at 1. rewrite (iter_leaves "File" (fun f : source => [("uid", f.1); ("fullPath", f.1)])).
    rewrite flat_map_fmap, flat_map_none; [by rewrite app_nil_r|]. intros f _. iter_step. cbn [t_children csharp_method flat_map].
    rewrite iter_leaf_ne by done. by rewrite iter_no_leaves.
  - unfold csharp_file at 1. rewrite (iter_no_leaves "Method" "File") by done. cbn [app].
    rewrite flat_map_fmap. apply flat_map_single. intros f _. rewrite iter_tree, decide_True by done.
    cbn [t_children csharp_method flat_map]. rewrite iter_leaf_ne by done. cbn [app]. by rewrite iter_no_leaves.
Qed.

Lemma csharp_points f above :
  iter "BranchPoint" (mkNode (csharp_method f) above) = [] /\
  iter "SequencePoint" (mkNode (csharp_method f) above) =
    (fun d : Z * Z => mkNode (leaf_tree "SequencePoint" [("vc", str_of_Z d.2); ("sl", str_of_Z d.1); ("el", str_of_Z d.1)])
      (csharp_method f :: above)) <$> counted f.2.
Proof.
  change (n_iter "BranchPoint" (mkNode (csharp_method f) above) = [] /\
    n_iter "SequencePoint" (mkNode (csharp_method f) above) =
      (fun d : Z * Z => mkNode (leaf_tree "SequencePoint" [("vc", str_of_Z d.2); ("sl", str_of_Z d.1); ("el", str_of_Z d.1)])
        (csharp_method f :: above)) <$> counted f.2).
  split; iter_step; cbn [t_children csharp_method flat_map]; rewrite iter_leaf_ne by done; cbn [app].
  - by rewrite iter_no_leaves.
  - by rewrite (iter_leaves "SequencePoint").
Qed.

Lemma csharp_point s f e above :
  CSharp.point_step s [] f
    (mkNode (leaf_tree "SequencePoint" [("vc", str_of_Z e.2); ("sl", str_of_Z e.1); ("el", str_of_Z e.1)]) above) =
  add_line f e.1 (hit_line s None e.2).
Proof.
  unfold CSharp.point_step, CSharp.point_coverage, attr_get. cbn [attrib tree_etree n_tree leaf_tree t_attrib].
  od_lookup. rewrite bool_decide_false by apply str_of_Z_nonempty. cbn [orb int_opt].
  rewrite !int_of_str_of_Z. cbn [mbind result_bind]. unfold CSharp.point_lines. rewrite Z.ltb_irrefl.
  cbn [foldM od_get fmap option_fmap option_map]. by destruct (add_line f e.1 _).
Qed.

Lemma csharp_method_none s1 d f above :
  od_get f.1 d = None -> CSharp.method_step s1 d (mkNode (csharp_method f) above) = Ok d.
Proof.
  intros E. unfold CSharp.method_step. change (find_child "FileRef" _) with
    (Some (mkNode (leaf_tree "FileRef" [("uid", f.1)]) (csharp_method f :: above))).
  unfold attr. cbn [attrib tree_etree n_tree leaf_tree t_attrib]. rewrite (od_get_find "uid"). cbn [od_find String.eqb Ascii.eqb Bool.eqb mbind result_bind].
  by rewrite E.
Qed.

Lemma csharp_method_some s1 d d' f g above :
  f.1 ∉ od_keys d ->
  CSharp.method_step s1 (d ++ (f.1, g) :: d') (mkNode (csharp_method f) above) =
  (g' ← append_hits s1 (fun _ => None) g (counted f.2); Ok (d ++ (f.1, g') :: d')).
Proof.
  intros Hd. unfold CSharp.method_step. change (find_child "FileRef" _) with
    (Some (mkNode (leaf_tree "FileRef" [("uid", f.1)]) (csharp_method f :: above))).
  unfold attr. cbn [attrib tree_etree n_tree leaf_tree t_attrib]. rewrite (od_get_find "uid"). cbn [od_find String.eqb Ascii.eqb Bool.eqb mbind result_bind].
  rewrite od_get_mid by done. destruct (csharp_points f above) as [-> ->]. unfold CSharp._build_branches.
  cbn [foldM mbind result_bind]. rewrite foldM_fmap.
  rewrite (foldM_ext _ (fun g d => add_line g d.1 (hit_line s1 None d.2))) by (intros; apply csharp_point).
  unfold append_hits. destruct (foldM _ g (counted f.2)) as [g'|]; [|done]. cbn [mbind result_bind]. by rewrite od_set_mid.
Qed.

Lemma csharp_agrees files s s' :
  NoDup files.*1 -> Forall plain_name files -> hit_report cwd s files = Ok s' ->
  CSharp.from_xml cwd (document (to_csharp files)) s = Ok s'.
Proof.
  intros Hnd Hp (s1 & os & Hg & Ha)%hit_report_gather. unfold CSharp.from_xml.
  destruct (csharp_nodes files) as [-> ->]. rewrite !foldM_fmap.
  destruct (create_all files s [] s1 os Hg Hnd) as (cs & Hc & Hall); [intros f _; apply not_elem_of_nil|].
  rewrite (foldM_ext _ create_step), Hc.
  - cbn [mbind result_bind app]. rewrite foldM_fmap.
    rewrite (fill_all _ s1 files cs os []); [| | |done|done|intros f _; apply not_elem_of_nil].
    + cbn [mbind result_bind app]. by rewrite append_kept.
    + intros d f _ E. apply csharp_method_none, E.
    + intros d d' f g _ Hd. by apply csharp_method_some.
  - intros st f Hf. rewrite Forall_forall in Hp. unfold CSharp.file_step, attr.
    cbn [attrib tree_etree n_tree csharp_file leaf_tree t_attrib]. od_lookup. cbn [mbind result_bind].
    unfold create_step. rewrite (Hp f Hf). destruct (create_coverage_file cwd st.1 f.1 true) as [[[g|] s2]|]; done.
Qed.

(** *** Visual Studio *)

Definition zero_one (f : source) : Prop :=
  plain_name f /\ Forall (fun d : Z * Z => d.2 = 0 \/ d.2 = 1) (counted f.2).

Definition vb_range (f : source) (d : Z * Z) : tree :=
  leaf_tree "range" [("source_id", f.1); ("covered", yes_no d.2); ("start_line", str_of_Z d.1); ("end_line", str_of_Z d.1)].

Lemma vb_modules files :
  iter "module" (document (to_vb files)) = (fun f => mkNode (vb_module f) [to_vb files]) <$> files.
Proof.
  change (n_iter "module" (mkNode (to_vb files) []) = (fun f => mkNode (vb_module f) [to_vb files]) <$> files).
  iter_step. cbn [t_children to_vb]. rewrite flat_map_fmap. apply flat_map_single. intros f _.
  rewrite iter_tree, decide_True by done. cbn [t_children vb_module flat_map]. rewrite iter_leaf_ne by done.
  cbn [app]. by rewrite iter_no_leaves.
Qed.

Lemma vb_parts f above :
  iter "source_file" (mkNode (vb_module f) above) =
    [mkNode (leaf_tree "source_file" [("id", f.1); ("path", f.1)]) (vb_module f :: above)] /\
  iter "range" (mkNode (vb_module f) above) = (fun d => mkNode (vb_range f d) (vb_module f :: above)) <$> counted f.2.
Proof.
  change (n_iter "source_file" (mkNode (vb_module f) above) =
      [mkNode (leaf_tree "source_file" [("id", f.1); ("path", f.1)]) (vb_module f :: above)] /\
    n_iter "range" (mkNode (vb_module f) above) = (fun d => mkNode (vb_range f d) (vb_module f :: above)) <$> counted f.2).
  split; iter_step; cbn [t_children vb_module flat_map].
  - rewrite iter_leaf, decide_True by done. cbn [app]. by rewrite iter_no_leaves.
  - rewrite iter_leaf_ne by done. cbn [app]. by rewrite (iter_leaves "range").
Qed.

Lemma vb_range_held s d f g e above :
  f.1 ∉ od_keys d -> e.2 = 0 \/ e.2 = 1 ->
  Vb.range_step s (d ++ [(f.1, g)]) (mkNode (vb_range f e) above) =
  (g' ← add_line g e.1 (hit_line s None e.2); Ok (d ++ [(f.1, g')])).
Proof.
  intros Hd He. unfold Vb.range_step, int_attr, attr. cbn [attrib tree_etree n_tree vb_range leaf_tree t_attrib].
  rewrite !(od_get_find (V := string)). cbn [od_find String.eqb Ascii.eqb Bool.eqb mbind result_bind].
  rewrite od_get_mid by done. rewrite int_of_str_of_Z. cbn [mbind result_bind].
  assert (Hc : Vb.coverage_of (yes_no e.2) = CInt e.2) by (by destruct He as [-> | ->]).
  unfold add_range. rewrite Hc. replace (range e.1 (e.1 + 1)) with [e.1]
    by (unfold range; replace (e.1 + 1 - e.1) with 1 by lia; by rewrite seqZ_cons, seqZ_nil by lia).
  cbn [foldM]. unfold append_line, hit_line.
  destruct (add_line g e.1 (create_coverage_line s (CInt e.2) None None None CxNone)) as [g'|]; [|done].
  cbn [mbind result_bind]. by rewrite od_set_mid.
Qed.

Lemma vb_ranges s d f above l : forall g,
  f.1 ∉ od_keys d -> Forall (fun e : Z * Z => e.2 = 0 \/ e.2 = 1) l ->
  foldM (fun d e => Vb.range_step s d (mkNode (vb_range f e) above)) (d ++ [(f.1, g)]) l =
  (g' ← append_hits s (fun _ => None) g l; Ok (d ++ [(f.1, g')])).
Proof.
  induction l as [|e l IH]; intros g Hd Hl; [done|]. apply Forall_cons in Hl as [He Hl].
  cbn [foldM append_hits]. rewrite vb_range_held by done. unfold append_hits. cbn [foldM].
  destruct (add_line g e.1 (hit_line s None e.2)) as [g'|]; [|done]. by apply IH.
Qed.

Lemma vb_no_ranges s d f above l :
  f.1 ∉ od_keys d -> foldM (fun d e => Vb.range_step s d (mkNode (vb_range f e) above)) d l = Ok d.
Proof.
  intros Hd. induction l as [|e l IH]; [done|]. cbn [foldM].
  assert (E : Vb.range_step s d (mkNode (vb_range f e) above) = Ok d); [|by rewrite E].
  unfold Vb.range_step, attr. cbn [attrib tree_etree n_tree vb_range leaf_tree t_attrib].
  rewrite (od_get_find "source_id"). cbn [od_find String.eqb Ascii.eqb Bool.eqb mbind result_bind].
  by rewrite (proj2 (od_get_None _ _) Hd).
Qed.

Lemma vb_entry above : entry_step kept zero_one (fun st f => Vb.module_step cwd st (mkNode (vb_module f) above)).
Proof.
  intros s d f [Hp Hz] Hd. unfold Vb.module_step. destruct (vb_parts f above) as [-> ->]. cbn [foldM gather_step].
  unfold Vb.source_step, attr. cbn [attrib tree_etree n_tree leaf_tree t_attrib]. rewrite !(od_get_find (V := string)).
  cbn [od_find String.eqb Ascii.eqb Bool.eqb mbind result_bind fst snd]. rewrite Hp.
  destruct (create_coverage_file cwd s f.1 true) as [[[g|] s1]|]; [| |done]; cbn [mbind result_bind].
  - rewrite od_set_new, foldM_fmap, vb_ranges by done.
    by destruct (append_hits s1 (fun _ => None) g (counted f.2)) as [g'|].
  - rewrite foldM_fmap, vb_no_ranges by done. cbn. by rewrite app_nil_r.
Qed.

Lemma vb_agrees files s s' :
  NoDup files.*1 -> Forall zero_one files -> hit_report cwd s files = Ok s' ->
  Vb.from_xml cwd (document (to_vb files)) s = Ok s'.
Proof.
  intros Hnd Hz (s1 & os & Hg & Ha)%hit_report_gather. unfold Vb.from_xml. rewrite vb_modules, foldM_fmap.
  rewrite (gather_entries kept zero_one _ files s [] (vb_entry _)); [|done|done|intros f _; apply not_elem_of_nil].
  rewrite Hg. cbn [mbind result_bind app]. by rewrite append_kept.
Qed.

(** The same counts printed as a Mono, SCoverage, OpenCover or Visual Studio document
    are read into the report that has each file with the counts at their lines, the
    report that the JSON formats are read into too: for Mono whatever the counts, for
    SCoverage when every file has a line and the counts have at most five digits, for
    OpenCover when no name has a backslash, and for Visual Studio, which only records
    whether a line was covered, when the counts are 0 or 1. *)
Theorem xml_formats_agree (files : list source) (s s' : ReportBuilderSession) :
  NoDup files.*1 -> hit_report cwd s files = Ok s' ->
  Mono.from_xml cwd (document (to_mono files)) s = Ok s' /\
  (Forall short files -> SCoverage.from_xml cwd (document (to_scoverage files)) s = Ok s') /\
  (Forall plain_name files -> CSharp.from_xml cwd (document (to_csharp files)) s = Ok s') /\
  (Forall zero_one files -> Vb.from_xml cwd (document (to_vb files)) s = Ok s').
Proof.
  intros Hnd Hr. split_and!.
  - by apply mono_agrees.
  - intros Hs. by apply scoverage_agrees.
  - intros Hp. by apply csharp_agrees.
  - intros Hz. by apply vb_agrees.
Qed.
End agree.

Definition example_sources : list source := [("a.vb", [Some 1; None; Some 0]); ("b/c.vb", [Some 1])].

Lemma xml_formats_agree_witness :
  exists s', hit_report (H := codec) "/w" example_builder_session example_sources = Ok s' /\
    length (Report.r_files (_report s')) = 2%nat /\
    Mono.from_xml (H := codec) (H0 := tree_etree) "/w" (document (to_mono example_sources)) example_builder_session = Ok s' /\
    SCoverage.from_xml (H := codec) (H0 := tree_etree) "/w" (document (to_scoverage example_sources)) example_builder_session = Ok s' /\
    CSharp.from_xml (H := codec) (H0 := tree_etree) "/w" (document (to_csharp example_sources)) example_builder_session = Ok s' /\
    Vb.from_xml (H := codec) (H0 := tree_etree) "/w" (document (to_vb example_sources)) example_builder_session = Ok s'.
Proof.
  destruct (hit_report (H := codec) "/w" example_builder_session example_sources) as [s'|] eqn:E; [|vm_compute in E; discriminate].
  exists s'. split; [reflexivity|]. split; [vm_compute in E; injection E as <-; reflexivity|].
  destruct (xml_formats_agree (H := codec) "/w" example_sources example_builder_session s') as (H1 & H2 & H3 & H4).
  - apply (bool_decide_unpack _). vm_compute. exact I.
  - exact E.
  - split; [exact H1|]. split; [|split].
    + apply H2. repeat constructor; vm_compute; try lia; discriminate.
    + apply H3. repeat constructor.
    + apply H4. repeat constructor; cbn; lia.
Defined.

(** A branch that was taken more than twice is a partial line: the count is written over 2. *)
Example scoverage_repeated_branch :
  (fun f => ReportFile.get (H := codec) f 4) <$>
    SCoverage.statement_line (H := codec) (H0 := tree_etree) example_builder_session (empty_file "a.scala" None)
      (document (Tree "statement" [] None [text_tree "line" "4"; text_tree "count" "3"; text_tree "branch" "true"])) =
    Ok (Ok (Some (create_coverage_line example_builder_session (CStr "3/2") (Some branch) None None CxNone))) /\
  line_type (CStr "3/2") = Ok (Some partial_line).
Proof. split; vm_compute; reflexivity. Qed.

(** A file in two folders is read twice, once for each. *)
Definition nested_folders : tree :=
  Tree "BullseyeCoverage" [("buildId", "b")] None
    [Tree Bullseye.folder_tag [("name", "x")] None
      [Tree Bullseye.folder_tag [("name", "y")] None [leaf_tree Bullseye.src_tag [("name", "a.c")]]]].
Example bullseye_nested_folders :
  (fun n => Bullseye.folders (H0 := tree_etree) (@iterancestors tree_etree n) "") <$>
    flat_map (n_iter Bullseye.src_tag) (n_iter Bullseye.folder_tag (document nested_folders)) =
  [Ok "x/y/"; Ok "x/y/"].
Proof. vm_compute. reflexivity. Qed.
