(* ===== verification/Fixes.v ===== *)
(** * [worker/services/report/fixes.py]: the lines an uploader says to ignore

    An uploader may list, for each file, lines without code, and the end of the
    file.  The parser reads a line at a time and swallows every exception, so
    what a line did before it raised stays: the local variables [_cur_file],
    [_fixed] and [lines] carry over to the next line, and [lines] is the set of
    some file, not always of the file the line names. *)
From S2P Require Export Merge LegacyParser ReportBuilder.
#[local] Open Scope string_scope.
#[local] Open Scope Z_scope.
#[local] Open Scope list_scope.

(** The dictionary of a file: its set of lines, and its end, when they are there. *)
Record fixes : Type := mkFixesOf { fx_lines : option (gset Z); fx_eof : option Z }.

(** The parser: the dictionaries, by fixed path, which may be [None]; the lines that open
    and close comments; and the local variables, [lines] by the key of the dictionary
    whose set it is. *)
Record fixes_state : Type := mkFixesState {
  fs_files : odict (option string) fixes;
  fs_comments : odict (option string) (list Z * list Z);
  fs_cur_file : option string;
  fs_fixed : option (option string);
  fs_lines : option (option string);
  fs_fixer : PathFixer;
}.

Definition fixes_init (pf : PathFixer) : fixes_state := mkFixesState [] [] None None None pf.

Definition with_fs_files (d : odict (option string) fixes) (st : fixes_state) : fixes_state :=
  mkFixesState d (fs_comments st) (fs_cur_file st) (fs_fixed st) (fs_lines st) (fs_fixer st).
Definition with_comments (d : odict (option string) (list Z * list Z)) (st : fixes_state) : fixes_state :=
  mkFixesState (fs_files st) d (fs_cur_file st) (fs_fixed st) (fs_lines st) (fs_fixer st).

(** [lines.update(l)], through the variable; [false] when it is unbound. *)
Definition update_lines (l : list Z) (st : fixes_state) : bool * fixes_state :=
  match fs_lines st with
  | None => (false, st)
  | Some k =>
      match od_get k (fs_files st) with
      | Some (mkFixesOf (Some s) eof) => (true, with_fs_files (od_set k (mkFixesOf (Some (s ∪ list_to_set l)) eof) (fs_files st)) st)
      | _ => (false, st)
      end
  end.

(** [for sp in line.split(","): lines.add(int(sp))], up to the first that raises. *)
Fixpoint add_each (l : list string) (st : fixes_state) : fixes_state :=
  match l with
  | [] => st
  | sp :: l' =>
      match fs_lines st, int_of_str sp with
      | Some _, Ok n => add_each l' (snd (update_lines [n] st))
      | _, _ => st
      end
  end.

Definition opens_comment (source : string) : bool :=
  String.eqb (str_take 2 source) "/*" || str_contains "LCOV_EXCL_START" source.
Definition closes_comment (source : string) : bool :=
  String.eqb (str_last 2 source) "*/" || str_contains "LCOV_EXCL_STOP" source || str_contains "LCOV_EXCL_END" source.

Definition open_comment (k : option string) (ln : Z) (st : fixes_state) : fixes_state :=
  let '(a, b) := default ([], []) (od_get k (fs_comments st)) in with_comments (od_set k (a ++ [ln], b) (fs_comments st)) st.
Definition close_comment (k : option string) (ln : Z) (st : fixes_state) : fixes_state :=
  let '(a, b) := default ([], []) (od_get k (fs_comments st)) in with_comments (od_set k (a, b ++ [ln]) (fs_comments st)) st.

(** What follows the file name: line numbers, or a number and its source. *)
Definition line_part (line : string) (st : fixes_state) : fixes_state :=
  match partition ":" line with
  | None => add_each (split "," line) st
  | Some (ln, source) =>
      match int_of_str ln with
      | Err _ => st
      | Ok ln =>
          let source := strip source in
          match (if opens_comment source then open_comment <$> fs_fixed st
                 else if closes_comment source then close_comment <$> fs_fixed st
                 else Some (fun _ st => st)) with
          | None => st
          | Some mark => snd (update_lines [ln] (mark ln st))
          end
      end
  end.

Section fixes.
Variable cwd : string.

(** [files.setdefault(k, v)] *)
Definition setdefault (k : option string) (v : fixes) (d : odict (option string) fixes) : odict (option string) fixes :=
  match od_get k d with Some _ => d | None => od_set k v d end.

Definition eof_line (line : string) (st : fixes_state) : fixes_state :=
  match split_n 2 " " line with
  | [_; n; filename] =>
      match int_of_str n with
      | Err _ => st
      | Ok n =>
          match clean_path cwd (fs_fixer st) filename with
          | Err _ => st
          | Ok (k, pf) =>
              let d := setdefault k (mkFixesOf None None) (fs_files st) in
              let f := default (mkFixesOf None None) (od_get k d) in
              mkFixesState (od_set k (mkFixesOf (fx_lines f) (Some n)) d) (fs_comments st) (fs_cur_file st)
                (fs_fixed st) (fs_lines st) pf
          end
      end
  | _ => st
  end.

(** A new file name: the variables are set one after the other; the last does not change
    when the dictionary of the file has no set of lines. *)
Definition enter_file (filename : string) (st : fixes_state) : bool * fixes_state :=
  let st := mkFixesState (fs_files st) (fs_comments st) (Some filename) (fs_fixed st) (fs_lines st) (fs_fixer st) in
  match clean_path cwd (fs_fixer st) filename with
  | Err _ => (false, st)
  | Ok (k, pf) =>
      let st := mkFixesState (fs_files st) (fs_comments st) (Some filename) (Some k) (fs_lines st) pf in
      match k with
      | None => (false, st)
      | Some p =>
          if bool_decide (p = "") then (false, st)
          else
            let d := setdefault k (mkFixesOf (Some ∅) None) (fs_files st) in
            match od_get k d with
            | Some (mkFixesOf (Some _) _) =>
                (true, mkFixesState d (fs_comments st) (Some filename) (Some k) (Some k) pf)
            | _ => (false, with_fs_files d st)
            end
      end
  end.

Definition fixes_line (st : fixes_state) (line : string) : fixes_state :=
  if bool_decide (line = "") then st
  else if startswith "EOF: " line then eof_line line st
  else
    match partition ":" line with
    | None => st
    | Some (filename, rest) =>
        if bool_decide (fs_cur_file st = Some filename) then line_part rest st
        else
          let '(entered, st) := enter_file filename st in
          if entered then line_part rest st else st
    end.
End fixes.

(** The lines inside comments, which are the only part that may raise. *)
Fixpoint comment_ranges (starts stops : list Z) : list Z :=
  match starts, stops with
  | a :: starts', b :: stops' => range (a + 1) b ++ comment_ranges starts' stops'
  | _, _ => []
  end.

(** [if filename]: the key is a name that is not empty. *)
Definition some_name (k : option string) : bool :=
  match k with Some p => negb (bool_decide (p = "")) | None => false end.

Definition comment_step (d : odict (option string) fixes) (e : option string * (list Z * list Z))
    : result (odict (option string) fixes) :=
  let '(k, (starts, stops)) := e in
  if some_name k && negb (bool_decide (starts = [])) && negb (bool_decide (stops = [])) then
    match od_get k d with
    | Some (mkFixesOf (Some s) eof) =>
        Ok (od_set k (mkFixesOf (Some (s ∪ list_to_set (comment_ranges (merge_sort Z.le starts) (merge_sort Z.le stops)))) eof) d)
    | _ => Err KeyError
    end
  else Ok d.

Definition get_fixes_from_raw (cwd : string) (content : string) (pf : PathFixer)
    : result (odict (option string) fixes * PathFixer) :=
  let st := foldl (fixes_line cwd) (fixes_init pf) (splitlines content) in
  d ← foldM comment_step (fs_files st) (fs_comments st);
  Ok (d, fs_fixer st).

(** ** A listing is read back *)

(** The lines of a file, and the text that lists them. *)
Definition block : Type := string * list Z.
Definition print_block (b : block) : string := b.1 +:+ ":" +:+ join "," (str_of_Z <$> b.2).
Definition print_fixes (bs : list block) : string := join nl (print_block <$> bs).

Definition block_ok (b : block) : Prop :=
  without ":" b.1 = true /\ no_linebreak b.1 = true /\ b.2 <> [] /\ Forall (fun n => 0 <= n) b.2.

Definition lines_at (d : odict (option string) fixes) (k : option string) : gset Z :=
  match od_get k d with Some (mkFixesOf (Some s) _) => s | _ => ∅ end.

Definition plain_fixes (d : odict (option string) fixes) : Prop :=
  forall k f, od_get k d = Some f -> is_Some (fx_lines f) /\ fx_eof f = None.

(** Setting a key to what it has, and setting it twice. *)
Lemma od_set_id {K V} `{EqDecision K} (k : K) (v : V) d : od_get k d = Some v -> od_set k v d = d.
Proof.
  induction d as [|[k' v'] d IH]; cbn; [done|]. case_decide; [by intros [= ->]; subst | intros E; by rewrite IH].
Qed.
Lemma od_set_set {K V} `{EqDecision K} (k : K) (v w : V) d : od_set k v (od_set k w d) = od_set k v d.
Proof.
  induction d as [|[k' v'] d IH]; cbn; [by rewrite decide_True|].
  case_decide; cbn; [by rewrite decide_True | rewrite decide_False by done; by rewrite IH].
Qed.

Section roundtrip.
Variable cwd : string.

(** The files of the blocks under the names the fixer gives them. *)
Inductive fixed_as : PathFixer -> list block -> list block -> PathFixer -> Prop :=
  | fixed_nil pf : fixed_as pf [] [] pf
  | fixed_cons pf pf1 pf2 f p ns bs bs' :
      clean_path cwd pf f = Ok (Some p, pf1) -> p <> "" -> fixed_as pf1 bs bs' pf2 ->
      fixed_as pf ((f, ns) :: bs) ((p, ns) :: bs') pf2.

Lemma add_each_print k s ns : forall st t,
  fs_lines st = Some k -> od_get k (fs_files st) = Some (mkFixesOf (Some t) s) -> Forall (fun n => 0 <= n) ns ->
  exists st', add_each (str_of_Z <$> ns) st = st' /\
    fs_files st' = od_set k (mkFixesOf (Some (t ∪ list_to_set ns)) s) (fs_files st) /\
    fs_comments st' = fs_comments st /\ fs_cur_file st' = fs_cur_file st /\ fs_fixer st' = fs_fixer st.
Proof.
  induction ns as [|n ns IH]; intros st t Hk Hget Hns.
  - exists st. split_and!; try done. cbn [list_to_set]. rewrite union_empty_r_L.
    by rewrite od_set_id.
  - apply Forall_cons in Hns as [Hn Hns]. cbn [fmap list_fmap add_each]. rewrite Hk, int_of_str_of_Z.
    set (st1 := snd (update_lines [n] st)).
    assert (E : st1 = with_fs_files (od_set k (mkFixesOf (Some (t ∪ {[n]})) s) (fs_files st)) st).
    { unfold st1, update_lines. rewrite Hk, Hget. cbn [snd list_to_set]. by rewrite union_empty_r_L. }
    destruct (IH st1 (t ∪ {[n]})) as (st' & Hrun & Hf & Hc & Hcur & Hpf);
      [by rewrite E | rewrite E; cbn; by rewrite od_get_set_eq | done |].
    exists st'. rewrite E in Hf, Hc, Hcur, Hpf. cbn in Hf, Hc, Hcur, Hpf. split_and!; try done.
    rewrite Hf. cbn [list_to_set]. by rewrite union_assoc_L, od_set_set.
Qed.

Lemma print_numbers_no_colon ns : Forall (fun n => 0 <= n) ns -> partition ":" (join "," (str_of_Z <$> ns)) = None.
Proof.
  intros Hns. apply (partition_char_none ":"). induction Hns as [|n ns Hn Hns IH]; [done|].
  destruct ns as [|n' ns]; [by apply digits_without|]. change (join "," (str_of_Z <$> n :: n' :: ns)) with
    (str_of_Z n +:+ "," +:+ join "," (str_of_Z <$> n' :: ns)).
  rewrite !without_app, digits_without, IH by done. done.
Qed.

Lemma block_line (b : block) st : block_ok b ->
  (fixes_line cwd st (print_block b) = 
    if bool_decide (fs_cur_file st = Some b.1) then line_part (join "," (str_of_Z <$> b.2)) st
    else let '(entered, st) := enter_file cwd b.1 st in
         if entered then line_part (join "," (str_of_Z <$> b.2)) st else st).
Proof.
  intros (Hf & _ & Hne & Hns). unfold fixes_line, print_block. set (nums := join "," _).
  rewrite bool_decide_false by (destruct b.1; discriminate).
  assert (Heof : startswith "EOF: " (b.1 +:+ ":" +:+ nums) = false).
  { apply not_true_iff_false. intros [r E]%prefix_spec.
    pose proof (partition_char ":" b.1 nums Hf) as Hp. change (b.1 +:+ String ":" nums) with (b.1 +:+ ":" +:+ nums) in Hp.
    rewrite E in Hp. change ("EOF: " +:+ r) with ("EOF" +:+ String ":" (" " +:+ r)) in Hp.
    rewrite partition_char in Hp by done. injection Hp as _ Hnum. unfold nums in Hnum.
    destruct b.2 as [|n ns]; [done|]. apply Forall_cons in Hns as [Hn _].
    destruct (str_of_Z_head n Hn) as (c & t & Ec & Hc).
    assert (Hhd : exists t', join "," (str_of_Z <$> n :: ns) = String c t') by
      (destruct ns; [exists t; exact Ec | eexists; cbn; rewrite Ec; reflexivity]).
    destruct Hhd as [t' Ht']. rewrite Ht' in Hnum. injection Hnum as <- _. discriminate Hc. }
  rewrite Heof. change (b.1 +:+ ":" +:+ nums) with (b.1 +:+ String ":" nums). by rewrite partition_char.
Qed.

Lemma enter_run st f p pf :
  plain_fixes (fs_files st) -> clean_path cwd (fs_fixer st) f = Ok (Some p, pf) -> p <> "" ->
  exists st' t, enter_file cwd f st = (true, st') /\ fs_lines st' = Some (Some p) /\
    od_get (Some p) (fs_files st') = Some (mkFixesOf (Some t) None) /\ plain_fixes (fs_files st') /\
    (forall k, lines_at (fs_files st') k = lines_at (fs_files st) k) /\ t = lines_at (fs_files st) (Some p) /\
    fs_comments st' = fs_comments st /\ fs_cur_file st' = Some f /\ fs_fixer st' = pf.
Proof.
  intros Hplain Hc Hp. unfold enter_file. cbn [fs_fixer]. rewrite Hc. rewrite bool_decide_false by done. cbn [fs_files].
  unfold setdefault. destruct (od_get (Some p) (fs_files st)) as [[o e]|] eqn:E.
  - destruct (Hplain _ _ E) as [[t Ht] He]. cbn in Ht, He. subst. rewrite E.
    eexists _, t. split_and!; try done. unfold lines_at. by rewrite E.
  - rewrite od_get_set_eq. eexists _, ∅. split_and!; try done; cbn.
    + by rewrite od_get_set_eq.
    + intros k g. destruct (decide (k = Some p)) as [->|Hne]; [|rewrite od_get_set_ne by done; apply Hplain].
      rewrite od_get_set_eq. intros [= <-]. split; [by eexists | done].
    + intros k. unfold lines_at. destruct (decide (k = Some p)) as [->|Hne]; [|by rewrite od_get_set_ne].
      by rewrite od_get_set_eq, E.
    + unfold lines_at. by rewrite E.
Qed.

Lemma block_run st b p pf :
  plain_fixes (fs_files st) -> block_ok b -> fs_cur_file st <> Some b.1 ->
  clean_path cwd (fs_fixer st) b.1 = Ok (Some p, pf) -> p <> "" ->
  let st' := fixes_line cwd st (print_block b) in
  plain_fixes (fs_files st') /\ fs_comments st' = fs_comments st /\ fs_cur_file st' = Some b.1 /\ fs_fixer st' = pf /\
  forall k n, n ∈ lines_at (fs_files st') k <-> n ∈ lines_at (fs_files st) k \/ (k = Some p /\ n ∈ b.2).
Proof.
  intros Hplain Hb Hcur Hc Hp. cbv zeta. rewrite block_line by done. rewrite bool_decide_false by done.
  destruct (enter_run st b.1 p pf Hplain Hc Hp) as (st1 & t & -> & Hl & Hget & Hplain1 & Hat & Ht & Hcom & Hcur1 & Hpf).
  destruct Hb as (_ & _ & Hne & Hns). unfold line_part. rewrite print_numbers_no_colon by done.
  rewrite (split_chars ",").
  - destruct (add_each_print (Some p) None b.2 st1 t Hl Hget Hns) as (st' & -> & Hf & Hcom' & Hcur' & Hpf').
    split_and!; [|congruence..|].
    + rewrite Hf. intros k g. destruct (decide (k = Some p)) as [->|Hk]; [|rewrite od_get_set_ne by done; apply Hplain1].
      rewrite od_get_set_eq. intros [= <-]. split; [by eexists | done].
    + intros k n. rewrite <- Hat, Hf. unfold lines_at. destruct (decide (k = Some p)) as [->|Hk].
      * rewrite od_get_set_eq, Hget. set_solver.
      * rewrite od_get_set_ne by done. set_solver.
  - apply Forall_fmap. eapply Forall_impl; [exact Hns|]. intros n Hn. by apply digits_without.
  - by destruct b.2.
Qed.

Lemma blocks_run pf bs bs' pf' : fixed_as pf bs bs' pf' -> forall st,
  fs_fixer st = pf -> plain_fixes (fs_files st) -> Forall block_ok bs -> NoDup bs.*1 ->
  (forall f, fs_cur_file st = Some f -> f ∉ bs.*1) ->
  let st' := foldl (fixes_line cwd) st (print_block <$> bs) in
  plain_fixes (fs_files st') /\ fs_comments st' = fs_comments st /\ fs_fixer st' = pf' /\
  forall k n, n ∈ lines_at (fs_files st') k <->
    n ∈ lines_at (fs_files st) k \/ exists p ns, k = Some p /\ (p, ns) ∈ bs' /\ n ∈ ns.
Proof.
  induction 1 as [pf|pf pf1 pf2 f p ns bs bs' Hc Hp _ IH]; intros st <- Hplain Hok Hnd Hcur.
  - cbn. split_and!; try done. set_solver.
  - apply Forall_cons in Hok as [Hb Hok]. apply NoDup_cons in Hnd as [Hf Hnd].
    destruct (block_run st (f, ns) p pf1) as (Hplain1 & Hcom1 & Hcur1 & Hpf1 & Hat1); try done.
    { intros E. apply (Hcur f E). left. }
    destruct (IH (fixes_line cwd st (print_block (f, ns)))) as (Hplain2 & Hcom2 & Hpf2 & Hat2); try done.
    { intros g. rewrite Hcur1. intros [= <-]. exact Hf. }
    cbn [fmap list_fmap foldl]. split_and!; [done | congruence | done |].
    intros k n. rewrite Hat2, Hat1. set_solver.
Qed.

(** C11: a listing of the lines to ignore is read back: under every path, the lines are
    those the listing has for the files that the fixer gives that path. *)
Theorem fixes_roundtrip (pf pf' : PathFixer) (bs bs' : list block) :
  fixed_as pf bs bs' pf' -> Forall block_ok bs -> NoDup bs.*1 ->
  exists d, get_fixes_from_raw cwd (print_fixes bs) pf = Ok (d, pf') /\ plain_fixes d /\
    forall p n, n ∈ lines_at d (Some p) <-> exists ns, (p, ns) ∈ bs' /\ n ∈ ns.
Proof.
  intros Hfix Hok Hnd. unfold get_fixes_from_raw, print_fixes.
  rewrite splitlines_join.
  - destruct (blocks_run pf bs bs' pf' Hfix (fixes_init pf)) as (Hplain & Hcom & Hpf & Hat); try done.
    rewrite Hcom. cbn [foldM fs_comments fixes_init mbind result_bind]. eexists. split; [by rewrite Hpf|]. split; [done|].
    intros p n. rewrite Hat. unfold lines_at at 1. cbn. set_solver.
  - apply Forall_fmap. eapply Forall_impl; [exact Hok|]. intros b (_ & Hl & _ & Hns). unfold compose, print_block.
    unfold no_linebreak in *. rewrite !str_forallb_app, Hl. cbn. clear -Hns.
    induction Hns as [|n ns Hn Hns IH]; [done|].
    assert (Hd : str_forallb (fun c => negb (is_linebreak c)) (str_of_Z n) = true).
    { eapply str_forallb_impl; [|by apply str_of_Z_digits]. intros c Hc. by destruct (digit_props c Hc) as (_ & _ & _ & _ & _ & ?). }
    destruct ns as [|n' ns]; [exact Hd|]. change (join "," (str_of_Z <$> n :: n' :: ns)) with
      (str_of_Z n +:+ "," +:+ join "," (str_of_Z <$> n' :: ns)). rewrite !str_forallb_app, Hd. exact IH.
  - rewrite fmap_last. destruct (last bs) as [b|]; [|done]. intros [= E]. unfold print_block in E. by destruct b.1.
Qed.

(** A file that the fixer refuses sends its lines elsewhere: the first of its lines
    does nothing, and the next ones add to the set of the file before it. *)
Theorem refused_file_spills (st : fixes_state) (f : string) (ns ms : list Z) (prev p : string) (t : gset Z) (pf : PathFixer) :
  block_ok (f, ns) -> block_ok (f, ms) -> fs_cur_file st <> Some f ->
  clean_path cwd (fs_fixer st) f = Ok (None, pf) ->
  fs_lines st = Some (Some prev) -> od_get (Some prev) (fs_files st) = Some (mkFixesOf (Some t) None) ->
  let once := fixes_line cwd st (print_block (f, ns)) in
  let twice := fixes_line cwd once (print_block (f, ms)) in
  fs_files once = fs_files st /\
  lines_at (fs_files twice) (Some prev) = t ∪ list_to_set ms /\
  (p <> prev -> lines_at (fs_files twice) (Some p) = lines_at (fs_files st) (Some p)).
Proof.
  intros Hb Hb' Hcur Hc Hl Hget. cbv zeta. rewrite (block_line (f, ns)) by done. cbn [fst]. rewrite bool_decide_false by done.
  unfold enter_file. cbn [fs_fixer]. rewrite Hc. cbn [fs_files fs_comments fs_cur_file fs_fixed fs_lines fs_fixer]. split; [done|].
  rewrite (block_line (f, ms)) by done. cbn [fst fs_cur_file]. rewrite bool_decide_true by done.
  destruct Hb' as (_ & _ & Hne & Hns). cbn [snd] in *. unfold line_part. rewrite print_numbers_no_colon by done.
  rewrite (split_chars ",").
  - destruct (add_each_print (Some prev) None ms (mkFixesState (fs_files st) (fs_comments st) (Some f) (Some None) (fs_lines st) pf)
      t Hl Hget Hns) as (st' & -> & Hf & _). rewrite Hf. unfold lines_at. cbn [fs_files]. split; [by rewrite od_get_set_eq|].
    intros Hp. by rewrite od_get_set_ne by congruence.
  - apply Forall_fmap. eapply Forall_impl; [exact Hns|]. intros n Hn. by apply digits_without.
  - by destruct ms.
Qed.
End roundtrip.
Lemma fixes_roundtrip_witness : exists d pf,
  get_fixes_from_raw "/" (print_fixes [("a.py", [1; 3]); ("b.py", [2])]) example_fixer = Ok (d, pf) /\
  3 ∈ lines_at d (Some "a.py") /\ ~ (2 ∈ lines_at d (Some "a.py")).
Proof.
  destruct (fixes_roundtrip "/" example_fixer example_fixer [("a.py", [1; 3]); ("b.py", [2])] [("a.py", [1; 3]); ("b.py", [2])])
    as (d & Hd & _ & Hat).
  - repeat (apply fixed_cons with example_fixer; [vm_compute; reflexivity | done |]). constructor.
  - repeat constructor; done.
  - cbn [fmap list_fmap fst]. apply (bool_decide_unpack _). vm_compute. exact I.
  - exists d, example_fixer. split; [exact Hd|]. split.
    + apply Hat. exists [1; 3]. split; [left | right; left].
    + intros (l & Hl & H2)%Hat. inversion Hl as [|? ? ? Hl']; subst; [|inversion Hl' as [|? ? ? Hl'']; subst; inversion Hl''].
      apply list_elem_of_In in H2. cbn in H2. lia.
Defined.

(** A fixer with a list of files refuses the names that are not in it. *)
Definition listed_fixer : PathFixer :=
  mkFixer ["a.py"] [] (mkFixes "" None []) (mkIncludes [] false [] []) (Some (Tree ["a.py"])).

Lemma refused_file_spills_witness :
  let after := fixes_line "/" (fixes_line "/" (fixes_line "/" (fixes_init listed_fixer) "a.py:1") "lib.py:5") "lib.py:7,8" in
  lines_at (fs_files after) (Some "a.py") = {[1]} ∪ list_to_set [7; 8].
Proof.
  eapply (refused_file_spills "/" (fixes_line "/" (fixes_init listed_fixer) "a.py:1") "lib.py" [5] [7; 8] "a.py" "a.py" {[1]}).
  - repeat constructor; done.
  - repeat constructor; done.
  - done.
  - vm_compute. reflexivity.
  - reflexivity.
  - reflexivity.
Defined.

(** A comment in a file whose dictionary has no set of lines raises after the loop that
    swallows everything. *)
Example comment_without_lines :
  get_fixes_from_raw "/" (join nl ["EOF: 9 a.py"; "b.py:1"; "a.py:1"; "a.py:2:/*"; "a.py:4:*/"]) example_fixer = Err KeyError.
Proof. vm_compute. reflexivity. Qed.
