(* ===== verification/Effects.v ===== *)
(** * Programs with effects

    The notifiers of the workers talk to a git provider, to a cache and to the
    database, and can raise at any of these calls.  A program here runs on a world
    and gives a value or a fault, and the world after it; [has_post] is the program
    logic used to reason about one.  The errors of a provider are those of
    [shared/torngit/exceptions.py]. *)
From S2P Require Export Prelude.
#[local] Open Scope Z_scope.

(** ** [shared/torngit/exceptions.py] *)

Inductive torngit_error : Set :=
  | TorngitMisconfiguredCredentials
  | TorngitClientGeneralError (status_code : Z)
  | TorngitRepoNotFoundError
  | TorngitObjectNotFoundError
  | TorngitRateLimitError
  | TorngitUnauthorizedError
  | TorngitServerUnreachableError
  | TorngitServer5xxCodeError
  | TorngitRefreshTokenFailedError.
#[export] Instance torngit_error_eq_dec : EqDecision torngit_error.
Proof. solve_decision. Defined.

(** The code of a [TorngitClientError]; [None] for an error of another class. *)
Definition client_code (e : torngit_error) : option Z :=
  match e with
  | TorngitClientGeneralError c => Some c
  | TorngitRepoNotFoundError | TorngitObjectNotFoundError => Some 404
  | TorngitRateLimitError => Some 403
  | TorngitUnauthorizedError => Some 401
  | _ => None
  end.
Definition is_client_error (e : torngit_error) : bool := bool_decide (is_Some (client_code e)).
Definition is_server_failure (e : torngit_error) : bool :=
  match e with TorngitServerUnreachableError | TorngitServer5xxCodeError => true | _ => false end.

(** ** [shared/bots/exceptions.py], [shared/github] *)

(** Why GitHub gives no token for an installation. *)
Inductive installation_error_cause : Set :=
  | installation_not_found | permission_error | requires_authentication | installation_suspended
  | validation_failed_or_spammed | rate_limit | unknown_error.

#[export] Instance installation_error_cause_eq_dec : EqDecision installation_error_cause.
Proof. solve_decision. Defined.

Inductive bot_error : Set :=
  | RequestedGithubAppNotFound
  | OwnerWithoutValidBotError
  | NoConfiguredApps (apps_count rate_limited_count suspended_count : Z)
  | RepositoryWithoutValidBotError
  | InvalidInstallationError (error_cause : installation_error_cause).
#[export] Instance bot_error_eq_dec : EqDecision bot_error.
Proof. solve_decision. Defined.

(** [HTTPError] is that of [raise_for_status]. *)
Inductive fault : Set :=
  | Torngit (e : torngit_error) | Bot (e : bot_error) | HTTPError (status_code : Z)
  | CeleryError | SoftTimeLimitExceeded | Raised (e : exn).
#[export] Instance fault_eq_dec : EqDecision fault.
Proof. solve_decision. Defined.

(** ** Programs *)

Definition prog (W A : Type) : Type := W -> (A + fault) * W.

#[export] Instance prog_ret W : MRet (prog W) := fun A a w => (inl a, w).
#[export] Instance prog_bind W : MBind (prog W) := fun A B k m w =>
  match m w with (inl a, w) => k a w | (inr f, w) => (inr f, w) end.

Definition raise {W A} (f : fault) : prog W A := fun w => (inr f, w).
Definition lift {W A} (r : result A) : prog W A := fun w => match r with Ok a => (inl a, w) | Err e => (inr (Raised e), w) end.
Definition read {W A} (f : W -> A) : prog W A := fun w => (inl (f w), w).
Definition modify {W} (f : W -> W) : prog W unit := fun w => (inl tt, f w).

(** [try: m except ...]: the handler of a fault, if there is one. *)
Definition try_except {W A} (m : prog W A) (handler : fault -> option (prog W A)) : prog W A := fun w =>
  match m w with
  | (inl a, w) => (inl a, w)
  | (inr f, w) => match handler f with Some h => h w | None => (inr f, w) end
  end.

Definition except_client {W A} (m : prog W A) (h : torngit_error -> prog W A) : prog W A :=
  try_except m (fun f => match f with Torngit e => if is_client_error e then Some (h e) else None | _ => None end).

(** [for a in l: f a], with the values. *)
Fixpoint mapP {W A B} (f : A -> prog W B) (l : list A) : prog W (list B) :=
  match l with
  | [] => mret []
  | a :: l => b ← f a; bs ← mapP f l; mret (b :: bs)
  end.

Fixpoint filterP {W A} (f : A -> prog W bool) (l : list A) : prog W (list A) :=
  match l with
  | [] => mret []
  | a :: l => b ← f a; rest ← filterP f l; mret (if (b : bool) then a :: rest else rest)
  end.

(** ** A program logic *)

(** From every world where [P] holds the program ends in one where [Q] does; [Q]
    speaks of the value or the fault. *)
Definition has_post {W A} (P : W -> Prop) (m : prog W A) (Q : A + fault -> W -> Prop) : Prop :=
  forall w, P w -> Q (m w).1 (m w).2.

(** Like [has_post], whatever fault ends the program. *)
Definition preserves {W A} (P : W -> Prop) (m : prog W A) : Prop := has_post P m (fun _ => P).

Section rules.
Context {W A B : Type}.
Implicit Types (P : W -> Prop) (m : prog W A).

Lemma has_post_ret P (a : A) (Q : A + fault -> W -> Prop) : (forall w, P w -> Q (inl a) w) -> has_post P (mret a) Q.
Proof. intros H w Hw. by apply H. Qed.

Lemma has_post_raise P f (Q : A + fault -> W -> Prop) : (forall w, P w -> Q (inr f) w) -> has_post P (raise f) Q.
Proof. intros H w Hw. by apply H. Qed.

Lemma has_post_weaken P P' m (Q Q' : A + fault -> W -> Prop) :
  has_post P' m Q' -> (forall w, P w -> P' w) -> (forall r w, Q' r w -> Q r w) -> has_post P m Q.
Proof. intros H HP HQ w Hw. by apply HQ, H, HP. Qed.

Lemma has_post_bind P m (k : A -> prog W B) (R : A -> W -> Prop) (Q : B + fault -> W -> Prop) :
  has_post P m (fun r w => match r with inl a => R a w | inr f => Q (inr f) w end) ->
  (forall a, has_post (R a) (k a) Q) -> has_post P (m ≫= k) Q.
Proof.
  intros Hm Hk w Hw. specialize (Hm w Hw). unfold mbind, prog_bind.
  destruct (m w) as [[a|f] w']; cbn in *; [by apply Hk|done].
Qed.

Lemma has_post_try P m h (R : fault -> W -> Prop) (Q : A + fault -> W -> Prop) :
  has_post P m (fun r w => match r with inl a => Q (inl a) w | inr f => R f w end) ->
  (forall f, match h f with Some k => has_post (R f) k Q | None => forall w, R f w -> Q (inr f) w end) ->
  has_post P (try_except m h) Q.
Proof.
  intros Hm Hh w Hw. specialize (Hm w Hw). unfold try_except. destruct (m w) as [[a|f] w']; cbn in *; [done|].
  specialize (Hh f). destruct (h f) as [k|]; [by apply Hh|by apply Hh].
Qed.

Lemma preserves_bind P m (k : A -> prog W B) : preserves P m -> (forall a, preserves P (k a)) -> preserves P (m ≫= k).
Proof.
  intros Hm Hk. unfold preserves. eapply has_post_bind with (R := fun _ => P); [|exact Hk].
  intros w Hw. specialize (Hm w Hw). by destruct (m w) as [[a|f] w'].
Qed.

Lemma preserves_try P m h : preserves P m -> (forall f k, h f = Some k -> preserves P k) -> preserves P (try_except m h).
Proof.
  intros Hm Hh. eapply has_post_try with (R := fun _ => P).
  - intros w Hw. specialize (Hm w Hw). by destruct (m w) as [[a|f] w'].
  - intros f. destruct (h f) as [k|] eqn:Hf; [by apply (Hh f)|done].
Qed.

Lemma preserves_ret P (a : A) : preserves P (mret a).
Proof. by intros w Hw. Qed.

Lemma preserves_raise P f : preserves P (raise f : prog W A).
Proof. by intros w Hw. Qed.

Lemma preserves_lift P (r : result A) : preserves P (lift r).
Proof. intros w Hw. by destruct r. Qed.
End rules.

Lemma preserves_read {W A} (P : W -> Prop) (f : W -> A) : preserves P (read f).
Proof. by intros w Hw. Qed.

Lemma preserves_mapP {W A B} (P : W -> Prop) (f : A -> prog W B) l : (forall a, preserves P (f a)) -> preserves P (mapP f l).
Proof.
  intros Hf. induction l as [|a l IH]; cbn; [apply preserves_ret|].
  apply preserves_bind; [apply Hf|]. intros b. apply preserves_bind; [apply IH|]. intros bs. apply preserves_ret.
Qed.

(** One step of a program whose first part gives a value. *)
Lemma run_bind {W A B} (m : prog W A) (k : A -> prog W B) a w w' : m w = (inl a, w') -> (m ≫= k) w = k a w'.
Proof. unfold mbind, prog_bind. by intros ->. Qed.

Lemma run_bind_lift {W A B} (r : result A) (k : A -> prog W B) w :
  (lift r ≫= k) w = match r with Ok a => k a w | Err e => (inr (Raised e), w) end.
Proof. by destruct r. Qed.

Lemma run_bind_inv {W A B} (m : prog W A) (k : A -> prog W B) b w w' :
  (m ≫= k) w = (inl b, w') -> exists a w1, m w = (inl a, w1) /\ k a w1 = (inl b, w').
Proof. unfold mbind, prog_bind. destruct (m w) as [[a|f] w1]; [|done]. by exists a, w1. Qed.

Lemma lift_inv {W A} (r : result A) a (w w' : W) : lift r w = (inl a, w') -> r = Ok a /\ w' = w.
Proof. destruct r; cbn; [by intros [= -> ->]|done]. Qed.

Lemma has_post_lift {W A B} P (a : A) (k : A -> prog W B) (Q : B + fault -> W -> Prop) :
  has_post P (k a) Q -> has_post P (lift (Ok a) ≫= k) Q.
Proof. intros H w Hw. by apply H. Qed.

Create HintDb effects.
#[export] Hint Resolve preserves_bind preserves_try preserves_ret preserves_raise preserves_lift preserves_read preserves_mapP : effects.
