(* ===== verification/Flakes.v ===== *)
(** * Flaky tests

    [apps/worker/services/processing/flake_processing.py], and
    [apps/worker/services/test_analytics/ta_process_flakes.py] that replaces it:
    the test runs of a commit are counted for the flakes of its repository.  A
    dictionary from a test to its flake holds objects that are changed in place;
    here it holds the rows, changed under their key. *)
From S2P Require Export PyStr.

#[local] Open Scope string_scope.
#[local] Open Scope list_scope.
#[local] Open Scope Z_scope.

Inductive Outcome : Set := PASS | FAILURE | ERROR | SKIP | FLAKY_FAIL.
#[export] Instance Outcome_eq_dec : EqDecision Outcome.
Proof. solve_decision. Defined.

Definition FLAKE_EXPIRY_COUNT : Z := 30.

(** A row of [Flake]; the key is [None] until it is saved. *)
Record Flake : Type := mkFlake {
  fk_pk : option Z; fk_repoid : Z; fk_test_id : string; fk_count : Z; fk_fail_count : Z;
  fk_recent_passes_count : Z; fk_start_date : Z; fk_end_date : option Z;
}.
#[export] Instance Flake_eq_dec : EqDecision Flake.
Proof. solve_decision. Defined.

(** The table of flakes with the sequence of its keys. *)
Record FlakeTable : Type := mkFlakeTable { flake_rows : gmap Z Flake; flake_seq : Z }.

Definition with_pk (pk : Z) (f : Flake) : Flake :=
  mkFlake (Some pk) (fk_repoid f) (fk_test_id f) (fk_count f) (fk_fail_count f) (fk_recent_passes_count f)
    (fk_start_date f) (fk_end_date f).

(** [save] and [bulk_create]: a row without a key gets the next one. *)
Definition save_flake (t : FlakeTable) (f : Flake) : FlakeTable * Flake :=
  match fk_pk f with
  | Some pk => (mkFlakeTable (<[pk := f]> (flake_rows t)) (flake_seq t), f)
  | None => let f := with_pk (flake_seq t) f in
            (mkFlakeTable (<[flake_seq t := f]> (flake_rows t)) (flake_seq t + 1), f)
  end.

Fixpoint save_all (t : FlakeTable) (fs : list Flake) : FlakeTable * list Flake :=
  match fs with
  | [] => (t, [])
  | f :: fs => let '(t, f) := save_flake t f in let '(t, fs) := save_all t fs in (t, f :: fs)
  end.

(** [{flake.test_id: flake for flake in flakes}] *)
Definition by_test (fs : list Flake) : odict string Flake := od_of_list (map (fun f => (fk_test_id f, f)) fs).

(** The rows of a repository in the order of the query. *)
Definition repo_flakes (order : gmap Z Flake -> list Flake) (t : FlakeTable) (repo_id : Z) (open_only : bool) : list Flake :=
  List.filter (fun f => (fk_repoid f =? repo_id) && (negb open_only || bool_decide (fk_end_date f = None))) (order (flake_rows t)).

(** ** [flake_processing.py] *)

Record TestInstance : Type := mkInstance {
  ti_upload_id : Z; ti_test_id : string; ti_outcome : Outcome; ti_created_at : Z; ti_branch : option string;
}.

Module FlakeProcessing.
(** A row of [DailyTestRollup], and the count it holds. *)
Definition rollup_key : Type := (Z * Z * option string * string)%type.

Definition is_failure (o : Outcome) : bool := bool_decide (o = FAILURE) || bool_decide (o = ERROR).

Definition update_flake (f : Flake) (i : TestInstance) : Flake :=
  let f := mkFlake (fk_pk f) (fk_repoid f) (fk_test_id f) (fk_count f + 1) (fk_fail_count f) (fk_recent_passes_count f)
             (fk_start_date f) (fk_end_date f) in
  match ti_outcome i with
  | PASS =>
      let n := fk_recent_passes_count f + 1 in
      mkFlake (fk_pk f) (fk_repoid f) (fk_test_id f) (fk_count f) (fk_fail_count f) n (fk_start_date f)
        (if n =? FLAKE_EXPIRY_COUNT then Some (ti_created_at i) else fk_end_date f)
  | FAILURE | ERROR =>
      mkFlake (fk_pk f) (fk_repoid f) (fk_test_id f) (fk_count f) (fk_fail_count f + 1) 0 (fk_start_date f) (fk_end_date f)
  | _ => f
  end.

Definition rollup_of (repo_id : Z) (i : TestInstance) : rollup_key :=
  (repo_id, ti_created_at i / DAY, ti_branch i, ti_test_id i).

(** The rollup that is read has one more flaky failure; it is written later. *)
Definition create_flake (rollups : gmap rollup_key Z) (i : TestInstance) (repo_id : Z) : Flake * option (rollup_key * Z) :=
  (mkFlake None repo_id (ti_test_id i) 1 1 0 (ti_created_at i) None,
   (fun n => (rollup_of repo_id i, n + 1)) <$> rollups !! rollup_of repo_id i).

(** What the loop over the instances of an upload changes. *)
Record loop : Type := mkLoop {
  curr_flakes : odict string Flake; new_flakes : odict string Flake; rollups_to_update : list (rollup_key * Z);
}.

(** [new_flakes.get(t) or curr_flakes.get(t)], updated where it is found. *)
Definition found_and (s : loop) (i : TestInstance) : option loop :=
  let t := ti_test_id i in
  match od_get t (new_flakes s), od_get t (curr_flakes s) with
  | Some f, _ => Some (mkLoop (curr_flakes s) (od_set t (update_flake f i) (new_flakes s)) (rollups_to_update s))
  | None, Some f => Some (mkLoop (od_set t (update_flake f i) (curr_flakes s)) (new_flakes s) (rollups_to_update s))
  | None, None => None
  end.

Definition instance_step (rollups : gmap rollup_key Z) (repo_id : Z) (s : loop) (i : TestInstance) : loop :=
  match ti_outcome i with
  | PASS => default s (found_and s i)
  | FAILURE | ERROR =>
      match found_and s i with
      | Some s => s
      | None =>
          let '(f, rollup) := create_flake rollups i repo_id in
          mkLoop (curr_flakes s) (od_set (ti_test_id i) f (new_flakes s))
            (rollups_to_update s ++ match rollup with Some r => [r] | None => [] end)
      end
  | _ => s
  end.

Definition get_test_instances (instances : list TestInstance) (upload_id : Z) (flaky_tests : list string) : list TestInstance :=
  List.filter (fun i => (ti_upload_id i =? upload_id)
    && (is_failure (ti_outcome i) || bool_decide (ti_outcome i = PASS) && bool_decide (ti_test_id i ∈ flaky_tests))) instances.

Record state : Type := mkState {
  st_table : FlakeTable; st_rollups : gmap rollup_key Z; st_curr : odict string Flake;
  st_to_update : list (rollup_key * Z); st_processed : list Z;
}.

(** [{**merged, **curr}] *)
Definition dict_merge (d e : odict string Flake) : odict string Flake := foldl (fun m kv => od_set kv.1 kv.2 m) d e.

Definition upload_step (instances : list TestInstance) (repo_id : Z) (flaky_tests : list string) (s : state) (upload_id : Z) : state :=
  let l := foldl (instance_step (st_rollups s) repo_id) (mkLoop (st_curr s) [] (st_to_update s))
             (get_test_instances instances upload_id flaky_tests) in
  let rollups := foldl (fun m kn => <[kn.1 := kn.2]> m) (st_rollups s) (rollups_to_update l) in
  let '(table, merged) := save_all (st_table s) (od_vals (new_flakes l)) in
  let '(table, _) := save_all table (od_vals (curr_flakes l)) in
  mkState table rollups (dict_merge (by_test merged) (curr_flakes l)) (rollups_to_update l) (st_processed s ++ [upload_id]).

Definition fetch_curr_flakes (order : gmap Z Flake -> list Flake) (t : FlakeTable) (repo_id : Z) : odict string Flake :=
  by_test (repo_flakes order t repo_id true).

(** [uploads] are the processed uploads of the commit. *)
Definition process_flake_in_transaction (order : gmap Z Flake -> list Flake) (table : FlakeTable)
    (rollups : gmap rollup_key Z) (instances : list TestInstance) (uploads : list Z) (repo_id : Z) : state :=
  let curr := fetch_curr_flakes order table repo_id in
  foldl (upload_step instances repo_id (od_keys curr)) (mkState table rollups curr [] []) uploads.
End FlakeProcessing.

(** ** [ta_process_flakes.py] *)

Record Testrun : Type := mkTestrun { tr_timestamp : Z; tr_test_id : string; tr_outcome : Outcome; tr_upload_id : Z }.

Module TaProcessFlakes.
Section ta.
Variable order : gmap Z Flake -> list Flake.
Variable now : Z.

(** Every flake of the repository, the ended ones too. *)
Definition fetch_current_flakes (t : FlakeTable) (repo_id : Z) : odict string Flake :=
  by_test (repo_flakes order t repo_id false).

Definition earlier (a b : Testrun) : Prop := tr_timestamp a <= tr_timestamp b.
#[local] Instance earlier_dec a b : Decision (earlier a b).
Proof. unfold earlier. apply _. Defined.

Definition get_testruns (runs : list Testrun) (upload_id : Z) : list Testrun :=
  merge_sort earlier (List.filter (fun r => (now - days 1 <=? tr_timestamp r) && (tr_upload_id r =? upload_id)) runs).

Record loop : Type := mkLoop { table : FlakeTable; curr_flakes : odict string Flake }.

(** A flake that passed thirty times in a row is ended, saved and forgotten. *)
Definition handle_pass (s : loop) (test_id : string) : loop :=
  match od_get test_id (curr_flakes s) with
  | None => s
  | Some f =>
      let n := fk_recent_passes_count f + 1 in
      let f' := fun e => mkFlake (fk_pk f) (fk_repoid f) (fk_test_id f) (fk_count f + 1) (fk_fail_count f) n (fk_start_date f) e in
      if n =? 30 then mkLoop (save_flake (table s) (f' (Some now))).1 (od_del test_id (curr_flakes s))
      else mkLoop (table s) (od_set test_id (f' (fk_end_date f)) (curr_flakes s))
  end.

Definition handle_failure (s : loop) (test_id : string) (repo_id : Z) : loop :=
  mkLoop (table s) (od_set test_id
    (match od_get test_id (curr_flakes s) with
     | Some f => mkFlake (fk_pk f) (fk_repoid f) (fk_test_id f) (fk_count f + 1) (fk_fail_count f + 1) 0 (fk_start_date f) (fk_end_date f)
     | None => mkFlake None repo_id test_id 1 1 0 now None
     end) (curr_flakes s)).

Definition testrun_step (repo_id : Z) (s : loop) (r : Testrun) : loop :=
  match tr_outcome r with
  | PASS => handle_pass s (tr_test_id r)
  | FAILURE | FLAKY_FAIL | ERROR => handle_failure s (tr_test_id r) repo_id
  | SKIP => s
  end.

(** The outcome a run is saved with. *)
Definition new_outcome (o : Outcome) : Outcome := match o with FAILURE | ERROR | FLAKY_FAIL => FLAKY_FAIL | _ => o end.

Definition process_single_upload (runs : list Testrun) (repo_id : Z) (s : loop) (upload_id : Z) : loop :=
  foldl (testrun_step repo_id) s (get_testruns runs upload_id).

Definition process_flakes_for_commit (t : FlakeTable) (runs : list Testrun) (uploads : list Z) (repo_id : Z) : FlakeTable :=
  let s := foldl (process_single_upload runs repo_id) (mkLoop t (fetch_current_flakes t repo_id)) uploads in
  (save_all (table s) (od_vals (curr_flakes s))).1.

(** The commits that wait for a repository, ten at a time; [None] when the lock is
    not acquired.  The fuel is one more than the commits that wait. *)
Fixpoint drain (fuel : nat) (queue : list string) (t : FlakeTable) (process : FlakeTable -> string -> FlakeTable) : FlakeTable :=
  match fuel, queue with
  | _, [] => t
  | O, _ => t
  | S fuel', _ => drain fuel' (drop 10 queue) (foldl process t (take 10 queue)) process
  end.

Definition process_flakes_for_repo (locked : bool) (queue : list string) (t : FlakeTable)
    (process : FlakeTable -> string -> FlakeTable) : FlakeTable * bool :=
  if locked then (t, false) else (drain (length queue) queue t process, true).
End ta.
End TaProcessFlakes.

(** * What the counting of flakes computes

    The flake of a test depends on the runs of that test alone: how many there
    were, how many failed, how many passed since the last failure; the rows that
    are saved are the ones counted. *)

#[local] Open Scope string_scope.
#[local] Open Scope list_scope.
#[local] Open Scope Z_scope.
Import FlakeProcessing.

(** ** The history of one test *)

(** The two outcomes of a run that failed. *)
Definition failed (i : TestInstance) : bool :=
  match ti_outcome i with FAILURE | ERROR => true | PASS | SKIP | FLAKY_FAIL => false end.

Definition fails (l : list TestInstance) : Z := Z.of_nat (length (List.filter failed l)).

(** The passes since the last failure, [n] of them before. *)
Fixpoint passes_since (n : Z) (l : list TestInstance) : Z :=
  match l with
  | [] => n
  | i :: l => passes_since (if failed i then 0 else n + 1) l
  end.

(** The run at [k] is the thirtieth pass in a row, with [n] passes before the runs. *)
Definition thirtieth (n : Z) (runs : list TestInstance) (k : nat) (i : TestInstance) : Prop :=
  runs !! k = Some i /\ ti_outcome i = PASS /\ passes_since n (take (S k) runs) = 30.

(** The end of a flake whose end was [e] before the runs: the time of the last thirtieth
    pass among them, or the same when there is none. *)
Definition ended (n : Z) (e : option Z) (runs : list TestInstance) (e' : option Z) : Prop :=
  (exists k i, thirtieth n runs k i /\ (forall k' i', thirtieth n runs k' i' -> (k' <= k)%nat) /\ e' = Some (ti_created_at i)) \/
  ((forall k i, ~ thirtieth n runs k i) /\ e' = e).

Lemma is_failure_failed i : is_failure (ti_outcome i) = failed i.
Proof. unfold failed. by destruct (ti_outcome i). Qed.

Lemma thirtieth_cons n i l k j :
  thirtieth n (i :: l) (S k) j <-> thirtieth (if failed i then 0 else n + 1) l k j.
Proof. done. Qed.

Lemma ended_cons n e i l e' :
  ended (if failed i then 0 else n + 1)
    (if bool_decide (ti_outcome i = PASS) && (n + 1 =? 30) then Some (ti_created_at i) else e) l e' ->
  ended n e (i :: l) e'.
Proof.
  intros [(k & j & Hk & Hmax & ->)|[Hno ->]].
  - left. exists (S k), j. split; [done|]. split; [|done]. intros [|k'] j' Hk'; [lia|].
    apply thirtieth_cons, Hmax in Hk'. lia.
  - case_bool_decide as Hp; cbn; [destruct (Z.eqb_spec (n + 1) 30) as [H30|H30]|].
    + left. exists 0%nat, i. split.
      * split; [done|]. split; [done|]. cbn. unfold failed. by rewrite Hp.
      * split; [|done]. intros [|k'] j' Hk'; [lia|]. by apply thirtieth_cons, Hno in Hk'.
    + right. split; [|done]. intros [|k] j Hk; [|by apply thirtieth_cons, Hno in Hk].
      destruct Hk as (_ & _ & Hk). cbn in Hk. unfold failed in Hk. rewrite Hp in Hk. by apply H30.
    + right. split; [|done]. intros [|k] j Hk; [|by apply thirtieth_cons, Hno in Hk].
      by destruct Hk as ([= ->] & ? & _).
Qed.

(** Runs that are counted: passes and failures. *)
Definition counted (l : list TestInstance) : Prop :=
  Forall (fun i => ti_outcome i = PASS \/ is_failure (ti_outcome i) = true) l.

Definition erase (f : Flake) : Flake :=
  mkFlake None (fk_repoid f) (fk_test_id f) (fk_count f) (fk_fail_count f) (fk_recent_passes_count f)
    (fk_start_date f) (fk_end_date f).

(** What the code keeps of a test, run after run. *)
Definition history_step (repo_id : Z) (o : option Flake) (i : TestInstance) : option Flake :=
  match o with
  | Some f => Some (update_flake f i)
  | None => if is_failure (ti_outcome i) then Some (mkFlake None repo_id (ti_test_id i) 1 1 0 (ti_created_at i) None) else None
  end.

Lemma history_some repo l f : counted l ->
  exists f', foldl (history_step repo) (Some f) l = Some f' /\
    fk_count f' = fk_count f + Z.of_nat (length l) /\
    fk_fail_count f' = fk_fail_count f + fails l /\
    fk_recent_passes_count f' = passes_since (fk_recent_passes_count f) l /\
    fk_start_date f' = fk_start_date f /\ fk_pk f' = fk_pk f /\ fk_test_id f' = fk_test_id f /\ fk_repoid f' = fk_repoid f /\
    ended (fk_recent_passes_count f) (fk_end_date f) l (fk_end_date f').
Proof.
  revert f. induction l as [|i l IH]; intros f Hc.
  { exists f. unfold fails. cbn. repeat split; try lia. right. split; [|done]. intros k i (Hk & _). by rewrite lookup_nil in Hk. }
  inversion Hc as [|? ? Hi Hl]; subst. cbn [foldl history_step].
  destruct (IH (update_flake f i) Hl) as (f' & Hf & Hcount & Hfail & Hrec & Hst & Hpk & Ht & Hrp & Hend).
  exists f'. split; [done|]. unfold fails in *. cbn [List.filter length passes_since].
  assert (He : ended (fk_recent_passes_count f) (fk_end_date f) (i :: l) (fk_end_date f')).
  { apply ended_cons. clear -Hi Hend. rewrite is_failure_failed in Hi. unfold update_flake, failed in *.
    destruct (ti_outcome i); cbn in *; try exact Hend; by destruct Hi. }
  clear Hend. rewrite is_failure_failed in Hi. unfold update_flake in Hcount, Hfail, Hrec, Hst, Hpk, Ht, Hrp. unfold failed in *.
  destruct (ti_outcome i); cbn in *; (destruct Hi as [Hi|Hi]; try done); repeat split; (done || lia).
Qed.

Lemma erase_update f i : erase (update_flake f i) = update_flake (erase f) i.
Proof. unfold update_flake. by destruct (ti_outcome i). Qed.

(** ** One upload *)

Section process.
Variables (repo : Z) (rollups : gmap rollup_key Z).

(** The flake of a test among the new ones and the known ones. *)
Definition flake_of (l : loop) (t : string) : option Flake :=
  match od_get t (new_flakes l) with Some f => Some f | None => od_get t (curr_flakes l) end.

(** New flakes are not among the known ones, and have no key. *)
Definition loop_ok (l : loop) : Prop :=
  od_wf (curr_flakes l) /\ od_wf (new_flakes l) /\
  (forall t f, od_get t (new_flakes l) = Some f ->
     od_get t (curr_flakes l) = None /\ fk_pk f = None /\ fk_test_id f = t).

Definition instance_counted (i : TestInstance) : Prop := ti_outcome i = PASS \/ is_failure (ti_outcome i) = true.

Lemma instance_step_flake l i t : loop_ok l -> instance_counted i ->
  flake_of (instance_step rollups repo l i) t
  = (if decide (ti_test_id i = t) then history_step repo (flake_of l t) i else flake_of l t).
Proof.
  intros (Hwc & Hwn & Hnew) Hi. unfold instance_step.
  assert (Hfound : forall l', found_and l i = Some l' -> flake_of l' t
     = (if decide (ti_test_id i = t) then history_step repo (flake_of l t) i else flake_of l t)).
  { unfold found_and, flake_of. intros l' H.
    destruct (od_get (ti_test_id i) (new_flakes l)) as [f|] eqn:Hn.
    - injection H as <-. cbn. case_decide as Ht; [subst t|by rewrite od_get_set_ne by congruence].
      rewrite od_get_set_eq, Hn. done.
    - destruct (od_get (ti_test_id i) (curr_flakes l)) as [f|] eqn:Hcf; [|done]. injection H as <-. cbn.
      case_decide as Ht; [subst t; by rewrite Hn, od_get_set_eq, Hcf|].
      destruct (od_get t (new_flakes l)); [done|]. by rewrite od_get_set_ne by congruence. }
  assert (Hnone : found_and l i = None -> flake_of l (ti_test_id i) = None).
  { unfold found_and, flake_of. by destruct (od_get (ti_test_id i) (new_flakes l)), (od_get (ti_test_id i) (curr_flakes l)). }
  destruct Hi as [Hi|Hi].
  - rewrite Hi. destruct (found_and l i) as [l'|] eqn:Hf; cbn; [by apply Hfound|].
    case_decide as Ht; [|done]. subst t. rewrite (Hnone eq_refl). unfold history_step. by rewrite Hi.
  - assert (Hcreate : found_and l i = None ->
      flake_of (mkLoop (curr_flakes l) (od_set (ti_test_id i) (create_flake rollups i repo).1 (new_flakes l))
        (rollups_to_update l ++ match (create_flake rollups i repo).2 with Some r => [r] | None => [] end)) t
      = (if decide (ti_test_id i = t) then history_step repo (flake_of l t) i else flake_of l t)).
    { intros Hn. unfold flake_of at 1. cbn. case_decide as Ht.
      - subst t. rewrite od_get_set_eq, (Hnone Hn). cbn. by rewrite Hi.
      - by rewrite od_get_set_ne by congruence. }
    unfold is_failure in Hi. apply orb_true_iff in Hi as [Hi|Hi]; apply bool_decide_eq_true in Hi; rewrite Hi;
      (destruct (found_and l i) as [l'|] eqn:Hf; [by apply Hfound | by apply Hcreate]).
Qed.

Lemma found_and_shape l i l' : found_and l i = Some l' ->
  (exists f, od_get (ti_test_id i) (new_flakes l) = Some f /\
     l' = mkLoop (curr_flakes l) (od_set (ti_test_id i) (update_flake f i) (new_flakes l)) (rollups_to_update l)) \/
  (exists f, od_get (ti_test_id i) (new_flakes l) = None /\ od_get (ti_test_id i) (curr_flakes l) = Some f /\
     l' = mkLoop (od_set (ti_test_id i) (update_flake f i) (curr_flakes l)) (new_flakes l) (rollups_to_update l)).
Proof.
  unfold found_and. destruct (od_get (ti_test_id i) (new_flakes l)) as [f|]; [injection 1 as <-; eauto|].
  destruct (od_get (ti_test_id i) (curr_flakes l)) as [f|]; [injection 1 as <-; eauto 6|done].
Qed.

Lemma update_flake_pk f i : fk_pk (update_flake f i) = fk_pk f /\ fk_test_id (update_flake f i) = fk_test_id f.
Proof. unfold update_flake. by destruct (ti_outcome i). Qed.

(** The objects of a dictionary may change, their keys stay. *)
Definition same_pks (d d' : odict string Flake) : Prop :=
  od_keys d = od_keys d' /\
  forall t f', od_get t d' = Some f' -> exists f, od_get t d = Some f /\ fk_pk f' = fk_pk f /\ fk_test_id f' = fk_test_id f.

Lemma same_pks_refl d : same_pks d d.
Proof. split; [done|]. eauto. Qed.
Lemma same_pks_trans d1 d2 d3 : same_pks d1 d2 -> same_pks d2 d3 -> same_pks d1 d3.
Proof.
  intros [Hk1 H1] [Hk2 H2]. split; [congruence|]. intros t f (f2 & Hf2 & Hp2 & Ht2)%H2.
  destruct (H1 t f2 Hf2) as (f1 & Hf1 & Hp1 & Ht1). exists f1. split; [done|]. split; congruence.
Qed.

Lemma same_pks_update d t f i : od_get t d = Some f -> same_pks d (od_set t (update_flake f i) d).
Proof.
  intros Hf. split.
  - symmetry. apply od_keys_set_old, od_get_is_Some. eauto.
  - intros t' f' Hf'. destruct (decide (t' = t)) as [->|Hne].
    + rewrite od_get_set_eq in Hf'. injection Hf' as <-. exists f. split; [done|]. apply update_flake_pk.
    + rewrite od_get_set_ne in Hf' by done. eauto.
Qed.

Lemma found_and_ok l i l' : loop_ok l -> found_and l i = Some l' ->
  loop_ok l' /\ same_pks (curr_flakes l) (curr_flakes l').
Proof.
  intros (Hwc & Hwn & Hnew) [(f & Hf & ->)|(f & Hn & Hf & ->)]%found_and_shape.
  - split; [|apply same_pks_refl]. split; [done|]. split; [by apply od_wf_set|]. cbn. intros t f' Hf'.
    destruct (decide (t = ti_test_id i)) as [->|Hne].
    + rewrite od_get_set_eq in Hf'. injection Hf' as <-. destruct (Hnew _ _ Hf) as (Hc & Hp & Ht).
      destruct (update_flake_pk f i) as [-> ->]. done.
    + rewrite od_get_set_ne in Hf' by done. eauto.
  - split; [|by apply same_pks_update]. split; [by apply od_wf_set|]. split; [done|]. cbn. intros t f' Hf'.
    destruct (Hnew _ _ Hf') as (Hc & Hp & Ht). split; [|done].
    rewrite od_get_set_ne; [done|]. intros ->. by rewrite Hn in Hf'.
Qed.

Lemma instance_step_ok l i : loop_ok l -> instance_counted i ->
  loop_ok (instance_step rollups repo l i) /\ same_pks (curr_flakes l) (curr_flakes (instance_step rollups repo l i)).
Proof.
  intros Hl Hi. unfold instance_step.
  assert (Hcreate : found_and l i = None ->
    loop_ok (mkLoop (curr_flakes l) (od_set (ti_test_id i) (create_flake rollups i repo).1 (new_flakes l))
        (rollups_to_update l ++ match (create_flake rollups i repo).2 with Some r => [r] | None => [] end))).
  { intros Hn. destruct Hl as (Hwc & Hwn & Hnew). split; [done|]. split; [by apply od_wf_set|]. cbn. intros t f' Hf'.
    destruct (decide (t = ti_test_id i)) as [->|Hne].
    - rewrite od_get_set_eq in Hf'. injection Hf' as <-. split; [|done].
      unfold found_and in Hn. destruct (od_get (ti_test_id i) (new_flakes l)); [done|].
      by destruct (od_get (ti_test_id i) (curr_flakes l)).
    - rewrite od_get_set_ne in Hf' by done. eauto. }
  destruct Hi as [Hi|Hi].
  - rewrite Hi. destruct (found_and l i) as [l'|] eqn:Hf; cbn; [by eapply found_and_ok|]. split; [done|apply same_pks_refl].
  - unfold is_failure in Hi. apply orb_true_iff in Hi as [Hi|Hi]; apply bool_decide_eq_true in Hi; rewrite Hi;
      (destruct (found_and l i) as [l'|] eqn:Hf; [by eapply found_and_ok | split; [by apply Hcreate|apply same_pks_refl]]).
Qed.

(** The runs of one test. *)
Definition runs_of (t : string) (l : list TestInstance) : list TestInstance :=
  List.filter (fun i => bool_decide (ti_test_id i = t)) l.

Lemma loop_history l ins : loop_ok l -> Forall instance_counted ins ->
  let l' := foldl (instance_step rollups repo) l ins in
  loop_ok l' /\ same_pks (curr_flakes l) (curr_flakes l') /\
  forall t, flake_of l' t = foldl (history_step repo) (flake_of l t) (runs_of t ins).
Proof.
  revert l. induction ins as [|i ins IH]; intros l Hl Hc; [split; [done|]; split; [apply same_pks_refl|done]|].
  inversion Hc as [|? ? Hi Hins]; subst. destruct (instance_step_ok l i Hl Hi) as [Hok Hpk].
  destruct (IH _ Hok Hins) as (Hl' & Hpk' & Hh). cbn [foldl]. split; [done|]. split; [by eapply same_pks_trans|].
  intros t. rewrite Hh, instance_step_flake by done. unfold runs_of. cbn [List.filter].
  case_decide as Ht; [by rewrite bool_decide_eq_true_2 | by rewrite bool_decide_eq_false_2].
Qed.
End process.

(** ** Saving *)

Definition table_ok (t : FlakeTable) : Prop :=
  forall pk f, flake_rows t !! pk = Some f -> fk_pk f = Some pk /\ pk < flake_seq t.

Definition saved (t : FlakeTable) (f : Flake) : Prop := exists pk, fk_pk f = Some pk /\ flake_rows t !! pk = Some f.

Lemma save_all_new fs t : table_ok t -> Forall (fun f => fk_pk f = None) fs ->
  let '(t', fs') := save_all t fs in
  table_ok t' /\ Forall2 (fun f f' => exists pk, f' = with_pk pk f /\ flake_seq t <= pk) fs fs' /\ Forall (saved t') fs' /\
  (forall pk, pk < flake_seq t -> flake_rows t' !! pk = flake_rows t !! pk) /\ flake_seq t <= flake_seq t'.
Proof.
  revert t. induction fs as [|f fs IH]; intros t Ht Hn; cbn; [split_and!; try done; by constructor|].
  inversion Hn as [|? ? Hf Hfs]; subst. unfold save_flake. rewrite Hf.
  set (t1 := mkFlakeTable (<[flake_seq t := with_pk (flake_seq t) f]> (flake_rows t)) (flake_seq t + 1)).
  assert (Ht1 : table_ok t1).
  { intros pk g. cbn. destruct (decide (pk = flake_seq t)) as [->|Hne].
    - rewrite lookup_insert_eq. injection 1 as <-. cbn. split; [done|lia].
    - rewrite lookup_insert_ne by done. intros [Hp Hlt]%Ht. split; [done|lia]. }
  specialize (IH t1 Ht1 Hfs). destruct (save_all t1 fs) as [t' fs'].
  destruct IH as (Ht' & H2 & Hsaved & Hold & Hseq). cbn in Hold, Hseq. split; [done|]. split.
  - constructor; [exists (flake_seq t); split; [done|lia]|]. eapply Forall2_impl; [exact H2|].
    intros x y (pk & -> & Hp). exists pk. cbn in Hp. split; [done|lia].
  - split; [constructor; [|done]; exists (flake_seq t); split; [done|]; rewrite Hold by lia; by rewrite lookup_insert_eq|].
    split; [|lia]. intros pk Hpk. rewrite Hold by lia. rewrite lookup_insert_ne by lia. done.
Qed.

Lemma save_all_old fs t : table_ok t -> Forall (fun f => exists pk, fk_pk f = Some pk /\ pk < flake_seq t) fs ->
  NoDup (map fk_pk fs) ->
  let '(t', fs') := save_all t fs in
  table_ok t' /\ fs' = fs /\ flake_seq t' = flake_seq t /\ Forall (saved t') fs /\
  (forall pk, Some pk ∉ map fk_pk fs -> flake_rows t' !! pk = flake_rows t !! pk).
Proof.
  revert t. induction fs as [|f fs IH]; intros t Ht Hn Hd; cbn; [split_and!; try done; by constructor|].
  inversion Hn as [|? ? (pk & Hpk & Hlt) Hfs]; subst. inversion Hd as [|? ? Hnin Hd']; subst.
  unfold save_flake. rewrite Hpk. set (t1 := mkFlakeTable (<[pk := f]> (flake_rows t)) (flake_seq t)).
  assert (Ht1 : table_ok t1).
  { intros k g. cbn. destruct (decide (k = pk)) as [->|Hne].
    - rewrite lookup_insert_eq. by injection 1 as <-.
    - rewrite lookup_insert_ne by done. apply Ht. }
  specialize (IH t1 Ht1 Hfs Hd'). destruct (save_all t1 fs) as [t' fs'].
  destruct IH as (Ht' & -> & Hseq & Hsaved & Hold). split; [done|]. split; [done|]. split; [done|].
  split.
  - constructor; [|done]. exists pk. split; [done|]. rewrite Hold by (by rewrite <- Hpk). cbn. by rewrite lookup_insert_eq.
  - intros k Hk. rewrite Hold; [|intros Hin; apply Hk; by right]. cbn. rewrite lookup_insert_ne; [done|].
    intros ->. apply Hk. by left.
Qed.

(** ** Dictionaries of rows *)

Lemma foldl_set_get (l : list (string * Flake)) d k v :
  od_get k (foldl (fun d kv => od_set kv.1 kv.2 d) d l) = Some v -> (k, v) ∈ l \/ od_get k d = Some v.
Proof.
  revert d. induction l as [|[k' v'] l IH]; intros d H; cbn in H; [by right|].
  apply IH in H as [H|H]; [left; by right|]. cbn in H. destruct (decide (k = k')) as [->|Hne].
  - rewrite od_get_set_eq in H. injection H as ->. left. by left.
  - rewrite od_get_set_ne in H by done. by right.
Qed.

Lemma by_test_get fs t f : od_get t (by_test fs) = Some f -> f ∈ fs /\ fk_test_id f = t.
Proof.
  intros [H|H]%foldl_set_get; [|done]. apply list_elem_of_fmap in H as (g & Heq & Hg).
  injection Heq as -> ->. done.
Qed.

Lemma by_test_wf fs : od_wf (by_test fs).
Proof.
  unfold by_test, od_of_list. generalize (map (fun f => (fk_test_id f, f)) fs). intros l.
  assert (H : forall d : odict string Flake, od_wf d -> od_wf (foldl (fun d kv => od_set kv.1 kv.2 d) d l)).
  { induction l as [|kv l IH]; intros d Hd; cbn; [done|]. by apply IH, od_wf_set. }
  apply H, od_wf_nil.
Qed.

Lemma dict_merge_get d e t : od_wf e ->
  od_get t (dict_merge d e) = match od_get t e with Some f => Some f | None => od_get t d end.
Proof.
  unfold dict_merge. revert d. induction e as [|[k v] e IH]; intros d He; [done|].
  inversion He as [|? ? Hk He']; subst. cbn [foldl fst snd]. rewrite (IH _ He'). cbn.
  case_decide as Ht.
  - subst t. rewrite (proj2 (od_get_None k e)) by done. by rewrite od_get_set_eq.
  - destruct (od_get t e); [done|]. by rewrite od_get_set_ne.
Qed.

Lemma dict_merge_wf d e : od_wf d -> od_wf (dict_merge d e).
Proof.
  unfold dict_merge. revert d. induction e as [|[k v] e IH]; intros d Hd; cbn; [done|]. by apply IH, od_wf_set.
Qed.

(** Rows that were given keys, by test: the same tests in the same order. *)
Lemma by_test_keyed (d : odict string Flake) fs' :
  od_wf d -> (forall t f, od_get t d = Some f -> fk_test_id f = t) ->
  Forall2 (fun f f' => exists pk : Z, f' = with_pk pk f) (od_vals d) fs' ->
  forall t, erase <$> od_get t (by_test fs') = erase <$> od_get t d.
Proof.
  intros Hwf Ht H2.
  assert (Hmap : Forall2 (fun kv kv' => kv'.1 = kv.1 /\ exists pk : Z, kv'.2 = with_pk pk kv.2) d (map (fun f => (fk_test_id f, f)) fs')).
  { assert (Hin : forall kv, kv ∈ d -> fk_test_id kv.2 = kv.1).
    { intros [k v] Hkv. apply Ht. by apply od_elem_get. }
    clear Ht Hwf. revert fs' H2. induction d as [|[k v] d IH]; intros fs' H2; inversion H2 as [|? f' ? fs'' [pk ->] H2']; subst; [done|].
    cbn. constructor; [|apply IH; [intros; apply Hin; by right|done]]. cbn. split; [|by exists pk].
    apply (Hin (k, v)). by left. }
  assert (Hkeys : od_keys (map (fun f => (fk_test_id f, f)) fs') = od_keys d).
  { clear -Hmap. unfold od_keys. induction Hmap as [|x y l l' [Hk _] _ IH]; cbn; [done|]. by rewrite Hk, IH. }
  unfold by_test. rewrite od_of_list_id by (unfold od_wf; by rewrite Hkeys).
  intros t. clear -Hmap. induction Hmap as [|[k v] [k' v'] l l' [Hk [pk Hv]] _ IH]; [done|].
  cbn in *. subst. case_decide; [done|apply IH].
Qed.

(** ** One upload, and all of them *)

Lemma nodup_pks (d : odict string Flake) : od_wf d ->
  (forall t t' f f', od_get t d = Some f -> od_get t' d = Some f' -> fk_pk f = fk_pk f' -> t = t') ->
  NoDup (map fk_pk (od_vals d)).
Proof.
  intros Hwf Hinj. assert (Hin : forall t t' f f', (t, f) ∈ d -> (t', f') ∈ d -> fk_pk f = fk_pk f' -> t = t').
  { intros t t' f f' H H'. apply Hinj; by apply od_elem_get. }
  clear Hinj. induction d as [|[k v] d IH]; cbn; [constructor|]. inversion Hwf as [|? ? Hk Hwf']; subst.
  constructor.
  - intros (f & Hf & Hin')%list_elem_of_fmap. apply list_elem_of_fmap in Hin' as ([k' f'] & -> & Hd). cbn in Hf.
    apply Hk. apply list_elem_of_fmap. exists (k', f'). split; [|done]. cbn.
    apply (Hin k k' v f'); [by left | by right | done].
  - apply IH; [done|]. intros t t' f f' H H'. apply Hin; by right.
Qed.

Section uploads.
Variables (instances : list TestInstance) (repo : Z) (flaky : list string).

Definition state_ok (s : state) : Prop :=
  table_ok (st_table s) /\ od_wf (st_curr s) /\
  forall t f, od_get t (st_curr s) = Some f -> fk_test_id f = t /\ saved (st_table s) f.

Lemma get_test_instances_counted u : Forall instance_counted (get_test_instances instances u flaky).
Proof.
  apply Forall_forall. intros i Hi%list_elem_of_In. apply filter_In in Hi as [_ Hi].
  apply andb_true_iff in Hi as [_ Hi]. apply orb_true_iff in Hi as [Hi|Hi]; [by right|].
  apply andb_true_iff in Hi as [Hi _]. left. by apply bool_decide_eq_true in Hi.
Qed.

Lemma saved_inj t (d : odict string Flake) : table_ok t -> (forall k f, od_get k d = Some f -> fk_test_id f = k /\ saved t f) ->
  forall k k' f f', od_get k d = Some f -> od_get k' d = Some f' -> fk_pk f = fk_pk f' -> k = k'.
Proof.
  intros Ht Hd k k' f f' [Hk (pk & Hp & Hr)]%Hd [Hk' (pk' & Hp' & Hr')]%Hd Heq. congruence.
Qed.

Lemma upload_step_ok s u : state_ok s ->
  state_ok (upload_step instances repo flaky s u) /\
  forall t, erase <$> od_get t (st_curr (upload_step instances repo flaky s u))
    = erase <$> foldl (history_step repo) (od_get t (st_curr s)) (runs_of t (get_test_instances instances u flaky)).
Proof.
  intros (Ht & Hwf & Hs). unfold upload_step.
  set (l0 := mkLoop (st_curr s) [] (st_to_update s)).
  assert (Hl0 : loop_ok l0) by (split; [done|]; split; [apply od_wf_nil|]; intros ? ? [=]).
  pose proof (loop_history repo (st_rollups s) l0 _ Hl0 (get_test_instances_counted u)) as (Hl & [_ Hpk] & Hh).
  set (l := foldl (instance_step (st_rollups s) repo) l0 (get_test_instances instances u flaky)) in *.
  cbn [l0 curr_flakes] in Hpk. destruct Hl as (Hwc & Hwn & Hnew).
  assert (Hnone : Forall (fun f => fk_pk f = None) (od_vals (new_flakes l))).
  { apply Forall_forall. intros f ([t g] & -> & Hin)%list_elem_of_fmap.
    by destruct (Hnew t g (od_elem_get _ _ _ Hwn Hin)) as (_ & ? & _). }
  pose proof (save_all_new (od_vals (new_flakes l)) (st_table s) Ht Hnone) as Hn.
  destruct (save_all (st_table s) (od_vals (new_flakes l))) as [t1 merged].
  destruct Hn as (Ht1 & H2 & Hsaved1 & Hold1 & Hseq1).
  assert (Hcurr : forall t f, od_get t (curr_flakes l) = Some f ->
    fk_test_id f = t /\ exists pk, fk_pk f = Some pk /\ pk < flake_seq (st_table s)).
  { intros t f (f0 & Hf0 & Hp & Hid)%Hpk. destruct (Hs t f0 Hf0) as [Hid0 (pk & Hpk0 & Hrow)]. split; [congruence|].
    exists pk. split; [congruence|]. by apply Ht in Hrow as [_ ?]. }
  assert (Hnodup : NoDup (map fk_pk (od_vals (curr_flakes l)))).
  { apply nodup_pks; [done|]. intros t t' f f' (g & Hg & Hp & _)%Hpk (g' & Hg' & Hp' & _)%Hpk Heq.
    eapply (saved_inj (st_table s) (st_curr s)); eauto. congruence. }
  assert (Hkeyed : Forall (fun f => exists pk, fk_pk f = Some pk /\ pk < flake_seq t1) (od_vals (curr_flakes l))).
  { apply Forall_forall. intros f ([t g] & -> & Hin)%list_elem_of_fmap. cbn.
    destruct (Hcurr t g (od_elem_get _ _ _ Hwc Hin)) as (_ & pk & Hp & Hlt). exists pk. split; [done|lia]. }
  pose proof (save_all_old _ t1 Ht1 Hkeyed Hnodup) as Ho.
  destruct (save_all t1 (od_vals (curr_flakes l))) as [t2 again].
  destruct Ho as (Ht2 & _ & _ & Hsaved2 & Hold2).
  assert (Hby : forall t, erase <$> od_get t (by_test merged) = erase <$> od_get t (new_flakes l)).
  { apply by_test_keyed; [done| |].
    - intros t f Hf. by destruct (Hnew t f Hf) as (_ & _ & ?).
    - eapply Forall2_impl; [exact H2|]. intros x y (pk & ? & _). by exists pk. }
  split.
  - split; [done|]. cbn [st_curr st_table]. split; [apply dict_merge_wf, by_test_wf|].
    intros t f. rewrite dict_merge_get by done. destruct (od_get t (curr_flakes l)) as [g|] eqn:Hg.
    + injection 1 as <-. split; [by apply Hcurr|]. rewrite Forall_forall in Hsaved2. apply Hsaved2.
      apply list_elem_of_fmap. exists (t, g). split; [done|]. by apply od_get_elem.
    + intros [Hin Hid]%by_test_get. split; [done|]. rewrite Forall_forall in Hsaved1.
      destruct (Hsaved1 f Hin) as (pk & Hp & Hrow). exists pk. split; [done|]. rewrite Hold2; [done|].
      intros (g & Hgp & Hgin)%list_elem_of_fmap. apply list_elem_of_fmap in Hgin as ([k g'] & -> & Hgin). cbn in Hgp.
      destruct (Hcurr k g' (od_elem_get _ _ _ Hwc Hgin)) as (_ & pk' & Hp' & Hlt).
      apply list_elem_of_lookup in Hin as [n Hin]. destruct (Forall2_lookup_r _ _ _ _ _ H2 Hin) as (x & _ & pk'' & -> & Hge).
      cbn in Hp. injection Hp as ->. rewrite Hp' in Hgp. injection Hgp as ->. lia.
  - intros t. cbn [st_curr]. rewrite dict_merge_get by done. specialize (Hh t). unfold flake_of in Hh. cbn [l0 new_flakes curr_flakes od_get] in Hh.
    rewrite <- Hh. destruct (od_get t (curr_flakes l)) as [g|] eqn:Hg.
    + destruct (od_get t (new_flakes l)) as [f|] eqn:Hf; [|done]. destruct (Hnew t f Hf) as (Hno & _ & _). congruence.
    + rewrite Hby. by destruct (od_get t (new_flakes l)).
Qed.

Lemma history_step_erase o i : erase <$> history_step repo o i = history_step repo (erase <$> o) i.
Proof. destruct o as [f|]; cbn; [by rewrite erase_update|]. by destruct (is_failure _). Qed.

Lemma history_erase l o o' : erase <$> o = erase <$> o' ->
  erase <$> foldl (history_step repo) o l = erase <$> foldl (history_step repo) o' l.
Proof.
  revert o o'. induction l as [|i l IH]; intros o o' H; [done|]. cbn [foldl]. apply IH.
  by rewrite !history_step_erase, H.
Qed.

(** The runs of a test that are read for the uploads. *)
Definition all_runs (t : string) (uploads : list Z) : list TestInstance :=
  runs_of t (concat (map (fun u => get_test_instances instances u flaky) uploads)).

Lemma runs_of_app t l l' : runs_of t (l ++ l') = runs_of t l ++ runs_of t l'.
Proof. apply List.filter_app. Qed.

Lemma uploads_ok uploads s : state_ok s ->
  state_ok (foldl (upload_step instances repo flaky) s uploads) /\
  forall t, erase <$> od_get t (st_curr (foldl (upload_step instances repo flaky) s uploads))
    = erase <$> foldl (history_step repo) (od_get t (st_curr s)) (all_runs t uploads).
Proof.
  revert s. induction uploads as [|u us IH]; intros s Hs; [done|].
  destruct (upload_step_ok s u Hs) as [Hs1 H1]. destruct (IH _ Hs1) as [Hs2 H2]. cbn [foldl]. split; [done|].
  intros t. rewrite H2. unfold all_runs. cbn [map concat]. rewrite runs_of_app, foldl_app.
  apply history_erase, H1.
Qed.
End uploads.

Lemma all_runs_counted instances flaky t uploads : Forall instance_counted (all_runs instances flaky t uploads).
Proof.
  apply Forall_forall. intros i Hi%list_elem_of_In. apply filter_In in Hi as [Hi _].
  apply in_concat in Hi as (l & Hl & Hi). apply in_map_iff in Hl as (u & <- & _).
  pose proof (get_test_instances_counted instances flaky u) as H. rewrite Forall_forall in H.
  by apply H, list_elem_of_In.
Qed.

Lemma all_runs_failures instances flaky t uploads i :
  t ∉ flaky -> i ∈ all_runs instances flaky t uploads -> is_failure (ti_outcome i) = true.
Proof.
  intros Ht Hi%list_elem_of_In. apply filter_In in Hi as [Hi Hid]. apply bool_decide_eq_true in Hid.
  apply in_concat in Hi as (l & Hl & Hi). apply in_map_iff in Hl as (u & <- & _).
  apply filter_In in Hi as [_ Hi]. apply andb_true_iff in Hi as [_ Hi]. apply orb_true_iff in Hi as [Hi|Hi]; [done|].
  apply andb_true_iff in Hi as [_ Hi]. apply bool_decide_eq_true in Hi. by rewrite Hid in Hi.
Qed.

Lemma fails_all l : (forall i, i ∈ l -> failed i = true) -> fails l = Z.of_nat (length l).
Proof.
  intros H. unfold fails. do 2 f_equal. induction l as [|i l IH]; [done|]. cbn. rewrite (H i) by (by left).
  f_equal. apply IH. intros j Hj. apply H. by right.
Qed.

Lemma passes_since_all l : (forall i, i ∈ l -> failed i = true) -> passes_since 0 l = 0.
Proof.
  induction l as [|i l IH]; [done|]. intros H. cbn. rewrite (H i) by (by left). apply IH. intros j Hj. apply H. by right.
Qed.

(** What a run of the task makes of the flake [o] of a test, given its [runs]. *)
Definition flake_after (repo : Z) (o : option Flake) (runs : list TestInstance) (o' : option Flake) : Prop :=
  match o, runs with
  | Some f0, _ => exists f, o' = Some f /\
      fk_count f = fk_count f0 + Z.of_nat (length runs) /\ fk_fail_count f = fk_fail_count f0 + fails runs /\
      fk_recent_passes_count f = passes_since (fk_recent_passes_count f0) runs /\ fk_start_date f = fk_start_date f0 /\
      ended (fk_recent_passes_count f0) (fk_end_date f0) runs (fk_end_date f)
  | None, [] => o' = None
  | None, i :: _ => exists f, o' = Some f /\ fk_repoid f = repo /\
      fk_count f = Z.of_nat (length runs) /\ fk_fail_count f = Z.of_nat (length runs) /\
      fk_recent_passes_count f = 0 /\ fk_start_date f = ti_created_at i /\ fk_end_date f = None
  end.

Lemma flake_after_erase repo o runs o' o'' :
  erase <$> o' = erase <$> o'' -> flake_after repo o runs o'' -> flake_after repo o runs o'.
Proof.
  intros He. unfold flake_after. destruct o as [f0|].
  - intros (f & -> & H). destruct o' as [g|]; [|done]. cbn in He. exists g. split; [done|].
    assert (Hg : erase g = erase f) by congruence. destruct g, f. unfold erase in Hg. cbn in Hg. injection Hg as -> -> -> -> -> -> ->.
    exact H.
  - destruct runs as [|i runs]; [intros ->; by destruct o'|]. intros (f & -> & H). destruct o' as [g|]; [|done].
    cbn in He. exists g. split; [done|].
    assert (Hg : erase g = erase f) by congruence. destruct g, f. unfold erase in Hg. cbn in Hg. injection Hg as -> -> -> -> -> -> ->.
    exact H.
Qed.

Lemma history_after repo o runs :
  Forall instance_counted runs -> (o = None -> forall i, i ∈ runs -> failed i = true) ->
  flake_after repo o runs (foldl (history_step repo) o runs).
Proof.
  intros Hc Hfail. unfold flake_after. destruct o as [f0|].
  - destruct (history_some repo runs f0 Hc) as (f & -> & H1 & H2 & H3 & H4 & _ & _ & _ & H5). exists f. by split_and!.
  - destruct runs as [|i runs]; [done|]. pose proof (Hfail eq_refl) as Hall.
    inversion Hc as [|? ? _ Hc']; subst. cbn [foldl history_step]. rewrite is_failure_failed, (Hall i) by (by left).
    assert (Hrest : forall j, j ∈ runs -> failed j = true) by (intros j Hj; apply Hall; by right).
    destruct (history_some repo runs (mkFlake None repo (ti_test_id i) 1 1 0 (ti_created_at i) None) Hc')
      as (f & -> & H1 & H2 & H3 & H4 & _ & _ & H6 & H5). cbn in *. exists f. split; [done|].
    rewrite (fails_all runs Hrest) in H2. rewrite (passes_since_all runs Hrest) in H3.
    split_and!; try done; try lia.
    destruct H5 as [(k & j & (Hk & Hj & _) & _)|[_ H5]]; [|done]. exfalso.
    apply list_elem_of_lookup_2, Hrest in Hk. unfold failed in Hk. by rewrite Hj in Hk.
Qed.

(** ** The runs that count *)

(** The runs of a test in these uploads, in the order of the uploads. *)
Definition test_runs (instances : list TestInstance) (t : string) (uploads : list Z) : list TestInstance :=
  concat (map (fun u => List.filter (fun i => (ti_upload_id i =? u) && bool_decide (ti_test_id i = t)) instances) uploads).

(** Passed or failed: a run that was skipped is not counted. *)
Definition ran (i : TestInstance) : bool := bool_decide (ti_outcome i = PASS) || failed i.

(** A flake of the test that has not ended. *)
Definition open_flake (table : FlakeTable) (repo : Z) (t : string) (f : Flake) : Prop :=
  exists pk, flake_rows table !! pk = Some f /\ fk_repoid f = repo /\ fk_test_id f = t /\ fk_end_date f = None.

Lemma all_runs_counts instances flaky t uploads :
  all_runs instances flaky t uploads
  = List.filter (fun i => if bool_decide (t ∈ flaky) then ran i else failed i) (test_runs instances t uploads).
Proof.
  unfold all_runs, test_runs, runs_of, get_test_instances. induction uploads as [|u us IH]; [done|].
  cbn [map concat]. rewrite !List.filter_app, IH, !filter_filter. f_equal. apply List.filter_ext. intros i.
  rewrite is_failure_failed. unfold ran. destruct (decide (ti_test_id i = t)) as [->|Ht].
  - rewrite (bool_decide_eq_true_2 (t = t)), !andb_true_r by done. f_equal.
    destruct (failed i), (bool_decide (ti_outcome i = PASS)), (bool_decide (t ∈ flaky)); done.
  - by rewrite (bool_decide_eq_false_2 (ti_test_id i = t)), !andb_false_r by done.
Qed.

Lemma by_test_none fs t : od_get t (by_test fs) = None -> forall f, f ∈ fs -> fk_test_id f <> t.
Proof.
  unfold by_test. intros Hnone f Hf <-. apply od_get_None in Hnone. apply Hnone, od_of_list_keys.
  apply list_elem_of_fmap. exists (fk_test_id f, f). split; [done|]. apply list_elem_of_fmap. by exists f.
Qed.

(** C28: After the flakes of a commit were processed, the flake of a test counts the
    runs of that test in the processed uploads, whatever the other tests did.  When the
    test had an open flake in the repository, one such flake gets all of the runs that
    passed or failed, the failures among them, and the passes since the last failure;
    it is ended at the last thirtieth pass in a row, and stays open when there is none.
    When it had none, a flake begins with the first failure and counts the failures
    alone.  Every flake that was counted is in the table as it was counted. *)
Theorem flakes_counted order table rollups instances uploads repo t :
  table_ok table -> (forall f, f ∈ order (flake_rows table) <-> exists pk, flake_rows table !! pk = Some f) ->
  let s := process_flake_in_transaction order table rollups instances uploads repo in
  let runs := test_runs instances t uploads in
  ((exists f, open_flake table repo t f /\ flake_after repo (Some f) (List.filter ran runs) (od_get t (st_curr s))) \/
   ((forall f, ~ open_flake table repo t f) /\ flake_after repo None (List.filter failed runs) (od_get t (st_curr s)))) /\
  forall f, od_get t (st_curr s) = Some f -> fk_test_id f = t /\ saved (st_table s) f.
Proof.
  intros Htable Horder s runs. set (before := fetch_curr_flakes order table repo).
  assert (Hopen : forall t' f, od_get t' before = Some f -> open_flake table repo t' f).
  { intros t' f [Hin Hid]%by_test_get. apply list_elem_of_In, filter_In in Hin as [Hin [Hr%Z.eqb_eq He%bool_decide_eq_true]%andb_true_iff].
    apply list_elem_of_In, Horder in Hin as [pk Hpk]. by exists pk. }
  assert (Hok : state_ok (mkState table rollups before [] [])).
  { split; [done|]. split; [apply by_test_wf|]. cbn. intros t' f (pk & Hpk & _ & Hid & _)%Hopen. split; [done|].
    exists pk. split; [|done]. by apply Htable in Hpk as [? _]. }
  destruct (uploads_ok instances repo (od_keys before) uploads _ Hok) as [(_ & _ & Hs) Hh].
  split; [|intros f Hf; by apply Hs].
  assert (Hafter : flake_after repo (od_get t before) (all_runs instances (od_keys before) t uploads) (od_get t (st_curr s))).
  { eapply flake_after_erase; [apply Hh|]. apply history_after; [apply all_runs_counted|].
    intros Hnone i. rewrite <- is_failure_failed. apply all_runs_failures. by apply od_get_None. }
  rewrite all_runs_counts in Hafter. destruct (od_get t before) as [f|] eqn:Hf.
  - left. exists f. split; [by apply Hopen|]. rewrite bool_decide_eq_true_2 in Hafter; [done|]. apply od_get_is_Some. eauto.
  - right. rewrite bool_decide_eq_false_2 in Hafter by (by apply od_get_None). split; [|done].
    intros f (pk & Hpk & Hr & Ht & He). eapply by_test_none; [exact Hf| |exact Ht].
    apply list_elem_of_In, filter_In. split; [apply list_elem_of_In, Horder; by exists pk|].
    by rewrite Hr, Z.eqb_refl, He.
Qed.

(** ** Examples *)

Definition table_of (fs : list Flake) : FlakeTable :=
  mkFlakeTable (list_to_map (map (fun f => (default 0 (fk_pk f), f)) fs)) (Z.of_nat (length fs) + 1).
Definition by_key (m : gmap Z Flake) : list Flake := map snd (map_to_list m).
Definition known_flake : Flake := mkFlake (Some 1) 7 "a" 10 4 29 0 None.
Definition run_at (t : Z) (test : string) (o : Outcome) : TestInstance := mkInstance 3 test o t (Some "main").

Lemma flakes_counted_witness :
  let s := process_flake_in_transaction by_key (table_of [known_flake]) ∅
    [run_at 5 "a" PASS; run_at 6 "a" FAILURE; run_at 7 "b" ERROR; run_at 8 "b" PASS; run_at 9 "a" SKIP] [3] 7 in
  fk_end_date <$> od_get "a" (st_curr s) = Some (Some 5) /\
  forall f, od_get "a" (st_curr s) = Some f -> fk_test_id f = "a" /\ saved (st_table s) f.
Proof.
  pose proof (flakes_counted by_key (table_of [known_flake]) ∅
    [run_at 5 "a" PASS; run_at 6 "a" FAILURE; run_at 7 "b" ERROR; run_at 8 "b" PASS; run_at 9 "a" SKIP] [3] 7 "a") as Hf.
  destruct Hf as [Hcases Hsaved].
  - intros pk f H. change (flake_rows (table_of [known_flake])) with ({[ 1 := known_flake ]} : gmap Z Flake) in H.
    apply lookup_singleton_Some in H as [<- <-]. by split.
  - intros f. unfold by_key. split.
    + intros ([k g] & -> & Hin)%list_elem_of_fmap. exists k. by apply elem_of_map_to_list.
    + intros [k Hk]. apply list_elem_of_fmap. exists (k, f). split; [done|]. by apply elem_of_map_to_list.
  - split; [|exact Hsaved]. vm_compute. reflexivity.
Defined.

(** The thirtieth pass ends the flake, and a failure after it is counted for the
    flake that is ended. *)
Example failure_after_the_end :
  (fun f => (fk_recent_passes_count f, fk_end_date f)) <$> od_get "a" (st_curr (process_flake_in_transaction by_key
    (table_of [known_flake]) ∅ [run_at 5 "a" PASS; run_at 6 "a" FAILURE] [3] 7)) = Some (0, Some 5).
Proof. vm_compute. reflexivity. Qed.

(** The newer task reads flakes that were ended: a test that fails again after its
    flake was ended has no open flake. *)
Definition ended_flake : Flake := mkFlake (Some 1) 7 "a" 40 4 30 0 (Some 3).
Example ended_flake_not_reopened :
  map (fun f => (fk_fail_count f, fk_end_date f)) (by_key (flake_rows (TaProcessFlakes.process_flakes_for_commit by_key 10
    (table_of [ended_flake]) [mkTestrun 9 "a" FAILURE 3] [3] 7))) = [(5, Some 3)].
Proof. vm_compute. reflexivity. Qed.
Example ended_flake_new_one :
  map (fun f => (fk_fail_count f, fk_end_date f)) (by_key (flake_rows (st_table (process_flake_in_transaction by_key
    (table_of [ended_flake]) ∅ [run_at 9 "a" FAILURE] [3] 7)))) = [(1, None); (4, Some 3)].
Proof. vm_compute. reflexivity. Qed.

(** Passes of a test found flaky in an upload of the commit are not counted. *)
Example new_flake_passes :
  (fun f => (fk_count f, fk_recent_passes_count f)) <$> od_get "b" (st_curr (process_flake_in_transaction by_key
    (table_of []) ∅ [run_at 7 "b" ERROR; mkInstance 4 "b" PASS 8 None] [3; 4] 7)) = Some (1, 0).
Proof. vm_compute. reflexivity. Qed.

(** Every commit that waits is processed, in the order it is taken. *)
Lemma drain_all process queue fuel t : (length queue <= fuel)%nat ->
  TaProcessFlakes.drain fuel queue t process = foldl process t queue.
Proof.
  revert queue t. induction fuel as [|fuel IH]; intros queue t Hlen.
  - destruct queue; [done|cbn in Hlen; lia].
  - destruct queue as [|c queue]; [done|]. cbn [TaProcessFlakes.drain]. rewrite IH.
    + by rewrite <- foldl_app, take_drop.
    + rewrite length_drop. cbn [length] in *. lia.
Qed.
