(* ===== verification/TestResults.v ===== *)
(** * Test results: the summary of a commit and its comment

    [apps/worker/services/test_results.py], [services/test_analytics/ta_finish_upload.py]
    and [ta_timeseries.py], [helpers/string.py]. *)
From S2P Require Export Flakes PyRe PyDecimal PyVal.
#[local] Open Scope string_scope.
#[local] Open Scope list_scope.
#[local] Open Scope Z_scope.

(** ** [helpers/string.py] *)

Inductive EscapeEnum : Set := APPEND | PREPEND | REPLACE.
Record Replacement : Type := mkReplacement { rep_strings : list string; rep_output : string; rep_method : EscapeEnum }.

Module StringEscaper.
Definition string_step (r : Replacement) (target s : string) : string :=
  match rep_method r with
  | PREPEND => str_replace s (rep_output r +:+ s) target
  | APPEND => str_replace s (s +:+ rep_output r) target
  | REPLACE => str_replace s (rep_output r) target
  end.
Definition replace (escape_def : list Replacement) (target : string) : string :=
  foldl (fun target r => foldl (string_step r) target (rep_strings r)) target escape_def.
End StringEscaper.

Definition MAX_PATH_COMPONENTS : nat := 3.

(** [(\/*[\w\-]+\/)+([\w\.]+)(:\d+:\d+)*] *)
Definition file_path_regex : regex :=
  Cats [Plus (Cats [Star (Exact "/"); Plus (Chr (fun c => is_word c || bool_decide (c = "-"%char))); Exact "/"]);
        Plus (Chr (fun c => is_word c || bool_decide (c = "."%char)));
        Star (Cats [Exact ":"; Plus (Chr is_digit); Exact ":"; Plus (Chr is_digit)])].

(** The matches of a pattern that never matches the empty text, from left to right. *)
Fixpoint findall_from (r : regex) (skip : nat) (s : string) : list string :=
  match s with
  | EmptyString => []
  | String _ s' =>
      match skip with
      | S k => findall_from r k s'
      | O =>
          match re_head r s with
          | Some rest =>
              let n := (String.length s - String.length rest)%nat in
              str_take n s :: findall_from r (n - 1) s'
          | None => findall_from r 0 s'
          end
      end
  end.
Definition findall (r : regex) (s : string) : list string := findall_from r 0 s.

Definition shorten_step (s file_path : string) : string :=
  let components := split "/" file_path in
  if (MAX_PATH_COMPONENTS <? length components)%nat then
    let path := join "/" (drop (length components - MAX_PATH_COMPONENTS) components) in
    let path := if startswith "/" path then str_drop 1 path else path in
    str_replace file_path (".../" +:+ path) s
  else s.

Definition shorten_file_paths (s : string) : string := foldl shorten_step s (findall file_path_regex s).

Example shorten_documented :
  shorten_file_paths "at (/Users/j/dev/demo/calculator/calculator.test.ts:10:31)" = "at (.../demo/calculator/calculator.test.ts:10:31)".
Proof. vm_compute. reflexivity. Qed.

(** A path that ends another one is replaced inside it. *)
Example shorten_inside_another :
  shorten_file_paths "a/b/c/d.py x/y/z/a/b/c/d.py" = ".../b/c/d.py x/y/z/.../b/c/d.py".
Proof. vm_compute. reflexivity. Qed.

(** ** The messages of [test_results.py] *)

Record TestResultsNotificationFailure : Type := mkNotificationFailure {
  nf_failure_message : option string; nf_display_name : string; nf_envs : list string; nf_test_id : string;
  nf_duration_seconds : b64; nf_build_url : option string;
}.
Record FlakeInfo : Type := mkFlakeInfo { fi_failed : Z; fi_count : Z }.
Record TACommentInDepthInfo : Type := mkInfo {
  info_failures : list TestResultsNotificationFailure; info_flaky_tests : odict string FlakeInfo;
}.
Record TestResultsNotificationPayload : Type := mkPayload {
  pl_failed : Z; pl_passed : Z; pl_skipped : Z; pl_info : option TACommentInDepthInfo;
}.
Record ErrorPayload : Type := mkError { error_code : string; error_message : option string }.

Definition wrap_in_details (summary content : string) : string :=
  "<details><summary>" +:+ summary +:+ "</summary>" +:+ nl +:+ content +:+ nl +:+ "</details>".

Definition make_quoted (content : string) : string :=
  nl +:+ join nl (map (fun line => "> " +:+ line) (splitlines content)) +:+ nl.

(** [html.escape] *)
Definition DQ : string := String "034" EmptyString.
Definition html_escape (s : string) : string :=
  let s := str_replace "&" "&amp;" s in
  let s := str_replace "<" "&lt;" s in
  let s := str_replace ">" "&gt;" s in
  let s := str_replace DQ "&quot;" s in
  str_replace "'" "&#x27;" s.

Definition wrap_in_code (content : string) : string :=
  "<pre><code class=" +:+ DQ +:+ "language-python" +:+ DQ +:+ ">" +:+ html_escape content +:+ "</code></pre>".

(** [f"{f:.3g}"] *)
Fixpoint strip_zeros (l : list ascii) : list ascii :=
  match l with
  | [] => []
  | c :: l =>
      match strip_zeros l with
      | [] => if bool_decide (c = "0"%char) then [] else [c]
      | l => c :: l
      end
  end.
Definition without_trailing_zeros (ds : string) : string :=
  String.string_of_list_ascii (strip_zeros (String.list_ascii_of_string ds)).
Definition fraction (ds : string) : string := if bool_decide (ds = "") then "" else "." +:+ ds.

Definition fmt_3g (f : b64) : string :=
  let sign := if fneg f then "-" else "" in
  if fman f =? 0 then sign +:+ "0"
  else
    let '(m, e) := round_digits 3 f in
    let '(m, e) := if m =? 1000 then (100, e + 1) else (m, e) in
    let x := e + 2 in
    let ds := str_of_Z m in
    sign +:+
    (if (x <? -4) || (3 <=? x) then
       str_take 1 ds +:+ fraction (without_trailing_zeros (str_drop 1 ds))
       +:+ "e" +:+ (if x <? 0 then "-" else "+") +:+ zpad 2 (Z.abs x)
     else if x <? 0 then "0" +:+ fraction (without_trailing_zeros (zeros (Z.to_nat (- x - 1)) +:+ ds))
     else str_take (Z.to_nat (x + 1)) ds +:+ fraction (without_trailing_zeros (str_drop (Z.to_nat (x + 1)) ds))).

Definition display_duration (f : b64) : string :=
  let before_dot := hd "" (split "." (float_repr f)) in
  if (3 <? String.length before_dot)%nat then before_dot else fmt_3g f.

Definition generate_failure_info (fail : TestResultsNotificationFailure) : string :=
  let failure_message := wrap_in_code (default "No failure message available" (nf_failure_message fail)) in
  match nf_build_url fail with
  | Some url => if bool_decide (url = "") then failure_message
                else failure_message +:+ nl +:+ "[View](" +:+ url +:+ ") the CI Build"
  | None => failure_message
  end.

Definition US : string := String "031" EmptyString.

Definition stack_trace (f : TestResultsNotificationFailure) : string :=
  wrap_in_details ("Stack Traces | " +:+ display_duration (nf_duration_seconds f) +:+ "s run time")
    (make_quoted (generate_failure_info f)).

Definition messagify_failure (failure : TestResultsNotificationFailure) : string :=
  make_quoted (wrap_in_code (str_replace US " " (nf_display_name failure)) +:+ nl +:+ stack_trace failure).

Definition messagify_flake (failure : TestResultsNotificationFailure) (info : FlakeInfo) : result string :=
  q ← int_truediv (fi_failed info) (fi_count info);
  let flake_rate := f_mul q (rnd false 100 1) in
  let section := "**Flake rate in main:** " +:+ f_fmt 2 flake_rate +:+ "% (Passed " +:+ str_of_Z (fi_count info - fi_failed info)
                 +:+ " times, Failed " +:+ str_of_Z (fi_failed info) +:+ " times)" in
  Ok (make_quoted (wrap_in_code (str_replace US " " (nf_display_name failure)) +:+ nl +:+ section +:+ nl +:+ stack_trace failure)).

Definition short_error_message (e : ErrorPayload) : option string :=
  if bool_decide (error_code e = "unsupported_file_format") then Some "Test Analytics upload error: Unsupported file format"
  else if bool_decide (error_code e = "file_not_in_storage") then Some "Test Analytics upload error: File not in storage"
  else None.

Definition help_line : string :=
  "For more help, visit our [troubleshooting guide](https://docs.codecov.com/docs/test-analytics#troubleshooting).".

Definition with_details (title summary : string) (e : ErrorPayload) : result string :=
  match error_message e with
  | None => Err AssertionError
  | Some m => Ok (join nl [title; join nl [wrap_in_details summary (wrap_in_code m); ""; help_line]])
  end.

Definition specific_error_message (e : ErrorPayload) : result string :=
  if bool_decide (error_code e = "unsupported_file_format") then
    with_details "### :warning: Unsupported file format"
      "Upload processing failed due to unsupported file format. Please review the parser error message:" e
  else if bool_decide (error_code e = "file_not_in_storage") then
    Ok (join nl ["### :warning: File not in storage";
      join nl ["No result to display due to the CLI not being able to find the file.";
               "Please ensure the file contains `junit` in the name and automated file search is enabled,";
               "or the desired file specified by the `file` and `search_dir` arguments of the CLI."]])
  else if bool_decide (error_code e = "warning") then
    with_details "### :warning: Parser warning" "The parser emitted a warning. Please review your JUnit XML file:" e
  else Ok "Error processing test results".

(** The order of the failures: by duration, then by name. *)
Definition failure_le (a b : TestResultsNotificationFailure) : Prop :=
  (match f_cmp (nf_duration_seconds a) (nf_duration_seconds b) with
   | Lt => true
   | Gt => false
   | Eq => match String.compare (nf_display_name a) (nf_display_name b) with Gt => false | _ => true end
   end) = true.
#[export] Instance failure_le_dec a b : Decision (failure_le a b).
Proof. unfold failure_le. apply _. Defined.

(** [build_message]; the line with the link to the dashboard is given, it has a
    character outside the texts modelled. *)
Section notifier.
Variable view_test_analytics_line : string.

Definition build_message (payload : option TestResultsNotificationPayload) (error : option ErrorPayload) : result string :=
  match payload with
  | None => Err ValueError
  | Some p =>
      head ← match error with Some e => m ← specific_error_message e; Ok [m] | None => Ok [] end;
      body ← match pl_info p with
             | None => Ok []
             | Some info =>
                 let failures := merge_sort failure_le
                   (List.filter (fun f => negb (od_mem (nf_test_id f) (info_flaky_tests info))) (info_failures info)) in
                 let flaky := List.filter (fun f => od_mem (nf_test_id f) (info_flaky_tests info)) (info_failures info) in
                 flake_content ← traverse (fun f => messagify_flake f (default (mkFlakeInfo 0 0)
                                             (od_get (nf_test_id f) (info_flaky_tests info)))) flaky;
                 Ok ((match error with Some _ => [""; "---"; ""] | None => [] end)
                     ++ ["### :x: " +:+ str_of_Z (pl_failed p) +:+ " Tests Failed:";
                         "| Tests completed | Failed | Passed | Skipped |";
                         "|---|---|---|---|";
                         "| " +:+ str_of_Z (pl_failed p + pl_passed p) +:+ " | " +:+ str_of_Z (pl_failed p) +:+ " | "
                           +:+ str_of_Z (pl_passed p) +:+ " | " +:+ str_of_Z (pl_skipped p) +:+ " |"]
                     ++ (if bool_decide (failures = []) then []
                         else [wrap_in_details ("View the top " +:+ str_of_Z (3 `min` Z.of_nat (length failures))
                                 +:+ " failed test(s) by shortest run time") (join nl (map messagify_failure failures))])
                     ++ (if bool_decide (flaky = []) then []
                         else [wrap_in_details ("View the full list of " +:+ str_of_Z (Z.of_nat (length flaky))
                                 +:+ " :snowflake: flaky tests") (join nl flake_content)])
                     ++ [view_test_analytics_line])
             end;
      Ok (join nl (head ++ body))
  end.
End notifier.
