(* ===== verification/TestAnalytics.v ===== *)
(** * Test analytics: storing the runs of an upload, finishing a commit

    [apps/worker/services/test_analytics]: [ta_processor.py], [ta_processing.py],
    [ta_timeseries.py] and [ta_finish_upload.py], with [calc_test_id] of
    [ta_timeseries/models.py].  The parser of test results, the hash of a test and
    the provider are given. *)
From S2P Require Export PyStr TestResults.

#[local] Open Scope string_scope.
#[local] Open Scope list_scope.
#[local] Open Scope Z_scope.

(** ** Uploads and their errors *)

Record ReportSession : Type := mkReportSession {
  rs_id : Z; rs_state : string; rs_storage_path : option string; rs_created_at : Z; rs_flag_names : list string;
  rs_build_url : option string;
}.
Definition set_state (s : string) (u : ReportSession) : ReportSession :=
  mkReportSession (rs_id u) s (rs_storage_path u) (rs_created_at u) (rs_flag_names u) (rs_build_url u).

(** The parameters of an error, one text or none. *)
Record UploadError : Type := mkUploadError { ue_report_session : Z; ue_error_code : string; ue_param : option string; ue_created_at : Z }.

(** What the parser of test results gives. *)
Record ParsedRun : Type := mkRun {
  pr_name : string; pr_classname : string; pr_testsuite : string; pr_computed_name : option string;
  pr_outcome : Outcome; pr_duration : option b64; pr_failure_message : option string; pr_filename : option string;
}.
Record ParsingInfo : Type := mkParsingInfo { pi_framework : option string; pi_testruns : list ParsedRun; pi_warnings : list string }.

(** A row of [ta_timeseries_testrun]. *)
Record TestrunRow : Type := mkRow {
  row_timestamp : Z; row_test_id : string; row_name : string; row_classname : string; row_testsuite : string;
  row_computed_name : string; row_outcome : Outcome; row_duration_seconds : option b64; row_failure_message : option string;
  row_framework : option string; row_filename : option string; row_repo_id : Z; row_commit_sha : string;
  row_branch : option string; row_flags : list string; row_upload_id : Z;
}.

Section analytics.
Variable hash : string -> string.  (* mmh3.mmh3_x64_128, of all that was given to it *)

Definition calc_test_id (name classname testsuite : string) : string :=
  hash (utf8_encode testsuite +:+ utf8_encode classname +:+ utf8_encode name).

(** ** [ta_timeseries.py] *)

Definition get_flaky_tests_set (flakes : list Flake) (repo_id : Z) : list string :=
  map fk_test_id (List.filter (fun f => (fk_repoid f =? repo_id) && bool_decide (fk_end_date f = None)) flakes).

Definition get_flaky_tests_dict (flakes : list Flake) (repo_id : Z) : odict string FlakeInfo :=
  od_of_list (map (fun f => (fk_test_id f, mkFlakeInfo (fk_fail_count f) (fk_count f)))
    (List.filter (fun f => (fk_repoid f =? repo_id) && bool_decide (fk_end_date f = None)) flakes)).

(** An error is a failure, and a failure of a flaky test a flaky one. *)
Definition stored_outcome (flaky : list string) (test_id : string) (o : Outcome) : Outcome :=
  let o := match o with ERROR => FAILURE | _ => o end in
  if bool_decide (o = FAILURE) && bool_decide (test_id ∈ flaky) then FLAKY_FAIL else o.

Definition testrun_row (timestamp repo_id : Z) (commit_sha : string) (branch : option string) (upload_id : Z) (flags : list string)
    (info : ParsingInfo) (flaky : list string) (r : ParsedRun) : TestrunRow :=
  let test_id := calc_test_id (pr_name r) (pr_classname r) (pr_testsuite r) in
  let own := pr_classname r +:+ "::" +:+ pr_name r in
  mkRow timestamp test_id (pr_name r) (pr_classname r) (pr_testsuite r)
    (match pr_computed_name r with Some n => if bool_decide (n = "") then own else n | None => own end)
    (stored_outcome flaky test_id (pr_outcome r)) (pr_duration r) (pr_failure_message r) (pi_framework info) (pr_filename r)
    repo_id commit_sha branch flags upload_id.

Definition insert_testrun (table : list TestrunRow) (timestamp repo_id : Z) (commit_sha : string) (branch : option string)
    (upload_id : Z) (flags : list string) (info : ParsingInfo) (flaky : list string) : list TestrunRow :=
  table ++ map (testrun_row timestamp repo_id commit_sha branch upload_id flags info flaky) (pi_testruns info).

(** [LAST(x, timestamp)] over the rows of each test: the row with the greatest
    time, the first of them among equals. *)
Definition later (a b : TestrunRow) : TestrunRow := if row_timestamp a <? row_timestamp b then b else a.
Definition last_rows (rows : list TestrunRow) : odict string TestrunRow :=
  foldl (fun d r => od_set (row_test_id r) (match od_get (row_test_id r) d with Some r' => later r' r | None => r end) d) [] rows.

Definition of_commit (repo_id : Z) (commit_sha : string) (r : TestrunRow) : bool :=
  (row_repo_id r =? repo_id) && bool_decide (row_commit_sha r = commit_sha).

Definition get_pr_comment_failures (table : list TestrunRow) (repo_id : Z) (commit_sha : string) : list TestrunRow :=
  od_vals (last_rows (List.filter (fun r => of_commit repo_id commit_sha r
    && (bool_decide (row_outcome r = FAILURE) || bool_decide (row_outcome r = FLAKY_FAIL))) table)).

Record PRCommentAgg : Type := mkAgg { agg_passed : Z; agg_failed : Z; agg_skipped : Z }.
Definition count_outcome (o : Outcome) (rows : list TestrunRow) : Z :=
  Z.of_nat (length (List.filter (fun r => bool_decide (row_outcome r = o)) rows)).
Definition get_pr_comment_agg (table : list TestrunRow) (repo_id : Z) (commit_sha : string) : PRCommentAgg :=
  let rows := od_vals (last_rows (List.filter (of_commit repo_id commit_sha) table)) in
  mkAgg (count_outcome PASS rows) (count_outcome FAILURE rows + count_outcome FLAKY_FAIL rows) (count_outcome SKIP rows).

(** ** [ta_processing.py] and [ta_processor.py] *)

Record ta_state : Type := mkTaState { ta_upload : ReportSession; ta_errors : list UploadError; ta_rows : list TestrunRow }.

Definition handle_file_not_found (now : Z) (s : ta_state) : ta_state :=
  mkTaState (set_state "processed" (ta_upload s))
    (ta_errors s ++ [mkUploadError (rs_id (ta_upload s)) "file_not_in_storage" None now]) (ta_rows s).

Definition handle_parsing_error (now : Z) (exc : string) (s : ta_state) : ta_state :=
  mkTaState (set_state "processed" (ta_upload s))
    (ta_errors s ++ [mkUploadError (rs_id (ta_upload s)) "unsupported_file_format" (Some exc) now]) (ta_rows s).

Definition insert_testruns_timeseries (repoid : Z) (commitid : string) (branch : option string) (upload : ReportSession)
    (infos : list ParsingInfo) (flakes : list Flake) (table : list TestrunRow) : list TestrunRow :=
  let flaky := get_flaky_tests_set flakes repoid in
  foldl (fun t info => insert_testrun t (rs_created_at upload) repoid commitid branch (rs_id upload) (rs_flag_names upload) info flaky)
    table infos.

(** What becomes of the raw upload. *)
Inductive archive_action : Type := KeepFile | DeleteFile (path : string) | WriteFile (path : string) (content : string).

Definition should_delete_archive_settings (expire_raw_after_n_days : bool) (archive_uploads : pyval) : bool :=
  if expire_raw_after_n_days then true else negb (truthy archive_uploads).

Definition rewrite_or_delete_upload (delete : bool) (upload : ReportSession) (readable_file : string) : archive_action :=
  match rs_storage_path upload with
  | Some path =>
      if delete then (if bool_decide (path = "") || startswith "http" path then KeepFile else DeleteFile path)
      else WriteFile path readable_file
  | None => KeepFile
  end.

(** [read] is the file in the archive, [parse] the parser: its error is a message. *)
Definition ta_processor_impl (now repoid : Z) (commitid : string) (branch : option string) (update_state delete : bool)
    (flakes : list Flake) (read : string -> option string) (parse : string -> (list ParsingInfo * string) + string)
    (s : ta_state) : ta_state * archive_action * bool :=
  let upload := ta_upload s in
  let file_not_found := if update_state then handle_file_not_found now s else s in
  if bool_decide (rs_state upload = "processed") then (s, KeepFile, false)
  else match rs_storage_path upload with
       | None => (file_not_found, KeepFile, false)
       | Some path =>
           match read path with
           | None => (file_not_found, KeepFile, false)
           | Some payload =>
               match parse payload with
               | inr exc => (if update_state then handle_parsing_error now exc s else s, KeepFile, false)
               | inl (infos, readable_file) =>
                   let warnings := if update_state then
                     concat (map (fun info => map (fun w => mkUploadError (rs_id upload) "warning" (Some w) now) (pi_warnings info)) infos)
                     else [] in
                   let rows := insert_testruns_timeseries repoid commitid branch upload infos flakes (ta_rows s) in
                   let s := mkTaState upload (ta_errors s ++ warnings) rows in
                   if update_state then
                     (mkTaState (set_state "processed" upload) (ta_errors s) (ta_rows s),
                      rewrite_or_delete_upload delete upload readable_file, true)
                   else (s, KeepFile, true)
               end
           end
       end.

(** *** [try_parsing_vitest_evals], on the decoded files *)

Definition as_str (v : pyval) : result string := match v with VStr s => Ok s | _ => Err TypeError end.
Definition as_list (v : pyval) : result (list pyval) := match v with VList l => Ok l | _ => Err TypeError end.
Definition last_item (v : pyval) : result string :=
  l ← as_list v; match last l with Some t => as_str t | None => Err IndexError end.

(** [number / 1000.0] *)
Definition seconds_of_ms (v : pyval) : result b64 :=
  match v with
  | VInt n => x ← f_of_Z n; k ← f_of_Z 1000; f_div x k
  | VBool b => int_truediv (if b then 1 else 0) 1000
  | VFloat f => k ← f_of_Z 1000; f_div f k
  | _ => Err TypeError
  end.

Definition vitest_run (filename : string) (test_result : pyval) : result ParsedRun :=
  titles ← get_item test_result "ancestorTitles";
  classname ← last_item titles;
  title ← get_item test_result "title"; title ← as_str title;
  d ← get_item test_result "duration"; d ← seconds_of_ms d;
  status ← get_item test_result "status";
  messages ← get_item test_result "failureMessages"; messages ← as_list messages;
  messages ← traverse as_str messages;
  Ok (mkRun title classname "" (Some (classname +:+ " > " +:+ title))
        (if bool_decide (status = VStr "passed") then PASS else FAILURE) (Some d) (Some (join nl messages)) (Some filename)).

(** The runs of one test file replace those of the file before it. *)
Fixpoint vitest_testruns (testruns : list ParsedRun) (test_files : list pyval) : result (list ParsedRun) :=
  match test_files with
  | [] => Ok testruns
  | test_file :: rest =>
      name ← get_item test_file "name"; name ← as_str name;
      results ← get_item test_file "assertionResults"; results ← as_list results;
      testruns ← traverse (vitest_run name) results;
      vitest_testruns testruns rest
  end.

(** [files]: the name, the inflated data and its JSON value, of each file of the upload. *)
Fixpoint try_parsing_vitest_evals (files : list (string * string * pyval)) : result (list ParsingInfo * string) :=
  match files with
  | [] => Ok ([], "")
  | (filename, data, file_json) :: rest =>
      test_files ← get_item file_json "testResults"; test_files ← as_list test_files;
      testruns ← vitest_testruns [] test_files;
      more ← try_parsing_vitest_evals rest;
      Ok (mkParsingInfo (Some "Vitest") testruns [] :: more.1,
          "# path=" +:+ filename +:+ nl +:+ data +:+ nl +:+ "<<<<<< EOF" +:+ nl +:+ more.2)
  end.

(** What the processor stores: the vitest reading when it is allowed, does not
    fail and is not empty; else the parser's. *)
Definition parsing_infos (allow_vitest : bool) (vitest : result (list ParsingInfo * string))
    (parsed : (list ParsingInfo * string) + string) : (list ParsingInfo * string) + string :=
  match (if allow_vitest then vitest else Err ValueError) with
  | Ok ((_ :: _) as infos, readable) => inl (infos, readable)
  | _ => parsed
  end.

(** ** [ta_finish_upload.py] *)

Definition get_relevant_upload_ids (uploads : list ReportSession) : odict Z ReportSession :=
  od_of_list (map (fun u => (rs_id u, u))
    (List.filter (fun u => bool_decide (rs_state u ∈ ["processed"; "finished"; "flake_processed"])) uploads)).

(** The first error by date. *)
Definition earlier_error (a b : UploadError) : UploadError := if ue_created_at b <? ue_created_at a then b else a.
Definition first_error (l : list UploadError) : option UploadError :=
  match l with [] => None | e :: l => Some (foldl earlier_error e l) end.

Definition get_upload_error (errors : list UploadError) (upload_ids : list Z) : option ErrorPayload :=
  e ← first_error (List.filter (fun e => bool_decide (ue_report_session e ∈ upload_ids)) errors);
  if bool_decide (ue_error_code e = "unsupported_file_format") || bool_decide (ue_error_code e = "warning")
  then Some (mkError (ue_error_code e) (ue_param e))
  else if bool_decide (ue_error_code e = "file_not_in_storage") then Some (mkError (ue_error_code e) None)
  else None.

Definition f_zero : b64 := B64 false 0 0.

Definition transform_failure (uploads : odict Z ReportSession) (r : TestrunRow) : result TestResultsNotificationFailure :=
  u ← match od_get (row_upload_id r) uploads with Some u => Ok u | None => Err KeyError end;
  Ok (mkNotificationFailure ((fun m => str_replace (String CR "") "" (shorten_file_paths m)) <$> row_failure_message r)
        (row_computed_name r) (rs_flag_names u) (row_test_id r) (default f_zero (row_duration_seconds r)) (rs_build_url u)).
Definition transform_failures (uploads : odict Z ReportSession) (failures : list TestrunRow) :
    result (list TestResultsNotificationFailure) := traverse (transform_failure uploads) failures.

(** The tier of the plan that covers the repository. *)
Definition not_private_and_free_or_team (private : bool) (tier_name : string) : bool :=
  negb (private && bool_decide (tier_name ∈ ["basic"; "team"])).
Definition should_do_flaky_detection (flake_detection : pyval) (private : bool) (tier_name : string) : bool :=
  truthy flake_detection && not_private_and_free_or_team private tier_name.

Inductive followup : Type :=
  | set_flake_uploads (repo_id : Z)
  | push_flake_commit (repo_id : Z) (commit_id : string)
  | process_flakes_task (repo_id : Z) (commit_id : string)
  | cache_test_rollups_task (repo_id : Z) (branch : string).

(** [detect]: [should_do_flaky_detection]. *)
Definition queue_followup_tasks (detect : bool) (repo_id : Z) (repo_branch : option string) (commit_id : string)
    (merged : option bool) (branch : option string) : list followup :=
  (if detect && bool_decide (merged = Some true) && bool_decide (branch = repo_branch)
   then [set_flake_uploads repo_id; push_flake_commit repo_id commit_id; process_flakes_task repo_id commit_id] else [])
  ++ match branch with Some b => [cache_test_rollups_task repo_id b] | None => [] end.

Record FinisherResult : Type := mkFinisher { notify_attempted : bool; notify_succeeded : bool; queue_notify : bool }.

(** What is posted on the pull request. *)
Inductive posted : Type := Nothing | Upgrade (text : string) | ErrorComment (text : string) | Message (text : string).

(** [upgrade_comment], for a pull request the provider knows. *)
Definition upgrade_message (requires_license : bool) (author_username link : string) : string :=
  join nl (if requires_license then
    ["The author of this PR, " +:+ author_username +:+ ", is not activated in your Codecov Self-Hosted installation.";
     "Please [activate this user](" +:+ link +:+ ") to display this PR comment.";
     "Coverage data is still being uploaded to Codecov Self-Hosted for the purposes of overall coverage calculations.";
     "Please contact your Codecov On-Premises installation administrator with any questions."]
  else
    ["The author of this PR, " +:+ author_username +:+ ", is not an activated member of this organization on Codecov.";
     "Please [activate this user on Codecov](" +:+ link +:+ ") to display this PR comment.";
     "Coverage data is still being uploaded to Codecov.io for purposes of overall coverage calculations.";
     "Please don't hesitate to email us at support@codecov.io with any questions."]).

(** [new_impl] after the follow-up tasks.  [pull] says that the commit has a pull
    request the provider knows, [seat_needs_activation] is the answer of
    [check_seat_activation] with the upgrade text, [send] whether the provider takes
    a comment. *)
Definition new_impl (comment : pyval) (table : list TestrunRow) (errors : list UploadError) (uploads : list ReportSession)
    (flakes : list Flake) (detect : bool) (repoid : Z) (commitid : string) (pull : bool) (seat_needs_activation : option string)
    (send : string -> bool) (view_line : string) : result (FinisherResult * posted) :=
  if negb (truthy comment) then Ok (mkFinisher false false false, Nothing)
  else
    let upload_ids := get_relevant_upload_ids uploads in
    let error := get_upload_error errors (od_keys upload_ids) in
    let summary := get_pr_comment_agg table repoid commitid in
    let no_error := match error with None => true | Some _ => false end in
    if (agg_failed summary =? 0) && no_error then Ok (mkFinisher false true true, Nothing)
    else if negb pull then Ok (mkFinisher false false false, Nothing)
    else match seat_needs_activation with
    | Some upgrade => Ok (mkFinisher false (send upgrade) false, Upgrade upgrade)
    | None =>
        if agg_failed summary =? 0 then
          m ← match error with Some e => specific_error_message e | None => Ok "" end;
          Ok (mkFinisher true false true, ErrorComment m)
        else
          notif_failures ← transform_failures upload_ids (get_pr_comment_failures table repoid commitid);
          let flaky_tests := if detect then get_flaky_tests_dict flakes repoid else [] in
          m ← build_message view_line
                (Some (mkPayload (agg_failed summary) (agg_passed summary) (agg_skipped summary)
                         (Some (mkInfo notif_failures flaky_tests)))) error;
          Ok (mkFinisher true (send m) false, Message m)
    end.
End analytics.

(** * The totals of a commit's tests

    Storing an upload keeps every outcome among those the comment counts, so the
    three totals add up to the number of distinct tests of the commit, and each
    test counted as failed is among the failures listed. *)

#[local] Open Scope string_scope.
#[local] Open Scope list_scope.
#[local] Open Scope Z_scope.

(** ** The last row of each test *)










(** ** Counting outcomes *)








(** ** What an upload stores *)

Section stored.
Variable hash : string -> string.



End stored.








(** ** A concrete commit *)

Definition w_run (name : string) (o : Outcome) : ParsedRun := mkRun name "C" "suite" None o None None None.
Definition w_upload (id created : Z) : ReportSession := mkReportSession id "started" (Some "v4/raw.txt") created ["unit"] None.
Definition w_process (created : Z) (runs : list ParsedRun) (table : list TestrunRow) : list TestrunRow :=
  ta_rows (ta_processor_impl (fun s => s) 100 1 "abc" (Some "main") true false [] (fun _ => Some "payload")
    (fun _ => inl ([mkParsingInfo (Some "Pytest") runs []], "")) (mkTaState (w_upload created created) [] table)).1.1.

(** A test that failed and passed when it ran again is counted as passed, and is
    still listed among the failures. *)
Example failed_then_passed :
  let table := w_process 20 [w_run "a" PASS] (w_process 10 [w_run "a" ERROR; w_run "b" FAILURE; w_run "c" SKIP] []) in
  get_pr_comment_agg table 1 "abc" = mkAgg 1 1 1
  /\ map row_name (get_pr_comment_failures table 1 "abc") = ["a"; "b"].
Proof. split; vm_compute; reflexivity. Qed.


(** Two tests with one id: the three names are hashed one after the other. *)
Example test_ids_collide (hash : string -> string) : calc_test_id hash "c" "b" "a" = calc_test_id hash "" "c" "ab".
Proof. reflexivity. Qed.

(** Of two test files of one vitest report the runs of the second are kept. *)
Definition w_test_file (name : string) : pyval :=
  VDict [("name", VStr name); ("assertionResults", VList [VDict [("ancestorTitles", VList [VStr "s"]); ("title", VStr name);
    ("duration", VInt 1500); ("status", VStr "passed"); ("failureMessages", VList [])]])].
Example vitest_keeps_the_last :
  match try_parsing_vitest_evals [("r.json", "", VDict [("testResults", VList [w_test_file "a"; w_test_file "b"])])] with
  | Ok (infos, _) => map (fun i => map pr_name (pi_testruns i)) infos = [["b"]]
  | Err _ => False
  end.
Proof. vm_compute. reflexivity. Qed.
