(* ===== verification/Accounts.v ===== *)
(** * Owners, users and accounts

    [libs/shared/shared/django_apps/codecov_auth/models.py]: the rows of the
    tables that plans and seats are kept in, and the methods of their models.
    The database is a record of tables, each a finite map from the key of a row.
    An object in memory is the row it was read as: a method takes it and returns
    it changed, together with the database after its [save]s, which write every
    field of the object.  A related object ([self.account], [self.user]) is read
    from the database where the code reads it.  [updatestamp] is not kept. *)
From S2P Require Export PyStr.
#[local] Open Scope string_scope.
#[local] Open Scope list_scope.
#[local] Open Scope Z_scope.

(** ** Settings: what the code reads from the environment and [get_config] *)

Record Settings : Type := mkSettings {
  RUN_ENV : string;
  enterprise_license : option string;             (* setup.enterprise_license *)
  codecov_url : option string;                    (* setup.codecov_url *)
  setup_admins : list (option string * option string);  (* setup.admins: service and username *)
  upload_throttling_enabled : bool;               (* setup.upload_throttling_enabled, true by default *)
  github_enterprise_url : option string;
  bitbucket_server_url : option string;
  services_gravatar : bool;
  services_avatars_io : bool;
  APP_ENV : option string;
  media_assets : option string;
  github_integration_id : option Z;
}.

Definition IS_ENTERPRISE (st : Settings) : bool := bool_decide (RUN_ENV st = "ENTERPRISE").

(** ** [plan/constants.py] *)

Inductive TrialStatus : Set := NOT_STARTED | ONGOING | EXPIRED | CANNOT_TRIAL.
#[export] Instance TrialStatus_eq_dec : EqDecision TrialStatus.
Proof. solve_decision. Defined.

Inductive TierName : Set := BASIC | TEAM | PRO | ENTERPRISE | SENTRY | TRIAL.
#[export] Instance TierName_eq_dec : EqDecision TierName.
Proof. solve_decision. Defined.

Inductive PlanBillingRate : Set := MONTHLY | YEARLY.
#[export] Instance PlanBillingRate_eq_dec : EqDecision PlanBillingRate.
Proof. solve_decision. Defined.

(** The members of [PlanName] that the code names. *)
Module PlanName.
Definition TRIAL_PLAN_NAME : string := "users-trial".
Definition CODECOV_PRO_MONTHLY_LEGACY : string := "users-inappm".
Definition CODECOV_PRO_YEARLY_LEGACY : string := "users-inappy".
Definition USERS_DEVELOPER : string := "users-developer".
Definition CODECOV_PRO_YEARLY : string := "users-pr-inappy".
End PlanName.

Definition DEFAULT_FREE_PLAN (st : Settings) : string :=
  if bool_decide (RUN_ENV st = "ENTERPRISE") then "users-pr-inappy" else "users-developer".
Definition TRIAL_PLAN_SEATS : Z := 1000.
Definition TEAM_PLAN_MAX_USERS : Z := 10.
Definition TRIAL_DAYS : Z := 14.  (* TrialDaysAmount.CODECOV_SENTRY *)

(** ** The rows *)

Record Tier : Type := mkTier {
  tier_name : TierName; bundle_analysis : bool; test_analytics : bool; flaky_test_detection : bool;
  project_coverage : bool; private_repo_support : bool;
}.

Record Plan : Type := mkPlan {
  p_name : string; p_marketing_name : string; p_tier : Tier; p_base_unit_price : Z; p_benefits : list string;
  p_billing_rate : option PlanBillingRate; p_is_active : bool; p_max_seats : option Z;
  p_monthly_uploads_limit : option Z; p_paid_plan : bool; p_stripe_id : option string;
}.

Record User : Type := mkUser { u_id : Z; u_name : option string; u_email : option string; u_is_staff : option bool }.

Record Account : Type := mkAccount {
  a_id : Z; a_name : string; a_is_active : bool; a_plan : string; a_plan_seat_count : Z; a_free_seat_count : Z;
  a_plan_auto_activate : bool; a_is_delinquent : bool;
}.

Record Owner : Type := mkOwner {
  o_ownerid : Z; o_service : string; o_username : option string; o_email : option string;
  o_name : option string; o_oauth_token : option string; o_stripe_customer_id : option string;
  o_stripe_subscription_id : option string; o_stripe_coupon_id : option string; o_service_id : string;
  o_parent_service_id : option string; o_root_parent_service_id : option string; o_staff : option bool;
  o_plan : option string; o_plan_user_count : option Z; o_plan_auto_activate : option bool;
  o_plan_activated_users : option (list Z); o_trial_start_date : option Z; o_trial_end_date : option Z;
  o_trial_status : option TrialStatus; o_trial_fired_by : option Z; o_pretrial_users_count : option Z;
  o_free : Z; o_delinquent : option bool; o_organizations : option (list Z); o_admins : option (list Z);
  o_student : bool; o_max_upload_limit : option Z; o_sentry_user_id : option string; o_user : option Z;
  o_account : option Z;
}.

Definition set_stripe_customer_id (v : option string) (o : Owner) : Owner :=
    mkOwner (o_ownerid o) (o_service o) (o_username o) (o_email o) (o_name o) (o_oauth_token o) v
    (o_stripe_subscription_id o) (o_stripe_coupon_id o) (o_service_id o) (o_parent_service_id o)
    (o_root_parent_service_id o) (o_staff o) (o_plan o) (o_plan_user_count o) (o_plan_auto_activate o)
    (o_plan_activated_users o) (o_trial_start_date o) (o_trial_end_date o) (o_trial_status o)
    (o_trial_fired_by o) (o_pretrial_users_count o) (o_free o) (o_delinquent o) (o_organizations o)
    (o_admins o) (o_student o) (o_max_upload_limit o) (o_sentry_user_id o) (o_user o) (o_account o).
Definition set_stripe_subscription_id (v : option string) (o : Owner) : Owner :=
    mkOwner (o_ownerid o) (o_service o) (o_username o) (o_email o) (o_name o) (o_oauth_token o)
    (o_stripe_customer_id o) v (o_stripe_coupon_id o) (o_service_id o) (o_parent_service_id o)
    (o_root_parent_service_id o) (o_staff o) (o_plan o) (o_plan_user_count o) (o_plan_auto_activate o)
    (o_plan_activated_users o) (o_trial_start_date o) (o_trial_end_date o) (o_trial_status o)
    (o_trial_fired_by o) (o_pretrial_users_count o) (o_free o) (o_delinquent o) (o_organizations o)
    (o_admins o) (o_student o) (o_max_upload_limit o) (o_sentry_user_id o) (o_user o) (o_account o).
Definition set_stripe_coupon_id (v : option string) (o : Owner) : Owner :=
    mkOwner (o_ownerid o) (o_service o) (o_username o) (o_email o) (o_name o) (o_oauth_token o)
    (o_stripe_customer_id o) (o_stripe_subscription_id o) v (o_service_id o) (o_parent_service_id o)
    (o_root_parent_service_id o) (o_staff o) (o_plan o) (o_plan_user_count o) (o_plan_auto_activate o)
    (o_plan_activated_users o) (o_trial_start_date o) (o_trial_end_date o) (o_trial_status o)
    (o_trial_fired_by o) (o_pretrial_users_count o) (o_free o) (o_delinquent o) (o_organizations o)
    (o_admins o) (o_student o) (o_max_upload_limit o) (o_sentry_user_id o) (o_user o) (o_account o).
Definition set_root_parent_service_id (v : option string) (o : Owner) : Owner :=
    mkOwner (o_ownerid o) (o_service o) (o_username o) (o_email o) (o_name o) (o_oauth_token o)
    (o_stripe_customer_id o) (o_stripe_subscription_id o) (o_stripe_coupon_id o) (o_service_id o)
    (o_parent_service_id o) v (o_staff o) (o_plan o) (o_plan_user_count o) (o_plan_auto_activate o)
    (o_plan_activated_users o) (o_trial_start_date o) (o_trial_end_date o) (o_trial_status o)
    (o_trial_fired_by o) (o_pretrial_users_count o) (o_free o) (o_delinquent o) (o_organizations o)
    (o_admins o) (o_student o) (o_max_upload_limit o) (o_sentry_user_id o) (o_user o) (o_account o).
Definition set_plan (v : option string) (o : Owner) : Owner :=
    mkOwner (o_ownerid o) (o_service o) (o_username o) (o_email o) (o_name o) (o_oauth_token o)
    (o_stripe_customer_id o) (o_stripe_subscription_id o) (o_stripe_coupon_id o) (o_service_id o)
    (o_parent_service_id o) (o_root_parent_service_id o) (o_staff o) v (o_plan_user_count o)
    (o_plan_auto_activate o) (o_plan_activated_users o) (o_trial_start_date o) (o_trial_end_date o)
    (o_trial_status o) (o_trial_fired_by o) (o_pretrial_users_count o) (o_free o) (o_delinquent o)
    (o_organizations o) (o_admins o) (o_student o) (o_max_upload_limit o) (o_sentry_user_id o) (o_user o)
    (o_account o).
Definition set_plan_user_count (v : option Z) (o : Owner) : Owner :=
    mkOwner (o_ownerid o) (o_service o) (o_username o) (o_email o) (o_name o) (o_oauth_token o)
    (o_stripe_customer_id o) (o_stripe_subscription_id o) (o_stripe_coupon_id o) (o_service_id o)
    (o_parent_service_id o) (o_root_parent_service_id o) (o_staff o) (o_plan o) v (o_plan_auto_activate o)
    (o_plan_activated_users o) (o_trial_start_date o) (o_trial_end_date o) (o_trial_status o)
    (o_trial_fired_by o) (o_pretrial_users_count o) (o_free o) (o_delinquent o) (o_organizations o)
    (o_admins o) (o_student o) (o_max_upload_limit o) (o_sentry_user_id o) (o_user o) (o_account o).
Definition set_plan_auto_activate (v : option bool) (o : Owner) : Owner :=
    mkOwner (o_ownerid o) (o_service o) (o_username o) (o_email o) (o_name o) (o_oauth_token o)
    (o_stripe_customer_id o) (o_stripe_subscription_id o) (o_stripe_coupon_id o) (o_service_id o)
    (o_parent_service_id o) (o_root_parent_service_id o) (o_staff o) (o_plan o) (o_plan_user_count o) v
    (o_plan_activated_users o) (o_trial_start_date o) (o_trial_end_date o) (o_trial_status o)
    (o_trial_fired_by o) (o_pretrial_users_count o) (o_free o) (o_delinquent o) (o_organizations o)
    (o_admins o) (o_student o) (o_max_upload_limit o) (o_sentry_user_id o) (o_user o) (o_account o).
Definition set_plan_activated_users (v : option (list Z)) (o : Owner) : Owner :=
    mkOwner (o_ownerid o) (o_service o) (o_username o) (o_email o) (o_name o) (o_oauth_token o)
    (o_stripe_customer_id o) (o_stripe_subscription_id o) (o_stripe_coupon_id o) (o_service_id o)
    (o_parent_service_id o) (o_root_parent_service_id o) (o_staff o) (o_plan o) (o_plan_user_count o)
    (o_plan_auto_activate o) v (o_trial_start_date o) (o_trial_end_date o) (o_trial_status o)
    (o_trial_fired_by o) (o_pretrial_users_count o) (o_free o) (o_delinquent o) (o_organizations o)
    (o_admins o) (o_student o) (o_max_upload_limit o) (o_sentry_user_id o) (o_user o) (o_account o).
Definition set_trial_start_date (v : option Z) (o : Owner) : Owner :=
    mkOwner (o_ownerid o) (o_service o) (o_username o) (o_email o) (o_name o) (o_oauth_token o)
    (o_stripe_customer_id o) (o_stripe_subscription_id o) (o_stripe_coupon_id o) (o_service_id o)
    (o_parent_service_id o) (o_root_parent_service_id o) (o_staff o) (o_plan o) (o_plan_user_count o)
    (o_plan_auto_activate o) (o_plan_activated_users o) v (o_trial_end_date o) (o_trial_status o)
    (o_trial_fired_by o) (o_pretrial_users_count o) (o_free o) (o_delinquent o) (o_organizations o)
    (o_admins o) (o_student o) (o_max_upload_limit o) (o_sentry_user_id o) (o_user o) (o_account o).
Definition set_trial_end_date (v : option Z) (o : Owner) : Owner :=
    mkOwner (o_ownerid o) (o_service o) (o_username o) (o_email o) (o_name o) (o_oauth_token o)
    (o_stripe_customer_id o) (o_stripe_subscription_id o) (o_stripe_coupon_id o) (o_service_id o)
    (o_parent_service_id o) (o_root_parent_service_id o) (o_staff o) (o_plan o) (o_plan_user_count o)
    (o_plan_auto_activate o) (o_plan_activated_users o) (o_trial_start_date o) v (o_trial_status o)
    (o_trial_fired_by o) (o_pretrial_users_count o) (o_free o) (o_delinquent o) (o_organizations o)
    (o_admins o) (o_student o) (o_max_upload_limit o) (o_sentry_user_id o) (o_user o) (o_account o).
Definition set_trial_status (v : option TrialStatus) (o : Owner) : Owner :=
    mkOwner (o_ownerid o) (o_service o) (o_username o) (o_email o) (o_name o) (o_oauth_token o)
    (o_stripe_customer_id o) (o_stripe_subscription_id o) (o_stripe_coupon_id o) (o_service_id o)
    (o_parent_service_id o) (o_root_parent_service_id o) (o_staff o) (o_plan o) (o_plan_user_count o)
    (o_plan_auto_activate o) (o_plan_activated_users o) (o_trial_start_date o) (o_trial_end_date o) v
    (o_trial_fired_by o) (o_pretrial_users_count o) (o_free o) (o_delinquent o) (o_organizations o)
    (o_admins o) (o_student o) (o_max_upload_limit o) (o_sentry_user_id o) (o_user o) (o_account o).
Definition set_trial_fired_by (v : option Z) (o : Owner) : Owner :=
    mkOwner (o_ownerid o) (o_service o) (o_username o) (o_email o) (o_name o) (o_oauth_token o)
    (o_stripe_customer_id o) (o_stripe_subscription_id o) (o_stripe_coupon_id o) (o_service_id o)
    (o_parent_service_id o) (o_root_parent_service_id o) (o_staff o) (o_plan o) (o_plan_user_count o)
    (o_plan_auto_activate o) (o_plan_activated_users o) (o_trial_start_date o) (o_trial_end_date o)
    (o_trial_status o) v (o_pretrial_users_count o) (o_free o) (o_delinquent o) (o_organizations o)
    (o_admins o) (o_student o) (o_max_upload_limit o) (o_sentry_user_id o) (o_user o) (o_account o).
Definition set_pretrial_users_count (v : option Z) (o : Owner) : Owner :=
    mkOwner (o_ownerid o) (o_service o) (o_username o) (o_email o) (o_name o) (o_oauth_token o)
    (o_stripe_customer_id o) (o_stripe_subscription_id o) (o_stripe_coupon_id o) (o_service_id o)
    (o_parent_service_id o) (o_root_parent_service_id o) (o_staff o) (o_plan o) (o_plan_user_count o)
    (o_plan_auto_activate o) (o_plan_activated_users o) (o_trial_start_date o) (o_trial_end_date o)
    (o_trial_status o) (o_trial_fired_by o) v (o_free o) (o_delinquent o) (o_organizations o) (o_admins o)
    (o_student o) (o_max_upload_limit o) (o_sentry_user_id o) (o_user o) (o_account o).
Definition set_delinquent (v : option bool) (o : Owner) : Owner :=
    mkOwner (o_ownerid o) (o_service o) (o_username o) (o_email o) (o_name o) (o_oauth_token o)
    (o_stripe_customer_id o) (o_stripe_subscription_id o) (o_stripe_coupon_id o) (o_service_id o)
    (o_parent_service_id o) (o_root_parent_service_id o) (o_staff o) (o_plan o) (o_plan_user_count o)
    (o_plan_auto_activate o) (o_plan_activated_users o) (o_trial_start_date o) (o_trial_end_date o)
    (o_trial_status o) (o_trial_fired_by o) (o_pretrial_users_count o) (o_free o) v (o_organizations o)
    (o_admins o) (o_student o) (o_max_upload_limit o) (o_sentry_user_id o) (o_user o) (o_account o).
Definition set_admins (v : option (list Z)) (o : Owner) : Owner :=
    mkOwner (o_ownerid o) (o_service o) (o_username o) (o_email o) (o_name o) (o_oauth_token o)
    (o_stripe_customer_id o) (o_stripe_subscription_id o) (o_stripe_coupon_id o) (o_service_id o)
    (o_parent_service_id o) (o_root_parent_service_id o) (o_staff o) (o_plan o) (o_plan_user_count o)
    (o_plan_auto_activate o) (o_plan_activated_users o) (o_trial_start_date o) (o_trial_end_date o)
    (o_trial_status o) (o_trial_fired_by o) (o_pretrial_users_count o) (o_free o) (o_delinquent o)
    (o_organizations o) v (o_student o) (o_max_upload_limit o) (o_sentry_user_id o) (o_user o) (o_account
    o).
Definition set_user (v : option Z) (o : Owner) : Owner :=
    mkOwner (o_ownerid o) (o_service o) (o_username o) (o_email o) (o_name o) (o_oauth_token o)
    (o_stripe_customer_id o) (o_stripe_subscription_id o) (o_stripe_coupon_id o) (o_service_id o)
    (o_parent_service_id o) (o_root_parent_service_id o) (o_staff o) (o_plan o) (o_plan_user_count o)
    (o_plan_auto_activate o) (o_plan_activated_users o) (o_trial_start_date o) (o_trial_end_date o)
    (o_trial_status o) (o_trial_fired_by o) (o_pretrial_users_count o) (o_free o) (o_delinquent o)
    (o_organizations o) (o_admins o) (o_student o) (o_max_upload_limit o) (o_sentry_user_id o) v (o_account
    o).

Record Repository : Type := mkRepository {
  r_repoid : Z; r_author : Z; r_service_id : string; r_private : option bool; r_active : option bool;
  r_updatestamp : option Z;
}.

(** The tables.  [members] is [AccountsUsers], the users of each account;
    [user_seq] is the sequence that new users take their key from. *)
Record Db : Type := mkDb {
  owners : gmap Z Owner;
  users : gmap Z User;
  accounts : gmap Z Account;
  members : gmap Z (gset Z);
  repositories : gmap Z Repository;
  plans : list Plan;
  user_seq : Z;
}.

Definition set_owners (m : gmap Z Owner) (db : Db) : Db :=
  mkDb m (users db) (accounts db) (members db) (repositories db) (plans db) (user_seq db).
Definition set_users (m : gmap Z User) (n : Z) (db : Db) : Db :=
  mkDb (owners db) m (accounts db) (members db) (repositories db) (plans db) n.
Definition set_accounts (m : gmap Z Account) (db : Db) : Db :=
  mkDb (owners db) (users db) m (members db) (repositories db) (plans db) (user_seq db).
Definition set_members (m : gmap Z (gset Z)) (db : Db) : Db :=
  mkDb (owners db) (users db) (accounts db) m (repositories db) (plans db) (user_seq db).
Definition set_repositories (m : gmap Z Repository) (db : Db) : Db :=
  mkDb (owners db) (users db) (accounts db) (members db) m (plans db) (user_seq db).

(** [objects.get]: the one row that is left. *)
Definition get_one {A} (l : list A) : result A :=
  match l with [x] => Ok x | [] => Err DoesNotExist | _ => Err MultipleObjectsReturned end.

(** The rows of a table that a filter keeps, and their number. *)
Definition rows {A} (f : A -> bool) (m : gmap Z A) : list A :=
  List.filter f (map snd (map_to_list m)).
Definition count {A} (f : A -> bool) (m : gmap Z A) : Z := Z.of_nat (size (filter (fun kv => f kv.2 = true) m)).
Definition exists_row {A} (f : A -> bool) (m : gmap Z A) : bool := negb (count f m =? 0).

Definition get_by_pk {A} (pk : Z) (m : gmap Z A) : result A :=
  match m !! pk with Some x => Ok x | None => Err DoesNotExist end.

(** Truthiness of a column that may be null. *)
Definition given_text (o : option string) : bool :=
  match o with Some s => negb (bool_decide (s = "")) | None => false end.
Definition given_int (o : option Z) : bool := match o with Some n => negb (n =? 0) | None => false end.
Definition given_list (o : option (list Z)) : bool := match o with Some (_ :: _) => true | _ => false end.
Definition in_list (x : Z) (o : option (list Z)) : bool := bool_decide (x ∈ default [] o).

(** The SQL function of [array_append_unique.py], on a column. *)
Definition array_append_unique (l : option (list Z)) (x : Z) : option (list Z) :=
  Some (List.filter (fun y => negb (y =? x)) (default [] l) ++ [x]).

Definition plan_named (db : Db) (name : option string) : list Plan :=
  List.filter (fun p => bool_decide (Some (p_name p) = name)) (plans db).

Definition INFINITY : Z := 99999999.

(** ** [User] *)

Module UserOps.
Definition owners_of (db : Db) (u : Z) : list Owner := rows (fun o => bool_decide (o_user o = Some u)) (owners db).

Definition is_github_student (db : Db) (u : Z) : result bool :=
  match get_one (List.filter (fun o => bool_decide (o_service o = "github")) (owners_of db u)) with
  | Err DoesNotExist => Ok false
  | Err e => Err e
  | Ok github_owner => Ok (o_student github_owner)
  end.

Definition has_perm (u : User) : option bool := u_is_staff u.
End UserOps.

(** ** [Account] *)

Module AccountOps.
Definition users_of (db : Db) (a : Z) : gset Z := default ∅ (members db !! a).

(** [_student_count_helper]: a user is a student when one of their owners is. *)
Definition is_student (db : Db) (u : Z) : bool :=
  existsb (fun o => o_student o) (UserOps.owners_of db u).

Definition activated_user_count (db : Db) (a : Account) : Z :=
  Z.of_nat (size (filter (fun u => is_student db u = false) (users_of db (a_id a)))).
Definition activated_student_count (db : Db) (a : Account) : Z :=
  Z.of_nat (size (filter (fun u => is_student db u = true) (users_of db (a_id a)))).
Definition all_user_count (db : Db) (a : Account) : Z := Z.of_nat (size (users_of db (a_id a))).

Definition organizations (db : Db) (a : Account) : list Owner :=
  rows (fun o => bool_decide (o_account o = Some (a_id a))) (owners db).
Definition organizations_count (db : Db) (a : Account) : Z := Z.of_nat (length (organizations db a)).

Definition total_seat_count (a : Account) : Z := a_plan_seat_count a + a_free_seat_count a.

Definition available_seat_count (db : Db) (a : Account) : Z :=
  let count := total_seat_count a - activated_user_count db a in
  if 0 <? count then count else 0.

Definition can_activate_user (db : Db) (a : Account) (user : option Z) : result bool :=
  let seat_left := Ok (activated_user_count db a <? a_plan_seat_count a + a_free_seat_count a) in
  match user with
  | Some u =>
      if bool_decide (u ∈ users_of db (a_id a)) then Ok true
      else s ← UserOps.is_github_student db u;
           if (s : bool) then Ok true else seat_left
  | None => seat_left
  end.

Definition activate_user_onto_account (db : Db) (a : Account) (u : Z) : Db :=
  set_members (<[a_id a := {[u]} ∪ users_of db (a_id a)]> (members db)) db.

Definition save_owner (db : Db) (o : Owner) : Db := set_owners (<[o_ownerid o := o]> (owners db)) db.

(** A user is made for an owner that has none. *)
Definition activate_owner_user_onto_account (db : Db) (a : Account) (owner_user : Owner) : Db * Owner :=
  match o_user owner_user with
  | Some u => (activate_user_onto_account db a u, owner_user)
  | None =>
      let u := user_seq db in
      let db := set_users (<[u := mkUser u (o_name owner_user) (o_email owner_user) (Some false)]> (users db)) (u + 1) db in
      let owner_user := set_user (Some u) owner_user in
      (activate_user_onto_account (save_owner db owner_user) a u, owner_user)
  end.

(** A comprehension over [org.plan_activated_users], which may be null. *)
Definition deactivate_owner_user_from_account (db : Db) (a : Account) (owner_user : Owner) : result Db :=
  match o_user owner_user with
  | None => Ok db
  | Some u =>
      lists ← traverse (fun org => match o_plan_activated_users org with Some l => Ok l | None => Err TypeError end)
                (organizations db a);
      if bool_decide (o_ownerid owner_user ∈ concat lists) then Ok db
      else Ok (set_members (<[a_id a := users_of db (a_id a) ∖ {[u]}]> (members db)) db)
  end.
End AccountOps.

(** ** [Owner] *)

(** [list.remove] without its exception. *)
Fixpoint list_remove (x : Z) (l : list Z) : list Z :=
  match l with [] => [] | y :: l' => if y =? x then l' else y :: list_remove x l' end.

Record PrettyPlan : Type := mkPrettyPlan {
  pp_marketing_name : string; pp_value : string; pp_billing_rate : option PlanBillingRate; pp_base_unit_price : Z;
  pp_benefits : list string; pp_tier_name : TierName; pp_monthly_uploads_limit : option Z;
  pp_trial_days : option Z; pp_quantity : option Z;
}.

Definition pretty_plan_of (p : Plan) (quantity : option Z) : PrettyPlan :=
  mkPrettyPlan (p_marketing_name p) (p_name p) (p_billing_rate p) (p_base_unit_price p) (p_benefits p)
    (tier_name (p_tier p)) (p_monthly_uploads_limit p)
    (if bool_decide (p_name p = PlanName.TRIAL_PLAN_NAME) then Some TRIAL_DAYS else None) quantity.

Definition account_pretty_plan (db : Db) (a : Account) : result PrettyPlan :=
  p ← get_one (plan_named db (Some (a_plan a)));
  Ok (pretty_plan_of p (Some (a_plan_seat_count a))).

Module OwnerOps.
Definition has_legacy_plan (o : Owner) : bool :=
  match o_plan o with None => true | Some p => negb (startswith "users" p) end.

Definition repo_total_credits (o : Owner) : result Z :=
  match o_plan o with
  | None => Ok (if 1 + o_free o =? 0 then 0 else 1 + o_free o)
  | Some p =>
      if negb (has_legacy_plan o) then Ok INFINITY
      else if startswith "v4-" p then int_of_str (str_drop 3 (str_init 1 p))
      else int_of_str (str_init 1 p)
  end.

Definition by_service_id (db : Db) (service_id service : string) : result Owner :=
  get_one (rows (fun o => bool_decide (o_service_id o = service_id) && bool_decide (o_service o = service)) (owners db)).

(** The loop over the parents.  A chain of parents that returns to itself keeps
    it running: the fuel, one more than the number of owners, is then used up. *)
Fixpoint climb (fuel : nat) (db : Db) (root : Owner) : result Owner :=
  match o_parent_service_id root with
  | None => Ok root
  | Some parent =>
      match fuel with
      | O => Err Unmodelled
      | S fuel' => up ← by_service_id db parent (o_service root); climb fuel' db up
      end
  end.

(** The root is cached in [root_parent_service_id] of the owner, which is saved. *)
Definition root_organization (db : Db) (o : Owner) : result (Db * Owner * option Owner) :=
  if given_text (o_root_parent_service_id o) then
    root ← by_service_id db (default "" (o_root_parent_service_id o)) (o_service o);
    Ok (db, o, Some root)
  else if bool_decide (o_service o = "gitlab") && given_text (o_parent_service_id o) then
    root ← climb (S (size (owners db))) db o;
    let o := set_root_parent_service_id (Some (o_service_id root)) o in
    Ok (AccountOps.save_owner db o, o, Some root)
  else Ok (db, o, None).

Definition repository_set (db : Db) (o : Owner) (f : Repository -> bool) : Z :=
  count (fun r => (r_author r =? o_ownerid o) && f r) (repositories db).
Definition is_true (b : option bool) : bool := bool_decide (b = Some true).
Definition is_false (b : option bool) : bool := bool_decide (b = Some false).

Definition nb_active_private_repos (db : Db) (o : Owner) : Z :=
  repository_set db o (fun r => is_true (r_active r) && is_true (r_private r)).
Definition has_public_repos (db : Db) (o : Owner) : bool :=
  negb (repository_set db o (fun r => is_false (r_private r)) =? 0).
Definition has_private_repos (db : Db) (o : Owner) : bool :=
  negb (repository_set db o (fun r => is_true (r_private r)) =? 0).
Definition has_active_repos (db : Db) (o : Owner) : bool :=
  negb (repository_set db o (fun r => is_true (r_active r)) =? 0).

Definition repo_credits (db : Db) (o : Owner) : result Z :=
  if negb (has_legacy_plan o) then Ok INFINITY
  else t ← repo_total_credits o; Ok (t - nb_active_private_repos db o).

Definition orgs (db : Db) (o : Owner) : list Owner :=
  if given_list (o_organizations o) then rows (fun x => in_list (o_ownerid x) (o_organizations o)) (owners db) else [].

(** Activated owners with rows in the table, students apart. *)
Definition activated_user_count (db : Db) (o : Owner) : Z :=
  if negb (given_list (o_plan_activated_users o)) then 0
  else count (fun x => in_list (o_ownerid x) (o_plan_activated_users o) && negb (o_student x)) (owners db).
Definition activated_student_count (db : Db) (o : Owner) : Z :=
  if negb (given_list (o_plan_activated_users o)) then 0
  else count (fun x => in_list (o_ownerid x) (o_plan_activated_users o) && o_student x) (owners db).

(** [OwnerQuerySet.users_of] *)
Definition users_of (o x : Owner) : bool :=
  in_list (o_ownerid o) (o_organizations x)
  || (given_list (o_plan_activated_users o) && in_list (o_ownerid x) (o_plan_activated_users o)).

Definition student_count (db : Db) (o : Owner) : Z := count (fun x => users_of o x && o_student x) (owners db).
Definition inactive_user_count (db : Db) (o : Owner) : Z :=
  count (fun x => users_of o x && negb (o_student x)) (owners db) - activated_user_count db o.

Definition total_seat_count (o : Owner) : Z :=
  match o_plan_user_count o with None => o_free o | Some n => n + o_free o end.

Definition is_admin (o owner : Owner) : bool :=
  (o_ownerid o =? o_ownerid owner) || (given_list (o_admins o) && in_list (o_ownerid owner) (o_admins o)).

Definition domain_of (email : option string) : result string :=
  if given_text email then
    match split "@" (default "" email) with _ :: d :: _ => Ok d | _ => Err IndexError end
  else Ok "".

Definition clean (o : Owner) : result Owner :=
  d ← (if is_true (o_staff o) then domain_of (o_email o) else Ok "codecov.io");
  if negb (bool_decide (d = "codecov.io") || bool_decide (d = "sentry.io")) then Err ValidationError
  else
    let keep (v : option string) := if given_text v then v else None in
    Ok (set_stripe_subscription_id (keep (o_stripe_subscription_id o))
         (set_stripe_customer_id (keep (o_stripe_customer_id o)) (set_plan (keep (o_plan o)) o))).

Definition pretty_plan (db : Db) (o : Owner) : result PrettyPlan :=
  match o_account o with
  | Some a => acc ← get_by_pk a (accounts db); account_pretty_plan db acc
  | None => p ← get_one (plan_named db (o_plan o)); Ok (pretty_plan_of p (o_plan_user_count o))
  end.

Definition can_activate_user (db : Db) (org owner_user : Owner) : result bool :=
  if o_student owner_user then Ok true
  else match o_account org with
       | Some a => acc ← get_by_pk a (accounts db); AccountOps.can_activate_user db acc (o_user owner_user)
       | None =>
           match o_plan_user_count org with
           | Some n => Ok (activated_user_count db org <? n + o_free org)
           | None => Err TypeError
           end
       end.

(** The organization is saved before the user is put on its account. *)
Definition activate_user (db : Db) (org owner_user : Owner) : result (Db * Owner * Owner) :=
  let u := o_ownerid owner_user in
  let org := set_plan_activated_users
    (Some (match o_plan_activated_users org with
           | Some l => if bool_decide (u ∈ l) then l else l ++ [u]
           | None => [u]
           end)) org in
  let db := AccountOps.save_owner db org in
  match o_account org with
  | Some a =>
      acc ← get_by_pk a (accounts db);
      let '(db, owner_user) := AccountOps.activate_owner_user_onto_account db acc owner_user in
      Ok (db, org, owner_user)
  | None => Ok (db, org, owner_user)
  end.

Definition deactivate_user (db : Db) (org owner_user : Owner) : result (Db * Owner) :=
  let org := set_plan_activated_users (list_remove (o_ownerid owner_user) <$> o_plan_activated_users org) org in
  let db := AccountOps.save_owner db org in
  match o_account org, o_user owner_user with
  | Some a, Some _ =>
      acc ← get_by_pk a (accounts db);
      db ← AccountOps.deactivate_owner_user_from_account db acc owner_user;
      Ok (db, org)
  | _, _ => Ok (db, org)
  end.

Definition add_admin (db : Db) (o user : Owner) : Db * Owner :=
  let u := o_ownerid user in
  let o := set_admins
    (Some (match o_admins o with Some l => if bool_decide (u ∈ l) then l else l ++ [u] | None => [u] end)) o in
  (AccountOps.save_owner db o, o).

Definition remove_admin (db : Db) (o user : Owner) : Db * Owner :=
  let o := set_admins (list_remove (o_ownerid user) <$> o_admins o) o in
  (AccountOps.save_owner db o, o).
End OwnerOps.

(** ** Avatars

    The digest of [hashlib] and the answer of GitLab's API (its status and the
    avatar of its body) are given. *)
Section avatar.
Variable md5_hex : string -> string.
Variable http_get : string -> Z * option string.

Definition AVATAR_GITHUB_BASE_URL : string := "https://avatars0.githubusercontent.com".
Definition BITBUCKET_BASE_URL : string := "https://bitbucket.org".
Definition GITLAB_BASE_URL : string := "https://gitlab.com".
Definition GRAVATAR_BASE_URL : string := "https://www.gravatar.com".
Definition AVATARIO_BASE_URL : string := "https://avatars.io".
Definition DEFAULT_AVATAR_SIZE : Z := 55.

Definition get_gitlab_url (email : string) (size : Z) : string :=
  let '(status, url) := http_get
    (GITLAB_BASE_URL +:+ "/api/v4/avatar?email=" +:+ email +:+ "&size=" +:+ str_of_Z size) in
  if status =? 200 then default "" url else "".

Definition format_text (o : option string) : string := default "None" o.

Definition avatar_url (st : Settings) (o : Owner) : string :=
  let size := str_of_Z DEFAULT_AVATAR_SIZE in
  let email := default "" (o_email o) in
  let has_id := negb (bool_decide (o_service_id o = "")) in
  if bool_decide (o_service o = "github") && has_id then
    AVATAR_GITHUB_BASE_URL +:+ "/u/" +:+ o_service_id o +:+ "?v=3&s=" +:+ size
  else if bool_decide (o_service o = "github_enterprise") && has_id then
    format_text (github_enterprise_url st) +:+ "/avatars/u/" +:+ o_service_id o +:+ "?v=3&s=" +:+ size
  else if bool_decide (o_service o = "bitbucket") && given_text (o_username o) then
    BITBUCKET_BASE_URL +:+ "/account/" +:+ format_text (o_username o) +:+ "/avatar/" +:+ size
  else if bool_decide (o_service o = "bitbucket_server") && has_id && given_text (o_username o) then
    format_text (bitbucket_server_url st)
    +:+ (if str_contains "U" (o_service_id o) then "/users/" else "/projects/")
    +:+ format_text (o_username o) +:+ "/avatar.png?s=" +:+ size
  else if bool_decide (o_service o = "gitlab") && given_text (o_email o) then
    get_gitlab_url email DEFAULT_AVATAR_SIZE
  else if services_gravatar st && given_text (o_email o) then
    GRAVATAR_BASE_URL +:+ "/avatar/" +:+ md5_hex (lower email) +:+ "?s=" +:+ size
  else if services_avatars_io st && given_text (o_email o) then
    AVATARIO_BASE_URL +:+ "/avatar/" +:+ md5_hex (lower email) +:+ "/" +:+ size
  else if negb (o_ownerid o =? 0) then
    format_text (codecov_url st) +:+ "/users/" +:+ str_of_Z (o_ownerid o) +:+ ".png?size=" +:+ size
  else if bool_decide (APP_ENV st = Some "enterprise") then
    format_text (codecov_url st) +:+ "/media/images/gafsi/avatar.svg"
  else format_text (media_assets st) +:+ "/media/images/gafsi/avatar.svg".
End avatar.

(** ** [Plan] *)

Module PlanOps.
Definition is_free_plan (p : Plan) : bool := negb (p_paid_plan p).
Definition has_tier (t : TierName) (p : Plan) : bool := bool_decide (tier_name (p_tier p) = t).
Definition is_pro_plan (p : Plan) : bool := has_tier PRO p || has_tier SENTRY p.
Definition is_team_plan (p : Plan) : bool := has_tier TEAM p.
Definition is_enterprise_plan (p : Plan) : bool := has_tier ENTERPRISE p.
Definition is_sentry_plan (p : Plan) : bool := has_tier SENTRY p.
Definition is_trial_plan (p : Plan) : bool := has_tier TRIAL p.
End PlanOps.

(** ** [GithubAppInstallation] *)

Record GithubAppInstallation : Type := mkInstallation {
  gi_id : Z; gi_installation_id : Z; gi_name : string; gi_repository_service_ids : option (list string);
  gi_app_id : option Z; gi_pem_path : option string; gi_is_suspended : bool; gi_owner : Z;
}.
Definition GITHUB_APP_INSTALLATION_DEFAULT_NAME : string := "codecov_app_installation".

Module GithubAppInstallationOps.
(** [str(self.app_id) == str(default)] compares the numbers. *)
Definition is_configured (st : Settings) (i : GithubAppInstallation) : bool :=
  if bool_decide (gi_app_id i <> None) && bool_decide (gi_pem_path i <> None) then true
  else if bool_decide (gi_name i = "unconfigured_app") then false
  else match github_integration_id st with
       | None => true
       | Some d => bool_decide (gi_app_id i = Some d)
       end.

Definition covers_all_repos (i : GithubAppInstallation) : bool := bool_decide (gi_repository_service_ids i = None).

Definition repository_queryset (db : Db) (i : GithubAppInstallation) : list Repository :=
  match gi_repository_service_ids i with
  | None => rows (fun r => r_author r =? gi_owner i) (repositories db)
  | Some ids => rows (fun r => bool_decide (r_service_id r ∈ ids) && (r_author r =? gi_owner i)) (repositories db)
  end.

Definition is_repo_covered_by_integration (i : GithubAppInstallation) (r : Repository) : bool :=
  match gi_repository_service_ids i with
  | None => r_author r =? gi_owner i
  | Some ids => bool_decide (r_service_id r ∈ ids)
  end.

(** The method of the worker's model. *)
Definition is_configured_worker (i : GithubAppInstallation) : bool :=
  if bool_decide (gi_name i = GITHUB_APP_INSTALLATION_DEFAULT_NAME) then true
  else bool_decide (gi_app_id i <> None) && bool_decide (gi_pem_path i <> None).
End GithubAppInstallationOps.

(** ** [StripeBilling] and [InvoiceBilling]: one billing method is active

    The key [i] of a saved row is the one it has, or the one it is given. *)
Record Billing : Type := mkBilling { b_account : Z; b_is_active : bool }.
Record BillingTables : Type := mkBillingTables { stripe_rows : gmap Z Billing; invoice_rows : gmap Z Billing }.

(** [filter(account=a, is_active=True).exclude(id=i).update(is_active=False)]; no
    row is excluded when the identifier is null. *)
Definition inactivate (a : Z) (i : option Z) (m : gmap Z Billing) : gmap Z Billing :=
  map_imap (fun k b =>
    Some (if (b_account b =? a) && b_is_active b && negb (bool_decide (Some k = i))
          then mkBilling (b_account b) false else b)) m.

Definition StripeBilling_save (t : BillingTables) (i : Z) (b : Billing) : BillingTables :=
  let t := if b_is_active b
           then mkBillingTables (inactivate (b_account b) (Some i) (stripe_rows t)) (inactivate (b_account b) None (invoice_rows t))
           else t in
  mkBillingTables (<[i := b]> (stripe_rows t)) (invoice_rows t).

Definition InvoiceBilling_save (t : BillingTables) (i : Z) (b : Billing) : BillingTables :=
  let t := if b_is_active b
           then mkBillingTables (inactivate (b_account b) None (stripe_rows t)) (inactivate (b_account b) (Some i) (invoice_rows t))
           else t in
  mkBillingTables (stripe_rows t) (<[i := b]> (invoice_rows t)).
