(* ===== verification/Plans.v ===== *)
(** * Plans and trials

    [libs/shared/shared/plan/service.py] with [upload/utils.py], the throttles of
    [apps/codecov-api/upload] and the tasks that end a trial.  A [PlanService]
    keeps the organization's object and the plan it looked up; [plan_data] is a
    cached property, so that a read may change the service: a property that
    reads the plan returns the service as well.  The license and the seats of a
    self-hosted installation come first. *)
From S2P Require Export PyStr PyVal Encryption Totals.
From S2P Require Export Accounts.

(** * Licenses and the seats of a self-hosted installation

    [libs/shared/shared/license/__init__.py], [self_hosted/service.py] (the same
    as [apps/codecov-api/services/self_hosted.py]), [apps/worker/services/license.py]. *)

#[local] Open Scope string_scope.
#[local] Open Scope list_scope.
#[local] Open Scope Z_scope.

Record LicenseInformation : Type := mkLicense {
  is_valid : bool; is_trial : pyval; message : option string; url : pyval;
  number_allowed_users : option Z; number_allowed_repos : option Z; expires : option Z; is_pr_billing : bool;
}.

Definition no_license_message : string :=
  "No license key found. Please contact enterprise@codecov.io to issue a license key. Thank you!".

Definition invalid_license (m : option string) : LicenseInformation :=
  mkLicense false (VBool false) m VNone None None None false.

(** [binascii.Error], [JSONDecodeError] and [UnicodeDecodeError] are [ValueError]s. *)
Definition is_value_error (e : exn) : bool := bool_decide (e = ValueError) || bool_decide (e = JSONDecodeError).

Definition license_key : string :=
  String.string_of_list_ascii (ascii_of_N <$> [251; 233; 27; 52; 96; 255; 226; 161; 250; 227; 208; 249; 141; 166; 37; 127]%N).

(** What the database holds that a license limits. *)
Definition activated_ids (db : Db) : gset Z :=
  list_to_set (concat (map (fun o => default [] (o_plan_activated_users o)) (rows (fun _ => true) (owners db)))).

(** The owners with a token, counted for each service. *)
Definition tokens_of (db : Db) (s : string) : Z :=
  count (fun o => bool_decide (o_service o = s) && bool_decide (o_oauth_token o <> None)) (owners db).
Definition token_counts (db : Db) : list Z :=
  map (tokens_of db) (elements (list_to_set (C := gset string)
    (map o_service (rows (fun o => bool_decide (o_oauth_token o <> None)) (owners db))))).

Inductive InvalidLicenseReason : Set :=
  | invalid | no_license | unknown | expired | demo_mode | url_mismatch | users_exceeded | repos_exceeded.
#[export] Instance InvalidLicenseReason_eq_dec : EqDecision InvalidLicenseReason.
Proof. solve_decision. Defined.

Section license.
Context `{Crypto}.
(** [json.loads] *)
Variable loads : string -> result pyval.

Definition load_raw_license_into_dict (raw_license : string) : result pyval :=
  text ← Standard.decode (EncryptorWithAlreadyGeneratedKey license_key) raw_license; loads text.

Definition number_of (license_dict : pyval) (k : string) : result (option Z) :=
  v ← dict_get license_dict k VNone;
  if truthy v then n ← py_int v; Ok (Some n) else Ok None.

Definition parse_license (raw_license : string) : result LicenseInformation :=
  match load_raw_license_into_dict raw_license with
  | Err e => if is_value_error e then Ok (invalid_license None) else Err e
  | Ok license_dict =>
      users ← number_of license_dict "users";
      repos ← number_of license_dict "repos";
      pr ← dict_get license_dict "pr_billing" VNone;
      url ← dict_get license_dict "url" VNone;
      e ← get_item license_dict "expires";
      expires ← match e with VStr s => strptime s | _ => Err TypeError end;
      trial ← dict_get license_dict "trial" VNone;
      Ok (mkLicense true trial None url users repos (Some expires) (truthy pr))
  end.

Definition get_current_license (st : Settings) : result LicenseInformation :=
  match enterprise_license st with
  | None => Ok (invalid_license (Some no_license_message))
  | Some raw => parse_license raw
  end.

(** ** [self_hosted/service.py] *)

Definition admin_owners (st : Settings) (db : Db) : list Owner :=
  let admins := omap (M := list) (fun a => match a with (Some s, Some u) => Some (s, u) | _ => None end) (setup_admins st) in
  rows (fun o => existsb (fun a => bool_decide (o_service o = a.1)
                                   && bool_decide (lower <$> o_username o = Some (lower a.2))) admins) (owners db).

Definition is_admin_owner (st : Settings) (db : Db) (owner : option Owner) : bool :=
  match owner with
  | Some o => existsb (fun x => o_ownerid x =? o_ownerid o) (admin_owners st db)
  | None => false
  end.

(** [activated_owners().count()] *)
Definition activated_owners (db : Db) : Z := count (fun o => bool_decide (o_ownerid o ∈ activated_ids db)) (owners db).

Definition is_activated_owner (db : Db) (owner : Owner) : bool :=
  exists_row (fun o => bool_decide (o_ownerid o ∈ activated_ids db) && (o_ownerid o =? o_ownerid owner)) (owners db).

Definition license_seats (st : Settings) : result Z :=
  l ← get_current_license st;
  Ok (if is_valid l then default 0 (number_allowed_users l) else 0).

Definition enterprise_has_seats_left (st : Settings) (db : Db) : result bool :=
  license_seat_count ← license_seats st;
  Ok (if license_seat_count =? 0 then false else activated_owners db <? license_seat_count).

Definition can_activate_owner (st : Settings) (db : Db) (owner : Owner) : result bool :=
  if is_activated_owner db owner then Ok true
  else seats ← license_seats st; Ok (activated_owners db <? seats).

(** [filter(pk__in=...).update(...)]; a null list is refused by the query. *)
Definition activate_owner (st : Settings) (db : Db) (owner : Owner) : result Db :=
  if negb (IS_ENTERPRISE st) then Err PlainException
  else
    can ← can_activate_owner st db owner;
    if negb can then Err LicenseException
    else match o_organizations owner with
         | None => Err ValueError
         | Some orgs =>
             Ok (set_owners ((fun o =>
               if bool_decide (o_ownerid o ∈ orgs)
               then set_plan_activated_users (array_append_unique (o_plan_activated_users o) (o_ownerid owner)) o
               else o) <$> owners db) db)
         end.

Definition array_remove (l : option (list Z)) (x : Z) : option (list Z) :=
  List.filter (fun y => negb (y =? x)) <$> l.

Definition deactivate_owner (st : Settings) (db : Db) (owner : Owner) : result Db :=
  if negb (IS_ENTERPRISE st) then Err PlainException
  else Ok (set_owners ((fun o =>
         if in_list (o_ownerid owner) (o_plan_activated_users o)
         then set_plan_activated_users (array_remove (o_plan_activated_users o) (o_ownerid owner)) o
         else o) <$> owners db) db).

Definition enable_autoactivation (db : Db) : Db :=
  set_owners (set_plan_auto_activate (Some true) <$> owners db) db.
Definition disable_autoactivation (db : Db) : Db :=
  set_owners (set_plan_auto_activate (Some false) <$> owners db) db.
Definition is_autoactivation_enabled (db : Db) : bool :=
  exists_row (fun o => bool_decide (o_plan_auto_activate o = Some true)) (owners db).

(** ** [apps/worker/services/license.py] *)

Definition requires_license (st : Settings) : bool := IS_ENTERPRISE st.

Definition get_installation_plan_activated_users (db : Db) : list Z := [Z.of_nat (size (activated_ids db))].

Definition repos_with_updates (db : Db) : Z :=
  count (fun r => bool_decide (r_updatestamp r <> None)) (repositories db).

Definition calculate_reason_for_not_being_valid (st : Settings) (now : Z) (db : Db) : result (option InvalidLicenseReason) :=
  l ← get_current_license st;
  Ok (
    if negb (is_valid l) then Some invalid
    else if truthy (url l) && negb (bool_decide (url l = match codecov_url st with Some s => VStr s | None => VNone end))
    then Some url_mismatch
    else if given_int (number_allowed_users l)
         && existsb (fun n => default 0 (number_allowed_users l) <? n)
              (if is_pr_billing l then get_installation_plan_activated_users db else token_counts db)
    then Some users_exceeded
    else if given_int (number_allowed_repos l) && (default 0 (number_allowed_repos l) <? repos_with_updates db)
    then Some repos_exceeded
    else match expires l with
         | Some e => if e <? now then Some expired else None
         | None => None
         end).

Definition has_valid_license (st : Settings) (now : Z) (db : Db) : result bool :=
  r ← calculate_reason_for_not_being_valid st now db; Ok (bool_decide (r = None)).
Definition is_properly_licensed (st : Settings) (now : Z) (db : Db) : result bool :=
  if negb (requires_license st) then Ok true else has_valid_license st now db.
End license.

#[local] Open Scope string_scope.
#[local] Open Scope list_scope.
#[local] Open Scope Z_scope.

(** [cached_plan] is the value of the cached property once it was read. *)
Record PlanService : Type := mkPlanService {
  current_org : Owner; _plan_data : option Plan; cached_plan : option Plan;
}.

Record UserMeasurement : Type := mkMeasurement {
  um_owner_id : Z; um_private_repo : bool; um_created_at : Z; um_is_coverage : bool;
}.

Module PlanServiceOps.
Section plans.
Context `{Crypto}.
Variable loads : string -> result pyval.
Variable st : Settings.

Definition is_sentry_user (owner : Owner) : bool := bool_decide (o_sentry_user_id owner <> None).

Definition plan_exists (db : Db) (name : option string) : bool := negb (bool_decide (plan_named db name = [])).

Definition init (db : Db) (org : Owner) : result (Db * PlanService) :=
  '(db, org) ← (if bool_decide (o_service org = "gitlab") && given_text (o_parent_service_id org) then
                  '(db, _, root) ← OwnerOps.root_organization db org;
                  match root with Some root => Ok (db, root) | None => Err AttributeError end
                else Ok (db, org));
  if negb (plan_exists db (o_plan org)) then Err ValueError
  else Ok (db, mkPlanService org None None).

(** The object is changed and saved. *)
Definition save_org (db : Db) (s : PlanService) (org : Owner) : Db * PlanService :=
  (AccountOps.save_owner db org, mkPlanService org (_plan_data s) (cached_plan s)).

Definition update_plan (db : Db) (s : PlanService) (name : string) (user_count : option Z) : result (Db * PlanService) :=
  if negb (plan_exists db (Some name)) then Err ValueError
  else if negb (given_int user_count) then Err ValueError
  else
    p ← get_one (plan_named db (Some name));
    let org := set_delinquent (Some false) (set_plan_user_count user_count (set_plan (Some name) (current_org s))) in
    Ok (save_org db (mkPlanService (current_org s) (Some p) (cached_plan s)) org).

Definition set_default_plan_data (db : Db) (s : PlanService) : Db * PlanService :=
  save_org db s
    (set_stripe_subscription_id None (set_plan_user_count (Some 1) (set_plan_activated_users None
      (set_plan (Some (DEFAULT_FREE_PLAN st)) (current_org s))))).

Definition has_account (s : PlanService) : bool := bool_decide (o_account (current_org s) <> None).

Definition plan_data (db : Db) (s : PlanService) : result (Plan * PlanService) :=
  match cached_plan s with
  | Some p => Ok (p, s)
  | None =>
      p ← match _plan_data s with
          | Some p => Ok p
          | None =>
              name ← match o_account (current_org s) with
                     | Some a => acc ← get_by_pk a (accounts db); Ok (Some (a_plan acc))
                     | None => Ok (o_plan (current_org s))
                     end;
              get_one (plan_named db name)
          end;
      Ok (p, mkPlanService (current_org s) (Some p) (Some p))
  end.

(** The properties that are a field of the plan. *)
Definition of_plan {A} (f : Plan -> A) (db : Db) (s : PlanService) : result (A * PlanService) :=
  '(p, s) ← plan_data db s; Ok (f p, s).
Definition plan_name := of_plan p_name.
Definition marketing_name := of_plan p_marketing_name.
Definition billing_rate := of_plan p_billing_rate.
Definition base_unit_price := of_plan p_base_unit_price.
Definition benefits := of_plan p_benefits.
Definition monthly_uploads_limit := of_plan p_monthly_uploads_limit.
Definition plan_tier_name := of_plan (fun p => tier_name (p_tier p)).
Definition is_enterprise_plan := of_plan PlanOps.is_enterprise_plan.
Definition is_pro_plan := of_plan PlanOps.is_pro_plan.
Definition is_sentry_plan := of_plan PlanOps.is_sentry_plan.
Definition is_team_plan := of_plan PlanOps.is_team_plan.
Definition is_trial_plan := of_plan PlanOps.is_trial_plan.

Definition plan_user_count (db : Db) (s : PlanService) : result Z :=
  if given_text (enterprise_license st) then license_seats loads st
  else match o_account (current_org s) with
       | Some a => acc ← get_by_pk a (accounts db); Ok (AccountOps.total_seat_count acc)
       | None => Ok (OwnerOps.total_seat_count (current_org s))
       end.

Definition free_seat_count (db : Db) (s : PlanService) : result Z :=
  match o_account (current_org s) with
  | Some a => acc ← get_by_pk a (accounts db); Ok (a_free_seat_count acc)
  | None => Ok (o_free (current_org s))
  end.

Definition plan_activated_users (s : PlanService) : option (list Z) := o_plan_activated_users (current_org s).

Definition int_or_1 (o : option Z) : Z := if given_int o then default 1 o else 1.
Definition pretrial_users_count (s : PlanService) : Z := int_or_1 (o_pretrial_users_count (current_org s)).

(** The set of plans, as the rows of the table that are in it. *)
Definition available_plans (db : Db) (s : PlanService) (owner : Owner) : result (list Plan * PlanService) :=
  d ← get_one (plan_named db (Some (DEFAULT_FREE_PLAN st)));
  '(curr_plan, s) ← plan_data db s;
  free ← (if given_list (plan_activated_users s) then free_seat_count db s else Ok 0);
  let sentry := is_sentry_user owner || PlanOps.is_sentry_plan curr_plan in
  let team := negb (given_list (plan_activated_users s))
              || (Z.of_nat (length (default [] (plan_activated_users s))) <=? TEAM_PLAN_MAX_USERS + free) in
  let available_tiers := [PRO] ++ (if sentry then [SENTRY] else []) ++ (if team then [TEAM] else []) in
  Ok (List.filter (fun p =>
        bool_decide (p_name p = p_name d)
        || (negb (p_paid_plan curr_plan) && bool_decide (p_name p = p_name curr_plan))
        || (bool_decide (tier_name (p_tier p) ∈ available_tiers) && p_is_active p)) (plans db), s).

Definition trial_status (s : PlanService) : option TrialStatus := o_trial_status (current_org s).
Definition trial_start_date (s : PlanService) : option Z := o_trial_start_date (current_org s).
Definition trial_end_date (s : PlanService) : option Z := o_trial_end_date (current_org s).
Definition trial_total_days : Z := TRIAL_DAYS.
Definition has_trial_dates (s : PlanService) : bool :=
  bool_decide (trial_start_date s <> None) && bool_decide (trial_end_date s <> None).

Definition _start_trial_helper (db : Db) (s : PlanService) (now : Z) (current_owner : Owner)
    (end_date : option Z) (is_extension : bool) : Db * PlanService :=
  let org := current_org s in
  let org :=
    if is_extension then org
    else set_plan_auto_activate (Some true) (set_plan_user_count (Some TRIAL_PLAN_SEATS)
           (set_pretrial_users_count (o_plan_user_count org) (set_plan (Some PlanName.TRIAL_PLAN_NAME)
             (set_trial_status (Some ONGOING) (set_trial_start_date (Some now) org))))) in
  let org := set_trial_end_date (Some (default (now + days TRIAL_DAYS) end_date)) org in
  save_org db s (set_trial_fired_by (Some (o_ownerid current_owner)) org).

Definition start_trial (db : Db) (s : PlanService) (now : Z) (current_owner : Owner) : result (Db * PlanService) :=
  if negb (bool_decide (trial_status s = Some NOT_STARTED)) then Err ValidationError
  else
    '(name, s) ← plan_name db s;
    if bool_decide (List.filter (fun p => negb (p_paid_plan p)) (plan_named db (Some name)) = []) then Err ValidationError
    else Ok (_start_trial_helper db s now current_owner None false).

Definition start_trial_manually (db : Db) (s : PlanService) (now : Z) (current_owner : Owner) (end_date : Z) :
    result (Db * PlanService) :=
  '(p, s) ← plan_data db s;
  if PlanOps.is_trial_plan p then Ok (_start_trial_helper db s now current_owner (Some end_date) true)
  else if negb (p_paid_plan p) then Ok (_start_trial_helper db s now current_owner (Some end_date) false)
  else Err ValidationError.

Definition is_org_trialing (db : Db) (s : PlanService) : result (bool * PlanService) :=
  if bool_decide (trial_status s = Some ONGOING) then
    '(name, s) ← plan_name db s; Ok (bool_decide (name = PlanName.TRIAL_PLAN_NAME), s)
  else Ok (false, s).

(** The end date and the status are saved with the default plan. *)
Definition cancel_trial (db : Db) (s : PlanService) (now : Z) : result (Db * PlanService) :=
  '(trialing, s) ← is_org_trialing db s;
  if negb trialing then Err ValidationError
  else
    let org := set_trial_end_date (Some now) (set_trial_status (Some EXPIRED) (current_org s)) in
    Ok (set_default_plan_data db (mkPlanService org (_plan_data s) (cached_plan s))).

Definition expire_trial_when_upgrading (db : Db) (s : PlanService) (now : Z) : Db * PlanService :=
  if bool_decide (trial_status s = Some EXPIRED) then (db, s)
  else if bool_decide (trial_status s = Some CANNOT_TRIAL) then (db, s)
  else
    let org := current_org s in
    save_org db s
      (set_trial_end_date (Some now) (set_plan_user_count (Some (int_or_1 (o_pretrial_users_count org)))
        (set_plan_activated_users None (set_trial_status (Some EXPIRED) org)))).

Definition has_seats_left (db : Db) (s : PlanService) : result bool :=
  if given_text (enterprise_license st) then enterprise_has_seats_left loads st db
  else match o_account (current_org s) with
       | Some a => acc ← get_by_pk a (accounts db); AccountOps.can_activate_user db acc None
       | None => n ← plan_user_count db s; Ok (OwnerOps.activated_user_count db (current_org s) <? n)
       end.

Definition is_free_plan (db : Db) (s : PlanService) : result (bool * PlanService) :=
  '(p, s) ← plan_data db s;
  if PlanOps.is_free_plan p then '(t, s) ← is_org_trialing db s; Ok (negb t, s) else Ok (false, s).

Definition is_pr_billing_plan (db : Db) (s : PlanService) : result (bool * PlanService) :=
  if negb (IS_ENTERPRISE st) then
    '(name, s) ← plan_name db s;
    Ok (negb (bool_decide (name ∈ [PlanName.CODECOV_PRO_MONTHLY_LEGACY; PlanName.CODECOV_PRO_YEARLY_LEGACY])), s)
  else l ← get_current_license loads st; Ok (is_pr_billing l, s).

(** ** [upload/utils.py]: the uploads of the last thirty days, those made
    during an expired trial apart, up to the limit of the plan. *)
Definition counted (s : PlanService) (now : Z) (m : UserMeasurement) : bool :=
  (um_owner_id m =? o_ownerid (current_org s)) && um_private_repo m && (now - days 30 <=? um_created_at m)
  && um_is_coverage m
  && (if bool_decide (trial_status s = Some EXPIRED) && has_trial_dates s
      then (default 0 (trial_end_date s) <=? um_created_at m) || (um_created_at m <=? default 0 (trial_start_date s))
      else true).

Definition query_monthly_coverage_measurements (db : Db) (s : PlanService) (now : Z) (measurements : list UserMeasurement) :
    result (Z * PlanService) :=
  '(limit, s) ← monthly_uploads_limit db s;
  let n := Z.of_nat (length (List.filter (counted s now) measurements)) in
  Ok (match limit with Some l => n `min` l | None => n end, s).

(** ** [apps/codecov-api/upload]: throttles *)

Definition _determine_responsible_owner (db : Db) (author : Owner) : result Owner :=
  if bool_decide (o_service author = "gitlab") then OwnerOps.climb (S (size (owners db))) db author else Ok author.

(** [ObjectDoesNotExist] and [ValidationError] let the request through. *)
Definition let_through (r : result bool) : result bool :=
  match r with
  | Err DoesNotExist | Err ValidationError => Ok true
  | _ => r
  end.

(** [UploadsPerCommitThrottle]: the number of the commit's own sessions that did
    not fail. *)
Definition uploads_per_commit_allowed (author : Owner) (new_session_count : Z) : bool :=
  let max_upload_limit := if given_int (o_max_upload_limit author) then default 150 (o_max_upload_limit author) else 150 in
  negb (max_upload_limit <? new_session_count).

(** [UploadsPerWindowThrottle.allow_request]; [started] says that the commit has
    a session already. *)
Definition uploads_per_window_allowed (db : Db) (r : Repository) (started : bool) (now : Z)
    (measurements : list UserMeasurement) : result bool :=
  let_through (
    if upload_throttling_enabled st && OwnerOps.is_true (r_private r) then
      author ← get_by_pk (r_author r) (owners db);
      owner ← _determine_responsible_owner db author;
      '(db, s) ← init db owner;
      '(limit, s) ← monthly_uploads_limit db s;
      match limit with
      | None => Ok true
      | Some limit =>
          if started then Ok true
          else '(used, s) ← query_monthly_coverage_measurements db s now measurements; Ok (negb (limit <=? used))
      end
    else Ok true).

(** ** The tasks [trial_expiration_cron.py] and [trial_expiration.py] *)

Definition should_be_expired (now : Z) (o : Owner) : bool :=
  bool_decide (o_plan o = Some PlanName.TRIAL_PLAN_NAME) && bool_decide (o_trial_status o = Some ONGOING)
  && match o_trial_end_date o with Some e => e <=? now | None => false end.

Definition run_cron_task (db : Db) (now : Z) : list Z :=
  map o_ownerid (rows (should_be_expired now) (owners db)).

Definition trial_expiration_task (db : Db) (now ownerid : Z) : result Db :=
  owner ← get_by_pk ownerid (owners db);
  '(db, s) ← init db owner;
  '(db, s) ← cancel_trial db s now;
  Ok db.
End plans.
End PlanServiceOps.
