(* ===== verification/Seats.v ===== *)
(** * Seats: who has to be activated, and activation

    [apps/worker/services/decoration.py], [seats.py] and [activation.py],
    [tasks/activate_account_user.py] and [new_user_activated.py];
    [apps/codecov-api/services/activation.py], whose two activators are the
    instances of a class. *)
From S2P Require Export Plans.
#[local] Open Scope string_scope.
#[local] Open Scope list_scope.
#[local] Open Scope Z_scope.

(** ** [decoration.py] *)

Inductive Decoration : Set :=
  | standard | upgrade | upload_limit | passing_empty_upload | failing_empty_upload | processing_upload.
#[export] Instance Decoration_eq_dec : EqDecision Decoration.
Proof. solve_decision. Defined.

Record DecorationDetails : Type := mkDetails {
  decoration_type : Decoration; decoration_reason : string; should_attempt_author_auto_activation : bool;
  activation_org_ownerid : option Z; activation_author_ownerid : option Z;
}.
Definition plain_details (d : Decoration) (reason : string) : DecorationDetails := mkDetails d reason false None None.

(** [EnrichedPull]: the repository of the pull and what the provider says of it. *)
Record EnrichedPull : Type := mkPull { pull_repository : Repository; provider_pull : option pyval }.

Definition BOT_USER_EMAILS : list string := [
  "dependabot[bot]@users.noreply.github.com";
  "49699333+dependabot[bot]@users.noreply.github.com";
  "29139614+renovate[bot]@users.noreply.github.com";
  "157164994+sentry-autofix[bot]@users.noreply.github.com";
  "198982749+Copilot@users.noreply.github.com"].
Definition BOT_USER_IDS : list string := ["49699333"; "29139614"; "157164994"; "198982749"].

Definition _is_bot_account (author : Owner) : bool :=
  existsb (fun e => bool_decide (o_email author = Some e)) BOT_USER_EMAILS
  || existsb (fun i => bool_decide (o_service_id author = i)) BOT_USER_IDS.

(** The author of a pull among the owners of the service; a query for null
    finds nothing. *)
Definition find_author (db : Db) (service : string) (id : pyval) : result (option Owner) :=
  match id with
  | VStr i => Ok (head (rows (fun o => bool_decide (o_service o = service) && bool_decide (o_service_id o = i)) (owners db)))
  | VNone => Ok None
  | _ => Err Unmodelled
  end.

(** ** [seats.py] *)

Inductive ShouldActivateSeat : Set := NO_ACTIVATE | MANUAL_ACTIVATE | AUTO_ACTIVATE.
#[export] Instance ShouldActivateSeat_eq_dec : EqDecision ShouldActivateSeat.
Proof. solve_decision. Defined.

Record SeatActivationInfo : Type := mkSeat {
  should_activate_seat : ShouldActivateSeat; seat_owner_id : option Z; seat_author_id : option Z; seat_reason : string;
}.
Definition no_activate (reason : string) : SeatActivationInfo := mkSeat NO_ACTIVATE None None reason.

(** A task that is put on the queue. *)
Inductive celery_task : Type :=
  | new_user_activated_task (org_ownerid user_ownerid : Z)
  | activate_account_user_task (user_ownerid org_ownerid : Z)
  | notify_task (repoid : Z) (commitid : string).

Section seats.
Context `{Crypto}.
Variable loads : string -> result pyval.
Variable st : Settings.
Variable now : Z.


Definition determine_uploads_used (db : Db) (s : PlanService) (ms : list UserMeasurement) : result (Z * PlanService) :=
  if negb (upload_throttling_enabled st) then Ok (0, s)
  else PlanServiceOps.query_monthly_coverage_measurements db s now ms.

Definition over_the_limit (db : Db) (s : PlanService) (ms : list UserMeasurement) : result (bool * PlanService) :=
  '(limit, s) ← PlanServiceOps.monthly_uploads_limit db s;
  match limit with
  | None => Ok (false, s)
  | Some l => '(used, s) ← determine_uploads_used db s ms; Ok ((l <=? used) && negb (requires_license st), s)
  end.

Definition determine_decoration_details (db : Db) (ms : list UserMeasurement) (pull : option EnrichedPull)
    (empty_upload : option string) : result (Db * DecorationDetails) :=
  match pull with
  | None => Ok (db, plain_details standard "No pull")
  | Some pull =>
      let provider := default VNone (provider_pull pull) in
      if negb (truthy provider) then Ok (db, plain_details standard "Can't determine PR author - no pull info from provider")
      else if bool_decide (empty_upload = Some "pass") then
        Ok (db, plain_details passing_empty_upload "Non testable files got changed.")
      else if bool_decide (empty_upload = Some "fail") then
        Ok (db, plain_details failing_empty_upload "Testable files got changed.")
      else if bool_decide (empty_upload = Some "processing") then
        Ok (db, plain_details processing_upload "Upload is still processing.")
      else if bool_decide (r_private (pull_repository pull) = Some false) then
        Ok (db, plain_details standard "Public repo")
      else
        org ← get_by_pk (r_author (pull_repository pull)) (owners db);
        '(db, s) ← PlanServiceOps.init db org;
        let org := current_org s in
        '(pr, s) ← PlanServiceOps.is_pr_billing_plan loads st db s;
        if negb pr then Ok (db, plain_details standard "Org not on PR plan")
        else
          author ← get_item provider "author"; id ← get_item author "id";
          pr_author ← find_author db (o_service org) id;
          match pr_author with
          | None => Ok (db, plain_details upgrade "PR author not found in database")
          | Some pr_author =>
              '(over, s) ← over_the_limit db s ms;
              if over : bool then Ok (db, plain_details upload_limit "Org has exceeded the upload limit")
              else if in_list (o_ownerid pr_author) (o_plan_activated_users org) then
                Ok (db, plain_details standard "User is currently activated")
              else if _is_bot_account pr_author then
                Ok (db, plain_details standard "Bot user detected (does not need to be activated)")
              else if negb (OwnerOps.is_true (o_plan_auto_activate org)) then
                Ok (db, plain_details upgrade "User must be manually activated")
              else Ok (db, mkDetails upgrade "User must be activated" true
                             (Some (o_ownerid org)) (Some (o_ownerid pr_author)))
          end
  end.

(** [provider_pull.get("author", {}).get("id")] *)
Definition author_id (provider : pyval) : result pyval :=
  author ← dict_get provider "author" (VDict []); dict_get author "id" VNone.

Definition determine_seat_activation (db : Db) (pull : EnrichedPull) : result (Db * SeatActivationInfo) :=
  match provider_pull pull with
  | None => Ok (db, no_activate "no_provider_pull")
  | Some provider =>
      if bool_decide (r_private (pull_repository pull) = Some false) then Ok (db, no_activate "public_repo")
      else
        org ← get_by_pk (r_author (pull_repository pull)) (owners db);
        '(db, s) ← PlanServiceOps.init db org;
        let org := current_org s in
        '(pr, s) ← PlanServiceOps.is_pr_billing_plan loads st db s;
        if negb pr then Ok (db, no_activate "no_pr_billing_plan")
        else
          id ← author_id provider;
          pr_author ← find_author db (o_service org) id;
          match pr_author with
          | None => Ok (db, no_activate "no_pr_author")
          | Some pr_author =>
              if in_list (o_ownerid pr_author) (o_plan_activated_users org) then
                Ok (db, no_activate "author_in_plan_activated_users")
              else if _is_bot_account pr_author then Ok (db, no_activate "is_bot_account")
              else if negb (OwnerOps.is_true (o_plan_auto_activate org)) then
                Ok (db, mkSeat MANUAL_ACTIVATE (Some (o_ownerid org)) (Some (o_ownerid pr_author)) "manual_activate")
              else Ok (db, mkSeat AUTO_ACTIVATE (Some (o_ownerid org)) (Some (o_ownerid pr_author)) "auto_activate")
          end
  end.

(** ** [activation.py] *)

(** The SQL function [try_to_auto_activate] of [get_ownerid.py]: null when the
    organization has no list, or no row. *)
Definition try_to_auto_activate (db : Db) (org user : Z) : Db * option bool :=
  match owners db !! org with
  | None => (db, None)
  | Some o =>
      let l := o_plan_activated_users o in
      let has_credits := match o_plan_user_count o with
                         | Some n => Z.of_nat (length (default [] l)) <? n
                         | None => false
                         end in
      let l := if has_credits then array_append_unique l user else l in
      (set_owners (<[org := set_plan_activated_users l o]> (owners db)) db,
       (fun l => bool_decide (user ∈ l)) <$> l)
  end.

Definition all_below (counts : list Z) (limit : option Z) : result bool :=
  match limit with
  | Some n => Ok (forallb (fun c => c <? n) counts)
  | None => if bool_decide (counts = []) then Ok true else Err TypeError
  end.

(** The update of the license's branch returns one row, or the unpacking fails. *)
Definition append_activated (db : Db) (org user : Z) : result Db :=
  match owners db !! org with
  | None => Err ValueError
  | Some o =>
      Ok (set_owners (<[org := set_plan_activated_users (array_append_unique (o_plan_activated_users o) user) o]>
            (owners db)) db)
  end.

Definition activate_user (db : Db) (org_ownerid user_ownerid : Z) : result (Db * bool) :=
  if requires_license st then
    license_status ← calculate_reason_for_not_being_valid loads st now db;
    match license_status with
    | Some _ => Ok (db, false)
    | None =>
        this_license ← get_current_license loads st;
        can_activate ← all_below (get_installation_plan_activated_users db) (number_allowed_users this_license);
        if can_activate : bool then db ← append_activated db org_ownerid user_ownerid; Ok (db, true)
        else Ok (db, false)
    end
  else
    let '(db, r) := try_to_auto_activate db org_ownerid user_ownerid in
    Ok (db, bool_decide (r = Some true)).

Definition schedule_new_user_activated_task (org user : Z) : list celery_task :=
  [new_user_activated_task org user; activate_account_user_task user org].

(** Whether to show the upgrade message, and the tasks that are scheduled. *)
Definition check_seat_activation (db : Db) (pull : EnrichedPull) : result (Db * bool * list celery_task) :=
  '(db, info) ← determine_seat_activation db pull;
  match should_activate_seat info with
  | AUTO_ACTIVATE =>
      if negb (given_int (seat_owner_id info)) || negb (given_int (seat_author_id info)) then Err AssertionError
      else
        let org := default 0 (seat_owner_id info) in
        let user := default 0 (seat_author_id info) in
        '(db, successful_activation) ← activate_user db org user;
        if successful_activation : bool then Ok (db, false, schedule_new_user_activated_task org user)
        else Ok (db, true, [])
  | MANUAL_ACTIVATE => Ok (db, true, [])
  | NO_ACTIVATE => Ok (db, false, [])
  end.

(** ** [activate_account_user.py] *)

Definition activate_account_user (db : Db) (user_ownerid org_ownerid : Z) : result Db :=
  owner_user ← get_by_pk user_ownerid (owners db);
  org_owner ← get_by_pk org_ownerid (owners db);
  match o_account org_owner with
  | None => Ok db
  | Some a =>
      account ← get_by_pk a (accounts db);
      can ← AccountOps.can_activate_user db account (o_user owner_user);
      if can : bool then Ok (AccountOps.activate_owner_user_onto_account db account owner_user).1 else Ok db
  end.

(** ** [new_user_activated.py] *)

(** An open pull of the author, with the decorations of the notifications of its
    head; [None] when there is none. *)
Record PullRow : Type := mkPullRow {
  pr_repoid : Z; pr_pullid : Z; pr_head : string; pr_repo_ownerid : Z; pr_author : option Z; pr_open : bool;
  pr_updatestamp : option Z; pr_notifications : list Decoration;
}.

Definition is_org_on_pr_plan (db : Db) (ownerid : Z) : result (Db * bool) :=
  match owners db !! ownerid with
  | None => Ok (db, false)
  | Some owner =>
      '(db, s) ← PlanServiceOps.init db owner;
      '(pr, s) ← PlanServiceOps.is_pr_billing_plan loads st db s; Ok (db, pr)
  end.

Definition authored (org_ownerid user_ownerid : Z) (p : PullRow) : bool :=
  match pr_updatestamp p with Some t => now - days 10 <? t | None => false end
  && (pr_repo_ownerid p =? org_ownerid) && bool_decide (pr_author p = Some user_ownerid) && pr_open p.

Definition new_user_activated (db : Db) (pulls : list PullRow) (org_ownerid user_ownerid : Z) :
    result (Db * list celery_task * option string) :=
  '(db, pr) ← is_org_on_pr_plan db org_ownerid;
  if negb pr then Ok (db, [], Some "org not on pr author billing plan")
  else
    let notified := List.filter (fun p => existsb (fun d => bool_decide (d = upgrade)) (pr_notifications p))
                      (List.filter (authored org_ownerid user_ownerid) pulls) in
    Ok (db, map (fun p => notify_task (pr_repoid p) (pr_head p)) notified,
        if bool_decide (notified = []) then Some "no pulls/pull notifications met criteria" else None).
End seats.

(** ** [apps/codecov-api/services/activation.py] *)

Class BaseActivator (A : Type) : Type := {
  is_autoactivation_enabled : Db -> A -> bool;
  can_activate_user : Db -> A -> result bool;
  activator_activate : Db -> A -> result Db;
  activator_is_activated : Db -> A -> bool;
}.

Record CloudActivator : Type := mkCloud { cloud_org : Owner; cloud_owner : Owner }.
#[export] Instance cloud_activator : BaseActivator CloudActivator := {
  is_autoactivation_enabled _ a := OwnerOps.is_true (o_plan_auto_activate (cloud_org a));
  can_activate_user db a := OwnerOps.can_activate_user db (cloud_org a) (cloud_owner a);
  activator_activate db a :=
    '(db, _, _) ← OwnerOps.activate_user db (cloud_org a) (cloud_owner a); Ok db;
  activator_is_activated _ a := in_list (o_ownerid (cloud_owner a)) (o_plan_activated_users (cloud_org a));
}.

(** The license and the settings are those of the installation. *)
Record SelfHostedActivator : Type := mkSelfHosted {
  sh_crypto : Crypto; sh_loads : string -> result pyval; sh_settings : Settings; sh_owner : Owner;
}.
#[export] Instance self_hosted_activator : BaseActivator SelfHostedActivator := {
  is_autoactivation_enabled db _ := Plans.is_autoactivation_enabled db;
  can_activate_user db a :=
    can_activate_owner (H := sh_crypto a) (sh_loads a) (sh_settings a) db (sh_owner a);
  activator_activate db a :=
    activate_owner (H := sh_crypto a) (sh_loads a) (sh_settings a) db (sh_owner a);
  activator_is_activated db a := is_activated_owner db (sh_owner a);
}.

Definition try_auto_activate `{BaseActivator A} (db : Db) (activator : A) : result (Db * bool) :=
  if is_autoactivation_enabled db activator then
    can ← can_activate_user db activator;
    if can : bool then db ← activator_activate db activator; Ok (db, true) else Ok (db, false)
  else Ok (db, false).

(** [_get_activator] *)
Definition get_activator_and {R} (C : Crypto) (loads : string -> result pyval) (st : Settings) (org owner : Owner)
    (f : forall A, BaseActivator A -> A -> R) : R :=
  if IS_ENTERPRISE st then f _ self_hosted_activator (mkSelfHosted C loads st owner)
  else f _ cloud_activator (mkCloud org owner).
