(* ===== verification/SeatsSpec.v ===== *)
(** * What seats and plans promise

    Activation keeps the seats within the license of an installation and within
    the plan of an organization or its account; a pull is decorated and its
    author activated by the same decision; a trial is started once and is ended
    by the task that the cron job queues. *)
From S2P Require Export Seats.

#[local] Open Scope string_scope.
#[local] Open Scope list_scope.
#[local] Open Scope Z_scope.

(** ** Rows and counts *)

Lemma elem_of_rows {A} (f : A -> bool) (m : gmap Z A) x :
  x ∈ rows f m <-> f x = true /\ exists k, m !! k = Some x.
Proof.
  unfold rows. rewrite list_elem_of_In, filter_In, in_map_iff. split.
  - intros [([k y] & <- & Hin) Hf]. split; [done|]. exists k.
    by apply elem_of_map_to_list, list_elem_of_In.
  - intros [Hf [k Hk]]. split; [|done]. exists (k, x). split; [done|].
    by apply list_elem_of_In, elem_of_map_to_list.
Qed.

Lemma count_dom {A} (f : A -> bool) (m : gmap Z A) :
  count f m = Z.of_nat (size (dom (filter (fun kv => f kv.2 = true) m) : gset Z)).
Proof. unfold count. by rewrite size_dom. Qed.

Lemma elem_of_count_dom {A} (f : A -> bool) (m : gmap Z A) k :
  k ∈ (dom (filter (fun kv => f kv.2 = true) m) : gset Z) <-> exists x, m !! k = Some x /\ f x = true.
Proof.
  rewrite elem_of_dom. split.
  - intros [x Hx%map_lookup_filter_Some]. exists x. naive_solver.
  - intros (x & Hk & Hf). exists x. by apply map_lookup_filter_Some.
Qed.

(** A count grows by at most one when one key alone can be new. *)
Lemma count_le {A} (f g : A -> bool) (m m' : gmap Z A) :
  (forall k x, m' !! k = Some x -> g x = true -> exists y, m !! k = Some y /\ f y = true) ->
  count g m' <= count f m.
Proof.
  intros Hg. rewrite !count_dom. apply inj_le, subseteq_size. intros k.
  rewrite !elem_of_count_dom. naive_solver.
Qed.

Lemma count_le_S {A} (f g : A -> bool) (m m' : gmap Z A) u :
  (forall k x, m' !! k = Some x -> g x = true -> k <> u -> exists y, m !! k = Some y /\ f y = true) ->
  count g m' <= count f m + 1.
Proof.
  intros Hg. rewrite !count_dom.
  set (D := dom (filter (fun kv => f kv.2 = true) m) : gset Z).
  assert (Hsub : (dom (filter (fun kv => g kv.2 = true) m') : gset Z) ⊆ D ∪ {[u]}).
  { intros k. rewrite elem_of_union, elem_of_singleton. unfold D. rewrite !elem_of_count_dom.
    intros (x & Hk & Hx). destruct (decide (k = u)); naive_solver. }
  apply subseteq_size in Hsub. pose proof (size_union_alt D {[u]}) as Hu.
  assert (size ({[u]} ∖ D) <= 1)%nat.
  { etrans; [apply subseteq_size, subseteq_difference_l; reflexivity|]. by rewrite size_singleton. }
  lia.
Qed.

(** ** The license of an installation *)

Lemma elem_of_activated_ids db x :
  x ∈ activated_ids db <-> exists k o, owners db !! k = Some o /\ x ∈ default [] (o_plan_activated_users o).
Proof.
  unfold activated_ids. rewrite elem_of_list_to_set, list_elem_of_In, in_concat. split.
  - intros (l & Hl & Hx). apply in_map_iff in Hl as (o & <- & Ho).
    apply list_elem_of_In, elem_of_rows in Ho as [_ [k Hk]]. exists k, o. split; [done|].
    by apply list_elem_of_In.
  - intros (k & o & Hk & Hx). exists (default [] (o_plan_activated_users o)). split; [|by apply list_elem_of_In].
    apply in_map_iff. exists o. split; [done|]. apply list_elem_of_In, elem_of_rows. eauto.
Qed.

(** The rows are under their keys, and activated users are owners. *)
Definition keyed (db : Db) : Prop := forall k o, owners db !! k = Some o -> o_ownerid o = k.
Definition known (db : Db) : Prop := forall x, x ∈ activated_ids db -> is_Some (owners db !! x).
Definition seats_taken (db : Db) : Z := Z.of_nat (size (activated_ids db)).

Lemma activated_owners_taken db : keyed db -> known db -> activated_owners db = seats_taken db.
Proof.
  intros Hkey Hknown. unfold activated_owners, seats_taken.
  set (f := fun o : Owner => bool_decide (o_ownerid o ∈ activated_ids db)).
  rewrite (count_dom f). do 2 f_equal. apply set_eq. intros x. rewrite (elem_of_count_dom f). split.
  - intros (o & Ho & Hin). apply bool_decide_eq_true in Hin. by rewrite (Hkey _ _ Ho) in Hin.
  - intros Hx. destruct (Hknown x Hx) as [o Ho]. exists o. split; [done|].
    apply bool_decide_eq_true. by rewrite (Hkey _ _ Ho).
Qed.

Lemma seats_taken_le db db' : activated_ids db' ⊆ activated_ids db -> seats_taken db' <= seats_taken db.
Proof. intros Hsub. by apply inj_le, subseteq_size. Qed.

Lemma seats_taken_le_S db db' u : activated_ids db' ⊆ activated_ids db ∪ {[u]} -> seats_taken db' <= seats_taken db + 1.
Proof.
  intros Hsub. apply subseteq_size in Hsub. rewrite size_union_alt in Hsub. unfold seats_taken.
  assert (size ({[u]} ∖ activated_ids db) <= 1)%nat; [|lia].
  etrans; [apply subseteq_size, subseteq_difference_l; reflexivity|]. by rewrite size_singleton.
Qed.

Lemma activated_ids_fmap db (g : Owner -> Owner) (u : Z) :
  (forall o x, x ∈ default [] (o_plan_activated_users (g o)) -> x ∈ default [] (o_plan_activated_users o) \/ x = u) ->
  activated_ids (set_owners (g <$> owners db) db) ⊆ activated_ids db ∪ {[u]}.
Proof.
  intros Hg x. rewrite elem_of_union, elem_of_singleton, !elem_of_activated_ids.
  intros (k & o & Hk & Hx). cbn in Hk. rewrite lookup_fmap in Hk.
  apply fmap_Some in Hk as (o0 & Hk & ->). destruct (Hg _ _ Hx); eauto.
Qed.

Lemma elem_of_append_unique l x y : y ∈ default [] (array_append_unique l x) -> y ∈ default [] l \/ y = x.
Proof.
  cbn. rewrite elem_of_app, list_elem_of_In, filter_In, <- list_elem_of_In, list_elem_of_singleton. tauto.
Qed.

Lemma elem_of_array_remove l x y : y ∈ default [] (array_remove l x) -> y ∈ default [] l.
Proof.
  unfold array_remove. destruct l as [l|]; cbn; [|done].
  rewrite list_elem_of_In, filter_In, <- list_elem_of_In. tauto.
Qed.

(** An update of the rows that keeps their keys. *)
Lemma keyed_fmap db (g : Owner -> Owner) :
  (forall o, o_ownerid (g o) = o_ownerid o) -> keyed db -> keyed (set_owners (g <$> owners db) db).
Proof.
  intros Hg Hkey k o Hk. cbn in Hk. rewrite lookup_fmap in Hk. apply fmap_Some in Hk as (o0 & Hk & ->).
  rewrite Hg. eauto.
Qed.

Lemma known_fmap db (g : Owner -> Owner) :
  (forall x, x ∈ activated_ids (set_owners (g <$> owners db) db) -> is_Some (owners db !! x)) ->
  known (set_owners (g <$> owners db) db).
Proof. intros H x Hx. cbn. rewrite lookup_fmap. destruct (H x Hx) as [o ->]. cbn. eauto. Qed.

Section installation.
Context `{Crypto}.
Variable loads : string -> result pyval.
Variable st : Settings.

(** What changes the activated users of a self-hosted installation under its license:
    the activation and deactivation of an owner from the API, auto-activation from
    the worker, and the setting of auto-activation; and the deactivations of the users
    endpoints and of webhooks, which only take users away. *)
Inductive installation_step : Db -> Db -> Prop :=
  | step_activate_owner db db' o :
      owners db !! o_ownerid o = Some o -> activate_owner loads st db o = Ok db' -> installation_step db db'
  | step_deactivate_owner db db' o : deactivate_owner st db o = Ok db' -> installation_step db db'
  | step_try_auto_activate db db' o b :
      owners db !! o_ownerid o = Some o ->
      try_auto_activate db (mkSelfHosted H loads st o) = Ok (db', b) -> installation_step db db'
  | step_worker_activate db db' now org user b :
      is_Some (owners db !! user) -> activate_user loads st now db org user = Ok (db', b) -> installation_step db db'
  | step_deactivate_user db db' org u org' :
      owners db !! o_ownerid org = Some org -> OwnerOps.deactivate_user db org u = Ok (db', org') -> installation_step db db'
  | step_enable db : installation_step db (enable_autoactivation db)
  | step_disable db : installation_step db (disable_autoactivation db).

(** The users endpoints ([api/public/v2/owner/views.py], [api/internal/owner/serializers.py])
    activate a user of an organization under its plan: the license is not looked at. *)
Definition endpoint_activation (db db' : Db) : Prop :=
  exists org u org' u', owners db !! o_ownerid org = Some org /\ owners db !! o_ownerid u = Some u /\
    OwnerOps.can_activate_user db org u = Ok true /\ OwnerOps.activate_user db org u = Ok (db', org', u').

(** A run of the installation, and the number of its activations by the users endpoints. *)
Inductive installation_run : Z -> Db -> Db -> Prop :=
  | run_refl db : installation_run 0 db db
  | run_licensed k db db1 db' : installation_step db db1 -> installation_run k db1 db' -> installation_run k db db'
  | run_endpoint k db db1 db' : endpoint_activation db db1 -> installation_run k db1 db' -> installation_run (k + 1) db db'.

Definition installation_inv (n : Z) (db : Db) : Prop := keyed db /\ known db /\ seats_taken db <= n.

Lemma installation_grow n (db : Db) (g : Owner -> Owner) u :
  (forall o, o_ownerid (g o) = o_ownerid o) ->
  (forall o x, x ∈ default [] (o_plan_activated_users (g o)) -> x ∈ default [] (o_plan_activated_users o) \/ x = u) ->
  (u ∈ activated_ids db \/ is_Some (owners db !! u) /\ seats_taken db < n) ->
  installation_inv n db -> installation_inv n (set_owners (g <$> owners db) db).
Proof.
  intros Hid Hg Hu (Hkey & Hknown & Hn).
  pose proof (activated_ids_fmap db g u Hg) as Hsub.
  repeat split; [by apply keyed_fmap| |].
  - apply known_fmap. intros x Hx. apply Hsub, elem_of_union in Hx as [Hx|Hx%elem_of_singleton]; [eauto|].
    subst x. destruct Hu as [Hu|[Hu _]]; eauto.
  - destruct Hu as [Hu|[_ Hu]].
    + etrans; [|exact Hn]. apply seats_taken_le. intros x Hx.
      apply Hsub, elem_of_union in Hx as [Hx|Hx%elem_of_singleton]; [done|]. by subst x.
    + apply seats_taken_le_S in Hsub. lia.
Qed.

Lemma installation_same n (db : Db) (g : Owner -> Owner) :
  (forall o, o_ownerid (g o) = o_ownerid o) ->
  (forall o x, x ∈ default [] (o_plan_activated_users (g o)) -> x ∈ default [] (o_plan_activated_users o)) ->
  installation_inv n db -> installation_inv n (set_owners (g <$> owners db) db).
Proof.
  intros Hid Hg (Hkey & Hknown & Hn).
  assert (Hsub : activated_ids (set_owners (g <$> owners db) db) ⊆ activated_ids db).
  { intros x. rewrite !elem_of_activated_ids. intros (k & o & Hk & Hx). cbn in Hk. rewrite lookup_fmap in Hk.
    apply fmap_Some in Hk as (o0 & Hk & ->). eauto. }
  repeat split; [by apply keyed_fmap|apply known_fmap; eauto|]. apply seats_taken_le in Hsub. lia.
Qed.

Lemma is_activated_owner_spec (db : Db) o :
  keyed db -> is_activated_owner db o = true -> o_ownerid o ∈ activated_ids db.
Proof.
  intros Hkey. unfold is_activated_owner, exists_row. rewrite negb_true_iff, Z.eqb_neq.
  set (f := fun x : Owner => bool_decide (o_ownerid x ∈ activated_ids db) && (o_ownerid x =? o_ownerid o)).
  rewrite (count_dom f). intros Hne.
  destruct (set_choose_or_empty (dom (filter (fun kv => f kv.2 = true) (owners db)) : gset Z)) as [[k Hk]|He].
  - apply elem_of_count_dom in Hk as (x & _ & Hx). unfold f in Hx.
    apply andb_true_iff in Hx as [Hin%bool_decide_eq_true Heq%Z.eqb_eq]. by rewrite <- Heq.
  - rewrite He, size_empty in Hne. done.
Qed.

Lemma activate_owner_inv n m (db db' : Db) o :
  license_seats loads st = Ok n -> n <= m -> owners db !! o_ownerid o = Some o ->
  activate_owner loads st db o = Ok db' -> installation_inv m db -> installation_inv m db'.
Proof.
  intros Hn Hm Ho Hact Hinv. unfold activate_owner in Hact.
  destruct (negb _); [done|]. inv_ok Hact.
  destruct v; cbn in Hrun0; [|done]. destruct (o_organizations o) as [orgs|]; [|done].
  injection Hrun0 as <-. apply (installation_grow m db _ (o_ownerid o)).
  - intros x. by case_bool_decide.
  - intros x y. case_bool_decide; cbn; [|tauto]. apply elem_of_append_unique.
  - unfold can_activate_owner in Hrun. destruct (is_activated_owner db o) eqn:Hact.
    + left. apply is_activated_owner_spec; [by destruct Hinv|done].
    + right. rewrite Hn in Hrun. cbn in Hrun. injection Hrun as Hlt%Z.ltb_lt.
      destruct Hinv as (Hkey & Hknown & _). rewrite activated_owners_taken in Hlt by done.
      split; [eauto | lia].
  - done.
Qed.

Lemma set_owners_insert (db : Db) org o (f : Owner -> Owner) :
  keyed db -> owners db !! org = Some o ->
  set_owners (<[org := f o]> (owners db)) db
  = set_owners ((fun x => if o_ownerid x =? org then f x else x) <$> owners db) db.
Proof.
  intros Hkey Ho. unfold set_owners. f_equal. apply map_eq. intros k. rewrite lookup_fmap.
  destruct (decide (k = org)) as [->|Hne].
  - rewrite lookup_insert_eq, Ho. cbn. by rewrite (Hkey _ _ Ho), Z.eqb_refl.
  - rewrite lookup_insert_ne by done. destruct (owners db !! k) as [x|] eqn:Hk; cbn; [|done].
    rewrite (Hkey _ _ Hk). by apply Z.eqb_neq in Hne as ->.
Qed.

Lemma worker_activate_inv n m now (db db' : Db) org user b :
  IS_ENTERPRISE st = true -> license_seats loads st = Ok n -> n <= m -> is_Some (owners db !! user) ->
  activate_user loads st now db org user = Ok (db', b) -> installation_inv m db -> installation_inv m db'.
Proof.
  intros He Hn Hm Hu Hact Hinv. unfold activate_user, requires_license in Hact. rewrite He in Hact.
  inv_ok Hact. destruct v as [reason|]; [by injection Hrun0 as <- _|].
  unfold license_seats in Hn. unfold calculate_reason_for_not_being_valid in Hrun.
  destruct (get_current_license loads st) as [l|] eqn:Hl; [|done]. cbn in Hrun, Hrun0, Hn.
  destruct (is_valid l); [|done]. cbn in Hn. injection Hn as <-.
  apply bind_Ok_inv in Hrun0 as (can & Hall & Hrun0). destruct can; [|by injection Hrun0 as <- _].
  unfold append_activated in Hrun0.
  destruct (owners db !! org) as [o|] eqn:Ho; [|done]. cbn in Hrun0. injection Hrun0 as <- _.
  rewrite (set_owners_insert db org o
    (fun o => set_plan_activated_users (array_append_unique (o_plan_activated_users o) user) o)) by (by destruct Hinv || done).
  apply (installation_grow m db _ user); [| | |done].
  - intros x. by destruct (o_ownerid x =? org).
  - intros x y. destruct (o_ownerid x =? org); [apply elem_of_append_unique | tauto].
  - right. split; [done|]. unfold get_installation_plan_activated_users, all_below in Hall.
    destruct (number_allowed_users l) as [seats|]; [|done]. injection Hall as Hlt. cbn in Hlt.
    rewrite andb_true_r in Hlt. eapply Z.lt_le_trans; [|exact Hm]. by apply Z.ltb_lt in Hlt.
Qed.

Lemma deactivate_owner_inv n (db db' : Db) o :
  deactivate_owner st db o = Ok db' -> installation_inv n db -> installation_inv n db'.
Proof.
  unfold deactivate_owner. destruct (negb _); [done|]. injection 1 as <-. apply installation_same.
  - intros x. by destruct (in_list _ _).
  - intros x y. destruct (in_list _ _); [apply elem_of_array_remove | done].
Qed.

(** Saving a row of the table. *)
Lemma save_owner_lookup db o k :
  owners (AccountOps.save_owner db o) !! k = if decide (k = o_ownerid o) then Some o else owners db !! k.
Proof. cbn. case_decide; subst; [apply lookup_insert_eq | by apply lookup_insert_ne]. Qed.

Lemma save_owner_ids db o x :
  x ∈ activated_ids (AccountOps.save_owner db o) -> x ∈ activated_ids db \/ x ∈ default [] (o_plan_activated_users o).
Proof.
  rewrite !elem_of_activated_ids. intros (k & o' & Hk & Hx). rewrite save_owner_lookup in Hk.
  case_decide; [injection Hk as <-; by right | left; eauto].
Qed.

Lemma save_owner_inv n m (db : Db) o :
  is_Some (owners db !! o_ownerid o) ->
  (forall x, x ∈ default [] (o_plan_activated_users o) -> x ∈ activated_ids db \/ is_Some (owners db !! x)) ->
  seats_taken (AccountOps.save_owner db o) <= m ->
  installation_inv n db -> installation_inv m (AccountOps.save_owner db o).
Proof.
  intros Ho Hx Hm (Hkey & Hknown & _). split_and!; [| |done].
  - intros k o' Hk. rewrite save_owner_lookup in Hk. case_decide; [by injection Hk as <- | by apply Hkey].
  - intros x Hin. rewrite save_owner_lookup. case_decide; [by eexists|].
    apply save_owner_ids in Hin as [Hin|Hin]; [by apply Hknown|]. destruct (Hx x Hin); auto.
Qed.

Lemma list_remove_elem x y l : y ∈ list_remove x l -> y ∈ l.
Proof. induction l as [|z l IH]; cbn; [done|]. destruct (z =? x); [by right|]. intros [->|?]%elem_of_cons; [left | right; auto]. Qed.

Lemma deactivate_user_inv n (db db' : Db) org u org' :
  owners db !! o_ownerid org = Some org -> OwnerOps.deactivate_user db org u = Ok (db', org') ->
  installation_inv n db -> installation_inv n db'.
Proof.
  intros Ho Hd Hinv. unfold OwnerOps.deactivate_user in Hd.
  set (o1 := set_plan_activated_users _ org) in Hd.
  assert (Hsub : forall x, x ∈ default [] (o_plan_activated_users o1) -> x ∈ activated_ids db).
  { intros x Hx. apply elem_of_activated_ids. exists (o_ownerid org), org. split; [done|]. subst o1. cbn in Hx.
    destruct (o_plan_activated_users org); cbn in *; [by eapply list_remove_elem | done]. }
  assert (H1 : installation_inv n (AccountOps.save_owner db o1)).
  { apply (save_owner_inv n n); [by eexists | auto | | done]. destruct Hinv as (_ & _ & Hn). etrans; [|exact Hn].
    apply seats_taken_le. intros x [?|?]%save_owner_ids; auto. }
  assert (Hdb : owners db' = owners (AccountOps.save_owner db o1)); [|unfold installation_inv, keyed, known, seats_taken, activated_ids in *; by rewrite Hdb].
  destruct (o_account o1), (o_user u); try (by injection Hd as <- _).
  apply bind_Ok_inv in Hd as (acc & _ & Hd). apply bind_Ok_inv in Hd as (db1 & Hdb & [= <- _]).
  unfold AccountOps.deactivate_owner_user_from_account in Hdb. destruct (o_user u); [|by injection Hdb as <-].
  apply bind_Ok_inv in Hdb as (ls & _ & Hdb). case_bool_decide; by injection Hdb as <-.
Qed.

Lemma endpoint_inv n (db db' : Db) : endpoint_activation db db' -> installation_inv n db -> installation_inv (n + 1) db'.
Proof.
  intros (org & u & org' & u' & Ho & Hu & _ & Hact) Hinv. unfold OwnerOps.activate_user in Hact.
  set (o1 := set_plan_activated_users _ org) in Hact.
  assert (Hl : forall x, x ∈ default [] (o_plan_activated_users org) -> x ∈ default [] (o_plan_activated_users o1)).
  { intros x. subst o1. cbn. destruct (o_plan_activated_users org) as [l|]; cbn; [|by intros ?%not_elem_of_nil].
    case_bool_decide; [done|]. intros. apply elem_of_app. by left. }
  assert (Hr : forall x, x ∈ default [] (o_plan_activated_users o1) -> x ∈ activated_ids db \/ x = o_ownerid u).
  { intros x. subst o1. cbn. intros Hx. rewrite elem_of_activated_ids.
    assert (Hx' : x ∈ default [] (o_plan_activated_users org) \/ x = o_ownerid u).
    { destruct (o_plan_activated_users org) as [l|]; cbn in *; [case_bool_decide|]; set_solver. }
    destruct Hx' as [Hx'|]; [left|by right]. by exists (o_ownerid org), org. }
  assert (H1 : installation_inv (n + 1) (AccountOps.save_owner db o1)).
  { apply (save_owner_inv n); [by eexists | | | done].
    - intros x Hx. destruct (Hr x Hx) as [?| ->]; [by left | right; by eexists].
    - destruct Hinv as (_ & _ & Hn). etrans; [|apply Z.add_le_mono_r, Hn]. apply (seats_taken_le_S _ _ (o_ownerid u)).
      intros x [?|Hx]%save_owner_ids; [set_solver|]. destruct (Hr x Hx); set_solver. }
  destruct (o_account o1); [|by injection Hact as <- _ _].
  apply bind_Ok_inv in Hact as (acc & _ & Hact). unfold AccountOps.activate_owner_user_onto_account in Hact.
  destruct (o_user u); injection Hact as <- _ _; [exact H1|].
  set (u1 := set_user _ u).
  change (installation_inv (n + 1) (AccountOps.save_owner (AccountOps.save_owner db o1) u1)).
  assert (Hids : forall x, x ∈ default [] (o_plan_activated_users u1) -> x ∈ activated_ids (AccountOps.save_owner db o1)).
  { intros x Hx. change (x ∈ default [] (o_plan_activated_users u)) in Hx. apply elem_of_activated_ids.
    destruct (decide (o_ownerid u = o_ownerid org)) as [E|Hne].
    - exists (o_ownerid org), o1. rewrite save_owner_lookup, decide_True by done. split; [done|]. apply Hl. congruence.
    - exists (o_ownerid u), u. by rewrite save_owner_lookup, decide_False. }
  apply (save_owner_inv (n + 1)); [|auto| |done].
  - change (o_ownerid u1) with (o_ownerid u). rewrite save_owner_lookup. case_decide; by eexists.
  - destruct H1 as (_ & _ & Hn). etrans; [|exact Hn]. apply seats_taken_le. intros x [?|?]%save_owner_ids; auto.
Qed.

Lemma installation_step_inv n m (db db' : Db) :
  IS_ENTERPRISE st = true -> license_seats loads st = Ok n -> n <= m ->
  installation_step db db' -> installation_inv m db -> installation_inv m db'.
Proof.
  intros He Hn Hm Hstep Hinv.
  destruct Hstep as [db db' o Ho Hact|db db' o Hact|db db' o b Ho Hact|db db' now org user b Hu Hact|db db' org u org' Ho Hd|db|db].
  - eapply activate_owner_inv; eauto.
  - eapply deactivate_owner_inv; eauto.
  - unfold try_auto_activate in Hact. destruct (is_autoactivation_enabled _ _); [|by injection Hact as <- _].
    apply bind_Ok_inv in Hact as (can & _ & Hact). destruct can; [|by injection Hact as <- _].
    apply bind_Ok_inv in Hact as (db1 & Hact & Heq). injection Heq as <- _.
    eapply activate_owner_inv; eauto.
  - eapply worker_activate_inv; eauto.
  - by eapply deactivate_user_inv.
  - apply installation_same; [done|tauto|done].
  - apply installation_same; [done|tauto|done].
Qed.

(** C18: what the API and the worker activate under the license of a self-hosted
    installation never makes it exceed the seats of the license: after any run with [k]
    activations by the users endpoints, which look at the plan of the organization and
    not at the license, the installation has at most [k] activated users more than its
    license has seats; so never more than the seats without such activations. *)
Theorem license_respected n k (db db' : Db) :
  IS_ENTERPRISE st = true -> license_seats loads st = Ok n ->
  keyed db -> known db -> seats_taken db <= n ->
  installation_run k db db' -> seats_taken db' <= n + k.
Proof.
  intros He Hn Hkey Hknown Hle Hrun.
  assert (Hall : forall m, n <= m -> installation_inv m db -> 0 <= k /\ installation_inv (m + k) db').
  { clear Hkey Hknown Hle. induction Hrun as [db|k db db1 db' Hs Hrun IH|k db db1 db' Hs Hrun IH]; intros m Hm Hinv.
    - split; [done|]. by rewrite Z.add_0_r.
    - apply IH; [done|]. by eapply installation_step_inv.
    - destruct (IH (m + 1)) as [Hk Hend]; [lia | by eapply endpoint_inv|]. split; [lia|].
      by replace (m + (k + 1)) with (m + 1 + k) by lia. }
  by destruct (Hall n) as (_ & _ & _ & ?).
Qed.
End installation.

(** ** The plan of an organization, or of its account *)

Definition seats_used (db : Db) (org : Owner) : Z :=
  match o_account org with
  | None => OwnerOps.activated_user_count db org
  | Some a => match accounts db !! a with Some acc => AccountOps.activated_user_count db acc | None => 0 end
  end.
Definition seats_of (db : Db) (org : Owner) : Z :=
  match o_account org with
  | None => OwnerOps.total_seat_count org
  | Some a => match accounts db !! a with Some acc => AccountOps.total_seat_count acc | None => 0 end
  end.

Lemma activated_count db (o : Owner) :
  OwnerOps.activated_user_count db o
  = count (fun x => in_list (o_ownerid x) (o_plan_activated_users o) && negb (o_student x)) (owners db).
Proof.
  unfold OwnerOps.activated_user_count. destruct (given_list (o_plan_activated_users o)) eqn:Hg; [done|]. cbn.
  set (f := fun x : Owner => in_list (o_ownerid x) (o_plan_activated_users o) && negb (o_student x)).
  rewrite (count_dom f). assert (Hf : forall x, f x = false).
  { intros x. unfold f, in_list. destruct (o_plan_activated_users o) as [[|]|]; done. }
  replace (dom _ : gset Z) with (∅ : gset Z); [by rewrite size_empty|]. symmetry.
  apply set_eq. intros k. rewrite elem_of_count_dom. setoid_rewrite Hf. set_solver.
Qed.

Lemma in_list_spec x l : in_list x l = true <-> x ∈ default [] l.
Proof. apply bool_decide_eq_true. Qed.

Lemma is_student_spec db u :
  AccountOps.is_student db u = true <->
  exists k o, owners db !! k = Some o /\ o_user o = Some u /\ o_student o = true.
Proof.
  unfold AccountOps.is_student, UserOps.owners_of. rewrite existsb_exists. split.
  - intros (o & Ho%list_elem_of_In & Hs). apply elem_of_rows in Ho as [Hu%bool_decide_eq_true [k Hk]]. eauto.
  - intros (k & o & Hk & Hu & Hs). exists o. split; [|done].
    apply list_elem_of_In, elem_of_rows. rewrite bool_decide_eq_true. eauto.
Qed.

Lemma github_student_is_student db u : UserOps.is_github_student db u = Ok true -> AccountOps.is_student db u = true.
Proof.
  unfold UserOps.is_github_student, AccountOps.is_student.
  destruct (List.filter _ _) as [|o [|]] eqn:Hf; cbn; [done| |done]. injection 1 as Hs.
  apply existsb_exists. exists o. split; [|done].
  assert (Hin : List.In o (List.filter (fun o => bool_decide (o_service o = "github")) (UserOps.owners_of db u)))
    by (rewrite Hf; by left).
  by apply filter_In in Hin as [Hin _].
Qed.

(** The users of an account that are not students, before and after one is put
    on it. *)
Lemma account_count_le db db' (acc : Account) u :
  AccountOps.users_of db' (a_id acc) ⊆ {[u]} ∪ AccountOps.users_of db (a_id acc) ->
  (forall u', u' <> u -> AccountOps.is_student db u' = true -> AccountOps.is_student db' u' = true) ->
  (AccountOps.is_student db' u = true \/
   u ∈ AccountOps.users_of db (a_id acc) /\
     (AccountOps.is_student db u = true -> AccountOps.is_student db' u = true) ->
   AccountOps.activated_user_count db' acc <= AccountOps.activated_user_count db acc) /\
  AccountOps.activated_user_count db' acc <= AccountOps.activated_user_count db acc + 1.
Proof.
  intros Hsub Hst. unfold AccountOps.activated_user_count.
  set (D := filter (fun u => AccountOps.is_student db u = false) (AccountOps.users_of db (a_id acc))).
  set (D' := filter (fun u => AccountOps.is_student db' u = false) (AccountOps.users_of db' (a_id acc))).
  assert (Hne : forall x, x ∈ D' -> x <> u -> x ∈ D).
  { intros x [Hs Hx]%elem_of_filter Hxu. apply elem_of_filter. split.
    - destruct (AccountOps.is_student db x) eqn:Hd; [|done]. by rewrite (Hst x Hxu Hd) in Hs.
    - apply Hsub, elem_of_union in Hx as [Hx%elem_of_singleton|]; done. }
  split.
  - intros Hu. apply inj_le, subseteq_size. intros x Hx. destruct (decide (x = u)) as [->|]; [|by apply Hne].
    apply elem_of_filter in Hx as [Hs Hx]. destruct Hu as [Hu|[Hu Hk]]; [congruence|].
    apply elem_of_filter. split; [|done]. destruct (AccountOps.is_student db u); [by rewrite Hk in Hs|done].
  - assert (HD : D' ⊆ D ∪ {[u]}).
    { intros x Hx. rewrite elem_of_union, elem_of_singleton. destruct (decide (x = u)); eauto. }
    apply subseteq_size in HD. rewrite size_union_alt in HD.
    assert (size ({[u]} ∖ D) <= 1)%nat; [|lia].
    etrans; [apply subseteq_size, subseteq_difference_l; reflexivity|]. by rewrite size_singleton.
Qed.

Definition activated_list (org : Owner) (u : Z) : list Z :=
  match o_plan_activated_users org with
  | Some l => if bool_decide (u ∈ l) then l else l ++ [u]
  | None => [u]
  end.

Lemma elem_of_activated_list org u x :
  x ∈ activated_list org u <-> x ∈ default [] (o_plan_activated_users org) \/ x = u.
Proof.
  unfold activated_list. destruct (o_plan_activated_users org) as [l|]; cbn; [|set_solver].
  case_bool_decide; [naive_solver|]. rewrite elem_of_app, list_elem_of_singleton. done.
Qed.

Section cloud.
Variables (db : Db) (org owner : Owner).
Hypothesis Horg : owners db !! o_ownerid org = Some org.
Hypothesis Howner : owners db !! o_ownerid owner = Some owner.
Hypothesis Hne : o_ownerid org <> o_ownerid owner.
Hypothesis Hkey : keyed db.
Hypothesis Haccounts : forall k acc, accounts db !! k = Some acc -> a_id acc = k.

Let u := o_ownerid owner.
Let org' := set_plan_activated_users (Some (activated_list org u)) org.

(** Students apart, the list of the organization grows by the user at most. *)
Lemma organization_count :
  (o_student owner = true -> count (fun x => in_list (o_ownerid x) (Some (activated_list org u)) && negb (o_student x))
     (<[o_ownerid org := org']> (owners db)) <= OwnerOps.activated_user_count db org) /\
  count (fun x => in_list (o_ownerid x) (Some (activated_list org u)) && negb (o_student x))
     (<[o_ownerid org := org']> (owners db)) <= OwnerOps.activated_user_count db org + 1.
Proof.
  rewrite activated_count.
  assert (H : forall k x, <[o_ownerid org := org']> (owners db) !! k = Some x ->
    in_list (o_ownerid x) (Some (activated_list org u)) && negb (o_student x) = true ->
    (k <> u \/ o_student owner = true) ->
    exists y, owners db !! k = Some y /\
      in_list (o_ownerid y) (o_plan_activated_users org) && negb (o_student y) = true).
  { intros k x Hk [Hin%in_list_spec Hs%negb_true_iff]%andb_true_iff Hor. cbn in Hin.
    assert (Hx : exists y, owners db !! k = Some y /\ o_ownerid y = o_ownerid x /\ o_student y = o_student x).
    { destruct (decide (k = o_ownerid org)) as [->|Hko].
      - rewrite lookup_insert_eq in Hk. injection Hk as <-. by exists org.
      - rewrite lookup_insert_ne in Hk by done. by exists x. }
    destruct Hx as (y & Hy & Hid & Hst). exists y. split; [done|].
    rewrite Hst, Hs, andb_true_r. apply in_list_spec. rewrite Hid.
    apply elem_of_activated_list in Hin as [Hin|Hin]; [done|]. exfalso.
    assert (k = u) as ->.
    { rewrite <- Hin, <- Hid. symmetry. by apply Hkey. }
    destruct Hor as [Hor|Hor]; [done|]. unfold u in Hy. rewrite Howner in Hy. injection Hy as <-. congruence. }
  split; [intros Hs; apply count_le | apply (count_le_S _ _ _ _ u)]; intros; eapply H; eauto.
Qed.

(** The rows of the database after the activation, on an account or not. *)
Lemma activate_user_rows db' org1 owner1 :
  OwnerOps.activate_user db org owner = Ok (db', org1, owner1) ->
  owners db' !! o_ownerid org = Some org' /\ accounts db' = accounts db /\
  match o_account org with
  | None => owners db' = <[o_ownerid org := org']> (owners db)
  | Some a => exists acc v, accounts db !! a = Some acc /\
      AccountOps.users_of db' a = {[v]} ∪ AccountOps.users_of db a /\
      v = default (user_seq db) (o_user owner) /\
      owners db' = <[u := set_user (Some v) owner]> (<[o_ownerid org := org']> (owners db))
  end.
Proof.
  unfold OwnerOps.activate_user. fold u. change (match o_plan_activated_users org with
    | Some l => _ | None => _ end) with (activated_list org u). fold org'.
  unfold org' at 1. cbn [o_account set_plan_activated_users]. destruct (o_account org) as [a|] eqn:Ha.
  - unfold get_by_pk. cbn [AccountOps.save_owner accounts set_owners].
    destruct (accounts db !! a) as [acc|] eqn:Hacc; [|done]. cbn [mbind result_bind].
    unfold AccountOps.activate_owner_user_onto_account. pose proof (Haccounts _ _ Hacc) as <-.
    destruct (o_user owner) as [v|] eqn:Hv; intros Heq; injection Heq as <- _ _; cbn.
    + split; [apply lookup_insert_eq|]. split; [done|]. exists acc, v. split; [done|].
      split; [unfold AccountOps.users_of; cbn; by rewrite lookup_insert_eq|]. split; [done|].
      symmetry. apply insert_id. rewrite lookup_insert_ne by done. unfold u. rewrite Howner. f_equal.
      destruct owner. cbn in Hv. by subst.
    + split; [rewrite lookup_insert_ne by done; apply lookup_insert_eq|]. split; [done|].
      exists acc, (user_seq db). split; [done|].
      split; [unfold AccountOps.users_of; cbn; by rewrite lookup_insert_eq|]. done.
  - intros Heq. injection Heq as <- _ _. cbn. split; [apply lookup_insert_eq|]. done.
Qed.

Lemma student_kept db' v u' :
  owners db' = <[u := set_user (Some v) owner]> (<[o_ownerid org := org']> (owners db)) ->
  v = default (user_seq db) (o_user owner) ->
  AccountOps.is_student db u' = true -> AccountOps.is_student db' u' = true.
Proof.
  intros Hrows Hv (k & o & Hk & Hu & Hs)%is_student_spec. apply is_student_spec.
  destruct (decide (k = u)) as [->|Hku].
  - exists u, (set_user (Some v) owner). rewrite Hrows, lookup_insert_eq.
    unfold u in Hk. rewrite Howner in Hk. injection Hk as <-. rewrite Hu in Hv. cbn in Hv. subst v. done.
  - destruct (decide (k = o_ownerid org)) as [->|Hko].
    + exists (o_ownerid org), org'. rewrite Hrows, lookup_insert_ne, lookup_insert_eq by done.
      rewrite Horg in Hk. injection Hk as <-. done.
    + exists k, o. by rewrite Hrows, !lookup_insert_ne.
Qed.

Lemma owner_student db' v :
  owners db' = <[u := set_user (Some v) owner]> (<[o_ownerid org := org']> (owners db)) ->
  o_student owner = true -> AccountOps.is_student db' v = true.
Proof.
  intros Hrows Hs. apply is_student_spec. exists u, (set_user (Some v) owner).
  by rewrite Hrows, lookup_insert_eq.
Qed.

Lemma activate_within db' org1 owner1 :
  OwnerOps.can_activate_user db org owner = Ok true ->
  OwnerOps.activate_user db org owner = Ok (db', org1, owner1) ->
  seats_used db org <= seats_of db org -> seats_used db' org' <= seats_of db' org'.
Proof.
  intros Hcan (Horg' & Hacc' & Hrows)%activate_user_rows Hle. unfold OwnerOps.can_activate_user in Hcan.
  unfold seats_used, seats_of in *. unfold org' at 1 3. cbn [o_account set_plan_activated_users].
  destruct (o_account org) as [a|] eqn:Ha.
  - destruct Hrows as (acc & v & Hacc & Husers & Hv & Hrows). rewrite Hacc' , Hacc in *.
    unfold get_by_pk in Hcan. rewrite Hacc in Hcan. cbn in Hcan. pose proof (Haccounts _ _ Hacc) as <-.
    destruct (account_count_le db db' acc v) as [Hsame Hone]; [by rewrite Husers | intros ? _; by eapply student_kept |].
    destruct (o_student owner) eqn:Hs; [etrans; [apply Hsame|exact Hle]; left; by eapply owner_student|].
    unfold AccountOps.can_activate_user in Hcan.
    assert (Hseat : Ok (AccountOps.activated_user_count db acc <? a_plan_seat_count acc + a_free_seat_count acc) = Ok true ->
      AccountOps.activated_user_count db' acc <= AccountOps.total_seat_count acc).
    { intros Heq. injection Heq as Hlt%Z.ltb_lt. unfold AccountOps.total_seat_count. lia. }
    destruct (o_user owner) as [v'|] eqn:Hv'; [|by apply Hseat]. cbn in Hv. subst v'.
    case_bool_decide as Hin.
    + etrans; [apply Hsame|exact Hle]. right. split; [done|]. by eapply student_kept; [|rewrite Hv'].
    + destruct (UserOps.is_github_student db v) as [[|]|] eqn:Hg; [|by apply Hseat|done].
      etrans; [apply Hsame|exact Hle]. left. eapply student_kept; [done|by rewrite Hv'|].
      by apply github_student_is_student.
  - destruct organization_count as [Hsame Hone]. rewrite activated_count, Hrows. unfold org' at 1.
    cbn [o_plan_activated_users set_plan_activated_users].
    unfold OwnerOps.total_seat_count in *. cbn [o_plan_user_count set_plan_activated_users o_free org'] in *.
    destruct (o_student owner) eqn:Hs; [etrans; [by apply Hsame|exact Hle]|].
    destruct (o_plan_user_count org); [|done]. injection Hcan as Hlt%Z.ltb_lt. lia.
Qed.
End cloud.

(** C19: an organization whose users fit its plan, or the plan of its account,
    still has users that fit after an auto-activation from the API, which tells
    the truth: the user is in the list of the organization when it succeeds, and
    nothing changes when it does not. *)
Theorem cloud_seats_respected db org owner db' b :
  keyed db -> (forall k acc, accounts db !! k = Some acc -> a_id acc = k) ->
  owners db !! o_ownerid org = Some org -> owners db !! o_ownerid owner = Some owner ->
  o_ownerid org <> o_ownerid owner ->
  seats_used db org <= seats_of db org ->
  try_auto_activate db (mkCloud org owner) = Ok (db', b) ->
  exists org', owners db' !! o_ownerid org = Some org' /\
    seats_used db' org' <= seats_of db' org' /\
    in_list (o_ownerid owner) (o_plan_activated_users org') = b || in_list (o_ownerid owner) (o_plan_activated_users org) /\
    (b = false -> db' = db).
Proof.
  intros Hkey Hacc Horg Howner Hne Hle Htry. unfold try_auto_activate in Htry.
  cbn [is_autoactivation_enabled can_activate_user activator_activate cloud_activator cloud_org cloud_owner] in Htry.
  destruct (OwnerOps.is_true _); [|injection Htry as <- <-; by exists org].
  apply bind_Ok_inv in Htry as (can & Hcan & Htry). destruct can; [|injection Htry as <- <-; by exists org].
  apply bind_Ok_inv in Htry as (db1 & Hact & Heq). injection Heq as -> <-.
  apply bind_Ok_inv in Hact as ([[db2 org1] owner1] & Hact & Heq). injection Heq as ->.
  exists (set_plan_activated_users (Some (activated_list org (o_ownerid owner))) org).
  split; [by eapply activate_user_rows|]. split; [by eapply activate_within|]. split; [|done].
  apply in_list_spec. apply elem_of_activated_list. by right.
Qed.

(** ** The decoration of a pull and the activation of its author *)

(** The decoration that goes with a decision on the seat of the author. *)
Definition decoration_of (info : SeatActivationInfo) : DecorationDetails :=
  let because r := bool_decide (seat_reason info = r) in
  if because "public_repo" then plain_details standard "Public repo"
  else if because "no_pr_billing_plan" then plain_details standard "Org not on PR plan"
  else if because "no_pr_author" then plain_details upgrade "PR author not found in database"
  else if because "author_in_plan_activated_users" then plain_details standard "User is currently activated"
  else if because "is_bot_account" then plain_details standard "Bot user detected (does not need to be activated)"
  else match should_activate_seat info with
       | AUTO_ACTIVATE => mkDetails upgrade "User must be activated" true (seat_owner_id info) (seat_author_id info)
       | _ => plain_details upgrade "User must be manually activated"
       end.

Lemma get_item_dict_get v k x d : get_item v k = Ok x -> dict_get v k d = Ok x.
Proof. destruct v; cbn; try done. by destruct (od_get k d0) eqn:E; cbn; [intros [= ->]|]. Qed.

(** The plan of an organization: that of its account, or its own. *)
Definition plan_of (db : Db) (org : Owner) (p : Plan) : Prop :=
  exists name, match o_account org with
               | Some a => exists acc, accounts db !! a = Some acc /\ name = Some (a_plan acc)
               | None => name = o_plan org
               end /\ get_one (plan_named db name) = Ok p.

(** An upload that counts for the limit of the month: of coverage, of a private
    repository of the organization, in the last thirty days, and not during a trial
    that is over. *)
Definition in_past_trial (org : Owner) (t : Z) : bool :=
  match o_trial_status org, o_trial_start_date org, o_trial_end_date org with
  | Some EXPIRED, Some first, Some last => (first <? t) && (t <? last)
  | _, _, _ => false
  end.
Definition upload_counts (org : Owner) (now : Z) (m : UserMeasurement) : bool :=
  um_is_coverage m && um_private_repo m && (um_owner_id m =? o_ownerid org)
  && (now - um_created_at m <=? days 30) && negb (in_past_trial org (um_created_at m)).

(** The organization is at the limit of its plan, where uploads are throttled, and the
    installation has no license. *)
Definition over_upload_limit (st : Settings) (db : Db) (org : Owner) (now : Z) (ms : list UserMeasurement) : Prop :=
  requires_license st = false /\
  exists p limit, plan_of db org p /\ p_monthly_uploads_limit p = Some limit /\
    limit <= (if upload_throttling_enabled st then Z.of_nat (length (List.filter (upload_counts org now) ms)) else 0).

Lemma plan_of_inj db org p q : plan_of db org p -> plan_of db org q -> p = q.
Proof.
  intros (n & Hn & Hp) (m & Hm & Hq). destruct (o_account org).
  - destruct Hn as (acc & Ha & ->), Hm as (acc' & Ha' & ->). congruence.
  - congruence.
Qed.

(** A service that has read no other plan than that of its organization. *)
Definition reads_plan (db : Db) (s : PlanService) : Prop :=
  forall p, cached_plan s = Some p \/ _plan_data s = Some p -> plan_of db (current_org s) p.

Lemma of_plan_reads {A} (f : Plan -> A) db s a s' :
  reads_plan db s -> PlanServiceOps.of_plan f db s = Ok (a, s') ->
  exists p, plan_of db (current_org s) p /\ a = f p /\ current_org s' = current_org s /\ reads_plan db s'.
Proof.
  intros Hs Hf. unfold PlanServiceOps.of_plan in Hf. apply bind_Ok_inv in Hf as ([p s1] & Hp & [= <- <-]).
  unfold PlanServiceOps.plan_data in Hp. destruct (cached_plan s) as [q|] eqn:Hc.
  { injection Hp as <- <-. exists q. split_and!; auto. }
  apply bind_Ok_inv in Hp as (q & Hq & [= <- <-]).
  assert (Hplan : plan_of db (current_org s) q).
  { destruct (_plan_data s) as [x|] eqn:Hx; [injection Hq as <-; auto|].
    apply bind_Ok_inv in Hq as (name & Hn & Hq). exists name. split; [|done]. destruct (o_account (current_org s)) as [i|].
    - apply bind_Ok_inv in Hn as (acc & Hacc & [= <-]). exists acc. split; [|done]. unfold get_by_pk in Hacc. by case_match; simplify_eq.
    - by injection Hn as <-. }
  exists q. split_and!; [done..|]. intros x [[= <-]|[= <-]]; done.
Qed.

Lemma counted_upload s now m : PlanServiceOps.counted s now m = upload_counts (current_org s) now m.
Proof.
  unfold PlanServiceOps.counted, upload_counts, in_past_trial, PlanServiceOps.has_trial_dates, PlanServiceOps.trial_status,
    PlanServiceOps.trial_start_date, PlanServiceOps.trial_end_date.
  replace (now - um_created_at m <=? days 30) with (now - days 30 <=? um_created_at m) by lia.
  destruct (um_is_coverage m), (um_private_repo m), (um_owner_id m =? _), (_ <=? um_created_at m); try done; cbn [andb].
  destruct (o_trial_status (current_org s)) as [[]|], (o_trial_start_date (current_org s)) as [i|], (o_trial_end_date (current_org s)) as [j|]; try done.
  rewrite bool_decide_eq_true_2 by done. cbn. lia.
Qed.

Lemma over_the_limit_spec st now db s ms b s' :
  reads_plan db s -> over_the_limit st now db s ms = Ok (b, s') ->
  b = true <-> over_upload_limit st db (current_org s) now ms.
Proof.
  intros Hs Ho. unfold over_the_limit in Ho. apply bind_Ok_inv in Ho as ([limit s1] & Hl & Ho).
  apply of_plan_reads in Hl as (p & Hp & -> & Hc & Hs1); [|done]. unfold over_upload_limit.
  assert (Hfrom : forall q l, plan_of db (current_org s) q -> p_monthly_uploads_limit q = Some l -> p_monthly_uploads_limit p = Some l).
  { intros q l Hq. by rewrite (plan_of_inj _ _ _ _ Hq Hp). }
  destruct (p_monthly_uploads_limit p) as [l|] eqn:El.
  2: { injection Ho as <- _. split; [done|]. intros (_ & q & l & Hq & Hl & _). by specialize (Hfrom q l Hq Hl). }
  apply bind_Ok_inv in Ho as ([used s2] & Hu & [= <- _]). unfold determine_uploads_used in Hu.
  set (n := Z.of_nat (length (List.filter (upload_counts (current_org s) now) ms))).
  assert (Hused : l <= used <-> l <= (if upload_throttling_enabled st then n else 0)).
  { destruct (upload_throttling_enabled st); cbn [negb] in Hu; [|by injection Hu as <- _].
    unfold PlanServiceOps.query_monthly_coverage_measurements in Hu. apply bind_Ok_inv in Hu as ([limit s3] & Hl & [= <- _]).
    apply of_plan_reads in Hl as (q & Hq & -> & Hc3 & _); [|done]. rewrite Hc in Hq. rewrite (plan_of_inj _ _ _ _ Hq Hp), El.
    assert (Hlen : List.filter (PlanServiceOps.counted s3 now) ms = List.filter (upload_counts (current_org s) now) ms).
    { apply List.filter_ext. intros m. by rewrite counted_upload, Hc3, Hc. }
    rewrite Hlen. fold n. lia. }
  rewrite andb_true_iff, Z.leb_le, negb_true_iff, Hused. split.
  - intros [Hle Hlic]. split; [done|]. by exists p, l.
  - intros (Hlic & q & l' & Hq & Hl' & Hle). specialize (Hfrom q l' Hq Hl'). injection Hfrom as <-. done.
Qed.

Lemma init_reads db org db' s : PlanServiceOps.init db org = Ok (db', s) -> reads_plan db' s.
Proof.
  unfold PlanServiceOps.init. intros ([db1 o] & _ & Hi)%bind_Ok_inv. destruct (negb _); [done|].
  injection Hi as <- <-. by intros p [?|?].
Qed.

Lemma billing_reads `{Crypto} loads st db s b s' :
  reads_plan db s -> PlanServiceOps.is_pr_billing_plan loads st db s = Ok (b, s') ->
  current_org s' = current_org s /\ reads_plan db s'.
Proof.
  intros Hs. unfold PlanServiceOps.is_pr_billing_plan. destruct (negb _); intros (x & Hx & Hb)%bind_Ok_inv.
  - destruct x as [n s1]. injection Hb as _ <-. by apply of_plan_reads in Hx as (p & _ & _ & ? & ?).
  - by injection Hb as _ <-.
Qed.

(** What comes before the author is known. *)
Definition before_author : list string := ["public_repo"; "no_pr_billing_plan"; "no_pr_author"].

(** C22: on a pull the provider knows, of a commit with an ordinary upload, the decoration
    and the seat are one decision: the decoration is the one that goes with what is
    decided on the author's seat, unless the author is known and the organization that
    holds the plan (the root of a GitLab group) is at its upload limit, when the
    decoration says so.  That is so exactly when the plan has a limit, the uploads of
    the last thirty days that count reach it, and no license is required, whoever the
    author is and whatever the seats.  A commit with an empty upload has the decoration
    of the empty upload. *)
Theorem decoration_seats_agree `{Crypto} loads st now db ms pull provider empty_upload db1 d db2 info :
  provider_pull pull = Some provider -> truthy provider = true ->
  determine_decoration_details loads st now db ms (Some pull) empty_upload = Ok (db1, d) ->
  determine_seat_activation loads st db pull = Ok (db2, info) ->
  match empty_upload with
  | Some "pass" => d = plain_details passing_empty_upload "Non testable files got changed."
  | Some "fail" => d = plain_details failing_empty_upload "Testable files got changed."
  | Some "processing" => d = plain_details processing_upload "Upload is still processing."
  | _ =>
      db1 = db2 /\
      if bool_decide (seat_reason info ∈ before_author) then d = decoration_of info
      else exists org s, owners db !! r_author (pull_repository pull) = Some org /\ PlanServiceOps.init db org = Ok (db1, s) /\
        (over_upload_limit st db1 (current_org s) now ms /\ d = plain_details upload_limit "Org has exceeded the upload limit" \/
         ~ over_upload_limit st db1 (current_org s) now ms /\ d = decoration_of info)
  end.
Proof.
  intros Hp Ht Hd Hs. unfold determine_decoration_details in Hd. rewrite Hp in Hd. cbn [default id] in Hd. rewrite Ht in Hd. cbn [negb] in Hd.
  assert (Hgoal : empty_upload <> Some "pass" -> empty_upload <> Some "fail" -> empty_upload <> Some "processing" ->
    db1 = db2 /\
      if bool_decide (seat_reason info ∈ before_author) then d = decoration_of info
      else exists org s, owners db !! r_author (pull_repository pull) = Some org /\ PlanServiceOps.init db org = Ok (db1, s) /\
        (over_upload_limit st db1 (current_org s) now ms /\ d = plain_details upload_limit "Org has exceeded the upload limit" \/
         ~ over_upload_limit st db1 (current_org s) now ms /\ d = decoration_of info)).
  { intros H1 H2 H3. rewrite !bool_decide_eq_false_2 in Hd by done. clear H1 H2 H3.
    unfold determine_seat_activation in Hs. rewrite Hp in Hs.
    case_bool_decide as Hpriv; [injection Hd as <- <-; by injection Hs as <- <-|].
    apply bind_Ok_inv in Hd as (org & Horg & Hd). rewrite Horg in Hs. cbn [mbind result_bind] in Hs.
    apply bind_Ok_inv in Hd as ([db0 s] & Hinit & Hd). rewrite Hinit in Hs. cbn [mbind result_bind] in Hs.
    apply bind_Ok_inv in Hd as ([pr s1] & Hpr & Hd). rewrite Hpr in Hs. cbn [mbind result_bind] in Hs.
    pose proof (init_reads _ _ _ _ Hinit) as Hreads. destruct (billing_reads _ _ _ _ _ _ Hreads Hpr) as [Hc1 Hreads1].
    destruct pr; cbn [negb] in Hd, Hs; [|injection Hd as <- <-; by injection Hs as <- <-].
    apply bind_Ok_inv in Hd as (author & Ha & Hd). apply bind_Ok_inv in Hd as (i & Hi & Hd).
    unfold author_id in Hs. rewrite (get_item_dict_get _ _ _ _ Ha) in Hs. cbn [mbind result_bind] in Hs.
    rewrite (get_item_dict_get _ _ _ _ Hi) in Hs. cbn [mbind result_bind] in Hs.
    apply bind_Ok_inv in Hd as (pa & Hpa & Hd). rewrite Hpa in Hs. cbn [mbind result_bind] in Hs.
    destruct pa as [pa|]; [|injection Hd as <- <-; by injection Hs as <- <-].
    apply bind_Ok_inv in Hd as ([over s2] & Hover & Hd). apply over_the_limit_spec in Hover; [|done]. rewrite Hc1 in Hover.
    assert (Ho : owners db !! r_author (pull_repository pull) = Some org).
    { unfold get_by_pk in Horg. destruct (owners db !! _); [by injection Horg as -> | done]. }
    destruct (in_list _ _); [|destruct (_is_bot_account pa); [|destruct (negb _)]]; destruct over;
      injection Hd as <- <-; injection Hs as <- <-; (split; [done|]); rewrite bool_decide_eq_false_2 by (cbn; set_solver);
      exists org, s; (split; [done|]); (split; [done|]);
      first [left; split; [by apply Hover | done] | right; split; [by intros [=]%Hover | done]]. }
  destruct empty_upload as [e|]; [|by apply Hgoal].
  destruct (decide (e = "pass")) as [->|H1]; [rewrite bool_decide_eq_true_2 in Hd by done; by injection Hd as _ <-|].
  rewrite bool_decide_eq_false_2 in Hd by congruence.
  destruct (decide (e = "fail")) as [->|H2]; [rewrite bool_decide_eq_true_2 in Hd by done; by injection Hd as _ <-|].
  rewrite bool_decide_eq_false_2 in Hd by congruence.
  destruct (decide (e = "processing")) as [->|H3]; [rewrite bool_decide_eq_true_2 in Hd by done; by injection Hd as _ <-|].
  specialize (Hgoal ltac:(congruence) ltac:(congruence) ltac:(congruence)). clear Hd.
  repeat (case_match; subst; try done).
Qed.

(** * The life of a trial

    The operations of [PlanService] on an organization as steps over the
    database: a trial is started once, and one that ran out is ended by the task
    that the cron job queues, unless the organization has an account. *)

#[local] Open Scope string_scope.
#[local] Open Scope list_scope.
#[local] Open Scope Z_scope.
Import PlanServiceOps.

(** The organization keeps its own plan: it is no group inside a GitLab group. *)
Definition own_plan (o : Owner) : Prop := bool_decide (o_service o = "gitlab") && given_text (o_parent_service_id o) = false.

Section trials.
Variable st : Settings.

(** The requests that change a trial or a plan; each makes a service of its own. *)
Inductive plan_op : Type :=
  | Start_trial (current_owner : Owner)
  | Start_trial_manually (current_owner : Owner) (end_date : Z)
  | Cancel_trial
  | Expire_trial_when_upgrading
  | Update_plan (name : string) (user_count : option Z)
  | Set_default_plan_data.

Definition run_op (db : Db) (now : Z) (id : Z) (op : plan_op) : result Db :=
  owner ← get_by_pk id (owners db);
  '(db, s) ← init db owner;
  '(db, s) ← match op with
             | Start_trial w => start_trial db s now w
             | Start_trial_manually w e => start_trial_manually db s now w e
             | Cancel_trial => cancel_trial st db s now
             | Expire_trial_when_upgrading => Ok (expire_trial_when_upgrading db s now)
             | Update_plan n c => update_plan db s n c
             | Set_default_plan_data => Ok (set_default_plan_data st db s)
             end;
  Ok db.

Inductive plan_step : Db -> Db -> Prop :=
  | plan_step_op db db' now id op o :
      owners db !! id = Some o -> own_plan o -> run_op db now id op = Ok db' -> plan_step db db'.

Lemma init_own db o :
  own_plan o -> init db o = if negb (plan_exists db (o_plan o)) then Err ValueError else Ok (db, mkPlanService o None None).
Proof. intros Ho. unfold init. rewrite Ho. done. Qed.

(** What an operation on an organization can do to its row. *)
Definition row_step (o o' : Owner) : Prop :=
  o_ownerid o' = o_ownerid o /\ o_service o' = o_service o /\ o_parent_service_id o' = o_parent_service_id o /\
  (o_trial_status o' = o_trial_status o \/ o_trial_status o' = Some ONGOING \/ o_trial_status o' = Some EXPIRED).

Lemma plan_data_org db s p s' : plan_data db s = Ok (p, s') -> current_org s' = current_org s.
Proof.
  unfold plan_data. destruct (cached_plan s); [by injection 1 as _ <-|].
  intros H. apply bind_Ok_inv in H as (q & _ & Heq). by injection Heq as _ <-.
Qed.

Lemma of_plan_org {A} (f : Plan -> A) db s a s' : of_plan f db s = Ok (a, s') -> current_org s' = current_org s.
Proof.
  unfold of_plan. intros H. apply bind_Ok_inv in H as ([p s1] & Hp & Heq). injection Heq as _ <-.
  by eapply plan_data_org.
Qed.

Lemma is_org_trialing_org db s b s' : is_org_trialing db s = Ok (b, s') -> current_org s' = current_org s.
Proof.
  unfold is_org_trialing. case_bool_decide; [|by injection 1 as _ <-].
  intros H1. apply bind_Ok_inv in H1 as ([n s1] & Hn & Heq). injection Heq as _ <-. by eapply of_plan_org.
Qed.

Lemma run_op_row db now id op o db' :
  owners db !! id = Some o -> own_plan o -> run_op db now id op = Ok db' ->
  exists o', row_step o o' /\ (db' = db /\ o' = o \/ db' = AccountOps.save_owner db o').
Proof.
  intros Ho Hown Hrun. unfold run_op, get_by_pk in Hrun. rewrite Ho in Hrun. cbn [mbind result_bind] in Hrun.
  rewrite init_own in Hrun by done. destruct (negb _); [done|]. cbn [mbind result_bind] in Hrun.
  apply bind_Ok_inv in Hrun as ([db1 s1] & Hop & Heq). injection Heq as <-.
  destruct op as [w|w e| | |n c|].
  - unfold start_trial in Hop. destruct (negb _); [done|].
    apply bind_Ok_inv in Hop as ([n s2] & Hn%of_plan_org & Hop). destruct (bool_decide _); [done|].
    injection Hop as <- _. eexists. split; [|right; reflexivity]. rewrite Hn. unfold row_step. cbn. naive_solver.
  - unfold start_trial_manually in Hop. apply bind_Ok_inv in Hop as ([p s2] & Hn%plan_data_org & Hop).
    destruct (PlanOps.is_trial_plan p); [|destruct (negb _); [|done]];
      injection Hop as <- _; (eexists; split; [|right; reflexivity]); rewrite Hn; unfold row_step; cbn; naive_solver.
  - unfold cancel_trial in Hop. apply bind_Ok_inv in Hop as ([b s2] & Hn%is_org_trialing_org & Hop).
    destruct (negb b); [done|]. injection Hop as <- _. eexists. split; [|right; reflexivity].
    rewrite Hn. unfold row_step. cbn. naive_solver.
  - unfold expire_trial_when_upgrading in Hop. cbn in Hop.
    case_bool_decide; [injection Hop as <- _; exists o; split; [unfold row_step; naive_solver|by left]|].
    case_bool_decide; [injection Hop as <- _; exists o; split; [unfold row_step; naive_solver|by left]|].
    injection Hop as <- _. eexists. split; [|right; reflexivity]. unfold row_step. cbn. naive_solver.
  - unfold update_plan in Hop. destruct (negb _); [done|]. destruct (negb _); [done|].
    apply bind_Ok_inv in Hop as (p & _ & Hop). injection Hop as <- _. eexists. split; [|right; reflexivity].
    unfold row_step. cbn. naive_solver.
  - injection Hop as <- _. eexists. split; [|right; reflexivity]. unfold row_step. cbn. naive_solver.
Qed.

(** The trial of the organization was started, now or before. *)
Definition trial_taken (id : Z) (db : Db) : Prop :=
  keyed db /\ exists o, owners db !! id = Some o /\ own_plan o /\ o_trial_status o <> Some NOT_STARTED.

Lemma save_row db j o o' :
  keyed db -> owners db !! j = Some o -> row_step o o' -> keyed (AccountOps.save_owner db o').
Proof.
  intros Hkey Ho (Hid & _) k x. cbn. destruct (decide (k = o_ownerid o')) as [->|Hk].
  - rewrite lookup_insert_eq. by injection 1 as <-.
  - rewrite lookup_insert_ne by done. eauto.
Qed.

Lemma trial_taken_step id db db' : trial_taken id db -> plan_step db db' -> trial_taken id db'.
Proof.
  intros (Hkey & o & Ho & Hown & Hst) Hstep. destruct Hstep as [db db' now j op x Hx Hxown Hrun].
  destruct (run_op_row _ _ _ _ _ _ Hx Hxown Hrun) as (x' & Hrow & [[-> _]| ->]); [split; eauto|].
  split; [by eapply save_row|]. destruct Hrow as (Hid & Hs & Hp & Ht). cbn.
  rewrite Hid, (Hkey _ _ Hx). destruct (decide (id = j)) as [->|Hne].
  - rewrite Hx in Ho. injection Ho as ->. exists x'. rewrite lookup_insert_eq. split; [done|].
    split; [unfold own_plan in *; by rewrite Hs, Hp|]. destruct Ht as [->|[->| ->]]; done.
  - exists o. by rewrite lookup_insert_ne.
Qed.

(** C21: an organization that keeps its own plan (no group inside a GitLab group, whose
    plan is that of the root) starts a trial with [start_trial] once: after it did, and
    whatever was done since to the plans and trials of such organizations, the manual
    starts of an administrator included, a second [start_trial] is refused as a
    validation error (when the plan of the organization is no longer one of the table,
    as an unsupported plan).  An administrator can start a trial again. *)
Theorem trial_once db0 now0 id who db1 db2 now who' o :
  keyed db0 -> owners db0 !! id = Some o -> own_plan o ->
  run_op db0 now0 id (Start_trial who) = Ok db1 ->
  rtc plan_step db1 db2 ->
  exists o', owners db2 !! id = Some o' /\
    run_op db2 now id (Start_trial who') = Err (if plan_exists db2 (o_plan o') then ValidationError else ValueError).
Proof.
  intros Hkey Ho Hown Hrun Hsteps.
  assert (Htaken : trial_taken id db1).
  { unfold run_op, get_by_pk in Hrun. rewrite Ho in Hrun. cbn [mbind result_bind] in Hrun.
    rewrite init_own in Hrun by done. destruct (negb _); [done|]. cbn [mbind result_bind] in Hrun.
    apply bind_Ok_inv in Hrun as ([db' s1] & Hop & Heq). injection Heq as ->.
    unfold start_trial in Hop. destruct (negb _); [done|].
    apply bind_Ok_inv in Hop as ([n s2] & Hn%of_plan_org & Hop). destruct (bool_decide _); [done|].
    cbn [current_org] in Hn. injection Hop as <- _. rewrite Hn.
    assert (Hrow : forall o', row_step o o' -> keyed (AccountOps.save_owner db0 o')) by (intros; by eapply save_row).
    split; [apply Hrow; unfold row_step; cbn; naive_solver|]. cbn. rewrite (Hkey _ _ Ho), lookup_insert_eq.
    eexists. split; [reflexivity|]. by split. }
  clear Hkey Ho Hown Hrun. induction Hsteps as [|x y z Hxy _ IH]; [|by eapply IH, trial_taken_step].
  destruct Htaken as (_ & o' & Ho' & Hown' & Hst). exists o'. split; [done|].
  unfold run_op, get_by_pk. rewrite Ho'. cbn [mbind result_bind].
  rewrite init_own by done. destruct (plan_exists x (o_plan o')); cbn [negb]; [|done]. cbn [mbind result_bind].
  unfold start_trial, trial_status. cbn [current_org]. by rewrite bool_decide_eq_false_2.
Qed.

(** ** The end of a trial *)

Definition trial_plan_row (db : Db) (p : Plan) : Prop := get_one (plan_named db (Some PlanName.TRIAL_PLAN_NAME)) = Ok p.

Lemma plan_named_name db name p : get_one (plan_named db name) = Ok p -> Some (p_name p) = name /\ plan_exists db name = true.
Proof.
  unfold plan_exists, plan_named. destruct (List.filter _ _) as [|q [|]] eqn:Hf; cbn; [done| |done]. injection 1 as ->.
  split; [|done]. assert (Hin : List.In p (List.filter (fun p => bool_decide (Some (p_name p) = name)) (plans db)))
    by (rewrite Hf; by left).
  apply filter_In in Hin as [_ Hin]. by apply bool_decide_eq_true in Hin.
Qed.

(** The organization after its trial. *)
Definition after_trial (now : Z) (o : Owner) : Owner :=
  set_stripe_subscription_id None (set_plan_user_count (Some 1) (set_plan_activated_users None
    (set_plan (Some (DEFAULT_FREE_PLAN st)) (set_trial_end_date (Some now) (set_trial_status (Some EXPIRED) o))))).

Lemma cron_row db now o :
  owners db !! o_ownerid o = Some o -> should_be_expired now o = true -> o_ownerid o ∈ run_cron_task db now.
Proof.
  intros Ho He. unfold run_cron_task. apply list_elem_of_In, in_map_iff. exists o. split; [done|].
  apply list_elem_of_In, elem_of_rows. eauto.
Qed.

Lemma plan_name_row db o p :
  o_account o = None -> get_one (plan_named db (o_plan o)) = Ok p ->
  plan_name db (mkPlanService o None None) = Ok (p_name p, mkPlanService o (Some p) (Some p)).
Proof.
  intros Hacc Hp. unfold plan_name, of_plan, plan_data. cbn [cached_plan _plan_data current_org].
  rewrite Hacc. cbn [mbind result_bind]. rewrite Hp. reflexivity.
Qed.

Lemma plan_name_account db o a acc p :
  o_account o = Some a -> accounts db !! a = Some acc -> get_one (plan_named db (Some (a_plan acc))) = Ok p ->
  plan_name db (mkPlanService o None None) = Ok (p_name p, mkPlanService o (Some p) (Some p)).
Proof.
  intros Hacc Ha Hp. unfold plan_name, of_plan, plan_data, get_by_pk. cbn [cached_plan _plan_data current_org].
  rewrite Hacc, Ha. cbn [mbind result_bind]. rewrite Hp. reflexivity.
Qed.

Lemma cancel_trial_named db s now n s' :
  trial_status s = Some ONGOING -> plan_name db s = Ok (n, s') ->
  cancel_trial st db s now =
  if bool_decide (n = PlanName.TRIAL_PLAN_NAME)
  then Ok (set_default_plan_data st db (mkPlanService (set_trial_end_date (Some now)
             (set_trial_status (Some EXPIRED) (current_org s'))) (_plan_data s') (cached_plan s')))
  else Err ValidationError.
Proof.
  intros Hst Hn. unfold cancel_trial, is_org_trialing. rewrite bool_decide_eq_true_2 by done. rewrite Hn.
  cbn [mbind result_bind]. by destruct (bool_decide _).
Qed.

Lemma trial_task_own db now o :
  owners db !! o_ownerid o = Some o -> own_plan o -> plan_exists db (o_plan o) = true ->
  trial_expiration_task st db now (o_ownerid o) = fst <$> cancel_trial st db (mkPlanService o None None) now.
Proof.
  intros Ho Hown Hex. unfold trial_expiration_task, get_by_pk. rewrite Ho. cbn [mbind result_bind].
  rewrite init_own, Hex by done. cbn [negb mbind result_bind]. by destruct (cancel_trial _ _ _ _) as [[]|].
Qed.

Lemma cron_row_after db o t :
  keyed db -> o_trial_status o <> Some ONGOING -> o_ownerid o ∉ run_cron_task (AccountOps.save_owner db o) t.
Proof.
  intros Hkey Hst Hin. unfold run_cron_task in Hin. apply list_elem_of_In, in_map_iff in Hin as (x & Hid & Hx).
  apply list_elem_of_In, elem_of_rows in Hx as [Hx [k Hk]]. cbn in Hk.
  destruct (decide (k = o_ownerid o)) as [->|Hne].
  - rewrite lookup_insert_eq in Hk. injection Hk as <-. unfold should_be_expired in Hx.
    by rewrite (bool_decide_eq_false_2 (o_trial_status o = Some ONGOING)), andb_false_r in Hx.
  - rewrite lookup_insert_ne in Hk by done. by rewrite (Hkey _ _ Hk) in Hid.
Qed.

(** C20: a trial that ran out is found by the cron job, and the task the job
    queues puts an organization without an account back to the free plan with one
    seat, after which no job finds it again.  With an account that is on another
    plan, the task fails and changes nothing, so that the job finds the trial each
    time it runs. *)
Theorem expired_trial_ends db now now' o p :
  keyed db -> owners db !! o_ownerid o = Some o -> own_plan o -> trial_plan_row db p ->
  should_be_expired now o = true ->
  o_ownerid o ∈ run_cron_task db now /\
  (o_account o = None ->
    trial_expiration_task st db now' (o_ownerid o) = Ok (AccountOps.save_owner db (after_trial now' o)) /\
    forall t, o_ownerid o ∉ run_cron_task (AccountOps.save_owner db (after_trial now' o)) t) /\
  (forall a acc q, o_account o = Some a -> accounts db !! a = Some acc ->
    get_one (plan_named db (Some (a_plan acc))) = Ok q -> a_plan acc <> PlanName.TRIAL_PLAN_NAME ->
    trial_expiration_task st db now' (o_ownerid o) = Err ValidationError).
Proof.
  intros Hkey Ho Hown Hp He. split; [by apply cron_row|].
  unfold should_be_expired in He. apply andb_true_iff in He as [He _].
  apply andb_true_iff in He as [Hplan%bool_decide_eq_true Hst%bool_decide_eq_true].
  destruct (plan_named_name _ _ _ Hp) as [Hname Hex].
  rewrite trial_task_own by (try rewrite Hplan; done). split.
  - intros Hacc. split; [|by intros t; apply (cron_row_after _ (after_trial now' o))]. unfold trial_plan_row in Hp. rewrite <- Hplan in Hp.
    rewrite (cancel_trial_named db (mkPlanService o None None) _ _ _ Hst (plan_name_row _ _ _ Hacc Hp)).
    rewrite bool_decide_eq_true_2 by congruence. reflexivity.
  - intros a acc q Hacc Ha Hq Hne.
    rewrite (cancel_trial_named db (mkPlanService o None None) _ _ _ Hst (plan_name_account _ _ _ _ _ Hacc Ha Hq)).
    destruct (plan_named_name _ _ _ Hq) as [Hqn _].
    by rewrite bool_decide_eq_false_2 by congruence.
Qed.
End trials.

(** ** The theorems on a small database *)

Definition example_owner (id : Z) (sid : string) : Owner :=
  mkOwner id "github" (Some "o") None None None None None None sid None None None (Some "users-developer") (Some 1) (Some true)
    None None None (Some NOT_STARTED) None None 0 None (Some [1]) None false None None None None.
Definition example_tier (t : TierName) : Tier := mkTier t false false false false false.
Definition example_plan (n : string) (t : TierName) (paid : bool) : Plan :=
  mkPlan n n (example_tier t) 0 [] None true None (Some 250) paid None.
Definition example_plans : list Plan :=
  [example_plan "users-developer" BASIC false; example_plan "users-trial" TRIAL false; example_plan "users-pr-inappm" PRO true].
Definition example_db (os : list Owner) (accs : gmap Z Account) : Db :=
  mkDb (list_to_map (map (fun o => (o_ownerid o, o)) os)) ∅ accs ∅ ∅ example_plans 1.
Definition example_settings (env : string) (license : option string) : Settings :=
  mkSettings env license (Some "https://codecov.example") [] true None None false false None None None.

Lemma keyed_example os accs : keyed (example_db os accs).
Proof.
  intros k o. cbn. intros (o' & Heq & _)%elem_of_list_to_map_2%list_elem_of_fmap. by injection Heq as -> ->.
Qed.

Definition org1 : Owner := example_owner 1 "11".
Definition org2 : Owner := example_owner 2 "22".
Definition cloud_settings : Settings := example_settings "PRODUCTION" None.

Lemma trial_once_witness :
  exists db1 db2, run_op cloud_settings (example_db [org1; org2] ∅) 5 1 (Start_trial org2) = Ok db1 /\
    run_op cloud_settings db1 7 1 Cancel_trial = Ok db2 /\
    exists o', owners db2 !! 1 = Some o' /\
      run_op cloud_settings db2 9 1 (Start_trial org2) = Err (if plan_exists db2 (o_plan o') then ValidationError else ValueError).
Proof.
  eexists _, _. split; [vm_compute; reflexivity|]. split; [vm_compute; reflexivity|].
  eapply (trial_once cloud_settings (example_db [org1; org2] ∅) 5 1 org2 _ _ 9 org2 org1).
  - apply keyed_example.
  - reflexivity.
  - reflexivity.
  - vm_compute. reflexivity.
  - eapply rtc_once, (plan_step_op _ _ _ 7 1 Cancel_trial); [vm_compute; reflexivity|reflexivity|vm_compute; reflexivity].
Defined.

(** An administrator starts a second trial after the first one was cancelled. *)
Example second_trial_by_hand :
  (db ← run_op cloud_settings (example_db [org1; org2] ∅) 5 1 (Start_trial org2);
   db ← run_op cloud_settings db 7 1 Cancel_trial;
   db ← run_op cloud_settings db 9 1 (Start_trial_manually org2 20);
   Ok (o_trial_status <$> owners db !! 1)) = Ok (Some (Some ONGOING)).
Proof. vm_compute. reflexivity. Qed.

Definition trialing : Owner :=
  set_trial_end_date (Some 10) (set_trial_status (Some ONGOING) (set_plan (Some "users-trial") org1)).

Lemma expired_trial_ends_witness :
  1 ∈ run_cron_task (example_db [trialing; org2] ∅) 12 /\
  (o_account trialing = None ->
    trial_expiration_task cloud_settings (example_db [trialing; org2] ∅) 13 1
      = Ok (AccountOps.save_owner (example_db [trialing; org2] ∅) (after_trial cloud_settings 13 trialing)) /\
    forall t, 1 ∉ run_cron_task (AccountOps.save_owner (example_db [trialing; org2] ∅) (after_trial cloud_settings 13 trialing)) t) /\
  (forall a acc q, o_account trialing = Some a -> accounts (example_db [trialing; org2] ∅) !! a = Some acc ->
    get_one (plan_named (example_db [trialing; org2] ∅) (Some (a_plan acc))) = Ok q ->
    a_plan acc <> PlanName.TRIAL_PLAN_NAME ->
    trial_expiration_task cloud_settings (example_db [trialing; org2] ∅) 13 1 = Err ValidationError).
Proof.
  apply (expired_trial_ends cloud_settings (example_db [trialing; org2] ∅) 12 13 trialing (example_plan "users-trial" TRIAL false)).
  - apply keyed_example.
  - reflexivity.
  - reflexivity.
  - reflexivity.
  - reflexivity.
Defined.

(** The plan of a service that was read stays what it was when the plan is updated. *)
Example updated_plan_is_stale :
  (s ← snd <$> init (example_db [org1] ∅) org1;
   '(before, s) ← plan_name (example_db [org1] ∅) s;
   '(db, s) ← update_plan (example_db [org1] ∅) s "users-pr-inappm" (Some 5);
   '(after, s) ← plan_name db s;
   Ok (before, after, o_plan (current_org s)))
  = Ok ("users-developer", "users-developer", Some "users-pr-inappm").
Proof. vm_compute. reflexivity. Qed.

(** ... and a service that started a trial cannot cancel it. *)
Example started_trial_is_stale :
  ('(db, s) ← init (example_db [org1] ∅) org1;
   '(db, s) ← start_trial db s 5 org2;
   '(db, s) ← cancel_trial cloud_settings db s 6; Ok tt) = Err ValidationError.
Proof. vm_compute. reflexivity. Qed.

(** ** Seats *)

Definition license_fields : list (string * pyval) :=
  [("users", VStr "1"); ("expires", VStr "2999-01-01 00:00:00"); ("pr_billing", VBool true)].
Definition hosted_settings : Settings := example_settings "ENTERPRISE" (Some (Base64.b64encode
  ("0123456789abcdef" +:+ Standard._pad "some text"))).
Definition example_loads (s : string) : result pyval := Ok (VDict license_fields).

Lemma license_respected_witness :
  exists db', activate_owner (H := plain_crypto) example_loads hosted_settings (example_db [org1; org2] ∅) org2 = Ok db' /\
    seats_taken db' <= 1.
Proof.
  eexists. split; [vm_compute; reflexivity|].
  eapply (license_respected (H := plain_crypto) example_loads hosted_settings 1 0 (example_db [org1; org2] ∅)).
  - reflexivity.
  - vm_compute. reflexivity.
  - apply keyed_example.
  - intros x Hx. replace (activated_ids (example_db [org1; org2] ∅)) with (∅ : gset Z) in Hx by (vm_compute; reflexivity).
    by apply not_elem_of_empty in Hx.
  - vm_compute. discriminate.
  - eapply run_licensed; [|apply run_refl]. apply (step_activate_owner _ _ _ _ org2); [reflexivity|vm_compute; reflexivity].
Defined.

(** The license has one seat; a users endpoint activates another user all the same. *)
Definition student : Owner :=
  mkOwner 3 "github" (Some "s") None None None None None None "33" None None None (Some "users-developer") (Some 1) (Some true)
    None None None (Some NOT_STARTED) None None 0 None (Some [1]) None true None None None None.
Example license_exceeded :
  (db ← activate_owner (H := plain_crypto) example_loads hosted_settings (example_db [org1; org2; student] ∅) org2;
   org ← from_option Ok (Err DoesNotExist) (owners db !! 1);
   can ← OwnerOps.can_activate_user db org student;
   '(db, _, _) ← OwnerOps.activate_user db org student;
   Ok (license_seats (H := plain_crypto) example_loads hosted_settings, can, seats_taken db)) = Ok (Ok 1, true, 2).
Proof. vm_compute. reflexivity. Qed.

(** The account of the first organization has one seat. *)
Definition org1_account : Owner :=
  mkOwner 1 "github" (Some "o") None None None None None None "11" None None None (Some "users-developer") (Some 1) (Some true)
    None None None (Some NOT_STARTED) None None 0 None (Some [1]) None false None None None (Some 7).
Definition accounts_of_seats : gmap Z Account := {[ 7 := mkAccount 7 "acc" true "users-pr-inappm" 1 0 true false ]}.

Lemma cloud_seats_respected_witness :
  exists db', try_auto_activate (example_db [org1_account; org2] accounts_of_seats) (mkCloud org1_account org2) = Ok (db', true) /\
  exists org' : Owner, owners db' !! 1 = Some org' /\
    seats_used db' org' <= seats_of db' org' /\
    in_list 2 (o_plan_activated_users org') = true || in_list 2 (o_plan_activated_users org1_account) /\
    (true = false -> db' = example_db [org1_account; org2] accounts_of_seats).
Proof.
  eexists. split; [vm_compute; reflexivity|].
  apply (cloud_seats_respected (example_db [org1_account; org2] accounts_of_seats) org1_account org2 _ true).
  - apply keyed_example.
  - intros k acc. unfold accounts, example_db, accounts_of_seats. intros [<- <-]%lookup_singleton_Some. reflexivity.
  - reflexivity.
  - reflexivity.
  - cbn. lia.
  - vm_compute. discriminate.
  - vm_compute. reflexivity.
Defined.

(** With the seat taken, the next user is not activated. *)
Example no_seat_left :
  ('(db, b) ← try_auto_activate (example_db [org1_account; org2; example_owner 3 "33"] accounts_of_seats) (mkCloud org1_account org2);
   '(_, b') ← try_auto_activate db (mkCloud org1_account (example_owner 3 "33")); Ok (b, b')) = Ok (true, false).
Proof. vm_compute. reflexivity. Qed.

Definition private_repository : Repository := mkRepository 9 1 "r" (Some true) (Some true) None.
Definition pull_of (author : string) : EnrichedPull :=
  mkPull private_repository (Some (VDict [("author", VDict [("id", VStr author)])])).

Lemma decoration_seats_agree_witness :
  exists db1 d db2 info,
    determine_decoration_details (H := plain_crypto) example_loads cloud_settings 5 (example_db [org1; org2] ∅) [] (Some (pull_of "22")) None = Ok (db1, d) /\
    determine_seat_activation (H := plain_crypto) example_loads cloud_settings (example_db [org1; org2] ∅) (pull_of "22") = Ok (db2, info) /\
    db1 = db2 /\ seat_reason info = "auto_activate".
Proof.
  eexists _, _, _, _. split; [vm_compute; reflexivity|]. split; [vm_compute; reflexivity|].
  refine (conj (proj1 (decoration_seats_agree (H := plain_crypto) example_loads cloud_settings 5 (example_db [org1; org2] ∅) [] (pull_of "22")
    (VDict [("author", VDict [("id", VStr "22")])]) None _ _ _ _ _ _ _ _)) _);
    vm_compute; reflexivity.
Defined.

(** A license without a number of users has no seat for the API; the worker
    compares the count with nothing. *)
Definition unlimited (s : string) : result pyval := Ok (VDict [("expires", VStr "2999-01-01 00:00:00"); ("pr_billing", VBool true)]).
Example unlimited_license_api :
  activate_owner (H := plain_crypto) unlimited hosted_settings (example_db [org1; org2] ∅) org2 = Err LicenseException.
Proof. vm_compute. reflexivity. Qed.
Example unlimited_license_worker :
  activate_user (H := plain_crypto) unlimited hosted_settings 5 (example_db [org1; org2] ∅) 1 2 = Err TypeError.
Proof. vm_compute. reflexivity. Qed.

(** A user is not taken off an account when an organization of it never had an
    activated user. *)
Example deactivation_fails_on_null_list :
  OwnerOps.deactivate_user (example_db [org1_account; org2] accounts_of_seats) org1_account (set_user (Some 5) org2) = Err TypeError.
Proof. vm_compute. reflexivity. Qed.
