(* ===== verification/Bots.v ===== *)
(** * Tokens and app installations

    [libs/shared/shared/bots/], [shared/github/__init__.py] and
    [shared/rate_limits/__init__.py]: which installation of a GitHub app, bot or
    configured token is used to talk to a provider.  The random choice, Redis, the
    clock and the endpoint that gives tokens are an interface. *)
From S2P Require Export Effects Config Accounts Encryption PyStr.

#[local] Open Scope string_scope.
#[local] Open Scope list_scope.
#[local] Open Scope Z_scope.

(** ** The data *)

(** A token is a dictionary: [key], [username], [entity_name].  A configured token is
    the dictionary of the configuration itself, where its entity is written. *)
Definition token : Type := odict string pyval.
Inductive token_ref : Type := Own (t : token) | Configured (path : list string).

Record GithubInstallationInfo : Type := mkInfo {
  ii_id : option Z;              (* missing for [Owner.integration_id] *)
  ii_installation_id : Z; ii_app_id : option Z; ii_pem_path : option string;
}.

Record App : Type := mkApp { app_installation : GithubAppInstallation; app_created_at : Z }.
Definition app_id (a : App) : Z := gi_id (app_installation a).

(** What is read of an owner, of its bot, and of a repository. *)
Record BotOwner : Type := mkBotOwner {
  bo_ownerid : Z; bo_service : string; bo_username : option string; bo_oauth_token : option string;
  bo_integration_id : option Z;
}.
Record OwnerWithBot : Type := mkOwnerWithBot { ow_owner : BotOwner; ow_bot : option BotOwner }.
Record BotRepository : Type := mkBotRepository {
  br_repository : Repository; br_service : string; br_using_integration : bool; br_bot : option BotOwner;
  br_owner : OwnerWithBot;
}.

Inductive TokenType : Set := t_read | t_admin | t_comment | t_status | t_tokenless | t_commit | t_pull.
#[export] Instance TokenType_eq_dec : EqDecision TokenType.
Proof. solve_decision. Defined.
Definition TokenType_value (t : TokenType) : string :=
  match t with
  | t_read => "read" | t_admin => "admin" | t_comment => "comment" | t_status => "status"
  | t_tokenless => "tokenless" | t_commit => "commit" | t_pull => "pull"
  end.

Record AdapterAuthInformation : Type := mkAuth {
  aa_token : token_ref; aa_token_owner : option BotOwner;
  aa_selected_installation_info : option GithubInstallationInfo;
  aa_fallback_installations : option (list GithubInstallationInfo);
  aa_token_type_mapping : option (odict TokenType (option token_ref));
}.

(** ** [shared/rate_limits] *)

Definition gh_app_key_name (installation_id : Z) (app : option Z) : string :=
  match app with
  | None => "default_app_" +:+ str_of_Z installation_id
  | Some a => str_of_Z a +:+ "_" +:+ str_of_Z installation_id
  end.
Definition owner_key_name (owner_id : Z) : string := str_of_Z owner_id.
Definition default_bot_key_name : string := "github_bot".

(** ** [shared/github] *)

(** The answer of the endpoint for tokens. *)
Record token_response : Type := mkTokenResponse {
  tr_status_code : Z; tr_message : option string; tr_rate_limit_headers : bool; tr_token : option string;
}.

Definition decide_installation_error_cause (r : token_response) : installation_error_cause :=
  let is_suspended := bool_decide (tr_message r = Some "This installation has been suspended") in
  if tr_status_code r =? 401 then requires_authentication
  else if tr_status_code r =? 404 then installation_not_found
  else if tr_status_code r =? 422 then validation_failed_or_spammed
  else if tr_status_code r =? 403 then
    if is_suspended then installation_suspended else if tr_rate_limit_headers r then rate_limit else permission_error
  else unknown_error.

(** What a cached token is kept under: the positional arguments and those by name. *)
Definition token_key : Type := (string * Z * odict string pyval)%type.

Class BotServices (W : Type) : Type := {
  now : W -> Z;
  configuration : W -> pyval;                          (* see [Config.params] *)
  set_configuration : pyval -> W -> W;
  redis_exists : string -> prog W (option bool);       (* [None]: a [RedisError] *)
  redis_set_rate_limited : string -> Z -> prog W unit; (* [RedisError]s are logged *)
  choices : list Z -> list Z -> prog W Z;              (* [random.choices(keys, weights, k=1)[0]] *)
  github_jwt : string -> pyval -> pyval -> prog W string;  (* of a service, an app and the path of its key *)
  post_access_token : string -> Z -> string -> prog W token_response;
  cached_token : token_key -> prog W (option string);
  cache_token : token_key -> string -> prog W unit;
  installations : W -> list App;
  set_installations : list App -> W -> W;
  clear_integration_id : Z -> W -> W;                  (* of the owners that have it *)
}.

Section bots.
Context {W : Type} `{BotServices W} `{Crypto}.
Variable enterprise : bool.
Variable encryptor : Divider.t.
Variable is_configured : GithubAppInstallation -> bool.  (* of the model in use *)
Variable validate_dedicated_app : pyval -> option (string * Z).  (* its id and installation *)

(** [get_config], and the token it gives: a reference unless it is missing or empty. *)
Definition config_at (path : list string) (dflt : pyval) : prog W pyval := read (fun w => get_config (configuration w) path dflt).
Definition value_of (r : token_ref) (w : W) : pyval :=
  match r with Own t => VDict t | Configured p => get_config (configuration w) p VNone end.

(** [token["entity_name"] = name], on the dictionary at a path. *)
Fixpoint assign_at (path : list string) (k : string) (v cur : pyval) : pyval :=
  match cur with
  | VDict d =>
      match path with
      | [] => VDict (od_set k v d)
      | c :: path => match od_get c d with Some w => VDict (od_set c (assign_at path k v w) d) | None => cur end
      end
  | _ => cur
  end.
Definition set_entity_name (path : list string) (name : string) : prog W unit :=
  modify (fun w => set_configuration (assign_at path "entity_name" (VStr name) (configuration w)) w).

Definition determine_if_entity_is_rate_limited (key_name : string) : prog W bool :=
  e ← redis_exists ("rate_limited_entity_" +:+ key_name); mret (default false e).

Definition set_entity_to_rate_limited (key_name : string) (ttl_seconds : Z) : prog W unit :=
  if ttl_seconds <=? 0 then mret tt else redis_set_rate_limited ("rate_limited_entity_" +:+ key_name) ttl_seconds.

Definition fetch_integration_token (service : string) (integration_id : Z) (app pem_path : pyval) : prog W string :=
  jwt ← github_jwt service app pem_path;
  if integration_id =? 0 then mret jwt
  else
    res ← post_access_token service integration_id jwt;
    if bool_decide (tr_status_code res ∈ [401; 403; 404; 422]) then
      raise (Bot (InvalidInstallationError (decide_installation_error_cause res)))
    else if 400 <=? tr_status_code res then raise (HTTPError (tr_status_code res))
    else match tr_token res with Some t => mret t | None => raise (Raised KeyError) end.

(** [@cache.cache_function(ttl=1800)] *)
Definition get_github_integration_token (service : string) (integration_id : Z) (kwargs : odict string pyval) : prog W string :=
  let key := (service, integration_id, kwargs) in
  cached ← cached_token key;
  match cached with
  | Some t => mret t
  | None => t ← fetch_integration_token service integration_id (default VNone (od_get "app_id" kwargs)) (default VNone (od_get "pem_path" kwargs)); _ ← cache_token key t; mret t
  end.

(** ** [bots/github_apps.py] *)

Definition MAX_GITHUB_APP_SELECTION_WEIGHT : Z := 1200.

(** The age is a [timedelta]: days, and seconds of a day. *)
Definition _get_installation_weight (time : Z) (a : App) : Z :=
  let age := time - app_created_at a in
  let days := age / DAY in
  let seconds := age mod DAY / SECOND in
  if 10 <=? days then MAX_GITHUB_APP_SELECTION_WEIGHT
  else 1 `max` (seconds / 3600 + days * 24 + 2 ^ days).

Definition _can_use_this_app (installation_name : string) (repository : option Repository) (a : App) : bool :=
  let i := app_installation a in
  bool_decide (gi_name i = installation_name) && is_configured i
  && match repository with None => true | Some r => GithubAppInstallationOps.is_repo_covered_by_integration i r end.

(** The apps by their id; [{obj.id: obj for obj in ...}]. *)
Definition by_id (apps : list App) : odict Z App := od_of_list (map (fun a => (app_id a, a)) apps).

(** [keys.index(k)], and both lists without what is there. *)
Fixpoint pop_key (k : Z) (kws : list (Z * Z)) : result (list (Z * Z)) :=
  match kws with
  | [] => Err ValueError
  | kw :: kws => if kw.1 =? k then Ok kws else rest ← pop_key k kws; Ok (kw :: rest)
  end.

(** The loop, over the keys with their weights; [n] is [apps_to_select] less the selections. *)
Fixpoint select_apps (n : nat) (apps : odict Z App) (kws : list (Z * Z)) : prog W (list App) :=
  match n with
  | O => mret []
  | S n =>
      selected_app_id ← choices (map fst kws) (map snd kws);
      match od_get selected_app_id apps with
      | None => raise (Raised KeyError)
      | Some a => kws ← lift (pop_key selected_app_id kws); rest ← select_apps n apps kws; mret (a :: rest)
      end
  end.

Definition apps_of (owner : BotOwner) (w : W) : list App :=
  List.filter (fun a => gi_owner (app_installation a) =? bo_ownerid owner) (installations w).

Definition _get_apps_from_weighted_selection (owner : BotOwner) (installation_name : string) (repository : option Repository) :
    prog W (list App) :=
  mine ← read (apps_of owner);
  time ← read now;
  let apps := by_id (List.filter (_can_use_this_app installation_name repository) mine) in
  let kws := map (fun ka : Z * App => (ka.1, MAX_GITHUB_APP_SELECTION_WEIGHT `min` _get_installation_weight time ka.2)) apps in
  apps_to_consider ← select_apps (length kws) apps kws;
  mret (if bool_decide (installation_name = GITHUB_APP_INSTALLATION_DEFAULT_NAME) then apps_to_consider
        else apps_to_consider ++ List.filter (_can_use_this_app GITHUB_APP_INSTALLATION_DEFAULT_NAME repository) mine).

Definition suspend (a : App) : App :=
  let i := app_installation a in
  mkApp (mkInstallation (gi_id i) (gi_installation_id i) (gi_name i) (gi_repository_service_ids i) (gi_app_id i) (gi_pem_path i)
           true (gi_owner i)) (app_created_at a).

Definition handle_invalid_installation (info : GithubInstallationInfo) (cause : installation_error_cause) : prog W unit :=
  match ii_id info with
  | Some id =>
      match cause with
      | installation_suspended =>
          modify (fun w => set_installations (map (fun a => if app_id a =? id then suspend a else a) (installations w)) w)
      | installation_not_found =>
          modify (fun w => set_installations (List.filter (fun a => negb (app_id a =? id)) (installations w)) w)
      | _ => mret tt
      end
  | None => modify (clear_integration_id (ii_installation_id info))
  end.

(** [str(app_id) if app_id else None] *)
Definition app_id_text (app : option Z) : pyval :=
  match app with None | Some 0 => VNone | Some a => VStr (str_of_Z a) end.
Definition opt_text (o : option string) : pyval := match o with Some s => VStr s | None => VNone end.

Definition get_github_app_token (service : string) (info : GithubInstallationInfo) : prog W (token_ref * option BotOwner) :=
  try_except
    (t ← get_github_integration_token service (ii_installation_id info)
            [("app_id", app_id_text (ii_app_id info)); ("pem_path", opt_text (ii_pem_path info))];
     mret (Own [("key", VStr t); ("username", VStr ("installation_" +:+ str_of_Z (ii_installation_id info)));
                ("entity_name", VStr (gh_app_key_name (ii_installation_id info) (ii_app_id info)))], None))
    (fun f => match f with
              | Bot (InvalidInstallationError cause) => Some (_ ← handle_invalid_installation info cause; raise f)
              | _ => None
              end).

Definition info_of (a : App) : GithubInstallationInfo :=
  let i := app_installation a in mkInfo (Some (gi_id i)) (gi_installation_id i) (gi_app_id i) (gi_pem_path i).

Definition get_specific_github_app_details (owner : BotOwner) (github_app_id : Z) : prog W GithubInstallationInfo :=
  mine ← read (apps_of owner);
  match List.find (fun a => app_id a =? github_app_id) mine with
  | Some a => mret (info_of a)
  | None => raise (Bot RequestedGithubAppNotFound)
  end.

Definition key_of (a : App) : string :=
  gh_app_key_name (gi_installation_id (app_installation a)) (gi_app_id (app_installation a)).

Definition _filter_rate_limited_apps (apps : list App) : prog W (list App) :=
  filterP (fun a => limited ← determine_if_entity_is_rate_limited (key_of a); mret (negb limited)) apps.
Definition _filter_suspended_apps (apps : list App) : list App :=
  List.filter (fun a => negb (gi_is_suspended (app_installation a))) apps.

Definition services : list string :=
  ["github"; "gitlab"; "bitbucket"; "github_enterprise"; "gitlab_enterprise"; "bitbucket_server"].
(** [Service(value)] *)
Definition Service (value : string) : result string := if bool_decide (value ∈ services) then Ok value else Err ValueError.
Definition is_github (service : string) : bool := bool_decide (service ∈ ["github"; "github_enterprise"]).

Definition integration_of (o : BotOwner) : option Z := match bo_integration_id o with Some 0 => None | i => i end.

Definition get_github_app_info_for_owner (owner : BotOwner) (repository : option BotRepository) (installation_name : string) :
    prog W (list GithubInstallationInfo) :=
  service ← lift (Service (bo_service owner));
  if negb (is_github service) then mret []
  else
    apps ← _get_apps_from_weighted_selection owner installation_name (br_repository <$> repository);
    not_limited ← _filter_rate_limited_apps apps;
    let usable := _filter_suspended_apps not_limited in
    let count {A} (l : list A) := Z.of_nat (length l) in
    match usable with
    | _ :: _ => mret (map info_of usable)
    | [] =>
        if 0 <? count apps then
          raise (Bot (NoConfiguredApps (count apps) (count apps - count not_limited) (count not_limited - count usable)))
        else
          mret (match integration_of owner with
                | Some i => if match repository with None => true | Some r => br_using_integration r end
                            then [mkInfo None i None None] else []
                | None => []
                end)
    end.

(** ** [bots/owner_bots.py], [bots/repo_bots.py] *)

Definition get_owner_or_appropriate_bot (owner : OwnerWithBot) : BotOwner + bot_error :=
  match ow_bot owner with
  | Some bot => if bool_decide (bo_oauth_token bot <> None) then inl bot
                else if bool_decide (bo_oauth_token (ow_owner owner) <> None) then inl (ow_owner owner) else inr OwnerWithoutValidBotError
  | None => if bool_decide (bo_oauth_token (ow_owner owner) <> None) then inl (ow_owner owner) else inr OwnerWithoutValidBotError
  end.

Definition token_dict (t : Token.t) : token :=
  [("key", VStr (Token.key t)); ("secret", opt_text (Token.secret t)); ("refresh_token", opt_text (Token.refresh_token t))].

Definition decrypt (o : BotOwner) : result token :=
  match bo_oauth_token o with Some s => t ← Divider.decrypt_token encryptor s; Ok (token_dict t) | None => Err TypeError end.

Definition get_owner_appropriate_bot_token (owner : OwnerWithBot) (info : option GithubInstallationInfo) :
    prog W (token_ref * option BotOwner) :=
  match info with
  | Some info => service ← lift (Service (bo_service (ow_owner owner))); get_github_app_token service info
  | None =>
      match get_owner_or_appropriate_bot owner with
      | inl o => t ← lift (decrypt o); mret (Own (od_set "entity_name" (VStr (owner_key_name (bo_ownerid o))) t), Some o)
      | inr e => raise (Bot e)
      end
  end.

(** [RepositoryWithoutValidBotError] in the place of the owner's. *)
Definition get_repo_appropriate_bot (repo : BotRepository) : BotOwner + bot_error :=
  let of_owner := match get_owner_or_appropriate_bot (br_owner repo) with
                  | inr OwnerWithoutValidBotError => inr RepositoryWithoutValidBotError
                  | r => r
                  end in
  match br_bot repo with
  | Some bot => if bool_decide (bo_oauth_token bot <> None) then inl bot else of_owner
  | None => of_owner
  end.

(** ** [bots/public_bots.py], [bots/helpers.py] *)

Definition get_public_bot_token (service : string) : prog W (token_ref * option BotOwner) :=
  public_bot_dict ← config_at [service; "bot"] VNone;
  specific ← read (fun w => path_get (configuration w) [service; "bots"; "tokenless"]);
  let path := match specific with Some _ => [service; "bots"; "tokenless"] | None => [service; "bot"] end in
  match default public_bot_dict specific with
  | VDict d =>
      if truthy (default VNone (od_get "key" d)) then _ ← set_entity_name path "tokenless_bot"; mret (Configured path, None)
      else raise (Bot RepositoryWithoutValidBotError)
  | v => if truthy v then raise (Raised AttributeError) else raise (Bot RepositoryWithoutValidBotError)
  end.

Definition get_repo_particular_bot_token (repo : BotRepository) : prog W (token_ref * option BotOwner) :=
  match get_repo_appropriate_bot repo with
  | inl o =>
      t ← lift (decrypt o);
      mret (Own (od_set "entity_name" (VStr (owner_key_name (bo_ownerid o))) (od_set "username" (opt_text (bo_username o)) t)), Some o)
  | inr e => raise (Bot e)
  end.

Definition is_private (repo : BotRepository) : bool := default false (r_private (br_repository repo)).

Definition get_repo_appropriate_bot_token (repo : BotRepository) (info : option GithubInstallationInfo) :
    prog W (token_ref * option BotOwner) :=
  service ← lift (Service (br_service repo));
  configured ← config_at [br_service repo; "bot"] VNone;
  if enterprise && truthy configured then get_public_bot_token service
  else match info with
       | Some info => get_github_app_token service info
       | None =>
           try_except (get_repo_particular_bot_token repo)
             (fun f => match f with
                       | Bot RepositoryWithoutValidBotError =>
                           if is_private repo then None else Some (get_public_bot_token service)
                       | _ => None
                       end)
       end.

(** [helpers.get_github_integration_token] has an error of its own. *)
Definition helpers_integration_token (service : string) (installation_id : Z) (app pem_path : string) : prog W string :=
  try_except (get_github_integration_token service installation_id
                [("integration_id", VInt installation_id); ("app_id", VStr app); ("pem_path", VStr pem_path)])
    (fun f => match f with Bot (InvalidInstallationError _) => Some (raise (Bot RepositoryWithoutValidBotError)) | _ => None end).

Definition get_dedicated_app_token_from_config (service : string) (t : TokenType) : prog W (option token) :=
  c ← config_at [service; "dedicated_apps"; TokenType_value t] (VDict []);
  match validate_dedicated_app c with
  | None => mret None
  | Some (id, installation_id) =>
      key ← helpers_integration_token service installation_id id
              ("yaml+file://" +:+ service +:+ ".dedicated_apps." +:+ TokenType_value t +:+ ".pem");
      mret (Some [("key", VStr key); ("username", VStr (TokenType_value t +:+ "_dedicated_app"));
                  ("entity_name", VStr (TokenType_value t))])
  end.

(** A token of the configuration; [None] when it is missing or empty. *)
Definition configured_token (path : list string) : prog W (option token_ref) :=
  v ← config_at path VNone; mret (if truthy v then Some (Configured path) else None).

Definition get_token_type_from_config (service : string) (t : TokenType) : prog W (option token_ref) :=
  dedicated ← (if is_github service then get_dedicated_app_token_from_config service t else mret None);
  match dedicated with
  | Some d => mret (Some (Own d))
  | None =>
      let path := [service; "bots"; TokenType_value t] in
      v ← config_at path VNone;
      match v with
      | VDict (_ :: _) => _ ← set_entity_name path (TokenType_value t); mret (Some (Configured path))
      | v => if truthy v then raise (Raised TypeError) else mret None
      end
  end.

(** [admin or ...]; the token of an owner is never empty. *)
Definition or_else (admin : option token_ref) (m : prog W (option token_ref)) : prog W (option token_ref) :=
  match admin with Some t => mret (Some t) | None => m end.

Definition get_token_type_mapping (repo : BotRepository) (admin_bot_token : option token_ref) :
    prog W (option (odict TokenType (option token_ref))) :=
  if is_private repo then mret None
  else
    let service := br_service repo in
    comment ← configured_token [service; "bots"; "comment"];
    status ← or_else admin_bot_token (configured_token [service; "bots"; "status"]);
    others ← mapP (fun t => v ← or_else admin_bot_token (get_token_type_from_config service t); mret (t, v))
               [t_read; t_tokenless; t_commit; t_pull];
    mret (Some ([(t_admin, admin_bot_token); (t_comment, comment); (t_status, status)] ++ others)).

(** ** [get_adapter_auth_information] *)

Definition get_adapter_auth_information (owner : OwnerWithBot) (repository : option BotRepository) (ignore_installations : bool)
    (installation_name : string) : prog W AdapterAuthInformation :=
  service ← lift (Service (bo_service (ow_owner owner)));
  available ← (if is_github service && negb ignore_installations
               then get_github_app_info_for_owner (ow_owner owner) repository installation_name else mret []);
  let '(info, fallback) := match available with i :: l => (Some i, Some l) | [] => (None, None) end in
  match repository with
  | Some repo =>
      '(t, o) ← get_repo_appropriate_bot_token repo info;
      mapping ← (if bool_decide (is_Some info) then mret None
                 else get_token_type_mapping repo (if bool_decide (is_Some o) then Some t else None));
      mret (mkAuth t o info fallback mapping)
  | None => '(t, o) ← get_owner_appropriate_bot_token owner info; mret (mkAuth t o info fallback None)
  end.

(** [determine_entity_redis_key]: [None] when the token has no entity. *)
Definition determine_entity_redis_key (owner : option OwnerWithBot) (repository : option BotRepository) : prog W (option pyval) :=
  match owner with
  | None => mret (Some (VStr default_bot_key_name))
  | Some owner =>
      auth ← get_adapter_auth_information owner repository false GITHUB_APP_INSTALLATION_DEFAULT_NAME;
      value ← read (value_of (aa_token auth));
      entity ← lift (dict_get value "entity_name" VNone);
      mret (if truthy entity then Some entity else None)
  end.
End bots.

(** * What the choice of a token promises

    The installations that are given are, in some order, those that can be used; a
    private repository is read with an installation or the token of its own bots. *)

#[local] Open Scope string_scope.
#[local] Open Scope list_scope.
#[local] Open Scope Z_scope.

(** The choice is one of the keys it is given; looking at Redis and choosing change
    nothing that matters here. *)
Class BotLaws (W : Type) `{BotServices W} : Type := {
  limited : W -> string -> option bool;
  redis_exists_reads : forall k w, redis_exists k w = (inl (limited w k), w);
  choices_choose : forall keys weights w, keys <> [] -> length weights = length keys -> Forall (fun n => 1 <= n) weights ->
    exists k w', choices keys weights w = (inl k, w') /\ k ∈ keys /\ installations w' = installations w /\ limited w' = limited w;
}.

(** ** Weights *)

(** The weight of an installation is between one and the most, and never less for an
    older one. *)
Lemma weight_bounds {W} `{BotServices W} time (a : App) : 1 <= _get_installation_weight time a <= MAX_GITHUB_APP_SELECTION_WEIGHT.
Proof.
  unfold _get_installation_weight, MAX_GITHUB_APP_SELECTION_WEIGHT. set (age := time - app_created_at a).
  destruct (Z.leb_spec 10 (age / DAY)) as [_|Hd]; [lia|].
  pose proof (Z.mod_pos_bound age DAY ltac:(done)) as Hm.
  assert (Hs : age mod DAY / SECOND < 86400) by (apply Z.div_lt_upper_bound; [done|]; unfold DAY, SECOND in *; lia).
  assert (Hh : age mod DAY / SECOND / 3600 <= 23) by (assert (age mod DAY / SECOND / 3600 < 24); [apply Z.div_lt_upper_bound; lia|lia]).
  destruct (Z.neg_nonneg_cases (age / DAY)) as [Hn|Hn]; [rewrite (Z.pow_neg_r 2) by done; lia|].
  pose proof (Z.pow_le_mono_r 2 (age / DAY) 9 ltac:(done) ltac:(lia)). lia.
Qed.

Section selection.
Context {W : Type} `{BotLaws W}.

(** Nothing that the choice of an installation reads has changed. *)
Definition same (w w' : W) : Prop := installations w' = installations w /\ limited w' = limited w.
Lemma same_trans w w' w'' : same w w' -> same w' w'' -> same w w''.
Proof. unfold same. intuition congruence. Qed.

Lemma pop_key_spec k (kws : list (Z * Z)) :
  k ∈ map fst kws -> exists v kws', pop_key k kws = Ok kws' /\ kws ≡ₚ (k, v) :: kws'.
Proof.
  induction kws as [|[k' v] kws IH]; cbn; [by intros ?%elem_of_nil|]. intros [->|Hin]%elem_of_cons.
  - exists v, kws. by rewrite Z.eqb_refl.
  - destruct (Z.eqb_spec k' k) as [->|_]; [by exists v, kws|]. destruct (IH Hin) as (v' & kws' & -> & Hp). cbn.
    exists v', ((k', v) :: kws'). split; [done|]. rewrite Hp. apply Permutation_swap.
Qed.

Definition found (apps : odict Z App) (keys : list Z) : list App := omap (fun k => od_get k apps) keys.

Lemma select_apps_run apps (kws : list (Z * Z)) w :
  Forall (fun kw => is_Some (od_get kw.1 apps) /\ 1 <= kw.2) kws ->
  exists l w', select_apps (length kws) apps kws w = (inl l, w') /\ l ≡ₚ found apps (map fst kws) /\ same w w'.
Proof.
  remember (length kws) as n eqn:Hn. revert kws w Hn. induction n as [|n IH]; intros kws w Hn Hall.
  { destruct kws; [|done]. by exists [], w. }
  cbn [select_apps]. destruct (choices_choose (map fst kws) (map snd kws) w) as (k & w1 & Hc & Hk & Hs).
  { by destruct kws. } { by rewrite !length_map. } { apply Forall_fmap. eapply Forall_impl; [done|]. by intros ? []. }
  rewrite (run_bind _ _ _ _ _ Hc). destruct (pop_key_spec _ _ Hk) as (v & kws' & Hp & Hperm).
  pose proof Hall as Hall'. rewrite Hperm in Hall'. apply Forall_cons in Hall' as [[[a Ha] _] Hall']. cbn in Ha. rewrite Ha.
  rewrite run_bind_lift, Hp. destruct (IH kws' w1) as (l & w2 & Hr & Hl & Hs'); [|done|].
  { apply Permutation_length in Hperm. cbn in Hperm. lia. }
  rewrite (run_bind _ _ _ _ _ Hr). exists (a :: l), w2. split; [done|]. split; [|by eapply same_trans].
  unfold found. rewrite Hperm. cbn. by rewrite Ha, Hl.
Qed.

Lemma by_id_map (l : list App) : NoDup (map app_id l) -> by_id l = map (fun a => (app_id a, a)) l.
Proof. intros Hnd. unfold by_id. apply od_of_list_id. unfold od_wf, od_keys. by rewrite <- list_fmap_compose. Qed.

Lemma found_all (l : list App) :
  NoDup (map app_id l) -> found (map (fun a => (app_id a, a)) l) (map app_id l) = l.
Proof.
  intros Hnd. unfold found. assert (Hget : forall a, a ∈ l -> od_get (app_id a) (map (fun a => (app_id a, a)) l) = Some a).
  { intros a Ha. apply od_elem_get.
    - unfold od_wf, od_keys. by rewrite <- list_fmap_compose.
    - by apply (list_elem_of_fmap_2 (fun a => (app_id a, a))). }
  clear Hnd. revert Hget. generalize (map (fun a => (app_id a, a)) l) as d. intros d. induction l as [|a l IH]; intros Hget; [done|].
  cbn. rewrite (Hget a) by left. f_equal. apply IH. intros b Hb. apply Hget. by right.
Qed.

Variable is_configured : GithubAppInstallation -> bool.

(** An installation of the owner with this name that is configured and covers the
    repository: the repositories it lists, or those of its owner when it lists none. *)
Definition suited (owner : BotOwner) (name : string) (repository : option Repository) (w : W) (a : App) : Prop :=
  let i := app_installation a in
  a ∈ installations w /\ gi_owner i = bo_ownerid owner /\ gi_name i = name /\ is_configured i = true /\
  match repository with
  | None => True
  | Some r => match gi_repository_service_ids i with None => r_author r = gi_owner i | Some ids => r_service_id r ∈ ids end
  end.

(** The installations that suit, each once. *)
Definition all_suited (owner : BotOwner) (name : string) (repository : option Repository) (w : W) (l : list App) : Prop :=
  NoDup l /\ forall a, a ∈ l <-> suited owner name repository w a.

Lemma suited_can owner name repository w a :
  a ∈ List.filter (_can_use_this_app is_configured name repository) (apps_of owner w) <-> suited owner name repository w a.
Proof.
  rewrite list_elem_of_In, filter_In. unfold apps_of. rewrite filter_In, <- list_elem_of_In, Z.eqb_eq.
  unfold _can_use_this_app, suited. rewrite !andb_true_iff, bool_decide_eq_true. cbn zeta.
  assert (Hcov : match repository with None => true | Some r => GithubAppInstallationOps.is_repo_covered_by_integration (app_installation a) r end = true
    <-> match repository with
        | None => True
        | Some r => match gi_repository_service_ids (app_installation a) with
                    | None => r_author r = gi_owner (app_installation a) | Some ids => r_service_id r ∈ ids end
        end).
  { destruct repository as [r|]; [|done]. unfold GithubAppInstallationOps.is_repo_covered_by_integration.
    destruct (gi_repository_service_ids _); [by rewrite bool_decide_eq_true|apply Z.eqb_eq]. }
  rewrite Hcov. tauto.
Qed.

Lemma filter_NoDup {A B} (f : A -> B) (p : A -> bool) (l : list A) : NoDup (map f l) -> NoDup (map f (List.filter p l)).
Proof.
  induction l as [|a l IH]; cbn; [done|]. intros [Hn Hnd]%NoDup_cons. destruct (p a); cbn; [|by apply IH].
  apply NoDup_cons. split; [|by apply IH]. intros (b & Hb & Hin)%list_elem_of_fmap. apply Hn.
  apply list_elem_of_In, filter_In in Hin as [Hin _]. rewrite Hb. by apply list_elem_of_fmap_2, list_elem_of_In.
Qed.

Lemma all_suited_can owner name repository w l :
  NoDup (map app_id (installations w)) ->
  l ≡ₚ List.filter (_can_use_this_app is_configured name repository) (apps_of owner w) -> all_suited owner name repository w l.
Proof.
  intros Hnd Hl. split.
  - rewrite Hl. apply (NoDup_fmap_1 app_id). unfold apps_of. by repeat apply filter_NoDup.
  - intros a. rewrite Hl. apply suited_can.
Qed.

(** The installations with the name asked for come first, those with the default one, when
    it is another, after them. *)
Lemma selection_run owner name repository w :
  NoDup (map app_id (installations w)) ->
  exists asked fallback w', _get_apps_from_weighted_selection is_configured owner name repository w = (inl (asked ++ fallback), w') /\
    all_suited owner name repository w asked /\
    (if bool_decide (name = GITHUB_APP_INSTALLATION_DEFAULT_NAME) then fallback = []
     else all_suited owner GITHUB_APP_INSTALLATION_DEFAULT_NAME repository w fallback) /\ same w w'.
Proof.
  intros Hnd. unfold _get_apps_from_weighted_selection. set (mine := apps_of owner w).
  rewrite (run_bind (read (apps_of owner)) _ mine w w eq_refl), (run_bind (read now) _ (now w) w w eq_refl).
  set (can := List.filter (_can_use_this_app is_configured name repository) mine).
  assert (Hcan : NoDup (map app_id can)) by (unfold can, mine, apps_of; by repeat apply filter_NoDup).
  cbn beta zeta. rewrite (by_id_map _ Hcan). set (apps := map (fun a => (app_id a, a)) can).
  set (kws := map _ apps). assert (Hk : map fst kws = map app_id can).
  { unfold kws, apps. by rewrite !map_map. }
  destruct (select_apps_run apps kws w) as (l & w' & Hr & Hl & Hs).
  { unfold kws, apps. rewrite map_map. apply Forall_fmap, Forall_forall. intros a Ha. cbn. split.
    - rewrite <- (found_all _ Hcan) in Ha. eexists. apply od_elem_get.
      + unfold od_wf, od_keys. by rewrite <- list_fmap_compose.
      + rewrite (found_all _ Hcan) in Ha. by apply (list_elem_of_fmap_2 (fun a => (app_id a, a))).
    - pose proof (weight_bounds (now w) a). unfold MAX_GITHUB_APP_SELECTION_WEIGHT in *. lia. }
  rewrite (run_bind _ _ _ _ _ Hr). rewrite Hk in Hl. unfold apps in Hl. rewrite (found_all _ Hcan) in Hl.
  pose proof (all_suited_can owner name repository w l Hnd Hl) as Hasked.
  case_bool_decide; [exists l, [], w'; by rewrite app_nil_r|]. eexists l, _, w'. split; [done|]. split; [done|]. split; [|done].
  by apply all_suited_can.
Qed.

(** An installation that GitHub was seen to limit, and one that can be used now. *)
Definition app_limited (w : W) (a : App) : bool := default false (limited w ("rate_limited_entity_" +:+ key_of a)).
Definition usable (w : W) (a : App) : bool := negb (app_limited w a) && negb (gi_is_suspended (app_installation a)).

Lemma not_limited_run a w :
  (b ← determine_if_entity_is_rate_limited (key_of a); mret (negb b)) w = (inl (negb (app_limited w a)), w).
Proof. unfold determine_if_entity_is_rate_limited, app_limited, mbind, prog_bind. by rewrite redis_exists_reads. Qed.

Lemma filter_limited_run (apps : list App) w :
  _filter_rate_limited_apps apps w = (inl (List.filter (fun a => negb (app_limited w a)) apps), w).
Proof.
  induction apps as [|a apps IH]; [done|]. unfold _filter_rate_limited_apps in *. cbn [filterP List.filter].
  rewrite (run_bind _ _ _ _ _ (not_limited_run a w)), (run_bind _ _ _ _ _ IH). by destruct (negb (app_limited w a)).
Qed.

(** The legacy installation of an owner. *)
Definition legacy (owner : BotOwner) (repository : option BotRepository) : list GithubInstallationInfo :=
  match integration_of owner with
  | Some i => if match repository with None => true | Some r => br_using_integration r end then [mkInfo None i None None] else []
  | None => []
  end.
End selection.

(** C39: The installations that are given for an owner at GitHub are those that can be used:
    every installation of the owner with the name asked for, in some order, and after them
    every one with the default name, when that is another, provided it is configured and
    covers the repository, is not rate limited and not suspended.  When some are configured
    and cover the repository but none can be used, the error counts the limited and the
    suspended ones; when there are none of them, the legacy integration of the owner is
    given, if it has one that the repository, when there is one, uses.  An owner at another
    service is given none. *)
Theorem usable_installations {W} `{BotLaws W} is_configured owner repository name w :
  NoDup (map app_id (installations w)) ->
  (bo_service owner ∈ ["gitlab"; "bitbucket"; "gitlab_enterprise"; "bitbucket_server"] ->
   get_github_app_info_for_owner is_configured owner repository name w = (inl [], w)) /\
  (bo_service owner ∈ ["github"; "github_enterprise"] ->
   exists asked fallback,
     all_suited is_configured owner name (br_repository <$> repository) w asked /\
     (if bool_decide (name = "codecov_app_installation") then fallback = []
      else all_suited is_configured owner "codecov_app_installation" (br_repository <$> repository) w fallback) /\
     let apps := asked ++ fallback in
     let limited_apps := List.filter (app_limited w) apps in
     (get_github_app_info_for_owner is_configured owner repository name w).1 =
      match List.filter (usable w) apps with
      | (_ :: _) as l => inl (map info_of l)
      | [] =>
          if bool_decide (apps = []) then inl (legacy owner repository)
          else inr (Bot (NoConfiguredApps (Z.of_nat (length apps)) (Z.of_nat (length limited_apps))
                           (Z.of_nat (length apps) - Z.of_nat (length limited_apps))))
      end).
Proof.
  intros Hnd. unfold get_github_app_info_for_owner. rewrite !run_bind_lift.
  assert (Hsv : bo_service owner ∈ services -> Service (bo_service owner) = Ok (bo_service owner)).
  { intros Hin. unfold Service. by rewrite bool_decide_true. }
  split; intros Hg.
  { assert (is_github (bo_service owner) = false) as Hno.
    { unfold is_github. repeat (apply elem_of_cons in Hg as [->|Hg]; [by vm_compute|]). by apply elem_of_nil in Hg. }
    rewrite Hsv by (unfold services; set_solver). by rewrite Hno. }
  rewrite Hsv by (unfold services; set_solver). unfold is_github. rewrite (bool_decide_eq_true_2 _ Hg). cbn [negb].
  destruct (selection_run is_configured owner name (br_repository <$> repository) w Hnd)
    as (asked & fallback & w' & Hr & Hasked & Hfall & Hi & Hl).
  exists asked, fallback. split; [done|]. split; [exact Hfall|]. cbn zeta. set (apps := asked ++ fallback) in *.
  rewrite (run_bind _ _ _ _ _ Hr), (run_bind _ _ _ _ _ (filter_limited_run apps w')).
  unfold _filter_suspended_apps. rewrite filter_filter.
  assert (Hlim : forall a, app_limited w' a = app_limited w a) by (intros a; unfold app_limited; by rewrite Hl).
  assert (Hu : List.filter (fun a => negb (app_limited w' a) && negb (gi_is_suspended (app_installation a))) apps = List.filter (usable w) apps).
  { apply filter_ext. intros a. unfold usable. by rewrite Hlim. }
  rewrite Hu. destruct (List.filter (usable w) apps) as [|a l] eqn:Hus; [|done].
  clear Hfall. case_bool_decide as Hn; [by rewrite Hn|].
  assert (Hpos : (0 <? Z.of_nat (length apps)) = true) by (apply Z.ltb_lt; destruct apps; [done|]; cbn [length]; lia).
  rewrite Hpos. cbn [fst raise]. do 2 f_equal. pose proof (filter_length (app_limited w) apps) as Hlen.
  rewrite (filter_ext _ (fun a => negb (app_limited w a))) by (intros a; by rewrite Hlim). f_equal; cbn [length]; lia.
Qed.

(** ** Private repositories *)

Section private.
Context {W : Type} `{BotServices W} `{Crypto}.
Variable encryptor : Divider.t.
Variable is_configured : GithubAppInstallation -> bool.
Variable validate_dedicated_app : pyval -> option (string * Z).

(** The owners whose token may be used for a repository. *)
Definition bots_of (repo : BotRepository) : list BotOwner :=
  option_list (br_bot repo) ++ option_list (ow_bot (br_owner repo)) ++ [ow_owner (br_owner repo)].

Lemma owner_bot_of o (owner : OwnerWithBot) :
  get_owner_or_appropriate_bot owner = inl o -> o ∈ option_list (ow_bot owner) ++ [ow_owner owner].
Proof.
  unfold get_owner_or_appropriate_bot. destruct (ow_bot owner) as [b|]; repeat case_bool_decide; intros [= <-]; set_solver.
Qed.

Lemma repo_bot_of o repo : get_repo_appropriate_bot repo = inl o -> o ∈ bots_of repo.
Proof.
  unfold get_repo_appropriate_bot, bots_of. intros Hb. apply elem_of_app.
  assert (Ho : o ∈ option_list (br_bot repo) \/ get_owner_or_appropriate_bot (br_owner repo) = inl o).
  { destruct (br_bot repo) as [b|]; [case_bool_decide; [injection Hb as <-; left; set_solver|]|];
      destruct (get_owner_or_appropriate_bot _) as [|[]]; right; congruence. }
  destruct Ho as [?|?%owner_bot_of]; [by left|by right].
Qed.

(** The token of one of the bots, with the name of its entity. *)
Definition token_of_bot (o : BotOwner) (t : token) : Prop :=
  exists d, decrypt encryptor o = Ok d /\ od_get "key" t = od_get "key" d /\
            od_get "entity_name" t = Some (VStr (owner_key_name (bo_ownerid o))).

(** A token that GitHub gave for this installation, with the name of its entity. *)
Definition token_of_installation (service : string) (info : GithubInstallationInfo) (t : token) : Prop :=
  exists k (w1 w2 : W), get_github_integration_token service (ii_installation_id info)
      [("app_id", app_id_text (ii_app_id info)); ("pem_path", opt_text (ii_pem_path info))] w1 = (inl k, w2) /\
    t = [("key", VStr k); ("username", VStr ("installation_" +:+ str_of_Z (ii_installation_id info)));
         ("entity_name", VStr (gh_app_key_name (ii_installation_id info) (ii_app_id info)))].

Lemma app_token service info w (t : token_ref) o (w' : W) : get_github_app_token service info w = (inl (t, o), w') ->
  o = None /\ exists d, t = Own d /\ token_of_installation service info d.
Proof.
  unfold get_github_app_token, try_except. set (m := _ ≫= _). destruct (m w) as [[r|f] w1] eqn:Hm.
  - intros [= -> ->]. unfold m in Hm. apply run_bind_inv in Hm as (k & w2 & Hk & [= <- <- _]). split; [done|].
    eexists. split; [done|]. exists k, w, w2. done.
  - destruct f as [|[| | | |cause]| | | |]; try done. intros Hh. apply run_bind_inv in Hh as (u & w2 & _ & [=]).
Qed.

Lemma Service_inv value service : Service value = Ok service -> service = value.
Proof. unfold Service. case_bool_decide; by intros; simplify_eq. Qed.

Lemma public_bot_token service w (t : token_ref) o (w' : W) : get_public_bot_token service w = (inl (t, o), w') ->
  o = None /\ t ∈ [Configured [service; "bots"; "tokenless"]; Configured [service; "bot"]].
Proof.
  unfold get_public_bot_token. intros Hr. apply run_bind_inv in Hr as (c & w1 & _ & Hr). apply run_bind_inv in Hr as (v & w2 & _ & Hr).
  destruct (default c v) as [| | | | |l|d]; try by destruct (truthy _) in Hr.
  destruct (truthy (default VNone (od_get "key" d))); [|done]. apply run_bind_inv in Hr as ([] & w3 & _ & [= <- <- _]).
  destruct v; set_solver.
Qed.

Lemma particular_token repo w t o (w' : W) :
  get_repo_particular_bot_token encryptor repo w = (inl (t, o), w') ->
  exists b d, o = Some b /\ b ∈ bots_of repo /\ t = Own d /\ token_of_bot b d.
Proof.
  unfold get_repo_particular_bot_token. destruct (get_repo_appropriate_bot repo) as [b|] eqn:Hb; [|done]. intros Hr.
  apply run_bind_inv in Hr as (d & w1 & [Hd _]%lift_inv & [= <- <- _]). eexists b, _.
  split; [done|]. split; [by apply repo_bot_of|]. split; [done|]. exists d. split; [done|].
  rewrite od_get_set_eq, !od_get_set_ne by done. done.
Qed.
End private.

(** C40: A private repository is never read with a token that the configuration shares
    between repositories, but in an enterprise's own installation of Codecov that configures
    a bot, and then always with one of these.  Elsewhere it is read with a token that GitHub
    gave for the first of the usable installations, whose fallbacks are the others, or, when
    there is none, with the token of its bot, of its owner's bot or of its owner; and there
    are no other tokens for some of the calls. *)
Theorem private_repository_token {W} `{BotServices W} `{Crypto} enterprise encryptor is_configured validate owner repo (ignore : bool) name
    (w w' : W) auth :
  is_private repo = true ->
  get_adapter_auth_information enterprise encryptor is_configured validate owner (Some repo) ignore name w = (inl auth, w') ->
  exists available w1,
    (if bool_decide (bo_service (ow_owner owner) ∈ ["github"; "github_enterprise"]) && negb ignore
     then get_github_app_info_for_owner is_configured (ow_owner owner) (Some repo) name else mret []) w = (inl available, w1) /\
    aa_token_type_mapping auth = None /\
    (aa_selected_installation_info auth, aa_fallback_installations auth)
    = match available with info :: rest => (Some info, Some rest) | [] => (None, None) end /\
    if enterprise && truthy (get_config (configuration w1) [br_service repo; "bot"] VNone) then
      aa_token_owner auth = None /\ aa_token auth ∈ [Configured [br_service repo; "bots"; "tokenless"]; Configured [br_service repo; "bot"]]
    else
      match available with
      | info :: _ => aa_token_owner auth = None /\
          exists t, aa_token auth = Own t /\ token_of_installation (W := W) (br_service repo) info t
      | [] => exists o t, aa_token_owner auth = Some o /\ o ∈ bots_of repo /\ aa_token auth = Own t /\ token_of_bot encryptor o t
      end.
Proof.
  intros Hpriv Hr. unfold get_adapter_auth_information in Hr. apply run_bind_inv in Hr as (service & w1 & Hs & Hr).
  apply lift_inv in Hs as [Hs ->]. apply Service_inv in Hs as ->. apply run_bind_inv in Hr as (available & w2 & Hav & Hr).
  destruct (match available with i :: l => (Some i, Some l) | [] => (None, None) end) as [info fallback] eqn:Hinfo.
  apply run_bind_inv in Hr as ([t o] & w3 & Ht & Hr). apply run_bind_inv in Hr as (mapping & w4 & Hm & [= <- _]).
  exists available, w2. split; [exact Hav|]. cbn [aa_token_type_mapping aa_selected_installation_info aa_fallback_installations aa_token_owner aa_token].
  split.
  { case_bool_decide; [by injection Hm as <-|]. unfold get_token_type_mapping in Hm. rewrite Hpriv in Hm. by injection Hm as <-. }
  split; [by destruct available|].
  unfold get_repo_appropriate_bot_token in Ht. apply run_bind_inv in Ht as (service' & w5 & Hsv & Ht).
  apply lift_inv in Hsv as [Hsv ->]. apply Service_inv in Hsv as ->.
  apply run_bind_inv in Ht as (conf & w7 & [= <- <-] & Ht).
  destruct (enterprise && truthy _); [by apply public_bot_token in Ht|].
  destruct available as [|i l]; injection Hinfo as <- <-; [|by apply app_token in Ht].
  unfold try_except in Ht. destruct (get_repo_particular_bot_token encryptor repo w2) as [[r|f] w6] eqn:Hp.
  - injection Ht as -> _. by eapply particular_token.
  - rewrite Hpriv in Ht. by destruct f as [|[]| | | |].
Qed.

(** ** A concrete world *)

Record desk : Type := mkDesk { dk_apps : list App; dk_limited : list string; dk_refused : list Z; dk_config : pyval }.

#[local] Instance desk_services : BotServices desk := {
  now _ := 100 * DAY;
  configuration := dk_config;
  set_configuration c w := mkDesk (dk_apps w) (dk_limited w) (dk_refused w) c;
  redis_exists k w := (inl (Some (bool_decide (k ∈ dk_limited w))), w);
  redis_set_rate_limited k _ := modify (fun w => mkDesk (dk_apps w) (k :: dk_limited w) (dk_refused w) (dk_config w));
  choices keys _ := mret (List.last keys 0);
  github_jwt _ _ _ := mret "jwt";
  post_access_token _ i _ :=
    read (fun w => if bool_decide (i ∈ dk_refused w) then mkTokenResponse 403 (Some "This installation has been suspended") false None
                   else mkTokenResponse 201 None false (Some ("token-" +:+ str_of_Z i)));
  cached_token _ := mret None;
  cache_token _ _ := mret tt;
  installations := dk_apps;
  set_installations l w := mkDesk l (dk_limited w) (dk_refused w) (dk_config w);
  clear_integration_id _ w := w;
}.
#[local] Instance desk_laws : BotLaws desk.
Proof.
  refine {| limited w k := Some (bool_decide (k ∈ dk_limited w)) |}; [done|].
  intros keys weights w Hk _ _. exists (List.last keys 0), w. split_and!; try done.
  apply list_elem_of_In. destruct (exists_last Hk) as (l & x & ->). rewrite List.last_last. apply in_or_app. right. by left.
Defined.

Definition demo_app (id : Z) (name : string) (suspended : bool) : App :=
  mkApp (mkInstallation id (1000 + id) name None (Some id) (Some "pem") suspended 7) (99 * DAY).
Definition demo_owner : BotOwner := mkBotOwner 7 "github" (Some "codecov") None None.
Definition demo_desk : desk :=
  mkDesk [demo_app 1 "tasks" false; demo_app 2 "tasks" true; demo_app 3 "tasks" false; demo_app 4 "codecov_app_installation" false]
    ["rate_limited_entity_3_1003"] [] (VDict []).
Definition demo_info (id : Z) : GithubInstallationInfo := mkInfo (Some id) (1000 + id) (Some id) (Some "pem").

Example given_installations :
  (get_github_app_info_for_owner GithubAppInstallationOps.is_configured_worker demo_owner None "tasks" demo_desk).1 =
  inl [demo_info 1; demo_info 4].
Proof. vm_compute. reflexivity. Qed.

Lemma usable_installations_witness :
  NoDup (map app_id (installations demo_desk)) /\
  exists asked fallback,
    all_suited GithubAppInstallationOps.is_configured_worker demo_owner "tasks" None demo_desk asked /\
    all_suited GithubAppInstallationOps.is_configured_worker demo_owner "codecov_app_installation" None demo_desk fallback /\
    map info_of (List.filter (usable demo_desk) (asked ++ fallback)) = [demo_info 1; demo_info 4].
Proof.
  assert (Hnd : NoDup (map app_id (installations demo_desk))) by (vm_compute; repeat constructor; set_solver).
  split; [exact Hnd|].
  destruct (usable_installations GithubAppInstallationOps.is_configured_worker demo_owner None "tasks" demo_desk Hnd) as [_ Hg].
  destruct Hg as (asked & fallback & Hasked & Hfall & Hr); [by left|].
  exists asked, fallback. split; [exact Hasked|]. split; [exact Hfall|]. rewrite given_installations in Hr. cbn zeta in Hr.
  destruct (List.filter (usable demo_desk) (asked ++ fallback)) as [|a l]; [destruct (bool_decide (asked ++ fallback = [])); discriminate|].
  apply (f_equal (fun r => match r with inl x => x | inr _ => [] end)) in Hr. symmetry. exact Hr.
Defined.

(** An installation GitHub reports as suspended is marked, and not given again. *)
Example suspended_installation_marked :
  let r := get_github_app_token "github" (demo_info 1) (mkDesk (dk_apps demo_desk) [] [1001] (VDict [])) in
  r.1 = inr (Bot (InvalidInstallationError installation_suspended)) /\
  (get_github_app_info_for_owner GithubAppInstallationOps.is_configured_worker demo_owner None "tasks" r.2).1 =
  inl [demo_info 3; demo_info 4].
Proof. split; vm_compute; reflexivity. Qed.

(** The weight of an installation of one day. *)
Example day_old_weight : _get_installation_weight (100 * DAY) (demo_app 1 "tasks" false) = 26.
Proof. reflexivity. Qed.

#[local] Existing Instance plain_crypto.
Definition demo_encryptor : Divider.t := Divider.mkDivider example_mapping "v1_b".
Definition encrypted : string := match Divider.encode demo_encryptor "0123456789abcdef" "bot-key" with Ok s => s | Err _ => "" end.
Definition demo_bot : BotOwner := mkBotOwner 9 "gitlab" (Some "bot") (Some encrypted) None.
Definition demo_repository : BotRepository :=
  mkBotRepository (mkRepository 1 7 "r" (Some true) None None) "gitlab" false None
    (mkOwnerWithBot (mkBotOwner 7 "gitlab" None None None) (Some demo_bot)).
Definition demo_auth : AdapterAuthInformation :=
  mkAuth (Own [("key", VStr "bot-key"); ("secret", VNone); ("refresh_token", VNone); ("username", VStr "bot"); ("entity_name", VStr "9")])
    (Some demo_bot) None None None.

Lemma private_repository_token_witness :
  get_adapter_auth_information false demo_encryptor GithubAppInstallationOps.is_configured_worker (fun _ => None)
    (br_owner demo_repository) (Some demo_repository) false "codecov_app_installation" demo_desk = (inl demo_auth, demo_desk) /\
  aa_token_type_mapping demo_auth = None.
Proof.
  assert (Hr : get_adapter_auth_information false demo_encryptor GithubAppInstallationOps.is_configured_worker (fun _ => None)
    (br_owner demo_repository) (Some demo_repository) false "codecov_app_installation" demo_desk = (inl demo_auth, demo_desk))
    by (vm_compute; reflexivity).
  split; [exact Hr|].
  destruct (private_repository_token false demo_encryptor GithubAppInstallationOps.is_configured_worker (fun _ => None)
    (br_owner demo_repository) demo_repository false "codecov_app_installation" demo_desk demo_desk demo_auth
    eq_refl Hr) as (available & w1 & _ & Hm & _).
  exact Hm.
Defined.

(** The token of the public bot is the dictionary of the configuration, and so is the
    one for calls without a token: writing the entity of the second renames the
    first. *)
Definition public_desk : desk :=
  mkDesk [] [] [] (VDict [("gitlab", VDict [("bots", VDict [("tokenless", VDict [("key", VStr "k")])])])]).
Definition public_repository : BotRepository :=
  mkBotRepository (mkRepository 1 7 "r" (Some false) None None) "gitlab" false None
    (mkOwnerWithBot (mkBotOwner 7 "gitlab" None None None) None).
Example configured_token_renamed :
  let given := get_public_bot_token "gitlab" public_desk in
  let all := get_adapter_auth_information false demo_encryptor GithubAppInstallationOps.is_configured_worker (fun _ => None)
               (br_owner public_repository) (Some public_repository) false "codecov_app_installation" public_desk in
  (match given with (inl (t, _), w) => value_of t w | _ => VNone end,
   match all with (inl a, w) => value_of (aa_token a) w | _ => VNone end)
  = (VDict [("key", VStr "k"); ("entity_name", VStr "tokenless_bot")], VDict [("key", VStr "k"); ("entity_name", VStr "tokenless")]).
Proof. vm_compute. reflexivity. Qed.
