(* ===== verification/Torngit.v ===== *)
(** * Adapters of git providers

    [shared/torngit/base.py]: what every adapter keeps, the token it uses, and the
    answers of the HTTP client.  A program of an adapter runs on its state and on the
    world.  The addresses of GitHub's endpoints come first. *)
From S2P Require Export PyVal PyUrl.
From S2P Require Export Bots.

(** * Addresses of GitHub's endpoints

    [string.Template], and the table of addresses of [shared/torngit/github.py].  The
    counters of calls are metrics. *)

#[local] Open Scope string_scope.
#[local] Open Scope list_scope.
#[local] Open Scope Z_scope.

(** ** [string.Template] *)

Definition is_name_char (first : bool) (c : ascii) : bool :=
  let n := N_of_ascii c in
  ((97 <=? n) && (n <=? 122) || (65 <=? n) && (n <=? 90) || (n =? 95) || negb first && (48 <=? n) && (n <=? 57))%N.
Fixpoint read_name (first : bool) (s : string) : string * string :=
  match s with
  | String c r => if is_name_char first c then let '(n, rest) := read_name false r in (String c n, rest) else (EmptyString, s)
  | EmptyString => (EmptyString, s)
  end.

(** What a template is made of; a dollar sign that starts nothing is an error. *)
Inductive piece : Type := Text (c : ascii) | Field (name : string).
Fixpoint pieces (fuel : nat) (s : string) : result (list piece) :=
  match fuel with
  | O => Ok []
  | S fuel =>
      match s with
      | EmptyString => Ok []
      | String c r =>
          if bool_decide (c = "$"%char) then
            match r with
            | String "$" r => rest ← pieces fuel r; Ok (Text "$" :: rest)
            | String "{" r =>
                match read_name true r with
                | ((String _ _) as n, String "}" r) => rest ← pieces fuel r; Ok (Field n :: rest)
                | _ => Err ValueError
                end
            | _ => match read_name true r with
                   | ((String _ _) as n, r) => rest ← pieces fuel r; Ok (Field n :: rest)
                   | _ => Err ValueError
                   end
            end
          else rest ← pieces fuel r; Ok (Text c :: rest)
      end
  end.

(** [Template(t).substitute(...)] *)
Definition substitute (template : string) (fields : odict string pyval) : result string :=
  ps ← pieces (String.length template) template;
  texts ← traverse (fun p => match p with
                             | Text c => Ok (String c "")
                             | Field n => match od_get n fields with Some v => py_str v | None => Err KeyError end
                             end) ps;
  Ok (join "" texts).

(** ** [GITHUB_API_ENDPOINTS] *)

Definition apps_endpoints : odict string string :=
  [ ("request_webhook_redelivery", "/app/hook/deliveries/${delivery_id}/attempts");
    ("refresh_token", "/login/oauth/access_token");
    ("make_http_call_retry", "");
    ("list_webhook_deliveries", "/app/hook/deliveries?per_page=50");
    ("is_student", "https://education.github.com/api/user");
    ("get_best_effort_branches", "/repos/${slug}/commits/${commit_sha}/branches-where-head");
    ("get_workflow_run", "/repos/${slug}/actions/runs/${run_id}");
    ("update_check_run", "/repos/${slug}/check-runs/${check_run_id}");
    ("get_repos_with_languages_graphql", "/graphql");
    ("get_repo_languages", "/repos/${slug}/languages");
    ("get_check_suites", "/repos/${slug}/commits/${git_sha}/check-suites");
    ("create_check_run", "/repos/${slug}/check-runs");
    ("get_ancestors_tree", "/repos/${slug}/commits");
    ("list_files", "/repos/${slug}/contents");
    ("get_pull_request_files", "/repos/${slug}/pulls/${pullid}/files") ].

Definition pull_endpoints : odict string string :=
  [ ("find_pull_request", "/repos/${slug}/commits/${commit}/pulls");
    ("get_pull_requests", "/repos/${slug}/pulls");
    ("get_pull_request", "/repos/${slug}/pulls/${pullid}");
    ("get_distance_in_commits", "/repos/${slug}/compare/${base_branch}...${base}");
    ("get_compare", "/repos/${slug}/compare/${base}...${head}");
    ("get_commit_diff", "/repos/${slug}/commits/${commit}");
    ("get_source", "/repos/${slug}/contents/${path}");
    ("get_source_again", "");
    ("get_commit_statuses", "/repos/${slug}/commits/${commit}/status");
    ("set_commit_status", "/repos/${slug}/statuses/${commit}");
    ("set_commit_status_merge_commit", "/repos/${slug}/statuses/${merge_commit}");
    ("delete_comment", "/repos/${slug}/issues/comments/${commentid}");
    ("edit_comment", "/repos/${slug}/issues/comments/${commentid}") ].

Definition comment_endpoints : odict string string :=
  [ ("post_comment", "/repos/${slug}/issues/${issueid}/comments");
    ("delete_webhook", "/repos/${slug}/hooks/${hookid}");
    ("edit_webhook", "/repos/${slug}/hooks/${hookid}");
    ("post_webhook", "/repos/${slug}/hooks");
    ("get_raw_pull_request_commits", "/repos/${slug}/pulls/${pullid}/commits?per_page=${max}&page=${page_n}");
    ("list_teams", "/user/memberships/orgs?state=active");
    ("list_teams_org_name", "/users/${login}");
    ("get_gh_app_installation", "/app/installations/${installation_id}");
    ("get_repos_from_nodeids_generator_graphql", "/graphql");
    ("get_owner_from_nodeid_graphql", "/graphql");
    ("fetch_number_of_repos_graphql", "/graphql");
    ("fetch_page_of_repos_without_username", "/user/repos?per_page=${page_size}&page=${page}");
    ("fetch_page_of_repos_with_username", "/users/${username}/repos?per_page=${page_size}&page=${page}") ].

Definition repository_endpoints : odict string string :=
  [ ("fetch_page_of_repos_using_installation", "/installation/repositories?per_page=${page_size}&page=${page}");
    ("get_authenticated", "/repos/${slug}");
    ("get_is_admin", "/orgs/${owner_username}/memberships/${user_username}");
    ("get_user_token", "/login/oauth/access_token");
    ("get_authenticated_user", "/user");
    ("get_authenticated_user_email", "/user/emails");
    ("get_branch", "/repos/${slug}/branches/${branch_name}");
    ("get_branches", "/repos/${slug}/branches");
    ("get_repository_with_service_id", "/repositories/${service_id}");
    ("get_repository_without_service_id", "/repos/${slug}");
    ("get_check_runs_with_head_sha", "/repos/${slug}/commits/${head_sha}/check-runs");
    ("get_check_runs_with_check_suite_id", "/repos/${slug}/check-suites/${check_suite_id}/check-runs");
    ("list_files_with_dir_path", "/repos/${slug}/contents/${dir_path}");
    ("get_github_integration_token", "${api_endpoint}/app/installations/${integration_id}/access_tokens") ].

Definition GITHUB_API_ENDPOINTS : odict string string :=
  apps_endpoints ++ pull_endpoints ++ comment_endpoints ++ repository_endpoints.

(** The template of an endpoint, with its fields. *)
Definition endpoint (url_name : string) (fields : odict string pyval) : result string :=
  match od_get url_name GITHUB_API_ENDPOINTS with Some t => substitute t fields | None => Err KeyError end.

Definition external_endpoint_template : string := "${username}/${name}/commit/${commitid}".

Example endpoint_of_pull :
  endpoint "get_raw_pull_request_commits" [("slug", VStr "codecov/example"); ("pullid", VInt 3); ("max", VInt 100); ("page_n", VInt 2)]
  = Ok "/repos/codecov/example/pulls/3/commits?per_page=100&page=2".
Proof. vm_compute. reflexivity. Qed.

Example every_template_parses : forallb (fun t => is_Ok (pieces (String.length t.2) t.2)) GITHUB_API_ENDPOINTS = true.
Proof. vm_compute. reflexivity. Qed.

#[local] Open Scope string_scope.
#[local] Open Scope list_scope.
#[local] Open Scope Z_scope.

(** ** Requests and their answers *)

Record Request : Type := mkRequest {
  rq_method : string; rq_url : string; rq_params : option string; rq_json : pyval; rq_headers : odict string string;
}.
#[export] Instance request_eq_dec : EqDecision Request.
Proof. solve_decision. Defined.

(** [rs_headers] has the names of the headers in lower case; [rs_json] is what
    [res.json()] gives, [rs_next] the address [res.links] gives of the next page. *)
Record Response : Type := mkResponse {
  status_code : Z; rs_headers : odict string string; rs_text : string; rs_json : result pyval; rs_next : string;
}.
(** [NoAnswer] is a [TimeoutException] or a [NetworkError]. *)
Inductive reply : Type := Answer (r : Response) | NoAnswer.

Class HttpServices (W : Type) : Type := {
  request : Request -> prog W reply;
  on_token_refresh : token -> prog W unit;
  token_digest : string -> string;    (* base64 of sha256 *)
}.

(** ** The adapter *)

(** [ad_refreshes] says whether [_on_token_refresh] was given; [ad_username] and
    [ad_name] are [data["owner"]["username"]] and [data["repo"]["name"]]. *)
Record Adapter : Type := mkAdapter {
  ad_token : option token; ad_token_type_mapping : odict TokenType (option token); ad_oauth : option token; ad_refreshes : bool;
  ad_username : option string; ad_name : option string; ad_repo_service_id : option string;
  ad_fallback_installations : option (list GithubInstallationInfo); ad_installation : option GithubInstallationInfo;
}.

Record State (W : Type) : Type := mkState { self : Adapter; world : W }.
Arguments mkState {W} self world.
Arguments self {W} s.
Arguments world {W} s.

Section adapter.
Context {W : Type}.

(** A call that does not use the adapter. *)
Definition out {A} (m : prog W A) : prog (State W) A := fun s =>
  match m (world s) with (inl a, w) => (inl a, mkState (self s) w) | (inr f, w) => (inr f, mkState (self s) w) end.
Definition get_self {A} (f : Adapter -> A) : prog (State W) A := read (fun s => f (self s)).
Definition update_self (f : Adapter -> Adapter) : prog (State W) unit := modify (fun s => mkState (f (self s)) (world s)).

Definition set_token (t : token) : prog (State W) unit :=
  update_self (fun a => mkAdapter (Some t) (ad_token_type_mapping a) (ad_oauth a) (ad_refreshes a) (ad_username a) (ad_name a)
                          (ad_repo_service_id a) (ad_fallback_installations a) (ad_installation a)).
Definition set_installation (installation : GithubInstallationInfo) (rest : list GithubInstallationInfo) : prog (State W) unit :=
  update_self (fun a => mkAdapter (ad_token a) (ad_token_type_mapping a) (ad_oauth a) (ad_refreshes a) (ad_username a) (ad_name a)
                          (ad_repo_service_id a) (Some rest) (Some installation)).

(** [if not token]: an empty dictionary is no token. *)
Definition some_token (t : option token) : option token := match t with Some [] => None | t => t end.

Definition _oauth_consumer_token : prog (State W) token :=
  oauth ← get_self (fun a => some_token (ad_oauth a));
  match oauth with Some t => mret t | None => raise (Raised PlainException) end.

(** [TorngitBaseAdapter.token], which the adapter of GitHub replaces by [self._token]. *)
Definition base_token : prog (State W) (option token) :=
  t ← get_self ad_token;
  match some_token t with
  | Some t => mret (Some t)
  | None => t ← _oauth_consumer_token; _ ← set_token t; mret (Some t)
  end.

Definition get_token_by_type (own : prog (State W) (option token)) (t : TokenType) : prog (State W) (option token) :=
  mapping ← get_self ad_token_type_mapping;
  match od_get t mapping with Some (Some token) => mret (Some token) | _ => own end.
Definition get_token_by_type_if_none (own : prog (State W) (option token)) (token : option token) (t : TokenType) :
    prog (State W) (option Bots.token) :=
  match token with Some t => mret (Some t) | None => get_token_by_type own t end.

Definition slug_of (a : Adapter) : option string :=
  match ad_username a, ad_name a with
  | Some u, Some n => if bool_decide (u = "") || bool_decide (n = "") then None else Some (u +:+ "/" +:+ n)
  | _, _ => None
  end.
(** [slug], as [str] writes it. *)
Definition slug_text (a : Adapter) : pyval := match slug_of a with Some s => VStr s | None => VNone end.
End adapter.

Definition valid_languages : list string :=
  ["javascript"; "shell"; "python"; "ruby"; "perl"; "dart"; "java"; "c"; "clojure"; "d"; "fortran"; "go"; "groovy"; "kotlin"; "php";
   "r"; "scala"; "swift"; "objective-c"; "xtend"; "typescript"; "haskell"; "rust"; "lua"; "matlab"; "assembly"; "scheme";
   "powershell"; "apex"; "verilog"; "common lisp"; "erlang"; "julia"; "prolog"; "vue"; "c++"; "c#"; "f#"].

(** [_validate_language] *)
Definition _validate_language (language : pyval) : result pyval :=
  if truthy language then
    match language with
    | VStr s => Ok (if bool_decide (lower s ∈ valid_languages) then VStr (lower s) else VNone)
    | _ => Err AttributeError
    end
  else Ok VNone.

Definition header (name : string) (r : Response) : option string := od_get name (rs_headers r).
