(* ===== verification/GithubHttp.v ===== *)
(** * Calls to the API of GitHub

    [Github.api], [make_http_call], [refresh_token] and the fallback installations of
    [shared/torngit/github.py], with the addresses of [github_enterprise.py]. *)
From S2P Require Export Torngit.
#[local] Open Scope string_scope.
#[local] Open Scope list_scope.
#[local] Open Scope Z_scope.

(** ** Where the service is *)

Record Settings : Type := mkSettings {
  st_service : string; st_service_url : string; st_api_url : string;
  st_api_host_header : option string; st_host_header : option string; st_user_agent : string;
}.

(** [s.strip("/")] *)
Fixpoint lstrip_slash (s : string) : string := match s with String "/" r => lstrip_slash r | _ => s end.
Fixpoint rstrip_slash (s : string) : string :=
  match s with
  | EmptyString => EmptyString
  | String c r => let r := rstrip_slash r in if bool_decide (c = "/"%char) && bool_decide (r = "") then "" else String c r
  end.
Definition strip_slash (s : string) : string := rstrip_slash (lstrip_slash s).
Definition stripped (v : pyval) : result string := match v with VStr s => Ok (strip_slash s) | _ => Err AttributeError end.
Definition opt_header (v : pyval) : result (option string) :=
  match v with VNone => Ok None | VStr s => Ok (Some s) | _ => Err Unmodelled end.

Definition github_settings (params : pyval) (user_agent : string) : result Settings :=
  service_url ← stripped (get_config params ["github"; "url"] (VStr "https://github.com"));
  api_url ← stripped (get_config params ["github"; "api_url"] (VStr "https://api.github.com"));
  api_host ← opt_header (get_config params ["github"; "api_host_override"] VNone);
  host ← opt_header (get_config params ["github"; "host_override"] VNone);
  Ok (mkSettings "github" service_url api_url api_host host user_agent).

Definition github_enterprise_settings (params : pyval) (user_agent : string) : result Settings :=
  service_url ← stripped (get_config params ["github_enterprise"; "url"] VNone);
  let api := get_config params ["github_enterprise"; "api_url"] VNone in
  api_url ← (if truthy api then stripped api else Ok (service_url +:+ "/api/v3"));
  api_host ← opt_header (get_config params ["github_enterprise"; "api_host_override"] VNone);
  host ← opt_header (get_config params ["github_enterprise"; "host_override"] VNone);
  Ok (mkSettings "github_enterprise" service_url api_url api_host host user_agent).

(** ** Answers *)

(** [_parse_response]; without a [Content-Type] there is nothing to cut. *)
Definition _parse_response (r : Response) : result pyval :=
  if status_code r =? 204 then Ok VNone
  else match header "content-type" r with
       | None => Err TypeError
       | Some t => if bool_decide (str_take 16 t = "application/json") then rs_json r else Ok (VStr (rs_text r))
       end.

(** [int(res.headers.get("X-RateLimit-Remaining", -1)) == 0] *)
Definition none_remaining (r : Response) : result bool :=
  match header "x-ratelimit-remaining" r with None => Ok false | Some s => n ← int_of_str s; Ok (n =? 0) end.

(** A primary or a secondary rate limit. *)
Definition is_rate_limited (r : Response) : result bool :=
  if (status_code r =? 403) || (status_code r =? 429) then
    primary ← none_remaining r; Ok (primary || bool_decide (is_Some (header "retry-after" r)))
  else Ok false.

(** What an answer that is not tried again ends the call with. *)
Definition classify (r : Response) : Response + torngit_error :=
  if status_code r =? 599 then inr TorngitServerUnreachableError
  else if 500 <=? status_code r then inr TorngitServer5xxCodeError
  else if status_code r =? 401 then inr TorngitUnauthorizedError
  else if 300 <=? status_code r then inr (TorngitClientGeneralError (status_code r))
  else inl r.

(** [prefix, _ = headers["Authorization"].split(" ")], and the header with another token. *)
Definition with_authorization (headers : odict string string) (key : string) : result (odict string string) :=
  match od_get "Authorization" headers with
  | None => Err KeyError
  | Some a => match split " " a with
              | [prefix; _] => Ok (od_set "Authorization" (prefix +:+ " " +:+ key) headers)
              | _ => Err ValueError
              end
  end.

(** What a call is given: [statuses_to_retry], the parameters of the query, a body and
    headers. *)
Record Options : Type := mkOptions {
  op_body : pyval; op_headers : odict string string; op_statuses_to_retry : list Z; op_args : odict string pyval;
}.
Definition plain : Options := mkOptions VNone [] [502; 503; 504] [].
Definition with_args (args : odict string pyval) : Options := mkOptions VNone [] [502; 503; 504] args.
Definition with_body (body : pyval) : Options := mkOptions body [] [502; 503; 504] [].
Definition with_headers (headers : odict string string) : Options := mkOptions VNone headers [502; 503; 504] [].

Definition max_number_retries : nat := 3.

Section calls.
Context {W : Type} `{HttpServices W} `{BotServices W}.
Variable st : Settings.

(** ** Tokens *)

(** [token.get(k)] *)
Definition field (k : string) (t : token) : pyval := default VNone (od_get k t).

Definition loggable_token (t : option token) : prog (State W) string :=
  match t with
  | None => raise (Raised AttributeError)
  | Some t =>
      if truthy (field "username" t) then lift (u ← py_str (field "username" t); Ok (u +:+ "'s token"))
      else match field "key" t with
           | VNone => mret "notoken"
           | key =>
               installation ← get_self ad_installation;
               match installation with
               | Some i => mret ("GitHub_installation_" +:+ str_of_Z (ii_installation_id i))
               | None =>
                   slug ← get_self slug_of;
                   match key with
                   | VStr k => mret (str_take 5 (token_digest ("v1CAF4bFYi2+7sN7hgS/flGtooomdTZF0+uGiigV3AY8f4HHNg" +:+ st_service st
                                                  +:+ default "" slug +:+ k)))
                   | _ => raise (Raised AttributeError)
                   end
               end
           end
  end.

Definition _possibly_mark_current_entity_as_rate_limited (reset_timestamp : option string) (retry_in_seconds : option Z)
    (t : option token) : prog (State W) unit :=
  match t with
  | None => raise (Raised AttributeError)
  | Some t =>
      match field "entity_name" t with
      | VNone => mret tt
      | name =>
          key_name ← lift (py_str name);
          match retry_in_seconds, reset_timestamp with
          | Some ttl, _ => out (set_entity_to_rate_limited key_name ttl)
          | None, Some reset =>
              time ← read (fun s => now (world s));
              reset ← lift (int_of_str reset);
              out (set_entity_to_rate_limited key_name (0 `max` (reset - time / SECOND)))
          | None, None => mret tt
          end
      end
  end.

(** The information of an installation but for its ids, as arguments by name. *)
Definition info_kwargs (i : GithubInstallationInfo) : odict string pyval :=
  match ii_id i with
  | None => []
  | Some _ => [("app_id", match ii_app_id i with Some a => VInt a | None => VNone end); ("pem_path", opt_text (ii_pem_path i))]
  end.

Definition _get_next_fallback_token : prog (State W) (option string) :=
  fallback ← get_self ad_fallback_installations;
  match fallback with
  | None | Some [] => mret None
  | Some (info :: rest) =>
      _ ← update_self (fun a => mkAdapter (ad_token a) (ad_token_type_mapping a) (ad_oauth a) (ad_refreshes a) (ad_username a)
                                  (ad_name a) (ad_repo_service_id a) (Some rest) (ad_installation a));
      key ← out (get_github_integration_token (st_service st) (ii_installation_id info) (info_kwargs info));
      _ ← set_token [("key", VStr key)];
      _ ← set_installation info rest;
      mret (Some key)
  end.

(** [parse_qs] of a parsed answer. *)
Definition session_of (v : pyval) : result (odict string (list string)) :=
  match v with
  | VStr s => parse_qs s
  | VNone => Ok []
  | _ => Err Unmodelled
  end.
Definition first_of (k : string) (session : odict string (list string)) : result string :=
  match od_get k session with Some (v :: _) => Ok v | Some [] => Err IndexError | None => Err KeyError end.

Definition refresh_token : prog (State W) (option token) :=
  creds ← _oauth_consumer_token;
  client_id ← lift (get_item (VDict creds) "key");
  client_secret ← lift (get_item (VDict creds) "secret");
  own ← get_self ad_token;
  match own with
  | None => raise (Raised AttributeError)
  | Some own =>
      match field "refresh_token" own with
      | VNone => mret None
      | refresh =>
          params ← lift (traverse (fun kv => v ← py_str kv.2; Ok (kv.1, v))
                           [("refresh_token", refresh); ("grant_type", VStr "refresh_token");
                            ("client_id", client_id); ("client_secret", client_secret)]);
          path ← lift (endpoint "refresh_token" []);
          r ← out (request (mkRequest "POST" (st_service_url st +:+ path) (Some (urlencode params)) VNone []));
          match r with
          | NoAnswer => raise (Raised PlainException)   (* the client's own exception *)
          | Answer res =>
              if 300 <=? status_code res then raise (Torngit TorngitRefreshTokenFailedError)
              else
                text ← lift (_parse_response res);
                session ← lift (session_of text);
                match od_get "access_token" session with
                | Some (key :: _) =>
                    refresh ← lift (first_of "refresh_token" session);
                    let t := [("key", VStr key); ("refresh_token", VStr refresh)] in
                    _ ← set_token t; mret (Some t)
                | _ => mret None
                end
          end
      end
  end.

(** ** [make_http_call] *)

(** A call that may have failed because its token has expired. *)
Definition may_refresh (url : string) (a : Adapter) (tried_refresh : bool) (r : Response) : result bool :=
  slug ← py_str (slug_text a);
  Ok (negb tried_refresh && ad_refreshes a && startswith (st_api_url st) url
      && ((status_code r =? 401) || (status_code r =? 404) && str_contains ("/repos/" +:+ slug +:+ "/") url)).

Section one_call.
Variables (method url : string) (body : pyval) (statuses_to_retry : list Z) (token_to_use : option token).

(** The answer of an attempt that ends the call, or is tried again. *)
Definition conclude (last : bool) (again : prog (State W) (option Response)) (res : Response) : prog (State W) (option Response) :=
  if last || negb (bool_decide (status_code res ∈ statuses_to_retry)) then
    match classify res with inl r => mret (Some r) | inr e => raise (Torngit e) end
  else again.

(** The attempts that are left, of the three: no answer when the last one ends in [continue]. *)
Fixpoint attempts (n : nat) (headers : odict string string) (tried_refresh : bool) : prog (State W) (option Response) :=
  match n with
  | O => mret None
  | S n =>
      r ← out (request (mkRequest method url None body headers));
      match r with
      | NoAnswer =>
          if bool_decide (n = O) then raise (Torngit TorngitServerUnreachableError) else attempts n headers tried_refresh
      | Answer res =>
          a ← get_self id;
          refreshing ← lift (may_refresh url a tried_refresh res);
          if (refreshing : bool) then
            t ← refresh_token;
            match t with
            | Some t =>
                key ← lift (k ← get_item (VDict t) "key"; py_str k);
                headers ← lift (with_authorization headers key);
                _ ← out (on_token_refresh t);
                attempts n headers true
            | None => conclude (bool_decide (n = O)) (attempts n headers true) res
            end
          else
            limited ← lift (is_rate_limited res);
            if (limited : bool) then
              retry_after ← lift (match header "retry-after" res with None => Ok None | Some s => k ← int_of_str s; Ok (Some k) end);
              _ ← _possibly_mark_current_entity_as_rate_limited (header "x-ratelimit-reset" res) retry_after token_to_use;
              fallback ← _get_next_fallback_token;
              match fallback with
              | Some ((String _ _) as key) => headers ← lift (with_authorization headers key); attempts n headers tried_refresh
              | _ => raise (Torngit TorngitRateLimitError)
              end
            else conclude (bool_decide (n = O)) (attempts n headers tried_refresh) res
      end
  end.
End one_call.

(** [_headers], but for [Host]. *)
Definition base_headers (token_to_use : option token) (headers : odict string string) : result (odict string string) :=
  let own := [("Accept", "application/json"); ("User-Agent", st_user_agent st)] in
  own ← match some_token token_to_use with
        | Some t => key ← get_item (VDict t) "key"; key ← py_str key; Ok (od_set "Authorization" ("token " +:+ key) own)
        | None => Ok own
        end;
  Ok (foldl (fun d kv => od_set kv.1 kv.2 d) own headers).

Definition host_header_of (url : string) (headers : odict string string) : odict string string :=
  match st_api_host_header st with
  | Some h =>
      if startswith (st_api_url st) url then od_set "Host" h headers
      else match st_host_header st with
           | Some h => if startswith (st_service_url st) url then od_set "Host" h headers else headers
           | None => headers
           end
  | None => match st_host_header st with
            | Some h => if startswith (st_service_url st) url then od_set "Host" h headers else headers
            | None => headers
            end
  end.

Fixpoint upper (s : string) : string :=
  match s with
  | EmptyString => EmptyString
  | String c r => let n := N_of_ascii c in
                  String (if ((97 <=? n) && (n <=? 122))%N then ascii_of_N (n - 32) else c) (upper r)
  end.

Definition make_http_call (method url : string) (o : Options) (token_to_use : option token) : prog (State W) (option Response) :=
  headers ← lift (base_headers token_to_use (op_headers o));
  let method := upper (if bool_decide (method = "") then "GET" else method) in
  url ← (if bool_decide (url = "") then raise (Raised IndexError)
         else if startswith "/" url then _ ← loggable_token token_to_use; mret (st_api_url st +:+ url)
         else mret url);
  url ← lift (url_concat url (op_args o));
  let url := str_replace " " "%20" url in
  attempts method url (if truthy (op_body o) then op_body o else VNone) (op_statuses_to_retry o) token_to_use max_number_retries
    (host_header_of url headers) false.

(** ** [api] *)

Definition own_token : prog (State W) (option token) := get_self ad_token.

(** [token or self.token], which there must be. *)
Definition token_for (t : option token) : prog (State W) token :=
  own ← own_token;
  match some_token t with
  | Some t => mret t
  | None => match some_token own with Some t => mret t | None => raise (Torngit TorngitMisconfiguredCredentials) end
  end.

(** [_parse_response] of no answer fails. *)
Definition parsed (r : option Response) : result pyval := match r with Some r => _parse_response r | None => Err AttributeError end.

Definition api (method url : string) (o : Options) (t : option token) : prog (State W) pyval :=
  t ← token_for t; r ← make_http_call method url o (Some t); lift (parsed r).

(** [paginated_api_generator]: the pages, while there is a link to the next one. *)
Fixpoint pages_from (fuel : nat) (method url : string) (o : Options) (t : token) : prog (State W) (list pyval) :=
  match fuel with
  | O => raise (Raised Unmodelled)
  | S fuel =>
      if bool_decide (url = "") then mret []
      else
        r ← make_http_call method url o (Some t);
        page ← lift (parsed r);
        rest ← pages_from fuel method (match r with Some r => rs_next r | None => "" end) o t;
        mret (page :: rest)
  end.
Definition paginated_api_generator (fuel : nat) (method url_name : string) (o : Options) (t : option token) :
    prog (State W) (list pyval) :=
  t ← token_for t;
  url ← lift (endpoint url_name []);
  pages_from fuel method url o t.
End calls.
