(* ===== verification/GithubHttpSpec.v ===== *)
(** * What a call to GitHub promises

    A call sends the same request at most three times, one more for a new token of an
    account, and before an attempt with the next installation one for the token of that
    installation.  Without one its outcome is that of the first of three answers that is
    not to be tried again.  A rate limit hands the request to the next installation. *)
From S2P Require Import GithubHttp.
#[local] Open Scope string_scope.
#[local] Open Scope list_scope.
#[local] Open Scope Z_scope.

(** What has been sent: the requests of the adapter, and the requests for the token of an
    installation, by its number.  Nothing else is sent, and to mark an entity does not
    fail. *)
Class HttpLaws (W : Type) `{HttpServices W} `{BotServices W} : Type := {
  sent : W -> list (Request + Z);
  sent_request : forall rq w, sent (request rq w).2 = sent w ++ [inl rq];
  sent_post_access_token : forall service i jwt w, sent (post_access_token service i jwt w).2 = sent w ++ [inr i];
  sent_on_token_refresh : forall t w, sent (on_token_refresh t w).2 = sent w;
  sent_set_rate_limited : forall k n w, sent (redis_set_rate_limited k n w).2 = sent w;
  sent_github_jwt : forall service app pem w, sent (github_jwt service app pem w).2 = sent w;
  sent_cached_token : forall k w, sent (cached_token k w).2 = sent w;
  sent_cache_token : forall k t w, sent (cache_token k t w).2 = sent w;
  marking_succeeds : forall k n w, (redis_set_rate_limited k n w).1 = inl tt;
}.

(** ** What a call sends *)

(** The address of a call. *)
Definition address_of (st : Settings) (url : string) (o : Options) : result string :=
  u ← url_concat (if startswith "/" url then st_api_url st +:+ url else url) (op_args o); Ok (str_replace " " "%20" u).
Definition method_of (method : string) : string := upper (if bool_decide (method = "") then "GET" else method).
Definition body_of (o : Options) : pyval := if truthy (op_body o) then op_body o else VNone.

Section bounded.
Context {W : Type} `{HttpLaws W}.
Variable st : Settings.
Variables (method url : string) (body : pyval).

Variable ids : list Z.  (* the fallback installations *)

Definition is_call (rq : Request) : bool :=
  bool_decide (rq_method rq = method) && bool_decide (rq_url rq = url) && bool_decide (rq_params rq = None) && bool_decide (rq_json rq = body).
Definition is_refresh (rq : Request) : bool :=
  bool_decide (rq_method rq = "POST") && bool_decide (rq_url rq = st_service_url st +:+ "/login/oauth/access_token").

Definition count {A} (p : A -> bool) (l : list A) : nat := length (List.filter p l).

(** Of what was sent: the call, the other requests of the adapter, and those for the token
    of an installation. *)
Definition a_call (e : Request + Z) : bool := match e with inl rq => is_call rq | inr _ => false end.
Definition another (e : Request + Z) : bool := match e with inl rq => negb (is_call rq) | inr _ => false end.
Definition for_a_token (e : Request + Z) : bool := match e with inl _ => false | inr _ => true end.
Definition expected (e : Request + Z) : Prop :=
  match e with inl rq => is_call rq || is_refresh rq = true | inr i => i ∈ ids end.

Definition bounded (c r f : nat) (l : list (Request + Z)) : Prop :=
  (count a_call l <= c)%nat /\ (count another l <= r)%nat /\ (count for_a_token l <= f)%nat /\ Forall expected l.

(** The installations that are left to the adapter. *)
Definition fallbacks (a : Adapter) : list Z := map ii_installation_id (default [] (ad_fallback_installations a)).

(** The program sends at most [c] times the call, [r] times the request for a new token
    and [f] times the one for the token of an installation, and nothing else. *)
Definition emits {A} (c r f : nat) (m : prog (State W) A) : Prop := forall s, fallbacks (self s) ⊆ ids ->
  fallbacks (self (m s).2) ⊆ ids /\ exists l, sent (world (m s).2) = sent (world s) ++ l /\ bounded c r f l.

Lemma bounded_nil c r f : bounded c r f [].
Proof. unfold bounded, count. cbn. split_and!; [lia..|constructor]. Qed.

Lemma bounded_mono c r f c2 r2 f2 l : bounded c r f l -> (c <= c2)%nat -> (r <= r2)%nat -> (f <= f2)%nat -> bounded c2 r2 f2 l.
Proof. intros (? & ? & ? & ?) ???. split_and!; [lia..|done]. Qed.

Lemma bounded_app c r f c' r' f' c2 r2 f2 l l' :
  bounded c r f l -> bounded c' r' f' l' -> (c + c' <= c2)%nat -> (r + r' <= r2)%nat -> (f + f' <= f2)%nat -> bounded c2 r2 f2 (l ++ l').
Proof.
  unfold bounded, count. intros (H1' & H2' & H3' & H4') (H1'' & H2'' & H3'' & H4'') Hc Hr Hf. rewrite !List.filter_app, !length_app.
  split_and!; [lia..|by apply Forall_app].
Qed.

Lemma emits_none {A} (m : prog (State W) A) c r f :
  (forall s, sent (world (m s).2) = sent (world s) /\ (fallbacks (self s) ⊆ ids -> fallbacks (self (m s).2) ⊆ ids)) -> emits c r f m.
Proof. intros Hm s Hs. destruct (Hm s) as [Hsent Hself]. split; [auto|]. exists []. rewrite app_nil_r. split; [done|apply bounded_nil]. Qed.

Lemma emits_bind_val {A B} (m : prog (State W) A) (k : A -> prog (State W) B) c r f c' r' f' c2 r2 f2 :
  emits c r f m -> (forall a s s', m s = (inl a, s') -> emits c' r' f' (k a)) ->
  (c + c' <= c2)%nat -> (r + r' <= r2)%nat -> (f + f' <= f2)%nat -> emits c2 r2 f2 (m ≫= k).
Proof.
  intros Hm Hk Hc Hr Hf s Hs. destruct (Hm s Hs) as (Hs1 & l & Hl & Hb). unfold mbind, prog_bind.
  destruct (m s) as [[a|e] s1] eqn:Hms; cbn [fst snd] in *.
  - destruct (Hk a s s1 Hms s1 Hs1) as (Hs2 & l' & Hl' & Hb'). split; [done|]. exists (l ++ l').
    split; [by rewrite Hl', Hl, app_assoc|]. by eapply bounded_app.
  - split; [done|]. exists l. split; [done|]. rewrite <- (app_nil_r l). eapply bounded_app; [done|apply (bounded_nil c' r' f')|done..].
Qed.

Lemma emits_bind {A B} (m : prog (State W) A) (k : A -> prog (State W) B) c r f c' r' f' c2 r2 f2 :
  emits c r f m -> (forall a, emits c' r' f' (k a)) ->
  (c + c' <= c2)%nat -> (r + r' <= r2)%nat -> (f + f' <= f2)%nat -> emits c2 r2 f2 (m ≫= k).
Proof. intros Hm Hk. eapply emits_bind_val; [exact Hm|]. intros a s s' _. apply Hk. Qed.

Lemma out_state {A} (m : prog W A) (s : State W) : world (out m s).2 = (m (world s)).2 /\ self (out m s).2 = self s.
Proof. unfold out. by destruct (m (world s)) as [[]]. Qed.

Lemma emits_out {A} (m : prog W A) c r f : (forall w, sent (m w).2 = sent w) -> emits c r f (out m).
Proof. intros Hm. apply emits_none. intros s. destruct (out_state m s) as [-> ->]. by rewrite Hm. Qed.

Lemma emits_request rq c r f :
  is_call rq = true /\ (1 <= c)%nat \/ is_call rq = false /\ is_refresh rq = true /\ (1 <= r)%nat -> emits c r f (out (request rq)).
Proof.
  intros Hrq s Hs. destruct (out_state (request rq) s) as [-> ->]. split; [done|]. exists [inl rq]. rewrite sent_request. split; [done|].
  unfold bounded, count. cbn. destruct Hrq as [[Hc Hn]|(Hc & Hr & Hn)]; rewrite Hc; cbn;
    (split_and!; [lia..|repeat constructor; cbn; by rewrite ?Hc, ?Hr]).
Qed.

Lemma emits_lift {A} (x : result A) c r f : emits c r f (lift x).
Proof. apply emits_none. intros s. by destruct x. Qed.

Lemma set_rate_limited_sends k n w : sent (set_entity_to_rate_limited k n w).2 = sent w.
Proof. unfold set_entity_to_rate_limited. destruct (n <=? 0); [done|apply sent_set_rate_limited]. Qed.

(** A token that is not cached is asked for once; an installation without a number has
    no other token than that of the app. *)
Lemma integration_token_sends service i kwargs w : exists l,
  sent (get_github_integration_token service i kwargs w).2 = sent w ++ l /\ (l = [] \/ l = [inr i]).
Proof.
  unfold get_github_integration_token, fetch_integration_token, mbind, prog_bind.
  pose proof (sent_cached_token (service, i, kwargs) w) as Hc. destruct (cached_token _ w) as [[[k|]|e] w1]; cbn in Hc |- *;
    [exists []; rewrite app_nil_r; auto| |exists []; rewrite app_nil_r; auto].
  pose proof (sent_github_jwt service (default VNone (od_get "app_id" kwargs)) (default VNone (od_get "pem_path" kwargs)) w1) as Hj.
  destruct (github_jwt _ _ _ w1) as [[jwt|e] w2]; cbn in Hj |- *; [|exists []; rewrite app_nil_r; split; [congruence|auto]].
  assert (Hcache : forall t w3 l, sent w3 = sent w ++ l -> sent (cache_token (service, i, kwargs) t w3).2 = sent w ++ l)
    by (intros; by rewrite sent_cache_token).
  destruct (i =? 0).
  - exists []. split; [|auto]. specialize (Hcache jwt w2 []). cbn in *.
    destruct (cache_token _ jwt w2) as [[?|?] ?]; cbn in *; apply Hcache; rewrite app_nil_r; congruence.
  - exists [inr i]. split; [|auto]. pose proof (sent_post_access_token service i jwt w2) as Hp.
    destruct (post_access_token service i jwt w2) as [[res|e] w3]; cbn in Hp |- *; rewrite Hj, Hc in Hp; [|done].
    case_bool_decide; [done|]. destruct (400 <=? tr_status_code res); [done|]. destruct (tr_token res) as [t|]; [|done]. cbn.
    specialize (Hcache t w3 _ Hp). by destruct (cache_token _ t w3) as [[?|?] ?].
Qed.

Create HintDb emits.
Hint Resolve emits_lift : emits.
Hint Extern 1 (emits _ _ _ (mret _)) => (apply emits_none; done) : emits.
Hint Extern 1 (emits _ _ _ (raise _)) => (apply emits_none; done) : emits.
Hint Extern 1 (emits _ _ _ (read _)) => (apply emits_none; done) : emits.
Hint Extern 1 (emits _ _ _ (get_self _)) => (apply emits_none; done) : emits.
Hint Extern 1 (emits _ _ _ (set_token _)) => (apply emits_none; done) : emits.

(** Programs that send nothing, and one step of any other. *)
Ltac silent := repeat first
  [ solve [eauto with emits]
  | apply emits_out; intros ?; solve [apply sent_on_token_refresh | apply set_rate_limited_sends]
  | eapply (emits_bind _ _ 0 0 0 0 0 0); [|intros ?|done|done|done]
  | case_match ].
Ltac quiet := eapply (emits_bind _ _ 0 0 0); [silent|intros ?|apply Nat.le_refl..].

Lemma mark_emits reset retry t : emits 0 0 0 (_possibly_mark_current_entity_as_rate_limited reset retry t).
Proof. unfold _possibly_mark_current_entity_as_rate_limited. silent. Qed.
Lemma loggable_emits t : emits 0 0 0 (loggable_token st t).
Proof. unfold loggable_token. silent. Qed.
Hint Resolve mark_emits loggable_emits : emits.

Lemma fallback_emits : emits 0 0 1 (_get_next_fallback_token st).
Proof.
  intros s Hs. unfold _get_next_fallback_token, get_self, read, mbind, prog_bind. unfold fallbacks in *.
  destruct (ad_fallback_installations (self s)) as [[|info rest]|] eqn:Hf; cbn in Hs |- *.
  1, 3: rewrite Hf; split; [done|]; exists []; rewrite app_nil_r; split; [done|apply bounded_nil].
  unfold out at 1 2. cbn [self world].
  destruct (integration_token_sends (st_service st) (ii_installation_id info) (info_kwargs info) (world s)) as (l & Hl & Hcases).
  assert (Hb : bounded 0 0 1 l).
  { destruct Hcases as [->| ->]; [apply bounded_nil|]. unfold bounded, count. cbn. split_and!; [lia..|]. repeat constructor. cbn. set_solver. }
  destruct (get_github_integration_token _ _ _ (world s)) as [[key|e] w]; cbn in *; (split; [set_solver|by exists l]).
Qed.

Lemma emits_ok {A B} (a : A) (k : A -> prog (State W) B) c r f : emits c r f (k a) -> emits c r f (lift (Ok a) ≫= k).
Proof. done. Qed.

Lemma refresh_endpoint : endpoint "refresh_token" [] = Ok "/login/oauth/access_token".
Proof. reflexivity. Qed.

Lemma refresh_emits : emits 0 1 0 (refresh_token st).
Proof.
  unfold refresh_token. rewrite refresh_endpoint. do 4 quiet. case_match; [|silent]. case_match; try by silent.
  all: quiet; apply emits_ok; eapply (emits_bind _ _ 0 1 0 0 0 0); [|intros ?; silent|done|done|done].
  all: apply emits_request; right; split_and!; [|by unfold is_refresh; rewrite !bool_decide_eq_true_2|done].
  all: apply not_true_iff_false; unfold is_call; by rewrite !andb_true_iff, !bool_decide_eq_true; intros [[_ ?] _].
Qed.

Lemma emits_if_refreshing {A} (b : result bool) (k1 k2 : prog (State W) A) c r f :
  (b = Ok true -> emits c r f k1) -> emits c r f k2 -> emits c r f (lift b ≫= fun x : bool => if x then k1 else k2).
Proof. intros H1' H2'. destruct b as [[]|]; [by apply H1'|done|by apply emits_none]. Qed.

Lemma conclude_emits statuses last again res c r f : emits c r f again -> emits c r f (conclude statuses last again res).
Proof. intros Ha. unfold conclude. case_match; [|done]. case_match; silent. Qed.

Lemma attempts_emits statuses t n headers (tried : bool) :
  emits n (if tried then 0 else 1)%nat n (attempts st method url body statuses t n headers tried).
Proof.
  revert headers tried. induction n as [|n IH]; intros headers tried; cbn [attempts]; [silent|].
  eapply (emits_bind _ _ 1 0 0 n _ (S n)); [|intros reply|lia|apply Nat.le_refl|lia].
  { apply emits_request. left. split; [|lia]. unfold is_call. cbn. by rewrite !bool_decide_eq_true_2. }
  assert (Hagain : forall headers tried, emits n (if (tried : bool) then 0 else 1)%nat (S n) (attempts st method url body statuses t n headers tried)).
  { intros headers' tried' s Hs. destruct (IH headers' tried' s Hs) as (Hs' & l & Hl & Hb1 & Hb2 & Hb3 & Hb4). split; [done|].
    exists l. split; [done|]. split_and!; [lia..|done]. }
  destruct reply as [res|]; [|destruct (bool_decide (n = O)); [silent|apply Hagain]].
  quiet. rename a into ad. apply emits_if_refreshing; [intros Hr|].
  - assert (tried = false) as ->.
    { unfold may_refresh in Hr. destruct (py_str _); [|done]. injection Hr as Hr. by destruct tried. }
    eapply (emits_bind _ _ 0 1 0 n 0 (S n)); [apply refresh_emits|intros [t'|]|done|done|done].
    + do 3 quiet. exact (Hagain _ true).
    + apply conclude_emits. exact (Hagain _ true).
  - quiet. rename a into limited. destruct limited; [|apply conclude_emits, (Hagain headers tried)].
    do 2 quiet. eapply (emits_bind _ _ 0 0 1 n _ n); [apply fallback_emits|intros key|apply Nat.le_refl..].
    destruct key as [[]|]; try by silent. quiet. exact (IH _ tried).
Qed.

(** The request of a call, where it has an address; without one nothing is sent. *)
Lemma make_emits m u o t (n : nat) :
  method = method_of m -> body = body_of o -> (n = 1%nat /\ address_of st u o = Ok url \/ n = O /\ is_Ok (address_of st u o) = false) ->
  emits (3 * n) n (3 * n) (make_http_call st m u o t).
Proof.
  intros Hm Hb Ha. unfold make_http_call, address_of in *. quiet.
  eapply (emits_bind_val _ _ 0 0 0); [silent| |apply Nat.le_refl..]. intros v s s' Hv.
  assert (v = if startswith "/" u then st_api_url st +:+ u else u) as ->.
  { destruct (bool_decide (u = "")); [done|]. destruct (startswith "/" u); [|by injection Hv].
    by apply run_bind_inv in Hv as (? & ? & _ & [= <-]). }
  destruct (url_concat _ _) as [c|]; [|by apply emits_none]. apply emits_ok.
  destruct Ha as [[-> [= Hu]]|[_ ?]]; [|done]. unfold method_of, body_of in *. rewrite <- Hm, <- Hb, Hu.
  exact (attempts_emits (op_statuses_to_retry o) t 3 _ false).
Qed.
End bounded.

(** ** The outcome *)

Section outcome.
Context {W : Type} `{HttpLaws W}.
Variable st : Settings.
Variables (method url : string) (o : Options) (t : option token).

(** What is left of a call when its address and its headers are there. *)
Lemma call_steps headers address (s : State W) :
  base_headers st t (op_headers o) = Ok headers -> address_of st url o = Ok address -> url <> "" ->
  (startswith "/" url = true -> exists text, loggable_token st t s = (inl text, s)) ->
  make_http_call st method url o t s =
  attempts st (method_of method) address (body_of o) (op_statuses_to_retry o) t max_number_retries (host_header_of st address headers) false s.
Proof.
  intros Hh Ha Hu Hl. unfold make_http_call. rewrite Hh, run_bind_lift, (bool_decide_eq_false_2 (url = "")) by done. unfold address_of in Ha.
  destruct (url_concat _ _) as [u|] eqn:Hc; [|done]. injection Ha as <-. destruct (startswith "/" url).
  - destruct Hl as (text & Hl); [done|].
    assert (Hu' : (loggable_token st t ≫= fun _ => mret (st_api_url st +:+ url)) s = (inl (st_api_url st +:+ url), s))
      by by rewrite (run_bind _ _ _ _ _ Hl).
    by rewrite (run_bind _ _ _ _ _ Hu'), Hc, run_bind_lift.
  - erewrite run_bind by done. by rewrite Hc, run_bind_lift.
Qed.

(** C35: A call sends its request at most three times, each time with the same method,
    address and body; the request that exchanges the token of the account for a new one at
    most once; and the request for the token of an installation at most three times, each
    for one of the fallback installations the adapter had.  It sends nothing else. *)
Theorem call_is_bounded (s : State W) :
  exists address l,
    sent (world (make_http_call st method url o t s).2) = sent (world s) ++ l /\
    (l <> [] -> address_of st url o = Ok address) /\
    let call := is_call (method_of method) address (body_of o) in
    (count (fun e => match e with inl rq => call rq | inr _ => false end) l <= 3)%nat /\
    (count (fun e => match e with inl rq => negb (call rq) | inr _ => false end) l <= 1)%nat /\
    (count (fun e => match e with inl _ => false | inr _ => true end) l <= 3)%nat /\
    Forall (fun e => match e with
                     | inl rq => call rq || is_refresh st rq = true
                     | inr i => i ∈ map ii_installation_id (default [] (ad_fallback_installations (self s)))
                     end) l.
Proof.
  destruct (address_of st url o) as [address|] eqn:Ha.
  - exists address. destruct (make_emits st (method_of method) address (body_of o) (fallbacks (self s)) method url o t 1 eq_refl eq_refl
      (or_introl (conj eq_refl Ha)) s) as (_ & l & Hl & Hb); [done|]. by exists l.
  - exists "". destruct (make_emits st (method_of method) "" (body_of o) (fallbacks (self s)) method url o t 0 eq_refl eq_refl) with (s := s)
      as (_ & l & Hl & Hb); [by right; rewrite Ha|done|]. exists l. split; [done|].
    split; [|refine (bounded_mono st _ _ _ _ 0 0 0 3 1 3 l Hb _ _ _); lia].
    destruct Hb as (Hn & Hr & Hf & _). intros Hne. unfold count in *. destruct l as [|[rq|i] l]; [done| |cbn in Hf; lia].
    cbn in Hn, Hr. destruct (is_call _ _ _ rq); cbn in Hn, Hr; lia.
Qed.

(** ** The answers of a service *)

(** The same request, sent again and again, and what it is answered. *)
Inductive exchanges (rq : Request) : W -> list reply -> W -> Prop :=
  | exchange_none w : exchanges rq w [] w
  | exchange_more w r w1 l w2 : request rq w = (inl r, w1) -> exchanges rq w1 l w2 -> exchanges rq w (r :: l) w2.

(** What is tried again, while there are attempts. *)
Definition retriable (statuses : list Z) (r : reply) : bool :=
  match r with
  | NoAnswer => true
  | Answer res => bool_decide (is_rate_limited res = Ok false) && bool_decide (status_code res ∈ statuses)
  end.

(** What the last answer makes of a call. *)
Definition verdict (r : reply) : option Response + fault :=
  match r with
  | NoAnswer => inr (Torngit TorngitServerUnreachableError)
  | Answer res =>
      match is_rate_limited res with
      | Err e => inr (Raised e)
      | Ok true => inr (Torngit TorngitRateLimitError)
      | Ok false => match classify res with inl res => inl (Some res) | inr e => inr (Torngit e) end
      end
  end.

(** The headers of a rate limit are numbers, and the entity of a token a text. *)
Definition number_or_missing (o : option string) : Prop := match o with None => True | Some s => is_Ok (int_of_str s) = true end.
Definition well_numbered (r : reply) : Prop :=
  match r with
  | NoAnswer => True
  | Answer res => number_or_missing (header "retry-after" res) /\ number_or_missing (header "x-ratelimit-reset" res)
  end.
Definition nameable (t : option token) : Prop :=
  match t with None => False | Some t => is_Ok (py_str (field "entity_name" t)) = true end.

(** An adapter with a token that cannot be exchanged, and no other installation. *)
Definition on_its_own (a : Adapter) : Prop :=
  ad_refreshes a = false /\ (ad_fallback_installations a = None \/ ad_fallback_installations a = Some []).

Lemma mark_run res retry s :
  nameable t -> number_or_missing (header "x-ratelimit-reset" res) ->
  exists s', _possibly_mark_current_entity_as_rate_limited (header "x-ratelimit-reset" res) retry t s = (inl tt, s') /\ self s' = self s.
Proof.
  assert (Hset : forall k n, exists s', out (set_entity_to_rate_limited k n) s = (inl tt, s') /\ self s' = self s).
  { intros k n. unfold out, set_entity_to_rate_limited. destruct (n <=? 0); [by eexists|].
    pose proof (marking_succeeds ("rate_limited_entity_" +:+ k) n (world s)) as Hm. destruct (redis_set_rate_limited _ n (world s)) as [? w]. cbn in Hm. subst. by eexists. }
  unfold nameable, number_or_missing, _possibly_mark_current_entity_as_rate_limited. destruct t as [d|]; [|done]. intros Hn Hr.
  destruct (py_str (field "entity_name" d)) as [k|] eqn:Hk; [|done]. clear Hn.
  destruct (field "entity_name" d); rewrite ?run_bind_lift; cbn [py_str] in Hk |- *; try discriminate; [by eexists|..];
    injection Hk as ->; (destruct retry; [apply Hset|]); (destruct (header "x-ratelimit-reset" res) as [r|]; [|by eexists]);
    (destruct (int_of_str r) as [n|] eqn:Hi; [|done]); erewrite run_bind by done; rewrite run_bind_lift; apply Hset.
Qed.

(** An answer that ends the call. *)
Lemma ends statuses last again res (s : State W) :
  is_rate_limited res = Ok false -> last = true \/ retriable statuses (Answer res) = false ->
  (conclude statuses last again res s).1 = verdict (Answer res).
Proof.
  unfold conclude, verdict, retriable. intros Hl. rewrite Hl, (bool_decide_eq_true_2 (Ok false = Ok false)) by done. cbn [andb].
  intros He. replace (last || negb (bool_decide (status_code res ∈ statuses))) with true; [by destruct (classify res)|].
  destruct last; [done|]. destruct He as [?| ->]; done.
Qed.

(** One attempt of an adapter that does not exchange its token. *)
Lemma attempt_step statuses m address body n headers tried (s : State W) r w :
  ad_refreshes (self s) = false -> request (mkRequest m address None body headers) (world s) = (inl r, w) ->
  attempts st m address body statuses t (S n) headers tried s =
  match r with
  | NoAnswer =>
      if bool_decide (n = O) then raise (Torngit TorngitServerUnreachableError)
      else attempts st m address body statuses t n headers tried
  | Answer res =>
      limited ← lift (is_rate_limited res);
      if (limited : bool) then
        retry_after ← lift (match header "retry-after" res with None => Ok None | Some s => k ← int_of_str s; Ok (Some k) end);
        _ ← _possibly_mark_current_entity_as_rate_limited (header "x-ratelimit-reset" res) retry_after t;
        fallback ← _get_next_fallback_token st;
        match fallback with
        | Some ((String _ _) as key) =>
            headers ← lift (with_authorization headers key); attempts st m address body statuses t n headers tried
        | _ => raise (Torngit TorngitRateLimitError)
        end
      else conclude statuses (bool_decide (n = O)) (attempts st m address body statuses t n headers tried) res
  end (mkState (self s) w).
Proof.
  intros Href Hreq. cbn [attempts]. erewrite run_bind; [|unfold out; rewrite Hreq; reflexivity]. destruct r as [res|]; [|done].
  erewrite run_bind by done. cbn [self].
  assert (may_refresh st address (id (self s)) tried res = Ok false) as ->; [|done].
  unfold may_refresh, id. rewrite Href, andb_false_r. by destruct (slug_text (self s)) eqn:Hs; unfold slug_text in Hs; destruct (slug_of _).
Qed.

Lemma retry_given res : number_or_missing (header "retry-after" res) ->
  exists retry, match header "retry-after" res with None => Ok None | Some s => k ← int_of_str s; Ok (Some k) end = Ok retry.
Proof.
  unfold number_or_missing. destruct (header "retry-after" res) as [x|]; [|by eexists]. destruct (int_of_str x); [by eexists|done].
Qed.

(** The last attempt of a call. *)
Lemma last_attempt statuses m address body n headers tried (s : State W) r w :
  on_its_own (self s) -> nameable t -> request (mkRequest m address None body headers) (world s) = (inl r, w) ->
  retriable statuses r = false \/ n = O -> well_numbered r ->
  (attempts st m address body statuses t (S n) headers tried s).1 = verdict r.
Proof.
  intros [Href Hfall] Hname Hreq Hr Hnum. erewrite attempt_step by done. destruct r as [res|].
  2: { rewrite bool_decide_eq_true_2; [done|]. by destruct Hr. }
  rewrite run_bind_lift. destruct (is_rate_limited res) as [[]|e] eqn:Hl; [| |cbn; by rewrite Hl].
  - destruct Hnum as [Hra Hrs]. rewrite run_bind_lift.
    destruct (retry_given res Hra) as [retry ->].
    destruct (mark_run res retry (mkState (self s) w) Hname Hrs) as (s' & Hm & Hs'). rewrite (run_bind _ _ _ _ _ Hm).
    assert (Hf : _get_next_fallback_token st s' = (inl None, s')).
    { unfold _get_next_fallback_token. erewrite run_bind by done. rewrite Hs'. cbn [self]. by destruct Hfall as [-> | ->]. }
    rewrite (run_bind _ _ _ _ _ Hf). cbn. by rewrite Hl.
  - rewrite ends; [done|done|]. destruct Hr as [?| ->]; [by right|left; by apply bool_decide_eq_true].
Qed.

Lemma attempts_outcome statuses m address body n headers tried (s : State W) l r w :
  on_its_own (self s) -> nameable t -> exchanges (mkRequest m address None body headers) (world s) (l ++ [r]) w ->
  Forall (fun r => retriable statuses r = true) l -> (length l < n)%nat -> retriable statuses r = false \/ S (length l) = n ->
  well_numbered r -> (attempts st m address body statuses t n headers tried s).1 = verdict r.
Proof.
  intros Hown Hname. revert s n Hown. induction l as [|r0 l IH]; intros s [|n] Hown Hex Hall Hn Hr Hnum; try (cbn in Hn; lia);
    inversion Hex as [|? ? w1 ? ? Hreq Hex']; subst.
  { eapply last_attempt; try done. destruct Hr as [?|[=]]; [by left|by right]. }
  apply Forall_cons in Hall as [Hr0 Hall]. cbn in Hn. pose proof Hown as [Href _].
  assert (Hrest : (attempts st m address body statuses t n headers tried (mkState (self s) w1)).1 = verdict r).
  { eapply IH; try done; [lia|]. destruct Hr as [?|Hr]; [by left|right; cbn in Hr; lia]. }
  erewrite attempt_step by done. destruct r0 as [res|]; [|rewrite bool_decide_eq_false_2; [done|lia]].
  cbn in Hr0. apply andb_true_iff in Hr0 as [Hl Hst]. apply bool_decide_eq_true_1 in Hl. rewrite run_bind_lift, Hl.
  unfold conclude. rewrite (bool_decide_eq_false_2 (n = O)) by lia. by rewrite Hst.
Qed.

(** C34: Where the adapter has nothing but its token, a call ends with the first of three
    answers that is not tried again: no answer and the statuses to retry are, as long
    as there is an attempt left, a rate limit is not. *)
Theorem call_outcome headers address (s : State W) l r w :
  base_headers st t (op_headers o) = Ok headers -> address_of st url o = Ok address -> url <> "" ->
  (startswith "/" url = true -> exists text, loggable_token st t s = (inl text, s)) ->
  on_its_own (self s) -> nameable t -> well_numbered r ->
  exchanges (mkRequest (method_of method) address None (body_of o) (host_header_of st address headers)) (world s) (l ++ [r]) w ->
  Forall (fun r => retriable (op_statuses_to_retry o) r = true) l -> (length l <= 2)%nat ->
  retriable (op_statuses_to_retry o) r = false \/ length l = 2%nat ->
  (make_http_call st method url o t s).1 = verdict r.
Proof.
  intros Hh Ha Hu Hlog Hown Hname Hnum Hex Hall Hlen Hr. erewrite call_steps by done.
  eapply attempts_outcome; try done; unfold max_number_retries; [lia|]. destruct Hr as [?| ->]; [by left|by right].
Qed.

Lemma with_key prefix old headers key :
  od_get "Authorization" headers = Some (prefix +:+ " " +:+ old) -> without " " prefix = true -> without " " old = true ->
  with_authorization headers key = Ok (od_set "Authorization" (prefix +:+ " " +:+ key) headers).
Proof.
  intros Ho Hp Hold. unfold with_authorization. rewrite Ho.
  assert (split " " (prefix +:+ " " +:+ old) = [prefix; old]) as ->; [|done].
  change (prefix +:+ " " +:+ old) with (join " " [prefix; old]). apply split_chars; [|done]. by repeat constructor.
Qed.

(** C36: A rate limit hands the call to the next installation: its token is asked for and
    replaces the one of the adapter and of the header, and the installation is not
    tried again.  The attempt counts as one of the three. *)
Theorem rate_limit_falls_back statuses m address body n headers tried (s : State W) res w info rest key prefix old :
  ad_refreshes (self s) = false -> nameable t -> well_numbered (Answer res) -> is_rate_limited res = Ok true ->
  request (mkRequest m address None body headers) (world s) = (inl (Answer res), w) ->
  ad_fallback_installations (self s) = Some (info :: rest) ->
  (forall w, exists w', get_github_integration_token (st_service st) (ii_installation_id info) (info_kwargs info) w = (inl key, w')) ->
  key <> "" -> od_get "Authorization" headers = Some (prefix +:+ " " +:+ old) -> without " " prefix = true -> without " " old = true ->
  exists s', attempts st m address body statuses t (S n) headers tried s =
             attempts st m address body statuses t n (od_set "Authorization" (prefix +:+ " " +:+ key) headers) tried s' /\
    ad_token (self s') = Some [("key", VStr key)] /\ ad_fallback_installations (self s') = Some rest /\
    ad_installation (self s') = Some info.
Proof.
  intros Href Hname [Hra Hrs] Hl Hreq Hfall Htok Hk Ho Hp Hold. erewrite attempt_step by done.
  cbv beta iota. rewrite run_bind_lift, Hl. cbv beta iota. rewrite run_bind_lift.
  destruct (retry_given res Hra) as [retry ->]. destruct (mark_run res retry (mkState (self s) w) Hname Hrs) as (s' & Hm & Hs').
  rewrite (run_bind _ _ _ _ _ Hm). cbn in Hs'. destruct (Htok (world s')) as (w' & Hw').
  assert (exists s2, _get_next_fallback_token st s' = (inl (Some key), s2) /\ ad_token (self s2) = Some [("key", VStr key)] /\
    ad_fallback_installations (self s2) = Some rest /\ ad_installation (self s2) = Some info) as (s2 & Hf & Hs2).
  { unfold _get_next_fallback_token. erewrite run_bind by done. rewrite Hs', Hfall. cbv beta. erewrite run_bind by done.
    assert (Ho' : forall a, out (get_github_integration_token (st_service st) (ii_installation_id info) (info_kwargs info)) (mkState a (world s'))
      = (inl key, mkState a w')) by (intros a; unfold out; cbn [world]; by rewrite Hw').
    erewrite run_bind by apply Ho'. by eexists. }
  rewrite (run_bind _ _ _ _ _ Hf). destruct key as [|c key]; [done|].
  exists s2. split; [|done]. cbv beta iota. by rewrite (with_key prefix old).
Qed.
End outcome.

(** ** A concrete service *)

(** It gives the answers of a list, in order, and then none. *)
Record hub : Type := mkHub { hb_replies : list reply; hb_sent : list (Request + Z); hb_marked : list (string * Z) }.

#[local] Instance hub_http : HttpServices hub := {
  request rq w := match hb_replies w with
                  | r :: l => (inl r, mkHub l (hb_sent w ++ [inl rq]) (hb_marked w))
                  | [] => (inl NoAnswer, mkHub [] (hb_sent w ++ [inl rq]) (hb_marked w))
                  end;
  on_token_refresh _ := mret tt;
  token_digest _ := "digest";
}.
#[local] Instance hub_bots : BotServices hub := {
  now _ := 100 * DAY;
  configuration _ := VDict [];
  set_configuration _ w := w;
  redis_exists _ := mret (Some false);
  redis_set_rate_limited k n := modify (fun w => mkHub (hb_replies w) (hb_sent w) (hb_marked w ++ [(k, n)]));
  choices keys _ := mret (List.last keys 0);
  github_jwt _ _ _ := mret "jwt";
  post_access_token _ i _ w := (inl (mkTokenResponse 201 None false (Some ("token-" +:+ str_of_Z i))),
                                mkHub (hb_replies w) (hb_sent w ++ [inr i]) (hb_marked w));
  cached_token _ := mret None;
  cache_token _ _ := mret tt;
  installations _ := [];
  set_installations _ w := w;
  clear_integration_id _ w := w;
}.
#[local] Instance hub_laws : HttpLaws hub.
Proof.
  refine {| sent := hb_sent |}; try done.
  intros rq w. cbn. by destruct (hb_replies w).
Defined.

Definition demo_settings : Settings := mkSettings "github" "https://github.com" "https://api.github.com" None None "Default".
Definition demo_token : token := [("key", VStr "first"); ("username", VStr "installation_1"); ("entity_name", VStr "default_app_1")].
Definition demo_adapter (fallback : list Z) : Adapter :=
  mkAdapter (Some demo_token) [] None false (Some "codecov") (Some "example") None (Some (map (fun i => mkInfo None i None None) fallback)) None.
Definition answer (code : Z) (headers : odict string string) (body : pyval) : reply :=
  Answer (mkResponse code (("content-type", "application/json; charset=utf-8") :: headers) "" (Ok body) "").
Definition demo_state (fallback : list Z) (replies : list reply) : State hub := mkState (demo_adapter fallback) (mkHub replies [] []).
Definition demo_request (key : string) : Request :=
  mkRequest "GET" "https://api.github.com/repos/codecov/example?page=2" None VNone
    [("Accept", "application/json"); ("User-Agent", "Default"); ("Authorization", "token " +:+ key)].
Definition demo_options : Options := with_args [("page", VInt 2)].
Definition good_response : Response := mkResponse 200 [("content-type", "application/json; charset=utf-8")] "" (Ok (VInt 1)) "".

(** A gateway error is tried again. *)
Lemma call_outcome_witness :
  exchanges (demo_request "first") (mkHub [answer 502 [] VNone; answer 200 [] (VInt 1)] [] []) [answer 502 [] VNone; answer 200 [] (VInt 1)]
    (mkHub [] [inl (demo_request "first"); inl (demo_request "first")] []) /\
  (make_http_call demo_settings "get" "/repos/codecov/example" demo_options (Some demo_token)
     (demo_state [] [answer 502 [] VNone; answer 200 [] (VInt 1)])).1 = inl (Some good_response).
Proof.
  assert (Hex : exchanges (demo_request "first") (mkHub [answer 502 [] VNone; answer 200 [] (VInt 1)] [] [])
    ([answer 502 [] VNone] ++ [answer 200 [] (VInt 1)]) (mkHub [] [inl (demo_request "first"); inl (demo_request "first")] [])).
  { econstructor; [reflexivity|]. econstructor; [reflexivity|]. constructor. }
  split; [exact Hex|].
  rewrite (call_outcome demo_settings "get" "/repos/codecov/example" demo_options (Some demo_token)
    [("Accept", "application/json"); ("User-Agent", "Default"); ("Authorization", "token first")]
    "https://api.github.com/repos/codecov/example?page=2" (demo_state [] [answer 502 [] VNone; answer 200 [] (VInt 1)])
    [answer 502 [] VNone] (answer 200 [] (VInt 1)) (mkHub [] [inl (demo_request "first"); inl (demo_request "first")] [])).
  - reflexivity.
  - vm_compute. reflexivity.
  - vm_compute. reflexivity.
  - discriminate.
  - intros _. eexists. reflexivity.
  - split; [reflexivity|by right].
  - reflexivity.
  - split; exact I.
  - exact Hex.
  - by repeat constructor.
  - cbn. lia.
  - left. reflexivity.
Defined.

Definition limited : reply := answer 403 [("x-ratelimit-remaining", "0"); ("x-ratelimit-reset", "8643600")] VNone.
Definition limited_response : Response := match limited with Answer r => r | NoAnswer => good_response end.

Lemma rate_limit_falls_back_witness :
  is_rate_limited limited_response = Ok true /\
  exists s', attempts demo_settings "GET" "https://api.github.com/repos/codecov/example?page=2" VNone [] (Some demo_token) 2
               (rq_headers (demo_request "first")) false (demo_state [5; 6] [limited; limited])
             = attempts demo_settings "GET" "https://api.github.com/repos/codecov/example?page=2" VNone [] (Some demo_token) 1
               (rq_headers (demo_request "token-5")) false s' /\
             ad_token (self s') = Some [("key", VStr "token-5")].
Proof.
  split; [reflexivity|].
  destruct (rate_limit_falls_back demo_settings (Some demo_token) [] "GET" "https://api.github.com/repos/codecov/example?page=2" VNone 1
    (rq_headers (demo_request "first")) false (demo_state [5; 6] [limited; limited]) limited_response
    (mkHub [limited] [inl (demo_request "first")] []) (mkInfo None 5 None None) [mkInfo None 6 None None] "token-5" "token" "first")
    as (s' & Hrun & Htok & _).
  - reflexivity.
  - reflexivity.
  - split; vm_compute; done.
  - reflexivity.
  - reflexivity.
  - reflexivity.
  - intros w. eexists. reflexivity.
  - discriminate.
  - reflexivity.
  - reflexivity.
  - reflexivity.
  - exists s'. split; [exact Hrun|exact Htok].
Defined.

(** The next installation answers; the entity of the first token is marked for the
    hour that is left. *)
Example second_installation :
  let r := api demo_settings "get" "/repos/codecov/example" demo_options None (demo_state [5] [limited; answer 200 [] (VInt 1)]) in
  r.1 = inl (VInt 1) /\ hb_sent (world r.2) = [inl (demo_request "first"); inr 5; inl (demo_request "token-5")] /\
  hb_marked (world r.2) = [("rate_limited_entity_default_app_1", 3600)].
Proof. split_and!; vm_compute; reflexivity. Qed.

(** A second rate limit marks the entity of the first token again, though it is the
    second installation that was limited; and after the third the call ends
    without an answer, which is an error of another kind. *)
Example limits_used_up :
  let r := api demo_settings "get" "/repos/codecov/example" demo_options None (demo_state [5; 6; 7; 8] [limited; limited; limited]) in
  r.1 = inr (Raised AttributeError) /\
  hb_marked (world r.2) = repeat ("rate_limited_entity_default_app_1", 3600) 3 /\
  option_map (map ii_installation_id) (ad_fallback_installations (self r.2)) = Some [8].
Proof. split_and!; vm_compute; reflexivity. Qed.
