(* ===== verification/Github.v ===== *)
(** * The adapter of GitHub

    The endpoints of [shared/torngit/github.py]: repositories, branches, commits, pull
    requests, comments, statuses, checks and webhooks.  The caches of answers are not
    modelled: a method is what is under its decorator. *)
From S2P Require Import TorngitDiff CiStatus Encryption.
From S2P Require Export GithubHttp.
#[local] Open Scope string_scope.
#[local] Open Scope list_scope.
#[local] Open Scope Z_scope.

(** ** Values of an answer *)

Definition get (v : pyval) (k : string) : result pyval := dict_get v k VNone.
(** [v[k1][k2]...] *)
Fixpoint item (v : pyval) (path : list string) : result pyval :=
  match path with [] => Ok v | k :: path => w ← get_item v k; item w path end.
(** What a loop over a value goes through; the characters of a text are not needed. *)
Definition iter (v : pyval) : result (list pyval) :=
  match v with
  | VList l => Ok l
  | VDict d => Ok (map (fun kv => VStr kv.1) d)
  | VStr s => if bool_decide (s = "") then Ok [] else Err Unmodelled
  | _ => Err TypeError
  end.
Definition str_item (v : pyval) (path : list string) : result pyval := w ← item v path; s ← py_str w; Ok (VStr s).
Definition text_of (v : pyval) : result string := match v with VStr s => Ok s | _ => Err Unmodelled end.
(** [a or b] *)
Definition or_value (v w : pyval) : pyval := if truthy v then v else w.
Definition len (l : list pyval) : Z := Z.of_nat (length l).

(** A repository of a page. *)
Definition process_repo (repo : pyval) : result pyval :=
  service_id ← str_item repo ["owner"; "id"];
  username ← item repo ["owner"; "login"];
  id ← str_item repo ["id"];
  name ← item repo ["name"];
  language ← item repo ["language"];
  language ← _validate_language language;
  private ← item repo ["private"];
  branch ← item repo ["default_branch"];
  Ok (VDict [("owner", VDict [("service_id", service_id); ("username", username)]);
             ("repo", VDict [("service_id", id); ("name", name); ("language", language); ("private", private);
                             ("branch", or_value branch (VStr "main"))])]).
Definition _process_repository_page (page : list pyval) : result (list pyval) := traverse process_repo page.

Section github.
Context {W : Type} `{HttpServices W} `{BotServices W}.
Variable st : Settings.

Definition token_or (t : option token) (type : TokenType) : prog (State W) (option token) := get_token_by_type_if_none own_token t type.
Definition url_of (url_name : string) (fields : odict string pyval) : prog (State W) string := lift (endpoint url_name fields).
Definition slug_field : prog (State W) (string * pyval) := s ← get_self slug_text; mret ("slug", s).

(** An address below the repository, with more fields. *)
Definition repo_url (url_name : string) (fields : odict string pyval) : prog (State W) string :=
  slug ← slug_field; url_of url_name (slug :: fields).

(** [except TorngitClientError as ce: if ce.code == code: raise e ...; raise], for the first
    of the codes. *)
Definition on_codes {A} (codes : list (Z * torngit_error)) (m : prog (State W) A) : prog (State W) A :=
  try_except m (fun f => match f with
                         | Torngit e => match List.find (fun ce => bool_decide (client_code e = Some ce.1)) codes with
                                        | Some ce => Some (raise (Torngit ce.2))
                                        | None => None
                                        end
                         | _ => None
                         end).
Definition on_code {A} (code : Z) (e : torngit_error) (m : prog (State W) A) : prog (State W) A := on_codes [(code, e)] m.

(** [while True: page += 1; ...]: the data so far, and whether there is another page. *)
Fixpoint page_loop {B} (fuel : nat) (page : Z) (data : list B) (step : Z -> list B -> prog (State W) (list B * bool)) :
    prog (State W) (list B) :=
  match fuel with
  | O => raise (Raised Unmodelled)
  | S fuel => '(data, more) ← step page data; if (more : bool) then page_loop fuel (page + 1) data step else mret data
  end.

(** ** Branches, users and repositories *)

Definition branch_of (b : pyval) : result (pyval * pyval) :=
  name ← item b ["name"]; sha ← item b ["commit"; "sha"]; Ok (name, sha).

Definition get_branches (fuel : nat) (t : option token) : prog (State W) (list (pyval * pyval)) :=
  t ← token_or t t_read;
  page_loop fuel 1 [] (fun page branches =>
    url ← repo_url "get_branches" [];
    res ← api st "get" url (with_args [("per_page", VInt 100); ("page", VInt page)]) t;
    res ← lift (iter res);
    if len res =? 0 then mret (branches, false)
    else new ← lift (traverse branch_of res); mret (branches ++ new, negb (len res <? 100))).

Definition get_branch (branch_name : string) : prog (State W) pyval :=
  url ← repo_url "get_branch" [("branch_name", VStr branch_name)];
  res ← api st "get" url plain None;
  lift (name ← item res ["name"]; sha ← item res ["commit"; "sha"]; Ok (VDict [("name", name); ("sha", sha)])).

(** [d.update(other)] *)
Definition updated (v other : pyval) : result pyval :=
  match v, other with
  | VDict d, VDict o => Ok (VDict (foldl (fun d kv => od_set kv.1 kv.2 d) d o))
  | VDict _, _ => Err TypeError
  | _, _ => Err AttributeError
  end.
Definition set_item (v : pyval) (k : string) (w : pyval) : result pyval :=
  match v with VDict d => Ok (VDict (od_set k w d)) | _ => Err TypeError end.

Definition public_email (emails : pyval) : result pyval :=
  l ← iter emails;
  es ← traverse (fun e => vis ← item e ["visibility"];
                          if bool_decide (vis = VStr "public") then email ← item e ["email"]; Ok [email] else Ok []) l;
  Ok (match concat es with e :: _ => e | [] => VNone end).

Definition get_authenticated_user (code : string) : prog (State W) pyval :=
  creds ← _oauth_consumer_token;
  path ← url_of "get_user_token" [];
  key ← lift (get_item (VDict creds) "key");
  secret ← lift (get_item (VDict creds) "secret");
  response ← make_http_call st "get" (st_service_url st +:+ path)
               (with_args [("code", VStr code); ("client_id", key); ("client_secret", secret)]) None;
  session ← lift (parsed response);
  access ← lift (get session "access_token");
  if truthy access then
    refresh ← lift (get session "refresh_token");
    _ ← set_token [("key", access); ("refresh_token", refresh)];
    url ← url_of "get_authenticated_user" [];
    user ← api st "get" url plain None;
    user ← lift (updated user session);
    email ← lift (get user "email");
    if truthy email then mret user
    else
      url ← url_of "get_authenticated_user_email" [];
      emails ← api st "get" url plain None;
      lift (email ← public_email emails; set_item user "email" email)
  else mret VNone.

Definition get_is_admin (username : string) (t : option token) : prog (State W) bool :=
  owner ← get_self ad_username;
  match owner with
  | None => raise (Raised KeyError)
  | Some owner =>
      url ← url_of "get_is_admin" [("owner_username", VStr owner); ("user_username", VStr username)];
      res ← api st "get" url plain t;
      lift (state ← item res ["state"];
            if bool_decide (state = VStr "active") then role ← item res ["role"]; Ok (bool_decide (role = VStr "admin")) else Ok false)
  end.

(** The first of the pair is always [True]. *)
Definition get_authenticated (t : option token) : prog (State W) (bool * pyval) :=
  url ← repo_url "get_authenticated" [];
  r ← api st "get" url plain t;
  lift (admin ← item r ["permissions"; "admin"];
        if truthy admin then Ok (true, admin) else push ← item r ["permissions"; "push"]; Ok (true, push)).

Definition fork_of (parent : pyval) : result pyval :=
  if truthy parent then
    service_id ← str_item parent ["owner"; "id"];
    username ← item parent ["owner"; "login"];
    id ← str_item parent ["id"];
    name ← item parent ["name"];
    language ← item parent ["language"];
    language ← _validate_language language;
    private ← item parent ["private"];
    branch ← item parent ["default_branch"];
    Ok (VDict [("owner", VDict [("service_id", service_id); ("username", username)]);
               ("repo", VDict [("service_id", id); ("name", name); ("language", language); ("private", private); ("branch", branch)])])
  else Ok VNone.

Definition repository_of (res : pyval) : result pyval :=
  full_name ← item res ["full_name"];
  full_name ← text_of full_name;
  match split1 "/" full_name with
  | [username; repo] =>
      parent ← get res "parent";
      fork ← fork_of parent;
      owner_id ← str_item res ["owner"; "id"];
      id ← str_item res ["id"];
      language ← item res ["language"];
      language ← _validate_language language;
      private ← item res ["private"];
      branch ← item res ["default_branch"];
      Ok (VDict [("owner", VDict [("service_id", owner_id); ("username", VStr username)]);
                 ("repo", VDict [("service_id", id); ("name", VStr repo); ("language", language); ("private", private); ("fork", fork);
                                 ("branch", or_value branch (VStr "main"))])])
  | _ => Err ValueError
  end.

Definition get_repository (t : option token) : prog (State W) pyval :=
  t ← token_or t t_read;
  service_id ← get_self ad_repo_service_id;
  url ← match service_id with
        | None => repo_url "get_repository_without_service_id" []
        | Some i => url_of "get_repository_with_service_id" [("service_id", VStr i)]
        end;
  res ← api st "get" url plain t;
  lift (repository_of res).

(** ** Lists of repositories *)

Definition _fetch_page_of_repos_using_installation (page_size page : Z) : prog (State W) (list pyval) :=
  url ← url_of "fetch_page_of_repos_using_installation" [("page_size", VInt page_size); ("page", VInt page)];
  res ← api st "get" url (with_headers [("Accept", "application/vnd.github.machine-man-preview+json")]) None;
  lift (repos ← dict_get res "repositories" (VList []); l ← iter repos; _ ← traverse (fun r => get_item r "name") l; _process_repository_page l).

Definition _fetch_page_of_repos (username : option string) (t : option token) (page_size page : Z) : prog (State W) (list pyval) :=
  url ← match username with
        | None => url_of "fetch_page_of_repos_without_username" [("page_size", VInt page_size); ("page", VInt page)]
        | Some u => url_of "fetch_page_of_repos_with_username" [("username", VStr u); ("page_size", VInt page_size); ("page", VInt page)]
        end;
  repos ← api st "get" url plain t;
  lift (l ← iter repos; _ ← traverse (fun r => get_item r "name") l; _process_repository_page l).

(** The pages of a list, fifty at a time, until one is short. *)
Definition list_pages (fuel : nat) (fetch : Z -> Z -> prog (State W) (list pyval)) : prog (State W) (list pyval) :=
  page_loop fuel 1 [] (fun page data => repos ← fetch 50 page; mret (data ++ repos, negb (len repos <? 50))).

Definition list_repos_using_installation (fuel : nat) : prog (State W) (list pyval) :=
  list_pages fuel _fetch_page_of_repos_using_installation.
Definition list_repos (fuel : nat) (username : option string) (t : option token) : prog (State W) (list pyval) :=
  t ← token_or t t_read; list_pages fuel (_fetch_page_of_repos username t).

(** The pages, as they are yielded. *)
Definition list_repos_generator (fuel : nat) (username : option string) (t : option token) (using_installation : bool) :
    prog (State W) (list (list pyval)) :=
  t ← token_or t t_read;
  page_loop fuel 1 [] (fun page pages =>
    repos ← (if using_installation then _fetch_page_of_repos_using_installation 50 page else _fetch_page_of_repos username t 50 page);
    mret (pages ++ [repos], negb (len repos <? 50))).
Definition list_repos_using_installation_generator (fuel : nat) (username : option string) : prog (State W) (list (list pyval)) :=
  list_repos_generator fuel username None true.

(** ** The GraphQL API *)

(** [GitHubGraphQLQueries.prepare], of a query that exists; its text is data. *)
Definition prepare (query : string) (variables : odict string pyval) : pyval :=
  VDict [("query", VStr query); ("variables", VDict variables)].

(** The texts of the three queries. *)
Variables REPOS_FROM_NODEIDS OWNER_FROM_NODEID REPO_LANGUAGES_FROM_OWNER : string.

Definition graphql (url_name query : string) (variables : odict string pyval) (t : option token) : prog (State W) pyval :=
  url ← url_of url_name []; api st "post" url (with_body (prepare query variables)) t.

Definition _get_owner_from_nodeid (t : option token) (owner_node_id : pyval) : prog (State W) pyval :=
  res ← graphql "get_owner_from_nodeid_graphql" OWNER_FROM_NODEID [("node_id", owner_node_id)] t;
  lift (username ← item res ["data"; "node"; "login"]; service_id ← item res ["data"; "node"; "databaseId"];
        Ok (VDict [("username", username); ("service_id", service_id)])).

(** A node that is a repository: its data, and its owner's node and name. *)
Definition repo_of_node (raw : pyval) : result (option (odict string pyval * pyval * pyval)) :=
  match raw with
  | VNone => Ok None
  | _ =>
      typename ← item raw ["__typename"];
      if bool_decide (typename = VStr "Repository") then
        primary_language ← get raw "primaryLanguage";
        default_branch ← get raw "defaultBranchRef";
        service_id ← item raw ["databaseId"];
        name ← item raw ["name"];
        language ← (if truthy primary_language then get primary_language "name" else Ok VNone);
        language ← _validate_language language;
        private ← item raw ["isPrivate"];
        branch ← (if truthy default_branch then get default_branch "name" else Ok (VStr "main"));
        node_id ← item raw ["owner"; "id"];
        username ← item raw ["owner"; "login"];
        Ok (Some ([("service_id", service_id); ("name", name); ("language", language); ("private", private); ("branch", branch)],
                  node_id, username))
      else Ok None
  end.

(** The key of an owner seen before, when it can be one. *)
Definition hashable (v : pyval) : result unit := match v with VList _ | VDict _ => Err TypeError | _ => Ok tt end.

(** The repositories of a chunk, and the owners seen. *)
Fixpoint repos_of_nodes (t : option token) (expected : string) (owners_seen : odict pyval pyval) (nodes : list pyval) :
    prog (State W) (list pyval * odict pyval pyval) :=
  match nodes with
  | [] => mret ([], owners_seen)
  | raw :: nodes =>
      r ← lift (repo_of_node raw);
      match r with
      | None => repos_of_nodes t expected owners_seen nodes
      | Some (repo, node_id, username) =>
          let is_expected_owner := bool_decide (username = VStr expected) in
          let owner := [("node_id", node_id); ("username", username)] in
          '(owner, owners_seen) ← (if is_expected_owner then mret (owner, owners_seen)
             else
               _ ← lift (hashable node_id);
               info ← match od_get node_id owners_seen with
                      | Some i => mret i
                      | None => _get_owner_from_nodeid t node_id
                      end;
               o ← lift (updated (VDict owner) info);
               mret (match o with VDict d => d | _ => owner end, od_set node_id info owners_seen));
          '(rest, owners_seen) ← repos_of_nodes t expected owners_seen nodes;
          mret (VDict (repo ++ [("owner", VDict (owner ++ [("is_expected_owner", VBool is_expected_owner)]))]) :: rest, owners_seen)
      end
  end.

(** [repo_node_ids[curr_index : curr_index + 50]], one after another. *)
Fixpoint chunks (fuel : nat) (ids : list pyval) : list (list pyval) :=
  match fuel, ids with
  | O, _ | _, [] => []
  | S fuel, _ => firstn 50 ids :: chunks fuel (skipn 50 ids)
  end.

Fixpoint repos_of_chunks (t : option token) (expected : string) (owners_seen : odict pyval pyval) (cs : list (list pyval)) :
    prog (State W) (list pyval) :=
  match cs with
  | [] => mret []
  | c :: cs =>
      res ← graphql "get_repos_from_nodeids_generator_graphql" REPOS_FROM_NODEIDS [("node_ids", VList c)] t;
      nodes ← lift (n ← item res ["data"; "nodes"]; iter n);
      '(repos, owners_seen) ← repos_of_nodes t expected owners_seen nodes;
      rest ← repos_of_chunks t expected owners_seen cs;
      mret (repos ++ rest)
  end.
Definition get_repos_from_nodeids_generator (repo_node_ids : list pyval) (expected_owner_username : string) (t : option token) :
    prog (State W) (list pyval) :=
  t ← token_or t t_read;
  repos_of_chunks t expected_owner_username [] (chunks (length repo_node_ids) repo_node_ids).

(** [[language["node"]["name"].lower() for language in ...]] *)
Definition languages_of (repo : pyval) : result (string * list string) :=
  edges ← item repo ["languages"; "edges"];
  edges ← iter edges;
  names ← traverse (fun l => n ← item l ["node"; "name"]; match n with VStr s => Ok (lower s) | _ => Err AttributeError end) edges;
  name ← item repo ["name"]; name ← text_of name;
  Ok (name, names).

Fixpoint languages_loop (fuel : nat) (owner : string) (first : Z) (t : option token) (endCursor : pyval)
    (all : odict string (list string)) : prog (State W) (odict string (list string)) :=
  match fuel with
  | O => raise (Raised Unmodelled)
  | S fuel =>
      res ← graphql "get_repos_with_languages_graphql" REPO_LANGUAGES_FROM_OWNER
              [("owner", VStr owner); ("cursor", endCursor); ("first", VInt first)] t;
      repoOwner ← lift (item res ["data"; "repositoryOwner"]);
      if truthy repoOwner then
        repositories ← lift (item repoOwner ["repositories"]);
        hasNextPage ← lift (item repositories ["pageInfo"; "hasNextPage"]);
        endCursor ← lift (item repositories ["pageInfo"; "endCursor"]);
        new ← lift (nodes ← item repositories ["nodes"]; nodes ← iter nodes; traverse languages_of nodes);
        let all := foldl (fun d kv => od_set kv.1 kv.2 d) all new in
        if truthy hasNextPage then languages_loop fuel owner first t endCursor all else mret all
      else mret all
  end.
Definition get_repos_with_languages_graphql (fuel : nat) (owner_username : string) (t : option token) (first : Z) :
    prog (State W) (odict string (list string)) :=
  t ← token_or t t_read; languages_loop fuel owner_username first t VNone [].

(** ** Installations and organizations *)

Definition get_gh_app_installation (installation_id : Z) : prog (State W) pyval :=
  jwt ← out (github_jwt (st_service st) VNone VNone);
  url ← url_of "get_gh_app_installation" [("installation_id", VInt installation_id)];
  on_code 404 TorngitObjectNotFoundError
    (api st "get" url (with_headers [("Accept", "application/vnd.github+json"); ("Authorization", "Bearer " +:+ jwt);
                                     ("X-GitHub-Api-Version", "2022-11-28")]) (Some [("key", VStr jwt)])).

(** A membership: nothing when the organization cannot be loaded. *)
Definition team_of (t : option token) (membership : pyval) : prog (State W) (list pyval) :=
  let failed (organization : pyval) (m : prog (State W) (list pyval)) :=
    try_except m (fun f => match f with
                           | Torngit (TorngitClientGeneralError _) => Some (_ ← lift (get_item organization "url"); mret [])
                           | _ => None
                           end) in
  organization ← lift (get_item membership "organization");
  failed organization (
    login ← lift (get_item organization "login");
    url ← url_of "list_teams_org_name" [("login", login)];
    org ← api st "get" url plain t;
    lift (org_login ← get_item org "login";
          name ← dict_get organization "name" org_login;
          id ← str_item organization ["id"];
          email ← get organization "email";
          Ok [VDict [("name", name); ("id", id); ("email", email); ("username", login)]])).

Definition list_teams (fuel : nat) (t : option token) : prog (State W) (list pyval) :=
  t ← token_or t t_admin;
  page_loop fuel 1 [] (fun page data =>
    url ← url_of "list_teams" [];
    orgs ← api st "get" url (with_args [("page", VInt page)]) t;
    orgs ← lift (iter orgs);
    if len orgs =? 0 then mret (data, false)
    else new ← mapP (team_of t) orgs; mret (data ++ concat new, negb (len orgs <? 30))).

(** ** Webhooks, comments and statuses *)

Definition hook_body (events : pyval) (url secret : string) : pyval :=
  VDict [("name", VStr "web"); ("active", VBool true); ("events", events);
         ("config", VDict [("url", VStr url); ("secret", VStr secret); ("content_type", VStr "json")])].

Definition post_webhook (url : string) (events : pyval) (secret : string) (t : option token) : prog (State W) pyval :=
  t ← token_or t t_admin;
  api_url ← repo_url "post_webhook" [];
  api st "post" api_url (with_body (hook_body events url secret)) t.

Definition edit_webhook (hookid url : string) (events : pyval) (secret : string) (t : option token) : prog (State W) pyval :=
  t ← token_or t t_admin;
  on_code 404 TorngitObjectNotFoundError
    (api_url ← repo_url "edit_webhook" [("hookid", VStr hookid)];
     api st "patch" api_url (with_body (hook_body events url secret)) t).

Definition delete_webhook (hookid : string) (t : option token) : prog (State W) bool :=
  t ← token_or t t_admin;
  on_code 404 TorngitObjectNotFoundError
    (url ← repo_url "delete_webhook" [("hookid", VStr hookid)]; _ ← api st "delete" url plain t; mret true).

Definition post_comment (issueid body : string) (t : option token) : prog (State W) pyval :=
  t ← token_or t t_comment;
  url ← repo_url "post_comment" [("issueid", VStr issueid)];
  api st "post" url (with_body (VDict [("body", VStr body)])) t.

Definition edit_comment (commentid body : string) (t : option token) : prog (State W) pyval :=
  t ← token_or t t_comment;
  on_code 404 TorngitObjectNotFoundError
    (url ← repo_url "edit_comment" [("commentid", VStr commentid)]; api st "patch" url (with_body (VDict [("body", VStr body)])) t).

Definition delete_comment (commentid : string) (t : option token) : prog (State W) bool :=
  t ← token_or t t_comment;
  on_code 404 TorngitObjectNotFoundError
    (url ← repo_url "delete_comment" [("commentid", VStr commentid)]; _ ← api st "delete" url plain t; mret true).

Definition status_body (status url context description : string) : pyval :=
  VDict [("state", VStr status); ("target_url", VStr url); ("context", VStr context); ("description", VStr description)].

(** [merge_commit] is the commit of the merge and the context of its status. *)
Definition set_commit_status (commit status context description url : string) (merge_commit : option (string * string)) (t : option token) :
    prog (State W) pyval :=
  t ← token_or t t_status;
  if negb (bool_decide (status ∈ ["pending"; "success"; "error"; "failure"])) then raise (Raised AssertionError)
  else
    api_url ← repo_url "set_commit_status" [("commit", VStr commit)];
    res ← api st "post" api_url (with_body (status_body status url context description)) t;
    match merge_commit with
    | None => mret res
    | Some (sha, merge_context) =>
        api_url ← repo_url "set_commit_status_merge_commit" [("merge_commit", VStr sha)];
        _ ← api st "post" api_url (with_body (status_body status url merge_context description)) t;
        mret res
    end.

(** A status, with what the class [Status] looks at. *)
Definition status_of (s : pyval) : result ci_status :=
  time ← item s ["updated_at"];
  state ← item s ["state"];
  _ ← item s ["description"];
  _ ← item s ["target_url"];
  context ← item s ["context"];
  state ← text_of state;
  context ← text_of context;
  match time with
  | VNone => Ok (mkCi context state None)
  | VStr time => Ok (mkCi context state (Some time))
  | _ => Err Unmodelled
  end.

Definition get_commit_statuses (fuel : nat) (commit : string) (t : option token) : prog (State W) Status.t :=
  t ← token_or t t_status;
  statuses ← page_loop fuel 1 [] (fun page statuses =>
    url ← repo_url "get_commit_statuses" [("commit", VStr commit)];
    res ← api st "get" url (with_args [("page", VInt page); ("per_page", VInt 100)]) t;
    provided ← lift (s ← dict_get res "statuses" (VList []); iter s);
    new ← lift (traverse status_of provided);
    mret (statuses ++ new, negb (len provided <? 100)));
  mret (Status.init statuses).

(** ** Sources and diffs *)

(** [base64.b64decode] passes over what is not of the alphabet. *)
Fixpoint alphabet_only (s : string) : string :=
  match s with
  | EmptyString => EmptyString
  | String c r => if bool_decide (is_Some (Base64.value c)) || bool_decide (c = "="%char) then String c (alphabet_only r) else alphabet_only r
  end.

Definition get_source (path ref : string) (t : option token) : prog (State W) pyval :=
  t ← token_or t t_read;
  on_code 404 TorngitObjectNotFoundError
    (url ← repo_url "get_source" [("path", VStr (str_replace " " "%20" path))];
     content ← api st "get" url (with_args [("ref", VStr ref)]) t;
     text ← lift (get content "content");
     download ← lift (get content "download_url");
     encoding ← lift (get content "encoding");
     text ← (if negb (truthy text) && truthy download && bool_decide (encoding = VStr "none") then
               url ← lift (text_of download); api st "get" url plain None
             else lift (t ← get_item content "content"; t ← text_of t; b ← Base64.b64decode (alphabet_only t); Ok (VStr b)));
     sha ← lift (get_item content "sha");
     mret (VDict [("content", text); ("commitid", sha)])).

Definition get_commit_diff (commit : string) (t : option token) : prog (State W) (option RawDiff) :=
  t ← token_or t t_commit;
  res ← on_code 422 TorngitObjectNotFoundError
    (url ← repo_url "get_commit_diff" [("commit", VStr commit)];
     api st "get" url (with_headers [("Accept", "application/vnd.github.v3.diff")]) t);
  lift (text ← py_str res; diff_to_json text).

(** [a + b] of texts *)
Definition concat_text (a : string) (v : pyval) : result string := match v with VStr s => Ok (a +:+ s) | _ => Err TypeError end.

(** The text of a diff that a compared file is made into. *)
Definition file_diff_text (f : pyval) : result string :=
  previous ← get f "previous_filename";
  filename ← get f "filename";
  before ← py_str (or_value previous filename);
  after ← py_str filename;
  status ← item f ["status"];
  let mode := if bool_decide (status = VStr "removed") then nl +:+ "deleted file mode 100644"
              else if bool_decide (status = VStr "added") then nl +:+ "new file mode 100644" else "" in
  source ← (if bool_decide (status = VStr "new") then Ok "/dev/null" else p ← dict_get f "previous_filename" filename; concat_text "a/" p);
  target ← (if bool_decide (status = VStr "removed") then Ok "/dev/null" else n ← item f ["filename"]; concat_text "b/" n);
  patch ← dict_get f "patch" (VStr "");
  patch ← py_str patch;
  Ok ("diff --git a/" +:+ before +:+ " b/" +:+ after +:+ mode +:+ nl +:+ "--- " +:+ source +:+ nl +:+ "+++ " +:+ target +:+ nl +:+ patch).

Definition add_file_diff (files : odict string DiffFile) (f : pyval) : result (odict string DiffFile) :=
  text ← file_diff_text f;
  diff ← diff_to_json text;
  match diff with
  | Some d => Ok (foldl (fun d kv => od_set kv.1 kv.2 d) files (d_files d))
  | None => Err TypeError
  end.

(** [(c["author"] or {}).get(k)] *)
Definition compared_commit (c : pyval) : result pyval :=
  sha ← item c ["sha"];
  message ← item c ["commit"; "message"];
  timestamp ← item c ["commit"; "author"; "date"];
  author ← item c ["author"];
  id ← get (or_value author (VDict [])) "id";
  username ← get (or_value author (VDict [])) "login";
  name ← item c ["commit"; "author"; "name"];
  email ← item c ["commit"; "author"; "email"];
  Ok (VDict [("commitid", sha); ("message", message); ("timestamp", timestamp);
             ("author", VDict [("id", id); ("username", username); ("name", name); ("email", email)])]).

(** The files of the diff, and the commits in reverse. *)
Definition get_compare (base head : string) (t : option token) : prog (State W) (odict string DiffFile * list pyval) :=
  t ← token_or t t_commit;
  url ← repo_url "get_compare" [("base", VStr base); ("head", VStr head)];
  res ← api st "get" url plain t;
  lift (fs ← item res ["files"]; fs ← iter fs;
        files ← foldM add_file_diff [] fs;
        first ← item res ["base_commit"];
        rest ← item res ["commits"];
        rest ← match rest with VList l => Ok l | _ => Err TypeError end;
        commits ← traverse compared_commit (first :: rest);
        Ok (files, rev commits)).

Definition get_distance_in_commits (base_branch base : string) (t : option token) : prog (State W) pyval :=
  t ← token_or t t_commit;
  url ← repo_url "get_distance_in_commits" [("base_branch", VStr base_branch); ("base", VStr base)];
  res ← api st "get" url plain t;
  lift (behind_by ← get res "behind_by";
        base_commit ← dict_get res "base_commit" (VDict [("sha", VNone)]);
        behind_by_commit ← get_item base_commit "sha";
        status ← get res "status";
        ahead_by ← get res "ahead_by";
        let missing := bool_decide (behind_by = VNone) || bool_decide (behind_by_commit = VNone) in
        Ok (VDict [("behind_by", if missing then VNone else behind_by); ("behind_by_commit", if missing then VNone else behind_by_commit);
                   ("status", status); ("ahead_by", ahead_by)])).

Definition commit_of (commit : string) (res : pyval) : result pyval :=
  author ← item res ["author"];
  id ← (if truthy author then str_item author ["id"] else Ok VNone);
  username ← (if truthy author then item author ["login"] else Ok VNone);
  git_author ← item res ["commit"; "author"];
  email ← get git_author "email";
  name ← get git_author "name";
  parents ← item res ["parents"]; parents ← iter parents;
  parents ← traverse (fun p => get_item p "sha") parents;
  message ← item res ["commit"; "message"];
  committer ← item res ["commit"; "committer"];
  date ← get committer "date";
  Ok (VDict [("author", VDict [("id", id); ("username", username); ("email", email); ("name", name)]); ("commitid", VStr commit);
             ("parents", VList parents); ("message", message); ("timestamp", date)]).

Definition get_commit (commit : string) (t : option token) : prog (State W) pyval :=
  t ← token_or t t_commit;
  res ← on_codes [(422, TorngitObjectNotFoundError); (404, TorngitRepoNotFoundError)]
    (slug ← get_self slug_text; slug ← lift (py_str slug);
     api st "get" ("/repos/" +:+ slug +:+ "/commits/" +:+ commit) (mkOptions VNone [] [401] []) t);
  lift (commit_of commit res).

(** ** Pull requests *)

Record ProviderPull : Type := mkPull {
  pl_author_id : pyval; pl_author_username : pyval; pl_base_branch : pyval; pl_base_commitid : pyval; pl_base_slug : pyval;
  pl_head_branch : pyval; pl_head_commitid : pyval; pl_head_slug : pyval; pl_state : pyval; pl_title : pyval; pl_number : pyval;
  pl_labels : list pyval; pl_merge_commit_sha : pyval;
}.
Definition with_base (c : pyval) (p : ProviderPull) : ProviderPull :=
  mkPull (pl_author_id p) (pl_author_username p) (pl_base_branch p) c (pl_base_slug p) (pl_head_branch p) (pl_head_commitid p)
    (pl_head_slug p) (pl_state p) (pl_title p) (pl_number p) (pl_labels p) (pl_merge_commit_sha p).

Definition _pull (pull : pyval) : result ProviderPull :=
  user ← item pull ["user"];
  author_id ← (if truthy user then str_item user ["id"] else Ok VNone);
  author ← (if truthy user then item user ["login"] else Ok VNone);
  base_branch ← item pull ["base"; "ref"];
  base_sha ← item pull ["base"; "sha"];
  base_slug ← item pull ["base"; "repo"; "full_name"];
  head_branch ← item pull ["head"; "ref"];
  head_sha ← item pull ["head"; "sha"];
  head_repo ← item pull ["head"; "repo"];
  head_slug ← (if truthy head_repo then item head_repo ["full_name"] else Ok base_slug);
  merged ← item pull ["merged"];
  state ← (if truthy merged then Ok (VStr "merged") else item pull ["state"]);
  title ← item pull ["title"];
  number ← str_item pull ["number"];
  labels ← dict_get pull "labels" (VList []);
  labels ← iter labels;
  labels ← traverse (fun l => get_item l "name") labels;
  merge_sha ← (if truthy merged then item pull ["merge_commit_sha"] else Ok VNone);
  Ok (mkPull author_id author base_branch base_sha base_slug head_branch head_sha head_slug state title number labels merge_sha).

(** Three pages of a hundred, at most. *)
Fixpoint commit_pages (pullid : string) (t : option token) (pages : list Z) : prog (State W) (list pyval) :=
  match pages with
  | [] => mret []
  | page :: pages =>
      url ← repo_url "get_raw_pull_request_commits" [("pullid", VStr pullid); ("max", VInt 100); ("page_n", VInt page)];
      results ← api st "get" url plain t;
      results ← lift (iter results);
      if len results <? 100 then mret results else rest ← commit_pages pullid t pages; mret (results ++ rest)
  end.
Definition _get_raw_pull_request_commits (pullid : string) (t : option token) : prog (State W) (list pyval) :=
  commit_pages pullid t [1; 2; 3].

Definition get_pull_request_commits (pullid : string) (t : option token) : prog (State W) (list pyval) :=
  t ← token_or t t_commit;
  commits ← _get_raw_pull_request_commits pullid t;
  lift (traverse (fun c => get_item c "sha") commits).

Definition sha_of (c : pyval) : result string := s ← get_item c "sha"; text_of s.
(** A commit, and its parents. *)
Definition parents_of (c : pyval) : result (string * list string) :=
  sha ← sha_of c; ps ← item c ["parents"]; ps ← iter ps; ps ← traverse sha_of ps; Ok (sha, ps).

(** The parents of a level, and of theirs, as long as every commit of the level is one of
    the pull request. *)
Fixpoint climb (fuel : nat) (commit_mapping : odict string (list string)) (level : list string) : result (list string) :=
  match fuel with
  | O => Err Unmodelled
  | S fuel =>
      if negb (bool_decide (level = [])) && forallb (fun x => od_mem x commit_mapping) level
      then climb fuel commit_mapping (concat (map (fun x => default [] (od_get x commit_mapping)) level))
      else Ok level
  end.

(** The base of a pull request: that of GitHub, unless the history that was listed ends
    elsewhere. *)
Definition base_of (commit_mapping : odict string (list string)) (head : string) (level : list string) (base : pyval) : pyval :=
  if bool_decide (level = [head]) then base
  else
    let possible_bases := List.filter (fun x => negb (od_mem x commit_mapping)) level in
    match possible_bases with
    | b :: _ => if bool_decide (base ∈ map VStr possible_bases) then base else VStr b
    | [] => base
    end.

Definition get_pull_request (fuel : nat) (pullid : string) (t : option token) : prog (State W) ProviderPull :=
  t ← token_or t t_pull;
  res ← on_code 404 TorngitObjectNotFoundError (url ← repo_url "get_pull_request" [("pullid", VStr pullid)]; api st "get" url plain t);
  commits ← _get_raw_pull_request_commits pullid t;
  lift (mapping ← traverse parents_of commits;
        let commit_mapping := od_of_list mapping in
        head ← item res ["head"; "sha"]; head ← text_of head;
        level ← climb fuel commit_mapping [head];
        pull ← _pull res;
        Ok (with_base (base_of commit_mapping head level (pl_base_commitid pull)) pull)).

(** The loop looks at the number of pulls so far, where a page is short when it has less
    than twenty-five. *)
Definition get_pull_requests (fuel : nat) (state : string) (t : option token) : prog (State W) (list pyval) :=
  t ← token_or t t_pull;
  page_loop fuel 1 [] (fun page pulls =>
    url ← repo_url "get_pull_requests" [];
    res ← api st "get" url (with_args [("page", VInt page); ("per_page", VInt 25); ("state", VStr state)]) t;
    res ← lift (iter res);
    if len res =? 0 then mret (pulls, false)
    else new ← lift (traverse (fun p => get_item p "number") res); mret (pulls ++ new, negb (len (pulls ++ new) <? 25))).

(** The first pull request of a commit that is in the state. *)
Definition find_pull_request (commit : option string) (state : string) (t : option token) : prog (State W) pyval :=
  slug ← get_self slug_of;
  match slug, commit with
  | Some _, Some ((String _ _) as commit) =>
      t ← token_or t t_pull;
      try_except
        (url ← repo_url "find_pull_request" [("commit", VStr commit)];
         res ← api st "get" url plain t;
         lift (res ← iter res;
               ns ← traverse (fun d => s ← get_item d "state";
                                       if bool_decide (s = VStr state) then n ← get_item d "number"; Ok [n] else Ok []) res;
               Ok (match concat ns with n :: _ => n | [] => VNone end)))
        (fun f => match f with Torngit (TorngitClientGeneralError 422) => Some (mret VNone) | _ => None end)
  | _, _ => mret VNone
  end.

Definition get_pull_request_files (pullid : string) (t : option token) : prog (State W) (option (list pyval)) :=
  slug ← get_self slug_of;
  match slug with
  | None => mret None
  | Some _ =>
      t ← token_or t t_pull;
      on_code 404 TorngitObjectNotFoundError
        (url ← repo_url "get_pull_request_files" [("pullid", VStr pullid)];
         res ← api st "get" url plain t;
         lift (res ← iter res; names ← traverse (fun d => get d "filename") res; Ok (Some names)))
  end.

(** ** Files, checks and runs *)

Definition _github_type_to_torngit_type (v : pyval) : string :=
  if bool_decide (v = VStr "file") then "file" else if bool_decide (v = VStr "dir") then "folder" else "other".
Definition file_entry (f : pyval) : result pyval :=
  name ← get_item f "name"; path ← get_item f "path"; type ← get_item f "type";
  Ok (VDict [("name", name); ("path", path); ("type", VStr (_github_type_to_torngit_type type))]).

Definition list_files (ref dir_path : string) (t : option token) : prog (State W) (list pyval) :=
  t ← token_or t t_read;
  url ← (if bool_decide (dir_path = "") then repo_url "list_files" []
         else repo_url "list_files_with_dir_path" [("dir_path", VStr dir_path)]);
  content ← api st "get" url (with_args [("ref", VStr ref)]) t;
  lift (l ← iter content; traverse file_entry l).
(** The token is not passed on. *)
Definition list_top_level_files (ref : string) (t : option token) : prog (State W) (list pyval) := list_files ref "" None.

Definition get_ancestors_tree (fuel : nat) (commitid : string) (t : option token) : prog (State W) commit_tree :=
  t ← token_or t t_commit;
  url ← repo_url "get_ancestors_tree" [];
  res ← api st "get" url (with_args [("sha", VStr commitid)]) t;
  lift (l ← iter res;
        start ← match l with c :: _ => sha_of c | [] => Err IndexError end;
        mapping ← traverse parents_of l;
        build_tree_from_commits fuel start (od_of_list mapping)).

(** [get_external_endpoint(Endpoints.commit_detail, commitid=...)] *)
Definition get_external_endpoint (commitid : string) : prog (State W) string :=
  a ← get_self id;
  match ad_username a, ad_name a with
  | Some u, Some n => lift (substitute external_endpoint_template [("username", VStr u); ("name", VStr n); ("commitid", VStr commitid)])
  | _, _ => raise (Raised KeyError)
  end.

Definition create_check_run (check_name head_sha status : string) (t : option token) : prog (State W) pyval :=
  url ← repo_url "create_check_run" [];
  res ← api st "post" url (with_body (VDict [("name", VStr check_name); ("head_sha", VStr head_sha); ("status", VStr status)])) t;
  lift (get_item res "id").

Definition get_check_runs (check_suite_id head_sha name : option string) (t : option token) : prog (State W) pyval :=
  url ← match check_suite_id, head_sha with
        | None, None => raise (Raised PlainException)
        | Some i, _ => repo_url "get_check_runs_with_check_suite_id" [("check_suite_id", VStr i)]
        | None, Some h => repo_url "get_check_runs_with_head_sha" [("head_sha", VStr h)]
        end;
  let url := match name with Some n => url +:+ "?check_name=" +:+ n | None => url end in
  api st "get" url plain t.

Definition get_check_suites (git_sha : string) (t : option token) : prog (State W) pyval :=
  url ← repo_url "get_check_suites" [("git_sha", VStr git_sha)]; api st "get" url plain t.

Definition get_repo_languages (t : option token) : prog (State W) (list string) :=
  url ← repo_url "get_repo_languages" [];
  res ← api st "get" url plain t;
  match res with VDict d => mret (map (fun kv => lower kv.1) d) | _ => raise (Raised AttributeError) end.

Definition update_check_run (check_run_id conclusion status : string) (output : pyval) (details_url : string) (t : option token) :
    prog (State W) pyval :=
  let body := [("conclusion", VStr conclusion); ("status", VStr status); ("output", output)]
              ++ (if bool_decide (details_url = "") then [] else [("details_url", VStr details_url)]) in
  api_url ← repo_url "update_check_run" [("check_run_id", VStr check_run_id)];
  api st "patch" api_url (with_body (VDict body)) t.

Definition actions_run_info (run : pyval) : result pyval :=
  private ← item run ["repository"; "private"];
  start ← get_item run "created_at";
  finish ← get_item run "updated_at";
  status ← get_item run "status";
  slug ← item run ["repository"; "full_name"];
  sha ← get_item run "head_sha";
  Ok (VDict [("start_time", start); ("finish_time", finish); ("status", status); ("public", VBool (negb (truthy private)));
             ("slug", slug); ("commit_sha", sha)]).
Definition get_workflow_run (run_id : string) (t : option token) : prog (State W) pyval :=
  url ← repo_url "get_workflow_run" [("run_id", VStr run_id)]; res ← api st "get" url plain t; lift (actions_run_info res).

Definition get_best_effort_branches (commit_sha : string) (t : option token) : prog (State W) (list pyval) :=
  t ← token_or t t_read;
  url ← repo_url "get_best_effort_branches" [("commit_sha", VStr commit_sha)];
  res ← api st "get" url (with_headers [("Accept", "application/vnd.github.groot-preview+json")]) t;
  lift (l ← iter res; traverse (fun r => get_item r "name") l).

Definition is_student : prog (State W) pyval :=
  try_except
    (url ← url_of "is_student" []; res ← api st "get" url (mkOptions VNone [] [] []) None; lift (get_item res "student"))
    (fun f => match f with
              | Torngit (TorngitServerUnreachableError | TorngitUnauthorizedError | TorngitServer5xxCodeError) => Some (mret (VBool false))
              | _ => None
              end).

(** [self.token["key"]], in a header. *)
Definition bearer : prog (State W) (odict string string) :=
  t ← own_token;
  match t with
  | None => raise (Raised TypeError)
  | Some t => key ← lift (k ← get_item (VDict t) "key"; py_str k);
              mret [("Accept", "application/vnd.github+json"); ("Authorization", "Bearer " +:+ key)]
  end.
Definition list_webhook_deliveries (fuel : nat) : prog (State W) (list pyval) :=
  headers ← bearer; paginated_api_generator st fuel "get" "list_webhook_deliveries" (with_headers headers) None.
Definition request_webhook_redelivery (delivery_id : string) : prog (State W) bool :=
  url ← url_of "request_webhook_redelivery" [("delivery_id", VStr delivery_id)];
  headers ← bearer;
  try_except (_ ← api st "post" url (with_headers headers) None; mret true)
    (fun f => match f with
              | Torngit e => if is_client_error e || bool_decide (e = TorngitServer5xxCodeError) then Some (mret false) else None
              | _ => None
              end).
End github.
