(* ===== verification/GithubSpec.v ===== *)
(** * What the endpoints of GitHub promise

    The loops over pages give the whole list that GitHub has; the base of a pull request
    is found where its history leaves it. *)
From S2P Require Import Github GithubHttpSpec.
#[local] Open Scope string_scope.
#[local] Open Scope list_scope.
#[local] Open Scope Z_scope.

(** ** Pages *)

(** The page of a list, counted from one. *)
Definition page {A} (size : nat) (p : Z) (l : list A) : list A := firstn size (skipn (size * Z.to_nat (p - 1)) l).

Lemma page_full {A} size p (l : list A) :
  1 <= p -> (length (page size p l) < size)%nat -> firstn (size * Z.to_nat (p - 1)) l ++ page size p l = l.
Proof.
  intros Hp Hl. unfold page in *. rewrite length_take in Hl. rewrite (take_ge (skipn _ _)) by lia. apply take_drop.
Qed.

Lemma page_next {A} size p (l : list A) :
  1 <= p -> firstn (size * Z.to_nat (p - 1)) l ++ page size p l = firstn (size * Z.to_nat (p + 1 - 1)) l.
Proof.
  intros Hp. unfold page. replace (Z.to_nat (p + 1 - 1)) with (S (Z.to_nat (p - 1))) by lia.
  replace (size * S (Z.to_nat (p - 1)))%nat with (size * Z.to_nat (p - 1) + size)%nat by lia. by rewrite take_take_drop.
Qed.

Section pages.
Context {W : Type} `{HttpServices W} `{BotServices W}.
Variable I : State W -> Prop.

Variables (B : Type) (size : nat) (l : list B) (step : Z -> list B -> prog (State W) (list B * bool)).
Hypothesis size_positive : (0 < size)%nat.

(** What is before a page. *)
Definition before (p : Z) : list B := firstn (size * Z.to_nat (p - 1)) l.

(** A step adds a page, up to the one after the end; the last one has nothing after it, any other something on it. *)
Definition adds_pages : Prop := forall p s, 1 <= p -> (size * Z.to_nat (p - 1) < length l + size)%nat -> I s -> exists s' more,
  step p (before p) s = (inl (before p ++ page size p l, more), s') /\ I s' /\
  (more = false -> before p ++ page size p l = l) /\ (more = true -> page size p l <> []).

Lemma page_nonempty p : page size p l <> [] -> (size * Z.to_nat (p - 1) < length l)%nat.
Proof.
  intros Hne. destruct (decide (length l <= size * Z.to_nat (p - 1))%nat) as [Hl|]; [|lia].
  unfold page in Hne. by rewrite drop_ge, take_nil in Hne.
Qed.

(** A loop over pages ends with the whole list. *)
Lemma page_loop_complete fuel s :
  adds_pages -> I s -> (length l + size < size * fuel)%nat ->
  exists s', page_loop fuel 1 [] step s = (inl l, s') /\ I s'.
Proof.
  intros Hstep.
  assert (Hgo : forall fuel p s, 1 <= p -> p = 1 \/ (size * Z.to_nat (p - 2) < length l)%nat -> I s ->
    (length l + size < size * (fuel + Z.to_nat (p - 1)))%nat -> exists s', page_loop fuel p (before p) step s = (inl l, s') /\ I s').
  { clear fuel s. induction fuel as [|fuel IH]; intros p s Hp Hprev Hs Hfuel.
    - exfalso. destruct Hprev as [-> |Hprev]; [cbn in Hfuel; lia|].
      destruct (decide (p = 1)) as [-> |]; [cbn in Hfuel; lia|]. replace (Z.to_nat (p - 1)) with (S (Z.to_nat (p - 2))) in Hfuel by lia. nia.
    - destruct (Hstep p s Hp) as (s' & more & Hrun & Hs' & Hend & Hmore); [|done|].
      { destruct Hprev as [-> |Hprev]; [cbn; lia|]. destruct (decide (p = 1)) as [-> |]; [cbn; lia|].
        replace (Z.to_nat (p - 1)) with (S (Z.to_nat (p - 2))) by lia. nia. } cbn [page_loop]. rewrite (run_bind _ _ _ _ _ Hrun).
      destruct more; [|by rewrite Hend; [exists s'|]]. unfold before. rewrite page_next by done. apply IH; [lia| |done|].
      + right. replace (p + 1 - 2) with (p - 1) by lia. by apply page_nonempty, Hmore.
      + by replace (fuel + Z.to_nat (p + 1 - 1))%nat with (S fuel + Z.to_nat (p - 1))%nat by lia. }
  intros Hs Hfuel. assert (Hb : before 1 = []) by (unfold before; by rewrite Nat.mul_0_r). rewrite <- Hb.
  apply Hgo; [done|by left|done|cbn; lia].
Qed.

(** ** The loops *)

(** GitHub gives the pages of a list at the addresses of an endpoint. *)
Definition serves (st : Settings) (request_of : Z -> result (string * Options)) (t : option token) (size : nat) (raws : list pyval) : Prop :=
  forall p s, 1 <= p -> (size * Z.to_nat (p - 1) < length raws + size)%nat -> I s -> exists url o s', request_of p = Ok (url, o) /\
    api st "get" url o t s = (inl (VList (page size p raws)), s') /\ I s'.
End pages.

Lemma traverse_page {A B} (f : A -> result B) size p l ys :
  traverse f l = Ok ys -> traverse f (page size p l) = Ok (page size p ys).
Proof.
  intros H. unfold page. generalize (size * Z.to_nat (p - 1))%nat as n. intros n. revert n ys H.
  assert (Htake : forall k l ys, traverse f l = Ok ys -> traverse f (firstn k l) = Ok (firstn k ys)).
  { clear. induction k as [|k IH]; intros [|x l] ys H; cbn in *; [done|done|by injection H as <-|].
    destruct (f x) as [y|]; [|done]. cbn in *. destruct (traverse f l) as [zs|] eqn:Hl; [|done]. injection H as <-. by rewrite (IH _ zs). }
  intros n. revert l. induction n as [|n IH]; intros l ys H; [by rewrite !drop_0; apply Htake|].
  destruct l as [|x l]; cbn in H; [injection H as <-; by destruct size|]. destruct (f x) as [y|]; [|done]. cbn in H.
  destruct (traverse f l) as [zs|] eqn:Hl; [|done]. injection H as <-. by apply IH.
Qed.

Lemma page_length {A B} (f : A -> result B) size p l ys : traverse f l = Ok ys -> length (page size p ys) = length (page size p l).
Proof. intros H. eapply traverse_length. by apply traverse_page. Qed.

Section loops.
Context {W : Type} `{HttpServices W} `{BotServices W}.
Variable st : Settings.
Variable I : State W -> Prop.

Definition repos_request (username : option string) (p : Z) : result (string * Options) :=
  let fields := [("page_size", VInt 50); ("page", VInt p)] in
  url ← match username with
        | None => endpoint "fetch_page_of_repos_without_username" fields
        | Some u => endpoint "fetch_page_of_repos_with_username" (("username", VStr u) :: fields)
        end;
  Ok (url, plain).

(** C37: Where GitHub serves a list of repositories fifty to a page, the loop over the
    pages ends with all of them, in order, as it makes them of the answers. *)
Theorem list_repos_complete (username : option string) (t : token) raws repos fuel s :
  serves I st (repos_request username) (Some t) 50 raws -> I s ->
  is_Ok (traverse (fun r => get_item r "name") raws) = true -> _process_repository_page raws = Ok repos ->
  (length raws + 50 < 50 * fuel)%nat ->
  exists s', list_repos st fuel username (Some t) s = (inl repos, s') /\ I s'.
Proof.
  intros Hserve Hs Hnames Hrepos Hfuel. unfold list_repos, token_or, get_token_by_type_if_none. erewrite run_bind by done.
  unfold list_pages. pose proof (traverse_length _ _ _ Hrepos) as Hlen.
  apply page_loop_complete with (size := 50%nat); [lia| |done|lia]. intros p s1 Hp Hlast Hs1. rewrite Hlen in Hlast.
  destruct (Hserve p s1 Hp Hlast Hs1) as (url & o & s2 & Hreq & Happ & Hs2).
  exists s2, (negb (len (page 50 p repos) <? 50)).
  assert (Hfetch : _fetch_page_of_repos st username (Some t) 50 p s1 = (inl (page 50 p repos), s2)).
  { unfold _fetch_page_of_repos, repos_request, url_of in *.
    destruct username as [u|]; cbv zeta in Hreq;
      (match type of Hreq with (?e ≫= _) = _ => destruct e as [url'|] eqn:Hurl end; [|done]); cbn in Hreq; injection Hreq as <- <-;
      cbv beta iota; rewrite ?Hurl, run_bind_lift, (run_bind _ _ _ _ _ Happ);
      (destruct (traverse (fun r => get_item r "name") raws) as [names|] eqn:Hn; [|done]);
      cbn [iter]; unfold lift; cbn [mbind result_bind]; rewrite (traverse_page _ _ _ _ _ Hn); cbn [mbind result_bind];
      unfold _process_repository_page; by rewrite (traverse_page _ _ _ _ _ Hrepos). }
  rewrite (run_bind _ _ _ _ _ Hfetch). split_and!; [done|done| |].
  - intros Hm. apply negb_false_iff, Z.ltb_lt in Hm. apply page_full; [done|]. unfold len in Hm. lia.
  - intros Hm Hnil. by rewrite Hnil in Hm.
Qed.

Lemma repo_url_run name fields url (s : State W) :
  endpoint name (("slug", slug_text (self s)) :: fields) = Ok url -> repo_url name fields s = (inl url, s).
Proof. intros Hurl. unfold repo_url, slug_field, url_of. erewrite run_bind by done. cbn. unfold lift. by rewrite Hurl. Qed.

Definition pulls_request (slug : pyval) (state : string) (p : Z) : result (string * Options) :=
  url ← endpoint "get_pull_requests" [("slug", slug)];
  Ok (url, with_args [("page", VInt p); ("per_page", VInt 25); ("state", VStr state)]).

(** The loop over the pull requests ends with the numbers of all of them, though it
    compares the number it has so far, not that of the page, with the size of one. *)
Theorem get_pull_requests_complete (slug : pyval) (state : string) (t : token) raws numbers fuel s :
  serves I st (pulls_request slug state) (Some t) 25 raws -> I s -> (forall s, I s -> slug_text (self s) = slug) ->
  traverse (fun p => get_item p "number") raws = Ok numbers -> (length raws + 25 < 25 * fuel)%nat ->
  exists s', get_pull_requests st fuel state (Some t) s = (inl numbers, s') /\ I s'.
Proof.
  intros Hserve Hs Hslug Hnums Hfuel. unfold get_pull_requests, token_or, get_token_by_type_if_none. erewrite run_bind by done.
  pose proof (traverse_length _ _ _ Hnums) as Hlen.
  apply page_loop_complete with (size := 25%nat); [lia| |done|lia]. intros p s1 Hp Hlast Hs1. rewrite Hlen in Hlast.
  destruct (Hserve p s1 Hp Hlast Hs1) as (url & o & s2 & Hreq & Happ & Hs2). unfold pulls_request in Hreq.
  destruct (endpoint "get_pull_requests" _) as [url'|] eqn:Hurl; [|done]. injection Hreq as <- <-.
  rewrite <- (Hslug s1 Hs1) in Hurl. rewrite (run_bind _ _ _ _ _ (repo_url_run _ _ _ _ Hurl)), (run_bind _ _ _ _ _ Happ).
  cbn [iter]. rewrite run_bind_lift. pose proof (page_length _ 25 p _ _ Hnums) as Hpl.
  exists s2. destruct (Z.eqb_spec (len (page 25 p raws)) 0) as [Hz|Hz]; unfold len in Hz.
  - exists false. assert (Hnil : page 25 p numbers = []) by (apply nil_length_inv; lia). rewrite Hnil, app_nil_r.
    split_and!; [done|done| |done]. intros _. rewrite <- (page_full 25 p numbers Hp) at 2; [by rewrite Hnil, app_nil_r|rewrite Hnil; cbn; lia].
  - eexists. rewrite run_bind_lift, (traverse_page _ _ _ _ _ Hnums). split_and!; [reflexivity|done| |].
    + intros Hm. apply negb_false_iff, Z.ltb_lt in Hm. unfold len in Hm. rewrite length_app in Hm. apply page_full; [done|lia].
    + intros _ Hnil. apply Hz. by rewrite <- Hpl, Hnil.
Qed.
End loops.

(** ** The base of a pull request *)

Section base.
Variable commit_mapping : odict string (list string).

Definition parents (x : string) : list string := default [] (od_get x commit_mapping).
Definition listed (x : string) : bool := od_mem x commit_mapping.
(** The commits that are so many parents away. *)
Fixpoint generation (k : nat) (level : list string) : list string :=
  match k with O => level | S k => generation k (concat (map parents level)) end.

(** A generation the search goes on from. *)
Definition inside (level : list string) : Prop := level <> [] /\ forallb listed level = true.

(** No commit is its own ancestor: parents have a smaller rank. *)
Variable rank : string -> nat.
Definition acyclic : Prop := forall x y, listed x = true -> y ∈ parents x -> (rank y < rank x)%nat.

Lemma climb_spec n level :
  acyclic -> Forall (fun x => (rank x < n)%nat) level ->
  exists k, climb (S n) commit_mapping level = Ok (generation k level) /\
    (forall j, (j < k)%nat -> inside (generation j level)) /\ ~ inside (generation k level).
Proof.
  intros Hac. revert level. induction n as [|n IH]; intros level Hr; cbn [climb];
    (destruct (bool_decide (level = [])) eqn:Hl;
      [apply bool_decide_eq_true_1 in Hl as ->; exists O; split_and!; [done|lia|by intros []]|]);
    apply bool_decide_eq_false_1 in Hl; cbn [negb andb].
  { destruct level as [|x level]; [done|]. apply Forall_cons in Hr as [? _]. lia. }
  destruct (forallb (fun x => od_mem x commit_mapping) level) eqn:Hin.
  - destruct (IH (concat (map parents level))) as (k & Hk & Hbelow & Hend).
    { apply Forall_forall. intros y Hy. apply list_elem_of_In, in_concat in Hy as (l & Hll & Hy). apply in_map_iff in Hll as (x & <- & Hx).
      rewrite Forall_forall in Hr. specialize (Hr x (proj2 (list_elem_of_In _ _) Hx)). rewrite forallb_forall in Hin.
      specialize (Hac x y (Hin x Hx) (proj2 (list_elem_of_In _ _) Hy)). lia. }
    exists (S k). split_and!; [exact Hk| |exact Hend]. intros [|j] Hj; [done|]. apply Hbelow. lia.
  - exists O. split_and!; [done|lia|]. cbn. intros [_ Ha]. unfold listed in Ha. congruence.
Qed.

(** The base that is reported for the one GitHub gives, when the search has ended after
    [k] generations. *)
Definition right_base (k : nat) (last : list string) (base new : pyval) : Prop :=
  let outside x := x ∈ last /\ listed x = false in
  (new = base /\ (k = O \/ (forall x, ~ outside x) \/ exists b, base = VStr b /\ outside b)) \/
  (k <> O /\ ~ (exists b, base = VStr b /\ outside b) /\
   exists before b after, last = before ++ b :: after /\ Forall (fun x => listed x = true) before /\ listed b = false /\ new = VStr b).

Lemma first_outside l b rest : List.filter (fun x => negb (listed x)) l = b :: rest ->
  exists before after, l = before ++ b :: after /\ Forall (fun x => listed x = true) before /\ listed b = false.
Proof.
  induction l as [|x l IH]; [done|]. cbn. destruct (listed x) eqn:Hx; cbn.
  - intros (before & after & -> & Hb & Hl)%IH. exists (x :: before), after. split_and!; [done|by constructor|done].
  - intros [= -> _]. exists [], l. split_and!; [done|constructor|done].
Qed.

Lemma outside_filter l x : x ∈ List.filter (fun x => negb (listed x)) l <-> x ∈ l /\ listed x = false.
Proof. by rewrite list_elem_of_In, filter_In, <- list_elem_of_In, negb_true_iff. Qed.

Lemma base_of_right k head base :
  (k <> O -> listed head = true) ->
  right_base k (generation k [head]) base (base_of commit_mapping head (generation k [head]) base).
Proof.
  intros Hhead. unfold base_of, right_base. case_bool_decide as Hlevel.
  { left. split; [done|]. destruct k as [|k]; [by left|]. right. left. rewrite Hlevel.
    intros x [->%list_elem_of_singleton Hx]. rewrite Hhead in Hx; [done|lia]. }
  assert (k <> O) as Hk by (intros ->; done).
  change (fun x => negb (od_mem x commit_mapping)) with (fun x => negb (listed x)).
  destruct (List.filter _ _) as [|b l] eqn:Hf.
  { left. split; [done|]. right. left. intros x Hx%outside_filter. rewrite Hf in Hx. by apply elem_of_nil in Hx. }
  case_bool_decide as Hin.
  - left. split; [done|]. right. right. apply list_elem_of_fmap in Hin as (x & -> & Hx). exists x. split; [done|].
    apply outside_filter. by rewrite Hf.
  - right. split; [done|]. destruct (first_outside _ _ _ Hf) as (before & after & Hl & Hb & Hno). split.
    + intros (x & -> & Hx%outside_filter). rewrite Hf in Hx. apply Hin, list_elem_of_fmap. by exists x.
    + exists before, b, after. done.
Qed.
End base.

(** What GitHub says of a commit: its hash, and those of its parents. *)
Definition describes (c : pyval) (m : string * list string) : Prop :=
  exists d ps, c = VDict d /\ od_get "sha" d = Some (VStr m.1) /\ od_get "parents" d = Some (VList ps) /\
    Forall2 (fun p y => exists e, p = VDict e /\ od_get "sha" e = Some (VStr y)) ps m.2.

Lemma described_parents c m : describes c m -> parents_of c = Ok m.
Proof.
  intros (d & ps & -> & Hsha & Hps & Hys). destruct m as [x ys]. cbn [fst snd] in *. unfold parents_of, sha_of. cbn. rewrite Hsha. cbn.
  rewrite Hps. cbn. clear Hps. match goal with |- context [traverse ?f ps] => assert (traverse f ps = Ok ys) as ->; [|done] end.
  induction Hys as [|p y ps ys (e & -> & He) _ IH]; [done|]. cbn [traverse]. cbn. rewrite He. cbn. cbn in IH. by rewrite IH.
Qed.

Lemma all_described commits mapping : Forall2 describes commits mapping -> traverse parents_of commits = Ok mapping.
Proof. induction 1 as [|c m cs ms Hc _ IH]; [done|]. cbn [traverse]. by rewrite (described_parents _ _ Hc), IH. Qed.

(** C38: Of a pull request whose commits GitHub lists, each once, and of which no commit is
    its own ancestor, the search for the base ends, at the first generation of ancestors of
    the head that has a commit outside the pull request, or none at all.  The base that is
    reported is the one GitHub gives, where that is one of these commits outside, where
    there is none, and where the head itself is not listed; in all other cases it is the
    first of them. *)
Theorem pull_request_base {W} `{HttpServices W} `{BotServices W} st (rank : string -> nat) fuel pullid t url res commits mapping head pull
    (s s1 s2 : State W) :
  repo_url "get_pull_request" [("pullid", VStr pullid)] s = (inl url, s) ->
  api st "get" url plain (Some t) s = (inl res, s1) ->
  _get_raw_pull_request_commits st pullid (Some t) s1 = (inl commits, s2) ->
  Forall2 describes commits mapping -> NoDup (map fst mapping) -> acyclic mapping rank ->
  item res ["head"; "sha"] = Ok (VStr head) -> _pull res = Ok pull ->
  (rank head + 2 <= fuel)%nat ->
  exists k base, get_pull_request st fuel pullid (Some t) s = (inl (with_base base pull), s2) /\
    (forall j, (j < k)%nat -> inside mapping (generation mapping j [head])) /\ ~ inside mapping (generation mapping k [head]) /\
    right_base mapping k (generation mapping k [head]) (pl_base_commitid pull) base.
Proof.
  intros Hurl Hres Hcommits Hmap Hnodup Hac Hhead Hpull Hfuel. destruct fuel as [|n]; [lia|].
  destruct (climb_spec mapping rank n [head] Hac) as (k & Hk & Hbelow & Hend); [repeat constructor; lia|].
  exists k, (base_of mapping head (generation mapping k [head]) (pl_base_commitid pull)). split_and!; [|done..|].
  - unfold get_pull_request, token_or, get_token_by_type_if_none. erewrite run_bind by done.
    assert (Hon : on_code 404 TorngitObjectNotFoundError (url ← repo_url "get_pull_request" [("pullid", VStr pullid)]; api st "get" url plain (Some t)) s
      = (inl res, s1)).
    { unfold on_code, on_codes, try_except. by rewrite (run_bind _ _ _ _ _ Hurl), Hres. }
    rewrite (run_bind _ _ _ _ _ Hon), (run_bind _ _ _ _ _ Hcommits), (all_described _ _ Hmap). cbn [mbind result_bind].
    rewrite od_of_list_id by exact Hnodup. rewrite Hhead. cbn [mbind result_bind text_of]. rewrite Hk. cbn [mbind result_bind]. by rewrite Hpull.
  - apply base_of_right. intros Hk0. destruct (Hbelow O) as [_ Hin]; [lia|]. cbn in Hin. by apply andb_true_iff in Hin as [? _].
Qed.

(** ** A concrete service *)

(** It answers each address with a value, and any other with nothing on the page. *)
Record forge : Type := mkForge { fg_answers : odict string pyval; fg_sent : list string }.
#[local] Instance forge_http : HttpServices forge := {
  request rq w := (inl (Answer (mkResponse 200 [("content-type", "application/json")] "" (Ok (default (VList []) (od_get (rq_url rq) (fg_answers w)))) "")),
                   mkForge (fg_answers w) (fg_sent w ++ [rq_url rq]));
  on_token_refresh _ := mret tt;
  token_digest _ := "digest";
}.
#[local] Instance forge_bots : BotServices forge := {
  now _ := 0;
  configuration _ := VDict [];
  set_configuration _ w := w;
  redis_exists _ := mret (Some false);
  redis_set_rate_limited _ _ := mret tt;
  choices keys _ := mret (List.last keys 0);
  github_jwt _ _ _ := mret "jwt";
  post_access_token _ i _ := mret (mkTokenResponse 201 None false (Some "token"));
  cached_token _ := mret None;
  cache_token _ _ := mret tt;
  installations _ := [];
  set_installations _ w := w;
  clear_integration_id _ w := w;
}.

Definition some_adapter : Adapter :=
  mkAdapter (Some [("key", VStr "own"); ("username", VStr "bot")]) [] None false (Some "codecov") (Some "example") None None None.
Definition caller_token : token := [("key", VStr "other"); ("username", VStr "caller")].
Definition some_settings : Settings := mkSettings "github" "https://github.com" "https://api.github.com" None None "Default".
Definition raw_repo : pyval :=
  VDict [("id", VInt 7); ("name", VStr "example"); ("language", VStr "Python"); ("private", VBool false); ("default_branch", VNone);
         ("owner", VDict [("id", VInt 3); ("login", VStr "codecov")])].
Definition processed_repo : pyval :=
  VDict [("owner", VDict [("service_id", VStr "3"); ("username", VStr "codecov")]);
         ("repo", VDict [("service_id", VStr "7"); ("name", VStr "example"); ("language", VStr "python"); ("private", VBool false);
                         ("branch", VStr "main")])].
Definition forge_answers : odict string pyval :=
  [("https://api.github.com/users/codecov/repos?per_page=50&page=1", VList [raw_repo]);
   ("https://api.github.com/repos/codecov/example/pulls?page=1&per_page=25&state=open", VList [VDict [("number", VInt 4)]; VDict [("number", VInt 9)]])].
Definition forge_invariant (s : State forge) : Prop := exists sent, s = mkState some_adapter (mkForge forge_answers sent).

Lemma list_repos_complete_witness :
  serves forge_invariant some_settings (repos_request (Some "codecov")) (Some caller_token) 50 [raw_repo] /\
  exists s', list_repos some_settings 3 (Some "codecov") (Some caller_token) (mkState some_adapter (mkForge forge_answers [])) =
    (inl [processed_repo], s').
Proof.
  assert (Hserve : serves forge_invariant some_settings (repos_request (Some "codecov")) (Some caller_token) 50 [raw_repo]).
  { intros p s Hp Hlast [sent ->]. cbn [length] in Hlast. assert (p = 1 \/ p = 2) as [-> | ->] by lia.
    - eexists _, _, _. split; [vm_compute; reflexivity|]. split; [vm_compute; reflexivity|]. by eexists.
    - eexists _, _, _. split; [vm_compute; reflexivity|]. split; [vm_compute; reflexivity|]. by eexists. }
  split; [exact Hserve|].
  destruct (list_repos_complete some_settings forge_invariant (Some "codecov") caller_token [raw_repo] [processed_repo] 3
    (mkState some_adapter (mkForge forge_answers []))) as (s' & Hrun & _).
  - exact Hserve.
  - by eexists.
  - reflexivity.
  - vm_compute. reflexivity.
  - cbn. lia.
  - exists s'. exact Hrun.
Defined.

Lemma get_pull_requests_complete_witness :
  serves forge_invariant some_settings (pulls_request (VStr "codecov/example") "open") (Some caller_token) 25
    [VDict [("number", VInt 4)]; VDict [("number", VInt 9)]] /\
  exists s', get_pull_requests some_settings 3 "open" (Some caller_token) (mkState some_adapter (mkForge forge_answers [])) =
    (inl [VInt 4; VInt 9], s').
Proof.
  assert (Hserve : serves forge_invariant some_settings (pulls_request (VStr "codecov/example") "open") (Some caller_token) 25
    [VDict [("number", VInt 4)]; VDict [("number", VInt 9)]]).
  { intros p s Hp Hlast [sent ->]. cbn [length] in Hlast. assert (p = 1 \/ p = 2) as [-> | ->] by lia.
    - eexists _, _, _. split; [vm_compute; reflexivity|]. split; [vm_compute; reflexivity|]. by eexists.
    - eexists _, _, _. split; [vm_compute; reflexivity|]. split; [vm_compute; reflexivity|]. by eexists. }
  split; [exact Hserve|].
  destruct (get_pull_requests_complete some_settings forge_invariant (VStr "codecov/example") "open" caller_token
    [VDict [("number", VInt 4)]; VDict [("number", VInt 9)]] [VInt 4; VInt 9] 3 (mkState some_adapter (mkForge forge_answers [])))
    as (s' & Hrun & _).
  - exact Hserve.
  - by eexists.
  - intros s [sent ->]. reflexivity.
  - reflexivity.
  - cbn. lia.
  - exists s'. exact Hrun.
Defined.

(** A pull request of a merge whose two sides leave it at different commits. *)
Definition demo_history : odict string (list string) := [("head", ["left"; "right"]); ("left", ["base"]); ("right", ["other"])].
Definition demo_rank (x : string) : nat := if bool_decide (x = "head") then 2 else if bool_decide (x ∈ ["left"; "right"]) then 1 else 0.

Definition demo_commit (m : string * list string) : pyval :=
  VDict [("sha", VStr m.1); ("parents", VList (map (fun y => VDict [("sha", VStr y)]) m.2))].
Definition demo_pull : pyval :=
  VDict [("user", VNone); ("merged", VBool false); ("state", VStr "open"); ("title", VStr "Two sides"); ("number", VInt 4);
         ("base", VDict [("ref", VStr "main"); ("sha", VStr "newer"); ("repo", VDict [("full_name", VStr "codecov/example")])]);
         ("head", VDict [("ref", VStr "topic"); ("sha", VStr "head"); ("repo", VNone)])].
Definition pull_answers : odict string pyval :=
  [("https://api.github.com/repos/codecov/example/pulls/4", demo_pull);
   ("https://api.github.com/repos/codecov/example/pulls/4/commits?per_page=100&page=1", VList (map demo_commit demo_history))].
Definition pull_state (sent : list string) : State forge := mkState some_adapter (mkForge pull_answers sent).

Lemma demo_described (m : string * list string) : describes (demo_commit m) m.
Proof.
  destruct m as [x ys]. eexists _, _. split_and!; [reflexivity|reflexivity|reflexivity|]. cbn.
  induction ys as [|y ys IH]; [constructor|]. cbn. constructor; [by eexists|exact IH].
Qed.

Lemma pull_request_base_witness :
  acyclic demo_history demo_rank /\
  exists pull sent, get_pull_request some_settings 4 "4" (Some caller_token) (pull_state []) = (inl (with_base (VStr "base") pull), pull_state sent).
Proof.
  assert (Hac : acyclic demo_history demo_rank).
  { intros x y Hx Hy. unfold listed, demo_history, od_mem in Hx. cbn in Hx. unfold parents, demo_history in Hy. cbn in Hy.
    repeat (case_decide; subst; [cbn in Hy; repeat (apply elem_of_cons in Hy as [-> |Hy]; [vm_compute; lia|]); by apply elem_of_nil in Hy|]).
    done. }
  split; [exact Hac|].
  assert (exists pull, _pull demo_pull = Ok pull) as [pull Hpull] by (eexists; vm_compute; reflexivity).
  edestruct (pull_request_base some_settings demo_rank 4 "4" caller_token "/repos/codecov/example/pulls/4" demo_pull
    (map demo_commit demo_history) demo_history "head" pull (pull_state [])) as (k & base & Hrun & Hbelow & Hend & Hbase).
  - vm_compute. reflexivity.
  - vm_compute. reflexivity.
  - vm_compute. reflexivity.
  - by repeat (constructor; [apply demo_described|]).
  - vm_compute. repeat constructor; set_solver.
  - exact Hac.
  - reflexivity.
  - exact Hpull.
  - vm_compute. lia.
  - exists pull. eexists. assert (base = VStr "base") as <-; [|exact Hrun].
    assert (k = 2%nat) as ->.
    { destruct k as [|[|[|k]]]; [exfalso; apply Hend; by split|exfalso; apply Hend; by split|done|].
      exfalso. destruct (Hbelow 2%nat ltac:(lia)) as [_ Hin]. done. }
    vm_compute in Hpull. injection Hpull as <-.
    destruct Hbase as [[_ [Hk|[Hno|(b & [= <-] & Hb & _)]]]|(_ & _ & before & b & after & Hl & Hb & Hno & ->)].
    + done.
    + exfalso. apply (Hno "base"). split; [by left|reflexivity].
    + exfalso. vm_compute in Hb. set_solver.
    + destruct before as [|x before]; [by injection Hl as <-|]. injection Hl as <- Hl. by apply Forall_cons in Hb as [Hx _].
Defined.

Example bases_of_a_merge :
  climb 4 demo_history ["head"] = Ok ["base"; "other"] /\
  base_of demo_history "head" ["base"; "other"] (VStr "newer") = VStr "base" /\
  base_of demo_history "head" ["base"; "other"] (VStr "other") = VStr "other".
Proof. split_and!; vm_compute; reflexivity. Qed.

(** A path with a number sign becomes the fragment of the address: another path is
    asked for. *)
Example number_sign_in_path :
  fg_sent (world (get_source some_settings "src/a#1.py" "main" None (mkState some_adapter (mkForge [] []))).2)
  = ["https://api.github.com/repos/codecov/example/contents/src/a?ref=main#1.py"].
Proof. vm_compute. reflexivity. Qed.

(** The files of a pull request are those of the first page. *)
Example one_page_of_files :
  fg_sent (world (get_pull_request_files some_settings "4" None (mkState some_adapter (mkForge [] []))).2)
  = ["https://api.github.com/repos/codecov/example/pulls/4/files"].
Proof. vm_compute. reflexivity. Qed.

(** The token given to list the files of the top level is not used. *)
Example top_level_token (w : forge) :
  list_top_level_files some_settings "main" (Some caller_token) (mkState some_adapter w)
  = list_files some_settings "main" "" None (mkState some_adapter w).
Proof. reflexivity. Qed.
