(* ===== verification/Notifiers.v ===== *)
(** * Notifiers and the notification service

    [apps/worker/services/notification/__init__.py], [commit_notifications.py],
    [notifiers/base.py] and [checks/checks_with_fallback.py].  A notifier is a
    record of operations, the interface the service is written against; the
    notifiers of statuses, checks and comments are made in the files after this. *)
From S2P Require Export Effects Seats UserYaml.
#[local] Open Scope string_scope.
#[local] Open Scope list_scope.
#[local] Open Scope Z_scope.

(** ** [database/enums.py] *)

Inductive Notification : Set :=
  | comment | status_changes | status_patch | status_project | checks_changes | checks_patch | checks_project
  | slack | webhook | gitter | irc | hipchat | codecov_slack_app.
#[export] Instance Notification_eq_dec : EqDecision Notification.
Proof. solve_decision. Defined.

Definition notification_type_status_or_checks (t : Notification) : bool :=
  match t with
  | status_changes | status_patch | status_project | checks_changes | checks_patch | checks_project => true
  | _ => false
  end.

Inductive NotificationState : Set := pending | success_state | error_state.
#[export] Instance NotificationState_eq_dec : EqDecision NotificationState.
Proof. solve_decision. Defined.

(** ** [notifiers/base.py] *)

Record NotificationResult : Type := mkNResult {
  notification_attempted : bool; notification_successful : option bool; explanation : option string;
  data_sent : option (odict string pyval); data_received : option (odict string pyval); github_app_used : option Z;
}.
Definition empty_result : NotificationResult := mkNResult false (Some false) None None None None.
Definition not_attempted (why : string) : NotificationResult := mkNResult false None (Some why) None None None.
Definition succeeded (r : NotificationResult) : bool := bool_decide (notification_successful r = Some true).

Definition or_text (a b : option string) : option string :=
  match a with Some "" | None => b | _ => a end.
Definition or_dict (a b : option (odict string pyval)) : option (odict string pyval) :=
  match a with Some [] | None => b | _ => a end.

(** [merge]; the app is not carried over. *)
Definition result_merge (a b : NotificationResult) : NotificationResult :=
  mkNResult (notification_attempted a || notification_attempted b) (Some (succeeded a || succeeded b))
    (or_text (explanation a) (explanation b)) (or_dict (data_sent a) (data_sent b))
    (or_dict (data_received a) (data_received b)) None.

Definition helper_text : Type := odict string pyval.

(** The interface of [AbstractBaseNotifier]; the comparison is that of the notifier. *)
Record Notifier (W : Type) : Type := mkNotifier {
  n_name : string; n_title : string; n_type : Notification; n_decoration : Decoration; n_enabled : bool;
  n_notify : option helper_text -> prog W NotificationResult;
  n_store_results : NotificationResult -> prog W unit;
}.
Arguments mkNotifier {W}. Arguments n_name {W}. Arguments n_title {W}. Arguments n_type {W}. Arguments n_decoration {W}.
Arguments n_enabled {W}. Arguments n_notify {W}. Arguments n_store_results {W}.

(** ** [commit_notifications.py] *)

Record CommitNotification : Type := mkCommitNotification {
  cn_commit_id : Z; cn_notification_type : Notification; cn_decoration_type : Decoration;
  cn_gh_app_id : option Z; cn_state : NotificationState;
}.

(** What a world offers: its table of commit notifications. *)
Class NotificationTable (W : Type) : Type := {
  notifications : W -> list CommitNotification;
  set_notifications : list CommitNotification -> W -> W;
  notifications_set : forall t w, notifications (set_notifications t w) = t;
}.

(** The commits of a comparison: that of its head, and that of the head of its pull. *)
Record commits : Type := mkCommits { head_commit : option Z; pull_head_commit : option (option Z) }.

Definition same_notification (commit : Z) (t : Notification) (r : CommitNotification) : bool :=
  (cn_commit_id r =? commit) && bool_decide (cn_notification_type r = t).

(** The first row of the commit and the type changes; its app stays. *)
Fixpoint update_first (p : CommitNotification -> bool) (d : Decoration) (s : NotificationState)
    (rows : list CommitNotification) : option (list CommitNotification) :=
  match rows with
  | [] => None
  | r :: rows =>
      if p r then Some (mkCommitNotification (cn_commit_id r) (cn_notification_type r) d (cn_gh_app_id r) s :: rows)
      else match update_first p d s rows with Some rows => Some (r :: rows) | None => None end
  end.

Definition failed_result (res : option NotificationResult) : bool :=
  match res with None => true | Some r => bool_decide (notification_successful r = Some false) end.

(** The commit whose notification is saved: none for an attempt outside a pull that
    failed or used no app. *)
Definition notified_commit (cs : commits) (res : option NotificationResult) : option Z :=
  match pull_head_commit cs with
  | Some c => c
  | None =>
      match head_commit cs, res with
      | Some c, Some r => if bool_decide (github_app_used r = None) || failed_result res then None else Some c
      | _, _ => None
      end
  end.

Definition create_or_update (cs : commits) (t : Notification) (d : Decoration) (res : option NotificationResult)
    (rows : list CommitNotification) : list CommitNotification :=
  match notified_commit cs res with
  | None => rows
  | Some commit =>
      let s := if failed_result res then error_state else success_state in
      match update_first (same_notification commit t) d s rows with
      | Some rows => rows
      | None => rows ++ [mkCommitNotification commit t d (match res with Some r => github_app_used r | None => None end) s]
      end
  end.

Section service.
Context {W : Type} `{NotificationTable W}.

Definition create_or_update_commit_notification_from_notification_result (cs : commits) (n : Notifier W)
    (res : option NotificationResult) : prog W unit :=
  modify (fun w => set_notifications (create_or_update cs (n_type n) (n_decoration n) res (notifications w)) w).

(** ** [checks_with_fallback.py] *)

Definition fallback_explanations : list string :=
  ["no_pull_request"; "pull_request_not_in_provider"; "pull_request_closed"; "preexisting_commit_status"].

Definition ChecksWithFallback (checks status : Notifier W) : Notifier W :=
  mkNotifier (n_name checks +:+ "-with-fallback") (n_title checks) (n_type checks) (n_decoration checks)
    (n_enabled checks || n_enabled status)
    (fun text =>
       try_except
         (res ← n_notify checks text;
          if negb (succeeded res) && bool_decide (default "" (explanation res) ∈ fallback_explanations)
          then n_notify status text else mret res)
         (fun f => match f with
                   | Torngit e => if bool_decide (client_code e = Some 403) then Some (n_notify status text) else None
                   | _ => None
                   end))
    (fun _ => mret tt).

(** ** [NotificationService] *)

(** What remains of the run of one notifier: its result, or a fault that is raised
    again; in both cases the notification is recorded when it was attempted or
    gave no result. *)
Definition finally_record (cs : commits) (n : Notifier W) (res : option NotificationResult) : prog W unit :=
  if match res with None => true | Some r => notification_attempted r end
  then create_or_update_commit_notification_from_notification_result cs n res else mret tt.

Definition stops (f : fault) : bool := match f with CeleryError | SoftTimeLimitExceeded => true | _ => false end.

Definition notify_individual_notifier (cs : commits) (n : Notifier W) (text : option helper_text) :
    prog W (option NotificationResult) := fun w =>
  let '(res, f, w) :=
    match n_notify n text w with
    | (inr f, w) => (None, Some f, w)
    | (inl r, w) =>
        match n_store_results n r w with
        | (inr f, w) => (Some r, Some f, w)
        | (inl _, w) => (Some r, None, w)
        end
    end in
  let '(_, w) := finally_record cs n res w in
  match f with
  | Some f => if stops f then (inr f, w) else (inl res, w)
  | None => (inl res, w)
  end.

Record IndividualResult : Type := mkIndividual {
  ir_notifier : string; ir_title : string; ir_result : option NotificationResult;
}.

Definition split_notifiers (ns : list (Notifier W)) : list (Notifier W) * list (Notifier W) :=
  (List.filter (fun n => notification_type_status_or_checks (n_type n)) ns,
   List.filter (fun n => negb (notification_type_status_or_checks (n_type n))) ns).

(** The texts of the statuses that failed. *)
Definition text_of (res : option NotificationResult) : helper_text :=
  match res with
  | Some r =>
      match data_sent r with
      | Some d =>
          if bool_decide (od_get "state" d = Some (VStr "failure")) then
            match od_get "included_helper_text" d with Some (VDict t) => t | _ => [] end
          else []
      | None => []
      end
  | None => []
  end.

Definition status_or_checks_helper_text (results : list (option NotificationResult)) : helper_text :=
  foldl (fun t r => od_update t (text_of r)) [] results.

Definition service_notify (licensed : bool) (cs : commits) (instances : list (Notifier W)) : prog W (list IndividualResult) :=
  if negb licensed then mret []
  else
    let '(statuses, others) := split_notifiers (List.filter n_enabled instances) in
    results ← mapP (fun n => notify_individual_notifier cs n None) statuses;
    let text := if bool_decide (results = []) || (length others =? 0)%nat then [] else status_or_checks_helper_text results in
    more ← mapP (fun n => notify_individual_notifier cs n (Some text)) others;
    mret (zip_with (fun (n : Notifier W) r => mkIndividual (n_name n) (n_title n) r) (statuses ++ others) (results ++ more)).
End service.

(** ** Which notifiers there are *)

Definition items_of (v : pyval) : result (odict string pyval) := match v with VDict d => Ok d | _ => Err AttributeError end.
Definition as_text (v : pyval) : result string := match v with VStr s => Ok s | _ => Err Unmodelled end.

(** [shared/helpers/yaml.py] *)
Definition default_entry (kv : string * pyval) : option (string * odict string pyval) :=
  match kv.2 with
  | VBool true => Some (kv.1, [])
  | VDict d => if bool_decide (od_get "enabled" d = Some (VBool false)) then None else Some (kv.1, d)
  | _ => None
  end.
Definition default_if_true (value : pyval) : list (string * odict string pyval) :=
  match value with
  | VBool true => [("default", [])]
  | VDict d => omap default_entry d
  | _ => []
  end.

(** A status: its type, its title and its settings. *)
Definition status_config : Type := (string * string * odict string pyval)%type.

(** [{**dict, **d}] after some keys. *)
Definition with_keys (ks : odict string pyval) (d : odict string pyval) : odict string pyval := od_update ks d.

Definition flag_status (flag : string) (st : pyval) : result status_config :=
  d ← items_of st;
  type ← get_item st "type"; type ← as_text type;
  prefix ← as_text (default (VStr "") (od_get "name_prefix" d));
  Ok (type, prefix +:+ flag, with_keys [("flags", VList [VStr flag])] d).

Definition flag_statuses (current_yaml : pyval) (flag : string) : result (list status_config) :=
  conf ← get_flag_configuration current_yaml flag;
  if negb (truthy conf) then Ok []
  else
    enabled ← dict_get conf "enabled" (VBool true);
    if negb (truthy enabled) then Ok []
    else
      sts ← dict_get conf "statuses" (VList []); sts ← as_list sts;
      traverse (flag_status flag) sts.

Section statuses.
Context `{Re}.

Definition component_status (c : Component) (flags : list string) (st : pyval) : result (option status_config) :=
  d ← items_of st;
  if negb (truthy (default (VBool true) (od_get "enabled" d))) then Ok None
  else
    type ← get_item st "type"; type ← as_text type;
    prefix ← as_text (default (VStr "") (od_get "name_prefix" d));
    display ← as_text (get_display_name c);
    Ok (Some (type, prefix +:+ display, with_keys [("flags", VList (map VStr flags)); ("paths", co_paths c)] d)).

Definition _get_component_statuses (current_yaml : pyval) (current_flags : list string) : result (list status_config) :=
  components ← get_components current_yaml;
  ls ← traverse (fun c =>
         sts ← as_list (co_statuses c);
         regexes ← as_list (co_flag_regexes c); regexes ← traverse as_text regexes;
         flags ← get_matching_flags regexes current_flags;
         os ← traverse (component_status c flags) sts;
         Ok (omap (fun o : option status_config => o) os : list status_config)) components;
  Ok (concat ls).

Definition get_statuses (current_yaml : pyval) (current_flags : list string) : result (list status_config) :=
  status_fields ← read_yaml_field current_yaml ["coverage"; "status"] VNone;
  defaults ← (if truthy status_fields then
                fields ← items_of status_fields;
                Ok (concat (map (fun kv : string * pyval =>
                      if bool_decide (kv.1 ∈ ["patch"; "project"; "changes"])
                      then map (fun tc => (kv.1, tc.1, tc.2)) (default_if_true kv.2) else []) fields))
              else Ok []);
  of_flags ← traverse (flag_statuses current_yaml) current_flags;
  of_components ← _get_component_statuses current_yaml current_flags;
  Ok (defaults ++ concat of_flags ++ of_components).

(** The repository as the service sees it. *)
Record service_env : Type := mkServiceEnv {
  se_owner_service : string; se_tier : TierName; se_repository : Repository;
  se_installations : list GithubAppInstallation; se_installation_name : string;
  se_using_integration : bool; se_integration_id : option Z; se_flags : list string;
}.

Definition _should_use_status_notifier (e : service_env) (status_type : string) : bool :=
  negb (bool_decide (se_tier e = TEAM) && negb (bool_decide (status_type = "patch"))).

Definition _should_use_checks_notifier (e : service_env) (current_yaml : pyval) (status_type : string) : result bool :=
  checks_yaml_field ← read_yaml_field current_yaml ["github_checks"] VNone;
  Ok (negb (bool_decide (checks_yaml_field = VBool false))
      && bool_decide (se_owner_service e ∈ ["github"; "github_enterprise"])
      && _should_use_status_notifier e status_type
      && (existsb (fun i => bool_decide (gi_name i = se_installation_name e)
                            && GithubAppInstallationOps.is_configured_worker i
                            && GithubAppInstallationOps.is_repo_covered_by_integration i (se_repository e)) (se_installations e)
          || se_using_integration e && match se_integration_id e with Some i => negb (i =? 0) | None => false end)).

(** A notifier that is to be made, of the type the code gives it. *)
Inductive instance : Type :=
  | GenericNotifier (type title : string) (settings : pyval)
  | StatusNotifierOf (type title : string) (settings : odict string pyval)
  | ChecksWithFallbackOf (type title : string) (settings : odict string pyval)
  | SlackAppNotifier (settings : pyval)
  | CommentNotifierOf (settings : pyval).

Definition notifier_classes : list string := ["gitter"; "hipchat"; "irc"; "slack"; "webhook"].

Definition generic_instances (kv : string * pyval) : result (list instance) :=
  if bool_decide (kv.1 ∈ notifier_classes) then
    configs ← items_of kv.2;
    Ok (map (fun tc => GenericNotifier kv.1 tc.1 tc.2) configs)
  else Ok [].

Definition status_instance (e : service_env) (current_yaml : pyval) (s : status_config) : result (list instance) :=
  let '(key, title, config) := s in
  if _should_use_status_notifier e key then
    checks ← _should_use_checks_notifier e current_yaml key;
    Ok [if (checks : bool) then ChecksWithFallbackOf key title config else StatusNotifierOf key title config]
  else Ok [].

Definition get_notifiers_instances (e : service_env) (current_yaml slack_app_setting : pyval) : result (list instance) :=
  yaml_field ← read_yaml_field current_yaml ["coverage"; "notify"] VNone;
  generic ← (if bool_decide (yaml_field = VNone) then Ok []
             else fields ← items_of yaml_field; ls ← traverse generic_instances fields; Ok (concat ls));
  sts ← get_statuses current_yaml (se_flags e);
  of_statuses ← traverse (status_instance e current_yaml) sts;
  slack_app ← read_yaml_field current_yaml ["slack_app"] (VBool true);
  comment_field ← read_yaml_field current_yaml ["comment"] VNone;
  Ok (generic ++ concat of_statuses
      ++ (if truthy slack_app_setting && truthy slack_app then [SlackAppNotifier slack_app] else [])
      ++ (if truthy comment_field then [CommentNotifierOf comment_field] else [])).
End statuses.
