(* ===== verification/StatusNotifier.v ===== *)
(** * Status notifiers

    [apps/worker/services/notification/notifiers/status/]: [base.py] and the
    notifiers of the patch, the project and the changes, whose verdicts [Status.v]
    models; [apps/worker/helpers/match.py] and the flags and paths of
    [services/yaml/reader.py]. *)
From S2P Require Export Notifiers Status.
#[local] Open Scope string_scope.
#[local] Open Scope list_scope.
#[local] Open Scope Z_scope.

(** ** [helpers/match.py] *)

Section branches.
Context `{Re}.

(** [re.match(pattern, string)]; the branch of a commit can be missing. *)
Definition re_match_at (pattern : string) (s : option string) : result bool :=
  m ← re_compile pattern; match s with Some s => Ok (m s) | None => Err TypeError end.

Fixpoint any_pattern (clean : string -> string) (ps : list string) (s : option string) : result bool :=
  match ps with
  | [] => Ok false
  | p :: ps => b ← re_match_at (clean p) s; if (b : bool) then Ok true else any_pattern clean ps s
  end.

Definition match_ (patterns : option (list string)) (s : option string) : result bool :=
  match patterns with
  | None => Ok true
  | Some ps =>
      if match s with Some s => bool_decide (s ∈ ps) | None => false end then Ok true
      else
        let ps := remove_dups (filter (fun p => p <> "") ps) in
        negative ← any_pattern (str_replace "!" "") (filter (fun p => is_negative p = true) ps) s;
        if (negative : bool) then Ok false
        else
          let positives := filter (fun p => is_negative p = false) ps in
          if bool_decide (positives = []) then Ok true else any_pattern id positives s
  end.
End branches.

(** ** [services/yaml/reader.py] *)

Fixpoint paths_of_flags (current_yaml : pyval) (flags res : list string) : result (list string) :=
  match flags with
  | [] => Ok (remove_dups res)
  | flag :: flags =>
      conf ← get_flag_configuration current_yaml flag;
      if bool_decide (conf = VNone) then paths_of_flags current_yaml flags res
      else
        paths ← dict_get conf "paths" VNone;
        if bool_decide (paths = VNone) then Ok []
        else l ← as_list paths; l ← traverse as_text l; paths_of_flags current_yaml flags (res ++ l)
  end.
Definition get_paths_from_flags (current_yaml : pyval) (flags : list string) : result (list string) :=
  paths_of_flags current_yaml flags [].

(** ** What a status notifier works with *)

(** The comparison of two commits as the notifier sees it.  [sc_view] is what
    [Status.v] reads of it, filtered by flags and paths when there are some; the
    provider can be asked for the difference of the commits meanwhile. *)
Record status_comparison (W : Type) : Type := mkStatusComparison {
  sc_repoid : Z; sc_head_commitid : string; sc_head_branch : option string; sc_base_commitid : option string;
  sc_pull : bool; sc_url : string;
  sc_head_sessions : option (list Session);  (* of the head's report, when it has one *)
  sc_uploaded_flags : list string; sc_head_coverage : tcov; sc_gitlab_extra_shas : list string;
  sc_view : option (list string * list string) -> prog W comparison;
}.
Arguments sc_repoid {W}. Arguments sc_head_commitid {W}. Arguments sc_head_branch {W}. Arguments sc_base_commitid {W}.
Arguments sc_pull {W}. Arguments sc_url {W}. Arguments sc_head_sessions {W}. Arguments sc_uploaded_flags {W}.
Arguments sc_head_coverage {W}. Arguments sc_gitlab_extra_shas {W}. Arguments sc_view {W}.

Record payload : Type := mkPayload { pl_status : StatusResult; pl_url : string }.
#[export] Instance StatusResult_eq_dec : EqDecision StatusResult.
Proof. solve_decision. Defined.
#[export] Instance payload_eq_dec : EqDecision payload.
Proof. solve_decision. Defined.

Definition text_dict (d : odict string string) : pyval := VDict (map (fun kv => (kv.1, VStr kv.2)) d).
Definition payload_dict (p : payload) : odict string pyval :=
  [("state", sr_state (pl_status p)); ("message", VStr (sr_message (pl_status p)));
   ("included_helper_text", text_dict (sr_helper_text (pl_status p))); ("url", VStr (pl_url p))].

(** What the key of the cache is a hash of. *)
Definition cache_key : Type := (Z * option string * string * string * string)%type.

(** The provider and the cache.  A status that exists has a state and a description. *)
Class StatusServices (W : Type) : Type := {
  get_existing_statuses : string -> prog W (odict string (pyval * string));
  set_commit_status : string -> pyval -> string -> string -> string -> b64 -> prog W (odict string pyval);
  cache_get : cache_key -> prog W (option payload);
  cache_set : cache_key -> payload -> prog W unit;
}.

Inductive status_context : Set := PATCH | PROJECT | CHANGES.
Definition context_name (c : status_context) : string :=
  match c with PATCH => "patch" | PROJECT => "project" | CHANGES => "changes" end.

Section notifier.
Context {W : Type} `{StatusServices W} `{Re}.
Variable context : status_context.
Variable title : string.
Variable settings : odict string pyval.
Variable current_yaml : pyval.
Variable decoration : Decoration.
Variable installation_id : option Z.  (* of the provider's adapter *)

Definition name : string := "status-" +:+ context_name context.

Definition text_list (v : pyval) : result (list string) := l ← as_list v; traverse as_text l.

(** [settings.get(k) or []] *)
Definition setting_list (k : string) : result (list string) :=
  match od_get k settings with Some v => if truthy v then text_list v else Ok [] | None => Ok [] end.

Definition truthy_setting (k : string) : bool := truthy (default VNone (od_get k settings)).

Definition is_empty_upload : bool :=
  bool_decide (decoration = passing_empty_upload) || bool_decide (decoration = failing_empty_upload).

Definition get_status_check_for_empty_upload : string * string :=
  if bool_decide (decoration = passing_empty_upload) then ("success", "Non-testable files changed.")
  else ("failure", "Testable files changed").

Definition get_upgrade_message : string := "Please activate this user to display a detailed status check".

Definition can_we_set_this_status (c : status_comparison W) : result bool :=
  if (truthy_setting "only_pulls" || bool_decide (od_get "base" settings = Some (VStr "pr"))) && negb (sc_pull c) then Ok false
  else
    patterns ← match default VNone (od_get "branches" settings) with
               | VNone => Ok None
               | v => l ← text_list v; Ok (Some l)
               end;
    match_ patterns (sc_head_branch c).

Definition determine_status_check_behavior_to_apply (field_name : string) : result pyval :=
  match od_get field_name settings with
  | Some VNone | None => read_yaml_field current_yaml ["coverage"; "status"; "default_rules"; field_name] VNone
  | Some v => Ok v
  end.

Definition flag_coverage_was_uploaded (c : status_comparison W) : result bool :=
  flags ← setting_list "flags";
  if bool_decide (flags = []) then Ok true
  else Ok (existsb (fun f => bool_decide (f ∈ flags)) (sc_uploaded_flags c)).

Definition get_notifier_filters : result (list string * list string) :=
  flags ← setting_list "flags";
  of_flags ← get_paths_from_flags current_yaml flags;
  paths ← setting_list "paths";
  Ok (flags, remove_dups (of_flags ++ paths)).

(** [get_filtered_comparison]: the comparison itself when there is nothing to filter by. *)
Definition filtered (filters : list string * list string) : option (list string * list string) :=
  match filters with ([], []) => None | _ => Some filters end.

Definition has_flag (flag : string) (s : Session) : bool := bool_decide (flag ∈ default [] (se_flags s)).

Fixpoint enough_builds (sessions : option (list Session)) (flags : list string) : result bool :=
  match flags with
  | [] => Ok true
  | flag :: flags =>
      conf ← get_flag_configuration current_yaml flag;
      match sessions with
      | Some ((_ :: _) as ss) =>
          if truthy conf then
            needed ← dict_get conf "after_n_builds" (VInt 0);
            needed ← match needed with VInt n => Ok n | _ => Err TypeError end;
            if Z.of_nat (length (List.filter (has_flag flag) ss)) <? needed then Ok false else enough_builds sessions flags
          else enough_builds sessions flags
      | _ => enough_builds sessions flags
      end
  end.
Definition required_builds (c : status_comparison W) : result bool :=
  flags ← setting_list "flags"; enough_builds (sc_head_sessions c) flags.

(** ** The payload *)

Definition status_of (c : comparison) : result StatusResult :=
  match context with
  | PATCH => get_patch_status settings current_yaml "status" c
  | PROJECT => get_project_status settings current_yaml "status" c
  | CHANGES => Ok (get_changes_status settings "status" c)
  end.

Definition build_payload (view : prog W comparison) : prog W StatusResult :=
  if is_empty_upload then
    let '(state, message) := get_status_check_for_empty_upload in mret (mkStatus (VStr state) message [])
  else
    c ← view;
    r ← lift (status_of c);
    mret (if bool_decide (decoration = upgrade) then mkStatus (sr_state r) get_upgrade_message (sr_helper_text r) else r).

Definition auto_passed (r : StatusResult) : StatusResult :=
  mkStatus success (sr_message r +:+ " [Auto passed due to carriedforward or missing coverage]") (sr_helper_text r).

(** ** Sending *)

Definition get_status_external_name : string :=
  "codecov/" +:+ context_name context +:+ (if bool_decide (title = "default") then "" else "/" +:+ title).

Definition status_already_exists (c : status_comparison W) (name : string) (p : payload) : prog W bool :=
  statuses ← get_existing_statuses (sc_head_commitid c);
  mret (bool_decide (od_get name statuses = Some (sr_state (pl_status p), sr_message (pl_status p)))).

Definition head_coverage (c : status_comparison W) : result b64 :=
  if tcov_falsy (sc_head_coverage c) then Ok (B64 false 0 0) else float_of_tcov (sc_head_coverage c).

Definition sent (state : pyval) (p : payload) : odict string pyval :=
  [("title", VStr get_status_external_name); ("state", state); ("message", VStr (sr_message (pl_status p)))].

Definition send_notification (c : status_comparison W) (p : payload) : prog W NotificationResult :=
  exists_ ← status_already_exists c get_status_external_name p;
  if (exists_ : bool) then
    mret (mkNResult false None (Some "already_done") (Some (sent (sr_state (pl_status p)) p)) None None)
  else
    let state := if truthy_setting "informational" then success else sr_state (pl_status p) in
    let data := sent state p ++ match sr_helper_text (pl_status p) with
                                | [] => []
                                | d => [("included_helper_text", text_dict d)]
                                end in
    except_client
      (coverage ← lift (head_coverage c);
       results ← mapP (fun sha => set_commit_status sha state get_status_external_name (sr_message (pl_status p)) (pl_url p) coverage)
                   (sc_head_commitid c :: sc_gitlab_extra_shas c);
       let res := hd [] results in
       mret (mkNResult true (Some true) None (Some data)
               (Some [("id", default (VStr "NO_ID") (od_get "id" res))]) installation_id))
      (fun _ => mret (mkNResult true (Some false) (Some "no_write_permission") (Some data) None None)).

(** The payload is saved before it is sent. *)
Definition maybe_send_notification (c : status_comparison W) (p : payload) : prog W NotificationResult :=
  let key := (sc_repoid c, sc_base_commitid c, sc_head_commitid c, name, title) in
  last_payload ← cache_get key;
  if bool_decide (last_payload = Some p) then mret (not_attempted "payload_unchanged")
  else _ ← cache_set key p; send_notification c p.

Definition provider_error (data : option payload) (f : fault) : option (prog W NotificationResult) :=
  match f with
  | Torngit e =>
      Some (mret (mkNResult true (Some false)
                    (Some (if is_client_error e then "client_side_error_provider" else "server_side_error_provider"))
                    (payload_dict <$> data) None None))
  | _ => None
  end.

(** The payload of a comparison; [None] when the check is excluded. *)
Definition payload_of (c : status_comparison W) : prog W (option StatusResult) :=
  behavior ← lift (determine_status_check_behavior_to_apply "flag_coverage_not_uploaded_behavior");
  match sc_head_sessions c with
  | None => r ← build_payload (sc_view c None); mret (Some r)
  | Some _ =>
      uploaded ← lift (if bool_decide (behavior = VStr "exclude") || bool_decide (behavior = VStr "pass")
                       then flag_coverage_was_uploaded c else Ok true);
      if (uploaded : bool) || negb (bool_decide (behavior = VStr "exclude")) then
        filters ← lift get_notifier_filters;
        r ← build_payload (sc_view c (filtered filters));
        mret (Some (if (uploaded : bool) then r else auto_passed r))
      else mret None
  end.

Definition status_notify (c : status_comparison W) : prog W NotificationResult :=
  can ← lift (can_we_set_this_status c);
  if negb can then mret (not_attempted "not_fit_criteria")
  else
    enough ← lift (required_builds c);
    if negb enough then mret (not_attempted "need_more_builds")
    else
      r ← try_except (r ← payload_of c; mret (inl r)) (fun f => match provider_error None f with
                                                               | Some k => Some (e ← k; mret (inr e))
                                                               | None => None
                                                               end);
      match r with
      | inr e => mret e
      | inl None => mret (not_attempted "exclude_flag_coverage_not_uploaded_checks")
      | inl (Some r) =>
          let p := mkPayload r (sc_url c) in
          try_except (maybe_send_notification c p) (provider_error (Some p))
      end.

Definition StatusNotifier (c : status_comparison W) : Notifier W :=
  mkNotifier name title (match context with PATCH => status_patch | PROJECT => status_project | CHANGES => status_changes end)
    decoration true (fun _ => status_notify c) (fun _ => mret tt).
End notifier.
