(* ===== verification/NotifiersSpec.v ===== *)
(** * What the notification service and the status notifier promise

    A notifier that fails keeps none of the others from running, and the table of
    commit notifications ends with the outcome of the last notifier of each type;
    an informational status never reports anything but success. *)
From S2P Require Export StatusNotifier.
#[local] Open Scope string_scope.
#[local] Open Scope list_scope.
#[local] Open Scope Z_scope.

(** ** The table of commit notifications *)

Definition row_of (commit : Z) (t : Notification) (rows : list CommitNotification) : option CommitNotification :=
  List.find (same_notification commit t) rows.
Definition state_in (commit : Z) (t : Notification) (rows : list CommitNotification) : option NotificationState :=
  cn_state <$> row_of commit t rows.

(** Whether the outcome of a notifier is recorded, and as what. *)
Definition recorded (r : option NotificationResult) : bool :=
  match r with None => true | Some r => notification_attempted r end.
Definition state_of_result (r : option NotificationResult) : NotificationState :=
  if failed_result r then error_state else success_state.

(** The state of a type after one more outcome. *)
Definition next_state (t : Notification) (s : option NotificationState) (o : Notification * option NotificationResult) :
    option NotificationState :=
  if recorded o.2 && bool_decide (o.1 = t) then Some (state_of_result o.2) else s.

Lemma same_notification_types commit t t' r :
  same_notification commit t r = true -> same_notification commit t' r = true -> t = t'.
Proof.
  unfold same_notification. intros [_ Ha%bool_decide_eq_true]%andb_true_iff [_ Hb%bool_decide_eq_true]%andb_true_iff.
  congruence.
Qed.

(** Updating a row leaves its commit and its type. *)
Lemma update_first_state commit t t' d s rows rows' :
  update_first (same_notification commit t) d s rows = Some rows' ->
  state_in commit t' rows' = if bool_decide (t = t') then Some s else state_in commit t' rows.
Proof.
  unfold state_in, row_of. revert rows'. induction rows as [|r rows IH]; intros rows' Hu; [done|]. cbn in Hu |- *.
  destruct (same_notification commit t r) eqn:Hr.
  - injection Hu as <-. cbn. unfold same_notification at 1. cbn. fold (same_notification commit t' r).
    destruct (same_notification commit t' r) eqn:Hr'.
    + rewrite (same_notification_types _ _ _ _ Hr Hr'), bool_decide_eq_true_2; done.
    + rewrite bool_decide_eq_false_2; [done|]. intros ->. congruence.
  - destruct (update_first (same_notification commit t) d s rows) as [rows0|] eqn:Hu0; [|done]. injection Hu as <-.
    cbn. specialize (IH rows0 eq_refl). destruct (same_notification commit t' r) eqn:Hr'; [|by rewrite IH].
    rewrite bool_decide_eq_false_2; [done|]. intros ->. congruence.
Qed.

Lemma update_first_none commit t d s rows :
  update_first (same_notification commit t) d s rows = None -> row_of commit t rows = None.
Proof.
  unfold row_of. induction rows as [|r rows IH]; cbn; [done|]. destruct (same_notification commit t r); [done|].
  destruct (update_first _ d s rows); [done|]. auto.
Qed.

Lemma row_of_snoc commit t rows r :
  row_of commit t (rows ++ [r]) =
  match row_of commit t rows with Some r' => Some r' | None => if same_notification commit t r then Some r else None end.
Proof. unfold row_of. induction rows as [|r' rows IH]; cbn; [done|]. by destruct (same_notification commit t r'). Qed.

Lemma create_or_update_state cs commit t t' d res rows :
  pull_head_commit cs = Some (Some commit) ->
  state_in commit t' (create_or_update cs t d res rows) =
  if bool_decide (t = t') then Some (state_of_result res) else state_in commit t' rows.
Proof.
  intros Hp. unfold create_or_update, notified_commit. rewrite Hp. cbv zeta. fold (state_of_result res).
  destruct (update_first _ _ _ _) as [rows'|] eqn:Hu; [exact (update_first_state commit t t' d _ rows rows' Hu)|].
  apply update_first_none in Hu. unfold state_in. rewrite row_of_snoc. unfold same_notification. cbn.
  rewrite Z.eqb_refl. cbn. case_bool_decide; subst.
  - by rewrite Hu.
  - by destruct (row_of commit t' rows).
Qed.

(** ** The service *)

Section service.
Context {W : Type} `{NotificationTable W}.

(** A program that leaves the table alone. *)
Definition calm_run {A} (m : prog W A) : Prop := forall w, notifications (m w).2 = notifications w.
Definition calm (n : Notifier W) : Prop :=
  (forall text, calm_run (n_notify n text)) /\ (forall r, calm_run (n_store_results n r)).

(** The turn of a notifier: it is called, what it answers is stored, and the outcome is
    recorded; an exception of its own ends its turn only. *)
Inductive turn (cs : commits) (text : option helper_text) (n : Notifier W) : W -> option NotificationResult -> W -> Prop :=
  | answers w r w1 stored w2 w3 :
      n_notify n text w = (inl r, w1) -> n_store_results n r w1 = (stored, w2) ->
      (forall f, stored = inr f -> stops f = false) -> finally_record cs n (Some r) w2 = (inl tt, w3) -> turn cs text n w (Some r) w3
  | raises w f w1 w2 :
      n_notify n text w = (inr f, w1) -> stops f = false -> finally_record cs n None w1 = (inl tt, w2) -> turn cs text n w None w2.

(** The turns of notifiers one after the other. *)
Inductive turns (cs : commits) (text : option helper_text) : list (Notifier W) -> W -> list (option NotificationResult) -> W -> Prop :=
  | no_turn w : turns cs text [] w [] w
  | next_turn n ns w r w1 rs w2 : turn cs text n w r w1 -> turns cs text ns w1 rs w2 -> turns cs text (n :: ns) w (r :: rs) w2.

(** One of the notifiers, after the turns of those before it, raises what stops the
    task: an error of Celery, or the soft time limit. *)
Definition stopped (cs : commits) (text : option helper_text) (ns : list (Notifier W)) (w : W) (f : fault) : Prop :=
  stops f = true /\ exists before n after rs w1, ns = before ++ n :: after /\ turns cs text before w rs w1 /\
    ((n_notify n text w1).1 = inr f \/
     exists r w2, n_notify n text w1 = (inl r, w2) /\ (n_store_results n r w2).1 = inr f).

Lemma finally_record_run cs commit n r w :
  pull_head_commit cs = Some (Some commit) ->
  exists w', finally_record cs n r w = (inl tt, w') /\
    forall t, state_in commit t (notifications w') = next_state t (state_in commit t (notifications w)) (n_type n, r).
Proof.
  intros Hp. unfold finally_record, next_state, create_or_update_commit_notification_from_notification_result, modify.
  fold (recorded r). cbn [fst snd]. destruct (recorded r).
  - eexists. split; [done|]. intros t. rewrite notifications_set. by apply create_or_update_state.
  - by eexists.
Qed.

Lemma finally_record_ok cs n r w : exists w', finally_record cs n r w = (inl tt, w').
Proof. unfold finally_record, create_or_update_commit_notification_from_notification_result, modify. case_match; by eexists. Qed.

Lemma notify_individual_run cs n text w :
  match notify_individual_notifier cs n text w with
  | (inl r, w') => turn cs text n w r w'
  | (inr f, w') => stopped cs text [n] w f
  end.
Proof.
  unfold notify_individual_notifier. destruct (n_notify n text w) as [[r|f] w1] eqn:Hn.
  - destruct (n_store_results n r w1) as [stored w2] eqn:Hs. destruct (finally_record_ok cs n (Some r) w2) as [w3 Hw3].
    destruct stored as [u|f]; rewrite Hw3; [by eapply answers|]. destruct (stops f) eqn:Hf.
    + split; [done|]. exists [], n, [], [], w. split_and!; [done | constructor |]. right. exists r, w1. by rewrite Hs.
    + eapply answers; [done..| |done]. by intros f' [= <-].
  - destruct (finally_record_ok cs n None w1) as [w2 Hw2]. rewrite Hw2. destruct (stops f) eqn:Hf; [|by eapply raises].
    split; [done|]. exists [], n, [], [], w. split_and!; [done | constructor |]. left. by rewrite Hn.
Qed.

Lemma notify_all_run cs text (ns : list (Notifier W)) w :
  match mapP (fun n => notify_individual_notifier cs n text) ns w with
  | (inl rs, w') => turns cs text ns w rs w'
  | (inr f, w') => stopped cs text ns w f
  end.
Proof.
  revert w. induction ns as [|n ns IH]; intros w; cbn; [constructor|]. unfold mbind, prog_bind.
  pose proof (notify_individual_run cs n text w) as Hr. destruct (notify_individual_notifier cs n text w) as [[r|f] w1].
  - specialize (IH w1). destruct (mapP _ ns w1) as [[rs|f] w2]; [by eapply next_turn|].
    destruct IH as (Hf & before & n' & after & rs & w3 & -> & Ht & Hx). split; [done|].
    exists (n :: before), n', after, (r :: rs), w3. split_and!; [done | by eapply next_turn | done].
  - destruct Hr as (Hf & before & n' & after & rs & w3 & Hns & Ht & Hx). split; [done|].
    destruct before as [|n0 before]; [|by destruct before]. injection Hns as <- <-. inversion Ht; subst.
    by exists [], n, ns, [], w3.
Qed.

Lemma turn_state cs commit text n w r w' :
  pull_head_commit cs = Some (Some commit) -> calm n -> turn cs text n w r w' ->
  forall t, state_in commit t (notifications w') = next_state t (state_in commit t (notifications w)) (n_type n, r).
Proof.
  intros Hp [Hn Hs] Ht t. destruct Ht as [w r w1 stored w2 w3 H1 H2 _ H3|w f w1 w2 H1 _ H2].
  - pose proof (Hn text w) as E1. pose proof (Hs r w1) as E2. rewrite H1 in E1. rewrite H2 in E2. cbn in E1, E2.
    destruct (finally_record_run cs commit n (Some r) w2 Hp) as (w' & Hw' & Hst). rewrite H3 in Hw'. injection Hw' as <-.
    by rewrite Hst, E2, E1.
  - pose proof (Hn text w) as E1. rewrite H1 in E1. cbn in E1.
    destruct (finally_record_run cs commit n None w1 Hp) as (w' & Hw' & Hst). rewrite H2 in Hw'. injection Hw' as <-.
    by rewrite Hst, E1.
Qed.

Lemma turns_state cs commit text ns w rs w' :
  pull_head_commit cs = Some (Some commit) -> Forall calm ns -> turns cs text ns w rs w' ->
  length rs = length ns /\ forall t, state_in commit t (notifications w')
      = foldl (next_state t) (state_in commit t (notifications w)) (zip (n_type <$> ns) rs).
Proof.
  intros Hp Hc Ht. induction Ht as [w|n ns w r w1 rs w2 Hn _ IH]; [done|].
  apply Forall_cons in Hc as [Hcn Hcs]. destruct (IH Hcs) as [Hl Hst]. split; [cbn; congruence|].
  intros t. cbn. by rewrite Hst, (turn_state _ _ _ _ _ _ _ Hp Hcn Hn).
Qed.

(** The enabled notifiers of statuses and checks, and the other ones. *)
Definition statuses_of (instances : list (Notifier W)) : list (Notifier W) :=
  List.filter (fun n => n_enabled n && notification_type_status_or_checks (n_type n)) instances.
Definition others_of (instances : list (Notifier W)) : list (Notifier W) :=
  List.filter (fun n => n_enabled n && negb (notification_type_status_or_checks (n_type n))) instances.

Lemma split_enabled instances : split_notifiers (List.filter n_enabled instances) = (statuses_of instances, others_of instances).
Proof. unfold split_notifiers, statuses_of, others_of. by rewrite !filter_filter. Qed.

Lemma zip_with_fst_results (ns : list (Notifier W)) rs :
  length rs = length ns ->
  let irs := zip_with (fun (n : Notifier W) r => mkIndividual (n_name n) (n_title n) r) ns rs in
  map (fun r => (ir_notifier r, ir_title r)) irs = map (fun n => (n_name n, n_title n)) ns /\ map ir_result irs = rs.
Proof.
  revert rs. induction ns as [|n ns IH]; intros [|r rs] Hl; try done. cbn in *. injection Hl as Hl.
  destruct (IH rs Hl) as [-> ->]. done.
Qed.
End service.

(** C24: A licensed installation gives every enabled notifier its turn, the statuses and
    checks first and then the others, which get the helper texts of those that failed:
    each is called, and an exception of it ends only its own turn.  Each has its entry
    in the answer, with what it answered.  For the head commit of a pull the table of
    notifications ends, for every type, with the state of the last notifier of that
    type that attempted one or raised, or the state it had.  Only an error of Celery
    or the soft time limit is raised again, and keeps the notifiers after it from
    running. *)
Theorem every_notifier_runs {W} `{NotificationTable W} cs commit instances w :
  Forall calm instances -> pull_head_commit cs = Some (Some commit) ->
  match service_notify true cs instances w with
  | (inl results, w') => exists rs w1 rs',
      turns cs None (statuses_of instances) w rs w1 /\
      turns cs (Some (if (length (others_of instances) =? 0)%nat then [] else status_or_checks_helper_text rs)) (others_of instances) w1 rs' w' /\
      map ir_result results = rs ++ rs' /\
      map (fun r => (ir_notifier r, ir_title r)) results =
        map (fun n => (n_name n, n_title n)) (statuses_of instances ++ others_of instances) /\
      forall t, state_in commit t (notifications w') =
        foldl (next_state t) (state_in commit t (notifications w))
          (zip (n_type <$> statuses_of instances ++ others_of instances) (rs ++ rs'))
  | (inr f, w') =>
      stopped cs None (statuses_of instances) w f \/
      exists rs w1, turns cs None (statuses_of instances) w rs w1 /\
        stopped cs (Some (status_or_checks_helper_text rs)) (others_of instances) w1 f
  end.
Proof.
  intros Hc Hp. unfold service_notify. cbn [negb]. rewrite split_enabled.
  assert (Hcf : forall p, Forall calm (List.filter p instances)).
  { intros p. apply Forall_forall. intros n Hin. apply list_elem_of_In, filter_In in Hin as [Hin%list_elem_of_In _].
    by eapply Forall_forall in Hc. }
  assert (Hcs : Forall calm (statuses_of instances)) by apply Hcf. assert (Hco : Forall calm (others_of instances)) by apply Hcf.
  set (ss := statuses_of instances) in *. set (os := others_of instances) in *. clearbody ss os.
  unfold mbind, prog_bind. pose proof (notify_all_run cs None ss w) as H1.
  destruct (mapP _ ss w) as [[rs|f] w1]; [|by left].
  assert (Htext : (if bool_decide (rs = []) || (length os =? 0)%nat then [] else status_or_checks_helper_text rs) =
    if (length os =? 0)%nat then [] else status_or_checks_helper_text rs).
  { case_bool_decide as E; [|done]. subst. by destruct (length os =? 0)%nat. }
  rewrite Htext. pose proof (notify_all_run cs (Some (if (length os =? 0)%nat then [] else status_or_checks_helper_text rs)) os w1) as H2.
  destruct (mapP _ os w1) as [[rs'|f] w2].
  - cbn. exists rs, w1, rs'. destruct (turns_state _ _ _ _ _ _ _ Hp Hcs H1) as [Hl1 Hs1], (turns_state _ _ _ _ _ _ _ Hp Hco H2) as [Hl2 Hs2].
    destruct (zip_with_fst_results (ss ++ os) (rs ++ rs')) as [Hn Hr]; [by rewrite !length_app, Hl1, Hl2|].
    split_and!; [done..| ]. intros t. rewrite fmap_app, zip_with_app by by rewrite length_fmap. by rewrite foldl_app, Hs2, Hs1.
  - right. exists rs, w1. split; [done|]. destruct os; [|done].
    destruct H2 as (_ & before & n & after & rs0 & w3 & E & _). by destruct before.
Qed.

(** ** Informational statuses *)

Section informational.
Context {W : Type} `{StatusServices W} `{Re}.
Variable context : status_context.
Variable title : string.
Variable settings : odict string pyval.
Variable current_yaml : pyval.
Variable decoration : Decoration.
Variable installation_id : option Z.
Variable c : status_comparison W.

(** A property of the world that everything preserves but, perhaps, setting a
    status that is not a success. *)
Variable P : W -> Prop.
Hypothesis existing_preserves : forall sha, preserves P (get_existing_statuses sha).
Hypothesis cache_get_preserves : forall k, preserves P (cache_get k).
Hypothesis cache_set_preserves : forall k p, preserves P (cache_set k p).
Hypothesis view_preserves : forall f, preserves P (sc_view c f).
Hypothesis success_preserves : forall sha name description url coverage,
  preserves P (set_commit_status sha success name description url coverage).
Hypothesis is_informational : truthy_setting settings "informational" = true.

Ltac preserved := repeat (apply preserves_bind; [|intros ?]); auto using preserves_ret, preserves_raise, preserves_lift.

Lemma payload_of_preserves : preserves P (payload_of context settings current_yaml decoration c).
Proof.
  assert (Hb : forall v, preserves P v -> preserves P (build_payload context settings current_yaml decoration v)).
  { intros v Hv. unfold build_payload. case_match; [case_match; preserved|preserved]. }
  unfold payload_of. preserved. case_match; preserved. case_match; preserved.
Qed.

Lemma send_preserves p : preserves P (send_notification context title settings installation_id c p).
Proof.
  unfold send_notification. rewrite is_informational.
  apply preserves_bind; [unfold status_already_exists; preserved|intros [|]; [apply preserves_ret|]].
  apply preserves_try; [preserved; by apply preserves_mapP|].
  intros [e| | | | |] k; try done. cbn. destruct (is_client_error e); [|done]. intros [= <-]. apply preserves_ret.
Qed.

Lemma provider_error_preserves d f k : provider_error d f = Some k -> preserves P (k : prog W NotificationResult).
Proof. destruct f; cbn; [|done..]. intros [= <-]. apply preserves_ret. Qed.

Lemma notify_preserves : preserves P (status_notify context title settings current_yaml decoration installation_id c).
Proof.
  unfold status_notify. preserved. case_match; preserved. case_match; preserved.
  - apply preserves_try; [apply preserves_bind; [apply payload_of_preserves|intros; apply preserves_ret]|].
    intros f k. destruct (provider_error None f) as [k'|] eqn:Hk; [|done]. intros [= <-].
    apply preserves_bind; [by apply (provider_error_preserves None f)|intros; apply preserves_ret].
  - repeat case_match; preserved. apply preserves_try; [|intros f k; apply provider_error_preserves].
    unfold maybe_send_notification. apply preserves_bind; [done|intros last]. case_match; [apply preserves_ret|].
    apply preserves_bind; [done|intros; apply send_preserves].
Qed.
End informational.

(** C26: a status whose settings say [informational] sets no commit status other
    than success: what holds before the notifier runs and no other call of it can
    change holds after it, whatever it sends. *)
Theorem informational_never_fails {W} `{StatusServices W} `{Re} context title settings current_yaml decoration installation
    (c : status_comparison W) (P : W -> Prop) :
  truthy_setting settings "informational" = true ->
  (forall sha, preserves P (get_existing_statuses sha)) -> (forall k, preserves P (cache_get k)) ->
  (forall k p, preserves P (cache_set k p)) -> (forall f, preserves P (sc_view c f)) ->
  (forall sha name description url coverage, preserves P (set_commit_status sha (VStr "success") name description url coverage)) ->
  preserves P (status_notify context title settings current_yaml decoration installation c).
Proof. intros Hi He Hg Hs Hv Hok. by apply notify_preserves. Qed.

(** ** A concrete world *)

(** The cache, the statuses that were set, whether the provider is down, and the table. *)
Record board : Type := mkBoard {
  bd_cache : list (cache_key * payload); bd_set : list (string * pyval); bd_down : bool;
  bd_rows : list CommitNotification;
}.

#[export] Instance board_services : StatusServices board := {
  get_existing_statuses _ := mret [];
  set_commit_status _ state title _ _ _ w :=
    if bd_down w then (inr (Torngit TorngitServer5xxCodeError), w)
    else (inl [("id", VInt 1)], mkBoard (bd_cache w) (bd_set w ++ [(title, state)]) false (bd_rows w));
  cache_get k := read (fun w => snd <$> List.find (fun kp => bool_decide (kp.1 = k)) (bd_cache w));
  cache_set k p := modify (fun w => mkBoard ((k, p) :: bd_cache w) (bd_set w) (bd_down w) (bd_rows w));
}.
#[export] Program Instance board_table : NotificationTable board := {
  notifications := bd_rows;
  set_notifications rows w := mkBoard (bd_cache w) (bd_set w) (bd_down w) rows;
}.
Next Obligation. done. Qed.
#[local] Instance plain_re : Re := { re_compile p := Ok (startswith p) }.

Definition board_comparison : status_comparison board :=
  mkStatusComparison board 5 "abc" (Some "main") None true "https://app.codecov.io/gh/o/r/pull/1" (Some []) [] TcNone []
    (fun _ => mret (mkComparison "abc" None None None false
       (Some (mkTotals 1 4 1 3 0 (TcStr "25.00000") 0 0 0 1 (Some 0) (Some 0) (VInt 0))) None None [] true)).
Definition patch_notifier (settings : odict string pyval) : Notifier board :=
  StatusNotifier PATCH "default" settings (VDict []) standard None board_comparison.
Definition failing_settings : odict string pyval := [("target", VStr "80%")].

(** A status that could not be sent because the provider was down is not sent later:
    the payload was saved before, and nothing changed in it. *)
Example failed_status_not_retried :
  let down := mkBoard [] [] true [] in
  let '(first, w) := n_notify (patch_notifier failing_settings) None down in
  let up := mkBoard (bd_cache w) (bd_set w) false (bd_rows w) in
  let '(second, w) := n_notify (patch_notifier failing_settings) None up in
  (match first with inl r => explanation r | _ => None end, match second with inl r => explanation r | _ => None end, bd_set w)
  = (Some "server_side_error_provider", Some "payload_unchanged", []).
Proof. vm_compute. reflexivity. Qed.

Example failing_status_is_set :
  bd_set (n_notify (patch_notifier failing_settings) None (mkBoard [] [] false [])).2 = [("codecov/patch", VStr "failure")].
Proof. vm_compute. reflexivity. Qed.
Example informational_status_is_set :
  bd_set (n_notify (patch_notifier (("informational", VBool true) :: failing_settings)) None (mkBoard [] [] false [])).2
  = [("codecov/patch", VStr "success")].
Proof. vm_compute. reflexivity. Qed.

(** The row of a notification that is updated keeps the app it had: here none, though
    the notification now succeeded with one. *)
Example app_of_the_first_attempt :
  let cs := mkCommits (Some 9) (Some (Some 9)) in
  let failed := create_or_update cs checks_patch standard None [] in
  map cn_gh_app_id (create_or_update cs checks_patch standard (Some (mkNResult true (Some true) None None None (Some 77))) failed)
  = [None].
Proof. reflexivity. Qed.

Definition success_only (w : board) : Prop := Forall (fun ts => ts.2 = VStr "success") (bd_set w).

Lemma informational_never_fails_witness :
  truthy_setting (("informational", VBool true) :: failing_settings) "informational" = true /\
  success_only (n_notify (patch_notifier (("informational", VBool true) :: failing_settings)) None (mkBoard [] [] false [])).2.
Proof.
  split; [reflexivity|].
  refine (informational_never_fails PATCH "default" (("informational", VBool true) :: failing_settings) (VDict []) standard None
    board_comparison success_only eq_refl _ _ _ _ _ (mkBoard [] [] false []) _).
  - intros sha w Hw. exact Hw.
  - intros k w Hw. exact Hw.
  - intros k p w Hw. exact Hw.
  - intros f w Hw. exact Hw.
  - intros sha name description url coverage w Hw. cbn. destruct (bd_down w); cbn; [exact Hw|].
    apply Forall_app. split; [exact Hw|]. constructor; [reflexivity|constructor].
  - constructor.
Defined.

(** A notifier that always raises between two that do not. *)
Definition raising : Notifier board :=
  mkNotifier "webhook" "hook" webhook standard true (fun _ => raise (Raised TypeError)) (fun _ => mret tt).
Definition posting (t : Notification) : Notifier board :=
  mkNotifier "slack" "chat" t standard true (fun _ => mret (mkNResult true (Some true) None None None None)) (fun _ => mret tt).

Lemma every_notifier_runs_witness :
  Forall calm [raising; posting slack; posting status_patch] /\
  exists results w',
    service_notify true (mkCommits (Some 9) (Some (Some 9))) [raising; posting slack; posting status_patch] (mkBoard [] [] false [])
      = (inl results, w') /\
    map ir_notifier results = ["slack"; "webhook"; "slack"] /\
    state_in 9 webhook (notifications w') = Some error_state /\ state_in 9 slack (notifications w') = Some success_state.
Proof.
  assert (Hc : Forall calm [raising; posting slack; posting status_patch]) by (repeat constructor; reflexivity).
  split; [exact Hc|].
  pose proof (every_notifier_runs (mkCommits (Some 9) (Some (Some 9))) 9 _ (mkBoard [] [] false []) Hc eq_refl) as Hrun.
  destruct (service_notify true _ _ _) as [[results|f] w'] eqn:E; [|vm_compute in E; discriminate E].
  destruct Hrun as (rs & w1 & rs' & _ & _ & _ & Hnames & _). exists results, w'. split; [reflexivity|]. split.
  - apply (f_equal (map fst)) in Hnames. rewrite !map_map in Hnames. exact Hnames.
  - vm_compute in E. injection E as _ <-. split; reflexivity.
Defined.
