(* ===== verification/CommentNotifier.v ===== *)
(** * The comment on a pull request

    [apps/worker/services/notification/notifiers/comment/]: the conditions of
    [conditions.py], and [CommentNotifier], which edits, posts or deletes the comment.
    The body of a full comment ([mixins/message]) and the tracking parameters of the
    links in it are given. *)
From S2P Require Export Notifiers Status Validation.

#[local] Open Scope string_scope.
#[local] Open Scope list_scope.
#[local] Open Scope Z_scope.

(** ** What the notifier works with *)

(** A pull in the database; its [commentid] is state, see [PullComment]. *)
Record PullView : Type := mkPullView { pv_pullid : Z; pv_head : string; pv_is_first_coverage_pull : bool }.

Record comment_comparison (W : Type) : Type := mkCommentComparison {
  cc_pull : option PullView;
  cc_provider_pull : bool;                      (* the provider knows the pull *)
  cc_author_username : string; cc_members_url : string; cc_plan_url : string;
  cc_head_commitid : string;
  cc_head_sessions : option Z;                  (* of the head's report, when it has one *)
  cc_head_coverage : tcov;
  cc_base_coverage : option tcov;               (* of the base's report, when it has one *)
  cc_changes : prog W (option (list Change));   (* [get_changes()] *)
  cc_diff_lines : prog W (option Z);            (* the lines of [calculate_diff(get_diff())] *)
  cc_patch_totals : prog W (option ReportTotals);  (* [apply_diff(get_diff(use_original_base=True))] *)
}.
Arguments cc_pull {W}. Arguments cc_provider_pull {W}. Arguments cc_author_username {W}. Arguments cc_members_url {W}.
Arguments cc_plan_url {W}. Arguments cc_head_commitid {W}. Arguments cc_head_sessions {W}. Arguments cc_head_coverage {W}.
Arguments cc_base_coverage {W}. Arguments cc_changes {W}. Arguments cc_diff_lines {W}. Arguments cc_patch_totals {W}.

(** The provider's comments on the pull, each under its id, and the id the pull has.  A
    number stands for the id, which Bitbucket Server writes as a text. *)
Class CommentServices (W : Type) : Type := {
  post_comment : Z -> string -> prog W Z;
  edit_comment : Z -> Z -> string -> prog W Z;
  delete_comment : Z -> Z -> prog W unit;
  commentid : W -> option Z;
  set_commentid : option Z -> W -> W;
}.

(** [if commentid] *)
Definition some_id (i : option Z) : option Z := match i with Some 0 => None | _ => i end.

(** What a notifier knows besides the comparison. *)
Record comment_env : Type := mkCommentEnv {
  ce_settings : pyval; ce_current_yaml : pyval; ce_decoration : Decoration; ce_plan_auto_activate : option bool;
  ce_requires_license : bool; ce_project_coverage_cta : bool;
}.

(** [should_see_project_coverage_cta] *)
Definition introduction_date : Z := 1714521600 * 1000000.
Definition should_see_project_coverage_cta (private : bool) (plan : option string) (createstamp : option Z) : bool :=
  match createstamp with
  | None => false
  | Some t =>
      if negb private && (introduction_date <? t) then true
      else negb (bool_decide (plan ∈ [Some "users-teamm"; Some "users-teamy"])) && (introduction_date <? t)
  end.

Section notifier.
Context {W : Type} `{CommentServices W}.
Variable env : comment_env.

Definition setting_or (k : string) (dflt : pyval) : result pyval := dict_get (ce_settings env) k dflt.

(** ** [conditions.py] *)

Definition ComparisonHasPull (c : comment_comparison W) : prog W bool := mret (bool_decide (is_Some (cc_pull c))).
Definition PullRequestInProvider (c : comment_comparison W) : prog W bool := mret (cc_provider_pull c).
Definition PullHeadMatchesComparisonHead (c : comment_comparison W) : prog W bool :=
  match cc_pull c with
  | Some p => mret (bool_decide (pv_head p = cc_head_commitid c))
  | None => raise (Raised AttributeError)
  end.

Definition HasEnoughBuilds (c : comment_comparison W) : prog W bool :=
  expected ← lift (setting_or "after_n_builds" (VInt 0));
  match cc_head_sessions c, expected with
  | None, _ => raise (Raised AttributeError)
  | Some present, VInt n => mret (n <=? present)
  | Some present, VBool b => mret ((if b then 1 else 0) <=? present)
  | _, _ => raise (Raised TypeError)
  end.

Definition _check_unexpected_changes (c : comment_comparison W) : prog W bool :=
  changes ← cc_changes c; mret (negb (bool_decide (length (default [] changes) = 0%nat))).

Definition _check_coverage_change (c : comment_comparison W) : prog W bool :=
  lines ← cc_diff_lines c; mret (match lines with Some n => 0 <? n | None => false end).

Definition _check_any_change (c : comment_comparison W) : prog W bool :=
  unexpected ← _check_unexpected_changes c; changed ← _check_coverage_change c; mret (unexpected || changed).

(** [Decimal(x).quantize(Decimal("0.00000"))] *)
Definition quantized (t : tcov) : result decimal := d ← dec_of_tcov t; quantize ROUND_HALF_EVEN d (-5).

(** [Decimal(0.01)] *)
Definition one_hundredth : decimal := dec_of_float (rnd false 1 100).

(** [Decimal(value)] of a setting. *)
Definition dec_of_value (v : pyval) : result decimal :=
  match v with
  | VBool b => Ok (dec_of_Z (if b then 1 else 0))
  | VInt n => Ok (dec_of_Z n)
  | VFloat f => Ok (dec_of_float f)
  | VStr s => dec_of_str s
  | VList _ => Err ValueError
  | VNone | VDict _ => Err TypeError
  end.

(** The threshold is looked up among the statuses of the project, by their titles. *)
Definition comment_threshold : result decimal :=
  project ← read_yaml_field (ce_current_yaml env) ["coverage"; "status"; "project"] (VDict []);
  match project with
  | VDict d => dec_of_value (default (VInt 0) (od_get "threshold" d))
  | _ => Ok (dec_of_Z 0)
  end.

Definition _check_coverage_drop (c : comment_comparison W) : prog W bool :=
  match cc_head_coverage c, cc_base_coverage c with
  | TcNone, _ => match cc_head_sessions c with Some _ => mret true | None => raise (Raised AttributeError) end
  | _, (None | Some TcNone) => mret true
  | head, Some base =>
      lift (head_coverage ← quantized head;
            threshold ← comment_threshold;
            target_coverage ← quantized base;
            let diff := dec_sub head_coverage target_coverage in
            Ok (dec_ltb diff (dec_of_Z 0) && dec_leb (dec_add threshold one_hundredth) (dec_neg diff)))
  end.

(** [abs] of a decimal. *)
Definition dec_abs (d : decimal) : decimal := if dec_ltb d (dec_of_Z 0) then dec_neg d else d.

Definition _check_uncovered_patch (c : comment_comparison W) : prog W bool :=
  totals ← cc_patch_totals c;
  match totals with
  | None => mret false
  | Some t =>
      if rt_lines t =? 0 then mret false
      else lift (coverage ← quantized (rt_coverage t);
                 hundred ← quantize ROUND_HALF_EVEN (dec_of_Z 100) (-5);
                 Ok (dec_leb one_hundredth (dec_abs (dec_sub coverage hundred))))
  end.

Definition individual (group bit : Z) (check : comment_comparison W -> prog W bool) (c : comment_comparison W) (final : bool) : prog W bool :=
  if Z.land group bit =? 0 then mret final else r ← check c; mret (final || r).

Definition check_condition_OR_group (group : Z) (c : comment_comparison W) : prog W bool :=
  if group =? no_requirements then mret true
  else
    r ← individual group any_change _check_any_change c false;
    r ← individual group coverage_drop _check_coverage_drop c r;
    individual group uncovered_patch _check_uncovered_patch c r.

Fixpoint all_groups (groups : list pyval) (c : comment_comparison W) : prog W bool :=
  match groups with
  | [] => mret true
  | VInt g :: groups => r ← check_condition_OR_group g c; if (r : bool) then all_groups groups c else mret false
  | _ => raise (Raised TypeError)
  end.

Definition HasEnoughRequiredChanges (c : comment_comparison W) : prog W bool :=
  id ← read commentid;
  match cc_pull c, some_id id with
  | Some _, Some _ => mret true
  | _, _ =>
      required_changes ← lift (setting_or "require_changes" (VList [VInt no_requirements]));
      match required_changes with
      | VBool b => all_groups [VInt (if b then 1 else 0)] c
      | VList l => all_groups l c
      | _ => raise (Raised TypeError)
      end
  end.

Definition NoAutoActivateMessageIfAutoActivateIsOff (c : comment_comparison W) : prog W bool :=
  mret (negb (bool_decide (ce_plan_auto_activate env = Some false)) || negb (bool_decide (ce_decoration env = upgrade))).

(** The conditions in their order, each with its [failure_explanation]. *)
Definition notify_conditions : list (string * (comment_comparison W -> prog W bool)) :=
  [("no_pull_request", ComparisonHasPull);
   ("pull_request_not_in_provider", PullRequestInProvider);
   ("pull_head_does_not_match", PullHeadMatchesComparisonHead);
   ("not_enough_builds", HasEnoughBuilds);
   ("changes_required", HasEnoughRequiredChanges);
   ("auto_activate_message_but_auto_activate_is_off", NoAutoActivateMessageIfAutoActivateIsOff)].

Fixpoint first_failure (conditions : list (string * (comment_comparison W -> prog W bool))) (c : comment_comparison W) :
    prog W (option string) :=
  match conditions with
  | [] => mret None
  | (why, check) :: conditions => r ← check c; if (r : bool) then first_failure conditions c else mret (Some why)
  end.

(** ** The message *)

Definition _create_upgrade_message (c : comment_comparison W) : list string :=
  if ce_requires_license env then
    ["The author of this PR, " +:+ cc_author_username c +:+ ", is not activated in your Codecov Self-Hosted installation.";
     "Please [activate this user](" +:+ cc_members_url c +:+ ") to display this PR comment.";
     "Coverage data is still being uploaded to Codecov Self-Hosted for the purposes of overall coverage calculations.";
     "Please contact your Codecov On-Premises installation administrator with any questions."]
  else
    ["The author of this PR, " +:+ cc_author_username c +:+ ", is not an activated member of this organization on Codecov.";
     "Please [activate this user on Codecov](" +:+ cc_members_url c +:+ ") to display this PR comment.";
     "Coverage data is still being uploaded to Codecov.io for purposes of overall coverage calculations.";
     "Please don't hesitate to email us at support@codecov.io with any questions."].

Definition _create_processing_upload_message : list string :=
  ["We're currently processing your upload.  This comment will be updated when the results are available."].

Definition _create_empty_upload_message : list string :=
  if bool_decide (ce_decoration env = passing_empty_upload) then
    ["## Codecov Report";
     ":heavy_check_mark: **No coverage data to report**, because files changed do not require tests or are set to [ignore](https://docs.codecov.com/docs/ignoring-paths#:~:text=You%20can%20use%20the%20top,will%20be%20skipped%20during%20processing.) "]
  else
    ["## Codecov Report"; "This is an empty upload";
     "Files changed in this PR are testable or aren't ignored by Codecov, please run your tests and upload coverage. If you wish to ignore these files, please visit our [ignoring paths docs](https://docs.codecov.com/docs/ignoring-paths)."].

Definition _create_reached_upload_limit_message (c : comment_comparison W) : list string :=
  ["## [Codecov](" +:+ cc_plan_url c +:+ ") upload limit reached :warning:";
   "This org is currently on the free Basic Plan; which includes 250 free private repo uploads each rolling month.                 This limit has been reached and additional reports cannot be generated. For unlimited uploads,                      upgrade to our [pro plan](" +:+ cc_plan_url c +:+ ").";
   "";
   "**Do you have questions or need help?** Connect with our sales team today at ` sales@codecov.io `"].

Definition welcome_message : list string :=
  ["## Welcome to [Codecov](https://codecov.io) :tada:"; "";
   "Once you merge this PR into your default branch, you're all set! Codecov will compare coverage reports and display results in all future pull requests.";
   ""; "Thanks for integrating Codecov - We've got you covered :open_umbrella:"].
Definition project_coverage_cta : list string :=
  [":information_source: You can also turn on [project coverage checks](https://docs.codecov.com/docs/common-recipe-list#set-project-coverage-checks-on-a-pull-request) and [project coverage reporting on Pull Request comment](https://docs.codecov.com/docs/common-recipe-list#show-project-coverage-changes-on-the-pull-request-comment)";
   ""].
Definition _create_welcome_message : list string :=
  if ce_project_coverage_cta env then take 4 welcome_message ++ project_coverage_cta ++ drop 4 welcome_message
  else welcome_message.

(** [create_message] of the mixin. *)
Variable create_message : option helper_text -> prog W (list string).

Definition build_message (c : comment_comparison W) (p : PullView) (text : option helper_text) : prog W (list string) :=
  match ce_decoration env with
  | upgrade => mret (_create_upgrade_message c)
  | processing_upload => mret _create_processing_upload_message
  | passing_empty_upload | failing_empty_upload => mret _create_empty_upload_message
  | upload_limit => mret (_create_reached_upload_limit_message c)
  | standard => if pv_is_first_coverage_pull p then mret _create_welcome_message else create_message text
  end.

(** ** Sending it *)

Definition done (id : Z) : NotificationResult := mkNResult true (Some true) None None (Some [("id", VInt id)]) None.
Definition refused (attempted : bool) (successful : option bool) (why : string) : NotificationResult :=
  mkNResult attempted successful (Some why) None None None.

(** [except TorngitObjectNotFoundError: ... except TorngitClientError: ...] *)
Definition except_not_found {A} (m : prog W A) (not_found other : prog W A) : prog W A :=
  try_except m (fun f =>
    match f with
    | Torngit TorngitObjectNotFoundError => Some not_found
    | Torngit e => if is_client_error e then Some other else None
    | _ => None
    end).

Definition post (pullid : Z) (message : string) : prog W NotificationResult :=
  id ← post_comment pullid message; mret (done id).
Definition post_or_refuse (pullid : Z) (message : string) : prog W NotificationResult :=
  except_client (post pullid message) (fun _ => mret (refused true (Some false) "comment_posting_permissions")).
Definition edit (pullid id : Z) (message : string) : prog W NotificationResult :=
  id ← edit_comment pullid id message; mret (done id).

Definition send_comment_default_behavior (pullid : Z) (id : option Z) (message : string) : prog W NotificationResult :=
  match some_id id with
  | Some id => except_not_found (edit pullid id message) (post_or_refuse pullid message) (post_or_refuse pullid message)
  | None => post_or_refuse pullid message
  end.

Definition send_comment_once_behavior (pullid : Z) (id : option Z) (message : string) : prog W NotificationResult :=
  match some_id id with
  | Some id => except_not_found (edit pullid id message) (mret (refused false None "comment_deleted"))
                 (mret (refused true (Some false) "no_permissions"))
  | None => post pullid message
  end.

Definition send_comment_new_behavior (pullid : Z) (id : option Z) (message : string) : prog W NotificationResult :=
  match some_id id with
  | Some id =>
      deleted ← except_not_found (_ ← delete_comment pullid id; mret true) (mret true) (mret false);
      if (deleted : bool) then post_or_refuse pullid message
      else mret (refused true (Some false) "no_permissions")
  | None => post_or_refuse pullid message
  end.

Definition send_comment_spammy_behavior (pullid : Z) (id : option Z) (message : string) : prog W NotificationResult :=
  post pullid message.

Definition with_data (data : odict string pyval) (r : NotificationResult) : NotificationResult :=
  mkNResult (notification_attempted r) (notification_successful r) (explanation r) (Some data) (data_received r) (github_app_used r).

Variable append_tracking_params_to_urls : string -> string.

Definition message_data (message : list string) (id : option Z) (pullid : Z) : odict string pyval :=
  [("message", VList (map VStr message)); ("commentid", match id with Some i => VInt i | None => VNone end);
   ("pullid", VInt pullid)].

(** A behavior that is none of the four leaves [res] without a value. *)
Definition send_actual_notification (message : list string) (id : option Z) (pullid : Z) : prog W NotificationResult :=
  let text := append_tracking_params_to_urls (join nl message) in
  behavior ← lift (setting_or "behavior" (VStr "default"));
  res ← (if bool_decide (behavior = VStr "default") then send_comment_default_behavior pullid id text
         else if bool_decide (behavior = VStr "once") then send_comment_once_behavior pullid id text
         else if bool_decide (behavior = VStr "new") then send_comment_new_behavior pullid id text
         else if bool_decide (behavior = VStr "spammy") then send_comment_spammy_behavior pullid id text
         else raise (Raised PlainException));
  mret (with_data (message_data message id pullid) res).

Definition provider_issue (data : odict string pyval) (f : fault) : option (prog W NotificationResult) :=
  match f with
  | Torngit e => if is_server_failure e
                 then Some (mret (mkNResult true (Some false) (Some "provider_issue") (Some data) None None)) else None
  | _ => None
  end.

Definition comment_notify (c : comment_comparison W) (text : option helper_text) : prog W NotificationResult :=
  failure ← first_failure notify_conditions c;
  match failure, cc_pull c with
  | Some why, _ => mret (result_merge (mkNResult false (Some false) (Some why) None None None) empty_result)
  | None, None => raise (Raised AttributeError)
  | None, Some p =>
      built ← except_client (m ← build_message c p text; mret (Some m)) (fun _ => mret None);
      match built with
      | None => mret (mkNResult false (Some false) (Some "unable_build_message") None None None)
      | Some message =>
          id ← read commentid;
          try_except (send_actual_notification message id (pv_pullid p)) (provider_issue (message_data message id (pv_pullid p)))
      end
  end.

(** [store_results] *)
Definition comment_store_results (r : NotificationResult) : prog W unit :=
  if negb (notification_attempted r) || negb (succeeded r) then mret tt
  else match data_received r with
       | Some d =>
           if truthy (default VNone (od_get "id" d)) then
             match od_get "id" d with Some (VInt i) => modify (set_commentid (Some i)) | _ => raise (Raised Unmodelled) end
           else if truthy (default VNone (od_get "deleted_comment" d)) then modify (set_commentid None) else mret tt
       | None => mret tt
       end.

Definition CommentNotifier (c : comment_comparison W) : Notifier W :=
  mkNotifier "comment" "comment" comment (ce_decoration env)
    (match ce_settings env with VDict (_ :: _) => true | _ => false end) (comment_notify c) comment_store_results.
End notifier.

(** * One comment per pull request

    Whatever the behavior the settings ask for (but [spammy]), the comments Codecov has
    on a pull are at every time at most the one the database knows, and a successful
    notification leaves exactly one, with the text that was sent; a provider that fails
    in the middle of a call may keep one comment more. *)

#[local] Open Scope string_scope.
#[local] Open Scope list_scope.
#[local] Open Scope Z_scope.

(** A call that the provider refuses, with a client error (a status of 400 to 499). *)
Definition refusal (f : fault) : bool := match f with Torngit e => is_client_error e | _ => false end.

(** An edited comment may get another id, as with the versions of Bitbucket Server. *)
Definition edited (cs : gmap Z string) (id : Z) (m : string) (id' : Z) (cs' : gmap Z string) : Prop :=
  id' <> 0 /\ (id' = id \/ cs !! id' = None) /\ cs' = <[id' := m]> (delete id cs).

(** What is relied on of a provider: a call that it refuses changes nothing, and it says
    that a comment was not found only when there is none; a call that fails in another
    way (an error of the server, a timeout) may have been carried out or not; ids are
    not reused. *)
Class CommentLaws (W : Type) `{CommentServices W} : Type := {
  comments : W -> gmap Z string;
  post_law : forall p m w,
    match post_comment p m w with
    | (inl id, w') => id <> 0 /\ comments w !! id = None /\ comments w' = <[id := m]> (comments w) /\ commentid w' = commentid w
    | (inr f, w') => commentid w' = commentid w /\
        (comments w' = comments w \/
         refusal f = false /\ exists id, comments w !! id = None /\ comments w' = <[id := m]> (comments w))
    end;
  edit_law : forall p id m w,
    match edit_comment p id m w with
    | (inl id', w') => edited (comments w) id m id' (comments w') /\ commentid w' = commentid w
    | (inr f, w') => commentid w' = commentid w /\ (f = Torngit TorngitObjectNotFoundError -> comments w !! id = None) /\
        (comments w' = comments w \/ refusal f = false /\ exists id', edited (comments w) id m id' (comments w'))
    end;
  delete_law : forall p id w,
    match delete_comment p id w with
    | (inl _, w') => comments w' = delete id (comments w) /\ commentid w' = commentid w
    | (inr f, w') => commentid w' = commentid w /\ (f = Torngit TorngitObjectNotFoundError -> comments w !! id = None) /\
        (comments w' = comments w \/ refusal f = false /\ comments w' = delete id (comments w))
    end;
  set_commentid_law : forall i w, commentid (set_commentid i w) = i /\ comments (set_commentid i w) = comments w;
}.

(** The comments after a call that was not carried out, or carried out in part: those
    there were or none, and at most one more with the text. *)
Definition kept (cs cs' : gmap Z string) : Prop := cs' = cs \/ cs' = ∅.
Definition unsure (cs : gmap Z string) (m : string) (cs' : gmap Z string) : Prop :=
  exists cs0, kept cs cs0 /\ (cs' = cs0 \/ exists id, cs0 !! id = None /\ cs' = <[id := m]> cs0).

Section one_comment.
Context {W : Type} `{CommentLaws W}.

(** The comments are those, and the pull has this id. *)
Definition at_ (cs : gmap Z string) (i : option Z) (w : W) : Prop := comments w = cs /\ commentid w = i.

(** A program that neither comments nor changes the id. *)
Definition quiet {A} (m : prog W A) : Prop := forall cs i, preserves (at_ cs i) m.





Lemma only_insert (cs : gmap Z string) id m : (forall id', is_Some (cs !! id') -> id' = id) -> <[id := m]> cs = {[id := m]}.
Proof.
  intros Ho. apply map_eq. intros k. destruct (decide (k = id)) as [->|Hne].
  - by rewrite lookup_insert_eq, lookup_singleton_eq.
  - rewrite lookup_insert_ne, lookup_singleton_ne by done. destruct (cs !! k) eqn:Hk; [|done].
    destruct Hne. apply Ho. by rewrite Hk.
Qed.



(** ** Sending *)

(** What a notification that was sent leaves: the new comment alone, whose id is the
    answer; or nothing more than there was, unless the provider failed. *)
Definition outcome (cs : gmap Z string) (i : option Z) (m : string) (r : NotificationResult + fault) (w : W) : Prop :=
  commentid w = i /\
  match r with
  | inl res =>
      if succeeded res then
        notification_attempted res = true /\
        exists id, id <> 0 /\ data_received res = Some [("id", VInt id)] /\ comments w = {[id := m]}
      else kept cs (comments w)
  | inr f => kept cs (comments w) \/ refusal f = false /\ unsure cs m (comments w)
  end.

Lemma kept_refl cs : kept cs cs.
Proof. by left. Qed.


Lemma raised_outcome cs i m f w : at_ cs i w -> outcome cs i m (inr f) w.
Proof. intros [<- Hi]. split; [done|]. left. apply kept_refl. Qed.










(** ** The whole notification *)

Variable env : comment_env.
Variable create_message : option helper_text -> prog W (list string).
Variable append : string -> string.
Variable c : comment_comparison W.
Hypothesis create_message_quiet : forall t, quiet (create_message t).
Hypothesis changes_quiet : quiet (cc_changes c).
Hypothesis diff_quiet : quiet (cc_diff_lines c).
Hypothesis patch_quiet : quiet (cc_patch_totals c).

Lemma lift_quiet {A} (r : result A) : quiet (lift r).
Proof. intros cs i. apply preserves_lift. Qed.






Definition behavior : result pyval := setting_or env "behavior" (VStr "default").








End one_comment.


(** ** A concrete provider *)

(** The comments, the id of the pull and the next id; [shut] refuses every change of
    a comment that is there with code 403. *)
Record demo : Type := mkDemo { dm_comments : gmap Z string; dm_commentid : option Z; dm_next : Z; dm_shut : bool }.

Definition next_id (w : demo) : Z := 1 + Z.max (dm_next w) (foldr Z.max 0 (elements (dom (dm_comments w)))).

#[export] Instance demo_services : CommentServices demo := {
  post_comment _ m w := (inl (next_id w), mkDemo (<[next_id w := m]> (dm_comments w)) (dm_commentid w) (next_id w) (dm_shut w));
  edit_comment _ id m w :=
    match dm_comments w !! id with
    | None => (inr (Torngit TorngitObjectNotFoundError), w)
    | Some _ => if dm_shut w || (id =? 0) then (inr (Torngit (TorngitClientGeneralError 403)), w)
                else (inl id, mkDemo (<[id := m]> (dm_comments w)) (dm_commentid w) (dm_next w) (dm_shut w))
    end;
  delete_comment _ id w :=
    match dm_comments w !! id with
    | None => (inr (Torngit TorngitObjectNotFoundError), w)
    | Some _ => if dm_shut w then (inr (Torngit (TorngitClientGeneralError 403)), w)
                else (inl tt, mkDemo (delete id (dm_comments w)) (dm_commentid w) (dm_next w) (dm_shut w))
    end;
  commentid := dm_commentid;
  set_commentid i w := mkDemo (dm_comments w) i (dm_next w) (dm_shut w);
}.

Lemma foldr_max_le (x : Z) l : x ∈ l -> x <= foldr Z.max 0 l.
Proof. induction l as [|y l IH]; cbn; [set_solver|]. intros [->|Hx]%elem_of_cons; [lia|]. specialize (IH Hx). lia. Qed.

Lemma foldr_max_nonneg l : 0 <= foldr Z.max 0 l.
Proof. induction l; cbn; lia. Qed.

Lemma next_id_fresh w : dm_comments w !! next_id w = None /\ 1 <= next_id w.
Proof.
  pose proof (foldr_max_nonneg (elements (dom (dm_comments w)))). split; [|unfold next_id; lia].
  apply not_elem_of_dom. intros Hin. apply elem_of_elements, foldr_max_le in Hin. unfold next_id in Hin. lia.
Qed.

#[export] Program Instance demo_laws : CommentLaws demo := { comments := dm_comments }.
Next Obligation. intros p m w. cbn. destruct (next_id_fresh w) as [Hn Hle]. split_and!; [lia|done..]. Qed.
Next Obligation.
  intros p id m w. cbn. destruct (dm_comments w !! id) eqn:E; [|by split_and!; auto].
  destruct (dm_shut w || (id =? 0)) eqn:Hs; [split_and!; [done | done | by left]|].
  apply orb_false_iff in Hs as [_ Hid%Z.eqb_neq]. cbn. split; [|done]. split_and!; [done | by left |]. by rewrite insert_delete_eq.
Qed.
Next Obligation. intros p id w. cbn. destruct (dm_comments w !! id); [|by split_and!; auto]. destruct (dm_shut w); by split_and!; auto. Qed.
Next Obligation. done. Qed.

Definition demo_comparison : comment_comparison demo :=
  mkCommentComparison demo (Some (mkPullView 7 "abc" false)) true "author" "members" "plan" "abc" (Some 2)
    (TcStr "85.00000") (Some (TcStr "86.00000")) (mret None) (mret (Some 3)) (mret None).
Definition demo_env (settings : odict string pyval) : comment_env :=
  mkCommentEnv (VDict settings) (VDict []) standard None false false.
Definition demo_notify (settings : odict string pyval) : prog demo NotificationResult :=
  res ← comment_notify (demo_env settings) (fun _ => mret ["coverage"; "is 85%"]) (fun s => s) demo_comparison None;
  _ ← comment_store_results res; mret res.

(** The first notification posts, the second edits. *)
Example posts_then_edits :
  let w := (demo_notify [("behavior", VStr "default")] (mkDemo ∅ None 0 false)).2 in
  (map_to_list (dm_comments w), dm_commentid w) = ([(1, "coverage" +:+ nl +:+ "is 85%")], Some 1)
  /\ map_to_list (dm_comments (demo_notify [("behavior", VStr "default")] w).2) = [(1, "coverage" +:+ nl +:+ "is 85%")].
Proof. split; vm_compute; reflexivity. Qed.

(** A comment that cannot be edited stays beside a new one. *)
Example not_editable_two_comments :
  size (dm_comments (demo_notify [("behavior", VStr "default")] (mkDemo {[4 := "old"]} (Some 4) 4 true)).2) = 2%nat.
Proof. vm_compute. reflexivity. Qed.

(** With the behavior [spammy] every notification posts. *)
Example spammy_two_comments :
  size (dm_comments (demo_notify [("behavior", VStr "spammy")] (mkDemo {[4 := "old"]} (Some 4) 4 false)).2) = 2%nat.
Proof. vm_compute. reflexivity. Qed.

(** A threshold of the status of the project changes nothing, the comment looks for
    it one level above: the coverage dropped by one point, less than the threshold. *)
Example threshold_not_read :
  let yaml := VDict [("coverage", VDict [("status", VDict [("project", VDict [("default", VDict [("threshold", VInt 5)])])])])] in
  (_check_coverage_drop (mkCommentEnv (VDict []) yaml standard None false false) demo_comparison (mkDemo ∅ None 0 false)).1
  = inl true.
Proof. vm_compute. reflexivity. Qed.

(** A project status named [threshold] is read for one, and cannot be. *)
Example threshold_is_a_title :
  let yaml := VDict [("coverage", VDict [("status", VDict [("project", VDict [("threshold", VDict [("target", VInt 5)])])])])] in
  (_check_coverage_drop (mkCommentEnv (VDict []) yaml standard None false false) demo_comparison (mkDemo ∅ None 0 false)).1
  = inr (Raised TypeError).
Proof. vm_compute. reflexivity. Qed.

(** Without a report of the head the conditions fail with an error. *)
Example no_head_report :
  (comment_notify (demo_env [("behavior", VStr "default")]) (fun _ => mret []) (fun s => s)
    (mkCommentComparison demo (Some (mkPullView 7 "abc" false)) true "a" "m" "p" "abc" None TcNone None (mret None) (mret None) (mret None))
    None (mkDemo ∅ None 0 false)).1 = inr (Raised AttributeError).
Proof. vm_compute. reflexivity. Qed.

