(* ===== verification/NotifyTask.v ===== *)
(** * The notify task

    [apps/worker/tasks/notify.py], with the filter of continuous-integration statuses
    of [services/commit_status.py]: whether a commit is notified now, later or not at
    all.  The provider's adapter, the fetching of the pull and the notifications
    themselves are programs of the environment. *)
From S2P Require Export Notifiers Changes CiStatus TestResults.
#[local] Open Scope string_scope.
#[local] Open Scope list_scope.
#[local] Open Scope Z_scope.

(** ** [services/commit_status.py] *)

Definition CI_CONTEXTS : list string :=
  ["ci"; "Codefresh"; "wercker"; "semaphoreci"; "pull request validator (cloudbees)"; "Taskcluster (pull_request)";
   "continuous-integration"; "buildkite"].
Definition CI_DOMAINS : list string := ["jenkins"; "codefresh"; "bitbucket"; "teamcity"; "buildkite"; "taskcluster"].
Definition CI_EXCLUDE : list string := ["styleci"].

Definition _ci_providers (providers : pyval) : result (list string) :=
  if negb (truthy providers) then Ok []
  else match providers with
       | VList l => traverse as_text l
       | VStr s => Ok (map strip (split "," s))
       | _ => Err AttributeError
       end.

Module RepositoryCIFilter.
Record t : Type := mkFilter { exclude : list string; include : list string }.

(** The first character of an entry, which cannot be empty. *)
Definition opens_negated (c : string) : result bool :=
  match c with EmptyString => Err IndexError | String a _ => Ok (bool_decide (a = "!"%char)) end.

Fixpoint sort_entries (ci : list string) : result (list string * list string) :=
  match ci with
  | [] => Ok ([], [])
  | c :: ci =>
      neg ← opens_negated c;
      '(ex, inc) ← sort_entries ci;
      Ok (if (neg : bool) then (str_drop 1 c :: ex, inc) else (ex, c :: inc))
  end.

Definition init (commit_yaml : pyval) (enterprise_defaults : list string) : result t :=
  ci ← read_yaml_field commit_yaml ["codecov"; "ci"] VNone;
  ci ← (if truthy ci then l ← as_list ci; traverse as_text l else Ok []);
  '(ex, inc) ← sort_entries (remove_dups (ci ++ filter (fun p => p <> "") enterprise_defaults));
  Ok (mkFilter (ex ++ CI_EXCLUDE) (inc ++ CI_DOMAINS)).

Definition meets (l : list string) (whole : string) (parts : list string) : bool :=
  bool_decide (whole ∈ l) || existsb (fun p => bool_decide (p ∈ l)) parts.

(** What an address or a context decides, when it decides. *)
Definition by_domain (f : t) (domain : string) : option bool :=
  if bool_decide (domain = "") then None
  else if meets (exclude f) domain (split "." domain) then Some false
  else if meets (include f) domain (split "." domain) then Some true
  else None.

Definition by_context (f : t) (context : string) : bool :=
  if bool_decide (context = "") then false
  else
    let contexts := split "/" context in
    if meets (exclude f) context contexts then false
    else if bool_decide (context ∈ include f) || existsb (fun p => bool_decide (p ∈ include f ++ CI_CONTEXTS)) contexts then true
    else str_contains "jenkins" (lower context) && negb (bool_decide ("jenkins" ∈ exclude f)).

Definition _filter (f : t) (url : option string) (s : ci_status) : bool :=
  let domain := nth 2 (split "/" (default "" url) ++ ["" : string; ""; ""]) "" in
  match by_domain f domain with Some b => b | None => by_context f (ci_context s) end.
End RepositoryCIFilter.

(** ** The task *)

(** The fetching of the provider's adapter. *)
Inductive service_lookup : Type :=
  | ServiceFound
  | RepositoryWithoutValidBot
  | NoConfiguredAppsAvailable (rate_limited_count seconds_to_next_hour : Z).

(** The pull of the commit: whether the database has it, and the head the provider gives it. *)
Record notify_pull : Type := mkNotifyPull { np_provider_head : option string }.

Record TestTotals : Type := mkTestTotals { tt_error : option string; tt_failed : Z }.

Inductive notify_outcome : Type :=
  | Returned (notified : bool) (notifications : option (list IndividualResult)) (reason : option string)
  | Retried (countdown : Z).
Definition not_notified (reason : string) : notify_outcome := Returned false None (Some reason).

Record notify_env (W : Type) : Type := mkNotifyEnv {
  ne_commitid : string; ne_retries : Z; ne_empty_upload : bool; ne_current_yaml : pyval;
  ne_enterprise_defaults : list string;
  ne_upcoming : bool;                    (* the lock of the upload processing is taken *)
  ne_lock_acquired : bool;
  ne_test_totals : option TestTotals;
  ne_service : service_lookup;
  ne_relies_on_webhook : bool;           (* see [relies_on_webhook] *)
  ne_statuses : prog W CiStatus.Status.t; ne_status_url : ci_status -> option string;
  ne_head_sessions : option Z;           (* of the head's report, when there is one *)
  ne_fetch_pull : prog W (option notify_pull);
  ne_gitlab_extra_shas : prog W (list string);
  ne_submit : prog W (list IndividualResult);   (* [submit_third_party_notifications] *)
}.
Arguments ne_commitid {W}. Arguments ne_retries {W}. Arguments ne_empty_upload {W}. Arguments ne_current_yaml {W}.
Arguments ne_enterprise_defaults {W}. Arguments ne_upcoming {W}. Arguments ne_lock_acquired {W}. Arguments ne_test_totals {W}.
Arguments ne_service {W}. Arguments ne_relies_on_webhook {W}. Arguments ne_statuses {W}. Arguments ne_status_url {W}.
Arguments ne_head_sessions {W}. Arguments ne_fetch_pull {W}. Arguments ne_gitlab_extra_shas {W}. Arguments ne_submit {W}.

(** What the task changes itself. *)
Class NotifyServices (W : Type) : Type := {
  commit_ci_passed : W -> option bool;
  set_ci_passed : option bool -> W -> W;
  schedule_status_set_error : string -> prog W unit;
  save_commit_error : string -> prog W unit;
}.

Definition relies_on_webhook (installations : list GithubAppInstallation) (installation_name : string) (r : Repository)
    (using_integration : bool) (hookid : option string) : bool :=
  existsb (fun i => bool_decide (gi_name i = installation_name) && GithubAppInstallationOps.is_configured_worker i
                    && GithubAppInstallationOps.is_repo_covered_by_integration i r) installations
  || using_integration || match hookid with Some h => negb (bool_decide (h = "")) | None => false end.

Section task.
Context {W : Type} `{NotifyServices W} `{Re}.
Variable env : notify_env W.

(** [self.retry]: one retry more has to be allowed. *)
Definition _attempt_retry (max_retries countdown : Z) : notify_outcome :=
  if ne_retries env + 1 <=? max_retries then Retried countdown else not_notified "too_many_retries".

Definition yaml_field (keys : list string) (dflt : pyval) : result pyval := read_yaml_field (ne_current_yaml env) keys dflt.

Definition ci_verdict (s : CiStatus.Status.t) : result (option bool) :=
  f ← RepositoryCIFilter.init (ne_current_yaml env) (ne_enterprise_defaults env);
  let ci_state := CiStatus.Status.filter_ (fun c => RepositoryCIFilter._filter f (ne_status_url env c) c) s in
  ci_state ← (if CiStatus.Status.__len__ ci_state =? 0 then Ok ci_state else CiStatus.Status.__sub__ ci_state "codecov*");
  Ok (CiStatus.Status.as_bool ci_state).

Definition fetch_and_update_whether_ci_passed : prog W (option bool) :=
  all_statuses ← ne_statuses env;
  ci_passed ← lift (ci_verdict all_statuses);
  before ← read commit_ci_passed;
  _ ← (if bool_decide (ci_passed = before) then mret tt else modify (set_ci_passed ci_passed));
  mret ci_passed.

Definition should_wait_longer (ci_results : option bool) : result bool :=
  wait_for_ci ← yaml_field ["codecov"; "notify"; "wait_for_ci"] (VBool true);
  Ok (truthy wait_for_ci && bool_decide (ci_results = None)).

Definition ci_failed (ci_passed : option bool) : result bool :=
  require_ci_to_pass ← yaml_field ["codecov"; "require_ci_to_pass"] (VBool true);
  Ok (truthy require_ci_to_pass && bool_decide (ci_passed = Some false)).

Definition enough_sessions : result bool :=
  after_n_builds ← yaml_field ["codecov"; "notify"; "after_n_builds"] VNone;
  if truthy after_n_builds then
    match after_n_builds with
    | VInt n => Ok (n <=? default 0 (ne_head_sessions env))
    | VBool b => Ok (1 <=? default 0 (ne_head_sessions env))
    | _ => Err TypeError
    end
  else Ok true.

Definition should_send_notifications (ci_passed : option bool) : prog W bool :=
  failed ← lift (ci_failed ci_passed);
  if (failed : bool) then _ ← schedule_status_set_error "CI failed."; mret false
  else lift enough_sessions.

Definition send_notifications_if_commit_differs_from_pulls_head (pull : notify_pull) : result bool :=
  match np_provider_head pull with
  | None => Ok true
  | Some head =>
      if bool_decide (head = ne_commitid env) then Ok true
      else
        wait_for_ci ← yaml_field ["codecov"; "notify"; "wait_for_ci"] (VBool true);
        manual_trigger ← yaml_field ["codecov"; "notify"; "manual_trigger"] VNone;
        after_n_builds ← yaml_field ["codecov"; "notify"; "after_n_builds"] VNone;
        Ok (negb (truthy wait_for_ci || truthy manual_trigger || truthy after_n_builds))
  end.

Definition stale_head : string :=
  "User doesnt want notifications warning them that current head differs from pull request most recent head.".

(** The part that runs when notifications should be sent. *)
Definition notify_pull_or_commit : prog W notify_outcome :=
  pull ← ne_fetch_pull env;
  current ← lift (match pull with Some p => send_notifications_if_commit_differs_from_pulls_head p | None => Ok true end);
  if negb current && negb (ne_empty_upload env) then mret (not_notified stale_head)
  else match ne_head_sessions env with
       | None => if ne_empty_upload env then
                   _ ← ne_gitlab_extra_shas env; ns ← ne_submit env; mret (Returned true (Some ns) None)
                 else mret (not_notified "no_head_report")
       | Some _ => _ ← ne_gitlab_extra_shas env; ns ← ne_submit env; mret (Returned true (Some ns) None)
       end.

Definition has_test_failures : bool :=
  match ne_test_totals env with
  | Some t => match tt_error t with Some "" | None => 0 <? tt_failed t | Some _ => false end
  | None => false
  end.

(** The verdict of continuous integration, or the reason not to notify. *)
Definition fetch_ci : prog W (option bool + string) :=
  try_except (r ← fetch_and_update_whether_ci_passed; mret (inl r))
    (fun f => match f with
              | Torngit e => if is_client_error e then Some (mret (inr "not_able_fetch_ci_result"))
                             else if is_server_failure e then Some (mret (inr "server_issues_ci_result")) else None
              | _ => None
              end).

Definition wait_for_ci_again : notify_outcome :=
  if ne_relies_on_webhook env then _attempt_retry 5 (60 * 3 * 2 ^ ne_retries env)
  else _attempt_retry 10 (15 * 2 ^ ne_retries env).

Definition run_impl_within_lock : prog W notify_outcome :=
  if has_test_failures then mret (not_notified "test_failures")
  else match ne_service env with
  | RepositoryWithoutValidBot => _ ← save_commit_error "repo_bot_invalid"; mret (not_notified "no_valid_bot")
  | NoConfiguredAppsAvailable rate_limited_count seconds =>
      mret (if 0 <? rate_limited_count then _attempt_retry 10 (60 `max` seconds)
            else not_notified "no_valid_github_app_found")
  | ServiceFound =>
      ci ← fetch_ci;
      match ci with
      | inr reason => mret (not_notified reason)
      | inl ci_results =>
          wait ← lift (should_wait_longer ci_results);
          if (wait : bool) then mret wait_for_ci_again
          else
            send ← should_send_notifications ci_results;
            if (send : bool) then notify_pull_or_commit else mret (Returned false None None)
      end
  end.

Definition run_impl : prog W notify_outcome :=
  if ne_upcoming env then mret (not_notified "has_other_notifies_coming")
  else if negb (ne_lock_acquired env) then mret (not_notified "unobtainable_lock")
  else run_impl_within_lock.

(** ** What the notifications are told of the tests *)

Definition get_ta_relevant_context (error : option ErrorPayload) : bool * option string :=
  let msg := error ≫= short_error_message in
  (match ne_test_totals env with Some t => bool_decide (msg = None) && (tt_failed t =? 0) | None => false end, msg).
End task.

(** [minimal_totals]: the coverage becomes a fraction. *)
Definition minimal_totals (totals : option ReportTotals) : result (Z * Z * Z * option b64) :=
  match totals with
  | None => Ok (0, 0, 0, None)
  | Some t =>
      coverage ← match rt_coverage t with
                 | TcNone => Ok None
                 | cov => f ← float_of_tcov cov; h ← f_of_Z 100; q ← f_div f h; Ok (Some q)
                 end;
      Ok (rt_hits t, rt_misses t, rt_partials t, coverage)
  end.

(** ** Pinning a commit to an app *)

Section pin.
Variable is_github : bool.

(** The app that is cached for the commit, else the first that notified with success. *)
Definition _possibly_refresh_previous_selection (installation_cached : option Z) (notifications : list CommitNotification) :
    option Z :=
  let successful := List.find (fun n => bool_decide (cn_gh_app_id n <> None) && bool_decide (cn_state n = success_state)) notifications in
  match installation_cached with
  | Some i => Some i
  | None => match successful ≫= cn_gh_app_id with Some 0 => None | o => o end
  end.

(** The cache after the call, and what it answers. *)
Definition _possibly_pin_commit_to_github_app (installation_cached : option Z) (notifications : list CommitNotification)
    (selected : option Z) : option Z * option Z :=
  if negb is_github then (installation_cached, None)
  else match _possibly_refresh_previous_selection installation_cached notifications with
       | Some i => (Some i, None)
       | None => match selected with Some i => (Some i, Some i) | None => (installation_cached, None) end
       end.
End pin.

(** ** When a commit is notified *)

(** All that the settings and the state of the commit ask for. *)
Record ready {W} (env : notify_env W) (ci : option bool) (pull : option notify_pull) : Prop := {
  ready_alone : ne_upcoming env = false /\ ne_lock_acquired env = true;
  ready_tests : forall t, ne_test_totals env = Some t -> tt_failed t <= 0 \/ exists e, tt_error t = Some e /\ e <> "";
  ready_service : ne_service env = ServiceFound;
  ready_ci_known : exists v, yaml_field env ["codecov"; "notify"; "wait_for_ci"] (VBool true) = Ok v /\
                             (truthy v = true -> ci <> None);
  ready_ci_passed : exists v, yaml_field env ["codecov"; "require_ci_to_pass"] (VBool true) = Ok v /\
                              (truthy v = true -> ci <> Some false);
  ready_builds : exists v, yaml_field env ["codecov"; "notify"; "after_n_builds"] VNone = Ok v /\
                           (truthy v = true -> exists n, (v = VInt n \/ v = VBool true /\ n = 1) /\
                                                         n <= default 0 (ne_head_sessions env));
  ready_head : forall p head, pull = Some p -> np_provider_head p = Some head -> head <> ne_commitid env ->
    exists waits manual builds,
      yaml_field env ["codecov"; "notify"; "wait_for_ci"] (VBool true) = Ok waits /\
      yaml_field env ["codecov"; "notify"; "manual_trigger"] VNone = Ok manual /\
      yaml_field env ["codecov"; "notify"; "after_n_builds"] VNone = Ok builds /\
      (ne_empty_upload env = true \/ truthy waits = false /\ truthy manual = false /\ truthy builds = false);
  ready_report : ne_head_sessions env <> None \/ ne_empty_upload env = true;
}.

(** The same in the terms of the task's own tests. *)
Record passes {W} (env : notify_env W) (ci : option bool) (pull : option notify_pull) : Prop := {
  passes_alone : ne_upcoming env = false /\ ne_lock_acquired env = true;
  passes_tests : has_test_failures env = false;
  passes_service : ne_service env = ServiceFound;
  passes_ci_known : should_wait_longer env ci = Ok false;
  passes_ci_passed : ci_failed env ci = Ok false;
  passes_builds : enough_sessions env = Ok true;
  passes_head : exists b, match pull with
                          | Some p => send_notifications_if_commit_differs_from_pulls_head env p
                          | None => Ok true
                          end = Ok b /\ (b = true \/ ne_empty_upload env = true);
  passes_report : ne_head_sessions env <> None \/ ne_empty_upload env = true;
}.

Section passes.
Context {W : Type}.
Variable env : notify_env W.

Lemma passes_tests_iff : has_test_failures env = false <->
  forall t, ne_test_totals env = Some t -> tt_failed t <= 0 \/ exists e, tt_error t = Some e /\ e <> "".
Proof.
  unfold has_test_failures. destruct (ne_test_totals env) as [[err n]|]; [|done]. cbn. split.
  - intros Hf _ [= <-]. cbn. destruct err as [[|a e]|]; [left; lia|right; by eexists|left; lia].
  - intros Hf. destruct (Hf _ eq_refl) as [Hn|(e & He & Hne)]; cbn in *.
    + destruct err as [[|a e]|]; lia.
    + subst err. by destruct e.
Qed.

(** [field and flag], false. *)
Lemma field_and_false keys dflt (P : bool) :
  (v ← yaml_field env keys dflt; Ok (truthy v && P)) = Ok false <->
  exists v, yaml_field env keys dflt = Ok v /\ (truthy v = true -> P = false).
Proof.
  destruct (yaml_field env keys dflt) as [v|e]; cbn.
  - split; [intros [= Hv]; exists v; split; [done|]; destruct (truthy v); [by intros _|done]|].
    intros (v' & [= <-] & Hv). destruct (truthy v); [by rewrite Hv|done].
  - split; [done|]. by intros (v & ? & _).
Qed.

Lemma passes_builds_iff : enough_sessions env = Ok true <->
  exists v, yaml_field env ["codecov"; "notify"; "after_n_builds"] VNone = Ok v /\
    (truthy v = true -> exists n, (v = VInt n \/ v = VBool true /\ n = 1) /\ n <= default 0 (ne_head_sessions env)).
Proof.
  unfold enough_sessions. destruct (yaml_field env _ _) as [v|e]; cbn; [|split; [done|by intros (v & ? & _)]]. split.
  - intros Hv. exists v. split; [done|]. intros Ht. rewrite Ht in Hv. destruct v as [|[]|n| | | |]; try done; injection Hv as Hv.
    + exists 1. split; [by right|lia].
    + exists n. split; [by left|lia].
  - intros (v' & [= <-] & Hv). destruct (truthy v) eqn:Ht; [|done]. destruct (Hv eq_refl) as (n & [->|[-> ->]] & Hn); cbn in *; f_equal; lia.
Qed.

Lemma passes_head_iff pull :
  (exists b, match pull with Some p => send_notifications_if_commit_differs_from_pulls_head env p | None => Ok true end = Ok b
             /\ (b = true \/ ne_empty_upload env = true)) <->
  forall p head, pull = Some p -> np_provider_head p = Some head -> head <> ne_commitid env ->
    exists waits manual builds,
      yaml_field env ["codecov"; "notify"; "wait_for_ci"] (VBool true) = Ok waits /\
      yaml_field env ["codecov"; "notify"; "manual_trigger"] VNone = Ok manual /\
      yaml_field env ["codecov"; "notify"; "after_n_builds"] VNone = Ok builds /\
      (ne_empty_upload env = true \/ truthy waits = false /\ truthy manual = false /\ truthy builds = false).
Proof.
  destruct pull as [[[head|]]|]; cbn; [|split; [by intros _ p h [= <-]|by intros _; exists true; split; [|left]]..|].
  2: { split; [done|]. intros _. exists true. by split; [|left]. }
  unfold send_notifications_if_commit_differs_from_pulls_head; cbn. case_bool_decide as Hh.
  { split; [by intros _ p h [= <-] [= <-]|]. intros _. exists true. by split; [|left]. }
  split.
  - intros (b & Hb & Hor) p h [= <-] [= <-] _. revert Hb.
    destruct (yaml_field env _ (VBool true)) as [w|]; [cbn|done]. destruct (yaml_field env ["codecov"; "notify"; "manual_trigger"] _) as [m|];
      [cbn|done]. destruct (yaml_field env _ VNone) as [a|]; [cbn|done]. intros [= <-]. exists w, m, a. split_and!; [done..|].
    destruct Hor as [Hor|?]; [right|by left]. by destruct (truthy w), (truthy m), (truthy a).
  - intros Hall. destruct (Hall _ _ eq_refl eq_refl Hh) as (w & m & a & -> & -> & -> & Hor). cbn. eexists. split; [done|].
    destruct Hor as [?|(-> & -> & ->)]; [by right|by left].
Qed.

Lemma ready_passes ci pull : ready env ci pull <-> passes env ci pull.
Proof.
  split; intros [Ha Ht Hs Hk Hp Hb Hh Hr]; constructor; try done.
  - by apply passes_tests_iff.
  - apply field_and_false. destruct Hk as (v & Hv & Hk). exists v. split; [done|]. intros Htr. apply bool_decide_eq_false_2. by apply Hk.
  - apply field_and_false. destruct Hp as (v & Hv & Hp). exists v. split; [done|]. intros Htr. apply bool_decide_eq_false_2. by apply Hp.
  - by apply passes_builds_iff.
  - by apply passes_head_iff.
  - by apply passes_tests_iff.
  - apply field_and_false in Hk as (v & Hv & Hk). exists v. split; [done|]. intros Htr Hc. specialize (Hk Htr). by rewrite bool_decide_eq_true_2 in Hk.
  - apply field_and_false in Hp as (v & Hv & Hp). exists v. split; [done|]. intros Htr Hc. specialize (Hp Htr). by rewrite bool_decide_eq_true_2 in Hp.
  - by apply passes_builds_iff.
  - by apply passes_head_iff.
Qed.
End passes.

Section decision.
Context {W : Type} `{NotifyServices W} `{Re}.
Variable env : notify_env W.

Definition notified_with (ns : list IndividualResult) (r : notify_outcome + fault) : Prop :=
  r = inl (Returned true (Some ns) None).

Lemma attempt_retry_not_notified m cd ns : ~ notified_with ns (inl (_attempt_retry env m cd)).
Proof. unfold notified_with, _attempt_retry. by destruct (_ <=? _). Qed.

Lemma notify_pull_or_commit_spec pull shas ns w1 w2 w3 w4 :
  ne_fetch_pull env w1 = (inl pull, w2) -> ne_gitlab_extra_shas env w2 = (inl shas, w3) -> ne_submit env w3 = (inl ns, w4) ->
  notified_with ns (notify_pull_or_commit env w1).1 <->
  (exists b, match pull with Some p => send_notifications_if_commit_differs_from_pulls_head env p | None => Ok true end = Ok b
             /\ (b = true \/ ne_empty_upload env = true)) /\
  (ne_head_sessions env <> None \/ ne_empty_upload env = true).
Proof.
  intros Hp Hs Hn. unfold notified_with, notify_pull_or_commit, mbind, prog_bind. rewrite Hp. unfold lift.
  destruct (match pull with Some _ => _ | None => _ end) as [b|e]; [|split; [done|intros [(b & [=] & _) _]]].
  destruct (ne_empty_upload env) eqn:He.
  - rewrite andb_false_r. assert (Hok : (ne_gitlab_extra_shas env ≫= (fun _ => ne_submit env ≫= (fun ns => mret (Returned true (Some ns) None)))) w2
      = (inl (Returned true (Some ns) None), w4)) by by unfold mbind, prog_bind; rewrite Hs, Hn.
    unfold mbind, prog_bind in Hok. destruct (ne_head_sessions env); rewrite Hok; (split; [|done]); intros _; (split; [|by right]);
      exists b; (split; [done|by right]).
  - rewrite andb_true_r. destruct b; cbn [negb].
    + destruct (ne_head_sessions env).
      * rewrite Hs, Hn. split; [|done]. intros _. split; [by exists true; split; [|left]|by left].
      * split; [done|]. intros [_ [?|?]]; done.
    + split; [done|]. intros [(b & [= <-] & [?|?]) _]; done.
Qed.

Lemma fetch_ci_ok ci w w1 : fetch_and_update_whether_ci_passed env w = (inl ci, w1) -> fetch_ci env w = (inl (inl ci), w1).
Proof. intros Hci. unfold fetch_ci, try_except. by rewrite (run_bind _ _ _ _ _ Hci). Qed.

(** C25: when the calls of the task answer, the commit is notified exactly when no
    other upload is being processed, the lock was acquired, no test failed, the
    provider can be reached, its continuous integration is known where it is
    waited for and did not fail where it has to pass, there are as many builds as
    asked for, it is still the head of its pull where that matters, and there is
    a report or the upload is an empty one. *)
Theorem notify_decision ci pull shas ns w w1 w2 w3 w4 :
  fetch_and_update_whether_ci_passed env w = (inl ci, w1) -> ne_fetch_pull env w1 = (inl pull, w2) ->
  ne_gitlab_extra_shas env w2 = (inl shas, w3) -> ne_submit env w3 = (inl ns, w4) ->
  (run_impl env w).1 = inl (Returned true (Some ns) None) <-> ready env ci pull.
Proof.
  intros Hci Hp Hs Hn. rewrite ready_passes. pose proof (notify_pull_or_commit_spec pull shas ns w1 w2 w3 w4 Hp Hs Hn) as Hlast.
  unfold notified_with in Hlast. split.
  - unfold run_impl. destruct (ne_upcoming env) eqn:Hu; [done|]. destruct (ne_lock_acquired env) eqn:Hl; [|done]. cbn [negb].
    unfold run_impl_within_lock. destruct (has_test_failures env) eqn:Ht; [done|].
    destruct (ne_service env) as [| |rl s] eqn:Hse; [|unfold mbind, prog_bind; by destruct (save_commit_error _ _) as [[]]|].
    2: { destruct (0 <? rl); [|done]. intros Hr. by destruct (attempt_retry_not_notified 10 (60 `max` s) ns). }
    rewrite (run_bind _ _ _ _ _ (fetch_ci_ok ci w w1 Hci)), run_bind_lift. destruct (should_wait_longer env ci) as [[|]|e] eqn:Hw; [|
      |done].
    { intros Hr. destruct (attempt_retry_not_notified 5 (60 * 3 * 2 ^ ne_retries env) ns) as [].
      unfold wait_for_ci_again in Hr. destruct (ne_relies_on_webhook env); [done|].
      by destruct (attempt_retry_not_notified 10 (15 * 2 ^ ne_retries env) ns). }
    assert (Hsend : (should_send_notifications env ci w1).1 = inl true -> ci_failed env ci = Ok false /\ enough_sessions env = Ok true
      /\ should_send_notifications env ci w1 = (inl true, w1)).
    { unfold should_send_notifications. rewrite run_bind_lift. destruct (ci_failed env ci) as [[|]|e]; [| |done].
      - unfold mbind, prog_bind. by destruct (schedule_status_set_error "CI failed." w1) as [[]].
      - unfold lift. by destruct (enough_sessions env) as [[|]|e]. }
    unfold mbind at 1, prog_bind at 1. destruct (should_send_notifications env ci w1) as [[[|]|f] w1'] eqn:Hse'; [|done|done].
    destruct (Hsend eq_refl) as (Hf & Hb & [= ->]).
    intros [Hh Hrep]%Hlast. by constructor.
  - intros [[Hu Hl] Ht Hse Hw Hf Hb Hh Hrep]. unfold run_impl. rewrite Hu, Hl. cbn [negb].
    unfold run_impl_within_lock. rewrite Ht, Hse, (run_bind _ _ _ _ _ (fetch_ci_ok ci w w1 Hci)), run_bind_lift, Hw.
    assert (Hsend : should_send_notifications env ci w1 = (inl true, w1)).
    { unfold should_send_notifications. by rewrite run_bind_lift, Hf, Hb. }
    rewrite (run_bind _ _ _ _ _ Hsend). by apply Hlast.
Qed.

(** A notification is put off for at least fifteen seconds and at most two hours
    and eight minutes, and at most ten times: a task that was retried ten times
    returns. *)
Theorem notify_retry_bounds w cd :
  0 <= ne_retries env -> (forall rl s, ne_service env = NoConfiguredAppsAvailable rl s -> s <= 3600) ->
  (run_impl env w).1 = inl (Retried cd) -> 15 <= cd <= 7680 /\ ne_retries env < 10.
Proof.
  intros Hr Hs. unfold run_impl. destruct (ne_upcoming env); [done|]. destruct (ne_lock_acquired env); [|done]. cbn [negb].
  unfold run_impl_within_lock. destruct (has_test_failures env); [done|].
  assert (Hretry : forall m k, m <= 10 -> _attempt_retry env m k = Retried cd -> cd = k /\ ne_retries env < m).
  { unfold _attempt_retry. intros m k Hm. destruct (Z.leb_spec (ne_retries env + 1) m); [|done]. intros [= <-]. lia. }
  destruct (ne_service env) as [| |rl s] eqn:Hse; [|unfold mbind, prog_bind; by destruct (save_commit_error _ _) as [[]]|].
  2: { destruct (0 <? rl); [|done]. cbn. intros [= Heq]. apply Hretry in Heq as [-> ?]; [|lia]. specialize (Hs rl s eq_refl). lia. }
  unfold mbind at 1, prog_bind at 1. destruct (fetch_ci env w) as [[[ci|why]|f] w1]; [|done|done].
  rewrite run_bind_lift. destruct (should_wait_longer env ci) as [[|]|e]; [| |done].
  - cbn. intros [= Heq]. unfold wait_for_ci_again in Heq. destruct (ne_relies_on_webhook env); apply Hretry in Heq as [-> Hlt]; try lia.
    + pose proof (Z.pow_le_mono_r 2 (ne_retries env) 4). pose proof (Z.pow_le_mono_r 2 0 (ne_retries env)). lia.
    + pose proof (Z.pow_le_mono_r 2 (ne_retries env) 9). pose proof (Z.pow_le_mono_r 2 0 (ne_retries env)). lia.
  - unfold mbind, prog_bind. destruct (should_send_notifications env ci w1) as [[[|]|f] w2]; [|done|done].
    unfold notify_pull_or_commit, mbind, prog_bind. destruct (ne_fetch_pull env w2) as [[pull|f] w3]; [|done].
    unfold lift. destruct (match pull with Some _ => _ | None => _ end) as [b|e]; [|done].
    destruct (negb b && _); [done|]. destruct (ne_head_sessions env); [|destruct (ne_empty_upload env); [|done]];
      (destruct (ne_gitlab_extra_shas env w3) as [[?|?] w4]; [|done]); by destruct (ne_submit env w4) as [[?|?] w5].
Qed.
End decision.

(** ** A concrete commit *)

#[local] Instance desk_services : NotifyServices (option bool) := {
  commit_ci_passed w := w; set_ci_passed c _ := c;
  schedule_status_set_error _ := mret tt; save_commit_error _ := mret tt;
}.
#[local] Instance exact_re : Re := { re_compile p := Ok (fun s => bool_decide (s = p)) }.

Definition desk_env (retries : Z) (statuses : list ci_status) (yaml : pyval) : notify_env (option bool) :=
  mkNotifyEnv (option bool) "abc" retries false yaml [] false true None ServiceFound true (mret (CiStatus.Status.init statuses))
    (fun _ => None) (Some 2) (mret (Some (mkNotifyPull (Some "abc")))) (mret []) (mret []).
Definition ci_is (state : string) : list ci_status := [mkCi "ci/build" state None].

Example pending_ci_retried : (run_impl (desk_env 2 (ci_is "pending") (VDict [])) None).1 = inl (Retried 720).
Proof. vm_compute. reflexivity. Qed.
Example failed_ci_not_notified : (run_impl (desk_env 0 (ci_is "failure") (VDict [])) None).1 = inl (Returned false None None).
Proof. vm_compute. reflexivity. Qed.
Example retried_often_enough :
  (run_impl (desk_env 5 (ci_is "pending") (VDict [])) None).1 = inl (not_notified "too_many_retries").
Proof. vm_compute. reflexivity. Qed.

Lemma notify_decision_witness :
  ready (desk_env 0 (ci_is "success") (VDict [])) (Some true) (Some (mkNotifyPull (Some "abc"))) /\
  (run_impl (desk_env 0 (ci_is "success") (VDict [])) None).1 = inl (Returned true (Some []) None).
Proof.
  assert (Hr : ready (desk_env 0 (ci_is "success") (VDict [])) (Some true) (Some (mkNotifyPull (Some "abc")))).
  { apply ready_passes. constructor; try reflexivity; try (split; reflexivity); [exists true; split; [reflexivity|left; reflexivity]|left; discriminate]. }
  split; [exact Hr|].
  apply (notify_decision (desk_env 0 (ci_is "success") (VDict [])) (Some true) (Some (mkNotifyPull (Some "abc"))) [] [] None
    (Some true) (Some true) (Some true) (Some true)); [vm_compute; reflexivity|reflexivity..|exact Hr].
Defined.

Lemma notify_retry_bounds_witness :
  (run_impl (desk_env 4 (ci_is "pending") (VDict [])) None).1 = inl (Retried 2880) /\ 15 <= 2880 <= 7680 /\ 4 < 10.
Proof.
  assert (Hr : (run_impl (desk_env 4 (ci_is "pending") (VDict [])) None).1 = inl (Retried 2880)) by (vm_compute; reflexivity).
  split; [exact Hr|]. apply (notify_retry_bounds (desk_env 4 (ci_is "pending") (VDict [])) None 2880); [cbn; lia|discriminate|exact Hr].
Defined.
