(* ===== verification/Checks.v ===== *)
(** * GitHub checks

    [apps/worker/services/notification/notifiers/checks/]: [base.py] and the checks of
    the patch, the project and the changes.  The annotations are computed here
    from the diff and the report; the body of the project's comment
    ([mixins/message]) and the tracking parameters of links are given. *)
From S2P Require Export StatusNotifier Resources JsonCodec.
#[local] Open Scope string_scope.
#[local] Open Scope list_scope.
#[local] Open Scope Z_scope.

(** ** Annotations *)

Record annotation : Type := mkAnnotation {
  an_path : string; an_start_line : Z; an_end_line : Z; an_message : string;
}.

(** A file of the diff with the lines it adds. *)
Record file_additions : Type := mkAdditions { fa_path : string; fa_additions : list Z }.

(** [get_line_diff], one segment: the lines that begin with a plus, by their number in the head. *)
Fixpoint added_lines (head_ln : Z) (lines : list string) : list Z :=
  match lines with
  | [] => []
  | line :: lines =>
      match line with
      | String "+" _ => head_ln :: added_lines (head_ln + 1) lines
      | String "-" _ => added_lines head_ln lines
      | _ => added_lines (head_ln + 1) lines
      end
  end.

Definition segment_additions (s : DiffSegment) : result (list Z) :=
  base_ln ← list_item (seg_header s) 0; _ ← py_int base_ln;
  head_ln ← list_item (seg_header s) 2; head_ln ← py_int head_ln;
  Ok (added_lines head_ln (seg_lines s)).

(** No segments, no lines to look at. *)
Definition get_line_diff (path : string) (segments : list DiffSegment) : result (option file_additions) :=
  match segments with
  | [] => Ok None
  | _ => ls ← traverse segment_additions segments; Ok (Some (mkAdditions path (concat ls)))
  end.

(** A line to annotate, and where the range it opens ends. *)
Record header : Type := mkHeader { hd_path : string; hd_line : Z; hd_end_line : option Z }.

(** [line_headers[len(line_headers) - 1]["end_line"] = n] *)
Fixpoint end_last (n : Z) (hs : list header) : list header :=
  match hs with
  | [] => []
  | [h] => [mkHeader (hd_path h) (hd_line h) (Some n)]
  | h :: hs => h :: end_last n hs
  end.

(** The loop over [lines_diff] after its first line; [previous] is the line before. *)
Fixpoint group_headers (hs : list header) (previous : Z) (lines : list (Z * string)) : list header :=
  match lines with
  | [] => end_last previous hs
  | (line, path) :: lines =>
      group_headers (if line =? previous + 1 then hs else end_last previous hs ++ [mkHeader path line None]) line lines
  end.

Definition line_headers (lines : list (Z * string)) : list header :=
  match lines with
  | [] => []
  | (line, path) :: lines => group_headers [mkHeader path line None] line lines
  end.

Section annotations.
Context `{OrJson}.

(** The lines of one file that were added and are not covered. *)
Definition uncovered (report : Report.t) (f : file_additions) : result (list (Z * string)) :=
  match Report.get report (fa_path f) with
  | None => Err AttributeError
  | Some file =>
      ls ← ReportFile.lines file;
      Ok (map (fun nl => (nl.1, fa_path f))
            (List.filter (fun nl => bool_decide (nl.1 ∈ fa_additions f) && cov_eqb (rl_coverage nl.2) (CInt 0)) ls))
  end.

Definition get_lines_to_annotate (report : Report.t) (files_with_change : list (option file_additions)) : result (list header) :=
  ls ← traverse (uncovered report) (omap id files_with_change);
  Ok (line_headers (concat ls)).

Definition annotate (h : header) : result annotation :=
  match hd_end_line h with
  | None => Err KeyError
  | Some e =>
      Ok (mkAnnotation (hd_path h) (hd_line h) e
            (if hd_line h =? e then "Added line #L" +:+ str_of_Z (hd_line h) +:+ " was not covered by tests"
             else "Added lines #L" +:+ str_of_Z (hd_line h) +:+ " - L" +:+ str_of_Z e +:+ " were not covered by tests"))
  end.

Definition create_annotations (report : Report.t) (diff : option RawDiff) : result (list annotation) :=
  let files := match diff with Some d => d_files d | None => [] end in
  let with_change := List.filter (fun pf : string * DiffFile => bool_decide (is_Some (df_totals pf.2))) files in
  additions ← traverse (fun pf : string * DiffFile =>
                match df_segments pf.2 with Some ss => get_line_diff pf.1 ss | None => Err KeyError end) with_change;
  hs ← get_lines_to_annotate report additions;
  traverse annotate hs.
End annotations.

Definition ANNOTATIONS_PER_REQUEST : nat := 50.

(** [paginate_annotations]; the fuel is the number of annotations. *)
Fixpoint paginate {A} (fuel : nat) (l : list A) : list (list A) :=
  match fuel, l with
  | _, [] => []
  | O, _ => []
  | S fuel, _ => take ANNOTATIONS_PER_REQUEST l :: paginate fuel (drop ANNOTATIONS_PER_REQUEST l)
  end.
Definition paginate_annotations {A} (l : list A) : list (list A) := paginate (length l) l.

(** ** The notifier *)

Record CheckOutput : Type := mkOutput {
  out_title : string; out_summary : string; out_annotations : list annotation; out_text : option string;
}.
Record check_payload : Type := mkCheckPayload {
  cp_state : pyval; cp_output : CheckOutput; cp_helper_text : odict string string; cp_url : string;
}.
#[export] Instance annotation_eq_dec : EqDecision annotation.
Proof. solve_decision. Defined.
#[export] Instance CheckOutput_eq_dec : EqDecision CheckOutput.
Proof. solve_decision. Defined.
#[export] Instance check_payload_eq_dec : EqDecision check_payload.
Proof. solve_decision. Defined.

Class ChecksServices (W : Type) : Type := {
  create_check_run : string -> string -> prog W Z;
  update_check_run : Z -> pyval -> CheckOutput -> string -> prog W unit;
  check_cache_get : cache_key -> prog W (option check_payload);
  check_cache_set : cache_key -> check_payload -> prog W unit;
}.

(** What a check reads besides what a status does. *)
Record check_comparison (W : Type) : Type := mkCheckComparison {
  ck_status : status_comparison W;
  ck_pull_state : option string;       (* of the pull in the database *)
  ck_provider_pull : bool; ck_author_username : string; ck_members_url : string;
  ck_annotations : prog W (list annotation);    (* [create_annotations] of the patch *)
  ck_message : odict string pyval -> odict string string -> prog W (list string);  (* [get_message] *)
}.
Arguments ck_status {W}. Arguments ck_pull_state {W}. Arguments ck_provider_pull {W}. Arguments ck_author_username {W}.
Arguments ck_members_url {W}. Arguments ck_annotations {W}. Arguments ck_message {W}.

Section notifier.
Context {W : Type} `{StatusServices W} `{ChecksServices W} `{Re}.
Variable context : status_context.
Variable title : string.
Variable settings : odict string pyval.
Variable current_yaml : pyval.
Variable decoration : Decoration.
Variable installation_id : option Z.
Variable append_tracking_params_to_urls : string -> string.

Definition check_name : string := "checks-" +:+ context_name context.

Definition check_upgrade_message (c : check_comparison W) : string :=
  join nl
    ["The author of this PR, " +:+ ck_author_username c +:+ ", is not an activated member of this organization on Codecov.";
     "Please [activate this user on Codecov](" +:+ ck_members_url c +:+ ") to display a detailed status check.";
     "Coverage data is still being uploaded to Codecov.io for purposes of overall coverage calculations.";
     "Please don't hesitate to email us at support@codecov.io with any questions."].

Definition get_codecov_pr_link (c : check_comparison W) : string :=
  "[View this Pull Request on Codecov](" +:+ sc_url (ck_status c) +:+ "?dropdown=coverage&src=pr&el=h1)".

Definition check_status_of (c : comparison) : result StatusResult :=
  match context with
  | PATCH => get_patch_status settings current_yaml "check" c
  | PROJECT => get_project_status settings current_yaml "check" c
  | CHANGES => Ok (get_changes_status settings "check" c)
  end.

Definition empty_output : string * CheckOutput :=
  let '(state, message) := get_status_check_for_empty_upload decoration in (state, mkOutput "Empty Upload" message [] None).

Definition for_everything : bool :=
  bool_decide (default VNone (od_get "flags" settings) = VNone) && bool_decide (default VNone (od_get "paths" settings) = VNone).

Definition should_annotate : result bool :=
  checks_yaml_field ← read_yaml_field current_yaml ["github_checks"] VNone;
  Ok (match checks_yaml_field with
      | VDict d => negb (bool_decide (default (VBool false) (od_get "annotations" d) = VBool false))
      | _ => false
      end).

(** The layout of the comment, without its flags. *)
Definition without_flags (layout : string) : string :=
  if str_contains "flag" layout then join "," (List.filter (fun x => negb (str_contains "flag" x)) (split "," layout)) else layout.

Definition project_comment_settings : result (odict string pyval) :=
  y ← read_yaml_field current_yaml ["comment"] VNone;
  match y with
  | VDict d =>
      match default (VStr "") (od_get "layout" d) with
      | VStr layout => Ok (if str_contains "flag" layout then od_set "layout" (VStr (without_flags layout)) d else d)
      | _ => Err Unmodelled
      end
  | VBool _ | VNone => Ok []
  | _ => Err Unmodelled
  end.

Definition with_link (c : check_comparison W) (message : string) : string := get_codecov_pr_link c +:+ nl +:+ nl +:+ message.

Definition check_payload_of (c : check_comparison W) (view : prog W comparison) : prog W check_payload :=
  let url := sc_url (ck_status c) in
  if is_empty_upload decoration then
    let '(state, out) := empty_output in mret (mkCheckPayload (VStr state) out [] url)
  else
    v ← view;
    r ← lift (check_status_of v);
    let upgraded := bool_decide (decoration = upgrade) in
    let shown_title := if upgraded then "Codecov Report" else sr_message r in
    let message := if upgraded then check_upgrade_message c else sr_message r in
    let plain := mkOutput shown_title (with_link c message) [] None in
    match context with
    | CHANGES => mret (mkCheckPayload (sr_state r) plain [] url)
    | PATCH =>
        annotate ← lift should_annotate;
        if negb for_everything || upgraded || negb annotate then mret (mkCheckPayload (sr_state r) plain (sr_helper_text r) url)
        else
          annotations ← ck_annotations c;
          mret (mkCheckPayload (sr_state r) (mkOutput shown_title (with_link c message) annotations None) (sr_helper_text r) url)
    | PROJECT =>
        comment_settings ← lift project_comment_settings;
        if negb for_everything || upgraded || bool_decide (comment_settings = []) then
          mret (mkCheckPayload (sr_state r) plain (sr_helper_text r) url)
        else
          text ← ck_message c comment_settings (sr_helper_text r);
          mret (mkCheckPayload (sr_state r) (mkOutput shown_title (with_link c message) [] (Some (join nl text))) (sr_helper_text r) url)
    end.

Definition check_auto_passed (p : check_payload) : check_payload :=
  let out := cp_output p in
  mkCheckPayload success
    (mkOutput (out_title out) (out_summary out +:+ " [Auto passed due to carriedforward or missing coverage]")
       (out_annotations out) (out_text out)) (cp_helper_text p) (cp_url p).

Definition tracked (s : string) : string := if bool_decide (s = "") then s else append_tracking_params_to_urls s.
Definition tracked_output (out : CheckOutput) : CheckOutput :=
  mkOutput (tracked (out_title out)) (tracked (out_summary out)) (out_annotations out) (tracked <$> out_text out).

Definition annotation_dict (a : annotation) : pyval :=
  VDict [("path", VStr (an_path a)); ("start_line", VInt (an_start_line a)); ("end_line", VInt (an_end_line a));
         ("annotation_level", VStr "warning"); ("message", VStr (an_message a))].
Definition output_dict (out : CheckOutput) : pyval :=
  VDict ([("title", VStr (out_title out)); ("summary", VStr (out_summary out));
          ("annotations", VList (map annotation_dict (out_annotations out)))]
         ++ match out_text out with Some t => [("text", VStr t)] | None => [] end).
Definition check_dict (p : check_payload) : odict string pyval :=
  [("state", cp_state p); ("output", output_dict (cp_output p));
   ("included_helper_text", text_dict (cp_helper_text p)); ("url", VStr (cp_url p))].

Definition send_check (c : check_comparison W) (p : check_payload) : prog W NotificationResult :=
  let name := get_status_external_name context title in
  let state := if truthy_setting settings "informational" then success else cp_state p in
  let out := tracked_output (cp_output p) in
  let url := tracked (cp_url p) in
  check_id ← create_check_run name (sc_head_commitid (ck_status c));
  _ ← (if (ANNOTATIONS_PER_REQUEST <? length (out_annotations out))%nat then
         mapP (fun page => update_check_run check_id state (mkOutput (out_title out) (out_summary out) page None) url)
           (paginate_annotations (out_annotations out))
       else _ ← update_check_run check_id state out url; mret []);
  mret (mkNResult true (Some true) None (Some (check_dict (mkCheckPayload (cp_state p) out (cp_helper_text p) url))) None installation_id).

Definition maybe_send_check (c : check_comparison W) (p : check_payload) : prog W NotificationResult :=
  let s := ck_status c in
  let key := (sc_repoid s, sc_base_commitid s, sc_head_commitid s, check_name, title) in
  last_payload ← check_cache_get key;
  if bool_decide (last_payload = Some p) then mret (not_attempted "payload_unchanged")
  else _ ← check_cache_set key p; send_check c p.

Definition check_error (data : option check_payload) (f : fault) : option (prog W NotificationResult) :=
  match f with
  | Torngit e =>
      if bool_decide (client_code e = Some 403) then None
      else Some (mret (mkNResult true (Some false)
                         (Some (if is_client_error e then "client_side_error_provider" else "server_side_error_provider"))
                         (check_dict <$> data) None None))
  | _ => None
  end.

Definition built_check (c : check_comparison W) : prog W (option check_payload) :=
  behavior ← lift (determine_status_check_behavior_to_apply settings current_yaml "flag_coverage_not_uploaded_behavior");
  match sc_head_sessions (ck_status c) with
  | None => p ← check_payload_of c (sc_view (ck_status c) None); mret (Some p)
  | Some _ =>
      uploaded ← lift (if bool_decide (behavior = VStr "exclude") || bool_decide (behavior = VStr "pass")
                       then flag_coverage_was_uploaded settings (ck_status c) else Ok true);
      if (uploaded : bool) || negb (bool_decide (behavior = VStr "exclude")) then
        filters ← lift (get_notifier_filters settings current_yaml);
        p ← check_payload_of c (sc_view (ck_status c) (filtered filters));
        mret (Some (if (uploaded : bool) then p else check_auto_passed p))
      else mret None
  end.

Definition check_notify (c : check_comparison W) : prog W NotificationResult :=
  match ck_pull_state c with
  | None => mret (not_attempted "no_pull_request")
  | Some state =>
      if negb (ck_provider_pull c) then mret (not_attempted "pull_request_not_in_provider")
      else if negb (bool_decide (state = "open")) then mret (not_attempted "pull_request_closed")
      else
        can ← lift (can_we_set_this_status settings (ck_status c));
        if negb can then mret (not_attempted "not_fit_criteria")
        else
          enough ← lift (required_builds settings current_yaml (ck_status c));
          if negb enough then mret (not_attempted "need_more_builds")
          else
            statuses ← get_existing_statuses (sc_head_commitid (ck_status c));
            if od_mem (get_status_external_name context title) statuses then mret (not_attempted "preexisting_commit_status")
            else
              r ← try_except (p ← built_check c; mret (inl p)) (fun f => match check_error None f with
                                                                       | Some k => Some (e ← k; mret (inr e))
                                                                       | None => None
                                                                       end);
              match r with
              | inr e => mret e
              | inl None => mret (not_attempted "exclude_flag_coverage_not_uploaded_checks")
              | inl (Some p) => try_except (maybe_send_check c p) (check_error (Some p))
              end
  end.

Definition ChecksNotifier (c : check_comparison W) : Notifier W :=
  mkNotifier check_name title (match context with PATCH => checks_patch | PROJECT => checks_project | CHANGES => checks_changes end)
    decoration true (fun _ => check_notify c) (fun _ => mret tt).
End notifier.

(** ** What is annotated *)

Definition header_range (h : header) : list Z :=
  match hd_end_line h with Some e => seqZ (hd_line h) (e - hd_line h + 1) | None => [] end.

Lemma end_last_snoc n hs h : end_last n (hs ++ [h]) = hs ++ [mkHeader (hd_path h) (hd_line h) (Some n)].
Proof. induction hs as [|h' hs IH]; [done|]. cbn. rewrite IH. by destruct hs. Qed.

Lemma group_headers_ranges path lines hs a previous :
  a <= previous ->
  concat (map header_range (group_headers (hs ++ [mkHeader path a None]) previous (map (fun n => (n, path)) lines)))
  = concat (map header_range hs) ++ seqZ a (previous - a + 1) ++ lines.
Proof.
  revert hs a previous. induction lines as [|n lines IH]; intros hs a previous Ha; cbn [map group_headers].
  - rewrite end_last_snoc, map_app, concat_app, app_nil_r. cbn. by rewrite app_nil_r.
  - destruct (Z.eqb_spec n (previous + 1)) as [->|Hne].
    + rewrite IH by lia. replace (previous + 1 - a + 1) with (previous - a + 1 + 1) by lia. rewrite seqZ_app by lia.
      rewrite (seqZ_cons (a + (previous - a + 1)) 1) by lia. replace (a + (previous - a + 1)) with (previous + 1) by lia.
      cbn. by rewrite <- !app_assoc.
    + rewrite end_last_snoc, IH by lia. rewrite map_app, concat_app. cbn [map concat header_range hd_end_line hd_line].
      replace (n - n + 1) with 1 by lia. rewrite (seqZ_cons n 1), app_nil_r, <- !app_assoc by lia. done.
Qed.

Lemma group_headers_complete path lines hs a previous :
  a <= previous ->
  Forall (fun h => hd_path h = path /\ exists e, hd_end_line h = Some e /\ hd_line h <= e) hs ->
  Forall (fun h => hd_path h = path /\ exists e, hd_end_line h = Some e /\ hd_line h <= e)
    (group_headers (hs ++ [mkHeader path a None]) previous (map (fun n => (n, path)) lines)).
Proof.
  revert hs a previous. induction lines as [|n lines IH]; intros hs a previous Ha Hs; cbn [map group_headers].
  - rewrite end_last_snoc. apply Forall_app. split; [done|]. repeat constructor. by exists previous.
  - destruct (Z.eqb_spec n (previous + 1)) as [->|_]; [apply IH; [lia | done]|]. rewrite end_last_snoc. apply IH; [lia|]. apply Forall_app.
    split; [done|]. repeat constructor. by exists previous.
Qed.

Lemma annotate_all path hs :
  Forall (fun h => hd_path h = path /\ exists e, hd_end_line h = Some e /\ hd_line h <= e) hs ->
  exists annotations, traverse annotate hs = Ok annotations /\
    Forall (fun a => an_path a = path /\ an_start_line a <= an_end_line a) annotations /\
    concat (map (fun a => seqZ (an_start_line a) (an_end_line a - an_start_line a + 1)) annotations) = concat (map header_range hs).
Proof.
  induction 1 as [|h hs [Hp (e & He & Hle)] _ IH]; [by exists []|]. destruct IH as (rest & Hr & Hps & Hc).
  assert (Ha : exists a, annotate h = Ok a /\ (an_path a = path /\ an_start_line a <= an_end_line a) /\ seqZ (an_start_line a) (an_end_line a - an_start_line a + 1) = header_range h).
  { unfold annotate, header_range. rewrite He. by eexists. }
  destruct Ha as (a & Ha & Hpa & Hra). exists (a :: rest). cbn [traverse]. rewrite Ha. cbn. rewrite Hr. cbn.
  split; [done|]. split; [by constructor|]. by rewrite Hc, Hra.
Qed.

(** The lines of a new version after a hunk, each with whether the diff adds it. *)
Inductive marked : list string -> list (string * bool) -> Prop :=
  | marked_end : marked [] []
  | marked_added l ls new : marked ls new -> marked (String "+" l :: ls) ((l, true) :: new)
  | marked_removed l ls new : marked ls new -> marked (String "-" l :: ls) new
  | marked_kept l ls new : marked ls new -> marked (String " " l :: ls) ((l, false) :: new).

(** The header of a hunk has numbers for the two versions, and in the new one it starts
    at this line. *)
Definition starts_at (s : DiffSegment) (n : Z) : Prop :=
  (exists v b, list_item (seg_header s) 0 = Ok v /\ py_int v = Ok b) /\
  exists v, list_item (seg_header s) 2 = Ok v /\ py_int v = Ok n.

(** [new_version n segments new]: the lines [new], from line [n] of the new version on,
    are what the hunks leave, with the unchanged lines between them. *)
Inductive new_version : Z -> list DiffSegment -> list (string * bool) -> Prop :=
  | version_end n rest : Forall (fun l => l.2 = false) rest -> new_version n [] rest
  | version_hunk n s segments gap new rest :
      Forall (fun l => l.2 = false) gap -> starts_at s (n + Z.of_nat (length gap)) -> marked (seg_lines s) new ->
      new_version (n + Z.of_nat (length gap) + Z.of_nat (length new)) segments rest ->
      new_version n (s :: segments) (gap ++ new ++ rest).

(** The line of this number is one the diff adds, in a version that starts at [first]. *)
Definition is_added (first : Z) (new : list (string * bool)) (n : Z) : bool :=
  (first <=? n) && match new !! Z.to_nat (n - first) with Some (_, added) => added | None => false end.

Lemma is_added_nil first n : is_added first [] n = false.
Proof. unfold is_added. by rewrite lookup_nil, andb_false_r. Qed.

Lemma is_added_cons first l new n :
  is_added first (l :: new) n = (n =? first) && l.2 || is_added (first + 1) new n.
Proof.
  unfold is_added. destruct (Z.eqb_spec n first) as [->|Hne].
  - rewrite Z.leb_refl, Z.sub_diag. cbn. destruct l as [? []]; cbn; [done|]. destruct (Z.leb_spec (first + 1) first); [lia | done].
  - cbn. destruct (Z.leb_spec first n).
    + destruct (Z.leb_spec (first + 1) n); [|lia]. cbn.
      replace (Z.to_nat (n - first)) with (S (Z.to_nat (n - (first + 1)))) by lia. done.
    + destruct (Z.leb_spec (first + 1) n); [lia | done].
Qed.

Lemma is_added_app first a b n :
  is_added first (a ++ b) n = is_added first a n || is_added (first + Z.of_nat (length a)) b n.
Proof.
  revert first. induction a as [|l a IH]; intros first; cbn [app length].
  - rewrite is_added_nil. cbn. f_equal. lia.
  - rewrite !is_added_cons, IH, orb_assoc. do 2 f_equal. lia.
Qed.

Lemma is_added_unmarked first new n : Forall (fun l => l.2 = false) new -> is_added first new n = false.
Proof.
  intros Hn. revert first. induction Hn as [|l new Hl _ IH]; intros first; [apply is_added_nil|].
  by rewrite is_added_cons, Hl, andb_false_r, IH.
Qed.

Lemma added_lines_marked ls new first n : marked ls new -> bool_decide (n ∈ added_lines first ls) = is_added first new n.
Proof.
  intros Hm. revert first. induction Hm as [|l ls new _ IH|l ls new _ IH|l ls new _ IH]; intros first; cbn [added_lines].
  - by rewrite is_added_nil.
  - rewrite is_added_cons, <- IH. destruct (Z.eqb_spec n first) as [->|Hne]; cbn.
    + by rewrite bool_decide_eq_true_2 by left.
    + apply bool_decide_ext. set_solver.
  - apply IH.
  - rewrite is_added_cons, <- IH. cbn. by rewrite andb_false_r.
Qed.

(** The additions of the hunks are the lines the new version has more. *)
Lemma additions_of_version first segments new :
  new_version first segments new ->
  exists additions, traverse segment_additions segments = Ok additions /\
    forall n, bool_decide (n ∈ concat additions) = is_added first new n.
Proof.
  induction 1 as [first rest Hr|first s segments gap new rest Hg [(v0 & b & H0 & Hb) (v2 & H2 & Hh)] Hm _ (adds & IHt & IH)].
  - exists []. split; [done|]. intros n. cbn. by rewrite is_added_unmarked.
  - exists (added_lines (first + Z.of_nat (length gap)) (seg_lines s) :: adds). split.
    + assert (Hs : segment_additions s = Ok (added_lines (first + Z.of_nat (length gap)) (seg_lines s))).
      { unfold segment_additions. rewrite H0. cbn. rewrite Hb. cbn. rewrite H2. cbn. by rewrite Hh. }
      cbn [traverse]. rewrite Hs. cbn [mbind result_bind]. by rewrite IHt.
    + intros n. cbn [concat]. rewrite !is_added_app, (is_added_unmarked _ gap) by done.
      rewrite <- (added_lines_marked _ _ _ _ Hm), <- IH. cbn. rewrite <- bool_decide_or. apply bool_decide_ext. by rewrite elem_of_app.
Qed.

(** C27: when the diff, with the totals of the report, changes one file that the report
    has, the ranges that are annotated, each of at least one line, are one after the other
    exactly the lines of the report that no test covers and that the diff adds: those of
    its hunks that begin with a plus, by their number in the new version, whose lines are
    those of the hunks that are kept or added and the unchanged ones between the hunks. *)
Theorem create_annotations_correct `{OrJson} report d path f t segments new file ls :
  d_files d = [(path, f)] -> df_totals f = Some t -> df_segments f = Some segments -> segments <> [] ->
  new_version 1 segments new ->
  Report.get report path = Some file -> ReportFile.lines file = Ok ls ->
  exists annotations, create_annotations report (Some d) = Ok annotations /\
    Forall (fun a => an_path a = path /\ an_start_line a <= an_end_line a) annotations /\
    concat (map (fun a => seqZ (an_start_line a) (an_end_line a - an_start_line a + 1)) annotations)
    = map fst (List.filter (fun nl => is_added 1 new nl.1 && cov_eqb (rl_coverage nl.2) (CInt 0)) ls).
Proof.
  intros Hd Ht Hs Hne Hv Hg Hl. apply additions_of_version in Hv as (additions & Ha & Hadd). unfold create_annotations. rewrite Hd. cbn [List.filter snd]. rewrite Ht.
  rewrite bool_decide_eq_true_2 by done. cbn [traverse snd fst]. rewrite Hs. unfold get_line_diff.
  destruct segments as [|s0 segments]; [done|]. rewrite Ha. cbn. unfold get_lines_to_annotate. cbn.
  unfold uncovered. cbn [fa_path fa_additions]. rewrite Hg, Hl. cbn. rewrite app_nil_r.
  rewrite (List.filter_ext (fun nl => is_added 1 new nl.1 && cov_eqb (rl_coverage nl.2) (CInt 0))
    (fun nl : Z * ReportLine => bool_decide (nl.1 ∈ concat additions) && cov_eqb (rl_coverage nl.2) (CInt 0))) by (intros; by rewrite Hadd).
  set (added := List.filter _ ls). set (ns := map fst added).
  replace (map (fun nl : Z * ReportLine => (nl.1, path)) added) with (map (fun n => (n, path)) ns) by by unfold ns; rewrite map_map.
  destruct ns as [|n ns]; [by exists []|].
  destruct (annotate_all path (line_headers (map (fun n => (n, path)) (n :: ns)))) as (annotations & Han & Hps & Hc).
  { cbn. apply (group_headers_complete path ns [] n n); [lia | constructor]. }
  exists annotations. cbn in Han |- *. rewrite Han. split; [done|]. split; [done|]. rewrite Hc. cbn.
  pose proof (group_headers_ranges path ns [] n n ltac:(lia)) as Hr. cbn [app] in Hr. rewrite Hr.
  replace (n - n + 1) with 1 by lia. by rewrite (seqZ_cons n 1) by lia.
Qed.

(** Pages hold every annotation once, in order, and at most fifty of them. *)
Lemma paginate_concat {A} fuel (l : list A) :
  (length l <= fuel)%nat -> concat (paginate fuel l) = l /\ Forall (fun p => (length p <= ANNOTATIONS_PER_REQUEST)%nat) (paginate fuel l).
Proof.
  revert l. induction fuel as [|fuel IH]; intros [|x l] Hl; cbn [length] in Hl; try (split; [done|constructor]); [lia|].
  cbn [paginate]. destruct (IH (drop ANNOTATIONS_PER_REQUEST (x :: l))) as [Hc Hf].
  { rewrite length_drop. cbn. lia. }
  split.
  - cbn [concat]. by rewrite Hc, take_drop.
  - constructor; [|done]. rewrite length_take. lia.
Qed.

(** The last uncovered line of a file and the first of the next are one range when
    their numbers follow, though the files are two. *)
Example range_across_files :
  line_headers [(4, "a.py"); (5, "a.py"); (6, "b.py")] = [mkHeader "a.py" 4 (Some 6)].
Proof. reflexivity. Qed.

Definition uncovered_line : ReportLine := mkLine (CInt 0) None [mkSession 0 (CInt 0) None None CxNone] CxNone.
Definition annotated_file : ReportFile.t :=
  ReportFile.with_lines (map ReportFile.SLine [uncovered_line; ReportFile.example_line; uncovered_line; uncovered_line])
    (ReportFile.mkFile "a.py" None None None [] [] None None).
Definition annotated_report : Report.t := Report.mkReport [] None [("a.py", annotated_file)] None.
Definition annotated_diff_file : DiffFile :=
  mkDiffFile "modified" None (Some [mkSegment [VStr "1"; VStr "2"; VStr "1"; VStr "4"] ["+a"; "+b"; "-x"; "+c"; "+d"]]) None
    (Some default_totals).

Lemma create_annotations_correct_witness :
  Report.get annotated_report "a.py" = Some annotated_file /\
  exists annotations, create_annotations (H := codec) annotated_report (Some (mkDiff [("a.py", annotated_diff_file)] None)) = Ok annotations
    /\ concat (map (fun a => seqZ (an_start_line a) (an_end_line a - an_start_line a + 1)) annotations) = [1; 3; 4].
Proof.
  split; [reflexivity|].
  destruct (create_annotations_correct (H := codec) annotated_report (mkDiff [("a.py", annotated_diff_file)] None) "a.py"
    annotated_diff_file default_totals [mkSegment [VStr "1"; VStr "2"; VStr "1"; VStr "4"] ["+a"; "+b"; "-x"; "+c"; "+d"]]
    [("a", true); ("b", true); ("c", true); ("d", true)] annotated_file [(1, uncovered_line); (2, ReportFile.example_line); (3, uncovered_line); (4, uncovered_line)])
    as (annotations & Ha & _ & Hc); [reflexivity|reflexivity|reflexivity|discriminate| |reflexivity|vm_compute; reflexivity|].
  { apply (version_hunk 1 _ [] [] [("a", true); ("b", true); ("c", true); ("d", true)] []).
    - constructor.
    - split; [exists (VStr "1"), 1; split; reflexivity | exists (VStr "1"); split; reflexivity].
    - repeat constructor.
    - by constructor. }
  exists annotations. split; [exact Ha|]. rewrite Hc. vm_compute. reflexivity.
Defined.
