(* ===== verification/ComparisonProxy.v ===== *)
(** * What the notifiers are told of a comparison

    [apps/worker/services/comparison/__init__.py]: [ComparisonProxy] fetches the diff
    of the adjusted and of the original base once each, keeps the uploads per flag,
    and the distance to the branch.  The provider is given: [fetch] answers
    [get_compare], and the commits it was asked for are kept. *)
From S2P Require Export UserYaml Totals Effects.
#[local] Open Scope string_scope.
#[local] Open Scope list_scope.
#[local] Open Scope Z_scope.

Record ReportUploadedCount : Type := mkCount { ru_flag : string; ru_base_count : Z; ru_head_count : Z }.

(** The comparison: its commits and the sessions of their reports. *)
Record Comparison : Type := mkComparisonOf {
  cp_head_commitid : string; cp_base_commitid : option string; cp_patch_base_commitid : option string;
  cp_head_sessions : option (list Session); cp_base_sessions : option (list Session); cp_current_yaml : option pyval;
}.

(** The object with what it has resolved, and the commits [get_compare] was asked for. *)
Record proxy : Type := mkProxy {
  px_adjusted_base_diff : option RawDiff; px_original_base_diff : option RawDiff;
  px_uploaded : option (list ReportUploadedCount); px_asked : list (string * string);
}.
Definition new_proxy : proxy := mkProxy None None None [].

Section proxy.
Variable fetch : string -> string -> result RawDiff.
Variable c : Comparison.

(** ** [get_diff] *)

Definition bases_match : bool := bool_decide (cp_patch_base_commitid c = Some (default "" (cp_base_commitid c))).

Definition ask (base : string) : prog proxy RawDiff :=
  _ ← modify (fun p => mkProxy (px_adjusted_base_diff p) (px_original_base_diff p) (px_uploaded p)
                         (px_asked p ++ [(base, cp_head_commitid c)]));
  lift (fetch base (cp_head_commitid c)).

Definition keep_adjusted (d : RawDiff) (p : proxy) : proxy := mkProxy (Some d) (px_original_base_diff p) (px_uploaded p) (px_asked p).
Definition keep_original (d : RawDiff) (p : proxy) : proxy := mkProxy (px_adjusted_base_diff p) (Some d) (px_uploaded p) (px_asked p).

Definition resolve (mine other : proxy -> option RawDiff) (keep : RawDiff -> proxy -> proxy) (base : option string) :
    prog proxy (option RawDiff) :=
  known ← read mine;
  match known with
  | Some d => mret (Some d)
  | None =>
      others ← read other;
      match (if bases_match then others else None), base with
      | Some d, _ => _ ← modify (keep d); mret (Some d)
      | None, Some b => d ← ask b; _ ← modify (keep d); mret (Some d)
      | None, None => mret None
      end
  end.

Definition get_diff (use_original_base : bool) : prog proxy (option RawDiff) :=
  if use_original_base then resolve px_original_base_diff px_adjusted_base_diff keep_original (cp_patch_base_commitid c)
  else resolve px_adjusted_base_diff px_original_base_diff keep_adjusted (cp_base_commitid c).

(** ** Uploads per flag *)

Definition count_in (head : bool) (d : odict string ReportUploadedCount) (flag : string) : odict string ReportUploadedCount :=
  let v := default (mkCount flag 0 0) (od_get flag d) in
  od_set flag (if head then mkCount (ru_flag v) (ru_base_count v) (ru_head_count v + 1)
               else mkCount (ru_flag v) (ru_base_count v + 1) (ru_head_count v)) d.

(** A session without flags is counted under the empty one. *)
Definition session_flags (s : Session) : list string :=
  match se_flags s with Some ((_ :: _) as fs) => fs | _ => [""] end.

Definition count_session (head : bool) (d : odict string ReportUploadedCount) (s : Session) : odict string ReportUploadedCount :=
  if bool_decide (se_type s = carriedforward) then d else foldl (count_in head) d (session_flags s).

Definition uploaded_counts (base head : list Session) : list ReportUploadedCount :=
  od_vals (foldl (count_session true) (foldl (count_session false) [] base) head).

Definition keep_uploaded (l : list ReportUploadedCount) (p : proxy) : proxy :=
  mkProxy (px_adjusted_base_diff p) (px_original_base_diff p) (Some l) (px_asked p).

Definition get_reports_uploaded_count_per_flag : prog proxy (list ReportUploadedCount) :=
  known ← read px_uploaded;
  match known, cp_head_sessions c, cp_base_sessions c with
  | Some ((_ :: _) as l), _, _ => mret l
  | _, Some head, Some base => let l := uploaded_counts base head in _ ← modify (keep_uploaded l); mret l
  | _, _, _ => mret []
  end.

Definition is_valid_diff (o : ReportUploadedCount) : result bool :=
  carryforward ← match cp_current_yaml c with
                 | Some y =>
                     conf ← get_flag_configuration y (ru_flag o);
                     if bool_decide (conf = VNone) then Ok false
                     else v ← dict_get conf "carryforward" (VBool false); Ok (truthy v)
                 | None => Ok false
                 end;
  Ok ((if (carryforward : bool) then (0 <? ru_base_count o) && (0 <? ru_head_count o)
       else (0 <? ru_base_count o) || (0 <? ru_head_count o)) && (ru_head_count o <? ru_base_count o)).

Fixpoint filterR {A} (p : A -> result bool) (l : list A) : result (list A) :=
  match l with
  | [] => Ok []
  | a :: l => b ← p a; rest ← filterR p l; Ok (if (b : bool) then a :: rest else rest)
  end.

(** The difference takes the place of the counts it is made of. *)
Definition get_reports_uploaded_count_per_flag_diff : prog proxy (list ReportUploadedCount) :=
  reports_per_flag ← get_reports_uploaded_count_per_flag;
  per_flag_diff ← lift (filterR is_valid_diff reports_per_flag);
  _ ← modify (keep_uploaded per_flag_diff);
  mret per_flag_diff.

(** ** [get_diff] is the provider's answer *)

(** The answer without any cache. *)
Definition diff_of (use_original_base : bool) : result (option RawDiff) :=
  match (if use_original_base then cp_patch_base_commitid c else cp_base_commitid c) with
  | Some b => d ← fetch b (cp_head_commitid c); Ok (Some d)
  | None => Ok None
  end.

Definition resolved (use_original_base : bool) (p : proxy) : option RawDiff :=
  if use_original_base then px_original_base_diff p else px_adjusted_base_diff p.
Definition base_of (use_original_base : bool) : option string :=
  if use_original_base then cp_patch_base_commitid c else cp_base_commitid c.

(** What is resolved is the answer, and was asked for once; nothing else was asked. *)
Record faithful (p : proxy) : Prop := {
  faithful_answer : forall o d, resolved o p = Some d -> diff_of o = Ok (Some d);
  faithful_asked : forall bh, bh ∈ px_asked p -> exists o, resolved o p <> None /\ base_of o = Some bh.1 /\ bh.2 = cp_head_commitid c;
  faithful_once : NoDup (px_asked p);
}.

Definition keep (o : bool) (d : RawDiff) (p : proxy) : proxy := if o then keep_original d p else keep_adjusted d p.
Definition ask_for (b : string) (p : proxy) : proxy :=
  mkProxy (px_adjusted_base_diff p) (px_original_base_diff p) (px_uploaded p) (px_asked p ++ [(b, cp_head_commitid c)]).

Lemma new_proxy_faithful : faithful new_proxy.
Proof. constructor; [by intros [] d|set_solver|constructor]. Qed.

Lemma get_diff_run o (p : proxy) :
  get_diff o p =
  match resolved o p with
  | Some d => (inl (Some d), p)
  | None =>
      match (if bases_match then resolved (negb o) p else None), base_of o with
      | Some d, _ => (inl (Some d), keep o d p)
      | None, Some b =>
          match fetch b (cp_head_commitid c) with
          | Ok d => (inl (Some d), keep o d (ask_for b p))
          | Err e => (inr (Raised e), ask_for b p)
          end
      | None, None => (inl None, p)
      end
  end.
Proof.
  destruct o; cbn; unfold resolve, mbind, prog_bind, read; cbn.
  - destruct (px_original_base_diff p); [done|]. destruct (if bases_match then _ else _); [done|].
    destruct (cp_patch_base_commitid c) as [b|]; [|done]. unfold ask, mbind, prog_bind, lift; cbn. by destruct (fetch b _).
  - destruct (px_adjusted_base_diff p); [done|]. destruct (if bases_match then _ else _); [done|].
    destruct (cp_base_commitid c) as [b|]; [|done]. unfold ask, mbind, prog_bind, lift; cbn. by destruct (fetch b _).
Qed.

Lemma resolved_keep o o' d p : resolved o' (keep o d p) = if eqb o o' then Some d else resolved o' p.
Proof. by destruct o, o'. Qed.
Lemma asked_keep o d p : px_asked (keep o d p) = px_asked p.
Proof. by destruct o. Qed.

Lemma keep_faithful o d p : faithful p -> diff_of o = Ok (Some d) -> faithful (keep o d p).
Proof.
  intros [Ha Hq Ho] Hd. constructor; rewrite ?asked_keep; [| |done].
  - intros o' d'. rewrite resolved_keep. destruct (eqb_spec o o') as [<-|_]; [by intros [= <-]|apply Ha].
  - intros bh (o' & Hr & Hb)%Hq. exists o'. split; [|done]. rewrite resolved_keep. by destruct (eqb o o').
Qed.

Lemma resolved_ask o b p : resolved o (ask_for b p) = resolved o p.
Proof. by destruct o. Qed.

Lemma ask_faithful o b d p :
  faithful p -> resolved o p = None -> (if bases_match then resolved (negb o) p else None) = None ->
  base_of o = Some b -> fetch b (cp_head_commitid c) = Ok d -> faithful (keep o d (ask_for b p)).
Proof.
  intros [Ha Hq Ho] Hn Hother Hb Hf. constructor; rewrite ?asked_keep; cbn [ask_for px_asked].
  - intros o' d'. rewrite resolved_keep. destruct (eqb_spec o o') as [<-|_]; [|rewrite resolved_ask; apply Ha].
    intros [= <-]. unfold diff_of, base_of in *. by rewrite Hb, Hf.
  - intros bh [(o' & Hr & Hbh)%Hq | ->%list_elem_of_singleton]%elem_of_app.
    + exists o'. split; [|done]. rewrite resolved_keep, resolved_ask. by destruct (eqb o o').
    + exists o. by rewrite resolved_keep, eqb_reflx.
  - apply NoDup_app. split_and!; [done| |apply NoDup_singleton]. intros bh (o' & Hr & Hb' & _)%Hq ->%list_elem_of_singleton.
    cbn in Hb'. revert Hother. unfold bases_match, base_of in *.
    destruct o, o'; cbn in *; try done; rewrite ?Hb, ?Hb', bool_decide_true; done.
Qed.

Hypothesis patch_base_is_a_commit : cp_patch_base_commitid c <> Some "".

Lemma other_answer o d p :
  faithful p -> (if bases_match then resolved (negb o) p else None) = Some d -> diff_of o = Ok (Some d).
Proof.
  intros [Ha _ _]. unfold bases_match. case_bool_decide as Hm; [|done]. intros Hd. apply Ha in Hd. revert Hd. unfold diff_of.
  rewrite Hm in *. destruct (cp_base_commitid c); [by destruct o|done].
Qed.

(** Any answer given is the one of [diff_of], and the provider is asked at most once
    for a base whichever the calls. *)
Lemma get_diff_transparent_at o d p :
  faithful p -> diff_of o = Ok d -> (get_diff o p).1 = inl d /\ faithful (get_diff o p).2.
Proof.
  intros Hp Hd. rewrite get_diff_run. destruct (resolved o p) as [d'|] eqn:Hr.
  { apply (faithful_answer _ Hp) in Hr. split; [cbn; congruence|done]. }
  destruct (if bases_match then _ else _) as [d'|] eqn:Hother.
  { pose proof (other_answer _ _ _ Hp Hother) as Hd'. split; [cbn; congruence|by apply keep_faithful]. }
  change (base_of o) with (if o then cp_patch_base_commitid c else cp_base_commitid c).
  unfold diff_of in Hd. destruct (if o then _ else _) as [b|] eqn:Hb; [|split; [cbn; congruence|done]].
  destruct (fetch b _) as [d'|e] eqn:Hf; [|done]. split; [cbn in *; congruence|by apply ask_faithful].
Qed.

(** A sequence of calls, by the notifiers of a commit. *)
Definition get_diffs (calls : list bool) : prog proxy (list (option RawDiff)) := mapP get_diff calls.
End proxy.

(** The diffs the notifiers get, in whatever order they ask for them, are those
    the provider gives for the base they ask about, and it is asked at most once for
    each base. *)
Theorem get_diff_transparent fetch c (calls : list bool) (diffs : list (option RawDiff)) :
  cp_patch_base_commitid c <> Some "" ->
  Forall2 (fun use_original_base d => diff_of fetch c use_original_base = Ok d) calls diffs ->
  (get_diffs fetch c calls new_proxy).1 = inl diffs /\ NoDup (px_asked (get_diffs fetch c calls new_proxy).2).
Proof.
  intros Hc H. cut (forall p, faithful fetch c p ->
    (get_diffs fetch c calls p).1 = inl diffs /\ faithful fetch c (get_diffs fetch c calls p).2).
  { intros Hall. destruct (Hall _ (new_proxy_faithful fetch c)) as [? [_ _ ?]]. done. }
  induction H as [|o d calls diffs Hd _ IH]; intros p Hp; [done|].
  destruct (get_diff_transparent_at fetch c Hc _ _ _ Hp Hd) as [Hr Hp']. cbn [get_diffs mapP].
  destruct (get_diff fetch c o p) as [r p'] eqn:Hrun; cbn in Hr, Hp'; subst r. rewrite (run_bind _ _ _ _ _ Hrun).
  destruct (IH p' Hp') as [Hrs Hp'']. destruct (get_diffs fetch c calls p') as [rs p''] eqn:Hruns; cbn in Hrs, Hp''; subst rs.
  by erewrite run_bind by exact Hruns.
Qed.

Definition demo_fetch (base head : string) : result RawDiff :=
  if bool_decide (base = "") then Err KeyError else Ok (mkDiff [] None).
Definition demo_session (flags : option (list string)) : Session :=
  mkSess None None VNone VNone flags VNone VNone VNone VNone VNone VNone None uploaded [].
Definition demo_comparison : Comparison :=
  mkComparisonOf "head" (Some "adjusted") (Some "original")
    (Some [demo_session (Some ["unit"])])
    (Some [demo_session (Some ["unit"]); demo_session (Some ["unit"]); demo_session None]) None.

Theorem get_diff_transparent_witness :
  (get_diffs demo_fetch demo_comparison [false; true; false] new_proxy).1 =
    inl [Some (mkDiff [] None); Some (mkDiff [] None); Some (mkDiff [] None)] /\
  NoDup (px_asked (get_diffs demo_fetch demo_comparison [false; true; false] new_proxy).2).
Proof. apply get_diff_transparent; [done|by repeat constructor]. Defined.

(** The counts are two uploads of [unit] in the base, one without a flag, and one of
    [unit] in the head; a flag of the head only would be counted too. *)
Example counts_before :
  (get_reports_uploaded_count_per_flag demo_comparison new_proxy).1 =
  inl [mkCount "unit" 2 1; mkCount "" 1 0].
Proof. reflexivity. Qed.

Definition more_head : Comparison :=
  mkComparisonOf "head" (Some "adjusted") None
    (Some [demo_session (Some ["unit"]); demo_session (Some ["new"])])
    (Some [demo_session (Some ["unit"]); demo_session (Some ["unit"])]) None.

(** Once the difference was asked for, the counts of the flags without one are gone. *)
Example counts_overwritten :
  (get_reports_uploaded_count_per_flag more_head new_proxy).1 = inl [mkCount "unit" 2 1; mkCount "new" 0 1] /\
  (get_reports_uploaded_count_per_flag_diff more_head ≫= fun _ => get_reports_uploaded_count_per_flag more_head) new_proxy =
  (inl [mkCount "unit" 2 1], keep_uploaded [mkCount "unit" 2 1] new_proxy).
Proof. split; reflexivity. Qed.
