(* ===== verification/Comparison.v ===== *)
(** * [codecov-api/services/comparison.py]: two reports, line by line

    [Traverse] walks the two versions of a file along the segments of their diff
    and shows every line to visitors; the visitors collect the changed
    coverage and the lines to display, which [Segment] groups.  [FileComparison]
    and [Comparison] put them together.

    A line of a report is the raw list [_get_line] takes from the file, without
    building a [ReportLine]. *)
From S2P Require Export Resources Filtered UserYaml.
From S2P Require Import JsonCodec TorngitDiff.
#[local] Open Scope string_scope.
#[local] Open Scope Z_scope.
#[local] Open Scope list_scope.

(** [line_value and line_value[0] == "+"], as a condition. *)
Definition _is_added (line_value : option string) : bool :=
  match line_value with Some (String c _) => bool_decide (c = "+"%char) | _ => false end.

Definition _is_removed (line_value : option string) : bool :=
  match line_value with Some (String c _) => bool_decide (c = "-"%char) | _ => false end.

Module Traverse.

(** The state of a [FileComparisonTraverseManager]. *)
Record t : Type := mkTraverse {
  head_file_eof : Z;
  base_file_eof : Z;
  segments : list DiffSegment;
  src : list string;
  base_ln : Z;
  head_ln : Z;
}.

(** [int(segment["header"][i])] and [int(segment["header"][i] or 1)]. *)
Definition offset_at (i : nat) (seg : DiffSegment) : result Z :=
  h ← list_item (seg_header seg) i; py_int h.
Definition count_at (i : nat) (seg : DiffSegment) : result Z :=
  h ← list_item (seg_header seg) i; if truthy h then py_int h else Ok 1.

Definition init (head_file_eof base_file_eof : Z) (segments : list DiffSegment) (src : list string)
    : result t :=
  match segments with
  | seg :: _ =>
      b ← offset_at 0 seg;
      h ← offset_at 2 seg;
      Ok (mkTraverse head_file_eof base_file_eof segments src (Z.min 1 b) (Z.min 1 h))
  | [] => Ok (mkTraverse head_file_eof base_file_eof [] src 1 1)
  end.

Definition traverse_finished (m : t) : bool :=
  match segments m with
  | _ :: _ => false
  | [] =>
      match src m with
      | _ :: _ => Z.of_nat (length (src m)) <? head_ln m
      | [] => (head_file_eof m <=? head_ln m) && (base_file_eof m <=? base_ln m)
      end
  end.

(** [offset <= ln < offset + count]; the count is read when the first comparison holds. *)
Definition within_offset (i j : nat) (ln : Z) (seg : DiffSegment) : result bool :=
  o ← offset_at i seg;
  if o <=? ln then n ← count_at j seg; Ok (ln <? o + n) else Ok false.

Definition traversing_diff (m : t) : result bool :=
  match segments m with
  | [] => Ok false
  | seg :: _ =>
      base_ln_within_offset ← within_offset 0 1 (base_ln m) seg;
      head_ln_within_offset ← within_offset 2 3 (head_ln m) seg;
      Ok (base_ln_within_offset || head_ln_within_offset)
  end.

Definition with_segments (segs : list DiffSegment) (m : t) : t :=
  mkTraverse (head_file_eof m) (base_file_eof m) segs (src m) (base_ln m) (head_ln m).
Definition with_lns (b h : Z) (m : t) : t :=
  mkTraverse (head_file_eof m) (base_file_eof m) (segments m) (src m) b h.

Definition pop_line (m : t) : result (option string * t) :=
  d ← traversing_diff m;
  match segments m, (d : bool) with
  | seg :: segs, true =>
      match seg_lines seg with
      | l :: ls => Ok (Some l, with_segments (mkSegment (seg_header seg) ls :: segs) m)
      | [] => Err IndexError
      end
  | _, _ =>
      match src m with
      | [] => Ok (None, m)
      | _ => match Report.py_index (head_ln m - 1) (src m) with
             | Some l => Ok (Some l, m)
             | None => Err IndexError
             end
      end
  end.

(** The arguments of a call of a visitor. *)
Record visit : Type := mkVisit {
  v_base : option Z;
  v_head : option Z;
  v_value : option string;
  v_diff : bool;
}.

Definition visit_at (m : t) (line_value : option string) (is_diff : bool) : visit :=
  mkVisit (if is_diff && _is_added line_value then None else Some (base_ln m))
    (if is_diff && _is_removed line_value then None else Some (head_ln m))
    line_value is_diff.

Definition advance (line_value : option string) (is_diff : bool) (m : t) : t :=
  if is_diff && _is_added line_value then with_lns (base_ln m) (head_ln m + 1) m
  else if is_diff && _is_removed line_value then with_lns (base_ln m + 1) (head_ln m) m
  else with_lns (base_ln m + 1) (head_ln m + 1) m.

Definition drop_visited (m : t) : t :=
  match segments m with
  | seg :: segs => match seg_lines seg with [] => with_segments segs m | _ => m end
  | [] => m
  end.

(** One round of the loop of [apply]: what the visitors are called with, and the
    state after it. *)
Definition round (m : t) : result (visit * t) :=
  '(line_value, m) ← pop_line m;
  is_diff ← traversing_diff m;
  Ok (visit_at m line_value is_diff, drop_visited (advance line_value is_diff m)).

(** The loop, over the visitors' state [S]: [None] when [fuel] rounds do not finish it. *)
Fixpoint apply {S} (visitor : S -> visit -> result S) (fuel : nat) (m : t) (s : S) : option (result S) :=
  match fuel with
  | O => None
  | Datatypes.S fuel' =>
      if traverse_finished m then Some (Ok s)
      else match round m with
           | Err e => Some (Err e)
           | Ok (v, m') =>
               match visitor s v with
               | Err e => Some (Err e)
               | Ok s' => apply visitor fuel' m' s'
               end
           end
  end.
End Traverse.

(** ** The visitors *)

Section visitors.
Context `{OrJson}.

(** [_get_line]: [report_file._lines[ln - 1]], decoded when it is a text. *)
Definition _get_line (report_file : option ReportFile.t) (ln : option Z) : result (option pyval) :=
  match report_file, ln with
  | Some f, Some ln =>
      ls ← ReportFile._lines f;
      match Report.py_index (ln - 1) ls with
      | None => Ok None
      | Some slot =>
          if ReportFile.slot_truthy slot then
            match slot with
            | ReportFile.SList l => Ok (Some (VList l))
            | ReportFile.SStr s => v ← json_loads s; Ok (match v with VNone => None | _ => Some v end)
            | ReportFile.SLine _ | ReportFile.SNone => Err TypeError
            end
          else Ok None
      end
  | _, _ => Ok None
  end.

(** [line_type(line[0])]. *)
Definition line_type_of (line : pyval) : result (option LineType) :=
  match line with
  | VList (c :: _) => c ← cov_of_val c; line_type c
  | VList [] => Err IndexError
  | VDict _ => Err KeyError
  | VNone | VBool _ | VInt _ | VFloat _ => Err TypeError
  | VStr _ => Err Unmodelled
  end.

Record LineComparison : Type := mkLineComparison {
  lc_base_line : option pyval;
  lc_head_line : option pyval;
  lc_base_ln : option Z;
  lc_head_ln : option Z;
  lc_value : string;
  lc_is_diff : bool;
}.

(** [CreateLineComparisonVisitor.__call__]. *)
Definition create_lines (base_file head_file : option ReportFile.t) (lines : list LineComparison)
    (v : Traverse.visit) : result (list LineComparison) :=
  match Traverse.v_value v with
  | None => Ok lines
  | Some value =>
      base_line ← _get_line base_file (Traverse.v_base v);
      head_line ← _get_line head_file (Traverse.v_head v);
      Ok (lines ++ [mkLineComparison base_line head_line (Traverse.v_base v) (Traverse.v_head v)
                      value (Traverse.v_diff v)])
  end.

(** [coverage_type_map], of what [line_type] returned. *)
Definition coverage_type_map (t : option LineType) : result string :=
  match t with
  | Some hit => Ok "hits"
  | Some miss => Ok "misses"
  | Some partial_line => Ok "partials"
  | Some skipped | None => Err KeyError
  end.

Definition counter_add (k : string) (n : Z) (summary : odict string Z) : odict string Z :=
  od_set k (default 0 (od_get k summary) + n) summary.

Definition _update_summary (summary : odict string Z) (base_line head_line : pyval)
    : result (odict string Z) :=
  tb ← line_type_of base_line;
  kb ← coverage_type_map tb;
  let summary := counter_add kb (-1) summary in
  th ← line_type_of head_line;
  kh ← coverage_type_map th;
  Ok (counter_add kh 1 summary).

(** [CreateChangeSummaryVisitor.__call__]. *)
Definition change_summary_visitor (base_file head_file : option ReportFile.t) (summary : odict string Z)
    (v : Traverse.visit) : result (odict string Z) :=
  if _is_added (Traverse.v_value v) || _is_removed (Traverse.v_value v) then Ok summary
  else
    base_line ← _get_line base_file (Traverse.v_base v);
    head_line ← _get_line head_file (Traverse.v_head v);
    match base_line, head_line with
    | Some base_line, Some head_line =>
        tb ← line_type_of base_line;
        th ← line_type_of head_line;
        if bool_decide (tb = th) then Ok summary
        else _update_summary summary base_line head_line
    | _, _ => Ok summary
    end.

(** ** [LineComparison] *)

Definition added (l : LineComparison) : bool := lc_is_diff l && _is_added (Some (lc_value l)).
Definition removed (l : LineComparison) : bool := lc_is_diff l && _is_removed (Some (lc_value l)).

Definition number_base (l : LineComparison) : option Z := if added l then None else lc_base_ln l.
Definition number_head (l : LineComparison) : option Z := if removed l then None else lc_head_ln l.

(** [None if gone or not line else line_type(line[0])]. *)
Definition coverage_of (gone : bool) (line : option pyval) : result (option LineType) :=
  match line with
  | Some v => if gone || negb (truthy v) then Ok None else line_type_of v
  | None => Ok None
  end.

(** [coverage["base"]] and [coverage["head"]]. *)
Definition coverage (l : LineComparison) : result (option LineType * option LineType) :=
  b ← coverage_of (added l) (lc_base_line l);
  h ← coverage_of (removed l) (lc_head_line l);
  Ok (b, h).

Definition head_line_sessions (l : LineComparison) : result (option (list pyval)) :=
  match lc_head_line l with
  | None => Ok None
  | Some (VList line) =>
      s ← list_item line 2;
      match s with
      | VNone => Ok None
      | VList ss => Ok (Some ss)
      | _ => Err Unmodelled
      end
  | Some _ => Err Unmodelled
  end.

(** [id, coverage, *rest = session], with the type of the coverage. *)
Definition session_hit (session : pyval) : result (pyval * bool) :=
  match session with
  | VList (id :: c :: _) =>
      c ← cov_of_val c; t ← line_type c; Ok (id, bool_decide (t = Some hit))
  | VList _ => Err ValueError
  | VNone | VBool _ | VInt _ | VFloat _ => Err TypeError
  | VStr _ | VDict _ => Err Unmodelled
  end.

Definition hit_session_ids (l : LineComparison) : result (option (list pyval)) :=
  ss ← head_line_sessions l;
  match ss with
  | None => Ok None
  | Some ss =>
      hs ← traverse session_hit ss;
      match (filter (fun h => h.2 = true) hs).*1 with
      | [] => Ok None
      | ids => Ok (Some ids)
      end
  end.

Definition hit_count (l : LineComparison) : result (option Z) :=
  ss ← head_line_sessions l;
  match ss with
  | None => Ok None
  | Some ss =>
      hs ← traverse session_hit ss;
      let hit_count := Z.of_nat (length (filter (fun h => h.2 = true) hs)) in
      Ok (if 0 <? hit_count then Some hit_count else None)
  end.
End visitors.

(** ** [Segment] *)

Module Segment.

Definition padding_lines : Z := 3.
Definition line_distance : Z := 6.

Definition of_interest (line : LineComparison) : result bool :=
  '(b, h) ← coverage line; Ok (negb (bool_decide (b = h)) || added line || removed line).

(** The indices, in order, of the lines that changed. *)
Fixpoint line_numbers (idx : Z) (lines : list LineComparison) : result (list Z) :=
  match lines with
  | [] => Ok []
  | line :: lines' =>
      i ← of_interest line;
      rest ← line_numbers (idx + 1) lines';
      Ok (if (i : bool) then idx :: rest else rest)
  end.

(** One round over [line_numbers]: the groups so far, the one being filled, its last index. *)
Definition group_step (st : list (list Z) * list Z * option Z) (line_number : Z)
    : list (list Z) * list Z * option Z :=
  let '(done, group, last) := st in
  match last with
  | Some last =>
      if line_number - last <=? line_distance then (done, group ++ [line_number], Some line_number)
      else (done ++ [group], [line_number], Some line_number)
  | None => (done, group ++ [line_number], Some line_number)
  end.

Definition segmented_lines (line_numbers : list Z) : list (list Z) :=
  match line_numbers with
  | [] => []
  | _ => let '(done, group, _) := foldl group_step ([], [], None) line_numbers in done ++ [group]
  end.

(** The bounds of the slice of lines a group gives. *)
Definition segment_bounds (total : Z) (group : list Z) : Z * Z :=
  let start_line_number := Z.max (default 0 (head group) - padding_lines) 0 in
  let end_line_number := Z.min (default 0 (last group) + padding_lines) (total - 1) in
  (start_line_number, end_line_number + 1).

Definition segments (lines : option (list LineComparison)) : result (list (list LineComparison)) :=
  match lines with
  | None => Ok []
  | Some lines =>
      ns ← line_numbers 0 lines;
      Ok ((fun group => let '(a, b) := segment_bounds (Z.of_nat (length lines)) group in
                        ReportFile.py_slice a b lines) <$> segmented_lines ns)
  end.

(** One line of the loop of [header]. *)
Definition header_step (st : option Z * option Z * (Z * Z * Z)) (line : LineComparison)
    : option Z * option Z * (Z * Z * Z) :=
  let '(base_start, head_start, (num_removed, num_added, num_context)) := st in
  let base_start := match base_start with None => number_base line | s => s end in
  let head_start := match head_start with None => number_head line | s => s end in
  (base_start, head_start,
   if added line then (num_removed, num_added + 1, num_context)
   else if removed line then (num_removed + 1, num_added, num_context)
   else (num_removed, num_added, num_context + 1)).

Definition header (lines : list LineComparison) : Z * Z * Z * Z :=
  let '(base_start, head_start, (num_removed, num_added, num_context)) :=
    foldl header_step (None, None, (0, 0, 0)) lines in
  (default 0 base_start, num_context + num_removed, default 0 head_start, num_context + num_added).

Definition has_diff_changes (lines : list LineComparison) : bool :=
  existsb (fun line => added line || removed line) lines.

Fixpoint has_unintended_changes (lines : list LineComparison) : result bool :=
  match lines with
  | [] => Ok false
  | line :: lines' =>
      '(b, h) ← coverage line;
      if negb (added line || removed line) && negb (bool_decide (b = h)) then Ok true
      else has_unintended_changes lines'
  end.

Fixpoint remove_unintended_changes (lines : list LineComparison) : result (list LineComparison) :=
  match lines with
  | [] => Ok []
  | line :: lines' =>
      '(b, h) ← coverage line;
      rest ← remove_unintended_changes lines';
      Ok (if added line || removed line || bool_decide (b = h) then line :: rest else rest)
  end.
End Segment.

(** ** [FileComparison] *)

Definition MAX_DIFF_SIZE : Z := 170.

Module FileComparison.
Record t : Type := mkFileComparison {
  base_file : option ReportFile.t;
  head_file : option ReportFile.t;
  diff_data : option DiffFile;
  src : list string;
  bypass_max_diff : bool;
  should_search_for_changes : option bool;
}.

Section file.
Context `{OrJson}.

Definition total_diff_length (f : t) : Z :=
  match diff_data f with
  | Some d =>
      match df_segments d with
      | Some segs => foldl Z.add 0 ((fun s => Z.of_nat (length (seg_lines s))) <$> segs)
      | None => 0
      end
  | None => 0
  end.

Definition name (f : t) : option string * option string :=
  (ReportFile.rf_name <$> base_file f, ReportFile.rf_name <$> head_file f).

Definition opt_totals (f : option ReportFile.t) : result (option ReportTotals) :=
  match f with Some f => t ← ReportFile.totals f; Ok (Some t) | None => Ok None end.

(** [base], [head] and [diff] of [totals]; the totals of the head get those of the
    diff as their [diff], or [0]. *)
Record comparison_totals : Type := mkComparisonTotals {
  ct_base : option ReportTotals;
  ct_head : option ReportTotals;
  ct_head_diff : option ReportTotals;
  ct_diff : option ReportTotals;
}.

Definition totals (f : t) : result comparison_totals :=
  head_totals ← opt_totals (head_file f);
  let diff_totals :=
    match head_totals, diff_data f with Some _, Some d => df_totals d | _, _ => None end in
  base_totals ← opt_totals (base_file f);
  Ok (mkComparisonTotals base_totals head_totals diff_totals diff_totals).

Definition has_diff (f : t) : bool := bool_decide (is_Some (diff_data f)).
Definition stats (f : t) : option (Z * Z) := diff_data f ≫= df_stats.

Definition opt_eof (f : option ReportFile.t) : result Z :=
  match f with Some f => ReportFile.eof f | None => Ok 0 end.

Definition file_segments (f : t) : list DiffSegment := default [] (diff_data f ≫= df_segments).

(** Both visitors, in their order. *)
Definition visitors (f : t) (st : odict string Z * list LineComparison) (v : Traverse.visit)
    : result (odict string Z * list LineComparison) :=
  summary ← change_summary_visitor (base_file f) (head_file f) st.1 v;
  lines ← create_lines (base_file f) (head_file f) st.2 v;
  Ok (summary, lines).

Definition is_traversed (f : t) : bool :=
  bool_decide (is_Some (diff_data f)) || negb (bool_decide (src f = [])) ||
  negb (bool_decide (should_search_for_changes f = Some false)).

(** [_calculated_changes_and_lines]: the summary of changes and the lines; [None]
    when the traversal takes more than [fuel] rounds. *)
Definition _calculated_changes_and_lines (fuel : nat) (f : t)
    : option (result (odict string Z * list LineComparison)) :=
  if is_traversed f then
    match (h ← opt_eof (head_file f); b ← opt_eof (base_file f);
           Traverse.init h b (file_segments f) (src f)) with
    | Err e => Some (Err e)
    | Ok m => Traverse.apply (visitors f) fuel m ([], [])
    end
  else Some (Ok ([], [])).

Definition change_summary (fuel : nat) (f : t) : option (result (odict string Z)) :=
  fmap (M := option) (fmap fst) (_calculated_changes_and_lines fuel f).

Definition has_changes (fuel : nat) (f : t) : option (result bool) :=
  fmap (M := option) (fmap (fun s => existsb (fun n => negb (n =? 0)) (od_vals s))) (change_summary fuel f).

Definition lines (fuel : nat) (f : t) : option (result (option (list LineComparison))) :=
  if (MAX_DIFF_SIZE <? total_diff_length f) && negb (bypass_max_diff f) then Some (Ok None)
  else fmap (M := option) (fmap (fun r => Some r.2)) (_calculated_changes_and_lines fuel f).

Definition segments (fuel : nat) (f : t) : option (result (list (list LineComparison))) :=
  fmap (M := option) (fun r => ls ← r; Segment.segments ls) (lines fuel f).
End file.
End FileComparison.

(** ** [Comparison] *)

Module Comparison.
(** The two reports as they are built from storage, and the diff of the provider. *)
Record t : Type := mkComparison {
  c_base_report : option Report.t;
  head_report_without_applied_diff : option Report.t;
  c_diff : RawDiff;
}.

Section ops.
Context `{OrJson}.

(** [head_report]: the report with the totals of the diff, and the diff with them;
    an error leaves both as they are. *)
Definition head_report (c : t) : result (option Report.t * RawDiff) :=
  match head_report_without_applied_diff c with
  | None => Ok (None, c_diff c)
  | Some r =>
      match Report.apply_diff r (Some (c_diff c)) true with
      | Ok (_, r', Some d') => Ok (Some r', d')
      | Ok (_, r', None) => Ok (Some r', c_diff c)
      | Err Unmodelled => Err Unmodelled
      | Err _ => Ok (Some r, c_diff c)
      end
  end.

Definition base_file_of (c : t) (file_name : string) (diff_data : option DiffFile) : option ReportFile.t :=
  match c_base_report c with
  | Some r =>
      match Report.get r file_name, diff_data with
      | None, Some d => df_before d ≫= Report.get r
      | f, _ => f
      end
  | None => None
  end.

(** [src] is the text of the file when it was asked for. *)
Definition get_file_comparison (c : t) (file_name : string) (src : option string) (bypass_max_diff : bool)
    : result FileComparison.t :=
  '(head, diff) ← head_report c;
  match head with
  | None => Err AttributeError
  | Some head =>
      let diff_data := od_get file_name (d_files diff) in
      Ok (FileComparison.mkFileComparison (base_file_of c file_name diff_data) (Report.get head file_name)
            diff_data (match src with Some text => splitlines text | None => [] end) bypass_max_diff None)
  end.

Definition files (c : t) : result (list FileComparison.t) :=
  '(head, _) ← head_report c;
  match head with
  | None => Err AttributeError
  | Some head => traverse (fun name => get_file_comparison c name None false) (Report.files head)
  end.

Definition _has_cff_sessions (sessions : odict Z Session) : bool :=
  existsb (fun s => bool_decide (se_type s = carriedforward)) (od_vals sessions).

Definition has_different_number_of_head_and_base_sessions (c : t) : bool :=
  match head_report_without_applied_diff c, c_base_report c with
  | Some head, Some base =>
      let head_sessions := Report.r_sessions head in
      let base_sessions := Report.r_sessions base in
      if _has_cff_sessions head_sessions || _has_cff_sessions base_sessions then false
      else negb (length head_sessions =? length base_sessions)%nat
  | _, _ => false
  end.

Definition opt_totals (r : option Report.t) : result (option ReportTotals) :=
  match r with Some r => t ← Report.totals r; Ok (Some t) | None => Ok None end.

(** [base], [head] and [diff] of [totals]. *)
Definition totals (c : t) : result (option ReportTotals * option ReportTotals * option ReportTotals) :=
  base ← opt_totals (c_base_report c);
  '(head, diff) ← head_report c;
  head ← opt_totals head;
  Ok (base, head, d_totals diff).

Definition non_carried_forward_flags (c : t) : result (list string) :=
  '(head, _) ← head_report c;
  match head with
  | None => Err AttributeError
  | Some r => Ok (omap (M := list) (fun kv => if Report.fl_carriedforward kv.2 then None else Some kv.1) (Report.flags r))
  end.

(** [FlagComparison(self, name).diff_totals]. *)
Definition flag_diff_totals `{Re} (c : t) (flag_name : string) : result (option ReportTotals) :=
  '(head, diff) ← head_report c;
  match head with
  | None => Err AttributeError
  | Some r =>
      match od_get flag_name (Report.flags r) with
      | None => Ok None
      | Some _ => flag_apply_diff r flag_name (Some diff)
      end
  end.
End ops.
End Comparison.

(** ** The comparison of a pull request *)

Module PullRequestComparison.
Section pull.
Context `{OrJson}.

(** [files]: the file comparisons, with the names stored in the cache, those of the
    files that have a summary of changes. *)
Fixpoint cache_files (fuel : nat) (fs : list FileComparison.t)
    : option (result (list (option string))) :=
  match fs with
  | [] => Some (Ok [])
  | f :: fs' =>
      match FileComparison.change_summary fuel f with
      | None => None
      | Some (Err e) => Some (Err e)
      | Some (Ok summary) =>
          fmap (M := option) (fun rest => rest ← rest;
            Ok (match summary with [] => rest | _ => snd (FileComparison.name f) :: rest end))
            (cache_files fuel fs')
      end
  end.

(** [get_file_comparison], the cached names being [files_with_changes]. *)
Definition get_file_comparison (c : Comparison.t) (files_with_changes : option (list (option string)))
    (file_name : string) (src : option string) (bypass_max_diff : bool) : result FileComparison.t :=
  f ← Comparison.get_file_comparison c file_name src bypass_max_diff;
  Ok (FileComparison.mkFileComparison (FileComparison.base_file f) (FileComparison.head_file f)
        (FileComparison.diff_data f) (FileComparison.src f) (FileComparison.bypass_max_diff f)
        ((fun names => bool_decide (Some file_name ∈ names)) <$> files_with_changes)).

(** [walk(_dict, keys, _else)]: any error gives [_else]. *)
Definition walk (d : pyval) (keys : list string) (_else : pyval) : pyval :=
  match read_path d keys with Ok v => v | Err _ => _else end.

Definition is_pseudo_comparison (repo_yaml site_allows : pyval) (compared_to : option string) : bool :=
  truthy (walk repo_yaml ["codecov"; "allow_pseudo_compare"] site_allows) &&
  match compared_to with Some c => negb (bool_decide (c = "")) | None => false end.

(** [base] and [compared_to] are those of the pull; [pseudo_diff] is the diff between
    them.  The head report is returned as the comparison leaves it. *)
Definition pseudo_diff_adjusts_tracked_lines (c : Comparison.t) (is_pseudo : bool)
    (base compared_to : option string) (pseudo_diff : option RawDiff) : result bool :=
  if is_pseudo && negb (bool_decide (base = compared_to)) then
    match Comparison.c_base_report c with
    | None => Ok false
    | Some base_report =>
        '(head, diff) ← Comparison.head_report c;
        match head, pseudo_diff with
        | Some head, Some pd =>
            if bool_decide (d_files pd = []) then Ok false
            else '(b, _) ← Report.does_diff_adjust_tracked_lines base_report (Some pd) head (Some diff); Ok b
        | _, _ => Ok false
        end
    end
  else Ok false.

Definition update_base_report_with_pseudo_diff (base_report : Report.t) (pseudo_diff : option RawDiff)
    : result Report.t := Report.shift_lines_by_diff base_report pseudo_diff.
End pull.
End PullRequestComparison.

(** ** [CommitComparisonService]

    Times are instants; a naive one is read as UTC. *)
Definition _last_updated_before (updated_at : Z) (timestamp : option Z) : bool :=
  match timestamp with Some t => updated_at <? t | None => false end.

Definition needs_recompute (updated_at : Z) (compare_updatestamp base_updatestamp : option Z) : bool :=
  if _last_updated_before updated_at compare_updatestamp then true
  else _last_updated_before updated_at base_updatestamp.

(** ** The comparison the worker stored *)

Module ImpactedFile.
Record t : Type := mkImpacted {
  base_name : option string;
  head_name : option string;
  file_was_added_by_diff : bool;
  file_was_removed_by_diff : bool;
  base_coverage : option ReportTotals;
  head_coverage : option ReportTotals;
  added_diff_coverage : option (list (Z * string));
  removed_diff_coverage : option (list (Z * string));
  unexpected_line_changes : option (list ((Z * string) * (Z * string)));
  lines_only_on_base : list Z;
  lines_only_on_head : list Z;
}.

Definition with_coverage (c : tcov) (t : ReportTotals) : ReportTotals :=
  mkTotals (rt_files t) (rt_lines t) (rt_hits t) (rt_misses t) (rt_partials t) c
    (rt_branches t) (rt_methods t) (rt_messages t) (rt_sessions t)
    (rt_complexity t) (rt_complexity_total t) (rt_diff t).

(** [Totals.__post_init__]: the coverage is a float computed from the counts. *)
Definition Totals_post_init (t : ReportTotals) : result ReportTotals :=
  let nb_branches := rt_hits t + rt_misses t + rt_partials t in
  if 0 <? nb_branches then c ← int_truediv (100 * rt_hits t) nb_branches; Ok (with_coverage (TcFloat c) t)
  else Ok (with_coverage TcNone t).

Definition totals_of (coverage : option ReportTotals) : result (option ReportTotals) :=
  match coverage with Some t => t ← Totals_post_init t; Ok (Some t) | None => Ok None end.

(** [create], given the counts of the stored dictionaries. *)
Definition create (f : t) : result t :=
  b ← totals_of (base_coverage f);
  h ← totals_of (head_coverage f);
  Ok (mkImpacted (base_name f) (head_name f) (file_was_added_by_diff f) (file_was_removed_by_diff f) b h
        (added_diff_coverage f) (removed_diff_coverage f) (unexpected_line_changes f)
        (lines_only_on_base f) (lines_only_on_head f)).

Definition nonempty {A} (o : option (list A)) : bool :=
  match o with Some (_ :: _) => true | _ => false end.

Definition has_diff (f : t) : bool :=
  nonempty (added_diff_coverage f) || nonempty (removed_diff_coverage f) ||
  file_was_added_by_diff f || file_was_removed_by_diff f.

Definition has_changes (f : t) : bool := nonempty (unexpected_line_changes f).

Definition count_with {A} (p : A -> bool) (l : list A) : Z := Z.of_nat (length (List.filter p l)).

Definition _unintended_misses_count (f : t) : Z :=
  count_with (fun c => bool_decide (c.2.2 = "m")) (default [] (unexpected_line_changes f)).

Definition _direct_misses_count (f : t) : Z :=
  count_with (fun c => bool_decide (c.2 = "m")) (default [] (added_diff_coverage f)).

Definition misses_count (f : t) : Z := _direct_misses_count f + _unintended_misses_count f.

(** The counts of the lines of the diff, and their ratio. *)
Definition patch_coverage (f : t) : result (option ReportTotals) :=
  match added_diff_coverage f with
  | Some (c :: cs) =>
      let count k := count_with (fun x => bool_decide (x.2 = k)) (c :: cs) in
      t ← Totals_post_init
            (mkTotals 0 0 (count "h") (count "m") (count "p") (TcInt 0) 0 0 0 0 (Some 0) (Some 0) (VInt 0));
      Ok (Some t)
  | _ => Ok None
  end.

(** The coverage of totals made by [Totals_post_init], when it is not [0]. *)
Definition coverage_float (t : option ReportTotals) : option b64 :=
  match rt_coverage <$> t with
  | Some (TcFloat c) => if fman c =? 0 then None else Some c
  | _ => None
  end.

Definition change_coverage (f : t) : option b64 :=
  match coverage_float (base_coverage f), coverage_float (head_coverage f) with
  | Some b, Some h => Some (f_sub h b)
  | _, _ => None
  end.

Definition file_name (f : t) : option string :=
  match head_name f with
  | Some n => if bool_decide (n = "") then None else last (split "/" n)
  | None => None
  end.
End ImpactedFile.

(** [ComparisonReport]. *)
Definition impacted_file (files : list ImpactedFile.t) (path : string) : option ImpactedFile.t :=
  List.find (fun f => bool_decide (ImpactedFile.head_name f = Some path)) files.

Definition impacted_files_with_unintended_changes (files : list ImpactedFile.t) : list ImpactedFile.t :=
  List.filter ImpactedFile.has_changes files.

Definition impacted_files_with_direct_changes (files : list ImpactedFile.t) : list ImpactedFile.t :=
  List.filter (fun f => ImpactedFile.has_diff f || negb (ImpactedFile.has_changes f)) files.
