(* ===== verification/ComparisonSpec.v ===== *)
(** * What the comparison of two versions of a file shows

    The specification is the diff of the two texts: [diff_of] says that the
    segments turn the old lines into the new ones, [aligned] that a sequence of
    visits pairs them line by line.  The traversal makes such a sequence, the
    summary of changes counts over it, and the segments of lines cover it. *)
From S2P Require Export Comparison.
From S2P Require Import JsonCodec.
#[local] Open Scope string_scope.
#[local] Open Scope Z_scope.
#[local] Open Scope list_scope.
Import Traverse.

(** ** Diffs and alignments *)

(** [edit_lines ls old new]: the lines of a segment turn [old] into [new]. *)
Inductive edit_lines : list string -> list string -> list string -> Prop :=
  | edit_nil : edit_lines [] [] []
  | edit_removed l ls old new : edit_lines ls old new -> edit_lines (String "-" l :: ls) (l :: old) new
  | edit_added l ls old new : edit_lines ls old new -> edit_lines (String "+" l :: ls) old (l :: new)
  | edit_kept l ls old new : edit_lines ls old new -> edit_lines (String " " l :: ls) (l :: old) (l :: new).

Definition header_says (seg : DiffSegment) (bo bc ho hc : Z) : Prop :=
  offset_at 0 seg = Ok bo /\ count_at 1 seg = Ok bc /\ offset_at 2 seg = Ok ho /\ count_at 3 seg = Ok hc.

(** [diff_of b h segs old new]: the segments, in order, turn the lines [old], which
    begin at line [b] of the old version, into [new], which begin at line [h]. *)
Inductive diff_of : Z -> Z -> list DiffSegment -> list string -> list string -> Prop :=
  | diff_end b h rest : diff_of b h [] rest rest
  | diff_hunk b h seg segs gap old new old' new' :
      header_says seg (b + Z.of_nat (length gap)) (Z.of_nat (length old))
        (h + Z.of_nat (length gap)) (Z.of_nat (length new)) ->
      seg_lines seg <> [] ->
      edit_lines (seg_lines seg) old new ->
      diff_of (b + Z.of_nat (length gap) + Z.of_nat (length old))
        (h + Z.of_nat (length gap) + Z.of_nat (length new)) segs old' new' ->
      diff_of b h (seg :: segs) (gap ++ old ++ old') (gap ++ new ++ new').

(** The number of the first line of a version: hunks count from [0] on an empty side. *)
Definition first_line (text : list string) : Z := match text with [] => 0 | _ => 1 end.

(** Visits that pair the lines of both versions; [shown] is what a visit outside
    the diff shows of a line. *)
Inductive aligned (shown : string -> option string) : Z -> Z -> list string -> list string -> list visit -> Prop :=
  | al_nil b h : aligned shown b h [] [] []
  | al_same b h l old new vs :
      aligned shown (b + 1) (h + 1) old new vs ->
      aligned shown b h (l :: old) (l :: new) (mkVisit (Some b) (Some h) (shown l) false :: vs)
  | al_kept b h l old new vs :
      aligned shown (b + 1) (h + 1) old new vs ->
      aligned shown b h (l :: old) (l :: new) (mkVisit (Some b) (Some h) (Some (String " " l)) true :: vs)
  | al_removed b h l old new vs :
      aligned shown (b + 1) h old new vs ->
      aligned shown b h (l :: old) new (mkVisit (Some b) None (Some (String "-" l)) true :: vs)
  | al_added b h l old new vs :
      aligned shown b (h + 1) old new vs ->
      aligned shown b h old (l :: new) (mkVisit None (Some h) (Some (String "+" l)) true :: vs).

(** ** Runs of the loop *)

Inductive steps : t -> list visit -> t -> Prop :=
  | steps_nil m : steps m [] m
  | steps_cons m v m1 vs m' :
      traverse_finished m = false -> round m = Ok (v, m1) -> steps m1 vs m' -> steps m (v :: vs) m'.

Lemma steps_app m vs m1 ws m' : steps m vs m1 -> steps m1 ws m' -> steps m (vs ++ ws) m'.
Proof. induction 1; [done|]. intros Hw. cbn. econstructor; eauto. Qed.

Lemma steps_apply {S} (visitor : S -> visit -> result S) m vs m' :
  steps m vs m' -> traverse_finished m' = true ->
  forall fuel s, (length vs < fuel)%nat -> apply visitor fuel m s = Some (foldM visitor s vs).
Proof.
  intros Hs Hf. induction Hs as [m|m v m1 vs m' Hn Hr Hs IH]; intros [|fuel] s Hl; cbn in Hl; try lia.
  - cbn. by rewrite Hf.
  - cbn. rewrite Hn, Hr. destruct (visitor s v) as [s'|e]; cbn; [|done]. apply IH; [done | lia].
Qed.

Section runs.
Variables he be : Z.
Variable with_src : bool.
Variable text : list string.  (* the new version *)
#[local] Notation shown := (fun l : string => if with_src then Some l else None).

Definition at_line (b h : Z) (segs : list DiffSegment) : t := mkTraverse he be segs (if with_src then text else []) b h.

Lemma within_before seg i j o ln :
  offset_at i seg = Ok o -> ln < o -> within_offset i j ln seg = Ok false.
Proof. intros Ho Hl. unfold within_offset. rewrite Ho. cbn. by rewrite (proj2 (Z.leb_gt _ _)) by lia. Qed.

Lemma within_after seg i j o n ln :
  offset_at i seg = Ok o -> count_at j seg = Ok n -> o <= ln -> within_offset i j ln seg = Ok (ln <? o + n).
Proof. intros Ho Hc Hl. unfold within_offset. rewrite Ho. cbn. rewrite (proj2 (Z.leb_le _ _)) by lia. by rewrite Hc. Qed.

Definition ahead (b h : Z) (segs : list DiffSegment) : Prop :=
  match segs with
  | [] => True
  | seg :: _ => exists bo ho, offset_at 0 seg = Ok bo /\ offset_at 2 seg = Ok ho /\ b < bo /\ h < ho /\ seg_lines seg <> []
  end.

Lemma ahead_outside b h segs : ahead b h segs -> traversing_diff (at_line b h segs) = Ok false.
Proof.
  destruct segs as [|seg segs]; [done|]. intros (bo & ho & Hb & Hh & ? & ? & _).
  unfold traversing_diff. cbn [segments at_line base_ln head_ln].
  rewrite (within_before _ _ _ _ _ Hb), (within_before _ _ _ _ _ Hh) by done. done.
Qed.

Lemma ahead_kept b h b' h' segs :
  ahead b h segs -> drop_visited (with_lns b' h' (at_line b h segs)) = at_line b' h' segs.
Proof.
  destruct segs as [|seg segs]; [done|]. intros (bo & ho & _ & _ & _ & _ & Hn).
  unfold drop_visited. cbn. by destruct (seg_lines seg).
Qed.

Lemma round_gap b h segs l :
  text !! Z.to_nat (h - 1) = Some l -> 1 <= h -> ahead b h segs ->
  round (at_line b h segs) = Ok (mkVisit (Some b) (Some h) (shown l) false, at_line (b + 1) (h + 1) segs).
Proof.
  intros Hl Hh Ha. pose proof (ahead_outside _ _ _ Ha) as Ht.
  assert (Hp : pop_line (at_line b h segs) = Ok (shown l, at_line b h segs)).
  { unfold pop_line. rewrite Ht. cbn [mbind result_bind segments src at_line head_ln].
    destruct with_src.
    - unfold Report.py_index. rewrite (proj2 (Z.ltb_ge (h - 1) 0)) by lia. cbv zeta.
      rewrite (proj2 (Z.ltb_ge (h - 1) 0)), Hl by lia.
      destruct text; [by rewrite lookup_nil in Hl|]. by destruct segs.
    - by destruct segs. }
  unfold round. rewrite Hp. cbn [mbind result_bind]. rewrite Ht. cbn [mbind result_bind].
  unfold visit_at, advance. cbn [andb]. by rewrite (ahead_kept _ _ _ _ _ Ha).
Qed.

(** Lines outside the segments, [gap], from position [h] of the text. *)
Lemma steps_gap gap b h segs :
  (forall k l, gap !! k = Some l -> text !! Z.to_nat (h - 1 + Z.of_nat k) = Some l) -> 1 <= h ->
  (forall k, (k < length gap)%nat -> ahead (b + Z.of_nat k) (h + Z.of_nat k) segs /\
     traverse_finished (at_line (b + Z.of_nat k) (h + Z.of_nat k) segs) = false) ->
  exists vs, steps (at_line b h segs) vs (at_line (b + Z.of_nat (length gap)) (h + Z.of_nat (length gap)) segs) /\
    forall old new ws, aligned shown (b + Z.of_nat (length gap)) (h + Z.of_nat (length gap)) old new ws ->
      aligned shown b h (gap ++ old) (gap ++ new) (vs ++ ws).
Proof.
  revert b h. induction gap as [|l gap IH]; intros b h Hx Hh Ha.
  - exists []. cbn. rewrite !Z.add_0_r. split; [constructor | done].
  - destruct (IH (b + 1) (h + 1)) as (vs & Hs & Hal).
    + intros k l' Hk. replace (h + 1 - 1 + Z.of_nat k) with (h - 1 + Z.of_nat (Datatypes.S k)) by lia. by apply Hx.
    + lia.
    + intros k Hk. destruct (Ha (Datatypes.S k)) as [H1 H2]; [cbn; lia|].
      replace (b + Z.of_nat (Datatypes.S k)) with (b + 1 + Z.of_nat k) in * by lia.
      by replace (h + Z.of_nat (Datatypes.S k)) with (h + 1 + Z.of_nat k) in * by lia.
    + destruct (Ha 0%nat) as [H1 H2]; [cbn; lia|]. rewrite !Z.add_0_r in *.
      exists (mkVisit (Some b) (Some h) (shown l) false :: vs).
      replace (b + Z.of_nat (length (l :: gap))) with (b + 1 + Z.of_nat (length gap)) by (cbn; lia).
      replace (h + Z.of_nat (length (l :: gap))) with (h + 1 + Z.of_nat (length gap)) by (cbn; lia).
      split.
      * econstructor; [done| |exact Hs]. apply round_gap; [|done..].
        specialize (Hx 0%nat l eq_refl). by rewrite Z.add_0_r in Hx.
      * intros old new ws Hw. cbn. constructor. by apply Hal.
Qed.

(** Inside a segment: what is left of it is [ls], of [old] and [new] lines. *)
Lemma inside_segment hd ls segs bo bc ho hc b h old new :
  header_says (mkSegment hd ls) bo bc ho hc -> bo <= b -> ho <= h ->
  b + Z.of_nat (length old) = bo + bc -> h + Z.of_nat (length new) = ho + hc ->
  edit_lines ls old new -> ls <> [] ->
  forall ls', traversing_diff (at_line b h (mkSegment hd ls' :: segs)) = Ok true.
Proof.
  intros Hs ? ? Eb Eh Hed Hne ls'. change (header_says (mkSegment hd ls') bo bc ho hc) in Hs.
  destruct Hs as (Hb & Hbc & Hh & Hhc). unfold traversing_diff. cbn [segments at_line base_ln head_ln].
  rewrite (within_after _ _ _ _ _ _ Hb Hbc), (within_after _ _ _ _ _ _ Hh Hhc) by done.
  cbn [mbind result_bind]. f_equal. apply orb_true_iff. rewrite !Z.ltb_lt.
  destruct Hed; [done | | |]; cbn [length] in *; lia.
Qed.

Lemma steps_hunk hd segs bo bc ho hc :
  forall ls old new, edit_lines ls old new -> ls <> [] ->
  forall b h, header_says (mkSegment hd ls) bo bc ho hc -> bo <= b -> ho <= h ->
  b + Z.of_nat (length old) = bo + bc -> h + Z.of_nat (length new) = ho + hc ->
  exists vs,
    steps (at_line b h (mkSegment hd ls :: segs)) vs
      (at_line (b + Z.of_nat (length old)) (h + Z.of_nat (length new)) segs) /\
    forall old' new' ws, aligned shown (b + Z.of_nat (length old)) (h + Z.of_nat (length new)) old' new' ws ->
      aligned shown b h (old ++ old') (new ++ new') (vs ++ ws).
Proof.
  assert (Hr : forall l ls old new b h, header_says (mkSegment hd (l :: ls)) bo bc ho hc -> bo <= b -> ho <= h ->
    b + Z.of_nat (length old) = bo + bc -> h + Z.of_nat (length new) = ho + hc -> edit_lines (l :: ls) old new ->
    round (at_line b h (mkSegment hd (l :: ls) :: segs)) =
    Ok (visit_at (at_line b h []) (Some l) true,
        drop_visited (advance (Some l) true (at_line b h (mkSegment hd ls :: segs))))).
  { intros l ls old new b h Hs Hb Hh Eb Eh Hed.
    pose proof (inside_segment _ _ segs _ _ _ _ _ _ _ _ Hs Hb Hh Eb Eh Hed ltac:(done)) as Ht.
    assert (Hp : pop_line (at_line b h (mkSegment hd (l :: ls) :: segs)) =
                 Ok (Some l, at_line b h (mkSegment hd ls :: segs))) by (unfold pop_line; by rewrite Ht).
    unfold round. rewrite Hp. cbn [mbind result_bind]. by rewrite Ht. }
  assert (Hd : forall b h ls, drop_visited (at_line b h (mkSegment hd ls :: segs)) =
                at_line b h (match ls with [] => segs | _ => mkSegment hd ls :: segs end)).
  { intros b h [|]; done. }
  assert (Hdone : forall ls old new b h, edit_lines ls old new ->
    (ls <> [] -> exists vs, steps (at_line b h (mkSegment hd ls :: segs)) vs
       (at_line (b + Z.of_nat (length old)) (h + Z.of_nat (length new)) segs) /\
       forall old' new' ws, aligned shown (b + Z.of_nat (length old)) (h + Z.of_nat (length new)) old' new' ws ->
         aligned shown b h (old ++ old') (new ++ new') (vs ++ ws)) ->
    exists vs, steps (at_line b h (match ls with [] => segs | _ => mkSegment hd ls :: segs end)) vs
       (at_line (b + Z.of_nat (length old)) (h + Z.of_nat (length new)) segs) /\
       forall old' new' ws, aligned shown (b + Z.of_nat (length old)) (h + Z.of_nat (length new)) old' new' ws ->
         aligned shown b h (old ++ old') (new ++ new') (vs ++ ws)).
  { intros ls old new b h Hed Hx. destruct Hed; [|by apply Hx..].
    exists []. cbn. rewrite !Z.add_0_r. split; [constructor | done]. }
  induction 1 as [|l ls old new Hed IH|l ls old new Hed IH|l ls old new Hed IH]; intros Hne b h Hs Hb Hh Eb Eh;
    [done|..].
  - edestruct (Hdone ls old new (b + 1) h Hed) as (vs & Hst & Hal).
    { intros Hls. apply IH; cbn in *; [done|done|lia..]. }
    exists (mkVisit (Some b) None (Some (String "-" l)) true :: vs).
    replace (b + Z.of_nat (length (l :: old))) with (b + 1 + Z.of_nat (length old)) by (cbn; lia). split.
    + econstructor; [done| |exact Hst]. erewrite Hr by (try done; by constructor). exact (f_equal (fun m => Ok (_, m)) (Hd _ _ _)).
    + intros. cbn. constructor. by apply Hal.
  - edestruct (Hdone ls old new b (h + 1) Hed) as (vs & Hst & Hal).
    { intros Hls. apply IH; cbn in *; [done|done|lia..]. }
    exists (mkVisit None (Some h) (Some (String "+" l)) true :: vs).
    replace (h + Z.of_nat (length (l :: new))) with (h + 1 + Z.of_nat (length new)) by (cbn; lia). split.
    + econstructor; [done| |exact Hst]. erewrite Hr by (try done; by constructor). exact (f_equal (fun m => Ok (_, m)) (Hd _ _ _)).
    + intros. cbn. constructor. by apply Hal.
  - edestruct (Hdone ls old new (b + 1) (h + 1) Hed) as (vs & Hst & Hal).
    { intros Hls. apply IH; cbn in *; [done|done|lia..]. }
    exists (mkVisit (Some b) (Some h) (Some (String " " l)) true :: vs).
    replace (b + Z.of_nat (length (l :: old))) with (b + 1 + Z.of_nat (length old)) by (cbn; lia).
    replace (h + Z.of_nat (length (l :: new))) with (h + 1 + Z.of_nat (length new)) by (cbn; lia). split.
    + econstructor; [done| |exact Hst]. erewrite Hr by (try done; by constructor). exact (f_equal (fun m => Ok (_, m)) (Hd _ _ _)).
    + intros. cbn. constructor. by apply Hal.
Qed.
(** Where the traversal ends: after the text, or after both files. *)
Definition ends_at (b h : Z) (old new : list string) : Prop :=
  if with_src then h + Z.of_nat (length new) = 1 + Z.of_nat (length text)
  else h + Z.of_nat (length new) = he /\ b + Z.of_nat (length old) = be.

Definition text_from (h : Z) (new : list string) : Prop :=
  forall k l, new !! k = Some l -> 1 <= h /\ text !! Z.to_nat (h - 1 + Z.of_nat k) = Some l.

Lemma text_from_app h pre new : text_from h (pre ++ new) -> text_from (h + Z.of_nat (length pre)) new.
Proof.
  intros Hx k l Hk. destruct (Hx (length pre + k)%nat l) as [H1 H2].
  { rewrite lookup_app_r by lia. rewrite <- Hk. f_equal. lia. }
  split; [lia|]. rewrite <- H2. f_equal. lia.
Qed.

Lemma unfinished_tail b h old rest k :
  ends_at b h old rest -> (k < length rest)%nat -> length old = length rest -> text_from h rest ->
  traverse_finished (at_line (b + Z.of_nat k) (h + Z.of_nat k) []) = false.
Proof.
  unfold ends_at, traverse_finished. cbn. intros He Hk Hl Hx. destruct with_src.
  - destruct rest as [|l rest]; cbn in Hk; [lia|].
    destruct (Hx 0%nat l eq_refl) as [_ H2]. destruct text; [by rewrite lookup_nil in H2|].
    apply Z.ltb_ge. cbn [length] in *. lia.
  - apply andb_false_iff. left. apply Z.leb_gt. lia.
Qed.

Lemma steps_gap_from gap b h segs new :
  text_from h (gap ++ new) ->
  (forall k, (k < length gap)%nat -> ahead (b + Z.of_nat k) (h + Z.of_nat k) segs /\
     traverse_finished (at_line (b + Z.of_nat k) (h + Z.of_nat k) segs) = false) ->
  exists vs, steps (at_line b h segs) vs (at_line (b + Z.of_nat (length gap)) (h + Z.of_nat (length gap)) segs) /\
    forall old new ws, aligned shown (b + Z.of_nat (length gap)) (h + Z.of_nat (length gap)) old new ws ->
      aligned shown b h (gap ++ old) (gap ++ new) (vs ++ ws).
Proof.
  intros Hx Ha. destruct gap as [|l gap].
  - exists []. cbn. rewrite !Z.add_0_r. split; [constructor | done].
  - apply steps_gap; [|by destruct (Hx 0%nat l eq_refl)|done].
    intros k l' Hk. apply Hx. by apply lookup_app_l_Some.
Qed.

Lemma steps_diff b h segs old new :
  diff_of b h segs old new -> text_from h new -> ends_at b h old new ->
  exists vs b' h', steps (at_line b h segs) vs (at_line b' h' []) /\
    b' = b + Z.of_nat (length old) /\ h' = h + Z.of_nat (length new) /\ aligned shown b h old new vs.
Proof.
  induction 1 as [b h rest|b h seg segs gap old new old' new' Hs Hne Hed Hd IH]; intros Hx He.
  - destruct (steps_gap_from rest b h [] []) as (vs & Hst & Hal); [by rewrite app_nil_r| |].
    { intros k Hk. split; [done|]. by eapply unfinished_tail. }
    eexists vs, _, _. split; [done|]. split; [done|]. split; [done|].
    rewrite <- (app_nil_r rest), <- (app_nil_r vs). apply Hal. constructor.
  - destruct (steps_gap_from gap b h (seg :: segs) (new ++ new')) as (vs & Hst & Hal); [done| |].
    { intros k Hk. split; [|done]. destruct Hs as (Hb & _ & Hh & _). eexists _, _. repeat split; [done..|lia|lia|done]. }
    destruct seg as [hd ls].
    destruct (steps_hunk hd segs _ _ _ _ ls old new Hed Hne _ _ Hs ltac:(reflexivity) ltac:(reflexivity) eq_refl eq_refl)
      as (vs2 & Hst2 & Hal2).
    destruct IH as (vs3 & b' & h' & Hst3 & Eb & Eh & Hal3).
    + apply text_from_app in Hx. by apply text_from_app in Hx.
    + unfold ends_at in *. destruct with_src; rewrite !length_app in He; lia.
    + exists (vs ++ vs2 ++ vs3), b', h'. split; [eauto using steps_app|].
      rewrite !length_app. split; [lia|]. split; [lia|]. by apply Hal, Hal2.
Qed.
End runs.

Lemma init_at he be with_src segs old new :
  diff_of (first_line old) (first_line new) segs old new -> segs <> [] ->
  init he be segs (if with_src : bool then new else []) =
  Ok (at_line he be with_src new (first_line old) (first_line new) segs).
Proof.
  intros Hd Hne. inversion Hd as [|? ? seg segs' gap o n o' n' (Hb & _ & Hh & _) _ _ _ E1 E2 E3]; subst; [done|].
  unfold init. rewrite Hb. cbn [mbind result_bind]. rewrite Hh. cbn [mbind result_bind]. unfold at_line. do 2 f_equal.
  - destruct gap; cbn; [destruct (o ++ o')|]; cbn; lia.
  - destruct gap; cbn; [destruct (n ++ n')|]; cbn; lia.
Qed.

Lemma traverse_run (with_src : bool) he be segs old new :
  diff_of (first_line old) (first_line new) segs old new ->
  (if with_src then new <> []
   else he = first_line new + Z.of_nat (length new) /\ be = first_line old + Z.of_nat (length old)) ->
  exists vs m, init he be segs (if with_src then new else []) = Ok m /\
    aligned (fun l => if with_src then Some l else None) (first_line old) (first_line new) old new vs /\
    forall S (visitor : S -> visit -> result S) s fuel, (length vs < fuel)%nat ->
      apply visitor fuel m s = Some (foldM visitor s vs).
Proof.
  intros Hd He.
  destruct (decide (segs = [] /\ new = [])) as [[-> ->]|Hn].
  { inversion Hd; subst. destruct with_src; [done|]. exists [], (mkTraverse he be [] [] 1 1).
    split; [done|]. split; [constructor|]. intros S visitor s [|fuel] Hl; cbn in Hl; [lia|].
    destruct He as [-> ->]. done. }
  assert (Hm : init he be segs (if with_src then new else []) =
               Ok (at_line he be with_src new (first_line old) (first_line new) segs)).
  { destruct segs as [|seg segs]; [|by apply init_at]. inversion Hd; subst. destruct new; [by destruct Hn|done]. }
  destruct (steps_diff he be with_src new _ _ segs old new Hd) as (vs & b' & h' & Hst & -> & -> & Hal).
  - intros k l Hk. destruct new as [|l0 new]; [by rewrite lookup_nil in Hk|]. cbn [first_line]. split; [lia|].
    rewrite <- Hk. f_equal. lia.
  - unfold ends_at. destruct with_src; [destruct new; [done | cbn; lia] | lia].
  - eexists vs, _. split; [exact Hm|]. split; [exact Hal|]. intros S visitor s fuel Hl.
    eapply steps_apply; [exact Hst| |exact Hl]. unfold traverse_finished. cbn. destruct with_src.
    + destruct new; [done|]. apply Z.ltb_lt. cbn [first_line]. lia.
    + apply andb_true_iff. rewrite !Z.leb_le. lia.
Qed.

(** C15: A traversal of a file along the diff of its two versions, with the text of
    the new one or without, ends and visits an alignment of the versions: every
    line of each is visited once, in order, a line the diff keeps as a pair.
    [apply] is then the fold of the visitor over these visits. *)
Theorem traverse_aligned (with_src : bool) he be segs old new :
  diff_of (first_line old) (first_line new) segs old new ->
  (if with_src then new <> []
   else he = first_line new + Z.of_nat (length new) /\ be = first_line old + Z.of_nat (length old)) ->
  exists vs m, init he be segs (if with_src then new else []) = Ok m /\
    aligned (fun l => if with_src then Some l else None) (first_line old) (first_line new) old new vs /\
    forall S (visitor : S -> visit -> result S) s fuel, (length vs < fuel)%nat ->
      apply visitor fuel m s = Some (foldM visitor s vs).
Proof. apply traverse_run. Qed.

(** A file of three lines of which one is replaced and one added. *)
Definition example_old : list string := ["a"; "b"; "c"; "d"; "e"; "f"].
Definition example_new : list string := ["a"; "b"; "X"; "Y"; "d"; "e"; "f"].
Definition example_segment : DiffSegment :=
  mkSegment [VStr "2"; VStr "3"; VStr "2"; VStr "4"] [" b"; "-c"; "+X"; "+Y"; " d"].

Lemma example_diff : diff_of 1 1 [example_segment] example_old example_new.
Proof.
  apply (diff_hunk 1 1 example_segment [] ["a"] ["b"; "c"; "d"] ["b"; "X"; "Y"; "d"] ["e"; "f"] ["e"; "f"]);
    [done | done | repeat constructor | constructor].
Qed.

Lemma traverse_aligned_witness :
  exists vs m, init 0 0 [example_segment] example_new = Ok m /\
    aligned Some 1 1 example_old example_new vs /\
    forall S (visitor : S -> visit -> result S) s fuel, (length vs < fuel)%nat ->
      apply visitor fuel m s = Some (foldM visitor s vs).
Proof. apply (traverse_aligned true 0 0 [example_segment] example_old example_new example_diff). discriminate. Defined.

(** ** The summary of changes *)

Section summary.
Context `{OrJson}.






















End summary.

Definition example_lines (counts : list Z) : list ReportFile.slot :=
  (fun n => ReportFile.SList [VInt n; VNone; VList [VList [VInt 0; VInt n]]]) <$> counts.

Definition example_report (counts : list Z) : ReportFile.t :=
  ReportFile.mkFile "f.py" None None None (example_lines counts) [] None None.

Definition example_comparison (src : list string) : FileComparison.t :=
  FileComparison.mkFileComparison (Some (example_report [1; 1; 0; 1; 0; 1])) (Some (example_report [1; 0; 1; 1; 1; 0; 0]))
    (Some (mkDiffFile "modified" None (Some [example_segment]) None None)) src false None.


(** ** Segments of lines *)

Section segments.
Import Segment.

(** A line in which nothing changed, and one in which the code or the coverage did. *)
Definition calm (l : LineComparison) : Prop := of_interest l = Ok false.
Definition stirred (l : LineComparison) : Prop := of_interest l = Ok true.

(** The lines, cut into the segments and what lies between them. *)
Inductive cut_into : list LineComparison -> list (list LineComparison) -> Prop :=
  | cut_end gap : Forall calm gap -> cut_into gap []
  | cut_segment gap seg rest segs :
      Forall calm gap -> Exists stirred seg -> cut_into rest segs ->
      cut_into (gap ++ seg ++ rest) (seg :: segs).

Lemma line_numbers_spec lines : forall idx ns, line_numbers idx lines = Ok ns ->
  StronglySorted Z.lt ns /\
  (forall i, i ∈ ns <-> exists k l, i = idx + Z.of_nat k /\ lines !! k = Some l /\ stirred l) /\
  Forall (fun l => calm l \/ stirred l) lines.
Proof.
  induction lines as [|l lines IH]; intros idx ns Hn; cbn in Hn.
  - injection Hn as <-. split; [constructor|]. split; [|constructor]. intros i. split; [by intros ?%elem_of_nil|].
    by intros (k & l & _ & Hk & _).
  - apply bind_Ok_inv in Hn as (b & Hb & Hn). apply bind_Ok_inv in Hn as (rest & Hr & [= <-]).
    destruct (IH _ _ Hr) as (Hs & Hin & Hall).
    assert (Hrest : forall i, i ∈ rest -> idx < i) by (intros i (k & ? & -> & _)%Hin; lia).
    split; [|split].
    + destruct b; [|done]. constructor; [done|]. apply Forall_forall. intros i Hi. by apply Hrest.
    + intros i. destruct b.
      * rewrite elem_of_cons, Hin. split.
        -- intros [->|(k & x & -> & Hk & Hx)]; [exists 0%nat, l; split; [lia|done] | exists (S k), x; split; [lia|done]].
        -- intros ([|k] & x & -> & Hk & Hx); [left; lia | right; exists k, x; split; [lia|done]].
      * rewrite Hin. split.
        -- intros (k & x & -> & Hk & Hx). exists (S k), x. split; [lia|done].
        -- intros ([|k] & x & -> & Hk & Hx); [|exists k, x; split; [lia|done]].
           injection Hk as <-. unfold stirred in Hx. by rewrite Hb in Hx.
    + constructor; [destruct b; [by right | by left] | done].
Qed.

(** The groups, one being filled. *)
Fixpoint groups_from (last : Z) (group : list Z) (ns : list Z) : list (list Z) :=
  match ns with
  | [] => [group]
  | n :: ns' =>
      if n - last <=? line_distance then groups_from n (group ++ [n]) ns'
      else group :: groups_from n [n] ns'
  end.

Lemma group_steps ns : forall acc group last,
  (let '(d, g, _) := foldl group_step (acc, group, Some last) ns in d ++ [g]) =
  acc ++ groups_from last group ns.
Proof.
  induction ns as [|n ns IH]; intros acc group last; [done|].
  cbn [foldl groups_from group_step]. destruct (_ <=? _); [apply IH|].
  rewrite IH, <- app_assoc. done.
Qed.

Lemma segmented_groups n ns : segmented_lines (n :: ns) = groups_from n [n] ns.
Proof. unfold segmented_lines. cbn [foldl group_step app]. by rewrite group_steps. Qed.

Lemma slice_window {A} (p a b : Z) (l : list A) :
  0 <= p <= a -> a <= b -> b <= Z.of_nat (length l) ->
  drop (Z.to_nat p) l =
  take (Z.to_nat (a - p)) (drop (Z.to_nat p) l) ++ ReportFile.py_slice a b l ++ drop (Z.to_nat b) l.
Proof.
  intros Hp Hab Hb. unfold ReportFile.py_slice. cbv zeta.
  rewrite (proj2 (Z.ltb_ge a 0)), (proj2 (Z.ltb_ge b 0)), !Z.min_l by lia.
  rewrite <- (take_drop (Z.to_nat (a - p)) (drop (Z.to_nat p) l)) at 1. f_equal.
  rewrite drop_drop. replace (Z.to_nat p + Z.to_nat (a - p))%nat with (Z.to_nat a) by lia.
  rewrite <- (take_drop (Z.to_nat (b - a)) (drop (Z.to_nat a) l)) at 1. f_equal.
  rewrite drop_drop. f_equal. lia.
Qed.

Section one.
Variable lines : list LineComparison.
Hypothesis decided : Forall (fun l => calm l \/ stirred l) lines.
Let total := Z.of_nat (length lines).

Definition stirred_at (i : Z) : Prop := exists l, 0 <= i /\ lines !! Z.to_nat i = Some l /\ stirred l.
Definition segment_of (group : list Z) : list LineComparison :=
  let '(a, b) := segment_bounds total group in ReportFile.py_slice a b lines.

Lemma calm_range a n :
  0 <= a -> (forall i, a <= i < a + Z.of_nat n -> ~ stirred_at i) -> Forall calm (take n (drop (Z.to_nat a) lines)).
Proof.
  intros Ha Hn. apply Forall_lookup. intros k l Hk. apply lookup_take_Some in Hk as [Hk Hlt]. rewrite lookup_drop in Hk.
  pose proof (proj1 (Forall_lookup _ _) decided _ _ Hk) as [Hc|Hs]; [done|].
  destruct (Hn (a + Z.of_nat k)); [lia|]. exists l. split; [lia|]. split; [|done]. rewrite <- Hk. f_equal. lia.
Qed.

Lemma segment_has p first last_ group :
  0 <= p <= Z.max (first - padding_lines) 0 -> first <= last_ -> stirred_at first -> last_ < total ->
  head group = Some first -> last group = Some last_ ->
  (forall i, p <= i < first -> ~ stirred_at i) ->
  exists b, last_ < b <= last_ + padding_lines + 1 /\ b <= total /\
    forall segs, cut_into (drop (Z.to_nat b) lines) segs ->
      cut_into (drop (Z.to_nat p) lines) (segment_of group :: segs).
Proof.
  unfold padding_lines. intros Hp Hfl Hst Hlt Hh Hl Hno. unfold segment_of, segment_bounds. rewrite Hh, Hl. cbn [default id].
  set (a := Z.max (first - padding_lines) 0). set (b := Z.min (last_ + padding_lines) (total - 1) + 1).
  assert (Hb : last_ < b <= last_ + 4 /\ b <= total) by (unfold b, padding_lines; lia).
  assert (Ha : a <= first) by (destruct Hst as (? & ? & _); unfold a, padding_lines; lia).
  exists b. split; [lia|]. split; [lia|]. intros segs Hc.
  rewrite (slice_window p a b) by (unfold a, padding_lines in *; lia). constructor; [| |done].
  - apply calm_range; [lia|]. intros i Hi. apply Hno. unfold a, padding_lines in *; lia.
  - destruct Hst as (l & H0 & Hf & Hs). apply Exists_exists. exists l. split; [|done].
    unfold ReportFile.py_slice. cbv zeta. rewrite (proj2 (Z.ltb_ge a 0)), (proj2 (Z.ltb_ge b 0)), !Z.min_l
      by (unfold a, padding_lines; lia).
    apply list_elem_of_lookup_2 with (Z.to_nat (first - a)). rewrite lookup_take_lt, lookup_drop by lia.
    rewrite <- Hf. f_equal. unfold a, padding_lines in *. lia.
Qed.

Lemma groups_cut ns : forall p group first last_,
  0 <= p <= Z.max (first - padding_lines) 0 -> first <= last_ -> stirred_at first -> last_ < total ->
  head group = Some first -> last group = Some last_ ->
  (forall i, p <= i < first -> ~ stirred_at i) ->
  StronglySorted Z.lt ns -> (forall i, last_ < i -> (stirred_at i <-> i ∈ ns)) -> Forall (fun i => last_ < i) ns ->
  cut_into (drop (Z.to_nat p) lines) (segment_of <$> groups_from last_ group ns).
Proof.
  induction ns as [|n ns IH]; intros p group first last_ Hp Hfl Hst Hlt Hh Hl Hno Hs Hin Hgt;
    destruct (segment_has p first last_ group Hp Hfl Hst Hlt Hh Hl Hno) as (b & Hb & Hbt & Hcut);
    assert (0 <= first) by (destruct Hst as (? & ? & _); done).
  - cbn. apply Hcut. rewrite <- (take_ge _ (length lines)) by (rewrite length_drop; lia). constructor.
    apply calm_range; [lia|]. intros i Hi. rewrite Hin by lia. apply not_elem_of_nil.
  - apply StronglySorted_inv in Hs as [Hs Hlow]. apply Forall_cons in Hgt as [Hn Hgt].
    assert (Hsn : stirred_at n) by (apply Hin; [done | left]).
    assert (Hnt : n < total) by (destruct Hsn as (l & _ & Hlk & _); apply lookup_lt_Some in Hlk; unfold total; lia).
    assert (Hin' : forall i, n < i -> (stirred_at i <-> i ∈ ns)).
    { intros i Hi. rewrite Hin, elem_of_cons by lia. split; [intros [->|]; [lia|done] | by right]. }
    cbn [groups_from]. case_match eqn:Hd.
    + apply (IH p _ first n); try done; [lia| |by rewrite last_snoc].
      destruct group; [done|]. cbn in *. done.
    + apply Z.leb_gt in Hd. cbn [fmap list_fmap]. apply Hcut.
      unfold line_distance, padding_lines in *. apply (IH b _ n n); try done; try lia.
      intros i Hi. rewrite Hin by lia. intros [->|Hi']%elem_of_cons; [lia|].
      rewrite Forall_forall in Hlow. specialize (Hlow _ Hi'). lia.
Qed.

Lemma segments_cut ns :
  line_numbers 0 lines = Ok ns -> cut_into lines (segment_of <$> segmented_lines ns).
Proof.
  intros Hn. destruct (line_numbers_spec _ _ _ Hn) as (Hs & Hin & _).
  assert (Hin' : forall i, stirred_at i <-> i ∈ ns).
  { intros i. rewrite Hin. split.
    - intros (l & H0 & Hl & Hst). exists (Z.to_nat i), l. split; [lia|done].
    - intros (k & l & -> & Hk & Hst). exists l. split; [lia|]. split; [|done]. rewrite <- Hk. f_equal. lia. }
  destruct ns as [|n ns].
  - constructor. rewrite <- (drop_0 lines), <- (take_ge (drop 0 lines) (length lines)) by (rewrite drop_0; lia).
    apply (calm_range 0); [lia|]. intros i _. rewrite Hin'. apply not_elem_of_nil.
  - rewrite segmented_groups. apply StronglySorted_inv in Hs as [Hs Hlow].
    assert (Hst : stirred_at n) by (apply Hin'; left).
    pose proof Hst as (l & H0 & Hl & _). apply lookup_lt_Some in Hl.
    apply (groups_cut ns 0 [n] n n); try done; try (unfold padding_lines; lia).
    + intros i Hi. rewrite Hin'. intros [->|Hi']%elem_of_cons; [lia|].
      rewrite Forall_forall in Hlow. specialize (Hlow _ Hi'). lia.
    + intros i Hi. rewrite Hin', elem_of_cons. split; [intros [->|]; [lia|done] | by right].
Qed.
End one.

(** C17: The segments of a comparison are disjoint pieces of its lines, in order:
    each has a changed line, and no line outside of them changed. *)
Theorem segments_partition lines segs :
  segments (Some lines) = Ok segs -> cut_into lines segs.
Proof.
  unfold segments. intros Hs. apply bind_Ok_inv in Hs as (ns & Hn & [= <-]).
  destruct (line_numbers_spec _ _ _ Hn) as (_ & _ & Hall). by apply (segments_cut lines).
Qed.
End segments.

(** The lines of the example, of which the third and the fourth changed. *)
Definition example_displayed : list LineComparison :=
  match FileComparison.lines (H := codec) 100 (example_comparison example_new) with
  | Some (Ok (Some ls)) => ls
  | _ => []
  end.

Lemma segments_partition_witness :
  exists segs, Segment.segments (Some example_displayed) = Ok segs /\
    cut_into example_displayed segs /\ Segment.header <$> segs = [(1, 6, 1, 7)].
Proof.
  eexists. split; [vm_compute; reflexivity|]. split; [|vm_compute; reflexivity].
  apply (segments_partition). vm_compute. reflexivity.
Defined.

(** A line of source that begins with a plus, whose coverage went from a hit to a
    miss: the change is counted, but not once the source is shown. *)
Example source_line_with_plus :
  let f src := FileComparison.mkFileComparison (Some (example_report [1; 1])) (Some (example_report [1; 0]))
                 None src false None in
  FileComparison.change_summary (H := codec) 10 (f []) = Some (Ok [("hits", -1); ("misses", 1)]) /\
  FileComparison.change_summary (H := codec) 10 (f ["x = a"; "+ b"]) = Some (Ok []).
Proof. vm_compute. done. Qed.
