(* ===== verification/UploadAuth.v ===== *)
(** * Who may upload

    [codecov_auth/authentication/repo_auth.py] and the permission of the views of
    [apps/codecov-api/upload]: the classes that authenticate a request, one after the
    other, and the repositories each allows.  What the framework reads of the header, and
    the verification of JSON web tokens, are given. *)
From S2P Require Export Effects PyStr PyVal PyUrl Config.

#[local] Open Scope string_scope.
#[local] Open Scope list_scope.
#[local] Open Scope Z_scope.

(** ** Tables *)

Record ApiOwner : Type := mkApiOwner {
  ao_ownerid : Z; ao_service : string; ao_username : string; ao_upload_token_required_for_public_repos : bool;
}.
Record ApiRepo : Type := mkApiRepo {
  ar_repoid : Z; ar_author : Z; ar_name : string; ar_private : bool; ar_upload_token : string;
  ar_active : bool; ar_activated : bool; ar_deleted : bool; ar_coverage_enabled : bool;
}.
Record OrganizationLevelToken : Type := mkOrgToken { ol_owner : Z; ol_token : string; ol_valid_until : option Z; ol_token_type : string }.
Record RepositoryToken : Type := mkRepoToken { rt_repository : Z; rt_key : string; rt_valid_until : option Z; rt_token_type : string }.
Record ApiCommit : Type := mkApiCommit {
  ac_id : Z; ac_repository : Z; ac_commitid : string; ac_branch : option string; ac_parent_commit_id : option string;
  ac_pullid : option Z; ac_merged : option bool; ac_state : option string; ac_totals : pyval;
}.

Record ApiDb : Type := mkApiDb {
  db_owners : list ApiOwner; db_repos : list ApiRepo; db_org_tokens : list OrganizationLevelToken;
  db_repo_tokens : list RepositoryToken; db_commits : list ApiCommit;
}.

(** [objects.get]: one row, or an error. *)
Definition get_one {A} (p : A -> bool) (rows : list A) : result A :=
  match List.filter p rows with [r] => Ok r | [] => Err DoesNotExist | _ => Err MultipleObjectsReturned end.
(** [objects.filter(...).first()] *)
Definition first_row {A} (p : A -> bool) (rows : list A) : option A := List.find p rows.

Definition author_of (db : ApiDb) (r : ApiRepo) : option ApiOwner := List.find (fun o => ao_ownerid o =? ar_author r) (db_owners db).

(** Names are compared without their case ([CITextField]). *)
Definition citext_eq (a b : string) : bool := bool_decide (lower a = lower b).

(** ** [uuid.UUID] *)

Definition is_hex (c : ascii) : bool :=
  let n := N_of_ascii c in ((48 <=? n) && (n <=? 57) || (97 <=? n) && (n <=? 102) || (65 <=? n) && (n <=? 70))%N.
Definition brace (c : ascii) : bool := bool_decide (c = "{"%char) || bool_decide (c = "}"%char).
Fixpoint lstrip_braces (s : string) : string := match s with String c r => if brace c then lstrip_braces r else s | _ => s end.
Fixpoint rstrip_braces (s : string) : string :=
  match s with
  | EmptyString => EmptyString
  | String c r => let r := rstrip_braces r in if brace c && bool_decide (r = "") then "" else String c r
  end.
(** The digits of an identifier, or nothing; the signs that [int] reads besides digits are
    left out. *)
Definition UUID (s : string) : option string :=
  let h := str_replace "-" "" (rstrip_braces (lstrip_braces (str_replace "uuid:" "" (str_replace "urn:" "" s)))) in
  if (String.length h =? 32)%nat && str_forallb is_hex h then Some (lower h) else None.
Definition is_uuid (s : string) : bool := bool_decide (is_Some (UUID s)).

Fixpoint rstrip_char (ch : ascii) (s : string) : string :=
  match s with
  | EmptyString => EmptyString
  | String c r => let r := rstrip_char ch r in if bool_decide (c = ch) && bool_decide (r = "") then "" else String c r
  end.

(** ** Repositories by their names *)

Definition service_values : list string := ["github"; "gitlab"; "bitbucket"; "github_enterprise"; "gitlab_enterprise"; "bitbucket_server"].
Definition Service (value : string) : result string := if bool_decide (value ∈ service_values) then Ok value else Err ValueError.

(** [s.rsplit(sep, 1)]: what is before the last separator, and after it. *)
Fixpoint rsplit_go (fuel : nat) (sep acc s : string) : option (string * string) :=
  match fuel with
  | O => None
  | S fuel =>
      match s with
      | EmptyString => None
      | String c r =>
          match rsplit_go fuel sep (acc +:+ String c "") r with
          | Some found => Some found
          | None => if startswith sep s then Some (acc, str_drop (String.length sep) s) else None
          end
      end
  end.
Definition rsplit1 (sep s : string) : option (string * string) := rsplit_go (S (String.length s)) sep "" s.

Definition _get_owner_from_string (db : ApiDb) (service owner_identifier : string) : result (option ApiOwner) :=
  let name := if str_contains ":::" owner_identifier then str_replace ":::" ":" owner_identifier else owner_identifier in
  match get_one (fun o => bool_decide (ao_service o = service) && citext_eq (ao_username o) name) (db_owners db) with
  | Ok o => Ok (Some o)
  | Err DoesNotExist => Ok None
  | Err e => Err e
  end.

Definition get_repository_and_owner_from_string (db : ApiDb) (service repo_identifier : string) : result (option (ApiRepo * ApiOwner)) :=
  match rsplit1 "::::" repo_identifier with
  | None => Ok None
  | Some (owner_identifier, name) =>
      owner ← _get_owner_from_string db service owner_identifier;
      match owner with
      | None => Ok None
      | Some o =>
          match get_one (fun r => (ar_author r =? ao_ownerid o) && citext_eq (ar_name r) name) (db_repos db) with
          | Ok r => Ok (Some (r, o))
          | Err DoesNotExist => Ok None
          | Err e => Err e
          end
      end
  end.
Definition get_repository_from_string (db : ApiDb) (service repo_identifier : string) : result (option ApiRepo) :=
  match get_repository_and_owner_from_string db service repo_identifier with Ok found => Ok (option_map fst found) | Err e => Err e end.

(** ** The address of a request *)

(** A request, with what the router makes of its address. *)
Record UploadRequest : Type := mkUploadRequest {
  ur_path : string; ur_method : string; ur_authorization : option string; ur_body : string;
  ur_kw_service : string; ur_kw_repo : string;
}.

Definition is_word (c : ascii) : bool :=
  let n := N_of_ascii c in
  ((48 <=? n) && (n <=? 57) || (65 <=? n) && (n <=? 90) || (97 <=? n) && (n <=? 122) || (n =? 95))%N.
Definition is_slug_char (c : ascii) : bool := is_word c || bool_decide (c ∈ [ "."; "@"; ":"; "/"; "-"; "~"]%char).

Fixpoint take_while (p : ascii -> bool) (s : string) : string * string :=
  match s with
  | String c r => if p c then let '(t, rest) := take_while p r in (String c t, rest) else ("", s)
  | EmptyString => ("", "")
  end.

(** [(commits|upload-coverage)], the name of a view. *)
Definition view_name (s : string) : option (string * string) :=
  if startswith "commits" s then Some ("commits", str_drop 7 s)
  else if startswith "upload-coverage" s then Some ("upload-coverage", str_drop 15 s) else None.

(** [(?:\/([a-f0-9]{40}))?] *)
Definition is_lower_hex (c : ascii) : bool := let n := N_of_ascii c in ((48 <=? n) && (n <=? 57) || (97 <=? n) && (n <=? 102))%N.
Definition commit_part (s : string) : option string :=
  match s with
  | String "/" r => let sha := str_take 40 r in
                    if (String.length sha =? 40)%nat && str_forallb is_lower_hex sha then Some sha else None
  | _ => None
  end.

(** The longest slug of a text that a slash and the name of a view follow. *)
Fixpoint slug_and_view (acc s : string) : option (string * string * option string) :=
  match s with
  | EmptyString => None
  | String c r =>
      let here := match acc, c with
                  | String _ _, "/"%char => match view_name r with Some (v, rest) => Some (acc, v, commit_part rest) | None => None end
                  | _, _ => None
                  end in
      if is_slug_char c then match slug_and_view (acc +:+ String c "") r with Some found => Some found | None => here end
      else here
  end.

Record UploadInfo : Type := mkUploadInfo { ui_service : string; ui_encoded_slug : string; ui_commitid : option string }.

(** [re.search]: the first place where the expression matches. *)
Fixpoint search_upload (s : string) : option UploadInfo :=
  match s with
  | EmptyString => None
  | String _ rest =>
      match (if startswith "/upload/" s then
               let '(service, r) := take_while is_word (str_drop 8 s) in
               match service, r with
               | String _ _, String "/" r =>
                   match slug_and_view "" r with
                   | Some (slug, v, commit) => Some (mkUploadInfo service slug (if bool_decide (v = "commits") then commit else None))
                   | None => None
                   end
               | _, _ => None
               end
             else None) with
      | Some info => Some info
      | None => search_upload rest
      end
  end.
Definition get_upload_info_from_request_path (r : UploadRequest) : option UploadInfo := search_upload (ur_path r).

Example info_of_an_upload :
  search_upload "/upload/github/codecov::::example/commits/0123456789abcdef0123456789abcdef01234567/reports/default/uploads?x=1"
  = Some (mkUploadInfo "github" "codecov::::example" (Some "0123456789abcdef0123456789abcdef01234567")).
Proof. vm_compute. reflexivity. Qed.

(** ** What authenticates a request *)

(** What [TokenAuthentication] of the framework reads of a header: nothing, something
    wrong, or a token. *)
Inductive credentials : Type := NoCredentials | BadCredentials | Credentials (key : string).

(** [request.auth]: the interface of the classes is the scopes and the repositories they
    allow. *)
Inductive RepositoryAuth : Type :=
  | LegacyTokenRepositoryAuth (repository : ApiRepo)
  | OIDCTokenRepositoryAuth (repository : ApiRepo)
  | TableTokenRepositoryAuth (repository : ApiRepo) (token : RepositoryToken)
  | OrgLevelTokenRepositoryAuth (token : OrganizationLevelToken)
  | TokenlessAuth (repository : ApiRepo).

Definition get_scopes (a : RepositoryAuth) : list string :=
  match a with
  | TableTokenRepositoryAuth _ t => [rt_token_type t]
  | OrgLevelTokenRepositoryAuth t => [ol_token_type t]
  | _ => ["upload"]
  end.
(** Two rows are the same when their keys are. *)
Definition allows_repo (a : RepositoryAuth) (r : ApiRepo) : bool :=
  match a with
  | LegacyTokenRepositoryAuth r' | OIDCTokenRepositoryAuth r' | TableTokenRepositoryAuth r' _ | TokenlessAuth r' => ar_repoid r' =? ar_repoid r
  | OrgLevelTokenRepositoryAuth t => ar_author r =? ol_owner t
  end.

(** The end of an attempt: the class does not apply, the request is refused, another
    exception, or the request is authenticated. *)
Inductive verdict : Type := Continue | AuthenticationFailed | Crash (e : exn) | Authenticated (a : RepositoryAuth).

Section auth.
Variable db : ApiDb.
Variable now : Z.
Variable params : pyval.                                            (* the configuration *)
Variable token_of_header : string -> option string -> credentials. (* the keyword, the header *)
Variable json_body : string -> result pyval.                        (* [json.loads(str(body, "utf8"))] *)

(** The claims of a token: as they stand, and as a key set signs them. *)
Inductive jwt : Type := PyJWTError | Claims (claims : odict string pyval).
Variable unverified_claims : string -> jwt.
Variable verified_claims : string -> string -> jwt.

Definition global_upload_token_providers : list string :=
  ["github"; "github_enterprise"; "gitlab"; "gitlab_enterprise"; "bitbucket"; "bitbucket_server"].
(** The last service of a token is the one it gets. *)
Definition get_global_tokens : odict pyval string :=
  od_of_list (concat (map (fun service => let t := get_config params [service; "global_upload_token"] VNone in
                                          if truthy t then [(t, service)] else []) global_upload_token_providers)).

(** [urlparse(url).hostname] *)
Definition hostname (url : string) : option string :=
  match partition "//" url with
  | Some (_, rest) =>
      let netloc := fst (take_while (fun c => negb (bool_decide (c ∈ ["/"; "?"; "#"]%char))) rest) in
      let host := match rsplit1 "@" netloc with Some (_, h) => h | None => netloc end in
      let host := match partition ":" host with Some (h, _) => h | None => host end in
      if bool_decide (host = "") then None else Some (lower host)
  | None => None
  end.

(** [str(v)], of the values that a claim has. *)
Definition text (v : pyval) : string := match py_str v with Ok s => s | Err _ => "" end.

(** An error of the token, of the tables, or of the configuration. *)
Inductive oidc_error : Type := TokenError | NotFoundError | ConfigError | OtherError (e : exn).
Definition get_repo_with_github_actions_oidc_token (token : string) : ApiRepo + oidc_error :=
  match unverified_claims token with
  | PyJWTError => inr TokenError
  | Claims c =>
      let issuer := text (default VNone (od_get "iss" c)) in
      let enterprise_url := get_config params ["github_enterprise"; "url"] VNone in
      let from_actions := bool_decide (hostname issuer = Some "token.actions.githubusercontent.com") in
      if negb from_actions && negb (truthy enterprise_url) then inr ConfigError
      else
        let service := if from_actions then "github" else "github_enterprise" in
        let jwks_url := if from_actions then "https://token.actions.githubusercontent.com/.well-known/jwks"
                        else rstrip_char "/" (text enterprise_url) +:+ "/_services/token/.well-known/jwks" in
        match verified_claims jwks_url token with
        | PyJWTError => inr TokenError
        | Claims data =>
            let name := List.last (split "/" (text (default VNone (od_get "repository" data)))) "" in
            match get_one (fun r => citext_eq (ar_name r) name &&
                             match author_of db r with
                             | Some o => bool_decide (ao_service o = service) &&
                                         match od_get "repository_owner" data with
                                         | Some (VStr username) => citext_eq (ao_username o) username
                                         | _ => false
                                         end
                             | None => false
                             end) (db_repos db) with
            | Ok r => inl r
            | Err DoesNotExist => inr NotFoundError
            | Err e => inr (OtherError e)
            end
        end
  end.

(** [request.GET.get("token")] *)
Definition RepositoryLegacyQueryTokenAuthentication (query_token : option string) : verdict :=
  match query_token with
  | None => Continue
  | Some t =>
      match UUID t with
      | None => Continue
      | Some u => match get_one (fun r => bool_decide (ar_upload_token r = u)) (db_repos db) with
                  | Ok r => Authenticated (LegacyTokenRepositoryAuth r)
                  | Err DoesNotExist => Continue
                  | Err e => Crash e
                  end
      end
  end.

(** [TokenAuthentication.authenticate], with the credentials of a class. *)
Definition with_credentials (keyword : string) (req : UploadRequest) (f : string -> verdict) : verdict :=
  match token_of_header keyword (ur_authorization req) with
  | NoCredentials => Continue
  | BadCredentials => AuthenticationFailed
  | Credentials k => f k
  end.

Definition RepositoryLegacyTokenAuthentication (req : UploadRequest) : verdict :=
  with_credentials "Token" req (fun token => RepositoryLegacyQueryTokenAuthentication (Some token)).

Definition RepositoryTokenAuthentication (req : UploadRequest) : verdict :=
  with_credentials "Repotoken" req (fun key =>
    match get_one (fun t => bool_decide (rt_key t = key)) (db_repo_tokens db) with
    | Err DoesNotExist => AuthenticationFailed
    | Err e => Crash e
    | Ok t =>
        match get_one (fun r => ar_repoid r =? rt_repository t) (db_repos db) with
        | Err e => Crash e
        | Ok r =>
            if negb (ar_active r) then AuthenticationFailed
            else match rt_valid_until t with
                 | Some u => if u <=? now then AuthenticationFailed else Authenticated (TableTokenRepositoryAuth r t)
                 | None => Authenticated (TableTokenRepositoryAuth r t)
                 end
        end
    end).

(** The keyword of the header is not looked at. *)
Definition global_token_of (req : UploadRequest) : option string :=
  match ur_authorization req with
  | None | Some "" => None
  | Some h => match partition " " h with Some (_, t) => Some t | None => Some h end
  end.
Definition GlobalTokenAuthentication (req : UploadRequest) : verdict :=
  match global_token_of req with
  | None => Continue
  | Some token =>
      match od_get (VStr token) get_global_tokens with
      | None => Continue
      | Some service =>
          match get_upload_info_from_request_path req with
          | None => Continue
          | Some info =>
              match get_repository_from_string db service (ui_encoded_slug info) with
              | Ok (Some r) => Authenticated (LegacyTokenRepositoryAuth r)
              | Ok None => AuthenticationFailed
              | Err e => Crash e
              end
          end
      end
  end.

Definition OrgLevelTokenAuthentication (req : UploadRequest) : verdict :=
  with_credentials "Token" req (fun key =>
    match UUID key with
    | None => Continue
    | Some u =>
        match first_row (fun t => bool_decide (ol_token t = u)) (db_org_tokens db) with
        | None => Continue
        | Some t => match ol_valid_until t with
                    | Some v => if v <=? now then AuthenticationFailed else Authenticated (OrgLevelTokenRepositoryAuth t)
                    | None => Authenticated (OrgLevelTokenRepositoryAuth t)
                    end
        end
    end).

Definition GitHubOIDCTokenAuthentication (req : UploadRequest) : verdict :=
  with_credentials "Token" req (fun token =>
    if bool_decide (token = "") || is_uuid token then Continue
    else match get_repo_with_github_actions_oidc_token token with
         | inl r => Authenticated (OIDCTokenRepositoryAuth r)
         | inr (OtherError e) => Crash e
         | inr _ => Continue
         end).

(** A repository found, or the end of the attempt. *)
Definition found_or_failed (found : result (option ApiRepo)) (k : ApiRepo -> verdict) : verdict :=
  match found with Ok (Some r) => k r | Ok None => AuthenticationFailed | Err e => Crash e end.

(** [body.get("branch")] *)
Definition body_branch (v : pyval) : result pyval := dict_get v "branch" VNone.

Definition commit_row (r : ApiRepo) (commitid : string) : option ApiCommit :=
  first_row (fun c => (ac_repository c =? ar_repoid r) && bool_decide (ac_commitid c = commitid)) (db_commits db).

(** A branch with a colon, or a request that only reads. *)
Definition fork_branch (req : UploadRequest) (r : ApiRepo) (branch : pyval) : verdict :=
  match branch with
  | VStr b => if str_contains ":" b || bool_decide (ur_method req = "GET") then Authenticated (TokenlessAuth r) else AuthenticationFailed
  | VList l => if bool_decide (VStr ":" ∈ l) || bool_decide (ur_method req = "GET") then Authenticated (TokenlessAuth r) else AuthenticationFailed
  | VDict d => if od_mem ":" d || bool_decide (ur_method req = "GET") then Authenticated (TokenlessAuth r) else AuthenticationFailed
  | _ => if truthy branch then Crash TypeError
         else if bool_decide (ur_method req = "GET") then Authenticated (TokenlessAuth r) else AuthenticationFailed
  end.

Definition TokenlessAuthentication (req : UploadRequest) : verdict :=
  match get_upload_info_from_request_path req with
  | None => AuthenticationFailed
  | Some info =>
      match Service (ui_service info) with
      | Err _ => AuthenticationFailed
      | Ok service =>
          found_or_failed (get_repository_from_string db service (ui_encoded_slug info)) (fun r =>
            if ar_private r then AuthenticationFailed
            else match ui_commitid info with
                 | Some sha =>
                     match commit_row r sha with
                     | None => AuthenticationFailed
                     | Some c => fork_branch req r (match ac_branch c with Some b => VStr b | None => VNone end)
                     end
                 | None =>
                     match json_body (ur_body req) with
                     | Err JSONDecodeError => fork_branch req r VNone
                     | Err e => Crash e
                     | Ok body => match body_branch body with Ok b => fork_branch req r b | Err e => Crash e end
                     end
                 end)
      end
  end.

(** [TestAnalyticsTokenlessAuthentication] and [BundleAnalysisTokenlessAuthentication] read
    everything of the body; the name of the field of the service is what they differ
    in. *)
Definition body_tokenless (service_field : string) (req : UploadRequest) : verdict :=
  match json_body (ur_body req) with
  | Err JSONDecodeError | Err ValueError => AuthenticationFailed
  | Err e => Crash e
  | Ok (VDict d) =>
      match match od_get service_field d with Some (VStr s) => Service s | _ => Err ValueError end with
      | Err _ => AuthenticationFailed
      | Ok service =>
          match od_get "slug" d with
          | Some (VStr slug) =>
              found_or_failed (get_repository_from_string db service slug) (fun r =>
                if ar_private r then AuthenticationFailed
                else
                  let branch := default VNone (od_get "branch" d) in
                  let stored := match od_get "commit" d with Some (VStr sha) => commit_row r sha | _ => None end in
                  match stored with
                  | Some c => if bool_decide (match ac_branch c with Some b => VStr b | None => VNone end = branch)
                              then fork_branch req r branch else AuthenticationFailed
                  | None => fork_branch req r branch
                  end)
          | Some (VList l) => if bool_decide (VStr "::::" ∈ l) then Crash AttributeError else AuthenticationFailed
          | Some (VDict d) => if od_mem "::::" d then Crash AttributeError else AuthenticationFailed
          | _ => Crash TypeError
          end
      end
  | Ok _ => Crash AttributeError
  end.
Definition TestAnalyticsTokenlessAuthentication : UploadRequest -> verdict := body_tokenless "service".
Definition BundleAnalysisTokenlessAuthentication : UploadRequest -> verdict := body_tokenless "git_service".

(** A public repository whose owner does not ask for a token. *)
Definition without_token (found : result (option (ApiRepo * ApiOwner))) : verdict :=
  match found with
  | Err e => Crash e
  | Ok None => Continue
  | Ok (Some (r, o)) =>
      if ar_private r || ao_upload_token_required_for_public_repos o then Continue else Authenticated (TokenlessAuth r)
  end.
Definition UploadTokenRequiredAuthenticationCheck (req : UploadRequest) : verdict :=
  match get_upload_info_from_request_path req with
  | None => Continue
  | Some info => match Service (ui_service info) with
                 | Err _ => Continue
                 | Ok service => without_token (get_repository_and_owner_from_string db service (ui_encoded_slug info))
                 end
  end.

(** [UploadTokenRequiredGetFromBodySerializer]: the slug, [git_service] and [service] of a
    body that is valid. *)
Variable body_serializer : pyval -> option (string * option string * option string).
Definition UploadTokenRequiredGetFromBodyAuthenticationCheck (req : UploadRequest) : verdict :=
  match json_body (ur_body req) with
  | Err JSONDecodeError | Err ValueError => Continue
  | Err e => Crash e
  | Ok body =>
      match body_serializer body with
      | Some (slug, git_service, service) =>
          let given := match git_service with Some (String _ _) => git_service | _ => service end in
          match Service (default "" given) with
          | Err _ => Continue
          | Ok service => without_token (get_repository_and_owner_from_string db service slug)
          end
      | None => Continue
      end
  end.

(** ** The views *)

(** The classes of a view, until one authenticates the request or refuses it. *)
Fixpoint authenticate (classes : list (UploadRequest -> verdict)) (req : UploadRequest) : verdict :=
  match classes with
  | [] => Continue
  | c :: classes => match c req with Continue => authenticate classes req | v => v end
  end.

(** The classes of [UploadViews], [CommitViews], [ReportViews] and [UploadCoverageView],
    and those of [UploadCompletionView]. *)
Definition upload_classes : list (UploadRequest -> verdict) :=
  [UploadTokenRequiredAuthenticationCheck; GlobalTokenAuthentication; OrgLevelTokenAuthentication; GitHubOIDCTokenAuthentication;
   RepositoryLegacyTokenAuthentication; TokenlessAuthentication].
Definition completion_classes : list (UploadRequest -> verdict) :=
  [UploadTokenRequiredAuthenticationCheck; GlobalTokenAuthentication; OrgLevelTokenAuthentication; GitHubOIDCTokenAuthentication;
   RepositoryLegacyTokenAuthentication].

(** [GetterMixin.get_repo] *)
Definition get_repo (req : UploadRequest) : result ApiRepo :=
  match Service (ur_kw_service req) with
  | Err _ => Err ValidationError
  | Ok service => r ← get_repository_from_string db service (ur_kw_repo req);
                  match r with Some r => Ok r | None => Err ValidationError end
  end.

(** [CanDoCoverageUploadsPermission.has_permission] *)
Definition has_permission (req : UploadRequest) (auth : option RepositoryAuth) : result bool :=
  repository ← get_repo req;
  Ok (match auth with Some a => bool_decide ("upload" ∈ get_scopes a) && allows_repo a repository | None => false end).

(** The repository a request may upload to. *)
Definition admitted (classes : list (UploadRequest -> verdict)) (req : UploadRequest) : option (ApiRepo * RepositoryAuth) :=
  match authenticate classes req with
  | Authenticated a =>
      match has_permission req (Some a), get_repo req with
      | Ok true, Ok r => Some (r, a)
      | _, _ => None
      end
  | _ => None
  end.
End auth.

(** * What a request needs to upload

    A repository is uploaded to by who knows its token, that of its owner or of its
    service, by a run that its service vouches for, or by anyone where it is public and
    its owner, or the branch of a fork, lets them. *)

#[local] Open Scope string_scope.
#[local] Open Scope list_scope.
#[local] Open Scope Z_scope.

Lemma get_one_in {A} (p : A -> bool) rows x : get_one p rows = Ok x -> x ∈ rows /\ p x = true.
Proof.
  unfold get_one. destruct (List.filter p rows) as [|y [|? ?]] eqn:Hf; try done. intros [= <-].
  assert (Hy : In y (List.filter p rows)) by (rewrite Hf; by left). apply filter_In in Hy as [? ?]. by rewrite list_elem_of_In.
Qed.

Lemma first_row_in {A} (p : A -> bool) rows x : first_row p rows = Some x -> x ∈ rows /\ p x = true.
Proof. unfold first_row. intros [? ?]%find_some. by rewrite list_elem_of_In. Qed.

Section rights.
Variable db : ApiDb.
Variable now : Z.
Variable params : pyval.
Variable token_of_header : string -> option string -> credentials.
Variable json_body : string -> result pyval.
Variable unverified_claims : string -> jwt.
Variable verified_claims : string -> string -> jwt.

Definition header_token (req : UploadRequest) (t : string) : Prop := token_of_header "Token" (ur_authorization req) = Credentials t.

(** The owner of a repository. *)
Definition owned_by (r : ApiRepo) (o : ApiOwner) : Prop := o ∈ db_owners db /\ ao_ownerid o = ar_author r.

(** The keys that a service signs with. *)
Definition key_set (service : string) : string :=
  if bool_decide (service = "github") then "https://token.actions.githubusercontent.com/.well-known/jwks"
  else rstrip_char "/" (text (get_config params ["github_enterprise"; "url"] VNone)) +:+ "/_services/token/.well-known/jwks".

(** [":" in branch]: the branch of a fork, of a text; a list with a colon, and a dictionary
    with the key, pass too. *)
Definition of_fork (branch : pyval) : Prop :=
  match branch with
  | VStr b => str_contains ":" b = true
  | VList l => VStr ":" ∈ l
  | VDict d => od_mem ":" d = true
  | _ => False
  end.

(** What lets a request upload to a repository. *)
Inductive right (req : UploadRequest) (r : ApiRepo) : Prop :=
  | token_not_required o : ar_private r = false -> owned_by r o -> ao_upload_token_required_for_public_repos o = false -> right req r
  | global_token t o : global_token_of req = Some t -> owned_by r o ->
      od_get (VStr t) (get_global_tokens params) = Some (ao_service o) -> right req r
  | token_of_owner key t : header_token req key -> UUID key = Some (ol_token t) -> t ∈ db_org_tokens db ->
      ol_owner t = ar_author r -> ol_token_type t = "upload" -> (forall v, ol_valid_until t = Some v -> now < v) -> right req r
  | token_of_repository key : header_token req key -> UUID key = Some (ar_upload_token r) -> right req r
  | signed_run token data username o : header_token req token -> verified_claims (key_set (ao_service o)) token = Claims data -> owned_by r o ->
      ao_service o ∈ ["github"; "github_enterprise"] -> od_get "repository_owner" data = Some (VStr username) -> citext_eq (ao_username o) username = true ->
      citext_eq (ar_name r) (List.last (split "/" (text (default VNone (od_get "repository" data)))) "") = true -> right req r
  | public_read : ar_private r = false -> ur_method req = "GET" -> right req r
  | fork_of_commit info sha c b : ar_private r = false ->
      get_upload_info_from_request_path req = Some info -> ui_commitid info = Some sha ->
      c ∈ db_commits db -> ac_repository c = ar_repoid r -> ac_commitid c = sha ->
      ac_branch c = Some b -> str_contains ":" b = true -> right req r
  | fork_of_body info body v : ar_private r = false ->
      get_upload_info_from_request_path req = Some info -> ui_commitid info = None ->
      json_body (ur_body req) = Ok body -> body_branch body = Ok v -> of_fork v -> right req r.

Lemma repository_found service slug r o :
  get_repository_and_owner_from_string db service slug = Ok (Some (r, o)) ->
  r ∈ db_repos db /\ owned_by r o /\ ao_service o = service.
Proof.
  unfold get_repository_and_owner_from_string, _get_owner_from_string. destruct (rsplit1 "::::" slug) as [[i n]|]; [|done].
  destruct (get_one _ (db_owners db)) as [o'|[]] eqn:Ho; try done. cbn. apply get_one_in in Ho as [Ho Hs].
  apply andb_true_iff in Hs as [Hs _]. apply bool_decide_eq_true_1 in Hs.
  destruct (get_one _ (db_repos db)) as [r'|[]] eqn:Hr; try done. intros [= <- <-]. apply get_one_in in Hr as [Hr Ha].
  apply andb_true_iff in Ha as [Ha%Z.eqb_eq _]. done.
Qed.

Lemma repository_row service slug r :
  get_repository_from_string db service slug = Ok (Some r) -> exists o, r ∈ db_repos db /\ owned_by r o /\ ao_service o = service.
Proof.
  unfold get_repository_from_string. destruct (get_repository_and_owner_from_string db service slug) as [[[r' o]|]|] eqn:Hf; try done.
  intros [= <-]. exists o. by eapply repository_found.
Qed.

(** What an authentication shows, before the repository of the view is looked at. *)
Definition shows (req : UploadRequest) (a : RepositoryAuth) : Prop :=
  match a with
  | OrgLevelTokenRepositoryAuth t => forall r, ol_owner t = ar_author r -> ol_token_type t = "upload" -> right req r
  | LegacyTokenRepositoryAuth r | OIDCTokenRepositoryAuth r | TokenlessAuth r => r ∈ db_repos db /\ right req r
  | TableTokenRepositoryAuth _ _ => False
  end.

Lemma open_shows req a : UploadTokenRequiredAuthenticationCheck db req = Authenticated a -> shows req a.
Proof.
  unfold UploadTokenRequiredAuthenticationCheck, without_token. repeat case_match; try done. intros [= <-].
  match goal with H : get_repository_and_owner_from_string _ _ _ = _ |- _ => apply repository_found in H as (Hr & Ho & _) end.
  match goal with H : _ || _ = false |- _ => apply orb_false_iff in H as [? ?] end.
  split; [done|]. by eapply token_not_required.
Qed.

Lemma global_shows req a : GlobalTokenAuthentication db params req = Authenticated a -> shows req a.
Proof.
  unfold GlobalTokenAuthentication. repeat case_match; try done. intros [= <-].
  match goal with H : get_repository_from_string _ _ _ = _ |- _ => apply repository_row in H as (o & Hr & Ho & <-) end.
  split; [done|]. by eapply global_token.
Qed.

Lemma org_shows req a : OrgLevelTokenAuthentication db now token_of_header req = Authenticated a -> shows req a.
Proof.
  unfold OrgLevelTokenAuthentication, with_credentials. repeat case_match; try done; intros [= <-];
  (match goal with H : first_row _ _ = _ |- _ => apply first_row_in in H as [Hin Ht%bool_decide_eq_true_1] end);
  intros r Ho Hty;
  (match goal with H : token_of_header _ _ = Credentials ?k, Hin : ?t ∈ db_org_tokens db |- _ =>
     apply (token_of_owner _ _ k t); [done|congruence|done..|] end);
  intros v Hv; [|congruence].
  match goal with H : (_ <=? _) = false |- _ => apply Z.leb_gt in H end. congruence.
Qed.

Lemma legacy_shows req a : RepositoryLegacyTokenAuthentication db token_of_header req = Authenticated a -> shows req a.
Proof.
  unfold RepositoryLegacyTokenAuthentication, RepositoryLegacyQueryTokenAuthentication, with_credentials. repeat case_match; try done. intros [= <-].
  match goal with H : get_one _ _ = _ |- _ => apply get_one_in in H as [Hr Ht%bool_decide_eq_true_1] end.
  split; [done|]. match goal with H : token_of_header _ _ = Credentials ?k |- _ => apply (token_of_repository _ _ k); [done|congruence] end.
Qed.

Lemma oidc_row token r :
  get_repo_with_github_actions_oidc_token db params unverified_claims verified_claims token = inl r ->
  r ∈ db_repos db /\ exists data username o, verified_claims (key_set (ao_service o)) token = Claims data /\ owned_by r o /\
    ao_service o ∈ ["github"; "github_enterprise"] /\ od_get "repository_owner" data = Some (VStr username) /\
    citext_eq (ao_username o) username = true /\
    citext_eq (ar_name r) (List.last (split "/" (text (default VNone (od_get "repository" data)))) "") = true.
Proof.
  unfold get_repo_with_github_actions_oidc_token. destruct (unverified_claims token) as [|c]; [done|].
  set (b := bool_decide (hostname _ = _)). destruct (negb b && _); [done|].
  destruct (verified_claims _ token) as [|data] eqn:Hv; [done|].
  destruct (get_one _ (db_repos db)) as [r'|[]] eqn:Hr; try done. intros [= <-].
  apply get_one_in in Hr as [Hr Hp]. apply andb_true_iff in Hp as [Hname Ho].
  split; [done|]. destruct (author_of db r') as [o|] eqn:Ha; [|done]. apply andb_true_iff in Ho as [Hs Hu].
  apply bool_decide_eq_true_1 in Hs.
  destruct (od_get "repository_owner" data) as [[]|] eqn:Hc; try done. rename s into username.
  apply find_some in Ha as [Hin Hid%Z.eqb_eq]. exists data, username, o. split_and!; [|split; [by apply list_elem_of_In|done]| |done..].
  - rewrite Hs. unfold key_set. by destruct b.
  - rewrite Hs. destruct b; set_solver.
Qed.

Lemma oidc_shows req a :
  GitHubOIDCTokenAuthentication db params token_of_header unverified_claims verified_claims req = Authenticated a -> shows req a.
Proof.
  unfold GitHubOIDCTokenAuthentication, with_credentials. destruct (token_of_header _ _) as [| |token] eqn:Ht; try done.
  case_match; [done|]. destruct (get_repo_with_github_actions_oidc_token _ _ _ _ token) as [r|[]] eqn:Hr; try done. intros [= <-].
  apply oidc_row in Hr as (Hin & data & username & o & Hv & Ho & Hs & Hu & Hn & Hrepo). split; [done|]. by eapply signed_run.
Qed.

Lemma fork_branch_auth req r branch a :
  fork_branch req r branch = Authenticated a ->
  a = TokenlessAuth r /\ (ur_method req = "GET" \/ of_fork branch).
Proof.
  unfold fork_branch. repeat case_match; try done; intros [= <-]; (split; [done|]);
    repeat match goal with H : (_ || _)%bool = true |- _ => apply orb_true_iff in H as [H|H]
      | H : bool_decide _ = true |- _ => apply bool_decide_eq_true_1 in H end;
    first [by left|by right].
Qed.

Lemma commit_row_in r sha c :
  commit_row db r sha = Some c -> c ∈ db_commits db /\ ac_repository c = ar_repoid r /\ ac_commitid c = sha.
Proof. unfold commit_row. intros [? [?%Z.eqb_eq ?%bool_decide_eq_true_1]%andb_true_iff]%first_row_in. done. Qed.

Lemma tokenless_shows req a : TokenlessAuthentication db json_body req = Authenticated a -> shows req a.
Proof.
  unfold TokenlessAuthentication. destruct (get_upload_info_from_request_path req) as [info|] eqn:Hi; [|done].
  destruct (Service _) as [service|]; [|done]. unfold found_or_failed.
  destruct (get_repository_from_string _ _ _) as [[r|]|] eqn:Hr; try done. apply repository_row in Hr as (o & Hr & Ho & _).
  destruct (ar_private r) eqn:Hp; [done|]. destruct (ui_commitid info) as [sha|] eqn:Hc.
  - destruct (commit_row db r sha) as [c|] eqn:Hrow; [|done]. intros [-> Hb]%fork_branch_auth. split; [done|].
    destruct Hb as [?|Hb]; [by apply public_read|]. apply commit_row_in in Hrow as (Hin & Hid & Hsha).
    destruct (ac_branch c) as [b|] eqn:Hbr; [|done]. by apply (fork_of_commit req r info sha c b).
  - intros Hf. assert (Hb : a = TokenlessAuth r /\ (ur_method req = "GET" \/
      exists body v, json_body (ur_body req) = Ok body /\ body_branch body = Ok v /\ of_fork v)).
    { repeat case_match; try done; apply fork_branch_auth in Hf as [-> [?|?]]; try done; eauto 8. }
    destruct Hb as [-> [?|(body & v & ? & ? & ?)]]; (split; [done|]); [by apply public_read | by apply (fork_of_body req r info body v)].
Qed.

(** An authentication of the views of uploads shows a right. *)
Lemma upload_classes_show req a :
  authenticate (upload_classes db now params token_of_header json_body unverified_claims verified_claims) req = Authenticated a -> shows req a.
Proof.
  unfold upload_classes. cbn [authenticate]. intros Ha.
  repeat (match type of Ha with context [match ?v with _ => _ end] => destruct v eqn:? end; try done; try injection Ha as <-);
    eauto using open_shows, global_shows, org_shows, oidc_shows, legacy_shows, tokenless_shows.
Qed.

(** C14: A request that the views of uploads admit to a repository has a right to it: the
    repository is public and its owner asks for no token; the header has the token of the
    repository, an upload token of its owner that has not expired, or the token of its
    service; a run of the repository is signed by the keys of its service; or the
    repository is public and the request is a GET, or is for the branch of a fork: the
    commit of the address is stored with a branch that has a colon, or the address has no
    commit (of 40 lower-case digits) and the branch in the body has a colon. *)
Theorem upload_admitted req r a :
  (forall x y, x ∈ db_repos db -> y ∈ db_repos db -> ar_repoid x = ar_repoid y -> x = y) ->
  admitted db (upload_classes db now params token_of_header json_body unverified_claims verified_claims) req = Some (r, a) -> right req r.
Proof.
  intros Hkey. unfold admitted. destruct (authenticate _ _) as [| | |a'] eqn:Ha; try done. apply upload_classes_show in Ha.
  unfold has_permission. destruct (get_repo db req) as [r'|] eqn:Hr; [|done]. cbn.
  destruct (bool_decide _ && _) eqn:Hp; [|done]. intros [= -> ->]. apply andb_true_iff in Hp as [Hs Hal].
  apply bool_decide_eq_true_1 in Hs.
  assert (Hin : r ∈ db_repos db).
  { unfold get_repo in Hr. destruct (Service _); [|done]. destruct (get_repository_from_string _ _ _) as [[x|]|] eqn:Hx; try done.
    injection Hr as ->. by apply repository_row in Hx as (o & ? & _). }
  destruct a as [r'|r'|r' t|t|r']; cbn in *; try apply Z.eqb_eq in Hal; try (destruct Ha as [Hin' Ha]; by rewrite <- (Hkey _ _ Hin' Hin Hal)).
  - done.
  - apply Ha; [done|]. by apply list_elem_of_singleton in Hs.
Qed.
End rights.

(** ** A request of a run, and one of a fork *)

Definition example_owner : ApiOwner := mkApiOwner 1 "github" "codecov" true.
Definition example_repo : ApiRepo :=
  mkApiRepo 7 1 "example" false "0123456789abcdef0123456789abcdef" true true false true.
Definition example_tables : ApiDb :=
  mkApiDb [example_owner] [example_repo] [] [] [mkApiCommit 3 7 "0123456789abcdef0123456789abcdef01234567" (Some "main") None None None None VNone].
Definition example_header (keyword : string) (h : option string) : credentials :=
  match h with
  | Some h => match partition " " h with Some (k, t) => if bool_decide (k = keyword) then Credentials t else NoCredentials | None => NoCredentials end
  | None => NoCredentials
  end.
Definition example_json (s : string) : result pyval :=
  if bool_decide (s = "") then Err JSONDecodeError else Ok (VDict [("branch", VStr s)]).
Definition no_claims : jwt := PyJWTError.
Definition uploads_of (sha body : string) (token : option string) : UploadRequest :=
  mkUploadRequest ("/upload/github/codecov::::example/commits/" +:+ sha +:+ "/reports/default/uploads") "POST" token body "github" "codecov::::example".
Definition example_admitted (req : UploadRequest) : option (ApiRepo * RepositoryAuth) :=
  admitted example_tables (upload_classes example_tables 0 (VDict []) example_header example_json (fun _ => no_claims) (fun _ _ => no_claims)) req.

Lemma upload_admitted_witness :
  right example_tables 0 (VDict []) example_header example_json (fun _ _ => no_claims)
    (uploads_of "0123456789abcdef0123456789abcdef01234567" "" (Some "Token 01234567-89ab-cdef-0123-456789abcdef")) example_repo.
Proof.
  refine (upload_admitted example_tables 0 (VDict []) example_header example_json (fun _ => no_claims) (fun _ _ => no_claims)
            _ example_repo (LegacyTokenRepositoryAuth example_repo) _ _).
  - intros x y Hx Hy _. apply list_elem_of_singleton in Hx. apply list_elem_of_singleton in Hy. by rewrite Hx, Hy.
  - vm_compute. reflexivity.
Defined.

(** The branch of a commit is the one that is stored, when its identifier is whole. *)
Example stored_branch_counts :
  example_admitted (uploads_of "0123456789abcdef0123456789abcdef01234567" "fork:main" None) = None.
Proof. vm_compute. reflexivity. Qed.

(** An identifier in capitals is not seen in the address: the body says what the branch
    is. *)
Example body_branch_counts :
  example_admitted (uploads_of "0123456789ABCDEF0123456789ABCDEF01234567" "fork:main" None) = Some (example_repo, TokenlessAuth example_repo).
Proof. vm_compute. reflexivity. Qed.
