(* ===== verification/UploadQueue.v ===== *)
(** * The queue of uploads

    The API pushes the arguments of an upload on a list of Redis and sends a task
    ([dispatch_upload_task] of [apps/codecov-api/upload/helpers.py]); the upload task finds
    the list through its context ([UploadContext] of [apps/worker/tasks/upload.py]). *)
From S2P Require Export Effects PyVal PyUrl PyDecimal Config Processing.
#[local] Open Scope string_scope.
#[local] Open Scope list_scope.
#[local] Open Scope Z_scope.

(** ** Redis *)

(** The keys of the two programs: lists of texts, floats (written and read as text, which
    loses nothing), texts that locks are, the seconds that keys live, and a set. *)
Record Redis : Type := mkRedis {
  rd_lists : gmap string (list string); rd_floats : gmap string b64; rd_locks : gset string;
  rd_expiry : gmap string Z; rd_disabled : gset Z;
}.

Definition with_list (key : string) (l : list string) (r : Redis) : Redis :=
  mkRedis (match l with [] => delete key (rd_lists r) | _ => <[key := l]> (rd_lists r) end) (rd_floats r) (rd_locks r)
    (rd_expiry r) (rd_disabled r).
Definition list_at (key : string) (r : Redis) : list string := default [] (rd_lists r !! key).
Definition rpush (key v : string) (r : Redis) : Redis := with_list key (list_at key r ++ [v]) r.
(** A list that is emptied is no key any more. *)
Definition lpop (key : string) (count : nat) (r : Redis) : list string * Redis :=
  (firstn count (list_at key r), with_list key (skipn count (list_at key r)) r).
Definition exists_list (key : string) (r : Redis) : bool := bool_decide (is_Some (rd_lists r !! key)).
Definition expire (key : string) (seconds : Z) (r : Redis) : Redis :=
  mkRedis (rd_lists r) (rd_floats r) (rd_locks r) (<[key := seconds]> (rd_expiry r)) (rd_disabled r).
Definition setex (key : string) (seconds : Z) (v : b64) (r : Redis) : Redis :=
  expire key seconds (mkRedis (rd_lists r) (<[key := v]> (rd_floats r)) (rd_locks r) (rd_expiry r) (rd_disabled r)).

(** ** The keys *)

Inductive ReportType : Set := COVERAGE | TEST_RESULTS | BUNDLE_ANALYSIS.
#[export] Instance ReportType_eq_dec : EqDecision ReportType.
Proof. solve_decision. Defined.
Definition ReportType_value (t : ReportType) : string :=
  match t with COVERAGE => "coverage" | TEST_RESULTS => "test_results" | BUNDLE_ANALYSIS => "bundle_analysis" end.
Definition ReportType_of (s : string) : result ReportType :=
  if bool_decide (s = "coverage") then Ok COVERAGE
  else if bool_decide (s = "test_results") then Ok TEST_RESULTS
  else if bool_decide (s = "bundle_analysis") then Ok BUNDLE_ANALYSIS else Err ValueError.

Definition UPLOAD_PROCESSING_LOCK_NAME (repoid : Z) (commitid : string) : string :=
  "upload_processing_lock_" +:+ str_of_Z repoid +:+ "_" +:+ commitid.

Record UploadContext : Type := mkUploadContext { uc_repoid : Z; uc_commitid : string; uc_report_type : ReportType }.

Definition upload_lock_name (c : UploadContext) (lock_type : string) : string :=
  match uc_report_type c with
  | COVERAGE => if bool_decide (lock_type = "upload_processing") then UPLOAD_PROCESSING_LOCK_NAME (uc_repoid c) (uc_commitid c)
                else lock_type +:+ "_lock_" +:+ str_of_Z (uc_repoid c) +:+ "_" +:+ uc_commitid c
  | t => lock_type +:+ "_lock_" +:+ str_of_Z (uc_repoid c) +:+ "_" +:+ uc_commitid c +:+ "_" +:+ ReportType_value t
  end.
Definition upload_location (c : UploadContext) : string :=
  match uc_report_type c with
  | COVERAGE => "uploads/" +:+ str_of_Z (uc_repoid c) +:+ "/" +:+ uc_commitid c
  | t => "uploads/" +:+ str_of_Z (uc_repoid c) +:+ "/" +:+ uc_commitid c +:+ "/" +:+ ReportType_value t
  end.
Definition latest_upload_key (c : UploadContext) : string :=
  match uc_report_type c with
  | COVERAGE => "latest_upload/" +:+ str_of_Z (uc_repoid c) +:+ "/" +:+ uc_commitid c
  | t => "latest_upload/" +:+ str_of_Z (uc_repoid c) +:+ "/" +:+ uc_commitid c +:+ "/" +:+ ReportType_value t
  end.
Definition is_currently_processing (c : UploadContext) (r : Redis) : bool :=
  bool_decide (upload_lock_name c "upload_processing" ∈ rd_locks r).
Definition has_pending_jobs (c : UploadContext) (r : Redis) : bool := exists_list (upload_location c) r.
Definition last_upload_timestamp (c : UploadContext) (r : Redis) : option b64 := rd_floats r !! latest_upload_key c.

(** The arguments are given again, with those that name the upload; a name that is given
    twice is an error. *)
Definition kwargs_for_retry (c : UploadContext) (kwargs : odict string pyval) : result (odict string pyval) :=
  let own := [("repoid", VInt (uc_repoid c)); ("commitid", VStr (uc_commitid c)); ("report_type", VStr (ReportType_value (uc_report_type c)))] in
  if existsb (fun kv => od_mem kv.1 kwargs) own then Err TypeError else Ok (kwargs ++ own).

(** ** The API *)

Definition float_of_val (v : pyval) : result b64 :=
  match v with
  | VInt z => f_of_Z z | VBool b => f_of_Z (Z.b2z b) | VFloat f => Ok f | VStr s => float_of_text s | _ => Err TypeError
  end.
Definition int_of_val (v : pyval) : result Z :=
  match v with
  | VInt z => Ok z | VBool b => Ok (Z.b2z b) | VFloat f => Ok (Z_of_f f) | VStr s => int_of_str s | _ => Err TypeError
  end.
Definition upload_processing_delay (params : pyval) : pyval := get_config params ["setup"; "upload_processing_delay"] VNone.

Record TaskMessage : Type := mkTaskMessage { tm_kwargs : odict string pyval; tm_countdown : Z }.
Record ApiQueue : Type := mkApiQueue { aq_redis : Redis; aq_tasks : list TaskMessage }.

Section dispatch.
Variable json_dumps_std : pyval -> string.   (* [json.dumps] *)
Variable params : pyval.                     (* the configuration *)
Variable now : b64.                          (* [timezone.now().timestamp()] *)

(** The setting is looked up under a tuple, which is no key of a configuration: it is
    never found. *)
Definition cache_uploads_eta : Z := 86400.

Definition dispatch_upload_task (repoid : Z) (task_arguments : pyval) (report_type : ReportType) : prog ApiQueue unit :=
  commitid ← lift (dict_get task_arguments "commit" VNone);
  commit_text ← lift (py_str commitid);
  let c := mkUploadContext repoid commit_text report_type in
  _ ← modify (fun q => mkApiQueue
        (setex (latest_upload_key c) 3600 now
           (expire (upload_location c) cache_uploads_eta (rpush (upload_location c) (json_dumps_std task_arguments) (aq_redis q))))
        (aq_tasks q));
  delay ← lift (let v := upload_processing_delay params in int_of_val (if truthy v then v else VInt 0));
  modify (fun q => mkApiQueue (aq_redis q)
    (aq_tasks q ++ [mkTaskMessage
       [("repoid", VInt repoid); ("commitid", commitid); ("report_type", VStr (ReportType_value report_type));
        ("arguments", task_arguments); ("debug", VBool false); ("rebuild", VBool false)] (4 `max` delay)])).
End dispatch.

(** ** Lemmas *)

Lemma list_at_with_list key l r : list_at key (with_list key l r) = l.
Proof. unfold list_at, with_list; cbn. destruct l; [by rewrite lookup_delete_eq|by rewrite lookup_insert_eq]. Qed.

Lemma list_at_with_list_ne key key' l r : key <> key' -> list_at key' (with_list key l r) = list_at key' r.
Proof. intros Hk. unfold list_at, with_list; cbn. destruct l; [by rewrite lookup_delete_ne|by rewrite lookup_insert_ne]. Qed.

(** No key has an empty list. *)
Definition lists_wf (r : Redis) : Prop := forall key, rd_lists r !! key <> Some [].

Lemma lists_wf_with_list key l r : lists_wf r -> lists_wf (with_list key l r).
Proof.
  intros Hr key'. unfold with_list; cbn. destruct (decide (key = key')) as [->|Hk]; destruct l;
    [by rewrite lookup_delete_eq|by rewrite lookup_insert_eq|rewrite lookup_delete_ne by done; apply Hr|rewrite lookup_insert_ne by done; apply Hr].
Qed.

Lemma exists_list_at key r : lists_wf r -> exists_list key r = negb (bool_decide (list_at key r = [])).
Proof.
  intros Hr. specialize (Hr key). unfold exists_list, list_at. destruct (rd_lists r !! key) as [l|].
  - rewrite (bool_decide_eq_true_2 (is_Some _)) by done. cbn. by rewrite bool_decide_eq_false_2 by congruence.
  - by rewrite bool_decide_eq_false_2 by (by intros [? [=]]).
Qed.
