(* ===== verification/UploadTask.v ===== *)
(** * The upload task

    [apps/worker/tasks/upload.py]: the arguments that wait on the queue of a commit become
    rows of uploads, and one task per upload is scheduled.  The provider, the service that
    initializes a report, the database's sequence of uploads and the broker are programs of
    the environment, which run on the rest of the world. *)
From S2P Require Export UploadQueue Accounts.
From S2P Require Import JsonCodec.
#[local] Open Scope string_scope.
#[local] Open Scope list_scope.
#[local] Open Scope Z_scope.

(** ** Rows and messages *)

Record UploadRow : Type := mkUploadRow {
  up_id : Z; up_report_id : Z; up_external_id : pyval; up_build_code : pyval; up_build_url : pyval; up_job_code : pyval;
  up_name : pyval; up_provider : pyval; up_storage_path : pyval; up_state : string; up_upload_type : string; up_flags : list Z;
}.
Record RepositoryFlag : Type := mkRepositoryFlag { rf_id : Z; rf_repository : Z; rf_name : pyval }.
Record UserMeasurement : Type := mkUserMeasurement {
  um_owner_id : Z; um_repo_id : Z; um_commit_id : Z; um_upload_id : Z; um_uploader_used : string; um_private_repo : option bool;
  um_report_type : option string;
}.
Record UploadReport : Type := mkUploadReport { rp_id : Z; rp_report_type : option string }.
Record UploadCommit : Type := mkUploadCommit { cm_id : Z; cm_repoid : Z; cm_commitid : string }.
(** What the task reads and writes of the repository. *)
Record UploadRepository : Type := mkUploadRepository {
  ur_row : Repository; ur_using_integration : bool; ur_hookid : pyval; ur_webhook_secret : option string;
  ur_bundle_analysis_enabled : bool;
}.

(** A signature of a task, and what is sent: one processor per upload and a finisher after
    them all, or tasks one after the other. *)
Record Signature : Type := mkSignature { sg_task : string; sg_args : list pyval; sg_kwargs : odict string pyval }.
Inductive Canvas : Type := Chord (tasks : list Signature) (body : Signature) | Chain (tasks : list Signature).

Record Breadcrumb : Type := mkBreadcrumb {
  bc_commit_sha : string; bc_repo_id : Z; bc_milestone : option string; bc_upload_ids : list Z; bc_error : option string;
}.
Definition COMPILING_UPLOADS : string := "cu".

(** The adapter of the provider: its service, and whether it has the methods. *)
Record ProviderService : Type := mkProviderService { ps_service : string; ps_post_webhook : bool; ps_edit_webhook : bool }.

Record UploadWorld (R : Type) : Type := mkUploadWorld {
  w_redis : Redis; w_state : ProcessingState.t; w_uploads : list UploadRow; w_flags : list RepositoryFlag; w_flag_seq : Z;
  w_flag_dict : option (odict pyval Z); w_measurements : list UserMeasurement; w_repository : UploadRepository;
  w_crumbs : list Breadcrumb; w_commit_errors : list string; w_scheduled : list Canvas; w_rest : R;
}.
Arguments mkUploadWorld {R}. Arguments w_redis {R}. Arguments w_state {R}. Arguments w_uploads {R}. Arguments w_flags {R}.
Arguments w_flag_seq {R}. Arguments w_flag_dict {R}. Arguments w_measurements {R}. Arguments w_repository {R}.
Arguments w_crumbs {R}. Arguments w_commit_errors {R}. Arguments w_scheduled {R}. Arguments w_rest {R}.

Section setters.
Context {R : Type}.
Implicit Types w : UploadWorld R.
Definition set_redis r w := mkUploadWorld r (w_state w) (w_uploads w) (w_flags w) (w_flag_seq w) (w_flag_dict w) (w_measurements w)
  (w_repository w) (w_crumbs w) (w_commit_errors w) (w_scheduled w) (w_rest w).
Definition set_state s w := mkUploadWorld (w_redis w) s (w_uploads w) (w_flags w) (w_flag_seq w) (w_flag_dict w) (w_measurements w)
  (w_repository w) (w_crumbs w) (w_commit_errors w) (w_scheduled w) (w_rest w).
Definition set_uploads u w := mkUploadWorld (w_redis w) (w_state w) u (w_flags w) (w_flag_seq w) (w_flag_dict w) (w_measurements w)
  (w_repository w) (w_crumbs w) (w_commit_errors w) (w_scheduled w) (w_rest w).
Definition set_flag_rows f seq w := mkUploadWorld (w_redis w) (w_state w) (w_uploads w) f seq (w_flag_dict w) (w_measurements w)
  (w_repository w) (w_crumbs w) (w_commit_errors w) (w_scheduled w) (w_rest w).
Definition set_flag_dict d w := mkUploadWorld (w_redis w) (w_state w) (w_uploads w) (w_flags w) (w_flag_seq w) d (w_measurements w)
  (w_repository w) (w_crumbs w) (w_commit_errors w) (w_scheduled w) (w_rest w).
Definition set_measurements m w := mkUploadWorld (w_redis w) (w_state w) (w_uploads w) (w_flags w) (w_flag_seq w) (w_flag_dict w) m
  (w_repository w) (w_crumbs w) (w_commit_errors w) (w_scheduled w) (w_rest w).
Definition set_repository r w := mkUploadWorld (w_redis w) (w_state w) (w_uploads w) (w_flags w) (w_flag_seq w) (w_flag_dict w)
  (w_measurements w) r (w_crumbs w) (w_commit_errors w) (w_scheduled w) (w_rest w).
Definition set_crumbs c w := mkUploadWorld (w_redis w) (w_state w) (w_uploads w) (w_flags w) (w_flag_seq w) (w_flag_dict w)
  (w_measurements w) (w_repository w) c (w_commit_errors w) (w_scheduled w) (w_rest w).
Definition set_commit_errors e w := mkUploadWorld (w_redis w) (w_state w) (w_uploads w) (w_flags w) (w_flag_seq w) (w_flag_dict w)
  (w_measurements w) (w_repository w) (w_crumbs w) e (w_scheduled w) (w_rest w).
Definition set_scheduled s w := mkUploadWorld (w_redis w) (w_state w) (w_uploads w) (w_flags w) (w_flag_seq w) (w_flag_dict w)
  (w_measurements w) (w_repository w) (w_crumbs w) (w_commit_errors w) s (w_rest w).
Definition set_rest (r : R) w := mkUploadWorld (w_redis w) (w_state w) (w_uploads w) (w_flags w) (w_flag_seq w) (w_flag_dict w)
  (w_measurements w) (w_repository w) (w_crumbs w) (w_commit_errors w) (w_scheduled w) r.

(** A program of the rest of the world. *)
Definition outside {A} (m : prog R A) : prog (UploadWorld R) A := fun w => match m (w_rest w) with (r, rest) => (r, set_rest rest w) end.
End setters.

(** Of the environment: what the task is given, reads and calls. *)
Record UploadEnv (R : Type) : Type := mkUploadEnv {
  te_retries : Z; te_params : pyval; te_time : b64;
  te_lock_acquired : bool; te_lock_released : bool;          (* the lock, and whether it is still held at the end *)
  te_commit : option UploadCommit;
  te_installations : list GithubAppInstallation;             (* of the owner *)
  te_get_service : prog R ProviderService; te_seconds_to_next_hour : Z;
  te_provider_yaml : prog R pyval; te_own_yaml : pyval;      (* the final configuration with and without the provider *)
  te_update_commit : prog R bool;
  te_uuid : string; te_create_webhook : option string -> prog R pyval; te_update_webhook : pyval -> option string -> prog R unit;
  te_report : ReportType -> prog R (option UploadReport);    (* nothing where it is not ready *)
  te_flush : prog R Z;                                       (* the key of a new upload *)
  te_apply_async : Canvas -> prog R unit;
  te_ta_tasks : string; te_timeseries_enabled : bool; te_commit_before_cutoff : bool;
}.
Arguments te_retries {R}. Arguments te_params {R}. Arguments te_time {R}. Arguments te_lock_acquired {R}. Arguments te_lock_released {R}.
Arguments te_commit {R}. Arguments te_installations {R}. Arguments te_get_service {R}. Arguments te_seconds_to_next_hour {R}.
Arguments te_provider_yaml {R}. Arguments te_own_yaml {R}. Arguments te_update_commit {R}. Arguments te_uuid {R}.
Arguments te_create_webhook {R}. Arguments te_update_webhook {R}. Arguments te_report {R}. Arguments te_flush {R}.
Arguments te_apply_async {R}. Arguments te_ta_tasks {R}. Arguments te_timeseries_enabled {R}. Arguments te_commit_before_cutoff {R}.

(** The end of the task: an answer, or another run after some seconds, with the arguments
    it had or others. *)
Inductive upload_outcome : Type :=
  | UploadDone (answer : odict string pyval)
  | UploadRetry (countdown : pyval) (kwargs : option (odict string pyval)).

Definition nothing_scheduled : upload_outcome :=
  UploadDone [("was_setup", VBool false); ("was_updated", VBool false); ("tasks_were_scheduled", VBool false)].
Definition too_many_retries : upload_outcome :=
  UploadDone [("was_setup", VBool false); ("was_updated", VBool false); ("tasks_were_scheduled", VBool false);
              ("reason", VStr "too_many_retries")].

(** ** Arguments *)

Definition normalize_flags (arguments : odict string pyval) : odict string pyval :=
  let flags := default VNone (od_get "flags" arguments) in
  let flags := if negb (truthy flags) then VList []
               else match flags with VStr s => VList (map (fun f => VStr (strip f)) (split "," s)) | _ => flags end in
  od_set "flags" flags arguments.

(** [for flag_name in flag_names], each looked up in a dictionary. *)
Definition hashable_flag (v : pyval) : result pyval := match v with VList _ | VDict _ => Err TypeError | _ => Ok v end.
Definition flag_names (flags : pyval) : result (list pyval) :=
  match flags with
  | VList l => traverse hashable_flag l
  | VDict d => Ok (map (fun kv => VStr kv.1) d)
  | VStr s => Ok (map (fun c => VStr (String c "")) (String.list_ascii_of_string s))
  | _ => Err TypeError
  end.

(** [name[:100] if name else None] *)
Definition upload_name (name : pyval) : result pyval :=
  if negb (truthy name) then Ok VNone
  else match name with
       | VStr s => Ok (VStr (str_take 100 s))
       | VList l => Ok (VList (firstn 100 l))
       | VDict _ => Err KeyError
       | _ => Err TypeError
       end.

Fixpoint batched {A} (fuel : nat) (n : nat) (l : list A) : list (list A) :=
  match fuel, l with
  | S fuel, _ :: _ => firstn n l :: batched fuel n (skipn n l)
  | _, _ => []
  end.
Definition CHUNK_SIZE : nat := 3.

(** ** The task *)

Section task.
Context {R : Type} `{OrJson}.
Variable env : UploadEnv R.
#[local] Notation World := (UploadWorld R).

(** [self.retry]: three times, where the call does not say more. *)
Definition celery_retry (countdown : pyval) (kwargs : option (odict string pyval)) : prog World upload_outcome :=
  if te_retries env + 1 <=? 3 then mret (UploadRetry countdown kwargs) else raise CeleryError.
Definition retry_with (c : UploadContext) (kwargs : odict string pyval) (countdown : pyval) : prog World upload_outcome :=
  kwargs ← lift (kwargs_for_retry c kwargs); celery_retry countdown (Some kwargs).

(** [_call_upload_breadcrumb_task], which never fails. *)
Definition breadcrumb (commit_sha : string) (repo_id : Z) (milestone : option string) (upload_ids : list Z) (error : option string) :
    prog World unit :=
  modify (fun w => set_crumbs (w_crumbs w ++ [mkBreadcrumb commit_sha repo_id milestone upload_ids error]) w).
Definition crumb_error (c : UploadContext) (error : string) : prog World unit :=
  breadcrumb (uc_commitid c) (uc_repoid c) (Some COMPILING_UPLOADS) [] (Some error).

(** [_should_debounce_processing] *)
Definition _should_debounce_processing (c : UploadContext) (r : Redis) : result (option pyval) :=
  match upload_processing_delay (te_params env) with
  | VNone => Ok None
  | v =>
      delay ← float_of_val v;
      match last_upload_timestamp c r with
      | None => Ok None
      | Some last =>
          let delta := f_sub (te_time env) last in
          if f_ltb delta delay then
            let rest := f_sub delay delta in
            thirty ← f_of_Z 30;
            Ok (Some (if f_ltb thirty rest then VFloat rest else VInt 30))
          else Ok None
      end
  end.

(** ** The adapter of the provider *)

(** [get_repo_provider_service] of the base class: an adapter, none, or another run. *)
Definition get_repo_provider_service (commit : UploadCommit) : prog World (option ProviderService + upload_outcome) :=
  let failed error := _ ← breadcrumb (cm_commitid commit) (cm_repoid commit) None [] (Some error); mret (inl None) in
  try_except (s ← outside (te_get_service env); mret (inl (Some s))) (fun f =>
    match f with
    | Bot RepositoryWithoutValidBotError =>
        Some (_ ← modify (fun w => set_commit_errors (w_commit_errors w ++ ["repo_bot_invalid"]) w); failed "rmb")
    | Bot (NoConfiguredApps _ rate_limited_count _) =>
        Some (if (0 <? rate_limited_count) && (te_retries env + 1 <=? 3)
              then mret (inr (UploadRetry (VInt (60 `max` te_seconds_to_next_hour env)) None)) else mret (inl None))
    | Torngit TorngitRepoNotFoundError => Some (failed "rnf")
    | Torngit e => Some (failed (if is_client_error e then "gce" else "u"))
    | _ => Some (failed "u")
    end).

Definition is_gitlab (service : string) : bool := bool_decide (service ∈ ["gitlab"; "gitlab_enterprise"]).
Definition no_secret (o : option string) : bool := match o with None | Some "" => true | _ => false end.

(** [possibly_setup_webhooks]; the copy of the hook in the adapter is not kept. *)
Definition possibly_setup_webhooks (c : UploadContext) (service : ProviderService) : prog World bool :=
  r ← read w_repository;
  let ghapp_default := List.filter (fun i => bool_decide (gi_name i = GITHUB_APP_INSTALLATION_DEFAULT_NAME)) (te_installations env) in
  let should_post_ghapp :=
    negb (match ghapp_default with i :: _ => GithubAppInstallationOps.is_repo_covered_by_integration i (ur_row r) | [] => false end) in
  let should_post_webhook :=
    negb (ur_using_integration r) && should_post_ghapp && negb (truthy (ur_hookid r)) && ps_post_webhook service in
  let needs_backfill :=
    is_gitlab (ps_service service) && truthy (ur_hookid r) && no_secret (ur_webhook_secret r) && ps_edit_webhook service in
  if should_post_webhook || needs_backfill then
    let secret := if is_gitlab (ps_service service)
                  then Some (if no_secret (ur_webhook_secret r) then te_uuid env else default "" (ur_webhook_secret r)) else None in
    except_client
      (if should_post_webhook then
         hook_result ← outside (te_create_webhook env secret);
         hookid ← lift (get_item hook_result "id");
         _ ← modify (fun w => set_repository (mkUploadRepository (ur_row r) (ur_using_integration r) hookid secret
                                               (ur_bundle_analysis_enabled r)) w);
         mret true
       else
         _ ← outside (te_update_webhook env (ur_hookid r) secret);
         _ ← modify (fun w => set_repository (mkUploadRepository (ur_row r) (ur_using_integration r) (ur_hookid r) secret
                                               (ur_bundle_analysis_enabled r)) w);
         mret false)
      (fun _ => _ ← crumb_error c "gce"; mret false)
  else mret false.

(** Whether the commit was updated, and whether a webhook was set up.  The setting up of a
    webhook never ends in an error of the provider's client. *)
Definition update_from_provider (c : UploadContext) (service : ProviderService) : prog World (bool * bool) :=
  except_client
    (updated ← outside (te_update_commit env); setup ← possibly_setup_webhooks c service; mret (updated, setup))
    (fun e => _ ← crumb_error c (match e with TorngitRepoNotFoundError => "rnf" | _ => "gce" end); mret (false, false)).

(** ** Uploads and their flags *)

(** The flags of a repository by their names; the last of a name counts. *)
Definition flags_of_rows (repoid : Z) (rows : list RepositoryFlag) : odict pyval Z :=
  od_of_list (map (fun f => (rf_name f, rf_id f)) (List.filter (fun f => rf_repository f =? repoid) rows)).

(** [upload.flags = ...] *)
Definition assign_flags (upload_id : Z) (flags : list Z) (rows : list UploadRow) : list UploadRow :=
  map (fun u => if up_id u =? upload_id
                then mkUploadRow (up_id u) (up_report_id u) (up_external_id u) (up_build_code u) (up_build_url u) (up_job_code u)
                       (up_name u) (up_provider u) (up_storage_path u) (up_state u) (up_upload_type u) flags
                else u) rows.

(** A flag found by its name, or a new row. *)
Definition flag_step (repoid : Z) (st : odict pyval Z * list RepositoryFlag * Z * list Z) (name : pyval) :
    odict pyval Z * list RepositoryFlag * Z * list Z :=
  let '(known, created, seq, ids) := st in
  match od_get name known with
  | Some i => (known, created, seq, ids ++ [i])
  | None => (od_set name seq known, created ++ [mkRepositoryFlag seq repoid name], seq + 1, ids ++ [seq])
  end.
Definition flag_rows (repoid : Z) (names : list pyval) (known : odict pyval Z) (created : list RepositoryFlag) (seq : Z) :
    odict pyval Z * list RepositoryFlag * Z * list Z := List.fold_left (flag_step repoid) names (known, created, seq, []).

(** [_attach_flags_to_upload] of the service of test results. *)
Definition _attach_flags_to_upload (repoid upload_id : Z) (flags : pyval) : prog World unit :=
  w ← read id;
  let known := default (flags_of_rows repoid (w_flags w)) (w_flag_dict w) in
  names ← lift (flag_names flags);
  let '(known, created, seq, ids) := flag_rows repoid names known [] (w_flag_seq w) in
  modify (fun w => set_uploads (assign_flags upload_id ids (w_uploads w))
                     (set_flag_dict (Some known) (set_flag_rows (w_flags w ++ created) seq w))).

(** [create_report_upload] *)
Definition create_report_upload (c : UploadContext) (report : UploadReport) (arguments : odict string pyval) : prog World Z :=
  let arg k := default VNone (od_get k arguments) in
  name ← lift (upload_name (arg "name"));
  id ← outside (te_flush env);
  _ ← modify (fun w => set_uploads (w_uploads w ++
        [mkUploadRow id (rp_id report) (arg "reportid") (arg "build") (arg "build_url") (arg "job") name (arg "service") (arg "url")
           "started" "uploaded" []]) w);
  _ ← (if bool_decide (uc_report_type c = TEST_RESULTS) then _attach_flags_to_upload (uc_repoid c) id (arg "flags") else mret tt);
  mret id.

Record CreateUploadResponse : Type := mkCreated {
  cr_argument_list : list (odict string pyval); cr_measurements : list UserMeasurement; cr_flag_map : list (Z * pyval);
}.

Definition measurement_of (commit : UploadCommit) (report : UploadReport) (r : Repository) (upload_id : Z) : UserMeasurement :=
  mkUserMeasurement (r_author r) (r_repoid r) (cm_id commit) upload_id "legacy" (r_private r) (rp_report_type report).

(** One element of the queue. *)
Definition upload_step (c : UploadContext) (commit : UploadCommit) (report : UploadReport) (acc : CreateUploadResponse)
    (arguments : pyval) : prog World CreateUploadResponse :=
  match arguments with
  | VDict d =>
      let d := normalize_flags (od_del "token" d) in
      '(d, measurements, flag_map) ←
        (if od_mem "upload_id" d then mret (d, cr_measurements acc, cr_flag_map acc)
         else
           id ← create_report_upload c report d;
           r ← read w_repository;
           mret (od_set "upload_id" (VInt id) d, cr_measurements acc ++ [measurement_of commit report (ur_row r) id],
                 cr_flag_map acc ++ [(id, default (VList []) (od_get "flags" d))]));
      let d := od_set "upload_pk" (default VNone (od_get "upload_id" d)) d in
      mret (mkCreated (cr_argument_list acc ++ [d]) measurements flag_map)
  | VList _ => raise (Raised TypeError)
  | _ => raise (Raised AttributeError)
  end.

(** One batch of [arguments_list], which is consumed before the next is popped. *)
Fixpoint fold_texts {S} (f : S -> pyval -> prog World S) (s : S) (texts : list string) : prog World S :=
  match texts with
  | [] => mret s
  | t :: texts => v ← lift (json_loads t); s ← f s v; fold_texts f s texts
  end.
Definition popped (key : string) : prog World (list string) :=
  fun w => let '(l, r) := lpop key 50 (w_redis w) in (inl l, set_redis r w).
Fixpoint arguments_list {S} (fuel : nat) (key : string) (f : S -> pyval -> prog World S) (s : S) : prog World S :=
  match fuel with
  | O => mret s
  | S fuel =>
      batch ← popped key;
      match batch with
      | [] => mret s
      | _ => s ← fold_texts f s batch; arguments_list fuel key f s
      end
  end.

Definition _possibly_create_uploads_to_insert (c : UploadContext) (commit : UploadCommit) (report : UploadReport) :
    prog World CreateUploadResponse :=
  waiting ← read (fun w => length (list_at (upload_location c) (w_redis w)));
  arguments_list (S waiting) (upload_location c) (upload_step c commit report) (mkCreated [] [] []).

(** One upload of [_bulk_insert_flags]; the rows of its flags are assigned once all are
    made. *)
Definition bulk_step (repoid : Z) (st : odict pyval Z * list RepositoryFlag * Z * list (Z * list Z)) (upload : Z * pyval) :
    result (odict pyval Z * list RepositoryFlag * Z * list (Z * list Z)) :=
  let '(known, created, seq, links) := st in
  names ← flag_names upload.2;
  let '(known, created, seq, ids) := flag_rows repoid names known created seq in
  Ok (known, created, seq, links ++ [(upload.1, ids)]).

Definition _bulk_insert_flags (repoid : Z) (upload_flag_map : list (Z * pyval)) : prog World unit :=
  w ← read id;
  '(_, created, seq, links) ← lift (foldM (bulk_step repoid) (flags_of_rows repoid (w_flags w), [], w_flag_seq w, []) upload_flag_map);
  modify (fun w => set_uploads (List.fold_left (fun rows link => assign_flags link.1 link.2 rows) links (w_uploads w))
                     (set_flag_rows (w_flags w ++ created) seq w)).

Definition possibly_insert_uploads_and_side_effects (c : UploadContext) (commit : UploadCommit) (report : UploadReport) :
    prog World (list (odict string pyval)) :=
  created ← _possibly_create_uploads_to_insert c commit report;
  _ ← (match cr_flag_map created with
       | [] => mret tt
       | m => r ← read w_repository; _bulk_insert_flags (r_repoid (ur_row r)) m
       end);
  _ ← (match cr_measurements created with
       | [] => mret tt
       | ms => modify (fun w => set_measurements (w_measurements w ++ ms) w)
       end);
  mret (cr_argument_list created).

(** ** Scheduling *)

Definition int_upload_ids (argument_list : list (odict string pyval)) : result (list Z) :=
  traverse (fun a => match od_get "upload_id" a with Some v => int_of_val v | None => Err KeyError end) argument_list.

Definition task_kwargs (commit : UploadCommit) (commit_yaml : pyval) (more : odict string pyval) : odict string pyval :=
  [("repoid", VInt (cm_repoid commit)); ("commitid", VStr (cm_commitid commit)); ("commit_yaml", commit_yaml)] ++ more.

Definition send (canvas : Canvas) : prog World unit :=
  _ ← outside (te_apply_async env canvas); modify (fun w => set_scheduled (w_scheduled w ++ [canvas]) w).

Definition coverage_canvas (commit : UploadCommit) (commit_yaml : pyval) (argument_list : list (odict string pyval)) : Canvas :=
  Chord (map (fun a => mkSignature "app.tasks.upload.UploadProcessor" [] (task_kwargs commit commit_yaml [("arguments", VDict a)])) argument_list)
    (mkSignature "app.tasks.upload.UploadFinisher" [] (task_kwargs commit commit_yaml [])).
Definition _schedule_coverage_processing_task (commit : UploadCommit) (commit_yaml : pyval) (argument_list : list (odict string pyval)) :
    prog World unit :=
  ids ← lift (int_upload_ids argument_list);
  _ ← modify (fun w => set_state (ProcessingState.mark_uploads_as_processing ids (w_state w)) w);
  send (coverage_canvas commit commit_yaml argument_list).

(** [task_signatures[0].args = ...] *)
Definition with_args (args : list pyval) (l : list Signature) : result (list Signature) :=
  match l with s :: l => Ok (mkSignature (sg_task s) args (sg_kwargs s) :: l) | [] => Err IndexError end.

Definition _schedule_bundle_analysis_processing_task (commit : UploadCommit) (commit_yaml : pyval)
    (argument_list : list (odict string pyval)) (do_notify : bool) : prog World unit :=
  signatures ← lift (with_args [VDict []]
    (map (fun a => mkSignature "app.tasks.bundle_analysis.BundleAnalysisProcessor" [] (task_kwargs commit commit_yaml [("params", VDict a)]))
       argument_list));
  send (Chain (signatures ++ (if do_notify then [mkSignature "app.tasks.bundle_analysis.BundleAnalysisNotify" []
                                                   (task_kwargs commit commit_yaml [])] else []))).

Definition ta_impl_type : string :=
  if negb (te_timeseries_enabled env) then "old" else if te_commit_before_cutoff env then te_ta_tasks env else "new".
Definition _schedule_ta_processing_task (commit : UploadCommit) (commit_yaml : pyval) (argument_list : list (odict string pyval)) :
    prog World unit :=
  let impl := ("impl_type", VStr ta_impl_type) in
  group ← lift (with_args [VBool false]
    (map (fun chunk => mkSignature "app.tasks.test_results.TestResultsProcessor" []
                         (task_kwargs commit commit_yaml [("arguments_list", VList (map VDict chunk)); impl]))
       (batched (length argument_list) CHUNK_SIZE argument_list)));
  send (Chain (group ++ [mkSignature "app.tasks.test_results.TestResultsFinisherTask" [] (task_kwargs commit commit_yaml [impl])])).

(** The copy of the arguments of an upload for the report of bundles. *)
Definition ba_argument (a : odict string pyval) : result (odict string pyval) :=
  if od_mem "upload_id" a then Ok (od_set "upload_pk" VNone (od_del "upload_id" a)) else Err KeyError.
Definition possibly_carryforward_bundle_report (commit : UploadCommit) (report : UploadReport) (commit_yaml : pyval)
    (argument_list : list (odict string pyval)) : prog World unit :=
  r ← read w_repository;
  if negb (bool_decide (rp_report_type report = Some "bundle_analysis")) && ur_bundle_analysis_enabled r then
    l ← lift (traverse ba_argument argument_list);
    _schedule_bundle_analysis_processing_task commit commit_yaml l false
  else mret tt.

Definition schedule_task (c : UploadContext) (commit : UploadCommit) (commit_yaml : pyval) (argument_list : list (odict string pyval))
    (report : UploadReport) : prog World unit :=
  _ ← possibly_carryforward_bundle_report commit report commit_yaml argument_list;
  ids ← lift (int_upload_ids argument_list);
  _ ← breadcrumb (cm_commitid commit) (cm_repoid commit) (Some COMPILING_UPLOADS) ids None;
  match uc_report_type c with
  | COVERAGE =>
      if bool_decide (rp_report_type report = None \/ rp_report_type report = Some "coverage")
      then _schedule_coverage_processing_task commit commit_yaml argument_list else raise (Raised AssertionError)
  | BUNDLE_ANALYSIS =>
      if bool_decide (rp_report_type report = Some "bundle_analysis")
      then _schedule_bundle_analysis_processing_task commit commit_yaml argument_list true else raise (Raised AssertionError)
  | TEST_RESULTS =>
      if bool_decide (rp_report_type report = Some "test_results")
      then _schedule_ta_processing_task commit commit_yaml argument_list else raise (Raised AssertionError)
  end.

(** ** The run *)

Definition run_impl_within_lock (c : UploadContext) (kwargs : odict string pyval) : prog World upload_outcome :=
  match te_commit env with
  | None => raise (Raised AssertionError)
  | Some commit =>
      found ← get_repo_provider_service commit;
      match found with
      | inr retry => mret retry
      | inl service =>
          '(commit_yaml, was_updated, was_setup) ←
            match service with
            | Some s => yaml ← outside (te_provider_yaml env); '(updated, setup) ← update_from_provider c s; mret (yaml, updated, setup)
            | None => mret (te_own_yaml env, false, false)
            end;
          report ← outside (te_report env (uc_report_type c));
          match report with
          | None => _ ← crumb_error c "int_re"; retry_with c kwargs (VInt 60)
          | Some report =>
              argument_list ← possibly_insert_uploads_and_side_effects c commit report;
              _ ← (match argument_list with
                   | [] => crumb_error c "int_na"
                   | _ => schedule_task c commit commit_yaml argument_list report
                   end);
              mret (UploadDone [("was_setup", VBool was_setup); ("was_updated", VBool was_updated)])
          end
      end
  end.

(** [with redis.lock(...)]: nothing where the lock is not acquired, or no longer held. *)
Definition with_lock (body : prog World upload_outcome) : prog World (option upload_outcome) := fun w =>
  if te_lock_acquired env then
    let '(r, w) := body w in
    if te_lock_released env then (match r with inl o => inl (Some o) | inr f => inr f end, w) else (inl None, w)
  else (inl None, w).

Definition no_pending_jobs (c : UploadContext) : prog World upload_outcome := _ ← crumb_error c "int_np"; mret nothing_scheduled.

(** [except LockError] *)
Definition lock_error (c : UploadContext) (kwargs : odict string pyval) : prog World upload_outcome :=
  _ ← crumb_error c "int_le";
  r ← read w_redis;
  if negb (has_pending_jobs c r) then no_pending_jobs c
  else if 1 <? te_retries env then _ ← crumb_error c "int_or"; mret too_many_retries
  else _ ← crumb_error c "int_re"; retry_with c kwargs (VInt (20 * 2 ^ te_retries env)).

Definition upload_run_impl (repoid : Z) (commitid report_type : string) (kwargs : odict string pyval) : prog World upload_outcome :=
  t ← lift (ReportType_of report_type);
  let c := mkUploadContext repoid commitid t in
  _ ← breadcrumb commitid repoid (Some COMPILING_UPLOADS) [] None;
  r ← read w_redis;
  if negb (has_pending_jobs c r) then no_pending_jobs c
  else if is_currently_processing c r && (te_retries env =? 0) then _ ← crumb_error c "int_re"; retry_with c kwargs (VInt 60)
  else
    debounce ← lift (_should_debounce_processing c r);
    match debounce with
    | Some countdown => _ ← crumb_error c "int_re"; retry_with c kwargs countdown
    | None =>
        ended ← try_except
          (o ← with_lock (r ← read w_redis; if negb (has_pending_jobs c r) then no_pending_jobs c else run_impl_within_lock c kwargs);
           mret (inl o))
          (fun f => match f with SoftTimeLimitExceeded => Some (mret (inr tt)) | _ => None end);
        match ended with
        | inl (Some o) => mret o
        | inl None => lock_error c kwargs
        | inr tt => _ ← crumb_error c "tto"; retry_with c kwargs (VInt (20 * 2 ^ te_retries env))
        end
    end.
End task.

(** ** What the parts of the task leave alone *)

(** The queue, the state of the processing and what was sent are as they were; the uploads
    that had rows have them. *)
Definition still {R} (r : Redis) (s : ProcessingState.t) (l : list Canvas) (ids : list Z) (w : UploadWorld R) : Prop :=
  w_redis w = r /\ w_state w = s /\ w_scheduled w = l /\ ids ⊆ map up_id (w_uploads w).

Lemma assign_flags_ids i flags rows : map up_id (assign_flags i flags rows) = map up_id rows.
Proof. unfold assign_flags. rewrite map_map. apply map_ext. intros u. by destruct (_ =? _). Qed.

Lemma assign_links_ids links rows : map up_id (List.fold_left (fun rows (link : Z * list Z) => assign_flags link.1 link.2 rows) links rows) = map up_id rows.
Proof. revert rows. induction links as [|link links IH]; intros rows; cbn; [done|]. by rewrite IH, assign_flags_ids. Qed.

Section left_alone.
Context {R : Type} `{OrJson}.
Variable env : UploadEnv R.
Variables (r : Redis) (s : ProcessingState.t) (l : list Canvas) (ids : list Z).
#[local] Notation P := (@still R r s l ids).

Lemma still_outside {A} (m : prog R A) : preserves P (outside m).
Proof. intros w Hw. unfold outside. by destruct (m (w_rest w)). Qed.
Lemma still_modify f : (forall w, P w -> P (f w)) -> preserves P (modify f).
Proof. intros Hf w Hw. by apply Hf. Qed.
Lemma still_breadcrumb a b c d e : preserves P (breadcrumb a b c d e).
Proof. by apply still_modify. Qed.
Lemma still_crumb_error c e : preserves P (crumb_error c e).
Proof. apply still_breadcrumb. Qed.
Hint Resolve still_outside still_breadcrumb still_crumb_error : effects.
Lemma still_assign_flags i flags w : P w -> P (set_uploads (assign_flags i flags (w_uploads w)) w).
Proof. intros (? & ? & ? & ?). unfold still; cbn. by rewrite assign_flags_ids. Qed.

Lemma still_service commit : preserves P (get_repo_provider_service env commit).
Proof.
  unfold get_repo_provider_service. apply preserves_try; [eauto with effects|]. intros f k Hk.
  assert (Hfail : forall e, preserves P (_ ← breadcrumb (cm_commitid commit) (cm_repoid commit) None [] (Some e); mret (inl None) :
                                           prog (UploadWorld R) (option ProviderService + upload_outcome))) by eauto with effects.
  repeat case_match; injection Hk as <-; try apply Hfail; eauto with effects.
  apply preserves_bind; [by apply still_modify|intros; apply Hfail].
Qed.

Lemma still_webhooks c service : preserves P (possibly_setup_webhooks env c service).
Proof.
  unfold possibly_setup_webhooks. apply preserves_bind; [apply preserves_read|]. intros rp.
  match goal with |- preserves _ (if ?b || _ then _ else _) => set (post := b) end.
  destruct (post || _); [|apply preserves_ret]. apply preserves_try.
  - destruct post; repeat (apply preserves_bind; [eauto with effects; by apply still_modify|intros]); apply preserves_ret.
  - intros f k Hk. repeat case_match; try done. injection Hk as <-. eauto with effects.
Qed.

Lemma still_update c service : preserves P (update_from_provider env c service).
Proof.
  unfold update_from_provider. apply preserves_try.
  - apply preserves_bind; [apply still_outside|]. intros. apply preserves_bind; [apply still_webhooks|]. intros. apply preserves_ret.
  - intros f k Hk. destruct f as [e| | | | |]; try done. destruct (is_client_error e); [|done]. injection Hk as <-.
    apply preserves_bind; [apply still_crumb_error|]. intros. apply preserves_ret.
Qed.

Lemma still_attach_flags repoid i flags : preserves P (_attach_flags_to_upload repoid i flags).
Proof.
  unfold _attach_flags_to_upload. apply preserves_bind; [apply preserves_read|]. intros w. apply preserves_bind; [apply preserves_lift|].
  intros names. destruct (flag_rows _ _ _ _ _) as [[[known created] seq] fl]. apply still_modify. intros w' Hw'.
  by apply (still_assign_flags i fl) in Hw'.
Qed.

Lemma still_bulk_flags repoid m : preserves P (_bulk_insert_flags repoid m).
Proof.
  unfold _bulk_insert_flags. apply preserves_bind; [apply preserves_read|]. intros w. apply preserves_bind; [apply preserves_lift|].
  intros [[[known created] seq] links]. apply still_modify. intros w' (? & ? & ? & ?). unfold still; cbn. by rewrite assign_links_ids.
Qed.
End left_alone.

(** A part that leaves things alone, with the row it made. *)
Lemma create_report_upload_run {R} `{OrJson} (env : UploadEnv R) c report d i w w' r s l ids :
  still r s l ids w -> create_report_upload env c report d w = (inl i, w') -> still r s l (ids ++ [i]) w'.
Proof.
  intros Hw Hrun. unfold create_report_upload in Hrun.
  apply run_bind_inv in Hrun as (name & w1 & [_ ->]%lift_inv & Hrun).
  apply run_bind_inv in Hrun as (j & w2 & Hf & Hrun). pose proof (still_outside r s l ids (te_flush env) w Hw) as Hw2. rewrite Hf in Hw2.
  apply run_bind_inv in Hrun as ([] & w3 & Hm & Hrun). injection Hm as <-. apply run_bind_inv in Hrun as ([] & w4 & Ha & [= <- <-]).
  cbn [snd] in Hw2. destruct Hw2 as (? & ? & ? & Hids).
  assert (H3 : still r s l (ids ++ [j]) (set_uploads (w_uploads w2 ++ [mkUploadRow j (rp_id report) (default VNone (od_get "reportid" d))
    (default VNone (od_get "build" d)) (default VNone (od_get "build_url" d)) (default VNone (od_get "job" d)) name
    (default VNone (od_get "service" d)) (default VNone (od_get "url" d)) "started" "uploaded" []]) w2)).
  { split_and!; [done..|]. cbn. rewrite map_app. cbn. set_solver. }
  destruct (bool_decide _); [|by injection Ha as <-].
  pose proof (still_attach_flags r s l (ids ++ [j]) (uc_repoid c) j (default VNone (od_get "flags" d)) _ H3) as H4.
  by rewrite Ha in H4.
Qed.

(** ** From the queue to the tasks *)

(** The arguments of an upload as they are scheduled: without the token, with a list of
    flags, and the number of the upload, that of a row if the arguments had none. *)
Definition prepared (rows : list Z) (d a : odict string pyval) : Prop :=
  let d := normalize_flags (od_del "token" d) in
  match od_get "upload_id" d with
  | Some v => a = od_set "upload_pk" v d
  | None => exists i, i ∈ rows /\ a = od_set "upload_pk" (VInt i) (od_set "upload_id" (VInt i) d)
  end.

Lemma prepared_mono rows rows' d a : rows ⊆ rows' -> prepared rows d a -> prepared rows' d a.
Proof. unfold prepared. intros Hr. destruct (od_get _ _); [done|]. intros (i & Hi & ->). exists i. split; [by apply Hr|done]. Qed.

Section queue_to_tasks.
Context {R : Type} `{OrJson}.
Variable env : UploadEnv R.
Variables (c : UploadContext) (commit : UploadCommit) (report : UploadReport).
#[local] Notation step := (upload_step env c commit report).

Lemma upload_step_run acc v acc' w w' r s l ids :
  still r s l ids w -> step acc v w = (inl acc', w') ->
  exists d a more, v = VDict d /\ still r s l (ids ++ more) w' /\ prepared (ids ++ more) d a /\
    cr_argument_list acc' = cr_argument_list acc ++ [a].
Proof.
  intros Hw Hrun. destruct v as [| | | | | |d]; try done. unfold upload_step in Hrun.
  set (d1 := normalize_flags (od_del "token" d)) in *.
  apply run_bind_inv in Hrun as ([[d2 ms] fm] & w1 & Hd & [= <- <-]).
  destruct (od_get "upload_id" d1) as [v|] eqn:Hid.
  - assert (Hmem : od_mem "upload_id" d1 = true) by (apply od_mem_keys, od_get_is_Some; by exists v).
    rewrite Hmem in Hd. injection Hd as <- <- <- <-. exists d, (od_set "upload_pk" v d1), []. rewrite app_nil_r. split_and!; [done..| |].
    + unfold prepared. fold d1. by rewrite Hid.
    + cbn. by rewrite Hid.
  - assert (Hmem : od_mem "upload_id" d1 = false).
    { apply not_true_iff_false. intros Hm%od_mem_keys%od_get_is_Some. rewrite Hid in Hm. by destruct Hm. }
    rewrite Hmem in Hd. apply run_bind_inv in Hd as (i & w2 & Hi & Hd). injection Hd as <- <- <- <-.
    exists d, (od_set "upload_pk" (VInt i) (od_set "upload_id" (VInt i) d1)), [i]. split_and!; [done| | |].
    + by eapply create_report_upload_run.
    + unfold prepared. fold d1. rewrite Hid. exists i. split; [set_solver|done].
    + cbn. by rewrite od_get_set_eq.
Qed.

Definition taken (ids : list Z) (texts : list string) (argss : list (odict string pyval)) : Prop :=
  Forall2 (fun t a => exists d, json_loads t = Ok (VDict d) /\ prepared ids d a) texts argss.

Lemma taken_mono ids ids' texts argss : ids ⊆ ids' -> taken ids texts argss -> taken ids' texts argss.
Proof. intros Hi Hf. apply (Forall2_impl _ _ _ _ Hf). intros t a (d & Hd & Hp). exists d. split; [done|by eapply prepared_mono]. Qed.

Lemma fold_texts_run texts acc acc' w w' r s l ids :
  still r s l ids w -> fold_texts step acc texts w = (inl acc', w') ->
  exists argss more, still r s l (ids ++ more) w' /\ taken (ids ++ more) texts argss /\
    cr_argument_list acc' = cr_argument_list acc ++ argss.
Proof.
  revert acc w ids. induction texts as [|t texts IH]; intros acc w ids Hw Hrun; cbn in Hrun.
  - injection Hrun as <- <-. exists [], []. rewrite !app_nil_r. split_and!; [done|constructor|done].
  - apply run_bind_inv in Hrun as (v & w1 & [Hv ->]%lift_inv & Hrun). apply run_bind_inv in Hrun as (acc1 & w2 & Hs & Hrun).
    destruct (upload_step_run _ _ _ _ _ _ _ _ _ Hw Hs) as (d & a & more & -> & Hw2 & Hp & Ha).
    destruct (IH _ _ _ Hw2 Hrun) as (argss & more' & Hw' & Ht & Ha'). exists (a :: argss), (more ++ more').
    rewrite !app_assoc. split_and!; [done| |by rewrite Ha', Ha, <- app_assoc].
    constructor; [|done]. exists d. split; [done|]. eapply prepared_mono, Hp. set_solver.
Qed.

Lemma with_list_with_list key l1 l2 rd : with_list key l2 (with_list key l1 rd) = with_list key l2 rd.
Proof.
  unfold with_list; cbn. f_equal. destruct l1, l2; by rewrite ?delete_delete_eq, ?delete_insert_eq, ?insert_delete_eq, ?insert_insert_eq.
Qed.

Lemma arguments_list_run fuel key acc acc' w w' r s l ids :
  (length (list_at key r) < fuel)%nat -> still r s l ids w -> arguments_list fuel key step acc w = (inl acc', w') ->
  exists argss more, still (with_list key [] r) s l (ids ++ more) w' /\ taken (ids ++ more) (list_at key r) argss /\
    cr_argument_list acc' = cr_argument_list acc ++ argss.
Proof.
  revert acc w r ids. induction fuel as [|fuel IH]; intros acc w r ids Hf Hw Hrun; [lia|].
  cbn [arguments_list] in Hrun. apply run_bind_inv in Hrun as (batch & w1 & Hpop & Hrun).
  destruct Hw as (Hr & Hs & Hl & Hids). unfold popped, lpop in Hpop. rewrite Hr in Hpop. injection Hpop as <- <-.
  assert (Hw1 : still (with_list key (skipn 50 (list_at key r)) r) s l ids (set_redis (with_list key (skipn 50 (list_at key r)) r) w)) by done.
  destruct (list_at key r) as [|t texts] eqn:Htexts.
  - cbn in Hrun. injection Hrun as <- <-. exists [], []. rewrite !app_nil_r. split_and!; [done|constructor|done].
  - set (all := t :: texts) in *. change (firstn 50 all) with (t :: firstn 49 texts) in Hrun. cbn match in Hrun.
    change (t :: firstn 49 texts) with (firstn 50 all) in Hrun.
    apply run_bind_inv in Hrun as (acc1 & w2 & Hfold & Hrun).
    destruct (fold_texts_run _ _ _ _ _ _ _ _ _ Hw1 Hfold) as (argss & more & Hw2 & Ht & Ha).
    assert (Hlt : (length (list_at key (with_list key (skipn 50 all) r)) < fuel)%nat).
    { rewrite list_at_with_list, length_skipn. unfold all in *. cbn [length] in *. lia. }
    destruct (IH acc1 w2 _ _ Hlt Hw2 Hrun)
      as (argss' & more' & Hw' & Ht' & Ha').
    rewrite list_at_with_list in Ht'. rewrite with_list_with_list in Hw'. exists (argss ++ argss'), (more ++ more'). rewrite !app_assoc.
    split_and!; [done| |by rewrite Ha', Ha, <- app_assoc].
    rewrite <- (firstn_skipn 50 all). apply Forall2_app; [|done]. eapply taken_mono, Ht. set_solver.
Qed.
End queue_to_tasks.

Section runs.
Context {R : Type} `{OrJson}.
Variable env : UploadEnv R.

Lemma still_run {A} (m : prog (UploadWorld R) A) x r s l ids w w' :
  preserves (still r s l ids) m -> still r s l ids w -> m w = (x, w') -> still r s l ids w'.
Proof. intros Hm Hw Hrun. specialize (Hm w Hw). by rewrite Hrun in Hm. Qed.

Lemma send_run canvas r s l ids (w w' : UploadWorld R) :
  still r s l ids w -> send env canvas w = (inl tt, w') -> still r s (l ++ [canvas]) ids w'.
Proof.
  intros Hw Hrun. unfold send in Hrun. apply run_bind_inv in Hrun as ([] & w1 & Hs & Hm).
  destruct (still_run _ _ _ _ _ _ _ _ (still_outside r s l ids _) Hw Hs) as (? & ? & <- & ?). by injection Hm as <-.
Qed.

Lemma carryforward_run commit report yaml args r s l ids (w w' : UploadWorld R) :
  still r s l ids w -> possibly_carryforward_bundle_report env commit report yaml args w = (inl tt, w') ->
  exists bundles, still r s (l ++ bundles) ids w'.
Proof.
  intros Hw Hrun. unfold possibly_carryforward_bundle_report in Hrun. apply run_bind_inv in Hrun as (rp & w1 & [= <- <-] & Hrun).
  destruct (negb _ && _).
  - apply run_bind_inv in Hrun as (bas & w1 & [_ ->]%lift_inv & Hrun). unfold _schedule_bundle_analysis_processing_task in Hrun.
    apply run_bind_inv in Hrun as (sigs & w1 & [_ ->]%lift_inv & Hrun). apply (send_run _ _ _ _ _ _ _ Hw) in Hrun. by eexists.
  - injection Hrun as <-. exists []. by rewrite app_nil_r.
Qed.

Lemma schedule_coverage_run c commit report yaml args r s l ids (w w' : UploadWorld R) :
  uc_report_type c = COVERAGE -> still r s l ids w -> schedule_task env c commit yaml args report w = (inl tt, w') ->
  exists bundles uids, int_upload_ids args = Ok uids /\
    still r (ProcessingState.mark_uploads_as_processing uids s) (l ++ bundles ++ [coverage_canvas commit yaml args]) ids w'.
Proof.
  intros Hc Hw Hrun. unfold schedule_task in Hrun. rewrite Hc in Hrun.
  apply run_bind_inv in Hrun as ([] & w1 & Hcf & Hrun). destruct (carryforward_run _ _ _ _ _ _ _ _ _ _ Hw Hcf) as [bundles Hw1].
  apply run_bind_inv in Hrun as (uids & w2 & [Hu ->]%lift_inv & Hrun). apply run_bind_inv in Hrun as ([] & w2 & Hb & Hrun).
  pose proof (still_run _ _ _ _ _ _ _ _ (still_breadcrumb _ _ _ _ _ _ _ _ _) Hw1 Hb) as Hw2.
  destruct (bool_decide _); [|done]. unfold _schedule_coverage_processing_task in Hrun.
  apply run_bind_inv in Hrun as (uids' & w3 & [Hu' ->]%lift_inv & Hrun). rewrite Hu in Hu'. injection Hu' as <-.
  apply run_bind_inv in Hrun as ([] & w3 & Hm & Hrun). injection Hm as <-. exists bundles, uids. split; [done|].
  destruct Hw2 as (Hr & Hs & Hl & Hids). rewrite app_assoc. eapply send_run; [|exact Hrun]. unfold still; cbn. by rewrite Hs.
Qed.

Lemma retry_with_run c kwargs cd (w w' : UploadWorld R) o :
  retry_with env c kwargs cd w = (inl o, w') -> w' = w /\ exists kw, o = UploadRetry cd kw.
Proof.
  unfold retry_with. intros (kw & w1 & [_ ->]%lift_inv & Hrun)%run_bind_inv. unfold celery_retry in Hrun.
  destruct (_ <=? _); [|done]. injection Hrun as <- <-. split; [done|by eexists].
Qed.

Lemma service_retry commit o (w w' : UploadWorld R) :
  get_repo_provider_service env commit w = (inl (inr o), w') -> exists cd kw, o = UploadRetry cd kw.
Proof.
  unfold get_repo_provider_service, try_except, mbind, prog_bind. destruct (outside _ w) as [[ps|f] w1]; [done|].
  destruct f as [e|b| | | |]; [destruct e|destruct b| | | |]; cbn; try done.
  all: try (destruct (_ && _); cbn); try done. all: intros [= <- <-]; by eexists _, _.
Qed.

Lemma insert_uploads_run c commit report argss r s l (w w' : UploadWorld R) :
  still r s l [] w -> possibly_insert_uploads_and_side_effects env c commit report w = (inl argss, w') ->
  exists ids, still (with_list (upload_location c) [] r) s l ids w' /\ taken ids (list_at (upload_location c) r) argss.
Proof.
  intros Hw Hrun. unfold possibly_insert_uploads_and_side_effects in Hrun. apply run_bind_inv in Hrun as (created & w1 & Hc & Hrun).
  unfold _possibly_create_uploads_to_insert in Hc. apply run_bind_inv in Hc as (waiting & w2 & [= <- <-] & Hc).
  assert (Hlen : (length (list_at (upload_location c) r) < S (length (list_at (upload_location c) (w_redis w))))%nat)
    by (destruct Hw as (-> & _); lia).
  destruct (arguments_list_run env c commit report _ _ _ _ _ _ _ _ _ _ Hlen Hw Hc) as (as' & ids & Hw1 & Ht & Ha).
  cbn in Ha, Hw1. exists ids. apply run_bind_inv in Hrun as ([] & w2 & Hf & Hrun). apply run_bind_inv in Hrun as ([] & w3 & Hm & [= <- <-]).
  rewrite Ha. split; [|done].
  assert (Hw2 : still (with_list (upload_location c) [] r) s l ids w2).
  { destruct (cr_flag_map created) as [|x m]; [by injection Hf as <-|]. apply run_bind_inv in Hf as (rp & w4 & [= <- <-] & Hf).
    exact (still_run _ _ _ _ _ _ _ _ (still_bulk_flags _ _ _ _ _ _) Hw1 Hf). }
  destruct (cr_measurements created); [by injection Hm as <-|]. by injection Hm as <-.
Qed.

(** The run under the lock answers after it scheduled one processor for each upload of the
    queue, in its order, or asks for another run and leaves the queue as it is. *)
Theorem within_lock_run c kwargs (w w' : UploadWorld R) o :
  uc_report_type c = COVERAGE -> run_impl_within_lock env c kwargs w = (inl o, w') ->
  (exists cd kw, o = UploadRetry cd kw /\ w_redis w' = w_redis w /\ w_state w' = w_state w /\ w_scheduled w' = w_scheduled w) \/
  (exists ans argss, o = UploadDone ans /\ w_redis w' = with_list (upload_location c) [] (w_redis w) /\
    taken (map up_id (w_uploads w')) (list_at (upload_location c) (w_redis w)) argss /\
    (argss <> [] -> exists commit yaml bundles uids, te_commit env = Some commit /\ int_upload_ids argss = Ok uids /\
      w_state w' = ProcessingState.mark_uploads_as_processing uids (w_state w) /\
      w_scheduled w' = w_scheduled w ++ bundles ++ [coverage_canvas commit yaml argss])).
Proof.
  intros Hc Hrun. unfold run_impl_within_lock in Hrun. destruct (te_commit env) as [commit|]; [|done].
  assert (Hw : still (w_redis w) (w_state w) (w_scheduled w) [] w) by by split_and!; [..|set_solver].
  revert Hw Hrun. generalize (w_redis w) (w_state w) (w_scheduled w). intros r s l Hw Hrun.
  apply run_bind_inv in Hrun as (found & w1 & Hf & Hrun). pose proof (still_run _ _ _ _ _ _ _ _ (still_service env r s l [] commit) Hw Hf) as Hw1.
  destruct found as [service|retry].
  2: { injection Hrun as <- <-. destruct (service_retry _ _ _ _ Hf) as (cd & kw & ->). left. destruct Hw1 as (? & ? & ? & _). by exists cd, kw. }
  apply run_bind_inv in Hrun as ([[yaml updated] setup] & w2 & Hy & Hrun).
  assert (Hw2 : still r s l [] w2).
  { destruct service as [ps|]; [|by injection Hy as <- <- <- <-]. apply run_bind_inv in Hy as (y & w3 & Hy & Hu).
    pose proof (still_run _ _ _ _ _ _ _ _ (still_outside r s l [] _) Hw1 Hy) as Hw3. apply run_bind_inv in Hu as ([u se] & w4 & Hu & [= <- <- <- <-]).
    exact (still_run _ _ _ _ _ _ _ _ (still_update env r s l [] c ps) Hw3 Hu). }
  apply run_bind_inv in Hrun as (report & w3 & Hrep & Hrun).
  pose proof (still_run _ _ _ _ _ _ _ _ (still_outside r s l [] _) Hw2 Hrep) as Hw3. destruct report as [report|].
  2: { apply run_bind_inv in Hrun as ([] & w4 & Hcr & Hrun). apply retry_with_run in Hrun as [-> [kw ->]]. left.
       destruct (still_run _ _ _ _ _ _ _ _ (still_crumb_error r s l [] _ _) Hw3 Hcr) as (? & ? & ? & _). by eexists _, _. }
  apply run_bind_inv in Hrun as (argss & w4 & Hins & Hrun). right.
  destruct (insert_uploads_run _ _ _ _ _ _ _ _ _ Hw3 Hins) as (ids & Hw4 & Ht).
  apply run_bind_inv in Hrun as ([] & w5 & Hsch & [= <- <-]). destruct argss as [|a args].
  - pose proof (still_run _ _ _ _ _ _ _ _ (still_crumb_error _ _ _ _ _ _) Hw4 Hsch) as (? & ? & ? & Hids).
    eexists _, []. split_and!; [done|done|by eapply taken_mono|done].
  - destruct (schedule_coverage_run _ _ _ _ _ _ _ _ _ _ _ Hc Hw4 Hsch) as (bundles & uids & Hu & ? & ? & ? & Hids).
    eexists _, (a :: args). split_and!; [done|done|by eapply taken_mono|]. intros _. by exists commit, yaml, bundles, uids.
Qed.

(** ** From the API to the tasks *)

Variable dumps : pyval -> string.
Hypothesis loads_dumps : forall v, json_ok v = true -> json_loads (dumps v) = Ok v.

(** Uploads of a repository that the API dispatches, one after the other. *)
Fixpoint dispatch_all (params : pyval) (repoid : Z) (report_type : ReportType) (uploads : list (b64 * odict string pyval)) :
    prog ApiQueue unit :=
  match uploads with
  | [] => mret tt
  | (now, a) :: uploads =>
      _ ← dispatch_upload_task dumps params now repoid (VDict a) report_type; dispatch_all params repoid report_type uploads
  end.

Lemma dispatch_run params now repoid a t sha q q' :
  od_get "commit" a = Some (VStr sha) -> dispatch_upload_task dumps params now repoid (VDict a) t q = (inl tt, q') ->
  list_at (upload_location (mkUploadContext repoid sha t)) (aq_redis q') =
  list_at (upload_location (mkUploadContext repoid sha t)) (aq_redis q) ++ [dumps (VDict a)].
Proof.
  intros Hsha Hrun. unfold dispatch_upload_task in Hrun. cbn [dict_get] in Hrun. rewrite Hsha in Hrun.
  apply run_bind_inv in Hrun as (v & w1 & [[= <-] ->]%lift_inv & Hrun). apply run_bind_inv in Hrun as (text & w1 & [[= <-] ->]%lift_inv & Hrun).
  apply run_bind_inv in Hrun as ([] & w1 & [= <-] & Hrun). apply run_bind_inv in Hrun as (delay & w2 & [_ ->]%lift_inv & [= <-]).
  exact (list_at_with_list _ (list_at (upload_location (mkUploadContext repoid sha t)) (aq_redis q) ++ [dumps (VDict a)]) (aq_redis q)).
Qed.

Lemma dispatch_all_run params repoid t sha uploads q q' :
  Forall (fun u : b64 * odict string pyval => od_get "commit" u.2 = Some (VStr sha)) uploads ->
  dispatch_all params repoid t uploads q = (inl tt, q') ->
  list_at (upload_location (mkUploadContext repoid sha t)) (aq_redis q') =
  list_at (upload_location (mkUploadContext repoid sha t)) (aq_redis q) ++ map (fun u => dumps (VDict u.2)) uploads.
Proof.
  revert q. induction uploads as [|[now a] uploads IH]; intros q Hall Hrun; cbn in Hrun.
  - injection Hrun as <-. by rewrite app_nil_r.
  - apply Forall_cons in Hall as [Ha Hall]. apply run_bind_inv in Hrun as ([] & q1 & Hd & Hrun).
    rewrite (IH _ Hall Hrun), (dispatch_run _ _ _ _ _ _ _ _ Ha Hd), <- app_assoc. done.
Qed.

(** C32: Uploads of coverage of one commit that the API dispatches while none of that commit
    waits are scheduled by the next run of the upload task for coverage of the commit that
    holds the lock and ends with an answer: one processor for each of them, in their order,
    with the arguments of the upload (its token left out, its flags as a list, and the
    number of an upload row added when they name none), followed by the finisher; each is
    marked as being processed, and none of them waits any more. *)
Theorem dispatched_uploads_scheduled params c kwargs uploads q q' (w w' : UploadWorld R) ans :
  uc_report_type c = COVERAGE -> uploads <> [] ->
  Forall (fun u : b64 * odict string pyval => json_ok (VDict u.2) = true /\ od_get "commit" u.2 = Some (VStr (uc_commitid c))) uploads ->
  list_at (upload_location c) (aq_redis q) = [] ->
  dispatch_all params (uc_repoid c) COVERAGE uploads q = (inl tt, q') -> w_redis w = aq_redis q' ->
  run_impl_within_lock env c kwargs w = (inl (UploadDone ans), w') ->
  list_at (upload_location c) (w_redis w') = [] /\
  exists argss commit yaml bundles uids, te_commit env = Some commit /\
    Forall2 (fun u a => prepared (map up_id (w_uploads w')) u.2 a) uploads argss /\
    w_scheduled w' = w_scheduled w ++ bundles ++ [coverage_canvas commit yaml argss] /\
    int_upload_ids argss = Ok uids /\ list_to_set uids ⊆ ProcessingState.processing (w_state w').
Proof.
  intros Hc Hne Hall Hempty Hd Hw Hrun. destruct c as [repoid sha t]; cbn in Hc; subst t.
  rewrite Forall_and in Hall. destruct Hall as [Hok Hsha]. cbn [uc_repoid uc_commitid] in *.
  pose proof (dispatch_all_run _ _ _ _ _ _ _ Hsha Hd) as Hq. rewrite Hempty, app_nil_l in Hq.
  destruct (within_lock_run (mkUploadContext repoid sha COVERAGE) _ _ _ _ eq_refl Hrun) as [(cd & kw & [=] & _)|(ans' & argss & [= <-] & Hr & Ht & Hsch)].
  rewrite Hw, Hq in Ht. split; [by rewrite Hr, list_at_with_list|].
  assert (Hp : Forall2 (fun (u : b64 * odict string pyval) a => prepared (map up_id (w_uploads w')) u.2 a) uploads argss).
  { unfold taken in Ht. rewrite Forall2_fmap_l in Ht. clear -Ht Hok loads_dumps. induction Ht as [|u a us as' (d & Hl & Hp) Ht IH]; [constructor|].
    apply Forall_cons in Hok as [Hu Hok]. rewrite loads_dumps in Hl by done. injection Hl as <-. constructor; [done|by apply IH]. }
  assert (Hargss : argss <> []) by (intros ->; inversion Hp; by subst).
  destruct (Hsch Hargss) as (commit & yaml & bundles & uids & Hco & Hu & Hs & Hl). exists argss, commit, yaml, bundles, uids.
  split_and!; [done..|]. rewrite Hs. cbn. set_solver.
Qed.
End runs.

(** ** Two uploads of a commit *)

#[local] Existing Instance codec.

Definition desk_sha : string := "0123456789abcdef0123456789abcdef01234567".
Definition desk_context : UploadContext := mkUploadContext 7 desk_sha COVERAGE.
(** An upload with a row, and one that gets its row from the task. *)
Definition desk_uploads : list (b64 * odict string pyval) :=
  [(B64 false 1000 0, [("commit", VStr desk_sha); ("upload_id", VInt 5); ("flags", VList [VStr "unit"]); ("token", VStr "t")]);
   (B64 false 1001 0, [("commit", VStr desk_sha); ("flags", VStr "unit, e2e"); ("url", VStr "v4/raw/1.txt")])].
Definition no_keys : Redis := mkRedis ∅ ∅ ∅ ∅ ∅.
Definition desk_queue : ApiQueue :=
  (dispatch_all json_dumps (VDict []) 7 COVERAGE desk_uploads (mkApiQueue no_keys [])).2.

(** The next key of an upload is the rest of the world. *)
Definition desk_upload_env (retries : Z) (flush : prog Z Z) : UploadEnv Z :=
  mkUploadEnv Z retries (VDict []) (B64 false 1002 0) true true (Some (mkUploadCommit 3 7 desk_sha)) []
    (mret (mkProviderService "github" true true)) 600 (mret (VDict [])) (VDict []) (mret true) "u" (fun _ => mret (VDict [("id", VInt 9)]))
    (fun _ _ => mret tt) (fun _ => mret (Some (mkUploadReport 4 (Some "coverage")))) flush (fun _ => mret tt) "old" false true.
Definition next_key : prog Z Z := fun n => (inl n, n + 1).
Definition desk_world : UploadWorld Z :=
  mkUploadWorld (aq_redis desk_queue) ProcessingState.empty [] [mkRepositoryFlag 1 7 (VStr "unit")] 2 None []
    (mkUploadRepository (mkRepository 7 1 "77" (Some false) (Some true) None) true VNone None false) [] [] [] 100.

Definition after_run (retries : Z) (flush : prog Z Z) : (upload_outcome + fault) * UploadWorld Z :=
  upload_run_impl (desk_upload_env retries flush) 7 desk_sha "coverage" [] desk_world.

Example two_uploads_scheduled :
  match after_run 0 next_key with
  | (inl (UploadDone _), w) =>
      map (fun c => match c with Chord l _ => length l | Chain l => length l end) (w_scheduled w) = [2%nat] /\
      map (fun u => (up_id u, up_flags u)) (w_uploads w) = [(100, [1; 2])] /\ map rf_name (w_flags w) = [VStr "unit"; VStr "e2e"] /\
      list_at (upload_location desk_context) (w_redis w) = []
  | _ => False
  end.
Proof. vm_compute. repeat split. Qed.

(** A time limit after the uploads were taken from the queue: the task runs again, but
    nothing waits for it. *)
Example uploads_lost :
  match after_run 0 (raise SoftTimeLimitExceeded) with
  | (inl (UploadRetry _ (Some kwargs)), w) =>
      w_scheduled w = [] /\
      match upload_run_impl (desk_upload_env 1 next_key) 7 desk_sha "coverage" [] w with
      | (inl o, w) => o = nothing_scheduled /\ w_scheduled w = []
      | _ => False
      end
  | _ => False
  end.
Proof. vm_compute. repeat split. Qed.

Lemma dispatched_uploads_scheduled_witness :
  exists argss commit yaml bundles uids (w' : UploadWorld Z), te_commit (desk_upload_env 0 next_key) = Some commit /\
    Forall2 (fun (u : b64 * odict string pyval) a => prepared (map up_id (w_uploads w')) u.2 a) desk_uploads argss /\
    w_scheduled w' = w_scheduled desk_world ++ bundles ++ [coverage_canvas commit yaml argss] /\
    int_upload_ids argss = Ok uids /\ list_to_set uids ⊆ ProcessingState.processing (w_state w').
Proof.
  assert (Hrun : exists ans w', run_impl_within_lock (desk_upload_env 0 next_key) desk_context [] desk_world = (inl (UploadDone ans), w'))
    by (vm_compute; by eexists _, _).
  destruct Hrun as (ans & w' & Hrun).
  destruct (dispatched_uploads_scheduled (desk_upload_env 0 next_key) json_dumps (@json_loads_dumps _ codec_laws) (VDict []) desk_context []
    desk_uploads (mkApiQueue no_keys []) desk_queue desk_world w' ans) as (_ & argss & commit & yaml & bundles & uids & Hrest);
    [reflexivity|discriminate|by repeat constructor|vm_compute; reflexivity|vm_compute; reflexivity|reflexivity|exact Hrun|].
  exists argss, commit, yaml, bundles, uids, w'. exact Hrest.
Defined.
