(* ===== verification/UploadApi.v ===== *)
(** * The endpoints of uploads

    [apps/codecov-api/upload/views], [serializers.py] and [helpers.py]: an uploader makes a
    commit, its report and an upload, one request each or all in one, and the upload is
    pushed on the queue of the commit.  The validation of a body by the framework, the hash
    of a repository and the identifiers that are drawn are parameters; analytics and
    counters are left out. *)
From S2P Require Export UploadAuth UploadTask.
From S2P Require Import JsonCodec.
#[local] Open Scope string_scope.
#[local] Open Scope list_scope.
#[local] Open Scope Z_scope.

(** ** What a request says of its upload *)

(** The digits after the last [pull/] or [pr/] of the first line; [.] is no line feed. *)
Definition digits_after (s : string) : option string :=
  match take_while is_digit s with (EmptyString, _) => None | (d, _) => Some d end.
Definition pull_here (s : string) : option string :=
  if startswith "pull/" s then digits_after (str_drop 5 s) else if startswith "pr/" s then digits_after (str_drop 3 s) else None.
Fixpoint last_pull (s : string) : option string :=
  match s with
  | EmptyString => None
  | String c r =>
      match (if bool_decide (String c "" = nl) then None else last_pull r) with Some d => Some d | None => pull_here s end
  end.
(** [is_pull_noted_in_branch.match(branch)]: the number. *)
Definition is_pull_noted_in_branch (branch : string) : option string := last_pull branch.

Definition nonempty (o : option string) : option string := match o with Some "" => None | _ => o end.

Definition determine_upload_branch_to_use (branch pr : option string) (repo_default_branch : string) : option string :=
  match nonempty branch, nonempty pr with
  | None, None => Some repo_default_branch
  | Some b, _ => match is_pull_noted_in_branch b with None => Some b | Some _ => None end
  | None, Some _ => None
  end.

(** [int(candidate)] when it is made of digits. *)
Definition determine_upload_pr_to_use (branch pr : option string) : option Z :=
  let candidate := match is_pull_noted_in_branch (default "" branch) with
                   | Some d => Some d
                   | None => if bool_decide (pr = Some "true") then None else pr
                   end in
  match nonempty candidate with
  | Some d => if str_forallb is_digit d then match int_of_str d with Ok n => Some n | Err _ => None end else None
  | None => None
  end.

(** [^Merge\s\w{40}\sinto\s\w{40}$] *)
Definition space_at (s : string) : option string := match s with String c r => if is_space c then Some r else None | _ => None end.
Definition word_of_40 (s : string) : option string :=
  if (String.length (str_take 40 s) =? 40)%nat && str_forallb is_word (str_take 40 s) then Some (str_drop 40 s) else None.
Definition is_merge_commit (message : string) : bool :=
  let after p s := if startswith p s then Some (str_drop (String.length p) s) else None in
  let rest := s ← after "Merge" message; s ← space_at s; s ← word_of_40 s; s ← space_at s; s ← after "into" s; s ← space_at s; word_of_40 s in
  match rest with Some r => bool_decide (r = "" \/ r = nl) | None => false end.

(** [determine_upload_commit_to_use]: the token and the commit of the provider are given;
    an error of the provider's client leaves the commit of the request. *)
Definition determine_upload_commit_to_use (service commitid : string) (did_change_merge_commit has_token : bool)
    (commit_message : string + torngit_error) : result string :=
  if startswith "github" service && negb did_change_merge_commit then
    if negb has_token then Ok commitid
    else match commit_message with
         | inr _ => Ok commitid
         | inl message =>
             let message := strip message in
             if is_merge_commit message
             then match nth_error (split " " message) 1 with Some sha => Ok sha | None => Err IndexError end
             else Ok commitid
         end
  else Ok commitid.

(** [parse_headers]: whether the content is kept as it is, and its type. *)
Definition parse_headers (content_disposition x_content_type x_reduced_redundancy : option string) (version package : string) :
    result (string * bool) :=
  if negb (bool_decide (content_disposition ∈ [None; Some "inline"])) then Err ValidationError
  else
    let '(content_type, reduced_redundancy) :=
      if bool_decide (version = "v2") then ("application/x-gzip", false)
      else (if bool_decide (default "" x_content_type ∈ [""; "text/html"]) then "text/plain" else default "" x_content_type,
            if str_contains "node" package then false else bool_decide (x_reduced_redundancy ∈ [Some "true"; None])) in
    Ok (if bool_decide (content_type ∈ ["text/plain"; "application/x-gzip"; "plain/text"]) then content_type else "text/plain",
        reduced_redundancy).

Definition get_agent_and_version (user_agent : option string) : string * string :=
  match user_agent ≫= partition "/" with
  | Some (String _ _ as agent, String _ _ as version) => (agent, version)
  | _ => ("unknown-user-agent", "unknown-version")
  end.

(** ** Tables *)

Record CommitReport : Type := mkCommitReport {
  cp_id : Z; cp_external_id : string; cp_commit : Z; cp_code : option string; cp_report_type : option string;
}.
Record ReportSession : Type := mkReportSession {
  rs_id : Z; rs_external_id : string; rs_report : Z; rs_state : string; rs_upload_type : string; rs_storage_path : string;
  rs_flags : list Z; rs_build_url : pyval; rs_env : pyval; rs_name : pyval; rs_job_code : pyval; rs_provider : pyval;
}.
Inductive ApiTask : Type :=
  | update_commit (commitid : string) (repoid : Z)
  | preprocess_upload (repoid : Z) (commitid : string)
  | manual_upload_completion_trigger (repoid : Z) (commitid : string).
Record ApiCrumb : Type := mkApiCrumb {
  xb_commit_sha : string; xb_repo_id : Z; xb_milestone : string; xb_endpoint : option string; xb_error : option string;
}.

Record ApiWorld : Type := mkApiWorld {
  xw_db : ApiDb; xw_reports : list CommitReport; xw_uploads : list ReportSession; xw_flags : list RepositoryFlag;
  xw_measurements : list UserMeasurement; xw_queue : ApiQueue; xw_tasks : list ApiTask; xw_crumbs : list ApiCrumb; xw_seq : Z;
}.

Section setters.
Implicit Types w : ApiWorld.
Definition put_db d w := mkApiWorld d (xw_reports w) (xw_uploads w) (xw_flags w) (xw_measurements w) (xw_queue w) (xw_tasks w)
  (xw_crumbs w) (xw_seq w).
Definition put_reports r w := mkApiWorld (xw_db w) r (xw_uploads w) (xw_flags w) (xw_measurements w) (xw_queue w) (xw_tasks w)
  (xw_crumbs w) (xw_seq w).
Definition put_uploads u w := mkApiWorld (xw_db w) (xw_reports w) u (xw_flags w) (xw_measurements w) (xw_queue w) (xw_tasks w)
  (xw_crumbs w) (xw_seq w).
Definition put_flags f w := mkApiWorld (xw_db w) (xw_reports w) (xw_uploads w) f (xw_measurements w) (xw_queue w) (xw_tasks w)
  (xw_crumbs w) (xw_seq w).
Definition put_measurements m w := mkApiWorld (xw_db w) (xw_reports w) (xw_uploads w) (xw_flags w) m (xw_queue w) (xw_tasks w)
  (xw_crumbs w) (xw_seq w).
Definition put_queue q w := mkApiWorld (xw_db w) (xw_reports w) (xw_uploads w) (xw_flags w) (xw_measurements w) q (xw_tasks w)
  (xw_crumbs w) (xw_seq w).
Definition put_tasks t w := mkApiWorld (xw_db w) (xw_reports w) (xw_uploads w) (xw_flags w) (xw_measurements w) (xw_queue w) t
  (xw_crumbs w) (xw_seq w).
Definition put_crumbs c w := mkApiWorld (xw_db w) (xw_reports w) (xw_uploads w) (xw_flags w) (xw_measurements w) (xw_queue w)
  (xw_tasks w) c (xw_seq w).
(** The next key of a table. *)
Definition next_id : prog ApiWorld Z := fun w =>
  (inl (xw_seq w), mkApiWorld (xw_db w) (xw_reports w) (xw_uploads w) (xw_flags w) (xw_measurements w) (xw_queue w) (xw_tasks w)
                     (xw_crumbs w) (xw_seq w + 1)).
(** A program of the queue. *)
Definition on_queue {A} (m : prog ApiQueue A) : prog ApiWorld A := fun w =>
  let '(r, q) := m (xw_queue w) in (r, put_queue q w).
End setters.

(** [TaskService()] *)
Definition send_task (t : ApiTask) : prog ApiWorld unit := modify (fun w => put_tasks (xw_tasks w ++ [t]) w).
Definition api_breadcrumb (commit_sha : string) (repo_id : Z) (milestone : string) (endpoint error : option string) : prog ApiWorld unit :=
  modify (fun w => put_crumbs (xw_crumbs w ++ [mkApiCrumb commit_sha repo_id milestone endpoint error]) w).

(** [with upload_breadcrumb_context(...)]: every exception leaves a crumb, and goes on. *)
Definition upload_breadcrumb_context {A} (initial_breadcrumb : bool) (commit_sha : option string) (repo_id : Z) (milestone endpoint : string)
    (error : option string) (body : prog ApiWorld A) : prog ApiWorld A :=
  let crumb e := match nonempty commit_sha with
                 | Some sha => if repo_id =? 0 then mret tt else api_breadcrumb sha repo_id milestone (Some endpoint) e
                 | None => mret tt
                 end in
  _ ← (if initial_breadcrumb then crumb None else mret tt);
  try_except body (fun f => Some (_ ← crumb (Some (default "u" error)); raise f)).

Definition validate_activated_repo (r : ApiRepo) : prog ApiWorld unit :=
  if ar_active r && negb (ar_activated r) then raise (Raised ValidationError) else mret tt.

(** ** The views *)

(** The bodies that the framework validates. *)
Record CommitData : Type := mkCommitData {
  cd_commitid : string; cd_parent_commit_id : option string; cd_pullid : option Z; cd_branch : option string;
}.
Record UploadData : Type := mkUploadData {
  ud_flags : list string; ud_storage_path : option string; ud_build_url : pyval; ud_env : pyval; ud_name : pyval; ud_job_code : pyval;
  ud_ci_service : pyval;
}.
Record Response : Type := mkResponse { re_status : Z; re_data : odict string pyval }.

Section views.
Variable json_dumps_std : pyval -> string.
Variable params : pyval.
Variable now : b64.
Variable today : string.
Variable uuid4 : Z -> string.                (* of the key it is drawn for *)
Variable storage_hash : ApiRepo -> string.
Variable commit_serializer : pyval -> option CommitData.
Variable upload_serializer : pyval -> option UploadData.

Definition commits_of (w : ApiWorld) : list ApiCommit := db_commits (xw_db w).
Definition with_commits (l : list ApiCommit) (d : ApiDb) : ApiDb :=
  mkApiDb (db_owners d) (db_repos d) (db_org_tokens d) (db_repo_tokens d) l.
Definition with_repos (l : list ApiRepo) (d : ApiDb) : ApiDb :=
  mkApiDb (db_owners d) l (db_org_tokens d) (db_repo_tokens d) (db_commits d).

Definition is_commit (r : ApiRepo) (sha : string) (c : ApiCommit) : bool := (ac_repository c =? ar_repoid r) && bool_decide (ac_commitid c = sha).

(** [CommitSerializer.create]: [get_or_create] *)
Definition CommitSerializer_create (r : ApiRepo) (d : CommitData) : prog ApiWorld ApiCommit :=
  w ← read id;
  match UploadAuth.get_one (is_commit r (cd_commitid d)) (commits_of w) with
  | Ok c => _ ← api_breadcrumb (ac_commitid c) (ar_repoid r) "cp" None None; mret c
  | Err DoesNotExist =>
      id ← next_id;
      let c := mkApiCommit id (ar_repoid r) (cd_commitid d) (cd_branch d) (cd_parent_commit_id d) (cd_pullid d) None None VNone in
      _ ← modify (fun w => put_db (with_commits (commits_of w ++ [c]) (xw_db w)) w);
      _ ← send_task (update_commit (ac_commitid c) (ar_repoid r)); mret c
  | Err e => raise (Raised e)
  end.
Definition create_commit (r : ApiRepo) (d : CommitData) (endpoint : string) : prog ApiWorld ApiCommit :=
  _ ← upload_breadcrumb_context true (Some (cd_commitid d)) (ar_repoid r) "fcd" endpoint (Some "rd") (validate_activated_repo r);
  CommitSerializer_create r d.

(** The reports of coverage of a commit, without a code. *)
Definition is_coverage_report (c : ApiCommit) (p : CommitReport) : bool :=
  (cp_commit p =? ac_id c) && bool_decide (cp_code p = None) && bool_decide (cp_report_type p = None \/ cp_report_type p = Some "coverage").
(** A report without a type becomes one of coverage. *)
Definition typed_report (p : CommitReport) : CommitReport :=
  match cp_report_type p with
  | None => mkCommitReport (cp_id p) (cp_external_id p) (cp_commit p) (cp_code p) (Some "coverage")
  | Some _ => p
  end.
Definition save_report (p : CommitReport) : prog ApiWorld unit :=
  modify (fun w => put_reports (map (fun q => if cp_id q =? cp_id p then p else q) (xw_reports w)) w).

(** [CommitReportSerializer.create], and whether the report is new. *)
Definition CommitReportSerializer_create (c : ApiCommit) : prog ApiWorld (CommitReport * bool) :=
  w ← read id;
  match first_row (is_coverage_report c) (xw_reports w) with
  | Some p => _ ← (if bool_decide (cp_report_type p = None) then save_report (typed_report p) else mret tt); mret (typed_report p, false)
  | None =>
      id ← next_id;
      let p := mkCommitReport id (uuid4 id) (ac_id c) None (Some "coverage") in
      _ ← modify (fun w => put_reports (xw_reports w ++ [p]) w); mret (p, true)
  end.
(** [validate_code] *)
Definition valid_code (code : pyval) : bool := bool_decide (code ∈ [VNone; VStr "default"]).
Definition create_report (r : ApiRepo) (c : ApiCommit) (endpoint : string) : prog ApiWorld CommitReport :=
  '(p, was_created) ← CommitReportSerializer_create c;
  _ ← (if (was_created : bool) then send_task (preprocess_upload (ar_repoid r) (ac_commitid c))
       else api_breadcrumb (ac_commitid c) (ar_repoid r) "rfr" (Some endpoint) None);
  mret p.

(** One flag of [UploadSerializer.create]: the dictionary of the flags that exist is not
    told of the ones that are made. *)
Fixpoint flags_of_upload (repoid : Z) (existing : odict pyval Z) (names : list string) : prog ApiWorld (list Z) :=
  match names with
  | [] => mret []
  | name :: names =>
      i ← match od_get (VStr name) existing with
          | Some i => mret i
          | None => i ← next_id; _ ← modify (fun w => put_flags (xw_flags w ++ [mkRepositoryFlag i repoid (VStr name)]) w); mret i
          end;
      ids ← flags_of_upload repoid existing names; mret (i :: ids)
  end.
Definition UploadSerializer_create (repoid : Z) (external_id storage_path : string) (report : CommitReport) (d : UploadData) :
    prog ApiWorld ReportSession :=
  id ← next_id;
  let upload flags := mkReportSession id external_id (cp_id report) "started" "uploaded" storage_path flags (ud_build_url d) (ud_env d)
                        (ud_name d) (ud_job_code d) (ud_ci_service d) in
  _ ← modify (fun w => put_uploads (xw_uploads w ++ [upload []]) w);
  existing ← read (fun w => flags_of_rows repoid (xw_flags w));
  flags ← flags_of_upload repoid existing (ud_flags d);
  _ ← modify (fun w => put_uploads (map (fun u => if rs_id u =? id then upload (remove_dups flags) else u) (xw_uploads w)) w);
  mret (upload (remove_dups flags)).

Definition trigger_upload_task (r : ApiRepo) (commit_sha : string) (upload : ReportSession) (report : CommitReport) : prog ApiWorld unit :=
  on_queue (dispatch_upload_task json_dumps_std params now (ar_repoid r)
    (VDict [("commit", VStr commit_sha); ("upload_id", VInt (rs_id upload)); ("version", VStr "v4"); ("reportid", VStr (cp_external_id report))])
    COVERAGE).

Definition activated_row (r : ApiRepo) : ApiRepo :=
  mkApiRepo (ar_repoid r) (ar_author r) (ar_name r) (ar_private r) (ar_upload_token r) true true false true.
Definition activate_repo (r : ApiRepo) : prog ApiWorld unit :=
  if ar_activated r && ar_active r && negb (ar_deleted r) && ar_coverage_enabled r then mret tt
  else modify (fun w => put_db (with_repos (map (fun q => if ar_repoid q =? ar_repoid r then activated_row r else q) (db_repos (xw_db w)))
                                  (xw_db w)) w).

Definition create_upload (d : UploadData) (r : ApiRepo) (c : ApiCommit) (report : CommitReport) (is_shelter_request : bool)
    (endpoint : string) : prog ApiWorld ReportSession :=
  upload_breadcrumb_context false (Some (ac_commitid c)) (ar_repoid r) "wfcu" endpoint None (
    drawn ← next_id;
    let external_id := uuid4 drawn in
    let storage_path :=
      match (if is_shelter_request then nonempty (ud_storage_path d) else None) with
      | Some path => path
      | None => "v4/raw/" +:+ today +:+ "/" +:+ storage_hash r +:+ "/" +:+ ac_commitid c +:+ "/" +:+ cp_external_id report +:+ "/"
                +:+ external_id +:+ ".txt"
      end in
    upload ← UploadSerializer_create (ar_repoid r) external_id storage_path report d;
    _ ← modify (fun w => put_measurements (xw_measurements w ++
          [mkUserMeasurement (ar_author r) (ar_repoid r) (ac_id c) (rs_id upload) "cli" (Some (ar_private r)) (cp_report_type report)]) w);
    _ ← trigger_upload_task r (ac_commitid c) upload report;
    _ ← activate_repo r;
    mret upload).

(** [GetterMixin] *)
Definition view_repo (req : UploadRequest) : prog ApiWorld ApiRepo := w ← read id; lift (get_repo (xw_db w) req).
Definition get_commit (r : ApiRepo) (commit_sha : option string) : prog ApiWorld ApiCommit :=
  w ← read id;
  lift (match commit_sha with
        | None => Err ValidationError
        | Some sha => match UploadAuth.get_one (is_commit r sha) (commits_of w) with Err DoesNotExist => Err ValidationError | x => x end
        end).
Definition get_report (c : ApiCommit) (report_code : option string) : prog ApiWorld CommitReport :=
  if negb (bool_decide (report_code ∈ [None; Some "default"])) then raise (Raised ValidationError)
  else
    w ← read id;
    match first_row (is_coverage_report c) (xw_reports w) with
    | None => raise (Raised ValidationError)
    | Some p => _ ← (if bool_decide (cp_report_type p = None) then save_report (typed_report p) else mret tt); mret (typed_report p)
    end.

(** [CommitViews.perform_create], [ReportViews.perform_create] and
    [UploadViews.perform_create] *)
Definition CommitViews_perform_create (req : UploadRequest) (d : CommitData) : prog ApiWorld ApiCommit :=
  r ← view_repo req; create_commit r d "cc".
Definition ReportViews_perform_create (req : UploadRequest) (commit_sha : option string) : prog ApiWorld CommitReport :=
  r ← view_repo req;
  _ ← upload_breadcrumb_context true commit_sha (ar_repoid r) "pfr" "cr" (Some "rd") (validate_activated_repo r);
  c ← upload_breadcrumb_context false commit_sha (ar_repoid r) "pfr" "cr" (Some "cnf") (get_commit r commit_sha);
  create_report r c "cr".
Definition UploadViews_perform_create (req : UploadRequest) (commit_sha report_code : option string) (is_shelter_request : bool)
    (d : UploadData) : prog ApiWorld ReportSession :=
  r ← view_repo req;
  _ ← upload_breadcrumb_context false commit_sha (ar_repoid r) "wfcu" "du" (Some "rd") (validate_activated_repo r);
  c ← upload_breadcrumb_context false commit_sha (ar_repoid r) "wfcu" "du" (Some "cnf") (get_commit r commit_sha);
  report ← upload_breadcrumb_context false (Some (ac_commitid c)) (ar_repoid r) "wfcu" "du" (Some "rptnf") (get_report c report_code);
  upload ← create_upload d r c report is_shelter_request "du";
  _ ← api_breadcrumb (ac_commitid c) (ar_repoid r) "wfcu" (Some "du") None;
  mret upload.

(** [UploadCoverageView.post]; the address that the content is put at is left out of the
    answer. *)
Definition of_body (data : odict string pyval) (keys : list string) : pyval :=
  VDict (map (fun k => (k, default VNone (od_get k data))) keys).
Definition upload_coverage (req : UploadRequest) (data : odict string pyval) (is_shelter_request : bool) : prog ApiWorld Response :=
  match commit_serializer (of_body data ["branch"; "commitid"; "parent_commit_id"; "pullid"]) with
  | None => mret (mkResponse 400 [])
  | Some d =>
      r ← view_repo req;
      c ← create_commit r d "ucov";
      _ ← api_breadcrumb (ac_commitid c) (ar_repoid r) "pfr" (Some "ucov") None;
      if negb (valid_code (default VNone (od_get "code" data))) then
        _ ← api_breadcrumb (ac_commitid c) (ar_repoid r) "pfr" (Some "ucov") (Some "br"); mret (mkResponse 400 [])
      else
        report ← create_report r c "ucov";
        match upload_serializer (of_body data (["ci_service"; "ci_url"; "env"; "flags"; "job_code"; "name"; "version"] ++
                                               (if is_shelter_request then ["storage_path"] else []))) with
        | None => _ ← api_breadcrumb (ac_commitid c) (ar_repoid r) "wfcu" (Some "ucov") (Some "br"); mret (mkResponse 400 [])
        | Some u =>
            upload ← create_upload u r c report is_shelter_request "ucov";
            _ ← api_breadcrumb (ac_commitid c) (ar_repoid r) "wfcu" (Some "ucov") None;
            mret (mkResponse 201 [("external_id", VStr (rs_external_id upload))])
        end
  end.

(** [UploadCompletionView.post] *)
Definition upload_completion (req : UploadRequest) (commit_sha : option string) : prog ApiWorld Response :=
  r ← view_repo req;
  c ← upload_breadcrumb_context false commit_sha (ar_repoid r) "nt" "ucomp" (Some "cnf") (get_commit r commit_sha);
  w ← read id;
  let reports := List.filter (fun p => (cp_commit p =? ac_id c) && bool_decide (cp_code p = None)) (xw_reports w) in
  let uploads := List.filter (fun u => existsb (fun p => cp_id p =? rs_report u) reports) (xw_uploads w) in
  let answer status total success processing error :=
    mkResponse status [("uploads_total", VInt total); ("uploads_success", VInt success); ("uploads_processing", VInt processing);
                       ("uploads_error", VInt error)] in
  match uploads with
  | [] => _ ← api_breadcrumb (ac_commitid c) (ar_repoid r) "nt" (Some "ucomp") (Some "unf"); mret (answer 404 0 0 0 0)
  | _ =>
      let total := Z.of_nat (length uploads) in
      let in_progress := Z.of_nat (length (List.filter (fun u => bool_decide (rs_state u = "")) uploads)) in
      let errored := Z.of_nat (length (List.filter (fun u => bool_decide (rs_state u = "error")) uploads)) in
      _ ← send_task (manual_upload_completion_trigger (ar_repoid r) (ac_commitid c));
      _ ← api_breadcrumb (ac_commitid c) (ar_repoid r) "nt" (Some "ucomp") None;
      mret (answer 200 total (total - in_progress - errored) in_progress errored)
  end.

(** ** The endpoint of older uploaders *)

(** [insert_commit]: an existing commit keeps its first parent, and moves to the branch of
    the upload. *)
Definition insert_commit (commitid : string) (branch : option string) (pr : option Z) (r : ApiRepo) (parent_commit_id : option string) :
    prog ApiWorld ApiCommit :=
  w ← read id;
  match UploadAuth.get_one (is_commit r commitid) (commits_of w) with
  | Ok c =>
      let parent := match nonempty parent_commit_id, ac_parent_commit_id c with Some p, None => Some p | _, old => old end in
      let branch := match nonempty branch with Some b => Some b | None => ac_branch c end in
      let c' := mkApiCommit (ac_id c) (ac_repository c) (ac_commitid c) branch parent (ac_pullid c) (ac_merged c) (ac_state c) (ac_totals c) in
      _ ← modify (fun w => put_db (with_commits (map (fun x => if ac_id x =? ac_id c then c' else x) (commits_of w)) (xw_db w)) w);
      mret c'
  | Err DoesNotExist =>
      id ← next_id;
      let c := mkApiCommit id (ar_repoid r) commitid branch parent_commit_id pr (match pr with Some _ => Some false | None => None end)
                 (Some "pending") VNone in
      _ ← modify (fun w => put_db (with_commits (commits_of w ++ [c]) (xw_db w)) w);
      mret c
  | Err e => raise (Raised e)
  end.

(** The sessions of a commit that did not fail and were uploaded to it. *)
Definition sessions_of (c : ApiCommit) (w : ApiWorld) : list ReportSession :=
  let reports := List.filter (fun p => cp_commit p =? ac_id c) (xw_reports w) in
  List.filter (fun u => negb (bool_decide (rs_state u = "error")) && negb (bool_decide (rs_upload_type u = "carriedforward"))
                        && existsb (fun p => cp_id p =? rs_report u) reports) (xw_uploads w).

(** [validate_upload]; the plan and the credits of the owner who pays are given. *)
Variable plan_names : list string.
Variable responsible_owner : ApiRepo -> result (string * Z).
Definition validate_upload (commitid : option string) (r : ApiRepo) (endpoint : string) : prog ApiWorld unit :=
  let context := @upload_breadcrumb_context unit false commitid (ar_repoid r) "fcd" endpoint in
  _ ← upload_breadcrumb_context true commitid (ar_repoid r) "fcd" endpoint (Some "rd") (validate_activated_repo r);
  _ ← context (Some "rnf") (if bool_decide (ar_name r = "") then raise (Raised ValidationError) else mret tt);
  _ ← context (Some "cul") (
    w ← read id;
    match commitid with
    | None => mret tt
    | Some sha =>
        match UploadAuth.get_one (is_commit r sha) (commits_of w) with
        | Err DoesNotExist => mret tt
        | Err e => raise (Raised e)
        | Ok c =>
            let limit := get_config params ["setup"; "max_sessions"] VNone in
            limit ← lift (if truthy limit then match limit with VInt n => Ok n | VBool b => Ok (Z.b2z b) | VFloat f => Ok (Z_of_f f) | _ => Err TypeError end
                          else Ok 150);
            if limit <? Z.of_nat (length (sessions_of c w)) then raise (Raised ValidationError) else mret tt
        end
    end);
  _ ← context (Some "rb") (
    w ← read id;
    if bool_decide (ar_repoid r ∈ rd_disabled (aq_redis (xw_queue w))) then raise (Raised ValidationError) else mret tt);
  _ ← context (Some "oul") (
    if ar_private r && negb (ar_activated r) && negb (truthy (get_config params ["setup"; "enterprise_license"] (VBool false))) then
      '(plan, credits) ← lift (responsible_owner r);
      if negb (bool_decide (plan ∈ plan_names)) && (credits <=? 0) then raise (Raised ValidationError) else mret tt
    else mret tt);
  activate_repo r.
End views.

(** ** Throttles *)

Section throttles.
(** The limit of the owner of a repository. *)
Variable max_upload_limit : ApiRepo -> option Z.

(** [UploadsPerCommitThrottle.allow_request] *)
Definition UploadsPerCommitThrottle (req : UploadRequest) (commit_sha : option string) : prog ApiWorld bool :=
  try_except
    (r ← view_repo req;
     c ← get_commit r commit_sha;
     w ← read id;
     let limit := match max_upload_limit r with None | Some 0 => 150 | Some l => l end in
     mret (negb (limit <? Z.of_nat (length (sessions_of c w)))))
    (fun f => match f with Raised DoesNotExist | Raised ValidationError => Some (mret true) | _ => None end).

(** A view whose address has no commit is never throttled. *)
Lemma throttle_without_commit req w r : get_repo (xw_db w) req = Ok r -> (UploadsPerCommitThrottle req None w).1 = inl true.
Proof.
  intros Hr. unfold UploadsPerCommitThrottle, try_except, view_repo, get_commit, mbind, prog_bind, read, lift. cbn. by rewrite Hr.
Qed.
End throttles.

(** ** What the views record *)


(** What crumbs, other tasks, keys and measurements leave alone. *)
Definition core (w : ApiWorld) : ApiDb * list CommitReport * list ReportSession * list RepositoryFlag * ApiQueue :=
  (xw_db w, xw_reports w, xw_uploads w, xw_flags w, xw_queue w).

Lemma context_run {A} initial sha repoid m e err (body : prog ApiWorld A) a w w' :
  upload_breadcrumb_context initial sha repoid m e err body w = (inl a, w') -> exists w1, core w1 = core w /\ body w1 = (inl a, w').
Proof.
  unfold upload_breadcrumb_context. intros ([] & w1 & Hc & Hrun)%run_bind_inv. exists w1. split.
  - destruct initial; [|by injection Hc as <-]. destruct (nonempty sha); [|by injection Hc as <-].
    destruct (repoid =? 0); by injection Hc as <-.
  - unfold try_except in Hrun. destruct (body w1) as [[a'|f] w2]; [done|]. cbn in Hrun.
    unfold mbind, prog_bind in Hrun. destruct (nonempty sha); [destruct (repoid =? 0)|]; done.
Qed.

(** An upload that is validated is of a repository that has a name and is neither
    deactivated nor blocked. *)
Lemma validate_upload_run params plan_names responsible_owner commitid r e w w' :
  validate_upload params plan_names responsible_owner commitid r e w = (inl tt, w') ->
  ar_active r && negb (ar_activated r) = false /\ ar_name r <> "" /\ ar_repoid r ∉ rd_disabled (aq_redis (xw_queue w)).
Proof.
  unfold validate_upload. intros ([] & w1 & Ha & Hrun)%run_bind_inv.
  apply context_run in Ha as (w0 & Hcore0 & Ha). unfold validate_activated_repo in Ha.
  destruct (ar_active r && negb (ar_activated r)); [done|]. injection Ha as ->.
  apply run_bind_inv in Hrun as ([] & w2 & Hn & Hrun). apply context_run in Hn as (w3 & Hcore3 & Hn).
  case_bool_decide as Hname; [done|]. injection Hn as ->.
  apply run_bind_inv in Hrun as ([] & w4 & Hl & Hrun). apply context_run in Hl as (w5 & Hcore5 & Hl).
  apply run_bind_inv in Hrun as ([] & w6 & Hd & Hrun). apply context_run in Hd as (w7 & Hcore7 & Hd).
  assert (Hw4 : w4 = w5).
  { apply run_bind_inv in Hl as (x & w8 & [= <- <-] & Hl). destruct commitid as [sha|]; [|by injection Hl as ->].
    destruct (UploadAuth.get_one _ _) as [c|[]]; try done; [|by injection Hl as ->].
    apply run_bind_inv in Hl as (limit & w8 & [_ ->]%lift_inv & Hl). destruct (_ <? _); [done|by injection Hl as ->]. }
  subst w5. apply run_bind_inv in Hd as (x & w8 & [= <- <-] & Hd). case_bool_decide as Hdis; [done|].
  split_and!; [done..|]. injection Hcore0 as _ _ _ _ Hq0. injection Hcore3 as _ _ _ _ Hq3. injection Hcore5 as _ _ _ _ Hq5.
  injection Hcore7 as _ _ _ _ Hq7. congruence.
Qed.

Lemma od_of_list_elem {V} (l : list (pyval * V)) k v : od_get k (od_of_list l) = Some v -> (k, v) ∈ l.
Proof.
  unfold od_of_list. induction l as [|[k' v'] l IH] using rev_ind; [done|]. rewrite foldl_app. cbn.
  destruct (decide (k = k')) as [->|Hk].
  - rewrite od_get_set_eq. intros [= ->]. set_solver.
  - rewrite od_get_set_ne by done. intros Hg%IH. set_solver.
Qed.

Section recorded.
Variable json_dumps_std : pyval -> string.
Variable params : pyval.
Variable now : b64.
Variable today : string.
Variable uuid4 : Z -> string.
Variable storage_hash : ApiRepo -> string.
Variable commit_serializer : pyval -> option CommitData.
Variable upload_serializer : pyval -> option UploadData.

(** The rows of commits after a request: no second one of a commit. *)
Definition one_more_commit (r : ApiRepo) (sha : string) (w w' : ApiWorld) : Prop :=
  exists extra, xw_db w' = with_commits (commits_of w ++ extra) (xw_db w) /\ (existsb (is_commit r sha) (commits_of w) = true -> extra = []).

Lemma with_commits_same (d : ApiDb) : with_commits (db_commits d ++ []) d = d.
Proof. destruct d. unfold with_commits; cbn. by rewrite app_nil_r. Qed.

Lemma existsb_get_one {A} (p : A -> bool) l : existsb p l = true -> UploadAuth.get_one p l <> Err DoesNotExist.
Proof.
  intros (x & Hin & Hp)%existsb_exists. unfold UploadAuth.get_one. assert (In x (List.filter p l)) by by apply filter_In.
  by destruct (List.filter p l) as [|? [|]].
Qed.

Lemma create_commit_run r d e c w w' :
  create_commit r d e w = (inl c, w') ->
  (ar_active r && negb (ar_activated r) = false) /\ is_commit r (cd_commitid d) c = true /\ c ∈ commits_of w' /\
  one_more_commit r (cd_commitid d) w w' /\
  xw_reports w' = xw_reports w /\ xw_uploads w' = xw_uploads w /\ xw_flags w' = xw_flags w /\ xw_queue w' = xw_queue w.
Proof.
  unfold create_commit. intros ([] & w1 & Hv & Hrun)%run_bind_inv. apply context_run in Hv as (w0 & Hcore & Hv).
  unfold validate_activated_repo in Hv. destruct (ar_active r && negb (ar_activated r)); [done|]. injection Hv as ->. split; [done|].
  injection Hcore as Hdb Hr Hu Hf Hq. unfold CommitSerializer_create in Hrun. apply run_bind_inv in Hrun as (w2 & w3 & [= <- <-] & Hrun).
  unfold one_more_commit, commits_of in *. rewrite <- Hdb, <- Hr, <- Hu, <- Hf, <- Hq.
  destruct (UploadAuth.get_one _ _) as [c'|[]] eqn:Hg; try done.
  - apply run_bind_inv in Hrun as ([] & w4 & [= <-] & [= <- <-]). apply get_one_in in Hg as [Hin Hp]. split_and!; try done.
    exists []. split; [by rewrite with_commits_same|done].
  - apply run_bind_inv in Hrun as (id & w4 & [= <- <-] & Hrun). apply run_bind_inv in Hrun as ([] & w4 & [= <-] & Hrun).
    apply run_bind_inv in Hrun as ([] & w4 & [= <-] & [= <- <-]). cbn. split_and!; try done.
    + unfold is_commit; cbn. by rewrite Z.eqb_refl, bool_decide_eq_true_2.
    + set_solver.
    + eexists. split; [done|]. intros He%existsb_get_one. done.
Qed.

Lemma typed_report_id p : cp_id (typed_report p) = cp_id p.
Proof. unfold typed_report. by destruct (cp_report_type p). Qed.

Lemma create_report_run r c e p w w' :
  create_report uuid4 r c e w = (inl p, w') ->
  is_coverage_report c p = true /\ cp_report_type p = Some "coverage" /\ p ∈ xw_reports w' /\
  (existsb (is_coverage_report c) (xw_reports w) = true -> map cp_id (xw_reports w') = map cp_id (xw_reports w)) /\
  xw_db w' = xw_db w /\ xw_uploads w' = xw_uploads w /\ xw_flags w' = xw_flags w /\ xw_queue w' = xw_queue w.
Proof.
  unfold create_report. intros ([p' b] & w1 & Hc & Hrun)%run_bind_inv. apply run_bind_inv in Hrun as ([] & w2 & Ht & [= -> <-]).
  assert (Hcore : core w2 = core w1) by (destruct b; by injection Ht as <-).
  injection Hcore as -> -> -> -> ->. clear Ht w2. unfold CommitReportSerializer_create in Hc.
  apply run_bind_inv in Hc as (w2 & w3 & [= <- <-] & Hc). destruct (first_row _ _) as [q|] eqn:Hq.
  - apply first_row_in in Hq as [Hin Hp]. apply run_bind_inv in Hc as ([] & w2 & Hs & [= <- <- <-]).
    assert (Hty : is_coverage_report c (typed_report q) = true /\ cp_report_type (typed_report q) = Some "coverage").
    { unfold is_coverage_report, typed_report in *. apply andb_true_iff in Hp as [Hp Ht]. apply bool_decide_eq_true_1 in Ht.
      destruct (cp_report_type q) as [t|] eqn:Hq; cbn; [|by rewrite Hp, bool_decide_eq_true_2 by by right].
      destruct Ht as [|[= ->]]; [done|]. by rewrite Hp, bool_decide_eq_true_2 by by right. }
    destruct Hty as [Hcov Hty]. split; [done|]. split; [done|].
    case_bool_decide as Hnone; injection Hs as <-; cbn.
    + split_and!; try done.
      * apply list_elem_of_In, in_map_iff. exists q. split; [|by apply list_elem_of_In].
        by rewrite typed_report_id, Z.eqb_refl.
      * intros _. rewrite map_map. apply map_ext. intros x. destruct (Z.eqb_spec (cp_id x) (cp_id (typed_report q))); congruence.
    + split_and!; try done. unfold typed_report. by destruct (cp_report_type q).
  - apply run_bind_inv in Hc as (id & w2 & [= <- <-] & Hc). apply run_bind_inv in Hc as ([] & w2 & [= <-] & [= <- <- <-]). cbn.
    unfold is_coverage_report; cbn. rewrite Z.eqb_refl, !bool_decide_eq_true_2 by auto. split_and!; try done; [set_solver|].
    intros (x & Hx & Hp)%existsb_exists. pose proof (find_none _ _ Hq x Hx) as Hn. unfold is_coverage_report in Hn. congruence.
Qed.

Lemma flags_of_upload_run repoid existing names ids w w' :
  flags_of_upload repoid existing names w = (inl ids, w') ->
  exists more, xw_flags w' = xw_flags w ++ more /\
    xw_db w' = xw_db w /\ xw_reports w' = xw_reports w /\ xw_uploads w' = xw_uploads w /\ xw_queue w' = xw_queue w /\
    Forall2 (fun name i => od_get (VStr name) existing = Some i \/ mkRepositoryFlag i repoid (VStr name) ∈ more) names ids.
Proof.
  revert ids w. induction names as [|name names IH]; intros ids w Hrun; cbn in Hrun.
  - injection Hrun as <- <-. exists []. rewrite app_nil_r. split_and!; [done..|constructor].
  - apply run_bind_inv in Hrun as (i & w1 & Hi & Hrun). apply run_bind_inv in Hrun as (js & w2 & His & [= <- <-]).
    destruct (IH _ _ His) as (more & Hf & Hd & Hr & Hu & Hq & Hall). clear IH His.
    destruct (od_get (VStr name) existing) as [j|] eqn:Hg.
    + injection Hi as <- <-. exists more. split_and!; try done. constructor; [by left|done].
    + apply run_bind_inv in Hi as (k & w3 & [= <- <-] & Hi). apply run_bind_inv in Hi as ([] & w3 & [= <-] & [= <- <-]).
      cbn in *. exists ([mkRepositoryFlag (xw_seq w) repoid (VStr name)] ++ more). rewrite app_assoc. split_and!; try done.
      constructor; [right; set_solver|]. eapply Forall2_impl; [exact Hall|]. intros n j [?|?]; [by left|right; set_solver].
Qed.

(** The upload has every flag by its name. *)
Definition has_flags (repoid : Z) (names : list string) (rows : list RepositoryFlag) (s : ReportSession) : Prop :=
  forall name, name ∈ names -> exists f, f ∈ rows /\ rf_repository f = repoid /\ rf_name f = VStr name /\ rf_id f ∈ rs_flags s.

Lemma UploadSerializer_create_run repoid ext path p u s w w' :
  UploadSerializer_create repoid ext path p u w = (inl s, w') ->
  s ∈ xw_uploads w' /\ rs_report s = cp_id p /\ rs_state s = "started" /\ rs_storage_path s = path /\ rs_external_id s = ext /\
  has_flags repoid (ud_flags u) (xw_flags w') s /\
  xw_db w' = xw_db w /\ xw_reports w' = xw_reports w /\ xw_queue w' = xw_queue w.
Proof.
  unfold UploadSerializer_create. intros (id & w1 & [= <- <-] & Hrun)%run_bind_inv.
  apply run_bind_inv in Hrun as ([] & w1 & [= <-] & Hrun). apply run_bind_inv in Hrun as (existing & w1 & [= <- <-] & Hrun).
  apply run_bind_inv in Hrun as (ids & w1 & Hf & Hrun). apply run_bind_inv in Hrun as ([] & w2 & [= <-] & [= <- <-]).
  apply flags_of_upload_run in Hf as (more & Hf & Hd & Hr & Hu & Hq & Hall). cbn in *. split_and!; try done.
  - rewrite Hu. apply list_elem_of_In, in_map_iff. eexists (mkReportSession _ _ _ _ _ _ [] _ _ _ _ _). split; [|apply in_or_app; right; by left].
    cbn. by rewrite Z.eqb_refl.
  - intros name (k & Hk)%list_elem_of_lookup. destruct (Forall2_lookup_l _ _ _ _ _ Hall Hk) as (i & Hi & [Hg|Hm]).
    + apply od_of_list_elem in Hg. apply list_elem_of_In, in_map_iff in Hg as (f & [= Hn <-] & Hin). apply filter_In in Hin as [Hin Hrep%Z.eqb_eq].
      exists f. split_and!; try done; [rewrite Hf; apply elem_of_app; left; by apply list_elem_of_In|].
      apply elem_of_remove_dups. by eapply list_elem_of_lookup_2.
    + eexists. split; [rewrite Hf; apply elem_of_app; right; exact Hm|]. cbn. split_and!; try done.
      apply elem_of_remove_dups. by eapply list_elem_of_lookup_2.
Qed.

Definition upload_arguments (sha : string) (s : ReportSession) (p : CommitReport) : pyval :=
  VDict [("commit", VStr sha); ("upload_id", VInt (rs_id s)); ("version", VStr "v4"); ("reportid", VStr (cp_external_id p))].
Definition queue_of (r : ApiRepo) (sha : string) (w : ApiWorld) : list string :=
  list_at (upload_location (mkUploadContext (ar_repoid r) sha COVERAGE)) (aq_redis (xw_queue w)).

Lemma trigger_run r sha s p w w' :
  trigger_upload_task json_dumps_std params now r sha s p w = (inl tt, w') ->
  queue_of r sha w' = queue_of r sha w ++ [json_dumps_std (upload_arguments sha s p)] /\
  xw_db w' = xw_db w /\ xw_reports w' = xw_reports w /\ xw_uploads w' = xw_uploads w /\ xw_flags w' = xw_flags w.
Proof.
  unfold trigger_upload_task, on_queue. destruct (dispatch_upload_task _ _ _ _ _ _ _) as [[[]|] q] eqn:Hd; [|done]. intros [= <-].
  split_and!; try done. refine (dispatch_run _ _ _ _ _ COVERAGE sha _ _ _ Hd). done.
Qed.

(** The repository has a row that is active. *)
Definition is_activated (q : ApiRepo) : bool := ar_activated q && ar_active q && negb (ar_deleted q) && ar_coverage_enabled q.
Definition row_activated (r : ApiRepo) (w : ApiWorld) : Prop :=
  exists q, q ∈ db_repos (xw_db w) /\ ar_repoid q = ar_repoid r /\ is_activated q = true.

Lemma activate_run r w w' :
  r ∈ db_repos (xw_db w) -> activate_repo r w = (inl tt, w') ->
  row_activated r w' /\ commits_of w' = commits_of w /\ xw_reports w' = xw_reports w /\ xw_uploads w' = xw_uploads w /\
  xw_flags w' = xw_flags w /\ xw_queue w' = xw_queue w.
Proof.
  intros Hr. unfold activate_repo. fold (is_activated r). destruct (is_activated r) eqn:Ha; intros [= <-]; split_and!; try done.
  - by exists r.
  - exists (activated_row r). split_and!; [|done..]. cbn. apply list_elem_of_In, in_map_iff. exists r. rewrite Z.eqb_refl.
    split; [done|by apply list_elem_of_In].
Qed.

Lemma create_upload_run d r c p shelter e s w w' :
  r ∈ db_repos (xw_db w) ->
  create_upload json_dumps_std params now today uuid4 storage_hash d r c p shelter e w = (inl s, w') ->
  s ∈ xw_uploads w' /\ rs_report s = cp_id p /\ rs_state s = "started" /\ has_flags (ar_repoid r) (ud_flags d) (xw_flags w') s /\
  row_activated r w' /\ commits_of w' = commits_of w /\ xw_reports w' = xw_reports w /\
  queue_of r (ac_commitid c) w' = queue_of r (ac_commitid c) w ++ [json_dumps_std (upload_arguments (ac_commitid c) s p)].
Proof.
  intros Hin Hrun. unfold create_upload in Hrun. apply context_run in Hrun as (w0 & Hcore & Hrun).
  injection Hcore as Hdb Hr Hu Hf Hq. apply run_bind_inv in Hrun as (drawn & w1 & [= <- <-] & Hrun).
  apply run_bind_inv in Hrun as (s' & w1 & Hs & Hrun). apply UploadSerializer_create_run in Hs as (Hs & Hp & Hst & _ & _ & Hfl & Hdb1 & Hr1 & Hq1).
  apply run_bind_inv in Hrun as ([] & w2 & [= <-] & Hrun). apply run_bind_inv in Hrun as ([] & w2 & Ht & Hrun).
  apply run_bind_inv in Hrun as ([] & w3 & Ha & [= -> ->]). apply trigger_run in Ht as (Ht & Hdb2 & Hr2 & Hu2 & Hf2).
  cbn in *. apply activate_run in Ha as (Hact & Hc3 & Hr3 & Hu3 & Hf3 & Hq3); [|by rewrite Hdb2, Hdb1, Hdb].
  assert (Hqueue : forall w w', xw_queue w = xw_queue w' -> queue_of r (ac_commitid c) w = queue_of r (ac_commitid c) w') by by unfold queue_of; intros ? ? ->.
  split_and!; try done.
  - by rewrite Hu3, Hu2.
  - by rewrite Hf3, Hf2.
  - rewrite Hc3. unfold commits_of. by rewrite Hdb2, Hdb1, Hdb.
  - by rewrite Hr3, Hr2, Hr1, Hr.
  - rewrite (Hqueue _ _ Hq3), Ht. f_equal. apply Hqueue. cbn. by rewrite Hq1.
Qed.

Lemma crumb_run a b c d e w x w' : api_breadcrumb a b c d e w = (x, w') -> core w' = core w /\ x = inl tt.
Proof. by intros [= <- <-]. Qed.

Lemma get_repo_in db req r : get_repo db req = Ok r -> r ∈ db_repos db.
Proof.
  unfold get_repo. destruct (Service _); [|done]. cbn. destruct (get_repository_from_string _ _ _) as [[x|]|] eqn:Hx; try done.
  intros [= <-]. by apply repository_row in Hx as (o & ? & _).
Qed.

(** What an upload of coverage leaves behind. *)
Record upload_recorded (r : ApiRepo) (d : CommitData) (u : UploadData) (w w' : ApiWorld) : Prop := {
  was_not_deactivated : ar_active r && negb (ar_activated r) = false;
  recorded_rows : exists c p s,
    c ∈ commits_of w' /\ is_commit r (cd_commitid d) c = true /\ p ∈ xw_reports w' /\ is_coverage_report c p = true /\
    s ∈ xw_uploads w' /\ rs_report s = cp_id p /\ rs_state s = "started" /\ has_flags (ar_repoid r) (ud_flags u) (xw_flags w') s /\
    queue_of r (cd_commitid d) w' = queue_of r (cd_commitid d) w ++ [json_dumps_std (upload_arguments (cd_commitid d) s p)] /\
    (existsb (is_commit r (cd_commitid d)) (commits_of w) = true -> commits_of w' = commits_of w /\
      (existsb (is_coverage_report c) (xw_reports w) = true -> map cp_id (xw_reports w') = map cp_id (xw_reports w)));
  now_activated : row_activated r w';
}.

(** C33: When an uploader is answered 201, its request named a commit and an upload that the
    serializers accept, and that commit is there, with a report of coverage and with the
    upload, started and with every flag the request named; the repository is active, and the
    queue of that commit has one element more, with the number of the upload; a commit and a
    report that exist are used again.  A repository that was deactivated is not uploaded to. *)
Theorem upload_coverage_recorded req data (shelter : bool) w w' resp :
  upload_coverage json_dumps_std params now today uuid4 storage_hash commit_serializer upload_serializer req data shelter w = (inl resp, w') ->
  re_status resp = 201 ->
  exists r d u, get_repo (xw_db w) req = Ok r /\
    commit_serializer (of_body data ["branch"; "commitid"; "parent_commit_id"; "pullid"]) = Some d /\
    upload_serializer (of_body data (["ci_service"; "ci_url"; "env"; "flags"; "job_code"; "name"; "version"] ++
                                     (if shelter then ["storage_path"] else []))) = Some u /\
    upload_recorded r d u w w'.
Proof.
  unfold upload_coverage. destruct (commit_serializer _) as [d|] eqn:Hd; [|by intros [= <- _]]. intros Hrun Hstatus.
  apply run_bind_inv in Hrun as (r & w1 & Hr & Hrun). unfold view_repo in Hr. apply run_bind_inv in Hr as (w2 & w3 & [= <- <-] & Hr).
  apply lift_inv in Hr as [Hr ->]. apply run_bind_inv in Hrun as (c & w1 & Hc & Hrun).
  apply create_commit_run in Hc as (Hact & Hic & Hin & (extra & Hdb1 & Hextra) & Hr1 & Hu1 & Hf1 & Hq1).
  apply run_bind_inv in Hrun as ([] & w2 & [Hcore2 _]%crumb_run & Hrun). injection Hcore2 as Hdb2 Hr2 _ _ Hq2.
  destruct (negb (valid_code _)).
  { apply run_bind_inv in Hrun as ([] & w3 & _ & [= <- _]). done. }
  apply run_bind_inv in Hrun as (p & w3 & Hp & Hrun). apply create_report_run in Hp as (Hcov & _ & Hpin & Hids & Hdb3 & _ & _ & Hq3).
  destruct (upload_serializer _) as [u|] eqn:Hu.
  2: { apply run_bind_inv in Hrun as ([] & w4 & _ & [= <- _]). done. }
  apply run_bind_inv in Hrun as (s & w4 & Hs & Hrun). apply run_bind_inv in Hrun as ([] & w5 & [Hcore5 _]%crumb_run & [= _ ->]).
  injection Hcore5 as Hdb5 Hr5 Hu5 Hf5 Hq5.
  apply create_upload_run in Hs as (Hs & Hrep & Hst & Hfl & Hrow & Hc4 & Hr4 & Hq4).
  2: { rewrite Hdb3, Hdb2, Hdb1. cbn. by eapply get_repo_in. }
  assert (Hsha : ac_commitid c = cd_commitid d) by by unfold is_commit in Hic; apply andb_true_iff in Hic as [_ ?%bool_decide_eq_true_1].
  rewrite Hsha in Hq4. assert (Hcommits : commits_of w' = commits_of w1).
  { unfold commits_of in *. by rewrite Hdb5, Hc4, Hdb3, Hdb2. }
  exists r, d, u. split; [done|]. split; [done|]. split; [done|]. split; [done| |by unfold row_activated; rewrite Hdb5].
  exists c, p, s. rewrite Hcommits, Hr5, Hr4, Hu5, Hf5. split_and!; try done.
  - unfold queue_of in *. by rewrite Hq5, Hq4, Hq3, Hq2, Hq1.
  - intros Hex. rewrite (Hextra Hex) in Hdb1. split; [unfold commits_of; rewrite Hdb1; cbn; by rewrite app_nil_r|].
    rewrite <- Hr1, <- Hr2. exact Hids.
Qed.
End recorded.

(** ** A request *)

#[local] Existing Instance codec.

Definition example_body : odict string pyval :=
  [("commitid", VStr "0123456789abcdef0123456789abcdef01234567"); ("flags", VList [VStr "unit"; VStr "unit"])].
Definition example_commit_serializer (v : pyval) : option CommitData :=
  match dict_get v "commitid" VNone with Ok (VStr sha) => Some (mkCommitData sha None None None) | _ => None end.
Definition example_upload_serializer (v : pyval) : option UploadData :=
  match dict_get v "flags" VNone with
  | Ok (VList l) => Some (mkUploadData (omap (fun x => match x with VStr s => Some s | _ => None end) l) None VNone VNone VNone VNone VNone)
  | _ => None
  end.
Definition example_request : UploadRequest :=
  mkUploadRequest "/upload/github/codecov::::example/upload-coverage" "POST" None "" "github" "codecov::::example".
Definition example_world : ApiWorld := mkApiWorld example_tables [] [] [] [] (mkApiQueue no_keys []) [] [] 10.
Definition example_run (w : ApiWorld) : (Response + fault) * ApiWorld :=
  upload_coverage json_dumps (VDict []) (B64 false 1000 0) "2025-01-01" str_of_Z (fun _ => "hash") example_commit_serializer
    example_upload_serializer example_request example_body false w.

Lemma upload_coverage_recorded_witness :
  exists r d u, get_repo (xw_db example_world) example_request = Ok r /\ ud_flags u = ["unit"; "unit"] /\
    cd_commitid d = "0123456789abcdef0123456789abcdef01234567" /\
    upload_recorded json_dumps r d u example_world (example_run example_world).2.
Proof.
  destruct (upload_coverage_recorded json_dumps (VDict []) (B64 false 1000 0) "2025-01-01" str_of_Z (fun _ => "hash") example_commit_serializer
    example_upload_serializer example_request example_body false example_world (example_run example_world).2
    (mkResponse 201 [("external_id", VStr "11")])) as (r & d & u & Hr & Hd & Hu & Hrec); [vm_compute; reflexivity|reflexivity|].
  exists r, d, u. vm_compute in Hd, Hu. injection Hd as Hd. injection Hu as Hu.
  split; [exact Hr|]. split; [by subst u|]. split; [by subst d|exact Hrec].
Defined.

(** A flag that is named twice gets two rows. *)
Example flag_made_twice : map rf_name (xw_flags (example_run example_world).2) = [VStr "unit"; VStr "unit"].
Proof. vm_compute. reflexivity. Qed.

(** An upload that was only started is counted as a success. *)
Example started_upload_succeeds :
  (upload_completion example_request (Some "0123456789abcdef0123456789abcdef01234567") (example_run example_world).2).1 =
  inl (mkResponse 200 [("uploads_total", VInt 1); ("uploads_success", VInt 1); ("uploads_processing", VInt 0); ("uploads_error", VInt 0)]).
Proof. vm_compute. reflexivity. Qed.

Example branches :
  (determine_upload_branch_to_use (Some "pr/12/pull/34x") None "main", determine_upload_pr_to_use (Some "pr/12/pull/34x") None,
   determine_upload_branch_to_use None (Some "true") "main", determine_upload_pr_to_use None (Some "true")) = (None, Some 34, None, None).
Proof. vm_compute. reflexivity. Qed.
