(* ===== verification/Upload.v ===== *)
(** * [worker/services/report]: from a raw upload to its report

    The raw upload is parsed by the parser of its version ([parser/__init__.py],
    [parser/version_one.py]); each of its files is given to the first processor
    that recognizes it ([report_processor.py]); the reports of the files are
    merged, the smaller into the larger, and the session of the upload is added
    ([raw_upload_processor.py]).  The path fixer of the upload is shared by its
    files, so the fixer a file leaves is the one the next file starts from. *)
From S2P Require Import JsonCodec.
From S2P Require Export LegacyParser Fixes TextFormats Lcov GoCover Xcode Node XmlFormats Cobertura JvmFormats.
#[local] Open Scope string_scope.
#[local] Open Scope list_scope.

(** [etree.fromstring], and the number of children of an element. *)
Class EtreeParser `{Etree} : Type := {
  fromstring : string -> result (option elem);
  elem_length : elem -> nat;
}.

(** ** [report_processor.py] *)

(** What [report_type_matching] makes of a file. *)
Inductive parsed `{Etree} : Type :=
  | Txt (b : string) | Plist (b : string) | JsonDoc (v : pyval) | XmlDoc (e : elem).

(** A processor: whether it recognizes the file, and what it adds to the session. *)
Record processor : Type := mkProcessor {
  p_name : string;
  p_matches : result bool;
  p_process : ReportBuilderSession -> result ReportBuilderSession;
}.

Section processors.
Context `{OrJson, Etree, Timestring, PropertyList}.
Context {parser : EtreeParser}.
Variable cwd : string.

Definition report_type_matching (report : ParsedUploadedReportFile) (first_line : string) : result parsed :=
  let name := default "" (filename report) in
  let raw := contents report in
  if Xcode.matches_content first_line name then Ok (Txt raw)
  else if str_contains XcodePlist.plist_tag raw || endswith ".plist" name then Ok (Plist raw)
  else if bool_decide (raw = "") then Ok (Txt raw)
  else
    match json_loads raw with
    | Ok (VDict d) => Ok (JsonDoc (VDict d))
    | Ok (VList l) => Ok (JsonDoc (VList l))
    | Ok _ | Err JSONDecodeError | Err ValueError =>
        match fromstring raw with
        | Ok (Some e) => Ok (if (0 <? elem_length e)%nat then XmlDoc e else Txt raw)
        | Ok None | Err ValueError | Err XMLSyntaxError => Ok (Txt raw)
        | Err e => Err e
        end
    | Err e => Err e
    end.

Definition xml_processors (e : elem) : list processor := [
  mkProcessor "Bullseye" (Ok (Bullseye.matches_content e)) (Bullseye.from_xml cwd e);
  mkProcessor "SCoverage" (Ok (SCoverage.matches_content e)) (SCoverage.from_xml cwd e);
  mkProcessor "JetBrainsXML" (Ok (JetBrains.matches_content e)) (JetBrains.from_xml cwd e);
  mkProcessor "Clover" (Ok (Clover.matches_content e)) (Clover.from_xml cwd e);
  mkProcessor "Mono" (Ok (Mono.matches_content e)) (Mono.from_xml cwd e);
  mkProcessor "CSharp" (Ok (CSharp.matches_content e)) (CSharp.from_xml cwd e);
  mkProcessor "Jacoco" (Ok (Jacoco.matches_content e)) (Jacoco.from_xml cwd e);
  mkProcessor "Vb" (Ok (Vb.matches_content e)) (Vb.from_xml cwd e);
  mkProcessor "VbTwo" (Ok (VbTwo.matches_content e)) (VbTwo.from_xml cwd e);
  mkProcessor "Cobertura" (Ok (Cobertura.matches_content e)) (Cobertura.from_xml cwd e)].

Definition txt_processors (b first_line name : string) : list processor := [
  mkProcessor "Lcov" (Ok (Lcov.matches_content b)) (Lcov.from_txt cwd b);
  mkProcessor "Gcov" (Ok (TextFormats.matches_content b)) (TextFormats.from_txt cwd b);
  mkProcessor "Lua" (Ok (Lua.matches_content b)) (Lua.from_txt cwd b);
  mkProcessor "Gap" (Gap.matches_content (Bytes b) first_line) (Gap.process cwd (Bytes b));
  mkProcessor "DLST" (Ok (Dlst.matches_content b)) (Dlst.from_string cwd b);
  mkProcessor "Go" (Ok (GoCover.matches_content b first_line)) (GoCover.from_txt cwd b);
  mkProcessor "XCode" (Ok (Xcode.matches_content first_line name)) (Xcode.from_txt cwd b)].

Definition json_processors (v : pyval) (first_line : string) : list processor := [
  mkProcessor "Salesforce" (Salesforce.matches_content v) (Salesforce.from_json cwd v);
  mkProcessor "Elm" (Ok (Elm.matches_content v)) (Elm.from_json cwd v);
  mkProcessor "Rlang" (Ok (Rlang.matches_content v)) (Rlang.from_json cwd v);
  mkProcessor "Flowcover" (Ok (Flowcover.matches_content v)) (Flowcover.from_json cwd v);
  mkProcessor "VOne" (VOne.matches_content v) (VOne.process cwd v);
  mkProcessor "Scala" (Scala.matches_content v) (Scala.from_json cwd v);
  mkProcessor "Coveralls" (Coveralls.matches_content v) (Coveralls.from_json cwd v);
  mkProcessor "Simplecov" (Ok (Simplecov.matches_content v)) (Simplecov.from_json cwd v);
  mkProcessor "Gap" (Gap.matches_content (Json v) first_line) (Gap.process cwd (Json v));
  mkProcessor "PyCoverage" (PyCoverage.matches_content v) (PyCoverage.process cwd v);
  mkProcessor "Node" (Ok (Node.matches_content v)) (Node.from_json cwd v)].

Definition processors (p : parsed) (first_line name : string) : list processor :=
  match p with
  | Plist b => [mkProcessor "XCodePlist" (Ok (XcodePlist.matches_content b name)) (XcodePlist.from_xml cwd b)]
  | XmlDoc e => xml_processors e
  | Txt b => if String.eqb (str_last 11 b) "has no code" then [] else txt_processors b first_line name
  | JsonDoc v => if truthy v then json_processors v first_line else []
  end.

(** The first processor that recognizes the file. *)
Fixpoint first_match (ps : list processor) : result (option processor) :=
  match ps with
  | [] => Ok None
  | p :: ps' => b ← p_matches p; if (b : bool) then Ok (Some p) else first_match ps'
  end.

(** The fixer of the upload after a file. *)
Definition shared_fixer (b : ReportBuilder) : PathFixer := original_path_fixer (path_fixer b).

(** A corrupt file is ignored.  The only state it leaves is the tree of the fixer: the Go
    processor raises before it fixes a path, another one may have looked paths up. *)
Definition run_processor (p : processor) (builder : ReportBuilder) (filename : string)
    : result (option Report.t * PathFixer) :=
  match p_process p (create_report_builder_session builder filename) with
  | Ok s => Ok (Some (output_report s), shared_fixer (_report_builder s))
  | Err CorruptRawReportError =>
      if String.eqb (p_name p) "Go" || bool_decide (PathFixer.tree (shared_fixer builder) = None)
      then Ok (None, shared_fixer builder) else Err Unmodelled
  | Err e => Err e
  end.

Definition process_report (report : ParsedUploadedReportFile) (report_builder : ReportBuilder)
    : result (option Report.t * PathFixer) :=
  let report_filename := default "" (filename report) in
  line ← decode_replace (get_first_line report);
  let first_line := remove_non_ascii line in
  if str_contains "<classycle " (contents report) && str_contains "</classycle>" (contents report)
  then Ok (None, shared_fixer report_builder)
  else
    p ← report_type_matching report first_line;
    o ← first_match (processors p first_line report_filename);
    match o with
    | Some p => run_processor p report_builder report_filename
    | None => Ok (None, shared_fixer report_builder)
    end.
End processors.

(** ** [parser/types.py]: what the processing reads of a raw upload *)
Class RawReport (R : Type) : Type := {
  toc_of : R -> option (result (list string));
  env_of : R -> option (result string);
  get_uploaded_files : R -> list ParsedUploadedReportFile;
  fixes_of : R -> option (string -> PathFixer -> result (odict string ReportFile.ignore * PathFixer));
}.

(** The dictionary of a file, as [ReportFile] reads it. *)
Definition ignore_of (f : fixes) : ReportFile.ignore :=
  ReportFile.Ignore (inl <$> fx_eof f) (elements (default ∅ (fx_lines f))).

(** The builder looks up names; an entry under [None] is never found. *)
Definition ignored_of (d : odict (option string) fixes) : odict string ReportFile.ignore :=
  omap (M := list) (fun e => k ← e.1; Some (k, ignore_of e.2)) d.

#[export] Instance legacy_raw_report : RawReport ParsedRawReport := {
  toc_of r := if has_toc r then Some (get_toc r) else None;
  env_of r := if has_env r then Some (get_env r) else None;
  get_uploaded_files := uploaded_files;
  fixes_of r :=
    if has_report_fixes r then Some (fun cwd pf =>
      text ← decode_opt (report_fixes r);
      '(d, pf) ← get_fixes_from_raw cwd text pf; Ok (ignored_of d, pf))
    else None;
}.

(** ** [parser/version_one.py] *)

(** [zlib.decompress(base64.b64decode(data))]. *)
Class Compression : Type := { decompress : string -> result string }.

Record VersionOneParsedRawReport : Type := mkVersionOne {
  v1_toc : pyval;
  v1_uploaded_files : list ParsedUploadedReportFile;
  v1_report_fixes : pyval;
}.

Section version_one.
Context `{OrJson, Compression}.

(** Other formats leave the text as it is, where the processors take bytes. *)
Definition _parse_coverage_file_contents (coverage_file : pyval) : result string :=
  format ← get_item coverage_file "format";
  if bool_decide (format = VStr "base64+compressed") then
    data ← get_item coverage_file "data"; data ← as_str data; decompress data
  else Err Unmodelled.

Definition name_or_none (v : pyval) : result (option string) :=
  match v with VNone => Ok None | VStr s => Ok (Some s) | _ => Err Unmodelled end.

Definition _parse_single_coverage_file (coverage_file : pyval) : result ParsedUploadedReportFile :=
  actual_data ← _parse_coverage_file_contents coverage_file;
  name ← get_item coverage_file "filename"; name ← name_or_none name;
  labels ← get_item coverage_file "labels";
  labels ← match labels with VNone => Ok None | VList l => ls ← traverse as_str l; Ok (Some ls) | _ => Err Unmodelled end;
  Ok (mkUploaded name actual_data labels).

Definition v1_parse_raw_report_from_bytes (raw_report : string) : result VersionOneParsedRawReport :=
  data ← json_loads raw_report;
  toc ← get_item data "network_files";
  files ← get_item data "coverage_files"; files ← JsonFormats.iter files;
  files ← traverse _parse_single_coverage_file files;
  newer ← py_in "report_fixes" data;
  fixes ← get_item data (if (newer : bool) then "report_fixes" else "path_fixes");
  fixes ← get_item fixes "value";
  Ok (mkVersionOne toc files fixes).
End version_one.

(** An entry of the listing of this version: [eof] and [lines]. *)
Definition ignore_of_val (v : pyval) : result ReportFile.ignore :=
  eof ← dict_get v "eof" VNone;
  eof ← match eof with
        | VNone => Ok None | VInt z => Ok (Some (inl z)) | VStr s => Ok (Some (inr s)) | _ => Err Unmodelled
        end;
  ls ← dict_get v "lines" VNone;
  ls ← match ls with VNone => Ok [] | VList l => traverse Z_of_val l | _ => Err Unmodelled end;
  Ok (ReportFile.Ignore eof ls).

(** A file is looked up when it is made; all the entries are read here, and an entry of
    another shape is not modelled. *)
Definition ignored_of_val (v : pyval) : result (odict string ReportFile.ignore) :=
  match v with
  | VDict d => traverse (fun e => i ← ignore_of_val e.2; Ok (e.1, i)) d
  | _ => Err Unmodelled
  end.

#[export] Instance version_one_raw_report : RawReport VersionOneParsedRawReport := {
  toc_of r := match v1_toc r with
              | VNone => None
              | VList l => Some (traverse as_str l)
              | _ => Some (Err Unmodelled)
              end;
  env_of _ := None;
  get_uploaded_files := v1_uploaded_files;
  fixes_of r := match v1_report_fixes r with
                | VNone => None
                | v => Some (fun _ pf => d ← ignored_of_val v; Ok (d, pf))
                end;
}.

(** [parser/__init__.py]: the parser of an upload. *)
Inductive parser_kind : Set := LegacyReportParser | VersionOneReportParser.

(** [contents.strip()] on bytes. *)
Definition strip_bytes (b : string) : string :=
  let i := leading b in str_slice i (String.length b - leading (str_rev (str_drop i b))) b.

Definition get_proper_parser (upload_extras : pyval) (contents : string) : result parser_kind :=
  format ← (if truthy upload_extras then dict_get upload_extras "format_version" VNone else Ok VNone);
  let contents := strip_bytes contents in
  Ok (if bool_decide (format = VStr "v1") && startswith "{" contents && endswith "}" contents
      then VersionOneReportParser else LegacyReportParser).

(** ** [raw_upload_processor.py] *)

(** [dict(e.split("=", 1) for e in env.split("\n") if "=" in e)]. *)
Definition env_dict (env : string) : pyval :=
  VDict (foldl (fun d e => match partition "=" e with Some (k, v) => od_set k (VStr v) d | None => d end)
           [] (split nl env)).

Definition with_upload_id (id : Z) (s : Session) : Session :=
  mkSess (Some id) (se_totals s) (se_time s) (se_archive s) (se_flags s) (se_provider s) (se_build s) (se_job s)
    (se_url s) (se_state s) (se_env s) (se_name s) (se_type s) (se_extras s).
Definition with_env (env : pyval) (s : Session) : Session :=
  mkSess (se_id s) (se_totals s) (se_time s) (se_archive s) (se_flags s) (se_provider s) (se_build s) (se_job s)
    (se_url s) (se_state s) env (se_name s) (se_type s) (se_extras s).
Definition with_session_totals (t : ReportTotals) (s : Session) : Session :=
  mkSess (se_id s) (Some t) (se_time s) (se_archive s) (se_flags s) (se_provider s) (se_build s) (se_job s)
    (se_url s) (se_state s) (se_env s) (se_name s) (se_type s) (se_extras s).

(** [coverage/coverage.lcov] is skipped beside [coverage/coverage.json]. *)
Definition skip_files (files : list ParsedUploadedReportFile) : list string :=
  if existsb (fun f => bool_decide (filename f = Some "coverage/coverage.json")) files
  then ["coverage/coverage.lcov"] else [].

Definition is_skipped (skip : list string) (f : ParsedUploadedReportFile) : bool :=
  match filename f with Some n => bool_decide (n ∈ skip) | None => false end || bool_decide (contents f = "").

Section process.
Context `{OrJson, Etree, Timestring, PropertyList, Re, ReSearch}.
Context {parser : EtreeParser}.
Variable set_order : list string -> list string.
Variable cwd : string.

(** The merge of the reports of two files: the smaller into the larger. *)
Definition merge_file (report report_from_file : Report.t) : result Report.t :=
  if Report.is_empty report then Ok report_from_file
  else if (length (Report.r_files report) <? length (Report.r_files report_from_file))%nat
  then Report.merge report_from_file (Some report) true false
  else Report.merge report (Some report_from_file) true false.

(** The report of a file that is not skipped, when it has files; and the fixer after it. *)
Definition file_report (commit_yaml : pyval) (sessionid : Z) (ignored_lines : odict string ReportFile.ignore)
    (skip : list string) (path_fixer : PathFixer) (report_file : ParsedUploadedReportFile)
    : result (option Report.t * PathFixer) :=
  if is_skipped skip report_file then Ok (None, path_fixer)
  else
    fixer ← get_relative_path_aware_pathfixer path_fixer (filename report_file);
    '(o, path_fixer) ← process_report cwd report_file (mkBuilder commit_yaml sessionid ignored_lines fixer);
    match o with
    | Some report_from_file => Ok (if Report.is_empty report_from_file then None else Some report_from_file, path_fixer)
    | None => Ok (None, path_fixer)
    end.

Definition file_step (commit_yaml : pyval) (sessionid : Z) (ignored_lines : odict string ReportFile.ignore)
    (skip : list string) (st : Report.t * PathFixer) (report_file : ParsedUploadedReportFile)
    : result (Report.t * PathFixer) :=
  let '(report, path_fixer) := st in
  '(o, path_fixer) ← file_report commit_yaml sessionid ignored_lines skip path_fixer report_file;
  match o with
  | Some report_from_file => report ← merge_file report report_from_file; Ok (report, path_fixer)
  | None => Ok (report, path_fixer)
  end.

(** The session is added and then given the totals of the report it is in. *)
Definition finish (report : Report.t) (session : Session) : result Report.t :=
  if Report.is_empty report then Err ReportEmptyError
  else
    '(sessionid, report) ← Report.add_session report session true;
    totals ← Report.totals report;
    Ok (Report.with_sessions (od_set sessionid (with_session_totals totals session) (Report.r_sessions report)) report).

(** The session with its environment, the lines to ignore and the fixer. *)
Definition setup `{RawReport R} (commit_yaml : pyval) (raw_reports : R) (session : Session)
    : result (Session * odict string ReportFile.ignore * PathFixer) :=
  toc ← match toc_of raw_reports with Some toc => toc | None => Ok [] end;
  session ← match env_of raw_reports with
            | Some env => env ← env; Ok (with_env (env_dict env) session)
            | None => Ok session
            end;
  path_fixer ← init_from_user_yaml set_order commit_yaml toc (default [] (se_flags session));
  '(ignored_lines, path_fixer) ← match fixes_of raw_reports with
                                 | Some fixes => fixes cwd path_fixer
                                 | None => Ok ([], path_fixer)
                                 end;
  Ok (session, ignored_lines, path_fixer).

Definition process_raw_upload `{RawReport R} (commit_yaml : pyval) (raw_reports : R) (session : Session) : result Report.t :=
  '(session, ignored_lines, path_fixer) ← setup commit_yaml raw_reports session;
  let files := get_uploaded_files raw_reports in
  let sessionid := Report.next_session_number Report.empty in
  '(report, _) ← foldM (file_step commit_yaml sessionid ignored_lines (skip_files files)) (Report.empty, path_fixer) files;
  finish report (with_upload_id sessionid session).
End process.
