(* ===== verification/UploadSpec.v ===== *)
(** * What the processing of an upload promises

    Every processor returns a well-formed report whose lines belong to the
    session of the upload; the report of the upload has the files of the
    reports of its files, and each of its lines is the merge of theirs.  The
    invariant of each format comes first. *)
From S2P Require Export BuilderInv Upload.
From S2P Require Import JsonCodec.
From S2P Require Export ReportSpec.

(** * Every format builds a well-formed report

    The processors of an upload, a lemma each: from a session that keeps the
    invariant of [BuilderInv.v], the session a processor leaves keeps it. *)

#[local] Open Scope Z_scope.
#[local] Open Scope list_scope.

Section json.
Context `{OrJson, UploadId}.
Variable cwd : string.

Lemma keeps_salesforce v s : inv s -> keeps (Salesforce.from_json cwd v s).
Proof.
  intros Hs. unfold Salesforce.from_json, Salesforce.object_step, build_file, append_item, append_val. keep.
Qed.

Lemma keeps_elm v s : inv s -> keeps (Elm.from_json cwd v s).
Proof.
  intros Hs. unfold Elm.from_json, Elm.module_step, Elm.section_step, Elm.add, build_file. keep.
Qed.

Lemma keeps_rlang v s : inv s -> keeps (Rlang.from_json cwd v s).
Proof.
  intros Hs. unfold Rlang.from_json, Rlang.file_step, Rlang.line_step, build_file, append_val. keep.
Qed.

Lemma keeps_flowcover v s : inv s -> keeps (Flowcover.from_json cwd v s).
Proof.
  intros Hs. unfold Flowcover.from_json, Flowcover.file_step, Flowcover.loc_step, build_file. keep.
Qed.

Lemma keeps_vone v s : inv s -> keeps (VOne.process cwd v s).
Proof.
  intros Hs. unfold VOne.process, VOne.from_json, VOne.file_step, VOne.line_step, build_file. keep.
Qed.

Lemma keeps_scala v s : inv s -> keeps (Scala.from_json cwd v s).
Proof.
  intros Hs. unfold Scala.from_json, Scala.file_step, build_file, append_item, append_val. keep.
Qed.

Lemma keeps_coveralls v s : inv s -> keeps (Coveralls.from_json cwd v s).
Proof.
  intros Hs. unfold Coveralls.from_json, Coveralls.file_step, Coveralls.line_step, build_file, append_val. keep.
Qed.

Lemma keeps_simplecov v s : inv s -> keeps (Simplecov.from_json cwd v s).
Proof.
  intros Hs. unfold Simplecov.from_json, Simplecov.file_step, Simplecov.line_step, build_file, append_val. keep.
Qed.

Lemma keeps_pycoverage v s : inv s -> keeps (PyCoverage.process cwd v s).
Proof.
  intros Hs. unfold PyCoverage.process, PyCoverage.file_step, PyCoverage.line_step, build_file, append_val. keep.
Qed.

Lemma keeps_fix_in s path : inv s -> keeps (Dlst.fix_in cwd s path).
Proof. intros Hs. unfold Dlst.fix_in. eapply (keeps_bind (A := option string * _)); [trivial_inv|]. intros [o pf] _. by apply keeps_ok. Qed.
Hint Resolve keeps_fix_in : keep.

Lemma keeps_node_append s o ln c ty : inv s -> inv o -> keeps (Node.append_to s o ln c ty).
Proof. intros Hs Ho. unfold Node.append_to. keep. Qed.
Hint Resolve keeps_node_append : keep.

Lemma keeps_node_lines v s o : inv s -> inv o -> keeps (Node.file_lines v s o).
Proof.
  intros Hs Ho. unfold Node.file_lines, Node.jscoverage, Node.jscoverage_step, Node.covered_step, Node.statement_step,
    Node.branch_step, Node.function_step, Node.location_step. keep.
Qed.
Hint Resolve keeps_node_lines : keep.

Lemma keeps_node v s : inv s -> keeps (Node.from_json cwd v s).
Proof. intros Hs. unfold Node.from_json, Node.file_step, Node.fix_or_src. keep. Qed.
End json.

Section text.
Context `{OrJson, UploadId}.
Variable cwd : string.

(** The file of a Lua section, and a file of the report under its own name. *)
#[local] Instance inv_lua : Inv Lua.state := fun o => forall f b, o = Some (f, b) -> inv f.

Lemma inv_put_file s f : inv s -> inv f -> inv (Lua.put_file s f).
Proof.
  intros [Hid Hr] Hf. split; [done|]. cbn. destruct (inv_add_file _ _ Hr Hf) as (Wr & Hs & Hfs & He). by split_and!.
Qed.

Lemma keeps_append_held s f b : inv s -> inv f -> keeps (Lua.append_held s f b).
Proof.
  intros Hs Hf. unfold Lua.append_held. destruct b.
  - eapply keeps_bind; [by apply keeps_append_file; [apply inv_put_file|]|]. intros s' Hs'. apply keeps_ok. split; [done|].
    destruct (get_file _ _) as [g|] eqn:E; intros ? ? [= <- <-]; [|done]. by apply (inv_get_file s' (ReportFile.rf_name f)).
  - eapply (keeps_bind (A := bool * ReportBuilderSession)); [by apply keeps_append|]. intros [b s'] [_ Hs'].
    apply keeps_ok. split; [done|]. by intros ? ? [= <- <-].
Qed.

Lemma keeps_lua b s : inv s -> keeps (Lua.from_txt cwd b s).
Proof.
  intros Hs. unfold Lua.from_txt. eapply (keeps_bind (A := string)); [trivial_inv|]. intros text _.
  eapply (keeps_bind (A := ReportBuilderSession * Lua.state)); [|intros [s' o] [Hs' _]; by apply keeps_ok].
  apply keeps_foldM; [by split|]. intros [s1 o] doc [Hs1 Ho] _. unfold Lua.doc_step, Lua.source_line.
  case_bool_decide; [apply keeps_ok; by split|]. case_match.
  - eapply (keeps_bind (A := option ReportFile.t * ReportBuilderSession)); [by apply keeps_create_file|].
    intros [o' s2] [Ho' Hs2]. apply keeps_ok. split; [done|].
    destruct o' as [f|]; [|done]. intros ? ? [= <- <-]. by apply Ho'.
  - destruct o as [[f b']|]; [|apply keeps_ok; by split]. assert (Hf : inv f) by by eapply Ho.
    eapply (keeps_bind (A := ReportFile.t)); [keep|]. intros g Hg. by apply keeps_append_held.
Qed.

Lemma keeps_gap c s : inv s -> keeps (Gap.process cwd c s).
Proof. intros Hs. unfold Gap.process, Gap.from_string, Gap.line_step. keep. Qed.

Lemma keeps_dlst b s : inv s -> keeps (Dlst.from_string cwd b s).
Proof. intros Hs. unfold Dlst.from_string, Dlst.source_line, Dlst.fix_in. keep. Qed.

Lemma keeps_gcov b s : inv s -> keeps (TextFormats.from_txt cwd b s).
Proof. intros Hs. unfold TextFormats.from_txt, TextFormats.fixed_name, Dlst.fix_in, TextFormats.add_coverages. keep. Qed.

#[local] Instance inv_xcode : Inv xcode_state := fun x => inv (_file x).
Lemma inv_xcode_file x : inv x -> inv (_file x).
Proof. done. Qed.
Lemma inv_mkXcode o b : inv o -> inv (mkXcode o b).
Proof. done. Qed.
Lemma inv_xcode_some x f : inv x -> _file x = Some f -> inv f.
Proof. intros Hx. apply Hx. Qed.
Hint Resolve inv_xcode_file inv_mkXcode inv_xcode_some : keep.

Lemma keeps_xcode b s : inv s -> keeps (Xcode.from_txt cwd b s).
Proof. intros Hs. unfold Xcode.from_txt, Xcode.line_step, record. keep. Qed.

Lemma keeps_go b s : inv s -> keeps (GoCover.from_txt cwd b s).
Proof. intros Hs. unfold GoCover.from_txt, go_file, go_line. keep. Qed.

(** The file of an LCOV section. *)
#[local] Instance inv_lcov : Inv lcov_state := fun st => inv (Lcov._file st).

Lemma keeps_da s f content : inv s -> inv f -> keeps (da_record s f content).
Proof. intros Hs Hf. unfold da_record. keep. Qed.

Lemma inv_fn st content : inv st -> inv (fn_record st content).
Proof. intros Hst. unfold fn_record. repeat case_match; exact Hst. Qed.
Lemma inv_brda st f content : inv st -> inv (brda_record st f content).
Proof. intros Hst. unfold brda_record. repeat case_match; exact Hst. Qed.

Lemma keeps_lcov_line s st l : inv s -> inv st -> keeps (lcov_line cwd s st l).
Proof.
  intros Hs Hst. unfold lcov_line. eapply (keeps_bind (A := string)); [trivial_inv|]. intros text _.
  assert (Hok : forall st' : lcov_state, inv st' -> keeps (Ok (s, Some st'))).
  { intros st' Hst'. apply keeps_ok. split; [done | by apply inv_some]. }
  destruct (split1 ":" text) as [|mtd [|content [|? ?]]]; try by apply Hok. case_bool_decide; [by apply Hok|].
  case_bool_decide.
  - eapply (keeps_bind (A := option ReportFile.t * ReportBuilderSession)); [by apply keeps_create_file|].
    intros [o s'] [Ho Hs']. apply keeps_ok. split; [done | by apply inv_some].
  - destruct (Lcov._file st) as [f|] eqn:E; [|apply keeps_ok; split; [done | apply inv_none]].
    assert (Hf : inv f) by by apply Hst. case_bool_decide.
    + eapply (keeps_bind (A := ReportFile.t)); [by apply keeps_da|]. intros g Hg. apply keeps_ok.
      split; [done|]. apply inv_some. by apply (inv_some g).
    + repeat case_match; apply Hok; [by apply inv_fn | by apply inv_brda | done].
Qed.

Lemma keeps_lcov_lines ls : forall s st, inv s -> inv st -> keeps (lcov_lines cwd s st ls).
Proof.
  induction ls as [|l ls IH]; intros s st Hs Hst; cbn [lcov_lines]; [apply keeps_ok; split; [done | by apply inv_some]|].
  eapply keeps_bind; [by apply keeps_lcov_line|]. intros [s' [st'|]] [Hs' Hst'].
  - apply IH; [done | by apply Hst'].
  - apply keeps_ok. split; [done | apply inv_none].
Qed.

Lemma keeps_lcov b s : inv s -> keeps (Lcov.from_txt cwd b s).
Proof.
  intros Hs. unfold Lcov.from_txt. apply keeps_foldM; [done|]. intros s1 doc Hs1 _. unfold section_step, _process_file.
  eapply (keeps_bind (A := ReportBuilderSession * option ReportFile.t)); [|intros [s2 [f|]] [Hs2 Hf]; keep].
  eapply keeps_bind; [by apply keeps_lcov_lines; [|apply inv_none]|]. intros [s2 [st|]] [Hs2 Hst]; [|keep].
  destruct (Lcov._file st) as [f|] eqn:E; [|keep]. assert (Hf : inv f) by by apply (Hst st eq_refl).
  unfold branch_step. keep.
Qed.
End text.

Section xml.
Context `{OrJson, UploadId, Etree}.
Variable cwd : string.

Lemma keeps_append_all s files : inv s -> inv files -> keeps (append_all s files).
Proof. intros Hs Hf. unfold append_all. keep. Qed.
Lemma keeps_append_some s files : inv s -> inv files -> keeps (append_some s files).
Proof. intros Hs Hf. unfold append_some. keep. Qed.
Lemma keeps_file_for s files name : inv s -> inv files -> keeps (file_for cwd s files name).
Proof. intros Hs Hf. unfold file_for. keep. Qed.
Hint Resolve keeps_append_all keeps_append_some keeps_file_for : keep.

Lemma keeps_mono e s : inv s -> keeps (Mono.from_xml cwd e s).
Proof. intros Hs. unfold files_state, Mono.from_xml, Mono.method_step, Mono.statement_step. keep. Qed.

Lemma keeps_scoverage e s : inv s -> keeps (SCoverage.from_xml cwd e s).
Proof. intros Hs. unfold files_state, SCoverage.from_xml, SCoverage.statement_step, SCoverage.statement_line. keep. Qed.

Lemma keeps_register s (files : odict string ReportFile.t) id name :
  inv s -> inv files -> keeps (A := ReportBuilderSession * odict string ReportFile.t) (register cwd (s, files) id name).
Proof. intros Hs Hf. unfold register. keep. Qed.
Lemma keeps_add_range s f a b c : inv s -> inv f -> keeps (add_range s f a b c).
Proof. intros Hs Hf. unfold add_range. keep. Qed.
Hint Resolve keeps_register keeps_add_range : keep.

Lemma keeps_vb e s : inv s -> keeps (Vb.from_xml cwd e s).
Proof. intros Hs. unfold ids_state, Vb.from_xml, Vb.module_step, Vb.source_step, Vb.range_step. keep. Qed.
Lemma keeps_vb2 e s : inv s -> keeps (VbTwo.from_xml cwd e s).
Proof. intros Hs. unfold ids_state, VbTwo.from_xml, VbTwo.source_step, VbTwo.line_step. keep. Qed.
Lemma keeps_jetbrains e s : inv s -> keeps (JetBrains.from_xml cwd e s).
Proof. intros Hs. unfold ids_state, JetBrains.from_xml, JetBrains.file_step, JetBrains.statement_step. keep. Qed.
Lemma keeps_csharp e s : inv s -> keeps (CSharp.from_xml cwd e s).
Proof. intros Hs. unfold ids_state, CSharp.from_xml, CSharp.file_step, CSharp.method_step, CSharp.point_step. keep. Qed.

Context `{Timestring}.

Lemma keeps_bullseye e s : inv s -> keeps (Bullseye.from_xml cwd e s).
Proof. intros Hs. unfold Bullseye.from_xml, Bullseye.src_step, Bullseye.probe_step. keep. Qed.
Lemma keeps_clover e s : inv s -> keeps (Clover.from_xml cwd e s).
Proof. intros Hs. unfold Clover.from_xml, Clover.file_step, Clover.line_step. keep. Qed.
Lemma keeps_jacoco e s : inv s -> keeps (Jacoco.from_xml cwd e s).
Proof.
  intros Hs. unfold Jacoco.from_xml, Jacoco.package_step, Jacoco.source_step, Jacoco.line_step, Jacoco.try_to_fix_path,
    Jacoco.fixed_path. keep.
Qed.
Lemma keeps_cobertura e s : inv s -> keeps (Cobertura.from_xml cwd e s).
Proof.
  intros Hs. unfold Cobertura.from_xml, Cobertura.class_step, Cobertura.line_step, Cobertura.statement_step, Cobertura.fix_class.
  keep.
Qed.
End xml.

Section plist.
Context `{OrJson, UploadId, PropertyList}.
Variable cwd : string.

Lemma keeps_plist b s : inv s -> keeps (XcodePlist.from_xml cwd b s).
Proof.
  intros Hs. unfold XcodePlist.from_xml, XcodePlist.object_step, XcodePlist.source_step, XcodePlist.line_step. keep.
Qed.
End plist.

#[local] Open Scope string_scope.
#[local] Open Scope Z_scope.
#[local] Open Scope list_scope.

Section spec.
Context `{OrJson, Etree, Timestring, PropertyList}.
Context {parser : EtreeParser}.
Variable cwd : string.

Section one_upload.
Context `{UploadId}.

Lemma keeps_processors (p : parsed) first_line name q s :
  q ∈ processors cwd p first_line name -> inv s -> keeps (p_process q s).
Proof.
  intros Hq Hs. destruct p as [b|b|v|e]; cbn [processors] in Hq.
  - case_match; [by apply not_elem_of_nil in Hq|]. repeat (apply elem_of_cons in Hq as [->|Hq]);
      [by apply keeps_lcov | by apply keeps_gcov | by apply keeps_lua | by apply keeps_gap | by apply keeps_dlst
      | by apply keeps_go | by apply keeps_xcode | by apply not_elem_of_nil in Hq].
  - apply list_elem_of_singleton in Hq as ->. by apply keeps_plist.
  - case_match; [|by apply not_elem_of_nil in Hq]. repeat (apply elem_of_cons in Hq as [->|Hq]);
      [by apply keeps_salesforce | by apply keeps_elm | by apply keeps_rlang | by apply keeps_flowcover
      | by apply keeps_vone | by apply keeps_scala | by apply keeps_coveralls | by apply keeps_simplecov
      | by apply keeps_gap | by apply keeps_pycoverage | by apply keeps_node | by apply not_elem_of_nil in Hq].
  - repeat (apply elem_of_cons in Hq as [->|Hq]);
      [by apply keeps_bullseye | by apply keeps_scoverage | by apply keeps_jetbrains | by apply keeps_clover
      | by apply keeps_mono | by apply keeps_csharp | by apply keeps_jacoco | by apply keeps_vb | by apply keeps_vb2
      | by apply keeps_cobertura | by apply not_elem_of_nil in Hq].
Qed.

Lemma first_match_elem ps p : first_match ps = Ok (Some p) -> p ∈ ps.
Proof.
  induction ps as [|q ps IH]; cbn; [done|]. intros (b & _ & Hb)%bind_Ok_inv.
  destruct b; [injection Hb as <-; left | right; by apply IH].
Qed.

Lemma keeps_process_report report builder :
  sessionid builder = sid -> keeps (A := option Report.t * PathFixer) (process_report cwd report builder).
Proof.
  intros Hid. unfold process_report. eapply (keeps_bind (A := string)); [trivial_inv|]. intros text _.
  case_match; [apply keeps_ok; split; [apply inv_none | done]|].
  eapply (keeps_bind (A := parsed)); [trivial_inv|]. intros p _.
  intros a (o & Ho & Ha)%bind_Ok_inv. destruct o as [q|]; [|injection Ha as <-; split; [apply inv_none | done]].
  apply first_match_elem in Ho. revert a Ha. unfold run_processor.
  pose proof (keeps_processors _ _ _ _ (create_report_builder_session builder (default "" (filename report))) Ho
    (inv_create_session _ _ Hid)) as Hk.
  destruct (p_process q _) as [s|e]; intros a Ha.
  - injection Ha as <-. split; [|done]. apply inv_some. apply (Hk s eq_refl).
  - destruct e; try discriminate Ha. case_match; [|discriminate Ha]. injection Ha as <-. split; [apply inv_none | done].
Qed.

(** Reading a line of a file that keeps the invariant never fails. *)
Lemma inv_get f ln : inv f -> 1 <= ln -> exists o, ReportFile.get f ln = Ok o /\ inv o.
Proof.
  intros Hf Hln. assert (Hr := Hf). destruct Hr as (Hr & Hls & _).
  destruct (ReportFile.get f ln) as [o|e] eqn:E.
  - exists o. split; [done|]. by apply (keeps_get f ln Hf).
  - unfold ReportFile.get, ReportFile._lines in E. rewrite (proj2 (Z.ltb_ge _ _)) in E by lia.
    rewrite ReportFile.force_parsed in E by done. cbn [mbind result_bind] in E.
    destruct (_ !! _) as [s|] eqn:Es; [|done]. apply list_elem_of_lookup_2 in Es. apply Hls in Es.
    unfold ReportFile.read_slot in E. destruct s as [|t|l|l]; cbn in E; [done | | destruct Es | done].
    hnf in Es. by subst.
Qed.

Lemma inv_line_at r path ln : inv r -> 1 <= ln -> exists o, line_at r path ln = Ok o /\ inv o.
Proof.
  intros (_ & _ & Hfs & _) Hln. unfold line_at, line_in. destruct (Report.get r path) as [f|] eqn:E.
  - apply inv_get; [|done]. by eapply inv_od_get.
  - exists None. split; [done | apply inv_none].
Qed.
End one_upload.

(** C13: whatever the format of a file, the report its processor returns is well
    formed: it keeps each file under its name, has no sessions yet, and every line
    of it was made for the session of the upload, whose coverage it shows. *)
Theorem process_report_well_formed (report : ParsedUploadedReportFile) (builder : ReportBuilder) (r : Report.t)
    (pf : PathFixer) :
  process_report cwd report builder = Ok (Some r, pf) ->
  report_wf r /\ Report.r_sessions r = [] /\ ~ ("" ∈ Report.files r) /\
  forall path ln, 1 <= ln -> exists o, line_at r path ln = Ok o /\
    forall l, o = Some l -> exists s, rl_sessions l = [s] /\ ls_id s = sessionid builder /\ rl_coverage l = ls_coverage s.
Proof.
  intros Hp. pose (id := sessionid builder : UploadId).
  destruct (keeps_process_report report builder eq_refl _ Hp) as [Hr _]. specialize (Hr r eq_refl).
  pose proof Hr as (Wr & Hs & _ & He). split_and!; [done | done | done |]. intros path ln Hln.
  exact (inv_line_at r path ln Hr Hln).
Qed.
End spec.

(** ** The report of an upload *)

(** A line merged from the lines of the files, the larger report first at each step. *)
Inductive merged : list (option ReportLine) -> option ReportLine -> Prop :=
  | merged_one o : merged [o] o
  | merged_into os o a m : merged os a -> merge_line a o true false = Ok m -> merged (os ++ [o]) m
  | merged_swap os o a m : merged os a -> merge_line o a true false = Ok m -> merged (os ++ [o]) m.

Lemma merged_present os m : merged os m -> is_Some m <-> Exists is_Some os.
Proof.
  assert (Hm : forall a b m, merge_line a b true false = Ok m -> is_Some m <-> is_Some a \/ is_Some b).
  { intros [a|] [b|] c Hc; cbn in Hc.
    - apply bind_Ok_inv in Hc as (? & _ & Hc). apply bind_Ok_inv in Hc as (? & _ & Hc).
      apply bind_Ok_inv in Hc as (? & _ & [= <-]). split; [by left | by eexists].
    - injection Hc as <-. split; [by left | by eexists].
    - injection Hc as <-. split; [by right | by eexists].
    - injection Hc as <-. split; [by intros [? ?] | by intros [[? ?]|[? ?]]]. }
  induction 1 as [o|os o a m _ IH Ho|os o a m _ IH Ho].
  - rewrite Exists_cons, Exists_nil. tauto.
  - rewrite (Hm _ _ _ Ho), IH, Exists_app, Exists_cons, Exists_nil. tauto.
  - rewrite (Hm _ _ _ Ho), IH, Exists_app, Exists_cons, Exists_nil. tauto.
Qed.

#[local] Instance upload_id : UploadId := 0.

Section merging.
Context `{OrJson}.

Definition merge_parts (r : Report.t) (parts : list Report.t) : result Report.t := foldM merge_file r parts.

Lemma merge_inv r n : inv r -> inv n -> keeps (Report.merge r (Some n) true false).
Proof.
  intros Hr Hn. unfold Report.merge. case_match; [by apply keeps_ok|]. apply keeps_foldM; [done|].
  intros r1 f Hr1 Hf. unfold Report.merge_step. case_bool_decide; [by apply keeps_ok|].
  intros r2 ([b r3] & Ha & [= <-])%bind_Ok_inv. apply keeps_report_append in Ha as [_ Ha]; [done | done |].
  apply inv_some. destruct Hn as (_ & _ & Hfs & _). by apply (inv_od_vals _ Hfs).
Qed.

Lemma append_files r f j d b r' p :
  Report.append r (Some f) j d = Ok (b, r') -> p <> ReportFile.rf_name f \/ p ∈ Report.files r ->
  p ∈ Report.files r' <-> p ∈ Report.files r.
Proof.
  intros Ha Hp. unfold Report.append in Ha. apply bind_Ok_inv in Ha as (n & _ & Ha). case_match; [by injection Ha as _ <-|].
  case_bool_decide; [done|]. apply bind_Ok_inv in Ha as (fs & Hfs & [= _ <-]).
  assert (E : exists g, fs = od_set (ReportFile.rf_name f) g (Report.r_files r)).
  { destruct (od_get _ _); [|injection Hfs as <-; by eexists]. apply bind_Ok_inv in Hfs as ([? g] & _ & [= <-]). by eexists. }
  destruct E as [g ->]. unfold Report.files in *. cbn [Report._invalidate_caches Report.with_files Report.r_files].
  rewrite <- !od_mem_keys in *. unfold od_mem in *. cbn. destruct (decide (p = ReportFile.rf_name f)) as [->|Hn].
  - rewrite od_get_set_eq. destruct Hp as [|Hp]; [done|]. by rewrite Hp.
  - by rewrite od_get_set_ne.
Qed.

Lemma merge_files r n j d r' p :
  Report.merge r (Some n) j d = Ok r' -> report_wf n ->
  (p ∈ Report.files r -> p ∈ Report.files r') /\ (p ∈ Report.files r' -> p ∈ Report.files r \/ p ∈ Report.files n).
Proof.
  intros Hm Wn. unfold Report.merge in Hm. case_match; [injection Hm as <-; split; [done | by left]|].
  assert (Hk : forall q, q ∈ ReportFile.rf_name <$> od_vals (Report.r_files n) -> q ∈ Report.files n) by by rewrite names_keys.
  revert Hk Hm. generalize (od_vals (Report.r_files n)) as fs. intros fs. revert r.
  induction fs as [|f fs IH]; intros r Hk Hm; cbn [foldM] in Hm; [injection Hm as <-; split; [done | by left]|].
  apply bind_Ok_inv in Hm as (r1 & Hs & Hm).
  assert (Hstep : (p ∈ Report.files r -> p ∈ Report.files r1) /\
    (p ∈ Report.files r1 -> p ∈ Report.files r \/ p ∈ Report.files n)).
  { unfold Report.merge_step in Hs. case_bool_decide; [injection Hs as <-; split; [done | by left]|].
    apply bind_Ok_inv in Hs as ([b r2] & Ha & [= <-]). pose proof (append_files _ _ _ _ _ _ p Ha) as Hp. split.
    - intros Hin. apply Hp; [by right | done].
    - intros Hin. destruct (decide (p = ReportFile.rf_name f)) as [->|Hn]; [right; apply Hk; left | left; apply Hp; [by left | done]]. }
  destruct (IH r1) as [Hto Hfrom]; [intros q Hq; apply Hk; by right | done |]. split; [tauto|].
  intros Hin. destruct (Hfrom Hin); tauto.
Qed.

Lemma is_empty_files r : Report.is_empty r = false <-> exists p, p ∈ Report.files r.
Proof.
  unfold Report.is_empty, Report.files, od_keys. destruct (Report.r_files r) as [|[k f] fs]; cbn.
  - split; [done | intros [p Hp]; by apply not_elem_of_nil in Hp].
  - split; [exists k; left | done].
Qed.

(** A step of the merge, on a report that is not empty. *)
Lemma merge_file_run r q r' :
  merge_file r q = Ok r' -> inv r -> inv q -> Report.is_empty r = false ->
  inv r' /\ Report.is_empty r' = false /\
  (forall p, p ∈ Report.files r' -> p ∈ Report.files r \/ p ∈ Report.files q) /\
  (forall path ln, plain_name path -> 1 <= ln -> exists a b m,
     line_at r path ln = Ok a /\ line_at q path ln = Ok b /\ line_at r' path ln = Ok m /\
     (merge_line a b true false = Ok m \/ merge_line b a true false = Ok m)).
Proof.
  unfold merge_file. intros Hm Hr Hq He. rewrite He in Hm. pose proof (proj1 Hr) as Wr. pose proof (proj1 Hq) as Wq.
  pose proof He as [p0 Hp0]%is_empty_files. destruct (length _ <? length _)%nat eqn:Hlt.
  - pose proof (merge_inv _ _ Hq Hr _ Hm) as Hr'. split; [done|]. split.
    { apply Nat.ltb_lt in Hlt. destruct (Report.r_files q) as [|[k f] fs] eqn:Eq; [cbn in Hlt; lia|].
      apply is_empty_files. exists k. apply (merge_files _ _ _ _ _ k Hm Wr). unfold Report.files. rewrite Eq. left. }
    split; [intros p Hp; apply (merge_files _ _ _ _ _ p Hm Wr) in Hp; tauto|].
    intros path ln Hp Hln. destruct (inv_line_at r path ln Hr Hln) as (a & Ha & _), (inv_line_at q path ln Hq Hln) as (b & Hb & _),
      (inv_line_at r' path ln Hr' Hln) as (m & Hm' & _). exists a, b, m. split_and!; [done..|]. right.
    rewrite (merge_lines _ _ _ _ _ path ln Hm Wq Wr (fun _ => Hp) Hln), Ha, Hb in Hm'. exact Hm'.
  - pose proof (merge_inv _ _ Hr Hq _ Hm) as Hr'. split; [done|]. split.
    { apply is_empty_files. exists p0. by apply (merge_files _ _ _ _ _ p0 Hm Wq). }
    split; [intros p; apply (merge_files _ _ _ _ _ p Hm Wq)|].
    intros path ln Hp Hln. destruct (inv_line_at r path ln Hr Hln) as (a & Ha & _), (inv_line_at q path ln Hq Hln) as (b & Hb & _),
      (inv_line_at r' path ln Hr' Hln) as (m & Hm' & _). exists a, b, m. split_and!; [done..|]. left.
    rewrite (merge_lines _ _ _ _ _ path ln Hm Wr Wq (fun _ => Hp) Hln), Ha, Hb in Hm'. exact Hm'.
Qed.

(** What the merged report is, from the report of the first file on. *)
Definition merge_of (parts : list Report.t) (r : Report.t) : Prop :=
  inv r /\ Report.is_empty r = false /\
  (forall p, p ∈ Report.files r -> exists q, q ∈ parts /\ p ∈ Report.files q) /\
  (forall path ln, plain_name path -> 1 <= ln -> exists os m,
     Forall2 (fun q o => line_at q path ln = Ok o) parts os /\ merged os m /\ line_at r path ln = Ok m).

Lemma merge_of_snoc parts r q r' :
  merge_of parts r -> inv q -> merge_file r q = Ok r' -> merge_of (parts ++ [q]) r'.
Proof.
  intros (Hr & He & Hfs & Hls) Hq Hm. destruct (merge_file_run _ _ _ Hm Hr Hq He) as (Hr' & He' & Hfs' & Hls').
  split_and!; [done | done | |].
  - intros p [Hp|Hp]%Hfs'.
    + destruct (Hfs p Hp) as (q' & Hq' & Hin). exists q'. split; [set_solver | done].
    + exists q. split; [set_solver | done].
  - intros path ln Hp Hln. destruct (Hls path ln Hp Hln) as (os & a & Hos & Hmerged & Ha).
    destruct (Hls' path ln Hp Hln) as (a' & b & m & Ha' & Hb & Hm' & Hor). rewrite Ha in Ha'. injection Ha' as <-.
    exists (os ++ [b]), m. split_and!; [apply Forall2_app; [done | by constructor] | | done].
    destruct Hor; [by eapply merged_into | by eapply merged_swap].
Qed.

Lemma merge_of_one q : inv q -> Report.is_empty q = false -> merge_of [q] q.
Proof.
  intros Hq He. split_and!; [done | done | |].
  - intros p Hp. exists q. split; [left | done].
  - intros path ln _ Hln. destruct (inv_line_at q path ln Hq Hln) as (o & Ho & _).
    exists [o], o. split_and!; [by constructor | constructor | done].
Qed.

Lemma merge_parts_run parts r :
  Forall (fun q => inv q /\ Report.is_empty q = false) parts -> merge_parts Report.empty parts = Ok r ->
  (parts = [] /\ r = Report.empty) \/ merge_of parts r.
Proof.
  revert r. induction parts as [|q parts IH] using rev_ind; intros r Hall Hm; [left; by injection Hm as <- |].
  right. unfold merge_parts in Hm. rewrite foldM_app in Hm. apply bind_Ok_inv in Hm as (r1 & Hr1 & Hm).
  cbn [foldM] in Hm. apply bind_Ok_inv in Hm as (r2 & Hr2 & [= <-]).
  apply Forall_app in Hall as [Hall [[Hq He] _]%Forall_cons].
  destruct (IH r1 Hall Hr1) as [[-> ->]|Hof]; [|by eapply merge_of_snoc].
  injection Hr2 as <-. by apply merge_of_one.
Qed.
End merging.

Section upload.
Context `{OrJson, Etree, Timestring, PropertyList, Re, ReSearch}.
Context {parser : EtreeParser}.
Variable set_order : list string -> list string.
Variable cwd : string.
Context `{RawReport R}.
Variables (commit_yaml : pyval) (ignored_lines : odict string ReportFile.ignore) (skip : list string).

(** The reports of the files of an upload, in order, those without files left out. *)
Fixpoint file_reports (pf : PathFixer) (files : list ParsedUploadedReportFile) : result (list Report.t * PathFixer) :=
  match files with
  | [] => Ok ([], pf)
  | f :: files' =>
      '(o, pf) ← file_report cwd commit_yaml 0 ignored_lines skip pf f;
      '(parts, pf) ← file_reports pf files';
      Ok (match o with Some r => r :: parts | None => parts end, pf)
  end.

Lemma file_report_inv pf f o pf' :
  file_report cwd commit_yaml 0 ignored_lines skip pf f = Ok (o, pf') ->
  forall r, o = Some r -> inv r /\ Report.is_empty r = false.
Proof.
  unfold file_report. case_match; [by intros [= <- _]|]. intros (fixer & _ & Hf)%bind_Ok_inv.
  apply bind_Ok_inv in Hf as ([o1 pf1] & Hp & Hf). destruct o1 as [r1|]; [|by injection Hf as <- _].
  injection Hf as <- _. destruct (Report.is_empty r1) eqn:E; [done|]. intros r [= <-]. split; [|done].
  destruct (keeps_process_report cwd f (mkBuilder commit_yaml 0 ignored_lines fixer) eq_refl _ Hp) as [Hr _]. by apply Hr.
Qed.

(** The loop is the merge of the reports of the files. *)
Lemma file_steps_merge files : forall r pf r' pf',
  foldM (file_step cwd commit_yaml 0 ignored_lines skip) (r, pf) files = Ok (r', pf') ->
  exists parts, file_reports pf files = Ok (parts, pf') /\ merge_parts r parts = Ok r' /\
    Forall (fun q => inv q /\ Report.is_empty q = false) parts.
Proof.
  induction files as [|f files IH]; intros r pf r' pf' Hf; cbn [foldM] in Hf.
  - injection Hf as <- <-. by exists [].
  - apply bind_Ok_inv in Hf as ([r1 pf1] & Hstep & Hf). unfold file_step in Hstep.
    apply bind_Ok_inv in Hstep as ([o pf2] & Ho & Hstep). cbn [file_reports]. rewrite Ho. cbn [mbind result_bind].
    destruct o as [q|].
    + apply bind_Ok_inv in Hstep as (r2 & Hr2 & [= -> ->]). destruct (IH _ _ _ _ Hf) as (parts & -> & Hm & Hall).
      exists (q :: parts). split_and!; [done | unfold merge_parts; cbn [foldM]; by rewrite Hr2 |].
      constructor; [|done]. by eapply file_report_inv.
    + injection Hstep as -> ->. destruct (IH _ _ _ _ Hf) as (parts & -> & Hm & Hall). by exists parts.
Qed.
End upload.

Section process.
Context `{OrJson, Etree, Timestring, PropertyList, Re, ReSearch}.
Context {parser : EtreeParser}.
Variable set_order : list string -> list string.
Variable cwd : string.
Context `{RawReport R}.

(** C12: a processed upload has one session, number 0, with the totals of the report;
    its files are files of the reports of the uploaded files, and each line of a file
    that has a name and is not a Ruby ([.rb]) one is the lines of those reports merged, whichever report
    was merged into which. *)
Theorem process_raw_upload_correct (commit_yaml : pyval) (raw_reports : R) (session : Session) (r : Report.t) :
  process_raw_upload set_order cwd commit_yaml raw_reports session = Ok r ->
  exists session' ignored_lines pf parts pf' totals,
    setup set_order cwd commit_yaml raw_reports session = Ok (session', ignored_lines, pf) /\
    file_reports cwd commit_yaml ignored_lines (skip_files (get_uploaded_files raw_reports)) pf
      (get_uploaded_files raw_reports) = Ok (parts, pf') /\
    parts <> [] /\ Report.totals r = Ok totals /\
    Report.r_sessions r = [(0, with_session_totals totals (with_upload_id 0 session'))] /\
    (forall p, p ∈ Report.files r -> exists q, q ∈ parts /\ p ∈ Report.files q) /\
    (forall path ln, plain_name path -> 1 <= ln -> exists os m,
       Forall2 (fun q o => line_at q path ln = Ok o) parts os /\ merged os m /\ line_at r path ln = Ok m).
Proof.
  unfold process_raw_upload. intros ([[session' ignored_lines] pf] & Hs & Hr)%bind_Ok_inv.
  apply bind_Ok_inv in Hr as ([r0 pf'] & Hf & Hr). change (Report.next_session_number Report.empty) with 0 in *.
  apply file_steps_merge in Hf as (parts & Hparts & Hm & Hall).
  unfold finish in Hr. destruct (Report.is_empty r0) eqn:He; [done|].
  apply merge_parts_run in Hm as [[-> ->]|(Hr0 & _ & Hfs & Hls)]; [done | | done].
  apply bind_Ok_inv in Hr as ([n r1] & Ha & Hr). apply bind_Ok_inv in Hr as (totals & Ht & [= <-]).
  apply add_session_run with (i := 0) in Ha as (-> & Hss & Hf1); [|done].
  destruct Hr0 as (Wr & Hr0 & _). rewrite Hr0 in Hss. cbn in Hss.
  exists session', ignored_lines, pf, parts, pf', totals. split_and!; [done | done | | | | |].
  - intros ->. destruct (proj1 (is_empty_files r0) He) as [p Hp]. by destruct (Hfs p Hp) as (q & Hq%not_elem_of_nil & _).
  - unfold Report.totals, Report._process_totals, Report.with_sessions in *. cbn in *. rewrite Hss in *. exact Ht.
  - cbn. rewrite Hss. reflexivity.
  - intros p Hp. apply Hfs. unfold Report.files in *. cbn in Hp. by rewrite Hf1 in Hp.
  - intros path ln Hp Hln. destruct (Hls path ln Hp Hln) as (os & m & Hos & Hmg & Hm'). exists os, m.
    split_and!; [done | done |]. unfold line_at, Report.get in *. cbn. by rewrite Hf1.
Qed.

(** An upload none of whose files has a report is refused as empty. *)
Theorem process_raw_upload_empty (commit_yaml : pyval) (raw_reports : R) (session session' : Session)
    (ignored_lines : odict string ReportFile.ignore) (pf pf' : PathFixer) :
  setup set_order cwd commit_yaml raw_reports session = Ok (session', ignored_lines, pf) ->
  file_reports cwd commit_yaml ignored_lines (skip_files (get_uploaded_files raw_reports)) pf
    (get_uploaded_files raw_reports) = Ok ([], pf') ->
  process_raw_upload set_order cwd commit_yaml raw_reports session = Err ReportEmptyError.
Proof.
  intros Hs Hf. unfold process_raw_upload. rewrite Hs. cbn [mbind result_bind].
  change (Report.next_session_number Report.empty) with 0.
  assert (Hrun : forall files pf pf' r, file_reports cwd commit_yaml ignored_lines (skip_files (get_uploaded_files raw_reports)) pf files = Ok ([], pf') ->
    foldM (file_step cwd commit_yaml 0 ignored_lines (skip_files (get_uploaded_files raw_reports))) (r, pf) files = Ok (r, pf')).
  { clear. induction files as [|f files IH]; intros pf pf' r Hf; cbn [file_reports] in Hf; [by injection Hf as <-|].
    apply bind_Ok_inv in Hf as ([o pf1] & Ho & Hf). apply bind_Ok_inv in Hf as ([parts pf2] & Hp & Hf).
    destruct o as [q|]; [done|]. injection Hf as -> ->.
    assert (E : file_step cwd commit_yaml 0 ignored_lines (skip_files (get_uploaded_files raw_reports)) (r, pf) f = Ok (r, pf1))
      by (unfold file_step; by rewrite Ho).
    cbn [foldM]. rewrite E. by apply IH. }
  by rewrite (Hrun _ _ _ _ Hf).
Qed.
End process.

(** ** Examples: an upload of two Go profiles and an empty file *)
Definition no_xml : @EtreeParser tree_etree := {| fromstring _ := Err XMLSyntaxError; elem_length _ := 0%nat |}.
Definition no_plist : PropertyList := {| plist_loads _ := Err ValueError |}.
Definition example_profile (hits : string) : ParsedUploadedReportFile :=
  mkUploaded None ("mode: count" +:+ nl +:+ "a.go:1.1,3.9 2 " +:+ hits +:+ nl) None.
Definition example_upload_files : ParsedRawReport :=
  mkRaw None (Some "CI=true") [example_profile "0"; mkUploaded (Some "empty.txt") "" None; example_profile "3"] None.
Definition run_example (u : ParsedRawReport) : result Report.t :=
  process_raw_upload (H := codec) (H0 := tree_etree) (H1 := number_dates) (H2 := no_plist) (H3 := literal_re)
    (H4 := literal_search) (parser := no_xml) id "/" empty_dict u (example_session []).

Lemma process_raw_upload_correct_witness : exists r parts os m,
  run_example example_upload_files = Ok r /\ length parts = 2%nat /\
  Forall2 (fun q o => line_at (H := codec) q "a.go" 2 = Ok o) parts os /\ merged os m /\
  line_at (H := codec) r "a.go" 2 = Ok m /\ is_Some m.
Proof.
  destruct (run_example example_upload_files) as [r|e] eqn:E; [|by vm_compute in E].
  destruct (process_raw_upload_correct (H := codec) (H0 := tree_etree) (H1 := number_dates) (H2 := no_plist)
    (H3 := literal_re) (H4 := literal_search) (parser := no_xml) id "/" empty_dict example_upload_files (example_session []) r E)
    as (session' & ig & pf & parts & pf' & totals & Hs & Hp & _ & _ & _ & _ & Hls).
  vm_compute in Hs. injection Hs as <- <- <-. vm_compute in Hp. injection Hp as <- <-.
  destruct (Hls "a.go" 2 ltac:(split; [discriminate | reflexivity]) ltac:(lia)) as (os & m & Hos & Hm & Hl).
  eexists r, _, os, m. split; [done|]. split; [|split; [exact Hos | split; [exact Hm | split; [exact Hl|]]]]; [done|].
  vm_compute in E. injection E as <-. vm_compute in Hl. injection Hl as <-. by eexists.
Defined.

Lemma process_raw_upload_empty_witness :
  run_example (mkRaw None None [mkUploaded (Some "empty.txt") "" None] None) = Err ReportEmptyError.
Proof.
  eapply (process_raw_upload_empty (H := codec) (H0 := tree_etree) (H1 := number_dates) (H2 := no_plist)
    (H3 := literal_re) (H4 := literal_search) (parser := no_xml)); vm_compute; reflexivity.
Defined.

Lemma process_report_well_formed_witness : exists r o,
  line_at (H := codec) r "a.go" 2 = Ok (Some o) /\ exists s, rl_sessions o = [s] /\ ls_id s = 7.
Proof.
  pose (b := mkBuilder empty_dict 7 [] (mkBase [] example_fixer [])).
  destruct (process_report (H := codec) (H0 := tree_etree) (H1 := number_dates) (H2 := no_plist) (parser := no_xml)
    "/" (example_profile "3") b) as [[[r|] pf]|e] eqn:E; [|by vm_compute in E..].
  destruct (process_report_well_formed (H := codec) (H0 := tree_etree) (H1 := number_dates) (H2 := no_plist)
    (parser := no_xml) "/" (example_profile "3") b r pf E) as (_ & _ & _ & Hl).
  destruct (Hl "a.go" 2 ltac:(lia)) as (o & Ho & Hs). destruct o as [l|].
  - exists r, l. split; [exact Ho|]. destruct (Hs l eq_refl) as (s & Hs1 & Hs2 & _). by exists s.
  - vm_compute in E. injection E as <- <-. by vm_compute in Ho.
Defined.
